(* ===== verification/_CoqProject ===== *)
-Q . S2P
Prelude.v
Bytes.v
ExceptionCodes.v
CoreTypes.v
Crypto.v
Base58.v
CryptoSuite.v
Utils.v
Dynamic.v
Keys.v
Mnemonics.v
Srp.v
Tickets.v
Tls.v
TlsClient.v
Sessions.v
Encryptors.v
Dio.v
FieldData.v
ContentData.v
ContainerData.v
EncKeys.v
KeyProvider.v
Containers.v
FileMetaData.v
ChunkCrypto.v
HmacList.v
StoreServer.v
ChunkProvider.v
ChunkReader.v
FileHandler.v
FileWrite.v
FileRefine.v
FileIO.v
FileHandle.v
Upload.v
StoreExamples.v
StdMap.v
Handles.v
Subscriptions.v
SubscriberImpls.v
Users.v
EventQueue.v
Executor.v
ExecutorRuns.v
Managed.v
Legacy.v
Policies.v
Items.v
Modules.v
Validators.v
CryptoApi.v
ContainerFlow.v
CustomEvents.v
EventFlow.v
ContentItems.v
Kvdbs.v
Threads.v
Stores.v
Files.v
StoreFiles.v
StoreFlow.v
ThreadMessages.v
InboxData.v
InboxEntries.v
Inboxes.v
InboxSend.v
InboxFlow.v
ModuleEvents.v
ThreadEvents.v
StoreEvents.v
InboxEvents.v
ContentFlow.v
KvdbFlow.v
ThreadExamples.v
MessageExamples.v
KvdbExamples.v
StoreFileExamples.v
InboxExamples.v
EventExamples.v
