(* ===== verification/Prelude.v ===== *)
(** * PrivMX Endpoint: a verification library

    PrivMX Endpoint is the client of an end-to-end encrypted collaboration
    server, the Bridge.  The server stores and forwards what clients send; the
    clients encrypt, sign and check.  This library models the client's own
    logic, from the bytes of its ciphers to the operations an application
    calls, and proves what that logic achieves against a server that is trusted
    with nothing but storage.  This file is its root: it holds the vocabulary
    all others share, and this text describes the whole.

    ** How the program is put together

    - crypto/base, crypto/driver: composite ciphers, key derivation, ECIES, SRP,
      key texts, extended keys, mnemonics, over a driver's primitives;
    - rpc/base: a record layer of its own making (frames, tickets, handshakes),
      the client of one request, the authorized connection that keeps a session
      of tickets and a websocket; privfs adds the gateway on top;
    - endpoint/core: formats of signed and sealed fields, integrity objects,
      container keys, caches, users, policies, subscriptions, the event queue,
      and ModuleBaseApi, the base of the modules;
    - endpoint/thread, kvdb, store, inbox, event: the modules.  A module has
      containers (a thread, a KVDB, a store, an inbox) and items in them
      (messages, entries, files, sent entries);
    - endpoint/crypto: cryptography for the application's own use;
    - utils: executors, Base58 and Base64, versions, handles of objects.

    A call of a module validates its arguments, asks the server for a container,
    checks the container's integrity object, obtains its keys through the
    KeyProvider, decrypts or encrypts an item, has the application's verifier
    judge the authors, and reports through a status code what failed.  The
    server's notifications take the same road and end in the application's
    queue, by way of the middleware and the modules' subscribers.

    ** Conventions

    - A member function is a computation [ST S A]: a state goes in, a value or an
      exception and a state come out, the state also when it throws ([outcome],
      [exn]).  Functions without state give an [outcome].  In Sessions [BT]
      adds a third end: the thread waits for ever, or the process has ended.
    - Names are those of the source; a file names in its first lines the sources
      it models.  Integers are [Z], with [wrap] and [swrap] ([u32], [u64],
      [i32], [i64]) where C++ wraps them.  [std::string] is [bytes].
      [UndefinedBehaviour] stands for what the C++ standard leaves undefined; no
      handler catches it and no run goes on after it.
    - Code that is not in the repository is a class with its laws: the crypto
      primitives ([CryptoService], [CryptoLaws]), curves and their numbers
      ([Ecc], [EccNumbers]), Poco's values and the PSON codec ([Dynamic],
      [Encodings]), the generated JSON codecs ([JsonCodec] and the modules'
      codecs), the tokenizer, the server's requests ([StoreServer],
      [RequestApi], [ContainerServer], [SubscriberModule], [InboxServer],
      [EntryServer]), and the clock and channels of a connection
      ([Surroundings]).  What a module asks of its connection (user, clock) is
      [ConnectionWorld], and [MetaConnection] for an open file.  Toy instances satisfy the laws; the witnesses run on
      them.  The laws say what the libraries document: that decryption inverts
      encryption, that a signature made with a key verifies, that parsing inverts
      printing.  None says that something cannot be forged; what the theorems on
      authenticity state is that a tag or signature was checked and verified.
    - What modules share in the source by copying is one definition here with a
      class for the differences: [ModuleKind] (Modules), [ItemKind] (Items),
      [QueryTables] (SubscriberImpls), [ContentKind] (ContentItems).  It is
      mapped to one of the copies, and the other modules are instances.

    ** The files, and what their theorems show

    Foundations.  Prelude: exceptions, the monads, fixed-width integers, the
    tactics.  Bytes: strings and decimal numerals.  ExceptionCodes: the number a
    caller sees for each exception (core/src/ExceptionConverter.cpp, case by
    case); which exceptions share a number.  CoreTypes, Dynamic, StdMap: shared
    types, values on the wire, the order of C++ maps.

    Cryptography.  Crypto, CryptoSuite: key derivation equals its reference
    definitions, the ciphers are inverse to each other, signed and enveloped
    data open only with a verified tag or signature.  Base58, Keys, Mnemonics:
    texts of numbers, keys and extended keys and what they restore; entropy and
    phrases correspond one to one.  Srp: client and server agree on a session key.
    CryptoApi, Validators: issued keys work; what a call accepts.

    The connection.  Tickets, Tls, TlsClient: the ticket pool, frames in order
    and unchanged under mirrored states, only authenticated ones delivered, the
    handshakes.  Sessions: a request is sealed under its ticket and answered;
    destroying is final; what a websocket's closing at the wrong moment and an
    unreachable server do to a session.

    Data formats.  Encryptors, Dio, FieldData, ContentData, ContainerData,
    FileMetaData, Legacy, InboxData, EncKeys: round trips, and what an opened
    piece of data proves of its author.  KeyProvider, Users, Containers, Policies:
    which keys are trusted, who is sent which, what is cached.

    Files of stores.  ChunkCrypto, HmacList, StoreServer, ChunkProvider,
    ChunkReader, FileHandler, FileWrite, FileRefine, FileIO, FileHandle, Upload:
    an open file refines a plain array of bytes with two positions, over
    encrypted chunks on a server that answers by version; an upload cut into any
    pieces gives such a file; a stale write changes nothing.  Each write encrypts
    the file's metadata anew, and the theorems on writes ask that this can be done
    ([renewable]): with a file key of an unknown structure a write throws and
    leaves the checksum list changed (StoreExamples).

    Modules.  Items, Modules: the pipelines.  Threads, ThreadMessages, Kvdbs,
    ContentItems, Stores, Files, StoreFiles, Inboxes, InboxEntries, InboxSend:
    the operations of each module.  ContainerFlow, ContentFlow, KvdbFlow,
    StoreFlow, InboxFlow compose them from the author's call to the reader's:
    what is created, sent, stored or uploaded is what each member gets; members
    who are removed get no new key; an item without an error status was checked;
    and, for inboxes, what neither side can tell.  Handles: numbers of open
    objects.

    Events.  Subscriptions, SubscriberImpls: query texts and tables.
    EventQueue, CustomEvents, EventFlow, ModuleEvents, ThreadEvents, StoreEvents,
    InboxEvents: notifications reach exactly the listeners that subscribed, an
    event shows what fetching would, caches converge whatever the order.

    Concurrency.  Executor, ExecutorRuns: the pool, the modules' executors, the
    references that keep a module alive, its listeners and its destructor as a
    step relation, over every interleaving: no task outlives its module, but a
    report of a lost connection may, and destructors can starve the pool.
    Managed: the life of objects behind the interface's values, lost connections
    included.  Sessions interleaves the
    websocket's closing and the destructor with the connection's functions.
    Elsewhere a function runs from start to end: the locks of caches and tables
    make their operations atomic, and EventQueue runs a task where it is put on
    the executor.

    StoreExamples, ThreadExamples, MessageExamples, KvdbExamples,
    StoreFileExamples, InboxExamples, EventExamples: worlds in which the theorems
    of these groups are used; other files end with their own.

    ** Bounds

    The loops that take a bound are given one that is enough: the frame loop of
    Tls as many rounds as there are bytes left, and one ([process_enough]);
    [createHandle] as many as there are handles, and one; the retry loop
    of extended keys takes its number of rounds as an argument, and the theorems
    name it.  [ticket_loop] counts turns, because the loop is meant to
    run for ever.  Hypotheses of size ([packet_fits], lengths below 2^32 or
    2^63) are where the source computes in a type of that width.

    ** Not modelled

    - The Stream module and WebRTC (endpoint/stream): glue between Janus
      sessions and libwebrtc callbacks; only its subscription queries are here.
    - Transports (rpc/poco, rpc/driver, rpc/emscripten, HTTP and websocket
      channels, ChannelManager): I/O.  The crypto back ends: bindings.
    - Of the connection: probing, the filling in of options, the registration of
      application listeners, the thread that hands out websocket notifications;
      of ConnectionImpl, connecting and listing contexts.
    - Conversion glue (VarSerializer, C and variable interfaces, the
      serializeToVar of types), the API wrappers' locking and conversion of
      exceptions beyond ExceptionCodes and Validators, logging, the command-line
      client, benchmarks and examples, the shutting down of the thread pool. *)

From Stdlib Require Import ZArith Lia.
From Stdlib Require Import Strings.Byte.
From stdpp Require Import base list gmap countable.

#[global] Open Scope Z_scope.

(** ** Exceptions

    One constructor per exception class the modelled code throws.  The
    constructors carry the class names of the source; [StdOutOfRange] is what
    [std::string::substr], [std::vector::at] and the like throw. *)
Inductive exn : Set :=
| StdOutOfRange
| StdInvalidArgument
(* endpoint/store/StoreException.hpp *)
| FileCorruptedException
| FileChunkInvalidChecksumException
| FileChunkInvalidCipherChecksumException
| FileRandomWriteInternalException
| FileVersionMismatchException
| HashIndexOutOfBoundsException
| InvalidFileTopHashException
| InvalidHashSizeException
| InvalidFileChunkSizeException
| InvalidFileHandleException
| InvalidFileReadHandleException
| InvalidFileWriteHandleException
| PosOutOfBoundsException
| NumberToBigForCPUArchitectureException
(* endpoint/core/CoreException.hpp *)
| DataBiggerThanDeclaredException
| DataSmallerThanDeclaredException
| DataDifferentThanDeclaredException
| NoHandleFoundException
| InvalidParamsException
| InvalidSubscriptionQueryException
| NotImplementedException
| KeyProviderRequestCompletedException
(* crypto/base/include/privmx/crypto/CryptoException.hpp; the first is its
   NotImplementedException *)
| CryptoNotImplementedException
| WrongMessageSecurityTagException
| DecryptInvalidKeyLengthException
| EncryptInvalidKeyLengthException
| MissingIvException
| MissingRequiredSignatureException
| UnknownDecryptionTypeException
| OnlyHmacSHA256WithIvIsSupportedForAES256CBCException
| CannotPassIvToDeterministicAES256CBCHmacSHA256Exception
| XTEAECBEncryptionDoesntSupportHmacAndIvException
| InvalidFirstByteOfCipherException
| GivenPublicKeyDoesNotMatchWithSignatureException
| GivenPrivKeyDoesNotMatchException
| InvalidChecksumException
| InvalidBNException
| InvalidM2Exception
| UnsupportedAlgorithmException
| UnsupportedHashAlgorithmException
| UnsupportedVersionException
| IncorrectParamsException
| UnsupportedKeyFormatException
| InvalidStrengthException
| InvalidEntropyException
| InvalidMnemonicException
| InvalidVersionException
| InvalidParentFingerprintException
| InvalidResultSizeException
| InvalidNetworkException
| InvalidCompressionFlagException
| InvalidWIFPayloadLengthException
| ExtKeyDoesNotHoldPrivateKeyException
| InvalidExtendedKeySizeException
(* rpc/base/include/privmx/rpc/RpcException.hpp *)
| FrameHeaderTagsAreNotEqualException
| FrameMacsAreNotEqualException
| UnsupportedFrameVersionException
| InvalidNextReadStateException
| WriteStateIsNotInitializedException
| UnexpectedEcdhePacketFromServerException
| UnexpectedEcdhexPacketFromServerException
| InvalidHandshakeStateException
| TicketsCountIsEqualZeroException
| ConnectionDestroyedException
| SessionLostException
| RpcException
| HttpRequestException
| InvalidWsChannelIdException
| ServerChallengeMissingSignatureException
| ServerChallengeFailedException
| TimeDifferenceBetweenServerAndClientBiggerThanAllowedException
| IncorrectHashmailException
(* utils/include/privmx/utils/PrivmxExtExceptions.hpp *)
| NotConnectedException
| TicketHandshakeErrorException
| OperationCancelledException
| InvalidVersionFormatException
| AlertException (text : list Byte.byte)
(* a utils::PrivmxException of no class of its own *)
| PrivmxException (text : list Byte.byte)
(* endpoint/core/CoreException.hpp; [EndpointCoreException] is the scope's own
   class, whose code stands for every exception of another kind *)
| EndpointCoreException
| UnsupportedTypeException
| InvalidDataSignatureException
| MalformedEncryptionKeyException
| MalformedDataIntegrityObjectException
| InvalidDataIntegrityObjectChecksumException
| DataIntegrityObjectMismatchEncKeyException
| DataIntegrityObjectInvalidSignatureException
| UserVerificationMethodUnhandledException
| MalformedVerifierResponseException
| ModulePublicDataMismatchException
| InvalidEncryptedModuleDataVersionException
(* thread/ThreadException.hpp, kvdb/KvdbException.hpp, store/StoreException.hpp *)
| UnknowThreadFormatException
| ThreadEncryptionKeyValidationException
| ThreadDataIntegrityException
| UnknowMessageFormatException
| MessageDataIntegrityException
| KvdbEncryptionKeyValidationException
| KvdbDataIntegrityException
| KvdbEntryDataIntegrityException
| UnknownKvdbFormatException
| UnknownKvdbEntryFormatException
| IncorrectKeyIdFormatException
| MessagePublicDataMismatchException
| InvalidEncryptedMessageDataVersionException
| KvdbEntryPublicDataMismatchException
| InvalidEncryptedKvdbEntryDataVersionException
| FilePublicDataMismatchException
| InvalidEncryptedStoreFileMetaVersionException
| UnknownEncryptionKeyVersionException
| UnknowStoreFormatException
| UnknowFileFormatException
| StoreEncryptionKeyValidationException
| StoreDataIntegrityException
| FileDataIntegrityException
| StoreIncorrectKeyIdFormatException
| UnsupportedCipherTypeException
| FileSyncFailedHandleCloseException
| WritingToFileInteruptedWrittenDataSmallerThenDeclaredException
| UnknownModuleEncryptionKeyException
(* InvalidSubscriptionQueryException of each module's namespace *)
| ThreadInvalidSubscriptionQueryException
| StoreInvalidSubscriptionQueryException
| KvdbInvalidSubscriptionQueryException
| InboxInvalidSubscriptionQueryException
| EventInvalidSubscriptionQueryException
| StreamInvalidSubscriptionQueryException
(* event/EventException.hpp *)
| ForbiddenChannelNameException
| InvalidEncryptedEventDataVersionException
| EncryptionKeyContainerValidationException
| DataIntegrityObjectDuplicatedException
| UserVerificationFailureException
(* inbox/InboxException.hpp *)
| UnknownInboxHandleException
| InboxHandleIsNotTiedToInboxFileHandleException
| InboxIncorrectKeyIdFormatException
| FailedToExtractMessagePublicMetaException
| FileVersionMismatchHandleClosedException
| InvalidEncryptedInboxDataVersionException
| FileFetchFailedException
| InboxPublicDataMismatchException
| WritingToEntryInteruptedWrittenDataSmallerThenDeclaredException
| HandleIsUsedInInboxHandleException
| InboxInvalidFileReadHandleException
| InboxInvalidFileWriteHandleException
| UnknownInboxFormatException
| InboxDataIntegrityException
| InboxEncryptionKeyValidationException
| InboxModuleDoesNotSupportQueriesYetException
(* a Poco JSON access to a missing key or to a value of another type, a
   PSON decoder that rejects its input, an empty std::optional *)
| PocoException
| PsonException
| StdBadOptionalAccess
(* reads the C++ standard leaves undefined; no run of the modelled code
   continues after one *)
| UndefinedBehaviour
(* crypto, driver and server failures, by code *)
| DecryptError
| ServerError (code : Z).

#[export] Instance byte_eq_dec : EqDecision Byte.byte := Byte.byte_eq_dec.

#[export] Instance exn_eq_dec : EqDecision exn.
Proof. solve_decision. Defined.

(** The [std::exception]s that are neither [core::Exception] nor
    [utils::PrivmxException]: handlers for those two let them through. *)
Definition std_exn (e : exn) : bool :=
  match e with
  | StdOutOfRange | StdInvalidArgument | StdBadOptionalAccess | PocoException | PsonException => true
  | _ => false
  end.

(** The classes that derive from [core::Exception]: the endpoint's own ones.
    Those of the crypto, RPC and utils libraries and of the server derive from
    [utils::PrivmxException] only. *)
Definition core_exn (e : exn) : bool :=
  match e with
  | StdOutOfRange | StdInvalidArgument | StdBadOptionalAccess | PocoException | PsonException
  | CryptoNotImplementedException
  | WrongMessageSecurityTagException | DecryptInvalidKeyLengthException | EncryptInvalidKeyLengthException
  | MissingIvException | MissingRequiredSignatureException | UnknownDecryptionTypeException
  | OnlyHmacSHA256WithIvIsSupportedForAES256CBCException
  | CannotPassIvToDeterministicAES256CBCHmacSHA256Exception
  | XTEAECBEncryptionDoesntSupportHmacAndIvException | InvalidFirstByteOfCipherException
  | GivenPublicKeyDoesNotMatchWithSignatureException | GivenPrivKeyDoesNotMatchException
  | InvalidChecksumException | InvalidBNException | InvalidM2Exception | UnsupportedAlgorithmException
  | UnsupportedHashAlgorithmException | UnsupportedVersionException | IncorrectParamsException
  | FrameHeaderTagsAreNotEqualException | FrameMacsAreNotEqualException | UnsupportedFrameVersionException
  | InvalidNextReadStateException | WriteStateIsNotInitializedException
  | UnexpectedEcdhePacketFromServerException | UnexpectedEcdhexPacketFromServerException
  | InvalidHandshakeStateException | TicketsCountIsEqualZeroException | ConnectionDestroyedException
  | SessionLostException | RpcException | HttpRequestException | InvalidWsChannelIdException | NotConnectedException
  | TicketHandshakeErrorException | OperationCancelledException
  | UnsupportedKeyFormatException
  | ServerChallengeMissingSignatureException | ServerChallengeFailedException
  | TimeDifferenceBetweenServerAndClientBiggerThanAllowedException | IncorrectHashmailException
  | InvalidVersionFormatException | AlertException _ | PrivmxException _
  | InvalidStrengthException | InvalidEntropyException | InvalidMnemonicException | InvalidVersionException
  | InvalidParentFingerprintException | InvalidResultSizeException | InvalidNetworkException | InvalidCompressionFlagException
  | InvalidWIFPayloadLengthException | ExtKeyDoesNotHoldPrivateKeyException | InvalidExtendedKeySizeException
  | UndefinedBehaviour | DecryptError | ServerError _ => false
  | _ => true
  end.

(** ** Outcomes and stateful computations

    [outcome A] is the result of a C++ call: a value or a thrown exception.
    [ST S A] is a member function of an object graph with state [S]: the state
    it leaves behind is there on both branches, because an exception does not
    undo the assignments made before it. *)
Inductive outcome (A : Type) : Type :=
| Ret (a : A)
| Throw (e : exn).
Arguments Ret {A} a.
Arguments Throw {A} e.

Definition ST (S A : Type) : Type := S -> outcome A * S.

#[export] Instance outcome_ret : MRet outcome := fun A a => Ret a.
#[export] Instance outcome_bind : MBind outcome := fun A B f m =>
  match m with
  | Ret a => f a
  | Throw e => Throw e
  end.

#[export] Instance st_ret {S} : MRet (ST S) := fun A a s => (Ret a, s).
#[export] Instance st_bind {S} : MBind (ST S) := fun A B f m s =>
  match m s with
  | (Ret a, s') => f a s'
  | (Throw e, s') => (Throw e, s')
  end.

Section Operations.
Context {S : Type}.

Definition throw {A} (e : exn) : ST S A := fun s => (Throw e, s).

Definition gets {A} (f : S -> A) : ST S A := fun s => (Ret (f s), s).

Definition modify (f : S -> S) : ST S unit := fun s => (Ret tt, f s).

Definition lift {A} (o : outcome A) : ST S A := fun s => (o, s).

(** [if (b) throw e;] *)
Definition throw_if (b : bool) (e : exn) : ST S unit :=
  if b then throw e else mret tt.

(** [try { m } catch (e) { h(e) }] *)
Definition try_catch {A} (m : ST S A) (h : exn -> ST S A) : ST S A := fun s =>
  match m s with
  | (Ret a, s') => (Ret a, s')
  | (Throw e, s') => h e s'
  end.

(** A call on a member object: the caller's state holds the callee's. *)
Definition zoom {T A} (get : S -> T) (put : T -> S -> S) (m : ST T A) : ST S A :=
  fun s => let '(r, t) := m (get s) in (r, put t s).

(** [for (x : l) body(x)] *)
Fixpoint for_each {X} (l : list X) (body : X -> ST S unit) : ST S unit :=
  match l with
  | [] => mret tt
  | x :: l => _ ← body x; for_each l body
  end.

(** [for (x : l) acc.push_back(body(x))] *)
Fixpoint for_collect {X Y} (l : list X) (body : X -> ST S Y) : ST S (list Y) :=
  match l with
  | [] => mret []
  | x :: l => y ← body x; ys ← for_collect l body; mret (y :: ys)
  end.

End Operations.

(** [for (i = a; i <= b; i++)]: the indices the loop visits. *)
Definition indices (a b : Z) : list Z := seqZ a (b - a + 1).

(** ** Fixed-width integers *)

Definition wrap (w : Z) (z : Z) : Z := z mod 2 ^ w.
Abbreviation u8 := (wrap 8).
Abbreviation u32 := (wrap 32).
Abbreviation u64 := (wrap 64).

(** Conversion to a signed [w]-bit integer (two's complement). *)
Definition swrap (w : Z) (z : Z) : Z := (z + 2 ^ (w - 1)) mod 2 ^ w - 2 ^ (w - 1).
Abbreviation i32 := (swrap 32).
Abbreviation i64 := (swrap 64).

Definition u64_max : Z := 2 ^ 64 - 1.

Lemma wrap_id w z : 0 <= z < 2 ^ w -> wrap w z = z.
Proof. apply Z.mod_small. Qed.

Lemma wrap_range w z : 0 <= w -> 0 <= wrap w z < 2 ^ w.
Proof. intros. apply Z.mod_pos_bound. apply Z.pow_pos_nonneg; lia. Qed.

Lemma swrap_range w z : 0 < w -> - 2 ^ (w - 1) <= swrap w z < 2 ^ (w - 1).
Proof.
  intros Hw. unfold swrap. pose proof (Z.mod_pos_bound (z + 2 ^ (w - 1)) (2 ^ w) ltac:(lia)) as Hb.
  replace (2 ^ w) with (2 * 2 ^ (w - 1)) in Hb |- * by (rewrite <- Z.pow_succ_r by lia; f_equal; lia). lia.
Qed.

Lemma swrap_id w z : 0 < w -> - 2 ^ (w - 1) <= z < 2 ^ (w - 1) -> swrap w z = z.
Proof.
  intros Hw H. unfold swrap. rewrite Z.mod_small; [lia|].
  replace (2 ^ w) with (2 * 2 ^ (w - 1)); [lia|].
  rewrite <- Z.pow_succ_r by lia. f_equal. lia.
Qed.

Lemma pow64 : 2 ^ 64 = 18446744073709551616.
Proof. reflexivity. Qed.

Lemma pow63 : 2 ^ 63 = 9223372036854775808.
Proof. reflexivity. Qed.

Lemma pow32 : 2 ^ 32 = 4294967296.
Proof. reflexivity. Qed.

(** [o.value()] *)
Definition opt_value {A} (o : option A) : outcome A :=
  match o with Some a => Ret a | None => Throw StdBadOptionalAccess end.

(** ** Running stateful computations: the equations proofs rewrite with *)
Section Running.
Context {S : Type}.
Implicit Types s : S.

Lemma run_bind_ret {A B} (m : ST S A) (f : A -> ST S B) s a s' :
  m s = (Ret a, s') -> (m ≫= f) s = f a s'.
Proof. intros H. unfold mbind, st_bind. by rewrite H. Qed.

Lemma run_bind_throw {A B} (m : ST S A) (f : A -> ST S B) s e s' :
  m s = (Throw e, s') -> (m ≫= f) s = (Throw e, s').
Proof. intros H. unfold mbind, st_bind. by rewrite H. Qed.

Lemma run_zoom {T A} (get : S -> T) put (m : ST T A) s r t :
  m (get s) = (r, t) -> zoom get put m s = (r, put t s).
Proof. intros H. unfold zoom. by rewrite H. Qed.

(** A loop whose body keeps an invariant keeps it, and returns if each
    iteration returns. *)
Lemma run_for_each {X} (l : list X) (body : X -> ST S unit) (I : list X -> S -> Prop) s :
  I l s ->
  (forall x l' s0, I (x :: l') s0 -> exists s1, body x s0 = (Ret tt, s1) /\ I l' s1) ->
  exists s', for_each l body s = (Ret tt, s') /\ I [] s'.
Proof.
  intros H0 Hstep. revert s H0.
  induction l as [|x l IH]; intros s H0; simpl.
  - by exists s.
  - destruct (Hstep x l s H0) as (s1 & Hb & H1).
    rewrite (run_bind_ret _ _ _ _ _ Hb). by apply IH.
Qed.
End Running.

(** What a run of a sequence says of its parts. *)
Lemma bind_inv {S A B} (m : ST S A) (f : A -> ST S B) s b s' :
  (m ≫= f) s = (Ret b, s') -> exists a s1, m s = (Ret a, s1) /\ f a s1 = (Ret b, s').
Proof. unfold mbind, st_bind. destruct (m s) as [[a|e] s1]; [eauto|done]. Qed.

Lemma bind_throw_inv {S A B} (m : ST S A) (f : A -> ST S B) s e s' :
  (m ≫= f) s = (Throw e, s') ->
  m s = (Throw e, s') \/ exists a s1, m s = (Ret a, s1) /\ f a s1 = (Throw e, s').
Proof. unfold mbind, st_bind. destruct (m s) as [[a|e'] s1]; [eauto|]. intros [= -> ->]. auto. Qed.

(** Split [H : (m ≫= f) s = (Ret a, s')] at its first step. *)
Tactic Notation "inv_bind" hyp(H) "as" simple_intropattern(p) := apply bind_inv in H as p.

(** ** Filters of a list *)
Section Filters.
Context {X : Type} (P Q : X -> Prop) `{!forall x, Decision (P x)} `{!forall x, Decision (Q x)}.

Lemma filter_agree (l : list X) : (forall x, x ∈ l -> P x <-> Q x) -> filter P l = filter Q l.
Proof.
  induction l as [|x l IH]; intros Hl; [done|]. rewrite !filter_cons.
  rewrite IH by (intros y Hy; apply Hl; by right). specialize (Hl x ltac:(left)).
  destruct (decide (P x)), (decide (Q x)); tauto.
Qed.

Lemma filter_keeps (l : list X) : (forall x, x ∈ l -> P x) -> filter P l = l.
Proof.
  induction l as [|x l IH]; intros Hl; [done|]. rewrite filter_cons_True by (apply Hl; left).
  f_equal. apply IH. intros y Hy. apply Hl. by right.
Qed.

Lemma filter_drops (l : list X) : (forall x, x ∈ l -> ~ P x) -> filter P l = [].
Proof.
  induction l as [|x l IH]; intros Hl; [done|]. rewrite filter_cons_False by (apply Hl; left).
  apply IH. intros y Hy. apply Hl. by right.
Qed.
End Filters.

(** ** Automation *)

(** Evaluate one monadic step whose outcome is an equation of the context. *)
Ltac run_step :=
  match goal with
  | H : ?m ?s = (Ret _, _) |- context [(?m ≫= _) ?s] => rewrite (run_bind_ret _ _ _ _ _ H)
  | H : ?m ?s = (Throw _, _) |- context [(?m ≫= _) ?s] => rewrite (run_bind_throw _ _ _ _ _ H)
  end.

(** Unfold the monads; leaves the components' own definitions folded. *)
Ltac unfold_st :=
  unfold mbind, mret, st_bind, st_ret, outcome_bind, outcome_ret,
    throw, throw_if, gets, modify, lift, try_catch, zoom in *.

(** [a != b] is false. *)
Lemma bool_decide_ne `{EqDecision A} (a b : A) : bool_decide (a <> b) = false <-> a = b.
Proof. rewrite bool_decide_eq_false. destruct (decide (a = b)); tauto. Qed.

Create HintDb privmx.

Ltac pow_simpl := rewrite ?pow64, ?pow63, ?pow32 in *.
