(* ===== verification/Bytes.v ===== *)
(** * Byte strings

    [std::string] is a sequence of bytes; sizes and positions are [size_t],
    written as [Z].  The operations follow the C++ library where the modelled
    code relies on its corner cases: [substr] throws [std::out_of_range] when
    the position is past the end and clips the length otherwise. *)

From Stdlib Require Import ZArith Lia.
From Stdlib Require Import Strings.Byte Strings.String.
From stdpp Require Import base list gmap countable.
From S2P Require Import Prelude.

Abbreviation byte := Byte.byte.
Abbreviation bytes := (list byte).

#[export] Instance byte_countable : Countable byte :=
  inj_countable Byte.to_N Byte.of_N Byte.of_to_N.

(** A string literal of the source. *)
Definition lit (s : string) : bytes := list_byte_of_string s.
Arguments lit s%_string.

(** ** Sizes, slices *)

Definition zlen {A} (l : list A) : Z := Z.of_nat (length l).

(** The first [n] elements (all of them when there are fewer); [n] may be any
    64-bit value, so the count is clipped before it becomes a [nat]. *)
Definition ztake {A} (n : Z) (l : list A) : list A := take (Z.to_nat (Z.min n (zlen l))) l.
Definition zdrop {A} (n : Z) (l : list A) : list A := drop (Z.to_nat (Z.min n (zlen l))) l.

(** [s.substr(pos, n)] and [s.substr(pos)]. *)
Definition substr {A} (s : list A) (pos n : Z) : outcome (list A) :=
  if bool_decide (zlen s < pos) then Throw StdOutOfRange else Ret (ztake n (zdrop pos s)).
Definition substr_from {A} (s : list A) (pos : Z) : outcome (list A) :=
  if bool_decide (zlen s < pos) then Throw StdOutOfRange else Ret (zdrop pos s).

(** The abstract slice [l[pos, pos+n)]; [substr] where it does not throw. *)
Definition slice {A} (pos n : Z) (l : list A) : list A := ztake n (zdrop pos l).

(** [std::string(n, 0)] *)
Definition zeros (n : Z) : bytes := replicate (Z.to_nat n) x00.

(** ** Bytes as integers *)

Definition byte_val (b : byte) : Z := Z.of_N (Byte.to_N b).

(** [static_cast<uint8_t>(z)] *)
Definition byte_of (z : Z) : byte :=
  match Byte.of_N (Z.to_N (z mod 256)) with Some b => b | None => x00 end.

(** A [char] is signed on the supported platforms. *)
Definition char_val (b : byte) : Z := swrap 8 (byte_val b).

(** Big-endian encodings, as [Poco::ByteOrder::toBigEndian] followed by a
    byte-wise copy gives them. *)
Fixpoint be_encode (n : nat) (z : Z) : bytes :=
  match n with
  | O => []
  | S n => byte_of (Z.shiftr z (8 * Z.of_nat n)) :: be_encode n z
  end.
Definition be_decode (s : bytes) : Z := fold_left (fun acc b => acc * 256 + byte_val b) s 0.

Abbreviation be32 := (be_encode 4).
Abbreviation be64 := (be_encode 8).

(** ** Lemmas: lists *)
Section Lists.
Context {A : Type}.
Implicit Types l k : list A.

Lemma zlen_nonneg l : 0 <= zlen l.
Proof. unfold zlen. lia. Qed.

Lemma zlen_nil : zlen (@nil A) = 0.
Proof. done. Qed.

Lemma zlen_cons x l : zlen (x :: l) = 1 + zlen l.
Proof. unfold zlen. simpl. lia. Qed.

Lemma zlen_app l k : zlen (l ++ k) = zlen l + zlen k.
Proof. unfold zlen. rewrite length_app. lia. Qed.

Lemma zlen_0_inv l : zlen l = 0 -> l = [].
Proof. destruct l; [done|]. rewrite zlen_cons. pose proof (zlen_nonneg l). lia. Qed.

Lemma zlen_replicate n (x : A) : 0 <= n -> zlen (replicate (Z.to_nat n) x) = n.
Proof. intros. unfold zlen. rewrite length_replicate. lia. Qed.

Lemma ztake_take n l : 0 <= n -> ztake n l = take (Z.to_nat n) l.
Proof.
  intros. unfold ztake, zlen. destruct (Z.le_gt_cases n (Z.of_nat (length l))).
  - by rewrite Z.min_l by lia.
  - rewrite Z.min_r by lia. rewrite Nat2Z.id, !take_ge by lia. done.
Qed.

Lemma zdrop_drop n l : 0 <= n -> zdrop n l = drop (Z.to_nat n) l.
Proof.
  intros. unfold zdrop, zlen. destruct (Z.le_gt_cases n (Z.of_nat (length l))).
  - by rewrite Z.min_l by lia.
  - rewrite Z.min_r by lia. rewrite Nat2Z.id, !drop_ge by lia. done.
Qed.

Lemma zlen_ztake n l : 0 <= n -> zlen (ztake n l) = Z.min n (zlen l).
Proof. intros. rewrite ztake_take by done. unfold zlen. rewrite length_take. lia. Qed.

Lemma zlen_zdrop n l : 0 <= n -> zlen (zdrop n l) = Z.max 0 (zlen l - n).
Proof. intros. rewrite zdrop_drop by done. unfold zlen. rewrite length_drop. lia. Qed.

Lemma ztake_0 l : ztake 0 l = [].
Proof. rewrite ztake_take by lia. done. Qed.

Lemma zdrop_0 l : zdrop 0 l = l.
Proof. rewrite zdrop_drop by lia. done. Qed.

Lemma ztake_ge n l : zlen l <= n -> ztake n l = l.
Proof.
  intros. pose proof (zlen_nonneg l). rewrite ztake_take by lia. apply take_ge. unfold zlen in *. lia.
Qed.

Lemma zdrop_ge n l : zlen l <= n -> zdrop n l = [].
Proof.
  intros. pose proof (zlen_nonneg l). rewrite zdrop_drop by lia. apply drop_ge. unfold zlen in *. lia.
Qed.

Lemma ztake_zdrop n l : ztake n l ++ zdrop n l = l.
Proof. unfold ztake, zdrop. apply take_drop. Qed.

Lemma ztake_app_le n l k : n <= zlen l -> ztake n (l ++ k) = ztake n l.
Proof.
  intros. destruct (Z.le_gt_cases 0 n).
  - rewrite !ztake_take by lia. apply take_app_le. unfold zlen in *. lia.
  - unfold ztake. rewrite !Z.min_l by (rewrite ?zlen_app; pose proof (zlen_nonneg k); lia).
    by destruct n.
Qed.

Lemma ztake_app_ge n l k : zlen l <= n -> ztake n (l ++ k) = l ++ ztake (n - zlen l) k.
Proof.
  intros. pose proof (zlen_nonneg l). rewrite !ztake_take by lia. rewrite take_app_ge by (unfold zlen in *; lia).
  do 2 f_equal. unfold zlen. lia.
Qed.

Lemma zdrop_app_le n l k : 0 <= n <= zlen l -> zdrop n (l ++ k) = zdrop n l ++ k.
Proof. intros. rewrite !zdrop_drop by lia. apply drop_app_le. unfold zlen in *. lia. Qed.

Lemma zdrop_app_ge n l k : zlen l <= n -> zdrop n (l ++ k) = zdrop (n - zlen l) k.
Proof.
  intros. pose proof (zlen_nonneg l). rewrite !zdrop_drop by lia. rewrite drop_app_ge by (unfold zlen in *; lia).
  f_equal. unfold zlen. lia.
Qed.

Lemma ztake_app l k : ztake (zlen l) (l ++ k) = l.
Proof. rewrite ztake_app_le by lia. by apply ztake_ge. Qed.

Lemma zdrop_app l k : zdrop (zlen l) (l ++ k) = k.
Proof. rewrite zdrop_app_ge by lia. by rewrite Z.sub_diag, zdrop_0. Qed.

Lemma ztake_app_eq n l k : n = zlen l -> ztake n (l ++ k) = l.
Proof. intros ->. apply ztake_app. Qed.

Lemma zdrop_app_eq n l k : n = zlen l -> zdrop n (l ++ k) = k.
Proof. intros ->. apply zdrop_app. Qed.

Lemma ztake_ztake n m l : 0 <= n -> 0 <= m -> ztake n (ztake m l) = ztake (Z.min n m) l.
Proof. intros. rewrite !ztake_take by lia. rewrite take_take. f_equal. lia. Qed.

Lemma zdrop_zdrop n m l : 0 <= n -> 0 <= m -> zdrop n (zdrop m l) = zdrop (m + n) l.
Proof. intros. rewrite !zdrop_drop by lia. rewrite drop_drop. f_equal. lia. Qed.

Lemma ztake_zdrop_comm n m l : 0 <= n -> 0 <= m -> ztake n (zdrop m l) = zdrop m (ztake (m + n) l).
Proof.
  intros. rewrite !ztake_take, !zdrop_drop by lia. rewrite take_drop_commute. do 2 f_equal. lia.
Qed.

Lemma zlen_slice pos n l :
  0 <= pos -> 0 <= n -> zlen (slice pos n l) = Z.min n (Z.max 0 (zlen l - pos)).
Proof. intros. unfold slice. rewrite zlen_ztake, zlen_zdrop by lia. done. Qed.

Lemma substr_ret l pos n : pos <= zlen l -> substr l pos n = Ret (slice pos n l).
Proof. intros. unfold substr. rewrite bool_decide_eq_false_2 by lia. done. Qed.

Lemma substr_from_ret l pos : pos <= zlen l -> substr_from l pos = Ret (zdrop pos l).
Proof. intros. unfold substr_from. rewrite bool_decide_eq_false_2 by lia. done. Qed.

Lemma substr_throw l pos n : zlen l < pos -> substr l pos n = Throw StdOutOfRange.
Proof. intros. unfold substr. by rewrite bool_decide_eq_true_2. Qed.

Lemma slice_app pos n m l :
  0 <= pos -> 0 <= n -> 0 <= m -> slice pos n l ++ slice (pos + n) m l = slice pos (n + m) l.
Proof.
  intros. unfold slice. rewrite <- (zdrop_zdrop n pos) by lia.
  set (k := zdrop pos l). rewrite <- (ztake_zdrop n k) at 3.
  destruct (Z.le_gt_cases (zlen k) n).
  - rewrite (zdrop_ge n k) by lia. rewrite app_nil_r. rewrite (ztake_ge n k) by lia.
    rewrite (ztake_ge (n + m) k) by lia. unfold ztake. by rewrite take_nil, app_nil_r.
  - rewrite ztake_app_ge by (rewrite zlen_ztake; lia).
    rewrite zlen_ztake, Z.min_l by lia. do 2 f_equal. lia.
Qed.

Lemma lookup_zlt (l : list A) i : 0 <= i < zlen l -> is_Some (l !! Z.to_nat i).
Proof. intros. apply lookup_lt_is_Some. unfold zlen in *. lia. Qed.
End Lists.

(** ** Overwriting part of a buffer

    [splice pos d cut l] writes [d] at [pos]; what lay past the written bytes
    stays, or goes when [cut] is set. *)
Definition splice {A} (pos : Z) (d : list A) (cut : bool) (l : list A) : list A :=
  ztake pos l ++ d ++ (if cut then [] else zdrop (pos + zlen d) l).

Section Splice.
Context {A : Type}.
Implicit Types l d : list A.

Lemma lookup_ztake n l (k : nat) : 0 <= n ->
  ztake n l !! k = if decide (Z.of_nat k < n) then l !! k else None.
Proof.
  intros. rewrite ztake_take by done. case_decide.
  - apply lookup_take_lt. lia.
  - apply lookup_take_ge. lia.
Qed.

Lemma lookup_zdrop n l (k : nat) : 0 <= n -> zdrop n l !! k = l !! (Z.to_nat n + k)%nat.
Proof. intros. by rewrite zdrop_drop, lookup_drop by done. Qed.

Lemma lookup_slice p n l (k : nat) : 0 <= p -> 0 <= n ->
  slice p n l !! k = if decide (Z.of_nat k < n) then l !! (Z.to_nat p + k)%nat else None.
Proof. intros. unfold slice. rewrite lookup_ztake, lookup_zdrop by done. done. Qed.

Lemma lookup_splice pos d cut l (k : nat) : 0 <= pos <= zlen l ->
  splice pos d cut l !! k =
    if decide (Z.of_nat k < pos) then l !! k
    else if decide (Z.of_nat k < pos + zlen d) then d !! (k - Z.to_nat pos)%nat
    else if cut then None else l !! k.
Proof.
  intros Hp. unfold splice. pose proof (zlen_nonneg d).
  assert (length (ztake pos l) = Z.to_nat pos) as Ht.
  { pose proof (zlen_ztake pos l ltac:(lia)). unfold zlen in *. lia. }
  case_decide as E1; [|case_decide as E2].
  - rewrite lookup_app_l by lia. rewrite lookup_ztake by lia. by rewrite decide_True.
  - rewrite lookup_app_r by lia. rewrite Ht. apply lookup_app_l. unfold zlen in *. lia.
  - rewrite lookup_app_r by lia. rewrite Ht, lookup_app_r by (unfold zlen in *; lia).
    destruct cut; [done|]. rewrite lookup_zdrop by lia. f_equal. unfold zlen in *. lia.
Qed.

Lemma zlen_splice pos d cut l : 0 <= pos <= zlen l ->
  zlen (splice pos d cut l) = if cut then pos + zlen d else Z.max (zlen l) (pos + zlen d).
Proof.
  intros. unfold splice. pose proof (zlen_nonneg d).
  rewrite !zlen_app, zlen_ztake by lia.
  destruct cut; [rewrite zlen_nil; lia|rewrite zlen_zdrop by lia; lia].
Qed.

(** A window that contains the written bytes sees the write, shifted. *)
Lemma slice_splice_inside w n p d cut l :
  0 <= w <= p -> p + zlen d <= w + n -> p <= zlen l ->
  slice w n (splice p d cut l) = splice (p - w) d cut (slice w n l).
Proof.
  intros Hw Hn Hp. pose proof (zlen_nonneg d). apply list_eq. intros k.
  rewrite lookup_slice by lia.
  rewrite lookup_splice by lia. rewrite lookup_splice by (rewrite zlen_slice; lia).
  rewrite lookup_slice by lia.
  repeat case_decide; try lia; try done.
  - f_equal. lia.
  - by destruct cut.
Qed.

(** A window past the written bytes does not see a write that keeps the rest. *)
Lemma slice_splice_after w n p d l :
  0 <= p <= zlen l -> p + zlen d <= w -> 0 <= n ->
  slice w n (splice p d false l) = slice w n l.
Proof.
  intros. pose proof (zlen_nonneg d). apply list_eq. intros k.
  rewrite !lookup_slice, lookup_splice by lia.
  repeat case_decide; try lia; done.
Qed.
End Splice.

Lemma zlen_zeros n : 0 <= n -> zlen (zeros n) = n.
Proof. apply zlen_replicate. Qed.

(** ** Lemmas: integers as bytes *)

Lemma byte_val_range b : 0 <= byte_val b < 256.
Proof.
  unfold byte_val. split; [lia|].
  pose proof (Byte.to_N_bounded b). lia.
Qed.

Lemma byte_of_val b : byte_of (byte_val b) = b.
Proof.
  unfold byte_of. rewrite Z.mod_small by apply byte_val_range.
  unfold byte_val. by rewrite N2Z.id, Byte.of_to_N.
Qed.

Lemma byte_val_of z : byte_val (byte_of z) = z mod 256.
Proof.
  unfold byte_of. pose proof (Z.mod_pos_bound z 256 eq_refl) as Hb.
  destruct (Byte.of_N (Z.to_N (z mod 256))) as [b|] eqn:E.
  - apply Byte.to_of_N in E. unfold byte_val. rewrite E. lia.
  - apply Byte.of_N_None_iff in E. lia.
Qed.

Lemma byte_val_inj b c : byte_val b = byte_val c -> b = c.
Proof. intros H. by rewrite <- (byte_of_val b), H, byte_of_val. Qed.

Lemma length_be_encode n z : length (be_encode n z) = n.
Proof. induction n; simpl; congruence. Qed.

Lemma zlen_be_encode n z : zlen (be_encode n z) = Z.of_nat n.
Proof. unfold zlen. by rewrite length_be_encode. Qed.

Lemma be_encode_fold n z acc :
  fold_left (fun acc b => acc * 256 + byte_val b) (be_encode n z) acc
  = acc * 2 ^ (8 * Z.of_nat n) + z mod 2 ^ (8 * Z.of_nat n).
Proof.
  revert acc. induction n as [|n IH]; intros acc.
  - simpl. rewrite Z.mod_1_r. lia.
  - cbn [be_encode fold_left]. rewrite IH, byte_val_of, Z.shiftr_div_pow2 by lia.
    replace (8 * Z.of_nat (S n)) with (8 * Z.of_nat n + 8) by lia.
    rewrite Z.pow_add_r by lia. change (2 ^ 8) with 256.
    rewrite Z.rem_mul_r by (try apply Z.pow_nonzero; lia). ring.
Qed.

Lemma be_decode_encode n z : 0 <= z < 2 ^ (8 * Z.of_nat n) -> be_decode (be_encode n z) = z.
Proof. intros. unfold be_decode. rewrite be_encode_fold, Z.mod_small by lia. lia. Qed.

Lemma be_encode_inj n y z :
  0 <= y < 2 ^ (8 * Z.of_nat n) -> 0 <= z < 2 ^ (8 * Z.of_nat n) ->
  be_encode n y = be_encode n z -> y = z.
Proof. intros Hy Hz E. by rewrite <- (be_decode_encode n y Hy), E, be_decode_encode. Qed.

(** ** Decimal numerals

    [std::to_string], [std::stoll] and [std::stoul] of the C++ standard library,
    on the integers the program prints and parses. *)
From Stdlib Require Import Decimal DecimalString DecimalFacts DecimalPos DecimalZ.

(** [std::to_string] on integers. *)
Definition to_string (z : Z) : bytes := lit (NilZero.string_of_int (Z.to_int z)).

Definition isdigit (c : byte) : bool := bool_decide (48 <= byte_val c <= 57).

Fixpoint digits (s : bytes) : bytes :=
  match s with
  | c :: s => if isdigit c then c :: digits s else []
  | [] => []
  end.

Definition dec_value (ds : bytes) (acc : Z) : Z :=
  fold_left (fun acc c => acc * 10 + (byte_val c - 48)) ds acc.

(** [isspace] in the "C" locale. *)
Definition isspace (c : byte) : bool := bool_decide (byte_val c = 32 \/ 9 <= byte_val c <= 13).

Fixpoint skip_spaces (s : bytes) : bytes :=
  match s with
  | c :: s' => if isspace c then skip_spaces s' else s
  | [] => []
  end.

(** [std::stoll]: white space, a sign, and the digits that follow. *)
Definition stoll (s : bytes) : outcome Z :=
  let s := skip_spaces s in
  let '(sign, s) := match s with
    | x2d :: s => (-1, s)
    | x2b :: s => (1, s)
    | _ => (1, s)
    end in
  let ds := digits s in
  let v := sign * dec_value ds 0 in
  if bool_decide (ds = []) then Throw StdInvalidArgument
  else if bool_decide (v < - 2 ^ 63 \/ 2 ^ 63 <= v) then Throw StdOutOfRange
  else Ret v.

(** ** Parsing what was printed *)

Fixpoint uint_bytes (d : uint) : bytes :=
  match d with
  | Nil => []
  | D0 d => x30 :: uint_bytes d | D1 d => x31 :: uint_bytes d | D2 d => x32 :: uint_bytes d
  | D3 d => x33 :: uint_bytes d | D4 d => x34 :: uint_bytes d | D5 d => x35 :: uint_bytes d
  | D6 d => x36 :: uint_bytes d | D7 d => x37 :: uint_bytes d | D8 d => x38 :: uint_bytes d
  | D9 d => x39 :: uint_bytes d
  end.

Lemma lit_uint d : lit (NilEmpty.string_of_uint d) = uint_bytes d.
Proof. unfold lit. induction d; cbn; try done; by rewrite <- IHd. Qed.

Lemma digits_uint d : digits (uint_bytes d) = uint_bytes d.
Proof. induction d; cbn; by rewrite ?IHd. Qed.

Lemma dec_value_acc d p : dec_value (uint_bytes d) (Zpos p) = Zpos (Pos.of_uint_acc d p).
Proof.
  revert p. induction d; intros p; cbn [uint_bytes Pos.of_uint_acc]; [done|..];
    rewrite <- IHd; unfold dec_value; cbn [fold_left]; f_equal; cbn -[Z.mul Z.add]; lia.
Qed.

Lemma dec_value_uint d : dec_value (uint_bytes d) 0 = Z.of_N (Pos.of_uint d).
Proof.
  induction d; cbn [uint_bytes Pos.of_uint]; [done|exact IHd|..];
    cbn [Z.of_N]; rewrite <- dec_value_acc; reflexivity.
Qed.

Lemma to_uint_nonnil p : Pos.to_uint p <> Nil.
Proof. intros H. pose proof (DecimalPos.Unsigned.of_to p) as Hp. by rewrite H in Hp. Qed.

Lemma nilzero_uint p : NilZero.string_of_uint (Pos.to_uint p) = NilEmpty.string_of_uint (Pos.to_uint p).
Proof. pose proof (to_uint_nonnil p). by destruct (Pos.to_uint p). Qed.

(** A numeral starts with a digit: no white space or sign is taken from it. *)
Lemma stoll_uint d z : d <> Nil -> z = Z.of_N (Pos.of_uint d) -> z < 2 ^ 63 -> stoll (uint_bytes d) = Ret z.
Proof.
  intros Hd -> Hz. unfold stoll.
  replace (skip_spaces (uint_bytes d)) with (uint_bytes d) by (by destruct d).
  assert (forall A (f g : bytes -> A) h, match uint_bytes d with x2d :: s => f s | x2b :: s => g s | _ => h end = h) as Hm
    by (by destruct d).
  rewrite Hm, digits_uint, dec_value_uint.
  rewrite bool_decide_eq_false_2 by (by destruct d).
  rewrite bool_decide_eq_false_2; [f_equal; lia|lia].
Qed.

Lemma stoll_to_string z : - 2 ^ 63 <= z < 2 ^ 63 -> stoll (to_string z) = Ret z.
Proof.
  intros Hz. unfold to_string. destruct z as [|p|p]; [reflexivity|..]; cbn [Z.to_int NilZero.string_of_int].
  - rewrite nilzero_uint, lit_uint. apply stoll_uint; [apply to_uint_nonnil| |lia].
    by rewrite DecimalPos.Unsigned.of_to.
  - change (lit (String ?c ?s)) with (x2d :: lit s). rewrite nilzero_uint, lit_uint.
    unfold stoll. change (skip_spaces (x2d :: ?s)) with (x2d :: s). cbv beta iota zeta.
    rewrite digits_uint, dec_value_uint, DecimalPos.Unsigned.of_to.
    rewrite bool_decide_eq_false_2.
    2:{ pose proof (to_uint_nonnil p). by destruct (Pos.to_uint p). }
    rewrite bool_decide_eq_false_2; [f_equal; lia|lia].
Qed.

(** ** The length of a numeral *)
Lemma nb_digits_double d :
  (nb_digits (Little.double d) <= S (nb_digits d) /\ nb_digits (Little.succ_double d) <= S (nb_digits d))%nat.
Proof. induction d; cbn; lia. Qed.

Lemma little_digits p : (nb_digits (Pos.to_little_uint p) <= Pos.size_nat p)%nat.
Proof.
  induction p; cbn [Pos.to_little_uint Pos.size_nat]; [| |done];
    pose proof (nb_digits_double (Pos.to_little_uint p)); lia.
Qed.

Lemma uint_bytes_length d : length (uint_bytes d) = nb_digits d.
Proof. induction d; cbn; by rewrite ?IHd. Qed.

(** Of a number of 64 bits there are fewer digits than bits. *)
Lemma to_string_len z : - 2 ^ 63 <= z < 2 ^ 63 -> zlen (to_string z) <= 65.
Proof.
  intros Hz. assert (forall p, Zpos p <= 2 ^ 63 -> zlen (uint_bytes (Pos.to_uint p)) <= 64) as Hp.
  { intros p Hb. unfold zlen. rewrite uint_bytes_length. unfold Pos.to_uint. rewrite nb_digits_rev.
    pose proof (little_digits p). pose proof (Pos.size_nat_monotone p (2 ^ 63 + 1) ltac:(lia)) as Hm.
    change (Pos.size_nat (2 ^ 63 + 1)) with 64%nat in Hm. lia. }
  unfold to_string. destruct z as [|p|p]; [by vm_compute|..]; cbn [Z.to_int NilZero.string_of_int].
  - rewrite nilzero_uint, lit_uint. specialize (Hp p ltac:(lia)). lia.
  - change (lit (String ?c ?s)) with (x2d :: lit s). rewrite nilzero_uint, lit_uint, zlen_cons. specialize (Hp p ltac:(lia)). lia.
Qed.
