(* ===== verification/ExceptionCodes.v ===== *)
(** * Codes of exceptions

    Every exception that leaves the library carries a number
    (DECLARE_ENDPOINT_EXCEPTION, DECLARE_PRIVMX_EXCEPTION in the exception
    headers).  Those of the crypto, RPC and utils libraries and of the server are
    converted by [core::ExceptionConverter]
    (endpoint/core/src/ExceptionConverter.cpp); the number a caller sees is the
    converted one. *)

From Stdlib Require Import ZArith Lia Strings.String Strings.Byte.
From stdpp Require Import base list.
From S2P Require Import Prelude Bytes.

(** [PrivmxException::Type] *)
Inductive exception_type := LIBRARY | RPC | ALERT.

Module ExceptionConverter.

(** The cases of the inner switches: the low half of the code, and the code of
    the exception thrown for it ([ConvertedExceptions.hpp]; the two
    [core::NotConnectedException] are the connection scope's). *)
(** [case 0xFFFF]: the errors of JSON-RPC itself *)
Definition server_request_cases : list (Z * Z) := [
  (0x8043, 0xFFFF8043); (0x80A8, 0xFFFF80A8); (0x80A7, 0xFFFF80A7); (0x80A6, 0xFFFF80A6); (0x80A5, 0xFFFF80A5);
  (0x80A4, 0xFFFF80A4); (0x80A3, 0xFFFF80A3)].

(** [case 0x0000]: the Bridge's own errors *)
Definition server_cases : list (Z * Z) := [
  (0x0030, 0xF0000030); (0x0070, 0xF0000070); (0x6001, 0xF0006001); (0x6002, 0xF0006002); (0x600D, 0xF000600D);
  (0x6015, 0xF0006015); (0x6116, 0xF0006116); (0x6117, 0xF0006117); (0x6118, 0xF0006118); (0x6128, 0xF0006128);
  (0x611E, 0xF000611E); (0x613C, 0xF000613C); (0x613D, 0xF000613D)].

(** [case 0x0001] *)
Definition connection_cases : list (Z * Z) := [
  (0x0001, 0x0002000E); (0x0002, 0xE0010002); (0x0003, 0xE0010003)].

(** [case 0x0002] *)
Definition http_cases : list (Z * Z) := [
  (0x0001, 0xE0020001); (0x0002, 0xE0020002)].

(** [case 0x0003] *)
Definition lib_cases : list (Z * Z) := [
  (0x0001, 0xE0030001); (0x0002, 0xE0030002); (0x0003, 0xE0030003); (0x0004, 0xE0030004); (0x0005, 0xE0030007);
  (0x0006, 0xE0030008)].

(** [case 0x00A1] *)
Definition crypto_cases : list (Z * Z) := [
  (0x0001, 0xE0A10001); (0x0002, 0xE0A10002); (0x0003, 0xE0A10003); (0x0004, 0xE0A10004); (0x0005, 0xE0A10005);
  (0x0006, 0xE0A10006); (0x0007, 0xE0A10007); (0x0008, 0xE0A10008); (0x0009, 0xE0A10009); (0x000A, 0xE0A1000A);
  (0x000B, 0xE0A1000B); (0x000C, 0xE0A1000C); (0x000D, 0xE0A1000D); (0x000E, 0xE0A1000E); (0x000F, 0xE0A1000F);
  (0x0010, 0xE0A10010); (0x0011, 0xE0A10011); (0x0012, 0xE0A10012); (0x0013, 0xE0A10014); (0x0014, 0xE0A10014);
  (0x0015, 0xE0A10015); (0x0016, 0xE0A10016); (0x0017, 0xE0A10017); (0x0018, 0xE0A10018); (0x0019, 0xE0A10019);
  (0x001A, 0xE0A1001A); (0x001B, 0xE0A1001B); (0x001C, 0xE0A1001C); (0x001D, 0xE0A1001D); (0x001E, 0xE0A1001E);
  (0x001F, 0xE0A1001F); (0x0020, 0xE0A10020); (0x0022, 0xE0A10022); (0x0023, 0xE0A10023); (0x0024, 0xE0A10024);
  (0x0025, 0xE0A10025); (0x0026, 0xE0A10026); (0x0027, 0xE0A10027); (0x0028, 0xE0A10028); (0x0029, 0xE0A10029);
  (0x002A, 0xE0A1002A)].

(** [case 0x00A3] *)
Definition privfs_cases : list (Z * Z) := [
  (0x0001, 0xE0A30001); (0x0002, 0xE0A30002); (0x0003, 0xE0A30003); (0x0004, 0xE0A30004); (0x0005, 0xE0A30005);
  (0x0006, 0xE0A30006); (0x0007, 0xE0A30007); (0x0008, 0xE0A30008); (0x0009, 0xE0A30009); (0x000A, 0xE0A3000A);
  (0x000B, 0xE0A3000B); (0x000C, 0xE0A3000C); (0x000D, 0xE0A3000D); (0x000E, 0xE0A3000E); (0x000F, 0xE0A3000F);
  (0x0010, 0xE0A30010); (0x0011, 0xE0A30011); (0x0012, 0xE0A30012); (0x0013, 0xE0A30013); (0x0014, 0xE0A30014);
  (0x0015, 0xE0A30015); (0x0016, 0xE0A30016); (0x0017, 0xE0A30017)].

(** [case 0x00A4] *)
Definition rpc_cases : list (Z * Z) := [
  (0x0001, 0x0002000E); (0x0002, 0xE0A40002); (0x0003, 0xE0A40003); (0x0004, 0xE0A40004); (0x0005, 0xE0A40005);
  (0x0006, 0xE0A40006); (0x0007, 0xE0A40007); (0x0008, 0xE0A40008); (0x0009, 0xE0A40009); (0x000A, 0xE0A4000A);
  (0x000B, 0xE0A4000B); (0x000C, 0xE0A4000C); (0x000D, 0xE0A4000D); (0x000E, 0xE0A4000E); (0x000F, 0xE0A4000F);
  (0x0010, 0xE0A40010); (0x0011, 0xE0A40011); (0x0012, 0xE0A40012); (0x0013, 0xE0A40013); (0x0014, 0xE0A40014);
  (0x0015, 0xE0A40015); (0x0016, 0xE0A40016); (0x0017, 0xE0A40017); (0x0018, 0xE0A40018); (0x0019, 0xE0A40019);
  (0x001A, 0xE0A4001A); (0x001B, 0xE0A4001B)].

(** One inner switch, with the code its [default] throws. *)
Definition switch (cases : list (Z * Z)) (second default : Z) : Z :=
  match List.find (fun c => bool_decide (c.1 = second)) cases with
  | Some c => c.2
  | None => default
  end.

(** [EndpointServerException(msg, name, code)], and the one without a code. *)
Definition server_exception (code : Z) : Z := Z.lor 0xF0000000 code.

Definition unknown_user : bytes := lit "User doesn't exist".

(** [case 0x0000]: a code that no [if] claims falls out of the switch. *)
Definition convert_server (type : exception_type) (what : bytes) (code second : Z) : Z :=
  switch server_cases second (
    if (0x0001 <=? second) && (second <=? 0x00A0) then server_exception code
    else if (0x6001 <=? second) && (second <=? 0x6FFF) then server_exception code
    else if (0x7001 <=? second) && (second <=? 0xF0A0) then server_exception code
    else match type with
         | LIBRARY => Z.lor code 0xE0000000
         | ALERT => if bool_decide (what = unknown_user) then 0xF0000009 else server_exception 0
         | RPC => server_exception 0
         end).

(** The code of the exception that [rethrowAsCoreException] throws for one of
    the type, the text and the code. *)
Definition rethrowAsCoreException (type : exception_type) (what : bytes) (e_code : Z) : Z :=
  let code := u32 e_code in
  let code_first_two_bytes := Z.shiftr (Z.land code 0xFFFF0000) 16 in
  let code_second_two_bytes := Z.land code 0x0000FFFF in
  if bool_decide (code_first_two_bytes = 0xFFFF) then switch server_request_cases code_second_two_bytes 0xFFFF0000
  else if bool_decide (code_first_two_bytes = 0x0000) then convert_server type what code code_second_two_bytes
  else if bool_decide (code_first_two_bytes = 0x0001) then switch connection_cases code_second_two_bytes 0xE0010000
  else if bool_decide (code_first_two_bytes = 0x0002) then switch http_cases code_second_two_bytes 0xE0020000
  else if bool_decide (code_first_two_bytes = 0x0003) then switch lib_cases code_second_two_bytes 0xE0030000
  else if bool_decide (code_first_two_bytes = 0x000C) then 0xE0030005
  else if bool_decide (code_first_two_bytes = 0x000D) then 0xE0030006
  else if bool_decide (code_first_two_bytes = 0x00A1) then switch crypto_cases code_second_two_bytes 0xE0A10000
  else if bool_decide (code_first_two_bytes = 0x00A3) then switch privfs_cases code_second_two_bytes 0xE0A30000
  else if bool_decide (code_first_two_bytes = 0x00A4) then switch rpc_cases code_second_two_bytes 0xE0A40000
  else Z.lor code 0xE0000000.

(** [convert(e).getCode()] *)
Definition convert (type : exception_type) (what : bytes) (code : Z) : Z := rethrowAsCoreException type what code.

Definition getCodeOfUserVerificationFailureException : Z := 0x0001000E.
End ExceptionConverter.

(** The codes of the endpoint's own exceptions: the scope's number and the
    exception's. *)
Definition endpointCode (e : exn) : option Z :=
  match e with
  | FileCorruptedException => Some 0x00040015
  | FileChunkInvalidChecksumException => Some 0x0004000B
  | FileChunkInvalidCipherChecksumException => Some 0x0004000C
  | FileRandomWriteInternalException => Some 0x0004002C
  | FileVersionMismatchException => Some 0x0004001F
  | HashIndexOutOfBoundsException => Some 0x00040029
  | InvalidFileTopHashException => Some 0x0004002A
  | InvalidHashSizeException => Some 0x00040029
  | InvalidFileChunkSizeException => Some 0x0004000E
  | InvalidFileHandleException => Some 0x00040011
  | InvalidFileReadHandleException => Some 0x0004000F
  | InvalidFileWriteHandleException => Some 0x00040010
  | NotImplementedException => Some 0x0004001B
  | PosOutOfBoundsException => Some 0x00040014
  | NumberToBigForCPUArchitectureException => Some 0x00040016
  | DataBiggerThanDeclaredException => Some 0x00020005
  | DataSmallerThanDeclaredException => Some 0x00020006
  | DataDifferentThanDeclaredException => Some 0x00020007
  | NoHandleFoundException => Some 0x00010005
  | InvalidParamsException => Some 0x00010002
  | InvalidSubscriptionQueryException => Some 0x00010024
  | KeyProviderRequestCompletedException => Some 0x00010018
  | EndpointCoreException => Some 0x00010000
  | UnsupportedTypeException => Some 0x00010004
  | InvalidDataSignatureException => Some 0x00010007
  | MalformedEncryptionKeyException => Some 0x00010010
  | MalformedDataIntegrityObjectException => Some 0x00010014
  | InvalidDataIntegrityObjectChecksumException => Some 0x00010015
  | DataIntegrityObjectMismatchEncKeyException => Some 0x00010016
  | DataIntegrityObjectInvalidSignatureException => Some 0x00010017
  | UserVerificationMethodUnhandledException => Some 0x0001000F
  | MalformedVerifierResponseException => Some 0x00010019
  | ModulePublicDataMismatchException => Some 0x00010021
  | InvalidEncryptedModuleDataVersionException => Some 0x00010022
  | UnknowThreadFormatException => Some 0x0003000D
  | ThreadEncryptionKeyValidationException => Some 0x00030016
  | ThreadDataIntegrityException => Some 0x00030014
  | UnknowMessageFormatException => Some 0x0003000E
  | MessageDataIntegrityException => Some 0x00030015
  | KvdbEncryptionKeyValidationException => Some 0x0009000C
  | KvdbDataIntegrityException => Some 0x00090011
  | KvdbEntryDataIntegrityException => Some 0x00090012
  | UnknownKvdbFormatException => Some 0x0009000F
  | UnknownKvdbEntryFormatException => Some 0x00090010
  | IncorrectKeyIdFormatException => Some 0x00030007
  | MessagePublicDataMismatchException => Some 0x00030011
  | InvalidEncryptedMessageDataVersionException => Some 0x0003000C
  | KvdbEntryPublicDataMismatchException => Some 0x0009000A
  | InvalidEncryptedKvdbEntryDataVersionException => Some 0x0009000B
  | FilePublicDataMismatchException => Some 0x00040021
  | InvalidEncryptedStoreFileMetaVersionException => Some 0x00040019
  | UnknownEncryptionKeyVersionException => Some 0x00010011
  | UnknowStoreFormatException => Some 0x0004001C
  | UnknowFileFormatException => Some 0x0004001D
  | StoreEncryptionKeyValidationException => Some 0x00040026
  | StoreDataIntegrityException => Some 0x00040027
  | FileDataIntegrityException => Some 0x00040028
  | StoreIncorrectKeyIdFormatException => Some 0x00040012
  | UnsupportedCipherTypeException => Some 0x00040009
  | FileSyncFailedHandleCloseException => Some 0x0004002B
  | WritingToFileInteruptedWrittenDataSmallerThenDeclaredException => Some 0x00040022
  | UnknownModuleEncryptionKeyException => Some 0x00010020
  | ThreadInvalidSubscriptionQueryException => Some 0x00030018
  | StoreInvalidSubscriptionQueryException => Some 0x0004002D
  | KvdbInvalidSubscriptionQueryException => Some 0x00090014
  | InboxInvalidSubscriptionQueryException => Some 0x00070024
  | EventInvalidSubscriptionQueryException => Some 0x00090006
  | StreamInvalidSubscriptionQueryException => Some 0x00080019
  | ForbiddenChannelNameException => Some 0x00090002
  | InvalidEncryptedEventDataVersionException => Some 0x00090005
  | EncryptionKeyContainerValidationException => Some 0x00010012
  | DataIntegrityObjectDuplicatedException => Some 0x00010013
  | UserVerificationFailureException => Some 0x0001000E
  | UnknownInboxHandleException => Some 0x00070002
  | InboxHandleIsNotTiedToInboxFileHandleException => Some 0x00070003
  | InboxIncorrectKeyIdFormatException => Some 0x00070007
  | FailedToExtractMessagePublicMetaException => Some 0x00070009
  | FileVersionMismatchHandleClosedException => Some 0x0007000A
  | InvalidEncryptedInboxDataVersionException => Some 0x0007000F
  | FileFetchFailedException => Some 0x00070012
  | InboxPublicDataMismatchException => Some 0x00070013
  | WritingToEntryInteruptedWrittenDataSmallerThenDeclaredException => Some 0x00070014
  | HandleIsUsedInInboxHandleException => Some 0x00070015
  | InboxInvalidFileReadHandleException => Some 0x00070016
  | InboxInvalidFileWriteHandleException => Some 0x00070017
  | UnknownInboxFormatException => Some 0x00070020
  | InboxDataIntegrityException => Some 0x00070021
  | InboxEncryptionKeyValidationException => Some 0x00070022
  | InboxModuleDoesNotSupportQueriesYetException => Some 0x00070099
  | _ => None
  end.

(** The codes of the libraries' exceptions, before conversion. *)
Definition libraryCode (e : exn) : option Z :=
  match e with
  | CryptoNotImplementedException => Some 0x00A1000C
  | WrongMessageSecurityTagException => Some 0x00A10007
  | DecryptInvalidKeyLengthException => Some 0x00A10008
  | EncryptInvalidKeyLengthException => Some 0x00A10011
  | MissingIvException => Some 0x00A10009
  | MissingRequiredSignatureException => Some 0x00A10016
  | UnknownDecryptionTypeException => Some 0x00A1000A
  | OnlyHmacSHA256WithIvIsSupportedForAES256CBCException => Some 0x00A10012
  | CannotPassIvToDeterministicAES256CBCHmacSHA256Exception => Some 0x00A10013
  | XTEAECBEncryptionDoesntSupportHmacAndIvException => Some 0x00A10014
  | InvalidFirstByteOfCipherException => Some 0x00A10017
  | GivenPublicKeyDoesNotMatchWithSignatureException => Some 0x00A10029
  | GivenPrivKeyDoesNotMatchException => Some 0x00A10018
  | InvalidChecksumException => Some 0x00A10010
  | InvalidBNException => Some 0x00A1001D
  | InvalidM2Exception => Some 0x00A1001E
  | UnsupportedAlgorithmException => Some 0x00A10019
  | UnsupportedHashAlgorithmException => Some 0x00A1000B
  | UnsupportedVersionException => Some 0x00A1001A
  | IncorrectParamsException => Some 0x00A1001B
  | InvalidStrengthException => Some 0x00A1000D
  | InvalidEntropyException => Some 0x00A1000E
  | InvalidMnemonicException => Some 0x00A1000F
  | InvalidVersionException => Some 0x00A1001F
  | InvalidParentFingerprintException => Some 0x00A10020
  | InvalidResultSizeException => Some 0x00A10022
  | InvalidNetworkException => Some 0x00A10023
  | InvalidCompressionFlagException => Some 0x00A10024
  | InvalidWIFPayloadLengthException => Some 0x00A10025
  | ExtKeyDoesNotHoldPrivateKeyException => Some 0x00A1002A
  | InvalidExtendedKeySizeException => Some 0x00A1002B
  | FrameHeaderTagsAreNotEqualException => Some 0x00A40016
  | FrameMacsAreNotEqualException => Some 0x00A40018
  | UnsupportedFrameVersionException => Some 0x00A40017
  | InvalidNextReadStateException => Some 0x00A40019
  | WriteStateIsNotInitializedException => Some 0x00A4001A
  | UnexpectedEcdhePacketFromServerException => Some 0x00A4000C
  | UnexpectedEcdhexPacketFromServerException => Some 0x00A4000D
  | InvalidHandshakeStateException => Some 0x00A4000A
  | TicketsCountIsEqualZeroException => Some 0x00A40001
  | ConnectionDestroyedException => Some 0x00A40010
  | SessionLostException => Some 0x00A40011
  | RpcException => Some 0x00A40000
  | HttpRequestException => Some 0x00A40007
  | InvalidWsChannelIdException => Some 0x00A4000E
  | NotConnectedException => Some 0x00010001
  | TicketHandshakeErrorException => Some 0x00A4001B
  | OperationCancelledException => Some 0x000C0000
  | UnsupportedKeyFormatException => Some 0x00A10001
  | ServerChallengeMissingSignatureException => Some 0x00A4001E
  | ServerChallengeFailedException => Some 0x00A4001D
  | TimeDifferenceBetweenServerAndClientBiggerThanAllowedException => Some 0x00A4001C
  | IncorrectHashmailException => Some 0x00A4000B
  | InvalidVersionFormatException => Some 0x00030005
  (* what the OpenSSL back end throws when a cipher rejects its input *)
  | DecryptError => Some 0x00A10026
  | _ => None
  end.

Definition ENDPOINT_CORE_EXCEPTION_CODE : Z := 0x00010000.

(** The code a caller sees: of an endpoint exception its own, of a
    [utils::PrivmxException] the converted one, of any other the core scope's. *)
Definition getCode (e : exn) : Z :=
  match endpointCode e with
  | Some code => code
  | None =>
      match e with
      | ServerError code => ExceptionConverter.convert RPC [] code
      | AlertException text => ExceptionConverter.convert ALERT text 0
      | PrivmxException text => ExceptionConverter.convert LIBRARY text 0
      | _ => match libraryCode e with
             | Some code => ExceptionConverter.convert LIBRARY [] code
             | None => ENDPOINT_CORE_EXCEPTION_CODE
             end
      end
  end.

(** ** What the codes tell apart *)

(** The exceptions known by a name. *)
Definition named_exns : list exn := [
  StdOutOfRange; StdInvalidArgument; FileCorruptedException; FileChunkInvalidChecksumException;
  FileChunkInvalidCipherChecksumException; FileRandomWriteInternalException; FileVersionMismatchException;
  HashIndexOutOfBoundsException; InvalidFileTopHashException; InvalidHashSizeException;
  InvalidFileChunkSizeException; InvalidFileHandleException; InvalidFileReadHandleException;
  InvalidFileWriteHandleException; PosOutOfBoundsException; NumberToBigForCPUArchitectureException;
  DataBiggerThanDeclaredException; DataSmallerThanDeclaredException; DataDifferentThanDeclaredException;
  NoHandleFoundException; InvalidParamsException; InvalidSubscriptionQueryException; NotImplementedException;
  KeyProviderRequestCompletedException; CryptoNotImplementedException; WrongMessageSecurityTagException;
  DecryptInvalidKeyLengthException; EncryptInvalidKeyLengthException; MissingIvException;
  MissingRequiredSignatureException; UnknownDecryptionTypeException;
  OnlyHmacSHA256WithIvIsSupportedForAES256CBCException;
  CannotPassIvToDeterministicAES256CBCHmacSHA256Exception; XTEAECBEncryptionDoesntSupportHmacAndIvException;
  InvalidFirstByteOfCipherException; GivenPublicKeyDoesNotMatchWithSignatureException;
  GivenPrivKeyDoesNotMatchException; InvalidChecksumException; InvalidBNException; InvalidM2Exception;
  UnsupportedAlgorithmException; UnsupportedHashAlgorithmException; UnsupportedVersionException;
  IncorrectParamsException; FrameHeaderTagsAreNotEqualException; FrameMacsAreNotEqualException;
  UnsupportedFrameVersionException; InvalidNextReadStateException; WriteStateIsNotInitializedException;
  UnexpectedEcdhePacketFromServerException; UnexpectedEcdhexPacketFromServerException;
  InvalidHandshakeStateException; TicketsCountIsEqualZeroException; ConnectionDestroyedException;
  SessionLostException; UnsupportedKeyFormatException; ServerChallengeMissingSignatureException; RpcException;
  HttpRequestException; InvalidWsChannelIdException; NotConnectedException;
  TicketHandshakeErrorException; OperationCancelledException;
  ServerChallengeFailedException; TimeDifferenceBetweenServerAndClientBiggerThanAllowedException;
  IncorrectHashmailException; InvalidVersionFormatException; EndpointCoreException; UnsupportedTypeException;
  InvalidDataSignatureException; MalformedEncryptionKeyException; MalformedDataIntegrityObjectException;
  InvalidDataIntegrityObjectChecksumException; DataIntegrityObjectMismatchEncKeyException;
  DataIntegrityObjectInvalidSignatureException; UserVerificationMethodUnhandledException;
  MalformedVerifierResponseException; ModulePublicDataMismatchException;
  InvalidEncryptedModuleDataVersionException; UnknowThreadFormatException;
  ThreadEncryptionKeyValidationException; ThreadDataIntegrityException; UnknowMessageFormatException;
  MessageDataIntegrityException; KvdbEncryptionKeyValidationException; KvdbDataIntegrityException;
  KvdbEntryDataIntegrityException; UnknownKvdbFormatException; UnknownKvdbEntryFormatException;
  IncorrectKeyIdFormatException; MessagePublicDataMismatchException;
  InvalidEncryptedMessageDataVersionException; KvdbEntryPublicDataMismatchException;
  InvalidEncryptedKvdbEntryDataVersionException; FilePublicDataMismatchException;
  InvalidEncryptedStoreFileMetaVersionException; UnknownEncryptionKeyVersionException;
  UnknowStoreFormatException; UnknowFileFormatException; StoreEncryptionKeyValidationException;
  StoreDataIntegrityException; FileDataIntegrityException; StoreIncorrectKeyIdFormatException;
  UnsupportedCipherTypeException; FileSyncFailedHandleCloseException;
  WritingToFileInteruptedWrittenDataSmallerThenDeclaredException; UnknownModuleEncryptionKeyException;
  ThreadInvalidSubscriptionQueryException; StoreInvalidSubscriptionQueryException;
  KvdbInvalidSubscriptionQueryException; InboxInvalidSubscriptionQueryException;
  EventInvalidSubscriptionQueryException; StreamInvalidSubscriptionQueryException;
  ForbiddenChannelNameException; InvalidEncryptedEventDataVersionException; EncryptionKeyContainerValidationException;
  DataIntegrityObjectDuplicatedException; UserVerificationFailureException; PocoException; PsonException;
  InvalidStrengthException; InvalidEntropyException; InvalidMnemonicException; InvalidVersionException;
  InvalidParentFingerprintException; InvalidResultSizeException; InvalidNetworkException;
  InvalidCompressionFlagException; InvalidWIFPayloadLengthException; ExtKeyDoesNotHoldPrivateKeyException;
  InvalidExtendedKeySizeException; UnknownInboxHandleException; InboxHandleIsNotTiedToInboxFileHandleException;
  InboxIncorrectKeyIdFormatException; FailedToExtractMessagePublicMetaException;
  FileVersionMismatchHandleClosedException; InvalidEncryptedInboxDataVersionException;
  FileFetchFailedException; InboxPublicDataMismatchException;
  WritingToEntryInteruptedWrittenDataSmallerThenDeclaredException; HandleIsUsedInInboxHandleException;
  InboxInvalidFileReadHandleException; InboxInvalidFileWriteHandleException; UnknownInboxFormatException;
  InboxDataIntegrityException; InboxEncryptionKeyValidationException;
  InboxModuleDoesNotSupportQueriesYetException;
  StdBadOptionalAccess; DecryptError].

(** The exceptions that share a code, and the one they are taken for. *)
Definition alias (e : exn) : exn :=
  match e with
  | StdInvalidArgument | StdBadOptionalAccess | PocoException | PsonException | EndpointCoreException => StdOutOfRange
  | InvalidHashSizeException => HashIndexOutOfBoundsException
  | XTEAECBEncryptionDoesntSupportHmacAndIvException => CannotPassIvToDeterministicAES256CBCHmacSHA256Exception
  | ServerChallengeFailedException | TimeDifferenceBetweenServerAndClientBiggerThanAllowedException | RpcException =>
      ServerChallengeMissingSignatureException
  | NotConnectedException => TicketsCountIsEqualZeroException
  | _ => e
  end.

Section Laws.
Import ExceptionConverter.

Lemma switch_inv cases second default v : switch cases second default = v ->
  v = default \/ (second, v) ∈ cases.
Proof.
  unfold switch. destruct (List.find _ cases) as [[a b]|] eqn:Ef; [|by left]. cbn. intros <-. right.
  apply List.find_some in Ef as [Hin Ha]. cbn in Ha. apply bool_decide_eq_true in Ha as <-.
  by apply list_elem_of_In.
Qed.

Lemma switch_in cases second default v : NoDup cases.*1 -> (second, v) ∈ cases -> switch cases second default = v.
Proof.
  intros Hnd Hin. unfold switch. destruct (List.find _ cases) as [[a b]|] eqn:Ef.
  - apply List.find_some in Ef as [Hi Ha]. cbn in Ha. apply bool_decide_eq_true in Ha as ->.
    apply list_elem_of_In in Hi. cbn. apply list_elem_of_lookup in Hi as [i Hi], Hin as [j Hj].
    pose proof (NoDup_lookup cases.*1 i j second Hnd) as Hij. rewrite !list_lookup_fmap, Hi, Hj in Hij.
    specialize (Hij eq_refl eq_refl) as ->. congruence.
  - apply list_elem_of_In in Hin. pose proof (List.find_none _ _ Ef _ Hin) as Hc. cbn in Hc.
    by rewrite bool_decide_eq_true_2 in Hc.
Qed.

Lemma halves code : 0 <= code < 2 ^ 28 ->
  Z.shiftr (Z.land (u32 code) 0xFFFF0000) 16 = code / 2 ^ 16 /\ Z.land (u32 code) 0x0000FFFF = code mod 2 ^ 16.
Proof.
  intros Hc. rewrite wrap_id by lia. split.
  - rewrite Z.shiftr_land. change (Z.shiftr 0xFFFF0000 16) with (Z.ones 16). rewrite Z.land_ones, Z.shiftr_div_pow2 by lia.
    apply Z.mod_small. split; [apply Z.div_pos; lia|]. apply Z.div_lt_upper_bound; lia.
  - change 0x0000FFFF with (Z.ones 16). by rewrite Z.land_ones.
Qed.

(** The codes the server's table has are 16 bits wide, and keep them. *)
Lemma server_case k v : (k, v) ∈ server_cases -> v = server_exception k /\ 0x30 <= k < 2 ^ 16.
Proof.
  intros Hin. assert (Forall (fun c => c.2 = server_exception c.1 /\ 0x30 <= c.1 < 2 ^ 16) server_cases) as HF
    by (repeat (constructor; [by vm_compute|]); constructor).
  rewrite Forall_forall in HF. exact (HF _ Hin).
Qed.

Lemma server_exception_inj a b : 0 <= a < 2 ^ 16 -> 0 <= b < 2 ^ 16 -> server_exception a = server_exception b -> a = b.
Proof.
  intros Ha Hb He. apply (f_equal (fun x => Z.land x (Z.ones 16))) in He. unfold server_exception in He.
  rewrite !Z.land_lor_distr_l, !Z.land_ones, !(Z.mod_small a), !(Z.mod_small b) in He by lia. exact He.
Qed.

(** What the fall-through makes of a code is no code of the server. *)
Lemma fallthrough_no_server code k : 0 <= code < 2 ^ 28 -> Z.lor code 0xE0000000 <> server_exception k.
Proof.
  intros Hc He. apply (f_equal (fun x => Z.testbit x 28)) in He. unfold server_exception in He.
  rewrite !Z.lor_spec in He. change (Z.testbit 0xF0000000 28) with true in He.
  change (Z.testbit 0xE0000000 28) with false in He. rewrite orb_false_r in He. cbn [orb] in He.
  apply Z.testbit_true in He; [|lia]. rewrite Z.div_small in He by lia. done.
Qed.

(** A switch of another scope gives no code of the server. *)
Definition elsewhere (cases : list (Z * Z)) (default : Z) : Prop :=
  Forall (fun x => bool_decide (x ∈ server_cases.*2) = false) (default :: cases.*2).

Lemma elsewhere_no_server cases second default k v : elsewhere cases default -> (k, v) ∈ server_cases ->
  switch cases second default <> v.
Proof.
  unfold elsewhere. rewrite Forall_forall. intros HF Hin He.
  assert (v ∈ default :: cases.*2) as Hv.
  { apply switch_inv in He as [->|Hi]; [by left|]. right. apply list_elem_of_fmap. by exists (second, v). }
  specialize (HF v Hv). apply bool_decide_eq_false in HF. apply HF, list_elem_of_fmap. by exists (k, v).
Qed.

Lemma convert_server_recognises type what code k v : (k, v) ∈ server_cases -> 0 <= code < 2 ^ 16 ->
  convert_server type what code code = v <-> code = k.
Proof.
  intros Hin Hc. destruct (server_case k v Hin) as [Hv Hk]. split.
  - unfold convert_server. intros [Hd|Hc']%switch_inv.
    + assert (forall x, 0 <= x < 2 ^ 16 -> v = server_exception x -> x = k) as Hx
        by (intros x Hx Hvx; apply server_exception_inj; lia || congruence).
      destruct (_ && _); [by apply Hx|]. destruct (_ && _); [by apply Hx|]. destruct (_ && _); [by apply Hx|].
      destruct type.
      * rewrite Hv in Hd. symmetry in Hd. by apply fallthrough_no_server in Hd; [|lia].
      * specialize (Hx 0 ltac:(lia) Hd). lia.
      * case_bool_decide; [specialize (Hx 9 ltac:(lia) Hd)|specialize (Hx 0 ltac:(lia) Hd)]; lia.
    + apply server_case in Hc' as [Hc' _]. apply server_exception_inj; [lia..|congruence].
  - intros ->. apply switch_in; [|done]. apply (bool_decide_unpack _). by vm_compute.
Qed.

(** the number a module compares an error with ([InvalidKey],
    [InvalidKeyId], [StoreFileVersionMismatch] and the like) is that of no error
    but the server's, whatever library the error comes from, if its code leaves
    the top four bits alone. *)
Theorem conversion_recognises type what code k v : (k, v) ∈ server_cases -> 0 <= code < 2 ^ 28 ->
  convert type what code = v <-> code = k.
Proof.
  intros Hin Hc. destruct (halves code Hc) as [Hfirst Hsecond]. destruct (server_case k v Hin) as [Hv Hk].
  unfold convert, rethrowAsCoreException. rewrite Hfirst, Hsecond, wrap_id by lia.
  pose proof (Z.div_mod code (2 ^ 16) ltac:(lia)) as Hdm. pose proof (Z.mod_pos_bound code (2 ^ 16) ltac:(lia)).
  assert (0 <= code / 2 ^ 16 < 2 ^ 12) as Hq
    by (split; [apply Z.div_pos; lia|apply Z.div_lt_upper_bound; lia]).
  rewrite bool_decide_eq_false_2 by lia.
  case_bool_decide as H0.
  { replace (code mod 2 ^ 16) with code by lia. apply convert_server_recognises; [done|lia]. }
  assert (code <> k) as Hne by lia.
  split; [intros He; exfalso; revert He|done].
  assert (forall cases second default, elsewhere cases default -> switch cases second default <> v) as Hel
    by (intros; by eapply elsewhere_no_server).
  assert (forall d, elsewhere [] d -> d <> v) as Hconst by (intros d Hd; exact (Hel [] 0 d Hd)).
  repeat (case_bool_decide; [first [apply Hel|apply Hconst]; apply (bool_decide_unpack _); by vm_compute|]).
  rewrite Hv. by apply fallthrough_no_server.
Qed.
End Laws.

Example conversion_recognises_witness :
  ExceptionConverter.convert RPC [] 0x6015 = 0xF0006015 <-> 0x6015 = 0x6015.
Proof.
  apply conversion_recognises; [apply (bool_decide_unpack _); by vm_compute|by vm_compute].
Defined.

(** The exception a code stands for. *)
Definition of_code (code : Z) : option exn := List.find (fun e => bool_decide (getCode e = code)) named_exns.

Lemma of_code_alias e : e ∈ named_exns -> of_code (getCode e) = Some (alias e).
Proof.
  assert (Forall (fun e => of_code (getCode e) = Some (alias e)) named_exns) as HF
    by (apply (bool_decide_unpack _); by vm_compute).
  rewrite Forall_forall in HF. apply HF.
Qed.

(** a code names its exception, but for the standard library's own
    exceptions, which all show as the core scope's; for a hash list's two, and
    the two about deterministic encryption and XTEA, which were given the same
    number; and for three of the handshake's, which the converter does not know: they show as
    the RPC library's general one; and an absent connection, which shows as used up tickets do. *)
Theorem codes_separate e1 e2 : e1 ∈ named_exns -> e2 ∈ named_exns ->
  getCode e1 = getCode e2 <-> alias e1 = alias e2.
Proof.
  intros H1 H2. split.
  - intros He. apply of_code_alias in H1, H2. congruence.
  - assert (Forall (fun e => getCode (alias e) = getCode e) named_exns) as HF
      by (apply (bool_decide_unpack _); by vm_compute).
    rewrite Forall_forall in HF. rewrite <- (HF e1), <- (HF e2) by done. by intros ->.
Qed.

Example codes_separate_witness :
  getCode InvalidHashSizeException = getCode HashIndexOutOfBoundsException
    <-> alias InvalidHashSizeException = alias HashIndexOutOfBoundsException.
Proof. apply codes_separate; apply (bool_decide_unpack _); by vm_compute. Defined.
