(* ===== verification/CoreTypes.v ===== *)
(** * Shared types (endpoint/core/include/privmx/endpoint/core/CoreTypes.hpp) *)

From Stdlib Require Import ZArith.
From stdpp Require Import base list gmap countable.
From S2P Require Import Prelude Bytes.

Record EncKey := mkEncKey { ek_id : bytes; ek_key : bytes }.

(** [core::BridgeIdentity] (include_pub/.../Types.hpp) *)
Record BridgeIdentity := mkBridgeIdentity {
  bi_url : bytes;
  bi_pubKey : option bytes;
  bi_instanceId : option bytes;
}.

Record DataIntegrityObject := mkDIO {
  dio_creatorUserId : bytes;
  dio_creatorPubKey : bytes;
  dio_contextId : bytes;
  dio_resourceId : bytes;
  dio_timestamp : Z;
  dio_randomId : bytes;
  dio_containerId : option bytes;
  dio_containerResourceId : option bytes;
  dio_bridgeIdentity : option BridgeIdentity;
}.

(** [DecryptedEncKey]: an [EncKey] with its [DecryptedVersionedData]. *)
Record DecryptedEncKey := mkDecryptedEncKey {
  dek_key : EncKey;
  dek_dataStructureVersion : Z;
  dek_statusCode : Z;
}.

Record EncKeyLocation := mkLocation { loc_contextId : bytes; loc_resourceId : bytes }.

#[export] Instance EncKey_eq_dec : EqDecision EncKey.
Proof. solve_decision. Defined.
#[export] Instance BridgeIdentity_eq_dec : EqDecision BridgeIdentity.
Proof. solve_decision. Defined.
#[export] Instance DIO_eq_dec : EqDecision DataIntegrityObject.
Proof. solve_decision. Defined.
#[export] Instance DecryptedEncKey_eq_dec : EqDecision DecryptedEncKey.
Proof. solve_decision. Defined.
#[export] Instance EncKeyLocation_eq_dec : EqDecision EncKeyLocation.
Proof. solve_decision. Defined.

#[export] Instance EncKeyLocation_countable : Countable EncKeyLocation.
Proof.
  refine (inj_countable' (fun l => (loc_contextId l, loc_resourceId l))
    (fun p => mkLocation p.1 p.2) _).
  by intros [].
Defined.
