(* ===== verification/Crypto.v ===== *)
(** * The cryptographic services

    [privmx::crypto::Crypto] (crypto/base/include/privmx/crypto/Crypto.hpp)
    forwards every call to the service of the configured driver; the primitives
    themselves (hashes, HMAC, AES, the random generator) live outside the
    repository.  They are the fields of [CryptoService]; what the modelled code
    relies on is [CryptoLaws], documented behaviour of those primitives.  [Toy]
    is a concrete service that satisfies the laws, for the witnesses. *)

From Stdlib Require Import ZArith Lia Strings.String.
From stdpp Require Import base list.
From S2P Require Import Prelude Bytes.

(** The generator's state is threaded through the calls that draw from it. *)
Class CryptoService := {
  rng : Type;
  randomBytes : Z -> rng -> bytes * rng;
  sha256 : bytes -> bytes;
  sha512 : bytes -> bytes;
  hmacSha256 : bytes -> bytes -> bytes;                        (* key, data *)
  hmacSha512 : bytes -> bytes -> bytes;
  hash160 : bytes -> bytes;
  pbkdf2 : bytes -> bytes -> Z -> Z -> bytes;                  (* password, salt, rounds, length *)
  aes256EcbEncrypt : bytes -> bytes -> bytes;                  (* data, key *)
  aes256EcbDecrypt : bytes -> bytes -> outcome bytes;
  aes256CbcPkcs7Encrypt : bytes -> bytes -> bytes -> bytes;    (* data, key, iv *)
  aes256CbcPkcs7Decrypt : bytes -> bytes -> bytes -> outcome bytes;
}.

Definition AES_BLOCK : Z := 16.

Class CryptoLaws (C : CryptoService) := {
  randomBytes_len n g : 0 <= n -> zlen (randomBytes n g).1 = n;
  sha256_len d : zlen (sha256 d) = 32;
  sha512_len d : zlen (sha512 d) = 64;
  hmacSha256_len k d : zlen (hmacSha256 k d) = 32;
  hmacSha512_len k d : zlen (hmacSha512 k d) = 64;
  hash160_len d : zlen (hash160 d) = 20;
  (** ECB is a permutation of the blocks. *)
  aes256Ecb_len d k : zlen d mod AES_BLOCK = 0 -> zlen (aes256EcbEncrypt d k) = zlen d;
  aes256Ecb_inv d k : zlen d mod AES_BLOCK = 0 -> aes256EcbDecrypt (aes256EcbEncrypt d k) k = Ret d;
  (** CBC with PKCS#7: the padding fills the last block and is never empty. *)
  aes256Cbc_len d k iv :
    zlen (aes256CbcPkcs7Encrypt d k iv) = zlen d + (AES_BLOCK - zlen d mod AES_BLOCK);
  aes256Cbc_inv d k iv :
    aes256CbcPkcs7Decrypt (aes256CbcPkcs7Encrypt d k iv) k iv = Ret d;
  (** CBC chaining: the first ciphertext block is the initialisation vector
      of the rest. *)
  aes256Cbc_chain b d k iv : zlen b = AES_BLOCK ->
    aes256CbcPkcs7Decrypt (zdrop AES_BLOCK (aes256CbcPkcs7Encrypt (b ++ d) k iv)) k
      (ztake AES_BLOCK (aes256CbcPkcs7Encrypt (b ++ d) k iv)) = Ret d;
}.

(** ** A service that satisfies the laws

    Not cryptography: the "hash" folds the bytes into a small accumulator,
    the ciphers only pad. *)
Module Toy.
Definition mix (d : bytes) : Z :=
  fold_left (fun acc b => (acc * 257 + byte_val b + 1) mod 65521) d 7.

Definition hash (d : bytes) : bytes := be_encode 32 (mix d).

Definition pad_len (d : bytes) : Z := AES_BLOCK - zlen d mod AES_BLOCK.
Definition pad (d : bytes) : bytes := d ++ replicate (Z.to_nat (pad_len d)) (byte_of (pad_len d)).
Definition unpad (c : bytes) : outcome bytes :=
  match last c with
  | Some b => Ret (ztake (zlen c - byte_val b) c)
  | None => Throw DecryptError
  end.

Definition draw (n : Z) (g : Z) : bytes * Z :=
  (replicate (Z.to_nat n) (byte_of g), g + 1).

#[export] Instance service : CryptoService := {|
  rng := Z;
  randomBytes := draw;
  sha256 := hash;
  sha512 d := be_encode 64 (mix d);
  hmacSha256 k d := hash (k ++ d);
  hmacSha512 k d := be_encode 64 (mix (k ++ d));
  hash160 d := be_encode 20 (mix d);
  pbkdf2 p s r n := ztake n (hash (p ++ s) ++ zeros n);
  aes256EcbEncrypt d k := d;
  aes256EcbDecrypt d k := Ret d;
  aes256CbcPkcs7Encrypt d k iv := pad d;
  aes256CbcPkcs7Decrypt c k iv := unpad c;
|}.

Lemma pad_len_range d : 1 <= pad_len d <= 16.
Proof. unfold pad_len, AES_BLOCK. pose proof (Z.mod_pos_bound (zlen d) 16). lia. Qed.

Lemma unpad_pad d : unpad (pad d) = Ret d.
Proof.
  pose proof (pad_len_range d) as Hr. unfold unpad, pad.
  set (p := pad_len d) in *. assert (exists m, Z.to_nat p = S m) as [m Hm].
  { exists (pred (Z.to_nat p)). lia. }
  rewrite Hm. rewrite replicate_S_end, app_assoc, last_snoc.
  rewrite byte_val_of, Z.mod_small by lia.
  f_equal. rewrite <- app_assoc, <- replicate_S_end, <- Hm.
  apply ztake_app_eq. rewrite zlen_app, zlen_replicate by lia. lia.
Qed.

Lemma pad_app b d : zlen b = AES_BLOCK -> pad (b ++ d) = b ++ pad d.
Proof.
  intros Hb. unfold pad. assert (pad_len (b ++ d) = pad_len d) as ->.
  { unfold pad_len. rewrite zlen_app, Hb. unfold AES_BLOCK.
    rewrite (Z.add_comm 16), <- (Z.mul_1_l 16), Z_mod_plus_full. done. }
  by rewrite <- app_assoc.
Qed.

#[export] Instance laws : CryptoLaws service.
Proof.
  constructor; intros; cbn [randomBytes sha256 sha512 hmacSha256 hmacSha512 hash160 aes256EcbEncrypt aes256EcbDecrypt
    aes256CbcPkcs7Encrypt aes256CbcPkcs7Decrypt service].
  - apply zlen_replicate. done.
  - apply zlen_be_encode.
  - apply zlen_be_encode.
  - apply zlen_be_encode.
  - apply zlen_be_encode.
  - apply zlen_be_encode.
  - done.
  - done.
  - unfold pad. rewrite zlen_app, zlen_replicate by (pose proof (pad_len_range d); lia). done.
  - apply unpad_pad.
  - rewrite pad_app by done. rewrite zdrop_app_eq by done. apply unpad_pad.
Qed.
End Toy.
