(* ===== verification/Base58.v ===== *)
(** * Base58 texts

    [utils::Base58] (crypto/base/src/utils/Base58.cpp): bytes as the digits of
    one number, written in the Bitcoin alphabet, with and without a checksum.
    GMP's numbers are [Z]; what the code calls of GMP follows its manual. *)

From Stdlib Require Import ZArith Lia Strings.String Strings.Byte.
From stdpp Require Import base list.
From S2P Require Import Prelude Bytes Crypto.

(** ** Digits of a number *)
Section Radix.
Context (b : Z).

Definition value_of (ds : list Z) : Z := fold_left (fun acc d => acc * b + d) ds 0.

(** The most significant digit first; none for zero. *)
Fixpoint radix_go (fuel : nat) (x : Z) (acc : list Z) : list Z :=
  match fuel with
  | O => acc
  | S fuel => if bool_decide (x = 0) then acc else radix_go fuel (x / b) (x mod b :: acc)
  end.

(** A digit takes at least one bit. *)
Definition radix (x : Z) : list Z := radix_go (Z.to_nat (Z.log2 x + 1)) x [].

Definition digit (d : Z) : Prop := 0 <= d < b.

(** Digits without a zero in front. *)
Definition canonical (ds : list Z) : Prop := Forall digit ds /\ head ds <> Some 0.

Context (Hb : 2 <= b).

Lemma value_snoc ds d : value_of (ds ++ [d]) = value_of ds * b + d.
Proof. unfold value_of. by rewrite fold_left_app. Qed.

Lemma radix_go_acc fuel x acc : radix_go fuel x acc = radix_go fuel x [] ++ acc.
Proof.
  revert x acc. induction fuel as [|fuel IH]; intros x acc; [done|]. cbn [radix_go].
  case_bool_decide; [done|]. rewrite IH, (IH _ [_]), <- app_assoc. done.
Qed.

Lemma radix_go_step fuel x : x <> 0 -> radix_go (S fuel) x [] = radix_go fuel (x / b) [] ++ [x mod b].
Proof. intros. cbn [radix_go]. rewrite bool_decide_eq_false_2 by done. apply radix_go_acc. Qed.

Lemma radix_go_zero fuel acc : radix_go fuel 0 acc = acc.
Proof. destruct fuel; [done|]. cbn. by rewrite bool_decide_eq_true_2. Qed.

Lemma radix_go_spec fuel x : 0 <= x < 2 ^ Z.of_nat fuel ->
  value_of (radix_go fuel x []) = x /\ canonical (radix_go fuel x []).
Proof.
  revert x. induction fuel as [|fuel IH]; intros x Hx.
  { change (2 ^ Z.of_nat 0) with 1 in Hx. assert (x = 0) as -> by lia. by split; [|split; [constructor|]]. }
  rewrite Nat2Z.inj_succ, Z.pow_succ_r in Hx by lia.
  destruct (decide (x = 0)) as [->|Hne]; [rewrite radix_go_zero; by split; [|split; [constructor|]]|].
  pose proof (Z.div_mod x b ltac:(lia)) as Hdm. pose proof (Z.mod_pos_bound x b ltac:(lia)) as Hmod.
  assert (0 <= x / b) by (apply Z.div_pos; lia).
  destruct (IH (x / b)) as (Hv & Hd & Hh); [nia|]. rewrite radix_go_step by done.
  split; [rewrite value_snoc; lia|]. split; [apply Forall_app; split; [done|by apply Forall_singleton]|].
  destruct (radix_go fuel (x / b) []) as [|d ds] eqn:Er; cbn in *; [|done].
  change (value_of []) with 0 in Hv. intros [= He]. nia.
Qed.

Lemma radix_spec x : 0 <= x -> value_of (radix x) = x /\ canonical (radix x).
Proof.
  intros Hx. apply radix_go_spec. pose proof (Z.log2_nonneg x). rewrite Z2Nat.id by lia.
  destruct (decide (x = 0)) as [->|]; [done|]. pose proof (Z.log2_spec x ltac:(lia)).
  replace (Z.log2 x + 1) with (Z.succ (Z.log2 x)) by lia. lia.
Qed.

Lemma canonical_snoc ds d : canonical (ds ++ [d]) <-> canonical ds /\ digit d /\ (ds = [] -> d <> 0).
Proof.
  unfold canonical. rewrite Forall_app, Forall_singleton. destruct ds as [|x ds]; cbn [app head].
  - split.
    + intros [[_ Hd] Hh]. split; [by split|]. split; [exact Hd|]. intros _ He. apply Hh. by rewrite He.
    + intros (_ & Hd & Hne). split; [by split|]. intros He. apply Hne; [done|]. by injection He.
  - split; [intros [[? ?] ?]; split; [done|]; by split|tauto].
Qed.

Lemma value_bounds ds : canonical ds -> 0 <= value_of ds /\ (ds <> [] -> b ^ (zlen ds - 1) <= value_of ds < b ^ zlen ds).
Proof.
  induction ds as [|d ds IH] using rev_ind; intros Hc; [done|].
  apply canonical_snoc in Hc as (Hc & Hd & Hne). destruct (IH Hc) as [H0 Hds]. unfold digit in Hd.
  rewrite value_snoc. split; [nia|]. intros _. rewrite zlen_app. change (zlen [d]) with 1.
  pose proof (zlen_nonneg ds). rewrite Z.pow_add_r, Z.pow_1_r, Z.add_simpl_r by lia.
  destruct ds as [|x ds]; [specialize (Hne eq_refl); change (value_of []) with 0; change (zlen []) with 0; lia|].
  destruct (Hds ltac:(done)) as [Hlo Hhi]. split; [|nia].
  replace (zlen (x :: ds)) with (zlen (x :: ds) - 1 + 1) by lia. rewrite zlen_cons in *. pose proof (zlen_nonneg ds).
  rewrite Z.pow_add_r, Z.pow_1_r by lia. nia.
Qed.

Lemma radix_go_value fuel ds : canonical ds -> value_of ds < 2 ^ Z.of_nat fuel -> radix_go fuel (value_of ds) [] = ds.
Proof.
  revert fuel. induction ds as [|d ds IH] using rev_ind; intros fuel Hc Hf; [apply radix_go_zero|].
  pose proof (value_bounds _ Hc) as [_ Hpos]. specialize (Hpos ltac:(by destruct ds)).
  assert (value_of (ds ++ [d]) <> 0) as Hne.
  { rewrite zlen_app in Hpos. change (zlen [d]) with 1 in Hpos. pose proof (zlen_nonneg ds).
    assert (0 < b ^ (zlen ds + 1 - 1)) by (apply Z.pow_pos_nonneg; lia). lia. }
  apply canonical_snoc in Hc as (Hc & Hd & _). destruct (value_bounds ds Hc) as [H0 _].
  destruct fuel as [|fuel].
  { change (2 ^ Z.of_nat 0) with 1 in Hf. rewrite value_snoc in *. unfold digit in Hd. nia. }
  rewrite radix_go_step by done. rewrite value_snoc in *. rewrite Nat2Z.inj_succ, Z.pow_succ_r in Hf by lia. unfold digit in Hd.
  rewrite (Z.add_comm _ d), Z.div_add, Z.div_small, Z.mod_add, Z.mod_small by lia. rewrite Z.add_0_l.
  rewrite IH; [done|done|nia].
Qed.

(** Digits without a zero in front are those of their number. *)
Lemma radix_value ds : canonical ds -> radix (value_of ds) = ds.
Proof.
  intros Hc. destruct (value_bounds ds Hc) as [H0 _]. apply radix_go_value; [done|].
  pose proof (Z.log2_nonneg (value_of ds)). rewrite Z2Nat.id by lia.
  destruct (decide (value_of ds = 0)) as [->|]; [done|]. pose proof (Z.log2_spec (value_of ds) ltac:(lia)).
  replace (Z.log2 (value_of ds) + 1) with (Z.succ (Z.log2 (value_of ds))) by lia. lia.
Qed.

(** Zeros in front do not count. *)
Lemma value_zeros n ds : value_of (replicate n 0 ++ ds) = value_of ds.
Proof. unfold value_of. induction n as [|n IH]; [done|]. cbn. exact IH. Qed.
End Radix.

(** ** GMP *)

(** [mpz_import] and [mpz_export], most significant byte first. *)
Definition mpz_import (s : bytes) : Z := value_of 256 (byte_val <$> s).
Definition mpz_export (x : Z) : bytes := byte_of <$> radix 256 x.

(** The digits of bases above 36. *)
Definition gmp_digits : bytes := lit "0123456789ABCDEFGHIJKLMNOPQRSTUVWXYZabcdefghijklmnopqrstuvwxyz".

(** [x.get_str(base)] of a number that is not negative. *)
Definition get_str (b x : Z) : bytes :=
  if bool_decide (x = 0) then lit "0" else (fun d => nth (Z.to_nat d) gmp_digits x00) <$> radix b x.

(** [mpz_class(s, base)]: without digits, or with a character that is not one,
    it throws; signs and white space do not occur in what is passed to it. *)
Definition digit_of (b : Z) (c : byte) : outcome Z :=
  match list_find (fun x => x = c) gmp_digits with
  | Some (d, _) => if bool_decide (Z.of_nat d < b) then Ret (Z.of_nat d) else Throw StdInvalidArgument
  | None => Throw StdInvalidArgument
  end.

Definition set_str (b : Z) (s : bytes) : outcome Z :=
  ds ← mapM (digit_of b) s;
  if bool_decide (ds = []) then Throw StdInvalidArgument else Ret (value_of b ds).

(** ** Base58 *)
Module Base58.
(** The tables have an entry for every character below 128. *)
Definition gmp2bitcoin_map : bytes :=
  replicate 48 xff ++ lit "123456789A" ++ replicate 7 xff ++ lit "BCDEFGHJKLMNPQRSTUVWXYZabc" ++ replicate 6 xff
  ++ lit "defghijkmnopqrstuvwxyz" ++ replicate 9 xff.

Definition bitcoin2gmp_map : bytes :=
  replicate 49 xff ++ lit "012345678" ++ replicate 7 xff ++ lit "9ABCDEFG" ++ [xff] ++ lit "HIJKL" ++ [xff]
  ++ lit "MNOPQRSTUVW" ++ replicate 6 xff ++ lit "XYZabcdefgh" ++ [xff] ++ lit "ijklmnopqrstuv" ++ replicate 5 xff.

(** [map[c]]: past the table's end the read is undefined. *)
Definition map_char (table : bytes) (c : byte) : outcome byte :=
  match table !! Z.to_nat (byte_val c) with Some x => Ret x | None => Throw UndefinedBehaviour end.

Definition gmp2bitcoin (s : bytes) : outcome bytes := mapM (map_char gmp2bitcoin_map) s.
Definition bitcoin2gmp (s : bytes) : outcome bytes := mapM (map_char bitcoin2gmp_map) s.

Fixpoint count_first (c : byte) (s : bytes) : nat :=
  match s with
  | x :: s => if bool_decide (x = c) then S (count_first c s) else O
  | [] => O
  end.

Definition encode (s : bytes) : outcome bytes :=
  result ← gmp2bitcoin (get_str 58 (mpz_import s));
  mret (replicate (count_first x00 s) x31 ++ result).

Definition decode (s : bytes) : outcome bytes :=
  digits ← bitcoin2gmp s;
  x ← set_str 58 digits;
  mret (replicate (count_first x31 s) x00 ++ mpz_export x).

Section Checksum.
Context `{CryptoService}.

Definition checksum (s : bytes) : bytes := ztake 4 (sha256 (sha256 s)).

Definition encodeWithChecksum (s : bytes) : outcome bytes := encode (s ++ checksum s).

(** [data.length() - 4] wraps around below four. *)
Definition decodeWithChecksum (s : bytes) : outcome bytes :=
  data ← decode s;
  payload ← substr data 0 (u64 (zlen data - 4));
  sum ← substr_from data (u64 (zlen data - 4));
  if bool_decide (sum <> checksum payload) then Throw (PrivmxException (lit "Invalid base58 checksum"))
  else mret payload.
End Checksum.

(** [is]: the regular expression [^[A-HJ-NP-Za-km-z1-9]*={0,2}$] *)
Definition base58_char (c : byte) : bool :=
  let v := byte_val c in
  bool_decide (65 <= v <= 72 \/ 74 <= v <= 78 \/ 80 <= v <= 90 \/ 97 <= v <= 107 \/ 109 <= v <= 122 \/ 49 <= v <= 57).

Fixpoint skip_base58 (s : bytes) : bytes :=
  match s with c :: s' => if base58_char c then skip_base58 s' else s | [] => [] end.

Definition is_ (s : bytes) : bool :=
  match skip_base58 s with [] | [x3d] | [x3d; x3d] => true | _ => false end.

(** ** The alphabet *)
Definition alphabet : bytes := lit "123456789ABCDEFGHJKLMNPQRSTUVWXYZabcdefghijkmnopqrstuvwxyz".
Definition letter (d : Z) : byte := nth (Z.to_nat d) alphabet x00.

(** Both tables agree with it, digit by digit and character by character. *)
Definition letter_ok (d : Z) : bool :=
  match map_char gmp2bitcoin_map (nth (Z.to_nat d) gmp_digits x00) with
  | Ret c => bool_decide (c = letter d)
  | Throw _ => false
  end
  && match (c ← map_char bitcoin2gmp_map (letter d); digit_of 58 c) with
     | Ret e => bool_decide (e = d)
     | Throw _ => false
     end.

Lemma letters_ok d : 0 <= d < 58 -> letter_ok d = true.
Proof.
  intros Hd. assert (forallb letter_ok (seqZ 0 58) = true) as Hall by (by vm_compute).
  rewrite forallb_forall in Hall. apply Hall, list_elem_of_In, elem_of_seqZ. lia.
Qed.

Lemma letter_of_digit d : 0 <= d < 58 -> map_char gmp2bitcoin_map (nth (Z.to_nat d) gmp_digits x00) = Ret (letter d).
Proof.
  intros Hd%letters_ok. unfold letter_ok in Hd. apply andb_true_iff in Hd as [Hd _].
  destruct (map_char _ _) as [c|]; [|done]. by apply bool_decide_eq_true in Hd as ->.
Qed.

Lemma digit_of_letter d : 0 <= d < 58 -> (c ← map_char bitcoin2gmp_map (letter d); digit_of 58 c) = Ret d.
Proof.
  intros Hd%letters_ok. unfold letter_ok in Hd. apply andb_true_iff in Hd as [_ Hd].
  destruct (c ← map_char bitcoin2gmp_map (letter d); digit_of 58 c) as [e|]; [|done]. by apply bool_decide_eq_true in Hd as ->.
Qed.

(** Nothing else is read as a digit. *)
Lemma letter_only c x d : map_char bitcoin2gmp_map c = Ret x -> digit_of 58 x = Ret d -> 0 <= d < 58 /\ c = letter d.
Proof.
  assert (forallb (fun c => match (x ← map_char bitcoin2gmp_map c; digit_of 58 x) with
    | Ret d => bool_decide (0 <= d < 58) && bool_decide (c = letter d) | Throw _ => true end)
    (byte_of <$> seqZ 0 256) = true) as Hall by (by vm_compute).
  rewrite forallb_forall in Hall. intros Hx Hd. specialize (Hall c). unfold_st. rewrite Hx, Hd in Hall.
  assert (In c (byte_of <$> seqZ 0 256)) as Hin.
  { apply list_elem_of_In, list_elem_of_fmap. exists (byte_val c). split; [by rewrite byte_of_val|].
    apply elem_of_seqZ. pose proof (byte_val_range c). lia. }
  apply Hall, andb_true_iff in Hin as [?%bool_decide_eq_true ?%bool_decide_eq_true]. done.
Qed.

Lemma letter_inj d e : 0 <= d < 58 -> 0 <= e < 58 -> letter d = letter e -> d = e.
Proof. intros Hd%digit_of_letter He%digit_of_letter Hl. rewrite Hl, He in Hd. by injection Hd. Qed.

(** ** Texts as numbers *)
Lemma mapM_cons_ret {A B} (f : A -> outcome B) x l y ys :
  f x = Ret y -> mapM f l = Ret ys -> mapM f (x :: l) = Ret (y :: ys).
Proof. cbn. by intros -> ->. Qed.

Lemma mapM_cons_inv {A B} (f : A -> outcome B) x l r : mapM f (x :: l) = Ret r ->
  exists y ys, f x = Ret y /\ mapM f l = Ret ys /\ r = y :: ys.
Proof.
  cbn. destruct (f x) as [y|]; [|done]. cbn. destruct (mapM f l) as [ys|]; [|done]. intros [= <-]. by exists y, ys.
Qed.

Lemma get_str_letters x : 0 < x -> gmp2bitcoin (get_str 58 x) = Ret (letter <$> radix 58 x).
Proof.
  intros Hx. unfold gmp2bitcoin, get_str. rewrite bool_decide_eq_false_2 by lia.
  destruct (radix_spec 58 ltac:(lia) x ltac:(lia)) as [_ [Hd _]].
  induction Hd as [|d ds Hd _ IH]; [done|]. apply mapM_cons_ret; [by apply letter_of_digit|exact IH].
Qed.

(** The number a text stands for. *)
Definition number (s : bytes) : outcome Z := digits ← bitcoin2gmp s; set_str 58 digits.

Lemma number_letters ds : ds <> [] -> Forall (digit 58) ds -> number (letter <$> ds) = Ret (value_of 58 ds).
Proof.
  intros Hne Hds. assert (exists l, bitcoin2gmp (letter <$> ds) = Ret l /\ mapM (digit_of 58) l = Ret ds) as (l & Hl & Hd).
  { clear Hne. induction Hds as [|d ds Hd _ (l & Hl & Hm)]; [by exists []|].
    apply digit_of_letter in Hd. destruct (map_char bitcoin2gmp_map (letter d)) as [c|] eqn:Ec; [|done].
    exists (c :: l). split; by apply mapM_cons_ret. }
  unfold number, set_str. unfold_st. rewrite Hl, Hd. by rewrite bool_decide_eq_false_2.
Qed.

Lemma number_inv s x : number s = Ret x -> exists ds, ds <> [] /\ Forall (digit 58) ds /\ s = letter <$> ds /\ x = value_of 58 ds.
Proof.
  unfold number, set_str. unfold_st. destruct (bitcoin2gmp s) as [l|] eqn:El; [|done].
  destruct (mapM (digit_of 58) l) as [ds|] eqn:Ed; [|done]. case_bool_decide as Hne; [done|]. intros [= <-].
  exists ds. split; [done|]. cut (Forall (digit 58) ds /\ s = letter <$> ds); [tauto|]. clear Hne.
  revert l ds El Ed. induction s as [|c s IH]; intros l ds El Ed.
  - injection El as <-. injection Ed as <-. by split.
  - apply mapM_cons_inv in El as (y & l' & Hy & Hl & ->). apply mapM_cons_inv in Ed as (d & ds' & Hd & Hm & ->).
    destruct (IH l' ds' Hl Hm) as [Hf ->]. destruct (letter_only c y d Hy Hd) as [Hr ->].
    split; [by constructor|done].
Qed.

(** ** Zeros and ones in front *)
Lemma count_first_app c n r : head r <> Some c -> count_first c (replicate n c ++ r) = n.
Proof.
  intros Hr. induction n as [|n IH]; cbn.
  - destruct r as [|x r]; [done|]. cbn in *. rewrite bool_decide_eq_false_2; [done|]. by intros ->.
  - by rewrite bool_decide_eq_true_2, IH.
Qed.

Lemma count_first_split c s : exists r, s = replicate (count_first c s) c ++ r /\ head r <> Some c.
Proof.
  induction s as [|x s (r & Hs & Hr)]; [by exists []|]. cbn. case_bool_decide as Hx; [|by exists (x :: s); split; [|intros [= ->]]].
  exists r. subst x. by rewrite Hs at 1.
Qed.

Lemma zeros_split ds : exists k r, ds = replicate k 0 ++ r /\ head r <> Some 0.
Proof.
  induction ds as [|d ds (k & r & -> & Hr)]; [by exists O, []|]. destruct (decide (d = 0)) as [->|Hd].
  - by exists (S k), r.
  - exists O, (d :: replicate k 0 ++ r). split; [done|]. by intros [= ->].
Qed.

Lemma byte_val_digits r : Forall (digit 256) (byte_val <$> r).
Proof. apply Forall_fmap, Forall_true. intros b. exact (byte_val_range b). Qed.

Lemma import_canonical r : head r <> Some x00 -> canonical 256 (byte_val <$> r).
Proof.
  intros Hr. split; [apply byte_val_digits|]. destruct r as [|b r]; [done|]. cbn. intros [= Hb]. apply Hr.
  by rewrite (byte_val_inj b x00 Hb).
Qed.

Lemma canonical_positive b ds : 2 <= b -> canonical b ds -> ds <> [] -> 0 < value_of b ds.
Proof.
  intros Hb Hc Hne. pose proof (value_bounds b Hb ds Hc) as [_ Hv]. specialize (Hv Hne).
  assert (0 < b ^ (zlen ds - 1)); [|lia]. apply Z.pow_pos_nonneg; [lia|]. destruct ds; [done|]. rewrite zlen_cons.
  pose proof (zlen_nonneg ds). lia.
Qed.

Lemma import_zeros k r : mpz_import (replicate k x00 ++ r) = mpz_import r.
Proof. unfold mpz_import. by rewrite fmap_app, fmap_replicate, value_zeros. Qed.

Lemma export_import r : head r <> Some x00 -> mpz_export (mpz_import r) = r.
Proof.
  intros Hr. unfold mpz_export, mpz_import. rewrite radix_value by (lia || by apply import_canonical).
  clear Hr. induction r as [|b r IH]; [done|]. cbn. by rewrite byte_of_val, IH.
Qed.

Lemma import_export x : 0 < x ->
  mpz_import (mpz_export x) = x /\ mpz_export x <> [] /\ head (mpz_export x) <> Some x00.
Proof.
  intros Hx. destruct (radix_spec 256 ltac:(lia) x ltac:(lia)) as [Hv [Hd Hh]].
  assert (byte_val <$> mpz_export x = radix 256 x) as He.
  { unfold mpz_export. clear Hv Hh. induction Hd as [|d ds Hd _ IH]; [done|].
    cbn [fmap list_fmap]. rewrite IH, byte_val_of. f_equal. by apply Z.mod_small. }
  split; [unfold mpz_import; by rewrite He|]. split.
  - intros Hn. rewrite Hn in He. cbn in He. rewrite <- He in Hv. change (value_of 256 []) with 0 in Hv. lia.
  - intros Hn. destruct (mpz_export x) as [|b r]; [done|]. injection Hn as ->. rewrite <- He in Hh. by apply Hh.
Qed.

(** ** Encoding and decoding *)
Lemma encode_bytes k r : r <> [] -> head r <> Some x00 ->
  encode (replicate k x00 ++ r) = Ret (replicate k x31 ++ (letter <$> radix 58 (mpz_import r))).
Proof.
  intros Hne Hr. unfold encode. rewrite import_zeros, count_first_app by done. rewrite get_str_letters; [done|].
  apply canonical_positive; [lia|by apply import_canonical|by destruct r].
Qed.

Lemma letters_head ds : canonical 58 ds -> head (letter <$> ds) <> Some x31.
Proof.
  intros [Hd Hh]. destruct ds as [|d ds]; [done|]. cbn. apply Forall_cons in Hd as [Hd _]. intros [= Hl].
  apply Hh. cbn. f_equal. by apply letter_inj.
Qed.

Lemma decode_text k ds : canonical 58 ds -> (0 < k)%nat \/ ds <> [] ->
  decode (replicate k x31 ++ (letter <$> ds)) = Ret (replicate k x00 ++ mpz_export (value_of 58 ds)).
Proof.
  intros Hc Hne. assert (replicate k x31 ++ (letter <$> ds) = letter <$> (replicate k 0 ++ ds)) as Ht.
  { by rewrite fmap_app, fmap_replicate. }
  pose proof (number_letters (replicate k 0 ++ ds)) as Hn. rewrite <- Ht in Hn. rewrite value_zeros in Hn.
  unfold decode. rewrite count_first_app by (by apply letters_head). revert Hn. unfold number. unfold_st.
  destruct (bitcoin2gmp _) as [l|]; intros Hn.
  - rewrite Hn; [done| |].
    + destruct Hne; [by destruct k; [lia|]|]. by destruct (replicate k 0).
    + apply Forall_app. split; [|apply Hc]. apply Forall_replicate. unfold digit. lia.
  - exfalso. discriminate Hn.
    + destruct Hne; [by destruct k; [lia|]|]. by destruct (replicate k 0).
    + apply Forall_app. split; [|apply Hc]. apply Forall_replicate. unfold digit. lia.
Qed.

Lemma decode_inv t s : decode t = Ret s -> exists k ds, canonical 58 ds /\ t = replicate k x31 ++ (letter <$> ds)
  /\ ((0 < k)%nat \/ ds <> []) /\ s = replicate k x00 ++ mpz_export (value_of 58 ds).
Proof.
  intros Hd. pose proof (number_inv t) as Hn. revert Hd Hn. unfold decode, number. unfold_st.
  destruct (bitcoin2gmp t) as [l|]; [|done]. destruct (set_str 58 l) as [x|]; [|done]. intros [= <-] Hn.
  destruct (Hn x eq_refl) as (ds & Hne & Hf & -> & ->). destruct (zeros_split ds) as (k & r & -> & Hr).
  rewrite value_zeros. apply Forall_app in Hf as [_ Hf]. assert (canonical 58 r) as Hc by (by split).
  exists k, r. split; [done|]. rewrite fmap_app, fmap_replicate. split; [done|]. split.
  - destruct k; [right|left; lia]. exact Hne.
  - by rewrite count_first_app by (by apply letters_head).
Qed.

(** Some byte is not zero. *)
Definition nonzero (s : bytes) : Prop := Exists (fun b => b <> x00) s.

Lemma nonzero_split s : nonzero s <-> exists k r, s = replicate k x00 ++ r /\ r <> [] /\ head r <> Some x00.
Proof.
  split.
  - intros Hs. destruct (count_first_split x00 s) as (r & He & Hr). exists (count_first x00 s), r. split; [done|]. split; [|done].
    intros ->. rewrite app_nil_r in He. rewrite He in Hs. apply Exists_exists in Hs as (b & Hb & Hne).
    by apply elem_of_replicate in Hb as [-> _].
  - intros (k & [|b r] & -> & Hne & Hh); [done|]. apply Exists_app. right. left. intros ->. by apply Hh.
Qed.

Lemma decode_encode s : nonzero s -> exists t, encode s = Ret t /\ decode t = Ret s.
Proof.
  intros (k & r & -> & Hne & Hr)%nonzero_split. eexists. split; [by apply encode_bytes|].
  assert (0 < mpz_import r) as Hx by (apply canonical_positive; [lia|by apply import_canonical|by destruct r]).
  destruct (radix_spec 58 ltac:(lia) (mpz_import r) ltac:(lia)) as [Hv Hc].
  rewrite decode_text, Hv, export_import; try done. right. intros Hn. rewrite Hn in Hv. change (value_of 58 []) with 0 in Hv. lia.
Qed.

Lemma encode_decode t s : decode t = Ret s -> nonzero s -> encode s = Ret t.
Proof.
  intros (k & ds & Hc & -> & _ & ->)%decode_inv Hs.
  assert (0 < value_of 58 ds) as Hx.
  { apply canonical_positive; [lia|done|]. intros ->. apply Exists_exists in Hs as (b & Hb & Hne).
    change (mpz_export (value_of 58 [])) with (@nil byte) in Hb. rewrite app_nil_r in Hb.
    by apply elem_of_replicate in Hb as [-> _]. }
  destruct (import_export _ Hx) as (Hi & Hne & Hh). rewrite encode_bytes by done. by rewrite Hi, radix_value by (lia || done).
Qed.

(** What is decoded looks like Base58. *)
Lemma skip_letters ds : Forall (digit 58) ds -> skip_base58 (letter <$> ds) = [].
Proof.
  induction 1 as [|d ds Hd _ IH]; [done|]. cbn [fmap list_fmap skip_base58].
  assert (forallb (fun d => base58_char (letter d)) (seqZ 0 58) = true) as Hall by (by vm_compute).
  rewrite forallb_forall in Hall. rewrite (Hall d); [exact IH|]. apply list_elem_of_In, elem_of_seqZ. unfold digit in Hd. lia.
Qed.

Lemma decode_is t s : decode t = Ret s -> is_ t = true.
Proof.
  intros (k & ds & [Hf _] & -> & _)%decode_inv. unfold is_.
  assert (replicate k x31 ++ (letter <$> ds) = letter <$> (replicate k 0 ++ ds)) as -> by (by rewrite fmap_app, fmap_replicate).
  rewrite skip_letters; [done|]. apply Forall_app. split; [|done]. apply Forall_replicate. unfold digit. lia.
Qed.

(** C30: of bytes that are not all zero, Base58 encoding and decoding are
    inverse to each other: every such string has one text, and every text that
    decodes to it is that text.  What decodes passes the check for Base58.  A string of zeros alone, the empty one included, gets one character too
    many, and decodes to a longer string. *)
Theorem base58_inverse s t :
  (nonzero s -> encode s = Ret t <-> decode t = Ret s)
  /\ (decode t = Ret s -> is_ t = true)
  /\ (forall n, let ones := replicate (S n) x31 in
      encode (replicate n x00) = Ret ones /\ decode ones = Ret (replicate (S n) x00)).
Proof.
  split; [|split; [apply decode_is|]].
  - intros Hs. split; [|intros Hd; by apply encode_decode].
    destruct (decode_encode s Hs) as (t' & He & Hd). rewrite He. by intros [= <-].
  - intros n ones. unfold ones. split.
    + unfold encode. rewrite <- (app_nil_r (replicate n x00)), import_zeros, count_first_app by done.
      rewrite replicate_S_end. assert (gmp2bitcoin (get_str 58 (mpz_import [])) = Ret [x31]) as -> by (by vm_compute). done.
    + rewrite <- (app_nil_r (replicate (S n) x31)). change (@nil byte) with (letter <$> []) at 1.
      rewrite decode_text; [by rewrite app_nil_r|by split|left; lia].
Qed.

(** ** With a checksum *)
Section Checked.
Context {C : CryptoService} `{!CryptoLaws C}.

Lemma zlen_checksum s : zlen (checksum s) = 4.
Proof. unfold checksum. rewrite zlen_ztake, sha256_len by lia. lia. Qed.

Lemma checksum_roundtrip s : nonzero s -> zlen s < 2 ^ 63 ->
  exists t, encodeWithChecksum s = Ret t /\ decodeWithChecksum t = Ret s.
Proof.
  intros Hs Hl. assert (nonzero (s ++ checksum s)) as Hn by (apply Exists_app; by left).
  destruct (decode_encode _ Hn) as (t & He & Hd). exists t. split; [exact He|].
  unfold decodeWithChecksum. unfold_st. rewrite Hd, zlen_app, zlen_checksum.
  pose proof (zlen_nonneg s). replace (zlen s + 4 - 4) with (zlen s) by lia. rewrite wrap_id by (pow_simpl; lia).
  rewrite substr_ret, substr_from_ret by (rewrite ?zlen_app, ?zlen_checksum; lia).
  unfold slice. rewrite zdrop_0, ztake_app, zdrop_app. by rewrite bool_decide_eq_false_2 by tauto.
Qed.

Lemma checked_is t s : decodeWithChecksum t = Ret s -> is_ t = true.
Proof.
  unfold decodeWithChecksum. unfold_st. destruct (decode t) as [d|] eqn:Ed; [|done]. intros _. by apply (decode_is t d).
Qed.

(** An accepted text carries its bytes and their checksum. *)
Lemma checksum_accepts t s : decodeWithChecksum t = Ret s -> (forall d, decode t = Ret d -> zlen d < 2 ^ 63) ->
  decode t = Ret (s ++ checksum s).
Proof.
  unfold decodeWithChecksum. unfold_st. destruct (decode t) as [d|]; [|done]. intros Hs Hl. specialize (Hl d eq_refl).
  destruct (Z.le_gt_cases 4 (zlen d)) as [H4|H4].
  - rewrite wrap_id in Hs by (pow_simpl; lia). rewrite substr_ret, substr_from_ret in Hs by lia.
    revert Hs. unfold slice. rewrite zdrop_0. case_bool_decide as Hc; [done|]. intros [= <-].
    rewrite <- Hc. by rewrite ztake_zdrop.
  - exfalso. revert Hs. unfold wrap. pose proof (zlen_nonneg d).
    rewrite <- (Z_mod_plus_full _ 1), Z.mul_1_l, Z.mod_small by (pow_simpl; lia).
    unfold substr, substr_from. rewrite bool_decide_eq_false_2 by lia. rewrite bool_decide_eq_true_2; [done|]. pow_simpl. lia.
Qed.
End Checked.
End Base58.

(** A text of the reference implementation's tests. *)
Example base58_inverse_witness : Base58.decode (lit "JxF12TrwUP45BMd") = Ret (lit "Hello World").
Proof.
  apply (Base58.base58_inverse (lit "Hello World") (lit "JxF12TrwUP45BMd")).
  - left. by vm_compute.
  - by vm_compute.
Defined.
