(* ===== verification/CryptoSuite.v ===== *)
(** * Key derivation, authenticated ciphers and ECIES

    crypto/driver/src/CryptoService.cpp (the routines composed from the
    primitives of [CryptoService]), crypto/base/src/CryptoPrivmx.cpp,
    crypto/base/src/ecc/ECIES.cpp and crypto/base/src/EciesEncryptor.cpp.

    [Kdf] holds the two key-derivation loops and their reference definitions
    (the P_hash of RFC 5246 and the feedback mode of SP 800-108);
    [CipherSuite] the tagged ciphertext formats; [CryptoPrivmx] the option
    table on top of them; [Ecies] the public-key envelope, over the
    elliptic-curve interface [Ecc]. *)

From Stdlib Require Import ZArith Lia Strings.String Strings.Byte.
From stdpp Require Import base list.
From S2P Require Import Prelude Bytes Crypto.

(** A draw from the generator. *)
Definition random `{CryptoService} (n : Z) : ST rng bytes :=
  fun g => let '(b, g') := randomBytes n g in (Ret b, g').

(** [while (result.length() < n) { compute a block; result.append(block) }].
    Every block has at least one byte, so [n] iterations are enough
    ([fill_stream]). *)
Section Fill.
Context {X : Type} (step : X -> bytes * X).

Fixpoint fill (fuel : nat) (n : Z) (x : X) (result : bytes) : bytes :=
  if bool_decide (zlen result < n) then
    match fuel with
    | O => result
    | S fuel => let '(d, x') := step x in fill fuel n x' (result ++ d)
    end
  else result.

(** The first [k] blocks. *)
Fixpoint stream (k : nat) (x : X) : bytes :=
  match k with
  | O => []
  | S k => let '(d, x') := step x in d ++ stream k x'
  end.

Context (bs : Z) (Hbs : 0 < bs) (Hstep : forall x, zlen (step x).1 = bs).

Lemma zlen_stream k x : zlen (stream k x) = bs * Z.of_nat k.
Proof.
  revert x. induction k as [|k IH]; intros x; cbn [stream]; [rewrite zlen_nil; lia|].
  specialize (Hstep x). destruct (step x) as [d x']. simpl in Hstep.
  rewrite zlen_app, IH, Hstep. lia.
Qed.

Lemma fill_stream_from fuel n x result k :
  n <= zlen result + Z.of_nat fuel -> n <= zlen result + bs * Z.of_nat k -> 0 <= n ->
  ztake n (fill fuel n x result) = ztake n (result ++ stream k x).
Proof.
  revert x result k. induction fuel as [|fuel IH]; intros x result k Hf Hk Hn; cbn [fill].
  - case_bool_decide; [lia|]. rewrite ztake_app_le by lia. done.
  - case_bool_decide as E; [|rewrite ztake_app_le by lia; done].
    destruct k as [|k]; [lia|]. cbn [stream].
    pose proof (Hstep x) as Hd. destruct (step x) as [d x']. simpl in Hd.
    rewrite (IH _ _ k); rewrite ?zlen_app; [|lia..]. by rewrite <- app_assoc.
Qed.

Lemma fill_stream n x k : 0 <= n <= bs * Z.of_nat k ->
  ztake n (fill (Z.to_nat n) n x []) = ztake n (stream k x).
Proof. intros. rewrite (fill_stream_from _ _ _ _ k); rewrite ?zlen_nil; [done|lia..]. Qed.

Lemma zlen_fill n x : 0 <= n -> zlen (ztake n (fill (Z.to_nat n) n x [])) = n.
Proof.
  intros. rewrite (fill_stream n x (Z.to_nat n)) by nia.
  rewrite zlen_ztake, zlen_stream by lia. nia.
Qed.
End Fill.

(** ** Key derivation *)
Module Kdf.
Section Kdf.
Context `{CryptoService}.

Definition prf_tls12 (key seed : bytes) (length : Z) : bytes :=
  let step a :=
    let a := hmacSha256 key a in
    let tmp := a ++ seed in
    let d := hmacSha256 key tmp in
    (d, a) in
  ztake length (fill step (Z.to_nat length) length seed []).

Definition kdf (length : Z) (key label : bytes) : bytes :=
  let len := be32 length in
  let seed := label ++ [x00] ++ len in
  let step '(k, i) :=
    let input := k ++ be32 i ++ seed in
    let k := hmacSha256 key input in
    (k, (k, u32 (i + 1))) in
  ztake length (fill step (Z.to_nat length) length ([], 1) []).

Definition generateIv (key : bytes) (idx : Z) : bytes :=
  ztake 16 (hmacSha256 key (lit "iv" ++ to_string idx)).

Definition getKEM (key : bytes) (kelen kmlen : Z) : bytes * bytes :=
  let kEM := kdf (kelen + kmlen) key (lit "key expansion") in
  (ztake kelen kEM, zdrop kelen kEM).

(** *** Reference definitions *)

(** RFC 5246, section 5: A(0) = seed, A(i) = HMAC(secret, A(i-1)), and
    P_hash = HMAC(secret, A(1) + seed) + HMAC(secret, A(2) + seed) + ... *)
Fixpoint P_hash_A (secret seed : bytes) (i : nat) : bytes :=
  match i with
  | O => seed
  | S i => hmacSha256 secret (P_hash_A secret seed i)
  end.
Definition P_hash (secret seed : bytes) (blocks : nat) : bytes :=
  concat (map (fun i => hmacSha256 secret (P_hash_A secret seed i ++ seed)) (seq 1 blocks)).

(** SP 800-108, feedback mode with an empty initial value: K(i) is the
    HMAC of K(i-1), the counter, the label, a zero byte and the length. *)
Fixpoint feedback_K (key fixed : bytes) (i : nat) : bytes :=
  match i with
  | O => []
  | S i => hmacSha256 key (feedback_K key fixed i ++ be32 (Z.of_nat (S i)) ++ fixed)
  end.
Definition feedback_kdf (key fixed : bytes) (blocks : nat) : bytes :=
  concat (map (feedback_K key fixed) (seq 1 blocks)).
End Kdf.

Section Laws.
Context `{CryptoLaws}.

Lemma be_encode_wrap n z : be_encode n (wrap (8 * Z.of_nat n) z) = be_encode n z.
Proof.
  unfold wrap. assert (forall m, (m <= n)%nat ->
    be_encode m (z mod 2 ^ (8 * Z.of_nat n)) = be_encode m z) as Hm; [|by apply Hm].
  intros m. induction m as [|m IH]; intros Hm; [done|]. cbn [be_encode].
  rewrite IH by lia. f_equal. apply byte_val_inj. rewrite !byte_val_of.
  change 256 with (2 ^ 8). apply Z.bits_inj'. intros i Hi.
  destruct (Z.lt_ge_cases i 8); [|by rewrite !Z.mod_pow2_bits_high by lia].
  rewrite !Z.mod_pow2_bits_low, !Z.shiftr_spec, Z.mod_pow2_bits_low by lia. done.
Qed.

Lemma zlen_prf key seed n : 0 <= n -> zlen (prf_tls12 key seed n) = n.
Proof. apply (zlen_fill _ 32); [lia|]. intros. apply hmacSha256_len. Qed.

Lemma zlen_kdf key label n : 0 <= n -> zlen (kdf n key label) = n.
Proof. apply (zlen_fill _ 32); [lia|]. intros [??]. apply hmacSha256_len. Qed.

Lemma getKEM_lens key a b : 0 <= a -> 0 <= b ->
  zlen (getKEM key a b).1 = a /\ zlen (getKEM key a b).2 = b.
Proof.
  intros. unfold getKEM. simpl. rewrite zlen_ztake, zlen_zdrop, zlen_kdf by lia. lia.
Qed.

(** the PRF is the P_hash of TLS 1.2 cut to the requested length: the
    loop ends, and for any number of blocks that covers the request the
    result is the prefix of the reference expansion. *)
Theorem prf_tls12_is_P_hash key seed n blocks :
  0 <= n <= 32 * Z.of_nat blocks ->
  prf_tls12 key seed n = ztake n (P_hash key seed blocks)
  /\ zlen (prf_tls12 key seed n) = n.
Proof.
  intros Hn. split; [|apply zlen_prf; lia]. unfold prf_tls12.
  rewrite (fill_stream _ 32 ltac:(lia)) with (k := blocks); [|intros; apply hmacSha256_len|done].
  f_equal. unfold P_hash. change seed with (P_hash_A key seed 0) at 2.
  generalize 0%nat. clear Hn. induction blocks as [|b IH]; intros i; [done|].
  cbn [stream seq map concat]. f_equal. apply (IH (S i)).
Qed.

(** [kdf] is the feedback-mode derivation over the label, a zero byte
    and the requested length, cut to that length; the counter enters every
    block as 32 big-endian bits. *)
Theorem kdf_is_feedback key label n blocks :
  0 <= n <= 32 * Z.of_nat blocks ->
  kdf n key label = ztake n (feedback_kdf key (label ++ [x00] ++ be32 n) blocks)
  /\ zlen (kdf n key label) = n.
Proof.
  intros Hn. split; [|apply zlen_kdf; lia]. unfold kdf.
  rewrite (fill_stream _ 32 ltac:(lia)) with (k := blocks); [|intros [??]; apply hmacSha256_len|done].
  f_equal. set (fixed := label ++ [x00] ++ be32 n). unfold feedback_kdf.
  change ([] : bytes) with (feedback_K key fixed 0).
  assert (forall j c, c = u32 (Z.of_nat (S j)) ->
    stream (fun '(k, i) => let input := k ++ be32 i ++ fixed in
              let k := hmacSha256 key input in (k, (k, u32 (i + 1)))) blocks
      (feedback_K key fixed j, c)
    = concat (map (feedback_K key fixed) (seq (S j) blocks))) as Hs.
  { clear Hn. induction blocks as [|b IH]; intros j c ->; [done|].
    cbn [stream seq map concat feedback_K].
    rewrite (be_encode_wrap 4). f_equal. apply (IH (S j)).
    unfold wrap. rewrite Zplus_mod_idemp_l. f_equal. lia. }
  by apply Hs.
Qed.
End Laws.
End Kdf.

Section KdfWitness.
#[local] Existing Instances Toy.service Toy.laws.

Lemma prf_tls12_is_P_hash_witness :
  Kdf.prf_tls12 (lit "secret") (lit "seed") 48
    = ztake 48 (Kdf.P_hash (lit "secret") (lit "seed") 2)
  /\ zlen (Kdf.prf_tls12 (lit "secret") (lit "seed") 48) = 48.
Proof. apply (Kdf.prf_tls12_is_P_hash (lit "secret") (lit "seed") 48 2). lia. Defined.

Lemma kdf_is_feedback_witness :
  Kdf.kdf 64 (lit "key") (lit "key expansion")
    = ztake 64 (Kdf.feedback_kdf (lit "key") (lit "key expansion" ++ [x00] ++ be32 64) 2)
  /\ zlen (Kdf.kdf 64 (lit "key") (lit "key expansion")) = 64.
Proof. apply (Kdf.kdf_is_feedback (lit "key") (lit "key expansion") 64 2). lia. Defined.
End KdfWitness.

(** ** Tagged ciphertexts *)
Module CipherSuite.
(** [CipherType] *)
Definition AES_256_CBC_PKCS7_NO_IV : byte := x01.
Definition AES_256_CBC_PKCS7_WITH_IV : byte := x02.
Definition XTEA_ECB_PKCS7 : byte := x03.
Definition AES_256_CBC_PKCS7_WITH_IV_AND_HMAC_SHA256 : byte := x04.

(** [data[0]]: the terminating zero when the string is empty. *)
Definition byte_at_0 (data : bytes) : byte := match data with b :: _ => b | [] => x00 end.

Section Suite.
Context `{CryptoService}.

Definition aes256CbcHmac256Encrypt (data key32 iv : bytes) (taglen : Z) : bytes :=
  let '(kE, kM) := Kdf.getKEM key32 32 32 in
  let iv := match iv with [] => hmacSha256 key32 data | _ => iv end in
  let iv := ztake 16 iv in
  let data := zeros 16 ++ data in
  let cipher := aes256CbcPkcs7Encrypt data kE iv in
  let tag := ztake taglen (hmacSha256 kM cipher) in
  cipher ++ tag.

Definition aes256CbcHmac256Decrypt (data key32 : bytes) (taglen : Z) : outcome bytes :=
  let '(kE, kM) := Kdf.getKEM key32 32 32 in
  tag ← substr_from data (u64 (zlen data - taglen));
  data ← substr data 0 (u64 (zlen data - taglen));
  let rtag := ztake taglen (hmacSha256 kM data) in
  if bool_decide (tag <> rtag) then Throw WrongMessageSecurityTagException
  else
    iv ← substr data 0 16;
    data ← substr_from data 16;
    aes256CbcPkcs7Decrypt data kE iv.

Definition ctAes256CbcPkcs7NoIv (data key iv : bytes) : bytes :=
  AES_256_CBC_PKCS7_NO_IV :: aes256CbcPkcs7Encrypt data key iv.

Definition ctAes256CbcPkcs7WithIv (data key iv : bytes) : bytes :=
  AES_256_CBC_PKCS7_WITH_IV :: iv ++ aes256CbcPkcs7Encrypt data key iv.

Definition ctAes256CbcPkcs7WithIvAndHmacSha256 (data key iv : bytes) (taglen : Z) : bytes :=
  AES_256_CBC_PKCS7_WITH_IV_AND_HMAC_SHA256 :: aes256CbcHmac256Encrypt data key iv taglen.

Definition ctDecrypt (data key32 iv16 : bytes) (taglen : Z) : outcome bytes :=
  if bool_decide (zlen key32 <> 32) then Throw DecryptInvalidKeyLengthException
  else
    match byte_at_0 data with
    | x01 =>
        if bool_decide (iv16 = []) then Throw MissingIvException
        else c ← substr_from data 1; aes256CbcPkcs7Decrypt c key32 iv16
    | x02 =>
        c ← substr_from data 17; iv ← substr data 1 16;
        aes256CbcPkcs7Decrypt c key32 iv
    | x03 => Throw CryptoNotImplementedException
    | x04 => c ← substr_from data 1; aes256CbcHmac256Decrypt c key32 taglen
    | _ => Throw UnknownDecryptionTypeException
    end.
End Suite.

Section Laws.
Context `{CryptoLaws}.

Lemma cbc_cipher_len d k iv : AES_BLOCK <= zlen (aes256CbcPkcs7Encrypt (zeros 16 ++ d) k iv).
Proof.
  rewrite aes256Cbc_len, zlen_app, zlen_zeros by lia. unfold AES_BLOCK.
  pose proof (Z.mod_pos_bound (16 + zlen d) 16). pose proof (zlen_nonneg d). lia.
Qed.

(** Every 64-bit length in play is the true one: the text fits in memory. *)
Lemma hmac256_roundtrip data key iv taglen :
  0 <= taglen <= 32 ->
  zlen (aes256CbcHmac256Encrypt data key iv taglen) < 2 ^ 64 ->
  aes256CbcHmac256Decrypt (aes256CbcHmac256Encrypt data key iv taglen) key taglen = Ret data.
Proof.
  intros Ht. unfold aes256CbcHmac256Encrypt, aes256CbcHmac256Decrypt.
  destruct (Kdf.getKEM key 32 32) as [kE kM].
  set (iv' := ztake 16 _). pose proof (cbc_cipher_len data kE iv') as Hl.
  pose proof (aes256Cbc_chain (zeros 16) data kE iv' eq_refl) as Hc.
  set (c := aes256CbcPkcs7Encrypt _ kE iv') in *. set (tag := ztake taglen _).
  assert (zlen tag = taglen) as Htag.
  { unfold tag. rewrite zlen_ztake, hmacSha256_len by lia. lia. }
  rewrite zlen_app, Htag. intros Hm. unfold AES_BLOCK in *.
  rewrite wrap_id by lia. replace (zlen c + taglen - taglen) with (zlen c) by lia.
  rewrite substr_from_ret, substr_ret by (rewrite zlen_app; lia). unfold_st.
  unfold slice. rewrite zdrop_0, ztake_app, zdrop_app. fold tag.
  rewrite bool_decide_eq_false_2 by tauto.
  rewrite substr_ret, substr_from_ret by lia. unfold slice. by rewrite zdrop_0.
Qed.

(** What decryption accepts carries the tag of its own ciphertext. *)
Lemma hmac256_accepts data key taglen d :
  0 <= taglen <= 32 -> zlen data < 2 ^ 64 ->
  aes256CbcHmac256Decrypt data key taglen = Ret d ->
  exists iv c, data = (iv ++ c) ++ ztake taglen (hmacSha256 (Kdf.getKEM key 32 32).2 (iv ++ c))
    /\ zlen iv = 16 /\ aes256CbcPkcs7Decrypt c (Kdf.getKEM key 32 32).1 iv = Ret d.
Proof.
  intros Ht Hm. unfold aes256CbcHmac256Decrypt. destruct (Kdf.getKEM key 32 32) as [kE kM].
  unfold_st. unfold substr_from at 1. case_bool_decide as E; [done|].
  assert (taglen <= zlen data) as Hle.
  { destruct (Z.le_gt_cases taglen (zlen data)) as [|Hgt]; [done|]. exfalso. apply E.
    pose proof (zlen_nonneg data). unfold wrap.
    rewrite <- (Z_mod_plus_full _ 1), Z.mul_1_l, Z.mod_small; pow_simpl; lia. }
  rewrite wrap_id by (pose proof (zlen_nonneg data); lia).
  rewrite substr_ret by (pose proof (zlen_nonneg data); lia).
  unfold slice. rewrite zdrop_0. set (m := ztake (zlen data - taglen) data).
  case_bool_decide as Et; [done|].
  rewrite substr_ret by (pose proof (zlen_nonneg m); lia).
  unfold substr_from. case_bool_decide as E2; [done|]. unfold slice. rewrite zdrop_0.
  intros Hd. exists (ztake 16 m), (zdrop 16 m). rewrite ztake_zdrop. simpl.
  rewrite <- Et. split; [symmetry; apply ztake_zdrop|]. split; [|done].
  rewrite zlen_ztake by lia. lia.
Qed.
End Laws.
End CipherSuite.

(** ** The option table *)
Module CryptoPrivmx.
Inductive algorithm_t := AES_256_CBC | XTEA_ECB.
Inductive hmac_t := NO_HMAC | SHA_256.

#[export] Instance hmac_t_eq_dec : EqDecision hmac_t.
Proof. solve_decision. Defined.

Record PrivmxEncryptOptions := {
  algorithm : algorithm_t;
  attachIv : bool;
  hmac : hmac_t;
  deterministic : bool;
  taglen : Z;
}.

Definition privmxOptAesWithSignature : PrivmxEncryptOptions :=
  {| algorithm := AES_256_CBC; attachIv := true; hmac := SHA_256; deterministic := false; taglen := 16 |}.
Definition privmxOptAesWithDettachedIv : PrivmxEncryptOptions :=
  {| algorithm := AES_256_CBC; attachIv := false; hmac := NO_HMAC; deterministic := false; taglen := 16 |}.
Definition privmxOptAesWithAttachedIv : PrivmxEncryptOptions :=
  {| algorithm := AES_256_CBC; attachIv := true; hmac := NO_HMAC; deterministic := false; taglen := 16 |}.

(** [size -= options.taglen] mixes [int] and [size_t]; the result is an
    [int] again, and [%] rounds towards zero. *)
Definition privmxGetBlockSize (options : PrivmxEncryptOptions) (block_size : Z) : Z :=
  let size := i32 (block_size - 1) in
  let size := if attachIv options then i32 (size - 16) else size in
  let size := if bool_decide (hmac options <> NO_HMAC) then i32 (size - taglen options) else size in
  i32 (size - Z.rem size 16 - 1).

Section Privmx.
Context `{CryptoService}.

Definition fresh_iv (iv : bytes) : ST rng bytes :=
  if bool_decide (iv = []) then random 16 else mret iv.

Definition privmxEncrypt (options : PrivmxEncryptOptions) (data key iv : bytes) : ST rng bytes :=
  if bool_decide (zlen key <> 32) then throw EncryptInvalidKeyLengthException
  else
    match algorithm options with
    | AES_256_CBC =>
        let plain :=
          iv ← fresh_iv iv;
          if attachIv options then mret (CipherSuite.ctAes256CbcPkcs7WithIv data key iv)
          else mret (CipherSuite.ctAes256CbcPkcs7NoIv data key iv) in
        if bool_decide (hmac options <> NO_HMAC) then
          if bool_decide (hmac options <> SHA_256) || negb (attachIv options) then
            throw OnlyHmacSHA256WithIvIsSupportedForAES256CBCException
          else if deterministic options then
            if attachIv options then throw CannotPassIvToDeterministicAES256CBCHmacSHA256Exception
            else plain
          else
            iv ← fresh_iv iv;
            mret (CipherSuite.ctAes256CbcPkcs7WithIvAndHmacSha256 data key iv (taglen options))
        else plain
    | XTEA_ECB =>
        if bool_decide (hmac options <> NO_HMAC) || bool_decide (iv <> []) || attachIv options then
          throw XTEAECBEncryptionDoesntSupportHmacAndIvException
        else throw CryptoNotImplementedException
    end.

Definition privmxDecrypt (is_signed : bool) (data key32 iv16 : bytes) (taglen : Z) : outcome bytes :=
  if is_signed && bool_decide
       (CipherSuite.byte_at_0 data <> CipherSuite.AES_256_CBC_PKCS7_WITH_IV_AND_HMAC_SHA256)
  then Throw MissingRequiredSignatureException
  else CipherSuite.ctDecrypt data key32 iv16 taglen.
End Privmx.

Section Laws.
Context `{CryptoLaws}.

Definition fits (c : bytes) : Prop := zlen c < 2 ^ 64.

Lemma fresh_iv_run iv g : (iv = [] \/ zlen iv = 16) ->
  exists iv' g', fresh_iv iv g = (Ret iv', g') /\ zlen iv' = 16.
Proof.
  intros Hiv. unfold fresh_iv, random. case_bool_decide.
  - pose proof (randomBytes_len 16 g ltac:(done)). destruct (randomBytes 16 g). eauto.
  - exists iv, g. by destruct Hiv.
Qed.

Lemma withIv_decrypt data key iv tl : zlen key = 32 -> zlen iv = 16 ->
  CipherSuite.ctDecrypt (CipherSuite.ctAes256CbcPkcs7WithIv data key iv) key [] tl = Ret data.
Proof.
  intros Hk Hiv. unfold CipherSuite.ctDecrypt, CipherSuite.ctAes256CbcPkcs7WithIv,
    CipherSuite.AES_256_CBC_PKCS7_WITH_IV. rewrite bool_decide_eq_false_2 by lia.
  cbn [CipherSuite.byte_at_0].
  set (c := aes256CbcPkcs7Encrypt data key iv). pose proof (zlen_nonneg c).
  rewrite substr_from_ret, substr_ret by (rewrite zlen_cons, zlen_app; lia). unfold_st.
  change (x02 :: iv ++ c) with ([x02] ++ iv ++ c). unfold slice.
  rewrite !zdrop_app_ge by (change (zlen [x02]) with 1; lia). change (zlen [x02]) with 1.
  rewrite Hiv, !zdrop_0, ztake_app_eq by done. apply aes256Cbc_inv.
Qed.

Lemma hmac_decrypt data key iv tl :
  zlen key = 32 -> 0 <= tl <= 32 ->
  fits (CipherSuite.ctAes256CbcPkcs7WithIvAndHmacSha256 data key iv tl) ->
  CipherSuite.ctDecrypt (CipherSuite.ctAes256CbcPkcs7WithIvAndHmacSha256 data key iv tl) key [] tl
  = Ret data.
Proof.
  intros Hk Ht. unfold fits, CipherSuite.ctDecrypt, CipherSuite.ctAes256CbcPkcs7WithIvAndHmacSha256,
    CipherSuite.AES_256_CBC_PKCS7_WITH_IV_AND_HMAC_SHA256.
  rewrite zlen_cons, bool_decide_eq_false_2 by lia. intros Hf.
  cbn [CipherSuite.byte_at_0].
  set (c := CipherSuite.aes256CbcHmac256Encrypt data key iv tl) in *. pose proof (zlen_nonneg c).
  rewrite substr_from_ret by (rewrite zlen_cons; lia). unfold_st.
  change (x04 :: c) with ([x04] ++ c). rewrite zdrop_app_eq by done.
  apply CipherSuite.hmac256_roundtrip; [done|unfold c in *; lia].
Qed.

(** whatever [privmxEncrypt] produces with the initialisation vector
    attached (with or without the signature), [privmxDecrypt] turns back
    into the plaintext; in signed mode when the text was signed. *)
Theorem privmx_roundtrip options data key iv g c g' :
  privmxEncrypt options data key iv g = (Ret c, g') ->
  attachIv options = true -> 0 <= taglen options <= 32 -> (iv = [] \/ zlen iv = 16) -> fits c ->
  privmxDecrypt (bool_decide (hmac options = SHA_256)) c key [] (taglen options) = Ret data.
Proof.
  intros He Ha Ht Hiv Hf. destruct options as [alg ai hm det tl]. simpl in *. subst ai.
  unfold privmxEncrypt in He. case_bool_decide as Hk; [done|]. cbn [algorithm hmac attachIv deterministic taglen] in He.
  destruct (fresh_iv_run iv g Hiv) as (iv' & g1 & Hr & Hl).
  destruct alg, hm; simpl in He; try done.
  - rewrite (run_bind_ret _ _ _ _ _ Hr) in He. injection He as <- <-. simpl.
    apply withIv_decrypt; [lia|done].
  - destruct det; [done|]. rewrite (run_bind_ret _ _ _ _ _ Hr) in He. injection He as <- <-.
    unfold privmxDecrypt. simpl. apply hmac_decrypt; [lia|done|done].
  - by rewrite orb_true_r in He.
Qed.

(** signed decryption accepts nothing that is not authenticated: a text
    it accepts is the signature type byte, a 16-byte vector and a
    ciphertext, and the truncated HMAC, under the derived MAC key, of that
    vector and ciphertext. *)
Theorem privmx_signed_authentic c key iv tl d :
  privmxDecrypt true c key iv tl = Ret d -> 0 <= tl <= 32 -> fits c ->
  exists v ct, c = x04 :: (v ++ ct) ++ ztake tl (hmacSha256 (Kdf.getKEM key 32 32).2 (v ++ ct))
    /\ zlen v = 16 /\ aes256CbcPkcs7Decrypt ct (Kdf.getKEM key 32 32).1 v = Ret d.
Proof.
  unfold privmxDecrypt, CipherSuite.ctDecrypt, fits. cbn [andb]. intros Hd Ht Hf.
  case_bool_decide as E; [done|]. unfold CipherSuite.AES_256_CBC_PKCS7_WITH_IV_AND_HMAC_SHA256 in E.
  rewrite E in Hd. case_bool_decide; [done|]. destruct c as [|b c]; [done|]. simpl in E. subst b.
  rewrite zlen_cons in Hf. pose proof (zlen_nonneg c).
  rewrite substr_from_ret in Hd by (rewrite zlen_cons; lia).
  change (x04 :: c) with ([x04] ++ c) in Hd. rewrite zdrop_app_eq in Hd by done. unfold_st.
  apply CipherSuite.hmac256_accepts in Hd as (v & ct & -> & Hv & Hdec); [|exact Ht|lia].
  exists v, ct. split; [reflexivity|]. split; [exact Hv|exact Hdec].
Qed.
End Laws.
End CryptoPrivmx.

Section Witness.
#[local] Existing Instances Toy.service Toy.laws.
Let key : bytes := zeros 32.
Let sealed : bytes :=
  CipherSuite.ctAes256CbcPkcs7WithIvAndHmacSha256 (lit "hello") key (zeros 16) 16.

Lemma privmx_roundtrip_witness :
  CryptoPrivmx.privmxDecrypt true sealed key [] 16 = Ret (lit "hello").
Proof.
  apply (CryptoPrivmx.privmx_roundtrip CryptoPrivmx.privmxOptAesWithSignature (lit "hello") key
    (zeros 16) (0 : @rng Toy.service) sealed 0).
  - vm_compute. reflexivity.
  - reflexivity.
  - cbn. lia.
  - right. reflexivity.
  - vm_compute. reflexivity.
Defined.

Lemma privmx_signed_authentic_witness :
  exists v ct, sealed = x04 :: (v ++ ct) ++ ztake 16 (hmacSha256 (Kdf.getKEM key 32 32).2 (v ++ ct))
    /\ zlen v = 16 /\ aes256CbcPkcs7Decrypt ct (Kdf.getKEM key 32 32).1 v = Ret (lit "hello").
Proof.
  apply (CryptoPrivmx.privmx_signed_authentic sealed key [] 16 (lit "hello")).
  - vm_compute. reflexivity.
  - lia.
  - vm_compute. reflexivity.
Defined.
End Witness.

(** ** Elliptic-curve keys

    [PrivateKey], [PublicKey] and [ECC] (crypto/base/src/ecc) wrap the curve
    arithmetic of the configured library. *)
Class Ecc `{CryptoService} := {
  PrivateKey : Type;
  PublicKey : Type;
  #[global] PublicKey_eq_dec :: EqDecision PublicKey;
  generateRandom : rng -> PrivateKey * rng;
  getPublicKey : PrivateKey -> PublicKey;
  toDER : PublicKey -> bytes;
  fromDER : bytes -> outcome PublicKey;
  derive : PrivateKey -> PublicKey -> bytes;
  getPrivateEncKey : PrivateKey -> bytes;
  signToCompactSignature : PrivateKey -> bytes -> bytes;
  verifyCompactSignature : PublicKey -> bytes -> bytes -> bool;
}.

Class EccLaws `(E : Ecc) := {
  (** A compressed point takes 33 bytes. *)
  toDER_len p : zlen (toDER p) = 33;
  fromDER_toDER p : fromDER (toDER p) = Ret p;
  (** Diffie-Hellman: both sides derive the same secret. *)
  derive_comm a b : derive a (getPublicKey b) = derive b (getPublicKey a);
  (** A compact signature is a header byte and two 32-byte numbers. *)
  sign_len k m : zlen (signToCompactSignature k m) = 65;
  verify_sign k m : verifyCompactSignature (getPublicKey k) m (signToCompactSignature k m) = true;
}.

Definition signToCompactSignatureWithHash `{Ecc} (k : PrivateKey) (m : bytes) : bytes :=
  signToCompactSignature k (sha256 m).
Definition verifyCompactSignatureWithHash `{Ecc} (p : PublicKey) (m sig : bytes) : bool :=
  verifyCompactSignature p (sha256 m) sig.

(** A model of the interface, for the witnesses: a key is one byte. *)
Module ToyEcc.
Definition random_key (g : @rng Toy.service) : byte * @rng Toy.service := (byte_of g, Z.succ g).

#[export] Instance ecc : @Ecc Toy.service := {|
  PrivateKey := byte;
  PublicKey := byte;
  generateRandom := random_key;
  getPublicKey k := k;
  toDER p := x02 :: p :: zeros 31;
  fromDER d := match d with _ :: b :: _ => Ret b | _ => Throw StdInvalidArgument end;
  derive k p := be_encode 32 (byte_val k * byte_val p);
  getPrivateEncKey k := [k];
  signToCompactSignature k m := x1f :: Toy.hash (k :: m) ++ zeros 32;
  verifyCompactSignature p m s := bool_decide (s = x1f :: Toy.hash (p :: m) ++ zeros 32);
|}.

#[export] Instance laws : EccLaws ecc.
Proof.
  constructor; cbn [toDER fromDER derive getPublicKey signToCompactSignature
    verifyCompactSignature ecc].
  - done.
  - done.
  - intros. f_equal. lia.
  - intros. rewrite zlen_cons, zlen_app. unfold Toy.hash. rewrite zlen_be_encode. done.
  - intros. by apply bool_decide_eq_true_2.
Qed.
End ToyEcc.

(** ** The public-key envelope *)
Module Ecies.
Section Ecies.
Context `{Ecc}.

Record ECIES := { _shared_key : bytes; _private_enc_key : bytes }.

Definition construct (private_key : PrivateKey) (public_key : PublicKey) : ECIES :=
  let secret := derive private_key public_key in
  {| _shared_key := sha512 secret; _private_enc_key := getPrivateEncKey private_key |}.

Definition getM (e : ECIES) : outcome bytes := substr (_shared_key e) 32 32.
Definition getE (e : ECIES) : outcome bytes := substr (_shared_key e) 0 32.

Definition ecies_encrypt (e : ECIES) (data : bytes) : outcome bytes :=
  let iv := ztake 16 (hmacSha256 (_private_enc_key e) data) in
  M ← getM e;
  E ← getE e;
  let c := iv ++ aes256CbcPkcs7Encrypt data E iv in
  mret (c ++ ztake 4 (hmacSha256 M c)).

Definition ecies_decrypt (e : ECIES) (enc_buf : bytes) : outcome bytes :=
  c ← substr enc_buf 0 (u64 (zlen enc_buf - 4));
  d ← substr enc_buf (u64 (zlen enc_buf - 4)) 4;
  M ← getM e;
  let d2 := ztake 4 (hmacSha256 M c) in
  if bool_decide (d <> d2) then Throw InvalidChecksumException
  else
    E ← getE e;
    body ← substr_from c 16;
    iv ← substr c 0 16;
    aes256CbcPkcs7Decrypt body E iv.

(** [EciesEncryptor::encrypt]: sender and receiver keys, then the text. *)
Definition encrypt (pub : PublicKey) (data : bytes) (privForSignature : PrivateKey) : outcome bytes :=
  let ecies := construct privForSignature pub in
  cipher ← ecies_encrypt ecies data;
  mret (lit "e" ++ toDER (getPublicKey privForSignature) ++ toDER pub ++ cipher).

(** [EciesEncryptor::decrypt]; [cipher.front()] needs a first byte. *)
Definition decrypt (priv : PrivateKey) (cipher : bytes) (pubOfSignature : option PublicKey) : outcome bytes :=
  match cipher with
  | [] => Throw UndefinedBehaviour
  | front :: _ =>
      if bool_decide (byte_val front <> 101) || bool_decide (zlen cipher < 67) then
        Throw InvalidFirstByteOfCipherException
      else
        external_pub ← substr cipher 1 33;
        my_pub ← substr cipher 34 33;
        external_pub_ec ← fromDER external_pub;
        if match pubOfSignature with
           | Some p => bool_decide (external_pub_ec <> p)
           | None => false
           end
        then Throw GivenPublicKeyDoesNotMatchWithSignatureException
        else
          my_pub_ec ← fromDER my_pub;
          if bool_decide (my_pub_ec <> getPublicKey priv) then Throw GivenPrivKeyDoesNotMatchException
          else
            let ecies := construct priv external_pub_ec in
            body ← substr_from cipher 67;
            ecies_decrypt ecies body
  end.

Definition decryptV0 (priv : PrivateKey) (pub : PublicKey) (cipher : bytes) : outcome bytes :=
  ecies_decrypt (construct priv pub) cipher.
End Ecies.

Section Laws.
Context {C : CryptoService} `{!CryptoLaws C} {E : Ecc} `{!EccLaws E}.

Lemma keys_ret (e : ECIES) : zlen (_shared_key e) = 64 ->
  getM e = Ret (slice 32 32 (_shared_key e)) /\ getE e = Ret (slice 0 32 (_shared_key e)).
Proof. intros Hl. unfold getM, getE. rewrite !substr_ret by lia. done. Qed.

Lemma ecies_encrypt_ret e data : zlen (_shared_key e) = 64 ->
  exists c, ecies_encrypt e data = Ret c /\ 20 <= zlen c /\ zlen c <= 36 + zlen data.
Proof.
  intros Hl. destruct (keys_ret e Hl) as [HM HE]. unfold ecies_encrypt.
  rewrite HM, HE. unfold_st. eexists. split; [done|].
  rewrite !zlen_app, !zlen_ztake, !hmacSha256_len, aes256Cbc_len by lia. unfold AES_BLOCK.
  pose proof (zlen_nonneg data). pose proof (Z.mod_pos_bound (zlen data) 16). lia.
Qed.

Lemma ecies_roundtrip_shared e e' data c :
  _shared_key e = _shared_key e' -> zlen (_shared_key e) = 64 ->
  ecies_encrypt e data = Ret c -> zlen c < 2 ^ 64 -> ecies_decrypt e' c = Ret data.
Proof.
  intros Hs Hl. destruct (keys_ret e Hl) as [HM HE].
  destruct (keys_ret e') as [HM' HE']; [by rewrite <- Hs|].
  unfold ecies_encrypt, ecies_decrypt. rewrite HM, HE. unfold_st. rewrite Hs.
  set (M := slice 32 32 _) in *. set (E' := slice 0 32 _) in *. intros [= <-].
  set (iv := ztake 16 _). set (body := aes256CbcPkcs7Encrypt _ _ _). set (tag := ztake 4 _).
  assert (zlen iv = 16) as Hiv by (unfold iv; rewrite zlen_ztake, hmacSha256_len; lia).
  assert (zlen tag = 4) as Ht by (unfold tag; rewrite zlen_ztake, hmacSha256_len; lia).
  pose proof (zlen_nonneg body). rewrite zlen_app, Ht. intros Hf.
  replace (zlen (iv ++ body) + 4 - 4) with (zlen (iv ++ body)) by lia.
  rewrite wrap_id by (rewrite zlen_app in *; lia).
  rewrite !substr_ret by (rewrite ?zlen_app; lia). rewrite HM', HE'.
  unfold slice. rewrite zdrop_0, ztake_app, zdrop_app, (ztake_ge 4 tag) by lia.
  rewrite bool_decide_eq_false_2 by tauto. rewrite substr_from_ret, substr_ret by (rewrite zlen_app; lia).
  unfold slice. rewrite (zdrop_0 (iv ++ body)), ztake_app_eq, zdrop_app_eq by lia.
  apply aes256Cbc_inv.
Qed.

Lemma envelope_fields p q body :
  let c := lit "e" ++ toDER p ++ toDER q ++ body in
  zlen c = 67 + zlen body /\ slice 1 33 c = toDER p /\ slice 34 33 c = toDER q
  /\ zdrop 67 c = body.
Proof.
  intros c. unfold c, slice. repeat split.
  - rewrite !zlen_app, !toDER_len. change (zlen (lit "e")) with 1. lia.
  - rewrite zdrop_app_eq, ztake_app_eq by (by rewrite ?toDER_len). done.
  - rewrite (app_assoc (lit "e")), zdrop_app_eq, ztake_app_eq; [done|by rewrite toDER_len|].
    rewrite zlen_app, toDER_len. done.
  - rewrite !(app_assoc _ _ (_ ++ body)), (app_assoc _ _ body). apply zdrop_app_eq.
    rewrite !zlen_app, !toDER_len. done.
Qed.

(** The receiver opens an envelope whether or not it insists on the sender. *)
Lemma envelope_opens sender receiver data c o :
  encrypt (getPublicKey receiver) data sender = Ret c -> CryptoPrivmx.fits c ->
  o = None \/ o = Some (getPublicKey sender) -> decrypt receiver c o = Ret data.
Proof.
  unfold encrypt, CryptoPrivmx.fits. set (e := construct _ _).
  assert (zlen (_shared_key e) = 64) as Hl by apply sha512_len.
  destruct (ecies_encrypt_ret e data Hl) as (body & Hc & Hlen & _). rewrite Hc. unfold_st.
  intros [= <-] Hf Ho. set (p := getPublicKey sender) in *. set (q := getPublicKey receiver) in *.
  destruct (envelope_fields p q body) as (Hz & Hs1 & Hs2 & Hd).
  assert (67 + zlen body < 2 ^ 64) as Hf' by (rewrite <- Hz; exact Hf).
  unfold decrypt. change (lit "e") with [x65] in *. cbn [app] in *.
  rewrite Hz. rewrite !bool_decide_eq_false_2 by (change (byte_val x65) with 101; lia). cbn [orb].
  rewrite !substr_ret, substr_from_ret by lia. rewrite Hs1, Hs2, Hd. unfold_st.
  rewrite !fromDER_toDER.
  rewrite (bool_decide_eq_false_2 (q <> _)) by tauto.
  assert (match o with Some p0 => bool_decide (p <> p0) | None => false end = false) as ->.
  { destruct Ho as [->| ->]; [done|]. apply bool_decide_eq_false_2. tauto. }
  eapply ecies_roundtrip_shared; [|exact Hl|exact Hc|lia].
  unfold e, construct. simpl. f_equal. apply derive_comm.
Qed.

Lemma envelope_total sender receiver data : zlen data < 2 ^ 63 ->
  exists c, encrypt (getPublicKey receiver) data sender = Ret c /\ CryptoPrivmx.fits c /\ c <> [].
Proof.
  intros Hd. unfold encrypt, CryptoPrivmx.fits. set (e := construct _ _).
  assert (zlen (_shared_key e) = 64) as Hl by apply sha512_len.
  destruct (ecies_encrypt_ret e data Hl) as (body & Hc & Hlen & Hup). rewrite Hc. unfold_st.
  eexists. split; [reflexivity|]. split; [|done].
  destruct (envelope_fields (getPublicKey sender) (getPublicKey receiver) body) as (-> & _).
  pow_simpl. lia.
Qed.

(** the receiver opens what a sender sealed for it, and may insist on
    who the sender is. *)
Theorem ecies_roundtrip sender receiver data c :
  encrypt (getPublicKey receiver) data sender = Ret c -> CryptoPrivmx.fits c ->
  decrypt receiver c (Some (getPublicKey sender)) = Ret data
  /\ decrypt receiver c None = Ret data.
Proof. intros Hc Hf. split; eapply envelope_opens; eauto. Qed.

(** C25: an envelope opened with an expected sender is addressed to the
    receiver's key, names that sender, and ends in the checksum under the
    secret the two share; anything else is an exception. *)
Theorem ecies_authentic receiver sender cipher d :
  decrypt receiver cipher (Some sender) = Ret d -> CryptoPrivmx.fits cipher ->
  let K := sha512 (derive receiver sender) in
  fromDER (slice 1 33 cipher) = Ret sender
  /\ fromDER (slice 34 33 cipher) = Ret (getPublicKey receiver)
  /\ exists c, zdrop 67 cipher = c ++ ztake 4 (hmacSha256 (slice 32 32 K) c)
       /\ aes256CbcPkcs7Decrypt (zdrop 16 c) (slice 0 32 K) (ztake 16 c) = Ret d.
Proof.
  unfold decrypt, CryptoPrivmx.fits. destruct cipher as [|b0 cipher0] eqn:Ec; [done|].
  rewrite <- Ec. clear Ec. destruct (_ || _) eqn:Eg; [done|].
  apply orb_false_elim in Eg as [_ Eg]. apply bool_decide_eq_false in Eg.
  rewrite !substr_ret, substr_from_ret by lia. unfold_st.
  destruct (fromDER (slice 1 33 cipher)) as [p|] eqn:E1; [|done].
  case_bool_decide as Ep; [done|]. subst p.
  destruct (fromDER (slice 34 33 cipher)) as [q|] eqn:E2; [|done].
  case_bool_decide as Eq; [done|]. subst q.
  set (body := zdrop 67 cipher). intros Hd Hf. split; [done|]. split; [done|].
  assert (zlen body = zlen cipher - 67) as Hb by (unfold body; rewrite zlen_zdrop; lia).
  unfold ecies_decrypt in Hd.
  destruct (keys_ret (construct receiver sender)) as [HM HE]; [apply sha512_len|].
  rewrite HM, HE in Hd. cbn [construct _shared_key] in Hd. unfold_st.
  rewrite substr_ret in Hd by (pose proof (zlen_nonneg body); lia).
  unfold substr at 1 in Hd. case_bool_decide as Es; [done|].
  assert (4 <= zlen body) as H4.
  { destruct (Z.le_gt_cases 4 (zlen body)) as [|Hgt]; [done|]. exfalso. apply Es.
    pose proof (zlen_nonneg body). unfold wrap.
    rewrite <- (Z_mod_plus_full _ 1), Z.mul_1_l, Z.mod_small; pow_simpl; lia. }
  rewrite wrap_id in Hd by lia. unfold slice in Hd. rewrite zdrop_0 in Hd.
  rewrite (ztake_ge 4) in Hd by (rewrite zlen_zdrop; lia).
  set (c := ztake (zlen body - 4) body) in *. case_bool_decide as Et; [done|]. exists c.
  unfold substr_from in Hd. case_bool_decide; [done|].
  rewrite substr_ret in Hd by (pose proof (zlen_nonneg c); lia).
  unfold slice in *. rewrite !zdrop_0 in *. split; [|done].
  rewrite <- Et. symmetry. apply ztake_zdrop.
Qed.
End Laws.
End Ecies.

Section EciesWitness.
#[local] Existing Instances Toy.service Toy.laws ToyEcc.ecc ToyEcc.laws.
Let sender : @PrivateKey _ ToyEcc.ecc := x05.
Let receiver : @PrivateKey _ ToyEcc.ecc := x07.
Let sealed : bytes :=
  match Ecies.encrypt (getPublicKey receiver) (lit "hello") sender with
  | Ret c => c
  | Throw _ => []
  end.

Lemma ecies_roundtrip_witness :
  Ecies.decrypt receiver sealed (Some (getPublicKey sender)) = Ret (lit "hello")
  /\ Ecies.decrypt receiver sealed None = Ret (lit "hello").
Proof.
  apply (Ecies.ecies_roundtrip sender receiver (lit "hello") sealed); vm_compute; reflexivity.
Defined.

Lemma ecies_authentic_witness :
  let K := sha512 (derive receiver (getPublicKey sender)) in
  fromDER (slice 1 33 sealed) = Ret (getPublicKey sender)
  /\ fromDER (slice 34 33 sealed) = Ret (getPublicKey receiver)
  /\ exists c, zdrop 67 sealed = c ++ ztake 4 (hmacSha256 (slice 32 32 K) c)
       /\ aes256CbcPkcs7Decrypt (zdrop 16 c) (slice 0 32 K) (ztake 16 c) = Ret (lit "hello").
Proof.
  apply (Ecies.ecies_authentic receiver (getPublicKey sender) sealed (lit "hello"));
    vm_compute; reflexivity.
Defined.
End EciesWitness.
