(* ===== verification/Utils.v ===== *)
(** * String utilities and version numbers

    [Utils::split], [Utils::fillTo32], [Utils::validateTimestamps]
    (utils/src/Utils.cpp) and [VersionNumber] (utils/src/VersionNumber.cpp). *)

From Stdlib Require Import ZArith Lia Strings.String Strings.Byte.
From stdpp Require Import base list.
From S2P Require Import Prelude Bytes.

Module Utils.
(** [split(data, char)] reads with [std::getline]: a separator at the very
    end opens no further token, and the empty string has none. *)
Fixpoint split_go (delimiter : byte) (segment data : bytes) : list bytes :=
  match data with
  | [] => if bool_decide (segment = []) then [] else [segment]
  | c :: data =>
      if bool_decide (c = delimiter) then segment :: split_go delimiter [] data
      else split_go delimiter (segment ++ [c]) data
  end.
Definition split (data : bytes) (delimiter : byte) : list bytes := split_go delimiter [] data.

(** [split(data, string)], for a one-character delimiter: [find] and cut; the
    rest is always a token. *)
Fixpoint split_str_go (delimiter : byte) (segment data : bytes) : list bytes :=
  match data with
  | [] => [segment]
  | c :: data =>
      if bool_decide (c = delimiter) then segment :: split_str_go delimiter [] data
      else split_str_go delimiter (segment ++ [c]) data
  end.
Definition split_str (data : bytes) (delimiter : byte) : list bytes := split_str_go delimiter [] data.

Definition fillTo32 (data : bytes) : bytes :=
  if bool_decide (32 <= zlen data) then data else zeros (32 - zlen data) ++ data.

Definition validateTimestamps (t1 t2 threshold : Z) : bool :=
  bool_decide (Z.abs (i64 (t1 - t2)) < threshold).

(** *** Joining and splitting *)

(** The tokens separated by [d]. *)
Fixpoint join (d : byte) (l : list bytes) : bytes :=
  match l with
  | [] => []
  | [t] => t
  | t :: l => t ++ d :: join d l
  end.

Lemma split_go_token d seg t : d ∉ t -> t <> [] \/ seg <> [] ->
  split_go d seg t = [seg ++ t].
Proof.
  revert seg. induction t as [|c t IH]; intros seg Hd Hne; simpl.
  - rewrite app_nil_r. case_bool_decide; [|done]. subst seg. by destruct Hne.
  - apply not_elem_of_cons in Hd as [Hc Hd]. rewrite bool_decide_eq_false_2 by congruence.
    rewrite IH; [by rewrite <- app_assoc|done|]. right. by destruct seg.
Qed.

Lemma split_go_sep d seg t data : d ∉ t ->
  split_go d seg (t ++ d :: data) = (seg ++ t) :: split_go d [] data.
Proof.
  revert seg. induction t as [|c t IH]; intros seg Hd; simpl.
  - by rewrite bool_decide_eq_true_2, app_nil_r.
  - apply not_elem_of_cons in Hd as [Hc Hd]. rewrite bool_decide_eq_false_2 by congruence.
    rewrite IH by done. by rewrite <- app_assoc.
Qed.

Lemma split_cons d t data : d ∉ t -> split (t ++ d :: data) d = t :: split data d.
Proof. intros. unfold split. by rewrite split_go_sep. Qed.

Lemma split_token d t : d ∉ t -> t <> [] -> split t d = [t].
Proof. intros. unfold split. by rewrite split_go_token by (auto). Qed.

Lemma split_pair d t u : d ∉ t -> d ∉ u -> u <> [] -> split (t ++ d :: u) d = [t; u].
Proof. intros. unfold split. by rewrite split_go_sep, split_go_token by (auto). Qed.

(** Splitting undoes joining when no token holds the separator and the last
    one is not empty. *)
Lemma split_join d l :
  Forall (fun t => d ∉ t) l -> (forall t, last l = Some t -> t <> []) -> split (join d l) d = l.
Proof.
  unfold split. induction l as [|t l IH]; intros Hf Hl; [done|].
  apply Forall_cons in Hf as [Ht Hf]. destruct l as [|t' l].
  - cbn [join]. rewrite split_go_token; [done|done|]. left. by apply Hl.
  - change (join d (t :: t' :: l)) with (t ++ d :: join d (t' :: l)).
    rewrite split_go_sep by done. simpl app. f_equal. apply IH; [done|]. intros u Hu. by apply Hl.
Qed.

(** No token ever holds the separator. *)
Lemma split_no_sep d data : Forall (fun t => d ∉ t) (split data d).
Proof.
  unfold split. assert (forall seg, d ∉ seg -> Forall (fun t => d ∉ t) (split_go d seg data)) as H;
    [|apply H, not_elem_of_nil].
  induction data as [|c data IH]; intros seg Hs; simpl.
  - case_bool_decide; [constructor|]. by repeat constructor.
  - case_bool_decide; [constructor; [done|]; apply IH, not_elem_of_nil|].
    apply IH. rewrite elem_of_app, list_elem_of_singleton. intros [?|?]; [done|congruence].
Qed.

(** An empty last token is lost: its separator ends the text. *)
Lemma split_join_empty d l : Forall (fun t => d ∉ t) l -> split (join d (l ++ [[]])) d = l.
Proof.
  unfold split. induction l as [|t l IH]; intros Hf; [done|]. apply Forall_cons in Hf as [Ht Hf].
  assert (join d ((t :: l) ++ [[]]) = t ++ d :: join d (l ++ [[]])) as -> by (by destruct l).
  rewrite split_go_sep by done. simpl app. f_equal. by apply IH.
Qed.

Lemma split_go_nil d seg data : split_go d seg data = [] -> seg = [] /\ data = [].
Proof.
  revert seg. induction data as [|c data IH]; intros seg; simpl; case_bool_decide; try done.
  intros [H' _]%IH. by destruct seg.
Qed.

(** A text of one token is the token, with or without a separator behind it. *)
Lemma split_single d data t : split data d = [t] -> data = t \/ data = t ++ [d].
Proof.
  unfold split. assert (forall seg, split_go d seg data = [t] -> seg ++ data = t \/ seg ++ data = t ++ [d]) as H;
    [|apply (H [])].
  induction data as [|c data IH]; intros seg; simpl.
  - case_bool_decide; [done|]. intros [= <-]. left. by rewrite app_nil_r.
  - case_bool_decide as Hc.
    + intros [= -> [_ ->]%split_go_nil]. right. by subst.
    + intros H%IH. by rewrite <- app_assoc in H.
Qed.

(** The tokens' characters are the text's. *)
Lemma split_sub d data t c : t ∈ split data d -> c ∈ t -> c ∈ data.
Proof.
  unfold split. assert (forall seg, t ∈ split_go d seg data -> c ∈ t -> c ∈ seg ++ data) as H; [|apply (H [])].
  induction data as [|x data IH]; intros seg; simpl.
  - case_bool_decide; [by intros ?%not_elem_of_nil|]. intros ->%list_elem_of_singleton. by rewrite app_nil_r.
  - case_bool_decide; [intros [->|Ht]%elem_of_cons Hc|intros Ht Hc].
    + apply elem_of_app. by left.
    + pose proof (IH [] Ht Hc) as Hin. apply elem_of_app. right. apply elem_of_cons. by right.
    + pose proof (IH _ Ht Hc) as Hin. by rewrite <- app_assoc in Hin.
Qed.

Lemma join_elem d l c : c ∈ join d l -> c = d \/ exists t, t ∈ l /\ c ∈ t.
Proof.
  induction l as [|t l IH]; [by intros ?%not_elem_of_nil|]. destruct l as [|t' l].
  - intros. right. exists t. split; [left|done].
  - change (join d (t :: t' :: l)) with (t ++ d :: join d (t' :: l)).
    intros [H|[->|H]%elem_of_cons]%elem_of_app; [|by left|].
    + right. exists t. split; [left|done].
    + destruct (IH H) as [->|(u & Hu & Hc)]; [by left|]. right. exists u. split; [by right|done].
Qed.

Lemma join_empty d l : join d l = [] -> l = [] \/ l = [[]].
Proof. destruct l as [|t [|t' l]]; cbn; [by left|intros ->; by right|by destruct t]. Qed.

Lemma zlen_fillTo32 d : zlen d <= 32 -> zlen (fillTo32 d) = 32.
Proof.
  intros. unfold fillTo32. case_bool_decide; [lia|]. rewrite zlen_app, zlen_zeros by lia. lia.
Qed.
(** *** Splitting at a text *)
Lemma split_str_go_app d t data seg : d ∉ t ->
  split_str_go d seg (t ++ data) = split_str_go d (seg ++ t) data.
Proof.
  revert seg. induction t as [|c t IH]; intros seg Hd; cbn; [by rewrite app_nil_r|].
  apply not_elem_of_cons in Hd as [Hc Hd]. rewrite bool_decide_eq_false_2 by congruence.
  by rewrite IH, <- app_assoc.
Qed.

Lemma split_str_cons d t data : d ∉ t -> split_str (t ++ d :: data) d = t :: split_str data d.
Proof. intros Hd. unfold split_str. rewrite split_str_go_app by done. cbn. by rewrite bool_decide_eq_true_2. Qed.

Lemma split_str_go_head d data seg : exists rest l, split_str_go d seg data = (seg ++ rest) :: l.
Proof.
  revert seg. induction data as [|c data IH]; intros seg; cbn; [exists [], []; by rewrite app_nil_r|].
  case_bool_decide; [exists [], (split_str_go d [] data); by rewrite app_nil_r|].
  destruct (IH (seg ++ [c])) as (r & l & ->). exists (c :: r), l. by rewrite <- app_assoc.
Qed.

Lemma join_split_str_go d data seg : join d (split_str_go d seg data) = seg ++ data.
Proof.
  revert seg. induction data as [|c data IH]; intros seg; cbn [split_str_go]; [by rewrite app_nil_r|].
  case_bool_decide as Hc.
  - subst c. destruct (split_str_go_head d data []) as (r & l & He). cbn in He. pose proof (IH []) as Hj. rewrite He in *.
    change (join d (seg :: r :: l)) with (seg ++ d :: join d (r :: l)). by rewrite Hj.
  - rewrite IH, <- app_assoc. done.
Qed.

Lemma split_str_join d l : Forall (fun t => d ∉ t) l -> l <> [] -> split_str (join d l) d = l.
Proof.
  induction 1 as [|t l Ht Hl IH]; intros Hne; [done|]. destruct l as [|t' l].
  - cbn [join]. unfold split_str. rewrite <- (app_nil_r t) at 1. rewrite split_str_go_app by done. by rewrite app_nil_l.
  - change (join d (t :: t' :: l)) with (t ++ d :: join d (t' :: l)). by rewrite split_str_cons, IH.
Qed.
End Utils.

Module VersionNumber.
Record VersionNumber := {
  _versionStr : bytes;
  _major : Z;
  _minor : Z;
  _build : option Z;
  _comment : option bytes;
}.

Definition unknown : VersionNumber :=
  {| _versionStr := lit "unknown"; _major := 0; _minor := 0; _build := None; _comment := None |}.

(** [std::stoul] on a string that starts with a digit: the value and the
    position where it stopped. *)
Definition stoul (s : bytes) : outcome (Z * Z) :=
  let ds := digits s in
  let v := dec_value ds 0 in
  if bool_decide (ds = []) then Throw StdInvalidArgument
  else if bool_decide (u64_max < v) then Throw StdOutOfRange
  else Ret (v, zlen ds).

(** The conversion block; its [catch (...)] reports one exception. *)
Definition convert (versionStr : bytes) (tmp : list bytes) : outcome VersionNumber :=
  '(major, _) ← stoul (default [] (tmp !! 0%nat));
  '(minor, _) ← stoul (default [] (tmp !! 1%nat));
  match tmp !! 2%nat with
  | Some third =>
      if bool_decide (third <> lit "*") then
        '(build, pos) ← stoul third;
        mret {| _versionStr := versionStr; _major := major; _minor := minor; _build := Some build;
                _comment := if bool_decide (pos <> zlen third) then Some (zdrop pos third) else None |}
      else mret {| _versionStr := versionStr; _major := major; _minor := minor; _build := None; _comment := None |}
  | None => mret {| _versionStr := versionStr; _major := major; _minor := minor; _build := None; _comment := None |}
  end.

Definition parse (versionStr : bytes) : outcome VersionNumber :=
  let tmp := Utils.split_str versionStr x2e in
  let major := default [] (tmp !! 0%nat) in
  let minor := default [] (tmp !! 1%nat) in
  if bool_decide (length tmp <> 3%nat) && bool_decide (length tmp <> 2%nat) then Throw InvalidVersionFormatException
  else if bool_decide (major = []) || bool_decide (minor = []) then Throw InvalidVersionFormatException
  else if negb (forallb isdigit major) then Throw InvalidVersionFormatException
  else if negb (forallb isdigit minor) then Throw InvalidVersionFormatException
  else if match tmp !! 2%nat with
          | Some third =>
              bool_decide (minor = [])
              || negb (isdigit (match third with c :: _ => c | [] => x00 end)) && bool_decide (third <> lit "*")
          | None => false
          end then Throw InvalidVersionFormatException
  else
    match convert versionStr tmp with
    | Ret v => Ret v
    | Throw _ => Throw InvalidVersionFormatException
    end.

(** [std::lexicographical_compare] on [char]. *)
Fixpoint lex_lt (a b : bytes) : bool :=
  match a, b with
  | _, [] => false
  | [], _ :: _ => true
  | x :: a, y :: b =>
      if bool_decide (char_val x < char_val y) then true
      else if bool_decide (char_val y < char_val x) then false
      else lex_lt a b
  end.

(** [operator<] *)
Definition lt (l r : VersionNumber) : bool :=
  if bool_decide (_major l < _major r) then true
  else if bool_decide (_major l = _major r) then
    if bool_decide (_minor l < _minor r) then true
    else if bool_decide (_minor l = _minor r) then
      match _build l, _build r with
      | None, _ => true
      | Some b, Some b' =>
          if bool_decide (b < b') then true
          else if bool_decide (b = b') then
            match _comment l, _comment r with
            | Some c, Some c' => lex_lt c c'
            | Some _, None => true
            | None, _ => false
            end
          else false
      | Some _, None => false
      end
    else false
  else false.

Definition gt (l r : VersionNumber) : bool := lt r l.

(** [operator==] *)
Definition eqb (l r : VersionNumber) : bool :=
  if bool_decide (_major l = _major r) && bool_decide (_minor l = _minor r) then
    match _build l, _build r with
    | Some b, Some b' =>
        if bool_decide (b = b') then
          match _comment l, _comment r with
          | Some c, Some c' => bool_decide (c = c')
          | None, None => true
          | _, _ => false
          end
        else false
    | None, None => true
    | _, _ => false
    end
  else false.

(** *** The order *)

Lemma char_val_inj a b : char_val a = char_val b -> a = b.
Proof.
  unfold char_val, swrap. pose proof (byte_val_range a). pose proof (byte_val_range b).
  intros E. apply byte_val_inj. change (2 ^ (8 - 1)) with 128 in E. change (2 ^ 8) with 256 in E.
  Z.div_mod_to_equations. lia.
Qed.

Lemma lex_lt_irrefl a : lex_lt a a = false.
Proof. induction a as [|x a IH]; simpl; [done|]. by rewrite !bool_decide_eq_false_2 by lia. Qed.

Lemma lex_lt_trans a b c : lex_lt a b = true -> lex_lt b c = true -> lex_lt a c = true.
Proof.
  revert b c. induction a as [|x a IH]; intros [|y b] [|z c]; simpl; try done.
  repeat case_bool_decide; try done; try lia. apply IH.
Qed.

Lemma lex_lt_total a b : lex_lt a b = false -> lex_lt b a = false -> a = b.
Proof.
  revert b. induction a as [|x a IH]; intros [|y b]; simpl; try done.
  repeat case_bool_decide; try done; try lia.
  intros. f_equal; [apply char_val_inj; lia|]. by apply IH.
Qed.

(** Versions written with a build number. *)
Definition has_build (v : VersionNumber) : Prop := is_Some (_build v).

(** on versions with a build number [operator<] is a strict order that
    agrees with [operator==]: irreflexive, transitive, and of two versions
    exactly one is smaller unless they are equal. *)
Theorem version_order :
  (forall a, has_build a -> lt a a = false)
  /\ (forall a b c, has_build a -> has_build b -> has_build c ->
        lt a b = true -> lt b c = true -> lt a c = true)
  /\ (forall a b, has_build a -> has_build b ->
        (lt a b = true /\ lt b a = false /\ eqb a b = false)
        \/ (lt a b = false /\ lt b a = true /\ eqb a b = false)
        \/ (lt a b = false /\ lt b a = false /\ eqb a b = true)).
Proof.
  split; [|split].
  - intros a [x Hx]. unfold lt. rewrite Hx. repeat case_bool_decide; try lia.
    destruct (_comment a); [apply lex_lt_irrefl|done].
  - intros a b c [x Hx] [y Hy] [z Hz]. unfold lt. rewrite Hx, Hy, Hz.
    repeat case_bool_decide; try done; try lia.
    destruct (_comment a), (_comment b), (_comment c); try done. apply lex_lt_trans.
  - intros a b [x Hx] [y Hy]. unfold lt, eqb. rewrite Hx, Hy.
    repeat case_bool_decide; try lia; simpl; auto.
    + destruct (_comment a) as [s|], (_comment b) as [t|]; simpl; auto.
      case_bool_decide as E.
      * subst t. rewrite lex_lt_irrefl. auto.
      * destruct (lex_lt s t) eqn:E1, (lex_lt t s) eqn:E2; auto.
        -- pose proof (lex_lt_trans _ _ _ E1 E2) as E3. by rewrite lex_lt_irrefl in E3.
        -- by destruct E; apply lex_lt_total.
Qed.

(** Without build numbers the comparison is not an order: a version is
    smaller than itself. *)
Lemma version_lt_reflexive_without_build : forall v, parse (lit "2.4") = Ret v -> lt v v = true.
Proof. intros v. vm_compute. intros [= <-]. reflexivity. Qed.
End VersionNumber.
