(* ===== verification/Dynamic.v ===== *)
(** * Values that cross the wire

    [Poco::Dynamic::Var], [Poco::JSON::Object], the PSON codec and the Base64
    and hexadecimal coders are libraries.  [Dynamic] and [Encodings] are what
    the modelled code calls of them; [ToyJson] is a concrete instance. *)

From Stdlib Require Import ZArith Lia Strings.String Strings.Byte Strings.HexString.
From stdpp Require Import base list countable.
From S2P Require Import Prelude Bytes.

Class Encodings := {
  base64_from : bytes -> bytes;
  base64_to : bytes -> outcome bytes;
  hex_from : bytes -> bytes;
  hex_to : bytes -> outcome bytes;
  (** [mpz_class(s, 16)] and [mpz_get_str(NULL, 16, x)] *)
  mpz_of_hex : bytes -> outcome Z;
  mpz_to_hex : Z -> bytes;
}.

Class EncodingsLaws (E : Encodings) := {
  base64_inv d : base64_to (base64_from d) = Ret d;
  base64_nonempty d : d <> [] -> base64_from d <> [];
  hex_inv d : hex_to (hex_from d) = Ret d;
  hex_nonempty d : d <> [] -> hex_from d <> [];
  mpz_hex_inv z : 0 <= z -> mpz_of_hex (mpz_to_hex z) = Ret z;
}.

(** The accessors take the value and a key: [get_string v k] is
    [v.extract<Object::Ptr>()->getValue<std::string>(k)], which throws when the
    value is not an object, has no such key or one that does not convert. *)
Class Dynamic := {
  Var : Type;
  get_string : Var -> bytes -> outcome bytes;
  get_binary : Var -> bytes -> outcome bytes;
  get_int : Var -> bytes -> outcome Z;
  (** [getObject(k)], dereferenced *)
  get_object : Var -> bytes -> outcome Var;
  (** [getArray(k)], dereferenced: what [extract<BinaryString>] gives for each
      of its elements *)
  get_binaries : Var -> bytes -> outcome (list (outcome bytes));
  (** [has(k)] and [get(k).isEmpty()] *)
  has : Var -> bytes -> bool;
  is_empty : Var -> bytes -> bool;
  (** [new Object()], then [set] for each entry *)
  new_object : list (bytes * Var) -> Var;
  set_field : Var -> bytes -> Var -> Var;
  of_string : bytes -> Var;
  of_binary : bytes -> Var;
  of_int : Z -> Var;
  pson_encode : Var -> bytes;
  pson_decode : bytes -> outcome Var;
  parse_json : bytes -> outcome Var;
  (** [Utils::parseJsonObject]: throws on a text that is not an object *)
  parse_json_object : bytes -> outcome Var;
  (** [Utils::stringifyVar], of a value and of an empty [Var] *)
  stringify : Var -> bytes;
  stringify_empty : outcome bytes;
}.

(** The [serialize]/[fromJSON] pair the JSON_STRUCT macros generate for a
    message type. *)
Class JsonCodec (T : Type) := {
  serialize : T -> bytes;
  deserialize : bytes -> outcome T;
}.
Class JsonCodecLaws (T : Type) `{JsonCodec T} := {
  json_inv (x : T) : deserialize (serialize x) = Ret x;
}.

(** Base58Check text of a public key. *)
Class KeyFormats (P : Type) := {
  toBase58DER : P -> bytes;
  fromBase58DER : bytes -> outcome P;
}.
Class KeyFormatsLaws (P : Type) `{KeyFormats P} := {
  base58der_inv p : fromBase58DER (toBase58DER p) = Ret p;
  base58der_nonempty p : toBase58DER p <> [];
}.

(** ** A concrete instance: values as trees, a fixed decoding table *)
Module ToyJson.
Inductive json : Type :=
| JString (s : bytes)
| JBinary (s : bytes)
| JInt (z : Z)
| JArray (l : list json)
| JObject (l : list (bytes * json)).

Fixpoint assoc (k : bytes) (l : list (bytes * json)) : option json :=
  match l with
  | [] => None
  | (k', v) :: l => if bool_decide (k = k') then Some v else assoc k l
  end.

Definition field (v : json) (k : bytes) : option json :=
  match v with JObject l => assoc k l | _ => None end.

Definition binary (v : json) : outcome bytes :=
  match v with JBinary s => Ret s | _ => Throw PocoException end.

#[export] Instance encodings : Encodings := {|
  base64_from d := d; base64_to d := Ret d; hex_from d := d; hex_to d := Ret d;
  mpz_of_hex s := Ret (HexString.to_Z (string_of_list_byte s));
  mpz_to_hex z := lit (HexString.of_Z z) |}.
#[export] Instance encodings_laws : EncodingsLaws encodings.
Proof.
  constructor; cbn [base64_from base64_to hex_from hex_to mpz_of_hex mpz_to_hex encodings]; try done.
  intros z _. unfold lit. by rewrite string_of_list_byte_of_string, HexString.to_Z_of_Z.
Qed.

(** The codec: an object is what a table says its bytes mean; good enough to
    run both directions of a conversation on chosen packets. *)
Section Codec.
Variable table : list (bytes * json).
Definition dynamic : Dynamic := {|
  Var := json;
  get_string v k := match field v k with Some (JString s) => Ret s | _ => Throw PocoException end;
  get_binary v k := match field v k with Some (JBinary s) => Ret s | _ => Throw PocoException end;
  get_int v k := match field v k with Some (JInt z) => Ret z | _ => Throw PocoException end;
  get_object v k := match field v k with Some (JObject l) => Ret (JObject l) | _ => Throw PocoException end;
  get_binaries v k := match field v k with Some (JArray l) => Ret (map binary l) | _ => Throw PocoException end;
  has v k := match field v k with Some _ => true | None => false end;
  is_empty v k := match field v k with Some _ => false | None => true end;
  new_object l := JObject l;
  set_field v k x := match v with JObject l => JObject ((k, x) :: l) | _ => v end;
  of_string := JString;
  of_binary := JBinary;
  of_int := JInt;
  pson_encode v := match field v (lit "type") with Some (JString s) => s | _ => [] end;
  pson_decode b := match assoc b table with Some v => Ret v | None => Throw PsonException end;
  parse_json b := match assoc b table with Some v => Ret v | None => Throw PocoException end;
  parse_json_object b := match assoc b table with Some (JObject l) => Ret (JObject l) | _ => Throw PocoException end;
  stringify v := match v with JString s => s | _ => [] end;
  stringify_empty := Throw PocoException;
|}.
End Codec.
End ToyJson.

(** ** Texts for message codecs

    Numbers in unary-tagged bits and lists of strings: instances of the message
    classes are made of them, so that the theorems that assume one can be used. *)
Module ToyCodec.
Fixpoint of_positive (p : positive) : bytes :=
  match p with xH => [] | xO p => x00 :: of_positive p | xI p => x01 :: of_positive p end.

Fixpoint to_positive (d : bytes) : positive :=
  match d with [] => xH | x00 :: d => xO (to_positive d) | _ :: d => xI (to_positive d) end.

Lemma positive_inv p : to_positive (of_positive p) = p.
Proof. induction p as [p IH|p IH|]; cbn; by rewrite ?IH. Qed.

(** Strings one after the other: each byte behind a mark, each string closed. *)
Fixpoint of_strings (l : list bytes) : bytes :=
  match l with
  | [] => []
  | s :: l => concat ((fun b => [x01; b]) <$> s) ++ x00 :: of_strings l
  end.

Fixpoint to_strings (s cur : bytes) : list bytes :=
  match s with
  | x00 :: s => cur :: to_strings s []
  | _ :: b :: s => to_strings s (cur ++ [b])
  | _ => []
  end.

Lemma strings_inv l : to_strings (of_strings l) [] = l.
Proof.
  induction l as [|s l IH]; [done|]. cbn [of_strings].
  assert (forall cur, to_strings (concat ((fun b => [x01; b]) <$> s) ++ x00 :: of_strings l) cur
    = (cur ++ s) :: l) as H; [|by rewrite H].
  induction s as [|b s IHs]; intros cur; cbn; [by rewrite IH, app_nil_r|].
  by rewrite IHs, <- app_assoc.
Qed.

Lemma zlen_of_strings s l : zlen (of_strings (s :: l)) = 2 * zlen s + 1 + zlen (of_strings l).
Proof.
  cbn [of_strings]. rewrite zlen_app, zlen_cons.
  assert (zlen (concat ((fun b => [x01; b]) <$> s)) = 2 * zlen s) as ->; [|lia].
  induction s as [|b s IH]; [done|]. cbn [fmap list_fmap concat]. rewrite zlen_app, IH.
  unfold zlen. cbn [length]. lia.
Qed.

(** Keys of one byte, written after a tag. *)
Definition keys : KeyFormats byte := {|
  toBase58DER p := [x50; p];
  fromBase58DER d := match d with [_; p] => Ret p | _ => Throw PocoException end |}.

Lemma keys_laws : @KeyFormatsLaws byte keys.
Proof. constructor; [by intros []|done]. Qed.
End ToyCodec.
