(* ===== verification/Keys.v ===== *)
(** * Keys and their texts

    [crypto::PrivateKey] and [crypto::PublicKey] as WIF and Base58 texts
    (crypto/base/src/ecc/PrivateKey.cpp, PublicKey.cpp), and the hierarchy of
    extended keys, [crypto::ExtKey] (crypto/base/src/ecc/ExtKey.cpp). *)

From Stdlib Require Import ZArith Lia Strings.String Strings.Byte.
From stdpp Require Import base list.
From S2P Require Import Prelude Bytes Crypto Base58 CryptoSuite Utils Dynamic.

(** What the back end does with the numbers behind the keys:
    [ECC::fromPrivateKey], [ECC::getPrivateKey] (without leading zeros) and
    [ECC::getOrder]. *)
Class EccNumbers {C : CryptoService} (E : Ecc) := {
  ecc_fromPrivateKey : bytes -> outcome PrivateKey;
  ecc_getPrivateKey : PrivateKey -> bytes;
  ecc_getOrder : bytes;
}.

Class EccNumbersLaws {C : CryptoService} (E : Ecc) `{!EccNumbers E} : Prop := {
  (** At most 32 bytes, and they may be written with zeros in front. *)
  private_len k : zlen (ecc_getPrivateKey k) <= 32;
  private_inv k : ecc_fromPrivateKey (ecc_getPrivateKey k) = Ret k;
  private_filled_inv k : ecc_fromPrivateKey (Utils.fillTo32 (ecc_getPrivateKey k)) = Ret k;
  (** A compressed point starts with 2 or 3. *)
  toDER_nonzero p : Base58.nonzero (toDER p);
  (** The header of a compact signature tells which of the four points it is
      of, and that the key is compressed. *)
  sign_header k m : exists c s, signToCompactSignature k m = c :: s /\ 31 <= byte_val c <= 34;
}.

(** [Networks::BITCOIN] *)
Module Networks.
Definition BIP39_PUBLIC : Z := 0x0488B21E.
Definition BIP39_PRIVATE : Z := 0x0488ADE4.
Definition PUB_KEY_HASH : byte := x00.
Definition WIF : byte := x80.
End Networks.

Module PrivateKey.
Section Key.
Context {C : CryptoService} {E : Ecc} `{!EccNumbers E}.

Definition getPrivateEncKey (k : PrivateKey) : bytes := Utils.fillTo32 (ecc_getPrivateKey k).

Definition toWIF (k : PrivateKey) : outcome bytes :=
  Base58.encodeWithChecksum ([Networks.WIF] ++ Utils.fillTo32 (ecc_getPrivateKey k) ++ [x01]).

(** [payload.front()] of an empty string is undefined. *)
Definition fromWIF (wif : bytes) : outcome PrivateKey :=
  payload ← Base58.decodeWithChecksum wif;
  match payload with
  | [] => Throw UndefinedBehaviour
  | front :: payload =>
      if bool_decide (front <> Networks.WIF) then Throw InvalidNetworkException
      else
        payload ← (if bool_decide (zlen payload = 33) then
                     if bool_decide (last payload <> Some x01) then Throw InvalidCompressionFlagException
                     else Ret (ztake 32 payload)
                   else Ret payload);
        if bool_decide (zlen payload <> 32) then Throw InvalidWIFPayloadLengthException
        else ecc_fromPrivateKey payload
  end.
End Key.
End PrivateKey.

Module PublicKey.
Section Key.
Context {C : CryptoService} {E : Ecc}.

Definition toBase58DER (p : PublicKey) : outcome bytes := Base58.encodeWithChecksum (toDER p).
Definition fromBase58DER (base58 : bytes) : outcome PublicKey :=
  der ← Base58.decodeWithChecksum base58; fromDER der.

Definition toBase58Address (p : PublicKey) : outcome bytes :=
  Base58.encodeWithChecksum ([Networks.PUB_KEY_HASH] ++ hash160 (toDER p)).
End Key.
End PublicKey.

(** ** Extended keys *)

(** [ECC]: with the private number, or without. *)
Inductive ECC {C : CryptoService} {E : Ecc} :=
| with_private (k : PrivateKey)
| public_only (p : PublicKey).

Definition ecc_public {C : CryptoService} {E : Ecc} (e : ECC) : PublicKey :=
  match e with with_private k => getPublicKey k | public_only p => p end.

Module ExtKey.
Record t {C : CryptoService} {E : Ecc} := mk {
  _ec : ECC;
  _chain_code : bytes;
  _is_private : bool;
  _depth : Z;
  _parent_fingerprint : Z;
  _index : Z;
}.

Definition HIGHEST_BIT : Z := 0x80000000.
Definition MASTER_SECRET : bytes := lit "Bitcoin seed".

Section ExtKey.
Context {C : CryptoService} {E : Ecc} `{!EccNumbers E}.

(** The constructor of a key that has a place in the tree; the other one
    leaves the place at the root. *)
Definition construct (key chain_code : bytes) (private_key : bool) (depth parent_fingerprint index : Z) : outcome t :=
  e ← (if private_key then k ← ecc_fromPrivateKey key; mret (with_private k)
       else p ← fromDER key; mret (public_only p));
  mret (mk _ _ e chain_code private_key depth parent_fingerprint index).

Definition construct_root (key chain_code : bytes) (private_key : bool) : outcome t :=
  construct key chain_code private_key 0 0 0.

Definition fromSeed (seed : bytes) : outcome t :=
  let raw_key := hmacSha512 MASTER_SECRET seed in
  key ← substr raw_key 0 32;
  chain_code ← substr raw_key 32 32;
  construct_root key chain_code true.

Definition generateRandom : ST rng t := fun g =>
  let '(raw_buf, g) := randomBytes 64 g in
  (key ← substr raw_buf 0 32; chain_code ← substr raw_buf 32 32; construct_root key chain_code true, g).

Definition read_u32_be (raw_key : bytes) (offset : Z) : Z := be_decode (slice offset 4 raw_key).

(** The depth, the fingerprint and the index of the text are not kept. *)
Definition fromBase58 (base58 : bytes) : outcome t :=
  raw_key ← Base58.decodeWithChecksum base58;
  if bool_decide (zlen raw_key <> 78) then Throw InvalidExtendedKeySizeException
  else
    let version := read_u32_be raw_key 0 in
    if bool_decide (version <> Networks.BIP39_PRIVATE) && bool_decide (version <> Networks.BIP39_PUBLIC)
    then Throw InvalidVersionException
    else
      let depth := byte_val (CipherSuite.byte_at_0 (zdrop 4 raw_key)) in
      let parent_fingerprint := read_u32_be raw_key 5 in
      if bool_decide (depth = 0) && bool_decide (parent_fingerprint <> 0) then Throw InvalidParentFingerprintException
      else
        chain_code ← substr raw_key 13 32;
        if bool_decide (version = Networks.BIP39_PRIVATE) then
          key ← substr raw_key 46 32; construct_root key chain_code true
        else key ← substr raw_key 45 33; construct_root key chain_code false.

(** What a child key is derived from. *)
Definition child_data (private_key : bytes) (public_key : PublicKey) (index : Z) (old_privmx_version : bool) : bytes :=
  if bool_decide (HIGHEST_BIT <= index) then
    [x00] ++ (if old_privmx_version then private_key else Utils.fillTo32 private_key) ++ be32 index
  else toDER public_key ++ be32 index.

(** The first four bytes of the key's identifier, as a number. *)
Definition fingerprint (p : PublicKey) : Z := be_decode (ztake 4 (hash160 (toDER p))).

(** One attempt: the child, or nothing when the next index has to be tried. *)
Definition derive_once (k : PrivateKey) (chain_code : bytes) (depth index : Z) (old_privmx_version : bool) :
    outcome (option t) :=
  let private_key := ecc_getPrivateKey k in
  let I := hmacSha512 chain_code (child_data private_key (getPublicKey k) index old_privmx_version) in
  IL ← substr I 0 32;
  LR ← substr I 32 32;
  let pIL := mpz_import IL in
  let n := mpz_import ecc_getOrder in
  if bool_decide (n < pIL) then mret None
  else
    let ki := (pIL + mpz_import private_key) mod n in
    if bool_decide (ki = 0) then mret None
    else
      child ← construct (mpz_export ki) LR true (u8 (depth + 1)) (fingerprint (getPublicKey k)) index;
      mret (Some child).

(** [fuel] bounds how many indices are tried; the next ones are tried in the
    new version, whatever the first was tried in. *)
Fixpoint derive_in (fuel : nat) (key : t) (index : Z) (old_privmx_version : bool) : outcome t :=
  match fuel with
  | O => Throw UndefinedBehaviour
  | S fuel =>
      match _is_private key, _ec key with
      | true, with_private k =>
          child ← derive_once k (_chain_code key) (_depth key) index old_privmx_version;
          match child with
          | Some child => mret child
          | None => derive_in fuel key (u32 (index + 1)) false
          end
      | _, _ => Throw ExtKeyDoesNotHoldPrivateKeyException
      end
  end.

Definition derive (fuel : nat) (key : t) (index : Z) : outcome t := derive_in fuel key index false.
Definition deriveHardened (fuel : nat) (key : t) (index : Z) : outcome t := derive fuel key (u32 (index + HIGHEST_BIT)).
Definition deriveOldPrivmxVersion (fuel : nat) (key : t) (index : Z) : outcome t := derive_in fuel key index true.
Definition deriveHardenedOldPrivmxVersion (fuel : nat) (key : t) (index : Z) : outcome t :=
  deriveOldPrivmxVersion fuel key (u32 (index + HIGHEST_BIT)).

Definition toBase58 (key : t) (is_private : bool) : outcome bytes :=
  if is_private && negb (_is_private key) then Throw ExtKeyDoesNotHoldPrivateKeyException
  else
    let version := if is_private then Networks.BIP39_PRIVATE else Networks.BIP39_PUBLIC in
    let head := be32 version ++ [byte_of (_depth key)] ++ be32 (_parent_fingerprint key) ++ be32 (_index key) in
    tail ← (if is_private then
              match _ec key with
              | with_private k => Ret ([x00] ++ Utils.fillTo32 (ecc_getPrivateKey k))
              | public_only _ => Throw UndefinedBehaviour
              end
            else Ret (toDER (ecc_public (_ec key))));
    let result := head ++ _chain_code key ++ tail in
    if bool_decide (zlen result <> 78) then Throw InvalidResultSizeException
    else Base58.encodeWithChecksum result.

Definition getPrivatePartAsBase58 (key : t) : outcome bytes := toBase58 key true.
Definition getPublicPartAsBase58 (key : t) : outcome bytes := toBase58 key false.

Definition getPrivateKey (key : t) : outcome PrivateKey :=
  match _is_private key, _ec key with
  | true, with_private k => Ret k
  | _, _ => Throw ExtKeyDoesNotHoldPrivateKeyException
  end.
Definition getPublicKey (key : t) : PublicKey := ecc_public (_ec key).
Definition getPrivateEncKey (key : t) : outcome bytes := k ← getPrivateKey key; mret (PrivateKey.getPrivateEncKey k).
Definition getPublicKeyAsBase58 (key : t) : outcome bytes := PublicKey.toBase58DER (getPublicKey key).
Definition getPublicKeyAsBase58Address (key : t) : outcome bytes := PublicKey.toBase58Address (getPublicKey key).
Definition verifyCompactSignatureWithHash (key : t) (message signature : bytes) : bool :=
  CryptoSuite.verifyCompactSignatureWithHash (getPublicKey key) message signature.
End ExtKey.
End ExtKey.

(** ** Keys and their texts *)
Section Laws.
Context {C : CryptoService} `{!CryptoLaws C} {E : Ecc} `{!EccLaws E} `{!EccNumbers E} `{!EccNumbersLaws E}.

Lemma wif_opens k : exists t, PrivateKey.toWIF k = Ret t /\ PrivateKey.fromWIF t = Ret k.
Proof.
  pose proof (Utils.zlen_fillTo32 _ (private_len k)) as Hl. set (payload := Utils.fillTo32 _) in *.
  destruct (Base58.checksum_roundtrip ([Networks.WIF] ++ payload ++ [x01])) as (t & Ht & Hd).
  { by left. } { rewrite !zlen_app, Hl. by vm_compute. }
  exists t. split; [exact Ht|]. unfold PrivateKey.fromWIF. unfold_st. rewrite Hd. cbn [app].
  rewrite bool_decide_eq_false_2 by tauto.
  rewrite bool_decide_eq_true_2 by (by rewrite zlen_app, Hl). rewrite last_snoc, bool_decide_eq_false_2 by tauto.
  rewrite ztake_app_eq by done. rewrite bool_decide_eq_false_2 by lia. apply private_filled_inv.
Qed.

Lemma base58der_opens p : exists t, PublicKey.toBase58DER p = Ret t /\ PublicKey.fromBase58DER t = Ret p.
Proof.
  destruct (Base58.checksum_roundtrip (toDER p)) as (t & Ht & Hd); [apply toDER_nonzero|rewrite toDER_len; by vm_compute|].
  exists t. split; [exact Ht|]. unfold PublicKey.fromBase58DER. unfold_st. rewrite Hd. apply fromDER_toDER.
Qed.

(** The interface the rest of the development asks of Base58 texts of public
    keys, and that these texts provide it. *)
Definition base58_keys : KeyFormats PublicKey := {|
  Dynamic.toBase58DER p := match PublicKey.toBase58DER p with Ret t => t | Throw _ => [] end;
  Dynamic.fromBase58DER := PublicKey.fromBase58DER |}.

Lemma base58_keys_laws : @KeyFormatsLaws PublicKey base58_keys.
Proof.
  split; intros p; cbn; destruct (base58der_opens p) as (t & -> & Ht); [done|].
  intros ->. revert Ht. by vm_compute.
Qed.

(** the texts of keys name them: a private key is read back from its WIF, a
    public key from its Base58 text, and the Base58 texts satisfy what every
    encryptor and integrity check assumes of them. *)
Theorem keys_roundtrip k p :
  (exists t, PrivateKey.toWIF k = Ret t /\ PrivateKey.fromWIF t = Ret k)
  /\ (exists t, PublicKey.toBase58DER p = Ret t /\ PublicKey.fromBase58DER t = Ret p)
  /\ @KeyFormatsLaws PublicKey base58_keys.
Proof. split; [apply wif_opens|]. split; [apply base58der_opens|apply base58_keys_laws]. Qed.

(** ** Extended keys *)
Import ExtKey.

(** A key whose parts have the sizes of BIP 32. *)
Record well_formed (key : t) : Prop := {
  wf_chain : zlen (_chain_code key) = 32;
  wf_depth : 0 <= _depth key < 256;
  wf_fingerprint : 0 <= _parent_fingerprint key < 2 ^ 32;
  wf_index : 0 <= _index key < 2 ^ 32;
  wf_private : _is_private key = match _ec key with with_private _ => true | public_only _ => false end;
}.

(** The same key without its place in the tree. *)
Definition uprooted (key : t) : t := mk _ _ (_ec key) (_chain_code key) (_is_private key) 0 0 0.

(** The public part of a key. *)
Definition neutered (key : t) : t :=
  mk _ _ (public_only (getPublicKey key)) (_chain_code key) false (_depth key) (_parent_fingerprint key) (_index key).

(** The six fields of a serialised key. *)
Lemma serialised_fields version depth fp index chain tail : zlen chain = 32 -> zlen tail = 33 ->
  0 <= version < 2 ^ 32 -> 0 <= depth < 256 -> 0 <= fp < 2 ^ 32 ->
  let raw := (be32 version ++ [byte_of depth] ++ be32 fp ++ be32 index) ++ chain ++ tail in
  zlen raw = 78 /\ read_u32_be raw 0 = version /\ byte_val (CipherSuite.byte_at_0 (zdrop 4 raw)) = depth
  /\ read_u32_be raw 5 = fp /\ slice 13 32 raw = chain /\ slice 45 33 raw = tail /\ slice 46 32 raw = zdrop 1 tail.
Proof.
  intros Hc Ht Hv Hd Hf raw. pose proof (zlen_be_encode 4) as H4. change (Z.of_nat 4) with 4 in H4.
  assert (zlen raw = 78) as Hl. { unfold raw. rewrite !zlen_app, !H4, Hc, Ht. done. }
  split; [done|]. unfold read_u32_be, slice, raw.
  assert (zlen (be32 version ++ [byte_of depth] ++ be32 fp ++ be32 index) = 13) as H13 by (by rewrite !zlen_app, !H4).
  split. { rewrite zdrop_0, <- !app_assoc, ztake_app_eq by (by rewrite H4). by apply be_decode_encode. }
  split. { rewrite <- !app_assoc, zdrop_app_eq by (by rewrite H4). cbn [app CipherSuite.byte_at_0]. rewrite byte_val_of. by apply Z.mod_small. }
  split.
  { rewrite <- !app_assoc, (app_assoc _ [_]), zdrop_app_eq by (by rewrite zlen_app, H4).
    rewrite ztake_app_eq by (by rewrite H4). by apply be_decode_encode. }
  split. { rewrite zdrop_app_eq by lia. by apply ztake_app_eq. }
  set (h := be32 version ++ _) in *. rewrite app_assoc. assert (zlen (h ++ chain) = 45) as H45 by (by rewrite zlen_app, H13, Hc).
  split. { rewrite zdrop_app_eq by lia. apply ztake_ge. lia. }
  rewrite zdrop_app_ge, H45 by lia. apply ztake_ge. rewrite zlen_zdrop by lia. lia.
Qed.

(** C31: an extended key's text gives its key, its chain code and whether it is
    private back, but not its place in the tree: depth, fingerprint and index
    come back as the root's, so the text of what was restored is another one.
    A key whose depth has wrapped around to zero has a text that is refused. *)
Theorem ext_key_restored key is_private : well_formed key -> (is_private = true -> _is_private key = true) ->
  exists t, toBase58 key is_private = Ret t
    /\ fromBase58 t = (if bool_decide (_depth key = 0) && bool_decide (_parent_fingerprint key <> 0)
                       then Throw InvalidParentFingerprintException
                       else Ret (uprooted (if is_private then key else neutered key))).
Proof.
  intros [Hc Hd Hf Hi Hw] Hp.
  assert (is_private && negb (_is_private key) = false) as Hb by (destruct is_private; [by rewrite Hp|done]).
  set (version := if is_private then Networks.BIP39_PRIVATE else Networks.BIP39_PUBLIC).
  set (tail := if is_private then [x00] ++ Utils.fillTo32 (match _ec key with with_private k => ecc_getPrivateKey k | _ => [] end)
               else toDER (ecc_public (_ec key))).
  set (raw := (be32 version ++ [byte_of (_depth key)] ++ be32 (_parent_fingerprint key) ++ be32 (_index key))
              ++ _chain_code key ++ tail).
  assert (zlen tail = 33) as Ht.
  { unfold tail. destruct is_private; [|apply toDER_len]. rewrite zlen_app, Utils.zlen_fillTo32; [done|].
    destruct (_ec key); [apply private_len|done]. }
  destruct (serialised_fields version (_depth key) (_parent_fingerprint key) (_index key) (_chain_code key) tail)
    as (Hz & F1 & F2 & F3 & F4 & F5 & F6); try done; [by destruct is_private|]. fold raw in Hz, F1, F2, F3, F4, F5, F6.
  assert (toBase58 key is_private = Base58.encodeWithChecksum raw) as He.
  { unfold toBase58. rewrite Hb. fold version. unfold_st. unfold tail in raw. clear -Hw Hp Hz.
    destruct is_private; [|by rewrite bool_decide_eq_false_2 by tauto].
    rewrite Hp in Hw by done. destruct (_ec key); [|done]. by rewrite bool_decide_eq_false_2 by tauto. }
  destruct (Base58.checksum_roundtrip raw) as (t & Et & Dt).
  { unfold raw, version. destruct is_private; by left. } { rewrite Hz. by vm_compute. }
  exists t. split; [by rewrite He|]. unfold fromBase58. unfold_st. rewrite Dt, F1, F2, F3.
  rewrite bool_decide_eq_false_2 by tauto.
  assert (bool_decide (version <> Networks.BIP39_PRIVATE) && bool_decide (version <> Networks.BIP39_PUBLIC) = false) as ->.
  { unfold version. destruct is_private; by vm_compute. }
  destruct (bool_decide (_depth key = 0) && _); [done|]. rewrite !substr_ret by lia. rewrite F4, F5, F6. unfold version, tail, uprooted, neutered.
  destruct is_private.
  - rewrite bool_decide_eq_true_2 by done. unfold construct_root, construct. unfold_st. rewrite (zdrop_app_eq 1) by done.
    rewrite Hp in Hw by done. destruct (_ec key); [|done]. by rewrite private_filled_inv, Hp.
  - rewrite bool_decide_eq_false_2 by done. unfold construct_root, construct. unfold_st. by rewrite fromDER_toDER.
Qed.

(** only the indices below 2^31 have a hardened child: from 2^31 on the sum
    with the highest bit wraps around, and [deriveHardened] gives the child that
    [derive] gives from the public key and the chain code alone. *)
Theorem hardened_index fuel key k index : 0 <= index < 2 ^ 32 ->
  let '(actual, from_private) := if bool_decide (index < HIGHEST_BIT) then (index + HIGHEST_BIT, true)
                                 else (index - HIGHEST_BIT, false) in
  deriveHardened fuel key index = derive fuel key actual
  /\ child_data (ecc_getPrivateKey k) (CryptoSuite.getPublicKey k) actual false
     = (if from_private then [x00] ++ PrivateKey.getPrivateEncKey k else toDER (CryptoSuite.getPublicKey k)) ++ be32 actual.
Proof.
  intros Hi. unfold deriveHardened, child_data. change (2 ^ 32) with 4294967296 in Hi. unfold HIGHEST_BIT in *. case_bool_decide.
  - rewrite wrap_id by (pow_simpl; lia). split; [done|]. rewrite bool_decide_eq_true_2 by lia. by rewrite <- app_assoc.
  - rewrite bool_decide_eq_false_2 by lia. split; [|done]. f_equal. unfold wrap. change (2 ^ 32) with 4294967296.
    rewrite <- (Z_mod_plus_full _ (-1)), Z.mod_small by lia. lia.
Qed.

(** Indices without a child are skipped, and only the first attempt is made in
    the old version. *)
Lemma derive_skips n fuel key k index old child : _is_private key = true -> _ec key = with_private k ->
  (n < fuel)%nat -> 0 <= index -> index + Z.of_nat n < 2 ^ 32 ->
  let attempt j := derive_once k (_chain_code key) (_depth key) (index + Z.of_nat j) (old && bool_decide (j = O)) in
  (forall j, (j < n)%nat -> attempt j = Ret None) -> attempt n = Ret (Some child) ->
  derive_in fuel key index old = Ret child.
Proof.
  intros Hp He. revert fuel index old. induction n as [|n IH]; intros [|fuel] index old Hf H0 Hn attempt Hj Hc; try lia.
  - unfold attempt in Hc. cbn [derive_in]. rewrite Hp, He. unfold_st.
    rewrite Z.add_0_r, bool_decide_eq_true_2, andb_true_r in Hc by done. by rewrite Hc.
  - cbn [derive_in]. rewrite Hp, He. pose proof (Hj O ltac:(lia)) as H0j. unfold attempt in H0j.
    rewrite Z.add_0_r, bool_decide_eq_true_2, andb_true_r in H0j by done. unfold_st. rewrite H0j.
    rewrite wrap_id by lia. apply IH; [lia..| |].
    + intros j Hjn. pose proof (Hj (S j) ltac:(lia)) as Ha. unfold attempt in Ha.
      rewrite bool_decide_eq_false_2, andb_false_r in Ha by done. by replace (index + 1 + Z.of_nat j) with (index + Z.of_nat (S j)) by lia.
    + unfold attempt in Hc. rewrite bool_decide_eq_false_2, andb_false_r in Hc by done.
      by replace (index + 1 + Z.of_nat n) with (index + Z.of_nat (S n)) by lia.
Qed.
End Laws.

(** ** Concrete keys *)
Module ToyNumbers.
Definition read_key (d : bytes) : outcome byte := match last d with Some b => Ret b | None => Throw StdInvalidArgument end.
Definition write_key (k : byte) : bytes := [k].

#[export] Instance numbers : @EccNumbers Toy.service ToyEcc.ecc :=
  Build_EccNumbers Toy.service ToyEcc.ecc read_key write_key (replicate 32 xff).

#[export] Instance laws : @EccNumbersLaws Toy.service ToyEcc.ecc numbers.
Proof.
  split; cbn [ecc_fromPrivateKey ecc_getPrivateKey numbers toDER ToyEcc.ecc]; try done.
  - intros p. by left.
  - intros k m. by exists x1f, (Toy.hash (k :: m) ++ zeros 32).
Qed.
End ToyNumbers.

Section Witness.
#[local] Existing Instances Toy.service Toy.laws ToyEcc.ecc ToyEcc.laws ToyNumbers.numbers ToyNumbers.laws.

(** A key two steps below the root. *)
Let grandchild : ExtKey.t := ExtKey.mk _ _ (with_private (x07 : PrivateKey)) (zeros 32) true 2 1234567 3.

Lemma ext_key_restored_witness : exists t, ExtKey.getPublicPartAsBase58 grandchild = Ret t
  /\ ExtKey.fromBase58 t = Ret (uprooted (neutered grandchild)).
Proof.
  destruct (ext_key_restored grandchild false) as (t & Et & Ht).
  - split; cbn -[zlen zeros]; lia || done.
  - done.
  - exists t. exact (conj Et Ht).
Defined.

Lemma hardened_index_witness : forall fuel key,
  ExtKey.deriveHardened fuel key 0x80000005 = ExtKey.derive fuel key 5.
Proof. intros fuel key. exact (proj1 (hardened_index fuel key x07 0x80000005 ltac:(lia))). Defined.
End Witness.
