(* ===== verification/Mnemonics.v ===== *)
(** * Mnemonics

    [BIP39] and [Bip39Impl] (crypto/base/src/BIP39.cpp): entropy as words, with
    checksum bits from its hash, and the seed and the extended key made of the
    words.  The nested loops over bytes and bits are loops over the bits. *)

From Stdlib Require Import ZArith Lia Strings.String Strings.Byte.
From stdpp Require Import base list.
From S2P Require Import Prelude Bytes Crypto Base58 CryptoSuite Utils Dynamic Keys.

(** [Bip39Impl::WORDLIST]: 2048 words, in the order of their numbers. *)
#[local] Open Scope string_scope.

Definition words_text : string :=
  "abandon ability able about above absent absorb abstract absurd abuse access accident account accuse " ++
  "achieve acid acoustic acquire across act action actor actress actual adapt add addict address adjust " ++
  "admit adult advance advice aerobic affair afford afraid again age agent agree ahead aim air airport " ++
  "aisle alarm album alcohol alert alien all alley allow almost alone alpha already also alter always " ++
  "amateur amazing among amount amused analyst anchor ancient anger angle angry animal ankle announce " ++
  "annual another answer antenna antique anxiety any apart apology appear apple approve april arch arctic " ++
  "area arena argue arm armed armor army around arrange arrest arrive arrow art artefact artist artwork ask " ++
  "aspect assault asset assist assume asthma athlete atom attack attend attitude attract auction audit " ++
  "august aunt author auto autumn average avocado avoid awake aware away awesome awful awkward axis baby " ++
  "bachelor bacon badge bag balance balcony ball bamboo banana banner bar barely bargain barrel base basic " ++
  "basket battle beach bean beauty because become beef before begin behave behind believe below belt bench " ++
  "benefit best betray better between beyond bicycle bid bike bind biology bird birth bitter black blade " ++
  "blame blanket blast bleak bless blind blood blossom blouse blue blur blush board boat body boil bomb " ++
  "bone bonus book boost border boring borrow boss bottom bounce box boy bracket brain brand brass brave " ++
  "bread breeze brick bridge brief bright bring brisk broccoli broken bronze broom brother brown brush " ++
  "bubble buddy budget buffalo build bulb bulk bullet bundle bunker burden burger burst bus business busy " ++
  "butter buyer buzz cabbage cabin cable cactus cage cake call calm camera camp can canal cancel candy " ++
  "cannon canoe canvas canyon capable capital captain car carbon card cargo carpet carry cart case cash " ++
  "casino castle casual cat catalog catch category cattle caught cause caution cave ceiling celery cement " ++
  "census century cereal certain chair chalk champion change chaos chapter charge chase chat cheap check " ++
  "cheese chef cherry chest chicken chief child chimney choice choose chronic chuckle chunk churn cigar " ++
  "cinnamon circle citizen city civil claim clap clarify claw clay clean clerk clever click client cliff " ++
  "climb clinic clip clock clog close cloth cloud clown club clump cluster clutch coach coast coconut code " ++
  "coffee coil coin collect color column combine come comfort comic common company concert conduct confirm " ++
  "congress connect consider control convince cook cool copper copy coral core corn correct cost cotton " ++
  "couch country couple course cousin cover coyote crack cradle craft cram crane crash crater crawl crazy " ++
  "cream credit creek crew cricket crime crisp critic crop cross crouch crowd crucial cruel cruise crumble " ++
  "crunch crush cry crystal cube culture cup cupboard curious current curtain curve cushion custom cute " ++
  "cycle dad damage damp dance danger daring dash daughter dawn day deal debate debris decade december " ++
  "decide decline decorate decrease deer defense define defy degree delay deliver demand demise denial " ++
  "dentist deny depart depend deposit depth deputy derive describe desert design desk despair destroy " ++
  "detail detect develop device devote diagram dial diamond diary dice diesel diet differ digital dignity " ++
  "dilemma dinner dinosaur direct dirt disagree discover disease dish dismiss disorder display distance " ++
  "divert divide divorce dizzy doctor document dog doll dolphin domain donate donkey donor door dose double " ++
  "dove draft dragon drama drastic draw dream dress drift drill drink drip drive drop drum dry duck dumb " ++
  "dune during dust dutch duty dwarf dynamic eager eagle early earn earth easily east easy echo ecology " ++
  "economy edge edit educate effort egg eight either elbow elder electric elegant element elephant elevator " ++
  "elite else embark embody embrace emerge emotion employ empower empty enable enact end endless endorse " ++
  "enemy energy enforce engage engine enhance enjoy enlist enough enrich enroll ensure enter entire entry " ++
  "envelope episode equal equip era erase erode erosion error erupt escape essay essence estate eternal " ++
  "ethics evidence evil evoke evolve exact example excess exchange excite exclude excuse execute exercise " ++
  "exhaust exhibit exile exist exit exotic expand expect expire explain expose express extend extra eye " ++
  "eyebrow fabric face faculty fade faint faith fall false fame family famous fan fancy fantasy farm " ++
  "fashion fat fatal father fatigue fault favorite feature february federal fee feed feel female fence " ++
  "festival fetch fever few fiber fiction field figure file film filter final find fine finger finish fire " ++
  "firm first fiscal fish fit fitness fix flag flame flash flat flavor flee flight flip float flock floor " ++
  "flower fluid flush fly foam focus fog foil fold follow food foot force forest forget fork fortune forum " ++
  "forward fossil foster found fox fragile frame frequent fresh friend fringe frog front frost frown frozen " ++
  "fruit fuel fun funny furnace fury future gadget gain galaxy gallery game gap garage garbage garden " ++
  "garlic garment gas gasp gate gather gauge gaze general genius genre gentle genuine gesture ghost giant " ++
  "gift giggle ginger giraffe girl give glad glance glare glass glide glimpse globe gloom glory glove glow " ++
  "glue goat goddess gold good goose gorilla gospel gossip govern gown grab grace grain grant grape grass " ++
  "gravity great green grid grief grit grocery group grow grunt guard guess guide guilt guitar gun gym " ++
  "habit hair half hammer hamster hand happy harbor hard harsh harvest hat have hawk hazard head health " ++
  "heart heavy hedgehog height hello helmet help hen hero hidden high hill hint hip hire history hobby " ++
  "hockey hold hole holiday hollow home honey hood hope horn horror horse hospital host hotel hour hover " ++
  "hub huge human humble humor hundred hungry hunt hurdle hurry hurt husband hybrid ice icon idea identify " ++
  "idle ignore ill illegal illness image imitate immense immune impact impose improve impulse inch include " ++
  "income increase index indicate indoor industry infant inflict inform inhale inherit initial inject " ++
  "injury inmate inner innocent input inquiry insane insect inside inspire install intact interest into " ++
  "invest invite involve iron island isolate issue item ivory jacket jaguar jar jazz jealous jeans jelly " ++
  "jewel job join joke journey joy judge juice jump jungle junior junk just kangaroo keen keep ketchup key " ++
  "kick kid kidney kind kingdom kiss kit kitchen kite kitten kiwi knee knife knock know lab label labor " ++
  "ladder lady lake lamp language laptop large later latin laugh laundry lava law lawn lawsuit layer lazy " ++
  "leader leaf learn leave lecture left leg legal legend leisure lemon lend length lens leopard lesson " ++
  "letter level liar liberty library license life lift light like limb limit link lion liquid list little " ++
  "live lizard load loan lobster local lock logic lonely long loop lottery loud lounge love loyal lucky " ++
  "luggage lumber lunar lunch luxury lyrics machine mad magic magnet maid mail main major make mammal man " ++
  "manage mandate mango mansion manual maple marble march margin marine market marriage mask mass master " ++
  "match material math matrix matter maximum maze meadow mean measure meat mechanic medal media melody melt " ++
  "member memory mention menu mercy merge merit merry mesh message metal method middle midnight milk " ++
  "million mimic mind minimum minor minute miracle mirror misery miss mistake mix mixed mixture mobile " ++
  "model modify mom moment monitor monkey monster month moon moral more morning mosquito mother motion " ++
  "motor mountain mouse move movie much muffin mule multiply muscle museum mushroom music must mutual " ++
  "myself mystery myth naive name napkin narrow nasty nation nature near neck need negative neglect neither " ++
  "nephew nerve nest net network neutral never news next nice night noble noise nominee noodle normal north " ++
  "nose notable note nothing notice novel now nuclear number nurse nut oak obey object oblige obscure " ++
  "observe obtain obvious occur ocean october odor off offer office often oil okay old olive olympic omit " ++
  "once one onion online only open opera opinion oppose option orange orbit orchard order ordinary organ " ++
  "orient original orphan ostrich other outdoor outer output outside oval oven over own owner oxygen oyster " ++
  "ozone pact paddle page pair palace palm panda panel panic panther paper parade parent park parrot party " ++
  "pass patch path patient patrol pattern pause pave payment peace peanut pear peasant pelican pen penalty " ++
  "pencil people pepper perfect permit person pet phone photo phrase physical piano picnic picture piece " ++
  "pig pigeon pill pilot pink pioneer pipe pistol pitch pizza place planet plastic plate play please pledge " ++
  "pluck plug plunge poem poet point polar pole police pond pony pool popular portion position possible " ++
  "post potato pottery poverty powder power practice praise predict prefer prepare present pretty prevent " ++
  "price pride primary print priority prison private prize problem process produce profit program project " ++
  "promote proof property prosper protect proud provide public pudding pull pulp pulse pumpkin punch pupil " ++
  "puppy purchase purity purpose purse push put puzzle pyramid quality quantum quarter question quick quit " ++
  "quiz quote rabbit raccoon race rack radar radio rail rain raise rally ramp ranch random range rapid rare " ++
  "rate rather raven raw razor ready real reason rebel rebuild recall receive recipe record recycle reduce " ++
  "reflect reform refuse region regret regular reject relax release relief rely remain remember remind " ++
  "remove render renew rent reopen repair repeat replace report require rescue resemble resist resource " ++
  "response result retire retreat return reunion reveal review reward rhythm rib ribbon rice rich ride " ++
  "ridge rifle right rigid ring riot ripple risk ritual rival river road roast robot robust rocket romance " ++
  "roof rookie room rose rotate rough round route royal rubber rude rug rule run runway rural sad saddle " ++
  "sadness safe sail salad salmon salon salt salute same sample sand satisfy satoshi sauce sausage save say " ++
  "scale scan scare scatter scene scheme school science scissors scorpion scout scrap screen script scrub " ++
  "sea search season seat second secret section security seed seek segment select sell seminar senior sense " ++
  "sentence series service session settle setup seven shadow shaft shallow share shed shell sheriff shield " ++
  "shift shine ship shiver shock shoe shoot shop short shoulder shove shrimp shrug shuffle shy sibling sick " ++
  "side siege sight sign silent silk silly silver similar simple since sing siren sister situate six size " ++
  "skate sketch ski skill skin skirt skull slab slam sleep slender slice slide slight slim slogan slot slow " ++
  "slush small smart smile smoke smooth snack snake snap sniff snow soap soccer social sock soda soft solar " ++
  "soldier solid solution solve someone song soon sorry sort soul sound soup source south space spare " ++
  "spatial spawn speak special speed spell spend sphere spice spider spike spin spirit split spoil sponsor " ++
  "spoon sport spot spray spread spring spy square squeeze squirrel stable stadium staff stage stairs stamp " ++
  "stand start state stay steak steel stem step stereo stick still sting stock stomach stone stool story " ++
  "stove strategy street strike strong struggle student stuff stumble style subject submit subway success " ++
  "such sudden suffer sugar suggest suit summer sun sunny sunset super supply supreme sure surface surge " ++
  "surprise surround survey suspect sustain swallow swamp swap swarm swear sweet swift swim swing switch " ++
  "sword symbol symptom syrup system table tackle tag tail talent talk tank tape target task taste tattoo " ++
  "taxi teach team tell ten tenant tennis tent term test text thank that theme then theory there they thing " ++
  "this thought three thrive throw thumb thunder ticket tide tiger tilt timber time tiny tip tired tissue " ++
  "title toast tobacco today toddler toe together toilet token tomato tomorrow tone tongue tonight tool " ++
  "tooth top topic topple torch tornado tortoise toss total tourist toward tower town toy track trade " ++
  "traffic tragic train transfer trap trash travel tray treat tree trend trial tribe trick trigger trim " ++
  "trip trophy trouble truck true truly trumpet trust truth try tube tuition tumble tuna tunnel turkey turn " ++
  "turtle twelve twenty twice twin twist two type typical ugly umbrella unable unaware uncle uncover under " ++
  "undo unfair unfold unhappy uniform unique unit universe unknown unlock until unusual unveil update " ++
  "upgrade uphold upon upper upset urban urge usage use used useful useless usual utility vacant vacuum " ++
  "vague valid valley valve van vanish vapor various vast vault vehicle velvet vendor venture venue verb " ++
  "verify version very vessel veteran viable vibrant vicious victory video view village vintage violin " ++
  "virtual virus visa visit visual vital vivid vocal voice void volcano volume vote voyage wage wagon wait " ++
  "walk wall walnut want warfare warm warrior wash wasp waste water wave way wealth weapon wear weasel " ++
  "weather web wedding weekend weird welcome west wet whale what wheat wheel when where whip whisper wide " ++
  "width wife wild will win window wine wing wink winner winter wire wisdom wise wish witness wolf woman " ++
  "wonder wood wool word work world worry worth wrap wreck wrestle wrist write wrong yard year yellow you " ++
  "young youth zebra zero zone zoo".

#[local] Close Scope string_scope.

Definition WORDLIST : list bytes := Eval vm_compute in Utils.split_str (lit words_text) x20.

(** There are 2048 of them, all different, each of one to eight letters. *)
Definition lower_case (c : byte) : bool := bool_decide (97 <= byte_val c <= 122)%Z.

Fixpoint all_different (l : list bytes) : bool :=
  match l with [] => true | w :: l => forallb (fun v => negb (bool_decide (v = w))) l && all_different l end.

Lemma wordlist_checked : length WORDLIST = 2048%nat /\ all_different WORDLIST = true
  /\ forallb (fun w => forallb lower_case w && bool_decide (1 <= zlen w <= 8)%Z) WORDLIST = true.
Proof. split; [|split]; vm_compute; reflexivity. Qed.

(** [Poco::StringTokenizer(s, " ")] without options. *)
Class Tokenizer := { tokenize : bytes -> list bytes }.

(** Tokens hold no separator; a text is its tokens with separators between. *)
Class TokenizerLaws (T : Tokenizer) : Prop := {
  tokenize_join l : Forall (fun w => (x20 ∉ w) /\ w <> []) l -> tokenize (Utils.join x20 l) = l;
  join_tokenize s : tokenize s <> [] -> Utils.join x20 (tokenize s) = s;
}.

(** ** Bits *)

(** The bits of a byte, the highest first: [(c & (1 << j)) >> j] for [j] from 7
    down to 0. *)
Definition bits_of (c : byte) : list bool := (fun j => Z.testbit (byte_val c) j) <$> [7; 6; 5; 4; 3; 2; 1; 0].
Definition bits (s : bytes) : list bool := concat (bits_of <$> s).

(** [index << 1 | bit] *)
Definition push_bit (index : Z) (bit : bool) : Z := Z.lor (Z.shiftl index 1) (Z.b2z bit).

(** [c |= bit << j] on a zero byte, for [j] from 7 down to 0. *)
Definition byte_of_bits (l : list bool) : byte := byte_of (fold_left push_bit l 0).

Fixpoint bytes_of_bits (n : nat) (l : list bool) : bytes :=
  match n with O => [] | S n => byte_of_bits (take 8 l) :: bytes_of_bits n (drop 8 l) end.

Module Bip39Impl.
Section Words.
Context {C : CryptoService} `{!Tokenizer}.

Definition indexOfWord (word : bytes) : Z :=
  match list_find (fun w => word = w) WORDLIST with Some (i, _) => Z.of_nat i | None => -1 end.

(** [WORDLIST[index]] *)
Definition word_at (index : Z) : bytes := nth (Z.to_nat index) WORDLIST [].

(** The last byte of the hash keeps its highest [cs % 8] bits. *)
Definition mask (tmp : Z) : Z := fold_left Z.lor ((fun i => Z.shiftl 1 (7 - i)) <$> seqZ 0 tmp) 0.

Definition deriveChecksumBits (entropy : bytes) : bytes * Z :=
  let cs := zlen entropy / 4 in
  let hash := ztake ((cs + 7) / 8) (sha256 entropy) in
  let tmp := cs mod 8 in
  (if bool_decide (tmp <> 0) then
     match last hash with
     | Some c => take (length hash - 1) hash ++ [byte_of (Z.land (byte_val c) (mask tmp))]
     | None => hash
     end
   else hash, cs).

(** The words of the bits; what does not fill a word is left. *)
Fixpoint group (l : list bool) (index pos : Z) : list bytes :=
  match l with
  | [] => []
  | bit :: l =>
      let index := push_bit index bit in
      if bool_decide (pos + 1 = 11) then word_at index :: group l 0 0 else group l index (pos + 1)
  end.

Definition valid_size (n : Z) : bool := negb (bool_decide (n < 16) || bool_decide (32 < n) || bool_decide (n mod 4 <> 0)).

Definition entropyToMnemonic (entropy : bytes) : outcome bytes :=
  if negb (valid_size (zlen entropy)) then Throw InvalidEntropyException
  else
    let '(hash, _) := deriveChecksumBits entropy in
    let result := concat ((fun w => w ++ [x20]) <$> group (bits (entropy ++ hash)) 0 0) in
    substr result 0 (u64 (zlen result - 1)).

(** The bits of the words, [n] of them; after the last word they are zero. *)
Fixpoint ungroup (n : nat) (words : list bytes) (pos index : Z) : outcome (list bool) :=
  match n with
  | O => Ret []
  | S n =>
      if bool_decide (pos = -1) then
        match words with
        | [] => l ← ungroup n [] (-1) index; mret (false :: l)
        | word :: words =>
            let index := indexOfWord word in
            if bool_decide (index = -1) then Throw InvalidMnemonicException
            else l ← ungroup n words 9 index; mret (Z.testbit index 10 :: l)
        end
      else l ← ungroup n words (pos - 1) index; mret (Z.testbit index pos :: l)
  end.

Definition mnemonicToEntropy (mnemonic : bytes) : outcome bytes :=
  let st := tokenize mnemonic in
  let count := zlen st in
  if bool_decide (count mod 3 <> 0) then Throw InvalidMnemonicException
  else
    let size := (count * 11 + 7) / 8 in
    l ← ungroup (8 * Z.to_nat size) st (-1) 0;
    let buf := bytes_of_bits (Z.to_nat size) l in
    let mnemonic_size := count / 3 * 4 in
    entropy ← substr buf 0 mnemonic_size;
    sum ← substr_from buf mnemonic_size;
    if negb (valid_size (zlen entropy)) then Throw InvalidEntropyException
    else
      let '(expected_checksum, _) := deriveChecksumBits entropy in
      if bool_decide (sum <> expected_checksum) then Throw InvalidChecksumException else mret entropy.

Definition salt (password : bytes) : bytes := lit "mnemonic" ++ password.
Definition mnemonicToSeed (mnemonic password : bytes) : bytes := pbkdf2 mnemonic (salt password) 2048 64.

Context {E : Ecc} `{!EccNumbers E}.
Definition getExtKey (mnemonic password : bytes) : outcome ExtKey.t := ExtKey.fromSeed (mnemonicToSeed mnemonic password).
End Words.
End Bip39Impl.

Module BIP39.
Record t {C : CryptoService} {E : Ecc} := mk { mnemonic : bytes; ext_key : ExtKey.t; entropy : bytes }.

Section Api.
Context {C : CryptoService} `{!Tokenizer} {E : Ecc} `{!EccNumbers E}.

Definition fromEntropy (entropy password : bytes) : outcome t :=
  mnemonic ← Bip39Impl.entropyToMnemonic entropy;
  ext_key ← Bip39Impl.getExtKey mnemonic password;
  mret (mk _ _ mnemonic ext_key entropy).

Definition fromMnemonic (mnemonic password : bytes) : outcome t :=
  ext_key ← Bip39Impl.getExtKey mnemonic password;
  entropy ← Bip39Impl.mnemonicToEntropy mnemonic;
  mret (mk _ _ mnemonic ext_key entropy).

Definition generate (strength : Z) (password : bytes) : ST rng t :=
  _ ← throw_if (bool_decide (strength mod 32 <> 0)) InvalidStrengthException;
  e ← random (strength / 8);
  lift (fromEntropy e password).
End Api.
End BIP39.

(** ** Bits and bytes *)
Section Bits.

Lemma length_bits_of c : length (bits_of c) = 8%nat.
Proof. done. Qed.

Lemma length_bits s : length (bits s) = (8 * length s)%nat.
Proof. unfold bits. induction s as [|c s IH]; [done|]. cbn [fmap list_fmap concat]. rewrite length_app, IH, length_bits_of. cbn. lia. Qed.

Lemma bits_app s u : bits (s ++ u) = bits s ++ bits u.
Proof. unfold bits. by rewrite fmap_app, concat_app. Qed.

Lemma byte_of_bits_of c : byte_of_bits (bits_of c) = c.
Proof. by destruct c. Qed.

Lemma bits_of_byte_of_bits l : length l = 8%nat -> bits_of (byte_of_bits l) = l.
Proof.
  destruct l as [|b7 [|b6 [|b5 [|b4 [|b3 [|b2 [|b1 [|b0 [|]]]]]]]]]; try done. intros _.
  by destruct b7, b6, b5, b4, b3, b2, b1, b0.
Qed.

Lemma bytes_of_bits_bits s : bytes_of_bits (length s) (bits s) = s.
Proof.
  induction s as [|c s IH]; [done|]. cbn [length bytes_of_bits]. unfold bits. cbn [fmap list_fmap concat].
  rewrite take_app_length', drop_app_length' by done. rewrite byte_of_bits_of. f_equal. exact IH.
Qed.

Lemma bits_bytes_of_bits n l : length l = (8 * n)%nat -> bits (bytes_of_bits n l) = l.
Proof.
  revert l. induction n as [|n IH]; intros l Hl; [by destruct l|]. cbn [bytes_of_bits]. unfold bits. cbn [fmap list_fmap concat].
  fold (bits (bytes_of_bits n (drop 8 l))). rewrite IH by (rewrite length_drop; lia).
  rewrite bits_of_byte_of_bits by (rewrite length_take; lia). apply take_drop.
Qed.

Lemma length_bytes_of_bits n l : length (bytes_of_bits n l) = n.
Proof. revert l. induction n as [|n IH]; intros l; [done|]. cbn. by rewrite IH. Qed.

(** Eleven bits and their number. *)
Definition bits11 (i : Z) : list bool := (fun j => Z.testbit i j) <$> [10; 9; 8; 7; 6; 5; 4; 3; 2; 1; 0].
Definition value11 (l : list bool) : Z := fold_left push_bit l 0.

Lemma value11_bits l : length l = 11%nat -> 0 <= value11 l < 2048 /\ bits11 (value11 l) = l.
Proof.
  destruct l as [|b0 [|b1 [|b2 [|b3 [|b4 [|b5 [|b6 [|b7 [|b8 [|b9 [|b10 [|]]]]]]]]]]]]; try done. intros _.
  assert (forallb (fun l => bool_decide (0 <= value11 l < 2048) && bool_decide (bits11 (value11 l) = l))
    (Nat.iter 11 (fun ls => (cons false <$> ls) ++ (cons true <$> ls)) [[]]) = true) as Hall by (by vm_compute).
  rewrite forallb_forall in Hall. specialize (Hall [b0; b1; b2; b3; b4; b5; b6; b7; b8; b9; b10]).
  rewrite andb_true_iff, !bool_decide_eq_true in Hall. apply Hall. apply list_elem_of_In. clear Hall.
  assert (forall n l, length l = n -> l ∈ Nat.iter n (fun ls : list (list bool) => (cons false <$> ls) ++ (cons true <$> ls)) [[]])
    as Hin; [|by apply Hin].
  induction n as [|n IH]; intros l Hl; [destruct l; [left|done]|]. destruct l as [|b l]; [done|]. injection Hl as Hl.
  change (b :: l ∈ (cons false <$> Nat.iter n (fun ls : list (list bool) => (cons false <$> ls) ++ (cons true <$> ls)) [[]])
    ++ (cons true <$> Nat.iter n (fun ls : list (list bool) => (cons false <$> ls) ++ (cons true <$> ls)) [[]])).
  apply elem_of_app. destruct b; [right|left]; apply list_elem_of_fmap_2, IH; done.
Qed.

Lemma bits11_value i : 0 <= i < 2048 -> value11 (bits11 i) = i.
Proof.
  intros Hi. assert (forallb (fun i => bool_decide (value11 (bits11 i) = i)) (seqZ 0 2048) = true) as Hall by (by vm_compute).
  rewrite forallb_forall in Hall. apply (bool_decide_eq_true (value11 (bits11 i) = i)), Hall, list_elem_of_In, elem_of_seqZ. lia.
Qed.

(** The list cut into pieces of eleven. *)
Lemma cut11 n (l : list bool) : (11 * n <= length l)%nat -> exists ls rest, l = concat ls ++ rest
  /\ length ls = n /\ Forall (fun x => length x = 11%nat) ls /\ length rest = (length l - 11 * n)%nat.
Proof.
  revert l. induction n as [|n IH]; intros l Hl.
  - exists [], l. split; [done|]. split; [done|]. split; [constructor|lia].
  - destruct (IH (drop 11 l)) as (ls & rest & He & Hn & Hf & Hr); [rewrite length_drop; lia|].
    exists (take 11 l :: ls), rest. cbn [concat length]. split; [by rewrite <- app_assoc, <- He, take_drop|].
    split; [by rewrite Hn|]. rewrite length_drop in Hr. split; [constructor; [rewrite length_take; lia|done]|lia].
Qed.
End Bits.

(** ** Words and their numbers *)
Module Mnemonic.
Import Bip39Impl.

Definition number (i : Z) : Prop := 0 <= i < 2048.

Lemma all_different_nodup l : all_different l = true -> NoDup l.
Proof.
  induction l as [|w l IH]; [constructor|]. cbn. intros [Hw Hl]%andb_true_iff. constructor; [|by apply IH].
  intros Hin%list_elem_of_In. rewrite forallb_forall in Hw. specialize (Hw w Hin).
  by rewrite bool_decide_eq_true_2 in Hw.
Qed.

Lemma word_lookup i : number i -> WORDLIST !! Z.to_nat i = Some (word_at i).
Proof.
  intros Hi. unfold number in Hi. unfold word_at.
  destruct (nth_lookup_or_length WORDLIST (Z.to_nat i) []) as [He|Hl]; [exact He|].
  rewrite (proj1 wordlist_checked) in Hl. lia.
Qed.

Lemma word_number i : number i -> indexOfWord (word_at i) = i.
Proof.
  intros Hi. pose proof (word_lookup i Hi) as Hw. unfold indexOfWord.
  assert (list_find (fun w => word_at i = w) WORDLIST = Some (Z.to_nat i, word_at i)) as ->.
  { apply list_find_Some. split; [done|]. split; [done|]. intros j w Hj Hlt <-.
    pose proof (NoDup_lookup _ _ _ _ (all_different_nodup _ (proj1 (proj2 wordlist_checked))) Hw Hj). lia. }
  unfold number in Hi. lia.
Qed.

Lemma number_word w : indexOfWord w <> -1 -> number (indexOfWord w) /\ word_at (indexOfWord w) = w.
Proof.
  unfold indexOfWord. destruct (list_find _ _) as [[n v]|] eqn:Ef; [|done]. intros _.
  apply list_find_Some in Ef as (Hn & -> & _). pose proof (lookup_lt_Some _ _ _ Hn) as Hl. rewrite (proj1 wordlist_checked) in Hl.
  unfold number, word_at. split; [lia|]. rewrite Nat2Z.id. by apply nth_lookup_Some.
Qed.

Lemma word_letters i : number i -> (x20 ∉ word_at i) /\ word_at i <> [].
Proof.
  intros Hi%word_lookup%list_elem_of_lookup_2%list_elem_of_In.
  pose proof (proj2 (proj2 wordlist_checked)) as Hall. rewrite forallb_forall in Hall. apply Hall in Hi.
  apply andb_true_iff in Hi as [Hl Hz%bool_decide_eq_true]. split.
  - intros Hin%list_elem_of_In. rewrite forallb_forall in Hl. by apply Hl in Hin.
  - intros Hn. rewrite Hn in Hz. change (zlen []) with 0 in Hz. lia.
Qed.

Lemma word_short i : number i -> zlen (word_at i) <= 8.
Proof.
  intros Hi%word_lookup%list_elem_of_lookup_2%list_elem_of_In.
  pose proof (proj2 (proj2 wordlist_checked)) as Hall. rewrite forallb_forall in Hall. apply Hall in Hi.
  apply andb_true_iff in Hi as [_ Hz%bool_decide_eq_true]. lia.
Qed.

(** *** Words of bits *)
Lemma group_word l r : length l = 11%nat -> group (l ++ r) 0 0 = word_at (value11 l) :: group r 0 0.
Proof. by destruct l as [|b0 [|b1 [|b2 [|b3 [|b4 [|b5 [|b6 [|b7 [|b8 [|b9 [|b10 [|]]]]]]]]]]]]. Qed.

Lemma group_rest l index pos : 0 <= pos -> pos + zlen l < 11 -> group l index pos = [].
Proof.
  revert index pos. induction l as [|b l IH]; intros index pos H0 Hp; [done|]. rewrite zlen_cons in Hp.
  pose proof (zlen_nonneg l). cbn [group]. rewrite bool_decide_eq_false_2 by lia. apply IH; lia.
Qed.

Lemma group_words ids rest : Forall number ids -> zlen rest < 11 -> group (concat (bits11 <$> ids) ++ rest) 0 0 = word_at <$> ids.
Proof.
  intros Hi Hr. induction Hi as [|i ids Hi _ IH]; cbn [fmap list_fmap concat]; [by apply group_rest|].
  rewrite <- app_assoc, group_word by done. by rewrite bits11_value, IH.
Qed.

(** *** Bits of words *)
Lemma ungroup_end n index : ungroup n [] (-1) index = Ret (replicate n false).
Proof. induction n as [|n IH]; [done|]. cbn. unfold_st. by rewrite IH. Qed.

Lemma ungroup_word n w words index : indexOfWord w <> -1 ->
  ungroup (11 + n) (w :: words) (-1) index
  = (l ← ungroup n words (-1) (indexOfWord w); mret (bits11 (indexOfWord w) ++ l)).
Proof.
  intros Hw. cbn [ungroup Nat.add]. rewrite (bool_decide_eq_true_2 (-1 = -1)), (bool_decide_eq_false_2 (_ = -1)) by done.
  change (9 - 1) with 8. change (8 - 1) with 7. change (7 - 1) with 6. change (6 - 1) with 5. change (5 - 1) with 4.
  change (4 - 1) with 3. change (3 - 1) with 2. change (2 - 1) with 1. change (1 - 1) with 0. change (0 - 1) with (-1).
  rewrite !(bool_decide_eq_false_2 (_ = -1)) by done. unfold_st. by destruct (ungroup n words _ _).
Qed.

#[local] Opaque bits11 indexOfWord word_at.

Lemma ungroup_words words n index l : (11 * length words <= n)%nat ->
  ungroup n words (-1) index = Ret l <->
  exists ids, Forall number ids /\ words = word_at <$> ids
    /\ l = concat (bits11 <$> ids) ++ replicate (n - 11 * length words) false.
Proof.
  revert n index l. induction words as [|w words IH]; intros n index l Hn.
  - change (11 * length [])%nat with 0%nat. rewrite ungroup_end, Nat.sub_0_r. split; [intros [= <-]; by exists []|]. intros (ids & _ & Hw & ->). by destruct ids.
  - cbn [length] in *. replace n with (11 + (n - 11))%nat by lia. destruct (decide (indexOfWord w = -1)) as [He|Hne].
    { split; [cbn [ungroup Nat.add]; by rewrite (bool_decide_eq_true_2 (-1 = -1)), (bool_decide_eq_true_2 (_ w = -1))|]. intros ([|i ids] & Hf & Hw & _); [done|].
      injection Hw as -> _. apply Forall_cons in Hf as [Hi _]. rewrite word_number in He by done. unfold number in Hi. lia. }
    rewrite ungroup_word by done. unfold_st. destruct (number_word w Hne) as [Hi Hw].
    specialize (IH (n - 11)%nat (indexOfWord w)).
    replace (11 + (n - 11) - 11 * S (length words))%nat with (n - 11 - 11 * length words)%nat by lia. split.
    + destruct (ungroup _ _ _ _) as [r|] eqn:Er; [|done]. intros [= <-].
      destruct (proj1 (IH r ltac:(lia)) eq_refl) as (ids & Hf & -> & ->). exists (indexOfWord w :: ids).
      split; [by constructor|]. split; [cbn [fmap list_fmap]; by rewrite Hw|]. cbn [fmap list_fmap concat]. by rewrite <- app_assoc.
    + intros ([|i ids] & Hf & He & ->); [done|]. injection He as -> ->. apply Forall_cons in Hf as [Hf1 Hf].
      rewrite (proj2 (IH (concat (bits11 <$> ids) ++ _) ltac:(lia))) by (exists ids; done).
      cbn [fmap list_fmap concat]. by rewrite word_number, <- app_assoc.
Qed.

(** *** The checksum *)
Section Checked.
Context {C : CryptoService} `{!CryptoLaws C} `{!Tokenizer} `{!TokenizerLaws _}.

(** The entropy of [k] words of checksum: one byte of it, whose last bits are
    zero. *)
Lemma valid_sizes n : valid_size n = true <-> exists k, 4 <= k <= 8 /\ n = 4 * k.
Proof.
  unfold valid_size. rewrite negb_true_iff, !orb_false_iff, !bool_decide_eq_false. split.
  - intros [[H1 H2] H3]. exists (n / 4). pose proof (Z.div_mod n 4 ltac:(lia)). lia.
  - intros (k & Hk & ->). rewrite (Z.mul_comm 4), Z.mod_mul by lia. lia.
Qed.

Lemma masked_bits c k : 4 <= k < 8 ->
  drop (Z.to_nat k) (bits_of (byte_of (Z.land (byte_val c) (mask k)))) = replicate (Z.to_nat (8 - k)) false.
Proof.
  intros Hk. assert (k = 4 \/ k = 5 \/ k = 6 \/ k = 7) as [-> | [-> | [-> | ->]]] by lia; by destruct c.
Qed.

Lemma checksum_byte e k : zlen e = 4 * k -> 4 <= k <= 8 ->
  exists h, deriveChecksumBits e = ([h], k) /\ drop (Z.to_nat k) (bits_of h) = replicate (Z.to_nat (8 - k)) false.
Proof.
  intros He Hk. unfold deriveChecksumBits. rewrite He, (Z.mul_comm 4), Z.div_mul by lia.
  assert ((k + 7) / 8 = 1) as ->. { symmetry. apply (Z.div_unique _ _ _ (k - 1)); lia. }
  pose proof (sha256_len e) as Hl. destruct (sha256 e) as [|c r]; [done|].
  assert (ztake 1 (c :: r) = [c]) as ->. { apply (ztake_app_eq 1 [c] r). done. }
  destruct (decide (k = 8)) as [->|Hne].
  - rewrite Z.mod_same, bool_decide_eq_false_2 by (lia || tauto). by exists c.
  - rewrite Z.mod_small, bool_decide_eq_true_2 by lia. cbn [last length Nat.sub take app].
    eexists. split; [done|]. apply masked_bits. lia.
Qed.

(** *** Phrases *)

(** The words numbered [ids] spell the entropy and its checksum. *)
Definition spells (e : bytes) (ids : list Z) : Prop :=
  exists k h, 4 <= k <= 8 /\ zlen e = 4 * k /\ zlen ids = 3 * k /\ Forall number ids /\ deriveChecksumBits e = ([h], k)
    /\ bits (e ++ [h]) = concat (bits11 <$> ids) ++ replicate (Z.to_nat (8 - k)) false.

Definition phrase (ids : list Z) : bytes := Utils.join x20 (word_at <$> ids).

Lemma phrase_short ids : Forall number ids -> zlen (phrase ids) <= 9 * zlen ids.
Proof.
  unfold phrase. induction 1 as [|i ids Hi Hf IH]; [done|]. cbn [fmap list_fmap]. rewrite zlen_cons.
  pose proof (word_short i Hi) as Hs. destruct ids as [|i' ids].
  - cbn [fmap list_fmap Utils.join]. change (zlen []) with 0. lia.
  - cbn [fmap list_fmap]. cbn [fmap list_fmap] in IH.
    change (Utils.join x20 (word_at i :: ?w :: ?l)) with (word_at i ++ x20 :: Utils.join x20 (w :: l)).
    rewrite zlen_app, zlen_cons. lia.
Qed.

Lemma length_concat11 ids : length (concat (bits11 <$> ids)) = (11 * length ids)%nat.
Proof.
  induction ids as [|i ids IH]; [done|]. cbn [fmap list_fmap concat]. rewrite length_app, IH.
  assert (length (bits11 i) = 11%nat) as -> by done. cbn. lia.
Qed.

Lemma spelled e : valid_size (zlen e) = true -> exists ids, spells e ids.
Proof.
  intros (k & Hk & He)%valid_sizes. destruct (checksum_byte e k He Hk) as (h & Hh & Hz).
  assert (length e = Z.to_nat (4 * k)) as Hle by (unfold zlen in He; lia).
  assert (length (bits (e ++ [h])) = Z.to_nat (32 * k + 8)) as Hlb.
  { rewrite length_bits, length_app, Hle. cbn [length]. lia. }
  destruct (cut11 (Z.to_nat (3 * k)) (bits (e ++ [h]))) as (ls & rest & Hb & Hn & Hf & Hr); [lia|].
  assert (concat (bits11 <$> (value11 <$> ls)) = concat ls) as Hc.
  { clear Hb Hn. induction Hf as [|l ls Hl _ IH]; [done|]. cbn [fmap list_fmap concat].
    by rewrite (proj2 (value11_bits l Hl)), IH. }
  exists (value11 <$> ls), k, h. split; [done|]. split; [done|]. split; [unfold zlen; rewrite length_fmap; lia|].
  split. { apply Forall_fmap. eapply Forall_impl; [exact Hf|]. intros l Hl. apply (value11_bits l Hl). }
  split; [done|]. rewrite Hc, Hb. f_equal. rewrite <- Hz.
  assert (rest = drop (Z.to_nat (33 * k)) (bits (e ++ [h]))) as ->.
  { rewrite Hb, drop_app_length'; [done|]. rewrite <- Hc, length_concat11, length_fmap. lia. }
  rewrite bits_app, drop_app_ge by (rewrite length_bits; lia). unfold bits at 2. cbn [fmap list_fmap concat].
  rewrite app_nil_r, length_bits. f_equal. lia.
Qed.

Lemma join_words l : l <> [] -> concat ((fun w => w ++ [x20]) <$> l) = Utils.join x20 l ++ [x20].
Proof.
  induction l as [|w [|w' l] IH]; intros Hne; [done|cbn; by rewrite app_nil_r|].
  change (concat ((fun w => w ++ [x20]) <$> w :: w' :: l)) with ((w ++ [x20]) ++ concat ((fun w => w ++ [x20]) <$> w' :: l)).
  rewrite IH by done. change (Utils.join x20 (w :: w' :: l)) with (w ++ x20 :: Utils.join x20 (w' :: l)).
  by rewrite <- !app_assoc.
Qed.

Lemma spells_mnemonic e ids : spells e ids -> zlen (phrase ids) < 2 ^ 63 -> entropyToMnemonic e = Ret (phrase ids).
Proof.
  intros (k & h & Hk & He & Hn & Hf & Hh & Hb) Hl. unfold entropyToMnemonic.
  rewrite (proj2 (valid_sizes _)) by eauto. cbn [negb]. rewrite Hh, Hb, group_words; [|done|unfold zlen; rewrite length_replicate; lia].
  rewrite join_words by (intros Hnil%fmap_nil_inv; rewrite Hnil in Hn; change (zlen []) with 0 in Hn; lia).
  fold (phrase ids). rewrite zlen_app. change (zlen [x20]) with 1. pose proof (zlen_nonneg (phrase ids)).
  rewrite Z.add_simpl_r, wrap_id by (pow_simpl; lia). rewrite substr_ret by (rewrite ?zlen_app; change (zlen [x20]) with 1; lia).
  unfold slice. by rewrite zdrop_0, ztake_app.
Qed.

Lemma spells_entropy e ids : spells e ids -> mnemonicToEntropy (phrase ids) = Ret e.
Proof.
  intros (k & h & Hk & He & Hn & Hf & Hh & Hb). unfold mnemonicToEntropy, phrase.
  rewrite tokenize_join by (apply Forall_fmap; eapply Forall_impl; [exact Hf|]; exact word_letters).
  assert (zlen (word_at <$> ids) = 3 * k) as -> by (unfold zlen in *; by rewrite length_fmap).
  rewrite (Z.mul_comm 3), Z.mod_mul, bool_decide_eq_false_2 by (lia || tauto).
  assert ((k * 3 * 11 + 7) / 8 = 4 * k + 1) as ->. { symmetry. apply (Z.div_unique _ _ _ (k - 1)); lia. }
  rewrite Z.div_mul by lia. assert (length ids = Z.to_nat (3 * k)) as Hln by (unfold zlen in Hn; lia).
  assert (ungroup (8 * Z.to_nat (4 * k + 1)) (word_at <$> ids) (-1) 0 = Ret (bits (e ++ [h]))) as ->.
  { apply ungroup_words; [rewrite length_fmap; lia|]. exists ids. split; [done|]. split; [done|].
    rewrite Hb, length_fmap. do 2 f_equal. lia. }
  unfold_st. assert (Z.to_nat (4 * k + 1) = length (e ++ [h])) as ->.
  { rewrite length_app. unfold zlen in He. cbn [length]. lia. }
  rewrite bytes_of_bits_bits, (Z.mul_comm k 4), <- He. pose proof (zlen_nonneg e).
  rewrite substr_ret, substr_from_ret by (rewrite ?zlen_app; change (zlen [h]) with 1; lia).
  unfold slice. rewrite zdrop_0, ztake_app, zdrop_app. rewrite (proj2 (valid_sizes _)) by eauto.
  cbn [negb]. rewrite Hh. by rewrite bool_decide_eq_false_2 by tauto.
Qed.

(** Words that are accepted spell the entropy they give. *)
Lemma accepted_spells m e : mnemonicToEntropy m = Ret e -> exists ids, spells e ids /\ m = phrase ids.
Proof.
  unfold mnemonicToEntropy. destruct (bool_decide (zlen (tokenize m) mod 3 <> 0)) eqn:Em; [done|].
  apply bool_decide_eq_false, dec_stable in Em. pose proof (zlen_nonneg (tokenize m)) as H0.
  destruct (proj1 (Z.mod_divide (zlen (tokenize m)) 3 ltac:(lia)) Em) as (k & Hk). clear Em. rewrite Hk, Z.div_mul by lia.
  set (size := (k * 3 * 11 + 7) / 8).
  assert (8 * size <= k * 33 + 7 < 8 * size + 8) as Hs.
  { pose proof (Z.div_mod (k * 3 * 11 + 7) 8 ltac:(lia)). pose proof (Z.mod_pos_bound (k * 3 * 11 + 7) 8 ltac:(lia)). unfold size. lia. }
  unfold_st. destruct (ungroup _ _ _ _) as [l|] eqn:Eu; [|done].
  assert (length (tokenize m) = Z.to_nat (3 * k)) as Hln by (unfold zlen in Hk; lia).
  apply ungroup_words in Eu as (ids & Hf & Hw & Hl); [|lia].
  set (buf := bytes_of_bits (Z.to_nat size) l).
  assert (zlen buf = size) as Hbl by (unfold buf, zlen; rewrite length_bytes_of_bits; lia).
  rewrite substr_ret, substr_from_ret by lia. set (d := slice 0 (k * 4) buf).
  destruct (valid_size (zlen d)) eqn:Ev; [cbn [negb]|done]. apply valid_sizes in Ev as (k' & Hk' & Hd).
  unfold d in Hd at 1. rewrite zlen_slice in Hd by lia.
  assert (k' = k) as -> by lia. assert (size = 4 * k + 1) as Hsz by lia.
  assert (zlen d = 4 * k) as Hd' by (unfold d; rewrite zlen_slice; lia).
  destruct (checksum_byte d k Hd' Hk') as (h & Hh & _). rewrite Hh.
  destruct (bool_decide (zdrop (k * 4) buf <> [h])) eqn:Ec; [done|]. apply bool_decide_eq_false, dec_stable in Ec. intros [= <-].
  exists ids. split.
  2:{ unfold phrase. rewrite <- Hw. symmetry. apply join_tokenize. intros Hnil. rewrite Hnil in Hk. change (zlen []) with 0 in Hk. lia. }
  exists k, h. split; [done|]. split; [done|].
  assert (length ids = Z.to_nat (3 * k)) as Hi by (rewrite <- Hln, Hw, length_fmap; done).
  split; [unfold zlen; lia|]. split; [done|]. split; [done|].
  assert (d ++ [h] = buf) as ->. { unfold d, slice. rewrite zdrop_0, <- Ec. apply ztake_zdrop. }
  unfold buf. rewrite bits_bytes_of_bits; [rewrite Hl; do 2 f_equal; rewrite Hln; lia|].
  rewrite Hl, length_app, length_concat11, length_replicate. lia.
Qed.

Lemma spells_short e ids : spells e ids -> zlen (phrase ids) < 2 ^ 63.
Proof. intros (k & h & Hk & _ & Hn & Hf & _). pose proof (phrase_short ids Hf). pow_simpl. lia. Qed.

Lemma mnemonic_total e : valid_size (zlen e) = true -> exists m, entropyToMnemonic e = Ret m.
Proof. intros (ids & Hs)%spelled. exists (phrase ids). apply spells_mnemonic; [done|]. by eapply spells_short. Qed.

(** C29: entropy and words correspond one to one: a phrase is what the entropy
    is written as exactly when it is accepted and reads back as that entropy;
    the entropy that has a phrase is that of 16, 20, 24, 28 and 32 bytes. *)
Theorem mnemonic_bijection e m : (entropyToMnemonic e = Ret m <-> mnemonicToEntropy m = Ret e)
  /\ ((exists m', entropyToMnemonic e = Ret m') <-> zlen e ∈ [16; 20; 24; 28; 32]).
Proof.
  split; [split|].
  - intros Hm. destruct (valid_size (zlen e)) eqn:Ev; [|by unfold entropyToMnemonic in Hm; rewrite Ev in Hm].
    destruct (spelled e Ev) as (ids & Hs). rewrite (spells_mnemonic e ids Hs (spells_short e ids Hs)) in Hm. injection Hm as <-.
    by apply spells_entropy.
  - intros (ids & Hs & ->)%accepted_spells. apply spells_mnemonic; [done|]. by eapply spells_short.
  - assert (valid_size (zlen e) = true <-> zlen e ∈ [16; 20; 24; 28; 32]) as <-.
    { rewrite valid_sizes. rewrite !elem_of_cons, elem_of_nil. split; [intros (k & Hk & ->); lia|].
      intros He. exists (zlen e / 4). pose proof (Z.div_mod (zlen e) 4 ltac:(lia)).
      pose proof (Z.mod_pos_bound (zlen e) 4 ltac:(lia)). lia. }
    split; [|apply mnemonic_total]. intros (m' & Hm). by destruct (valid_size (zlen e)) eqn:Ev; [|unfold entropyToMnemonic in Hm; rewrite Ev in Hm].
Qed.
End Checked.
End Mnemonic.

(** ** A tokenizer *)
Module ToyTokenizer.
#[export] Instance tokenizer : Tokenizer := {| tokenize s := match s with [] => [] | _ => Utils.split_str s x20 end |}.

#[export] Instance laws : TokenizerLaws tokenizer.
Proof.
  split; cbn [tokenize tokenizer].
  - intros l Hl. destruct (decide (l = [])) as [->|Hne]; [done|].
    rewrite Utils.split_str_join; [|eapply Forall_impl; [exact Hl|]; by intros w []|done].
    destruct l as [|w l]; [done|]. apply Forall_cons in Hl as [[_ Hw] _]. destruct w as [|c w]; [done|]. by destruct l.
  - intros s Hs. destruct s as [|c s]; [done|]. apply Utils.join_split_str_go.
Qed.
End ToyTokenizer.

Section Witness.
#[local] Existing Instances Toy.service Toy.laws ToyTokenizer.tokenizer ToyTokenizer.laws.

Lemma mnemonic_bijection_witness :
  exists m, Bip39Impl.entropyToMnemonic (zeros 16) = Ret m /\ Bip39Impl.mnemonicToEntropy m = Ret (zeros 16).
Proof.
  destruct (proj2 (proj2 (Mnemonic.mnemonic_bijection (zeros 16) []))) as (m & Hm); [by left|].
  exists m. split; [exact Hm|]. by apply (proj1 (Mnemonic.mnemonic_bijection (zeros 16) m)).
Defined.
End Witness.
