(* ===== verification/Srp.v ===== *)
(** * Secure remote password

    [SrpLogic] and [SRP] (crypto/base/src/SrpLogic.cpp, SRP.cpp) and
    [PasswordMixer::mix] (crypto/base/src/PasswordMixer.cpp).  [mpz_class] is
    [Z]: GMP's integers are unbounded, its [%] truncates ([Z.rem]) and
    [mpz_powm] returns a residue between 0 and the modulus. *)

From Stdlib Require Import ZArith Lia Strings.String Strings.Byte Zpow_facts.
From stdpp Require Import base list.
From S2P Require Import Prelude Bytes Crypto CryptoSuite Dynamic.

(** [mpz_powm] for a non-negative exponent. *)
Definition mpz_powm (base exp modulus : Z) : Z := Zpow_mod base exp (Z.abs modulus).

(** [mpz_import], big-endian bytes. *)
Definition mpz_import (s : bytes) : Z := be_decode s.

(** [(mpz_sizeinbase(x, 2) + 7) / 8]: [mpz_sizeinbase] looks at the absolute
    value and gives 1 for 0. *)
Definition mpz_size (x : Z) : Z :=
  ((if bool_decide (x = 0) then 1 else Z.log2 (Z.abs x) + 1) + 7) / 8.

Module SrpLogic.
Section Logic.
Context `{CryptoService}.

Definition get_a : ST rng Z :=
  random_bytes ← random 64;
  mret (mpz_import random_bytes).

Definition get_A (g N a : Z) : Z := mpz_powm g a N.

Definition HBN (data : bytes) : Z := mpz_import (sha256 data).

Definition get_x (s I P : bytes) : Z := HBN (s ++ sha256 (I ++ lit ":" ++ P)).

(** [mpz_export] writes the significant bytes of [x] after
    [N_size - x_size] zero bytes of an [N_size]-byte buffer; when [x] is
    longer than [N] that position is before the buffer. *)
Definition PAD (x N : Z) : outcome bytes :=
  let N_size := mpz_size N in
  let x_size := mpz_size x in
  if bool_decide (N_size < x_size) then Throw UndefinedBehaviour
  else mret (be_encode (Z.to_nat N_size) (Z.abs x)).

Definition get_k (g N : Z) : outcome Z :=
  n ← PAD N N; p ← PAD g N; mret (HBN (n ++ p)).
Definition get_v (g N x : Z) : Z := mpz_powm g x N.
Definition get_u (A B N : Z) : outcome Z :=
  a ← PAD A N; b ← PAD B N; mret (HBN (a ++ b)).

Definition getClient_S (B k v a u x N : Z) : Z :=
  let bkv := Z.rem (B - Z.rem (v * k) N) N in
  let aux := a + u * x in
  mpz_powm bkv aux N.

Definition get_M1 (A B S N : Z) : outcome Z :=
  a ← PAD A N; b ← PAD B N; s ← PAD S N; mret (HBN (a ++ b ++ s)).
Definition get_M2 (A M1 S N : Z) : outcome Z :=
  a ← PAD A N; m ← PAD M1 N; s ← PAD S N; mret (HBN (a ++ m ++ s)).
Definition get_K (S N : Z) : outcome bytes :=
  s ← PAD S N; mret (sha256 s).
Definition srpRegister (N g : Z) (I P s : bytes) : bytes * Z :=
  let x := get_x s I P in
  let v := get_v g N x in
  (s, v).

(** The server's side of the protocol (SRP-6a): its public value and the
    premaster secret it derives from the client's [A]. *)
Definition server_B (k v g b N : Z) : Z := (k * v + g ^ b) mod N.
Definition server_S (A v u b N : Z) : Z := (A * v ^ u) ^ b mod N.
End Logic.

Section Laws.
Context `{CryptoLaws}.

Lemma mpz_powm_spec b e N : 1 < N -> 0 <= e -> mpz_powm b e N = b ^ e mod N.
Proof. intros. unfold mpz_powm. rewrite Z.abs_eq by lia. apply Zpow_mod_correct; lia. Qed.

Lemma rem_mod a N : 0 < N -> Z.rem a N mod N = a mod N.
Proof.
  intros. rewrite (Z.quot_rem' a N) at 2.
  rewrite (Z.mul_comm N), Z.add_comm, Z_mod_plus_full. done.
Qed.

Lemma rem_sub_mod a c N : 0 < N -> Z.rem (a - Z.rem c N) N mod N = (a - c) mod N.
Proof.
  intros. rewrite rem_mod by done. rewrite Zminus_mod, rem_mod, <- Zminus_mod by done. done.
Qed.

Lemma server_S_mod N g a b u x : 1 < N -> 0 <= a -> 0 <= b -> 0 <= u -> 0 <= x ->
  server_S (g ^ a mod N) (g ^ x mod N) u b N = g ^ (b * (a + u * x)) mod N.
Proof.
  intros. unfold server_S.
  rewrite Zpower_mod by lia. rewrite Zmult_mod, Zmod_mod.
  rewrite <- (Zpower_mod (g ^ x) u N) by lia. rewrite <- Zmult_mod, <- Zpower_mod by lia.
  rewrite <- Z.pow_mul_r, <- Z.pow_add_r, <- Z.pow_mul_r by nia.
  do 2 f_equal. lia.
Qed.

(** Both sides compute the same premaster secret. *)
Lemma agreement N g k a b u x : 1 < N -> 0 <= a -> 0 <= b -> 0 <= u -> 0 <= x ->
  let v := get_v g N x in
  getClient_S (server_B k v g b N) k v a u x N = server_S (get_A g N a) v u b N.
Proof.
  intros HN Ha Hb Hu Hx v. unfold v, get_v, get_A, getClient_S.
  rewrite !(mpz_powm_spec _ _ N) by nia. rewrite server_S_mod by done.
  set (gx := g ^ x mod N). rewrite Zpower_mod by lia.
  rewrite rem_sub_mod by lia. unfold server_B.
  rewrite Zminus_mod, Zmod_mod, <- Zminus_mod.
  replace (k * gx + g ^ b - gx * k) with (g ^ b) by lia.
  rewrite <- Zpower_mod by lia. by rewrite <- Z.pow_mul_r by nia.
Qed.

Lemma mpz_size_mono x N : 0 <= x <= N -> mpz_size x <= mpz_size N.
Proof.
  intros Hx. unfold mpz_size. apply Z.div_le_mono; [lia|].
  destruct (decide (x = 0)) as [->|].
  - rewrite bool_decide_eq_true_2 by done. case_bool_decide; [lia|].
    pose proof (Z.log2_nonneg (Z.abs N)). lia.
  - rewrite !bool_decide_eq_false_2 by lia. rewrite !Z.abs_eq by lia.
    pose proof (Z.log2_le_mono x N). lia.
Qed.

Lemma be_decode_bound s : 0 <= be_decode s < 256 ^ zlen s.
Proof.
  unfold be_decode. assert (forall acc, 0 <= acc ->
    acc * 256 ^ zlen s <= fold_left (fun acc b => acc * 256 + byte_val b) s acc
      < (acc + 1) * 256 ^ zlen s) as Hf; [|specialize (Hf 0); lia].
  induction s as [|b s IH]; intros acc Hacc; simpl; [rewrite zlen_nil; lia|].
  pose proof (byte_val_range b). rewrite zlen_cons, Z.add_1_l, Z.pow_succ_r by apply zlen_nonneg.
  specialize (IH (acc * 256 + byte_val b) ltac:(lia)).
  pose proof (Z.pow_pos_nonneg 256 (zlen s) ltac:(lia) (zlen_nonneg s)). nia.
Qed.

Lemma HBN_bound d : 0 <= HBN d < 2 ^ 256.
Proof. unfold HBN, mpz_import. pose proof (be_decode_bound (sha256 d)) as Hb. by rewrite sha256_len in Hb. Qed.

Lemma PAD_ret x N : 0 <= x <= N -> exists p, PAD x N = Ret p.
Proof.
  intros Hx. unfold PAD. pose proof (mpz_size_mono x N Hx).
  rewrite bool_decide_eq_false_2 by lia. by eexists.
Qed.

Lemma get_u_ret A B N : 0 <= A <= N -> 0 <= B <= N -> exists u, get_u A B N = Ret u /\ 0 <= u.
Proof.
  intros HA HB. destruct (PAD_ret A N HA) as [a Ea], (PAD_ret B N HB) as [b Eb].
  unfold get_u. rewrite Ea, Eb. eexists. split; [done|]. apply HBN_bound.
Qed.

Lemma get_M1_ret A B S N : 0 <= A <= N -> 0 <= B <= N -> 0 <= S <= N ->
  exists m, get_M1 A B S N = Ret m /\ 0 <= m < 2 ^ 256.
Proof.
  intros HA HB HS. destruct (PAD_ret A N HA) as [a Ea], (PAD_ret B N HB) as [b Eb], (PAD_ret S N HS) as [c Ec].
  unfold get_M1. rewrite Ea, Eb, Ec. eexists. split; [done|]. apply HBN_bound.
Qed.

Lemma get_K_ret S N : 0 <= S <= N -> exists K, get_K S N = Ret K /\ zlen K = 32.
Proof.
  intros HS. destruct (PAD_ret S N HS) as [c Ec]. unfold get_K. rewrite Ec.
  eexists. split; [done|]. apply sha256_len.
Qed.

(** A value longer than the modulus overruns the buffer. *)
Lemma PAD_overflow x N : mpz_size N < mpz_size x -> PAD x N = Throw UndefinedBehaviour.
Proof. intros. unfold PAD. by rewrite bool_decide_eq_true_2. Qed.
End Laws.
End SrpLogic.

Module PasswordMixer.
Definition mix `{CryptoService} `{Encodings} `{Dynamic} (password : bytes) (data : Var) : outcome bytes :=
  algorithm ← get_string data (lit "algorithm");
  hash ← get_string data (lit "hash");
  version ← get_int data (lit "version");
  rounds ← get_int data (lit "rounds");
  length ← get_int data (lit "length");
  if bool_decide (algorithm <> lit "PBKDF2") then Throw UnsupportedAlgorithmException
  else if bool_decide (hash <> lit "SHA512") then Throw UnsupportedHashAlgorithmException
  else if bool_decide (version <> 1) then Throw UnsupportedVersionException
  else
    salt ← (s ← get_string data (lit "salt"); base64_to s);
    if bool_decide (zlen salt <> 16) || bool_decide (length <> 16) then Throw IncorrectParamsException
    else mret (pbkdf2 password salt rounds length).
End PasswordMixer.

Module SRP.
Record SrpData := { mixed : bytes; session_id : bytes }.

Record srp := {
  _is_initialized : bool;
  _I : bytes;
  _password : bytes;
  _tickets : Z;
  _M2 : Z;
  _K : bytes;
  _srp_data : SrpData;
}.

Definition new : srp := {| _is_initialized := false; _I := []; _password := []; _tickets := 0;
  _M2 := 0; _K := []; _srp_data := {| mixed := []; session_id := [] |} |}.

Definition clear (s : srp) : srp := new.

Definition initialize (I password : bytes) (tickets : Z) (s : srp) : srp :=
  {| _is_initialized := true; _I := I; _password := password; _tickets := tickets;
     _M2 := _M2 s; _K := _K s; _srp_data := _srp_data s |}.

Definition with_data (d : SrpData) (s : srp) : srp :=
  {| _is_initialized := _is_initialized s; _I := _I s; _password := _password s;
     _tickets := _tickets s; _M2 := _M2 s; _K := _K s; _srp_data := d |}.
Definition with_M2 (m : Z) (s : srp) : srp :=
  {| _is_initialized := _is_initialized s; _I := _I s; _password := _password s;
     _tickets := _tickets s; _M2 := m; _K := _K s; _srp_data := _srp_data s |}.
Definition with_K (k : bytes) (s : srp) : srp :=
  {| _is_initialized := _is_initialized s; _I := _I s; _password := _password s;
     _tickets := _tickets s; _M2 := _M2 s; _K := k; _srp_data := _srp_data s |}.

Definition addPadding (x : bytes) : bytes :=
  if bool_decide (zlen x mod 2 = 1) then lit "0" ++ x else x.

Section Srp.
Context `{CryptoService} `{Encodings} `{Dynamic}.

Definition get_hex (obj : Var) (k : bytes) : outcome Z := s ← get_string obj k; mpz_of_hex s.

(** The state is the object and the random generator. *)
Definition on_srp (f : srp -> srp) : ST (srp * rng) unit := modify (fun '(s, g) => (f s, g)).
Definition draw {A} (m : ST rng A) : ST (srp * rng) A := zoom snd (fun g '(s, _) => (s, g)) m.

Definition validateSrpInit (packet : Var) : ST (srp * rng) Var :=
  me ← gets fst;
  _ ← throw_if (bool_decide (_I me = []) || bool_decide (_password me = [])) InvalidHandshakeStateException;
  session ← lift (get_string packet (lit "sessionId"));
  _ ← on_srp (fun s => with_data {| mixed := mixed (_srp_data s); session_id := session |} s);
  s ← lift (s ← get_string packet (lit "s"); hex_to s);
  B ← lift (get_hex packet (lit "B"));
  N ← lift (get_hex packet (lit "N"));
  g ← lift (get_hex packet (lit "g"));
  k ← lift (get_hex packet (lit "k"));
  login_data ← lift (d ← get_string packet (lit "loginData"); parse_json d);
  _ ← throw_if (bool_decide (N = 0)) UndefinedBehaviour;
  _ ← throw_if (bool_decide (Z.rem B N = 0)) InvalidBNException;
  a ← draw SrpLogic.get_a;
  let A := SrpLogic.get_A g N a in
  mixed_password ← lift (PasswordMixer.mix (_password me) login_data);
  _ ← on_srp (fun s => with_data {| mixed := mixed_password; session_id := session |} s);
  let x := SrpLogic.get_x s (_I me) (base64_from mixed_password) in
  let v := SrpLogic.get_v g N x in
  u ← lift (SrpLogic.get_u A B N);
  let S := SrpLogic.getClient_S B k v a u x N in
  M1 ← lift (SrpLogic.get_M1 A B S N);
  M2 ← lift (SrpLogic.get_M2 A M1 S N);
  _ ← on_srp (with_M2 M2);
  K ← lift (SrpLogic.get_K S N);
  _ ← on_srp (with_K K);
  mret (new_object [
    (lit "type", of_string (lit "srp_exchange"));
    (lit "A", of_string (addPadding (mpz_to_hex A)));
    (lit "M1", of_string (addPadding (mpz_to_hex M1)));
    (lit "sessionId", of_string session);
    (lit "tickets", of_int (_tickets me))]).

Definition validateSrpExchange (packet : Var) : ST (srp * rng) bytes :=
  me ← gets fst;
  _ ← throw_if (bool_decide (_M2 me = 0) || bool_decide (_K me = [])) InvalidHandshakeStateException;
  M2_2 ← lift (get_hex packet (lit "M2"));
  _ ← throw_if (bool_decide (_M2 me <> M2_2)) InvalidM2Exception;
  let result := _K me in
  _ ← on_srp (with_K []);
  mret result.
End Srp.

Section Laws.
Context `{CryptoLaws} `{!Encodings} `{!Dynamic}.

(** The parameters a server sends: its group, the salt, its public value
    and the key-derivation settings, under which the password gives [P]. *)
Record init_packet (packet : Var) (password s : bytes) (N g k B : Z) (P session : bytes) : Prop := {
  ip_session : get_string packet (lit "sessionId") = Ret session;
  ip_s : (s ← get_string packet (lit "s"); hex_to s) = Ret s;
  ip_B : get_hex packet (lit "B") = Ret B;
  ip_N : get_hex packet (lit "N") = Ret N;
  ip_g : get_hex packet (lit "g") = Ret g;
  ip_k : get_hex packet (lit "k") = Ret k;
  ip_login : exists d, (d ← get_string packet (lit "loginData"); parse_json d) = Ret d
    /\ PasswordMixer.mix password d = Ret P;
}.

(** C23: the SRP session.  A server that holds the verifier registered for
    the password, picks [b] and publishes [B], is answered with [A] and the
    proof [M1] of the secret the server computes from [A], and the client
    keeps the same session key and the proof it expects back.  The exchange
    then releases the key, once, exactly when the server's proof is that
    one; without an initialisation it is refused. *)
Theorem srp_session packet me rnd N g k b s P session :
  2 ^ 256 <= N -> 0 <= b -> _I me <> [] -> _password me <> [] ->
  let v := snd (SrpLogic.srpRegister N g (_I me) (base64_from P) s) in
  let B := SrpLogic.server_B k v g b N in
  B <> 0 -> init_packet packet (_password me) s N g k B P session ->
  exists A u M1 M2 K me' rnd',
    validateSrpInit packet (me, rnd) = (Ret (new_object [
      (lit "type", of_string (lit "srp_exchange"));
      (lit "A", of_string (addPadding (mpz_to_hex A)));
      (lit "M1", of_string (addPadding (mpz_to_hex M1)));
      (lit "sessionId", of_string session);
      (lit "tickets", of_int (_tickets me))]), (me', rnd'))
    /\ SrpLogic.get_u A B N = Ret u
    /\ let S := SrpLogic.server_S A v u b N in
       SrpLogic.get_M1 A B S N = Ret M1 /\ SrpLogic.get_M2 A M1 S N = Ret M2
       /\ SrpLogic.get_K S N = Ret K /\ _K me' = K /\ _M2 me' = M2
       /\ (forall packet2 M, get_hex packet2 (lit "M2") = Ret M -> M2 <> 0 ->
            validateSrpExchange packet2 (me', rnd')
            = if bool_decide (M2 = M) then (Ret K, (with_K [] me', rnd'))
              else (Throw InvalidM2Exception, (me', rnd')))
       /\ (forall packet2, (validateSrpExchange packet2 (with_K [] me', rnd')).1
            = Throw InvalidHandshakeStateException).
Proof.
  intros HN Hb HI Hp v B HB Hip. assert (1 < N) as HN1 by lia.
  assert (0 <= B < N) as HBr by (apply Z.mod_pos_bound; lia).
  destruct (randomBytes 64 rnd) as [rb rnd'] eqn:Hr. set (a := mpz_import rb).
  assert (0 <= a) as Ha by apply SrpLogic.be_decode_bound.
  set (A := SrpLogic.get_A g N a).
  assert (0 <= A < N) as HA.
  { unfold A, SrpLogic.get_A. rewrite SrpLogic.mpz_powm_spec by done. apply Z.mod_pos_bound. lia. }
  set (x := SrpLogic.get_x s (_I me) (base64_from P)).
  assert (0 <= x) as Hx by apply SrpLogic.HBN_bound.
  destruct (SrpLogic.get_u_ret A B N) as (u & Eu & Hu); [lia|lia|].
  set (S := SrpLogic.server_S A v u b N).
  assert (0 <= S < N) as HS by (apply Z.mod_pos_bound; lia).
  assert (SrpLogic.getClient_S B k v a u x N = S) as ES by (by apply SrpLogic.agreement).
  destruct (SrpLogic.get_M1_ret A B S N) as (M1 & E1 & HM1); [lia..|].
  destruct (SrpLogic.get_M1_ret A M1 S N) as (M2 & E2 & HM2); [lia..|].
  change (SrpLogic.get_M1 A M1 S N) with (SrpLogic.get_M2 A M1 S N) in E2.
  destruct (SrpLogic.get_K_ret S N) as (K & EK & HK); [lia|].
  destruct Hip as [I1 I2 I3 I4 I5 I6 (d & I7 & I8)].
  exists A, u, M1, M2, K. do 2 eexists. split.
  { unfold validateSrpInit. unfold mbind at 1, st_bind at 1, gets at 1. cbn [fst].
    rewrite !bool_decide_eq_false_2 by done. cbn [orb].
    unfold throw_if, draw, SrpLogic.get_a, random, lift, on_srp, modify, zoom.
    unfold mbind, st_bind, mret, st_ret. cbn [fst snd].
    unfold mbind in I2, I7. rewrite I1; cbn [fst snd]. rewrite I2; cbn [fst snd]. rewrite I3; cbn [fst snd].
    rewrite I4; cbn [fst snd]. rewrite I5; cbn [fst snd]. rewrite I6; cbn [fst snd].
    rewrite I7; cbn [fst snd].
    rewrite (bool_decide_eq_false_2 (N = 0)), (bool_decide_eq_false_2 (Z.rem B N = 0))
      by (rewrite ?Z.rem_small; lia). cbn [fst snd]. rewrite Hr. cbn [fst snd].
    fold a A. rewrite I8. fold x. change (SrpLogic.get_v g N x) with v.
    rewrite Eu, ES, E1, E2, EK. reflexivity. }
  split; [done|]. split; [done|]. split; [done|]. split; [done|]. split; [done|]. split; [done|].
  split.
  - intros packet2 M HM HM0. unfold validateSrpExchange.
    unfold mbind, st_bind, gets, throw_if, lift, mret, st_ret. cbn [fst _M2 _K with_K with_M2 with_data].
    rewrite (bool_decide_eq_false_2 (M2 = 0)) by done.
    rewrite (bool_decide_eq_false_2 (K = [])) by (intros EK0; by rewrite EK0 in HK).
    cbn [orb]. rewrite HM.
    destruct (decide (M2 = M)) as [->|Hne].
    + rewrite bool_decide_eq_false_2 by tauto. by rewrite bool_decide_eq_true_2.
    + rewrite bool_decide_eq_true_2 by done. by rewrite bool_decide_eq_false_2.
  - intros packet2. unfold validateSrpExchange, mbind, st_bind, gets, throw_if.
    cbn [fst with_K _K]. by rewrite (bool_decide_eq_true_2 ([] = [])), orb_true_r.
Qed.

(** before the server has proved the password, nothing of the session
    key leaves: an exchange with no or a consumed initialisation, or with a
    wrong proof, throws and changes nothing. *)
Theorem srp_exchange_guarded packet me rnd K me' rnd' :
  validateSrpExchange packet (me, rnd) = (Ret K, (me', rnd')) ->
  K = _K me /\ K <> [] /\ _M2 me <> 0 /\ get_hex packet (lit "M2") = Ret (_M2 me) /\ me' = with_K [] me.
Proof.
  unfold validateSrpExchange, mbind, st_bind, gets, throw_if, lift. cbn [fst].
  destruct (_ || _) eqn:E; [done|]. apply orb_false_elim in E as [E1 E2].
  apply bool_decide_eq_false in E1, E2. simpl.
  destruct (get_hex _ _) as [M|]; [|done]. case_bool_decide as EM; [done|]. subst M.
  intros [= <- <- <-]. done.
Qed.
End Laws.
End SRP.

Section Witness.
Let login : ToyJson.json := ToyJson.JObject [
  (lit "algorithm", ToyJson.JString (lit "PBKDF2")); (lit "hash", ToyJson.JString (lit "SHA512"));
  (lit "version", ToyJson.JInt 1); (lit "rounds", ToyJson.JInt 4000);
  (lit "length", ToyJson.JInt 16); (lit "salt", ToyJson.JString (zeros 16))].
#[local] Instance witness_dynamic : Dynamic := ToyJson.dynamic [(lit "login", login)].
#[local] Existing Instances Toy.service Toy.laws ToyJson.encodings ToyJson.encodings_laws.

Let N : Z := 2 ^ 256 + 1.
Let P : bytes := pbkdf2 (lit "password") (zeros 16) 4000 16.
Let B : Z := SrpLogic.server_B 3 (snd (SrpLogic.srpRegister N 2 (lit "alice") (base64_from P) (lit "salt"))) 2 5 N.
Let packet : Var := ToyJson.JObject [
  (lit "sessionId", ToyJson.JString (lit "sid")); (lit "s", ToyJson.JString (lit "salt"));
  (lit "B", ToyJson.JString (mpz_to_hex B)); (lit "N", ToyJson.JString (mpz_to_hex N));
  (lit "g", ToyJson.JString (mpz_to_hex 2)); (lit "k", ToyJson.JString (mpz_to_hex 3));
  (lit "loginData", ToyJson.JString (lit "login"))].
Let me : SRP.srp := SRP.initialize (lit "alice") (lit "password") 1 SRP.new.

Lemma srp_session_witness :
  exists exchange me' rnd', SRP.validateSrpInit packet (me, 0 : @rng Toy.service) = (Ret exchange, (me', rnd')).
Proof.
  destruct (SRP.srp_session packet me (0 : @rng Toy.service) N 2 3 5 (lit "salt") P (lit "sid"))
    as (A & u & M1 & M2 & K & me' & rnd' & E & _).
  - unfold N. lia.
  - lia.
  - discriminate.
  - discriminate.
  - vm_compute. discriminate.
  - constructor.
    + reflexivity.
    + reflexivity.
    + apply mpz_hex_inv. apply Z.mod_pos_bound. reflexivity.
    + apply mpz_hex_inv. unfold N. lia.
    + apply mpz_hex_inv. lia.
    + apply mpz_hex_inv. lia.
    + exists login. split; reflexivity.
  - eexists _, _, _. exact E.
Defined.

Lemma srp_exchange_guarded_witness :
  let ready := SRP.with_K (lit "key") (SRP.with_M2 7 me) in
  let proof : Var := ToyJson.JObject [(lit "M2", ToyJson.JString (lit "0x7"))] in
  lit "key" = SRP._K ready /\ SRP.get_hex proof (lit "M2") = Ret (SRP._M2 ready).
Proof.
  intros ready proof.
  destruct (SRP.srp_exchange_guarded proof ready (0 : @rng Toy.service) (lit "key")
    (SRP.with_K [] ready) (0 : @rng Toy.service)) as (H & _ & _ & HM & _).
  - reflexivity.
  - split; [exact H|exact HM].
Defined.
End Witness.
