(* ===== verification/Tickets.v ===== *)
(** * Session tickets

    [TicketsManager] (rpc/base/src/tls/TicketsManager.cpp): the pool of
    session tickets a connection resumes with.  [_tickets] is a
    [std::multimap] keyed by expiry time: a list ordered by key, an element
    with an existing key going after its equals.  The mutexes make each
    operation atomic and leave no trace here; the clock readings are the
    arguments [now]. *)

From Stdlib Require Import ZArith Lia Strings.Byte.
From stdpp Require Import base list sorting.
From S2P Require Import Prelude Bytes.

Module TicketsManager.
Record SessionTicket := { ticket_id : bytes; ticket_master_secret : bytes }.

Record tm := {
  _tickets : list (Z * SessionTicket);
  _tickets_ttl : Z;
}.

Definition _min_ticket_ttl : Z := 5 * 1000.
Definition _ttl_threshold : Z := 15 * 1000.
Definition NULL_TTL : Z := -1.

Definition initial : tm := {| _tickets := []; _tickets_ttl := NULL_TTL |}.

(** [std::multimap::emplace] *)
Fixpoint emplace {V} (k : Z) (v : V) (m : list (Z * V)) : list (Z * V) :=
  match m with
  | [] => [(k, v)]
  | (k', v') :: m' => if bool_decide (k < k') then (k, v) :: m else (k', v') :: emplace k v m'
  end.

(** [_tickets.erase(_tickets.begin(), _tickets.upper_bound(now))] *)
Fixpoint from_upper_bound {V} (now : Z) (m : list (Z * V)) : list (Z * V) :=
  match m with
  | [] => []
  | (k, v) :: m' => if bool_decide (now < k) then m else from_upper_bound now m'
  end.

(** [ttl * 1000] is computed in [int]. *)
Definition expiry (now ttl : Z) : Z := i64 (i64 (now + i32 (ttl * 1000)) - _min_ticket_ttl).

Definition insert_ticket (k : Z) (ticket : SessionTicket) (t : tm) : tm :=
  {| _tickets := emplace k ticket (_tickets t); _tickets_ttl := _tickets_ttl t |}.

(** Each array element is extracted as a [BinaryString] when its turn comes;
    one that is not leaves the tickets before it in the pool. *)
Definition saveTickets (now : Z) (tickets : list (outcome bytes)) (ttl : Z) (master_secret : bytes) :
    ST tm unit :=
  let new_tickets_ttl := expiry now ttl in
  _ ← for_each tickets (fun item =>
    ticket ← lift item;
    modify (insert_ticket new_tickets_ttl {| ticket_id := ticket; ticket_master_secret := master_secret |}));
  modify (fun t => {| _tickets := _tickets t; _tickets_ttl := Z.max (_tickets_ttl t) new_tickets_ttl |}).

Definition dropExpiredTickets (now : Z) (t : tm) : tm :=
  {| _tickets := from_upper_bound now (_tickets t); _tickets_ttl := _tickets_ttl t |}.

Definition ticketsCount (t : tm) : Z := u32 (zlen (_tickets t)).

Definition clear (t : tm) : tm := {| _tickets := []; _tickets_ttl := _tickets_ttl t |}.

Definition shouldAskForNewTickets (now1 now2 min_count : Z) (t : tm) : bool * tm :=
  let t := dropExpiredTickets now1 t in
  (bool_decide (i32 (zlen (_tickets t)) < min_count)
   || bool_decide (_tickets_ttl t <> NULL_TTL) && bool_decide (i64 (_tickets_ttl t - _ttl_threshold) < now2),
   t).

(** The head of the map is erased and handed out; reading it when the map is
    empty is undefined. *)
Definition pop : ST tm SessionTicket := fun t =>
  match _tickets t with
  | [] => (Throw UndefinedBehaviour, t)
  | (_, ticket) :: rest => (Ret ticket, {| _tickets := rest; _tickets_ttl := _tickets_ttl t |})
  end.

(** [on_tickets_equal_zero] is the owner's callback, empty when not set: it
    acts on the owner's state [W], of which the manager is a part. *)
Definition useTicket {W} (get : W -> tm) (put : tm -> W -> W) (now : Z)
    (on_tickets_equal_zero : option (ST W unit)) : ST W SessionTicket :=
  _ ← zoom get put (modify (dropExpiredTickets now));
  n ← zoom get put (gets ticketsCount);
  _ ← (if bool_decide (n = 0) then
         match on_tickets_equal_zero with
         | Some callback => callback
         | None => throw TicketsCountIsEqualZeroException
         end
       else mret tt);
  zoom get put pop.

(** ** Properties *)

Definition by_expiry {V} (m : list (Z * V)) : Prop := StronglySorted Z.le (m.*1).

Lemma emplace_perm {V} k (v : V) m : emplace k v m ≡ₚ (k, v) :: m.
Proof.
  induction m as [|[k' v'] m IH]; simpl; [done|].
  case_bool_decide; [done|]. rewrite IH. apply Permutation_swap.
Qed.

Lemma emplace_sorted {V} k (v : V) m : by_expiry m -> by_expiry (emplace k v m).
Proof.
  unfold by_expiry. induction m as [|[k' v'] m IH]; simpl; intros Hs.
  - repeat constructor.
  - apply StronglySorted_inv in Hs as [Hs Hf].
    case_bool_decide as E; simpl.
    + constructor; [by constructor|]. constructor; [lia|].
      eapply Forall_impl; [exact Hf|]. intros; lia.
    + constructor; [by apply IH|]. rewrite (emplace_perm k v m). constructor; [simpl; lia|done].
Qed.

Lemma emplaces_perm {V} k m (l : list V) :
  fold_left (fun m v => emplace k v m) l m ≡ₚ ((fun v => (k, v)) <$> l) ++ m.
Proof.
  revert m. induction l as [|v l IH]; intros m; simpl; [done|].
  rewrite IH, emplace_perm. by rewrite Permutation_middle.
Qed.

Lemma emplaces_sorted {V} k m (l : list V) :
  by_expiry m -> by_expiry (fold_left (fun m v => emplace k v m) l m).
Proof. revert m. induction l as [|v l IH]; intros m H; simpl; [done|]. by apply IH, emplace_sorted. Qed.

Lemma filter_all {A} (P : A -> Prop) `{!∀ x, Decision (P x)} (l : list A) :
  Forall P l -> filter P l = l.
Proof. induction 1; [done|]. rewrite filter_cons_True by done. congruence. Qed.

(** Dropping up to the upper bound keeps what is still valid. *)
Lemma upper_bound_filter {V} now (m : list (Z * V)) : by_expiry m ->
  from_upper_bound now m = filter (fun e => now < e.1) m.
Proof.
  unfold by_expiry. induction m as [|[k v] m IH]; simpl; intros Hs; [done|].
  apply StronglySorted_inv in Hs as [Hs Hf]. case_bool_decide as E.
  - rewrite filter_cons_True by done. f_equal. symmetry. apply filter_all.
    rewrite Forall_fmap in Hf. eapply Forall_impl; [exact Hf|]. simpl. intros; lia.
  - rewrite filter_cons_False by done. by apply IH.
Qed.

Lemma filter_sorted {V} (P : Z * V -> Prop) `{!∀ x, Decision (P x)} m :
  by_expiry m -> by_expiry (filter P m).
Proof.
  unfold by_expiry. induction m as [|[k v] m IH]; simpl; intros Hs; [done|].
  apply StronglySorted_inv in Hs as [Hs Hf]. destruct (decide (P (k, v))).
  - rewrite filter_cons_True by done. simpl. constructor; [by apply IH|].
    rewrite Forall_fmap in Hf |- *. 
    apply Forall_forall. intros x Hx. apply list_elem_of_filter in Hx as [_ Hx].
    by apply (proj1 (Forall_forall _ _) Hf).
  - rewrite filter_cons_False by done. by apply IH.
Qed.

(** The invariant of the pool. *)
Definition tm_ok (t : tm) : Prop := by_expiry (_tickets t).

Lemma insert_tickets_run k secret ids t :
  for_each (Ret <$> ids) (fun item : outcome bytes => ticket ← lift item;
    modify (insert_ticket k {| ticket_id := ticket; ticket_master_secret := secret |})) t
  = (Ret tt, {| _tickets := fold_left (fun m v => emplace k v m)
                   ((fun id => Build_SessionTicket id secret) <$> ids) (_tickets t);
                _tickets_ttl := _tickets_ttl t |}).
Proof.
  revert t. induction ids as [|i ids IH]; intros t; simpl; [by destruct t|].
  unfold mbind at 1, st_bind at 1, lift at 1, mbind at 1, st_bind at 1, modify at 1.
  by rewrite IH.
Qed.

(** saving the tickets of a response keeps the pool ordered, adds exactly
    them, each expiring five seconds before the server's deadline, and never
    moves the pool's own deadline back. *)
Theorem saveTickets_adds now tickets ttl secret t :
  tm_ok t ->
  exists t', saveTickets now (Ret <$> tickets) ttl secret t = (Ret tt, t')
  /\ tm_ok t'
  /\ _tickets t' ≡ₚ ((fun id => (expiry now ttl,
          {| ticket_id := id; ticket_master_secret := secret |})) <$> tickets) ++ _tickets t
  /\ _tickets_ttl t <= _tickets_ttl t'
  /\ (Forall (fun e => e.1 <= _tickets_ttl t) (_tickets t) ->
      Forall (fun e => e.1 <= _tickets_ttl t') (_tickets t')).
Proof.
  unfold tm_ok. intros Hok. set (k := expiry now ttl). set (mk := fun id => Build_SessionTicket id secret).
  eexists. split.
  { unfold saveTickets. fold k.
    rewrite (run_bind_ret _ _ _ _ _ (insert_tickets_run k secret tickets t)). reflexivity. }
  cbn [_tickets _tickets_ttl]. fold mk.
  assert (fold_left (fun m v => emplace k v m) (mk <$> tickets) (_tickets t)
    ≡ₚ ((fun id => (k, mk id)) <$> tickets) ++ _tickets t) as Hp.
  { rewrite emplaces_perm, <- list_fmap_compose. done. }
  split; [by apply emplaces_sorted|]. split; [exact Hp|]. split; [lia|].
  intros Hall. rewrite Hp. apply Forall_app. split.
  - rewrite Forall_fmap. apply Forall_true. intros. simpl. lia.
  - eapply Forall_impl; [exact Hall|]. simpl. intros. lia.
Qed.

Lemma ticketsCount_0 t : zlen (_tickets t) < 2 ^ 32 -> ticketsCount t = 0 -> _tickets t = [].
Proof.
  unfold ticketsCount. intros Hl. rewrite wrap_id by (pose proof (zlen_nonneg (_tickets t)); lia).
  apply zlen_0_inv.
Qed.

(** A call that finds a valid ticket, in the owner's state. *)
Lemma useTicket_run {W} (get : W -> tm) put now callback w k ticket rest :
  (forall t w, get (put t w) = t) -> (forall t t' w, put t (put t' w) = put t w) ->
  from_upper_bound now (_tickets (get w)) = (k, ticket) :: rest ->
  zlen ((k, ticket) :: rest) < 2 ^ 32 ->
  useTicket get put now callback w
  = (Ret ticket, put {| _tickets := rest; _tickets_ttl := _tickets_ttl (get w) |} w).
Proof.
  intros Hgp Hpp Hv Hl. unfold useTicket, pop. unfold_st. rewrite !Hgp.
  unfold dropExpiredTickets, ticketsCount. rewrite Hv. cbn [_tickets _tickets_ttl].
  rewrite zlen_cons in *. pose proof (zlen_nonneg rest).
  rewrite wrap_id by lia. rewrite bool_decide_eq_false_2 by lia.
  rewrite !Hgp, !Hpp. simpl. by rewrite Hpp.
Qed.

(** a used ticket is the one closest to expiry among those valid at the
    time of the call; it and the expired ones leave the pool, so no ticket is
    handed out twice or after its deadline.  With none left and no callback
    the call fails. *)
Theorem useTicket_takes_valid now t :
  tm_ok t -> zlen (_tickets t) < 2 ^ 32 ->
  let valid := filter (fun e => now < e.1) (_tickets t) in
  match useTicket (fun t => t) (fun t _ => t) now None t with
  | (Ret ticket, t') =>
      tm_ok t' /\ exists k, valid = (k, ticket) :: _tickets t' /\ now < k
        /\ Forall (fun e => k <= e.1) (_tickets t')
  | (Throw e, t') => e = TicketsCountIsEqualZeroException /\ valid = [] /\ _tickets t' = []
  end.
Proof.
  intros Hok Hlen valid.
  assert (from_upper_bound now (_tickets t) = valid) as Hv by (by apply upper_bound_filter).
  assert (by_expiry valid) as Hs by (by apply filter_sorted).
  assert (Forall (fun e => now < e.1) valid) as Hn by
    (apply Forall_forall; intros x Hx; by apply list_elem_of_filter in Hx as [Hx _]).
  assert (zlen valid < 2 ^ 32) as Hvl.
  { unfold zlen in *. pose proof (length_filter (fun e => now < e.1) (_tickets t)).
    unfold valid. lia. }
  unfold useTicket, pop. unfold_st. unfold dropExpiredTickets. rewrite Hv.
  case_bool_decide as E.
  - apply ticketsCount_0 in E; [|done]. simpl in *. done.
  - cbn [_tickets _tickets_ttl]. destruct valid as [|[k tk] rest] eqn:Ev; [done|].
    simpl. unfold by_expiry in Hs. simpl in Hs. apply StronglySorted_inv in Hs as [Hs Hf].
    split; [exact Hs|]. exists k. apply Forall_cons in Hn as [Hk _]. split; [done|]. split; [done|].
    rewrite Forall_fmap in Hf. exact Hf.
Qed.
End TicketsManager.

Section Witness.
Let ticket n := {| TicketsManager.ticket_id := [n]; TicketsManager.ticket_master_secret := [] |}.
Let pool : TicketsManager.tm :=
  {| TicketsManager._tickets := [(10, ticket x01); (20, ticket x02); (30, ticket x03)];
     TicketsManager._tickets_ttl := 30 |}.

Lemma pool_ok : TicketsManager.tm_ok pool.
Proof. repeat constructor; simpl; lia. Qed.

Lemma saveTickets_adds_witness :
  exists t', TicketsManager.saveTickets 0 [Ret [x04]] 60 [] pool = (Ret tt, t') /\ TicketsManager.tm_ok t'.
Proof.
  destruct (TicketsManager.saveTickets_adds 0 [[x04]] 60 [] pool pool_ok) as (t' & H & Hok & _).
  exists t'. split; [exact H|exact Hok].
Defined.

Lemma useTicket_takes_valid_witness :
  exists k, filter (fun e => 15 < e.1) (TicketsManager._tickets pool)
    = [(k, ticket x02); (30, ticket x03)] /\ 15 < k.
Proof.
  destruct (TicketsManager.useTicket_takes_valid 15 pool pool_ok ltac:(reflexivity))
    as (_ & k & H & Hk & _).
  exists k. split; [exact H|exact Hk].
Defined.
End Witness.
