(* ===== verification/Tls.v ===== *)
(** * The record layer

    [ConnectionBase] (rpc/base/src/tls/ConnectionBase.cpp): frames with an
    8-byte header, in clear until a cipher state is installed, then with an
    encrypted and authenticated header, a CBC body under an initialisation
    vector that is the encrypted header, and a MAC bound to an implicit
    sequence number.

    [conn D] is the object graph: the base class's members and the state [D]
    of the derived class and of the owner.  The virtual functions, the
    application's handler and the PSON codec are parameters. *)

From Stdlib Require Import ZArith Lia Strings.String Strings.Byte.
From stdpp Require Import base list.
From S2P Require Import Prelude Bytes Crypto CryptoSuite.

(** ** Cipher states, connection state *)
Record RWState := { key : bytes; mac_key : bytes; sequence_number : Z }.

Definition RWState_empty : RWState := {| key := []; mac_key := []; sequence_number := 0 |}.
Definition RWState_new (key mac_key : bytes) : RWState :=
  {| key := key; mac_key := mac_key; sequence_number := 0 |}.

Definition initialized (s : RWState) : bool :=
  bool_decide (key s <> []) && bool_decide (mac_key s <> []).

Definition next_sequence (s : RWState) : RWState :=
  {| key := key s; mac_key := mac_key s; sequence_number := u64 (sequence_number s + 1) |}.

(** [ContentType] *)
Definition CHANGE_CIPHER_SPEC : Z := 20.
Definition ALERT : Z := 21.
Definition HANDSHAKE : Z := 22.
Definition APPLICATION_DATA : Z := 23.

Record conn (D : Type) := {
  _output : bytes;
  _write_state : RWState;
  _read_state : RWState;
  _next_write_state : RWState;
  _next_read_state : RWState;
  _client_random : bytes;
  _server_random : bytes;
  _master_secret : bytes;
  derived : D;
}.
Arguments _output {D}. Arguments _write_state {D}. Arguments _read_state {D}.
Arguments _next_write_state {D}. Arguments _next_read_state {D}. Arguments _client_random {D}.
Arguments _server_random {D}. Arguments _master_secret {D}. Arguments derived {D}.

Definition _version : Z := 1.

(** A [std::istream]: the bytes left, and whether a read came up short. *)
Record istream := { rest : bytes; at_eof : bool }.

Definition readRaw (n : Z) (i : istream) : bytes * istream :=
  (ztake n (rest i), {| rest := zdrop n (rest i); at_eof := at_eof i || bool_decide (zlen (rest i) < n) |}).

Definition open_stream (b : bytes) : istream := {| rest := b; at_eof := false |}.

Section Setters.
Context {D : Type}.
Implicit Types c : conn D.

Definition with_output (o : bytes) c : conn D := {| _output := o; _write_state := _write_state c; _read_state := _read_state c;
  _next_write_state := _next_write_state c; _next_read_state := _next_read_state c;
  _client_random := _client_random c; _server_random := _server_random c;
  _master_secret := _master_secret c; derived := derived c |}.
Definition with_write_state (s : RWState) c : conn D := {| _output := _output c; _write_state := s; _read_state := _read_state c;
  _next_write_state := _next_write_state c; _next_read_state := _next_read_state c;
  _client_random := _client_random c; _server_random := _server_random c;
  _master_secret := _master_secret c; derived := derived c |}.
Definition with_read_state (s : RWState) c : conn D := {| _output := _output c; _write_state := _write_state c; _read_state := s;
  _next_write_state := _next_write_state c; _next_read_state := _next_read_state c;
  _client_random := _client_random c; _server_random := _server_random c;
  _master_secret := _master_secret c; derived := derived c |}.
Definition with_next_states (w r : RWState) c : conn D := {| _output := _output c; _write_state := _write_state c;
  _read_state := _read_state c; _next_write_state := w; _next_read_state := r;
  _client_random := _client_random c; _server_random := _server_random c;
  _master_secret := _master_secret c; derived := derived c |}.
Definition with_secrets (cr sr ms : bytes) c : conn D := {| _output := _output c; _write_state := _write_state c;
  _read_state := _read_state c; _next_write_state := _next_write_state c;
  _next_read_state := _next_read_state c; _client_random := cr; _server_random := sr;
  _master_secret := ms; derived := derived c |}.
Definition with_derived (d : D) c : conn D := {| _output := _output c; _write_state := _write_state c;
  _read_state := _read_state c; _next_write_state := _next_write_state c;
  _next_read_state := _next_read_state c; _client_random := _client_random c;
  _server_random := _server_random c; _master_secret := _master_secret c; derived := d |}.
End Setters.

Module ConnectionBase.
Record StatePair := { read_state : RWState; write_state : RWState }.
Record StatePairCS := { client_state : RWState; server_state : RWState }.

Section Base.
Context `{CryptoService}.
Context {D : Type}.
Context {Var : Type}.
(** [Pson::Decoder::decode], a library. *)
Variable pson_decode : bytes -> outcome Var.
(** The virtual functions. *)
Variable processHandshakePacket : Var -> ST (conn D) unit.
Variable getFreshRWStatesFromParams : StatePairCS -> StatePair.
(** The owner's callback works on the owner's state. *)
Variable application_handler : Var -> ST D unit.

(** *** Sending *)

(** Version, type, length and two reserved bytes. *)
Definition frame_header_body (content_type frame_length : Z) : bytes :=
  be_encode 1 _version ++ be_encode 1 content_type ++ be32 frame_length ++ [x00; x00].

(** The length of the padded body: [((n + 16) >> 4) << 4]. *)
Definition padded_length (n : Z) : Z :=
  if bool_decide (0 < n) then u32 (Z.shiftl (Z.shiftr (u32 (n + 16)) 4) 4) else n.

Definition sealed_frame (s : RWState) (packet : bytes) (content_type : Z) : bytes :=
  let frame_length := padded_length (u32 (zlen packet)) in
  let header := frame_header_body content_type frame_length in
  let seq_bin := be64 (sequence_number s) in
  let frame_seed := seq_bin ++ header in
  let frame_header_tag := hmacSha256 (mac_key s) frame_seed in
  let frame_header2 := aes256EcbEncrypt (header ++ ztake 8 frame_header_tag) (key s) in
  if bool_decide (0 < frame_length) then
    let iv := frame_header2 in
    let frame_data2 := aes256CbcPkcs7Encrypt packet (key s) iv in
    let frame_mac := ztake 16 (hmacSha256 (mac_key s) (frame_seed ++ iv ++ frame_data2)) in
    frame_header2 ++ frame_data2 ++ frame_mac
  else frame_header2.

Definition plain_frame (packet : bytes) (content_type : Z) : bytes :=
  frame_header_body content_type (u32 (zlen packet)) ++ packet.

Definition send (packet : bytes) (content_type : Z) (force_plaintext : bool) : ST (conn D) unit :=
  fun c =>
    if negb force_plaintext && initialized (_write_state c) then
      (Ret tt, with_write_state (next_sequence (_write_state c))
         (with_output (_output c ++ sealed_frame (_write_state c) packet content_type) c))
    else (Ret tt, with_output (_output c ++ plain_frame packet content_type) c).

(** *** Receiving *)

(** The header of the next frame and, for a sealed one, the authenticated
    seed and the vector; [None] at the end of the input. *)
Definition read_header (i : istream) : ST (conn D) (option (bytes * bytes * bytes) * istream) :=
  st ← gets _read_state;
  if initialized st then
    let '(frame_header, i) := readRaw 16 i in
    if bool_decide (frame_header = []) then mret (None, i)
    else
      let iv := frame_header in
      frame_header ← lift (aes256EcbDecrypt frame_header (key st));
      frame_header_tag ← lift (substr_from frame_header 8);
      frame_header ← lift (substr frame_header 0 8);
      let seq_bin := be64 (sequence_number st) in
      _ ← modify (with_read_state (next_sequence st));
      let frame_seed := seq_bin ++ frame_header in
      let expected_tag := ztake 8 (hmacSha256 (mac_key st) frame_seed) in
      _ ← throw_if (bool_decide (frame_header_tag <> expected_tag)) FrameHeaderTagsAreNotEqualException;
      mret (Some (frame_header, frame_seed, iv), i)
  else
    let '(frame_header, i) := readRaw 8 i in
    if bool_decide (frame_header = []) then mret (None, i)
    else mret (Some (frame_header, [], []), i).

(** Version, type and length; a header cut before the length leaves the
    variables unset. *)
Definition parse_header (frame_header : bytes) : outcome (Z * Z) :=
  if bool_decide (zlen frame_header < 1) then Throw UndefinedBehaviour
  else
    let frame_version := be_decode (ztake 1 frame_header) in
    if bool_decide (frame_version <> _version) then Throw UnsupportedFrameVersionException
    else if bool_decide (zlen frame_header < 6) then Throw UndefinedBehaviour
    else mret (be_decode (slice 1 1 frame_header), be_decode (slice 2 4 frame_header)).

(** The body; the sequence number has moved on, the keys have not. *)
Definition read_data (frame_length : Z) (frame_seed iv : bytes) (i : istream) :
    ST (conn D) (bytes * istream) :=
  if bool_decide (0 < frame_length) then
    let '(ciphertext, i) := readRaw frame_length i in
    st ← gets _read_state;
    if initialized st then
      let '(frame_mac, i) := readRaw 16 i in
      let mac_data := frame_seed ++ iv ++ ciphertext in
      let expected_mac := ztake 16 (hmacSha256 (mac_key st) mac_data) in
      _ ← throw_if (bool_decide (frame_mac <> expected_mac)) FrameMacsAreNotEqualException;
      data ← lift (aes256CbcPkcs7Decrypt ciphertext (key st) iv);
      mret (data, i)
    else mret (ciphertext, i)
  else mret ([], i).

Definition dispatch (frame_content_type : Z) (frame_data : bytes) : ST (conn D) unit :=
  if bool_decide (frame_content_type = APPLICATION_DATA) then
    application_data ← lift (pson_decode frame_data);
    zoom derived with_derived (application_handler application_data)
  else if bool_decide (frame_content_type = HANDSHAKE) then
    packet ← lift (pson_decode frame_data);
    processHandshakePacket packet
  else if bool_decide (frame_content_type = CHANGE_CIPHER_SPEC) then
    c ← gets (fun c => c);
    _ ← throw_if (negb (initialized (_next_read_state c))) InvalidNextReadStateException;
    _ ← modify (with_read_state (_next_read_state c));
    modify (with_next_states (_next_write_state c) RWState_empty)
  else if bool_decide (frame_content_type = ALERT) then throw (AlertException frame_data)
  else mret tt.

(** One round of the loop: [None] when the function returns. *)
Definition process_frame (i : istream) : ST (conn D) (option istream) :=
  '(h, i) ← read_header i;
  match h with
  | None => mret None
  | Some (frame_header, frame_seed, iv) =>
      '(frame_content_type, frame_length) ← lift (parse_header frame_header);
      '(frame_data, i) ← read_data frame_length frame_seed iv i;
      _ ← dispatch frame_content_type frame_data;
      mret (Some i)
  end.

(** Each round takes at least one byte ([process_enough]). *)
Fixpoint process_loop (fuel : nat) (i : istream) : ST (conn D) unit :=
  if at_eof i then mret tt
  else
    match fuel with
    | O => mret tt
    | S fuel =>
        r ← process_frame i;
        match r with
        | None => mret tt
        | Some i => process_loop fuel i
        end
    end.

Definition process (input : bytes) : ST (conn D) unit :=
  process_loop (S (length input)) (open_stream input).

(** *** Key changes *)

Definition changeCipherSpec : ST (conn D) unit :=
  c ← gets (fun c => c);
  _ ← throw_if (negb (initialized (_next_write_state c))) WriteStateIsNotInitializedException;
  _ ← send [] CHANGE_CIPHER_SPEC false;
  _ ← modify (with_write_state (_next_write_state c));
  modify (with_next_states RWState_empty (_next_read_state c)).

Definition getFreshRWStates (master_secret client_random server_random : bytes) : outcome StatePair :=
  let key_block := Kdf.prf_tls12 master_secret
    (lit "key expansion" ++ server_random ++ client_random) (4 * 32) in
  client_mac_key ← substr key_block 0 32;
  server_mac_key ← substr key_block 32 32;
  client_key ← substr key_block 64 32;
  server_key ← substr key_block 96 32;
  mret (getFreshRWStatesFromParams {|
    client_state := RWState_new client_key client_mac_key;
    server_state := RWState_new server_key server_mac_key |}).

Definition restoreState (ticket_id master_secret client_random : bytes) : ST (conn D) unit :=
  _ ← modify (with_secrets client_random ticket_id master_secret);
  rwstates ← lift (getFreshRWStates master_secret client_random ticket_id);
  _ ← modify (with_next_states (write_state rwstates) (read_state rwstates));
  changeCipherSpec.

Definition setPreMasterSecret (pre_master_secret : bytes) : ST (conn D) unit :=
  c ← gets (fun c => c);
  let client_random := _client_random c in
  let server_random := _server_random c in
  let master_secret := Kdf.prf_tls12 pre_master_secret
    (lit "master secret" ++ client_random ++ server_random) 48 in
  _ ← modify (with_secrets client_random server_random master_secret);
  rwstates ← lift (getFreshRWStates master_secret client_random server_random);
  modify (with_next_states (write_state rwstates) (read_state rwstates)).
End Base.

Section Laws.
Context `{CryptoLaws}.
Context {D Var : Type}.
Variable pson_decode : bytes -> outcome Var.
Variable processHandshakePacket : Var -> ST (conn D) unit.
Variable application_handler : Var -> ST D unit.

Let process_frame := process_frame pson_decode processHandshakePacket application_handler.
Let process_loop := process_loop pson_decode processHandshakePacket application_handler.
Let process := process pson_decode processHandshakePacket application_handler.
Let dispatch := dispatch pson_decode processHandshakePacket application_handler.

(** *** Frames *)

Definition frame_of (st : RWState) (p : bytes) (ty : Z) : bytes :=
  if initialized st then sealed_frame st p ty else plain_frame p ty.
Definition advance (st : RWState) : RWState :=
  if initialized st then next_sequence st else st.

(** Packets whose padded length is a 32-bit number. *)
Definition packet_fits (p : bytes) : Prop := zlen p < 2 ^ 32 - 16.

Lemma conn_eta (c : conn D) : with_write_state (_write_state c) c = c.
Proof. by destruct c. Qed.

Lemma send_run p ty (c : conn D) :
  send p ty false c = (Ret tt, with_write_state (advance (_write_state c))
    (with_output (_output c ++ frame_of (_write_state c) p ty) c)).
Proof.
  unfold send, frame_of, advance. cbn [negb andb]. destruct (initialized _); [done|].
  by destruct c.
Qed.

Lemma header_len ty n : zlen (frame_header_body ty n) = 8.
Proof. done. Qed.

Lemma parse_header_body ty n : 0 <= ty < 2 ^ 8 -> 0 <= n < 2 ^ 32 ->
  parse_header (frame_header_body ty n) = Ret (ty, n).
Proof.
  intros Ht Hn. unfold parse_header. rewrite !header_len. cbn [Z.ltb].
  rewrite !bool_decide_eq_false_2 by lia.
  assert (ztake 1 (frame_header_body ty n) = be_encode 1 _version) as -> by done.
  rewrite bool_decide_eq_false_2 by (intros E; apply E; done).
  assert (slice 1 1 (frame_header_body ty n) = be_encode 1 ty) as -> by done.
  assert (slice 2 4 (frame_header_body ty n) = be_encode 4 n) as -> by done.
  by rewrite !be_decode_encode.
Qed.

Lemma padded_length_spec n : 0 <= n < 2 ^ 32 - 16 ->
  padded_length n = if bool_decide (0 < n) then n + (16 - n mod 16) else 0.
Proof.
  intros Hn. unfold padded_length. case_bool_decide; [|lia].
  rewrite (wrap_id 32 (n + 16)) by lia. rewrite Z.shiftr_div_pow2, Z.shiftl_mul_pow2 by lia.
  change (2 ^ 4) with 16. replace ((n + 16) / 16) with (n / 16 + 1) by
    (rewrite <- (Z.div_add n 1 16) by lia; f_equal; lia).
  pose proof (Z.div_mod n 16 ltac:(lia)). pose proof (Z.mod_pos_bound n 16 ltac:(lia)).
  rewrite wrap_id by lia. lia.
Qed.

Lemma readRaw_app n (b more : bytes) : n = zlen b ->
  readRaw n (open_stream (b ++ more)) = (b, open_stream more).
Proof.
  intros ->. unfold readRaw, open_stream. simpl. rewrite ztake_app, zdrop_app.
  rewrite bool_decide_eq_false_2; [done|]. rewrite zlen_app. pose proof (zlen_nonneg more). lia.
Qed.

Lemma initialized_next st : initialized (next_sequence st) = initialized st.
Proof. done. Qed.

Definition seed_of (st : RWState) (hdr : bytes) : bytes := be64 (sequence_number st) ++ hdr.

Definition sealed_header (st : RWState) (hdr : bytes) : bytes :=
  aes256EcbEncrypt (hdr ++ ztake 8 (hmacSha256 (mac_key st) (seed_of st hdr))) (key st).

Lemma zlen_tag n k d : 0 <= n <= 32 -> zlen (ztake n (hmacSha256 k d)) = n.
Proof. intros. rewrite zlen_ztake, hmacSha256_len by lia. lia. Qed.

Lemma zlen_sealed_header st hdr : zlen hdr = 8 -> zlen (sealed_header st hdr) = 16.
Proof.
  intros Hh. unfold sealed_header. rewrite aes256Ecb_len; rewrite zlen_app, Hh, zlen_tag by lia; done.
Qed.

Lemma read_header_sealed st hdr more (c : conn D) :
  _read_state c = st -> initialized st = true -> zlen hdr = 8 ->
  read_header (open_stream (sealed_header st hdr ++ more)) c
  = (Ret (Some (hdr, seed_of st hdr, sealed_header st hdr), open_stream more),
     with_read_state (next_sequence st) c).
Proof.
  intros Hst Hi Hh. unfold read_header, mbind, st_bind, gets. rewrite Hst, Hi.
  rewrite readRaw_app by (by rewrite zlen_sealed_header).
  rewrite bool_decide_eq_false_2
    by (intros E; pose proof (zlen_sealed_header st hdr Hh) as Hz; by rewrite E in Hz).
  unfold lift. set (tag := ztake 8 (hmacSha256 (mac_key st) (seed_of st hdr))).
  assert (zlen tag = 8) as Ht by (by apply zlen_tag).
  assert (aes256EcbDecrypt (sealed_header st hdr) (key st) = Ret (hdr ++ tag)) as ->.
  { apply aes256Ecb_inv. rewrite zlen_app, Hh, Ht. done. }
  rewrite substr_from_ret, substr_ret by (rewrite zlen_app; lia).
  unfold slice. rewrite zdrop_0, zdrop_app_eq, ztake_app_eq by done.
  unfold modify, throw_if. fold (seed_of st hdr). fold tag.
  rewrite bool_decide_eq_false_2 by tauto. done.
Qed.

Lemma read_header_plain hdr more (c : conn D) :
  initialized (_read_state c) = false -> zlen hdr = 8 ->
  read_header (open_stream (hdr ++ more)) c = (Ret (Some (hdr, [], []), open_stream more), c).
Proof.
  intros Hi Hh. unfold read_header, mbind, st_bind, gets. rewrite Hi.
  rewrite readRaw_app by done.
  rewrite bool_decide_eq_false_2 by (intros ->; done). done.
Qed.

Lemma read_data_sealed st p seed iv more (c : conn D) :
  _read_state c = st -> initialized st = true -> 0 < zlen p ->
  let ct := aes256CbcPkcs7Encrypt p (key st) iv in
  read_data (zlen p + (16 - zlen p mod 16)) seed iv
    (open_stream (ct ++ ztake 16 (hmacSha256 (mac_key st) (seed ++ iv ++ ct)) ++ more)) c
  = (Ret (p, open_stream more), c).
Proof.
  intros Hst Hi Hp ct. unfold read_data. pose proof (Z.mod_pos_bound (zlen p) 16).
  rewrite bool_decide_eq_true_2 by lia. rewrite readRaw_app by (unfold ct; by rewrite aes256Cbc_len).
  unfold mbind, st_bind, gets. rewrite Hst, Hi. rewrite readRaw_app by (by rewrite zlen_tag).
  unfold throw_if, lift. rewrite bool_decide_eq_false_2 by tauto. unfold ct.
  rewrite aes256Cbc_inv. done.
Qed.

Lemma read_data_plain p more (c : conn D) :
  initialized (_read_state c) = false ->
  read_data (zlen p) [] [] (open_stream (p ++ more)) c = (Ret (p, open_stream more), c).
Proof.
  intros Hi. unfold read_data. pose proof (zlen_nonneg p). case_bool_decide as E.
  - rewrite readRaw_app by done. unfold mbind, st_bind, gets. by rewrite Hi.
  - rewrite (zlen_0_inv p) by lia. done.
Qed.

Lemma read_data_empty seed iv i (c : conn D) : read_data 0 seed iv i c = (Ret ([], i), c).
Proof. done. Qed.

Lemma advance_read_state st (c : conn D) :
  _read_state c = st -> initialized st = false -> with_read_state st c = c.
Proof. intros <- _. by destruct c. Qed.

(** The receiver's round on a frame of the matching sender state. *)
Lemma process_frame_of st p ty more (c : conn D) :
  _read_state c = st -> packet_fits p -> 0 <= ty < 2 ^ 8 ->
  process_frame (open_stream (frame_of st p ty ++ more)) c
  = (_ ← dispatch ty p; mret (Some (open_stream more))) (with_read_state (advance st) c).
Proof.
  intros Hst Hp Hty. unfold packet_fits in Hp. pose proof (zlen_nonneg p).
  unfold process_frame, ConnectionBase.process_frame, frame_of, advance.
  destruct (initialized st) eqn:Hi.
  - unfold sealed_frame. rewrite (wrap_id 32) by lia. rewrite padded_length_spec by lia.
    set (n := if bool_decide (0 < zlen p) then _ else _).
    assert (0 <= n < 2 ^ 32) as Hn.
    { unfold n. pose proof (Z.mod_pos_bound (zlen p) 16). case_bool_decide; lia. }
    set (hdr := frame_header_body ty n). assert (zlen hdr = 8) as Hh by done.
    fold (seed_of st hdr). fold (sealed_header st hdr).
    assert (forall w : conn D, lift (parse_header hdr) w = (Ret (ty, n), w)) as Hpl
      by (intros; unfold lift, hdr; by rewrite parse_header_body).
    clearbody hdr.
    assert (initialized (_read_state (with_read_state (next_sequence st) c)) = true) as Hi2 by done.
    destruct (decide (0 < zlen p)) as [Hpos|Hz].
    + assert (n = zlen p + (16 - zlen p mod 16)) as En by (unfold n; by rewrite bool_decide_eq_true_2).
      rewrite bool_decide_eq_true_2 by (pose proof (Z.mod_pos_bound (zlen p) 16); lia).
      rewrite <- !app_assoc.
      rewrite (run_bind_ret _ _ _ _ _ (read_header_sealed st hdr _ c Hst Hi Hh)).
      cbv beta iota. rewrite (run_bind_ret _ _ _ _ _ (Hpl _)). cbv beta iota. rewrite En.
      rewrite (run_bind_ret _ _ _ _ _ (read_data_sealed (next_sequence st) p _ _ more
        (with_read_state (next_sequence st) c) eq_refl Hi2 Hpos)).
      done.
    + assert (p = []) as -> by (apply zlen_0_inv; lia). cbn in n. unfold n.
      rewrite (bool_decide_eq_false_2 (0 < 0)) by lia.
      rewrite (run_bind_ret _ _ _ _ _ (read_header_sealed st hdr _ c Hst Hi Hh)).
      cbv beta iota. rewrite (run_bind_ret _ _ _ _ _ (Hpl _)). cbv beta iota.
      unfold n. rewrite (run_bind_ret _ _ _ _ _ (read_data_empty _ _ _ _)). done.
  - unfold plain_frame. rewrite (wrap_id 32) by lia. rewrite <- app_assoc.
    rewrite advance_read_state by done. subst st.
    rewrite (run_bind_ret _ _ _ _ _ (read_header_plain (frame_header_body ty (zlen p)) _ c Hi eq_refl)).
    assert (forall w : conn D, lift (parse_header (frame_header_body ty (zlen p))) w
      = (Ret (ty, zlen p), w)) as Hpl by (intros; unfold lift; rewrite parse_header_body; [done|lia..]).
    cbv beta iota. rewrite (run_bind_ret _ _ _ _ _ (Hpl _)). cbv beta iota.
    rewrite (run_bind_ret _ _ _ _ _ (read_data_plain p more c Hi)). done.
Qed.

(** *** Conversations *)

Fixpoint frames (st : RWState) (ps : list bytes) : bytes :=
  match ps with
  | [] => []
  | p :: ps => frame_of st p APPLICATION_DATA ++ frames (advance st) ps
  end.
Fixpoint advance_by (st : RWState) (ps : list bytes) : RWState :=
  match ps with [] => st | _ :: ps => advance_by (advance st) ps end.

(** What the owner of the receiving side does with the messages. *)
Definition deliver (ps : list bytes) : ST D unit :=
  for_each ps (fun p => v ← lift (pson_decode p); application_handler v).

Lemma send_all ps (c : conn D) :
  for_each ps (fun p => send p APPLICATION_DATA false) c
  = (Ret tt, with_write_state (advance_by (_write_state c) ps)
      (with_output (_output c ++ frames (_write_state c) ps) c)).
Proof.
  revert c. induction ps as [|p ps IH]; intros c; cbn [for_each frames advance_by].
  - rewrite app_nil_r. by destruct c.
  - rewrite (run_bind_ret _ _ _ _ _ (send_run p _ c)), IH. cbn. by rewrite <- app_assoc.
Qed.

Lemma frame_of_len st p ty : (8 <= length (frame_of st p ty))%nat.
Proof.
  unfold frame_of, sealed_frame, plain_frame. destruct (initialized st).
  - set (hdr := frame_header_body _ _). fold (seed_of st hdr). fold (sealed_header st hdr).
    assert (zlen hdr = 8) as Hh by done.
    pose proof (zlen_sealed_header st hdr Hh) as Hl. unfold zlen in Hl.
    case_bool_decide; rewrite ?length_app; lia.
  - rewrite length_app. change (length (frame_header_body ty (u32 (zlen p)))) with 8%nat. lia.
Qed.

Lemma frames_len st ps : (length ps <= length (frames st ps))%nat.
Proof.
  revert st. induction ps as [|p ps IH]; intros st; simpl; [lia|].
  rewrite length_app. pose proof (frame_of_len st p APPLICATION_DATA). specialize (IH (advance st)). lia.
Qed.

Lemma process_frame_end (c : conn D) : process_frame (open_stream []) c = (Ret None, c).
Proof.
  unfold process_frame, ConnectionBase.process_frame, read_header. unfold mbind, st_bind, gets.
  destruct (initialized _); done.
Qed.

Lemma process_loop_step fuel b (c : conn D) :
  process_loop (S fuel) (open_stream b) c
  = (r ← process_frame (open_stream b);
     match r with None => mret tt | Some i => process_loop fuel i end) c.
Proof. done. Qed.

Lemma process_loop_frames ps st fuel (c : conn D) d' :
  (length ps <= fuel)%nat -> Forall packet_fits ps -> _read_state c = st ->
  deliver ps (derived c) = (Ret tt, d') ->
  process_loop (S fuel) (open_stream (frames st ps)) c
  = (Ret tt, with_derived d' (with_read_state (advance_by st ps) c)).
Proof.
  revert st fuel c. induction ps as [|p ps IH]; intros st fuel c Hf Hp Hst Hd.
  - injection Hd as <-. rewrite process_loop_step, (run_bind_ret _ _ _ _ _ (process_frame_end c)).
    subst st. by destruct c.
  - apply Forall_cons in Hp as [Hp Hps]. destruct fuel as [|fuel]; [simpl in Hf; lia|].
    unfold deliver in Hd. cbn [for_each] in Hd.
    destruct ((v ← lift (pson_decode p); application_handler v) (derived c))
      as [[[]|e] d1] eqn:Hd1; [|by rewrite (run_bind_throw _ _ _ _ _ Hd1) in Hd].
    rewrite (run_bind_ret _ _ _ _ _ Hd1) in Hd.
    set (c1 := with_derived d1 (with_read_state (advance st) c)).
    assert (process_frame (open_stream (frame_of st p APPLICATION_DATA ++ frames (advance st) ps)) c
      = (Ret (Some (open_stream (frames (advance st) ps))), c1)) as Hr.
    { rewrite process_frame_of by done. unfold dispatch, ConnectionBase.dispatch.
      rewrite bool_decide_eq_true_2 by done.
      unfold mbind, st_bind, zoom, lift in *.
      destruct (pson_decode p); [|done]. simpl. by rewrite Hd1. }
    cbn [frames]. rewrite process_loop_step, (run_bind_ret _ _ _ _ _ Hr). rewrite (IH (advance st) fuel c1); [done|simpl in Hf; lia|done|done|done].
Qed.

(** C13: whatever a connection sends, a peer whose read state is the
    sender's write state receives: the messages, in order, once each, and
    the two cipher states are the same again afterwards. *)
Theorem channel_delivers ps (sender receiver : conn D) d' :
  Forall packet_fits ps -> _read_state receiver = _write_state sender ->
  deliver ps (derived receiver) = (Ret tt, d') ->
  exists wire sender', for_each ps (fun p => send p APPLICATION_DATA false) sender = (Ret tt, sender')
    /\ _output sender' = _output sender ++ wire
    /\ process wire receiver
        = (Ret tt, with_derived d' (with_read_state (_write_state sender') receiver)).
Proof.
  intros Hp Hst Hd. eexists (frames (_write_state sender) ps), _.
  split; [apply send_all|]. split; [done|].
  cbn [with_write_state _write_state]. apply process_loop_frames; [apply frames_len|done|done|done].
Qed.

(** a key change keeps the two sides together: the sender announces it
    under its current state and switches; the receiver, on reading the
    announcement, installs the state it had prepared and has none pending.
    A receiver with nothing prepared refuses it. *)
Theorem change_cipher_in_sync next (sender receiver : conn D) :
  _read_state receiver = _write_state sender ->
  _next_write_state sender = next -> initialized next = true ->
  exists wire sender', changeCipherSpec sender = (Ret tt, sender')
    /\ _output sender' = _output sender ++ wire
    /\ _write_state sender' = next /\ _next_write_state sender' = RWState_empty
    /\ (_next_read_state receiver = next ->
        exists receiver', process wire receiver = (Ret tt, receiver')
          /\ _read_state receiver' = _write_state sender'
          /\ _next_read_state receiver' = RWState_empty /\ derived receiver' = derived receiver)
    /\ (initialized (_next_read_state receiver) = false ->
        (process wire receiver).1 = Throw InvalidNextReadStateException).
Proof.
  intros Hst Hn Hi. set (st := _write_state sender) in *.
  eexists (frame_of st [] CHANGE_CIPHER_SPEC), _. split.
  { unfold changeCipherSpec. unfold mbind, st_bind, gets, throw_if. rewrite Hn, Hi. simpl.
    rewrite send_run. done. }
  split; [done|]. split; [done|]. split; [done|].
  assert (forall c, _read_state c = st -> process_frame (open_stream (frame_of st [] CHANGE_CIPHER_SPEC)) c
    = (_ ← dispatch CHANGE_CIPHER_SPEC []; mret (Some (open_stream []))) (with_read_state (advance st) c)) as Hr.
  { intros c Hc. rewrite <- (app_nil_r (frame_of st [] _)). by apply process_frame_of. }
  specialize (Hr receiver Hst).
  pose proof (frame_of_len st [] CHANGE_CIPHER_SPEC) as Hl.
  unfold process, ConnectionBase.process. fold process_loop.
  destruct (length (frame_of st [] CHANGE_CIPHER_SPEC)) as [|fuel]; [lia|].
  rewrite process_loop_step. split.
  - intros Hnr. assert (process_frame (open_stream (frame_of st [] CHANGE_CIPHER_SPEC)) receiver
      = (Ret (Some (open_stream [])), with_next_states (_next_write_state receiver) RWState_empty
          (with_read_state next (with_read_state (advance st) receiver)))) as Hr'.
    { rewrite Hr. unfold dispatch, ConnectionBase.dispatch. rewrite !bool_decide_eq_false_2 by done.
      rewrite bool_decide_eq_true_2 by done.
      unfold mbind, st_bind, gets, throw_if. simpl. rewrite Hnr, Hi. done. }
    eexists. split; [rewrite (run_bind_ret _ _ _ _ _ Hr')|].
    { rewrite process_loop_step, (run_bind_ret _ _ _ _ _ (process_frame_end _)). done. }
    done.
  - intros Hnr. rewrite (run_bind_throw _ _ _ InvalidNextReadStateException (with_read_state (advance st) receiver));
      [done|].
    rewrite Hr. unfold dispatch, ConnectionBase.dispatch. rewrite !bool_decide_eq_false_2 by done.
    rewrite bool_decide_eq_true_2 by done.
    unfold mbind, st_bind, gets, throw_if. simpl. by rewrite Hnr.
Qed.

(** *** Authenticity *)

(** The next frame of the input is genuine in state [st]: its header
    carries the tag of the current sequence number, and its body the MAC
    of that number, the header, the vector and the ciphertext. *)
Definition authentic (st : RWState) (i : istream) (ty : Z) (data : bytes) : Prop :=
  exists h n, aes256EcbDecrypt (ztake 16 (rest i)) (key st) = Ret h
    /\ zdrop 8 h = ztake 8 (hmacSha256 (mac_key st) (seed_of st (ztake 8 h)))
    /\ parse_header (ztake 8 h) = Ret (ty, n)
    /\ ((n <= 0 /\ data = [])
        \/ (0 < n /\
            let iv := ztake 16 (rest i) in
            let ct := ztake n (zdrop 16 (rest i)) in
            ztake 16 (zdrop n (zdrop 16 (rest i)))
              = ztake 16 (hmacSha256 (mac_key st) (seed_of st (ztake 8 h) ++ iv ++ ct))
            /\ aes256CbcPkcs7Decrypt ct (key st) iv = Ret data)).

Definition untouched (c c' : conn D) : Prop :=
  derived c' = derived c /\ _output c' = _output c /\ _write_state c' = _write_state c
  /\ _next_read_state c' = _next_read_state c /\ _next_write_state c' = _next_write_state c.

(** What reading the header in a sealed state can do. *)
Lemma read_header_cases i (c : conn D) : initialized (_read_state c) = true ->
  let st := _read_state c in
  let next := with_read_state (next_sequence st) c in
  let i1 := (readRaw 16 i).2 in
  read_header i c = (Ret (None, i1), c)
  \/ (exists e c', read_header i c = (Throw e, c') /\ (c' = c \/ c' = next))
  \/ (exists h, aes256EcbDecrypt (ztake 16 (rest i)) (key st) = Ret h
      /\ zdrop 8 h = ztake 8 (hmacSha256 (mac_key st) (seed_of st (ztake 8 h)))
      /\ read_header i c = (Ret (Some (ztake 8 h, seed_of st (ztake 8 h), ztake 16 (rest i)), i1), next)).
Proof.
  intros Hi st next i1. unfold read_header, mbind, st_bind, gets. rewrite Hi. fold st.
  unfold readRaw. fold (readRaw 16 i). case_bool_decide as E; [by left|]. right.
  unfold lift. destruct (aes256EcbDecrypt _ _) as [h|e]; [|left; eauto].
  unfold substr_from. case_bool_decide as El; [left; eauto|].
  rewrite substr_ret by (pose proof (zlen_nonneg h); lia). unfold slice. rewrite zdrop_0.
  unfold modify, throw_if. fold (seed_of st (ztake 8 h)).
  case_bool_decide as Et; [left; eauto|]. right. exists h. done.
Qed.

Lemma read_data_cases n seed iv i (c : conn D) : initialized (_read_state c) = true ->
  let st := _read_state c in
  (exists e, read_data n seed iv i c = (Throw e, c))
  \/ (exists data i', read_data n seed iv i c = (Ret (data, i'), c)
      /\ ((n <= 0 /\ data = [])
          \/ (0 < n /\
              let ct := ztake n (rest i) in
              ztake 16 (zdrop n (rest i)) = ztake 16 (hmacSha256 (mac_key st) (seed ++ iv ++ ct))
              /\ aes256CbcPkcs7Decrypt ct (key st) iv = Ret data))).
Proof.
  intros Hi st. unfold read_data. case_bool_decide as En.
  - unfold readRaw. unfold mbind, st_bind, gets, throw_if, lift. rewrite Hi. cbn [rest].
    fold st. case_bool_decide as Em; [left; eauto|].
    destruct (aes256CbcPkcs7Decrypt _ (key st) _) as [data|e] eqn:Hd; [|left; eauto].
    right. do 2 eexists. split; [done|]. right. done.
  - right. do 2 eexists. split; [done|]. left. split; [lia|done].
Qed.

(** C18: in a sealed state the application and the handshake see only
    authentic frames: a round either dispatches a frame that carries both
    tags for the current sequence number, which it has consumed, or ends
    (with the input or with an exception) before anything outside the read
    state has changed. *)
Theorem frame_authentic i (c : conn D) :
  initialized (_read_state c) = true ->
  (exists ty data i', authentic (_read_state c) i ty data
    /\ process_frame i c = (_ ← dispatch ty data; mret (Some i'))
         (with_read_state (next_sequence (_read_state c)) c))
  \/ (exists r c', process_frame i c = (r, c') /\ untouched c c' /\ (r = Ret None \/ exists e, r = Throw e)).
Proof.
  intros Hi. set (st := _read_state c). set (next := with_read_state (next_sequence st) c).
  assert (untouched c c /\ untouched c next) as [Hu Hu'] by done.
  unfold process_frame, ConnectionBase.process_frame.
  destruct (read_header_cases i c Hi) as [Hr|[(e & c' & Hr & Hc)|(h & Hh & Htag & Hr)]].
  - right. rewrite (run_bind_ret _ _ _ _ _ Hr). do 2 eexists. split; [done|]. auto.
  - right. rewrite (run_bind_throw _ _ _ _ _ Hr). do 2 eexists. split; [done|].
    split; [by destruct Hc as [->| ->]|]. eauto.
  - rewrite (run_bind_ret _ _ _ _ _ Hr). cbv beta iota. fold st next.
    destruct (parse_header (ztake 8 h)) as [[ty n]|e] eqn:Hp.
    + rewrite (run_bind_ret _ _ _ (ty, n) next) by done. cbv beta iota.
      destruct (read_data_cases n (seed_of st (ztake 8 h)) (ztake 16 (rest i)) (readRaw 16 i).2 next Hi)
        as [(e & Hd)|(data & i' & Hd & Hok)].
      * right. rewrite (run_bind_throw _ _ _ _ _ Hd). do 2 eexists. split; [done|]. eauto.
      * left. exists ty, data, i'. split; [by exists h, n|].
        by rewrite (run_bind_ret _ _ _ _ _ Hd).
    + right. rewrite (run_bind_throw _ _ _ e next) by done. do 2 eexists. split; [done|]. eauto.
Qed.

(** *** Fresh states *)

Definition fresh_pair (master_secret client_random server_random : bytes) : StatePairCS :=
  let kb := Kdf.prf_tls12 master_secret
    (lit "key expansion" ++ server_random ++ client_random) 128 in
  {| client_state := RWState_new (slice 64 32 kb) (slice 0 32 kb);
     server_state := RWState_new (slice 96 32 kb) (slice 32 32 kb) |}.

Lemma getFreshRWStates_run f ms cr sr : getFreshRWStates f ms cr sr = Ret (f (fresh_pair ms cr sr)).
Proof.
  unfold getFreshRWStates. rewrite !substr_ret by (rewrite Kdf.zlen_prf; lia). done.
Qed.

Lemma fresh_pair_initialized ms cr sr :
  initialized (client_state (fresh_pair ms cr sr)) = true
  /\ initialized (server_state (fresh_pair ms cr sr)) = true.
Proof.
  unfold initialized, fresh_pair, RWState_new. cbn [client_state server_state key mac_key].
  set (kb := Kdf.prf_tls12 _ _ _). assert (zlen kb = 128) as Hl by (by apply Kdf.zlen_prf).
  assert (forall p, 0 <= p <= 96 -> slice p 32 kb <> []) as Hne.
  { intros p Hp E. pose proof (zlen_slice p 32 kb ltac:(lia) ltac:(lia)) as Hz.
    rewrite E, Hl, zlen_nil in Hz. lia. }
  split; rewrite !bool_decide_eq_true_2 by (apply Hne; lia); done.
Qed.

(** *** Termination *)

Lemma readRaw_shrinks n i : (length (rest (readRaw n i).2) <= length (rest i))%nat.
Proof. unfold readRaw. simpl. unfold zdrop. rewrite length_drop. lia. Qed.

Lemma readRaw_progress n i : 0 < n -> (readRaw n i).1 <> [] ->
  (length (rest (readRaw n i).2) < length (rest i))%nat.
Proof.
  intros Hn. unfold readRaw. simpl.
  destruct (rest i) as [|b r]; intros Hne; [by destruct Hne; unfold ztake; rewrite take_nil|].
  rewrite zdrop_drop, length_drop by lia. simpl. lia.
Qed.

Lemma read_header_progress i (c c' : conn D) h i' :
  read_header i c = (Ret (Some h, i'), c') -> (length (rest i') < length (rest i))%nat.
Proof.
  unfold read_header. intros Hr. apply bind_inv in Hr as (st & c1 & _ & Hr).
  destruct (initialized st).
  - pose proof (readRaw_progress 16 i eq_refl) as Hp. destruct (readRaw 16 i) as [hd i1].
    simpl in Hp. case_bool_decide as E; [done|].
    do 5 (apply bind_inv in Hr as (? & ? & _ & Hr)). injection Hr as _ <- _. by apply Hp.
  - pose proof (readRaw_progress 8 i eq_refl) as Hp. destruct (readRaw 8 i) as [hd i1].
    simpl in Hp. case_bool_decide as E; [done|]. injection Hr as _ <- _. by apply Hp.
Qed.

Lemma read_data_shrinks n seed iv i (c c' : conn D) d i' :
  read_data n seed iv i c = (Ret (d, i'), c') -> (length (rest i') <= length (rest i))%nat.
Proof.
  unfold read_data. case_bool_decide; [|by intros [= _ <- _]].
  pose proof (readRaw_shrinks n i) as Hs. destruct (readRaw n i) as [ct i1]. simpl in Hs.
  intros Hr. apply bind_inv in Hr as (st & c1 & _ & Hr). destruct (initialized st).
  - pose proof (readRaw_shrinks 16 i1) as Hs2. destruct (readRaw 16 i1) as [m i2]. simpl in Hs2.
    do 2 (apply bind_inv in Hr as (? & ? & _ & Hr)). injection Hr as _ <- _. lia.
  - injection Hr as _ <- _. lia.
Qed.

Lemma process_frame_progress i (c c' : conn D) i' :
  process_frame i c = (Ret (Some i'), c') -> (length (rest i') < length (rest i))%nat.
Proof.
  unfold process_frame, ConnectionBase.process_frame. intros Hr.
  apply bind_inv in Hr as ([[[[hd seed] iv]|] i1] & c1 & Hh & Hr); [|done].
  apply read_header_progress in Hh. apply bind_inv in Hr as ([ty n] & c2 & _ & Hr).
  apply bind_inv in Hr as ([data i2] & c3 & Hd & Hr). apply read_data_shrinks in Hd.
  apply bind_inv in Hr as (? & ? & _ & Hr). injection Hr as <- _. lia.
Qed.

(** C26: the loop ends: with as many rounds as the input has bytes, plus
    one, it has returned by itself, so that more rounds change nothing. *)
Theorem process_enough fuel input (c : conn D) :
  (S (length input) <= fuel)%nat -> process_loop fuel (open_stream input) c = process input c.
Proof.
  intros Hf. unfold process, ConnectionBase.process. fold process_loop.
  assert (forall n m i (c : conn D), (length (rest i) < n)%nat -> (length (rest i) < m)%nat ->
    process_loop n i c = process_loop m i c) as Hnm; [|apply Hnm; simpl; lia].
  clear Hf fuel input c. induction n as [|n IH]; intros m i c Hn Hm; [lia|]. destruct m as [|m]; [lia|].
  unfold process_loop. cbn [ConnectionBase.process_loop]. fold process_frame process_loop.
  destruct (at_eof i); [done|].
  destruct (process_frame i c) as [[[i'|]|e] c'] eqn:Hr.
  - rewrite !(run_bind_ret _ _ _ _ _ Hr). apply process_frame_progress in Hr. apply IH; lia.
  - by rewrite !(run_bind_ret _ _ _ _ _ Hr).
  - by rewrite !(run_bind_throw _ _ _ _ _ Hr).
Qed.
End Laws.
End ConnectionBase.

(** ** Witnesses: a pair of connections that share a cipher state *)
Section Witness.
#[local] Existing Instances Toy.service Toy.laws.
Let decode (b : bytes) : outcome bytes := Ret b.
Let handshake (v : bytes) : ST (conn (list bytes)) unit := mret tt.
Let handler (v : bytes) : ST (list bytes) unit := modify (fun l => l ++ [v]).
Let state (k : byte) : RWState := RWState_new [k] [k].
Let endpoint (w r nw nr : RWState) : conn (list bytes) :=
  {| _output := []; _write_state := w; _read_state := r; _next_write_state := nw; _next_read_state := nr;
     _client_random := []; _server_random := []; _master_secret := []; derived := [] |}.
Let sender := endpoint (state x01) RWState_empty (state x02) RWState_empty.
Let receiver := endpoint RWState_empty (state x01) RWState_empty (state x02).

Lemma channel_delivers_witness :
  exists wire, (ConnectionBase.process decode handshake handler wire receiver).2.(derived) = [lit "a"; lit "b"].
Proof.
  destruct (ConnectionBase.channel_delivers decode handshake handler [lit "a"; lit "b"] sender receiver
    [lit "a"; lit "b"]) as (wire & s' & _ & _ & H).
  - repeat constructor.
  - reflexivity.
  - reflexivity.
  - exists wire. rewrite H. reflexivity.
Defined.

Lemma change_cipher_in_sync_witness :
  exists wire receiver', ConnectionBase.process decode handshake handler wire receiver = (Ret tt, receiver')
    /\ _read_state receiver' = state x02.
Proof.
  destruct (ConnectionBase.change_cipher_in_sync decode handshake handler (state x02) sender receiver)
    as (wire & s' & _ & _ & Hw & _ & H & _).
  - reflexivity.
  - reflexivity.
  - reflexivity.
  - destruct (H eq_refl) as (r' & Hr & Hs & _). exists wire, r'. split; [exact Hr|]. rewrite Hs. exact Hw.
Defined.

Lemma frame_authentic_witness :
  exists r c', ConnectionBase.process_frame decode handshake handler (open_stream (zeros 16)) receiver = (r, c').
Proof.
  destruct (ConnectionBase.frame_authentic decode handshake handler (open_stream (zeros 16)) receiver eq_refl)
    as [(ty & data & i' & _ & H)|(r & c' & H & _)].
  - eexists _, _. rewrite H. apply surjective_pairing.
  - exists r, c'. exact H.
Defined.

Lemma process_enough_witness :
  ConnectionBase.process_loop decode handshake handler 9 (open_stream (lit "frame")) receiver
  = ConnectionBase.process decode handshake handler (lit "frame") receiver.
Proof. apply (ConnectionBase.process_enough decode handshake handler 9 (lit "frame") receiver). simpl. lia. Defined.
End Witness.
