(* ===== verification/TlsClient.v ===== *)
(** * The handshake client

    [ConnectionClient] (rpc/base/src/tls/ConnectionClient.cpp): the client's
    half of the handshakes (ephemeral Diffie-Hellman with and without
    identity, SRP, key login, session restore, tickets) on top of the record
    layer.  The state is the client's members, the shared tickets manager, the
    random generator, the clock and the owner's state [O] (which the two
    callbacks act on). *)

From Stdlib Require Import ZArith Lia Strings.String Strings.Byte.
From stdpp Require Import base list.
From S2P Require Import Prelude Bytes Crypto CryptoSuite Utils Dynamic.
From S2P Require Import Srp Tickets Tls.

Module ConnectionClient.
Section Client.
Context `{Ecc} `{!Encodings} `{!Dynamic}.
(** Library code and key formats the handshakes use. *)
Variable toBase58DER : PublicKey -> bytes.
Variable fromBase58DER : bytes -> outcome PublicKey.
Variable ecc_fromPrivateKey : bytes -> outcome PrivateKey.
Variable ecc_fromPublicKey : bytes -> outcome PublicKey.
(** [Utils::getNowTimestamp] *)
Context {Clock : Type} (getNowTimestamp : Clock -> Z * Clock).
Context {O : Type}.

Record ServerConfig := { requestChunkSize : Z; serverVersion : VersionNumber.VersionNumber }.

Record SrpHandshakeResult := {
  srp_session_id : bytes;
  srp_session_key : option PrivateKey;
  srp_mixed : bytes;
  srp_additional_login_step : option Var;
}.

Record KeyHandshakeResult := {
  key_username : bytes;
  key_session_id : bytes;
  key_session_key : option PrivateKey;
  key_additional_login_step : option Var;
}.

Record client := {
  _tickets_manager : TicketsManager.tm;
  _ecdhe_private_key : option PrivateKey;
  _ecdhex_private_key : option PrivateKey;
  _srp : SRP.srp;
  _private_key : option PrivateKey;
  _K : bytes;
  _tickets_count : Z;
  _additional_login_step : option Var;
  _srp_handshake_result : SrpHandshakeResult;
  _key_handshake_result : KeyHandshakeResult;
  _session_key : option PrivateKey;
  _host : bytes;
  _serverConfig : ServerConfig;
  _serverPubKey : option PublicKey;
  _serverChallenge : bytes;
  _rng : rng;
  _clock : Clock;
  _owner : O;
}.

Definition set_tickets_manager (x : TicketsManager.tm) (c : client) : client := {|
  _tickets_manager := x; _ecdhe_private_key := _ecdhe_private_key c; _ecdhex_private_key :=
  _ecdhex_private_key c; _srp := _srp c; _private_key := _private_key c; _K := _K c;
  _tickets_count := _tickets_count c; _additional_login_step := _additional_login_step c;
  _srp_handshake_result := _srp_handshake_result c; _key_handshake_result := _key_handshake_result
  c; _session_key := _session_key c; _host := _host c; _serverConfig := _serverConfig c;
  _serverPubKey := _serverPubKey c; _serverChallenge := _serverChallenge c; _rng := _rng c; _clock
  := _clock c; _owner := _owner c |}.
Definition set_ecdhe_private_key (x : option PrivateKey) (c : client) : client := {|
  _tickets_manager := _tickets_manager c; _ecdhe_private_key := x; _ecdhex_private_key :=
  _ecdhex_private_key c; _srp := _srp c; _private_key := _private_key c; _K := _K c;
  _tickets_count := _tickets_count c; _additional_login_step := _additional_login_step c;
  _srp_handshake_result := _srp_handshake_result c; _key_handshake_result := _key_handshake_result
  c; _session_key := _session_key c; _host := _host c; _serverConfig := _serverConfig c;
  _serverPubKey := _serverPubKey c; _serverChallenge := _serverChallenge c; _rng := _rng c; _clock
  := _clock c; _owner := _owner c |}.
Definition set_ecdhex_private_key (x : option PrivateKey) (c : client) : client := {|
  _tickets_manager := _tickets_manager c; _ecdhe_private_key := _ecdhe_private_key c;
  _ecdhex_private_key := x; _srp := _srp c; _private_key := _private_key c; _K := _K c;
  _tickets_count := _tickets_count c; _additional_login_step := _additional_login_step c;
  _srp_handshake_result := _srp_handshake_result c; _key_handshake_result := _key_handshake_result
  c; _session_key := _session_key c; _host := _host c; _serverConfig := _serverConfig c;
  _serverPubKey := _serverPubKey c; _serverChallenge := _serverChallenge c; _rng := _rng c; _clock
  := _clock c; _owner := _owner c |}.
Definition set_srp (x : SRP.srp) (c : client) : client := {| _tickets_manager := _tickets_manager
  c; _ecdhe_private_key := _ecdhe_private_key c; _ecdhex_private_key := _ecdhex_private_key c;
  _srp := x; _private_key := _private_key c; _K := _K c; _tickets_count := _tickets_count c;
  _additional_login_step := _additional_login_step c; _srp_handshake_result :=
  _srp_handshake_result c; _key_handshake_result := _key_handshake_result c; _session_key :=
  _session_key c; _host := _host c; _serverConfig := _serverConfig c; _serverPubKey :=
  _serverPubKey c; _serverChallenge := _serverChallenge c; _rng := _rng c; _clock := _clock c;
  _owner := _owner c |}.
Definition set_private_key (x : option PrivateKey) (c : client) : client := {| _tickets_manager :=
  _tickets_manager c; _ecdhe_private_key := _ecdhe_private_key c; _ecdhex_private_key :=
  _ecdhex_private_key c; _srp := _srp c; _private_key := x; _K := _K c; _tickets_count :=
  _tickets_count c; _additional_login_step := _additional_login_step c; _srp_handshake_result :=
  _srp_handshake_result c; _key_handshake_result := _key_handshake_result c; _session_key :=
  _session_key c; _host := _host c; _serverConfig := _serverConfig c; _serverPubKey :=
  _serverPubKey c; _serverChallenge := _serverChallenge c; _rng := _rng c; _clock := _clock c;
  _owner := _owner c |}.
Definition set_K (x : bytes) (c : client) : client := {| _tickets_manager := _tickets_manager c;
  _ecdhe_private_key := _ecdhe_private_key c; _ecdhex_private_key := _ecdhex_private_key c; _srp
  := _srp c; _private_key := _private_key c; _K := x; _tickets_count := _tickets_count c;
  _additional_login_step := _additional_login_step c; _srp_handshake_result :=
  _srp_handshake_result c; _key_handshake_result := _key_handshake_result c; _session_key :=
  _session_key c; _host := _host c; _serverConfig := _serverConfig c; _serverPubKey :=
  _serverPubKey c; _serverChallenge := _serverChallenge c; _rng := _rng c; _clock := _clock c;
  _owner := _owner c |}.
Definition set_tickets_count (x : Z) (c : client) : client := {| _tickets_manager :=
  _tickets_manager c; _ecdhe_private_key := _ecdhe_private_key c; _ecdhex_private_key :=
  _ecdhex_private_key c; _srp := _srp c; _private_key := _private_key c; _K := _K c;
  _tickets_count := x; _additional_login_step := _additional_login_step c; _srp_handshake_result
  := _srp_handshake_result c; _key_handshake_result := _key_handshake_result c; _session_key :=
  _session_key c; _host := _host c; _serverConfig := _serverConfig c; _serverPubKey :=
  _serverPubKey c; _serverChallenge := _serverChallenge c; _rng := _rng c; _clock := _clock c;
  _owner := _owner c |}.
Definition set_additional_login_step (x : option Var) (c : client) : client := {| _tickets_manager
  := _tickets_manager c; _ecdhe_private_key := _ecdhe_private_key c; _ecdhex_private_key :=
  _ecdhex_private_key c; _srp := _srp c; _private_key := _private_key c; _K := _K c;
  _tickets_count := _tickets_count c; _additional_login_step := x; _srp_handshake_result :=
  _srp_handshake_result c; _key_handshake_result := _key_handshake_result c; _session_key :=
  _session_key c; _host := _host c; _serverConfig := _serverConfig c; _serverPubKey :=
  _serverPubKey c; _serverChallenge := _serverChallenge c; _rng := _rng c; _clock := _clock c;
  _owner := _owner c |}.
Definition set_srp_handshake_result (x : SrpHandshakeResult) (c : client) : client := {|
  _tickets_manager := _tickets_manager c; _ecdhe_private_key := _ecdhe_private_key c;
  _ecdhex_private_key := _ecdhex_private_key c; _srp := _srp c; _private_key := _private_key c; _K
  := _K c; _tickets_count := _tickets_count c; _additional_login_step := _additional_login_step c;
  _srp_handshake_result := x; _key_handshake_result := _key_handshake_result c; _session_key :=
  _session_key c; _host := _host c; _serverConfig := _serverConfig c; _serverPubKey :=
  _serverPubKey c; _serverChallenge := _serverChallenge c; _rng := _rng c; _clock := _clock c;
  _owner := _owner c |}.
Definition set_key_handshake_result (x : KeyHandshakeResult) (c : client) : client := {|
  _tickets_manager := _tickets_manager c; _ecdhe_private_key := _ecdhe_private_key c;
  _ecdhex_private_key := _ecdhex_private_key c; _srp := _srp c; _private_key := _private_key c; _K
  := _K c; _tickets_count := _tickets_count c; _additional_login_step := _additional_login_step c;
  _srp_handshake_result := _srp_handshake_result c; _key_handshake_result := x; _session_key :=
  _session_key c; _host := _host c; _serverConfig := _serverConfig c; _serverPubKey :=
  _serverPubKey c; _serverChallenge := _serverChallenge c; _rng := _rng c; _clock := _clock c;
  _owner := _owner c |}.
Definition set_session_key (x : option PrivateKey) (c : client) : client := {| _tickets_manager :=
  _tickets_manager c; _ecdhe_private_key := _ecdhe_private_key c; _ecdhex_private_key :=
  _ecdhex_private_key c; _srp := _srp c; _private_key := _private_key c; _K := _K c;
  _tickets_count := _tickets_count c; _additional_login_step := _additional_login_step c;
  _srp_handshake_result := _srp_handshake_result c; _key_handshake_result := _key_handshake_result
  c; _session_key := x; _host := _host c; _serverConfig := _serverConfig c; _serverPubKey :=
  _serverPubKey c; _serverChallenge := _serverChallenge c; _rng := _rng c; _clock := _clock c;
  _owner := _owner c |}.
Definition set_host (x : bytes) (c : client) : client := {| _tickets_manager := _tickets_manager
  c; _ecdhe_private_key := _ecdhe_private_key c; _ecdhex_private_key := _ecdhex_private_key c;
  _srp := _srp c; _private_key := _private_key c; _K := _K c; _tickets_count := _tickets_count c;
  _additional_login_step := _additional_login_step c; _srp_handshake_result :=
  _srp_handshake_result c; _key_handshake_result := _key_handshake_result c; _session_key :=
  _session_key c; _host := x; _serverConfig := _serverConfig c; _serverPubKey := _serverPubKey c;
  _serverChallenge := _serverChallenge c; _rng := _rng c; _clock := _clock c; _owner := _owner c
  |}.
Definition set_serverConfig (x : ServerConfig) (c : client) : client := {| _tickets_manager :=
  _tickets_manager c; _ecdhe_private_key := _ecdhe_private_key c; _ecdhex_private_key :=
  _ecdhex_private_key c; _srp := _srp c; _private_key := _private_key c; _K := _K c;
  _tickets_count := _tickets_count c; _additional_login_step := _additional_login_step c;
  _srp_handshake_result := _srp_handshake_result c; _key_handshake_result := _key_handshake_result
  c; _session_key := _session_key c; _host := _host c; _serverConfig := x; _serverPubKey :=
  _serverPubKey c; _serverChallenge := _serverChallenge c; _rng := _rng c; _clock := _clock c;
  _owner := _owner c |}.
Definition set_serverPubKey (x : option PublicKey) (c : client) : client := {| _tickets_manager :=
  _tickets_manager c; _ecdhe_private_key := _ecdhe_private_key c; _ecdhex_private_key :=
  _ecdhex_private_key c; _srp := _srp c; _private_key := _private_key c; _K := _K c;
  _tickets_count := _tickets_count c; _additional_login_step := _additional_login_step c;
  _srp_handshake_result := _srp_handshake_result c; _key_handshake_result := _key_handshake_result
  c; _session_key := _session_key c; _host := _host c; _serverConfig := _serverConfig c;
  _serverPubKey := x; _serverChallenge := _serverChallenge c; _rng := _rng c; _clock := _clock c;
  _owner := _owner c |}.
Definition set_serverChallenge (x : bytes) (c : client) : client := {| _tickets_manager :=
  _tickets_manager c; _ecdhe_private_key := _ecdhe_private_key c; _ecdhex_private_key :=
  _ecdhex_private_key c; _srp := _srp c; _private_key := _private_key c; _K := _K c;
  _tickets_count := _tickets_count c; _additional_login_step := _additional_login_step c;
  _srp_handshake_result := _srp_handshake_result c; _key_handshake_result := _key_handshake_result
  c; _session_key := _session_key c; _host := _host c; _serverConfig := _serverConfig c;
  _serverPubKey := _serverPubKey c; _serverChallenge := x; _rng := _rng c; _clock := _clock c;
  _owner := _owner c |}.
Definition set_rng (x : rng) (c : client) : client := {| _tickets_manager := _tickets_manager c;
  _ecdhe_private_key := _ecdhe_private_key c; _ecdhex_private_key := _ecdhex_private_key c; _srp
  := _srp c; _private_key := _private_key c; _K := _K c; _tickets_count := _tickets_count c;
  _additional_login_step := _additional_login_step c; _srp_handshake_result :=
  _srp_handshake_result c; _key_handshake_result := _key_handshake_result c; _session_key :=
  _session_key c; _host := _host c; _serverConfig := _serverConfig c; _serverPubKey :=
  _serverPubKey c; _serverChallenge := _serverChallenge c; _rng := x; _clock := _clock c; _owner
  := _owner c |}.
Definition set_clock (x : Clock) (c : client) : client := {| _tickets_manager := _tickets_manager
  c; _ecdhe_private_key := _ecdhe_private_key c; _ecdhex_private_key := _ecdhex_private_key c;
  _srp := _srp c; _private_key := _private_key c; _K := _K c; _tickets_count := _tickets_count c;
  _additional_login_step := _additional_login_step c; _srp_handshake_result :=
  _srp_handshake_result c; _key_handshake_result := _key_handshake_result c; _session_key :=
  _session_key c; _host := _host c; _serverConfig := _serverConfig c; _serverPubKey :=
  _serverPubKey c; _serverChallenge := _serverChallenge c; _rng := _rng c; _clock := x; _owner :=
  _owner c |}.

Abbreviation W := (conn client).

(** The callbacks: [on_ticket_response], and [on_tickets_equal_zero] when set. *)
Variable on_ticket_response : ST W unit.
Variable on_tickets_equal_zero : option (ST W unit).
(** [ConnectionOptionsFull] *)
Variable agent : bytes.
Variable restorable_session : bool.

Definition my : ST W client := gets derived.
Definition upd (f : client -> client) : ST W unit := modify (fun c => with_derived (f (derived c)) c).
Definition randomBytes' (n : Z) : ST W bytes := zoom derived with_derived (zoom _rng set_rng (random n)).
Definition generateRandom' : ST W PrivateKey := fun c =>
  let '(k, g) := generateRandom (_rng (derived c)) in (Ret k, with_derived (set_rng g (derived c)) c).
Definition now : ST W Z := fun c =>
  let '(t, k) := getNowTimestamp (_clock (derived c)) in (Ret t, with_derived (set_clock k (derived c)) c).
Definition value {A} (o : option A) : outcome A :=
  match o with Some a => Ret a | None => Throw StdBadOptionalAccess end.
(** A pointer that is kept, not dereferenced. *)
Definition getObject (v : Var) (k : bytes) : option Var :=
  match get_object v k with Ret o => Some o | Throw _ => None end.
Definition send_packet (packet : Var) : ST W unit := ConnectionBase.send (pson_encode packet) HANDSHAKE false.
Definition text (s : bytes) : Var := of_string s.

(** The client reads with the server's keys and writes with its own. *)
Definition getFreshRWStatesFromParams (p : ConnectionBase.StatePairCS) : ConnectionBase.StatePair :=
  {| ConnectionBase.read_state := ConnectionBase.server_state p;
     ConnectionBase.write_state := ConnectionBase.client_state p |}.

Definition setPreMasterSecret : bytes -> ST W unit :=
  ConnectionBase.setPreMasterSecret getFreshRWStatesFromParams.

Definition getClientAgent : bytes := agent.

Definition reset (keepSession : bool) : ST W unit :=
  _ ← modify (fun c => with_secrets [] [] [] (with_next_states RWState_empty RWState_empty
        (with_write_state RWState_empty (with_read_state RWState_empty c))));
  if keepSession then mret tt
  else upd (fun c => set_K [] (set_srp (SRP.clear (_srp c)) (set_private_key None
         (set_ecdhex_private_key None (set_ecdhe_private_key None c))))).

Definition extractServerConfig (packet : Var) : ST W unit :=
  config ← lift (get_object packet (lit "config"));
  chunk ← lift (get_int config (lit "requestChunkSize"));
  _ ← throw_if (bool_decide (chunk < 0)) PocoException;
  _ ← upd (fun c => set_serverConfig {| requestChunkSize := chunk; serverVersion := serverVersion (_serverConfig c) |} c);
  if has config (lit "serverVersion") then
    v ← lift (s ← get_string config (lit "serverVersion"); VersionNumber.parse s);
    upd (fun c => set_serverConfig {| requestChunkSize := chunk; serverVersion := v |} c)
  else mret tt.

Definition ALLOWED_TIME_DIFFERENCE : Z := 150 * 1000.

Definition extractAndValidateChallenge (packet : Var) : ST W unit :=
  me ← my;
  match _serverPubKey me with
  | None => mret tt
  | Some serverPubKey =>
      _ ← throw_if (negb (has packet (lit "signature")) || is_empty packet (lit "signature"))
            ServerChallengeMissingSignatureException;
      signature ← lift (get_object packet (lit "signature"));
      serverTimestamp ← lift (get_int signature (lit "timestamp"));
      t ← now;
      _ ← throw_if (negb (Utils.validateTimestamps t serverTimestamp ALLOWED_TIME_DIFFERENCE))
            TimeDifferenceBetweenServerAndClientBiggerThanAllowedException;
      challengeResult ← lift (s ← get_string signature (lit "challenge"); hex_to s);
      let result := verifyCompactSignatureWithHash serverPubKey
        (_serverChallenge me ++ lit ";" ++ to_string serverTimestamp) challengeResult in
      throw_if (negb result) ServerChallengeFailedException
  end.

(** *** Tickets *)

Definition saveTickets (packet : Var) : ST W unit :=
  ttl ← lift (get_int packet (lit "ttl"));
  t ← now;
  tickets ← lift (get_binaries packet (lit "tickets"));
  secret ← gets _master_secret;
  zoom derived with_derived (zoom _tickets_manager set_tickets_manager
    (TicketsManager.saveTickets t tickets ttl secret)).

Definition get_tm (c : W) : TicketsManager.tm := _tickets_manager (derived c).
Definition put_tm (t : TicketsManager.tm) (c : W) : W := with_derived (set_tickets_manager t (derived c)) c.

Definition restore (ticket : TicketsManager.SessionTicket) (client_random : bytes) : ST W unit :=
  ConnectionBase.restoreState getFreshRWStatesFromParams (TicketsManager.ticket_id ticket)
    (TicketsManager.ticket_master_secret ticket) client_random.

Definition ticketHandshake : ST W unit :=
  t ← now;
  ticket ← TicketsManager.useTicket get_tm put_tm t on_tickets_equal_zero;
  client_random ← randomBytes' 12;
  _ ← send_packet (new_object [
    (lit "type", text (lit "ticket"));
    (lit "ticket_id", of_binary (TicketsManager.ticket_id ticket));
    (lit "client_random", of_binary client_random)]);
  restore ticket client_random.

Definition ticketRequest (n : Z) : ST W unit :=
  send_packet (new_object [(lit "type", text (lit "ticket_request")); (lit "count", of_int n)]).

(** *** Opening a handshake *)

(** The optional fields a hello may carry. *)
Definition hello_extras (solution : option bytes) (challenge : option bytes) : list (bytes * Var) :=
  match solution with Some s => [(lit "solution", text s)] | None => [] end
  ++ match challenge with Some c => [(lit "challenge", text c)] | None => [] end.

(** With a server key to check, a fresh challenge is drawn and kept. *)
Definition prepare_challenge (serverPubKey : option PublicKey) : ST W (option bytes) :=
  match serverPubKey with
  | Some p =>
      _ ← upd (set_serverPubKey (Some p));
      r ← randomBytes' 32;
      _ ← upd (set_serverChallenge (hex_from r));
      mret (Some (hex_from r))
  | None => mret None
  end.

Definition ecdheHandshake (key : PrivateKey) (solution : option bytes) (serverPubKey : option PublicKey) : ST W unit :=
  _ ← upd (set_ecdhe_private_key (Some key));
  challenge ← prepare_challenge serverPubKey;
  send_packet (new_object ([
    (lit "type", text (lit "ecdhe"));
    (lit "key", of_binary (toDER (getPublicKey key)));
    (lit "agent", text getClientAgent)] ++ hello_extras solution challenge)).

Definition ecdhexHandshake (key : PrivateKey) (solution : option bytes) (serverPubKey : option PublicKey) : ST W unit :=
  _ ← upd (set_ecdhex_private_key (Some key));
  t ← now;
  let timestamp := to_string t in
  r ← randomBytes' 32;
  let nonce := base64_from r in
  let msg := lit "ecdhexlogin " ++ nonce ++ lit " " ++ timestamp in
  let signature := signToCompactSignatureWithHash key msg in
  challenge ← prepare_challenge serverPubKey;
  send_packet (new_object ([
    (lit "type", text (lit "ecdhex"));
    (lit "agent", text getClientAgent);
    (lit "key", of_binary (toDER (getPublicKey key)));
    (lit "nonce", text nonce);
    (lit "timestamp", text timestamp);
    (lit "signature", text (base64_from signature))] ++ hello_extras solution challenge)).

Definition find_byte (b : byte) (s : bytes) : option Z :=
  Z.of_nat ∘ fst <$> list_find (b =.) s.

Definition srpHandshake (hashmail password : bytes) (tickets : Z) : ST W unit :=
  match find_byte x23 hashmail with
  | None => throw IncorrectHashmailException
  | Some hash_pos =>
      _ ← throw_if (bool_decide (zlen hashmail < hash_pos + 2)) IncorrectHashmailException;
      username ← lift (substr hashmail 0 hash_pos);
      host ← lift (substr_from hashmail (hash_pos + 1));
      me ← my;
      _ ← throw_if (SRP._is_initialized (_srp me)) InvalidHandshakeStateException;
      _ ← send_packet (new_object [
        (lit "type", text (lit "srp_init")); (lit "I", text username);
        (lit "host", text host); (lit "agent", text getClientAgent)]);
      upd (fun c => set_srp (SRP.initialize username password tickets (_srp c)) c)
  end.

Definition properties_field (properties : option Var) : list (bytes * Var) :=
  match properties with Some p => [(lit "properties", p)] | None => [] end.

Definition srpHandshake2 (username host password : bytes) (tickets : Z) (properties : option Var) : ST W unit :=
  _ ← send_packet (new_object ([
    (lit "type", text (lit "srp_init")); (lit "I", text username);
    (lit "host", text host); (lit "agent", text getClientAgent)] ++ properties_field properties));
  upd (fun c => set_srp (SRP.initialize username password tickets (_srp c)) c).

Definition keyHandshake2 (private_key : PrivateKey) (tickets : Z) (properties : option Var) : ST W unit :=
  _ ← upd (set_private_key (Some private_key));
  _ ← upd (set_tickets_count tickets);
  send_packet (new_object ([
    (lit "type", text (lit "key_init")); (lit "pub", text (toBase58DER (getPublicKey private_key)));
    (lit "agent", text getClientAgent)] ++ properties_field properties)).

Definition keyHandshake (private_key_buf : bytes) (tickets : Z) (properties : option Var) : ST W unit :=
  private_key ← lift (ecc_fromPrivateKey private_key_buf);
  keyHandshake2 private_key tickets properties.

Definition sessionHandshake (session : bytes) (session_key : PrivateKey) : ST W unit :=
  _ ← upd (set_session_key (Some session_key));
  r ← randomBytes' 32;
  let nonce := base64_from r in
  t ← now;
  let timestamp := to_string t in
  let signature_data := lit "restore_" ++ session ++ lit " " ++ nonce ++ lit " " ++ timestamp in
  let signature := signToCompactSignatureWithHash session_key signature_data in
  send_packet (new_object [
    (lit "type", text (lit "session")); (lit "sessionId", text session);
    (lit "sessionKey", text (toBase58DER (getPublicKey session_key)));
    (lit "nonce", text nonce); (lit "timestamp", text timestamp);
    (lit "signature", text (base64_from signature))]).

(** *** Answering the server *)

Definition on_srp_object {A} (m : ST (SRP.srp * rng) A) : ST W A :=
  zoom derived with_derived
    (zoom (fun c => (_srp c, _rng c)) (fun '(s, g) c => set_rng g (set_srp s c)) m).

(** A restorable session gets a key of its own. *)
Definition session_key_field : ST W (option bytes) :=
  if restorable_session then
    k ← generateRandom';
    _ ← upd (set_session_key (Some k));
    mret (Some (toBase58DER (getPublicKey k)))
  else mret None.

Definition validateSrpInit (packet : Var) : ST W Var :=
  result ← on_srp_object (SRP.validateSrpInit packet);
  k ← session_key_field;
  mret (match k with Some k => set_field result (lit "sessionKey") (text k) | None => result end).

Definition validateSrpExchange (packet : Var) : ST W unit :=
  K ← on_srp_object (SRP.validateSrpExchange packet);
  let K := Utils.fillTo32 K in
  _ ← setPreMasterSecret K;
  _ ← upd (fun c => set_srp_handshake_result {|
         srp_session_id := SRP.session_id (SRP._srp_data (_srp c));
         srp_session_key := srp_session_key (_srp_handshake_result c);
         srp_mixed := SRP.mixed (SRP._srp_data (_srp c));
         srp_additional_login_step := srp_additional_login_step (_srp_handshake_result c) |} c);
  _ ← (if has packet (lit "additionalLoginStep") then
         let step := getObject packet (lit "additionalLoginStep") in
         upd (fun c => set_srp_handshake_result {|
           srp_session_id := srp_session_id (_srp_handshake_result c);
           srp_session_key := srp_session_key (_srp_handshake_result c);
           srp_mixed := srp_mixed (_srp_handshake_result c);
           srp_additional_login_step := step |} (set_additional_login_step step c))
       else mret tt);
  _ ← upd (fun c => match _session_key c with
       | Some k => set_srp_handshake_result {|
           srp_session_id := srp_session_id (_srp_handshake_result c); srp_session_key := Some k;
           srp_mixed := srp_mixed (_srp_handshake_result c);
           srp_additional_login_step := srp_additional_login_step (_srp_handshake_result c) |} c
       | None => c
       end);
  _ ← upd (fun c => set_tickets_manager (TicketsManager.clear (_tickets_manager c)) c);
  saveTickets packet.

Definition validateKeyInit (packet : Var) : ST W Var :=
  session_id ← lift (get_string packet (lit "sessionId"));
  _ ← upd (fun c => set_key_handshake_result {| key_username := key_username (_key_handshake_result c);
        key_session_id := session_id; key_session_key := key_session_key (_key_handshake_result c);
        key_additional_login_step := key_additional_login_step (_key_handshake_result c) |} c);
  username ← lift (get_string packet (lit "I"));
  _ ← upd (fun c => set_key_handshake_result {| key_username := username;
        key_session_id := session_id; key_session_key := key_session_key (_key_handshake_result c);
        key_additional_login_step := key_additional_login_step (_key_handshake_result c) |} c);
  timestamp ← now;
  n ← randomBytes' 32;
  let nonce := base64_from n in
  K ← randomBytes' 32;
  _ ← upd (set_K K);
  me ← my;
  priv ← lift (value (_private_key me));
  pub ← lift (s ← get_string packet (lit "pub"); fromBase58DER s);
  let ecies := Ecies.construct priv pub in
  cipher ← lift (Ecies.ecies_encrypt ecies K);
  let K_base64 := base64_from cipher in
  let signature := lit "login" ++ K_base64 ++ lit " " ++ nonce ++ lit " " ++ to_string timestamp in
  let signature := sha256 signature in
  let signature := signToCompactSignature priv signature in
  k ← session_key_field;
  mret (new_object ([
    (lit "type", text (lit "key_exchange")); (lit "sessionId", text session_id);
    (lit "nonce", text nonce); (lit "timestamp", text (to_string timestamp));
    (lit "signature", text (base64_from signature)); (lit "K", text K_base64);
    (lit "tickets", of_int (_tickets_count me))]
    ++ match k with Some k => [(lit "sessionKey", text k)] | None => [] end)).

Definition validateKeyExchange (packet : Var) : ST W unit :=
  me ← my;
  _ ← throw_if (bool_decide (_K me = [])) InvalidHandshakeStateException;
  let K := Utils.fillTo32 (_K me) in
  _ ← upd (set_K K);
  _ ← setPreMasterSecret K;
  _ ← (if has packet (lit "additionalLoginStep") then
         let step := getObject packet (lit "additionalLoginStep") in
         upd (fun c => set_key_handshake_result {|
           key_username := key_username (_key_handshake_result c);
           key_session_id := key_session_id (_key_handshake_result c);
           key_session_key := key_session_key (_key_handshake_result c);
           key_additional_login_step := step |} (set_additional_login_step step c))
       else mret tt);
  _ ← upd (fun c => match _session_key c with
       | Some k => set_key_handshake_result {|
           key_username := key_username (_key_handshake_result c);
           key_session_id := key_session_id (_key_handshake_result c); key_session_key := Some k;
           key_additional_login_step := key_additional_login_step (_key_handshake_result c) |} c
       | None => c
       end);
  _ ← upd (fun c => set_tickets_manager (TicketsManager.clear (_tickets_manager c)) c);
  saveTickets packet.

Definition validateSessionResponse (packet : Var) : ST W unit :=
  key ← lift (s ← get_binary packet (lit "key"); ecc_fromPublicKey s);
  me ← my;
  session_key ← lift (value (_session_key me));
  let derived := Utils.fillTo32 (derive session_key key) in
  setPreMasterSecret derived.

(** The answer to a login challenge starts a ticket-protected connection
    first. *)
Definition answer_in_new_session (exchange : Var) : ST W unit :=
  _ ← reset true;
  _ ← ticketHandshake;
  send_packet exchange.

Definition process_ecdhe (packet : Var) : ST W unit :=
  me ← my;
  match _ecdhe_private_key me with
  | None => throw UnexpectedEcdhePacketFromServerException
  | Some private_key =>
      public_key ← lift (key ← get_binary packet (lit "key"); fromDER key);
      let secret := Utils.fillTo32 (derive private_key public_key) in
      _ ← extractServerConfig packet;
      _ ← extractAndValidateChallenge packet;
      _ ← upd (set_ecdhe_private_key None);
      setPreMasterSecret secret
  end.

Definition process_ecdhex (packet : Var) : ST W unit :=
  me ← my;
  match _ecdhex_private_key me with
  | None => throw UnexpectedEcdhexPacketFromServerException
  | Some private_key =>
      key ← lift (get_binary packet (lit "key"));
      host ← lift (get_string packet (lit "host"));
      _ ← upd (set_host host);
      _ ← extractServerConfig packet;
      _ ← extractAndValidateChallenge packet;
      public_key ← lift (fromDER key);
      let secret := Utils.fillTo32 (derive private_key public_key) in
      _ ← upd (set_ecdhex_private_key None);
      setPreMasterSecret secret
  end.

Definition processHandshakePacket (packet : Var) : ST W unit :=
  type ← lift (get_string packet (lit "type"));
  if bool_decide (type = lit "ecdhe") then process_ecdhe packet
  else if bool_decide (type = lit "ecdhex") then process_ecdhex packet
  else if bool_decide (type = lit "ticket_response") then
    _ ← saveTickets packet;
    on_ticket_response
  else if bool_decide (type = lit "srp_init") then
    exchange ← validateSrpInit packet;
    _ ← extractServerConfig packet;
    answer_in_new_session exchange
  else if bool_decide (type = lit "srp_exchange") then validateSrpExchange packet
  else if bool_decide (type = lit "key_init") then
    exchange ← validateKeyInit packet;
    _ ← extractServerConfig packet;
    answer_in_new_session exchange
  else if bool_decide (type = lit "key_exchange") then validateKeyExchange packet
  else if bool_decide (type = lit "session") then
    _ ← validateSessionResponse packet;
    extractServerConfig packet
  else mret tt.
End Client.

Section Laws.
Context `{CryptoLaws} `{!Ecc} `{!Encodings} `{!Dynamic}.
Variable toBase58DER : PublicKey -> bytes.
Variable fromBase58DER : bytes -> outcome PublicKey.
Variable ecc_fromPublicKey : bytes -> outcome PrivateKey.
Context {Clock : Type} (getNowTimestamp : Clock -> Z * Clock).
Context {O : Type}.

Abbreviation client := (ConnectionClient.client (Clock := Clock) (O := O)).
Implicit Types c : conn client.

(** Only members that no key depends on have changed. *)
Definition keys_kept c c' : Prop :=
  c' = with_derived (derived c') c
  /\ _ecdhe_private_key (derived c') = _ecdhe_private_key (derived c)
  /\ _ecdhex_private_key (derived c') = _ecdhex_private_key (derived c)
  /\ _serverPubKey (derived c') = _serverPubKey (derived c)
  /\ _serverChallenge (derived c') = _serverChallenge (derived c).

Lemma keys_kept_refl c : keys_kept c c.
Proof. by destruct c. Qed.

Lemma keys_kept_trans c1 c2 c3 : keys_kept c1 c2 -> keys_kept c2 c3 -> keys_kept c1 c3.
Proof.
  intros (E & E1 & E2 & E3 & E4) (F & F1 & F2 & F3 & F4). unfold keys_kept.
  split; [|by rewrite F1, F2, F3, F4]. rewrite F at 1. rewrite E at 1. done.
Qed.

Definition keeps {A} (m : ST (conn client) A) : Prop := forall c, keys_kept c (m c).2.

Lemma keeps_bind {A B} (m : ST _ A) (f : A -> ST _ B) :
  keeps m -> (forall a, keeps (f a)) -> keeps (m ≫= f).
Proof.
  intros Hm Hf c. specialize (Hm c). unfold mbind, st_bind.
  destruct (m c) as [[a|e] c1]; [|done]. eapply keys_kept_trans; [exact Hm|]. apply Hf.
Qed.

Lemma keeps_lift {A} (o : outcome A) : keeps (lift o).
Proof. intros c. apply keys_kept_refl. Qed.

Lemma keeps_throw_if b e : keeps (throw_if b e).
Proof. intros c. destruct b; apply keys_kept_refl. Qed.

Lemma keeps_ret {A} (a : A) : keeps (mret a).
Proof. intros c. apply keys_kept_refl. Qed.

Lemma keeps_gets {A} (f : conn client -> A) : keeps (gets f).
Proof. intros c. apply keys_kept_refl. Qed.

Lemma keeps_upd (f : client -> client) :
  (forall d, _ecdhe_private_key (f d) = _ecdhe_private_key d /\ _ecdhex_private_key (f d) = _ecdhex_private_key d
    /\ _serverPubKey (f d) = _serverPubKey d /\ _serverChallenge (f d) = _serverChallenge d) ->
  keeps (upd f).
Proof. intros Hf c. destruct (Hf (derived c)) as (E1 & E2 & E3 & E4). by split_and!. Qed.

Lemma keeps_now : keeps (now getNowTimestamp).
Proof. intros c. unfold now. destruct (getNowTimestamp _). by split_and!. Qed.

Lemma keeps_extractServerConfig packet : keeps (extractServerConfig packet).
Proof.
  unfold extractServerConfig. apply keeps_bind; [apply keeps_lift|]. intros config.
  apply keeps_bind; [apply keeps_lift|]. intros chunk.
  apply keeps_bind; [apply keeps_throw_if|]. intros _.
  apply keeps_bind; [by apply keeps_upd|]. intros _.
  destruct (has _ _); [|apply keeps_ret].
  apply keeps_bind; [apply keeps_lift|]. intros v. by apply keeps_upd.
Qed.

Lemma keeps_extractAndValidateChallenge packet : keeps (extractAndValidateChallenge getNowTimestamp packet).
Proof.
  unfold extractAndValidateChallenge. apply keeps_bind; [apply keeps_gets|]. intros me.
  destruct (_serverPubKey me); [|apply keeps_ret].
  repeat (apply keeps_bind;
    [first [apply keeps_throw_if|apply keeps_lift|apply keeps_now]|intros ?]).
  apply keeps_throw_if.
Qed.

(** The server has signed this client's challenge, recently. *)
Definition challenge_passed (packet : Var) (d : client) : Prop :=
  match _serverPubKey d with
  | None => True
  | Some p => exists sig ts t ch sgn,
      get_object packet (lit "signature") = Ret sig /\ get_int sig (lit "timestamp") = Ret ts
      /\ Utils.validateTimestamps t ts ALLOWED_TIME_DIFFERENCE = true
      /\ get_string sig (lit "challenge") = Ret ch /\ hex_to ch = Ret sgn
      /\ verifyCompactSignatureWithHash p (_serverChallenge d ++ lit ";" ++ to_string ts) sgn = true
  end.

Lemma challenge_ok packet c c' :
  extractAndValidateChallenge getNowTimestamp packet c = (Ret tt, c') -> challenge_passed packet (derived c).
Proof.
  unfold extractAndValidateChallenge, challenge_passed. intros Hr.
  apply bind_inv in Hr as (me & c1 & [= <- <-] & Hr).
  destruct (_serverPubKey (derived c)) as [p|]; [|done].
  apply bind_inv in Hr as (? & ? & _ & Hr).
  apply bind_inv in Hr as (sig & ? & [= Hs _] & Hr).
  apply bind_inv in Hr as (ts & ? & [= Hts _] & Hr).
  apply bind_inv in Hr as (t & ? & _ & Hr).
  apply bind_inv in Hr as (? & ? & Ht & Hr).
  apply bind_inv in Hr as (sgn & ? & [= Hc _] & Hr).
  unfold throw_if in Ht, Hr.
  destruct (Utils.validateTimestamps t ts _) eqn:Ev; [|done].
  destruct (verifyCompactSignatureWithHash p _ sgn) eqn:Es; [|done].
  unfold mbind, outcome_bind in Hc. destruct (get_string sig (lit "challenge")) as [ch|] eqn:Eg; [|done].
  by exists sig, ts, t, ch, sgn.
Qed.

(** The secrets and pending states a premaster secret gives. *)
Definition with_premaster (secret : bytes) c : conn client :=
  let ms := Kdf.prf_tls12 secret (lit "master secret" ++ _client_random c ++ _server_random c) 48 in
  let p := ConnectionBase.fresh_pair ms (_client_random c) (_server_random c) in
  with_next_states (ConnectionBase.client_state p) (ConnectionBase.server_state p)
    (with_secrets (_client_random c) (_server_random c) ms c).

Lemma setPreMasterSecret_run secret c :
  setPreMasterSecret secret c = (Ret tt, with_premaster secret c).
Proof.
  unfold setPreMasterSecret, ConnectionBase.setPreMasterSecret.
  unfold mbind, st_bind, gets, modify, lift. rewrite ConnectionBase.getFreshRWStates_run. done.
Qed.

(** C17: the ephemeral handshake authenticates before it keys.  When the
    server's answer is accepted, the challenge (if a server key was given)
    was signed by that key within the allowed time, the one-shot private key
    is gone, and the pending states are those of the Diffie-Hellman secret;
    when it is not, no secret, no pending state and no key has changed. *)
Theorem ecdhe_authenticates packet c :
  match process_ecdhe getNowTimestamp packet c with
  | (Ret _, c') => exists key pk,
      _ecdhe_private_key (derived c) = Some key
      /\ (k ← get_binary packet (lit "key"); fromDER k) = Ret pk
      /\ challenge_passed packet (derived c)
      /\ _ecdhe_private_key (derived c') = None
      /\ _master_secret c' = Kdf.prf_tls12 (Utils.fillTo32 (derive key pk))
           (lit "master secret" ++ _client_random c ++ _server_random c) 48
      /\ initialized (_next_write_state c') = true /\ initialized (_next_read_state c') = true
  | (Throw _, c') => keys_kept c c'
  end.
Proof.
  destruct (process_ecdhe getNowTimestamp packet c) as [[[]|e] c'] eqn:Hr; unfold process_ecdhe in Hr.
  - apply bind_inv in Hr as (me & c1 & [= <- <-] & Hr).
    destruct (_ecdhe_private_key (derived c)) as [key|] eqn:Ek; [|done].
    apply bind_inv in Hr as (pk & c1 & Hpk & Hr).
    unfold lift in Hpk. injection Hpk as Hpk <-.
    apply bind_inv in Hr as ([] & c2 & Hc & Hr).
    pose proof (keeps_extractServerConfig packet c) as K1. rewrite Hc in K1. simpl in K1.
    apply bind_inv in Hr as ([] & c3 & Hv & Hr).
    pose proof (keeps_extractAndValidateChallenge packet c2) as K2. rewrite Hv in K2. simpl in K2.
    apply challenge_ok in Hv.
    apply bind_inv in Hr as ([] & c4 & [= <-] & Hr).
    rewrite setPreMasterSecret_run in Hr. injection Hr as <-.
    pose proof (keys_kept_trans _ _ _ K1 K2) as K.
    destruct K as (Ec & _). destruct K1 as (_ & _ & _ & Ep & Ech).
    exists key, pk. split; [done|]. split; [done|]. split.
    { unfold challenge_passed in *. by rewrite Ep, Ech in Hv. }
    split; [done|]. rewrite Ec. cbn. split; [done|].
    apply ConnectionBase.fresh_pair_initialized.
  - apply bind_throw_inv in Hr as [[=]|(me & c1 & [= <- <-] & Hr)].
    destruct (_ecdhe_private_key (derived c)) as [key|];
      [|injection Hr as _ <-; apply keys_kept_refl].
    apply bind_throw_inv in Hr as [[= _ <-]|(pk & c1 & [= _ <-] & Hr)]; [apply keys_kept_refl|].
    pose proof (keeps_extractServerConfig packet c) as K1.
    apply bind_throw_inv in Hr as [Hc|([] & c2 & Hc & Hr)]; rewrite Hc in K1; [exact K1|]. simpl in K1.
    pose proof (keeps_extractAndValidateChallenge packet c2) as K2.
    apply bind_throw_inv in Hr as [Hv|([] & c3 & Hv & Hr)]; rewrite Hv in K2;
      [exact (keys_kept_trans _ _ _ K1 K2)|].
    apply bind_throw_inv in Hr as [[=]|([] & c4 & [= <-] & Hr)].
    by rewrite setPreMasterSecret_run in Hr.
Qed.

(** a server answer the client has not asked for, or a second one, is
    refused without effect. *)
Theorem ecdhe_one_shot packet packet2 c c' :
  process_ecdhe getNowTimestamp packet c = (Ret tt, c') ->
  process_ecdhe getNowTimestamp packet2 c' = (Throw UnexpectedEcdhePacketFromServerException, c').
Proof.
  intros Hr. assert (_ecdhe_private_key (derived c') = None) as Hn.
  { unfold process_ecdhe in Hr. apply bind_inv in Hr as (me & c1 & [= <- <-] & Hr).
    destruct (_ecdhe_private_key (derived c)) as [key|]; [|done].
    do 4 (apply bind_inv in Hr as (? & ? & ? & Hr)).
    rewrite setPreMasterSecret_run in Hr. injection Hr as <-.
    match goal with H : upd _ _ = _ |- _ => injection H as _ <- end. done. }
  unfold process_ecdhe, mbind, st_bind, my, gets. by rewrite Hn.
Qed.

(** resuming with a ticket: the valid ticket closest to expiry leaves the
    pool, the client announces it with a fresh 12-byte random under its
    current write state, changes its cipher, and from there on writes under
    the key derived from the ticket's secret, with sequence number 0; the
    matching read state waits for the server's announcement. *)
Theorem ticket_handshake_resumes callback c k ticket rest :
  let pool := _tickets_manager (derived c) in
  let t := fst (getNowTimestamp (_clock (derived c))) in
  let st := _write_state c in
  TicketsManager.tm_ok pool ->
  filter (fun e => t < e.1) (TicketsManager._tickets pool) = (k, ticket) :: rest ->
  zlen ((k, ticket) :: rest) < 2 ^ 32 ->
  exists client_random c', ticketHandshake getNowTimestamp callback c = (Ret tt, c')
    /\ zlen client_random = 12
    /\ _output c' = _output c
         ++ ConnectionBase.frame_of st (pson_encode (new_object [
              (lit "type", of_string (lit "ticket"));
              (lit "ticket_id", of_binary (TicketsManager.ticket_id ticket));
              (lit "client_random", of_binary client_random)])) HANDSHAKE
         ++ ConnectionBase.frame_of (ConnectionBase.advance st) [] CHANGE_CIPHER_SPEC
    /\ let fresh := ConnectionBase.fresh_pair (TicketsManager.ticket_master_secret ticket) client_random
           (TicketsManager.ticket_id ticket) in
       _write_state c' = ConnectionBase.client_state fresh
       /\ _next_read_state c' = ConnectionBase.server_state fresh
       /\ _next_write_state c' = RWState_empty /\ _read_state c' = _read_state c
       /\ _master_secret c' = TicketsManager.ticket_master_secret ticket
       /\ TicketsManager._tickets (_tickets_manager (derived c')) = rest
       /\ TicketsManager._tickets_ttl (_tickets_manager (derived c')) = TicketsManager._tickets_ttl pool
       /\ _owner (derived c') = _owner (derived c).
Proof.
  intros pool t st Hok Hv Hl.
  destruct (getNowTimestamp (_clock (derived c))) as [t' ck] eqn:Et. simpl in t. subst t.
  set (c1 := with_derived (set_clock ck (derived c)) c).
  assert (now getNowTimestamp c = (Ret t', c1)) as Hnow by (unfold now; by rewrite Et).
  set (tm' := {| TicketsManager._tickets := rest; TicketsManager._tickets_ttl := TicketsManager._tickets_ttl pool |}).
  assert (TicketsManager.useTicket get_tm put_tm t' callback c1 = (Ret ticket, put_tm tm' c1)) as Huse.
  { apply (TicketsManager.useTicket_run get_tm put_tm t' callback c1 k); [done|done| |done].
    change (get_tm c1) with pool. by rewrite TicketsManager.upper_bound_filter. }
  set (c2 := put_tm tm' c1) in *.
  destruct (randomBytes 12 (_rng (derived c2))) as [cr g] eqn:Er.
  assert (zlen cr = 12) as Hcr.
  { pose proof (randomBytes_len 12 (_rng (derived c2)) ltac:(done)) as Hr. by rewrite Er in Hr. }
  set (c3 := with_derived (set_rng g (derived c2)) c2).
  assert (randomBytes' 12 c2 = (Ret cr, c3)) as Hrnd.
  { unfold randomBytes', zoom, random. by rewrite Er. }
  unfold ticketHandshake. rewrite (run_bind_ret _ _ _ _ _ Hnow), (run_bind_ret _ _ _ _ _ Huse).
  rewrite (run_bind_ret _ _ _ _ _ Hrnd). unfold send_packet, text.
  set (packet := new_object _).
  rewrite (run_bind_ret _ _ _ _ _ (ConnectionBase.send_run (pson_encode packet) HANDSHAKE c3)).
  unfold restore, ConnectionBase.restoreState.
  set (tid := TicketsManager.ticket_id ticket). set (ms := TicketsManager.ticket_master_secret ticket).
  unfold mbind at 1, st_bind at 1, modify at 1.
  unfold mbind at 1, st_bind at 1, lift at 1. rewrite ConnectionBase.getFreshRWStates_run.
  unfold mbind at 1, st_bind at 1, modify at 1.
  set (fresh := ConnectionBase.fresh_pair ms cr tid).
  destruct (ConnectionBase.fresh_pair_initialized ms cr tid) as [Hi _]. fold fresh in Hi.
  unfold ConnectionBase.changeCipherSpec, mbind, st_bind, gets, throw_if.
  cbn [_next_write_state with_next_states getFreshRWStatesFromParams ConnectionBase.write_state].
  rewrite Hi. cbn [negb mret st_ret]. rewrite ConnectionBase.send_run.
  exists cr. eexists. split; [reflexivity|]. split; [exact Hcr|].
  cbn [modify _output with_next_states with_write_state with_output with_secrets with_derived
    _write_state _next_read_state _next_write_state _read_state _master_secret derived].
  split; [by rewrite <- app_assoc|]. by split_and!.
Qed.
End Laws.
End ConnectionClient.

(** ** Witnesses *)
Section Witness.
#[local] Existing Instances Toy.service Toy.laws ToyEcc.ecc ToyEcc.laws ToyJson.encodings ToyJson.encodings_laws.
#[local] Instance witness_dynamic : Dynamic := ToyJson.dynamic [].

Let clock (c : Z) : Z * Z := (c, Z.succ c).
Let ticket : TicketsManager.SessionTicket :=
  {| TicketsManager.ticket_id := lit "id"; TicketsManager.ticket_master_secret := lit "secret" |}.
Let me : ConnectionClient.client (Clock := Z) (O := unit) := {|
  ConnectionClient._tickets_manager :=
    {| TicketsManager._tickets := [(10, ticket); (5000, ticket)]; TicketsManager._tickets_ttl := 5000 |};
  ConnectionClient._ecdhe_private_key := Some (x05 : @PrivateKey _ ToyEcc.ecc);
  ConnectionClient._ecdhex_private_key := None;
  ConnectionClient._srp := SRP.new; ConnectionClient._private_key := None; ConnectionClient._K := [];
  ConnectionClient._tickets_count := 0; ConnectionClient._additional_login_step := None;
  ConnectionClient._srp_handshake_result := {| ConnectionClient.srp_session_id := [];
    ConnectionClient.srp_session_key := None; ConnectionClient.srp_mixed := [];
    ConnectionClient.srp_additional_login_step := None |};
  ConnectionClient._key_handshake_result := {| ConnectionClient.key_username := [];
    ConnectionClient.key_session_id := []; ConnectionClient.key_session_key := None;
    ConnectionClient.key_additional_login_step := None |};
  ConnectionClient._session_key := None; ConnectionClient._host := [];
  ConnectionClient._serverConfig := {| ConnectionClient.requestChunkSize := 0;
    ConnectionClient.serverVersion := VersionNumber.unknown |};
  ConnectionClient._serverPubKey := None; ConnectionClient._serverChallenge := [];
  ConnectionClient._rng := 0; ConnectionClient._clock := 1000; ConnectionClient._owner := tt |}.
Let c : conn ConnectionClient.client := {|
  _output := []; _write_state := RWState_empty; _read_state := RWState_empty;
  _next_write_state := RWState_empty; _next_read_state := RWState_empty;
  _client_random := []; _server_random := []; _master_secret := []; derived := me |}.
Let answer : Var := ToyJson.JObject [
  (lit "key", ToyJson.JBinary (toDER (x07 : @PublicKey _ ToyEcc.ecc)));
  (lit "config", ToyJson.JObject [(lit "requestChunkSize", ToyJson.JInt 4096)])].

(** A client that expects the server of key 7, and that server's answer. *)
Let careful : conn ConnectionClient.client :=
  with_derived (ConnectionClient.set_serverChallenge (lit "nonce")
    (ConnectionClient.set_serverPubKey (Some (x07 : @PublicKey _ ToyEcc.ecc)) me)) c.
Let signed_answer : Var := ToyJson.JObject [
  (lit "key", ToyJson.JBinary (toDER (x07 : @PublicKey _ ToyEcc.ecc)));
  (lit "config", ToyJson.JObject [(lit "requestChunkSize", ToyJson.JInt 4096)]);
  (lit "signature", ToyJson.JObject [
    (lit "timestamp", ToyJson.JInt 1000);
    (lit "challenge", ToyJson.JString
      (signToCompactSignatureWithHash (x07 : @PrivateKey _ ToyEcc.ecc) (lit "nonce;1000")))])].

Lemma ecdhe_authenticates_witness :
  exists c', ConnectionClient.process_ecdhe clock signed_answer careful = (Ret tt, c')
    /\ initialized (_next_write_state c') = true.
Proof.
  pose proof (ConnectionClient.ecdhe_authenticates clock signed_answer careful) as H.
  destruct (ConnectionClient.process_ecdhe clock signed_answer careful) as [r c'] eqn:E.
  assert (r = Ret tt) as ->.
  { change r with (r, c').1. rewrite <- E. vm_compute. reflexivity. }
  exists c'. split; [reflexivity|]. destruct H as (k & pk & _ & _ & _ & _ & _ & H & _). exact H.
Defined.

Lemma ecdhe_one_shot_witness :
  let c' := (ConnectionClient.process_ecdhe clock answer c).2 in
  ConnectionClient.process_ecdhe clock answer c' = (Throw UnexpectedEcdhePacketFromServerException, c').
Proof.
  intros c'. apply (ConnectionClient.ecdhe_one_shot clock answer answer c c').
  apply injective_projections; [vm_compute; reflexivity|reflexivity].
Defined.

Lemma ticket_handshake_resumes_witness :
  exists (cr : bytes) c', ConnectionClient.ticketHandshake clock None c = (Ret tt, c') /\ zlen cr = 12.
Proof.
  destruct (ConnectionClient.ticket_handshake_resumes clock None c 5000 ticket [])
    as (cr & c' & H & Hl & _).
  - repeat constructor; simpl; lia.
  - reflexivity.
  - reflexivity.
  - exists cr, c'. split; [exact H|exact Hl].
Defined.
End Witness.
