(* ===== verification/Sessions.v ===== *)
(** * Sessions

    [ClientEndpoint] (rpc/base/src/ClientEndpoint.cpp), which makes one request
    on a connection of its own; [AuthorizedConnection] (rpc/base/src/
    AuthorizedConnection.cpp), which keeps a session of tickets and an
    authorized websocket; the listeners of [WebSocketNotify] (rpc/base/src/
    channel/WebSocketNotify.cpp); and [RpcGateway::request] (privfs/src/
    gateway/RpcGateway.cpp).

    While a function of the connection runs, the websocket may close and the
    destructor may begin, in other threads: [interleaved] stands before every
    access to a member they change, and asks [moments] what happens there. *)

From Stdlib Require Import ZArith Lia Strings.String Strings.Byte.
From stdpp Require Import base list gmap fin_maps sorting.
From S2P Require Import Prelude Bytes Crypto CryptoSuite Utils Dynamic Srp Tickets Tls TlsClient.

(** ** Calls that may not go on

    [None]: the thread waits for a value nobody sets, or the process has ended. *)
Definition BT (S A : Type) : Type := S -> option (outcome A) * S.

#[export] Instance bt_ret {S} : MRet (BT S) := fun A a s => (Some (Ret a), s).
#[export] Instance bt_bind {S} : MBind (BT S) := fun A B f m s =>
  match m s with
  | (Some (Ret a), s') => f a s'
  | (Some (Throw e), s') => (Some (Throw e), s')
  | (None, s') => (None, s')
  end.

Section Blocking.
Context {S : Type}.

Definition run {A} (m : ST S A) : BT S A := fun s => let '(r, s') := m s in (Some r, s').
Definition stop {A} : BT S A := fun s => (None, s).

(** [try { m } catch (e) { h(e) }] *)
Definition try_else {A} (m : BT S A) (h : exn -> BT S A) : BT S A := fun s =>
  match m s with
  | (Some (Throw e), s') => h e s'
  | r => r
  end.

(** [try { m } catch (...) { h }]: nothing catches undefined behaviour. *)
Definition catch_all {A} (m : BT S A) (h : BT S A) : BT S A :=
  try_else m (fun e => if bool_decide (e = UndefinedBehaviour) then run (throw e) else h).
End Blocking.

(** What the connection calls: the clock, the channels of its server (the text
    of a request, and whether it goes by the websocket), the closing of the
    websocket by its last listener, and accessors of values. *)
Class Surroundings {D : Dynamic} (P : Type) := {
  Clock : Type;
  getNowTimestamp : Clock -> Z * Clock;
  Net : Type;
  channel_send : bytes -> bool -> Net -> outcome bytes * Net;
  on_close_all_channels : Net -> Net;
  (** [Object::get], an empty value where there is none *)
  get_field : Var -> bytes -> Var;
  of_bool : bool -> Var;
  ecc_fromPublicKey : bytes -> outcome P;
}.

(** [ConnectionOptionsFull], as far as it is used. *)
Record ConnectionOptionsFull := mkOptions {
  agent : bytes;
  host : bytes;
  main_channel_websocket : bool;
  websocket : bool;
  notifications : bool;
  restorable_session : bool;
}.

(** ** One request *)
Module ClientEndpoint.
Definition TICKETS_MAX_COUNT : Z := 256.
Definition TICKETS_MIN_COUNT : Z := 3.

Section Endpoint.
Context `{CryptoService} `{!Ecc} `{!Encodings} `{!Dynamic} `{!KeyFormats PublicKey} `{!Surroundings PublicKey}.
Variable options : ConnectionOptionsFull.

(** The members of the endpoint, and the network; a kept promise leaves its
    value with the future. *)
Record endpoint := mkEndpoint {
  _request_lock : bool;
  _promises : gset Z;
  futures : gmap Z Var;
  _ticket_handshake : bool;
  _id : Z;
  net : Net;
}.

Definition fresh (n : Net) : endpoint := mkEndpoint false ∅ ∅ false 0 n.

Abbreviation client := (ConnectionClient.client (Clock := Clock) (O := endpoint)).
Abbreviation W := (conn client).

Definition set_owner (x : endpoint) (c : client) : client := {|
  ConnectionClient._tickets_manager := ConnectionClient._tickets_manager c;
  ConnectionClient._ecdhe_private_key := ConnectionClient._ecdhe_private_key c;
  ConnectionClient._ecdhex_private_key := ConnectionClient._ecdhex_private_key c;
  ConnectionClient._srp := ConnectionClient._srp c;
  ConnectionClient._private_key := ConnectionClient._private_key c;
  ConnectionClient._K := ConnectionClient._K c;
  ConnectionClient._tickets_count := ConnectionClient._tickets_count c;
  ConnectionClient._additional_login_step := ConnectionClient._additional_login_step c;
  ConnectionClient._srp_handshake_result := ConnectionClient._srp_handshake_result c;
  ConnectionClient._key_handshake_result := ConnectionClient._key_handshake_result c;
  ConnectionClient._session_key := ConnectionClient._session_key c;
  ConnectionClient._host := ConnectionClient._host c;
  ConnectionClient._serverConfig := ConnectionClient._serverConfig c;
  ConnectionClient._serverPubKey := ConnectionClient._serverPubKey c;
  ConnectionClient._serverChallenge := ConnectionClient._serverChallenge c;
  ConnectionClient._rng := ConnectionClient._rng c;
  ConnectionClient._clock := ConnectionClient._clock c;
  ConnectionClient._owner := x |}.

Definition on_owner (f : endpoint -> endpoint) (c : W) : W :=
  with_derived (set_owner (f (ConnectionClient._owner (derived c))) (derived c)) c.
Definition owner (c : W) : endpoint := ConnectionClient._owner (derived c).

Definition set_lock (b : bool) (e : endpoint) : endpoint :=
  mkEndpoint b (_promises e) (futures e) (_ticket_handshake e) (_id e) (net e).
Definition set_handshake (b : bool) (e : endpoint) : endpoint :=
  mkEndpoint (_request_lock e) (_promises e) (futures e) b (_id e) (net e).
Definition set_net (n : Net) (e : endpoint) : endpoint :=
  mkEndpoint (_request_lock e) (_promises e) (futures e) (_ticket_handshake e) (_id e) n.

(** The members a client starts with, around what the connection lends it. *)
Definition new_client (tickets : TicketsManager.tm) (g : rng) (k : Clock) (n : Net) : client := {|
  ConnectionClient._tickets_manager := tickets;
  ConnectionClient._ecdhe_private_key := None; ConnectionClient._ecdhex_private_key := None;
  ConnectionClient._srp := SRP.new; ConnectionClient._private_key := None; ConnectionClient._K := [];
  ConnectionClient._tickets_count := 0; ConnectionClient._additional_login_step := None;
  ConnectionClient._srp_handshake_result := {| ConnectionClient.srp_session_id := [];
    ConnectionClient.srp_session_key := None; ConnectionClient.srp_mixed := [];
    ConnectionClient.srp_additional_login_step := None |};
  ConnectionClient._key_handshake_result := {| ConnectionClient.key_username := [];
    ConnectionClient.key_session_id := []; ConnectionClient.key_session_key := None;
    ConnectionClient.key_additional_login_step := None |};
  ConnectionClient._session_key := None; ConnectionClient._host := [];
  ConnectionClient._serverConfig := {| ConnectionClient.requestChunkSize := 0;
    ConnectionClient.serverVersion := VersionNumber.unknown |};
  ConnectionClient._serverPubKey := None; ConnectionClient._serverChallenge := [];
  ConnectionClient._rng := g; ConnectionClient._clock := k; ConnectionClient._owner := fresh n |}.

Definition new (tickets : TicketsManager.tm) (g : rng) (k : Clock) (n : Net) : W := {|
  _output := []; _write_state := RWState_empty; _read_state := RWState_empty;
  _next_write_state := RWState_empty; _next_read_state := RWState_empty;
  _client_random := []; _server_random := []; _master_secret := [];
  derived := new_client tickets g k n |}.

(** [on_ticket_response] *)
Definition on_ticket_response : ST W unit :=
  e ← gets owner;
  if _request_lock e then modify (on_owner (set_lock false)) else mret tt.

(** The answer to a request: [find] of an id that was not asked, or was
    answered before, is the end of the map. *)
Definition invoke (application_data : Var) : ST client unit :=
  match (if has application_data (lit "error")
         then ConnectionClient.getObject application_data (lit "error") else None) with
  | Some err =>
      data ← lift (get_object err (lit "data"));
      error ← lift (get_object data (lit "error"));
      msg ← lift (get_string err (lit "msg"));
      code ← lift (get_int error (lit "code"));
      throw (ServerError code)
  | None =>
      id ← lift (get_int application_data (lit "id"));
      e ← gets ConnectionClient._owner;
      if bool_decide (id ∈ _promises e) then
        modify (set_owner (mkEndpoint (_request_lock e) (_promises e ∖ {[id]})
          (<[id := get_field application_data (lit "result")]> (futures e))
          (_ticket_handshake e) (_id e) (net e)))
      else throw UndefinedBehaviour
  end.

Definition ticketHandshake : ST W unit := ConnectionClient.ticketHandshake getNowTimestamp None.

Definition shouldAskForNewTickets (min_count : Z) : ST W bool :=
  now1 ← ConnectionClient.now getNowTimestamp;
  now2 ← ConnectionClient.now getNowTimestamp;
  zoom ConnectionClient.get_tm ConnectionClient.put_tm (fun t =>
    let '(b, t) := TicketsManager.shouldAskForNewTickets now1 now2 min_count t in (Ret b, t)).

(** What precedes the request: the ticket, and more of them if they run out.
    The lock, once asked for, is another thread's only while that one asks. *)
Definition start : ST W unit :=
  _ ← modify (on_owner (set_lock true));
  try_catch
    (_ ← ConnectionClient.reset false;
     _ ← ticketHandshake;
     _ ← modify (on_owner (set_handshake true));
     ask ← shouldAskForNewTickets TICKETS_MIN_COUNT;
     if ask : bool then ConnectionClient.ticketRequest TICKETS_MAX_COUNT
     else modify (on_owner (set_lock false)))
    (fun e =>
      _ ← modify (on_owner (set_lock false));
      throw (if std_exn e then TicketHandshakeErrorException else e)).

(** The number of the future. *)
Definition call (method : bytes) (params : Var) (force_plain : bool) : ST W Z :=
  e ← gets owner;
  _ ← (if negb force_plain && negb (_ticket_handshake e) then start else mret tt);
  e ← gets owner;
  let request_json := new_object [(lit "jsonrpc", of_string (lit "2.0")); (lit "id", of_int (_id e));
    (lit "method", of_string method); (lit "params", params)] in
  _ ← ConnectionBase.send (pson_encode request_json) APPLICATION_DATA false;
  _ ← modify (on_owner (fun e => mkEndpoint (_request_lock e) (_promises e ∪ {[_id e]}) (futures e)
        (_ticket_handshake e) (i32 (_id e + 1)) (net e)));
  mret (_id e).

Definition flush : ST W unit :=
  modify (fun c => on_owner (set_handshake false) (with_output [] c)).

Definition processHandshakePacket : Var -> ST W unit :=
  ConnectionClient.processHandshakePacket toBase58DER fromBase58DER ecc_fromPublicKey getNowTimestamp
    on_ticket_response None (restorable_session options).

Definition process (response : bytes) : ST W unit :=
  ConnectionBase.process pson_decode processHandshakePacket invoke response.

(** [AuthorizedConnection::sendRequest] *)
Definition sendRequest (web_socket : bool) : ST W unit :=
  request ← gets _output;
  _ ← flush;
  if bool_decide (zlen request <= 0) then mret tt
  else
    response ← (fun c => let '(r, n) := channel_send request web_socket (net (owner c)) in
                         (r, on_owner (set_net n) c));
    process response.

(** [future.get()] waits for a value. *)
Definition get (id : Z) : BT W Var := fun c =>
  match futures (owner c) !! id with
  | Some v => (Some (Ret v), c)
  | None => (None, c)
  end.
End Endpoint.
End ClientEndpoint.

(** ** The connection *)
Inductive session_event := SessionLost | Connected | Disconnected.
#[export] Instance session_event_eq_dec : EqDecision session_event.
Proof. solve_decision. Defined.

(** What a handshake leaves: [ConnectionInfo] and its subclasses. *)
Inductive ConnectionInfo `{Ecc} `{!Dynamic} :=
| EcdheInfo (key : PublicKey) (config : ConnectionClient.ServerConfig)
| EcdhexInfo (key : PublicKey) (info_host : bytes) (config : ConnectionClient.ServerConfig)
| SrpInfo (session_id : bytes) (session_key : option PrivateKey) (username mixed : bytes) (properties : option Var)
| KeyInfo (session_id : bytes) (session_key : option PrivateKey) (username : bytes) (key : PublicKey)
    (properties : option Var)
| SessionInfo (session_id : bytes) (session_key : PrivateKey) (username : bytes) (properties : option Var).

(** What another thread does at a moment: nothing, the websocket's closing, or
    the cancelling of the ticket loop, with which the destructor begins. *)
Inductive moment := Quiet | Closes | Cancels.

(** A listener of the websocket: this connection's, which keeps the key of its
    notifications, or that of another connection to the server. *)
Inductive ws_funcs := Own (key : bytes) | Foreign.

Definition is_own (f : ws_funcs) : bool := match f with Own _ => true | Foreign => false end.

Record SessionRestoreOptionsEx `{Ecc} `{!Dynamic} := mkRestore {
  sr_session_id : bytes;
  sr_session_key : PrivateKey;
  sr_username : bytes;
  sr_properties : option Var;
}.

Module AuthorizedConnection.
Section Connection.
Context `{CryptoService} `{!Ecc} `{!Encodings} `{!Dynamic} `{!KeyFormats PublicKey} `{!Surroundings PublicKey}.

Abbreviation E := (conn (ConnectionClient.client (Clock := Clock) (O := ClientEndpoint.endpoint))).

(** [dispatched] are the events given to the dispatchers, the newest last;
    [_ws_channel_funcs] belongs to the server's channels, [_ticketLoop] tells
    whether the thread may be joined, and [moments] is described above. *)
Record connection := mkConnection {
  _options : ConnectionOptionsFull;
  _connection_info : option ConnectionInfo;
  _destroyed : bool;
  _channels_connected : bool;
  _session_checked : bool;
  _session_established : bool;
  _tickets_manager : TicketsManager.tm;
  _wschannel_id : Z;
  _cancelled : bool;
  _ticketLoop : bool;
  _ws_channel_funcs : gmap Z ws_funcs;
  dispatched : list session_event;
  _rng : rng;
  _clock : Clock;
  _net : Net;
  moments : list moment;
}.

(** A connection with new flags: destroyed, channels connected, session
    checked, session established. *)
Definition with_flags (d c s e : bool) (w : connection) : connection :=
  mkConnection (_options w) (_connection_info w) d c s e (_tickets_manager w) (_wschannel_id w) (_cancelled w)
    (_ticketLoop w) (_ws_channel_funcs w) (dispatched w) (_rng w) (_clock w) (_net w) (moments w).
Definition set_channels_connected (b : bool) (w : connection) : connection :=
  with_flags (_destroyed w) b (_session_checked w) (_session_established w) w.
Definition set_session_checked (b : bool) (w : connection) : connection :=
  with_flags (_destroyed w) (_channels_connected w) b (_session_established w) w.
Definition set_session_established (b : bool) (w : connection) : connection :=
  with_flags (_destroyed w) (_channels_connected w) (_session_checked w) b w.
Definition set_destroyed (b : bool) (w : connection) : connection :=
  with_flags b (_channels_connected w) (_session_checked w) (_session_established w) w.
(** What a request may change: the tickets, randomness, time and the network. *)
Definition lend (t : TicketsManager.tm) (g : rng) (k : Clock) (n : Net) (w : connection) : connection :=
  mkConnection (_options w) (_connection_info w) (_destroyed w) (_channels_connected w) (_session_checked w)
    (_session_established w) t (_wschannel_id w) (_cancelled w) (_ticketLoop w) (_ws_channel_funcs w)
    (dispatched w) g k n (moments w).
Definition set_tickets (t : TicketsManager.tm) (w : connection) : connection := lend t (_rng w) (_clock w) (_net w) w.
Definition set_wschannel_id (i : Z) (w : connection) : connection :=
  mkConnection (_options w) (_connection_info w) (_destroyed w) (_channels_connected w) (_session_checked w)
    (_session_established w) (_tickets_manager w) i (_cancelled w) (_ticketLoop w) (_ws_channel_funcs w)
    (dispatched w) (_rng w) (_clock w) (_net w) (moments w).
Definition set_loop (cancelled joinable : bool) (w : connection) : connection :=
  mkConnection (_options w) (_connection_info w) (_destroyed w) (_channels_connected w) (_session_checked w)
    (_session_established w) (_tickets_manager w) (_wschannel_id w) cancelled joinable (_ws_channel_funcs w)
    (dispatched w) (_rng w) (_clock w) (_net w) (moments w).
Definition set_funcs (f : gmap Z ws_funcs) (w : connection) : connection :=
  mkConnection (_options w) (_connection_info w) (_destroyed w) (_channels_connected w) (_session_checked w)
    (_session_established w) (_tickets_manager w) (_wschannel_id w) (_cancelled w) (_ticketLoop w) f
    (dispatched w) (_rng w) (_clock w) (_net w) (moments w).
Definition dispatch (e : session_event) (w : connection) : connection :=
  mkConnection (_options w) (_connection_info w) (_destroyed w) (_channels_connected w) (_session_checked w)
    (_session_established w) (_tickets_manager w) (_wschannel_id w) (_cancelled w) (_ticketLoop w)
    (_ws_channel_funcs w) (dispatched w ++ [e]) (_rng w) (_clock w) (_net w) (moments w).
Definition set_info (i : ConnectionInfo) (w : connection) : connection :=
  mkConnection (_options w) (Some i) (_destroyed w) (_channels_connected w) (_session_checked w)
    (_session_established w) (_tickets_manager w) (_wschannel_id w) (_cancelled w) (_ticketLoop w)
    (_ws_channel_funcs w) (dispatched w) (_rng w) (_clock w) (_net w) (moments w).
Definition set_moments (l : list moment) (w : connection) : connection :=
  mkConnection (_options w) (_connection_info w) (_destroyed w) (_channels_connected w) (_session_checked w)
    (_session_established w) (_tickets_manager w) (_wschannel_id w) (_cancelled w) (_ticketLoop w)
    (_ws_channel_funcs w) (dispatched w) (_rng w) (_clock w) (_net w) l.

(** The constructor. *)
Definition new (options : ConnectionOptionsFull) (funcs : gmap Z ws_funcs) (g : rng) (k : Clock) (n : Net)
    (l : list moment) : connection :=
  mkConnection options None false false false false TicketsManager.initial (-1) false false funcs [] g k n l.

Definition isConnected (w : connection) : bool :=
  negb (_destroyed w) && _channels_connected w && _session_checked w && _session_established w.
Definition isSessionEstablished (w : connection) : bool := _session_established w.
Definition getInfo (w : connection) : option ConnectionInfo := _connection_info w.
Definition getHost (w : connection) : bytes := host (_options w).

(** *** The websocket's listeners *)

(** The second function [authorizeWebsocket] registers. *)
Definition on_websocket_close (w : connection) : connection :=
  dispatch Disconnected (set_session_checked false (set_channels_connected false w)).

(** [WebSocketNotify::onWebSocketClose]: the functions are called on a copy of
    the table, which stays as it is. *)
Definition onWebSocketClose (w : connection) : connection :=
  Nat.iter (length (filter (fun f => is_own f = true) (map_to_list (_ws_channel_funcs w)).*2)) on_websocket_close w.

Definition happens (m : moment) (w : connection) : connection :=
  match m with
  | Quiet => w
  | Closes => onWebSocketClose w
  | Cancels => set_loop true (_ticketLoop w) w
  end.

(** After the last of the moments nothing more happens. *)
Definition interleaved : BT connection unit := fun w =>
  match moments w with
  | [] => (Some (Ret tt), w)
  | m :: l => (Some (Ret tt), happens m (set_moments l w))
  end.
Definition load {A} (f : connection -> A) : BT connection A := _ ← interleaved; run (gets f).
Definition store (f : connection -> connection) : BT connection unit := _ ← interleaved; run (modify f).

(** [WebSocketNotify::add] and [remove] *)
Definition notify_add (id : Z) (f : ws_funcs) : BT connection unit :=
  store (fun w => set_funcs (<[id := f]> (_ws_channel_funcs w)) w).
Definition notify_remove (id : Z) : BT connection unit :=
  funcs ← load _ws_channel_funcs;
  _ ← run (throw_if (bool_decide (funcs !! id = None)) InvalidWsChannelIdException);
  _ ← run (modify (fun w => set_funcs (delete id funcs) w));
  if bool_decide (delete id funcs = ∅) then
    store (fun w => lend (_tickets_manager w) (_rng w) (_clock w) (on_close_all_channels (_net w)) w)
  else mret tt.

(** *** Requests *)

(** A [ClientEndpoint] of the function's own, which shares the tickets. *)
Definition with_endpoint {A} (m : BT E A) :
    BT connection A := fun w =>
  let '(r, c) := m (ClientEndpoint.new (_tickets_manager w) (_rng w) (_clock w) (_net w)) in
  let d := derived c in
  (r, lend (ConnectionClient._tickets_manager d) (ConnectionClient._rng d) (ConnectionClient._clock d)
        (ClientEndpoint.net (ConnectionClient._owner d)) w).

Definition request (method : bytes) (params : Var) (web_socket force_plain : bool) : BT connection Var := fun w =>
  with_endpoint (
    id ← run (ClientEndpoint.call method params force_plain);
    _ ← run (ClientEndpoint.sendRequest (_options w) web_socket);
    ClientEndpoint.get id) w.

Definition call (method : bytes) (params : Var) (channel_type : option bool) (force_plain : bool) : BT connection Var :=
  _ ← interleaved;
  main ← run (gets (fun w => main_channel_websocket (_options w)));
  let web_socket := default main channel_type in
  try_else (request method params web_socket force_plain) (fun e =>
    match e with
    | TicketsCountIsEqualZeroException =>
        _ ← store (set_session_established false);
        _ ← run (modify (dispatch SessionLost));
        run (throw e)
    | AlertException text =>
        _ ← (if bool_decide (text = lit "Invalid ticket") then store (set_session_established false) else mret tt);
        run (throw e)
    | _ => run (throw e)
    end).

(** *** Keeping the connection *)

Definition checkDestroyed : BT connection unit :=
  d ← load _destroyed; run (throw_if d ConnectionDestroyedException).
Definition checkSessionEstablished : BT connection unit :=
  e ← load _session_established; run (throw_if (negb e) SessionLostException).
Definition checkState : BT connection unit := _ ← checkDestroyed; checkSessionEstablished.

Definition no_params : Var := new_object [].

Definition performPlainTestPing (websocket : bool) : BT connection unit :=
  _ ← call (lit "ping") no_params (Some websocket) true; mret tt.
Definition performTicketTest (websocket : bool) : BT connection unit :=
  _ ← call (lit "ping") no_params (Some websocket) false; mret tt.

Definition authorizeWebsocket : BT connection unit :=
  key ← (fun w => let '(k, g) := randomBytes 32 (_rng w) in
                  (Some (Ret k), lend (_tickets_manager w) g (_clock w) (_net w) w));
  let params := new_object [(lit "key", of_string (base64_from key)); (lit "addWsChannelId", of_bool true)] in
  answer ← call (lit "authorizeWebSocket") params (Some true) false;
  wschannel_id ← run (lift (get_int answer (lit "wsChannelId")));
  _ ← store (set_wschannel_id wschannel_id);
  notify_add wschannel_id (Own key).

Definition clearWebSocket : BT connection unit :=
  id ← load _wschannel_id;
  _ ← run (modify (set_wschannel_id (-1)));
  if bool_decide (id <> -1) then
    n ← run (gets (fun w => TicketsManager.ticketsCount (_tickets_manager w)));
    _ ← (if bool_decide (n <> 0) then
           catch_all (_ ← call (lit "unauthorizeWebSocket") no_params (Some true) false; mret tt) (mret tt)
         else mret tt);
    notify_remove id
  else mret tt.

Definition reconnectWebSocket : BT connection unit :=
  _ ← clearWebSocket; performPlainTestPing true.

Definition checkConnectionAndRepairIfNeeded : BT connection unit :=
  c ← load _channels_connected;
  if c : bool then mret tt
  else
    ws ← run (gets (fun w => websocket (_options w)));
    _ ← (if ws : bool then reconnectWebSocket else performPlainTestPing false);
    store (set_channels_connected true).

Definition checkSessionAndRepairIfNeeded : BT connection unit :=
  s ← load _session_checked;
  if s : bool then mret tt
  else
    o ← run (gets _options);
    _ ← (if websocket o then if notifications o then authorizeWebsocket else performTicketTest true
         else performTicketTest false);
    _ ← store (set_session_checked true);
    store (dispatch Connected).

Definition checkConnectionAndSessionAndRepairIfNeeded : BT connection unit :=
  _ ← checkConnectionAndRepairIfNeeded; checkSessionAndRepairIfNeeded.

Definition verifyConnection : BT connection unit :=
  _ ← checkState; checkConnectionAndSessionAndRepairIfNeeded.

Definition init : BT connection unit :=
  o ← run (gets _options);
  _ ← (if websocket o && notifications o then authorizeWebsocket else mret tt);
  _ ← store (set_channels_connected true);
  _ ← store (set_session_checked true);
  store (set_session_established true).

Definition destroy : BT connection unit :=
  d ← load _destroyed;
  if d : bool then mret tt
  else
    _ ← run (modify (fun w => set_loop true (_ticketLoop w) w));
    _ ← clearWebSocket;
    _ ← store (set_destroyed true);
    _ ← store (set_channels_connected false);
    _ ← store (set_session_checked false);
    _ ← store (set_session_established false);
    _ ← run (modify (fun w => set_tickets (TicketsManager.clear (_tickets_manager w)) w));
    store (dispatch Disconnected).

(** *** Opening a session *)

Definition TICKETS_MAX_COUNT := ClientEndpoint.TICKETS_MAX_COUNT.
Definition TICKETS_MIN_COUNT := ClientEndpoint.TICKETS_MIN_COUNT.

(** The thread of the ticket loop is started; to assign one to a variable
    that holds another ends the process. *)
Definition activateUpdateTicketLoop : BT connection unit :=
  joinable ← run (gets _ticketLoop);
  if joinable : bool then stop else run (modify (set_loop false true)).

Definition activate : BT connection unit :=
  _ ← store (set_session_established true); activateUpdateTicketLoop.

Definition serverConfig : ST E ConnectionClient.ServerConfig :=
  gets (fun c => ConnectionClient._serverConfig (derived c)).

Definition ecdheConnect (key : PrivateKey) (solution : option bytes) (serverPubKey : option PublicKey) :
    BT connection unit :=
  o ← run (gets _options);
  config ← with_endpoint (run (
    _ ← ConnectionClient.ecdheHandshake (agent o) key solution serverPubKey;
    _ ← ConnectionClient.ticketRequest TICKETS_MAX_COUNT;
    _ ← ClientEndpoint.sendRequest o false;
    serverConfig));
  _ ← run (modify (set_info (EcdheInfo (getPublicKey key) config)));
  activate.

Definition ecdhexConnect (key : PrivateKey) (solution : option bytes) (serverPubKey : option PublicKey) :
    BT connection unit :=
  o ← run (gets _options);
  '(h, config) ← with_endpoint (run (
    _ ← ConnectionClient.ecdhexHandshake getNowTimestamp (agent o) key solution serverPubKey;
    _ ← ConnectionClient.ticketRequest TICKETS_MAX_COUNT;
    _ ← ClientEndpoint.sendRequest o false;
    h ← gets (fun c => ConnectionClient._host (derived c));
    config ← serverConfig;
    mret (h, config)));
  _ ← run (modify (set_info (EcdhexInfo (getPublicKey key) h config)));
  activate.

(** How the three logins begin: tickets from an anonymous handshake, then a
    connection that starts with one of them. *)
Definition anonymous_tickets (o : ConnectionOptionsFull) : ST E unit :=
  key ← ConnectionClient.generateRandom';
  _ ← ConnectionClient.ecdheHandshake (agent o) key None None;
  _ ← ConnectionClient.ticketRequest TICKETS_MIN_COUNT;
  _ ← ClientEndpoint.sendRequest o false;
  _ ← ConnectionClient.reset false;
  ClientEndpoint.ticketHandshake.

Definition srpConnect (username password : bytes) (properties : option Var) : BT connection (option Var) :=
  o ← run (gets _options);
  result ← with_endpoint (run (
    _ ← anonymous_tickets o;
    _ ← ConnectionClient.srpHandshake2 (agent o) username (host o) password TICKETS_MAX_COUNT properties;
    _ ← ClientEndpoint.sendRequest o false;
    _ ← ClientEndpoint.sendRequest o false;
    gets (fun c => ConnectionClient._srp_handshake_result (derived c))));
  _ ← run (modify (set_info (SrpInfo (ConnectionClient.srp_session_id result) (ConnectionClient.srp_session_key result)
        username (ConnectionClient.srp_mixed result) properties)));
  _ ← activate;
  mret (ConnectionClient.srp_additional_login_step result).

Definition keyConnect (private_key : PrivateKey) (properties : option Var) : BT connection (option Var) :=
  o ← run (gets _options);
  result ← with_endpoint (run (
    _ ← anonymous_tickets o;
    _ ← ConnectionClient.keyHandshake2 toBase58DER (agent o) private_key TICKETS_MAX_COUNT properties;
    _ ← ClientEndpoint.sendRequest o false;
    _ ← ClientEndpoint.sendRequest o false;
    gets (fun c => ConnectionClient._key_handshake_result (derived c))));
  _ ← run (modify (set_info (KeyInfo (ConnectionClient.key_session_id result) (ConnectionClient.key_session_key result)
        (ConnectionClient.key_username result) (getPublicKey private_key) properties)));
  _ ← activate;
  mret (ConnectionClient.key_additional_login_step result).

Definition sessionConnect (options : SessionRestoreOptionsEx) : BT connection unit :=
  o ← run (gets _options);
  _ ← with_endpoint (run (
    _ ← anonymous_tickets o;
    _ ← ConnectionClient.sessionHandshake toBase58DER getNowTimestamp (sr_session_id options) (sr_session_key options);
    _ ← ConnectionClient.ticketRequest TICKETS_MAX_COUNT;
    ClientEndpoint.sendRequest o false));
  _ ← run (modify (set_info (SessionInfo (sr_session_id options) (sr_session_key options) (sr_username options)
        (sr_properties options))));
  activate.

(** *** The ticket loop *)

Definition MAX_ATTEMPTS_OF_SESSION_RECONNECTION : Z := 16.

(** [token->sleep]: the time it takes shows in the next reading of the clock. *)
Definition sleep : BT connection unit :=
  c ← load _cancelled; run (throw_if c OperationCancelledException).

Definition shouldAskForNewTickets : BT connection bool := fun w =>
  let '(now1, k) := getNowTimestamp (_clock w) in
  let '(now2, k) := getNowTimestamp k in
  let '(b, t) := TicketsManager.shouldAskForNewTickets now1 now2 TICKETS_MIN_COUNT (_tickets_manager w) in
  (Some (Ret b), lend t (_rng w) k (_net w) w).

Definition askForNewTickets : BT connection unit :=
  o ← run (gets _options);
  with_endpoint (run (
    _ ← ConnectionClient.reset false;
    _ ← ClientEndpoint.ticketHandshake;
    _ ← ConnectionClient.ticketRequest TICKETS_MAX_COUNT;
    ClientEndpoint.sendRequest o false)).

(** One turn of the loop: the failed attempts so far if it goes on. *)
Definition ticket_turn (failed : Z) : BT connection (option Z) :=
  try_else
    (ask ← shouldAskForNewTickets;
     if ask : bool then
       n ← run (gets (fun w => TicketsManager.ticketsCount (_tickets_manager w)));
       if bool_decide (n <> 0) then _ ← askForNewTickets; mret (Some 0) else mret None
     else _ ← sleep; mret (Some failed))
    (fun e =>
      match e with
      | UndefinedBehaviour => run (throw e)
      | OperationCancelledException => mret None
      | TicketsCountIsEqualZeroException => _ ← destroy; mret None
      | _ =>
          if bool_decide (MAX_ATTEMPTS_OF_SESSION_RECONNECTION <= failed) then _ ← destroy; mret None
          else _ ← sleep; mret (Some (failed + 1))
      end).

(** The loop, for so many turns: whether it has ended. *)
Fixpoint ticket_loop (turns : nat) (failed : Z) : BT connection bool :=
  match turns with
  | O => mret false
  | S turns =>
      c ← load _cancelled;
      if c : bool then mret true
      else
        r ← ticket_turn failed;
        match r with
        | None => mret true
        | Some failed => ticket_loop turns failed
        end
  end.
End Connection.
End AuthorizedConnection.

Module RpcGateway.
Section Gateway.
Context `{CryptoService} `{!Ecc} `{!Encodings} `{!Dynamic} `{!KeyFormats PublicKey} `{!Surroundings PublicKey}.
Import AuthorizedConnection.

Definition request (method : bytes) (params : Var) (channel_type : option bool) : BT connection Var :=
  _ ← interleaved;
  c ← run (gets isConnected);
  if c : bool then
    try_else (call method params channel_type false) (fun e =>
      if bool_decide (e = HttpRequestException) then call method params channel_type false else run (throw e))
  else run (throw NotConnectedException).
End Gateway.
End RpcGateway.

Lemma bt_bind_inv {S A B} (m : BT S A) (f : A -> BT S B) s b s' :
  (m ≫= f) s = (Some (Ret b), s') -> exists a s1, m s = (Some (Ret a), s1) /\ f a s1 = (Some (Ret b), s').
Proof. unfold mbind, bt_bind. destruct (m s) as [[[a|e]|] s1]; [eauto|done|done]. Qed.

Lemma bt_bind_ret {S A B} (m : BT S A) (f : A -> BT S B) s a s' :
  m s = (Some (Ret a), s') -> (m ≫= f) s = f a s'.
Proof. intros H. unfold mbind, bt_bind. by rewrite H. Qed.

Lemma bt_bind_throw {S A B} (m : BT S A) (f : A -> BT S B) s e s' :
  m s = (Some (Throw e), s') -> (m ≫= f) s = (Some (Throw e), s').
Proof. intros H. unfold mbind, bt_bind. by rewrite H. Qed.

(** ** What the functions of a connection have in common

    [stays R m]: whatever [m] does and however it ends, [R] relates what it
    found to what it left. *)
Section Stays.
Context {S : Type} (R : S -> S -> Prop) {R_refl : Reflexive R} {R_trans : Transitive R}.

Definition stays {A} (m : BT S A) : Prop := forall s, R s (m s).2.

Lemma stays_bind {A B} (m : BT S A) (f : A -> BT S B) :
  stays m -> (forall a, stays (f a)) -> stays (m ≫= f).
Proof.
  intros Hm Hf s. specialize (Hm s). unfold mbind, bt_bind. destruct (m s) as [[[a|e]|] s1]; [|done|done].
  etrans; [exact Hm|apply Hf].
Qed.
Lemma stays_ret {A} (a : A) : stays (mret a).
Proof. intros s. cbn. reflexivity. Qed.
Lemma stays_gets {A} (f : S -> A) : stays (run (gets f)).
Proof. intros s. cbn. reflexivity. Qed.
Lemma stays_lift {A} (o : outcome A) : stays (run (lift o)).
Proof. intros s. cbn. reflexivity. Qed.
Lemma stays_throw {A} e : stays (run (throw (A := A) e)).
Proof. intros s. cbn. reflexivity. Qed.
Lemma stays_throw_if b e : stays (run (throw_if b e)).
Proof. intros s. destruct b; cbn; reflexivity. Qed.
Lemma stays_stop {A} : stays (stop (A := A)).
Proof. intros s. cbn. reflexivity. Qed.
Lemma stays_modify f : (forall s, R s (f s)) -> stays (run (modify f)).
Proof. intros Hf s. apply Hf. Qed.
Lemma stays_try_else {A} (m : BT S A) h : stays m -> (forall e, stays (h e)) -> stays (try_else m h).
Proof.
  intros Hm Hh s. specialize (Hm s). unfold try_else. destruct (m s) as [[[a|e]|] s1]; [done| |done].
  etrans; [exact Hm|apply Hh].
Qed.
Lemma stays_catch_all {A} (m h : BT S A) : stays m -> stays h -> stays (catch_all m h).
Proof. intros Hm Hh. apply stays_try_else; [done|]. intros e. case_bool_decide; [apply stays_throw|done]. Qed.
End Stays.

Create HintDb session.
#[export] Hint Resolve stays_ret stays_gets stays_lift stays_throw stays_throw_if stays_stop : session.

(** Takes a function apart down to its assignments. *)
Ltac stays_step :=
  lazymatch goal with
  | |- stays _ (_ ≫= _) => apply stays_bind; [| |intros]
  | |- stays _ (try_else _ _) => apply stays_try_else; [| |intros]
  | |- stays _ (catch_all _ _) => apply stays_catch_all
  | |- stays _ (run (modify _)) => apply stays_modify; intros
  | |- stays _ (if ?b then _ else _) => destruct b
  | |- stays _ (let '(_, _) := ?p in _) => destruct p
  | |- stays _ (match ?x with _ => _ end) => destruct x
  | |- _ => solve [eauto with session typeclass_instances]
  end.

Section Laws.
Context `{CryptoService} `{!Ecc} `{!Encodings} `{!Dynamic} `{!KeyFormats PublicKey} `{!Surroundings PublicKey}.
Import AuthorizedConnection.
Implicit Types w : connection.

(** *** Destroyed for good *)

Definition destroyed_stays w w' : Prop := _destroyed w = true -> _destroyed w' = true.
#[local] Instance destroyed_refl : Reflexive destroyed_stays.
Proof. intros w. exact (fun h => h). Qed.
#[local] Instance destroyed_trans : Transitive destroyed_stays.
Proof. intros w1 w2 w3 H12 H23 h. exact (H23 (H12 h)). Qed.
Abbreviation final := (stays destroyed_stays).

Lemma on_close_destroyed w : _destroyed (onWebSocketClose w) = _destroyed w.
Proof. unfold onWebSocketClose. generalize (length (filter (fun f => is_own f = true) (map_to_list (_ws_channel_funcs w)).*2)).
  intros n. induction n as [|n IH]; [done|]. rewrite Nat.iter_succ. exact IH. Qed.

Lemma final_interleaved : final interleaved.
Proof.
  intros w. unfold interleaved. destruct (moments w) as [|[| |] l]; unfold destroyed_stays; cbn; try done.
  by rewrite on_close_destroyed.
Qed.

Lemma final_store f : (forall w, destroyed_stays w (f w)) -> final (store f).
Proof. intros Hf. unfold store. repeat stays_step. apply final_interleaved. Qed.
Lemma final_load {A} (f : connection -> A) : final (load f).
Proof. unfold load. repeat stays_step. apply final_interleaved. Qed.
Lemma final_with_endpoint {A} m : final (with_endpoint (A := A) m).
Proof. intros w. unfold with_endpoint, destroyed_stays. by destruct (m _). Qed.
#[local] Hint Resolve final_interleaved final_store final_load final_with_endpoint : session.
#[local] Hint Extern 1 (destroyed_stays _ _) => unfold destroyed_stays; cbn; done : session.
#[local] Hint Extern 1 (forall w, destroyed_stays w _) => intros w; unfold destroyed_stays; cbn; done : session.

Lemma final_call method params channel_type force_plain : final (call method params channel_type force_plain).
Proof. unfold call. repeat stays_step. intros w. unfold request. apply final_with_endpoint. Qed.
#[local] Hint Resolve final_call : session.

Lemma final_notify_remove id : final (notify_remove id).
Proof. unfold notify_remove. repeat stays_step. Qed.
#[local] Hint Resolve final_notify_remove : session.

Lemma final_clearWebSocket : final clearWebSocket.
Proof. unfold clearWebSocket. repeat stays_step. Qed.
Lemma final_authorizeWebsocket : final authorizeWebsocket.
Proof.
  unfold authorizeWebsocket, notify_add. repeat stays_step. intros w. unfold destroyed_stays. by destruct (randomBytes 32 _).
Qed.
#[local] Hint Resolve final_clearWebSocket final_authorizeWebsocket : session.

Lemma final_destroy : final destroy.
Proof. unfold destroy. repeat stays_step. Qed.
Lemma final_init : final init.
Proof. unfold init. repeat stays_step. Qed.
Lemma final_verifyConnection : final verifyConnection.
Proof.
  unfold verifyConnection, checkState, checkDestroyed, checkSessionEstablished,
    checkConnectionAndSessionAndRepairIfNeeded, checkConnectionAndRepairIfNeeded, checkSessionAndRepairIfNeeded,
    reconnectWebSocket, performPlainTestPing, performTicketTest. repeat stays_step.
Qed.
Lemma final_activate : final activate.
Proof. unfold activate, activateUpdateTicketLoop. repeat stays_step. Qed.
#[local] Hint Resolve final_destroy final_init final_verifyConnection final_activate : session.

Lemma final_ticket_turn failed : final (ticket_turn failed).
Proof.
  unfold ticket_turn, askForNewTickets, sleep. repeat stays_step.
  intros w. unfold shouldAskForNewTickets, destroyed_stays. repeat destruct (getNowTimestamp _). by destruct (TicketsManager.shouldAskForNewTickets _ _ _ _).
Qed.
#[local] Hint Resolve final_ticket_turn : session.

Lemma final_ticket_loop turns : forall failed, final (ticket_loop turns failed).
Proof. induction turns as [|turns IH]; intros failed; cbn [ticket_loop]; repeat stays_step. Qed.
#[local] Hint Resolve final_ticket_loop : session.

(** What a caller, or the thread of the ticket loop, may do with a connection. *)
Inductive operation :=
| Init | Verify | Destroy | TicketLoop (turns : nat) (failed : Z)
| Call (method : bytes) (params : Var) (channel_type : option bool) (force_plain : bool)
| EcdheConnect (key : PrivateKey) (solution : option bytes) (serverPubKey : option PublicKey)
| EcdhexConnect (key : PrivateKey) (solution : option bytes) (serverPubKey : option PublicKey)
| SrpConnect (username password : bytes) (properties : option Var)
| KeyConnect (private_key : PrivateKey) (properties : option Var)
| SessionConnect (options : SessionRestoreOptionsEx).

(** The result is left aside, and an exception ends the operation only. *)
Definition perform (o : operation) w : connection :=
  match o with
  | Init => (init w).2
  | Verify => (verifyConnection w).2
  | Destroy => (destroy w).2
  | TicketLoop turns failed => (ticket_loop turns failed w).2
  | Call method params channel_type force_plain => (call method params channel_type force_plain w).2
  | EcdheConnect key solution serverPubKey => (ecdheConnect key solution serverPubKey w).2
  | EcdhexConnect key solution serverPubKey => (ecdhexConnect key solution serverPubKey w).2
  | SrpConnect username password properties => (srpConnect username password properties w).2
  | KeyConnect private_key properties => (keyConnect private_key properties w).2
  | SessionConnect options => (sessionConnect options w).2
  end.

Lemma final_perform o w : destroyed_stays w (perform o w).
Proof.
  assert (forall A (m : BT connection A), final m -> destroyed_stays w (m w).2) as Hm by (intros A m Hm; apply Hm).
  destruct o; apply Hm; unfold ecdheConnect, ecdhexConnect, srpConnect, keyConnect, sessionConnect; repeat stays_step.
Qed.

Lemma destroy_destroys w w' : destroy w = (Some (Ret tt), w') -> _destroyed w' = true.
Proof.
  unfold destroy. intros Hd. apply bt_bind_inv in Hd as (d & w1 & Hl & Hd).
  assert (d = _destroyed w1) as ->.
  { unfold load in Hl. apply bt_bind_inv in Hl as ([] & w2 & _ & Hl). by injection Hl as <- <-. }
  destruct (_destroyed w1) eqn:Ed; [by injection Hd as <-|].
  do 2 apply bt_bind_inv in Hd as ([] & ? & _ & Hd).
  apply bt_bind_inv in Hd as ([] & w2 & Hs & Hd).
  assert (_destroyed w2 = true) as Hx.
  { unfold store in Hs. apply bt_bind_inv in Hs as ([] & w3 & _ & Hs). by injection Hs as <-. }
  revert Hd Hx. generalize w2. clear. intros w2 Hd.
  match type of Hd with ?m w2 = _ => assert (final m) as Hf by repeat stays_step end.
  specialize (Hf w2). by rewrite Hd in Hf.
Qed.

(** C20: a destroyed connection stays so.  Once [destroy] has returned, no
    sequence of further operations, from the application or the ticket loop,
    and nothing the network or another thread does, makes the connection
    connected again: it refuses to be verified, and the gateway its requests. *)
Theorem destroyed_is_final w w1 ops method params channel_type :
  destroy w = (Some (Ret tt), w1) ->
  let w2 := foldl (fun w o => perform o w) w1 ops in
  isConnected w2 = false
  /\ (verifyConnection w2).1 = Some (Throw ConnectionDestroyedException)
  /\ (RpcGateway.request method params channel_type w2).1 = Some (Throw NotConnectedException).
Proof.
  intros Hd w2. apply destroy_destroys in Hd.
  assert (_destroyed w2 = true) as Hw.
  { subst w2. revert w1 Hd. induction ops as [|o ops IH]; intros w1 Hd; [done|]. cbn [foldl].
    apply IH. by apply final_perform. }
  assert (exists w3, interleaved w2 = (Some (Ret tt), w3) /\ _destroyed w3 = true) as (w3 & Hi & Hy).
  { pose proof (final_interleaved w2 Hw) as Hf. unfold interleaved in *. destruct (moments w2); eauto. }
  split; [unfold isConnected; by rewrite Hw|]. split.
  - unfold verifyConnection, checkState, checkDestroyed, load, mbind, bt_bind. rewrite Hi. cbn. by rewrite Hy.
  - unfold RpcGateway.request, mbind, bt_bind. rewrite Hi. cbn. unfold isConnected. by rewrite Hy.
Qed.

(** *** Moments of quiet

    [planned m]: what [m] does when nothing happens, it does as well when
    nothing happens for long enough and only then something may. *)
Definition planned {A} (m : BT connection A) : Prop := forall w, moments w = [] ->
  moments (m w).2 = []
  /\ exists k, forall l, m (set_moments (repeat Quiet k ++ l) w) = ((m w).1, set_moments l (m w).2).

Lemma set_moments_nil w : moments w = [] -> set_moments [] w = w.
Proof. by destruct w; cbn; intros ->. Qed.

Lemma planned_bind {A B} (m : BT connection A) (f : A -> BT connection B) :
  planned m -> (forall a, planned (f a)) -> planned (m ≫= f).
Proof.
  intros Hm Hf w Hw. destruct (Hm w Hw) as [Hn [k Hk]]. unfold mbind, bt_bind.
  destruct (m w) as [[[a|e]|] w1]; cbn [fst snd] in *;
    [|split; [done|]; exists k; intros l; by rewrite Hk|split; [done|]; exists k; intros l; by rewrite Hk].
  destruct (Hf a w1 Hn) as [Hn' [k' Hk']]. split; [done|]. exists (k + k')%nat. intros l.
  by rewrite repeat_app, <- app_assoc, Hk, Hk'.
Qed.

Lemma planned_now {A} (m : BT connection A) :
  (forall w l, m (set_moments l w) = ((m w).1, set_moments l (m w).2) /\ moments (m w).2 = moments w) -> planned m.
Proof. intros Hm w Hw. split; [by rewrite (proj2 (Hm w []))|]. exists 0%nat. intros l. apply Hm. Qed.

Lemma planned_interleaved : planned interleaved.
Proof. intros w Hw. unfold interleaved at 1 3 4. rewrite Hw. split; [done|]. exists 1%nat. by intros l. Qed.

Lemma planned_try_else {A} (m : BT connection A) h :
  planned m -> (forall e, planned (h e)) -> planned (try_else m h).
Proof.
  intros Hm Hh w Hw. destruct (Hm w Hw) as [Hn [k Hk]]. unfold try_else.
  destruct (m w) as [[[a|e]|] w1]; cbn [fst snd] in *;
    [split; [done|]; exists k; intros l; by rewrite Hk| |split; [done|]; exists k; intros l; by rewrite Hk].
  destruct (Hh e w1 Hn) as [Hn' [k' Hk']]. split; [done|]. exists (k + k')%nat. intros l.
  by rewrite repeat_app, <- app_assoc, Hk, Hk'.
Qed.

Lemma planned_ret {A} (a : A) : planned (mret a).
Proof. by apply planned_now. Qed.
Lemma planned_throw {A} e : planned (run (throw (A := A) e)).
Proof. by apply planned_now. Qed.
Lemma planned_lift {A} (o : outcome A) : planned (run (lift o)).
Proof. by apply planned_now. Qed.
Lemma planned_throw_if b e : planned (run (throw_if b e)).
Proof. destruct b; by apply planned_now. Qed.
Lemma planned_gets {A} (f : connection -> A) : (forall w l, f (set_moments l w) = f w) -> planned (run (gets f)).
Proof. intros Hf. apply planned_now. intros w l. cbn. by rewrite Hf. Qed.
Lemma planned_modify f : (forall w l, f (set_moments l w) = set_moments l (f w) /\ moments (f w) = moments w) ->
  planned (run (modify f)).
Proof. intros Hf. apply planned_now. intros w l. cbn. destruct (Hf w l) as [-> Hm]. done. Qed.
Lemma planned_catch_all {A} (m h : BT connection A) : planned m -> planned h -> planned (catch_all m h).
Proof. intros Hm Hh. apply planned_try_else; [done|]. intros e. case_bool_decide; [apply planned_throw|done]. Qed.
Lemma planned_load {A} (f : connection -> A) : (forall w l, f (set_moments l w) = f w) -> planned (load f).
Proof. intros Hf. apply planned_bind; [apply planned_interleaved|]. intros _. by apply planned_gets. Qed.
Lemma planned_store f : (forall w l, f (set_moments l w) = set_moments l (f w) /\ moments (f w) = moments w) ->
  planned (store f).
Proof. intros Hf. apply planned_bind; [apply planned_interleaved|]. intros _. by apply planned_modify. Qed.

#[local] Hint Resolve planned_interleaved planned_ret planned_throw planned_lift planned_throw_if : session.
#[local] Hint Extern 2 (planned (load _)) => by apply planned_load : session.
#[local] Hint Extern 2 (planned (store _)) => by apply planned_store : session.
#[local] Hint Extern 2 (planned (run (gets _))) => by apply planned_gets : session.
#[local] Hint Extern 2 (planned (run (modify _))) => by apply planned_modify : session.

Ltac planned_step :=
  lazymatch goal with
  | |- planned (_ ≫= _) => apply planned_bind; [|intros]
  | |- planned (try_else _ _) => apply planned_try_else; [|intros]
  | |- planned (catch_all _ _) => apply planned_catch_all
  | |- planned (if ?b then _ else _) => destruct b
  | |- planned (match ?x with _ => _ end) => destruct x
  | |- _ => solve [eauto with session]
  end.

Lemma planned_call method params channel_type force_plain : planned (call method params channel_type force_plain).
Proof.
  unfold call. repeat planned_step. apply planned_now. intros w l. unfold request.
  change (_options (set_moments l w)) with (_options w).
  match goal with |- with_endpoint ?m _ = _ /\ _ => generalize m end. intros m. unfold with_endpoint.
  change (ClientEndpoint.new _ _ _ _) with (ClientEndpoint.new (_tickets_manager w) (_rng w) (_clock w) (_net w)) at 1.
  by destruct (m _).
Qed.
#[local] Hint Resolve planned_call : session.

Lemma planned_authorizeWebsocket : planned authorizeWebsocket.
Proof.
  unfold authorizeWebsocket, notify_add. repeat planned_step. apply planned_now. intros w l.
  cbn [_rng set_moments]. by destruct (randomBytes 32 _).
Qed.

Lemma planned_checkState : planned checkState.
Proof. unfold checkState, checkDestroyed, checkSessionEstablished. repeat planned_step. Qed.

Lemma planned_repair : planned checkConnectionAndRepairIfNeeded.
Proof.
  unfold checkConnectionAndRepairIfNeeded, reconnectWebSocket, clearWebSocket, performPlainTestPing, notify_remove.
  repeat planned_step.
Qed.

(** *** What a quiet run leaves alone *)
Lemma interleaved_quiet w : moments w = [] -> interleaved w = (Some (Ret tt), w).
Proof. intros Hw. unfold interleaved. by rewrite Hw. Qed.
Lemma load_quiet {A} (f : connection -> A) w : moments w = [] -> load f w = (Some (Ret (f w)), w).
Proof. intros Hw. unfold load, mbind, bt_bind. by rewrite interleaved_quiet. Qed.
Lemma store_quiet f w : moments w = [] -> store f w = (Some (Ret tt), f w).
Proof. intros Hw. unfold store, mbind, bt_bind. by rewrite interleaved_quiet. Qed.

(** All that a request leaves as it is, when nothing happens meanwhile. *)
Definition framed w w' : Prop := moments w = [] ->
  moments w' = [] /\ _options w' = _options w /\ _destroyed w' = _destroyed w
  /\ _channels_connected w' = _channels_connected w /\ _session_checked w' = _session_checked w
  /\ _wschannel_id w' = _wschannel_id w /\ _ws_channel_funcs w' = _ws_channel_funcs w.
#[local] Instance framed_refl : Reflexive framed.
Proof. intros w Hw. by split_and!. Qed.
#[local] Instance framed_trans : Transitive framed.
Proof.
  intros w1 w2 w3 H12 H23 Hw. destruct (H12 Hw) as (Hm & E1 & E2 & E3 & E4 & E5 & E6).
  destruct (H23 Hm) as (Hm' & F1 & F2 & F3 & F4 & F5 & F6). split_and!; congruence.
Qed.
Abbreviation frames := (stays framed).

Lemma framed_interleaved : frames interleaved.
Proof. intros w Hw. rewrite interleaved_quiet by done. by split_and!. Qed.
Lemma framed_store f : (forall w, framed w (f w)) -> frames (store f).
Proof. intros Hf. unfold store. repeat stays_step. apply framed_interleaved. Qed.
Lemma framed_with_endpoint {A} m : frames (with_endpoint (A := A) m).
Proof. intros w Hw. unfold with_endpoint. destruct (m _). by split_and!. Qed.
#[local] Hint Resolve framed_interleaved framed_store framed_with_endpoint : session.
#[local] Hint Extern 1 (forall w, framed w _) => intros w Hw; by split_and! : session.
#[local] Hint Extern 1 (framed _ _) => intros Hw; by split_and! : session.

Lemma framed_call method params channel_type force_plain : frames (call method params channel_type force_plain).
Proof. unfold call. repeat stays_step. intros w. unfold request. apply framed_with_endpoint. Qed.

Lemma call_frame method params channel_type force_plain w v w' :
  call method params channel_type force_plain w = (Some (Ret v), w') -> framed w w'.
Proof. intros Hc. pose proof (framed_call method params channel_type force_plain w) as Hf. by rewrite Hc in Hf. Qed.

(** An authorized websocket has a listener under the number it was given. *)
Lemma authorize_registers w w' : moments w = [] -> authorizeWebsocket w = (Some (Ret tt), w') ->
  exists key, framed w (set_funcs (_ws_channel_funcs w) (set_wschannel_id (_wschannel_id w) w'))
    /\ _ws_channel_funcs w' = <[_wschannel_id w' := Own key]> (_ws_channel_funcs w).
Proof.
  intros Hw Ha. unfold authorizeWebsocket in Ha. apply bt_bind_inv in Ha as (key & w1 & Hk & Ha).
  assert (framed w w1) as F1 by (destruct (randomBytes 32 _); injection Hk as _ <-; intros _; by split_and!).
  apply bt_bind_inv in Ha as (v & w2 & Hc & Ha). apply call_frame in Hc.
  pose proof (framed_trans _ _ _ F1 Hc Hw) as F2. clear F1 Hc Hk.
  apply bt_bind_inv in Ha as (id & w3 & Hi & Ha). injection Hi as Hi <-.
  destruct F2 as (M & E1 & E2 & E3 & E4 & E5 & E6).
  rewrite (bt_bind_ret _ _ _ _ _ (store_quiet _ _ M)) in Ha. unfold notify_add in Ha.
  rewrite store_quiet in Ha by done. injection Ha as <-. exists key. split.
  - intros _. cbn. by split_and!.
  - cbn. by rewrite E6.
Qed.

Lemma remove_quiet id w w' : moments w = [] -> notify_remove id w = (Some (Ret tt), w') ->
  framed (set_funcs (delete id (_ws_channel_funcs w)) w) w'.
Proof.
  intros Hw Hr. unfold notify_remove in Hr.
  rewrite (bt_bind_ret _ _ _ _ _ (load_quiet _ _ Hw)) in Hr.
  apply bt_bind_inv in Hr as ([] & w1 & Ht & Hr).
  assert (w1 = w) as ->.
  { unfold run, throw_if in Ht. destruct (bool_decide _); cbn in Ht; [discriminate Ht|by injection Ht]. }
  clear Ht. apply bt_bind_inv in Hr as ([] & w1 & Hm & Hr). injection Hm as <-.
  case_bool_decide; [rewrite store_quiet in Hr by done|]; injection Hr as <-; intros _; by split_and!.
Qed.

(** The listener of the last authorization goes. *)
Lemma clear_quiet w w' : moments w = [] -> clearWebSocket w = (Some (Ret tt), w') ->
  framed (set_funcs (if bool_decide (_wschannel_id w <> -1) then delete (_wschannel_id w) (_ws_channel_funcs w)
                     else _ws_channel_funcs w) (set_wschannel_id (-1) w)) w'.
Proof.
  intros Hw Hc. unfold clearWebSocket in Hc. rewrite (bt_bind_ret _ _ _ _ _ (load_quiet _ _ Hw)) in Hc.
  apply bt_bind_inv in Hc as ([] & w1 & Hm & Hc). injection Hm as <-.
  case_bool_decide as Hid; [|injection Hc as <-; intros _; by split_and!].
  apply bt_bind_inv in Hc as (n & w1 & Hn & Hc). injection Hn as _ <-.
  apply bt_bind_inv in Hc as ([] & w1 & Hu & Hc).
  assert (framed (set_wschannel_id (-1) w) w1) as F1.
  { match type of Hu with ?m ?w0 = _ => assert (frames m) as Hf end; [|specialize (Hf (set_wschannel_id (-1) w)); by rewrite Hu in Hf].
    repeat stays_step. apply framed_call. }
  destruct (F1 Hw) as (M & E1 & E2 & E3 & E4 & E5 & E6). apply remove_quiet in Hc; [|done].
  destruct (Hc M) as (M' & G1 & G2 & G3 & G4 & G5 & G6). cbn in *. intros _. cbn. split_and!; congruence.
Qed.

Lemma checkState_quiet w w' : moments w = [] -> checkState w = (Some (Ret tt), w') ->
  w' = w /\ _destroyed w = false /\ _session_established w = true.
Proof.
  intros Hw Hc. unfold checkState, checkDestroyed, checkSessionEstablished, mbind, bt_bind in Hc.
  rewrite load_quiet in Hc by done. destruct (_destroyed w); [discriminate Hc|]. cbn in Hc.
  rewrite load_quiet in Hc by done. destruct (_session_established w); [|discriminate Hc]. by injection Hc as <-.
Qed.

Lemma repair_quiet w w' : moments w = [] -> websocket (_options w) = true -> _channels_connected w = false ->
  checkConnectionAndRepairIfNeeded w = (Some (Ret tt), w') ->
  framed (set_channels_connected true
    (set_funcs (if bool_decide (_wschannel_id w <> -1) then delete (_wschannel_id w) (_ws_channel_funcs w)
                else _ws_channel_funcs w) (set_wschannel_id (-1) w))) w'.
Proof.
  intros Hw Hws Hcc Hr. unfold checkConnectionAndRepairIfNeeded in Hr.
  rewrite (bt_bind_ret _ _ _ _ _ (load_quiet _ _ Hw)), Hcc in Hr.
  apply bt_bind_inv in Hr as (b & w1 & Hb & Hr). injection Hb as <- <-. rewrite Hws in Hr.
  apply bt_bind_inv in Hr as ([] & w1 & Hr1 & Hr).
  apply bt_bind_inv in Hr1 as ([] & w2 & Hc & Hp).
  apply clear_quiet in Hc; [|done]. unfold performPlainTestPing in Hp.
  apply bt_bind_inv in Hp as (v & w3 & Hp & Hret). injection Hret as <-. apply call_frame in Hp.
  pose proof (framed_trans _ _ _ Hc Hp Hw) as (M & E1 & E2 & E3 & E4 & E5 & E6).
  rewrite store_quiet in Hr by done. injection Hr as <-. intros _. cbn in *. by split_and!.
Qed.

(** What closing the websocket changes. *)
Lemma onWebSocketClose_spec w : let w' := onWebSocketClose w in
  _options w' = _options w /\ _destroyed w' = _destroyed w /\ _session_established w' = _session_established w
  /\ _wschannel_id w' = _wschannel_id w /\ _ws_channel_funcs w' = _ws_channel_funcs w /\ moments w' = moments w
  /\ (forall i key, _ws_channel_funcs w !! i = Some (Own key) -> _channels_connected w' = false)
  /\ ((forall i key, _ws_channel_funcs w !! i <> Some (Own key)) -> w' = w).
Proof.
  intros w'. subst w'. unfold onWebSocketClose.
  set (own := filter (fun f => is_own f = true) (map_to_list (_ws_channel_funcs w)).*2).
  assert (own = [] <-> forall i key, _ws_channel_funcs w !! i <> Some (Own key)) as Hown.
  { unfold own. split.
    - intros Hn i key Hi. apply elem_of_map_to_list in Hi.
      assert (Own key ∈ own) as Hin; [|unfold own in Hin; rewrite Hn in Hin; by apply not_elem_of_nil in Hin].
      apply list_elem_of_filter. split; [done|]. apply list_elem_of_fmap. by exists (i, Own key).
    - intros Hn. apply filter_drops. intros f Hf. apply list_elem_of_fmap in Hf as ([i g] & -> & Hf).
      apply elem_of_map_to_list in Hf. destruct g as [key|]; [|done]. by destruct (Hn i key). }
  assert (forall n, let v := Nat.iter n on_websocket_close w in
    _options v = _options w /\ _destroyed v = _destroyed w /\ _session_established v = _session_established w
    /\ _wschannel_id v = _wschannel_id w /\ _ws_channel_funcs v = _ws_channel_funcs w /\ moments v = moments w) as Hn.
  { intros n. induction n as [|n IH]; [done|]. rewrite Nat.iter_succ. exact IH. }
  destruct (Hn (length own)) as (E1 & E2 & E3 & E4 & E5 & E6). split_and!; [done..| |].
  - intros i key Hi. destruct (length own) as [|n] eqn:El; [|by rewrite Nat.iter_succ].
    apply nil_length_inv in El. by destruct (proj1 Hown El i key).
  - intros Ho. by rewrite (proj2 Hown Ho).
Qed.

(** A connection that believes it is connected and listens to nothing. *)
Definition deaf w : Prop := isConnected w = true /\ forall i key, _ws_channel_funcs w !! i <> Some (Own key).

Lemma deaf_interleaved w : deaf w -> exists w', interleaved w = (Some (Ret tt), w') /\ deaf w'
  /\ dispatched w' = dispatched w /\ _ws_channel_funcs w' = _ws_channel_funcs w.
Proof.
  intros [Hc Ho]. unfold interleaved. destruct (moments w) as [|[| |] l]; eexists; (split; [done|]); [done|done| |done].
  destruct (onWebSocketClose_spec (set_moments l w)) as (_ & _ & _ & _ & _ & _ & _ & Hn). cbn [happens].
  by rewrite (Hn Ho).
Qed.

(** Such a connection is left as it is when it is verified. *)
Lemma deaf_verify w : deaf w -> exists w', verifyConnection w = (Some (Ret tt), w') /\ deaf w'
  /\ dispatched w' = dispatched w /\ _ws_channel_funcs w' = _ws_channel_funcs w.
Proof.
  intros Hd. unfold verifyConnection, checkState, checkDestroyed, checkSessionEstablished.
  destruct (deaf_interleaved w Hd) as (w1 & H1' & D1 & E1 & F1).
  destruct (deaf_interleaved w1 D1) as (w2 & H2' & D2 & E2 & F2).
  destruct (deaf_interleaved w2 D2) as (w3 & H3' & D3 & E3 & F3).
  destruct (deaf_interleaved w3 D3) as (w4 & H4' & D4 & E4 & F4).
  exists w4. split; [|split_and!; [done|congruence|congruence]].
  assert (forall v, isConnected v = true -> _destroyed v = false /\ _channels_connected v = true
    /\ _session_checked v = true /\ _session_established v = true) as Hall.
  { intros v. unfold isConnected. by destruct (_destroyed v), (_channels_connected v), (_session_checked v), (_session_established v). }
  destruct (Hall w1 (proj1 D1)) as (A1 & _), (Hall w2 (proj1 D2)) as (_ & _ & _ & A2),
    (Hall w3 (proj1 D3)) as (_ & A3 & _), (Hall w4 (proj1 D4)) as (_ & _ & A4 & _).
  unfold checkConnectionAndSessionAndRepairIfNeeded, checkConnectionAndRepairIfNeeded, checkSessionAndRepairIfNeeded,
    load, mbind, bt_bind.
  rewrite H1'. cbn. rewrite A1. cbn. rewrite H2'. cbn. rewrite A2. cbn. rewrite H3'. cbn. rewrite A3. cbn.
  rewrite H4'. cbn. by rewrite A4.
Qed.

Lemma deaf_verifies n w : deaf w -> let wn := Nat.iter n (fun v => (verifyConnection v).2) w in
  deaf wn /\ dispatched wn = dispatched w.
Proof.
  intros Hdv. induction n as [|n IH]; [done|]. rewrite Nat.iter_succ. destruct IH as [Di Ei].
  destruct (deaf_verify _ Di) as (v' & Hv' & Dv & Ev & _). rewrite Hv'. cbn. split; [done|congruence].
Qed.

Lemma planned_run {A} (m : BT connection A) r w w' : planned m -> moments w = [] -> m w = (r, w') ->
  moments w' = [] /\ exists k, forall l, m (set_moments (repeat Quiet k ++ l) w) = (r, set_moments l w').
Proof. intros Hp Hw Hm. specialize (Hp w Hw). by rewrite Hm in Hp. Qed.

(** The repair of a session that ends well, with the websocket closed just
    after its authorization. *)
Lemma close_after_authorization w w1 :
  moments w = [] -> websocket (_options w) = true -> notifications (_options w) = true ->
  _channels_connected w = false -> _session_checked w = false ->
  verifyConnection w = (Some (Ret tt), w1) ->
  exists wb wc k, moments wc = []
    /\ framed (set_channels_connected true
         (set_funcs (if bool_decide (_wschannel_id w <> -1) then delete (_wschannel_id w) (_ws_channel_funcs w)
                     else _ws_channel_funcs w) (set_wschannel_id (-1) w))) wb
    /\ authorizeWebsocket wb = (Some (Ret tt), wc)
    /\ w1 = dispatch Connected (set_session_checked true wc)
    /\ verifyConnection (set_moments (repeat Quiet k ++ [Closes; Quiet]) w)
        = (Some (Ret tt), dispatch Connected (set_moments []
            (set_session_checked true (onWebSocketClose (set_moments [Quiet] wc))))).
Proof.
  intros Hw Hws Hnt Hcc Hsc Hv. unfold verifyConnection in Hv.
  apply bt_bind_inv in Hv as ([] & wa & Hs & Hv).
  destruct (planned_run _ _ _ _ planned_checkState Hw Hs) as [_ [ks Ps]].
  apply checkState_quiet in Hs as (-> & Hd & He); [|done].
  apply bt_bind_inv in Hv as ([] & wb & Hr & Hv).
  destruct (planned_run _ _ _ _ planned_repair Hw Hr) as [Mb [kr Pr]].
  apply repair_quiet in Hr; [|done..]. destruct (Hr Hw) as (_ & E1 & E2 & E3 & E4 & E5 & E6). cbn in *.
  unfold checkSessionAndRepairIfNeeded in Hv. rewrite (bt_bind_ret _ _ _ _ _ (load_quiet _ _ Mb)) in Hv.
  rewrite E4, Hsc in Hv. apply bt_bind_inv in Hv as (o & wb' & Ho & Hv). injection Ho as <- <-.
  rewrite E1, Hws, Hnt in Hv. apply bt_bind_inv in Hv as ([] & wc & Ha & Hv).
  destruct (planned_run _ _ _ _ planned_authorizeWebsocket Mb Ha) as [Mc [ka Pa]].
  rewrite (bt_bind_ret _ _ _ _ _ (store_quiet _ _ Mc)), store_quiet in Hv by done. injection Hv as <-.
  exists wb, wc, (ks + (kr + (1 + ka)))%nat. split_and!; [done..|].
  unfold verifyConnection. rewrite !repeat_app, <- !app_assoc.
  rewrite (bt_bind_ret _ _ _ _ _ (Ps _)). unfold checkConnectionAndSessionAndRepairIfNeeded.
  rewrite (bt_bind_ret _ _ _ _ _ (Pr _)). unfold checkSessionAndRepairIfNeeded.
  set (l := repeat Quiet ka ++ [Closes; Quiet]).
  assert (load _session_checked (set_moments (repeat Quiet 1 ++ l) wb) = (Some (Ret false), set_moments l wb)) as Hl
    by (unfold load, mbind, bt_bind; cbn; by rewrite E4, Hsc).
  assert (run (gets _options) (set_moments l wb) = (Some (Ret (_options wb)), set_moments l wb)) as Ho by done.
  rewrite (bt_bind_ret _ _ _ _ _ Hl), (bt_bind_ret _ _ _ _ _ Ho), E1, Hws, Hnt.
  unfold l. rewrite (bt_bind_ret _ _ _ _ _ (Pa _)).
  set (v := set_session_checked true (onWebSocketClose (set_moments [Quiet] wc))).
  assert (store (set_session_checked true) (set_moments [Closes; Quiet] wc) = (Some (Ret tt), v)) as Hst by done.
  rewrite (bt_bind_ret _ _ _ _ _ Hst). unfold store, mbind, bt_bind, interleaved.
  assert (moments v = [Quiet]) as -> by (destruct (onWebSocketClose_spec (set_moments [Quiet] wc)) as (_ & _ & _ & _ & _ & Hm & _); exact Hm).
  done.
Qed.

(** C21: a websocket that closes just after its authorization is forgotten.
    Take a disconnected connection whose verification, were nothing to happen,
    connects it again.  With the websocket closing at one moment, after the
    listener is registered and before the session is marked as checked, it
    still returns and announces a connection, although there is none; and after
    the next verification, which clears the websocket without authorizing
    another, the connection says that it is connected while it has no listener:
    from then on, whatever closes, every verification returns at once and no
    notification is ever received. *)
Theorem close_unnoticed w w1 :
  moments w = [] -> websocket (_options w) = true -> notifications (_options w) = true ->
  _channels_connected w = false -> _session_checked w = false ->
  (forall i key, _ws_channel_funcs w !! i = Some (Own key) -> i = _wschannel_id w /\ i <> -1) ->
  verifyConnection w = (Some (Ret tt), w1) -> isConnected w1 = true -> _wschannel_id w1 <> -1 ->
  exists k w2, verifyConnection (set_moments (repeat Quiet k ++ [Closes; Quiet]) w) = (Some (Ret tt), w2)
    /\ isConnected w2 = false /\ last (dispatched w2) = Some Connected
    /\ forall w3, verifyConnection w2 = (Some (Ret tt), w3) -> isSessionEstablished w3 = true ->
       forall l n, let wn := Nat.iter n (fun v => (verifyConnection v).2) (set_moments l w3) in
         isConnected wn = true /\ (forall i key, _ws_channel_funcs wn !! i <> Some (Own key))
         /\ dispatched wn = dispatched w3 /\ (verifyConnection wn).1 = Some (Ret tt).
Proof.
  intros Hw Hws Hnt Hcc Hsc Hown Hv Hc1 Hid.
  destruct (close_after_authorization w w1 Hw Hws Hnt Hcc Hsc Hv) as (wb & wc & k & Mc & Fb & Ha & -> & Hk).
  destruct (Fb Hw) as (Mb & E1 & E2 & E3 & E4 & E5 & E6). cbn in *.
  destruct (authorize_registers wb wc Mb Ha) as (key & Fc & Gf). destruct (Fc Mb) as (_ & G1 & G2 & G3 & G4 & _). cbn in *.
  set (wx := set_moments [Quiet] wc) in *.
  destruct (onWebSocketClose_spec wx) as (O1 & O2 & O3 & O4 & O5 & O6 & O7 & _).
  assert (_ws_channel_funcs wx !! _wschannel_id wx = Some (Own key)) as Hreg by (cbn; rewrite Gf; apply lookup_insert_eq).
  specialize (O7 _ _ Hreg).
  assert (_destroyed wc = false /\ _session_established wc = true) as [Hd He].
  { unfold isConnected in Hc1. cbn in Hc1. by destruct (_destroyed wc), (_session_established wc), (_channels_connected wc). }
  eexists k, _. split; [exact Hk|]. set (w2 := dispatch Connected _).
  split. { unfold isConnected. cbn. rewrite O7. by rewrite andb_false_r. }
  split. { cbn. by rewrite last_snoc. }
  intros w3 Hv3 He3. 
  assert (deaf w3) as Hdeaf.
  { unfold verifyConnection in Hv3. apply bt_bind_inv in Hv3 as ([] & wa & Hs & Hv3).
    assert (moments w2 = []) as M2 by done. apply checkState_quiet in Hs as (-> & _ & _); [|done].
    apply bt_bind_inv in Hv3 as ([] & wd & Hr & Hv3).
    apply repair_quiet in Hr; [|done|cbn; by rewrite O1, <- Hws, <- E1, <- G1|done].
    destruct (Hr M2) as (Md & D1 & D2 & D3 & D4 & D5 & D6). cbn in D1, D2, D3, D4, D5, D6.
    unfold checkSessionAndRepairIfNeeded in Hv3. rewrite (bt_bind_ret _ _ _ _ _ (load_quiet _ _ Md)), D4 in Hv3.
    injection Hv3 as <-. split.
    - unfold isConnected. unfold isSessionEstablished in He3. rewrite D2, O2, D3, D4, He3.
      change (_destroyed wx) with (_destroyed wc). by rewrite Hd.
    - intros i key' Hi. rewrite D6, O4, O5 in Hi. change (_wschannel_id wx) with (_wschannel_id wc) in Hi.
      change (_ws_channel_funcs wx) with (_ws_channel_funcs wc) in Hi. rewrite bool_decide_eq_true_2 in Hi by done.
      rewrite Gf, E6 in Hi. apply lookup_delete_Some in Hi as [Hne Hi]. rewrite lookup_insert_ne in Hi by done.
      case_bool_decide as Hw1.
      + apply lookup_delete_Some in Hi as [Hnw Hi]. by destruct (Hown _ _ Hi).
      + destruct (Hown _ _ Hi) as [-> Hn1]. by destruct Hw1. }
  intros l n. destruct (deaf_verifies n (set_moments l w3) Hdeaf) as [Dn En]. cbv zeta.
  split; [apply Dn|]. split; [apply Dn|]. split; [exact En|].
  destruct (deaf_verify _ Dn) as (v' & Hv' & _). by rewrite Hv'.
Qed.
End Laws.

(** ** Requests *)
Section Requests.
Context `{CryptoLaws} `{!Ecc} `{!Encodings} `{!Dynamic} `{!KeyFormats PublicKey} `{!Surroundings PublicKey}.
Import AuthorizedConnection.
Implicit Types w : connection.

(** Tickets in the order of their expiry, none of which expires before the
    clock says [bound]. *)
Definition fresh_tickets (bound : Z) (t : TicketsManager.tm) : Prop :=
  TicketsManager.tm_ok t /\ Forall (fun e => bound < e.1) (TicketsManager._tickets t).
Definition clock_before (bound : Z) : Prop := forall k, (getNowTimestamp k).1 < bound.

Lemma fresh_valid bound t now : fresh_tickets bound t -> now < bound ->
  filter (fun e => now < e.1) (TicketsManager._tickets t) = TicketsManager._tickets t.
Proof.
  intros [_ Hf] Hn. apply filter_keeps. intros x Hx. rewrite Forall_forall in Hf. specialize (Hf x Hx). lia.
Qed.

Lemma fresh_tail bound t t' e : fresh_tickets bound t ->
  TicketsManager._tickets t = e :: TicketsManager._tickets t' -> fresh_tickets bound t'.
Proof.
  intros [Hok Hf] Ht. unfold fresh_tickets, TicketsManager.tm_ok, TicketsManager.by_expiry in *. rewrite Ht in *.
  cbn in Hok. apply StronglySorted_inv in Hok as [Hok _]. by apply Forall_cons in Hf as [_ Hf].
Qed.

Lemma fresh_drop bound t now : fresh_tickets bound t -> now < bound -> TicketsManager.dropExpiredTickets now t = t.
Proof.
  intros Hf Hn. unfold TicketsManager.dropExpiredTickets. rewrite TicketsManager.upper_bound_filter by apply Hf.
  rewrite (fresh_valid bound t now Hf Hn). by destruct t.
Qed.

(** A new endpoint takes a ticket out of the pool and writes the announcement
    of it. *)
Lemma ticket_taken bound f t g clk n k ticket rest :
  clock_before bound -> fresh_tickets bound t -> TicketsManager._tickets t = (k, ticket) :: rest ->
  zlen ((k, ticket) :: rest) < 2 ^ 32 ->
  exists client_random c', (_ ← ConnectionClient.reset false; ClientEndpoint.ticketHandshake)
      (ClientEndpoint.on_owner f (ClientEndpoint.new t g clk n)) = (Ret tt, c')
    /\ zlen client_random = 12
    /\ _output c' = ConnectionBase.frame_of RWState_empty (pson_encode (new_object [
              (lit "type", of_string (lit "ticket"));
              (lit "ticket_id", of_binary (TicketsManager.ticket_id ticket));
              (lit "client_random", of_binary client_random)])) HANDSHAKE
         ++ ConnectionBase.frame_of RWState_empty [] CHANGE_CIPHER_SPEC
    /\ (let fresh := ConnectionBase.fresh_pair (TicketsManager.ticket_master_secret ticket) client_random
           (TicketsManager.ticket_id ticket) in
        _write_state c' = ConnectionBase.client_state fresh
        /\ _next_read_state c' = ConnectionBase.server_state fresh /\ _read_state c' = RWState_empty)
    /\ ConnectionClient._tickets_manager (derived c')
       = {| TicketsManager._tickets := rest; TicketsManager._tickets_ttl := TicketsManager._tickets_ttl t |}
    /\ ClientEndpoint.owner c' = f (ClientEndpoint.fresh n).
Proof.
  intros Hc Hf Ht Hl.
  set (c0 := ClientEndpoint.on_owner f (ClientEndpoint.new t g clk n)).
  assert (ConnectionClient.reset false c0 = (Ret tt, c0)) as Hr by done.
  rewrite (run_bind_ret _ _ _ _ _ Hr). unfold ClientEndpoint.ticketHandshake.
  destruct (ConnectionClient.ticket_handshake_resumes getNowTimestamp None c0 k ticket rest)
    as (cr & c' & He & Hcr & Ho & Hw & Hn & _ & Hrd & _ & Htm & Htl & How).
  - apply Hf.
  - rewrite <- Ht. apply (fresh_valid bound); [done|apply Hc].
  - done.
  - exists cr, c'. split; [exact He|]. split; [done|]. split; [exact Ho|]. split; [by split_and!|]. split; [|exact How].
    rewrite <- Htm. cbn in Htl. rewrite <- Htl. by destruct (ConnectionClient._tickets_manager (derived c')).
Qed.

(** *** A connection whose tickets run out *)

(** What does not end the ticket loop by itself. *)
Definition ordinary (e : exn) : Prop :=
  e <> UndefinedBehaviour /\ e <> OperationCancelledException /\ e <> TicketsCountIsEqualZeroException.
Definition unreachable : Prop := forall request ws n, exists e n', channel_send request ws n = (Throw e, n') /\ ordinary e.

Lemma ask_fails bound w k ticket rest : clock_before bound -> fresh_tickets bound (_tickets_manager w) -> unreachable ->
  TicketsManager._tickets (_tickets_manager w) = (k, ticket) :: rest -> zlen ((k, ticket) :: rest) < 2 ^ 32 ->
  exists e g clk n, ordinary e /\ askForNewTickets w = (Some (Throw e),
    lend {| TicketsManager._tickets := rest; TicketsManager._tickets_ttl := TicketsManager._tickets_ttl (_tickets_manager w) |}
      g clk n w).
Proof.
  intros Hc Hf Hu Ht Hl. unfold askForNewTickets.
  assert (run (gets _options) w = (Some (Ret (_options w)), w)) as Ho by done. rewrite (bt_bind_ret _ _ _ _ _ Ho).
  destruct (ticket_taken bound id (_tickets_manager w) (_rng w) (_clock w) (_net w) k ticket rest Hc Hf Ht Hl)
    as (cr & c' & He & _ & Hout & _ & Htm & How).
  unfold with_endpoint, run. set (c0 := ClientEndpoint.new _ _ _ _) in *. change (ClientEndpoint.on_owner id c0) with c0 in He.
  apply bind_inv in He as ([] & c1 & Hr & Hh). rewrite (run_bind_ret _ _ _ _ _ Hr), (run_bind_ret _ _ _ _ _ Hh).
  unfold ConnectionClient.ticketRequest, ConnectionClient.send_packet.
  rewrite (run_bind_ret _ _ _ _ _ (ConnectionBase.send_run _ _ c')).
  set (c2 := with_write_state _ _). unfold ClientEndpoint.sendRequest.
  unfold mbind, st_bind, gets at 1. cbn [fst snd].
  assert (0 < zlen (_output c2)) as Hpos.
  { unfold c2. cbn. rewrite Hout. match goal with |- context [ConnectionBase.frame_of ?s ?p HANDSHAKE ++ _] =>
      pose proof (ConnectionBase.frame_of_len s p HANDSHAKE) end.
    rewrite !zlen_app. unfold zlen in *. lia. }
  unfold ClientEndpoint.flush, modify. rewrite bool_decide_eq_false_2 by lia.
  match goal with |- context [channel_send ?r ?b ?n0] => destruct (Hu r b n0) as (e & n' & Hs & Hord) end.
  rewrite Hs. exists e. do 3 eexists. split; [exact Hord|]. cbn. by rewrite Htm.
Qed.

Lemma should_ask bound w : clock_before bound -> fresh_tickets bound (_tickets_manager w) ->
  (length (TicketsManager._tickets (_tickets_manager w)) <= 2)%nat ->
  exists clk, shouldAskForNewTickets w = (Some (Ret true), lend (_tickets_manager w) (_rng w) clk (_net w) w).
Proof.
  intros Hc Hf Hl. unfold shouldAskForNewTickets. pose proof (Hc (_clock w)) as Hn.
  destruct (getNowTimestamp (_clock w)) as [now1 clk]. destruct (getNowTimestamp clk) as [now2 clk'].
  unfold TicketsManager.shouldAskForNewTickets. rewrite (fresh_drop bound _ now1 Hf Hn).
  rewrite bool_decide_eq_true_2; [by exists clk'|].
  rewrite swrap_id by (unfold zlen; lia). change TICKETS_MIN_COUNT with 3. unfold zlen. lia.
Qed.

Lemma count_small t : (length (TicketsManager._tickets t) <= 2)%nat ->
  bool_decide (TicketsManager.ticketsCount t <> 0) = negb (bool_decide (TicketsManager._tickets t = [])).
Proof.
  intros Hl. unfold TicketsManager.ticketsCount. rewrite wrap_id by (unfold zlen; lia).
  destruct (TicketsManager._tickets t); unfold zlen; cbn; [done|].
  rewrite bool_decide_eq_true_2 by lia. done.
Qed.

(** A turn with a ticket that fails, up to its sleep. *)
Lemma turn_fails bound w k ticket rest failed : clock_before bound -> fresh_tickets bound (_tickets_manager w) ->
  unreachable -> TicketsManager._tickets (_tickets_manager w) = (k, ticket) :: rest -> (length rest <= 1)%nat ->
  failed < MAX_ATTEMPTS_OF_SESSION_RECONNECTION ->
  exists g clk n, ticket_turn failed w = (_ ← sleep; mret (Some (failed + 1)))
    (lend {| TicketsManager._tickets := rest; TicketsManager._tickets_ttl := TicketsManager._tickets_ttl (_tickets_manager w) |}
      g clk n w).
Proof.
  intros Hc Hf Hu Ht Hl Hfl.
  destruct (should_ask bound w Hc Hf) as (clk & Hs); [rewrite Ht; cbn; lia|].
  set (w1 := lend _ _ _ _ w) in Hs.
  destruct (ask_fails bound w1 k ticket rest Hc Hf Hu Ht) as (e & g & clk' & n & Hord & Ha); [unfold zlen; cbn; lia|].
  exists g, clk', n. unfold ticket_turn, try_else. rewrite (bt_bind_ret _ _ _ _ _ Hs).
  assert (run (gets (fun w => TicketsManager.ticketsCount (_tickets_manager w))) w1
    = (Some (Ret (TicketsManager.ticketsCount (_tickets_manager w))), w1)) as Hn by done.
  rewrite (bt_bind_ret _ _ _ _ _ Hn), count_small, Ht by (rewrite Ht; cbn; lia). cbn [negb].
  rewrite bool_decide_eq_false_2 by done. cbn [negb]. rewrite (bt_bind_throw _ _ _ _ _ Ha).
  destruct Hord as (N1 & N2 & N3). rewrite bool_decide_eq_false_2 by (unfold MAX_ATTEMPTS_OF_SESSION_RECONNECTION in *; lia).
  by destruct e.
Qed.

Lemma loop_runs_out bound turns : forall w failed, clock_before bound -> fresh_tickets bound (_tickets_manager w) ->
  unreachable -> moments w = [] -> _cancelled w = false ->
  length (TicketsManager._tickets (_tickets_manager w)) = turns -> (turns <= 2)%nat -> failed + Z.of_nat turns <= 16 ->
  exists t g clk n, ticket_loop (S turns) failed w = (Some (Ret true), lend t g clk n w) /\ TicketsManager._tickets t = [].
Proof.
  induction turns as [|turns IH]; intros w failed Hc Hf Hu Hw Hcan Hl Ht Hfl; cbn [ticket_loop].
  - destruct (should_ask bound w Hc Hf) as (clk & Hs); [lia|]. apply nil_length_inv in Hl.
    do 4 eexists. split; [|exact Hl].
    rewrite (bt_bind_ret _ _ _ _ _ (load_quiet _ _ Hw)), Hcan. unfold ticket_turn, try_else, mbind at 1, bt_bind at 1.
    rewrite (bt_bind_ret _ _ _ _ _ Hs).
    assert (run (gets (fun w => TicketsManager.ticketsCount (_tickets_manager w)))
      (lend (_tickets_manager w) (_rng w) clk (_net w) w)
      = (Some (Ret 0), lend (_tickets_manager w) (_rng w) clk (_net w) w)) as Hn.
    { cbn. unfold TicketsManager.ticketsCount. by rewrite Hl. }
    rewrite (bt_bind_ret _ _ _ _ _ Hn). reflexivity.
  - destruct (TicketsManager._tickets (_tickets_manager w)) as [|[k ticket] rest] eqn:Et; [done|]. cbn in Hl.
    destruct (turn_fails bound w k ticket rest failed Hc Hf Hu Et) as (g & clk & n & Htn);
      [lia|unfold MAX_ATTEMPTS_OF_SESSION_RECONNECTION; lia|].
    set (w1 := lend _ g clk n w) in Htn.
    assert (ticket_turn failed w = (Some (Ret (Some (failed + 1))), w1)) as Htn'.
    { rewrite Htn. unfold sleep, mbind, bt_bind. rewrite load_quiet by done. cbn. by rewrite Hcan. }
    rewrite (bt_bind_ret _ _ _ _ _ (load_quiet _ _ Hw)), Hcan, (bt_bind_ret _ _ _ _ _ Htn').
    destruct (IH w1 (failed + 1)) as (t & g' & clk' & n' & Hr & Hnil); [done| |done|done|done|cbn; lia|lia|lia|].
    { eapply fresh_tail; [exact Hf|]. rewrite Et. reflexivity. }
    exists t, g', clk', n'. split; [|done]. exact Hr.
Qed.

(** A request without a ticket is not sent. *)
Lemma call_without_tickets method params channel_type w : moments w = [] ->
  TicketsManager._tickets (_tickets_manager w) = [] ->
  exists g clk n, call method params channel_type false w = (Some (Throw TicketsCountIsEqualZeroException),
    dispatch SessionLost (set_session_established false (lend (_tickets_manager w) g clk n w))).
Proof.
  intros Hw Ht. destruct (_tickets_manager w) as [tickets ttl] eqn:Etm. cbn in Ht. subst tickets.
  set (t := {| TicketsManager._tickets := []; TicketsManager._tickets_ttl := ttl |}) in *.
  assert (exists c', ClientEndpoint.call method params false (ClientEndpoint.new t (_rng w) (_clock w) (_net w))
    = (Throw TicketsCountIsEqualZeroException, c') /\ ConnectionClient._tickets_manager (derived c') = t)
    as (c' & Hc & Htm).
  { unfold ClientEndpoint.call, ClientEndpoint.start, ClientEndpoint.ticketHandshake, ConnectionClient.ticketHandshake,
      ConnectionClient.reset, ConnectionClient.upd, ConnectionClient.now, TicketsManager.useTicket. unfold_st. cbn.
    destruct (getNowTimestamp (_clock w)) as [now clk]. eexists. split; reflexivity. }
  assert (exists g clk n, forall ws, request method params ws false w
    = (Some (Throw TicketsCountIsEqualZeroException), lend t g clk n w)) as (g & clk & n & Hr).
  { do 3 eexists. intros ws. unfold request, with_endpoint. rewrite Etm. unfold mbind, bt_bind, run. rewrite Hc, Htm.
    reflexivity. }
  exists g, clk, n. unfold call.
  rewrite (bt_bind_ret _ _ _ _ _ (interleaved_quiet w Hw)).
  assert (run (gets (fun w => main_channel_websocket (_options w))) w
    = (Some (Ret (main_channel_websocket (_options w))), w)) as Ho by done.
  rewrite (bt_bind_ret _ _ _ _ _ Ho). unfold try_else. rewrite Hr.
  rewrite (bt_bind_ret _ _ _ _ _ (store_quiet _ (lend t g clk n w) Hw)). reflexivity.
Qed.

(** C22: a session is lost in silence.  When at most two tickets are left, more
    are to be asked for with every one of them, and when the server cannot be
    reached each attempt uses a ticket up: after no more turns than there are
    tickets, and one, the loop has ended.  Nobody is told: the connection
    calls itself connected as before and no event is dispatched, until the next
    request finds no ticket and gives the session up. *)
Theorem session_lost_silently bound w method params channel_type :
  clock_before bound -> fresh_tickets bound (_tickets_manager w) -> unreachable ->
  moments w = [] -> _cancelled w = false ->
  (length (TicketsManager._tickets (_tickets_manager w)) <= 2)%nat ->
  exists w', ticket_loop (S (length (TicketsManager._tickets (_tickets_manager w)))) 0 w = (Some (Ret true), w')
    /\ isConnected w' = isConnected w /\ isSessionEstablished w' = isSessionEstablished w
    /\ dispatched w' = dispatched w
    /\ exists w'', call method params channel_type false w' = (Some (Throw TicketsCountIsEqualZeroException), w'')
      /\ isConnected w'' = false /\ dispatched w'' = dispatched w ++ [SessionLost].
Proof.
  intros Hc Hf Hu Hw Hcan Hl.
  destruct (loop_runs_out bound _ w 0 Hc Hf Hu Hw Hcan eq_refl Hl ltac:(lia)) as (t & g & clk & n & Hr & Ht).
  eexists. split; [exact Hr|]. split; [done|]. split; [done|]. split; [done|].
  destruct (call_without_tickets method params channel_type (lend t g clk n w) Hw Ht) as (g' & clk' & n' & Hcall).
  eexists. split; [exact Hcall|]. split; [|done]. unfold isConnected. cbn. by rewrite andb_false_r.
Qed.

(** the destructor may end the process.  While the ticket loop waits a
    second after a failed attempt, the cancelling with which the destructor
    begins makes the wait throw inside the handler of that failure: the
    exception leaves the thread's function, and the program ends.  *)
Theorem backoff_cancelled bound w k ticket rest turns :
  clock_before bound -> fresh_tickets bound (_tickets_manager w) -> unreachable ->
  TicketsManager._tickets (_tickets_manager w) = (k, ticket) :: rest -> (length rest <= 1)%nat ->
  _cancelled w = false -> moments w = [Quiet; Cancels] ->
  (ticket_loop (S turns) 0 w).1 = Some (Throw OperationCancelledException).
Proof.
  intros Hc Hf Hu Ht Hl Hcan Hm. cbn [ticket_loop].
  assert (load _cancelled w = (Some (Ret false), set_moments [Cancels] w)) as Hload
    by (unfold load, mbind, bt_bind, interleaved; rewrite Hm; cbn; by rewrite Hcan).
  rewrite (bt_bind_ret _ _ _ _ _ Hload).
  destruct (turn_fails bound (set_moments [Cancels] w) k ticket rest 0 Hc Hf Hu Ht Hl) as (g & clk & n & Htn);
    [done|]. unfold mbind at 1, bt_bind at 1. by rewrite Htn.
Qed.

(** *** A request and its answer *)

(** What an endpoint sends: the ticket, a change of cipher, and under the
    ticket's secret the request, with one for tickets before it if need be. *)
Definition request_text (ticket : TicketsManager.SessionTicket) (client_random : bytes) (asked : bool) (packet : bytes) : bytes :=
  let st := ConnectionBase.client_state (ConnectionBase.fresh_pair (TicketsManager.ticket_master_secret ticket)
              client_random (TicketsManager.ticket_id ticket)) in
  ConnectionBase.frame_of RWState_empty (pson_encode (new_object [
    (lit "type", of_string (lit "ticket")); (lit "ticket_id", of_binary (TicketsManager.ticket_id ticket));
    (lit "client_random", of_binary client_random)])) HANDSHAKE
  ++ ConnectionBase.frame_of RWState_empty [] CHANGE_CIPHER_SPEC
  ++ (if asked then
        ConnectionBase.frame_of st (pson_encode (new_object [
          (lit "type", of_string (lit "ticket_request")); (lit "count", of_int ClientEndpoint.TICKETS_MAX_COUNT)])) HANDSHAKE
        ++ ConnectionBase.frame_of (ConnectionBase.advance st) packet APPLICATION_DATA
      else ConnectionBase.frame_of st packet APPLICATION_DATA).

Definition call_packet (method : bytes) (params : Var) : bytes :=
  pson_encode (new_object [(lit "jsonrpc", of_string (lit "2.0")); (lit "id", of_int 0);
    (lit "method", of_string method); (lit "params", params)]).

(** What a server that knows the ticket replies with. *)
Definition reply_text (ticket : TicketsManager.SessionTicket) (client_random answer : bytes) : bytes :=
  ConnectionBase.frame_of RWState_empty [] CHANGE_CIPHER_SPEC
  ++ ConnectionBase.frame_of (ConnectionBase.server_state (ConnectionBase.fresh_pair
       (TicketsManager.ticket_master_secret ticket) client_random (TicketsManager.ticket_id ticket))) answer APPLICATION_DATA.

(** What an answer means to the caller. *)
Definition answered (v : Var) : outcome Var :=
  match (if has v (lit "error") then ConnectionClient.getObject v (lit "error") else None) with
  | Some err =>
      data ← get_object err (lit "data"); error ← get_object data (lit "error");
      msg ← get_string err (lit "msg"); code ← get_int error (lit "code"); Throw (ServerError code)
  | None => Ret (get_field v (lit "result"))
  end.

Lemma invoke_run v d : get_int v (lit "id") = Ret 0 ->
  0 ∈ ClientEndpoint._promises (ConnectionClient._owner d) ->
  ClientEndpoint.invoke v d = match answered v with
    | Ret r => (Ret tt, ClientEndpoint.set_owner
        (ClientEndpoint.mkEndpoint (ClientEndpoint._request_lock (ConnectionClient._owner d))
          (ClientEndpoint._promises (ConnectionClient._owner d) ∖ {[0]})
          (<[0 := r]> (ClientEndpoint.futures (ConnectionClient._owner d)))
          (ClientEndpoint._ticket_handshake (ConnectionClient._owner d))
          (ClientEndpoint._id (ConnectionClient._owner d)) (ClientEndpoint.net (ConnectionClient._owner d))) d)
    | Throw e => (Throw e, d)
    end.
Proof.
  intros Hid Hin. unfold ClientEndpoint.invoke, answered. unfold_st.
  destruct (if has v _ then _ else None) as [err|].
  - by destruct (get_object err _) as [data|e]; [destruct (get_object data _) as [error|e];
      [destruct (get_string err _); [destruct (get_int error _)|]|]|].
  - rewrite Hid. by rewrite bool_decide_eq_true_2.
Qed.

(** The reply is read to its end, or to the error it reports. *)
Lemma process_reply o ticket client_random answer v c :
  let fresh := ConnectionBase.fresh_pair (TicketsManager.ticket_master_secret ticket) client_random
                 (TicketsManager.ticket_id ticket) in
  _read_state c = RWState_empty -> _next_read_state c = ConnectionBase.server_state fresh ->
  ConnectionBase.packet_fits answer -> pson_decode answer = Ret v -> get_int v (lit "id") = Ret 0 ->
  0 ∈ ClientEndpoint._promises (ClientEndpoint.owner c) ->
  exists c', ClientEndpoint.process o (reply_text ticket client_random answer) c
      = (match answered v with Ret _ => Ret tt | Throw e => Throw e end, c')
    /\ ConnectionClient._tickets_manager (derived c') = ConnectionClient._tickets_manager (derived c)
    /\ ClientEndpoint.net (ClientEndpoint.owner c') = ClientEndpoint.net (ClientEndpoint.owner c)
    /\ (forall r, answered v = Ret r -> ClientEndpoint.futures (ClientEndpoint.owner c') !! 0 = Some r).
Proof.
  intros fresh Hr Hn Hfit Hdec Hid Hin. unfold ClientEndpoint.process, ConnectionBase.process, reply_text. fold fresh.
  set (st := ConnectionBase.server_state fresh) in *. set (loop := ConnectionBase.process_loop _ _ _).
  set (ccs := ConnectionBase.frame_of RWState_empty [] CHANGE_CIPHER_SPEC).
  set (app := ConnectionBase.frame_of st answer APPLICATION_DATA).
  assert (exists fuel, S (length (ccs ++ app)) = S (S (S fuel))) as [fuel ->].
  { pose proof (ConnectionBase.frame_of_len RWState_empty [] CHANGE_CIPHER_SPEC) as Hl. fold ccs in Hl.
    rewrite length_app. destruct (length ccs) as [|[|n]]; [lia|lia|]. by exists (n + length app)%nat. }
  assert (initialized st = true) as Hi by apply ConnectionBase.fresh_pair_initialized.
  set (frame := ConnectionBase.process_frame pson_decode (ClientEndpoint.processHandshakePacket o) ClientEndpoint.invoke).
  set (c2 := with_next_states (_next_write_state c) RWState_empty (with_read_state st
    (with_read_state (ConnectionBase.advance RWState_empty) c))).
  assert (frame (open_stream (ccs ++ app)) c = (Ret (Some (open_stream app)), c2)) as Hf1.
  { unfold frame, ccs. rewrite ConnectionBase.process_frame_of by done.
    unfold ConnectionBase.dispatch. rewrite !bool_decide_eq_false_2 by done. rewrite bool_decide_eq_true_2 by done.
    unfold mbind, st_bind, gets, throw_if. cbn [_next_read_state with_read_state]. rewrite Hn, Hi. done. }
  unfold loop. rewrite ConnectionBase.process_loop_step, (run_bind_ret _ _ _ _ _ Hf1), ConnectionBase.process_loop_step.
  set (c3 := with_read_state (ConnectionBase.advance st) c2). fold frame.
  assert (frame (open_stream app) c2 = (let '(r, d) := ClientEndpoint.invoke v (derived c) in
    (match r with Ret _ => Ret (Some (open_stream [])) | Throw e => Throw e end, with_derived d c3))) as Hf2.
  { unfold frame, app. rewrite <- (app_nil_r (ConnectionBase.frame_of _ _ _)).
    rewrite ConnectionBase.process_frame_of by done.
    unfold ConnectionBase.dispatch. rewrite bool_decide_eq_true_2 by done.
    unfold mbind, st_bind, lift, zoom. rewrite Hdec. fold c3. change (derived c3) with (derived c).
    by destruct (ClientEndpoint.invoke v (derived c)) as [[[]|e] d]. }
  rewrite (invoke_run v (derived c) Hid Hin) in Hf2. destruct (answered v) as [r|e] eqn:Ea.
  - rewrite (run_bind_ret _ _ _ _ _ Hf2), ConnectionBase.process_loop_step,
      (run_bind_ret _ _ _ _ _ (ConnectionBase.process_frame_end _ _ _ _)).
    eexists. split; [reflexivity|]. split; [done|]. split; [done|]. intros r' [= <-]. cbn. by rewrite lookup_insert_eq.
  - rewrite (run_bind_throw _ _ _ _ _ Hf2). eexists. split; [reflexivity|]. by split_and!.
Qed.

Lemma should_ask_run bound min c : clock_before bound -> fresh_tickets bound (ConnectionClient._tickets_manager (derived c)) ->
  exists b clk, ClientEndpoint.shouldAskForNewTickets min c = (Ret b, with_derived (ConnectionClient.set_clock clk (derived c)) c).
Proof.
  intros Hc Hf. unfold ClientEndpoint.shouldAskForNewTickets, ConnectionClient.now. unfold_st.
  pose proof (Hc (ConnectionClient._clock (derived c))) as Hn.
  destruct (getNowTimestamp (ConnectionClient._clock (derived c))) as [now1 clk]. cbn.
  destruct (getNowTimestamp clk) as [now2 clk']. unfold ConnectionClient.get_tm, ConnectionClient.put_tm. cbn.
  rewrite (fresh_drop bound _ now1 Hf Hn). by eexists _, clk'.
Qed.

(** The endpoint before it sends. *)
Lemma call_run bound method params t g clk n k ticket rest :
  clock_before bound -> fresh_tickets bound t -> TicketsManager._tickets t = (k, ticket) :: rest ->
  zlen ((k, ticket) :: rest) < 2 ^ 32 ->
  exists client_random asked c', ClientEndpoint.call method params false (ClientEndpoint.new t g clk n) = (Ret 0, c')
    /\ zlen client_random = 12
    /\ _output c' = request_text ticket client_random asked (call_packet method params)
    /\ _read_state c' = RWState_empty
    /\ _next_read_state c' = ConnectionBase.server_state (ConnectionBase.fresh_pair
         (TicketsManager.ticket_master_secret ticket) client_random (TicketsManager.ticket_id ticket))
    /\ TicketsManager._tickets (ConnectionClient._tickets_manager (derived c')) = rest
    /\ 0 ∈ ClientEndpoint._promises (ClientEndpoint.owner c')
    /\ ClientEndpoint.net (ClientEndpoint.owner c') = n.
Proof.
  intros Hc Hf Ht Hl.
  destruct (ticket_taken bound (ClientEndpoint.set_lock true) t g clk n k ticket rest Hc Hf Ht Hl)
    as (cr & c1 & He & Hcr & Hout & (Hws & Hnr & Hrs) & Htm & How).
  apply bind_inv in He as ([] & c0 & Hr & Hh). unfold ClientEndpoint.owner in How.
  set (c2 := ClientEndpoint.on_owner (ClientEndpoint.set_handshake true) c1).
  assert (fresh_tickets bound (ConnectionClient._tickets_manager (derived c2))) as Hf2.
  { change (derived c2) with (ClientEndpoint.set_owner (ClientEndpoint.set_handshake true (ClientEndpoint.owner c1)) (derived c1)).
    cbn. rewrite Htm. eapply fresh_tail; [exact Hf|]. rewrite Ht. reflexivity. }
  destruct (should_ask_run bound ClientEndpoint.TICKETS_MIN_COUNT c2 Hc Hf2) as (asked & clk' & Hask).
  set (c3 := with_derived (ConnectionClient.set_clock clk' (derived c2)) c2) in Hask.
  assert (exists c4, ClientEndpoint.start (ClientEndpoint.new t g clk n) = (Ret tt, c4)
    /\ _output c4 = _output c1 ++ (if asked then ConnectionBase.frame_of (_write_state c1) (pson_encode (new_object [
          (lit "type", of_string (lit "ticket_request")); (lit "count", of_int ClientEndpoint.TICKETS_MAX_COUNT)])) HANDSHAKE else [])
    /\ _write_state c4 = (if asked then ConnectionBase.advance (_write_state c1) else _write_state c1)
    /\ _read_state c4 = _read_state c1 /\ _next_read_state c4 = _next_read_state c1
    /\ ConnectionClient._tickets_manager (derived c4) = ConnectionClient._tickets_manager (derived c1)
    /\ ClientEndpoint.net (ClientEndpoint.owner c4) = n /\ ClientEndpoint._id (ClientEndpoint.owner c4) = 0)
    as (c4 & Hst & O4 & W4 & R4 & N4 & T4 & E4 & I4).
  { unfold ClientEndpoint.start. unfold mbind at 1, st_bind at 1, modify at 1, try_catch.
    rewrite (run_bind_ret _ _ _ _ _ Hr), (run_bind_ret _ _ _ _ _ Hh).
    assert (modify (ClientEndpoint.on_owner (ClientEndpoint.set_handshake true)) c1 = (Ret tt, c2)) as Hm by done.
    rewrite (run_bind_ret _ _ _ _ _ Hm), (run_bind_ret _ _ _ _ _ Hask). destruct asked.
    - unfold ConnectionClient.ticketRequest, ConnectionClient.send_packet. rewrite ConnectionBase.send_run.
      eexists. split; [reflexivity|]. unfold c3, c2. cbn. rewrite How. by split_and!.
    - eexists. split; [reflexivity|]. unfold c3, c2. cbn. rewrite How, app_nil_r. by split_and!. }
  unfold ClientEndpoint.call. unfold mbind at 1, st_bind at 1, gets at 1. cbn [negb andb].
  change (ClientEndpoint._ticket_handshake (ClientEndpoint.owner (ClientEndpoint.new t g clk n))) with false. cbn [negb].
  rewrite (run_bind_ret _ _ _ _ _ Hst). unfold mbind at 1, st_bind at 1, gets at 1. rewrite I4. cbv zeta.
  fold (call_packet method params).
  rewrite (run_bind_ret _ _ _ _ _ (ConnectionBase.send_run _ _ c4)).
  exists cr, asked. eexists. split; [reflexivity|]. split; [exact Hcr|].
  unfold ClientEndpoint.owner in E4, I4 |- *.
  cbn -[ConnectionBase.frame_of ConnectionBase.advance]. rewrite O4, W4, R4, N4, T4, E4, I4, Hout, Hws, Hnr, Hrs, Htm.
  split_and!; [|done..|set_solver|done]. unfold request_text. rewrite <- !app_assoc. by destruct asked.
Qed.

(** C14: a request and its answer.  With a valid ticket the request goes out
    under keys of that ticket's secret and a fresh random, and the ticket is
    used up; if the server answers it under the keys the ticket and that random
    give it, the caller gets the result the answer holds, or the exception of
    its error, and nothing of the connection changes but the tickets, the
    clock, the randomness and the network. *)
Theorem request_answered bound w method params ws k ticket rest answer v n' :
  clock_before bound -> fresh_tickets bound (_tickets_manager w) ->
  TicketsManager._tickets (_tickets_manager w) = (k, ticket) :: rest -> zlen ((k, ticket) :: rest) < 2 ^ 32 ->
  ConnectionBase.packet_fits answer -> pson_decode answer = Ret v -> get_int v (lit "id") = Ret 0 ->
  (forall client_random asked, zlen client_random = 12 ->
    channel_send (request_text ticket client_random asked (call_packet method params)) ws (_net w)
    = (Ret (reply_text ticket client_random answer), n')) ->
  exists t g clk, request method params ws false w = (Some (answered v), lend t g clk n' w)
    /\ TicketsManager._tickets t = rest.
Proof.
  intros Hc Hf Ht Hl Hfit Hdec Hid Hsend.
  destruct (call_run bound method params (_tickets_manager w) (_rng w) (_clock w) (_net w) k ticket rest Hc Hf Ht Hl)
    as (cr & asked & c1 & Hcall & Hcr & Hout & Hrs & Hnr & Htm & Hpr & Hnet).
  set (c2 := ClientEndpoint.on_owner (ClientEndpoint.set_net n')
               (ClientEndpoint.on_owner (ClientEndpoint.set_handshake false) (with_output [] c1))).
  destruct (process_reply (_options w) ticket cr answer v c2) as (c3 & Hp & T3 & N3 & F3); [done..|].
  assert (ClientEndpoint.sendRequest (_options w) ws c1
    = ClientEndpoint.process (_options w) (reply_text ticket cr answer) c2) as Hs.
  { unfold ClientEndpoint.sendRequest, ClientEndpoint.flush. unfold mbind, st_bind, gets, modify.
    rewrite bool_decide_eq_false_2.
    - change (ClientEndpoint.net (ClientEndpoint.owner (ClientEndpoint.on_owner _ (with_output [] c1))))
        with (ClientEndpoint.net (ClientEndpoint.owner c1)). by rewrite Hnet, Hout, (Hsend cr asked Hcr).
    - rewrite Hout. unfold request_text. match goal with |- context [ConnectionBase.frame_of ?s ?p HANDSHAKE ++ _] =>
        pose proof (ConnectionBase.frame_of_len s p HANDSHAKE) as Hlen end.
      rewrite !zlen_app. unfold zlen in *. lia. }
  unfold request, with_endpoint, mbind, bt_bind, run. rewrite Hcall, Hs, Hp.
  assert (TicketsManager._tickets (ConnectionClient._tickets_manager (derived c3)) = rest) as Hrest by by rewrite T3.
  assert (ClientEndpoint.net (ConnectionClient._owner (derived c3)) = n') as Hn3 by exact N3.
  destruct (answered v) as [r|e].
  - unfold ClientEndpoint.get. rewrite (F3 r eq_refl). rewrite Hn3. do 3 eexists. by split.
  - rewrite Hn3. do 3 eexists. by split.
Qed.
End Requests.

(** ** A server to talk to

    Its tickets have one secret, it finds the client's random in the clear
    announcement of a ticket, and every answer it gives is the same. *)
Module ToySessions.
Import AuthorizedConnection.
#[local] Existing Instances Toy.service Toy.laws ToyEcc.ecc ToyJson.encodings ToyCodec.keys.

Definition answer : bytes := lit "answer".
Definition value : ToyJson.json := ToyJson.JObject [(lit "id", ToyJson.JInt 0);
  (lit "result", ToyJson.JObject [(lit "wsChannelId", ToyJson.JInt 7)])].

#[local] Instance dynamic : Dynamic :=
  let d := ToyJson.dynamic [(answer, value)] in {|
  Var := ToyJson.json;
  get_string := @get_string d; get_binary := @get_binary d; get_int := @get_int d; get_object := @get_object d;
  get_binaries := @get_binaries d; has := @has d; is_empty := @is_empty d; new_object := @new_object d;
  set_field := @set_field d; of_string := @of_string d; of_binary := @of_binary d; of_int := @of_int d;
  pson_encode v := match ToyJson.field v (lit "client_random") with Some (ToyJson.JBinary r) => r | _ => [] end;
  pson_decode := @pson_decode d; parse_json := @parse_json d; parse_json_object := @parse_json_object d;
  stringify := @stringify d; stringify_empty := @stringify_empty d |}.

Definition ticket : TicketsManager.SessionTicket :=
  {| TicketsManager.ticket_id := lit "id"; TicketsManager.ticket_master_secret := lit "secret" |}.

Definition field_or (v : ToyJson.json) (k : bytes) : ToyJson.json := default (ToyJson.JObject []) (ToyJson.field v k).

(** A plain request begins with an application frame, another with the
    announcement of its ticket. *)
Definition serve (request : bytes) : bytes :=
  if bool_decide (slice 1 1 request = [x17]) then ConnectionBase.plain_frame answer APPLICATION_DATA
  else ConnectionBase.frame_of RWState_empty [] CHANGE_CIPHER_SPEC
       ++ ConnectionBase.frame_of (ConnectionBase.server_state (ConnectionBase.fresh_pair (lit "secret")
            (slice 8 12 request) (lit "id"))) answer APPLICATION_DATA.

Definition server : Surroundings PublicKey := {|
  Clock := unit; getNowTimestamp k := (0, k);
  Net := unit; channel_send request _ n := (Ret (serve request), n); on_close_all_channels n := n;
  get_field := field_or; of_bool b := ToyJson.JInt (Z.b2z b); ecc_fromPublicKey := fromDER |}.

(** The same, out of reach. *)
Definition no_server : Surroundings PublicKey := {|
  Clock := unit; getNowTimestamp k := (0, k);
  Net := unit; channel_send _ _ n := (Throw HttpRequestException, n); on_close_all_channels n := n;
  get_field := field_or; of_bool b := ToyJson.JInt (Z.b2z b); ecc_fromPublicKey := fromDER |}.

Definition options : ConnectionOptionsFull := mkOptions (lit "agent") (lit "host") false true true true.

(** An established session with so many tickets. *)
Definition established {S : Surroundings PublicKey} (clk : Clock) (net : Net) (channels checked : bool)
    (tickets : nat) (funcs : gmap Z ws_funcs) (id : Z) (l : list moment) : connection :=
  mkConnection options None false channels checked true
    {| TicketsManager._tickets := replicate tickets (1000, ticket); TicketsManager._tickets_ttl := -1 |}
    id false true funcs [] (1 : @rng Toy.service) clk net l.

Lemma tickets_fresh n : fresh_tickets 1
  {| TicketsManager._tickets := replicate n (1000, ticket); TicketsManager._tickets_ttl := -1 |}.
Proof.
  split; cbn.
  - unfold TicketsManager.tm_ok, TicketsManager.by_expiry. cbn. induction n as [|n IH]; [constructor|]. cbn. constructor; [done|].
    clear. induction n as [|n IH]; [constructor|]. cbn. by constructor.
  - induction n as [|n IH]; [constructor|]. cbn. constructor; [done|exact IH].
Qed.

Lemma ended {A B} (p : A * B) a : p.1 = a -> p = (a, p.2).
Proof. by destruct p; intros <-. Qed.

Definition at_rest : connection (Surroundings0 := server) :=
  established (S := server) tt tt false false 6 (<[3 := Own (lit "old")]> ∅) 3 [].

Lemma close_unnoticed_witness : exists k w2,
  verifyConnection (set_moments (repeat Quiet k ++ [Closes; Quiet]) at_rest) = (Some (Ret tt), w2)
  /\ isConnected w2 = false /\ last (dispatched w2) = Some Connected.
Proof.
  destruct (close_unnoticed at_rest (verifyConnection at_rest).2) as (k & w2 & Hv & Hc & Hl & _).
  - reflexivity.
  - reflexivity.
  - reflexivity.
  - reflexivity.
  - reflexivity.
  - intros i key Hi. unfold at_rest, established in Hi. cbn in Hi. apply lookup_insert_Some in Hi as [[<- _]|[_ Hi]]; [split; [reflexivity|discriminate]|].
    by rewrite lookup_empty in Hi.
  - apply ended. vm_compute. reflexivity.
  - vm_compute. reflexivity.
  - vm_compute. discriminate.
  - exact (ex_intro _ k (ex_intro _ w2 (conj Hv (conj Hc Hl)))).
Defined.

Lemma destroyed_is_final_witness :
  isConnected (foldl (fun w o => perform o w) (destroy at_rest).2 [Init; Verify]) = false.
Proof.
  destruct (destroyed_is_final at_rest (destroy at_rest).2 [Init; Verify] [] (ToyJson.JObject []) None) as (Hc & _).
  - apply ended. vm_compute. reflexivity.
  - exact Hc.
Defined.

Lemma no_server_unreachable : unreachable (Surroundings0 := no_server).
Proof. intros r ws n. exists HttpRequestException, n. split; [reflexivity|]. by split_and!. Qed.

Definition last_tickets (l : list moment) : connection (Surroundings0 := no_server) :=
  established (S := no_server) tt tt true true 2 (<[3 := Own (lit "old")]> ∅) 3 l.

Lemma session_lost_silently_witness : exists w', ticket_loop 3 0 (last_tickets []) = (Some (Ret true), w')
  /\ isConnected w' = true /\ dispatched w' = [].
Proof.
  destruct (session_lost_silently 1 (last_tickets []) [] (ToyJson.JObject []) None) as (w' & Hr & Hc & _ & Hd & _).
  - intros k. reflexivity.
  - apply tickets_fresh.
  - apply no_server_unreachable.
  - reflexivity.
  - reflexivity.
  - cbn. lia.
  - exact (ex_intro _ w' (conj Hr (conj Hc Hd))).
Defined.

Lemma backoff_cancelled_witness :
  (ticket_loop 1 0 (last_tickets [Quiet; Cancels])).1 = Some (Throw OperationCancelledException).
Proof.
  apply (backoff_cancelled 1 (last_tickets [Quiet; Cancels]) 1000 ticket [(1000, ticket)] 0).
  - intros k. reflexivity.
  - apply tickets_fresh.
  - apply no_server_unreachable.
  - reflexivity.
  - cbn. lia.
  - reflexivity.
  - reflexivity.
Defined.

Lemma serve_reply cr asked packet : zlen cr = 12 -> serve (request_text ticket cr asked packet) = reply_text ticket cr answer.
Proof.
  intros Hcr. unfold request_text.
  match goal with |- serve (ConnectionBase.frame_of _ ?p HANDSHAKE ++ _) = _ => change p with cr end.
  match goal with |- serve (_ ++ ?r) = _ => generalize r end. intros r.
  assert (ConnectionBase.frame_of RWState_empty cr HANDSHAKE = ConnectionBase.frame_header_body HANDSHAKE (u32 (zlen cr)) ++ cr)
    as -> by done.
  rewrite Hcr.
  assert (ConnectionBase.frame_header_body HANDSHAKE (u32 12) = [x01; x16; x00; x00; x00; x0c; x00; x00]) as -> by (vm_compute; reflexivity).
  unfold serve.
  assert (slice 1 1 (([x01; x16; x00; x00; x00; x0c; x00; x00] ++ cr) ++ r) = [x16]) as ->.
  { unfold slice. rewrite <- app_assoc, zdrop_app_le by done. rewrite ztake_app_le by done. reflexivity. }
  assert (slice 8 12 (([x01; x16; x00; x00; x00; x0c; x00; x00] ++ cr) ++ r) = cr) as ->.
  { unfold slice. rewrite <- app_assoc, zdrop_app_eq by done. by apply ztake_app_eq. }
  reflexivity.
Qed.

Lemma request_answered_witness : exists t g clk,
  request (Surroundings0 := server) (lit "ping") (ToyJson.JObject [] : @Var dynamic) false false at_rest
    = (Some (Ret (ToyJson.JObject [(lit "wsChannelId", ToyJson.JInt 7)] : @Var dynamic)), lend t g clk (tt : @Net _ _ server) at_rest)
  /\ TicketsManager._tickets t = replicate 5 (1000, ticket).
Proof.
  apply (request_answered 1 at_rest (lit "ping") (ToyJson.JObject []) false 1000 ticket
    (replicate 5 (1000, ticket)) answer value tt).
  - intros k. reflexivity.
  - apply tickets_fresh.
  - reflexivity.
  - reflexivity.
  - reflexivity.
  - reflexivity.
  - reflexivity.
  - intros cr asked Hcr. exact (f_equal (fun r => (Ret r, tt)) (serve_reply cr asked _ Hcr)).
Defined.
End ToySessions.
