(* ===== verification/Encryptors.v ===== *)
(** * Signed and sealed data

    The encryptors of the data the server stores:
    [DataInnerEncryptorV4], [DataEncryptorV4] and [DIOEncryptorV1]
    (endpoint/core/src/encryptors).  Each field is signed by its author,
    private ones are then sealed with the container key, and the checksums of
    the encoded fields are bound together by a signed data-integrity object
    (DIO). *)

From Stdlib Require Import ZArith Lia Strings.String Strings.Byte.
From stdpp Require Import base list gmap.
From S2P Require Import Prelude Bytes Crypto CryptoSuite Dynamic.

(** ** Decryption results

    A [decrypt] fills a result field by field inside a [try] and records the
    code of what was thrown; the fields set before stay.  [statusCode] is the
    class whose code is recorded, [None] for 0: exceptions of other families
    share the code of [EndpointCoreException].  An undefined read has no
    result. *)
Definition status_of (e : exn) : exn := if std_exn e then EndpointCoreException else e.

Definition guarded {R} (body : ST R unit) (set_status : option exn -> R -> R) (init : R) : outcome R :=
  match body init with
  | (Ret _, r) => Ret r
  | (Throw UndefinedBehaviour, _) => Throw UndefinedBehaviour
  | (Throw e, r) => Ret (set_status (Some (status_of e)) r)
  end.

Module DataInnerEncryptorV4.
Record DataWithSignature := { signature : bytes; data : bytes }.

Section Inner.
Context `{Ecc} `{!Encodings}.

Definition encode (d : bytes) : bytes := base64_from d.
Definition decode (dataAsBase64 : bytes) : outcome bytes := base64_to dataAsBase64.

Definition encrypt (d encryptionKey : bytes) : ST rng bytes :=
  CryptoPrivmx.privmxEncrypt CryptoPrivmx.privmxOptAesWithSignature d encryptionKey [].
Definition decrypt (privateData encryptionKey : bytes) : outcome bytes :=
  CryptoPrivmx.privmxDecrypt true privateData encryptionKey [] 16.

Definition sign (d : bytes) (authorPrivateKey : PrivateKey) : DataWithSignature :=
  {| signature := signToCompactSignatureWithHash authorPrivateKey d; data := d |}.

Definition packDataWithSignature (s : DataWithSignature) : bytes :=
  [x01] ++ [byte_of (zlen (signature s))] ++ signature s ++ data s.

Definition signAndPackDataWithSignature (d : bytes) (authorPrivateKey : PrivateKey) : bytes :=
  packDataWithSignature (sign d authorPrivateKey).

(** [buf[1]] of a one-byte string is its terminating zero. *)
Definition extractDataWithSignature (buf : bytes) : outcome DataWithSignature :=
  if bool_decide (CipherSuite.byte_at_0 buf = x01) then
    let signatureLength := byte_val (CipherSuite.byte_at_0 (zdrop 1 buf)) in
    signature ← substr buf 2 signatureLength;
    data ← substr_from buf (2 + signatureLength);
    mret {| signature := signature; data := data |}
  else Throw UnsupportedTypeException.

Definition verifySignature (s : DataWithSignature) (authorPublicKey : PublicKey) : bool :=
  verifyCompactSignatureWithHash authorPublicKey (data s) (signature s).

Definition verifyAndExtractData (signedData : bytes) (authorPublicKey : PublicKey) : outcome bytes :=
  dataWithSignature ← extractDataWithSignature signedData;
  if negb (verifySignature dataWithSignature authorPublicKey) then Throw InvalidDataSignatureException
  else mret (data dataWithSignature).
End Inner.

Section Laws.
Context {C : CryptoService} `{!CryptoLaws C} {E : Ecc} `{!EccLaws E} {E0 : Encodings} `{!EncodingsLaws E0}.

Lemma extract_pack s : zlen (signature s) < 256 ->
  extractDataWithSignature (packDataWithSignature s) = Ret s.
Proof.
  intros Hl. destruct s as [sig d]. unfold extractDataWithSignature, packDataWithSignature.
  cbn [signature data] in *. pose proof (zlen_nonneg sig).
  rewrite (zdrop_app_eq 1 [x01]) by done.
  cbn [CipherSuite.byte_at_0 app]. rewrite bool_decide_eq_true_2 by done.
  rewrite byte_val_of, Z.mod_small by lia.
  change (x01 :: byte_of (zlen sig) :: sig ++ d) with ([x01; byte_of (zlen sig)] ++ sig ++ d).
  pose proof (zlen_nonneg d).
  rewrite substr_ret, substr_from_ret by (rewrite !zlen_app; change (zlen [x01; byte_of (zlen sig)]) with 2; lia).
  unfold slice. rewrite (zdrop_app_eq 2) by done. rewrite ztake_app.
  rewrite app_assoc, zdrop_app_eq; [done|]. by rewrite zlen_app.
Qed.

Lemma verify_signed d k : verifySignature (sign d k) (getPublicKey k) = true.
Proof. apply verify_sign. Qed.

Lemma verify_pack d k :
  verifyAndExtractData (signAndPackDataWithSignature d k) (getPublicKey k) = Ret d.
Proof.
  unfold verifyAndExtractData, signAndPackDataWithSignature.
  rewrite extract_pack by (cbn; unfold signToCompactSignatureWithHash; rewrite sign_len; lia).
  unfold_st. by rewrite verify_signed.
Qed.

Lemma zlen_pack d k : zlen (signAndPackDataWithSignature d k) = 67 + zlen d.
Proof.
  unfold signAndPackDataWithSignature, packDataWithSignature, sign. cbn [signature data].
  rewrite !zlen_app. unfold signToCompactSignatureWithHash. rewrite sign_len, !zlen_cons, zlen_nil. lia.
Qed.

(** Accepted data carries a valid signature of its author. *)
Lemma verify_accepts b p d : verifyAndExtractData b p = Ret d ->
  exists sig, extractDataWithSignature b = Ret {| signature := sig; data := d |}
    /\ verifyCompactSignatureWithHash p d sig = true.
Proof.
  unfold verifyAndExtractData. unfold_st.
  destruct (extractDataWithSignature b) as [[sig d']|]; [|done].
  destruct (verifySignature _ _) eqn:Ev; [|done]. simpl. intros [= <-]. by exists sig.
Qed.
End Laws.
End DataInnerEncryptorV4.

Module DataEncryptorV4.
Import DataInnerEncryptorV4.
Section DataEncryptor.
Context `{Ecc} `{!Encodings}.

Definition signAndEncode (d : bytes) (authorPrivateKey : PrivateKey) : bytes :=
  let signedData := signAndPackDataWithSignature d authorPrivateKey in
  encode signedData.

Definition signAndEncryptAndEncode (d : bytes) (authorPrivateKey : PrivateKey) (encryptionKey : bytes) :
    ST rng bytes :=
  let signedData := signAndPackDataWithSignature d authorPrivateKey in
  encrypted ← encrypt signedData encryptionKey;
  mret (encode encrypted).

Definition decodeAndVerify (publicDataAsBase64 : bytes) (authorPublicKey : PublicKey) : outcome bytes :=
  decoded ← decode publicDataAsBase64;
  verifyAndExtractData decoded authorPublicKey.

Definition decodeAndDecryptAndVerify (privateDataAsBase64 : bytes) (authorPublicKey : PublicKey)
    (encryptionKey : bytes) : outcome bytes :=
  decoded ← decode privateDataAsBase64;
  decrypted ← decrypt decoded encryptionKey;
  verifyAndExtractData decrypted authorPublicKey.
End DataEncryptor.

Section Laws.
Context {C : CryptoService} `{!CryptoLaws C} {E : Ecc} `{!EccLaws E} {E0 : Encodings} `{!EncodingsLaws E0}.

(** The sizes in play stay far below the width of [size_t]. *)
Definition small (d : bytes) : Prop := zlen d < 2 ^ 63.

Lemma open_signed d k : decodeAndVerify (signAndEncode d k) (getPublicKey k) = Ret d.
Proof.
  unfold decodeAndVerify, signAndEncode, encode, decode. rewrite base64_inv. apply verify_pack.
Qed.

(** What [CryptoPrivmx] seals with its default options it opens again; the
    first byte names the cipher. *)
Lemma inner_total s ek g : zlen ek = 32 -> zlen s < 67 + 2 ^ 63 ->
  exists c g', encrypt s ek g = (Ret c, g') /\ decrypt c ek = Ret s
    /\ exists rest, c = CipherSuite.AES_256_CBC_PKCS7_WITH_IV_AND_HMAC_SHA256 :: rest.
Proof.
  intros Hk Hs. unfold encrypt.
  assert (exists c g', CryptoPrivmx.privmxEncrypt CryptoPrivmx.privmxOptAesWithSignature s ek [] g = (Ret c, g')
    /\ exists iv, c = CipherSuite.ctAes256CbcPkcs7WithIvAndHmacSha256 s ek iv 16) as (c & g' & Hc & iv & Hiv).
  { unfold CryptoPrivmx.privmxEncrypt. rewrite bool_decide_eq_false_2 by lia.
    cbn [CryptoPrivmx.algorithm CryptoPrivmx.hmac CryptoPrivmx.attachIv CryptoPrivmx.deterministic
      CryptoPrivmx.privmxOptAesWithSignature CryptoPrivmx.taglen].
    destruct (CryptoPrivmx.fresh_iv_run [] g (or_introl eq_refl)) as (iv & g' & Hr & _).
    rewrite bool_decide_eq_true_2 by done.
    rewrite (bool_decide_eq_false_2 (CryptoPrivmx.SHA_256 <> CryptoPrivmx.SHA_256)) by tauto. cbn [orb negb].
    rewrite (run_bind_ret _ _ _ _ _ Hr). do 2 eexists. split; [done|]. by exists iv. }
  exists c, g'. split; [done|]. split; [|rewrite Hiv; by eexists].
  unfold decrypt.
  assert (CryptoPrivmx.fits c) as Hf.
  { rewrite Hiv. unfold CryptoPrivmx.fits, CipherSuite.ctAes256CbcPkcs7WithIvAndHmacSha256,
      CipherSuite.aes256CbcHmac256Encrypt. destruct (Kdf.getKEM ek 32 32) as [kE kM].
    rewrite zlen_cons, zlen_app, zlen_ztake, hmacSha256_len, aes256Cbc_len, zlen_app, zlen_zeros by lia.
    unfold AES_BLOCK. pose proof (Z.mod_pos_bound (16 + zlen s) 16). lia. }
  unfold CryptoPrivmx.privmxDecrypt. rewrite Hiv.
  rewrite (bool_decide_eq_false_2 (_ <> _)) by (cbn; tauto). cbn [andb].
  rewrite Hiv in Hf. by rewrite CryptoPrivmx.hmac_decrypt by (done || lia).
Qed.

Lemma seal_total d k ek g : zlen ek = 32 -> small d ->
  exists c g', signAndEncryptAndEncode d k ek g = (Ret c, g')
    /\ decodeAndDecryptAndVerify c (getPublicKey k) ek = Ret d /\ c <> [].
Proof.
  intros Hk Hd. unfold small in Hd. unfold signAndEncryptAndEncode.
  destruct (inner_total (signAndPackDataWithSignature d k) ek g) as (c & g' & Hc & Ho & rest & Hr);
    [done|rewrite zlen_pack; lia|].
  rewrite (run_bind_ret _ _ _ _ _ Hc). do 2 eexists. split; [done|].
  split; [|apply base64_nonempty; by rewrite Hr].
  unfold decodeAndDecryptAndVerify, decode, encode. rewrite base64_inv. unfold_st. rewrite Ho. apply verify_pack.
Qed.

(** The same for a field that may be absent. *)
Lemma seal_optional_total (o : option bytes) k ek g : zlen ek = 32 -> (forall m, o = Some m -> small m) ->
  exists ci g', match o with
      | Some m => c ← signAndEncryptAndEncode m k ek; mret (Some c)
      | None => mret None
      end g = (Ret ci, g')
    /\ match ci with
       | Some c => exists m, o = Some m /\ decodeAndDecryptAndVerify c (getPublicKey k) ek = Ret m
       | None => o = None
       end.
Proof.
  intros Hk Hi. destruct o as [m|]; [|by eexists None, _].
  destruct (seal_total m k ek g Hk (Hi m eq_refl)) as (c & g' & Ei & Oi & _).
  rewrite (run_bind_ret _ _ _ _ _ Ei). eexists (Some c), g'. split; [done|]. by exists m.
Qed.

Lemma sign_nonempty d k : signAndEncode d k <> [].
Proof. by apply base64_nonempty. Qed.

(** What a run of the sealing gave opens again. *)
Lemma seal_opens d k ek g c g' :
  signAndEncryptAndEncode d k ek g = (Ret c, g') -> zlen ek = 32 -> small d ->
  decodeAndDecryptAndVerify c (getPublicKey k) ek = Ret d /\ c <> [].
Proof.
  intros Hs Hk Hd. destruct (seal_total d k ek g Hk Hd) as (c' & g2 & Hc & Hr).
  rewrite Hs in Hc. by injection Hc as -> ->.
Qed.

Lemma open_signed_accepts c p d : decodeAndVerify c p = Ret d ->
  exists sig, verifyCompactSignatureWithHash p d sig = true.
Proof.
  unfold decodeAndVerify. unfold_st. destruct (decode c) as [b|]; [|done].
  intros Hv. apply verify_accepts in Hv as (sig & _ & Hs). by exists sig.
Qed.

Lemma open_sealed_accepts c p ek d : decodeAndDecryptAndVerify c p ek = Ret d ->
  exists sig, verifyCompactSignatureWithHash p d sig = true.
Proof.
  unfold decodeAndDecryptAndVerify. unfold_st. destruct (decode c) as [b|]; [|done].
  destruct (decrypt b ek) as [s|]; [|done].
  intros Hv. apply verify_accepts in Hv as (sig & _ & Hs). by exists sig.
Qed.
End Laws.
End DataEncryptorV4.
