(* ===== verification/Dio.v ===== *)
(** * Data-integrity objects

    [DIOEncryptorV1] (endpoint/core/src/encryptors/DIO/DIOEncryptorV1.cpp): the
    signed record of who created a piece of data, where and when, with the
    checksums of its encoded fields. *)

From Stdlib Require Import ZArith Lia Strings.String Strings.Byte.
From stdpp Require Import base list gmap fin_maps.
From S2P Require Import Prelude Bytes CoreTypes Crypto CryptoSuite Dynamic Encryptors.

Definition empty_dio : DataIntegrityObject := mkDIO [] [] [] [] 0 [] None None None.

(** [std::unordered_map<std::string, std::string>] *)
Abbreviation checksums := (gmap bytes bytes).

Record ExpandedDataIntegrityObject := {
  dio : DataIntegrityObject;
  structureVersion : Z;
  fieldChecksums : checksums;
}.

(** [fieldChecksums.at(k)] *)
Definition at_key (m : checksums) (k : bytes) : outcome bytes :=
  match m !! k with Some v => Ret v | None => Throw StdOutOfRange end.

Module DIOEncryptorV1.
Definition VERSION_1 : Z := 1.

(** [dynamic::DataIntegrityObject], its fields grouped: the version, the
    object's own fields, the encoded checksums, the structure version. *)
Record DioJson := {
  json_version : Z;
  json_dio : DataIntegrityObject;
  json_fieldChecksums : checksums;
  json_structureVersion : Z;
}.

Section Dio.
Context `{Ecc} `{!Encodings} `{!KeyFormats PublicKey} `{!JsonCodec DioJson}.

Definition signAndEncode (d : ExpandedDataIntegrityObject) (authorKey : PrivateKey) : outcome bytes :=
  if bool_decide (dio_creatorPubKey (dio d) <> toBase58DER (getPublicKey authorKey)) then
    Throw DataIntegrityObjectMismatchEncKeyException
  else
    let dioJSON := {|
      json_version := VERSION_1;
      json_dio := dio d;
      json_fieldChecksums := base64_from <$> fieldChecksums d;
      json_structureVersion := structureVersion d |} in
    mret (DataInnerEncryptorV4.encode
      (DataInnerEncryptorV4.signAndPackDataWithSignature (serialize dioJSON) authorKey)).

Definition assertDataFormat (dioJSON : DioJson) : outcome unit :=
  let d := json_dio dioJSON in
  if bool_decide (json_version dioJSON <> VERSION_1)
     || bool_decide (dio_creatorUserId d = []) || bool_decide (dio_creatorPubKey d = [])
     || bool_decide (dio_contextId d = []) || bool_decide (dio_randomId d = [])
  then Throw MalformedDataIntegrityObjectException
  else mret tt.

(** The loop that decodes the checksums. *)
Definition decode_checksums (m : checksums) : outcome checksums :=
  map_fold (fun k v acc => acc ← acc; c ← base64_to v; mret (<[k := c]> acc)) (Ret ∅) m.

(** The result is built from [*dioJSON.bridgeIdentity], which the function
    reads without looking whether it is there. *)
Definition decodeAndVerify (signedDio : bytes) : outcome ExpandedDataIntegrityObject :=
  buf ← DataInnerEncryptorV4.decode signedDio;
  dioAndSignature ← DataInnerEncryptorV4.extractDataWithSignature buf;
  dioJSON ← deserialize (DataInnerEncryptorV4.data dioAndSignature);
  _ ← assertDataFormat dioJSON;
  cs ← decode_checksums (json_fieldChecksums dioJSON);
  creator ← fromBase58DER (dio_creatorPubKey (json_dio dioJSON));
  if negb (DataInnerEncryptorV4.verifySignature dioAndSignature creator) then
    Throw DataIntegrityObjectInvalidSignatureException
  else
    match dio_bridgeIdentity (json_dio dioJSON) with
    | None => Throw UndefinedBehaviour
    | Some _ => mret {| dio := json_dio dioJSON; structureVersion := json_structureVersion dioJSON;
                        fieldChecksums := cs |}
    end.
End Dio.

Section Laws.
Context {C : CryptoService} `{!CryptoLaws C} {E : Ecc} `{!EccLaws E} {E0 : Encodings} `{!EncodingsLaws E0}.
Context `{!KeyFormats PublicKey} `{!KeyFormatsLaws PublicKey} `{!JsonCodec DioJson} `{!JsonCodecLaws DioJson}.

(** What a creator must have filled in. *)
Definition well_formed (d : DataIntegrityObject) : Prop :=
  dio_creatorUserId d <> [] /\ dio_contextId d <> [] /\ dio_randomId d <> [] /\ is_Some (dio_bridgeIdentity d).

Lemma decode_checksums_inv (m : checksums) : decode_checksums (base64_from <$> m) = Ret m.
Proof.
  unfold decode_checksums. remember (base64_from <$> m) as m' eqn:Em. revert m Em.
  apply (map_fold_weak_ind (fun r m' => forall m, m' = base64_from <$> m -> r = Ret m)).
  - intros m Em. symmetry in Em. apply fmap_empty_inv in Em. by subst.
  - intros k v m0 r Hk IH m Em.
    assert (exists w, m !! k = Some w /\ v = base64_from w) as (w & Hw & ->).
    { pose proof (f_equal (lookup k) Em) as Hl. rewrite lookup_insert_eq, lookup_fmap in Hl.
      destruct (m !! k) as [w|]; [|done]. injection Hl as ->. by exists w. }
    rewrite (IH (delete k m)).
    + unfold_st. rewrite base64_inv. f_equal. by rewrite insert_delete_id.
    + rewrite fmap_delete, <- Em. by rewrite delete_insert_id.
Qed.

Lemma signAndEncode_ret d k : dio_creatorPubKey (dio d) = toBase58DER (getPublicKey k) ->
  exists c, signAndEncode d k = Ret c.
Proof. intros Hc. unfold signAndEncode. rewrite bool_decide_eq_false_2 by tauto. by eexists. Qed.

Lemma signAndEncode_nonempty d k c : signAndEncode d k = Ret c -> c <> [].
Proof. unfold signAndEncode. case_bool_decide; [done|]. intros [= <-]. by apply base64_nonempty. Qed.

Lemma dio_open d k c : signAndEncode d k = Ret c -> well_formed (dio d) -> decodeAndVerify c = Ret d.
Proof.
  unfold signAndEncode. case_bool_decide as Hc; [done|].
  intros [= <-] (Hu & Hx & Hr & [b Hb]). unfold decodeAndVerify.
  unfold DataInnerEncryptorV4.decode, DataInnerEncryptorV4.encode. rewrite base64_inv.
  unfold DataInnerEncryptorV4.signAndPackDataWithSignature. unfold_st.
  rewrite DataInnerEncryptorV4.extract_pack
    by (cbn; unfold signToCompactSignatureWithHash; rewrite sign_len; lia).
  cbn [DataInnerEncryptorV4.data DataInnerEncryptorV4.sign]. rewrite json_inv.
  unfold assertDataFormat. cbn [json_version json_dio json_fieldChecksums json_structureVersion].
  rewrite !bool_decide_eq_false_2; [|done..| |done|tauto]; [|rewrite Hc; apply base58der_nonempty].
  cbn [orb]. unfold_st. rewrite decode_checksums_inv, Hc, base58der_inv.
  rewrite DataInnerEncryptorV4.verify_signed, Hb. by destruct d.
Qed.

(** a data-integrity object decodes to what its creator signed. *)
Theorem dio_roundtrip d k :
  dio_creatorPubKey (dio d) = toBase58DER (getPublicKey k) -> well_formed (dio d) ->
  exists c, signAndEncode d k = Ret c /\ decodeAndVerify c = Ret d.
Proof.
  intros Hc Hw. destruct (signAndEncode_ret d k Hc) as [c E1]. exists c. split; [done|].
  by eapply dio_open.
Qed.

(** What is accepted was signed, as it was serialized, by the key it names
    as its creator. *)
Lemma dio_accepts c d : decodeAndVerify c = Ret d ->
  exists p json sig cs, fromBase58DER (dio_creatorPubKey (dio d)) = Ret p
    /\ deserialize json = Ret {| json_version := VERSION_1; json_dio := dio d;
         json_fieldChecksums := cs; json_structureVersion := structureVersion d |}
    /\ decode_checksums cs = Ret (fieldChecksums d)
    /\ verifyCompactSignatureWithHash p json sig = true.
Proof.
  unfold decodeAndVerify. unfold_st.
  destruct (DataInnerEncryptorV4.decode c) as [buf|]; [|done].
  destruct (DataInnerEncryptorV4.extractDataWithSignature buf) as [[sig json]|]; [|done].
  cbn [DataInnerEncryptorV4.data]. destruct (deserialize json) as [[v d0 cs sv]|] eqn:Ej; [|done].
  unfold assertDataFormat. cbn [json_version json_dio json_fieldChecksums json_structureVersion].
  destruct (bool_decide (v <> VERSION_1)) eqn:Ev; [done|]. apply bool_decide_eq_false in Ev.
  apply dec_stable in Ev as ->. cbn [orb]. destruct (_ || _); [done|]. unfold_st.
  destruct (decode_checksums cs) as [cs'|] eqn:Ec; [|done].
  destruct (fromBase58DER _) as [p|] eqn:Ep; [|done].
  destruct (DataInnerEncryptorV4.verifySignature _ _) eqn:Es; [|done]. cbn [negb].
  destruct (dio_bridgeIdentity d0); [|done]. intros [= <-]. by exists p, json, sig, cs.
Qed.
End Laws.
End DIOEncryptorV1.

(** ** A concrete object *)
(** The object's fields as texts, one behind the other. *)
Module ToyDio.
Import ToyCodec.

Definition of_Z (z : Z) : bytes := of_positive (encode z).
Definition to_Z (d : bytes) : Z := default 0 (decode (to_positive d)).
Definition of_opt (o : option bytes) : bytes := match o with Some s => x01 :: s | None => [] end.
Definition to_opt (d : bytes) : option bytes := match d with [] => None | _ :: s => Some s end.
Definition of_bridge (o : option BridgeIdentity) : bytes :=
  of_opt ((fun b => of_strings [bi_url b; of_opt (bi_pubKey b); of_opt (bi_instanceId b)]) <$> o).
Definition to_bridge (d : bytes) : option BridgeIdentity :=
  s ← to_opt d;
  match to_strings s [] with
  | [u; p; i] => Some (mkBridgeIdentity u (to_opt p) (to_opt i))
  | _ => None
  end.
Definition of_sums (l : list (bytes * bytes)) : list bytes := concat ((fun kv => [kv.1; kv.2]) <$> l).
Fixpoint to_sums (l : list bytes) : list (bytes * bytes) :=
  match l with k :: v :: l => (k, v) :: to_sums l | _ => [] end.

Definition codec : JsonCodec DIOEncryptorV1.DioJson := {|
  serialize d :=
    let o := DIOEncryptorV1.json_dio d in
    of_strings ([of_Z (DIOEncryptorV1.json_version d); of_Z (DIOEncryptorV1.json_structureVersion d);
      dio_creatorUserId o; dio_creatorPubKey o; dio_contextId o; dio_resourceId o; of_Z (dio_timestamp o);
      dio_randomId o; of_opt (dio_containerId o); of_opt (dio_containerResourceId o); of_bridge (dio_bridgeIdentity o)]
      ++ of_sums (map_to_list (DIOEncryptorV1.json_fieldChecksums d)));
  deserialize t := match to_strings t [] with
    | v :: sv :: u :: p :: c :: r :: n :: i :: ci :: cr :: b :: sums => Ret {|
        DIOEncryptorV1.json_version := to_Z v;
        DIOEncryptorV1.json_dio := mkDIO u p c r (to_Z n) i (to_opt ci) (to_opt cr) (to_bridge b);
        DIOEncryptorV1.json_fieldChecksums := list_to_map (to_sums sums);
        DIOEncryptorV1.json_structureVersion := to_Z sv |}
    | _ => Throw PocoException
    end |}.

Lemma of_Z_inv z : to_Z (of_Z z) = z.
Proof. unfold to_Z, of_Z. by rewrite positive_inv, decode_encode. Qed.

Lemma of_opt_inv o : to_opt (of_opt o) = o.
Proof. by destruct o. Qed.

Lemma of_bridge_inv o : to_bridge (of_bridge o) = o.
Proof.
  destruct o as [[u p i]|]; [|done]. unfold to_bridge, of_bridge. rewrite of_opt_inv. cbn [fmap option_fmap option_map mbind option_bind].
  rewrite strings_inv, !of_opt_inv. done.
Qed.

Lemma of_sums_inv l : to_sums (of_sums l) = l.
Proof. induction l as [|[k v] l IH]; [done|]. cbn. by rewrite <- IH at 2. Qed.

Lemma dio_text_laws : @JsonCodecLaws _ codec.
Proof.
  constructor. intros [v [u p c r n i ci cr b] cs sv]. cbn [serialize deserialize codec]. rewrite strings_inv. cbn [app].
  by rewrite !of_Z_inv, !of_opt_inv, of_bridge_inv, of_sums_inv, list_to_map_to_list.
Qed.
End ToyDio.

Definition toy_dio : ExpandedDataIntegrityObject := {|
  dio := mkDIO (lit "john") [x50; x07] (lit "ctx") (lit "res") 1700000000000 (lit "rid")
    None None (Some (mkBridgeIdentity (lit "https://bridge") None None));
  structureVersion := 5;
  fieldChecksums := {[ lit "publicMeta" := lit "sum" ]} |}.

Section Witness.
#[local] Existing Instances Toy.laws ToyEcc.laws.
#[local] Existing Instance ToyJson.encodings.
#[local] Existing Instance ToyJson.encodings_laws.
#[local] Existing Instance ToyCodec.keys.
#[local] Existing Instance ToyCodec.keys_laws.
#[local] Instance dio_codec : JsonCodec DIOEncryptorV1.DioJson := ToyDio.codec.
#[local] Instance dio_codec_laws : JsonCodecLaws DIOEncryptorV1.DioJson := ToyDio.dio_text_laws.

Lemma dio_roundtrip_witness :
  exists c, DIOEncryptorV1.signAndEncode (H0 := ToyEcc.ecc) toy_dio x07 = Ret c
    /\ DIOEncryptorV1.decodeAndVerify (H0 := ToyEcc.ecc) c = Ret toy_dio.
Proof.
  apply (DIOEncryptorV1.dio_roundtrip (E := ToyEcc.ecc) toy_dio x07); [reflexivity|].
  repeat split; try done.
Defined.
End Witness.
