(* ===== verification/FieldData.v ===== *)
(** * What the data encryptors share

    The encryptors of containers, messages, entries and file metadata encode
    the same kind of fields in the same way; here are the pieces they have in
    common: the readable copy of the public metadata, the comparison of field
    checksums, and the result of a decryption. *)

From Stdlib Require Import ZArith Lia Strings.String Strings.Byte.
From stdpp Require Import base list gmap.
From S2P Require Import Prelude Bytes CoreTypes Crypto CryptoSuite Dynamic Encryptors Dio.

(** A condition [a || b || ...] whose parts may throw. *)
Fixpoint any_of (l : list (outcome bool)) : outcome bool :=
  match l with
  | [] => Ret false
  | m :: l => b ← m; if (b : bool) then Ret true else any_of l
  end.

Lemma any_of_false l : any_of l = Ret false <-> Forall (fun m => m = Ret false) l.
Proof.
  induction l as [|m l IH]; cbn; [by split|].
  rewrite Forall_cons, <- IH. destruct m as [[]|e]; cbn; intuition congruence.
Qed.

Section Fields.
Context `{!CryptoService} `{!Dynamic}.

(** [fieldChecksums.at(k) != sha256(encoded)] *)
Definition sum_differs (sums : checksums) (k encoded : bytes) : outcome bool :=
  v ← at_key sums k; Ret (bool_decide (v <> sha256 encoded)).

Lemma sum_differs_false sums k e : sum_differs sums k e = Ret false <-> sums !! k = Some (sha256 e).
Proof.
  unfold sum_differs, at_key. destruct (sums !! k) as [v|]; cbn; [|done].
  unfold_st. split.
  - intros [= Hb]. apply bool_decide_eq_false, dec_stable in Hb. by subst.
  - intros [= ->]. by rewrite bool_decide_eq_false_2 by tauto.
Qed.

(** The readable copy of the public metadata: empty when it is not an object. *)
Definition parsed_object (publicMeta : bytes) : option Var :=
  match parse_json_object publicMeta with Ret v => Some v | Throw _ => None end.

(** Both texts are compared once the copy is known to be there. *)
Definition texts_differ (publicMeta : bytes) (copy : outcome bytes) : outcome bool :=
  v ← parse_json_object publicMeta;
  c ← copy;
  Ret (bool_decide (stringify v <> c)).

Definition object_differs (publicMetaObject : option Var) (publicMeta : bytes) : outcome bool :=
  match publicMetaObject with
  | None => Ret false
  | Some o => texts_differ publicMeta (Ret (stringify o))
  end.

(** The same check guarded by [isEmpty()] instead of its negation. *)
Definition empty_object_differs (publicMetaObject : option Var) (publicMeta : bytes) : outcome bool :=
  match publicMetaObject with
  | Some _ => Ret false
  | None => texts_differ publicMeta stringify_empty
  end.

Lemma object_differs_parsed d : object_differs (parsed_object d) d = Ret false.
Proof.
  unfold object_differs, parsed_object, texts_differ. destruct (parse_json_object d) as [v|] eqn:E; [|done].
  unfold_st. by rewrite bool_decide_eq_false_2 by tauto.
Qed.
End Fields.

(** ** Results of a decryption

    [status] and [set_status] access the field [statusCode] of a result. *)
Class HasStatus (R : Type) := {
  status : R -> option exn;
  set_status : option exn -> R -> R;
  status_set s r : status (set_status s r) = s;
}.

Section Guarded.
Context `{HasStatus R}.
Implicit Types body : ST R unit.

Lemma guarded_success body init r :
  guarded body set_status init = Ret r -> status r = None -> body init = (Ret tt, r).
Proof.
  unfold guarded. destruct (body init) as [[[]|e] s]; [by intros [= ->]|].
  destruct e; intros [= <-]; by rewrite status_set.
Qed.

Lemma guarded_ret body init r : body init = (Ret tt, r) -> guarded body set_status init = Ret r.
Proof. intros E. unfold guarded. by rewrite E. Qed.

Lemma guarded_throw body init r e : body init = (Throw e, r) -> e <> UndefinedBehaviour ->
  guarded body set_status init = Ret (set_status (Some (status_of e)) r).
Proof. intros E He. unfold guarded. rewrite E. by destruct e. Qed.
End Guarded.

(** ** Looking a named field up *)
Ltac sum_lookup := repeat first
  [ rewrite lookup_insert_eq | rewrite lookup_singleton_eq
  | rewrite lookup_insert_ne by (vm_compute; congruence) ]; reflexivity.
