(* ===== verification/ContentData.v ===== *)
(** * Messages and key-value entries, structure 5

    [MessageDataEncryptorV5] (endpoint/thread) and [EntryDataEncryptorV5]
    (endpoint/kvdb) are the same code up to the exceptions they throw: public
    metadata is signed, private metadata, data and optional internal metadata
    are signed and sealed, and a data-integrity object carries the checksum of
    each encoded field. *)

From Stdlib Require Import ZArith Lia Strings.String Strings.Byte.
From stdpp Require Import base list gmap.
From S2P Require Import Prelude Bytes CoreTypes Crypto CryptoSuite Dynamic Encryptors Dio FieldData.
Import DataEncryptorV4.

(** [MessageDataToEncryptV5], [KvdbEntryDataToEncryptV5] *)
Record ContentToEncrypt := {
  in_publicMeta : bytes;
  in_privateMeta : bytes;
  in_data : bytes;
  in_internalMeta : option bytes;
  in_dio : DataIntegrityObject;
}.

(** [DecryptedMessageDataV5], [DecryptedKvdbEntryDataV5] *)
Record DecryptedContent := {
  dataStructureVersion : Z;
  statusCode : option exn;
  out_publicMeta : bytes;
  out_privateMeta : bytes;
  out_data : bytes;
  out_internalMeta : option bytes;
  out_authorPubKey : bytes;
  out_dio : DataIntegrityObject;
}.

(** The two classes the copies differ in. *)
Class ContentExceptions := { mismatch_exn : exn; version_exn : exn }.

Module ContentEncryptorV5.
Definition VERSION_5 : Z := 5.

Section Setters.
Implicit Types r : DecryptedContent.
Definition set_statusCode (s : option exn) r := {| dataStructureVersion := dataStructureVersion r;
  statusCode := s; out_publicMeta := out_publicMeta r; out_privateMeta := out_privateMeta r;
  out_data := out_data r; out_internalMeta := out_internalMeta r;
  out_authorPubKey := out_authorPubKey r; out_dio := out_dio r |}.
Definition set_publicMeta (d : bytes) r := {| dataStructureVersion := dataStructureVersion r;
  statusCode := statusCode r; out_publicMeta := d; out_privateMeta := out_privateMeta r;
  out_data := out_data r; out_internalMeta := out_internalMeta r;
  out_authorPubKey := out_authorPubKey r; out_dio := out_dio r |}.
Definition set_privateMeta (d : bytes) r := {| dataStructureVersion := dataStructureVersion r;
  statusCode := statusCode r; out_publicMeta := out_publicMeta r; out_privateMeta := d;
  out_data := out_data r; out_internalMeta := out_internalMeta r;
  out_authorPubKey := out_authorPubKey r; out_dio := out_dio r |}.
Definition set_data (d : bytes) r := {| dataStructureVersion := dataStructureVersion r;
  statusCode := statusCode r; out_publicMeta := out_publicMeta r; out_privateMeta := out_privateMeta r;
  out_data := d; out_internalMeta := out_internalMeta r;
  out_authorPubKey := out_authorPubKey r; out_dio := out_dio r |}.
Definition set_internalMeta (d : option bytes) r := {| dataStructureVersion := dataStructureVersion r;
  statusCode := statusCode r; out_publicMeta := out_publicMeta r; out_privateMeta := out_privateMeta r;
  out_data := out_data r; out_internalMeta := d;
  out_authorPubKey := out_authorPubKey r; out_dio := out_dio r |}.
Definition set_authorPubKey (d : bytes) r := {| dataStructureVersion := dataStructureVersion r;
  statusCode := statusCode r; out_publicMeta := out_publicMeta r; out_privateMeta := out_privateMeta r;
  out_data := out_data r; out_internalMeta := out_internalMeta r;
  out_authorPubKey := d; out_dio := out_dio r |}.
Definition set_dio (d : DataIntegrityObject) r := {| dataStructureVersion := dataStructureVersion r;
  statusCode := statusCode r; out_publicMeta := out_publicMeta r; out_privateMeta := out_privateMeta r;
  out_data := out_data r; out_internalMeta := out_internalMeta r;
  out_authorPubKey := out_authorPubKey r; out_dio := d |}.
End Setters.

#[export] Instance content_status : HasStatus DecryptedContent :=
  {| status := statusCode; set_status := set_statusCode; status_set _ _ := eq_refl |}.

(** The result before the first field is set. *)
Definition fresh : DecryptedContent := {|
  dataStructureVersion := VERSION_5; statusCode := None; out_publicMeta := []; out_privateMeta := [];
  out_data := []; out_internalMeta := None; out_authorPubKey := []; out_dio := empty_dio |}.

Section Content.
Context `{Ecc} `{!Encodings} `{!Dynamic} `{!KeyFormats PublicKey} `{!JsonCodec DIOEncryptorV1.DioJson}
  {X : ContentExceptions}.

(** [server::EncryptedMessageDataV5], [server::EncryptedKvdbEntryDataV5] *)
Record Encrypted := {
  version : Z;
  publicMeta : bytes;
  publicMetaObject : option Var;
  privateMeta : bytes;
  data : bytes;
  internalMeta : option bytes;
  authorPubKey : bytes;
  dio : bytes;
}.

Definition encrypt (d : ContentToEncrypt) (authorPrivateKey : PrivateKey) (encryptionKey : bytes) :
    ST rng Encrypted :=
  let publicMeta := signAndEncode (in_publicMeta d) authorPrivateKey in
  let publicMetaObject := parsed_object (in_publicMeta d) in
  privateMeta ← signAndEncryptAndEncode (in_privateMeta d) authorPrivateKey encryptionKey;
  data ← signAndEncryptAndEncode (in_data d) authorPrivateKey encryptionKey;
  internalMeta ← match in_internalMeta d with
    | Some m => c ← signAndEncryptAndEncode m authorPrivateKey encryptionKey; mret (Some c)
    | None => mret None
    end;
  let sums : checksums := {[ lit "publicMeta" := sha256 publicMeta;
    lit "privateMeta" := sha256 privateMeta; lit "data" := sha256 data ]} in
  let fieldChecksums := match internalMeta with
    | Some c => <[ lit "internalMeta" := sha256 c ]> sums
    | None => sums
    end in
  let expandedDio := {| Dio.dio := in_dio d; structureVersion := VERSION_5;
                        fieldChecksums := fieldChecksums |} in
  dio ← lift (DIOEncryptorV1.signAndEncode expandedDio authorPrivateKey);
  mret {| version := VERSION_5; publicMeta := publicMeta; publicMetaObject := publicMetaObject;
          privateMeta := privateMeta; data := data; internalMeta := internalMeta;
          authorPubKey := toBase58DER (getPublicKey authorPrivateKey); dio := dio |}.

(** The same record as a server may serve it, without the optional field. *)
Definition without_internalMeta (e : Encrypted) : Encrypted :=
  {| version := version e; publicMeta := publicMeta e; publicMetaObject := publicMetaObject e;
     privateMeta := privateMeta e; data := data e; internalMeta := None;
     authorPubKey := authorPubKey e; dio := dio e |}.

Definition assertDataFormat (e : Encrypted) : outcome unit :=
  if bool_decide (version e <> VERSION_5) || bool_decide (publicMeta e = [])
     || bool_decide (privateMeta e = []) || bool_decide (authorPubKey e = [])
     || bool_decide (data e = []) || bool_decide (dio e = [])
  then Throw version_exn else Ret tt.

Definition getDIOAndAssertIntegrity (e : Encrypted) : outcome DataIntegrityObject :=
  _ ← assertDataFormat e;
  d ← DIOEncryptorV1.decodeAndVerify (dio e);
  let sums := fieldChecksums d in
  bad ← any_of [
    Ret (bool_decide (structureVersion d <> VERSION_5));
    Ret (bool_decide (dio_creatorPubKey (Dio.dio d) <> authorPubKey e));
    sum_differs sums (lit "publicMeta") (publicMeta e);
    sum_differs sums (lit "privateMeta") (privateMeta e);
    sum_differs sums (lit "data") (data e);
    match internalMeta e with
    | Some m => sum_differs sums (lit "internalMeta") m
    | None => Ret false
    end ];
  if (bad : bool) then Throw InvalidDataIntegrityObjectChecksumException else Ret (Dio.dio d).

(** What [decrypt] and [extractPublic] start with. *)
Definition open_public (e : Encrypted) : ST DecryptedContent PublicKey :=
  d ← lift (getDIOAndAssertIntegrity e);
  _ ← modify (set_dio d);
  authorPublicKey ← lift (fromBase58DER (authorPubKey e));
  m ← lift (decodeAndVerify (publicMeta e) authorPublicKey);
  _ ← modify (set_publicMeta m);
  differs ← lift (object_differs (publicMetaObject e) m);
  _ ← modify (if (differs : bool) then set_statusCode (Some mismatch_exn) else id);
  mret authorPublicKey.

Definition decrypt (e : Encrypted) (encryptionKey : bytes) : outcome DecryptedContent :=
  guarded (
    authorPublicKey ← open_public e;
    m ← lift (decodeAndDecryptAndVerify (privateMeta e) authorPublicKey encryptionKey);
    _ ← modify (set_privateMeta m);
    m ← lift (decodeAndDecryptAndVerify (data e) authorPublicKey encryptionKey);
    _ ← modify (set_data m);
    m ← match internalMeta e with
        | Some c => m ← lift (decodeAndDecryptAndVerify c authorPublicKey encryptionKey); mret (Some m)
        | None => mret None
        end;
    _ ← modify (set_internalMeta m);
    modify (set_authorPubKey (authorPubKey e))) set_status fresh.

Definition extractPublic (e : Encrypted) : outcome DecryptedContent :=
  guarded (_ ← open_public e; modify (set_authorPubKey (authorPubKey e))) set_status fresh.
End Content.

Section Laws.
Context {C : CryptoService} `{!CryptoLaws C} {E : Ecc} `{!EccLaws E} {E0 : Encodings} `{!EncodingsLaws E0} `{!Dynamic}.
Context `{!KeyFormats PublicKey} `{!KeyFormatsLaws PublicKey}.
Context `{!JsonCodec DIOEncryptorV1.DioJson} `{!JsonCodecLaws DIOEncryptorV1.DioJson} {X : ContentExceptions}.
Implicit Types e : Encrypted.

(** What an author may encrypt: a complete integrity object of his own, and
    sizes that fit the machine. *)
Record encryptable (d : ContentToEncrypt) (k : PrivateKey) (ek : bytes) : Prop := {
  en_dio : DIOEncryptorV1.well_formed (in_dio d);
  en_creator : dio_creatorPubKey (in_dio d) = toBase58DER (getPublicKey k);
  en_key : zlen ek = 32;
  en_private : small (in_privateMeta d);
  en_data : small (in_data d);
  en_internal m : in_internalMeta d = Some m -> small m;
}.

(** The result the recipient should see. *)
Definition opened (d : ContentToEncrypt) (k : PrivateKey) : DecryptedContent := {|
  dataStructureVersion := VERSION_5; statusCode := None;
  out_publicMeta := in_publicMeta d; out_privateMeta := in_privateMeta d; out_data := in_data d;
  out_internalMeta := in_internalMeta d; out_authorPubKey := toBase58DER (getPublicKey k);
  out_dio := in_dio d |}.

(** Everything [encrypt] establishes of its result. *)
Record sealed (d : ContentToEncrypt) (k : PrivateKey) (ek : bytes) (e : Encrypted) : Prop := {
  se_dio : getDIOAndAssertIntegrity e = Ret (in_dio d);
  se_author : authorPubKey e = toBase58DER (getPublicKey k);
  se_public : publicMeta e = signAndEncode (in_publicMeta d) k;
  se_object : publicMetaObject e = parsed_object (in_publicMeta d);
  se_private : decodeAndDecryptAndVerify (privateMeta e) (getPublicKey k) ek = Ret (in_privateMeta d);
  se_data : decodeAndDecryptAndVerify (data e) (getPublicKey k) ek = Ret (in_data d);
  se_internal : match internalMeta e with
    | Some c => exists m, in_internalMeta d = Some m /\ decodeAndDecryptAndVerify c (getPublicKey k) ek = Ret m
    | None => in_internalMeta d = None
    end;
}.

Lemma content_encrypt_sealed d k ek g : encryptable d k ek ->
  exists e g', encrypt d k ek g = (Ret e, g') /\ sealed d k ek e.
Proof.
  intros [Hw Hc Hk Hp Hd Hi]. unfold encrypt.
  destruct (seal_total (in_privateMeta d) k ek g Hk Hp) as (cp & g1 & Ep & Op & Np). run_step.
  destruct (seal_total (in_data d) k ek g1 Hk Hd) as (cd & g2 & Ed & Od & Nd). run_step.
  destruct (seal_optional_total (in_internalMeta d) k ek g2 Hk Hi) as (ci & g3 & Ei & Oi). run_step.
  match goal with |- context [DIOEncryptorV1.signAndEncode ?x k] => set (xd := x) end.
  destruct (DIOEncryptorV1.signAndEncode_ret xd k) as [c Ec]; [done|].
  pose proof (DIOEncryptorV1.dio_open xd k c Ec Hw) as Eo.
  unfold_st. rewrite Ec. do 2 eexists. split; [reflexivity|].
  split; cbn [authorPubKey publicMeta publicMetaObject privateMeta data internalMeta]; try done.
  unfold getDIOAndAssertIntegrity, assertDataFormat.
  cbn [version publicMeta privateMeta authorPubKey data internalMeta dio].
  rewrite !bool_decide_eq_false_2; [|eauto using base58der_nonempty, sign_nonempty, DIOEncryptorV1.signAndEncode_nonempty..|tauto].
  unfold_st. cbn [orb]. rewrite Eo.
  rewrite (proj2 (any_of_false _)); [done|].
  repeat apply Forall_cons_2; [..|constructor].
  1-2: by rewrite bool_decide_eq_false_2 by (cbn; tauto).
  1-3: apply sum_differs_false; destruct ci; cbn; sum_lookup.
  destruct ci; [|done]. apply sum_differs_false. cbn. sum_lookup.
Qed.

Lemma content_integrity_version e d : getDIOAndAssertIntegrity e = Ret d -> version e = VERSION_5.
Proof.
  unfold getDIOAndAssertIntegrity, assertDataFormat. case_bool_decide as Hv; [done|]. intros _.
  by destruct (decide (version e = VERSION_5)); [|destruct Hv].
Qed.

(** The public part of a decryption of what [encrypt] made. *)
Lemma content_open_public_sealed d k ek e : sealed d k ek e ->
  open_public e fresh = (Ret (getPublicKey k), set_publicMeta (in_publicMeta d) (set_dio (in_dio d) fresh)).
Proof.
  intros [Hd Ha Hp Ho _ _ _]. unfold open_public. unfold_st.
  rewrite Hd, Ha, base58der_inv, Hp, open_signed, Ho. cbn.
  by rewrite object_differs_parsed.
Qed.

Lemma content_decrypt_sealed d k ek e : sealed d k ek e -> decrypt e ek = Ret (opened d k).
Proof.
  intros Hs. pose proof (content_open_public_sealed _ _ _ _ Hs) as Hp. destruct Hs as [_ Ha _ _ Hv Hd Hi].
  apply guarded_ret. run_step. unfold_st. rewrite Hv, Hd, Ha.
  destruct (internalMeta e) as [c|].
  - destruct Hi as (m & Em & ->). unfold opened. by rewrite Em.
  - unfold opened. by rewrite Hi.
Qed.

Lemma content_extract_sealed d k ek e : sealed d k ek e ->
  extractPublic e = Ret (set_authorPubKey (toBase58DER (getPublicKey k))
    (set_publicMeta (in_publicMeta d) (set_dio (in_dio d) fresh))).
Proof.
  intros Hs. pose proof (content_open_public_sealed _ _ _ _ Hs) as Hp. destruct Hs as [_ Ha _ _ _ _ _].
  apply guarded_ret. run_step. unfold_st. by rewrite Ha.
Qed.

(** *** What an accepted result guarantees *)

Lemma open_optional (o : option bytes) p ek (r r' : DecryptedContent) mo :
  match o with
  | Some c => m ← lift (decodeAndDecryptAndVerify c p ek); mret (Some m)
  | None => mret None
  end r = (Ret mo, r') ->
  r' = r /\ match o, mo with
            | Some c, Some m => decodeAndDecryptAndVerify c p ek = Ret m
            | None, None => True
            | _, _ => False
            end.
Proof.
  destruct o as [c|]; [|by intros [= <- <-]]. intros Hr.
  inv_bind Hr as (m & ? & [= Hm <-] & Hr). by injection Hr as <- <-.
Qed.

(** The field is signed by the author, and its encoded form is the one the
    author signed for in the integrity object. *)
Definition authentic (p : PublicKey) (sums : checksums) (name encoded plain : bytes) : Prop :=
  (exists sig, verifyCompactSignatureWithHash p plain sig = true) /\ sums !! name = Some (sha256 encoded).

Lemma integrity_accepts e d : getDIOAndAssertIntegrity e = Ret d ->
  exists x, DIOEncryptorV1.decodeAndVerify (dio e) = Ret x /\ Dio.dio x = d
    /\ structureVersion x = VERSION_5 /\ dio_creatorPubKey d = authorPubKey e
    /\ fieldChecksums x !! lit "publicMeta" = Some (sha256 (publicMeta e))
    /\ fieldChecksums x !! lit "privateMeta" = Some (sha256 (privateMeta e))
    /\ fieldChecksums x !! lit "data" = Some (sha256 (data e))
    /\ (forall m, internalMeta e = Some m -> fieldChecksums x !! lit "internalMeta" = Some (sha256 m)).
Proof.
  unfold getDIOAndAssertIntegrity. unfold_st. destruct (assertDataFormat e); [|done].
  destruct (DIOEncryptorV1.decodeAndVerify (dio e)) as [x|]; [|done].
  destruct (any_of _) as [[]|] eqn:Ea; [done| |done]. intros [= <-].
  apply any_of_false in Ea. rewrite !Forall_cons in Ea.
  destruct Ea as ([= E1] & [= E2] & E3 & E4 & E5 & E6 & _).
  apply bool_decide_eq_false, dec_stable in E1, E2. apply sum_differs_false in E3, E4, E5.
  exists x. repeat (split; [done|]). intros m Em. rewrite Em in E6. by apply sum_differs_false in E6.
Qed.

Lemma open_public_accepts e p r : open_public e fresh = (Ret p, r) ->
  exists x m, DIOEncryptorV1.decodeAndVerify (dio e) = Ret x /\ getDIOAndAssertIntegrity e = Ret (Dio.dio x)
    /\ fromBase58DER (authorPubKey e) = Ret p /\ decodeAndVerify (publicMeta e) p = Ret m
    /\ exists s, r = set_statusCode s (set_publicMeta m (set_dio (Dio.dio x) fresh)).
Proof.
  unfold open_public. intros Hr.
  inv_bind Hr as (d & ? & [= Hd <-] & Hr). inv_bind Hr as (? & ? & [= <- <-] & Hr).
  inv_bind Hr as (p' & ? & [= Hp <-] & Hr). inv_bind Hr as (m & ? & [= Hm <-] & Hr).
  inv_bind Hr as (? & ? & [= <- <-] & Hr). inv_bind Hr as (b & ? & [= Hb <-] & Hr).
  inv_bind Hr as (? & ? & [= <- <-] & Hr). injection Hr as <- <-.
  destruct (integrity_accepts e d Hd) as (x & Hx & <- & _). exists x, m. do 4 (split; [done|]).
  destruct b; by eexists.
Qed.

(** what an author encrypts, its recipient decrypts to the same fields with
    no error status, and a reader without the key sees its public part. *)
Theorem content_roundtrip d k ek g : encryptable d k ek ->
  exists e g', encrypt d k ek g = (Ret e, g') /\ decrypt e ek = Ret (opened d k)
    /\ extractPublic e = Ret (set_authorPubKey (toBase58DER (getPublicKey k))
         (set_publicMeta (in_publicMeta d) (set_dio (in_dio d) fresh))).
Proof.
  intros He. destruct (content_encrypt_sealed d k ek g He) as (e & g' & Hr & Hs).
  exists e, g'. eauto using content_decrypt_sealed, content_extract_sealed.
Qed.

(** What a decryption without an error status guarantees. *)
Lemma content_accepted e ek r : decrypt e ek = Ret r -> statusCode r = None ->
  exists p x, fromBase58DER (out_authorPubKey r) = Ret p
    /\ DIOEncryptorV1.decodeAndVerify (dio e) = Ret x /\ out_dio r = Dio.dio x
    /\ dio_creatorPubKey (out_dio r) = out_authorPubKey r
    /\ authentic p (fieldChecksums x) (lit "publicMeta") (publicMeta e) (out_publicMeta r)
    /\ authentic p (fieldChecksums x) (lit "privateMeta") (privateMeta e) (out_privateMeta r)
    /\ authentic p (fieldChecksums x) (lit "data") (data e) (out_data r)
    /\ match internalMeta e, out_internalMeta r with
       | Some c, Some m => authentic p (fieldChecksums x) (lit "internalMeta") c m
       | None, None => True
       | _, _ => False
       end.
Proof.
  intros Hr Hs. apply guarded_success in Hr; [|exact Hs].
  inv_bind Hr as (p & r1 & Hp & Hr). apply open_public_accepts in Hp as (x & m1 & Hx & Hi & Hp & Hm1 & s & ->).
  inv_bind Hr as (m2 & ? & [= Hm2 <-] & Hr). inv_bind Hr as (? & ? & [= <- <-] & Hr).
  inv_bind Hr as (m3 & ? & [= Hm3 <-] & Hr). inv_bind Hr as (? & ? & [= <- <-] & Hr).
  inv_bind Hr as (m4 & ? & Hm4 & Hr). apply open_optional in Hm4 as [-> Hm4].
  inv_bind Hr as (? & ? & [= <- <-] & Hr). injection Hr as <-.
  destruct (integrity_accepts e _ Hi) as (x' & Hx' & _ & Hv & Hc & S1 & S2 & S3 & S4).
  rewrite Hx in Hx'. injection Hx' as <-.
  exists p, x. do 3 (split; [assumption || reflexivity|]). split; [exact Hc|].
  split; [exact (conj (open_signed_accepts _ _ _ Hm1) S1)|].
  split; [exact (conj (open_sealed_accepts _ _ _ _ Hm2) S2)|].
  split; [exact (conj (open_sealed_accepts _ _ _ _ Hm3) S3)|].
  destruct (internalMeta e) as [c|], m4 as [m4|]; try done.
  exact (conj (open_sealed_accepts _ _ _ _ Hm4) (S4 c eq_refl)).
Qed.

(** a decryption without an error status shows only what its author signed:
    each field carries his signature, its encoded form is bound by the integrity
    object he signed, and that object names him as its creator. *)
Theorem content_authentic e ek r : decrypt e ek = Ret r -> statusCode r = None ->
  exists p x, fromBase58DER (out_authorPubKey r) = Ret p
    /\ DIOEncryptorV1.decodeAndVerify (dio e) = Ret x /\ out_dio r = Dio.dio x
    /\ dio_creatorPubKey (out_dio r) = out_authorPubKey r
    /\ authentic p (fieldChecksums x) (lit "publicMeta") (publicMeta e) (out_publicMeta r)
    /\ authentic p (fieldChecksums x) (lit "privateMeta") (privateMeta e) (out_privateMeta r)
    /\ authentic p (fieldChecksums x) (lit "data") (data e) (out_data r)
    /\ match internalMeta e, out_internalMeta r with
       | Some c, Some m => authentic p (fieldChecksums x) (lit "internalMeta") c m
       | None, None => True
       | _, _ => False
       end.
Proof. apply content_accepted. Qed.

(** the optional internal metadata is bound only when it is present: with
    it removed, what the author encrypted still decrypts without an error
    status, and only the internal metadata is missing. *)
Theorem internal_meta_strippable d k ek g : encryptable d k ek ->
  exists e g', encrypt d k ek g = (Ret e, g')
    /\ decrypt (without_internalMeta e) ek = Ret (set_internalMeta None (opened d k)).
Proof.
  intros He. destruct (content_encrypt_sealed d k ek g He) as (e & g' & Hr & Hs).
  exists e, g'. split; [done|].
  apply (content_decrypt_sealed {| in_publicMeta := in_publicMeta d; in_privateMeta := in_privateMeta d;
    in_data := in_data d; in_internalMeta := None; in_dio := in_dio d |} k).
  destruct Hs as [Hd Ha Hp Ho Hv Hda _]. split; try done.
  unfold getDIOAndAssertIntegrity in *.
  change (assertDataFormat (without_internalMeta e)) with (assertDataFormat e).
  revert Hd. unfold_st. destruct (assertDataFormat e); [|done]. cbn [dio without_internalMeta].
  destruct (DIOEncryptorV1.decodeAndVerify _) as [x|]; [|done].
  destruct (any_of _) as [[]|] eqn:Ea; [done| |done]. intros [= <-].
  apply any_of_false in Ea. rewrite !Forall_cons in Ea.
  rewrite (proj2 (any_of_false _)); [done|]. rewrite !Forall_cons. 
  destruct Ea as (? & ? & ? & ? & ? & _). repeat split; try done; by constructor.
Qed.
End Laws.
End ContentEncryptorV5.

(** ** The two encryptors *)
Module MessageDataEncryptorV5.
#[export] Instance exceptions : ContentExceptions := {|
  mismatch_exn := MessagePublicDataMismatchException;
  version_exn := InvalidEncryptedMessageDataVersionException |}.

Section Message.
Context `{Ecc} `{!Encodings} `{!Dynamic} `{!KeyFormats PublicKey} `{!JsonCodec DIOEncryptorV1.DioJson}.
Definition encrypt := ContentEncryptorV5.encrypt.
Definition decrypt := ContentEncryptorV5.decrypt (X := exceptions).
Definition extractPublic := ContentEncryptorV5.extractPublic (X := exceptions).
Definition getDIOAndAssertIntegrity :=
  ContentEncryptorV5.getDIOAndAssertIntegrity (X := exceptions).
Definition assertDataFormat := ContentEncryptorV5.assertDataFormat (X := exceptions).
End Message.
End MessageDataEncryptorV5.

Module EntryDataEncryptorV5.
#[export] Instance exceptions : ContentExceptions := {|
  mismatch_exn := KvdbEntryPublicDataMismatchException;
  version_exn := InvalidEncryptedKvdbEntryDataVersionException |}.

Section Entry.
Context `{Ecc} `{!Encodings} `{!Dynamic} `{!KeyFormats PublicKey} `{!JsonCodec DIOEncryptorV1.DioJson}.
Definition encrypt := ContentEncryptorV5.encrypt.
Definition decrypt := ContentEncryptorV5.decrypt (X := exceptions).
Definition extractPublic := ContentEncryptorV5.extractPublic (X := exceptions).
Definition getDIOAndAssertIntegrity :=
  ContentEncryptorV5.getDIOAndAssertIntegrity (X := exceptions).
Definition assertDataFormat := ContentEncryptorV5.assertDataFormat (X := exceptions).
End Entry.
End EntryDataEncryptorV5.

(** ** A concrete message *)
Section Witness.
#[local] Existing Instances Toy.service Toy.laws ToyEcc.ecc ToyEcc.laws ToyJson.encodings ToyJson.encodings_laws
  ToyCodec.keys ToyCodec.keys_laws dio_codec dio_codec_laws MessageDataEncryptorV5.exceptions.
#[local] Instance message_dynamic : Dynamic := ToyJson.dynamic [].

Let key : @PrivateKey _ ToyEcc.ecc := x07.
Let container_key : bytes := lit "0123456789abcdef0123456789abcdef".
Let message : ContentToEncrypt := {| in_publicMeta := lit "public"; in_privateMeta := lit "private";
  in_data := lit "hello"; in_internalMeta := Some (lit "internal"); in_dio := dio toy_dio |}.

Lemma message_encryptable : ContentEncryptorV5.encryptable message key container_key.
Proof. split; try done. cbn. by intros m [= <-]. Qed.

Lemma content_roundtrip_witness : exists e g',
  MessageDataEncryptorV5.encrypt message key container_key 5 = (Ret e, g')
  /\ MessageDataEncryptorV5.decrypt e container_key = Ret (ContentEncryptorV5.opened message key).
Proof.
  destruct (ContentEncryptorV5.content_roundtrip message key container_key 5 message_encryptable)
    as (e & g' & He & Hd & _).
  exists e, g'. exact (conj He Hd).
Defined.

Lemma content_authentic_witness : exists e r p, MessageDataEncryptorV5.decrypt e container_key = Ret r
  /\ out_data r = lit "hello" /\ exists sig, verifyCompactSignatureWithHash (p : @PublicKey _ ToyEcc.ecc) (out_data r) sig = true.
Proof.
  destruct (ContentEncryptorV5.content_encrypt_sealed message key container_key 5 message_encryptable)
    as (e & g' & _ & Hs).
  apply ContentEncryptorV5.content_decrypt_sealed in Hs.
  destruct (ContentEncryptorV5.content_authentic e container_key _ Hs eq_refl)
    as (p & x & _ & _ & _ & _ & _ & _ & [Hd _] & _).
  exists e, (ContentEncryptorV5.opened message key), p. exact (conj Hs (conj eq_refl Hd)).
Defined.

Lemma internal_meta_strippable_witness : exists e r,
  MessageDataEncryptorV5.decrypt (ContentEncryptorV5.without_internalMeta e) container_key = Ret r
  /\ statusCode r = None /\ out_internalMeta r = None.
Proof.
  destruct (ContentEncryptorV5.internal_meta_strippable message key container_key 5 message_encryptable)
    as (e & g' & _ & Hd).
  exists (ContentEncryptorV5.without_internalMeta e). eexists. exact (conj Hd (conj eq_refl eq_refl)).
Defined.
End Witness.
