(* ===== verification/ContainerData.v ===== *)
(** * Container data

    [ModuleDataEncryptorV5] and the deprecated [ModuleDataEncryptorV4]
    (endpoint/core/src/encryptors/module): the public, private and internal
    metadata of a thread, store, inbox or key-value database. *)

From Stdlib Require Import ZArith Lia Strings.String Strings.Byte.
From stdpp Require Import base list gmap.
From S2P Require Import Prelude Bytes CoreTypes Crypto CryptoSuite Dynamic Encryptors Dio FieldData.
Import DataEncryptorV4.

Module ModuleDataEncryptorV5.
Definition VERSION_5 : Z := 5.

Record ModuleInternalMetaV5 := { secret : bytes; resourceId : bytes; randomId : bytes }.

Record ModuleDataToEncryptV5 := {
  in_publicMeta : bytes;
  in_privateMeta : bytes;
  in_internalMeta : ModuleInternalMetaV5;
  in_dio : DataIntegrityObject;
}.

Record DecryptedModuleDataV5 := {
  m5_dataStructureVersion : Z;
  m5_statusCode : option exn;
  m5_publicMeta : bytes;
  m5_privateMeta : bytes;
  m5_internalMeta : ModuleInternalMetaV5;
  m5_authorPubKey : bytes;
  m5_dio : DataIntegrityObject;
}.

Section Setters.
Implicit Types r : DecryptedModuleDataV5.
Definition set_statusCode (x : option exn) r := {|
  m5_dataStructureVersion := m5_dataStructureVersion r; m5_statusCode := x;
  m5_publicMeta := m5_publicMeta r; m5_privateMeta := m5_privateMeta r;
  m5_internalMeta := m5_internalMeta r; m5_authorPubKey := m5_authorPubKey r;
  m5_dio := m5_dio r |}.
Definition set_publicMeta (x : bytes) r := {|
  m5_dataStructureVersion := m5_dataStructureVersion r; m5_statusCode := m5_statusCode r;
  m5_publicMeta := x; m5_privateMeta := m5_privateMeta r; m5_internalMeta := m5_internalMeta r;
  m5_authorPubKey := m5_authorPubKey r; m5_dio := m5_dio r |}.
Definition set_privateMeta (x : bytes) r := {|
  m5_dataStructureVersion := m5_dataStructureVersion r; m5_statusCode := m5_statusCode r;
  m5_publicMeta := m5_publicMeta r; m5_privateMeta := x; m5_internalMeta := m5_internalMeta r;
  m5_authorPubKey := m5_authorPubKey r; m5_dio := m5_dio r |}.
Definition set_internalMeta (x : ModuleInternalMetaV5) r := {|
  m5_dataStructureVersion := m5_dataStructureVersion r; m5_statusCode := m5_statusCode r;
  m5_publicMeta := m5_publicMeta r; m5_privateMeta := m5_privateMeta r; m5_internalMeta := x;
  m5_authorPubKey := m5_authorPubKey r; m5_dio := m5_dio r |}.
Definition set_authorPubKey (x : bytes) r := {|
  m5_dataStructureVersion := m5_dataStructureVersion r; m5_statusCode := m5_statusCode r;
  m5_publicMeta := m5_publicMeta r; m5_privateMeta := m5_privateMeta r;
  m5_internalMeta := m5_internalMeta r; m5_authorPubKey := x; m5_dio := m5_dio r |}.
Definition set_dio (x : DataIntegrityObject) r := {|
  m5_dataStructureVersion := m5_dataStructureVersion r; m5_statusCode := m5_statusCode r;
  m5_publicMeta := m5_publicMeta r; m5_privateMeta := m5_privateMeta r;
  m5_internalMeta := m5_internalMeta r; m5_authorPubKey := m5_authorPubKey r; m5_dio := x |}.
End Setters.

#[export] Instance module_status : HasStatus DecryptedModuleDataV5 :=
  {| status := m5_statusCode; set_status := set_statusCode; status_set _ _ := eq_refl |}.

Definition fresh : DecryptedModuleDataV5 := {|
  m5_dataStructureVersion := VERSION_5; m5_statusCode := None; m5_publicMeta := [];
  m5_privateMeta := []; m5_internalMeta := {| secret := []; resourceId := []; randomId := [] |};
  m5_authorPubKey := []; m5_dio := empty_dio |}.

Section ModuleData.
Context `{Ecc} `{!Encodings} `{!Dynamic} `{!KeyFormats PublicKey}.
Context `{!JsonCodec DIOEncryptorV1.DioJson} `{!JsonCodec ModuleInternalMetaV5}.

(** [dynamic::EncryptedModuleDataV5] *)
Record EncryptedModuleDataV5 := {
  version : Z;
  publicMeta : bytes;
  publicMetaObject : option Var;
  privateMeta : bytes;
  internalMeta : bytes;
  authorPubKey : bytes;
  dio : bytes;
}.

Definition encrypt (d : ModuleDataToEncryptV5) (authorPrivateKey : PrivateKey) (encryptionKey : bytes) :
    ST rng EncryptedModuleDataV5 :=
  let publicMeta := signAndEncode (in_publicMeta d) authorPrivateKey in
  let publicMetaObject := parsed_object (in_publicMeta d) in
  privateMeta ← signAndEncryptAndEncode (in_privateMeta d) authorPrivateKey encryptionKey;
  internalMeta ← signAndEncryptAndEncode (serialize (in_internalMeta d)) authorPrivateKey encryptionKey;
  let fieldChecksums : checksums := {[ lit "publicMeta" := sha256 publicMeta;
    lit "privateMeta" := sha256 privateMeta; lit "internalMeta" := sha256 internalMeta ]} in
  let expandedDio := {| Dio.dio := in_dio d; structureVersion := 5;
                        fieldChecksums := fieldChecksums |} in
  dio ← lift (DIOEncryptorV1.signAndEncode expandedDio authorPrivateKey);
  mret {| version := VERSION_5; publicMeta := publicMeta; publicMetaObject := publicMetaObject;
          privateMeta := privateMeta; internalMeta := internalMeta;
          authorPubKey := toBase58DER (getPublicKey authorPrivateKey); dio := dio |}.

Definition assertDataFormat (e : EncryptedModuleDataV5) : outcome unit :=
  if bool_decide (version e <> VERSION_5) || bool_decide (publicMeta e = [])
     || bool_decide (privateMeta e = []) || bool_decide (internalMeta e = [])
     || bool_decide (authorPubKey e = []) || bool_decide (dio e = [])
  then Throw InvalidEncryptedModuleDataVersionException else Ret tt.

Definition getDIOAndAssertIntegrity (e : EncryptedModuleDataV5) : outcome DataIntegrityObject :=
  _ ← assertDataFormat e;
  d ← DIOEncryptorV1.decodeAndVerify (dio e);
  let sums := fieldChecksums d in
  bad ← any_of [
    Ret (bool_decide (structureVersion d <> VERSION_5));
    Ret (bool_decide (dio_creatorPubKey (Dio.dio d) <> authorPubKey e));
    sum_differs sums (lit "publicMeta") (publicMeta e);
    sum_differs sums (lit "privateMeta") (privateMeta e);
    sum_differs sums (lit "internalMeta") (internalMeta e) ];
  if (bad : bool) then Throw InvalidDataIntegrityObjectChecksumException else Ret (Dio.dio d).

(** What [decrypt] and [extractPublic] start with. *)
Definition open_public (e : EncryptedModuleDataV5) : ST DecryptedModuleDataV5 PublicKey :=
  d ← lift (getDIOAndAssertIntegrity e);
  _ ← modify (set_dio d);
  authorPublicKey ← lift (fromBase58DER (authorPubKey e));
  m ← lift (decodeAndVerify (publicMeta e) authorPublicKey);
  _ ← modify (set_publicMeta m);
  differs ← lift (object_differs (publicMetaObject e) m);
  _ ← modify (if (differs : bool) then set_statusCode (Some ModulePublicDataMismatchException) else id);
  mret authorPublicKey.

Definition decrypt (e : EncryptedModuleDataV5) (encryptionKey : bytes) : outcome DecryptedModuleDataV5 :=
  guarded (
    authorPublicKey ← open_public e;
    m ← lift (decodeAndDecryptAndVerify (privateMeta e) authorPublicKey encryptionKey);
    _ ← modify (set_privateMeta m);
    im ← lift (decodeAndDecryptAndVerify (internalMeta e) authorPublicKey encryptionKey);
    imJSON ← lift (deserialize im);
    _ ← modify (set_internalMeta imJSON);
    modify (set_authorPubKey (authorPubKey e))) set_status fresh.

Definition extractPublic (e : EncryptedModuleDataV5) : outcome DecryptedModuleDataV5 :=
  guarded (_ ← open_public e; modify (set_authorPubKey (authorPubKey e))) set_status fresh.
End ModuleData.

Section Laws.
Context {C : CryptoService} `{!CryptoLaws C} {E : Ecc} `{!EccLaws E} {E0 : Encodings} `{!EncodingsLaws E0} `{!Dynamic}.
Context `{!KeyFormats PublicKey} `{!KeyFormatsLaws PublicKey}.
Context `{!JsonCodec DIOEncryptorV1.DioJson} `{!JsonCodecLaws DIOEncryptorV1.DioJson}.
Context `{!JsonCodec ModuleInternalMetaV5} `{!JsonCodecLaws ModuleInternalMetaV5}.
Implicit Types e : EncryptedModuleDataV5.

Record encryptable (d : ModuleDataToEncryptV5) (k : PrivateKey) (ek : bytes) : Prop := {
  en_dio : DIOEncryptorV1.well_formed (in_dio d);
  en_creator : dio_creatorPubKey (in_dio d) = toBase58DER (getPublicKey k);
  en_key : zlen ek = 32;
  en_private : small (in_privateMeta d);
  en_internal : small (serialize (in_internalMeta d));
}.

Definition opened (d : ModuleDataToEncryptV5) (k : PrivateKey) : DecryptedModuleDataV5 := {|
  m5_dataStructureVersion := VERSION_5; m5_statusCode := None;
  m5_publicMeta := in_publicMeta d; m5_privateMeta := in_privateMeta d;
  m5_internalMeta := in_internalMeta d; m5_authorPubKey := toBase58DER (getPublicKey k);
  m5_dio := in_dio d |}.

Record sealed (d : ModuleDataToEncryptV5) (k : PrivateKey) (ek : bytes) e : Prop := {
  se_dio : getDIOAndAssertIntegrity e = Ret (in_dio d);
  se_author : authorPubKey e = toBase58DER (getPublicKey k);
  se_public : publicMeta e = signAndEncode (in_publicMeta d) k;
  se_object : publicMetaObject e = parsed_object (in_publicMeta d);
  se_private : decodeAndDecryptAndVerify (privateMeta e) (getPublicKey k) ek = Ret (in_privateMeta d);
  se_internal : decodeAndDecryptAndVerify (internalMeta e) (getPublicKey k) ek
                = Ret (serialize (in_internalMeta d));
}.

Lemma module_encrypt_sealed d k ek g : encryptable d k ek ->
  exists e g', encrypt d k ek g = (Ret e, g') /\ sealed d k ek e.
Proof.
  intros [Hw Hc Hk Hp Hi]. unfold encrypt.
  destruct (seal_total (in_privateMeta d) k ek g Hk Hp) as (cp & g1 & Ep & Op & Np). run_step.
  destruct (seal_total (serialize (in_internalMeta d)) k ek g1 Hk Hi) as (ci & g2 & Ei & Oi & Ni). run_step.
  match goal with |- context [DIOEncryptorV1.signAndEncode ?x k] => set (xd := x) end.
  destruct (DIOEncryptorV1.signAndEncode_ret xd k) as [c Ec]; [done|].
  pose proof (DIOEncryptorV1.dio_open xd k c Ec Hw) as Eo.
  unfold_st. rewrite Ec. do 2 eexists. split; [reflexivity|].
  split; cbn [authorPubKey publicMeta publicMetaObject privateMeta internalMeta]; try done.
  unfold getDIOAndAssertIntegrity, assertDataFormat.
  cbn [version publicMeta privateMeta authorPubKey internalMeta dio].
  rewrite !bool_decide_eq_false_2; [|eauto using base58der_nonempty, sign_nonempty, DIOEncryptorV1.signAndEncode_nonempty..|tauto].
  unfold_st. cbn [orb]. rewrite Eo.
  rewrite (proj2 (any_of_false _)); [done|].
  repeat apply Forall_cons_2; [..|constructor].
  1-2: by rewrite bool_decide_eq_false_2 by (cbn; tauto).
  all: apply sum_differs_false; cbn; sum_lookup.
Qed.

Lemma module_integrity_version e d : getDIOAndAssertIntegrity e = Ret d -> version e = VERSION_5.
Proof.
  unfold getDIOAndAssertIntegrity, assertDataFormat. case_bool_decide as Hv; [done|]. intros _.
  by destruct (decide (version e = VERSION_5)); [|destruct Hv].
Qed.

Lemma module_open_public_sealed d k ek e : sealed d k ek e ->
  open_public e fresh = (Ret (getPublicKey k), set_publicMeta (in_publicMeta d) (set_dio (in_dio d) fresh)).
Proof.
  intros [Hd Ha Hp Ho _ _]. unfold open_public. unfold_st.
  rewrite Hd, Ha, base58der_inv, Hp, open_signed, Ho. cbn.
  by rewrite object_differs_parsed.
Qed.

Lemma module_decrypt_sealed d k ek e : sealed d k ek e -> decrypt e ek = Ret (opened d k).
Proof.
  intros Hs. pose proof (module_open_public_sealed _ _ _ _ Hs) as Hp. destruct Hs as [_ Ha _ _ Hv Hi].
  apply guarded_ret. run_step. unfold_st. by rewrite Hv, Hi, json_inv, Ha.
Qed.

Lemma module_extract_sealed d k ek e : sealed d k ek e ->
  extractPublic e = Ret (set_authorPubKey (toBase58DER (getPublicKey k))
    (set_publicMeta (in_publicMeta d) (set_dio (in_dio d) fresh))).
Proof.
  intros Hs. pose proof (module_open_public_sealed _ _ _ _ Hs) as Hp. destruct Hs as [_ Ha _ _ _ _].
  apply guarded_ret. run_step. unfold_st. by rewrite Ha.
Qed.

(** what an administrator encrypts for a container, its members decrypt to
    the same metadata, and its public part reads without the key. *)
Theorem module_roundtrip d k ek g : encryptable d k ek ->
  exists e g', encrypt d k ek g = (Ret e, g') /\ decrypt e ek = Ret (opened d k)
    /\ extractPublic e = Ret (set_authorPubKey (toBase58DER (getPublicKey k))
         (set_publicMeta (in_publicMeta d) (set_dio (in_dio d) fresh))).
Proof.
  intros He. destruct (module_encrypt_sealed d k ek g He) as (e & g' & Hr & Hs).
  exists e, g'. eauto using module_decrypt_sealed, module_extract_sealed.
Qed.
End Laws.
End ModuleDataEncryptorV5.

Module ModuleDataEncryptorV4.
Definition VERSION_4 : Z := 4.

Record ModuleDataToEncryptV4 := {
  in_publicMeta : bytes;
  in_privateMeta : bytes;
  in_internalMeta : option bytes;
}.

Record DecryptedModuleDataV4 := {
  m4_dataStructureVersion : Z;
  m4_statusCode : option exn;
  m4_publicMeta : bytes;
  m4_privateMeta : bytes;
  m4_internalMeta : option bytes;
  m4_authorPubKey : bytes;
}.

Section Setters.
Implicit Types r : DecryptedModuleDataV4.
Definition set_statusCode (x : option exn) r := {|
  m4_dataStructureVersion := m4_dataStructureVersion r; m4_statusCode := x;
  m4_publicMeta := m4_publicMeta r; m4_privateMeta := m4_privateMeta r;
  m4_internalMeta := m4_internalMeta r; m4_authorPubKey := m4_authorPubKey r |}.
Definition set_publicMeta (x : bytes) r := {|
  m4_dataStructureVersion := m4_dataStructureVersion r; m4_statusCode := m4_statusCode r;
  m4_publicMeta := x; m4_privateMeta := m4_privateMeta r; m4_internalMeta := m4_internalMeta r;
  m4_authorPubKey := m4_authorPubKey r |}.
Definition set_privateMeta (x : bytes) r := {|
  m4_dataStructureVersion := m4_dataStructureVersion r; m4_statusCode := m4_statusCode r;
  m4_publicMeta := m4_publicMeta r; m4_privateMeta := x; m4_internalMeta := m4_internalMeta r;
  m4_authorPubKey := m4_authorPubKey r |}.
Definition set_internalMeta (x : option bytes) r := {|
  m4_dataStructureVersion := m4_dataStructureVersion r; m4_statusCode := m4_statusCode r;
  m4_publicMeta := m4_publicMeta r; m4_privateMeta := m4_privateMeta r; m4_internalMeta := x;
  m4_authorPubKey := m4_authorPubKey r |}.
Definition set_authorPubKey (x : bytes) r := {|
  m4_dataStructureVersion := m4_dataStructureVersion r; m4_statusCode := m4_statusCode r;
  m4_publicMeta := m4_publicMeta r; m4_privateMeta := m4_privateMeta r;
  m4_internalMeta := m4_internalMeta r; m4_authorPubKey := x |}.
End Setters.

#[export] Instance module4_status : HasStatus DecryptedModuleDataV4 :=
  {| status := m4_statusCode; set_status := set_statusCode; status_set _ _ := eq_refl |}.

Definition fresh : DecryptedModuleDataV4 := {|
  m4_dataStructureVersion := VERSION_4; m4_statusCode := None; m4_publicMeta := [];
  m4_privateMeta := []; m4_internalMeta := None; m4_authorPubKey := [] |}.

Section ModuleData.
Context `{Ecc} `{!Encodings} `{!Dynamic} `{!KeyFormats PublicKey}.

(** [dynamic::EncryptedModuleDataV4] *)
Record EncryptedModuleDataV4 := {
  version : Z;
  publicMeta : bytes;
  publicMetaObject : option Var;
  privateMeta : bytes;
  internalMeta : option bytes;
  authorPubKey : bytes;
}.

Definition encrypt (d : ModuleDataToEncryptV4) (authorPrivateKey : PrivateKey) (encryptionKey : bytes) :
    ST rng EncryptedModuleDataV4 :=
  let publicMeta := signAndEncode (in_publicMeta d) authorPrivateKey in
  let publicMetaObject := parsed_object (in_publicMeta d) in
  privateMeta ← signAndEncryptAndEncode (in_privateMeta d) authorPrivateKey encryptionKey;
  internalMeta ← match in_internalMeta d with
    | Some m => c ← signAndEncryptAndEncode m authorPrivateKey encryptionKey; mret (Some c)
    | None => mret None
    end;
  mret {| version := VERSION_4; publicMeta := publicMeta; publicMetaObject := publicMetaObject;
          privateMeta := privateMeta; internalMeta := internalMeta;
          authorPubKey := toBase58DER (getPublicKey authorPrivateKey) |}.

Definition validateVersion (e : EncryptedModuleDataV4) : outcome unit :=
  if bool_decide (version e <> VERSION_4) then Throw InvalidEncryptedModuleDataVersionException else Ret tt.

(** The readable copy is compared when it is empty. *)
Definition decrypt (e : EncryptedModuleDataV4) (encryptionKey : bytes) : outcome DecryptedModuleDataV4 :=
  guarded (
    _ ← lift (validateVersion e);
    authorPublicKey ← lift (fromBase58DER (authorPubKey e));
    m ← lift (decodeAndVerify (publicMeta e) authorPublicKey);
    _ ← modify (set_publicMeta m);
    differs ← lift (empty_object_differs (publicMetaObject e) m);
    _ ← modify (if (differs : bool) then set_statusCode (Some ModulePublicDataMismatchException) else id);
    m ← lift (decodeAndDecryptAndVerify (privateMeta e) authorPublicKey encryptionKey);
    _ ← modify (set_privateMeta m);
    m ← match internalMeta e with
        | Some c => m ← lift (decodeAndDecryptAndVerify c authorPublicKey encryptionKey); mret (Some m)
        | None => mret None
        end;
    _ ← modify (set_internalMeta m);
    modify (set_authorPubKey (authorPubKey e))) set_status fresh.
End ModuleData.

Section Laws.
Context {C : CryptoService} `{!CryptoLaws C} {E : Ecc} `{!EccLaws E} {E0 : Encodings} `{!EncodingsLaws E0} `{!Dynamic}.
Context `{!KeyFormats PublicKey} `{!KeyFormatsLaws PublicKey}.

Record encryptable (d : ModuleDataToEncryptV4) (ek : bytes) : Prop := {
  en_key : zlen ek = 32;
  en_private : small (in_privateMeta d);
  en_internal m : in_internalMeta d = Some m -> small m;
}.

Definition opened (d : ModuleDataToEncryptV4) (k : PrivateKey) : DecryptedModuleDataV4 := {|
  m4_dataStructureVersion := VERSION_4; m4_statusCode := None;
  m4_publicMeta := in_publicMeta d; m4_privateMeta := in_privateMeta d;
  m4_internalMeta := in_internalMeta d; m4_authorPubKey := toBase58DER (getPublicKey k) |}.

(** What is left of data whose public metadata the decryption refuses. *)
Definition public_only (d : ModuleDataToEncryptV4) (x : exn) : DecryptedModuleDataV4 :=
  set_statusCode (Some (status_of x)) (set_publicMeta (in_publicMeta d) fresh).

(** a structure-4 container opens exactly when its public metadata is a
    JSON object: for any other text, which [encrypt] accepts, decryption stops
    at the readable copy it expects, with an error status and without the
    private metadata. *)
Theorem module_v4_roundtrip d k ek g : encryptable d ek ->
  exists e g', encrypt d k ek g = (Ret e, g') /\
    match parse_json_object (in_publicMeta d) with
    | Ret _ => decrypt e ek = Ret (opened d k)
    | Throw x => x <> UndefinedBehaviour -> decrypt e ek = Ret (public_only d x)
    end.
Proof.
  intros [Hk Hp Hi]. unfold encrypt.
  destruct (seal_total (in_privateMeta d) k ek g Hk Hp) as (cp & g1 & Ep & Op & _). run_step.
  destruct (seal_optional_total (in_internalMeta d) k ek g1 Hk Hi) as (ci & g2 & Ei & Oi).
  run_step. do 2 eexists. split; [reflexivity|].
  destruct (parse_json_object (in_publicMeta d)) as [v|x] eqn:Ej.
  - apply guarded_ret. unfold_st. cbn -[decodeAndVerify]. rewrite base58der_inv, open_signed.
    unfold parsed_object. rewrite Ej. cbn. rewrite Op.
    unfold opened. destruct ci as [c|]; [|by rewrite Oi]. destruct Oi as (m & -> & ->). done.
  - intros Hx. unfold decrypt.
    rewrite (guarded_throw _ _ (set_publicMeta (in_publicMeta d) fresh) x); [done| |done].
    unfold_st. cbn -[decodeAndVerify]. rewrite base58der_inv, open_signed.
    unfold parsed_object, empty_object_differs, texts_differ. by rewrite !Ej.
Qed.
End Laws.
End ModuleDataEncryptorV4.

(** ** Concrete containers *)
Section Witness.
#[local] Existing Instances Toy.service Toy.laws ToyEcc.ecc ToyEcc.laws ToyJson.encodings
  ToyJson.encodings_laws ToyCodec.keys ToyCodec.keys_laws dio_codec dio_codec_laws.
#[local] Instance container_dynamic : Dynamic := ToyJson.dynamic [].
#[local] Instance internal_codec : JsonCodec ModuleDataEncryptorV5.ModuleInternalMetaV5 := {|
  serialize m := ToyCodec.of_strings [ModuleDataEncryptorV5.secret m; ModuleDataEncryptorV5.resourceId m;
                                      ModuleDataEncryptorV5.randomId m];
  deserialize d := match ToyCodec.to_strings d [] with
    | [s; r; i] => Ret {| ModuleDataEncryptorV5.secret := s; ModuleDataEncryptorV5.resourceId := r;
                          ModuleDataEncryptorV5.randomId := i |}
    | _ => Throw PocoException
    end |}.
#[local] Instance internal_codec_laws : JsonCodecLaws ModuleDataEncryptorV5.ModuleInternalMetaV5.
Proof. split. intros []. cbn [serialize deserialize internal_codec]. by rewrite ToyCodec.strings_inv. Qed.

Let key : @PrivateKey _ ToyEcc.ecc := x07.
Let container_key : bytes := lit "0123456789abcdef0123456789abcdef".
Let thread : ModuleDataEncryptorV5.ModuleDataToEncryptV5 := {|
  ModuleDataEncryptorV5.in_publicMeta := lit "public"; ModuleDataEncryptorV5.in_privateMeta := lit "private";
  ModuleDataEncryptorV5.in_internalMeta := {| ModuleDataEncryptorV5.secret := lit "s";
    ModuleDataEncryptorV5.resourceId := lit "r"; ModuleDataEncryptorV5.randomId := lit "i" |};
  ModuleDataEncryptorV5.in_dio := dio toy_dio |}.
Let thread4 : ModuleDataEncryptorV4.ModuleDataToEncryptV4 := {|
  ModuleDataEncryptorV4.in_publicMeta := lit "not an object";
  ModuleDataEncryptorV4.in_privateMeta := lit "private"; ModuleDataEncryptorV4.in_internalMeta := None |}.

Lemma module_roundtrip_witness : exists e g',
  ModuleDataEncryptorV5.encrypt thread key container_key 5 = (Ret e, g')
  /\ ModuleDataEncryptorV5.decrypt e container_key = Ret (ModuleDataEncryptorV5.opened thread key).
Proof.
  destruct (ModuleDataEncryptorV5.module_roundtrip thread key container_key 5) as (e & g' & He & Hd & _).
  - split; try done.
  - exists e, g'. exact (conj He Hd).
Defined.

Lemma module_v4_roundtrip_witness : exists e r,
  ModuleDataEncryptorV4.decrypt e container_key = Ret r
  /\ ModuleDataEncryptorV4.m4_statusCode r = Some EndpointCoreException
  /\ ModuleDataEncryptorV4.m4_privateMeta r = [].
Proof.
  destruct (ModuleDataEncryptorV4.module_v4_roundtrip thread4 key container_key 5) as (e & g' & _ & Hd).
  - split; done.
  - exists e. eexists. split; [apply Hd; discriminate|]. split; reflexivity.
Defined.
End Witness.
