(* ===== verification/EncKeys.v ===== *)
(** * Encrypted container keys

    [EncKeyEncryptorV1] and [EncKeyEncryptorV2]
    (endpoint/core/src/encryptors/EncKey): a container key travels to each user
    in an envelope for his public key; structure 2 adds a secret bound to the
    container and an integrity object signed by the sender. *)

From Stdlib Require Import ZArith Lia Strings.String Strings.Byte.
From stdpp Require Import base list gmap.
From S2P Require Import Prelude Bytes CoreTypes Crypto CryptoSuite Dynamic Encryptors Dio FieldData.

Record EncKeyV2ToEncrypt := {
  te_id : bytes;
  te_key : bytes;
  te_dio : DataIntegrityObject;
  te_location : EncKeyLocation;
  te_keySecret : bytes;
  te_secretHash : bytes;
}.

Record DecryptedEncKeyV2 := {
  k_id : bytes;
  k_key : bytes;
  k_dataStructureVersion : Z;
  k_statusCode : option exn;
  k_dio : ExpandedDataIntegrityObject;
  k_keySecret : bytes;
  k_secretHash : bytes;
}.

Section Setters.
Implicit Types r : DecryptedEncKeyV2.
Definition k_set_id (x : bytes) r := {| k_id := x; k_key := k_key r;
  k_dataStructureVersion := k_dataStructureVersion r; k_statusCode := k_statusCode r;
  k_dio := k_dio r; k_keySecret := k_keySecret r; k_secretHash := k_secretHash r |}.
Definition k_set_key (x : bytes) r := {| k_id := k_id r; k_key := x;
  k_dataStructureVersion := k_dataStructureVersion r; k_statusCode := k_statusCode r;
  k_dio := k_dio r; k_keySecret := k_keySecret r; k_secretHash := k_secretHash r |}.
Definition k_set_statusCode (x : option exn) r := {| k_id := k_id r; k_key := k_key r;
  k_dataStructureVersion := k_dataStructureVersion r; k_statusCode := x; k_dio := k_dio r;
  k_keySecret := k_keySecret r; k_secretHash := k_secretHash r |}.
Definition k_set_dio (x : ExpandedDataIntegrityObject) r := {| k_id := k_id r; k_key := k_key r;
  k_dataStructureVersion := k_dataStructureVersion r; k_statusCode := k_statusCode r; k_dio := x;
  k_keySecret := k_keySecret r; k_secretHash := k_secretHash r |}.
Definition k_set_keySecret (x : bytes) r := {| k_id := k_id r; k_key := k_key r;
  k_dataStructureVersion := k_dataStructureVersion r; k_statusCode := k_statusCode r;
  k_dio := k_dio r; k_keySecret := x; k_secretHash := k_secretHash r |}.
Definition k_set_secretHash (x : bytes) r := {| k_id := k_id r; k_key := k_key r;
  k_dataStructureVersion := k_dataStructureVersion r; k_statusCode := k_statusCode r;
  k_dio := k_dio r; k_keySecret := k_keySecret r; k_secretHash := x |}.
End Setters.

Definition k_set_version (x : Z) r := {|
  k_id := k_id r; k_key := k_key r; k_dataStructureVersion := x; k_statusCode := k_statusCode r;
  k_dio := k_dio r; k_keySecret := k_keySecret r; k_secretHash := k_secretHash r |}.

#[export] Instance key_status : HasStatus DecryptedEncKeyV2 :=
  {| status := k_statusCode; set_status := k_set_statusCode; status_set _ _ := eq_refl |}.

(** A value-initialised result with status 0.  Its [int64_t] fields are
    indeterminate in the code, which reads them only after setting them. *)
Definition fresh_key : DecryptedEncKeyV2 := {|
  k_id := []; k_key := []; k_dataStructureVersion := 0; k_statusCode := None;
  k_dio := {| dio := empty_dio; structureVersion := 0; fieldChecksums := ∅ |};
  k_keySecret := []; k_secretHash := [] |}.

(** ** Envelopes in Base64 (crypto/base/src/EciesEncryptor.cpp) *)
Module EciesBase64.
Section Text.
Context `{Ecc} `{!Encodings}.

Definition encryptToBase64 (pub : PublicKey) (data : bytes) (privForSignature : PrivateKey) : outcome bytes :=
  c ← Ecies.encrypt pub data privForSignature; mret (base64_from c).

Definition decryptFromBase64 (priv : PrivateKey) (cipher_base64 : bytes) (pubOfSignature : option PublicKey) :
    outcome bytes :=
  c ← base64_to cipher_base64; Ecies.decrypt priv c pubOfSignature.

(** Of an object, given by its codec. *)
Definition encryptObjectToBase64 `{!JsonCodec T} (pub : PublicKey) (x : T) (privForSignature : PrivateKey) :
    outcome bytes := encryptToBase64 pub (serialize x) privForSignature.

Definition decryptObjectFromBase64 `{!JsonCodec T} (priv : PrivateKey) (cipher_base64 : bytes)
    (pubOfSignature : option PublicKey) : outcome T :=
  d ← decryptFromBase64 priv cipher_base64 pubOfSignature; deserialize d.
End Text.
End EciesBase64.

Module EncKeyEncryptorV1.
Definition decrypt `{Ecc} `{!Encodings} (encryptedEncKey : bytes) (decryptionKey : PrivateKey) : outcome bytes :=
  EciesBase64.decryptFromBase64 decryptionKey encryptedEncKey None.
End EncKeyEncryptorV1.

(** [dynamic::EncryptionKey] *)
Record EncryptionKey := { ek_json_id : bytes; ek_json_key : bytes; ek_json_keySecret : bytes }.

(** [server::EncryptedKeyEntryDataV2] *)
Record EncryptedKeyEntryDataV2 := { ke_version : Z; ke_encryptedKey : bytes; ke_dio : bytes }.

Module EncKeyEncryptorV2.
Definition VERSION_2 : Z := 2.

Section EncKey.
Context `{Ecc} `{!Encodings} `{!KeyFormats PublicKey}.
Context `{!JsonCodec DIOEncryptorV1.DioJson} `{!JsonCodec EncryptionKey}.

Definition encrypt (key : EncKeyV2ToEncrypt) (encryptionKey : PublicKey) (authorPrivateKey : PrivateKey) :
    outcome EncryptedKeyEntryDataV2 :=
  let keyToEncrypt := {| ek_json_id := te_id key; ek_json_key := base64_from (te_key key);
                         ek_json_keySecret := base64_from (te_keySecret key) |} in
  encryptedKey ← EciesBase64.encryptObjectToBase64 encryptionKey keyToEncrypt authorPrivateKey;
  let sums : checksums := {[ lit "encryptedKey" := sha256 encryptedKey;
                             lit "secretHash" := te_secretHash key ]} in
  let expandedDio := {| dio := te_dio key; structureVersion := VERSION_2; fieldChecksums := sums |} in
  dio ← DIOEncryptorV1.signAndEncode expandedDio authorPrivateKey;
  mret {| ke_version := VERSION_2; ke_encryptedKey := encryptedKey; ke_dio := dio |}.

Definition assertDataFormat (e : EncryptedKeyEntryDataV2) : outcome unit :=
  if bool_decide (ke_version e <> VERSION_2) || bool_decide (ke_encryptedKey e = [])
  then Throw MalformedEncryptionKeyException else Ret tt.

Definition decrypt (e : EncryptedKeyEntryDataV2) (decryptionKey : PrivateKey) : outcome DecryptedEncKeyV2 :=
  guarded (
    _ ← lift (assertDataFormat e);
    expandedDio ← lift (DIOEncryptorV1.decodeAndVerify (ke_dio e));
    _ ← modify (k_set_dio expandedDio);
    bad ← lift (sum_differs (fieldChecksums expandedDio) (lit "encryptedKey") (ke_encryptedKey e));
    _ ← throw_if bad InvalidDataIntegrityObjectChecksumException;
    author ← lift (fromBase58DER (dio_creatorPubKey (dio expandedDio)));
    decryptedKey ← lift (EciesBase64.decryptObjectFromBase64 decryptionKey (ke_encryptedKey e) (Some author)
                         : outcome EncryptionKey);
    _ ← throw_if (bool_decide (ek_json_id decryptedKey = []) || bool_decide (ek_json_key decryptedKey = []))
          MalformedEncryptionKeyException;
    _ ← modify (k_set_id (ek_json_id decryptedKey));
    key ← lift (base64_to (ek_json_key decryptedKey));
    _ ← modify (k_set_key key);
    h ← lift (at_key (fieldChecksums expandedDio) (lit "secretHash"));
    _ ← modify (k_set_secretHash h);
    s ← lift (base64_to (ek_json_keySecret decryptedKey));
    modify (k_set_keySecret s)) set_status (k_set_version VERSION_2 fresh_key).
End EncKey.

Section Laws.
Context {C : CryptoService} `{!CryptoLaws C} {E : Ecc} `{!EccLaws E} {E0 : Encodings} `{!EncodingsLaws E0}.
Context `{!KeyFormats PublicKey} `{!KeyFormatsLaws PublicKey}.
Context `{!JsonCodec DIOEncryptorV1.DioJson} `{!JsonCodecLaws DIOEncryptorV1.DioJson}.
Context `{!JsonCodec EncryptionKey} `{!JsonCodecLaws EncryptionKey}.

(** What the sender puts in the envelope. *)
Definition enveloped (key : EncKeyV2ToEncrypt) : EncryptionKey :=
  {| ek_json_id := te_id key; ek_json_key := base64_from (te_key key);
     ek_json_keySecret := base64_from (te_keySecret key) |}.

Record sendable (key : EncKeyV2ToEncrypt) (k : PrivateKey) : Prop := {
  sk_dio : DIOEncryptorV1.well_formed (te_dio key);
  sk_creator : dio_creatorPubKey (te_dio key) = toBase58DER (getPublicKey k);
  sk_id : te_id key <> [];
  sk_key : te_key key <> [];
  sk_small : zlen (serialize (enveloped key)) < 2 ^ 63;
}.

(** The result the recipient sees. *)
Definition received (key : EncKeyV2ToEncrypt) (x : ExpandedDataIntegrityObject) : DecryptedEncKeyV2 := {|
  k_id := te_id key; k_key := te_key key; k_dataStructureVersion := VERSION_2; k_statusCode := None;
  k_dio := x; k_keySecret := te_keySecret key; k_secretHash := te_secretHash key |}.

Lemma key_roundtrip key u k : sendable key k ->
  exists e x, encrypt key (getPublicKey u) k = Ret e /\ ke_version e = VERSION_2
    /\ dio x = te_dio key /\ decrypt e u = Ret (received key x).
Proof.
  intros [Hw Hc Hi Hk Hs]. unfold encrypt. fold (enveloped key).
  destruct (Ecies.envelope_total k u (serialize (enveloped key)) Hs) as (c & Ec & Hf & Hn).
  unfold EciesBase64.encryptObjectToBase64, EciesBase64.encryptToBase64. rewrite Ec. unfold_st.
  match goal with |- context [DIOEncryptorV1.signAndEncode ?x k] => set (xd := x) end.
  destruct (DIOEncryptorV1.signAndEncode_ret xd k) as [cd Ed]; [done|].
  pose proof (DIOEncryptorV1.dio_open xd k cd Ed Hw) as Eo. rewrite Ed.
  eexists _, xd. split; [reflexivity|]. split; [done|]. split; [done|].
  apply guarded_ret. unfold assertDataFormat. cbn [ke_version ke_encryptedKey ke_dio].
  rewrite !bool_decide_eq_false_2; [|by apply base64_nonempty|tauto].
  unfold_st. rewrite Eo.
  rewrite (proj2 (sum_differs_false _ _ _)) by (cbn; sum_lookup).
  cbn [dio xd]. rewrite Hc, base58der_inv.
  unfold EciesBase64.decryptObjectFromBase64, EciesBase64.decryptFromBase64. unfold_st.
  rewrite base64_inv, (Ecies.envelope_opens _ _ _ _ _ Ec Hf (or_intror eq_refl)), json_inv.
  cbn [enveloped ek_json_id ek_json_key ek_json_keySecret].
  rewrite !bool_decide_eq_false_2; [|by apply base64_nonempty|done]. cbn [orb].
  rewrite !base64_inv. unfold at_key.
  assert (fieldChecksums xd !! lit "secretHash" = Some (te_secretHash key)) as -> by (cbn; sum_lookup).
  done.
Qed.

(** What a recipient accepts names its sender in a signed object that binds the
    envelope, and the envelope is from that sender to him. *)
Lemma key_accepts e u r : decrypt e u = Ret r -> k_statusCode r = None ->
  exists p, DIOEncryptorV1.decodeAndVerify (ke_dio e) = Ret (k_dio r)
    /\ k_dataStructureVersion r = VERSION_2
    /\ fromBase58DER (dio_creatorPubKey (dio (k_dio r))) = Ret p
    /\ fieldChecksums (k_dio r) !! lit "encryptedKey" = Some (sha256 (ke_encryptedKey e))
    /\ fieldChecksums (k_dio r) !! lit "secretHash" = Some (k_secretHash r)
    /\ exists c d, base64_to (ke_encryptedKey e) = Ret c /\ Ecies.decrypt u c (Some p) = Ret d
         /\ exists j, deserialize d = Ret j /\ ek_json_id j = k_id r /\ base64_to (ek_json_key j) = Ret (k_key r).
Proof.
  intros Hr Hs. apply guarded_success in Hr; [|exact Hs].
  inv_bind Hr as ([] & ? & [= _ <-] & Hr). inv_bind Hr as (x & ? & [= Hx <-] & Hr).
  inv_bind Hr as ([] & ? & [= <-] & Hr). inv_bind Hr as (bad & ? & [= Hb <-] & Hr).
  inv_bind Hr as ([] & ? & Hbad & Hr). destruct bad; [done|]. injection Hbad as <-.
  apply sum_differs_false in Hb.
  inv_bind Hr as (p & ? & [= Hp <-] & Hr). inv_bind Hr as (j & ? & [= Hj <-] & Hr).
  inv_bind Hr as ([] & ? & Hm & Hr). unfold throw_if in Hm. destruct (_ || _); [done|]. injection Hm as <-.
  inv_bind Hr as ([] & ? & [= <-] & Hr). inv_bind Hr as (key & ? & [= Hk <-] & Hr).
  inv_bind Hr as ([] & ? & [= <-] & Hr). inv_bind Hr as (h & ? & [= Hh <-] & Hr).
  inv_bind Hr as ([] & ? & [= <-] & Hr). inv_bind Hr as (s & ? & [= _ <-] & Hr). injection Hr as <-.
  unfold at_key in Hh. destruct (fieldChecksums x !! lit "secretHash") as [h'|] eqn:El; [|done].
  injection Hh as ->.
  unfold EciesBase64.decryptObjectFromBase64, EciesBase64.decryptFromBase64 in Hj.
  revert Hj. unfold_st. destruct (base64_to (ke_encryptedKey e)) as [c|]; [|done].
  destruct (Ecies.decrypt u c (Some p)) as [d|] eqn:Ed; [|done]. intros Hj.
  exists p. do 5 (split; [assumption || reflexivity|]). exists c, d. do 2 (split; [done|]). by exists j.
Qed.
End Laws.
End EncKeyEncryptorV2.
