(* ===== verification/KeyProvider.v ===== *)
(** * The key provider (endpoint/core/src/KeyProvider.cpp)

    Key requests are collected per container location, decrypted, and checked:
    the integrity object must be for the location, no two keys of a location may
    share its random id and timestamp, and the application's verifier must
    accept the sender.  A failed check sets the key's status; the others stay. *)

From Stdlib Require Import ZArith Lia Strings.String Strings.Byte.
From stdpp Require Import base list gmap fin_maps sorting.
From S2P Require Import Prelude Bytes CoreTypes Crypto CryptoSuite Dynamic Encryptors Dio FieldData.
From S2P Require Import EncKeys.

(** The order in which a loop visits an unordered container: not specified,
    but every element is visited once. *)
Class HashOrder := {
  hash_order {K} `{Countable K} {A} : gmap K A -> list (K * A);
  hash_order_perm {K} `{Countable K} {A} (m : gmap K A) : hash_order m ≡ₚ map_to_list m;
}.

(** What the code asks of the JSON value of a key. *)
Class KeyEntryJson `{Dynamic} := {
  is_object : Var -> bool;
  (** [dynamic::VersionedData::fromJSON(v).version] *)
  versioned : Var -> outcome Z;
  v2_fromJSON : Var -> outcome EncryptedKeyEntryDataV2;
  v2_toJSON : EncryptedKeyEntryDataV2 -> Var;
  is_string : Var -> bool;
  string_of : Var -> outcome bytes;
}.
Class KeyEntryJsonLaws `{KeyEntryJson} := {
  v2_is_object e : is_object (v2_toJSON e) = true;
  v2_versioned e : versioned (v2_toJSON e) = Ret (ke_version e);
  v2_inv e : v2_fromJSON (v2_toJSON e) = Ret e;
}.

(** [VerificationRequest] and the application's [UserVerifierInterface] *)
Record VerificationRequest := {
  vr_contextId : bytes;
  vr_senderId : bytes;
  vr_senderPubKey : bytes;
  vr_date : Z;
  vr_bridgeIdentity : option BridgeIdentity;
}.

Module UserVerifier.
Definition verify (_userVerifier : list VerificationRequest -> outcome (list bool))
    (request : list VerificationRequest) : outcome (list bool) :=
  match _userVerifier request with
  | Throw _ => Throw UserVerificationMethodUnhandledException
  | Ret result =>
      if bool_decide (length result <> length request) then Throw MalformedVerifierResponseException
      else Ret result
  end.
End UserVerifier.

Section Json.
Context `{!Dynamic}.

(** [server::KeyEntry]; an absent value is an empty [Var]. *)
Record KeyEntry := { kn_keyId : bytes; kn_data : option Var }.

(** [server::KeyEntrySet] *)
Record KeyEntrySet := { ks_user : bytes; ks_keyId : bytes; ks_data : Var }.
End Json.

Record UserWithPubKey := { u_userId : bytes; u_pubKey : bytes }.

(** ** Requests *)
Module KeyDecryptionAndVerificationRequest.
Section Request.
Context `{!Dynamic}.

Record t := {
  requestData : gmap EncKeyLocation (gmap bytes KeyEntry);
  _completed : bool;
}.

Definition empty : t := {| requestData := ∅; _completed := false |}.

(** [insert_or_assign] of each key into the keys of the location. *)
Definition insert_keys (keysToDecrypt : list KeyEntry) (location : EncKeyLocation) (r : t) : t :=
  let old := default ∅ (requestData r !! location) in
  {| requestData := <[ location := fold_left (fun m k => <[ kn_keyId k := k ]> m) keysToDecrypt old ]>
                      (requestData r);
     _completed := _completed r |}.

Definition addOne (keys : list KeyEntry) (keyId : bytes) (location : EncKeyLocation) : ST t unit :=
  c ← gets _completed;
  _ ← throw_if c KeyProviderRequestCompletedException;
  let keyToDecrypt := match List.find (fun k => bool_decide (kn_keyId k = keyId)) keys with
    | Some k => k
    | None => {| kn_keyId := keyId; kn_data := None |}
    end in
  modify (insert_keys [keyToDecrypt] location).

(** The loop of [addMany]: the keys found, and the identifiers left over. *)
Fixpoint take_known (keys : list KeyEntry) (keyIds : gset bytes) : list KeyEntry * gset bytes :=
  match keys with
  | [] => ([], keyIds)
  | k :: keys =>
      if bool_decide (kn_keyId k ∈ keyIds) then
        let '(found, rest) := take_known keys (keyIds ∖ {[ kn_keyId k ]}) in (k :: found, rest)
      else take_known keys keyIds
  end.

Definition addMany (keys : list KeyEntry) (keyIds : gset bytes) (location : EncKeyLocation) : ST t unit :=
  c ← gets _completed;
  _ ← throw_if c KeyProviderRequestCompletedException;
  let '(found, rest) := take_known keys keyIds in
  let keysToDecrypt := found ++ ((fun id => {| kn_keyId := id; kn_data := None |}) <$> elements rest) in
  modify (insert_keys keysToDecrypt location).

Definition addAll (keys : list KeyEntry) (location : EncKeyLocation) : ST t unit :=
  c ← gets _completed;
  _ ← throw_if c KeyProviderRequestCompletedException;
  modify (insert_keys keys location).

Definition markAsCompleted : ST t unit :=
  modify (fun r => {| requestData := requestData r; _completed := true |}).
End Request.
End KeyDecryptionAndVerificationRequest.

(** ** The provider *)
Module KeyProvider.
Abbreviation key_map := (gmap bytes DecryptedEncKeyV2).
Abbreviation located := (gmap EncKeyLocation key_map).

Definition VERSION_1 : Z := 1.
Definition VERSION_2 : Z := 2.

Section Provider.
Context `{Ecc} `{!Encodings} `{!Dynamic} `{!KeyFormats PublicKey} `{!KeyEntryJson} `{!HashOrder}.
Context `{!JsonCodec DIOEncryptorV1.DioJson} `{!JsonCodec EncryptionKey}.
(** The user's key, and the verifier [_getUserVerifier()] returns. *)
Variable _key : PrivateKey.
Variable _userVerifier : list VerificationRequest -> outcome (list bool).

Definition generateKey : ST rng EncKey :=
  id ← random 16; key ← random 32; mret (mkEncKey (hex_from id) key).

Definition generateSecret : ST rng bytes := s ← random 32; mret (hex_from s).

Definition secret_hash (containerSecret keySecret : bytes) (location : EncKeyLocation) : bytes :=
  hmacSha256 containerSecret (keySecret ++ loc_contextId location ++ loc_resourceId location).

Definition createKeyEntrySet (user : UserWithPubKey) (key : EncKey) (dio : DataIntegrityObject)
    (location : EncKeyLocation) (containerSecret : bytes) : ST rng KeyEntrySet :=
  keySecret ← generateSecret;
  pub ← lift (fromBase58DER (u_pubKey user));
  data ← lift (EncKeyEncryptorV2.encrypt
    {| te_id := ek_id key; te_key := ek_key key; te_dio := dio; te_location := location;
       te_keySecret := keySecret; te_secretHash := secret_hash containerSecret keySecret location |}
    pub _key);
  mret {| ks_user := u_userId user; ks_keyId := ek_id key; ks_data := v2_toJSON data |}.

Definition prepareKeysList (users : list UserWithPubKey) (key : EncKey) (dio : DataIntegrityObject)
    (location : EncKeyLocation) (containerSecret : bytes) : ST rng (list KeyEntrySet) :=
  for_collect users (fun user => createKeyEntrySet user key dio location containerSecret).

(** [EndpointUtils::generateDIORandomId] *)
Definition generateDIORandomId : ST rng bytes := s ← random 8; mret (hex_from s).

Definition with_randomId (dio : DataIntegrityObject) (r : bytes) : DataIntegrityObject :=
  mkDIO (dio_creatorUserId dio) (dio_creatorPubKey dio) (dio_contextId dio) (dio_resourceId dio)
    (dio_timestamp dio) r (dio_containerId dio) (dio_containerResourceId dio) (dio_bridgeIdentity dio).

Definition prepareMissingKeysForNewUsers (missingKeys : key_map) (users : list UserWithPubKey)
    (dio : DataIntegrityObject) (location : EncKeyLocation) (containerSecret : bytes) :
    ST rng (list KeyEntrySet) :=
  l ← for_collect (hash_order missingKeys) (fun '(_, key) =>
    r ← (if bool_decide (k_dataStructureVersion key = VERSION_1) then generateDIORandomId
         else mret (dio_randomId (Dio.dio (k_dio key))));
    let missingKeyDIO := with_randomId dio r in
    match k_statusCode key with
    | Some _ => mret []
    | None => for_collect users (fun user =>
        createKeyEntrySet user (mkEncKey (k_id key) (k_key key)) missingKeyDIO location containerSecret)
    end);
  mret (concat l).

Definition verifyKeysSecret (decryptedKeys : key_map) (location : EncKeyLocation)
    (containerSecret : bytes) : bool :=
  forallb (fun '(_, key) =>
    negb (negb (bool_decide (k_statusCode key = None))
          || bool_decide (k_dataStructureVersion key = VERSION_2)
             && bool_decide (k_secretHash key <> secret_hash containerSecret (k_keySecret key) location)))
    (hash_order decryptedKeys).

(** One turn of the loop of [decryptAndVerifyKeys]. *)
Definition decrypt_entry (e : KeyEntry) : outcome DecryptedEncKeyV2 :=
  match kn_data e with
  | Some v =>
      if is_object v then
        match versioned v with
        | Throw x => Ret (k_set_statusCode (Some (status_of x)) fresh_key)
        | Ret version =>
            if bool_decide (version = VERSION_2) then
              d ← v2_fromJSON v; EncKeyEncryptorV2.decrypt d _key
            else Ret (k_set_statusCode (Some UnknownEncryptionKeyVersionException) fresh_key)
        end
      else if is_string v then
        s ← string_of v;
        key ← EncKeyEncryptorV1.decrypt s _key;
        Ret (k_set_version VERSION_1 (k_set_key key (k_set_id (kn_keyId e) fresh_key)))
      else Ret (k_set_statusCode (Some UnknownEncryptionKeyVersionException) fresh_key)
  | None => Ret (k_set_statusCode (Some UnknownEncryptionKeyVersionException) fresh_key)
  end.

Fixpoint decrypt_all (keys : list (bytes * KeyEntry)) (result : key_map) : outcome key_map :=
  match keys with
  | [] => Ret result
  | (id, e) :: keys => d ← decrypt_entry e; decrypt_all keys (<[ id := d ]> result)
  end.

(** A key whose sender is checked. *)
Definition checked (k : DecryptedEncKeyV2) : bool :=
  bool_decide (k_statusCode k = None) && bool_decide (k_dataStructureVersion k = VERSION_2).

Definition verifyData (decryptedKeys : key_map) (location : EncKeyLocation) : key_map :=
  (fun k => if checked k
              && (bool_decide (dio_contextId (dio (k_dio k)) <> loc_contextId location)
                  || bool_decide (dio_resourceId (dio (k_dio k)) <> loc_resourceId location))
            then k_set_statusCode (Some EncryptionKeyContainerValidationException) k else k)
  <$> decryptedKeys.

Definition nonce (k : DecryptedEncKeyV2) : bytes * Z :=
  (dio_randomId (dio (k_dio k)), dio_timestamp (dio (k_dio k))).

(** One turn of the loop of [verifyForDuplication], at the key [id]. *)
Definition set_duplicated (id : bytes) (keys : key_map) : key_map :=
  alter (k_set_statusCode (Some DataIntegrityObjectDuplicatedException)) id keys.

Definition check_duplicate (id : bytes) (st : gmap (bytes * Z) bytes * key_map) :
    gmap (bytes * Z) bytes * key_map :=
  let '(duplicateMap, keys) := st in
  match keys !! id with
  | None => st
  | Some k =>
      if negb (bool_decide (k_statusCode k = None)) || bool_decide (dio_creatorPubKey (dio (k_dio k)) = [])
      then st
      else match duplicateMap !! nonce k with
           | Some first => (duplicateMap, set_duplicated first (set_duplicated id keys))
           | None => (<[ nonce k := id ]> duplicateMap, keys)
           end
  end.

Definition verifyForDuplication (keys : key_map) : key_map :=
  (fold_left (fun st id => check_duplicate id st) (hash_order keys).*1 (∅, keys)).2.

Definition decryptAndVerifyKeys (keys : gmap bytes KeyEntry) (location : EncKeyLocation) :
    outcome key_map :=
  result ← decrypt_all (hash_order keys) ∅;
  let result := verifyData result location in
  Ret (if bool_decide (1 < size result)%nat then verifyForDuplication result else result).

(** The requests of [verifyUserData], each with where its answer goes. *)
Definition request_of (k : DecryptedEncKeyV2) : VerificationRequest :=
  let d := dio (k_dio k) in
  {| vr_contextId := dio_contextId d; vr_senderId := dio_creatorUserId d;
     vr_senderPubKey := dio_creatorPubKey d; vr_date := dio_timestamp d;
     vr_bridgeIdentity := dio_bridgeIdentity d |}.

Definition to_verify (decryptedKeys : located) : list (EncKeyLocation * bytes * VerificationRequest) :=
  concat ((fun '(loc, keys) =>
    omap (fun '(id, k) => if checked k then Some (loc, id, request_of k) else None) (hash_order keys))
    <$> hash_order decryptedKeys).

Definition reject (loc : EncKeyLocation) (id : bytes) (decryptedKeys : located) : located :=
  alter (alter (k_set_statusCode (Some UserVerificationFailureException)) id) loc decryptedKeys.

Definition verifyUserData (decryptedKeys : located) : outcome located :=
  let tmp := to_verify decryptedKeys in
  verificationResult ← UserVerifier.verify _userVerifier tmp.*2;
  Ret (fold_left (fun keys '((loc, id, _), ok) => if (ok : bool) then keys else reject loc id keys)
         (zip tmp verificationResult) decryptedKeys).

Fixpoint decrypt_locations (l : list (EncKeyLocation * gmap bytes KeyEntry)) (result : located) :
    outcome located :=
  match l with
  | [] => Ret result
  | (loc, keys) :: l => r ← decryptAndVerifyKeys keys loc; decrypt_locations l (<[ loc := r ]> result)
  end.

Definition getKeysAndVerify (request : KeyDecryptionAndVerificationRequest.t) : outcome located :=
  result ← decrypt_locations (hash_order (KeyDecryptionAndVerificationRequest.requestData request)) ∅;
  verifyUserData result.

(** What stands behind a key that came without an error status.  A key of
    structure 2 was decrypted with its integrity object, which is for the
    location, and the verifier accepted the sender it names.  A key of structure
    1 is only the text some sender encrypted: it carries nothing to check, and
    the verifier is not asked about it. *)
Definition sender_accepted (k : DecryptedEncKeyV2) : Prop := exists requests answers n,
  _userVerifier requests = Ret answers /\ requests !! n = Some (request_of k) /\ answers !! n = Some true.

Inductive opened_from (e : KeyEntry) (loc : EncKeyLocation) (k : DecryptedEncKeyV2) : Prop :=
| opened_2 v x : k_dataStructureVersion k = VERSION_2 ->
    kn_data e = Some v -> is_object v = true -> v2_fromJSON v = Ret x -> EncKeyEncryptorV2.decrypt x _key = Ret k ->
    dio_contextId (dio (k_dio k)) = loc_contextId loc -> dio_resourceId (dio (k_dio k)) = loc_resourceId loc ->
    sender_accepted k -> opened_from e loc k
| opened_1 v s key : k_dataStructureVersion k = VERSION_1 ->
    kn_data e = Some v -> is_object v = false -> string_of v = Ret s -> EncKeyEncryptorV1.decrypt s _key = Ret key ->
    k = k_set_version VERSION_1 (k_set_key key (k_set_id (kn_keyId e) fresh_key)) -> opened_from e loc k.
End Provider.

Section Loops.
Context `{!HashOrder}.
Implicit Types keys : key_map.

Lemma order_elem {K} `{Countable K} {A} (m : gmap K A) i x : (i, x) ∈ hash_order m <-> m !! i = Some x.
Proof. rewrite (hash_order_perm m). apply elem_of_map_to_list. Qed.

Lemma order_fst {K} `{Countable K} {A} (m : gmap K A) :
  NoDup (hash_order m).*1 /\ forall i, i ∈ (hash_order m).*1 <-> is_Some (m !! i).
Proof.
  split; [rewrite (hash_order_perm m); apply NoDup_fst_map_to_list|].
  intros i. rewrite list_elem_of_fmap. split.
  - intros ([j x] & -> & Hx%order_elem). by eexists.
  - intros [x Hx%order_elem]. by exists (i, x).
Qed.

Lemma order_singleton {K} `{Countable K} {A} (i : K) (x : A) :
  hash_order ({[ i := x ]} : gmap K A) = [(i, x)].
Proof.
  apply Permutation_singleton_r. rewrite (hash_order_perm _). by rewrite map_to_list_singleton.
Qed.

(** *** Duplicates *)

(** A key that takes part in the comparison. *)
Definition active (k : DecryptedEncKeyV2) : bool :=
  bool_decide (k_statusCode k = None) && negb (bool_decide (dio_creatorPubKey (dio (k_dio k)) = [])).

(** Another active key of the list shares the nonce. *)
Definition has_twin (l : list bytes) keys (i : bytes) (k : DecryptedEncKeyV2) : bool :=
  active k && existsb (fun j => negb (bool_decide (j = i)) && match keys !! j with
    | Some k' => active k' && bool_decide (nonce k' = nonce k)
    | None => false
    end) l.

Definition flagged (l : list bytes) keys (i : bytes) (k : DecryptedEncKeyV2) : DecryptedEncKeyV2 :=
  if bool_decide (i ∈ l) && has_twin l keys i k
  then k_set_statusCode (Some DataIntegrityObjectDuplicatedException) k else k.

Lemma has_twin_true l keys i k : has_twin l keys i k = true <->
  active k = true /\ exists j k', j ∈ l /\ j <> i /\ keys !! j = Some k' /\ active k' = true /\ nonce k' = nonce k.
Proof.
  unfold has_twin. rewrite andb_true_iff, existsb_exists. split; intros [Ha Hx]; (split; [done|]).
  - destruct Hx as (j & Hj & [Hn Hk]%andb_true_iff).
    destruct (keys !! j) as [k'|] eqn:Ej; [|done]. apply andb_true_iff in Hk as [Hk Hb].
    apply negb_true_iff, bool_decide_eq_false in Hn. apply bool_decide_eq_true in Hb.
    exists j, k'. by rewrite list_elem_of_In.
  - destruct Hx as (j & k' & Hj & Hn & Ej & Hk & Hb). exists j. rewrite <- list_elem_of_In, Ej, Hk.
    rewrite bool_decide_eq_false_2, bool_decide_eq_true_2 by done. done.
Qed.

(** The state of the loop after the keys [l]. *)
Record scanned keys (l : list bytes) (st : gmap (bytes * Z) bytes * key_map) : Prop := {
  sc_first n i : st.1 !! n = Some i ->
    i ∈ l /\ exists k, keys !! i = Some k /\ active k = true /\ nonce k = n;
  sc_seen i k : i ∈ l -> keys !! i = Some k -> active k = true -> is_Some (st.1 !! nonce k);
  sc_keys i : st.2 !! i = flagged l keys i <$> keys !! i;
}.

(** Adding a key that no other of the list can match changes no flag. *)
Lemma flagged_snoc l keys id i k : keys !! i = Some k -> id ∉ l ->
  (forall k', keys !! id = Some k' -> active k' = true -> forall j kj, j ∈ l -> keys !! j = Some kj ->
     active kj = true -> nonce kj <> nonce k') ->
  flagged (l ++ [id]) keys i k = flagged l keys i k.
Proof.
  intros Hi Hid Hno. unfold flagged.
  destruct (bool_decide (i ∈ l ++ [id]) && has_twin (l ++ [id]) keys i k) eqn:E1;
    destruct (bool_decide (i ∈ l) && has_twin l keys i k) eqn:E2; try done; exfalso.
  - apply andb_true_iff in E1 as [Hl%bool_decide_eq_true Ht]. apply has_twin_true in Ht as (Ha & j & k' & Hj & Hn & Ej & Hk & Hb).
    apply andb_false_iff in E2.
    apply elem_of_app in Hl as [Hl| ->%list_elem_of_singleton].
    + destruct E2 as [E2%bool_decide_eq_false|E2]; [done|].
      apply elem_of_app in Hj as [Hj| ->%list_elem_of_singleton].
      * apply not_true_iff_false in E2. apply E2, has_twin_true. split; [done|]. by exists j, k'.
      * by eapply (Hno k' Ej Hk i k).
    + apply elem_of_app in Hj as [Hj| ->%list_elem_of_singleton]; [|done].
      by eapply (Hno k Hi Ha j k').
  - apply andb_true_iff in E2 as [Hl%bool_decide_eq_true Ht]. apply has_twin_true in Ht as (Ha & j & k' & Hj & Hr).
    apply andb_false_iff in E1 as [E1%bool_decide_eq_false|E1]; [by apply E1, elem_of_app; left|].
    apply not_true_iff_false in E1. apply E1, has_twin_true. split; [done|]. exists j, k'.
    split; [by apply elem_of_app; left|done].
Qed.

Lemma flagged_true l keys i k j k' : i ∈ l -> active k = true -> j ∈ l -> j <> i ->
  keys !! j = Some k' -> active k' = true -> nonce k' = nonce k ->
  flagged l keys i k = k_set_statusCode (Some DataIntegrityObjectDuplicatedException) k.
Proof.
  intros Hi Ha Hj Hn Ej Hk Hb. unfold flagged. rewrite bool_decide_eq_true_2 by done.
  by rewrite (proj2 (has_twin_true _ _ _ _)) by eauto 10.
Qed.

(** A second key of a nonce only flags itself and the first. *)
Lemma flagged_snoc_other l keys id k first kf i ki : keys !! i = Some ki -> i <> id -> i <> first ->
  keys !! id = Some k -> first ∈ l -> keys !! first = Some kf -> active kf = true -> nonce kf = nonce k ->
  flagged (l ++ [id]) keys i ki = flagged l keys i ki.
Proof.
  intros Ei Hid Hf Eid Hl Ef Ha Hn. unfold flagged.
  replace (bool_decide (i ∈ l ++ [id])) with (bool_decide (i ∈ l)).
  2:{ apply bool_decide_ext. rewrite elem_of_app, list_elem_of_singleton. tauto. }
  replace (has_twin (l ++ [id]) keys i ki) with (has_twin l keys i ki); [done|].
  apply eq_true_iff_eq. rewrite !has_twin_true. split; intros [Hai (j & k' & Hj & Hr)]; (split; [done|]).
  - exists j, k'. split; [by apply elem_of_app; left|done].
  - apply elem_of_app in Hj as [Hj| ->%list_elem_of_singleton]; [by exists j, k'|].
    destruct Hr as (_ & Ej & _ & Hb). rewrite Eid in Ej. injection Ej as <-.
    exists first, kf. by rewrite Hn.
Qed.

Lemma check_duplicate_scanned keys l id k st : scanned keys l st -> id ∉ l -> keys !! id = Some k ->
  scanned keys (l ++ [id]) (check_duplicate id st).
Proof.
  destruct st as [dm ks]. intros [Hf Hs Hk] Hid Ek. cbn [fst snd] in *.
  assert (ks !! id = Some k) as Eid.
  { rewrite Hk, Ek. cbn. unfold flagged. by rewrite bool_decide_eq_false_2 by done. }
  assert (forall n i, dm !! n = Some i -> i ∈ l ++ [id] /\
    exists k, keys !! i = Some k /\ active k = true /\ nonce k = n) as Hf'.
  { intros n i Hd. destruct (Hf n i Hd) as [Hl Hx]. split; [by apply elem_of_app; left|done]. }
  unfold check_duplicate. rewrite Eid.
  destruct (negb _ || _) eqn:Ea.
  - assert (active k = false) as Hna.
    { unfold active. apply orb_true_iff in Ea as [Ea|Ea]; [by destruct (bool_decide _)|].
      rewrite Ea. by apply andb_false_r. }
    split; cbn [fst snd]; [done| |].
    + intros i ki [Hi| ->%list_elem_of_singleton]%elem_of_app Ei Ha; [by eapply Hs|congruence].
    + intros i. rewrite Hk. destruct (keys !! i) as [ki|] eqn:Ei; [|done]. cbn. f_equal.
      symmetry. apply flagged_snoc; [done|done|]. intros k' E' Ha. congruence.
  - assert (active k = true) as Ha.
    { unfold active. apply orb_false_elim in Ea as [E1 E2]. rewrite E2. by apply negb_false_iff in E1 as ->. }
    destruct (dm !! nonce k) as [first|] eqn:Ed.
    + destruct (Hf _ _ Ed) as (Hl & kf & Ef & Haf & Hn).
      assert (first <> id) as Hne by congruence.
      split; cbn [fst snd]; [done| |].
      * intros i ki [Hi| ->%list_elem_of_singleton]%elem_of_app Ei Hai; [by eapply Hs|].
        rewrite Ek in Ei. injection Ei as <-. by rewrite Ed.
      * intros i. unfold set_duplicated. destruct (decide (i = first)) as [->|Hif].
        { rewrite lookup_alter_eq, lookup_alter_ne, Hk, Ef by done. cbn. f_equal.
          rewrite (flagged_true (l ++ [id]) keys first kf id k) by (rewrite ?elem_of_app, ?list_elem_of_singleton; auto; congruence).
          unfold flagged. by destruct (_ && _). }
        rewrite lookup_alter_ne by done. destruct (decide (i = id)) as [->|Hii].
        { rewrite lookup_alter_eq, Eid, Ek. cbn. f_equal. symmetry.
          apply (flagged_true _ _ _ _ first kf); rewrite ?elem_of_app, ?list_elem_of_singleton; auto. }
        rewrite lookup_alter_ne, Hk by done. destruct (keys !! i) as [ki|] eqn:Ei; [|done]. cbn. f_equal.
        symmetry. by eapply (flagged_snoc_other l keys id k first kf).
    + split; cbn [fst snd].
      * intros n i. rewrite lookup_insert_Some. intros [[<- <-]|[_ Hd]]; [|by apply Hf'].
        split; [by apply elem_of_app; right; apply list_elem_of_singleton|]. by exists k.
      * intros i ki Hi Ei Hai. destruct (decide (nonce ki = nonce k)) as [->|Hn]; [by rewrite lookup_insert_eq|].
        rewrite lookup_insert_ne by done. apply elem_of_app in Hi as [Hi| ->%list_elem_of_singleton]; [by eapply Hs|congruence].
      * intros i. rewrite Hk. destruct (keys !! i) as [ki|] eqn:Ei; [|done]. cbn. f_equal.
        symmetry. apply flagged_snoc; [done|done|]. intros k' E' _ j kj Hj Ej Haj Hn.
        rewrite Ek in E'. injection E' as <-. destruct (Hs j kj Hj Ej Haj) as [x Hx]. congruence.
Qed.

Lemma scan_all keys l l' st : scanned keys l st -> NoDup (l ++ l') -> (forall i, i ∈ l' -> is_Some (keys !! i)) ->
  scanned keys (l ++ l') (fold_left (fun st id => check_duplicate id st) l' st).
Proof.
  revert l st. induction l' as [|id l' IH]; intros l st Hs Hn Hd; cbn [fold_left].
  - by rewrite app_nil_r.
  - destruct (Hd id) as [k Ek]; [by left|].
    replace (l ++ id :: l') with ((l ++ [id]) ++ l') in * by by rewrite <- app_assoc.
    apply IH; [|done|intros i Hi; apply Hd; by right].
    apply (check_duplicate_scanned keys l id k); [done| |done].
    apply NoDup_app in Hn as [Hn _]. apply NoDup_app in Hn as (_ & Hn & _).
    intros Hid. by apply (Hn id Hid), list_elem_of_singleton.
Qed.

Lemma verifyForDuplication_lookup keys i :
  verifyForDuplication keys !! i = flagged (hash_order keys).*1 keys i <$> keys !! i.
Proof.
  unfold verifyForDuplication. destruct (order_fst keys) as [Hn Hd].
  refine (sc_keys _ _ _ (scan_all keys [] _ (∅, keys) _ _ _) i); [|done|by intros j Hj%Hd].
  split; cbn [fst snd]; [by intros n j Hx|by intros j k Hj%not_elem_of_nil|].
  intros j. unfold flagged. rewrite bool_decide_eq_false_2 by apply not_elem_of_nil.
  by destruct (keys !! j).
Qed.
End Loops.

Section Verified.
Context {C : CryptoService} {E : Ecc} `{!Encodings} {D : Dynamic} `{!KeyFormats PublicKey} `{!KeyEntryJson} `{!HashOrder}.
Context `{!JsonCodec DIOEncryptorV1.DioJson} `{!JsonCodec EncryptionKey}.
Variable _key : PrivateKey.
Variable _userVerifier : list VerificationRequest -> outcome (list bool).

Lemma decrypt_all_lookup l acc r id k : decrypt_all _key l acc = Ret r -> r !! id = Some k ->
  acc !! id = Some k \/ exists e, (id, e) ∈ l /\ decrypt_entry _key e = Ret k.
Proof.
  revert acc. induction l as [|[i e] l IH]; intros acc Hr Hk; cbn in Hr.
  - injection Hr as ->. by left.
  - destruct (decrypt_entry _key e) as [d|] eqn:Ed; [|done].
    apply IH in Hr as [Hr|(e' & He & Hd)]; [|right; exists e'; split; [by right|done]|done].
    apply lookup_insert_Some in Hr as [[<- <-]|[_ Hr]]; [|by left].
    right. exists e. split; [by left|done].
Qed.

Lemma v2_version x k : EncKeyEncryptorV2.decrypt x _key = Ret k -> k_statusCode k = None ->
  k_dataStructureVersion k = VERSION_2.
Proof.
  intros Hr Hs. apply guarded_success in Hr; [|exact Hs].
  revert Hr. unfold_st. repeat (case_match; try done). intros [= <-].
  unfold mret, st_ret in *. by simplify_eq/=.
Qed.

(** An entry that decrypts without an error status is of structure 2 or 1. *)
Lemma decrypt_entry_opened e k : decrypt_entry _key e = Ret k -> k_statusCode k = None -> exists v, kn_data e = Some v
  /\ ((k_dataStructureVersion k = VERSION_2 /\ is_object v = true
        /\ exists x, v2_fromJSON v = Ret x /\ EncKeyEncryptorV2.decrypt x _key = Ret k)
      \/ (is_object v = false /\ exists s key, string_of v = Ret s /\ EncKeyEncryptorV1.decrypt s _key = Ret key
            /\ k = k_set_version VERSION_1 (k_set_key key (k_set_id (kn_keyId e) fresh_key)))).
Proof.
  unfold decrypt_entry. intros Hd Hs. destruct (kn_data e) as [v|]; [|by injection Hd as <-].
  exists v. split; [done|]. destruct (is_object v).
  - left. destruct (versioned v) as [n|]; [|by injection Hd as <-].
    case_bool_decide; [|by injection Hd as <-]. revert Hd. unfold_st.
    destruct (v2_fromJSON v) as [x|] eqn:Ex; [|done]. intros Hd.
    split; [by eapply v2_version|]. split; [done|]. by exists x.
  - right. destruct (is_string v); [|by injection Hd as <-]. revert Hd. unfold_st.
    destruct (string_of v) as [s|] eqn:Es; [|done]. destruct (EncKeyEncryptorV1.decrypt _ _) as [key|] eqn:Ek; [|done].
    intros [= <-]. split; [done|]. by exists s, key.
Qed.

Lemma verifyData_lookup (keys : key_map) loc id k : verifyData keys loc !! id = Some k -> k_statusCode k = None ->
  keys !! id = Some k /\ (checked k = true -> dio_contextId (dio (k_dio k)) = loc_contextId loc
  /\ dio_resourceId (dio (k_dio k)) = loc_resourceId loc).
Proof.
  unfold verifyData. rewrite lookup_fmap. destruct (keys !! id) as [k0|]; [|done]. cbn.
  intros [= <-]. destruct (checked k0) eqn:Ec; cbn [andb]; [|by rewrite Ec].
  destruct (_ || _) eqn:Eb; [done|]. intros _. apply orb_false_elim in Eb as [E1 E2].
  apply bool_decide_eq_false, dec_stable in E1, E2. done.
Qed.

Lemma checked_status k : checked k = true -> k_statusCode k = None.
Proof. unfold checked. intros [Hs _]%andb_true_iff. by apply bool_decide_eq_true in Hs. Qed.

Lemma two_keys (m : key_map) i j x y : j <> i -> m !! j = Some y -> m !! i = Some x -> (1 < size m)%nat.
Proof.
  intros Hne Hj Hi. assert (size (delete i m) <> 0%nat) as Hs.
  { apply (map_size_ne_0_lookup_2 _ j). rewrite lookup_delete_ne by done. by eexists. }
  rewrite map_size_delete_Some in Hs by by eexists. lia.
Qed.

(** What one location's keys guarantee. *)
Lemma decryptAndVerifyKeys_checked keys loc r id k : decryptAndVerifyKeys _key keys loc = Ret r ->
  r !! id = Some k -> k_statusCode k = None ->
  (checked k = true -> dio_contextId (dio (k_dio k)) = loc_contextId loc /\ dio_resourceId (dio (k_dio k)) = loc_resourceId loc)
  /\ (exists e, keys !! id = Some e /\ decrypt_entry _key e = Ret k)
  /\ (forall id' k', id' <> id -> r !! id' = Some k' -> active k' = true -> active k = true -> nonce k' <> nonce k).
Proof.
  unfold decryptAndVerifyKeys. unfold_st.
  destruct (decrypt_all _key (hash_order keys) ∅) as [m|] eqn:Em; [|done]. intros [= Hr] Hk Hc.
  set (vm := verifyData m loc) in *.
  assert (vm !! id = Some k /\ forall id' k', id' <> id -> r !! id' = Some k' -> active k' = true ->
    active k = true -> nonce k' <> nonce k) as [Hvm Hnd].
  { case_bool_decide as Hsz; subst r.
    - rewrite verifyForDuplication_lookup in Hk. destruct (vm !! id) as [k0|] eqn:E0; [|done].
      injection Hk as Hk. assert (k0 = k) as ->.
      { unfold flagged in Hk. destruct (_ && _) in Hk; [by subst k|done]. }
      split; [done|]. intros id' k' Hne Hk' Ha' Ha Hn.
      rewrite verifyForDuplication_lookup in Hk'. destruct (vm !! id') as [k1|] eqn:E1; [|done].
      injection Hk' as Hk'. assert (k1 = k') as ->.
      { unfold flagged in Hk'. destruct (_ && _) in Hk'; [by subst k'|done]. }
      destruct (order_fst vm) as [_ Hd].
      rewrite (flagged_true _ _ _ _ id' k') in Hk by (try apply Hd; eauto).
      rewrite <- Hk in Hc. done.
    - split; [done|]. intros id' k' Hne Hk' _ _ _. apply Hsz. by eapply two_keys. }
  apply verifyData_lookup in Hvm as (Hm & Hx); [|done].
  split; [done|]. split; [|done].
  destruct (decrypt_all_lookup _ _ _ _ _ Em Hm) as [Hemp|(e & He & Hd)]; [done|].
  apply order_elem in He. by exists e.
Qed.

Lemma decrypt_locations_lookup l acc r loc ks : decrypt_locations _key l acc = Ret r -> r !! loc = Some ks ->
  acc !! loc = Some ks \/ exists keys, (loc, keys) ∈ l /\ decryptAndVerifyKeys _key keys loc = Ret ks.
Proof.
  revert acc. induction l as [|[i e] l IH]; intros acc Hr Hk; cbn in Hr.
  - injection Hr as ->. by left.
  - destruct (decryptAndVerifyKeys _key e i) as [d|] eqn:Ed; [|done].
    apply IH in Hr as [Hr|(e' & He & Hd)]; [|right; exists e'; split; [by right|done]|done].
    apply lookup_insert_Some in Hr as [[<- <-]|[_ Hr]]; [|by left].
    right. exists e. split; [by left|done].
Qed.

(** Rejections only set the status of the keys they name. *)
Lemma rejected_lookup (l : list (EncKeyLocation * bytes * VerificationRequest * bool)) keys loc ks id k :
  fold_left (fun keys '((loc, id, _), ok) => if (ok : bool) then keys else reject loc id keys) l keys !! loc
    = Some ks -> ks !! id = Some k -> k_statusCode k = None ->
  (exists ks0, keys !! loc = Some ks0 /\ ks0 !! id = Some k)
  /\ forall q ok, (loc, id, q, ok) ∈ l -> ok = true.
Proof.
  revert keys. induction l as [|[[[i j] q] ok] l IH]; intros keys Hl Hk Hs; cbn [fold_left] in Hl.
  - split; [by exists ks|]. by intros ? ? ?%not_elem_of_nil.
  - destruct (IH _ Hl Hk Hs) as [(ks0 & Hk0 & Hid) Hall]. destruct ok.
    + split; [by exists ks0|]. intros q' ok' [Heq|Hin]%elem_of_cons; [by simplify_eq|by eapply Hall].
    + unfold reject in Hk0. apply lookup_alter_Some in Hk0 as [(<- & ks1 & E1 & ->)|[Hne E1]].
      * apply lookup_alter_Some in Hid as [(<- & k1 & _ & ->)|[Hne Hid]]; [done|].
        split; [by exists ks1|]. intros q' ok' [Heq|Hin]%elem_of_cons; [by simplify_eq|by eapply Hall].
      * split; [by exists ks0|]. intros q' ok' [Heq|Hin]%elem_of_cons; [by simplify_eq|by eapply Hall].
Qed.

Lemma to_verify_elem (keys : located) loc ks id k : keys !! loc = Some ks -> ks !! id = Some k -> checked k = true ->
  (loc, id, request_of k) ∈ to_verify keys.
Proof.
  intros Hl Hi Hc. unfold to_verify. apply list_elem_of_In, in_concat. eexists.
  rewrite <- !list_elem_of_In. split.
  { apply list_elem_of_fmap. exists (loc, ks). split; [reflexivity|by apply order_elem]. }
  cbn. apply list_elem_of_omap. exists (id, k). split; [by apply order_elem|]. by rewrite Hc.
Qed.

(** What the checks leave standing. *)
Lemma keys_opened request result loc ks id k :
  getKeysAndVerify _key _userVerifier request = Ret result ->
  result !! loc = Some ks -> ks !! id = Some k -> k_statusCode k = None ->
  (exists entries e, KeyDecryptionAndVerificationRequest.requestData request !! loc = Some entries
     /\ entries !! id = Some e /\ opened_from _key _userVerifier e loc k)
  /\ forall id' k', id' <> id -> ks !! id' = Some k' -> active k' = true -> active k = true -> nonce k' <> nonce k.
Proof.
  unfold getKeysAndVerify. unfold_st.
  destruct (decrypt_locations _key _ ∅) as [m|] eqn:Em; [|done].
  unfold verifyUserData, UserVerifier.verify. unfold_st.
  destruct (_userVerifier _) as [answers|] eqn:Ev; [|done]. case_bool_decide as Hlen; [done|].
  intros [= <-] Hl Hi Hs.
  destruct (rejected_lookup _ _ _ _ _ _ Hl Hi Hs) as [(ks0 & Hk0 & Hid) Hok].
  destruct (decrypt_locations_lookup _ _ _ _ _ Em Hk0) as [Hemp|(entries & He & Hd)]; [done|].
  apply order_elem in He.
  destruct (decryptAndVerifyKeys_checked _ _ _ _ _ Hd Hid Hs) as (Hfor & (e & He' & Hde) & Hnd).
  split.
  - exists entries, e. do 2 (split; [done|]).
    destruct (decrypt_entry_opened e k Hde Hs) as (v & Hv & [(H2 & Ho & x & Hx & Hdx)|(Ho & s & key & Hst & Hk & Hkk)]).
    2:{ eapply opened_1; try done. by rewrite Hkk. }
    assert (checked k = true) as Hc by (unfold checked; by rewrite !bool_decide_eq_true_2).
    destruct (Hfor Hc) as [Hx1 Hx2]. eapply opened_2; try done.
    pose proof (to_verify_elem m loc ks0 id k Hk0 Hid Hc) as Hin.
    apply list_elem_of_lookup in Hin as [n Hn].
    assert (is_Some (answers !! n)) as [ok Ha].
    { apply lookup_lt_is_Some. rewrite Hlen, length_fmap. by eapply lookup_lt_Some. }
    exists (to_verify m).*2, answers, n. split; [done|]. split; [by rewrite list_lookup_fmap, Hn|].
    rewrite Ha. f_equal. eapply Hok. apply list_elem_of_lookup. exists n.
    by rewrite lookup_zip_Some.
  - intros id' k' Hne Hk' Ha'. eapply Hnd; [done| |done].
    assert (k_statusCode k' = None) as Hs' by (unfold active in Ha'; by apply andb_true_iff in Ha' as [?%bool_decide_eq_true _]).
    destruct (rejected_lookup _ _ _ _ _ _ Hl Hk' Hs') as [(ks1 & Hk1 & Hid1) _]. congruence.
Qed.

(** C19: a key returned without an error status is what the entry requested
    under its id decrypts to.  If it is of structure 2, it was made for the
    requested location and comes from a sender the application's verifier
    accepted; if it is of structure 1, the only other case, none of that is
    known of it.  No two valid keys of a location that name a sender share their
    random id and timestamp. *)
Theorem keys_verified request result loc ks id k :
  getKeysAndVerify _key _userVerifier request = Ret result ->
  result !! loc = Some ks -> ks !! id = Some k -> k_statusCode k = None ->
  (exists entries e, KeyDecryptionAndVerificationRequest.requestData request !! loc = Some entries
     /\ entries !! id = Some e /\ opened_from _key _userVerifier e loc k)
  /\ forall id' k', id' <> id -> ks !! id' = Some k' -> active k' = true -> active k = true -> nonce k' <> nonce k.
Proof. apply keys_opened. Qed.
End Verified.

Section Delivery.
Context {C : CryptoService} `{!CryptoLaws C} {E : Ecc} `{!EccLaws E} {E0 : Encodings} `{!EncodingsLaws E0}.
Context {D : Dynamic} `{!KeyFormats PublicKey} `{!KeyFormatsLaws PublicKey}.
Context `{!KeyEntryJson} `{!KeyEntryJsonLaws} `{!HashOrder}.
Context `{!JsonCodec DIOEncryptorV1.DioJson} `{!JsonCodecLaws DIOEncryptorV1.DioJson}.
Context `{!JsonCodec EncryptionKey} `{!JsonCodecLaws EncryptionKey}.

Lemma single_key _key id e loc k : decrypt_entry _key e = Ret k ->
  dio_contextId (dio (k_dio k)) = loc_contextId loc -> dio_resourceId (dio (k_dio k)) = loc_resourceId loc ->
  decryptAndVerifyKeys _key {[ id := e ]} loc = Ret {[ id := k ]}.
Proof.
  intros Hd Hx Hr. unfold decryptAndVerifyKeys. rewrite order_singleton. cbn [decrypt_all].
  rewrite Hd. unfold_st. unfold verifyData. rewrite insert_empty, map_fmap_singleton, Hx, Hr.
  rewrite !(bool_decide_eq_false_2 (_ <> _)) by tauto. rewrite andb_false_r.
  rewrite map_size_singleton. by rewrite bool_decide_eq_false_2 by lia.
Qed.

(** One key, asked for at one location and accepted by the verifier. *)
Lemma single_verified _key uv request id e loc k :
  KeyDecryptionAndVerificationRequest.requestData request = {[ loc := {[ id := e ]} ]} ->
  decrypt_entry _key e = Ret k ->
  dio_contextId (dio (k_dio k)) = loc_contextId loc -> dio_resourceId (dio (k_dio k)) = loc_resourceId loc ->
  checked k = true -> uv [request_of k] = Ret [true] ->
  getKeysAndVerify _key uv request = Ret {[ loc := {[ id := k ]} ]}.
Proof.
  intros Hq Hd Hx Hr Hc Hu. unfold getKeysAndVerify. rewrite Hq, order_singleton. cbn [decrypt_locations]. rewrite (single_key _ _ _ _ _ Hd Hx Hr). unfold_st.
  rewrite insert_empty. unfold verifyUserData, to_verify. rewrite order_singleton. cbn [fmap list_fmap].
  rewrite order_singleton. cbn [omap list_omap]. rewrite Hc. cbn. unfold_st.
  unfold UserVerifier.verify. unfold_st. rewrite Hu. cbn. by rewrite bool_decide_eq_false_2 by tauto.
Qed.

Lemma single_secret id k loc s : k_statusCode k = None ->
  k_secretHash k = secret_hash s (k_keySecret k) loc -> verifyKeysSecret {[ id := k ]} loc s = true.
Proof.
  intros Hs Hh. unfold verifyKeysSecret. rewrite order_singleton. cbn.
  rewrite bool_decide_eq_true_2 by done. rewrite (bool_decide_eq_false_2 (_ <> _)) by tauto.
  by rewrite andb_false_r.
Qed.

(** What the sender of a key must have: an integrity object of his own for the
    location, and a key that fits. *)
Record distributable (sender : PrivateKey) (key : EncKey) (d : DataIntegrityObject) (loc : EncKeyLocation)
    (containerSecret : bytes) : Prop := {
  di_context : dio_contextId d = loc_contextId loc;
  di_resource : dio_resourceId d = loc_resourceId loc;
  di_sendable r : zlen r = 32 -> EncKeyEncryptorV2.sendable
    {| te_id := ek_id key; te_key := ek_key key; te_dio := d; te_location := loc;
       te_keySecret := hex_from r; te_secretHash := secret_hash containerSecret (hex_from r) loc |} sender;
}.

(** The entry made for a user, and what it opens to. *)
Lemma entry_opens sender u key d loc containerSecret userId g :
  distributable sender key d loc containerSecret ->
  exists e g' k, createKeyEntrySet sender {| u_userId := userId; u_pubKey := toBase58DER (getPublicKey u) |}
      key d loc containerSecret g = (Ret e, g')
    /\ ks_user e = userId /\ ks_keyId e = ek_id key
    /\ (forall id, decrypt_entry u {| kn_keyId := id; kn_data := Some (ks_data e) |} = Ret k)
    /\ dio (k_dio k) = d /\ checked k = true /\ k_statusCode k = None
    /\ k_id k = ek_id key /\ k_key k = ek_key key
    /\ k_secretHash k = secret_hash containerSecret (k_keySecret k) loc.
Proof.
  intros [Hx Hr Hs]. unfold createKeyEntrySet, generateSecret, random.
  destruct (randomBytes 32 g) as [r g'] eqn:Er.
  assert (zlen r = 32) as Hlen by (pose proof (randomBytes_len 32 g) as Hl; rewrite Er in Hl; apply Hl; lia).
  destruct (EncKeyEncryptorV2.key_roundtrip _ u sender (Hs r Hlen)) as (e & x & He & Hver & Hdio & Hdec).
  cbn in Hdio. unfold_st. rewrite Er. cbn [u_pubKey u_userId]. rewrite base58der_inv, He.
  do 2 eexists. lazymatch type of Hdec with _ = Ret ?k => exists k end.
  do 3 (split; [reflexivity|]). split; [|by repeat split].
  intros id. unfold decrypt_entry. cbn [kn_data ks_data].
  by rewrite v2_is_object, v2_versioned, Hver, v2_inv, bool_decide_eq_true_2.
Qed.

(** a container key sent to a user reaches him: what [createKeyEntrySet]
    makes for his public key, his provider decrypts, as the only key of its
    request, to the same key with no error status, and its secret verifies
    against the container's. *)
Theorem key_delivered sender u key d loc containerSecret userId g :
  distributable sender key d loc containerSecret ->
  exists e g' k, createKeyEntrySet sender {| u_userId := userId; u_pubKey := toBase58DER (getPublicKey u) |}
      key d loc containerSecret g = (Ret e, g')
    /\ ks_user e = userId /\ ks_keyId e = ek_id key
    /\ decryptAndVerifyKeys u {[ ek_id key := {| kn_keyId := ek_id key; kn_data := Some (ks_data e) |} ]} loc
       = Ret {[ ek_id key := k ]}
    /\ k_statusCode k = None /\ k_id k = ek_id key /\ k_key k = ek_key key
    /\ verifyKeysSecret {[ ek_id key := k ]} loc containerSecret = true.
Proof.
  intros Hdist. destruct (entry_opens sender u key d loc containerSecret userId g Hdist)
    as (e & g' & k & He & Hu & Hi & Hd & Hdio & _ & Hs & Hid & Hk & Hh). destruct Hdist as [Hx Hr _].
  exists e, g', k. do 3 (split; [done|]). split; [apply single_key; by rewrite ?Hdio|].
  do 3 (split; [done|]). by apply single_secret.
Qed.
End Delivery.
End KeyProvider.

(** ** A concrete exchange *)
Module ToyKeys.
#[local] Existing Instances Toy.service Toy.laws ToyEcc.ecc ToyEcc.laws ToyJson.encodings
  ToyJson.encodings_laws ToyCodec.keys ToyCodec.keys_laws dio_codec dio_codec_laws.
#[local] Instance key_dynamic : Dynamic := ToyJson.dynamic [].

#[local] Instance map_order : HashOrder :=
  {| hash_order K _ _ A m := map_to_list m; hash_order_perm K _ _ A m := reflexivity _ |}.

#[local] Instance key_json : KeyEntryJson := {|
  is_object v := match v with ToyJson.JObject _ => true | _ => false end;
  versioned v := get_int v (lit "version");
  v2_toJSON e := ToyJson.JObject [(lit "version", ToyJson.JInt (ke_version e));
    (lit "encryptedKey", ToyJson.JString (ke_encryptedKey e)); (lit "dio", ToyJson.JString (ke_dio e))];
  v2_fromJSON v := n ← get_int v (lit "version"); k ← get_string v (lit "encryptedKey");
    d ← get_string v (lit "dio"); Ret {| ke_version := n; ke_encryptedKey := k; ke_dio := d |};
  is_string v := match v with ToyJson.JString _ => true | _ => false end;
  string_of v := match v with ToyJson.JString s => Ret s | _ => Throw PocoException end |}.
#[local] Instance key_json_laws : KeyEntryJsonLaws.
Proof. by split; intros []. Qed.

#[local] Instance key_codec : JsonCodec EncryptionKey := {|
  serialize k := ToyCodec.of_strings [ek_json_id k; ek_json_key k; ek_json_keySecret k];
  deserialize d := match ToyCodec.to_strings d [] with
    | [i; k; s] => Ret {| ek_json_id := i; ek_json_key := k; ek_json_keySecret := s |}
    | _ => Throw PocoException
    end |}.
#[local] Instance key_codec_laws : JsonCodecLaws EncryptionKey.
Proof. split. intros []. cbn [serialize deserialize key_codec]. by rewrite ToyCodec.strings_inv. Qed.

Definition sender : @PrivateKey _ ToyEcc.ecc := x07.
Definition user : @PrivateKey _ ToyEcc.ecc := x09.
Definition key : EncKey := mkEncKey (lit "k1") (lit "0123456789abcdef0123456789abcdef").
Definition location : EncKeyLocation := mkLocation (lit "ctx") (lit "res").
Definition secret : bytes := lit "container secret".

Definition verifier (l : list VerificationRequest) : outcome (list bool) := Ret ((fun _ => true) <$> l).

Definition made : EncKeyV2ToEncrypt :=
  {| te_id := ek_id key; te_key := ek_key key; te_dio := dio toy_dio; te_location := location;
     te_keySecret := lit "s"; te_secretHash := lit "h" |}.
End ToyKeys.

Section Witness.
Import ToyKeys.
#[local] Existing Instances Toy.service Toy.laws ToyEcc.ecc ToyEcc.laws ToyJson.encodings
  ToyJson.encodings_laws ToyCodec.keys ToyCodec.keys_laws dio_codec dio_codec_laws
  key_dynamic map_order key_json key_json_laws key_codec key_codec_laws.

Lemma toy_distributable : KeyProvider.distributable sender key (dio toy_dio) location secret.
Proof.
  split; [done..|]. intros r Hr. split; try done. cbn -[ToyCodec.of_strings Z.lt Z.pow].
  rewrite !ToyCodec.zlen_of_strings, Hr. vm_compute. done.
Qed.

Lemma key_delivered_witness : exists e g' k,
  KeyProvider.createKeyEntrySet sender {| u_userId := lit "joe"; u_pubKey := toBase58DER (getPublicKey user) |}
    key (dio toy_dio) location secret 5 = (Ret e, g')
  /\ KeyProvider.decryptAndVerifyKeys user
       {[ ek_id key := {| kn_keyId := ek_id key; kn_data := Some (ks_data e) |} ]} location = Ret {[ ek_id key := k ]}
  /\ k_key k = ek_key key.
Proof.
  destruct (KeyProvider.key_delivered sender user key (dio toy_dio) location secret (lit "joe") 5 toy_distributable)
    as (e & g' & k & He & _ & _ & Hd & _ & _ & Hk & _).
  exists e, g', k. exact (conj He (conj Hd Hk)).
Defined.

(** The key asked for and verified. *)
Lemma toy_request : exists request k,
  KeyProvider.getKeysAndVerify user verifier request = Ret {[ location := {[ ek_id key := k ]} ]}
  /\ k_statusCode k = None /\ k_dataStructureVersion k = KeyProvider.VERSION_2.
Proof.
  destruct (EncKeyEncryptorV2.key_roundtrip made user sender) as (e & x & _ & Hv & Hx & Hd); [by split|].
  eexists. eexists. split; [|split].
  - apply (KeyProvider.single_verified user verifier
      {| KeyDecryptionAndVerificationRequest.requestData :=
           {[ location := {[ ek_id key := {| kn_keyId := ek_id key; kn_data := Some (v2_toJSON e) |} ]} ]};
         KeyDecryptionAndVerificationRequest._completed := true |} (ek_id key)
      {| kn_keyId := ek_id key; kn_data := Some (v2_toJSON e) |} location (EncKeyEncryptorV2.received made x)).
    + done.
    + unfold KeyProvider.decrypt_entry. cbn [kn_data].
      by rewrite v2_is_object, v2_versioned, Hv, v2_inv, bool_decide_eq_true_2.
    + cbn. by rewrite Hx.
    + cbn. by rewrite Hx.
    + done.
    + done.
  - done.
  - done.
Qed.

Lemma keys_verified_witness : exists request result ks k,
  KeyProvider.getKeysAndVerify user verifier request = Ret result
  /\ result !! location = Some ks /\ ks !! ek_id key = Some k
  /\ dio_contextId (dio (k_dio k)) = loc_contextId location /\ KeyProvider.sender_accepted verifier k.
Proof.
  destruct toy_request as (request & k & Hr & Hs & Hv).
  exists request, {[ location := {[ ek_id key := k ]} ]}, {[ ek_id key := k ]}, k.
  assert (({[ location := {[ ek_id key := k ]} ]} : KeyProvider.located) !! location
    = Some {[ ek_id key := k ]}) as Hl by apply lookup_singleton_eq.
  assert (({[ ek_id key := k ]} : KeyProvider.key_map) !! ek_id key = Some k) as Hi by apply lookup_singleton_eq.
  destruct (KeyProvider.keys_verified user verifier request _ location _ _ _ Hr Hl Hi Hs)
    as [(entries & e & _ & _ & [v x _ _ _ _ _ Hc _ Ha|v t x H1 _ _ _ _ _]) _].
  - exact (conj Hr (conj Hl (conj Hi (conj Hc Ha)))).
  - rewrite Hv in H1. discriminate.
Defined.
End Witness.
