(* ===== verification/Containers.v ===== *)
(** * What a module remembers of its containers

    [core::ContainerKeyCache] (endpoint/core/src/ContainerKeyCache.cpp), the
    key functions of [core::ModuleBaseApi] (endpoint/core/src/ModuleBaseApi.cpp)
    and [core::ContainerProvider]
    (endpoint/core/include/privmx/endpoint/core/ContainerProvider.hpp) with its
    instance [core::ContextProvider].  The locks of the caches are not
    modelled: each operation holds its lock from start to end. *)

From Stdlib Require Import ZArith Lia Strings.String Strings.Byte.
From stdpp Require Import base list gmap fin_maps sorting.
From S2P Require Import Prelude Bytes CoreTypes Crypto CryptoSuite Dynamic Encryptors Dio EncKeys KeyProvider.

Section Keys.
Context `{!Dynamic}.

(** [core::ModuleKeys] *)
Record ModuleKeys := mkModuleKeys {
  mk_keys : list KeyEntry;
  mk_currentKeyId : bytes;
  mk_moduleSchemaVersion : Z;
  mk_moduleResourceId : bytes;
  mk_contextId : bytes;
}.
End Keys.

Module ContainerKeyCache.
Section Cache.
Context `{!Dynamic}.

(** [CachedModuleKeys]: the module's keys with its version. *)
Record CachedModuleKeys := mkCached {
  keys : list KeyEntry;
  currentKeyId : bytes;
  moduleSchemaVersion : Z;
  moduleResourceId : bytes;
  contextId : bytes;
  moduleVersion : Z;
}.

Definition t : Type := gmap bytes CachedModuleKeys.

(** [int64_t < std::optional<int64_t>]: nothing is less than an empty one. *)
Definition below (version : Z) (minimum : option Z) : bool :=
  match minimum with Some m => bool_decide (version < m) | None => false end.

(** The ids left over after the loop over the cached keys. *)
Definition missing (keyIds : gset bytes) (keys : list KeyEntry) : gset bytes :=
  fold_left (fun ids key => ids ∖ {[ kn_keyId key ]}) keys keyIds.

Definition getKeys (moduleId : bytes) (requiredKeyIds : option (gset bytes))
    (minimumRequiredModuleSchemaVersion : option Z) (_storage : t) : option CachedModuleKeys :=
  moduleKeys ← _storage !! moduleId;
  match requiredKeyIds with
  | None => Some moduleKeys
  | Some ids =>
      if bool_decide (missing ids (keys moduleKeys) <> ∅) then None
      else if below (moduleSchemaVersion moduleKeys) minimumRequiredModuleSchemaVersion then None
      else Some moduleKeys
  end.

Definition set (moduleId : bytes) (newKeys : CachedModuleKeys) (force : bool) (_storage : t) : t :=
  match _storage !! moduleId with
  | Some moduleKeys =>
      if bool_decide (moduleVersion newKeys < moduleVersion moduleKeys) && negb force then _storage
      else <[ moduleId := newKeys ]> _storage
  | None => <[ moduleId := newKeys ]> _storage
  end.

Definition clear (moduleId : option bytes) (_storage : t) : t :=
  match moduleId with None => ∅ | Some id => delete id _storage end.

(** ** Laws *)

Lemma elem_of_missing ids l k : k ∈ missing ids l <-> k ∈ ids /\ k ∉ kn_keyId <$> l.
Proof.
  unfold missing. revert ids. induction l as [|e l IH]; intros ids; cbn [fold_left fmap list_fmap].
  { split; [intros ?; split; [done|apply not_elem_of_nil]|tauto]. }
  rewrite IH, elem_of_difference, elem_of_singleton, elem_of_cons. tauto.
Qed.

Lemma missing_none ids l : missing ids l = ∅ <-> ids ⊆ list_to_set (kn_keyId <$> l).
Proof.
  split.
  - intros Hm i Hi. apply elem_of_list_to_set. destruct (decide (i ∈ kn_keyId <$> l)) as [|Hn]; [done|].
    exfalso. apply (not_elem_of_empty (C := gset bytes) i). rewrite <- Hm. by apply elem_of_missing.
  - intros Hs. apply set_eq. intros i. rewrite elem_of_missing. split; [|by intros ?%not_elem_of_empty].
    intros [Hi Hn]. by apply Hs, elem_of_list_to_set in Hi.
Qed.

Lemma below_false v minimum : below v minimum = false <-> forall m, minimum = Some m -> m <= v.
Proof.
  destruct minimum as [m|]; cbn; [|by split; [by intros _ m|]]. rewrite bool_decide_eq_false. split.
  - intros Hle m' [= <-]. lia.
  - intros Hle. specialize (Hle m eq_refl). lia.
Qed.

(** with required ids the cache answers only with keys that include all of
    them and a schema that is new enough; no minimum is looked at when no ids
    are required. *)
Theorem getKeys_answers moduleId required minimum c k :
  getKeys moduleId required minimum c = Some k <->
  c !! moduleId = Some k
  /\ forall ids, required = Some ids ->
       ids ⊆ list_to_set (kn_keyId <$> keys k) /\ forall m, minimum = Some m -> m <= moduleSchemaVersion k.
Proof.
  unfold getKeys. destruct (c !! moduleId) as [k0|]; [|by split; [|intros []]].
  cbn. destruct required as [ids|]; [|by split; [intros [= ->]|intros [? _]]].
  case_bool_decide as Hb.
  - split; [done|]. intros [[= ->] Hs]. by destruct (Hs ids eq_refl) as [?%missing_none _].
  - apply missing_none in Hb. destruct (below _ _) eqn:Ebl.
    + split; [done|]. intros [[= ->] Hs]. destruct (Hs ids eq_refl) as [_ Hm].
      apply below_false in Hm. congruence.
    + split; [|by intros [? _]]. intros [= ->]. split; [done|]. intros ids' [= <-]. split; [done|].
      by apply below_false.
Qed.

(** The entry of a module after an update that is not forced. *)
Lemma set_lookup id k c : set id k false c !! id =
  match c !! id with
  | Some old => if decide (moduleVersion k < moduleVersion old) then Some old else Some k
  | None => Some k
  end.
Proof.
  unfold set. destruct (c !! id) as [old|] eqn:E; [|apply lookup_insert_eq].
  rewrite andb_true_r. case_bool_decide; case_decide; try lia; [done|apply lookup_insert_eq].
Qed.

Lemma set_lookup_ne id id' k force c : id <> id' -> set id k force c !! id' = c !! id'.
Proof.
  intros Hne. unfold set. destruct (c !! id); [case_match; [done|]|]; by apply lookup_insert_ne.
Qed.

(** Updates of one module, in the order they arrive. *)
Definition updates (id : bytes) (l : list CachedModuleKeys) (c : t) : t :=
  fold_left (fun c k => set id k false c) l c.

Lemma updates_newest id l k c : k ∈ l -> (forall k', k' ∈ l -> moduleVersion k' <= moduleVersion k) ->
  (forall k', k' ∈ l -> moduleVersion k' = moduleVersion k -> k' = k) ->
  (forall old, c !! id = Some old -> moduleVersion old <= moduleVersion k) ->
  updates id l c !! id = Some k.
Proof.
  intros Hin Hmax Huniq Hold. unfold updates.
  assert (forall l' c', (forall k', k' ∈ l' -> moduleVersion k' <= moduleVersion k) ->
    (forall k', k' ∈ l' -> moduleVersion k' = moduleVersion k -> k' = k) -> c' !! id = Some k ->
    fold_left (fun c k => set id k false c) l' c' !! id = Some k) as Hkeep.
  { intros l'. induction l' as [|x l' IH]; intros c' Hm Hu Hc; [done|]. cbn. apply IH.
    - intros k' Hk. apply Hm. by right.
    - intros k' Hk. apply Hu. by right.
    - rewrite set_lookup, Hc. case_decide as Hd; [done|]. f_equal. apply Hu; [left|].
      specialize (Hm x ltac:(left)). lia. }
  revert c Hold Hin Hmax Huniq. induction l as [|x l IH]; intros c Hold Hin Hmax Huniq; [by apply not_elem_of_nil in Hin|].
  cbn. apply elem_of_cons in Hin as [<-|Hin].
  - apply Hkeep; [by intros; apply Hmax; right|by intros; apply Huniq; [right|]|].
    rewrite set_lookup. destruct (c !! id) as [old|] eqn:E; [|done].
    specialize (Hold old eq_refl). by rewrite decide_False by lia.
  - apply IH; [|done|by intros; apply Hmax; right|by intros; apply Huniq; [right|]].
    intros old. rewrite set_lookup. pose proof (Hmax x ltac:(left)).
    destruct (c !! id) as [o|] eqn:E; [|by intros [= <-]].
    case_decide; intros [= <-]; [by apply Hold|done].
Qed.

Lemma same_version l k k' : NoDup (moduleVersion <$> l) -> k ∈ l -> k' ∈ l ->
  moduleVersion k' = moduleVersion k -> k' = k.
Proof.
  intros Hn [i Hi]%list_elem_of_lookup [j Hj]%list_elem_of_lookup He.
  assert (j = i) as ->; [|congruence].
  apply (NoDup_lookup _ _ _ (moduleVersion k) Hn); rewrite list_lookup_fmap; [rewrite Hj|rewrite Hi]; cbn; congruence.
Qed.

(** whatever order a module's updates arrive in, the cache ends with the
    one of the highest version. *)
Theorem updates_converge id l l' k c : NoDup (moduleVersion <$> l) -> l' ≡ₚ l -> k ∈ l ->
  (forall k', k' ∈ l -> moduleVersion k' <= moduleVersion k) ->
  (forall old, c !! id = Some old -> moduleVersion old <= moduleVersion k) ->
  updates id l' c !! id = Some k.
Proof.
  intros Hn Hp Hk Hmax Hold. apply updates_newest; [by rewrite Hp|..|done]; intros k'; rewrite Hp; [apply Hmax|].
  by apply same_version.
Qed.
End Cache.
End ContainerKeyCache.

Module ModuleBaseApi.
Section Api.
Context {C : CryptoService} {E : Ecc} {E0 : Encodings} {D : Dynamic}.
Context `{!KeyFormats PublicKey} `{!KeyEntryJson} `{!HashOrder}.
Context `{!JsonCodec DIOEncryptorV1.DioJson} `{!JsonCodec EncryptionKey}.
Context (_userPrivKey : PrivateKey) (_userVerifier : list VerificationRequest -> outcome (list bool)).

(** [unordered_map::at] *)
Definition at_ {K} `{Countable K} {A} (m : gmap K A) (k : K) : outcome A :=
  match m !! k with Some x => Ret x | None => Throw StdOutOfRange end.

Definition findEncKeyByKeyId (keys : gmap bytes DecryptedEncKeyV2) (keyId : bytes) : outcome DecryptedEncKeyV2 :=
  match List.find (fun key => bool_decide (keyId = key.1)) (hash_order keys) with
  | Some key => Ret key.2
  | None => Throw UnknownModuleEncryptionKeyException
  end.

Definition getAndValidateModuleCurrentEncKey (moduleKeys : ModuleKeys) : outcome DecryptedEncKeyV2 :=
  let location := {| loc_contextId := mk_contextId moduleKeys;
                     loc_resourceId := mk_moduleResourceId moduleKeys |} in
  let request := (KeyDecryptionAndVerificationRequest.addOne (mk_keys moduleKeys) (mk_currentKeyId moduleKeys)
                    location KeyDecryptionAndVerificationRequest.empty).2 in
  result ← KeyProvider.getKeysAndVerify _userPrivKey _userVerifier request;
  keys ← at_ result location;
  at_ keys (mk_currentKeyId moduleKeys).

Definition convertModuleKeysToContainerKeyCacheFormat (moduleKeys : ModuleKeys) (moduleVersion : Z) :
    ContainerKeyCache.CachedModuleKeys :=
  {| ContainerKeyCache.keys := mk_keys moduleKeys;
     ContainerKeyCache.currentKeyId := mk_currentKeyId moduleKeys;
     ContainerKeyCache.moduleSchemaVersion := mk_moduleSchemaVersion moduleKeys;
     ContainerKeyCache.moduleResourceId := mk_moduleResourceId moduleKeys;
     ContainerKeyCache.contextId := mk_contextId moduleKeys;
     ContainerKeyCache.moduleVersion := moduleVersion |}.

Definition convertContainerKeyCacheModuleKeysToModuleApiFormat (k : ContainerKeyCache.CachedModuleKeys) :
    ModuleKeys :=
  {| mk_keys := ContainerKeyCache.keys k;
     mk_currentKeyId := ContainerKeyCache.currentKeyId k;
     mk_moduleSchemaVersion := ContainerKeyCache.moduleSchemaVersion k;
     mk_moduleResourceId := ContainerKeyCache.moduleResourceId k;
     mk_contextId := ContainerKeyCache.contextId k |}.

(** The module's cache next to the rest of the world. *)
Section Cache.
Context {W : Type}.
(** The virtual function that asks the server. *)
Context (getModuleKeysAndVersionFromServer : bytes -> ST W (ModuleKeys * Z)).
Context (_keyCache : W -> ContainerKeyCache.t) (set_cache : ContainerKeyCache.t -> W -> W).

Definition on_cache (f : ContainerKeyCache.t -> ContainerKeyCache.t) : ST W unit :=
  modify (fun w => set_cache (f (_keyCache w)) w).

Definition setNewModuleKeysInCache (moduleId : bytes) (newKeys : ModuleKeys) (moduleVersion : Z) : ST W unit :=
  on_cache (ContainerKeyCache.set moduleId (convertModuleKeysToContainerKeyCacheFormat newKeys moduleVersion) false).

Definition invalidateModuleKeysInCache (moduleId : option bytes) : ST W unit :=
  on_cache (ContainerKeyCache.clear moduleId).

Definition getNewModuleKeysAndUpdateCache (moduleId : bytes) : ST W ModuleKeys :=
  moduleKeys ← getModuleKeysAndVersionFromServer moduleId;
  _ ← setNewModuleKeysInCache moduleId moduleKeys.1 moduleKeys.2;
  mret moduleKeys.1.

Definition getModuleKeys (moduleId : bytes) (keyIds : option (gset bytes)) (minimumSchemaVersion : option Z) :
    ST W ModuleKeys :=
  c ← gets _keyCache;
  match ContainerKeyCache.getKeys moduleId keyIds minimumSchemaVersion c with
  | None => getNewModuleKeysAndUpdateCache moduleId
  | Some keys => mret (convertContainerKeyCacheModuleKeysToModuleApiFormat keys)
  end.
End Cache.
End Api.

Section Laws.
Context {C : CryptoService} `{!CryptoLaws C} {E : Ecc} `{!EccLaws E} {E0 : Encodings} `{!EncodingsLaws E0}.
Context {D : Dynamic} `{!KeyFormats PublicKey} `{!KeyFormatsLaws PublicKey}.
Context `{!KeyEntryJson} `{!KeyEntryJsonLaws} `{!HashOrder}.
Context `{!JsonCodec DIOEncryptorV1.DioJson} `{!JsonCodecLaws DIOEncryptorV1.DioJson}.
Context `{!JsonCodec EncryptionKey} `{!JsonCodecLaws EncryptionKey}.

Lemma at_inv {K} `{Countable K} {A} (m : gmap K A) k x : at_ m k = Ret x -> m !! k = Some x.
Proof. unfold at_. destruct (m !! k); [by intros [= ->]|done]. Qed.

Lemma findEncKeyByKeyId_lookup keys keyId :
  findEncKeyByKeyId keys keyId = match keys !! keyId with
    | Some k => Ret k
    | None => Throw UnknownModuleEncryptionKeyException
    end.
Proof.
  unfold findEncKeyByKeyId. destruct (List.find _ _) as [[i k]|] eqn:Ef.
  - apply List.find_some in Ef as [Hin He%bool_decide_eq_true]. cbn in He. subst i.
    apply list_elem_of_In, KeyProvider.order_elem in Hin. by rewrite Hin.
  - destruct (keys !! keyId) as [k|] eqn:Ek; [|done].
    apply KeyProvider.order_elem, list_elem_of_In in Ek.
    apply (List.find_none _ _ Ef) in Ek. cbn in Ek. by rewrite bool_decide_eq_true_2 in Ek.
Qed.

(** What a key asked for alone, and left without an error status, is: the key of
    an entry of that id, opened for the location. *)
Definition key_opened (priv : PrivateKey) (uv : list VerificationRequest -> outcome (list bool))
    (keys : list KeyEntry) (id : bytes) (location : EncKeyLocation) (k : DecryptedEncKeyV2) : Prop :=
  k_statusCode k = None /\ exists e, e ∈ keys /\ kn_keyId e = id /\ KeyProvider.opened_from priv uv e location k.

Lemma one_key_opened priv uv keys id location all ks k :
  KeyProvider.getKeysAndVerify priv uv (KeyDecryptionAndVerificationRequest.addOne keys id location
    KeyDecryptionAndVerificationRequest.empty).2 = Ret all ->
  at_ all location = Ret ks -> at_ ks id = Ret k -> k_statusCode k = None ->
  key_opened priv uv keys id location k.
Proof.
  intros Ha El%at_inv Hk%at_inv Hs. split; [done|].
  destruct (KeyProvider.keys_opened priv uv _ all location ks _ k Ha El Hk Hs) as [(entries & e & Hl & He & Ho) _].
  revert Hl. unfold KeyDecryptionAndVerificationRequest.addOne. unfold_st. cbn.
  rewrite lookup_insert_eq, lookup_empty. intros [= <-]. revert He. cbn.
  destruct (List.find _ keys) as [e'|] eqn:Ef.
  - apply List.find_some in Ef as [Hin Hid%bool_decide_eq_true]. rewrite <- Hid, lookup_insert_eq.
    intros [= <-]. exists e'. by rewrite <- list_elem_of_In in Hin.
  - cbn. rewrite lookup_insert_eq. intros [= <-]. by destruct Ho.
Qed.

(** A key asked for alone, found, decrypted and accepted. *)
Lemma one_key_found priv uv keys id location e k :
  List.find (fun x => bool_decide (kn_keyId x = id)) keys = Some e ->
  KeyProvider.decrypt_entry priv e = Ret k ->
  dio_contextId (dio (k_dio k)) = loc_contextId location -> dio_resourceId (dio (k_dio k)) = loc_resourceId location ->
  KeyProvider.checked k = true -> uv [KeyProvider.request_of k] = Ret [true] ->
  KeyProvider.getKeysAndVerify priv uv (KeyDecryptionAndVerificationRequest.addOne keys id location
    KeyDecryptionAndVerificationRequest.empty).2 = Ret {[ location := {[ id := k ]} ]}.
Proof.
  intros Hf Hd Hx Hr Hc Hu.
  apply (KeyProvider.single_verified priv uv _ id e location k); try done.
  unfold KeyDecryptionAndVerificationRequest.addOne. unfold_st. cbn. rewrite Hf.
  apply List.find_some in Hf as [_ <-%bool_decide_eq_true]. cbn. by rewrite lookup_empty.
Qed.

Lemma at_singleton {K} `{Countable K} {A} (k : K) (x : A) : at_ {[ k := x ]} k = Ret x.
Proof. unfold at_. by rewrite lookup_singleton_eq. Qed.

(** The current key, found, decrypted and accepted. *)
Lemma current_key priv uv keys e k :
  List.find (fun x => bool_decide (kn_keyId x = mk_currentKeyId keys)) (mk_keys keys) = Some e ->
  KeyProvider.decrypt_entry priv e = Ret k ->
  dio_contextId (dio (k_dio k)) = mk_contextId keys -> dio_resourceId (dio (k_dio k)) = mk_moduleResourceId keys ->
  KeyProvider.checked k = true -> uv [KeyProvider.request_of k] = Ret [true] ->
  getAndValidateModuleCurrentEncKey priv uv keys = Ret k.
Proof.
  intros. unfold getAndValidateModuleCurrentEncKey. erewrite one_key_found by done.
  unfold_st. by rewrite !at_singleton.
Qed.

(** the current key of a module, returned without an error status, is what
    an entry of the module opens to for its context and resource. *)
Theorem current_key_verified priv uv keys k :
  getAndValidateModuleCurrentEncKey priv uv keys = Ret k ->
  k_statusCode k = None ->
  key_opened priv uv (mk_keys keys) (mk_currentKeyId keys)
    {| loc_contextId := mk_contextId keys; loc_resourceId := mk_moduleResourceId keys |} k.
Proof.
  unfold getAndValidateModuleCurrentEncKey. unfold_st.
  destruct (KeyProvider.getKeysAndVerify _ _ _) as [r|] eqn:Er; [|done].
  destruct (at_ r _) as [ks|] eqn:El; [|done]. intros Hk Hs. by eapply one_key_opened.
Qed.
End Laws.
End ModuleBaseApi.

(** ** Containers with their integrity status *)
Inductive DataIntegrityStatus : Set := NotValidated | ValidationFailed | ValidationSucceed.

#[export] Instance status_eq_dec : EqDecision DataIntegrityStatus.
Proof. solve_decision. Defined.

(** The constructor arguments of [ContainerProvider] and its virtual functions. *)
Class ContainerKind (VALUE W : Type) := {
  getterFunction : bytes -> ST W VALUE;
  validatorFunction : VALUE -> ST W Z;
  isNewerOrSameAsInStorage : VALUE -> gmap bytes (VALUE * DataIntegrityStatus) -> bool;
  getID : VALUE -> bytes;
}.

Module ContainerProvider.
Record ContainerInfo (VALUE : Type) := mkInfo { container : VALUE; status : DataIntegrityStatus }.
Arguments mkInfo {VALUE} container status.
Arguments container {VALUE} c.
Arguments status {VALUE} c.

Section Provider.
Context {VALUE W : Type} `{!ContainerKind VALUE W}.

Record t := mk { _world : W; _storage : gmap bytes (ContainerInfo VALUE) }.

Definition on_world {A} (m : ST W A) : ST t A := zoom _world (fun w s => mk w (_storage s)) m.

Definition pairs (s : gmap bytes (ContainerInfo VALUE)) : gmap bytes (VALUE * DataIntegrityStatus) :=
  (fun i => (container i, status i)) <$> s.

Definition updateByValueAndStatus (info : ContainerInfo VALUE) : ST t unit := modify (fun s =>
  if isNewerOrSameAsInStorage (W := W) (container info) (pairs (_storage s))
  then mk (_world s) (<[ getID (W := W) (container info) := info ]> (_storage s)) else s).

Definition get (containerId : bytes) : ST t (ContainerInfo VALUE) :=
  cachedValue ← gets (fun s => _storage s !! containerId);
  data ← match cachedValue with
         | Some v => mret v
         | None => c ← on_world (getterFunction containerId); mret (mkInfo c NotValidated)
         end;
  match status data with
  | NotValidated =>
      code ← on_world (validatorFunction (container data));
      let data := mkInfo (container data)
        (if bool_decide (code = 0) then ValidationSucceed else ValidationFailed) in
      _ ← updateByValueAndStatus data;
      mret data
  | _ => mret data
  end.

Definition updateByValue (c : VALUE) : ST t unit := updateByValueAndStatus (mkInfo c NotValidated).

Definition update (containerId : bytes) : ST t unit :=
  c ← on_world (getterFunction containerId); updateByValue c.

Definition invalidateByContainerId (containerId : bytes) : ST t unit :=
  modify (fun s => mk (_world s) (delete containerId (_storage s))).

Definition invalidate : ST t unit := modify (fun s => mk (_world s) ∅).

(** The stored entries lie under their own id, and a verdict is the
    validator's. *)
Definition honest (verdict : VALUE -> Z) (s : t) : Prop :=
  forall id i, _storage s !! id = Some i -> getID (W := W) (container i) = id
    /\ match status i with
       | NotValidated => True
       | ValidationSucceed => verdict (container i) = 0
       | ValidationFailed => verdict (container i) <> 0
       end.

Lemma update_honest verdict info s r s' : honest verdict s ->
  match status info with
  | NotValidated => True
  | ValidationSucceed => verdict (container info) = 0
  | ValidationFailed => verdict (container info) <> 0
  end ->
  updateByValueAndStatus info s = (r, s') -> honest verdict s'.
Proof.
  unfold updateByValueAndStatus, modify. intros Hs Hi [= _ <-].
  destruct (isNewerOrSameAsInStorage _ _); [|done]. intros id i. cbn.
  destruct (decide (id = getID (W := W) (container info))) as [->|Hne].
  - rewrite lookup_insert_eq. by intros [= <-].
  - rewrite lookup_insert_ne by done. apply Hs.
Qed.

(** a container comes back with a verdict, the validator's own, whether it
    was cached or fetched, and the cache keeps only such verdicts, each under
    its container's id. *)
Theorem get_validated (verdict : VALUE -> Z) id s info s' :
  (forall c w, (validatorFunction c w).1 = Ret (verdict c)) -> honest verdict s ->
  get id s = (Ret info, s') ->
  status info = (if bool_decide (verdict (container info) = 0) then ValidationSucceed else ValidationFailed)
  /\ honest verdict s'.
Proof.
  intros Hv Hs Hg. unfold get in Hg. inv_bind Hg as (cached & s0 & Hc & Hg).
  injection Hc as <- <-. inv_bind Hg as (data & s1 & Hd & Hg).
  assert (honest verdict s1 /\ match status data with
    | NotValidated => True
    | ValidationSucceed => verdict (container data) = 0
    | ValidationFailed => verdict (container data) <> 0
    end) as [Hs1 Hdata].
  { destruct (_storage s !! id) as [i|] eqn:Ei.
    - injection Hd as <- <-. split; [done|]. by destruct (Hs id i Ei).
    - inv_bind Hd as (c & s2 & Hw & Hd). injection Hd as <- <-. split; [|done].
      revert Hw. unfold on_world, zoom. destruct (getterFunction id (_world s)) as [rc w]. intros [= _ <-]. exact Hs. }
  destruct (status data) eqn:Est.
  - inv_bind Hg as (code & s2 & Hw & Hg). inv_bind Hg as (u & s3 & Hu & Hg). injection Hg as <- <-.
    revert Hw. unfold on_world, zoom. specialize (Hv (container data) (_world s1)).
    destruct (validatorFunction (container data) (_world s1)) as [rc w]. cbn in Hv. subst rc.
    intros [= <- <-]. cbn. split; [done|].
    refine (update_honest verdict _ _ _ _ _ _ Hu); [exact Hs1|]. cbn. by case_bool_decide.
  - injection Hg as <- <-. rewrite Est. by rewrite bool_decide_eq_false_2.
  - injection Hg as <- <-. rewrite Est. by rewrite bool_decide_eq_true_2.
Qed.
End Provider.
End ContainerProvider.

(** [server::ContextInfo] and the provider of contexts: no validation, and
    whatever the server sends replaces what is stored. *)
Record ContextInfo := mkContextInfo { ci_userId : bytes; ci_contextId : bytes }.

#[export] Instance ContextProvider {W} (getContext : bytes -> ST W ContextInfo) : ContainerKind ContextInfo W := {|
  getterFunction := getContext;
  validatorFunction _ := mret 0;
  isNewerOrSameAsInStorage _ _ := true;
  getID := ci_contextId |}.

(** [ConnectionImpl]'s integrity objects (endpoint/core/src/ConnectionImpl.cpp):
    the clock is read and the random id drawn after the user id is known. *)
Module ConnectionImpl.
Section Connection.
Context {C : CryptoService} {E : Ecc} {E0 : Encodings} `{!KeyFormats PublicKey}.
Context {W : Type} (getMyUserId : bytes -> ST W bytes) (getNowTimestamp : ST W Z) (on_rng : forall A, ST rng A -> ST W A).
Context (_userPrivKey : PrivateKey) (_bridgeIdentity : option BridgeIdentity).

Definition createDIOExt (contextId resourceId : bytes) (containerId containerResourceId : option bytes)
    (creatorUserId : option bytes) (creatorPublicKey : option PublicKey) : ST W DataIntegrityObject :=
  user ← match creatorUserId with Some u => mret u | None => getMyUserId contextId end;
  timestamp ← getNowTimestamp;
  randomId ← on_rng _ KeyProvider.generateDIORandomId;
  mret {| dio_creatorUserId := user;
          dio_creatorPubKey := toBase58DER (match creatorPublicKey with
            | Some p => p | None => getPublicKey _userPrivKey end);
          dio_contextId := contextId; dio_resourceId := resourceId; dio_timestamp := timestamp;
          dio_randomId := randomId; dio_containerId := containerId;
          dio_containerResourceId := containerResourceId; dio_bridgeIdentity := _bridgeIdentity |}.

Definition createDIO (contextId resourceId : bytes) (containerId containerResourceId : option bytes) :
    ST W DataIntegrityObject := createDIOExt contextId resourceId containerId containerResourceId None None.

Definition createPublicDIO (contextId resourceId : bytes) (pubKey : PublicKey)
    (containerId containerResourceId : option bytes) : ST W DataIntegrityObject :=
  createDIOExt contextId resourceId containerId containerResourceId (Some (lit "<anonymous>")) (Some pubKey).
End Connection.
End ConnectionImpl.

(** ** Concrete caches and keys *)
Section Witness.
Import ToyKeys.
#[local] Existing Instances Toy.service Toy.laws ToyEcc.ecc ToyEcc.laws ToyJson.encodings
  ToyJson.encodings_laws ToyCodec.keys ToyCodec.keys_laws dio_codec dio_codec_laws
  key_dynamic map_order key_json key_json_laws key_codec key_codec_laws.

Let cached (version : Z) : ContainerKeyCache.CachedModuleKeys :=
  ContainerKeyCache.mkCached [] (lit "k1") 5 (lit "res") (lit "ctx") version.

Lemma updates_converge_witness :
  ContainerKeyCache.updates (lit "thread") [cached 3; cached 1; cached 2] ∅ !! lit "thread" = Some (cached 3).
Proof.
  apply (ContainerKeyCache.updates_converge _ [cached 1; cached 2; cached 3]).
  - vm_compute. repeat (constructor; [by rewrite ?elem_of_cons, elem_of_nil; intros ?; intuition congruence|]). constructor.
  - apply Permutation_sym. exact (Permutation_trans (perm_skip _ (Permutation_refl _))
      (Permutation_sym (Permutation_middle [cached 1; cached 2] [] (cached 3)))).
  - right. right. left.
  - intros k. rewrite !elem_of_cons, elem_of_nil. by intros [-> | [-> | [-> | []]]].
  - done.
Defined.

(** A module whose current key the toy sender made for the toy user. *)
Lemma toy_module : exists keys k, ModuleBaseApi.getAndValidateModuleCurrentEncKey user verifier keys = Ret k
  /\ k_statusCode k = None /\ k_dataStructureVersion k = KeyProvider.VERSION_2.
Proof.
  destruct (EncKeyEncryptorV2.key_roundtrip made user sender) as (e & x & _ & Hv & Hx & Hd); [by split|].
  exists (mkModuleKeys [{| kn_keyId := ek_id key; kn_data := Some (v2_toJSON e) |}] (ek_id key) 5
    (loc_resourceId location) (loc_contextId location)), (EncKeyEncryptorV2.received made x).
  split; [|done]. eapply ModuleBaseApi.current_key; cbn [mk_keys mk_currentKeyId mk_contextId mk_moduleResourceId].
  - cbn [List.find kn_keyId]. by rewrite bool_decide_eq_true_2.
  - unfold KeyProvider.decrypt_entry. cbn [kn_data].
    by rewrite v2_is_object, v2_versioned, Hv, v2_inv, bool_decide_eq_true_2.
  - cbn. by rewrite Hx.
  - cbn. by rewrite Hx.
  - done.
  - done.
Qed.

Lemma current_key_verified_witness : exists keys k,
  ModuleBaseApi.getAndValidateModuleCurrentEncKey user verifier keys = Ret k
  /\ exists e, e ∈ mk_keys keys /\ kn_keyId e = mk_currentKeyId keys.
Proof.
  destruct toy_module as (keys & k & Hk & Hs & _).
  destruct (ModuleBaseApi.current_key_verified user verifier keys k Hk Hs) as (_ & e & He & Hi & _).
  exists keys, k. exact (conj Hk (ex_intro _ e (conj He Hi))).
Defined.

(** Contexts asked of a server that knows one. *)
Let contexts (id : bytes) : ST unit ContextInfo := mret (mkContextInfo (lit "joe") id).
#[local] Instance toy_contexts : ContainerKind ContextInfo unit := ContextProvider contexts.

Let joe := ContainerProvider.mkInfo (mkContextInfo (lit "joe") (lit "ctx")) ValidationSucceed.

Lemma get_validated_witness :
  ContainerProvider.get (lit "ctx") (ContainerProvider.mk tt ∅)
    = (Ret joe, ContainerProvider.mk tt {[ lit "ctx" := joe ]})
  /\ ContainerProvider.status joe = ValidationSucceed.
Proof.
  assert (ContainerProvider.get (lit "ctx") (ContainerProvider.mk tt ∅)
    = (Ret joe, ContainerProvider.mk tt {[ lit "ctx" := joe ]})) as Hg by (vm_compute; reflexivity).
  split; [exact Hg|].
  refine (proj1 (ContainerProvider.get_validated (fun _ => 0) _ _ _ _ _ _ Hg)).
  - done.
  - intros id i. cbn. by rewrite lookup_empty.
Defined.
End Witness.
