(* ===== verification/FileMetaData.v ===== *)
(** * File metadata

    [FileMetaEncryptorV5] and the deprecated [FileMetaEncryptorV4]
    (endpoint/store/src/encryptors/file), and the encrypting half of
    [FileMetaEncryptor], which chooses between them for an open file. *)

From Stdlib Require Import ZArith Lia Strings.String Strings.Byte.
From stdpp Require Import base list gmap.
From S2P Require Import Prelude Bytes CoreTypes Crypto CryptoSuite Dynamic Encryptors.
From S2P Require Import Dio FieldData EncKeys KeyProvider Containers.
Import DataEncryptorV4.

Module FileMetaEncryptorV5.
Definition VERSION_5 : Z := 5.

Record FileMetaToEncryptV5 := {
  in_publicMeta : bytes;
  in_privateMeta : bytes;
  in_internalMeta : bytes;
  in_dio : DataIntegrityObject;
}.

Record DecryptedFileMetaV5 := {
  f5_dataStructureVersion : Z;
  f5_statusCode : option exn;
  f5_publicMeta : bytes;
  f5_privateMeta : bytes;
  f5_internalMeta : bytes;
  f5_authorPubKey : bytes;
  f5_dio : DataIntegrityObject;
}.

Section Setters.
Implicit Types r : DecryptedFileMetaV5.
Definition set_statusCode (x : option exn) r := {|
  f5_dataStructureVersion := f5_dataStructureVersion r; f5_statusCode := x;
  f5_publicMeta := f5_publicMeta r; f5_privateMeta := f5_privateMeta r;
  f5_internalMeta := f5_internalMeta r; f5_authorPubKey := f5_authorPubKey r;
  f5_dio := f5_dio r |}.
Definition set_publicMeta (x : bytes) r := {|
  f5_dataStructureVersion := f5_dataStructureVersion r; f5_statusCode := f5_statusCode r;
  f5_publicMeta := x; f5_privateMeta := f5_privateMeta r; f5_internalMeta := f5_internalMeta r;
  f5_authorPubKey := f5_authorPubKey r; f5_dio := f5_dio r |}.
Definition set_privateMeta (x : bytes) r := {|
  f5_dataStructureVersion := f5_dataStructureVersion r; f5_statusCode := f5_statusCode r;
  f5_publicMeta := f5_publicMeta r; f5_privateMeta := x; f5_internalMeta := f5_internalMeta r;
  f5_authorPubKey := f5_authorPubKey r; f5_dio := f5_dio r |}.
Definition set_internalMeta (x : bytes) r := {|
  f5_dataStructureVersion := f5_dataStructureVersion r; f5_statusCode := f5_statusCode r;
  f5_publicMeta := f5_publicMeta r; f5_privateMeta := f5_privateMeta r; f5_internalMeta := x;
  f5_authorPubKey := f5_authorPubKey r; f5_dio := f5_dio r |}.
Definition set_authorPubKey (x : bytes) r := {|
  f5_dataStructureVersion := f5_dataStructureVersion r; f5_statusCode := f5_statusCode r;
  f5_publicMeta := f5_publicMeta r; f5_privateMeta := f5_privateMeta r;
  f5_internalMeta := f5_internalMeta r; f5_authorPubKey := x; f5_dio := f5_dio r |}.
Definition set_dio (x : DataIntegrityObject) r := {|
  f5_dataStructureVersion := f5_dataStructureVersion r; f5_statusCode := f5_statusCode r;
  f5_publicMeta := f5_publicMeta r; f5_privateMeta := f5_privateMeta r;
  f5_internalMeta := f5_internalMeta r; f5_authorPubKey := f5_authorPubKey r; f5_dio := x |}.
End Setters.

#[export] Instance file_meta_status : HasStatus DecryptedFileMetaV5 :=
  {| status := f5_statusCode; set_status := set_statusCode; status_set _ _ := eq_refl |}.

Definition fresh : DecryptedFileMetaV5 := {|
  f5_dataStructureVersion := VERSION_5; f5_statusCode := None; f5_publicMeta := [];
  f5_privateMeta := []; f5_internalMeta := [];
  f5_authorPubKey := []; f5_dio := empty_dio |}.

Section FileMeta.
Context `{Ecc} `{!Encodings} `{!Dynamic} `{!KeyFormats PublicKey}.
Context `{!JsonCodec DIOEncryptorV1.DioJson}.

(** [server::EncryptedFileMetaV5] *)
Record EncryptedFileMetaV5 := {
  version : Z;
  publicMeta : bytes;
  publicMetaObject : option Var;
  privateMeta : bytes;
  internalMeta : option bytes;
  authorPubKey : bytes;
  dio : bytes;
}.

Definition encrypt (d : FileMetaToEncryptV5) (authorPrivateKey : PrivateKey) (encryptionKey : bytes) :
    ST rng EncryptedFileMetaV5 :=
  let publicMeta := signAndEncode (in_publicMeta d) authorPrivateKey in
  let publicMetaObject := parsed_object (in_publicMeta d) in
  privateMeta ← signAndEncryptAndEncode (in_privateMeta d) authorPrivateKey encryptionKey;
  internalMeta ← signAndEncryptAndEncode (in_internalMeta d) authorPrivateKey encryptionKey;
  let fieldChecksums : checksums := {[ lit "publicMeta" := sha256 publicMeta;
    lit "privateMeta" := sha256 privateMeta; lit "internalMeta" := sha256 internalMeta ]} in
  let expandedDio := {| Dio.dio := in_dio d; structureVersion := 5;
                        fieldChecksums := fieldChecksums |} in
  dio ← lift (DIOEncryptorV1.signAndEncode expandedDio authorPrivateKey);
  mret {| version := VERSION_5; publicMeta := publicMeta; publicMetaObject := publicMetaObject;
          privateMeta := privateMeta; internalMeta := Some internalMeta;
          authorPubKey := toBase58DER (getPublicKey authorPrivateKey); dio := dio |}.

Definition assertDataFormat (e : EncryptedFileMetaV5) : outcome unit :=
  if bool_decide (version e <> VERSION_5) || bool_decide (publicMeta e = [])
     || bool_decide (privateMeta e = []) || bool_decide (authorPubKey e = [])
     || bool_decide (internalMeta e = None)
  then Throw InvalidEncryptedStoreFileMetaVersionException else Ret tt.

Definition getDIOAndAssertIntegrity (e : EncryptedFileMetaV5) : outcome DataIntegrityObject :=
  _ ← assertDataFormat e;
  d ← DIOEncryptorV1.decodeAndVerify (dio e);
  let sums := fieldChecksums d in
  bad ← any_of [
    Ret (bool_decide (structureVersion d <> VERSION_5));
    Ret (bool_decide (dio_creatorPubKey (Dio.dio d) <> authorPubKey e));
    sum_differs sums (lit "publicMeta") (publicMeta e);
    sum_differs sums (lit "privateMeta") (privateMeta e);
    (m ← opt_value (internalMeta e); sum_differs sums (lit "internalMeta") m) ];
  if (bad : bool) then Throw InvalidDataIntegrityObjectChecksumException else Ret (Dio.dio d).

(** What [decrypt] and [extractPublic] start with: they differ in the check of
    the readable copy. *)
Definition open_public (check : option Var -> bytes -> outcome bool) (e : EncryptedFileMetaV5) : ST DecryptedFileMetaV5 PublicKey :=
  d ← lift (getDIOAndAssertIntegrity e);
  _ ← modify (set_dio d);
  authorPublicKey ← lift (fromBase58DER (authorPubKey e));
  m ← lift (decodeAndVerify (publicMeta e) authorPublicKey);
  _ ← modify (set_publicMeta m);
  differs ← lift (check (publicMetaObject e) m);
  _ ← modify (if (differs : bool) then set_statusCode (Some FilePublicDataMismatchException) else id);
  mret authorPublicKey.

Definition decrypt (e : EncryptedFileMetaV5) (encryptionKey : bytes) : outcome DecryptedFileMetaV5 :=
  guarded (
    authorPublicKey ← open_public object_differs e;
    m ← lift (decodeAndDecryptAndVerify (privateMeta e) authorPublicKey encryptionKey);
    _ ← modify (set_privateMeta m);
    m ← lift (c ← opt_value (internalMeta e); decodeAndDecryptAndVerify c authorPublicKey encryptionKey);
    _ ← modify (set_internalMeta m);
    modify (set_authorPubKey (authorPubKey e))) set_status fresh.

(** Here the copy is compared when it is empty. *)
Definition extractPublic (e : EncryptedFileMetaV5) : outcome DecryptedFileMetaV5 :=
  guarded (_ ← open_public empty_object_differs e; modify (set_authorPubKey (authorPubKey e))) set_status fresh.
End FileMeta.

Section Laws.
Context {C : CryptoService} `{!CryptoLaws C} {E : Ecc} `{!EccLaws E} {E0 : Encodings} `{!EncodingsLaws E0} `{!Dynamic}.
Context `{!KeyFormats PublicKey} `{!KeyFormatsLaws PublicKey}.
Context `{!JsonCodec DIOEncryptorV1.DioJson} `{!JsonCodecLaws DIOEncryptorV1.DioJson}.
Implicit Types e : EncryptedFileMetaV5.

Record encryptable (d : FileMetaToEncryptV5) (k : PrivateKey) (ek : bytes) : Prop := {
  en_dio : DIOEncryptorV1.well_formed (in_dio d);
  en_creator : dio_creatorPubKey (in_dio d) = toBase58DER (getPublicKey k);
  en_key : zlen ek = 32;
  en_private : small (in_privateMeta d);
  en_internal : small (in_internalMeta d);
}.

Definition opened (d : FileMetaToEncryptV5) (k : PrivateKey) : DecryptedFileMetaV5 := {|
  f5_dataStructureVersion := VERSION_5; f5_statusCode := None;
  f5_publicMeta := in_publicMeta d; f5_privateMeta := in_privateMeta d;
  f5_internalMeta := in_internalMeta d; f5_authorPubKey := toBase58DER (getPublicKey k);
  f5_dio := in_dio d |}.

Record sealed (d : FileMetaToEncryptV5) (k : PrivateKey) (ek : bytes) e : Prop := {
  se_dio : getDIOAndAssertIntegrity e = Ret (in_dio d);
  se_author : authorPubKey e = toBase58DER (getPublicKey k);
  se_public : publicMeta e = signAndEncode (in_publicMeta d) k;
  se_object : publicMetaObject e = parsed_object (in_publicMeta d);
  se_private : decodeAndDecryptAndVerify (privateMeta e) (getPublicKey k) ek = Ret (in_privateMeta d);
  se_internal : (c ← opt_value (internalMeta e); decodeAndDecryptAndVerify c (getPublicKey k) ek)
                = Ret (in_internalMeta d);
}.

Lemma meta_encrypt_sealed d k ek g : encryptable d k ek ->
  exists e g', encrypt d k ek g = (Ret e, g') /\ sealed d k ek e.
Proof.
  intros [Hw Hc Hk Hp Hi]. unfold encrypt.
  destruct (seal_total (in_privateMeta d) k ek g Hk Hp) as (cp & g1 & Ep & Op & Np). run_step.
  destruct (seal_total (in_internalMeta d) k ek g1 Hk Hi) as (ci & g2 & Ei & Oi & Ni). run_step.
  match goal with |- context [DIOEncryptorV1.signAndEncode ?x k] => set (xd := x) end.
  destruct (DIOEncryptorV1.signAndEncode_ret xd k) as [c Ec]; [done|].
  pose proof (DIOEncryptorV1.dio_open xd k c Ec Hw) as Eo.
  unfold_st. rewrite Ec. do 2 eexists. split; [reflexivity|].
  split; cbn [authorPubKey publicMeta publicMetaObject privateMeta internalMeta]; try done.
  unfold getDIOAndAssertIntegrity, assertDataFormat.
  cbn [version publicMeta privateMeta authorPubKey internalMeta dio].
  rewrite !bool_decide_eq_false_2; [|first [tauto|done|eauto using base58der_nonempty, sign_nonempty]..].
  unfold_st. cbn [orb]. rewrite Eo.
  rewrite (proj2 (any_of_false _)); [done|].
  repeat apply Forall_cons_2; [..|constructor].
  1-2: by rewrite bool_decide_eq_false_2 by (cbn; tauto).
  all: apply sum_differs_false; cbn; sum_lookup.
Qed.

Lemma meta_open_public_sealed check d k ek e : sealed d k ek e ->
  open_public check e fresh =
    let r := set_publicMeta (in_publicMeta d) (set_dio (in_dio d) fresh) in
    match check (parsed_object (in_publicMeta d)) (in_publicMeta d) with
    | Ret true => (Ret (getPublicKey k), set_statusCode (Some FilePublicDataMismatchException) r)
    | Ret false => (Ret (getPublicKey k), r)
    | Throw x => (Throw x, r)
    end.
Proof.
  intros [Hd Ha Hp Ho _ _]. unfold open_public. unfold_st.
  rewrite Hd, Ha, base58der_inv, Hp, open_signed, Ho. cbn. by destruct (check _ _) as [[]|].
Qed.

Lemma meta_decrypt_sealed d k ek e : sealed d k ek e -> decrypt e ek = Ret (opened d k).
Proof.
  intros Hs. pose proof (meta_open_public_sealed object_differs _ _ _ _ Hs) as Hp.
  rewrite object_differs_parsed in Hp. cbv zeta in Hp. destruct Hs as [_ Ha _ _ Hv Hi].
  apply guarded_ret. run_step. unfold_st. by rewrite Hv, Hi, Ha.
Qed.

(** ** What a decryption without an error status guarantees *)
Lemma meta_integrity_version e d : getDIOAndAssertIntegrity e = Ret d -> version e = VERSION_5.
Proof.
  unfold getDIOAndAssertIntegrity, assertDataFormat. case_bool_decide as Hv; [done|]. intros _.
  by destruct (decide (version e = VERSION_5)); [|destruct Hv].
Qed.

Lemma meta_integrity_accepts e d : getDIOAndAssertIntegrity e = Ret d ->
  dio_creatorPubKey d = authorPubKey e
  /\ exists x, DIOEncryptorV1.decodeAndVerify (dio e) = Ret x /\ Dio.dio x = d
    /\ fieldChecksums x !! lit "publicMeta" = Some (sha256 (publicMeta e))
    /\ fieldChecksums x !! lit "privateMeta" = Some (sha256 (privateMeta e))
    /\ exists m, internalMeta e = Some m /\ fieldChecksums x !! lit "internalMeta" = Some (sha256 m).
Proof.
  unfold getDIOAndAssertIntegrity. unfold_st. destruct (assertDataFormat e); [|done].
  destruct (DIOEncryptorV1.decodeAndVerify (dio e)) as [x|]; [|done].
  destruct (any_of _) as [[]|] eqn:Ea; [done| |done]. intros [= <-].
  apply any_of_false in Ea. rewrite !Forall_cons in Ea.
  destruct Ea as (_ & [= E2] & E3 & E4 & E6 & _).
  apply bool_decide_eq_false, dec_stable in E2. apply sum_differs_false in E3, E4.
  split; [done|]. exists x. do 4 (split; [done|]). destruct (internalMeta e) as [m|]; [|done].
  exists m. split; [done|]. by apply sum_differs_false in E6.
Qed.

(** The three texts, all signed with [p]. *)
Definition signed_meta (p : PublicKey) (d : DecryptedFileMetaV5) : Prop :=
  (exists s, verifyCompactSignatureWithHash p (f5_publicMeta d) s = true)
  /\ (exists s, verifyCompactSignatureWithHash p (f5_privateMeta d) s = true)
  /\ (exists s, verifyCompactSignatureWithHash p (f5_internalMeta d) s = true).

Lemma meta_accepted e ek r : decrypt e ek = Ret r -> f5_statusCode r = None ->
  getDIOAndAssertIntegrity e = Ret (f5_dio r)
  /\ exists p, fromBase58DER (f5_authorPubKey r) = Ret p /\ dio_creatorPubKey (f5_dio r) = f5_authorPubKey r
    /\ signed_meta p r.
Proof.
  intros Hr Hs. apply guarded_success in Hr; [|exact Hs].
  inv_bind Hr as (p & r1 & Hp & Hr). revert Hp. unfold open_public. intros Hp.
  inv_bind Hp as (d & ? & [= Hd <-] & Hp). inv_bind Hp as (? & ? & [= <- <-] & Hp).
  inv_bind Hp as (p' & ? & [= Hp' <-] & Hp). inv_bind Hp as (m1 & ? & [= Hm1 <-] & Hp).
  inv_bind Hp as (? & ? & [= <- <-] & Hp). inv_bind Hp as (b & ? & [= Hb <-] & Hp).
  inv_bind Hp as (? & ? & [= <- <-] & Hp). injection Hp as <- <-.
  inv_bind Hr as (m2 & ? & [= Hm2 <-] & Hr). inv_bind Hr as (? & ? & [= <- <-] & Hr).
  inv_bind Hr as (m3 & ? & [= Hm3 <-] & Hr). inv_bind Hr as (? & ? & [= <- <-] & Hr). injection Hr as <-.
  destruct (meta_integrity_accepts e d Hd) as [Hc _].
  assert (exists s, verifyCompactSignatureWithHash p' m3 s = true) as S3.
  { revert Hm3. unfold_st. destruct (opt_value (internalMeta e)) as [c|]; [|done]. apply open_sealed_accepts. }
  destruct b; (split; [exact Hd|exists p'; split; [exact Hp'|split; [exact Hc|]]]);
    exact (conj (open_signed_accepts _ _ _ Hm1) (conj (open_sealed_accepts _ _ _ _ Hm2) S3)).
Qed.

(** the metadata a user encrypts for a file decrypts to the same metadata;
    its public part reads without the key only when it is a JSON object: for any
    other text [extractPublic] reports an error status. *)
Theorem file_meta_roundtrip d k ek g : encryptable d k ek ->
  exists e g', encrypt d k ek g = (Ret e, g') /\ decrypt e ek = Ret (opened d k)
    /\ let r := set_publicMeta (in_publicMeta d) (set_dio (in_dio d) fresh) in
       match parse_json_object (in_publicMeta d) with
       | Ret _ => extractPublic e = Ret (set_authorPubKey (toBase58DER (getPublicKey k)) r)
       | Throw x => x <> UndefinedBehaviour -> extractPublic e = Ret (set_statusCode (Some (status_of x)) r)
       end.
Proof.
  intros He. destruct (meta_encrypt_sealed d k ek g He) as (e & g' & Hr & Hs).
  exists e, g'. split; [done|]. split; [by apply meta_decrypt_sealed|]. intros r.
  pose proof (meta_open_public_sealed empty_object_differs _ _ _ _ Hs) as Hp. fold r in Hp.
  revert Hp. unfold parsed_object at 1, empty_object_differs, texts_differ.
  destruct (parse_json_object (in_publicMeta d)) as [v|x] eqn:Ej; rewrite ?Ej; unfold_st; intros Hp.
  - apply guarded_ret. run_step. by rewrite (se_author _ _ _ _ Hs).
  - intros Hx. unfold extractPublic. rewrite (guarded_throw _ _ r x); [done| |done]. by run_step.
Qed.
End Laws.
End FileMetaEncryptorV5.

Module FileMetaEncryptorV4.
Definition VERSION_4 : Z := 4.

Record FileMetaToEncryptV4 := {
  in_publicMeta : bytes;
  in_privateMeta : bytes;
  in_fileSize : Z;
  in_internalMeta : bytes;
}.

Record DecryptedFileMetaV4 := {
  f4_dataStructureVersion : Z;
  f4_statusCode : option exn;
  f4_publicMeta : bytes;
  f4_privateMeta : bytes;
  f4_fileSize : Z;
  f4_internalMeta : bytes;
  f4_authorPubKey : bytes;
}.

Section Setters.
Implicit Types r : DecryptedFileMetaV4.
Definition set_statusCode (x : option exn) r := {|
  f4_dataStructureVersion := f4_dataStructureVersion r; f4_statusCode := x;
  f4_publicMeta := f4_publicMeta r; f4_privateMeta := f4_privateMeta r;
  f4_fileSize := f4_fileSize r; f4_internalMeta := f4_internalMeta r;
  f4_authorPubKey := f4_authorPubKey r |}.
Definition set_publicMeta (x : bytes) r := {|
  f4_dataStructureVersion := f4_dataStructureVersion r; f4_statusCode := f4_statusCode r;
  f4_publicMeta := x; f4_privateMeta := f4_privateMeta r; f4_fileSize := f4_fileSize r;
  f4_internalMeta := f4_internalMeta r; f4_authorPubKey := f4_authorPubKey r |}.
Definition set_privateMeta (x : bytes) r := {|
  f4_dataStructureVersion := f4_dataStructureVersion r; f4_statusCode := f4_statusCode r;
  f4_publicMeta := f4_publicMeta r; f4_privateMeta := x; f4_fileSize := f4_fileSize r;
  f4_internalMeta := f4_internalMeta r; f4_authorPubKey := f4_authorPubKey r |}.
Definition set_fileSize (x : Z) r := {| f4_dataStructureVersion := f4_dataStructureVersion r;
  f4_statusCode := f4_statusCode r; f4_publicMeta := f4_publicMeta r;
  f4_privateMeta := f4_privateMeta r; f4_fileSize := x; f4_internalMeta := f4_internalMeta r;
  f4_authorPubKey := f4_authorPubKey r |}.
Definition set_internalMeta (x : bytes) r := {|
  f4_dataStructureVersion := f4_dataStructureVersion r; f4_statusCode := f4_statusCode r;
  f4_publicMeta := f4_publicMeta r; f4_privateMeta := f4_privateMeta r;
  f4_fileSize := f4_fileSize r; f4_internalMeta := x; f4_authorPubKey := f4_authorPubKey r |}.
Definition set_authorPubKey (x : bytes) r := {|
  f4_dataStructureVersion := f4_dataStructureVersion r; f4_statusCode := f4_statusCode r;
  f4_publicMeta := f4_publicMeta r; f4_privateMeta := f4_privateMeta r;
  f4_fileSize := f4_fileSize r; f4_internalMeta := f4_internalMeta r; f4_authorPubKey := x |}.
End Setters.

#[export] Instance file_meta4_status : HasStatus DecryptedFileMetaV4 :=
  {| status := f4_statusCode; set_status := set_statusCode; status_set _ _ := eq_refl |}.

(** The default value of [fileSize] is indeterminate; it is not read before it
    is set. *)
Definition fresh : DecryptedFileMetaV4 := {|
  f4_dataStructureVersion := VERSION_4; f4_statusCode := None; f4_publicMeta := [];
  f4_privateMeta := []; f4_fileSize := 0; f4_internalMeta := []; f4_authorPubKey := [] |}.

Definition serializeNumber (number : Z) : bytes := to_string number.
Definition deserializeNumber (buffer : bytes) : outcome Z := stoll buffer.

Section FileMeta.
Context `{Ecc} `{!Encodings} `{!Dynamic} `{!KeyFormats PublicKey}.

(** [server::EncryptedFileMetaV4] *)
Record EncryptedFileMetaV4 := {
  version : Z;
  publicMeta : bytes;
  publicMetaObject : option Var;
  privateMeta : bytes;
  fileSize : bytes;
  internalMeta : option bytes;
  authorPubKey : bytes;
}.

Definition encrypt (d : FileMetaToEncryptV4) (authorPrivateKey : PrivateKey) (encryptionKey : bytes) :
    ST rng EncryptedFileMetaV4 :=
  let publicMeta := signAndEncode (in_publicMeta d) authorPrivateKey in
  let publicMetaObject := parsed_object (in_publicMeta d) in
  privateMeta ← signAndEncryptAndEncode (in_privateMeta d) authorPrivateKey encryptionKey;
  fileSize ← signAndEncryptAndEncode (serializeNumber (in_fileSize d)) authorPrivateKey encryptionKey;
  internalMeta ← signAndEncryptAndEncode (in_internalMeta d) authorPrivateKey encryptionKey;
  mret {| version := VERSION_4; publicMeta := publicMeta; publicMetaObject := publicMetaObject;
          privateMeta := privateMeta; fileSize := fileSize; internalMeta := Some internalMeta;
          authorPubKey := toBase58DER (getPublicKey authorPrivateKey) |}.

Definition validateVersion (e : EncryptedFileMetaV4) : outcome unit :=
  if bool_decide (version e <> VERSION_4) then Throw InvalidEncryptedStoreFileMetaVersionException
  else Ret tt.

Definition decrypt (e : EncryptedFileMetaV4) (encryptionKey : bytes) : outcome DecryptedFileMetaV4 :=
  guarded (
    _ ← lift (validateVersion e);
    authorPublicKey ← lift (fromBase58DER (authorPubKey e));
    m ← lift (decodeAndVerify (publicMeta e) authorPublicKey);
    _ ← modify (set_publicMeta m);
    differs ← lift (object_differs (publicMetaObject e) m);
    _ ← modify (if (differs : bool) then set_statusCode (Some FilePublicDataMismatchException) else id);
    m ← lift (decodeAndDecryptAndVerify (privateMeta e) authorPublicKey encryptionKey);
    _ ← modify (set_privateMeta m);
    n ← lift (m ← decodeAndDecryptAndVerify (fileSize e) authorPublicKey encryptionKey;
              deserializeNumber m);
    _ ← modify (set_fileSize n);
    m ← lift (c ← opt_value (internalMeta e); decodeAndDecryptAndVerify c authorPublicKey encryptionKey);
    _ ← modify (set_internalMeta m);
    modify (set_authorPubKey (authorPubKey e))) set_status fresh.
End FileMeta.

Section Laws.
Context {C : CryptoService} `{!CryptoLaws C} {E : Ecc} `{!EccLaws E} {E0 : Encodings} `{!EncodingsLaws E0} `{!Dynamic}.
Context `{!KeyFormats PublicKey} `{!KeyFormatsLaws PublicKey}.

Definition opened (d : FileMetaToEncryptV4) (k : PrivateKey) : DecryptedFileMetaV4 := {|
  f4_dataStructureVersion := VERSION_4; f4_statusCode := None;
  f4_publicMeta := in_publicMeta d; f4_privateMeta := in_privateMeta d;
  f4_fileSize := in_fileSize d; f4_internalMeta := in_internalMeta d;
  f4_authorPubKey := toBase58DER (getPublicKey k) |}.

(** Structure-4 metadata, the file size as a decimal numeral, opens to what was
    encrypted. *)
Theorem file_meta4_roundtrip d k ek g :
  zlen ek = 32 -> small (in_privateMeta d) -> small (in_internalMeta d) ->
  small (serializeNumber (in_fileSize d)) -> - 2 ^ 63 <= in_fileSize d < 2 ^ 63 ->
  exists e g', encrypt d k ek g = (Ret e, g') /\ decrypt e ek = Ret (opened d k).
Proof.
  intros Hk Hp Hi Hs Hn. unfold encrypt.
  destruct (seal_total (in_privateMeta d) k ek g Hk Hp) as (cp & g1 & Ep & Op & _). run_step.
  destruct (seal_total (serializeNumber (in_fileSize d)) k ek g1 Hk Hs)
    as (cn & g2 & En & On & _). run_step.
  destruct (seal_total (in_internalMeta d) k ek g2 Hk Hi) as (ci & g3 & Ei & Oi & _). run_step.
  do 2 eexists. split; [reflexivity|]. apply guarded_ret. unfold_st. cbn -[decodeAndVerify object_differs].
  rewrite base58der_inv, open_signed, object_differs_parsed, Op, On.
  unfold deserializeNumber, serializeNumber. by rewrite stoll_to_string, Oi.
Qed.
End Laws.
End FileMetaEncryptorV4.

(** ** Renewing the metadata of an open file
    ([FileMetaEncryptor], endpoint/store/src/encryptors/file/FileMetaEncryptor.cpp)

    The structure follows the structure of the file's key; of a key of any other
    structure there is no encryption. *)
(** [dynamic::InternalStoreFileMeta] (DynamicTypes.hpp) *)
Record InternalStoreFileMeta := mkInternalMeta {
  im_version : Z;
  im_size : Z;
  im_cipherType : Z;
  im_chunkSize : Z;
  im_key : bytes;
  im_hmac : bytes;
  im_randomWrite : option bool;
}.

Record FileMeta := mkFileMeta {
  fm_publicMeta : bytes;
  fm_privateMeta : bytes;
  fm_internalFileMeta : InternalStoreFileMeta;
}.

Record FileInfo := mkFileInfo {
  fi_contextId : bytes;
  fi_storeId : bytes;
  fi_storeResourceId : bytes;
  fi_fileId : bytes;
  fi_resourceId : bytes;
}.

(** The JSON objects of structures 4 and 5. *)
Class FileJson {D : Dynamic} := {
  file4_toJSON : FileMetaEncryptorV4.EncryptedFileMetaV4 -> Var;
  file4_fromJSON : Var -> outcome FileMetaEncryptorV4.EncryptedFileMetaV4;
  file5_toJSON : FileMetaEncryptorV5.EncryptedFileMetaV5 -> Var;
  file5_fromJSON : Var -> outcome FileMetaEncryptorV5.EncryptedFileMetaV5;
}.
Class FileJsonLaws `{KeyEntryJson} `{!FileJson} : Prop := {
  file5_is_object e : is_object (file5_toJSON e) = true;
  file5_versioned e : versioned (file5_toJSON e) = Ret (FileMetaEncryptorV5.version e);
  file5_inv e : file5_fromJSON (file5_toJSON e) = Ret e;
}.

Module FileMetaEncryptor.
Section Encryptor.
Context {C : CryptoService} {E : Ecc} {E0 : Encodings} {D : Dynamic}.
Context `{!KeyFormats PublicKey} `{!FileJson}.
Context `{!JsonCodec DIOEncryptorV1.DioJson} `{!JsonCodec InternalStoreFileMeta}.
Context {W : Type} (getMyUserId : bytes -> ST W bytes) (getNowTimestamp : ST W Z) (on_rng : forall A, ST rng A -> ST W A).
Context (_userPrivKey : PrivateKey) (_bridgeIdentity : option BridgeIdentity).

Definition createDIO (fileInfo : FileInfo) : ST W DataIntegrityObject :=
  ConnectionImpl.createDIO getMyUserId getNowTimestamp on_rng _userPrivKey _bridgeIdentity
    (fi_contextId fileInfo) (fi_resourceId fileInfo) (Some (fi_storeId fileInfo)) (Some (fi_storeResourceId fileInfo)).

Definition encrypt (fileInfo : FileInfo) (fileMeta : FileMeta) (encKey : EncKey) (keyVersion : Z) : ST W Var :=
  let internalMeta := serialize (fm_internalFileMeta fileMeta) in
  if bool_decide (keyVersion = 1) then
    e ← on_rng _ (FileMetaEncryptorV4.encrypt
      {| FileMetaEncryptorV4.in_publicMeta := fm_publicMeta fileMeta;
         FileMetaEncryptorV4.in_privateMeta := fm_privateMeta fileMeta;
         FileMetaEncryptorV4.in_fileSize := im_size (fm_internalFileMeta fileMeta);
         FileMetaEncryptorV4.in_internalMeta := internalMeta |} _userPrivKey (ek_key encKey));
    mret (file4_toJSON e)
  else if bool_decide (keyVersion = KeyProvider.VERSION_2) then
    dio ← createDIO fileInfo;
    e ← on_rng _ (FileMetaEncryptorV5.encrypt
      {| FileMetaEncryptorV5.in_publicMeta := fm_publicMeta fileMeta;
         FileMetaEncryptorV5.in_privateMeta := fm_privateMeta fileMeta;
         FileMetaEncryptorV5.in_internalMeta := internalMeta;
         FileMetaEncryptorV5.in_dio := dio |} _userPrivKey (ek_key encKey));
    mret (file5_toJSON e)
  else throw UnknownEncryptionKeyVersionException.

(** A key of a structure that is not known encrypts nothing. *)
Lemma encrypt_unknown fileInfo fileMeta encKey keyVersion w : keyVersion <> 1 -> keyVersion <> KeyProvider.VERSION_2 ->
  encrypt fileInfo fileMeta encKey keyVersion w = (Throw UnknownEncryptionKeyVersionException, w).
Proof. intros H1 H2. unfold encrypt. by rewrite !bool_decide_eq_false_2 by done. Qed.
End Encryptor.

(** ** When the metadata can be renewed *)
Section Laws.
Context {C : CryptoService} `{!CryptoLaws C} {E : Ecc} `{!EccLaws E} {E0 : Encodings} `{!EncodingsLaws E0} {D : Dynamic}.
Context `{!KeyFormats PublicKey} `{!KeyFormatsLaws PublicKey} `{!FileJson}.
Context `{!JsonCodec DIOEncryptorV1.DioJson} `{!JsonCodecLaws DIOEncryptorV1.DioJson} `{!JsonCodec InternalStoreFileMeta}.
Context (getMyUserId : bytes -> ST rng bytes) (getNowTimestamp : ST rng Z).
Context (priv : PrivateKey) (bridge : option BridgeIdentity).

(** What an integrity object needs of the connection: the user of the context,
    the clock and the identity of the bridge. *)
Record identified (contextId : bytes) : Prop := {
  id_context : contextId <> [];
  id_user g : exists u g', getMyUserId contextId g = (Ret u, g') /\ u <> [];
  id_clock g : exists t g', getNowTimestamp g = (Ret t, g');
  id_bridge : is_Some bridge;
}.

(** One of the two structures of keys, a key of the cipher's length and texts
    of a size the encryption takes. *)
Record encryptable (fileInfo : FileInfo) (fileMeta : FileMeta) (encKey : EncKey) (keyVersion : Z) : Prop := {
  ec_version : keyVersion = 1 \/ keyVersion = KeyProvider.VERSION_2 /\ identified (fi_contextId fileInfo);
  ec_key : zlen (ek_key encKey) = 32;
  ec_private : small (fm_privateMeta fileMeta);
  ec_size : - 2 ^ 63 <= im_size (fm_internalFileMeta fileMeta) < 2 ^ 63;
  ec_internal : small (serialize (fm_internalFileMeta fileMeta));
}.

Lemma createDIO_ret fileInfo g : identified (fi_contextId fileInfo) ->
  exists d g', createDIO getMyUserId getNowTimestamp (fun _ m => m) priv bridge fileInfo g = (Ret d, g')
    /\ DIOEncryptorV1.well_formed d /\ dio_creatorPubKey d = toBase58DER (getPublicKey priv).
Proof.
  intros [Hc Hu Ht Hb]. unfold createDIO, ConnectionImpl.createDIO, ConnectionImpl.createDIOExt.
  destruct (Hu g) as (u & g1 & Eu & Hne). run_step. destruct (Ht g1) as (t & g2 & Et). run_step.
  unfold KeyProvider.generateDIORandomId. unfold_st. unfold random.
  pose proof (randomBytes_len 8 g2 ltac:(done)) as Hl. destruct (randomBytes 8 g2) as [i g3]. cbn in Hl.
  do 2 eexists. split; [reflexivity|]. split; [|done]. split; [done|]. split; [done|]. split; [|done].
  apply hex_nonempty. intros ->. discriminate.
Qed.

Lemma encrypt_ret fileInfo fileMeta encKey keyVersion g : encryptable fileInfo fileMeta encKey keyVersion ->
  exists v g', encrypt getMyUserId getNowTimestamp (fun _ m => m) priv bridge fileInfo fileMeta encKey keyVersion g = (Ret v, g').
Proof.
  intros [Hv Hk Hp Hs Hi]. unfold encrypt. destruct Hv as [->|[-> Hid]].
  - rewrite bool_decide_eq_true_2 by done.
    match goal with |- context [FileMetaEncryptorV4.encrypt ?d _ _] =>
      destruct (FileMetaEncryptorV4.file_meta4_roundtrip d priv (ek_key encKey) g) as (e & g' & He & _); try done end.
    + pose proof (to_string_len (im_size (fm_internalFileMeta fileMeta)) Hs).
      unfold small, FileMetaEncryptorV4.serializeNumber. cbn. lia.
    + run_step. by do 2 eexists.
  - rewrite bool_decide_eq_false_2, bool_decide_eq_true_2 by done.
    destruct (createDIO_ret fileInfo g Hid) as (d & g1 & Hd & Hw & Hc). run_step.
    match goal with |- context [FileMetaEncryptorV5.encrypt ?d _ _] =>
      destruct (FileMetaEncryptorV5.meta_encrypt_sealed d priv (ek_key encKey) g1) as (e & g' & He & _); [by split|] end.
    run_step. by do 2 eexists.
Qed.
End Laws.
End FileMetaEncryptor.

(** ** A concrete file *)
Section Witness.
#[local] Existing Instances Toy.service Toy.laws ToyEcc.ecc ToyEcc.laws ToyJson.encodings
  ToyJson.encodings_laws ToyCodec.keys ToyCodec.keys_laws dio_codec dio_codec_laws.
#[local] Instance file_dynamic : Dynamic := ToyJson.dynamic [].

Let key : @PrivateKey _ ToyEcc.ecc := x07.
Let file_key : bytes := lit "0123456789abcdef0123456789abcdef".
Let file : FileMetaEncryptorV5.FileMetaToEncryptV5 := {|
  FileMetaEncryptorV5.in_publicMeta := lit "not an object";
  FileMetaEncryptorV5.in_privateMeta := lit "private";
  FileMetaEncryptorV5.in_internalMeta := lit "{}";
  FileMetaEncryptorV5.in_dio := dio toy_dio |}.

Lemma file_meta_roundtrip_witness : exists e r,
  FileMetaEncryptorV5.decrypt e file_key = Ret (FileMetaEncryptorV5.opened file key)
  /\ FileMetaEncryptorV5.extractPublic e = Ret r
  /\ FileMetaEncryptorV5.f5_statusCode r = Some EndpointCoreException.
Proof.
  destruct (FileMetaEncryptorV5.file_meta_roundtrip file key file_key 5) as (e & g' & _ & Hd & Hx).
  - split; done.
  - exists e. eexists. split; [exact Hd|]. split; [apply Hx; discriminate|]. reflexivity.
Defined.
End Witness.
