(* ===== verification/ChunkCrypto.v ===== *)
(** * Chunk encryption (endpoint/store/src/encryptors/fileData/ChunkEncryptor.cpp)

    A stored file is a sequence of encrypted chunks.  [encrypt] and [decrypt]
    are the class's methods; the sizes are the arithmetic the server-side
    layout depends on, in [uint64_t].  [IChunkEncryptor] is the promise the
    readers and writers of the file rely on, discharged by [ChunkEncryptor]. *)

From Stdlib Require Import ZArith Lia.
From stdpp Require Import base list.
From S2P Require Import Prelude Bytes Crypto.

Definition IV_SIZE : Z := 16.
Definition HMAC_SIZE : Z := 32.
Definition CHUNK_PADDING : Z := 16.

(** [IChunkEncryptor::Chunk] *)
Record Chunk := mkChunk { data : bytes; hmac : bytes }.

#[export] Instance Chunk_eq_dec : EqDecision Chunk.
Proof. solve_decision. Defined.

Module ChunkEncryptor.
Record t := mk { _key : bytes; _chunkSize : Z }.

Section WithCrypto.
Context `{CryptoService}.

Definition chunkIndexToBE (index : Z) : bytes := be32 (u32 index).

Definition chunkKey (self : t) (index : Z) : bytes :=
  sha256 (self.(_key) ++ chunkIndexToBE index).

Definition encrypt (self : t) (index : Z) (d : bytes) : ST rng Chunk := fun g =>
  let key := chunkKey self index in
  let '(iv, g') := randomBytes IV_SIZE g in
  let cipher := aes256CbcPkcs7Encrypt d key iv in
  let ivWithCipher := iv ++ cipher in
  let mac := hmacSha256 key ivWithCipher in
  (Ret (mkChunk (mac ++ ivWithCipher) mac), g').

Definition decrypt (self : t) (index : Z) (chunk : Chunk) : outcome bytes :=
  let key := chunkKey self index in
  mac ← substr chunk.(data) 0 HMAC_SIZE;
  if bool_decide (chunk.(hmac) ≠ mac) then Throw FileChunkInvalidChecksumException else
  body ← substr_from chunk.(data) HMAC_SIZE;
  let mac2 := hmacSha256 key body in
  if bool_decide (mac ≠ mac2) then Throw FileChunkInvalidCipherChecksumException else
  iv ← substr chunk.(data) HMAC_SIZE IV_SIZE;
  cipher ← substr_from chunk.(data) (HMAC_SIZE + IV_SIZE);
  aes256CbcPkcs7Decrypt cipher key iv.
End WithCrypto.

Definition getPlainChunkSize (self : t) : Z := self.(_chunkSize).

Definition getEncryptedChunkSize (self : t) : Z :=
  let pad := CHUNK_PADDING - self.(_chunkSize) mod CHUNK_PADDING in
  u64 (self.(_chunkSize) + pad + HMAC_SIZE + IV_SIZE).

Definition getEncryptedFileSize (self : t) (fileSize : Z) : Z :=
  if fileSize =? 0 then 0 else
  let cs := self.(_chunkSize) in
  let parts := u64 (fileSize + cs - 1) / cs in
  let lastChunkSize := if fileSize mod cs =? 0 then cs else fileSize mod cs in
  let fullPad := CHUNK_PADDING - cs mod CHUNK_PADDING in
  let lastPad := CHUNK_PADDING - lastChunkSize mod CHUNK_PADDING in
  u64 ((parts - 1) * (cs + HMAC_SIZE + IV_SIZE + fullPad)
       + lastChunkSize + HMAC_SIZE + IV_SIZE + lastPad).

Definition sync (key : bytes) (chunkSize : Z) : ST t unit :=
  modify (fun _ => mk key chunkSize).
End ChunkEncryptor.

(** ** The reference layout: a file as the list of its chunks *)
Section Layout.
Context {A : Type}.
Implicit Types l : list A.

(** [ceil(n / cs)] *)
Definition chunk_count (cs n : Z) : Z := (n + cs - 1) / cs.

Definition chunk_at (cs : Z) l (i : Z) : list A := slice (i * cs) cs l.

Definition chunks (cs : Z) l : list (list A) := chunk_at cs l <$> seqZ 0 (chunk_count cs (zlen l)).

Lemma chunk_count_bounds cs n : 0 < cs -> 0 <= n ->
  (chunk_count cs n - 1) * cs < n \/ n = 0 /\ chunk_count cs n = 0.
Proof.
  intros. unfold chunk_count. destruct (decide (n = 0)) as [->|].
  - right. split; [done|]. apply Z.div_small. lia.
  - left. pose proof (Z.mul_div_le (n + cs - 1) cs). nia.
Qed.

Lemma chunk_count_le cs n : 0 < cs -> 0 <= n -> n <= chunk_count cs n * cs.
Proof.
  intros. unfold chunk_count. pose proof (Z.mul_succ_div_gt (n + cs - 1) cs). nia.
Qed.

Lemma chunk_count_nonneg cs n : 0 < cs -> 0 <= n -> 0 <= chunk_count cs n.
Proof. intros. unfold chunk_count. apply Z.div_pos; lia. Qed.

Lemma concat_chunk_at cs l a n : 0 < cs -> 0 <= a -> 0 <= n ->
  concat (chunk_at cs l <$> seqZ a n) = slice (a * cs) (n * cs) l.
Proof.
  intros Hcs Ha Hn. revert a Ha. pattern n. apply natlike_ind; [| |done]; clear n Hn.
  - intros. unfold slice. by rewrite Z.mul_0_l, ztake_0.
  - intros n Hn IH a Ha. rewrite seqZ_cons by lia. rewrite Z.pred_succ. csimpl.
    rewrite IH by lia. unfold chunk_at.
    replace (Z.succ a * cs) with (a * cs + cs) by lia.
    rewrite slice_app by lia. f_equal. lia.
Qed.

(** The chunks of a file, in order, are the file. *)
Lemma concat_chunks cs l : 0 < cs -> concat (chunks cs l) = l.
Proof.
  intros. pose proof (zlen_nonneg l). unfold chunks.
  rewrite concat_chunk_at by (try apply chunk_count_nonneg; lia).
  unfold slice. rewrite Z.mul_0_l, zdrop_0. apply ztake_ge. by apply chunk_count_le.
Qed.

Lemma zlen_chunk_at cs l i : 0 <= cs -> 0 <= i ->
  zlen (chunk_at cs l i) = Z.min cs (Z.max 0 (zlen l - i * cs)).
Proof. intros. unfold chunk_at. rewrite zlen_slice; nia. Qed.

Lemma chunk_at_full cs l i : 0 < cs -> 0 <= i -> (i + 1) * cs <= zlen l ->
  zlen (chunk_at cs l i) = cs.
Proof. intros. rewrite zlen_chunk_at by lia. nia. Qed.
End Layout.

(** The size of the encrypted form of a chunk of [n] plain bytes. *)
Definition enc_size (n : Z) : Z := HMAC_SIZE + IV_SIZE + n + (CHUNK_PADDING - n mod CHUNK_PADDING).

Definition sum_sizes (l : list Z) : Z := fold_right Z.add 0 l.

Lemma enc_size_bounds n : 0 <= n -> n + 49 <= enc_size n <= n + 64.
Proof.
  intros. unfold enc_size, HMAC_SIZE, IV_SIZE, CHUNK_PADDING.
  pose proof (Z.mod_pos_bound n 16). lia.
Qed.

Lemma enc_size_mono m n : 0 <= m <= n -> enc_size m <= enc_size n.
Proof.
  intros. unfold enc_size, CHUNK_PADDING.
  pose proof (Z.mod_pos_bound m 16 eq_refl). pose proof (Z.mod_pos_bound n 16 eq_refl).
  pose proof (Z.div_mod m 16). pose proof (Z.div_mod n 16).
  assert (m / 16 <= n / 16) by (apply Z.div_le_mono; lia). lia.
Qed.

Lemma sum_sizes_app k l : sum_sizes (k ++ l) = sum_sizes k + sum_sizes l.
Proof. induction k; simpl; lia. Qed.

(** ** The interface of the chunk cipher *)
Section Interface.
Context `{CryptoService}.

(** What the file components rely on: the sizes, the round trip, and that a
    chunk is accepted only under its own checksum. *)
Class IChunkEncryptor (self : ChunkEncryptor.t) := {
  ice_encrypt_ret i d g :
    exists c g', ChunkEncryptor.encrypt self i d g = (Ret c, g')
      /\ zlen c.(hmac) = HMAC_SIZE
      /\ zlen c.(data) = enc_size (zlen d)
      /\ ChunkEncryptor.decrypt self i c = Ret d;
  ice_decrypt_checksum i c d :
    ChunkEncryptor.decrypt self i c = Ret d -> c.(hmac) = ztake HMAC_SIZE c.(data);
}.
End Interface.

Section Correctness.
Context `{HL : CryptoLaws}.
Implicit Types self : ChunkEncryptor.t.

Lemma encrypt_decrypt self i d g :
  exists c g', ChunkEncryptor.encrypt self i d g = (Ret c, g')
    /\ zlen c.(hmac) = HMAC_SIZE
    /\ zlen c.(data) = enc_size (zlen d)
    /\ ChunkEncryptor.decrypt self i c = Ret d.
Proof.
  unfold ChunkEncryptor.encrypt. set (key := ChunkEncryptor.chunkKey self i).
  pose proof (randomBytes_len IV_SIZE g ltac:(done)) as Hiv.
  destruct (randomBytes IV_SIZE g) as [iv g']. simpl in Hiv.
  set (cipher := aes256CbcPkcs7Encrypt d key iv).
  set (mac := hmacSha256 key (iv ++ cipher)).
  assert (zlen mac = HMAC_SIZE) as Hmac by apply hmacSha256_len.
  eexists _, _. split; [done|]. simpl. split_and!; [done| |].
  - rewrite !zlen_app, Hmac, Hiv. unfold cipher. rewrite aes256Cbc_len.
    unfold enc_size, AES_BLOCK, CHUNK_PADDING. lia.
  - unfold ChunkEncryptor.decrypt. fold key. simpl.
    pose proof (zlen_nonneg cipher).
    assert (zlen (mac ++ iv ++ cipher) = HMAC_SIZE + IV_SIZE + zlen cipher) as Hlen
      by (rewrite !zlen_app; lia).
    unfold HMAC_SIZE, IV_SIZE in *.
    rewrite (substr_ret _ 0) by lia. unfold slice. rewrite zdrop_0.
    rewrite ztake_app_eq by lia. cbn.
    rewrite bool_decide_eq_false_2 by (intros ?; done).
    rewrite (substr_from_ret _ 32) by lia. cbn. rewrite zdrop_app_eq by lia.
    rewrite bool_decide_eq_false_2 by (intros ?; done).
    rewrite substr_ret by lia. cbn. unfold slice. rewrite zdrop_app_eq by lia.
    rewrite ztake_app_eq by lia.
    rewrite substr_from_ret by lia. cbn.
    rewrite app_assoc, zdrop_app_eq by (rewrite zlen_app; lia).
    apply aes256Cbc_inv.
Qed.

Lemma decrypt_checks self i c d :
  ChunkEncryptor.decrypt self i c = Ret d ->
  c.(hmac) = ztake HMAC_SIZE c.(data)
  /\ c.(hmac) = hmacSha256 (ChunkEncryptor.chunkKey self i) (zdrop HMAC_SIZE c.(data))
  /\ HMAC_SIZE + IV_SIZE <= zlen c.(data).
Proof.
  unfold ChunkEncryptor.decrypt. unfold_st. intros Hd.
  destruct (substr (data c) 0 HMAC_SIZE) as [mac|] eqn:E1; [|done].
  case_bool_decide as Hne; [done|].
  destruct (substr_from (data c) HMAC_SIZE) as [body|] eqn:E2; [|done].
  case_bool_decide as Hne2; [done|].
  destruct (substr (data c) HMAC_SIZE IV_SIZE) as [iv|] eqn:E3; [|done].
  destruct (substr_from (data c) (HMAC_SIZE + IV_SIZE)) as [ci|] eqn:E4; [|done].
  unfold substr, substr_from in *. repeat case_bool_decide; try done.
  rewrite zdrop_0 in E1. simplify_eq. split_and!; congruence || lia.
Qed.

#[export] Instance chunk_encryptor_interface self : IChunkEncryptor self.
Proof.
  constructor.
  - intros. apply encrypt_decrypt.
  - intros i c d Hd. by apply decrypt_checks in Hd as (? & _).
Qed.
End Correctness.

(** ** Size arithmetic against the layout *)
Section Sizes.
Context {A : Type}.
Implicit Types l : list A.

Lemma sum_full_chunks cs l m : 0 < cs -> 0 <= m -> m * cs <= zlen l ->
  sum_sizes ((fun i => enc_size (zlen (chunk_at cs l i))) <$> seqZ 0 m) = m * enc_size cs.
Proof.
  intros Hcs Hm. pattern m. apply natlike_ind; [done| |done]; clear m Hm.
  intros m Hm IH Hle. replace (Z.succ m) with (m + 1) by lia.
  rewrite seqZ_app, fmap_app, sum_sizes_app, IH by lia. rewrite Z.add_0_l.
  change 1 with (Z.succ 0) at 1. rewrite seqZ_cons by lia. simpl.
  rewrite chunk_at_full by lia. lia.
Qed.

Lemma last_chunk_size cs n : 0 < cs -> 0 < n ->
  n - (chunk_count cs n - 1) * cs = (if n mod cs =? 0 then cs else n mod cs)
  /\ 1 <= chunk_count cs n.
Proof.
  intros. unfold chunk_count. pose proof (Z.div_mod n cs) as Hdm.
  pose proof (Z.mod_pos_bound n cs) as Hb.
  destruct (Z.eqb_spec (n mod cs) 0) as [E|E].
  - replace (n + cs - 1) with (n / cs * cs + (cs - 1)) by nia.
    rewrite Z.div_add_l, (Z.div_small (cs - 1)) by lia. nia.
  - replace (n + cs - 1) with ((n / cs + 1) * cs + (n mod cs - 1)) by nia.
    rewrite Z.div_add_l, (Z.div_small (n mod cs - 1)) by lia. nia.
Qed.

(** The number of bytes the encrypted form of [l] takes. *)
Definition layout_size (cs : Z) l : Z := sum_sizes (enc_size ∘ zlen <$> chunks cs l).

Lemma layout_size_eq cs l : 0 < cs -> 0 < zlen l ->
  layout_size cs l =
    (chunk_count cs (zlen l) - 1) * enc_size cs
    + enc_size (if zlen l mod cs =? 0 then cs else zlen l mod cs).
Proof.
  intros Hcs Hn. destruct (last_chunk_size cs (zlen l) Hcs Hn) as [Hlast Hpos].
  unfold layout_size, chunks. rewrite <- list_fmap_compose.
  pose proof (chunk_count_bounds cs (zlen l) Hcs ltac:(lia)) as Hlt.
  set (m := chunk_count cs (zlen l)) in *.
  assert ((m - 1) * cs < zlen l) by lia. clear Hlt.
  replace m with (m - 1 + 1) at 1 by lia.
  rewrite seqZ_app, fmap_app, sum_sizes_app by lia. unfold compose.
  rewrite sum_full_chunks by lia. f_equal.
  rewrite Z.add_0_l. change 1 with (Z.succ 0) at 2. rewrite seqZ_cons by lia. simpl.
  rewrite zlen_chunk_at by lia. rewrite Z.add_0_r. f_equal. rewrite <- Hlast.
  assert (zlen l - (m - 1) * cs <= cs); [|lia].
  rewrite Hlast. destruct (Z.eqb_spec (zlen l mod cs) 0); [lia|].
  pose proof (Z.mod_pos_bound (zlen l) cs). lia.
Qed.
End Sizes.

Lemma getEncryptedFileSize_eq {A} self (l : list A) :
  0 < self.(ChunkEncryptor._chunkSize) ->
  zlen l + self.(ChunkEncryptor._chunkSize) <= 2 ^ 64 ->
  layout_size self.(ChunkEncryptor._chunkSize) l < 2 ^ 64 ->
  ChunkEncryptor.getEncryptedFileSize self (zlen l)
  = layout_size self.(ChunkEncryptor._chunkSize) l.
Proof.
  intros Hcs Hsum Hlay. unfold ChunkEncryptor.getEncryptedFileSize.
  set (cs := ChunkEncryptor._chunkSize self) in *. pose proof (zlen_nonneg l) as Hnn.
  destruct (Z.eqb_spec (zlen l) 0) as [E|E].
  - unfold layout_size, chunks. rewrite E. unfold chunk_count.
    rewrite Z.div_small by lia. done.
  - rewrite (wrap_id 64 (zlen l + cs - 1)) by lia. fold (chunk_count cs (zlen l)).
    rewrite layout_size_eq in Hlay |- * by lia.
    destruct (last_chunk_size cs (zlen l)) as [_ Hpos]; [lia..|].
    set (last := if zlen l mod cs =? 0 then cs else zlen l mod cs) in *.
    assert (0 <= last) by (unfold last; pose proof (Z.mod_pos_bound (zlen l) cs); destruct (_ =? 0); lia).
    pose proof (enc_size_bounds cs). pose proof (enc_size_bounds last).
    unfold enc_size in *. rewrite wrap_id; nia.
Qed.

(** C27: [getEncryptedFileSize], computed in 64 bits from the plain size alone,
    is the total size of the encrypted chunks of a file of that size. *)
Theorem getEncryptedFileSize_layout {A} self (l : list A) :
  0 < self.(ChunkEncryptor._chunkSize) ->
  zlen l + self.(ChunkEncryptor._chunkSize) <= 2 ^ 64 ->
  layout_size self.(ChunkEncryptor._chunkSize) l < 2 ^ 64 ->
  ChunkEncryptor.getEncryptedFileSize self (zlen l)
  = layout_size self.(ChunkEncryptor._chunkSize) l.
Proof. apply getEncryptedFileSize_eq. Qed.

Lemma getEncryptedFileSize_layout_witness :
  ChunkEncryptor.getEncryptedFileSize (ChunkEncryptor.mk [] 8) (zlen (zeros 20))
  = layout_size 8 (zeros 20) /\ layout_size 8 (zeros 20) = 192.
Proof.
  split; [|reflexivity].
  apply (getEncryptedFileSize_layout (ChunkEncryptor.mk [] 8) (zeros 20)); reflexivity || discriminate.
Defined.
