(* ===== verification/HmacList.v ===== *)
(** * The list of chunk checksums
    (endpoint/store/src/encryptors/fileData/HmacList.cpp)

    One 32-byte HMAC per chunk, in one buffer; the "top hash" authenticates the
    buffer and is cached in [_topHash] until the list changes. *)

From Stdlib Require Import ZArith Lia.
From stdpp Require Import base list.
From S2P Require Import Prelude Bytes Crypto ChunkCrypto.

Module HmacList.
Record t := mk {
  _topHashKey : bytes;
  _topHash : option bytes;
  _size : Z;
  _hashes : bytes;
}.

(** [memcpy(dst.data() + pos, src.data(), HMAC_SIZE)] inside the buffer. *)
Definition overwrite (dst : bytes) (pos : Z) (src : bytes) : bytes :=
  ztake pos dst ++ src ++ zdrop (pos + zlen src) dst.

Section WithCrypto.
Context `{CryptoService}.

Definition construct (topHashKey topHash hashes : bytes) : outcome t :=
  let top := hmacSha256 topHashKey hashes in
  if bool_decide (top ≠ topHash) then Throw InvalidFileTopHashException else
  if negb (zlen hashes mod HMAC_SIZE =? 0) then Throw InvalidHashSizeException else
  Ret (mk topHashKey (Some top) (zlen hashes / HMAC_SIZE) hashes).

Definition sync (topHashKey topHash hashes : bytes) : ST t unit :=
  let tmp := hmacSha256 topHashKey hashes in
  if bool_decide (tmp ≠ topHash) then throw InvalidFileTopHashException else
  if negb (zlen hashes mod HMAC_SIZE =? 0) then throw InvalidHashSizeException else
  modify (fun _ => mk topHashKey (Some tmp) (zlen hashes / HMAC_SIZE) hashes).

Definition setAll (hashes : bytes) : ST t unit :=
  if negb (zlen hashes mod HMAC_SIZE =? 0) then throw InvalidHashSizeException else
  modify (fun self => mk self.(_topHashKey) None (zlen hashes / HMAC_SIZE) hashes).

Definition set (chunkIndex : Z) (hash : bytes) (truncate : bool) : ST t unit := fun self =>
  if negb (zlen hash =? HMAC_SIZE) then (Throw InvalidHashSizeException, self) else
  if chunkIndex <? self.(_size) then
    let offset := u64 (chunkIndex * HMAC_SIZE) in
    let hashes := overwrite self.(_hashes) offset hash in
    if truncate
    then (Ret tt, mk self.(_topHashKey) None (u64 (chunkIndex + 1)) (ztake (offset + HMAC_SIZE) hashes))
    else (Ret tt, mk self.(_topHashKey) None self.(_size) hashes)
  else if chunkIndex =? self.(_size) then
    (Ret tt, mk self.(_topHashKey) None (u64 (self.(_size) + 1)) (self.(_hashes) ++ hash))
  else (Throw HashIndexOutOfBoundsException, self).

Definition getHash (chunkIndex : Z) : ST t bytes := fun self =>
  if self.(_size) <? chunkIndex then (Throw HashIndexOutOfBoundsException, self) else
  (substr self.(_hashes) (u64 (chunkIndex * HMAC_SIZE)) HMAC_SIZE, self).

Definition getAll : ST t bytes := gets _hashes.

Definition getTopHash : ST t bytes := fun self =>
  match self.(_topHash) with
  | Some h => (Ret h, self)
  | None =>
      let h := hmacSha256 self.(_topHashKey) self.(_hashes) in
      (Ret h, mk self.(_topHashKey) (Some h) self.(_size) self.(_hashes))
  end.

Definition verifyHash (chunkIndex : Z) (hash : bytes) : ST t bool :=
  h ← getHash chunkIndex; mret (bool_decide (h = hash)).

Definition verifyTopHash (topHash : bytes) : ST t bool :=
  h ← getTopHash; mret (bool_decide (h = topHash)).
End WithCrypto.

Definition getHashSize : Z := HMAC_SIZE.
End HmacList.

(** ** The invariant and the abstract view *)
Section Invariant.
Context `{CryptoService}.
Implicit Types self : HmacList.t.

(** The buffer is a whole number of checksums that fits the index
    arithmetic, and a cached top hash is the right one. *)
Record hmac_list_ok self : Prop := {
  hlo_len : zlen self.(HmacList._hashes) = HMAC_SIZE * self.(HmacList._size);
  hlo_bound : zlen self.(HmacList._hashes) + HMAC_SIZE < 2 ^ 64;
  hlo_top : forall h, self.(HmacList._topHash) = Some h ->
    h = hmacSha256 self.(HmacList._topHashKey) self.(HmacList._hashes);
}.

(** Checksum number [i]. *)
Definition hash_at self (i : Z) : bytes := slice (i * HMAC_SIZE) HMAC_SIZE self.(HmacList._hashes).

Lemma hmac_list_size_nonneg self : hmac_list_ok self -> 0 <= self.(HmacList._size).
Proof.
  intros [Hl _ _]. pose proof (zlen_nonneg (HmacList._hashes self)). unfold HMAC_SIZE in *. lia.
Qed.

Lemma mult_of_mod n : n mod HMAC_SIZE = 0 -> n = HMAC_SIZE * (n / HMAC_SIZE).
Proof. intros. unfold HMAC_SIZE in *. pose proof (Z.div_mod n 32). lia. Qed.

Lemma zlen_overwrite dst pos src :
  0 <= pos -> pos + zlen src <= zlen dst -> zlen (HmacList.overwrite dst pos src) = zlen dst.
Proof.
  intros. unfold HmacList.overwrite. pose proof (zlen_nonneg src).
  rewrite !zlen_app, zlen_ztake, zlen_zdrop by lia. lia.
Qed.

Lemma slice_overwrite_eq dst pos src :
  0 <= pos -> pos + zlen src <= zlen dst -> slice pos (zlen src) (HmacList.overwrite dst pos src) = src.
Proof.
  intros. unfold HmacList.overwrite, slice. pose proof (zlen_nonneg src).
  rewrite zdrop_app_eq by (rewrite zlen_ztake; lia). by rewrite ztake_app.
Qed.

Lemma slice_overwrite_ne dst pos src p n :
  0 <= pos -> pos + zlen src <= zlen dst -> 0 <= p -> 0 <= n ->
  p + n <= pos \/ pos + zlen src <= p ->
  slice p n (HmacList.overwrite dst pos src) = slice p n dst.
Proof.
  intros Hp Hd Hp' Hn Hdis. unfold HmacList.overwrite, slice. pose proof (zlen_nonneg src).
  assert (zlen (ztake pos dst) = pos) as Ht by (rewrite zlen_ztake; lia).
  destruct Hdis as [Hle|Hge].
  - rewrite !ztake_zdrop_comm by lia. f_equal.
    rewrite ztake_app_le by lia. rewrite ztake_ztake by lia. f_equal. lia.
  - rewrite app_assoc. rewrite zdrop_app_ge by (rewrite zlen_app; lia).
    rewrite zlen_app, Ht. rewrite zdrop_zdrop by lia. do 2 f_equal. lia.
Qed.
End Invariant.

(** ** Abstract view: the list of checksums *)
Section Refinement.
Context `{CryptoService}.
Implicit Types self : HmacList.t.

Definition entries self : list bytes := hash_at self <$> seqZ 0 self.(HmacList._size).

(** What [set] promises on that list; [None] is the out-of-bounds error. *)
Definition spec_set (i : Z) (h : bytes) (truncate : bool) (l : list bytes) : option (list bytes) :=
  if i <? zlen l then
    let l' := <[Z.to_nat i := h]> l in
    Some (if truncate then take (Z.to_nat (i + 1)) l' else l')
  else if i =? zlen l then Some (l ++ [h])
  else None.

Lemma zlen_entries self : hmac_list_ok self -> zlen (entries self) = self.(HmacList._size).
Proof.
  intros Hok. pose proof (hmac_list_size_nonneg _ Hok). unfold entries, zlen.
  rewrite length_fmap, length_seqZ. lia.
Qed.

Lemma entries_lookup self (k : nat) : Z.of_nat k < self.(HmacList._size) ->
  entries self !! k = Some (hash_at self (Z.of_nat k)).
Proof.
  intros. unfold entries. rewrite list_lookup_fmap, (proj2 (lookup_seqZ 0 _ k (Z.of_nat k))) by lia. done.
Qed.

Lemma entries_lookup_ge self (k : nat) :
  hmac_list_ok self -> self.(HmacList._size) <= Z.of_nat k -> entries self !! k = None.
Proof.
  intros Hok Hk. apply lookup_ge_None. pose proof (zlen_entries _ Hok). unfold zlen in *. lia.
Qed.

(** Two lists of checksums are equal when they have the same entries. *)
Lemma entries_eq self (l : list bytes) :
  hmac_list_ok self -> zlen l = self.(HmacList._size) ->
  (forall k : nat, Z.of_nat k < self.(HmacList._size) -> l !! k = Some (hash_at self (Z.of_nat k))) ->
  entries self = l.
Proof.
  intros Hok Hlen Hk. apply list_eq. intros k.
  destruct (Z.lt_ge_cases (Z.of_nat k) (HmacList._size self)) as [Hlt|Hge].
  - by rewrite entries_lookup, Hk.
  - rewrite entries_lookup_ge by done. symmetry. apply lookup_ge_None. unfold zlen in Hlen. lia.
Qed.

Definition mk_ok key size hashes := hmac_list_ok (HmacList.mk key None size hashes).

Lemma mk_ok_intro key size hashes :
  zlen hashes = HMAC_SIZE * size -> zlen hashes + HMAC_SIZE < 2 ^ 64 -> mk_ok key size hashes.
Proof. intros. by constructor. Qed.

(** The three successful branches of [set]. *)
Lemma set_replace self i (h : bytes) :
  hmac_list_ok self -> zlen h = HMAC_SIZE -> 0 <= i < self.(HmacList._size) ->
  exists self', HmacList.set i h false self = (Ret tt, self') /\ hmac_list_ok self'
    /\ entries self' = <[Z.to_nat i := h]> (entries self).
Proof.
  intros Hok Hh Hi. pose proof Hok as [Hl Hb _]. unfold HmacList.set.
  rewrite Hh, Z.eqb_refl. simpl. rewrite (proj2 (Z.ltb_lt _ _)) by lia.
  unfold HMAC_SIZE in *. rewrite wrap_id by lia.
  eexists. split; [done|].
  assert (Hov : zlen (HmacList.overwrite (HmacList._hashes self) (i * 32) h) = zlen (HmacList._hashes self))
    by (apply zlen_overwrite; lia).
  assert (Hok' : mk_ok (HmacList._topHashKey self) (HmacList._size self)
    (HmacList.overwrite (HmacList._hashes self) (i * 32) h))
    by (apply mk_ok_intro; unfold HMAC_SIZE; lia).
  split; [exact Hok'|]. apply entries_eq; [exact Hok'| |].
  - cbn. rewrite <- (zlen_entries self Hok). unfold zlen. by rewrite length_insert.
  - cbn. intros k Hk. unfold hash_at. cbn. unfold HMAC_SIZE.
    destruct (decide (Z.to_nat i = k)) as [<-|Hne].
    + rewrite list_lookup_insert_eq by (pose proof (zlen_entries self Hok); unfold zlen in *; lia).
      rewrite Z2Nat.id by lia. rewrite <- Hh at 2. by rewrite slice_overwrite_eq by lia.
    + rewrite list_lookup_insert_ne by done. rewrite entries_lookup by done.
      rewrite slice_overwrite_ne by lia. done.
Qed.

Lemma set_truncate self i (h : bytes) :
  hmac_list_ok self -> zlen h = HMAC_SIZE -> 0 <= i < self.(HmacList._size) ->
  exists self', HmacList.set i h true self = (Ret tt, self') /\ hmac_list_ok self'
    /\ entries self' = take (Z.to_nat (i + 1)) (<[Z.to_nat i := h]> (entries self)).
Proof.
  intros Hok Hh Hi. pose proof Hok as [Hl Hb _].
  destruct (set_replace self i h Hok Hh Hi) as (s1 & E1 & Hok1 & Hent).
  unfold HmacList.set in *. rewrite Hh, Z.eqb_refl in *. simpl in *.
  rewrite (proj2 (Z.ltb_lt _ _)) in * by lia. injection E1 as <-.
  unfold HMAC_SIZE in *. rewrite !wrap_id in * by lia.
  set (hs := HmacList.overwrite (HmacList._hashes self) (i * 32) h) in *.
  eexists. split; [done|]. pose proof Hok1 as [Hl1 Hb1 _]. cbn in Hl1, Hb1. unfold HMAC_SIZE in *.
  assert (Hok' : mk_ok (HmacList._topHashKey self) (i + 1) (ztake (i * 32 + 32) hs)).
  { apply mk_ok_intro; rewrite zlen_ztake by lia; unfold HMAC_SIZE; lia. }
  split; [exact Hok'|]. apply entries_eq; [exact Hok'| |].
  - cbn. rewrite <- Hent. unfold zlen. rewrite length_take.
    pose proof (zlen_entries _ Hok1) as Hz. cbn in Hz. unfold zlen in Hz. lia.
  - cbn. intros k Hk. rewrite lookup_take_lt by lia. rewrite <- Hent.
    rewrite entries_lookup by (cbn; lia). f_equal. unfold hash_at, slice. cbn.
    unfold HMAC_SIZE. rewrite !ztake_zdrop_comm by lia. f_equal.
    rewrite ztake_ztake by lia. f_equal. lia.
Qed.

Lemma set_append self (h : bytes) truncate :
  hmac_list_ok self -> zlen h = HMAC_SIZE ->
  zlen self.(HmacList._hashes) + 2 * HMAC_SIZE < 2 ^ 64 ->
  exists self', HmacList.set self.(HmacList._size) h truncate self = (Ret tt, self') /\ hmac_list_ok self'
    /\ entries self' = entries self ++ [h].
Proof.
  intros Hok Hh Hb2. pose proof Hok as [Hl Hb _]. pose proof (hmac_list_size_nonneg _ Hok).
  unfold HmacList.set. rewrite Hh, Z.eqb_refl. simpl.
  rewrite (proj2 (Z.ltb_ge _ _)), Z.eqb_refl by lia. unfold HMAC_SIZE in *.
  rewrite wrap_id by lia. eexists. split; [done|].
  assert (Hok' : mk_ok (HmacList._topHashKey self) (HmacList._size self + 1) (HmacList._hashes self ++ h)).
  { apply mk_ok_intro; rewrite zlen_app; unfold HMAC_SIZE; lia. }
  split; [exact Hok'|]. apply entries_eq; [exact Hok'| |].
  - cbn. rewrite zlen_app, zlen_entries by done. done.
  - cbn. intros k Hk. unfold hash_at, slice. cbn. unfold HMAC_SIZE.
    pose proof (zlen_entries _ Hok) as Hz. unfold zlen in Hz.
    destruct (Z.lt_ge_cases (Z.of_nat k) (HmacList._size self)).
    + rewrite lookup_app_l by lia. rewrite entries_lookup by done. f_equal.
      unfold hash_at, slice, HMAC_SIZE. rewrite !ztake_zdrop_comm by lia.
      by rewrite ztake_app_le by lia.
    + assert (k = length (entries self)) as -> by lia.
      rewrite lookup_app_r, Nat.sub_diag by lia. simpl. f_equal.
      rewrite zdrop_app_eq by lia. by rewrite ztake_ge by lia.
Qed.

Lemma set_key self i h truncate :
  (HmacList.set i h truncate self).2.(HmacList._topHashKey) = self.(HmacList._topHashKey).
Proof. unfold HmacList.set. by repeat case_match. Qed.

(** The buffer is its entries, in order. *)
Lemma hashes_concat self : hmac_list_ok self -> self.(HmacList._hashes) = concat (entries self).
Proof.
  intros Hok. pose proof (hmac_list_size_nonneg _ Hok). destruct Hok as [Hl _ _].
  change (entries self) with (chunk_at HMAC_SIZE (HmacList._hashes self) <$> seqZ 0 (HmacList._size self)).
  rewrite concat_chunk_at by done. unfold slice. rewrite Z.mul_0_l, zdrop_0. symmetry. apply ztake_ge. lia.
Qed.

(** [set] at a split of the list. *)
Lemma set_entries self pre suf (h : bytes) truncate :
  hmac_list_ok self -> entries self = pre ++ suf -> zlen h = HMAC_SIZE ->
  zlen self.(HmacList._hashes) + 2 * HMAC_SIZE < 2 ^ 64 ->
  exists self', HmacList.set (zlen pre) h truncate self = (Ret tt, self') /\ hmac_list_ok self'
    /\ entries self' = pre ++ h :: (if truncate then [] else tail suf)
    /\ self'.(HmacList._topHashKey) = self.(HmacList._topHashKey).
Proof.
  intros Hok He Hh Hb. pose proof (zlen_entries _ Hok) as Hz. rewrite He, zlen_app in Hz.
  assert (Hrun : exists self', HmacList.set (zlen pre) h truncate self = (Ret tt, self')
    /\ hmac_list_ok self' /\ entries self' = pre ++ h :: (if truncate then [] else tail suf)).
  { pose proof (zlen_nonneg pre). destruct suf as [|x suf].
    - rewrite zlen_nil, Z.add_0_r in Hz. rewrite Hz.
      destruct (set_append self h truncate Hok Hh Hb) as (s' & -> & Hok' & Hs').
      exists s'. split; [done|]. split; [done|]. rewrite Hs', He, app_nil_r. by destruct truncate.
    - rewrite zlen_cons in Hz. pose proof (zlen_nonneg suf).
      assert (Hins : <[Z.to_nat (zlen pre) := h]> (pre ++ x :: suf) = pre ++ h :: suf).
      { unfold zlen. rewrite Nat2Z.id. by rewrite <- (Nat.add_0_r (length pre)), insert_app_r. }
      destruct truncate.
      + destruct (set_truncate self (zlen pre) h Hok Hh ltac:(lia)) as (s' & -> & Hok' & Hs').
        exists s'. split; [done|]. split; [done|]. rewrite Hs', He, Hins.
        replace (Z.to_nat (zlen pre + 1)) with (length (pre ++ [h])) by (rewrite length_app; unfold zlen; simpl; lia).
        rewrite (cons_middle h pre suf), app_assoc. apply take_app_length.
      + destruct (set_replace self (zlen pre) h Hok Hh ltac:(lia)) as (s' & -> & Hok' & Hs').
        exists s'. by rewrite Hs', He, Hins. }
  destruct Hrun as (s' & E & Hok' & He'). exists s'. split_and!; try done.
  by rewrite <- (set_key self (zlen pre) h truncate), E.
Qed.

(** [set] implements the checked list update: on a well-formed list it
    replaces, truncates or appends exactly as [spec_set] says, keeps the list
    well formed, and rejects an index past the end without touching it. *)
Theorem hmac_set_refines self i (h : bytes) truncate :
  hmac_list_ok self -> zlen h = HMAC_SIZE -> 0 <= i ->
  zlen self.(HmacList._hashes) + 2 * HMAC_SIZE < 2 ^ 64 ->
  match spec_set i h truncate (entries self) with
  | Some l => exists self', HmacList.set i h truncate self = (Ret tt, self')
      /\ hmac_list_ok self' /\ entries self' = l
  | None => HmacList.set i h truncate self = (Throw HashIndexOutOfBoundsException, self)
  end.
Proof.
  intros Hok Hh Hi Hb. unfold spec_set. rewrite zlen_entries by done.
  destruct (Z.ltb_spec i (HmacList._size self)).
  - destruct truncate; [apply set_truncate|apply set_replace]; done.
  - destruct (Z.eqb_spec i (HmacList._size self)) as [->|]; [by apply set_append|].
    unfold HmacList.set. rewrite Hh, Z.eqb_refl. simpl.
    rewrite (proj2 (Z.ltb_ge _ _)), (proj2 (Z.eqb_neq _ _)) by lia. done.
Qed.

(** [getHash] reads the list; the position just past the end reads as the
    empty string, anything further is rejected. *)
Lemma getHash_spec self i : hmac_list_ok self -> 0 <= i ->
  HmacList.getHash i self =
    (if i <? self.(HmacList._size) then Ret (hash_at self i)
     else if i =? self.(HmacList._size) then Ret []
     else Throw HashIndexOutOfBoundsException, self).
Proof.
  intros Hok Hi. pose proof Hok as [Hl Hb _]. unfold HmacList.getHash, HMAC_SIZE in *.
  destruct (Z.ltb_spec i (HmacList._size self)).
  - rewrite (proj2 (Z.ltb_ge _ _)) by lia. rewrite wrap_id by lia. by rewrite substr_ret by lia.
  - destruct (Z.eqb_spec i (HmacList._size self)) as [->|].
    + rewrite Z.ltb_irrefl, wrap_id by lia. rewrite substr_ret by lia. unfold slice.
      rewrite zdrop_ge by lia. unfold ztake. by rewrite take_nil.
    + by rewrite (proj2 (Z.ltb_lt _ _)) by lia.
Qed.

Lemma getTopHash_spec self : hmac_list_ok self ->
  exists self', HmacList.getTopHash self
      = (Ret (hmacSha256 self.(HmacList._topHashKey) self.(HmacList._hashes)), self')
    /\ hmac_list_ok self' /\ self'.(HmacList._hashes) = self.(HmacList._hashes)
    /\ self'.(HmacList._size) = self.(HmacList._size)
    /\ self'.(HmacList._topHashKey) = self.(HmacList._topHashKey).
Proof.
  intros Hok. pose proof Hok as [Hl Hb Ht]. unfold HmacList.getTopHash.
  destruct (HmacList._topHash self) as [h|] eqn:E.
  - rewrite (Ht h eq_refl). eauto 6.
  - eexists. split; [done|]. split_and!; try done. constructor; cbn; try done. by intros ? [= <-].
Qed.

(** a list is only ever installed when the top hash authenticates it:
    constructing or syncing with a buffer succeeds exactly when the top hash is
    its HMAC and the buffer is a whole number of checksums, and the result is
    well formed; a refused [sync] leaves the list as it was. *)
Theorem hmac_list_install self key top hashes :
  zlen hashes + HMAC_SIZE < 2 ^ 64 ->
  let accepted := top = hmacSha256 key hashes /\ zlen hashes mod HMAC_SIZE = 0 in
  (accepted -> exists self', HmacList.construct key top hashes = Ret self'
      /\ HmacList.sync key top hashes self = (Ret tt, self')
      /\ hmac_list_ok self' /\ self'.(HmacList._hashes) = hashes)
  /\ (~ accepted -> exists e, HmacList.construct key top hashes = Throw e
      /\ HmacList.sync key top hashes self = (Throw e, self)
      /\ (e = InvalidFileTopHashException \/ e = InvalidHashSizeException)).
Proof.
  intros Hb accepted. unfold HmacList.construct, HmacList.sync, throw, modify.
  case_bool_decide as Hne; [split; [intros [? _]; congruence|eauto 6]|].
  destruct (Z.eqb_spec (zlen hashes mod HMAC_SIZE) 0) as [Em|Em]; simpl.
  - split; [|intros []; split; [congruence|done]]. intros _. eexists. split_and!; try done.
    constructor; cbn; [by apply mult_of_mod|done|by intros ? [= <-]].
  - split; [intros [_ ?]; congruence|eauto 6].
Qed.
End Refinement.

(** ** Witnesses *)
Import Toy.

Definition toy_list : HmacList.t :=
  HmacList.mk [] None 2 (zeros 64).

Lemma toy_list_ok : hmac_list_ok toy_list.
Proof. constructor; [reflexivity|reflexivity|discriminate]. Qed.

Lemma hmac_set_refines_witness :
  exists self', HmacList.set 1 (be_encode 32 5) true toy_list = (Ret tt, self')
    /\ hmac_list_ok self' /\ entries self' = [zeros 32; be_encode 32 5].
Proof.
  exact (hmac_set_refines toy_list 1 (be_encode 32 5) true toy_list_ok
    (zlen_be_encode 32 5) ltac:(done) ltac:(reflexivity)).
Defined.

Lemma hmac_list_install_witness :
  exists self', HmacList.construct [] (Toy.hash (zeros 32)) (zeros 32) = Ret self'
    /\ HmacList.sync [] (Toy.hash (zeros 32)) (zeros 32) toy_list = (Ret tt, self')
    /\ hmac_list_ok self' /\ self'.(HmacList._hashes) = zeros 32.
Proof.
  apply (hmac_list_install toy_list [] (Toy.hash (zeros 32)) (zeros 32)); [reflexivity|].
  split; vm_compute; reflexivity.
Defined.
