(* ===== verification/StoreServer.v ===== *)
(** * The bridge server, as the file components see it

    The wire models of endpoint/store/include/privmx/endpoint/store/ServerTypes.hpp
    that random access to a file uses, and the two requests
    ([ServerApi::storeFileRead], [storeFileWrite]).  The server itself (PrivMX
    Bridge) is not in the repository: [StoreServer] makes it a parameter, and
    [StoreServerLaws] says what the client relies on: a slice read returns the
    bytes of the range at the requested version, a write at the current version
    applies its operations in order and advances the version by one, and a
    request at any other version is refused. *)

From Stdlib Require Import ZArith Lia Strings.String.
From stdpp Require Import base list.
From S2P Require Import Prelude Bytes HmacList.

(** [BufferReadRange], [BufferReadRangeSlice] *)
Inductive BufferReadRange :=
| RangeSlice (from to : Z)
| RangeChecksum.

(** [StoreFileReadModel]; [rm_version] is absent for the checksum request. *)
Record StoreFileReadModel := mkReadModel {
  rm_fileId : bytes;
  rm_range : BufferReadRange;
  rm_version : option Z;
  rm_thumb : bool;
}.

(** The two values of [StoreFileRandomWriteOperation::type]. *)
Inductive OpType := OpFile | OpChecksum.

Record StoreFileRandomWriteOperation := mkOp {
  op_type : OpType;
  op_pos : Z;
  op_data : bytes;
  op_truncate : bool;
}.

(** Server error code of a read at a stale version (core/src/ExceptionConverter.cpp). *)
Definition STORE_FILE_VERSION_MISMATCH : Z := 0x6128.

Class StoreServer := {
  srv : Type;
  Var : Type;  (* an encrypted metadata value, [Poco::Dynamic::Var] *)
  storeFileRead : StoreFileReadModel -> ST srv bytes;
  (* fileId, operations, meta, keyId, version, force *)
  storeFileWrite :
    bytes -> list StoreFileRandomWriteOperation -> Var -> bytes -> Z -> bool -> ST srv unit;
}.

(** The meaning of an operation on the buffer it names: overwrite from [op_pos],
    and drop what lies past the written bytes when [op_truncate] is set. *)
Definition apply_op (o : StoreFileRandomWriteOperation) (buf : bytes) : bytes :=
  ztake o.(op_pos) buf ++ o.(op_data)
  ++ (if o.(op_truncate) then [] else zdrop (o.(op_pos) + zlen o.(op_data)) buf).

Definition apply_op_to (o : StoreFileRandomWriteOperation) (fs : bytes * bytes) : bytes * bytes :=
  match o.(op_type) with
  | OpFile => (apply_op o fs.1, fs.2)
  | OpChecksum => (fs.1, apply_op o fs.2)
  end.

Definition apply_ops (ops : list StoreFileRandomWriteOperation) (fs : bytes * bytes) : bytes * bytes :=
  fold_left (fun fs o => apply_op_to o fs) ops fs.

Class StoreServerLaws (X : StoreServer) := {
  (** The file and checksum buffers of a file, and its version. *)
  file_of : srv -> bytes -> bytes * bytes;
  version_of : srv -> bytes -> Z;
  read_slice_law s fid from to th :
    0 <= from <= to ->
    storeFileRead (mkReadModel fid (RangeSlice from to) (Some (version_of s fid)) th) s
      = (Ret (slice from (to - from) (file_of s fid).1), s);
  read_stale_law s fid from to v th :
    v <> version_of s fid ->
    storeFileRead (mkReadModel fid (RangeSlice from to) (Some v) th) s
      = (Throw (ServerError STORE_FILE_VERSION_MISMATCH), s);
  read_checksum_law s fid th :
    storeFileRead (mkReadModel fid RangeChecksum None th) s = (Ret (file_of s fid).2, s);
  write_law s fid ops m k :
    exists s', storeFileWrite fid ops m k (version_of s fid) false s = (Ret tt, s')
      /\ file_of s' fid = apply_ops ops (file_of s fid)
      /\ version_of s' fid = version_of s fid + 1;
  write_stale_law s fid ops m k v :
    v <> version_of s fid ->
    storeFileWrite fid ops m k v false s = (Throw (ServerError STORE_FILE_VERSION_MISMATCH), s);
}.

(** ** A one-file server that satisfies the laws *)
Module ToyServer.
Record state := mkState { buf : bytes; sums : bytes; ver : Z }.

#[export] Instance server : StoreServer := {|
  srv := state;
  Var := bytes;
  storeFileRead m s :=
    match m.(rm_range), m.(rm_version) with
    | RangeChecksum, _ => (Ret s.(sums), s)
    | RangeSlice from to, Some v =>
        if v =? s.(ver) then (Ret (slice from (to - from) s.(buf)), s)
        else (Throw (ServerError STORE_FILE_VERSION_MISMATCH), s)
    | RangeSlice from to, None => (Ret (slice from (to - from) s.(buf)), s)
    end;
  storeFileWrite _ ops _ _ v force s :=
    if force || (v =? s.(ver))
    then let fs := apply_ops ops (s.(buf), s.(sums)) in (Ret tt, mkState fs.1 fs.2 (s.(ver) + 1))
    else (Throw (ServerError STORE_FILE_VERSION_MISMATCH), s);
|}.

#[export] Program Instance laws : StoreServerLaws server := {|
  file_of s _ := (s.(buf), s.(sums));
  version_of s _ := s.(ver);
|}.
Next Obligation. intros. simpl. by rewrite Z.eqb_refl. Qed.
Next Obligation. intros. simpl. by rewrite (proj2 (Z.eqb_neq _ _)). Qed.
Next Obligation. done. Qed.
Next Obligation.
  intros. simpl. rewrite Z.eqb_refl. simpl. eexists. split; [done|]. split; [|done].
  simpl. by destruct (apply_ops _ _).
Qed.
Next Obligation. intros. simpl. by rewrite (proj2 (Z.eqb_neq _ _)). Qed.
End ToyServer.
