(* ===== verification/ChunkProvider.v ===== *)
(** * Fetching encrypted chunks (endpoint/store/src/ChunkDataProvider.cpp)

    The provider reads the encrypted file from the server in "server chunks",
    each a whole number of encrypted chunks, and keeps the last one.  The state
    pairs the object with the server it talks to. *)

From Stdlib Require Import ZArith Lia.
From stdpp Require Import base list.
From S2P Require Import Prelude Bytes StoreServer.

Module ChunkDataProvider.
Record t := mk {
  _encryptedChunkSize : Z;
  _serverChunkSize : Z;
  _fileId : bytes;
  _serverFileSize : Z;
  _fileVersion : Z;
  _lastServerChunk : bytes;
  _lastServerChunkNumber : option Z;
}.

Definition set_cache (chunk : bytes) (number : option Z) (self : t) : t :=
  mk self.(_encryptedChunkSize) self.(_serverChunkSize) self.(_fileId)
     self.(_serverFileSize) self.(_fileVersion) chunk number.

Definition set_version (version : Z) (self : t) : t :=
  mk self.(_encryptedChunkSize) self.(_serverChunkSize) self.(_fileId)
     self.(_serverFileSize) version self.(_lastServerChunk) self.(_lastServerChunkNumber).

(** [size_t] operands converted to [int64_t]; C++ division truncates. *)
Definition getServerReadDataSize (encryptedChunkSize severChunkSize : Z) : Z :=
  Z.quot (severChunkSize + encryptedChunkSize - 1) encryptedChunkSize * encryptedChunkSize.

(** The constructor; the member initialiser of [_lastServerChunkNumber] is
    the [uint32_t] value of [-1]. *)
Definition construct (chunkSize severChunkSize : Z) (fileId : bytes)
    (serverFileSize fileVersion : Z) : t :=
  mk chunkSize (u64 (getServerReadDataSize (i64 chunkSize) (i64 severChunkSize))) fileId
     serverFileSize fileVersion [] (Some (u32 (-1))).

Section WithServer.
Context `{StoreServer}.

Definition requestServerChunk (serverChunkNumber : Z) : ST (t * srv) bytes := fun '(self, s) =>
  let from := u64 (self.(_serverChunkSize) * serverChunkNumber) in
  let to := u64 (self.(_serverChunkSize) * u32 (serverChunkNumber + 1)) in
  match storeFileRead (mkReadModel self.(_fileId) (RangeSlice (i64 from) (i64 to))
          (Some self.(_fileVersion)) false) s with
  | (Throw (ServerError code), s') =>
      if code =? STORE_FILE_VERSION_MISMATCH
      then (Throw FileVersionMismatchException, (self, s'))
      else (Throw (ServerError code), (self, s'))
  | (r, s') => (r, (self, s'))
  end.

(** [getChunk(uint32_t chunkNumber, int64_t fileVersion)] *)
Definition getChunkAt (chunkNumber fileVersion : Z) : ST (t * srv) bytes := fun '(self, s) =>
  let chunkNumber := u32 chunkNumber in
  let self :=
    if fileVersion =? self.(_fileVersion) then self
    else set_version fileVersion (set_cache self.(_lastServerChunk) None self) in
  let from := u64 (self.(_encryptedChunkSize) * chunkNumber) in
  let serverChunkNumber := from / self.(_serverChunkSize) in
  let serverChunkPos := from mod self.(_serverChunkSize) in
  let fetch : ST (t * srv) unit :=
    if bool_decide (self.(_lastServerChunkNumber) = Some serverChunkNumber) then mret tt else
    chunk ← requestServerChunk (u32 serverChunkNumber);
    modify (fun '(self, s) => (set_cache chunk (Some (u32 serverChunkNumber)) self, s)) in
  (_ ← fetch;
   last ← gets (fun st => st.1.(_lastServerChunk));
   if zlen last <? serverChunkPos then mret [] else
   lift (substr last serverChunkPos self.(_encryptedChunkSize))) (self, s).

(** [getChunk(uint32_t chunkNumber)] *)
Definition getChunk (chunkNumber : Z) : ST (t * srv) bytes := fun '(self, s) =>
  getChunkAt chunkNumber self.(_fileVersion) (self, s).

Definition getCurrentChecksumsFromBridge : ST (t * srv) bytes := fun '(self, s) =>
  let '(r, s') := storeFileRead (mkReadModel self.(_fileId) RangeChecksum None false) s in
  (r, (self, s')).
End WithServer.

(** [update]: patch the cached server chunk with the newly written chunk. *)
Definition update (newfileVersion chunkNumber : Z) (newChunkEncryptedData : bytes)
    (encryptedFileSize : Z) (truncate : bool) : ST t unit := fun self =>
  let from := u64 (self.(_encryptedChunkSize) * u32 chunkNumber) in
  let serverChunkNumber := from / self.(_serverChunkSize) in
  let serverChunkPos := from mod self.(_serverChunkSize) in
  let last := self.(_lastServerChunk) in
  let finish (chunk : bytes) : t :=
    mk self.(_encryptedChunkSize) self.(_serverChunkSize) self.(_fileId)
       (u64 encryptedFileSize) newfileVersion chunk self.(_lastServerChunkNumber) in
  if bool_decide (self.(_lastServerChunkNumber) = Some serverChunkNumber) then
    match substr last 0 serverChunkPos with
    | Throw e => (Throw e, self)
    | Ret before =>
        let stop := u64 (serverChunkPos + zlen newChunkEncryptedData) in
        let after := if negb truncate && (stop <? zlen last) then zdrop stop last else [] in
        (Ret tt, finish (before ++ newChunkEncryptedData ++ after))
    end
  else (Ret tt, finish last).

(** [sync], with the optional sizes. *)
Definition sync (newfileVersion encryptedFileSize : Z)
    (encryptedChunkSize serverChunkSize : option Z) : ST t unit := modify (fun self =>
  let self := if self.(_fileVersion) <? newfileVersion then set_cache [] None self else self in
  mk (default self.(_encryptedChunkSize) encryptedChunkSize)
     (default self.(_serverChunkSize) serverChunkSize)
     self.(_fileId) (u64 encryptedFileSize) newfileVersion
     self.(_lastServerChunk) self.(_lastServerChunkNumber)).
End ChunkDataProvider.

(** ** Snapshot consistency *)
Section Snapshots.
Context `{HS : StoreServerLaws}.
Implicit Types self : ChunkDataProvider.t.

Import ChunkDataProvider.

(** The layout constants fit together, and the whole file stays below the
    last server chunk number (which the constructor uses as "nothing cached"). *)
Record cdp_wf self : Prop := {
  cw_esz : 0 < self.(_encryptedChunkSize);
  cw_scs : 0 < self.(_serverChunkSize) < 2 ^ 31;
  cw_div : self.(_serverChunkSize) mod self.(_encryptedChunkSize) = 0;
}.

(** [hist v] is the encrypted file at version [v].  Whatever is cached is a
    server chunk of the version the provider currently works at. *)
Definition cdp_coherent (hist : Z -> bytes) self : Prop :=
  forall n, self.(_lastServerChunkNumber) = Some n -> n <> u32 (-1) ->
    self.(_lastServerChunk)
    = slice (n * self.(_serverChunkSize)) self.(_serverChunkSize) (hist self.(_fileVersion)).

Definition srv_current (hist : Z -> bytes) self (s : srv) : Prop :=
  (file_of s self.(_fileId)).1 = hist (version_of s self.(_fileId)).

(** Chunk [i] lies within the addressable part of the file. *)
Definition chunk_addressable self (i : Z) : Prop :=
  0 <= i < 2 ^ 32 /\ self.(_encryptedChunkSize) * i < (2 ^ 32 - 2) * self.(_serverChunkSize).

(** The parts [getChunk] never changes. *)
Definition cdp_same self self' : Prop :=
  self'.(_encryptedChunkSize) = self.(_encryptedChunkSize)
  /\ self'.(_serverChunkSize) = self.(_serverChunkSize)
  /\ self'.(_fileId) = self.(_fileId) /\ self'.(_serverFileSize) = self.(_serverFileSize).

Lemma cdp_same_wf self self' : cdp_same self self' -> cdp_wf self -> cdp_wf self'.
Proof. intros (E1 & E2 & _ & _) []. constructor; rewrite ?E1, ?E2; done. Qed.

Lemma slice_slice {A} (l : list A) a n p k :
  0 <= a -> 0 <= p -> 0 <= k -> p + k <= n -> slice p k (slice a n l) = slice (a + p) k l.
Proof.
  intros. unfold slice. rewrite <- (zdrop_zdrop p a) by lia.
  set (d := zdrop a l). rewrite (ztake_zdrop_comm k p) by lia.
  rewrite ztake_ztake by lia. rewrite Z.min_l by lia. by rewrite <- ztake_zdrop_comm by lia.
Qed.

Lemma slice_past_end {A} (l : list A) p k : zlen l <= p -> slice p k l = [].
Proof. intros. unfold slice. rewrite zdrop_ge by done. unfold ztake. apply take_nil. Qed.

(** An encrypted chunk never straddles two server chunks. *)
Lemma chunk_in_server_chunk esz scs i :
  0 < esz -> 0 < scs -> scs mod esz = 0 -> 0 <= i ->
  let from := esz * i in from mod scs + esz <= scs /\ from = from / scs * scs + from mod scs.
Proof.
  intros Hesz Hscs Hdiv Hi from. pose proof (Z.div_mod from scs).
  pose proof (Z.mod_pos_bound from scs).
  apply Z.mod_divide in Hdiv as [q Hq]; [|lia]. subst scs. split; [|lia].
  assert (from mod (q * esz) = esz * (i mod q)) as ->.
  { unfold from. rewrite (Z.mul_comm q esz). apply Z.mul_mod_distr_l; nia. }
  pose proof (Z.mod_pos_bound i q). nia.
Qed.

Lemma i64_small z : 0 <= z < 2 ^ 63 -> i64 z = z.
Proof. intros. apply swrap_id; [done|]. change (64 - 1) with 63. lia. Qed.

Lemma mul_bound a b A B : 0 <= a <= A -> 0 <= b <= B -> 0 <= a * b <= A * B.
Proof. intros. split; [apply Z.mul_nonneg_nonneg; lia|apply Z.mul_le_mono_nonneg; lia]. Qed.

(** A fetch returns the requested server chunk of the current version, and is
    refused when the version is no longer current. *)
Lemma requestServerChunk_spec hist self s n :
  cdp_wf self -> srv_current hist self s -> 0 <= n < 2 ^ 32 - 1 ->
  requestServerChunk n (self, s) =
    (if decide (self.(_fileVersion) = version_of s self.(_fileId))
     then Ret (slice (n * self.(_serverChunkSize)) self.(_serverChunkSize) (hist self.(_fileVersion)))
     else Throw FileVersionMismatchException, (self, s)).
Proof.
  intros [Hesz Hscs Hdiv] Hcur Hn. unfold requestServerChunk.
  pose proof (mul_bound (_serverChunkSize self) n (2 ^ 31 - 1) (2 ^ 32) ltac:(lia) ltac:(lia)).
  pose proof (mul_bound (_serverChunkSize self) (n + 1) (2 ^ 31 - 1) (2 ^ 32) ltac:(lia) ltac:(lia)).
  rewrite (wrap_id 32 (n + 1)) by lia. rewrite !wrap_id by lia. rewrite !i64_small by lia.
  destruct (decide _) as [Hv|Hv].
  - rewrite Hv at 1. rewrite read_slice_law by lia. rewrite Hcur, <- Hv.
    do 3 f_equal; lia.
  - rewrite read_stale_law by done. by rewrite Z.eqb_refl.
Qed.

(** The server chunk that holds encrypted chunk [i]. *)
Definition server_chunk_of self (i : Z) : Z :=
  self.(_encryptedChunkSize) * i / self.(_serverChunkSize).

Lemma getChunk_run hist self s i v :
  cdp_wf self -> cdp_coherent hist self -> srv_current hist self s -> chunk_addressable self i ->
  exists r self', getChunkAt i v (self, s) = (r, (self', s))
    /\ (r = Ret (slice (i * self.(_encryptedChunkSize)) self.(_encryptedChunkSize) (hist v))
          /\ self'.(_lastServerChunkNumber) = Some (server_chunk_of self i)
        \/ r = Throw FileVersionMismatchException /\ v <> version_of s self.(_fileId))
    /\ cdp_same self self' /\ cdp_coherent hist self' /\ self'.(_fileVersion) = v.
Proof.
  intros Hwf Hcoh Hcur [Hi Hadd]. pose proof Hwf as [Hesz Hscs Hdiv].
  unfold getChunkAt. rewrite (wrap_id 32 i) by done.
  set (self0 := if v =? _fileVersion self then self else _).
  assert (H0 : cdp_same self self0 /\ cdp_coherent hist self0 /\ _fileVersion self0 = v).
  { unfold self0. destruct (Z.eqb_spec v (_fileVersion self)); [by repeat split|].
    split; [by repeat split|]. split; [by intros ??|done]. }
  destruct H0 as ((E1 & E2 & E3 & E4) & Hcoh0 & Hv0). clearbody self0.
  rewrite E1, E2. set (esz := _encryptedChunkSize self) in *. set (scs := _serverChunkSize self) in *.
  pose proof (mul_bound i esz i esz ltac:(lia) ltac:(lia)).
  assert (0 <= esz * i < 2 ^ 64) as Hfrom by (split; [lia|]; eapply Z.lt_trans; [exact Hadd|]; nia).
  rewrite (wrap_id 64) by done.
  destruct (chunk_in_server_chunk esz scs i) as [Hin Hsplit]; try (done || lia).
  set (n := esz * i / scs) in *. set (pos := (esz * i) mod scs) in *.
  assert (0 <= n < 2 ^ 32 - 2) as Hn.
  { unfold n. split; [apply Z.div_pos; lia|]. apply Z.div_lt_upper_bound; [lia|]. nia. }
  assert (0 <= pos < scs) as Hpos by (apply Z.mod_pos_bound; lia).
  rewrite (wrap_id 32 n) by lia.
  (* what the cached server chunk gives, once it is the right one *)
  assert (Hserve : forall self1, _lastServerChunk self1 = slice (n * scs) scs (hist v) ->
    (last ← gets (fun st : ChunkDataProvider.t * srv => _lastServerChunk st.1);
     if zlen last <? pos then mret [] else lift (substr last pos esz)) (self1, s)
    = (Ret (slice (i * esz) esz (hist v)), (self1, s))).
  { intros self1 El. unfold_st. cbn. rewrite El.
    assert (Hss : slice pos esz (slice (n * scs) scs (hist v)) = slice (i * esz) esz (hist v)).
    { rewrite slice_slice by nia. f_equal. lia. }
    destruct (Z.ltb_spec (zlen (slice (n * scs) scs (hist v))) pos).
    - by rewrite <- Hss, slice_past_end by lia.
    - by rewrite substr_ret, Hss by lia. }
  destruct (bool_decide_reflect (_lastServerChunkNumber self0 = Some n)) as [Hc|Hc].
  - rewrite (run_bind_ret _ _ (self0, s) tt (self0, s)) by done.
    rewrite Hserve.
    + eexists _, self0. split; [done|]. split; [by left|]. by repeat split.
    + rewrite (Hcoh0 n Hc); [by rewrite E2, Hv0|]. change (u32 (-1)) with (2 ^ 32 - 1). lia.
  - assert (Hwf0 : cdp_wf self0) by (by apply (cdp_same_wf self)).
    assert (Hcur0 : srv_current hist self0 s) by (unfold srv_current in *; by rewrite E3).
    pose proof (requestServerChunk_spec hist self0 s n Hwf0 Hcur0 ltac:(lia)) as Hreq.
    rewrite E2, E3, Hv0 in Hreq.
    destruct (decide (v = version_of s (_fileId self))) as [Hcurv|Hcurv].
    + rewrite (run_bind_ret _ _ (self0, s) tt
        (set_cache (slice (n * scs) scs (hist v)) (Some n) self0, s)).
      2:{ by rewrite (run_bind_ret _ _ _ _ _ Hreq). }
      rewrite Hserve by done. eexists _, _. split; [done|]. split; [by left|].
      split; [done|]. split; [|done]. intros k [= <-] _. cbn. by rewrite E2, Hv0.
    + rewrite (run_bind_throw _ _ (self0, s) FileVersionMismatchException (self0, s)).
      2:{ by rewrite (run_bind_throw _ _ _ _ _ Hreq). }
      eexists _, self0. split; [done|]. split; [by right|]. by repeat split.
Qed.

(** a chunk returned at version [v] is that chunk of version [v] of the
    file, whatever was cached before; the only other outcome is the version
    mismatch error, and it is possible only when [v] is not the server's
    current version.  The cache stays coherent either way. *)
Theorem getChunk_snapshot hist self s i v :
  cdp_wf self -> cdp_coherent hist self -> srv_current hist self s -> chunk_addressable self i ->
  exists r self', getChunkAt i v (self, s) = (r, (self', s))
    /\ (r = Ret (slice (i * self.(_encryptedChunkSize)) self.(_encryptedChunkSize) (hist v))
        \/ r = Throw FileVersionMismatchException /\ v <> version_of s self.(_fileId))
    /\ cdp_same self self' /\ cdp_coherent hist self' /\ self'.(_fileVersion) = v.
Proof.
  intros Hwf Hcoh Hcur Hadd.
  destruct (getChunk_run hist self s i v Hwf Hcoh Hcur Hadd)
    as (r & self' & Hrun & [[Hr _]|Hr] & Hsame & Hcoh' & Hv); eauto 10.
Qed.
End Snapshots.
