(* ===== verification/ChunkReader.v ===== *)
(** * Reading a file by chunks
    (endpoint/store/src/ChunkReader.cpp, FileReader.cpp, FileHandler::read)

    The reader shares the provider, the cipher and the checksum list with the
    other objects of a file handle; [env] is that object graph.  A read is
    proved to return exactly the requested slice of the plain file, for any
    server file that encodes it. *)

From Stdlib Require Import ZArith Lia.
From stdpp Require Import base sets list.
From S2P Require Import Prelude Bytes Crypto ChunkCrypto HmacList StoreServer ChunkProvider.

(** [FileDecryptionParams] (StoreTypes.hpp), without the identifiers of the
    enclosing store. *)
Record FileDecryptionParams := mkParams {
  fdp_fileId : bytes;
  fdp_resourceId : bytes;
  fdp_sizeOnServer : Z;
  fdp_originalSize : Z;
  fdp_cipherType : Z;
  fdp_chunkSize : Z;
  fdp_key : bytes;
  fdp_hmac : bytes;
  fdp_version : Z;
}.

Module ChunkReader.
(** [_lastChunk] is the pair (decrypted data, index). *)
Record t := mk {
  _chunkSize : Z;
  _version : Z;
  _lastChunk : option (bytes * Z);
}.

Definition construct (enc : ChunkEncryptor.t) (params : FileDecryptionParams) : outcome t :=
  if negb (params.(fdp_sizeOnServer)
           =? ChunkEncryptor.getEncryptedFileSize enc params.(fdp_originalSize))
     && negb (params.(fdp_originalSize) =? 0)
  then Throw FileCorruptedException
  else Ret (mk (ChunkEncryptor.getPlainChunkSize enc) params.(fdp_version) None).

Definition filePosToFileChunkIndex (enc : ChunkEncryptor.t) (position : Z) : Z :=
  position / ChunkEncryptor.getPlainChunkSize enc.

Definition filePosToPosInFileChunk (enc : ChunkEncryptor.t) (position : Z) : Z :=
  position mod ChunkEncryptor.getPlainChunkSize enc.

Definition sync (params : FileDecryptionParams) : ST t unit :=
  modify (fun self => mk self.(_chunkSize) params.(fdp_version) None).

Definition update (newfileVersion index : Z) : ST t unit := modify (fun self =>
  mk self.(_chunkSize) newfileVersion
    (match self.(_lastChunk) with
     | Some (d, i) => if i =? index then None else Some (d, i)
     | None => None
     end)).
End ChunkReader.

(** The objects behind one open file. *)
Record env `{StoreServer} := mkEnv {
  e_enc : ChunkEncryptor.t;
  e_cdp : ChunkDataProvider.t;
  e_hash : HmacList.t;
  e_reader : ChunkReader.t;
  e_srv : srv;
}.

Section Reading.
Context `{CryptoService} `{StoreServer}.

Definition on_provider {A} (m : ST (ChunkDataProvider.t * srv) A) : ST env A :=
  zoom (fun e => (e.(e_cdp), e.(e_srv)))
       (fun '(c, s) e => mkEnv _ e.(e_enc) c e.(e_hash) e.(e_reader) s) m.

Definition on_hashes {A} (m : ST HmacList.t A) : ST env A :=
  zoom e_hash (fun h e => mkEnv _ e.(e_enc) e.(e_cdp) h e.(e_reader) e.(e_srv)) m.

Definition on_reader {A} (m : ST ChunkReader.t A) : ST env A :=
  zoom e_reader (fun r e => mkEnv _ e.(e_enc) e.(e_cdp) e.(e_hash) r e.(e_srv)) m.

(** [ChunkReader::getDecryptedChunk] *)
Definition getDecryptedChunk (index : Z) : ST env bytes := fun e =>
  let fetch : ST env bytes :=
    chunk ← on_provider (ChunkDataProvider.getChunkAt index e.(e_reader).(ChunkReader._version));
    h ← on_hashes (HmacList.getHash index);
    plain ← lift (ChunkEncryptor.decrypt e.(e_enc) index (mkChunk chunk h));
    _ ← on_reader (modify (fun r => ChunkReader.mk r.(ChunkReader._chunkSize)
          r.(ChunkReader._version) (Some (plain, index))));
    mret plain in
  match e.(e_reader).(ChunkReader._lastChunk) with
  | Some (d, i) => if i =? index then (Ret d, e) else fetch e
  | None => fetch e
  end.

(** The common body of [FileReader::read] and [FileHandler::read], for a
    file of [_plainfileSize] bytes. *)
Definition read_range (_plainfileSize pos length : Z) : ST env bytes := fun e =>
  if _plainfileSize <=? pos then (Ret [], e) else
  let length := if _plainfileSize <? u64 (pos + length) then _plainfileSize - pos else length in
  if length =? 0 then (Ret [], e) else
  let startIndex := ChunkReader.filePosToFileChunkIndex e.(e_enc) pos in
  let stopIndex := ChunkReader.filePosToFileChunkIndex e.(e_enc) (u64 (pos + length - 1)) in
  (pieces ← for_collect (indices startIndex stopIndex) getDecryptedChunk;
   lift (substr (concat pieces) (ChunkReader.filePosToPosInFileChunk e.(e_enc) pos) length)) e.
End Reading.

Module FileReader.
Record t := mk { _plainfileSize : Z; _version : Z }.

Definition construct (params : FileDecryptionParams) : t :=
  mk params.(fdp_originalSize) params.(fdp_version).

Definition sync (params : FileDecryptionParams) : ST t unit :=
  modify (fun _ => construct params).

Definition read `{CryptoService} `{StoreServer} (self : t) (pos length : Z) : ST env bytes :=
  read_range self.(_plainfileSize) pos length.
End FileReader.

(** ** The encoding relation

    [encodes enc P f hs]: the server file [f] and the checksums [hs] hold the
    plain file [P], chunk by chunk. *)
Section Encoding.
Context `{CryptoService}.

Definition chunk_ok (enc : ChunkEncryptor.t) (i : Z) (d : bytes) (c : Chunk) : Prop :=
  ChunkEncryptor.decrypt enc i c = Ret d
  /\ zlen c.(data) = enc_size (zlen d) /\ zlen c.(hmac) = HMAC_SIZE.

Record encodes_as (enc : ChunkEncryptor.t) (P : bytes) (cs : list Chunk) : Prop := {
  ea_count : zlen cs = chunk_count enc.(ChunkEncryptor._chunkSize) (zlen P);
  ea_chunk : forall k c, cs !! k = Some c ->
    chunk_ok enc (Z.of_nat k) (chunk_at enc.(ChunkEncryptor._chunkSize) P (Z.of_nat k)) c;
}.

Definition encodes (enc : ChunkEncryptor.t) (P f : bytes) (hs : list bytes) : Prop :=
  exists cs, encodes_as enc P cs /\ f = concat (data <$> cs) /\ hs = hmac <$> cs.

Lemma enc_chunk_size enc : 0 < enc.(ChunkEncryptor._chunkSize) < 2 ^ 31 ->
  ChunkEncryptor.getEncryptedChunkSize enc = enc_size enc.(ChunkEncryptor._chunkSize).
Proof.
  intros. unfold ChunkEncryptor.getEncryptedChunkSize.
  pose proof (enc_size_bounds (ChunkEncryptor._chunkSize enc) ltac:(lia)).
  unfold enc_size in *. rewrite wrap_id by lia. lia.
Qed.

Lemma zlen_concat_const {A} (l : list (list A)) n :
  (forall x, x ∈ l -> zlen x = n) -> zlen (concat l) = zlen l * n.
Proof.
  induction l as [|x l IH]; intros Hall; [done|]. simpl.
  rewrite zlen_app, zlen_cons, IH, Hall by set_solver. lia.
Qed.

(** All chunks but the last are full. *)
Lemma encodes_prefix enc P cs k :
  0 < enc.(ChunkEncryptor._chunkSize) -> encodes_as enc P cs ->
  Z.of_nat k * enc.(ChunkEncryptor._chunkSize) <= zlen P ->
  zlen (concat (take k (data <$> cs)))
    = Z.of_nat k * enc_size enc.(ChunkEncryptor._chunkSize).
Proof.
  intros Hcs [Hc Hk] Hlt. set (sz := ChunkEncryptor._chunkSize enc) in *.
  pose proof (zlen_nonneg P).
  assert (Hk' : Z.of_nat k <= zlen cs).
  { pose proof (chunk_count_le sz (zlen P) Hcs ltac:(done)). nia. }
  rewrite (zlen_concat_const _ (enc_size sz)).
  - f_equal. unfold zlen in *. rewrite length_take, length_fmap. lia.
  - intros x Hx. apply list_elem_of_lookup in Hx as [j Hj].
    apply lookup_take_Some in Hj as [Hj Hjk]. rewrite list_lookup_fmap in Hj.
    destruct (cs !! j) as [c|] eqn:E; [|done]. injection Hj as <-.
    destruct (Hk j c E) as (_ & Hlen & _). rewrite Hlen. f_equal.
    apply chunk_at_full; [done|lia|]. nia.
Qed.

(** Chunks before the last are full. *)
Lemma encodes_not_last enc P cs i :
  0 < enc.(ChunkEncryptor._chunkSize) -> encodes_as enc P cs -> i < zlen cs ->
  i * enc.(ChunkEncryptor._chunkSize) <= zlen P.
Proof.
  intros Hcs [Hc _] Hi. pose proof (zlen_nonneg P).
  destruct (chunk_count_bounds (ChunkEncryptor._chunkSize enc) (zlen P) Hcs ltac:(done)) as [|[_ E0]]; nia.
Qed.

(** Chunk [i] of the server file, as a slice. *)
Lemma encodes_slice enc P cs (i : nat) c :
  0 < enc.(ChunkEncryptor._chunkSize) -> encodes_as enc P cs -> cs !! i = Some c ->
  slice (Z.of_nat i * enc_size enc.(ChunkEncryptor._chunkSize))
        (enc_size enc.(ChunkEncryptor._chunkSize)) (concat (data <$> cs)) = c.(data).
Proof.
  intros Hcs Hea Hi. pose proof (lookup_lt_Some _ _ _ Hi) as Hlt.
  pose proof (encodes_prefix enc P cs i Hcs Hea) as Hpre.
  set (sz := ChunkEncryptor._chunkSize enc) in *.
  specialize (Hpre (encodes_not_last enc P cs (Z.of_nat i) Hcs Hea ltac:(unfold zlen; lia))).
  rewrite <- (take_drop i (data <$> cs)), concat_app.
  unfold slice. rewrite zdrop_app_eq by done.
  rewrite (drop_S _ c.(data)) by (by rewrite list_lookup_fmap, Hi). simpl.
  destruct Hea as [Hc Hk]. fold sz in Hc, Hk. destruct (Hk i c Hi) as (_ & Hlen & _).
  pose proof (zlen_chunk_at sz P (Z.of_nat i) ltac:(lia) ltac:(lia)) as Hz.
  pose proof (zlen_nonneg P).
  destruct (decide (S i < length cs)%nat) as [Hlast|Hlast].
  - (* not the last one: full *)
    rewrite ztake_app_eq; [done|]. rewrite Hlen. f_equal. symmetry.
    apply chunk_at_full; [done|lia|].
    assert (Z.of_nat i + 1 < zlen cs) by (unfold zlen; lia).
    destruct (chunk_count_bounds sz (zlen P) Hcs ltac:(done)) as [|[_ E0]]; nia.
  - rewrite (drop_ge (data <$> cs)) by (rewrite length_fmap; lia). rewrite app_nil_r.
    apply ztake_ge. rewrite Hlen, Hz. apply enc_size_mono; lia.
Qed.

Lemma zlen_concat_sum {A} (l : list (list A)) : zlen (concat l) = sum_sizes (zlen <$> l).
Proof. induction l as [|x l IH]; [done|]. simpl. by rewrite zlen_app, IH. Qed.

Lemma encodes_sizes enc P cs :
  encodes_as enc P cs ->
  zlen <$> (data <$> cs) = enc_size ∘ zlen <$> chunks enc.(ChunkEncryptor._chunkSize) P.
Proof.
  intros [Hc Hk]. apply list_eq. intros k. unfold chunks. rewrite <- !list_fmap_compose.
  rewrite !list_lookup_fmap. destruct (cs !! k) as [c|] eqn:E; simpl.
  - rewrite (proj2 (lookup_seqZ 0 _ k (Z.of_nat k))).
    + simpl. by destruct (Hk k c E) as (_ & -> & _).
    + apply lookup_lt_Some in E. unfold zlen in *. lia.
  - rewrite (lookup_seqZ_ge 0 _ k); [done|].
    apply lookup_ge_None in E. unfold zlen in *. lia.
Qed.

(** The server file has the size the layout says. *)
Lemma encodes_zlen enc P cs : encodes_as enc P cs ->
  zlen (concat (data <$> cs)) = layout_size enc.(ChunkEncryptor._chunkSize) P.
Proof. intros He. unfold layout_size. by rewrite zlen_concat_sum, (encodes_sizes enc P cs). Qed.

Lemma encodes_zlen_le enc P cs :
  0 < enc.(ChunkEncryptor._chunkSize) -> encodes_as enc P cs ->
  zlen (concat (data <$> cs))
    <= chunk_count enc.(ChunkEncryptor._chunkSize) (zlen P) * enc_size enc.(ChunkEncryptor._chunkSize).
Proof.
  intros Hcs [Hc Hk]. rewrite <- Hc, zlen_concat_sum. set (sz := ChunkEncryptor._chunkSize enc) in *.
  assert (Hall : Forall (fun c => zlen c.(data) <= enc_size sz) cs).
  { apply Forall_lookup. intros k c E. destruct (Hk k c E) as (_ & -> & _).
    rewrite zlen_chunk_at by lia. apply enc_size_mono; lia. }
  clear Hc Hk. induction Hall as [|c cs Hle Hall IH]; [done|].
  unfold sum_sizes in *. csimpl. rewrite zlen_cons. lia.
Qed.
End Encoding.

(** ** Reads return slices of the plain file *)
Section ReadSpec.
Context `{HL : CryptoLaws} `{HS : StoreServerLaws}.
Implicit Types e : env.

Definition plain_chunk_size e : Z := e.(e_enc).(ChunkEncryptor._chunkSize).

(** The objects of the handle hold the plain file [P] at their version:
    the layout constants agree, the caches are coherent, the server's current
    file is where [hist] says, and [hist] at the handle's version encodes [P]. *)
Record file_view (hist : Z -> bytes) (P : bytes) e : Prop := {
  fv_cs : 0 < plain_chunk_size e < 2 ^ 31;
  fv_wf : cdp_wf e.(e_cdp);
  fv_esz : e.(e_cdp).(ChunkDataProvider._encryptedChunkSize) = enc_size (plain_chunk_size e);
  fv_coh : cdp_coherent hist e.(e_cdp);
  fv_cur : srv_current hist e.(e_cdp) e.(e_srv);
  fv_hash : hmac_list_ok e.(e_hash);
  fv_enc : encodes e.(e_enc) P (hist e.(e_reader).(ChunkReader._version)) (entries e.(e_hash));
  fv_cache : forall d i, e.(e_reader).(ChunkReader._lastChunk) = Some (d, i) ->
    0 <= i < chunk_count (plain_chunk_size e) (zlen P) ->
    d = chunk_at (plain_chunk_size e) P i;
  fv_addr : forall i, 0 <= i <= chunk_count (plain_chunk_size e) (zlen P) ->
    chunk_addressable e.(e_cdp) i;
}.

(** What a read leaves alone. *)
Definition env_same e e' : Prop :=
  e'.(e_enc) = e.(e_enc) /\ e'.(e_hash) = e.(e_hash) /\ e'.(e_srv) = e.(e_srv)
  /\ cdp_same e.(e_cdp) e'.(e_cdp)
  /\ e'.(e_reader).(ChunkReader._version) = e.(e_reader).(ChunkReader._version).

Lemma env_same_refl e : env_same e e.
Proof. by repeat split. Qed.

Lemma env_same_trans e1 e2 e3 : env_same e1 e2 -> env_same e2 e3 -> env_same e1 e3.
Proof.
  intros (?&?&?&(?&?&?&?)&?) (?&?&?&(?&?&?&?)&?). repeat split; congruence.
Qed.

(** The handle's version is no longer the server's. *)
Definition stale e : Prop :=
  e.(e_reader).(ChunkReader._version) <> version_of e.(e_srv) e.(e_cdp).(ChunkDataProvider._fileId).

Lemma stale_same e e' : env_same e e' -> stale e' -> stale e.
Proof. intros (?&?&E&(?&?&E'&?)&Ev). unfold stale. by rewrite E, E', Ev. Qed.

(** A result is the expected value, or the mismatch error at a stale version. *)
Definition value_or_stale {A} e (r : outcome A) (a : A) : Prop :=
  r = Ret a \/ r = Throw FileVersionMismatchException /\ stale e.

Lemma addressable_same c c' i : cdp_same c c' -> chunk_addressable c i -> chunk_addressable c' i.
Proof. intros (E1&E2&_) []. split; [done|]. by rewrite E1, E2. Qed.

Lemma file_view_provider hist P e c' :
  file_view hist P e -> cdp_same e.(e_cdp) c' -> cdp_coherent hist c' ->
  file_view hist P (mkEnv _ e.(e_enc) c' e.(e_hash) e.(e_reader) e.(e_srv)).
Proof.
  intros [] Hs Hc. pose proof Hs as (E1&E2&E3&E4). constructor; cbn; try done.
  - by apply (cdp_same_wf (e_cdp e)).
  - by rewrite E1.
  - unfold srv_current in *. by rewrite E3.
  - intros. apply (addressable_same (e_cdp e)); auto.
Qed.

(** A chunk of the file, as the server and the checksum list hold it. *)
Lemma stored_chunk hist P e i :
  file_view hist P e -> 0 <= i < chunk_count (plain_chunk_size e) (zlen P) ->
  exists c, slice (i * enc_size (plain_chunk_size e)) (enc_size (plain_chunk_size e))
              (hist e.(e_reader).(ChunkReader._version)) = c.(data)
    /\ chunk_ok e.(e_enc) i (chunk_at (plain_chunk_size e) P i) c
    /\ HmacList.getHash i e.(e_hash) = (Ret c.(hmac), e.(e_hash)).
Proof.
  intros [Hcs Hwf Hesz Hcoh Hcur Hhash Henc Hcache Haddr] Hi.
  destruct Henc as (cs & Hea & Hf & Hh). pose proof Hea as [Hcount Hk].
  destruct (lookup_lt_is_Some_2 cs (Z.to_nat i)) as [c Hc].
  { unfold plain_chunk_size, zlen in *. lia. }
  exists c. rewrite Hf. pose proof (encodes_slice _ _ _ _ _ (proj1 Hcs) Hea Hc) as Hslice.
  rewrite Z2Nat.id in Hslice by lia. pose proof (Hk _ _ Hc) as Hok. rewrite Z2Nat.id in Hok by lia.
  split; [done|]. split; [done|]. rewrite getHash_spec by (done || lia).
  assert (entries (e_hash e) !! Z.to_nat i = Some c.(hmac)) as He
    by (by rewrite Hh, list_lookup_fmap, Hc).
  pose proof (lookup_lt_Some _ _ _ He) as Hlt. pose proof (zlen_entries _ Hhash) as Hz. unfold zlen in Hz.
  rewrite entries_lookup in He by lia. rewrite Z2Nat.id in He by lia. injection He as ->.
  by rewrite (proj2 (Z.ltb_lt _ _)) by lia.
Qed.

(** Past the last chunk there is nothing. *)
Lemma no_stored_chunk hist P e i :
  file_view hist P e -> chunk_count (plain_chunk_size e) (zlen P) <= i ->
  slice (i * enc_size (plain_chunk_size e)) (enc_size (plain_chunk_size e))
    (hist e.(e_reader).(ChunkReader._version)) = []
  /\ chunk_at (plain_chunk_size e) P i = [].
Proof.
  intros [Hcs Hwf Hesz Hcoh Hcur Hhash Henc Hcache Haddr] Hi.
  destruct Henc as (cs & Hea & -> & Hh).
  pose proof (encodes_zlen_le _ _ _ (proj1 Hcs) Hea).
  pose proof (enc_size_bounds (plain_chunk_size e) ltac:(lia)). pose proof (zlen_nonneg P).
  pose proof (chunk_count_le (plain_chunk_size e) (zlen P) ltac:(lia) ltac:(done)).
  unfold plain_chunk_size in *. split; apply slice_past_end; nia.
Qed.

Lemma getDecryptedChunk_spec hist P e i :
  file_view hist P e -> 0 <= i < chunk_count (plain_chunk_size e) (zlen P) ->
  exists r e', getDecryptedChunk i e = (r, e') /\ file_view hist P e' /\ env_same e e'
    /\ value_or_stale e r (chunk_at (plain_chunk_size e) P i).
Proof.
  intros Hv Hi. pose proof Hv as [Hcs Hwf Hesz Hcoh Hcur Hhash Henc Hcache Haddr].
  unfold getDecryptedChunk.
  destruct (match ChunkReader._lastChunk (e_reader e) with Some (_, j) => j =? i | None => false end) eqn:Hhit.
  { destruct (ChunkReader._lastChunk (e_reader e)) as [[d j]|] eqn:E; [|done].
    rewrite Hhit. apply Z.eqb_eq in Hhit as ->. eexists _, _. split; [done|].
    split; [done|]. split; [apply env_same_refl|]. left. by rewrite (Hcache d i eq_refl Hi). }
  match goal with |- context [match _ with Some _ => _ | None => ?f e end] =>
    set (fetch := f) end.
  assert (Hf : match ChunkReader._lastChunk (e_reader e) with
               | Some (d, j) => if j =? i then (Ret d, e) else fetch e
               | None => fetch e end = fetch e).
  { destruct (ChunkReader._lastChunk (e_reader e)) as [[d j]|]; [|done]. by rewrite Hhit. }
  rewrite Hf. unfold fetch. clear Hf Hhit fetch.
  destruct (getChunk_run hist (e_cdp e) (e_srv e) i (ChunkReader._version (e_reader e)))
    as (r & c' & Hrun & Hr & Hsame & Hcoh' & Hver); try done.
  { apply Haddr. lia. }
  assert (Hp : on_provider (ChunkDataProvider.getChunkAt i (ChunkReader._version (e_reader e))) e
    = (r, mkEnv _ (e_enc e) c' (e_hash e) (e_reader e) (e_srv e))).
  { unfold on_provider, zoom. by rewrite Hrun. }
  set (e1 := mkEnv _ (e_enc e) c' (e_hash e) (e_reader e) (e_srv e)) in *.
  assert (Hv1 : file_view hist P e1) by by apply file_view_provider.
  assert (Hs1 : env_same e e1) by (by repeat split; apply Hsame).
  destruct Hr as [[-> _]|[-> Hst]].
  2:{ rewrite (run_bind_throw _ _ _ _ _ Hp). eexists _, _. split; [done|].
      split; [done|]. split; [done|]. by right. }
  rewrite (run_bind_ret _ _ _ _ _ Hp).
  destruct (stored_chunk hist P e i Hv Hi) as (c & Hslice & (Hdec & _) & Hh).
  assert (Hget : on_hashes (HmacList.getHash i) e1 = (Ret c.(hmac), e1)).
  { unfold on_hashes, zoom. cbn [e_hash e1]. by rewrite Hh. }
  rewrite (run_bind_ret _ _ _ _ _ Hget), Hesz, Hslice.
  assert (mkChunk (data c) (hmac c) = c) as -> by (by destruct c).
  rewrite (run_bind_ret _ _ e1 (chunk_at (plain_chunk_size e) P i) e1) by (unfold lift; by rewrite Hdec).
  eexists _, _. split; [done|]. split; [|split; [done|by left]].
  destruct Hv1. constructor; cbn in *; try done. by intros ?? [= <- <-].
Qed.

Lemma collect_chunks hist P l : forall e,
  file_view hist P e ->
  (forall i, i ∈ l -> 0 <= i < chunk_count (plain_chunk_size e) (zlen P)) ->
  exists r e', for_collect l getDecryptedChunk e = (r, e') /\ file_view hist P e' /\ env_same e e'
    /\ value_or_stale e r (chunk_at (plain_chunk_size e) P <$> l).
Proof.
  induction l as [|i l IH]; intros e Hv Hl; simpl.
  { eexists _, _. split; [done|]. split; [done|]. split; [apply env_same_refl|by left]. }
  destruct (getDecryptedChunk_spec hist P e i Hv) as (r & e1 & Hrun & Hv1 & Hs1 & Hr);
    [apply Hl; constructor|].
  destruct Hr as [->|[-> Hst]].
  2:{ rewrite (run_bind_throw _ _ _ _ _ Hrun). eexists _, _. split; [done|].
      split; [done|]. split; [done|]. by right. }
  rewrite (run_bind_ret _ _ _ _ _ Hrun).
  assert (Hcs : plain_chunk_size e1 = plain_chunk_size e).
  { unfold plain_chunk_size. by destruct Hs1 as (-> & _). }
  destruct (IH e1 Hv1) as (r2 & e2 & Hrun2 & Hv2 & Hs2 & Hr2).
  { intros. rewrite Hcs. apply Hl. by constructor. }
  pose proof (env_same_trans _ _ _ Hs1 Hs2) as Hs. rewrite Hcs in Hr2.
  destruct Hr2 as [->|[-> Hst]].
  - rewrite (run_bind_ret _ _ _ _ _ Hrun2). eexists _, _. repeat (split; [done|]). by left.
  - rewrite (run_bind_throw _ _ _ _ _ Hrun2). eexists _, _. repeat (split; [done|]).
    right. split; [done|]. by apply (stale_same _ _ Hs1).
Qed.

(** A read returns exactly the requested slice. *)
Lemma read_range_run hist P e pos length :
  file_view hist P e -> 0 <= pos -> 0 <= length -> pos + length < 2 ^ 64 ->
  exists r e', read_range (zlen P) pos length e = (r, e')
    /\ value_or_stale e r (slice pos length P) /\ file_view hist P e' /\ env_same e e'.
Proof.
  intros Hv Hpos Hlen Hov. unfold read_range. pose proof (fv_cs _ _ _ Hv) as Hcs.
  destruct (Z.leb_spec (zlen P) pos) as [Hp|Hp].
  { eexists _, _. split; [done|]. split; [left; by rewrite slice_past_end|].
    split; [done|apply env_same_refl]. }
  rewrite (wrap_id 64) by lia.
  set (L := if zlen P <? pos + length then zlen P - pos else length).
  assert (Hclip : (0 <= L <= zlen P - pos /\ L <= length) /\ slice pos length P = slice pos L P).
  { unfold L. destruct (Z.ltb_spec (zlen P) (pos + length)); [|split; [lia|done]].
    split; [lia|]. unfold slice. rewrite !ztake_ge; rewrite ?zlen_zdrop by lia; try done; lia. }
  destruct Hclip as [Hclip ->]. clearbody L.
  destruct (Z.eqb_spec L 0) as [->|Hclip0].
  { eexists _, _. split; [done|]. split; [left; unfold slice; by rewrite ztake_0|].
    split; [done|apply env_same_refl]. }
  unfold ChunkReader.filePosToFileChunkIndex, ChunkReader.filePosToPosInFileChunk, ChunkEncryptor.getPlainChunkSize.
  fold (plain_chunk_size e). set (cs := plain_chunk_size e) in *.
  rewrite (wrap_id 64) by lia. set (a := pos / cs). set (b := (pos + L - 1) / cs).
  pose proof (Z.div_mod pos cs ltac:(lia)) as Da. fold a in Da.
  pose proof (Z.mod_pos_bound pos cs ltac:(lia)) as Ma.
  pose proof (Z.div_mod (pos + L - 1) cs ltac:(lia)) as Db. fold b in Db.
  pose proof (Z.mod_pos_bound (pos + L - 1) cs ltac:(lia)) as Mb.
  assert (Hab : 0 <= a <= b).
  { split; [apply Z.div_pos; lia|apply Z.div_le_mono; lia]. }
  assert (Hb : b < chunk_count cs (zlen P)).
  { pose proof (chunk_count_le cs (zlen P) ltac:(lia) ltac:(lia)). nia. }
  destruct (collect_chunks hist P (indices a b) e Hv) as (r & e' & Hrun & Hv' & Hs & Hr).
  { intros i Hi. unfold indices in Hi. apply elem_of_seqZ in Hi. fold cs. lia. }
  destruct Hr as [->|[-> Hst]].
  2:{ rewrite (run_bind_throw _ _ _ _ _ Hrun). eexists _, _. split; [done|].
      split; [by right|]. done. }
  rewrite (run_bind_ret _ _ _ _ _ Hrun). fold cs. unfold indices.
  rewrite concat_chunk_at by lia.
  assert (zlen (slice (a * cs) ((b - a + 1) * cs) P) >= pos mod cs).
  { rewrite zlen_slice by nia. nia. }
  eexists _, _. split; [unfold lift; by rewrite substr_ret by lia|].
  split; [|done]. left. rewrite slice_slice by nia. do 2 f_equal. lia.
Qed.

(** C16: [FileReader::read] returns exactly the requested slice of the text
    the open file holds, clipped at its end, however the chunks and server
    chunks it spans are cached; the only other outcome is the version mismatch
    error, at a version that is no longer the server's. *)
Theorem read_returns_slice hist P e self pos length :
  file_view hist P e -> self.(FileReader._plainfileSize) = zlen P ->
  0 <= pos -> 0 <= length -> pos + length < 2 ^ 64 ->
  exists r e', FileReader.read self pos length e = (r, e')
    /\ value_or_stale e r (slice pos length P) /\ file_view hist P e' /\ env_same e e'.
Proof. intros Hv Hsz. unfold FileReader.read. rewrite Hsz. by apply read_range_run. Qed.
End ReadSpec.
