(* ===== verification/FileHandler.v ===== *)
(** * Random access to an open file (endpoint/store/src/FileHandler.cpp)

    [write] re-encrypts the chunks a write touches, updates the checksum list,
    encrypts the metadata anew, sends all to the server and then brings the caches
    up to date.  The
    state is the handler's own members together with the objects it shares with
    the reader ([env]) and the random generator the cipher draws from. *)

From Stdlib Require Import ZArith Lia.
From stdpp Require Import base sets list.
From S2P Require Import Prelude Bytes CoreTypes Crypto CryptoSuite Dynamic Encryptors Dio FileMetaData.
From S2P Require Import ChunkCrypto HmacList StoreServer ChunkProvider ChunkReader.

(** The connection a handler renews the metadata for, whose answers draw on the
    generator's state alone, and the metadata as the server takes them
    ([Dynamic.Var] and [StoreServer.Var] are both a [Poco::Dynamic::Var]). *)
Class MetaConnection {C : CryptoService} {E : Ecc} {D : Dynamic} {X : StoreServer} := {
  conn_userPrivKey : PrivateKey;
  conn_bridgeIdentity : option BridgeIdentity;
  conn_getMyUserId : bytes -> ST rng bytes;
  conn_getNowTimestamp : ST rng Z;
  conn_value : Dynamic.Var -> StoreServer.Var;
}.

Module FileHandler.
Record t := mk {
  _plainfileSize : Z;
  _encryptedFileSize : Z;
  _version : Z;
  _fileInfo : FileInfo;
  _fileMeta : FileMeta;
  _fileEncKey : DecryptedEncKey;
  _plainChunkSize : Z;
  _encryptedChunkSize : Z;
}.

(** The constructor: the two chunk sizes come from the cipher. *)
Definition construct (enc : ChunkEncryptor.t) (plainfileSize encryptedFileSize version : Z)
    (fileInfo : FileInfo) (fileMeta : FileMeta) (fileEncKey : DecryptedEncKey) : t :=
  mk plainfileSize encryptedFileSize version fileInfo fileMeta fileEncKey
     (ChunkEncryptor.getPlainChunkSize enc) (ChunkEncryptor.getEncryptedChunkSize enc).

Record UpdateChunkData := mkUpdate {
  ud_chunk : Chunk;
  ud_chunkIndex : Z;
  ud_plainfileSizeChange : Z;
  ud_encryptedFileSizeChange : Z;
}.

Record UpdateChanges := mkChanges {
  uc_data : bytes;
  uc_dataPos : Z;
  uc_checksum : bytes;
  uc_checksumPos : Z;
}.

Definition SERVER_OPERATIONS_LIMIT : Z := 4.
Definition SERVER_OPERATION_SIZE_LIMIT : Z := 512 * 1024.

(** The plain content of a rewritten chunk: what precedes [chunkOffset]
    (zero-filled), the new data, and the old tail unless truncating. *)
Definition patch (prevChunk : bytes) (chunkOffset : Z) (data : bytes) (truncate : bool) : outcome bytes :=
  head ← (if 0 <? chunkOffset then
            kept ← substr prevChunk 0 chunkOffset;
            mret (kept ++ (if zlen prevChunk <? chunkOffset
                           then zeros (chunkOffset - zlen prevChunk) else []))
          else mret []);
  tail ← (if (chunkOffset + zlen data <? zlen prevChunk) && negb truncate
          then substr_from prevChunk (chunkOffset + zlen data) else mret []);
  mret (head ++ data ++ tail).

(** [createListOfUpdateChangesFromUpdateChunkData]: adjacent chunks are sent
    as one change while it stays under the size limit. *)
Definition change_of (self : t) (u : UpdateChunkData) : UpdateChanges :=
  mkChanges u.(ud_chunk).(data) (u64 (u.(ud_chunkIndex) * self.(_encryptedChunkSize)))
    u.(ud_chunk).(hmac) (u64 (u.(ud_chunkIndex) * HmacList.getHashSize)).

Fixpoint squash_into (self : t) (cur : UpdateChanges) (l : list UpdateChunkData) : list UpdateChanges :=
  match l with
  | [] => [cur]
  | u :: l =>
      if (u64 (cur.(uc_dataPos) + zlen cur.(uc_data))
            =? u64 (u.(ud_chunkIndex) * self.(_encryptedChunkSize)))
         && (zlen cur.(uc_data) + zlen u.(ud_chunk).(data) <? SERVER_OPERATION_SIZE_LIMIT)
      then squash_into self (mkChanges (cur.(uc_data) ++ u.(ud_chunk).(data)) cur.(uc_dataPos)
             (cur.(uc_checksum) ++ u.(ud_chunk).(hmac)) cur.(uc_checksumPos)) l
      else cur :: squash_into self (change_of self u) l
  end.

Definition createListOfUpdateChanges (self : t) (l : list UpdateChunkData) : list UpdateChanges :=
  match l with
  | [] => []
  | u :: l => squash_into self (change_of self u) l
  end.

(** The two operations of one change; every change but the last one of the
    write is sent with [truncate = true]. *)
Definition operations_of (u : UpdateChanges) (last truncate : bool) : list StoreFileRandomWriteOperation :=
  let tr := if last then truncate else true in
  [mkOp OpFile u.(uc_dataPos) u.(uc_data) tr; mkOp OpChecksum u.(uc_checksumPos) u.(uc_checksum) tr].

Fixpoint all_operations (l : list UpdateChanges) (truncate : bool)
    : list (list StoreFileRandomWriteOperation) :=
  match l with
  | [] => []
  | u :: l => operations_of u (match l with [] => true | _ => false end) truncate
              :: all_operations l truncate
  end.

(** Requests carry [SERVER_OPERATIONS_LIMIT >> 1] changes each. *)
Fixpoint batches {A} (fuel n : nat) (l : list A) : list (list A) :=
  match fuel, l with
  | S fuel, _ :: _ => take n l :: batches fuel n (drop n l)
  | _, _ => []
  end.

Definition requests (l : list UpdateChanges) (truncate : bool)
    : list (list StoreFileRandomWriteOperation) :=
  @concat _ <$> batches (length l) (Z.to_nat (Z.shiftr SERVER_OPERATIONS_LIMIT 1))
                (all_operations l truncate).
End FileHandler.

(** The handler, the objects it shares, and the generator. *)
Record fworld `{CryptoService} `{StoreServer} := mkWorld {
  w_fh : FileHandler.t;
  w_env : env;
  w_rng : rng;
}.

Section Handler.
Context {C : CryptoService} {X : StoreServer} {E : Ecc} {E0 : Encodings} {D : Dynamic}.
Context `{!KeyFormats PublicKey} `{!FileJson} `{!JsonCodec DIOEncryptorV1.DioJson} `{!JsonCodec InternalStoreFileMeta}.
Context {M : MetaConnection}.
Import FileHandler.

Definition with_fh (f : FileHandler.t) (w : fworld) : fworld := mkWorld _ _ f w.(w_env) w.(w_rng).
Definition with_env (e : env) (w : fworld) : fworld := mkWorld _ _ w.(w_fh) e w.(w_rng).
Definition with_rng (g : rng) (w : fworld) : fworld := mkWorld _ _ w.(w_fh) w.(w_env) g.

Definition in_env {A} (m : ST env A) : ST fworld A := zoom w_env with_env m.
Definition in_rng {A} (m : ST rng A) : ST fworld A := zoom w_rng with_rng m.

(** [_chunkDataProvider->update], on the shared provider. *)
Definition provider_update (v i : Z) (d : bytes) (size : Z) (truncate : bool) : ST env unit :=
  on_provider (zoom fst (fun c cs => (c, cs.2)) (ChunkDataProvider.update v i d size truncate)).

Definition createUpdateChunk (index chunkOffset : Z) (d : bytes) (truncate : bool)
    : ST fworld UpdateChunkData := fun w =>
  let self := w.(w_fh) in
  let enc := w.(w_env).(e_enc) in
  (_ ← throw_if (self.(_plainChunkSize) <? chunkOffset + zlen d) FileRandomWriteInternalException;
   prevEncryptedChunk ← in_env (on_provider (ChunkDataProvider.getChunkAt index self.(_version)));
   prevChunk ← (if zlen prevEncryptedChunk =? 0 then mret [] else
     h ← in_env (on_hashes (HmacList.getHash index));
     lift (ChunkEncryptor.decrypt enc index (mkChunk prevEncryptedChunk h)));
   newChunk ← lift (patch prevChunk chunkOffset d truncate);
   chunk ← in_rng (ChunkEncryptor.encrypt enc index newChunk);
   mret (mkUpdate chunk index
     (if truncate
      then i64 (u64 (index * self.(_plainChunkSize) + zlen newChunk))
           - Z.max (i64 self.(_plainfileSize)) (i64 (u64 (index * self.(_plainChunkSize))))
      else zlen newChunk - zlen prevChunk)
     (if truncate
      then i64 (u64 (index * self.(_encryptedChunkSize) + zlen chunk.(data)))
           - Z.max (i64 self.(_encryptedFileSize)) (i64 (u64 (index * self.(_encryptedChunkSize))))
      else zlen chunk.(data) - zlen prevEncryptedChunk))) w.

(** The loop of [write] that prepares the chunks [startIndex..stopIndex]. *)
Fixpoint prepare_chunks (toSend : bytes) (offset startIndex stopIndex : Z) (truncate : bool)
    (idxs : list Z) (dataSend : Z) : ST fworld (list UpdateChunkData) := fun w =>
  match idxs with
  | [] => (Ret [], w)
  | i :: idxs =>
      let self := w.(w_fh) in
      let chunkOffset := if i =? startIndex
        then offset mod ChunkEncryptor.getPlainChunkSize w.(w_env).(e_enc) else 0 in
      let room := if i =? startIndex
        then self.(_plainChunkSize) - offset mod self.(_plainChunkSize) else self.(_plainChunkSize) in
      (chunkData ← lift (substr toSend dataSend room);
       u ← createUpdateChunk i chunkOffset chunkData (if i =? stopIndex then truncate else false);
       us ← prepare_chunks toSend offset startIndex stopIndex truncate idxs (u64 (dataSend + zlen chunkData));
       mret (u :: us)) w
  end.

(** The loop that records the new checksums and accumulates the sizes. *)
Fixpoint update_hashes (truncate : bool) (l : list UpdateChunkData) (sizes : Z * Z)
    : ST fworld (Z * Z) :=
  match l with
  | [] => mret sizes
  | u :: l =>
      _ ← in_env (on_hashes (HmacList.set u.(ud_chunkIndex) u.(ud_chunk).(hmac)
             (match l with [] => truncate | _ => false end)));
      update_hashes truncate l (u64 (sizes.1 + u.(ud_plainfileSizeChange)),
                                u64 (sizes.2 + u.(ud_encryptedFileSizeChange)))
  end.

Definition updateOnServer (l : list UpdateChanges) (updatedMeta : StoreServer.Var) (encKeyId : bytes)
    (truncate : bool) : ST fworld unit := fun w =>
  let self := w.(w_fh) in
  for_each (requests l truncate) (fun ops =>
    in_env (on_provider (zoom snd (fun s cs => (cs.1, s))
      (storeFileWrite self.(_fileInfo).(fi_fileId) ops updatedMeta encKeyId self.(_version) false)))) w.

Definition updated_meta (m : FileMeta) (topHash : bytes) (size : Z) : FileMeta :=
  let im := m.(fm_internalFileMeta) in
  mkFileMeta m.(fm_publicMeta) m.(fm_privateMeta)
    (mkInternalMeta im.(im_version) (i64 size) im.(im_cipherType) im.(im_chunkSize) im.(im_key)
       (base64_from topHash) im.(im_randomWrite)).

(** [_fileMetaEncryptor->encrypt] *)
Definition encryptMeta (fileInfo : FileInfo) (fileMeta : FileMeta) (encKey : EncKey) (keyVersion : Z) : ST rng StoreServer.Var :=
  v ← FileMetaEncryptor.encrypt conn_getMyUserId conn_getNowTimestamp (fun _ m => m) conn_userPrivKey conn_bridgeIdentity
        fileInfo fileMeta encKey keyVersion;
  mret (conn_value v).

(** The final loop: caches follow the new version. *)
Fixpoint refresh_caches (l : list UpdateChunkData) (truncate : bool) : ST fworld unit := fun w =>
  match l with
  | [] => (Ret tt, w)
  | u :: l =>
      let self := w.(w_fh) in
      (_ ← in_env (provider_update self.(_version) u.(ud_chunkIndex) u.(ud_chunk).(data)
             self.(_encryptedFileSize) truncate);
       _ ← in_env (on_reader (ChunkReader.update self.(_version) u.(ud_chunkIndex)));
       refresh_caches l truncate) w
  end.

(** The end of [write]: send the changes, and only then take over the new
    sizes, version and metadata.  The checksum list is put back when the
    server refuses. *)
Definition publish (chunksToUpdate : list UpdateChunkData) (newFileMeta : FileMeta) (newMeta : StoreServer.Var)
    (sizes : Z * Z) (oldHashList : bytes) (truncate : bool) : ST fworld unit := fun w =>
  let self := w.(w_fh) in
  let squashed := createListOfUpdateChanges self chunksToUpdate in
  (_ ← try_catch (updateOnServer squashed newMeta self.(_fileEncKey).(dek_key).(ek_id) truncate)
         (fun e => if std_exn e then throw e else
            _ ← in_env (on_hashes (HmacList.setAll oldHashList)); throw e);
   _ ← modify (fun w => with_fh (FileHandler.mk sizes.1 sizes.2 (self.(_version) + 1) self.(_fileInfo)
         newFileMeta self.(_fileEncKey) self.(_plainChunkSize) self.(_encryptedChunkSize)) w);
   refresh_caches chunksToUpdate truncate) w.

(** [write], from the prepared chunks on. *)
Definition commit (chunksToUpdate : list UpdateChunkData) (truncate : bool) : ST fworld unit := fun w =>
  let self := w.(w_fh) in
  (oldHashList ← in_env (on_hashes HmacList.getAll);
   sizes ← update_hashes truncate chunksToUpdate (self.(_plainfileSize), self.(_encryptedFileSize));
   topHash ← in_env (on_hashes HmacList.getTopHash);
   let newFileMeta := updated_meta self.(_fileMeta) topHash sizes.1 in
   newMeta ← in_rng (encryptMeta self.(_fileInfo) newFileMeta self.(_fileEncKey).(dek_key)
     self.(_fileEncKey).(dek_dataStructureVersion));
   publish chunksToUpdate newFileMeta newMeta sizes oldHashList truncate) w.

Definition write (offset : Z) (d : bytes) (truncate : bool) : ST fworld unit := fun w =>
  let self := w.(w_fh) in
  let enc := w.(w_env).(e_enc) in
  let grow := self.(_plainfileSize) <? offset in
  let toSend := if grow then zeros (offset - self.(_plainfileSize)) ++ d else d in
  let offset := if grow then self.(_plainfileSize) else offset in
  let startIndex := ChunkReader.filePosToFileChunkIndex enc offset in
  let stopIndex := ChunkReader.filePosToFileChunkIndex enc
    (u64 (offset + zlen toSend - (if zlen d =? 0 then 0 else 1))) in
  (chunksToUpdate ← prepare_chunks toSend offset startIndex stopIndex truncate
     (indices startIndex stopIndex) 0;
   commit chunksToUpdate truncate) w.

Definition read (offset size : Z) : ST fworld bytes := fun w =>
  in_env (read_range w.(w_fh).(_plainfileSize) offset size) w.

Definition getFileSize : ST fworld Z := gets (fun w => w.(w_fh).(_plainfileSize)).

Definition sync (fileMeta : FileMeta) (newParms : FileDecryptionParams) (fileEncKey : DecryptedEncKey)
    : ST fworld unit := fun w =>
  let self := w.(w_fh) in
  (sums ← in_env (on_provider ChunkDataProvider.getCurrentChecksumsFromBridge);
   _ ← in_env (on_hashes (HmacList.sync newParms.(fdp_key) newParms.(fdp_hmac) sums));
   _ ← in_env (on_provider (zoom fst (fun c cs => (c, cs.2))
         (ChunkDataProvider.sync self.(_version) self.(_encryptedFileSize) None None)));
   _ ← in_env (on_reader (ChunkReader.sync newParms));
   modify (fun w => with_fh (FileHandler.mk newParms.(fdp_originalSize) newParms.(fdp_sizeOnServer)
     newParms.(fdp_version) self.(_fileInfo) fileMeta fileEncKey
     self.(_plainChunkSize) self.(_encryptedChunkSize)) w)) w.
End Handler.
