(* ===== verification/FileWrite.v ===== *)
(** * Writing a file is splicing it

    The refinement proof of [FileHandler::write]: on a file that encodes the
    plain text [P], a write of [d] at [offset] leaves the server holding an
    encoding of the spliced plain text, with the checksum list, the sizes and
    the caches to match. *)

From Stdlib Require Import ZArith Lia.
From stdpp Require Import base sets list.
From S2P Require Import Prelude Bytes Crypto ChunkCrypto HmacList StoreServer ChunkProvider.
From S2P Require Import ChunkReader CoreTypes FileHandler.

(** ** The plain side: chunk by chunk *)

Lemma patch_spec prev off d tr : 0 <= off <= zlen prev ->
  FileHandler.patch prev off d tr = Ret (splice off d tr prev).
Proof.
  intros Hoff. unfold FileHandler.patch, splice. unfold_st. pose proof (zlen_nonneg d).
  assert (Htail : (if (off + zlen d <? zlen prev) && negb tr
      then substr_from prev (off + zlen d) else Ret [])
    = Ret (if tr then [] else zdrop (off + zlen d) prev)).
  { destruct tr; [by rewrite andb_false_r|]. rewrite andb_true_r.
    destruct (Z.ltb_spec (off + zlen d) (zlen prev)).
    - by rewrite substr_from_ret by lia.
    - by rewrite zdrop_ge by lia. }
  destruct (Z.ltb_spec 0 off).
  - rewrite substr_ret by lia. unfold slice. rewrite zdrop_0. cbn.
    rewrite (proj2 (Z.ltb_ge (zlen prev) off)), app_nil_r by lia. by rewrite Htail.
  - assert (off = 0) as -> by lia. rewrite ztake_0. by rewrite Htail.
Qed.

Section PlainWrite.
Context (cs o : Z) (D : bytes) (tr : bool) (P : bytes).
Context (Hcs : 0 < cs) (Ho : 0 <= o <= zlen P) (HD : 0 < zlen D).

Definition first_chunk : Z := o / cs.
Definition last_chunk : Z := (o + zlen D - 1) / cs.
Definition chunk_off (i : Z) : Z := if i =? first_chunk then o mod cs else 0.
Definition sent_before (i : Z) : Z := if i =? first_chunk then 0 else i * cs - o.
Definition piece (i : Z) : bytes := slice (sent_before i) (cs - chunk_off i) D.

Lemma write_bounds :
  o = first_chunk * cs + o mod cs /\ 0 <= o mod cs < cs
  /\ last_chunk * cs <= o + zlen D - 1 < last_chunk * cs + cs
  /\ 0 <= first_chunk <= last_chunk.
Proof.
  unfold first_chunk, last_chunk.
  pose proof (Z.div_mod o cs ltac:(lia)). pose proof (Z.mod_pos_bound o cs ltac:(lia)).
  pose proof (Z.div_mod (o + zlen D - 1) cs ltac:(lia)).
  pose proof (Z.mod_pos_bound (o + zlen D - 1) cs ltac:(lia)).
  split_and!; try lia. apply Z.div_pos; lia. apply Z.div_le_mono; lia.
Qed.

Lemma sent_bounds i : first_chunk <= i <= last_chunk ->
  0 <= sent_before i <= zlen D /\ 0 <= chunk_off i < cs
  /\ i * cs + chunk_off i = o + sent_before i.
Proof.
  intros Hi. pose proof write_bounds as (E & Hm & Hl & Hab).
  unfold sent_before, chunk_off. destruct (Z.eqb_spec i first_chunk) as [->|]; nia.
Qed.

Lemma zlen_piece i : first_chunk <= i <= last_chunk ->
  zlen (piece i) = Z.min (cs - chunk_off i) (zlen D - sent_before i).
Proof. intros Hi. destruct (sent_bounds i Hi) as (? & ? & ?). unfold piece. rewrite zlen_slice; lia. Qed.

Lemma sent_next i : first_chunk <= i < last_chunk ->
  sent_before i + zlen (piece i) = sent_before (i + 1) /\ zlen (piece i) = cs - chunk_off i.
Proof.
  intros Hi. pose proof write_bounds as (E & Hm & Hl & Hab).
  destruct (sent_bounds i) as (Hs & Hc & Hr); [lia|].
  rewrite zlen_piece by lia. unfold sent_before in *.
  rewrite (proj2 (Z.eqb_neq (i + 1) first_chunk)) by lia. nia.
Qed.

Lemma first_chunk_le : first_chunk * cs <= zlen P.
Proof. pose proof write_bounds. lia. Qed.

Lemma chunk_off_le i : first_chunk <= i <= last_chunk -> chunk_off i <= zlen (chunk_at cs P i).
Proof.
  intros Hi. pose proof write_bounds as (E & Hm & Hl & Hab).
  rewrite zlen_chunk_at by lia. unfold chunk_off.
  destruct (Z.eqb_spec i first_chunk) as [->|]; lia.
Qed.

(** Patching chunk [i] of [P] gives chunk [i] of the spliced text. *)
Lemma patched_chunk i : first_chunk <= i <= last_chunk ->
  splice (chunk_off i) (piece i) (if i =? last_chunk then tr else false) (chunk_at cs P i)
  = chunk_at cs (splice o D tr P) i.
Proof.
  intros Hi. pose proof write_bounds as (E & Hm & Hl & Hab).
  destruct (sent_bounds i Hi) as (Hs & Hc & Hrel). pose proof (chunk_off_le i Hi).
  pose proof (zlen_piece i Hi) as Hp.
  assert (Hnext : i <> last_chunk -> zlen (piece i) = cs - chunk_off i).
  { intros. apply sent_next. lia. }
  assert (Hlast : i = last_chunk -> i * cs + chunk_off i + zlen (piece i) = o + zlen D).
  { intros ->. rewrite Hp. lia. }
  assert (Hpl : forall j : nat, piece i !! j =
    if decide (Z.of_nat j < cs - chunk_off i) then D !! (Z.to_nat (sent_before i) + j)%nat else None).
  { intros j. apply lookup_slice; lia. }
  assert (Hz : chunk_off i = 0 \/ sent_before i = 0).
  { unfold chunk_off, sent_before. destruct (_ =? _); lia. }
  apply list_eq. intros k. unfold chunk_at.
  rewrite lookup_slice by nia. rewrite lookup_splice by (unfold chunk_at in *; lia).
  rewrite lookup_splice by lia. rewrite Hpl. rewrite !lookup_slice by nia.
  assert (0 <= i * cs) by nia.
  destruct (Z.eqb_spec i last_chunk) as [Hil|Hil].
  - specialize (Hlast Hil). clear Hnext.
    repeat case_decide; try lia; try done; try (f_equal; lia); by destruct tr.
  - specialize (Hnext Hil). clear Hlast. assert (i * cs + cs <= o + zlen D - 1) by nia.
    repeat case_decide; try lia; try done; f_equal; lia.
Qed.
End PlainWrite.

(** ** The encoded side: the new chunks in place of the old *)

Lemma splice_splice {A} (p : Z) (x y : list A) t1 t2 (l : list A) :
  0 <= p <= zlen l -> (t1 = true -> t2 = true) ->
  splice (p + zlen x) y t2 (splice p x t1 l) = splice p (x ++ y) t2 l.
Proof.
  intros Hp Ht. pose proof (zlen_nonneg x). pose proof (zlen_nonneg y).
  apply list_eq. intros k.
  rewrite lookup_splice by (rewrite zlen_splice by done; destruct t1; lia).
  rewrite !lookup_splice by done. rewrite zlen_app.
  repeat case_decide; try lia; try done.
  - rewrite lookup_app_l by (unfold zlen in *; lia). done.
  - rewrite lookup_app_r by (unfold zlen in *; lia). f_equal. unfold zlen in *. lia.
  - destruct t1, t2; done || by specialize (Ht eq_refl).
Qed.

Lemma layout_size_mono {A} cs (l k : list A) : 0 < cs -> zlen l <= zlen k ->
  layout_size cs l <= layout_size cs k.
Proof.
  intros Hcs Hle. pose proof (zlen_nonneg l). pose proof (enc_size_bounds cs ltac:(lia)).
  assert (Hchunk : forall (m : list A), 0 < zlen m ->
    let r := zlen m - (chunk_count cs (zlen m) - 1) * cs in 0 <= r <= cs
    /\ layout_size cs m = (chunk_count cs (zlen m) - 1) * enc_size cs + enc_size r
    /\ 1 <= chunk_count cs (zlen m)).
  { intros m Hm r. destruct (last_chunk_size cs (zlen m) Hcs Hm) as [Hr H1].
    rewrite layout_size_eq by done. fold r in Hr. rewrite <- Hr. split; [|done].
    rewrite Hr. pose proof (Z.mod_pos_bound (zlen m) cs Hcs). destruct (_ =? _); lia. }
  destruct (decide (zlen l = 0)) as [E|E].
  { assert (layout_size cs l = 0) as ->.
    { unfold layout_size, chunks. rewrite E. unfold chunk_count. by rewrite Z.div_small by lia. }
    destruct (decide (zlen k = 0)) as [E'|E'].
    - unfold layout_size, chunks. rewrite E'. unfold chunk_count. by rewrite Z.div_small by lia.
    - destruct (Hchunk k ltac:(lia)) as (Hr & -> & Hc). pose proof (enc_size_bounds _ (proj1 Hr)).
      pose proof (Z.mul_nonneg_nonneg (chunk_count cs (zlen k) - 1) (enc_size cs) ltac:(lia) ltac:(lia)). lia. }
  destruct (Hchunk l ltac:(lia)) as (Hr & -> & Hc). destruct (Hchunk k ltac:(lia)) as (Hr' & -> & Hc').
  assert (Hm : chunk_count cs (zlen l) <= chunk_count cs (zlen k)).
  { unfold chunk_count. apply Z.div_le_mono; lia. }
  destruct (decide (chunk_count cs (zlen l) = chunk_count cs (zlen k))) as [Em|Em].
  - rewrite Em in Hr |- *. set (m := chunk_count cs (zlen k) - 1) in *.
    pose proof (enc_size_mono (zlen l - m * cs) (zlen k - m * cs) ltac:(lia)). lia.
  - pose proof (enc_size_mono _ _ Hr). pose proof (enc_size_bounds _ (proj1 Hr')).
    pose proof (Z.mul_le_mono_nonneg_r (chunk_count cs (zlen l)) (chunk_count cs (zlen k) - 1) (enc_size cs)
      ltac:(lia) ltac:(lia)). lia.
Qed.

Section EncodedWrite.
Context `{CryptoService}.
Context (enc : ChunkEncryptor.t) (o : Z) (D : bytes) (tr : bool) (P : bytes) (old new : list Chunk).

Let cs := enc.(ChunkEncryptor._chunkSize).
Let esz := enc_size cs.
Let a := first_chunk cs o.
Let b := last_chunk cs o D.
Let P' := splice o D tr P.

Context (Hcs : 0 < cs) (Ho : 0 <= o <= zlen P) (HD : 0 < zlen D).
Context (Hold : encodes_as enc P old).
Context (Hlen : zlen new = b - a + 1).
Context (Hnew : forall k c, new !! k = Some c ->
  chunk_ok enc (a + Z.of_nat k) (chunk_at cs P' (a + Z.of_nat k)) c).

Definition patched_list : list Chunk :=
  take (Z.to_nat a) old ++ new ++ (if tr then [] else drop (Z.to_nat (b + 1)) old).

Lemma ab_bounds : o = a * cs + o mod cs /\ 0 <= o mod cs < cs
  /\ b * cs <= o + zlen D - 1 < b * cs + cs /\ 0 <= a <= b.
Proof. exact (write_bounds cs o D P Hcs Ho HD). Qed.

Lemma zlen_spliced : zlen P' = if tr then o + zlen D else Z.max (zlen P) (o + zlen D).
Proof. by apply zlen_splice. Qed.

Lemma old_count_ge : a <= zlen old.
Proof.
  destruct Hold as [-> _]. fold cs. pose proof (chunk_count_le cs (zlen P) Hcs ltac:(lia)).
  pose proof ab_bounds. nia.
Qed.

Lemma new_count :
  chunk_count cs (zlen P') = if tr then b + 1 else Z.max (zlen old) (b + 1).
Proof.
  assert (Hb : chunk_count cs (o + zlen D) = b + 1).
  { unfold chunk_count, b, last_chunk. replace (o + zlen D + cs - 1) with ((o + zlen D - 1) + 1 * cs) by lia.
    by rewrite Z.div_add by lia. }
  rewrite zlen_spliced. destruct tr; [done|]. rewrite <- Hb. destruct Hold as [-> _]. fold cs.
  destruct (Z.max_spec (zlen P) (o + zlen D)) as [[Hlt ->]|[Hle ->]]; symmetry;
    [apply Z.max_r|apply Z.max_l]; unfold chunk_count; apply Z.div_le_mono; lia.
Qed.

Lemma chunk_at_before k : 0 <= k < a -> chunk_at cs P' k = chunk_at cs P k.
Proof.
  intros Hk. pose proof ab_bounds as (E & Hm & Hl & Hab).
  assert ((k + 1) * cs <= o) by nia. apply list_eq. intros j. unfold chunk_at, P'.
  rewrite !lookup_slice by nia. case_decide; [|done]. rewrite lookup_splice by lia.
  rewrite decide_True; [done|]. nia.
Qed.

Lemma chunk_at_after k : tr = false -> b < k -> chunk_at cs P' k = chunk_at cs P k.
Proof.
  intros -> Hk. pose proof ab_bounds as (E & Hm & Hl & Hab).
  unfold chunk_at, P'. apply slice_splice_after; nia.
Qed.

Lemma tr_cases : tr = true \/ tr = false.
Proof. destruct tr; auto. Qed.

Lemma zlen_patched_prefix : zlen (take (Z.to_nat a) old) = a.
Proof.
  pose proof old_count_ge. pose proof ab_bounds. unfold zlen in *. rewrite length_take. lia.
Qed.

Lemma patched_encodes : encodes_as enc P' patched_list.
Proof.
  pose proof old_count_ge as Hge. pose proof ab_bounds as (E & Hm & Hl & Hab).
  pose proof zlen_patched_prefix as Hpre. constructor; fold cs.
  - rewrite new_count. unfold patched_list. rewrite !zlen_app, Hpre, Hlen.
    destruct tr; [rewrite zlen_nil; lia|]. unfold zlen in *. rewrite length_drop. lia.
  - intros k c. unfold patched_list. intros Hk. apply lookup_app_Some in Hk as [Hk|[Hk1 Hk]].
    { apply lookup_take_Some in Hk as [Hk Hlt]. rewrite chunk_at_before by lia.
      by apply (ea_chunk _ _ _ Hold). }
    unfold zlen in Hpre. apply lookup_app_Some in Hk as [Hk|[Hk2 Hk]].
    { apply Hnew in Hk. replace (Z.of_nat k) with (a + Z.of_nat (k - length (take (Z.to_nat a) old))) by lia.
      done. }
    destruct (tr_cases) as [Etr|Etr]; rewrite Etr in Hk; [done|]. rewrite lookup_drop in Hk. unfold zlen in Hlen.
    rewrite chunk_at_after by (done || lia). apply (ea_chunk _ _ _ Hold).
    rewrite <- Hk. f_equal. lia.
Qed.

Let f := concat (data <$> old).
Let N := concat (data <$> new).

Lemma zlen_old_prefix k : 0 <= k -> k * cs <= zlen P -> k <= zlen old ->
  zlen (concat (take (Z.to_nat k) (data <$> old))) = k * esz.
Proof.
  intros. pose proof (encodes_prefix enc P old (Z.to_nat k) Hcs Hold) as Hp.
  rewrite Z2Nat.id in Hp by lia. by apply Hp.
Qed.

Lemma take_patched : concat (take (Z.to_nat (b + 1)) (data <$> patched_list))
  = concat (take (Z.to_nat a) (data <$> old)) ++ N.
Proof.
  unfold N. rewrite <- concat_app. f_equal.
  pose proof zlen_patched_prefix as Hpre. pose proof ab_bounds. unfold patched_list.
  rewrite !fmap_app, app_assoc, fmap_take. apply take_app_length'.
  rewrite length_app, !length_fmap. rewrite <- fmap_take, length_fmap. unfold zlen in *. lia.
Qed.

(** Replacing the chunks of the encrypted file splices it. *)
Lemma patched_file : concat (data <$> patched_list) = splice (a * esz) N tr f.
Proof.
  pose proof ab_bounds as (E & Hm & Hl & Hab). pose proof old_count_ge as Hge.
  pose proof (zlen_old_prefix a ltac:(lia) ltac:(lia) Hge) as Hpre.
  pose proof patched_encodes as Hpe.
  unfold patched_list, splice. rewrite !fmap_app, !concat_app. f_equal; [|f_equal].
  - rewrite fmap_take. unfold f. rewrite <- (take_drop (Z.to_nat a) (data <$> old)) at 2.
    rewrite concat_app. by rewrite ztake_app_eq.
  - destruct tr_cases as [Etr|Etr]; rewrite Etr; [done|]. fold N. rewrite fmap_drop.
    pose proof zlen_spliced as Hz. rewrite Etr in Hz.
    destruct (Z.le_gt_cases ((b + 1) * cs) (zlen P)) as [Hin|Hout].
    + assert (Hb : b + 1 <= zlen old).
      { destruct Hold as [-> _]. fold cs. pose proof (chunk_count_le cs (zlen P) Hcs ltac:(lia)). nia. }
      assert (HN : a * esz + zlen N = (b + 1) * esz).
      { pose proof (encodes_prefix enc P' patched_list (Z.to_nat (b + 1)) Hcs Hpe) as Hpp.
        fold cs esz in Hpp. rewrite Z2Nat.id in Hpp by lia. rewrite take_patched in Hpp.
        rewrite zlen_app, Hpre in Hpp. apply Hpp. lia. }
      rewrite HN. unfold f. rewrite <- (take_drop (Z.to_nat (b + 1)) (data <$> old)) at 2.
      rewrite concat_app. rewrite zdrop_app_eq; [done|].
      by rewrite zlen_old_prefix by lia.
    + assert (Hb : zlen old <= b + 1).
      { destruct Hold as [-> _]. fold cs.
        destruct (chunk_count_bounds cs (zlen P) Hcs ltac:(lia)) as [|[_ ->]]; nia. }
      rewrite drop_ge by (rewrite length_fmap; unfold zlen in *; lia). symmetry. apply zdrop_ge.
      pose proof (encodes_zlen enc P old Hold) as Hzo. pose proof (encodes_zlen enc P' _ Hpe) as Hzn.
      fold cs in Hzo, Hzn. assert (Hmono : layout_size cs P <= layout_size cs P').
      { apply layout_size_mono; [done|]. lia. }
      unfold f. rewrite Hzo. etrans; [exact Hmono|]. rewrite <- Hzn.
      unfold patched_list. rewrite Etr, !fmap_app, !concat_app, !zlen_app, fmap_take.
      rewrite (drop_ge old) by (unfold zlen in *; lia). cbn [fmap list_fmap concat]. rewrite (zlen_nil (A:=byte)), Z.add_0_r.
      apply Z.eq_le_incl. f_equal. exact Hpre.
Qed.
End EncodedWrite.
