(* ===== verification/FileRefine.v ===== *)
(** * The refinement of [FileHandler::write]

    [handler_ok hist P w]: the open file of the world [w] holds the plain text
    [P]; [hist] gives the server's encrypted file at each version.  A write is
    proved to take a handler that holds [P] to one that holds the spliced text,
    one version later, the server's buffers included, if it can encrypt the
    metadata anew ([renewable]). *)

From Stdlib Require Import ZArith Lia.
From stdpp Require Import base sets list.
From S2P Require Import Prelude Bytes CoreTypes Crypto CryptoSuite Dynamic Encryptors Dio FieldData KeyProvider FileMetaData.
From S2P Require Import ChunkCrypto HmacList StoreServer ChunkProvider ChunkReader FileHandler FileWrite.

Lemma iu64 z : 0 <= z < 2 ^ 63 -> i64 (u64 z) = z.
Proof. intros. rewrite wrap_id by lia. by apply i64_small. Qed.

(** ** Preparing the chunks *)
Section Prepare.
Context {C : CryptoService} {X : StoreServer} {CL : CryptoLaws C} {XL : StoreServerLaws X}.
Implicit Types w : fworld.
Import FileHandler.

(** What the handler's members say of the file. *)
Record handler_sizes (P : bytes) (f : bytes) w : Prop := {
  hs_plain : w.(w_fh).(_plainfileSize) = zlen P;
  hs_enc : w.(w_fh).(_encryptedFileSize) = zlen f;
  hs_version : w.(w_fh).(_version) = w.(w_env).(e_reader).(ChunkReader._version);
  hs_pcs : w.(w_fh).(_plainChunkSize) = plain_chunk_size w.(w_env);
  hs_ecs : w.(w_fh).(_encryptedChunkSize) = enc_size (plain_chunk_size w.(w_env));
  hs_fileId : w.(w_fh).(_fileInfo).(fi_fileId) = w.(w_env).(e_cdp).(ChunkDataProvider._fileId);
}.

(** A prepared chunk [j] of a write that takes [P] to [P'], [f] being the
    encrypted file before it and [last] telling the truncating chunk. *)
Record update_ok (enc : ChunkEncryptor.t) (P P' f : bytes) (last : bool) (j : Z)
    (u : UpdateChunkData) : Prop := {
  uo_index : u.(ud_chunkIndex) = j;
  uo_chunk : chunk_ok enc j (chunk_at enc.(ChunkEncryptor._chunkSize) P' j) u.(ud_chunk);
  uo_plain : u.(ud_plainfileSizeChange) =
    let cs := enc.(ChunkEncryptor._chunkSize) in
    if last then j * cs + zlen (chunk_at cs P' j) - Z.max (zlen P) (j * cs)
    else zlen (chunk_at cs P' j) - zlen (chunk_at cs P j);
  uo_enc : u.(ud_encryptedFileSizeChange) =
    let esz := enc_size enc.(ChunkEncryptor._chunkSize) in
    if last then j * esz + zlen u.(ud_chunk).(data) - Z.max (zlen f) (j * esz)
    else zlen u.(ud_chunk).(data) - zlen (slice (j * esz) esz f);
}.

(** The provider holds server chunk [n] of the reader's version. *)
Definition cached (e : env) (n : Z) : Prop :=
  e.(e_cdp).(ChunkDataProvider._lastServerChunkNumber) = Some n
  /\ e.(e_cdp).(ChunkDataProvider._fileVersion) = e.(e_reader).(ChunkReader._version).

(** Nothing but the caches and the generator moved. *)
Record prep_same w w' : Prop := {
  ps_fh : w'.(w_fh) = w.(w_fh);
  ps_env : env_same w.(w_env) w'.(w_env);
}.

Lemma prep_same_trans w1 w2 w3 : prep_same w1 w2 -> prep_same w2 w3 -> prep_same w1 w3.
Proof. intros [E1 S1] [E2 S2]. constructor; [congruence|by eapply env_same_trans]. Qed.

Lemma chunk_addressable_mono c i j : 0 <= i <= j ->
  0 < c.(ChunkDataProvider._encryptedChunkSize) -> chunk_addressable c j -> chunk_addressable c i.
Proof. intros Hij He [Hj Ha]. split; [lia|]. nia. Qed.

Lemma server_chunk_lt c i : cdp_wf c -> chunk_addressable c i -> server_chunk_of c i < 2 ^ 32 - 2.
Proof. intros [? ? _] [? ?]. apply Z.div_lt_upper_bound; lia. Qed.

Lemma addressable_bound (e : env) i :
  cdp_wf e.(e_cdp) -> e.(e_cdp).(ChunkDataProvider._encryptedChunkSize) = enc_size (plain_chunk_size e) ->
  0 < plain_chunk_size e < 2 ^ 31 -> chunk_addressable e.(e_cdp) i ->
  0 <= i * enc_size (plain_chunk_size e) < 2 ^ 63 - 2 ^ 32
  /\ 0 <= i * plain_chunk_size e < 2 ^ 63 - 2 ^ 32.
Proof.
  intros [Hesz Hscs Hdiv] Ee Hcs [Hi Ha]. rewrite Ee in *.
  pose proof (enc_size_bounds (plain_chunk_size e) ltac:(lia)).
  pose proof (mul_bound i (plain_chunk_size e) i (enc_size (plain_chunk_size e)) ltac:(lia) ltac:(lia)).
  set (scs := ChunkDataProvider._serverChunkSize (e_cdp e)) in *.
  assert ((2 ^ 32 - 2) * scs <= (2 ^ 32 - 2) * (2 ^ 31 - 1)) by (apply Z.mul_le_mono_nonneg_l; lia).
  change ((2 ^ 32 - 2) * (2 ^ 31 - 1)) with (2 ^ 63 - 2 ^ 32 - 2 ^ 32 + 2) in *. lia.
Qed.

Lemma createUpdateChunk_spec hist P w i off d tr :
  let e := w.(w_env) in
  let cs := plain_chunk_size e in
  let f := hist e.(e_reader).(ChunkReader._version) in
  file_view hist P e -> handler_sizes P f w ->
  0 <= i -> chunk_addressable e.(e_cdp) (i + 1) ->
  zlen P < 2 ^ 63 -> zlen f < 2 ^ 63 ->
  0 <= off <= zlen (chunk_at cs P i) -> off + zlen d <= cs ->
  exists w', prep_same w w' /\ file_view hist P w'.(w_env) /\
  ((exists c, let u := mkUpdate c i
      (let n := zlen (splice off d tr (chunk_at cs P i)) in
       if tr then i * cs + n - Z.max (zlen P) (i * cs) else n - zlen (chunk_at cs P i))
      (if tr then i * enc_size cs + zlen c.(data) - Z.max (zlen f) (i * enc_size cs)
       else zlen c.(data) - zlen (slice (i * enc_size cs) (enc_size cs) f)) in
    createUpdateChunk i off d tr w = (Ret u, w')
    /\ chunk_ok e.(e_enc) i (splice off d tr (chunk_at cs P i)) c
    /\ cached w'.(w_env) (server_chunk_of e.(e_cdp) i))
  \/ createUpdateChunk i off d tr w = (Throw FileVersionMismatchException, w') /\ stale e).
Proof.
  intros e cs f Hv Hs Hi Haddr HP Hf Hoff Hroom. pose proof (zlen_nonneg d).
  pose proof Hv as [Hcs Hwf Hesz Hcoh Hcur Hhash Henc Hcache Hadd].
  destruct Hs as [Hpl Hen Hver Hpcs Hecs _]. fold e in Hver, Hpcs, Hecs. fold cs in Hpcs, Hecs, Hcs, Hesz.
  pose proof (cw_esz _ Hwf) as Hpos. fold cs in Hpos.
  assert (Hai : chunk_addressable (e_cdp e) i) by (eapply chunk_addressable_mono; [|done|done]; lia).
  pose proof (addressable_bound e (i + 1) Hwf Hesz Hcs Haddr) as [Hb1 Hb2]. fold cs in Hb1, Hb2.
  unfold createUpdateChunk. fold e. rewrite Hpcs.
  rewrite (run_bind_ret _ _ w tt w).
  2:{ rewrite (proj2 (Z.ltb_ge _ _)) by lia. done. }
  destruct (getChunk_run hist (e_cdp e) (e_srv e) i (_version (w_fh w)))
    as (r & c' & Hrun & Hr & Hsame & Hcoh' & Hver'); try done.
  set (w1 := with_env (mkEnv _ (e_enc e) c' (e_hash e) (e_reader e) (e_srv e)) w).
  assert (Hfetch0 : in_env (on_provider (ChunkDataProvider.getChunkAt i (_version (w_fh w)))) w = (r, w1)).
  { unfold in_env, on_provider, zoom. fold e. by rewrite Hrun. }
  assert (Hps1 : prep_same w w1) by (constructor; [done|by repeat split; apply Hsame]).
  assert (Hv1 : file_view hist P (w_env w1)) by (by apply (file_view_provider hist P e c')).
  destruct Hr as [[-> Hnum]|[-> Hbad]].
  2:{ exists w1. split; [done|]. split; [done|]. right. split; [by rewrite (run_bind_throw _ _ _ _ _ Hfetch0)|].
      unfold stale. by rewrite <- Hver. }
  assert (Hfetch : in_env (on_provider (ChunkDataProvider.getChunkAt i (_version (w_fh w)))) w
    = (Ret (slice (i * enc_size cs) (enc_size cs) f), w1)).
  { rewrite Hfetch0, Hesz. unfold f. by rewrite Hver. }
  rewrite (run_bind_ret _ _ _ _ _ Hfetch).
  assert (Hprev : (if zlen (slice (i * enc_size cs) (enc_size cs) f) =? 0 then mret [] else
      h ← in_env (on_hashes (HmacList.getHash i));
      lift (ChunkEncryptor.decrypt (e_enc e) i (mkChunk (slice (i * enc_size cs) (enc_size cs) f) h))) w1
    = (Ret (chunk_at cs P i), w1)).
  { destruct (Z.lt_ge_cases i (chunk_count cs (zlen P))) as [Hlt|Hge].
    - destruct (stored_chunk hist P e i Hv ltac:(fold cs; lia)) as (k & Hslice & (Hdec & Hlen & _) & Hh).
      fold cs f in Hslice, Hdec. rewrite Hslice.
      pose proof (enc_size_bounds (zlen (chunk_at cs P i)) ltac:(apply zlen_nonneg)).
      rewrite (proj2 (Z.eqb_neq _ _)) by (rewrite Hlen; fold cs; pose proof (zlen_nonneg (chunk_at cs P i)); lia).
      rewrite (run_bind_ret _ _ w1 (hmac k) w1).
      2:{ unfold in_env, on_hashes, zoom, w1. cbn. by rewrite Hh. }
      unfold lift. assert (mkChunk (data k) (hmac k) = k) as -> by (by destruct k). by rewrite Hdec.
    - destruct (no_stored_chunk hist P e i Hv ltac:(done)) as [Hn1 Hn2]. fold cs f in Hn1, Hn2.
      by rewrite Hn1, Hn2. }
  rewrite (run_bind_ret _ _ _ _ _ Hprev).
  rewrite (run_bind_ret _ _ w1 (splice off d tr (chunk_at cs P i)) w1).
  2:{ unfold lift. by rewrite patch_spec. }
  set (nw := splice off d tr (chunk_at cs P i)).
  destruct (encrypt_decrypt (e_enc e) i nw (w_rng w1)) as (c & g & Henc' & Hhm & Hdat & Hdec).
  assert (Hrng : in_rng (ChunkEncryptor.encrypt (e_enc e) i nw) w1 = (Ret c, with_rng g w1)).
  { unfold in_rng, zoom. by rewrite Henc'. }
  rewrite (run_bind_ret _ _ _ _ _ Hrng).
  exists (with_rng g w1). split; [by destruct Hps1; constructor|]. split; [done|]. left. exists c. cbv zeta.
  assert (Hnw : 0 <= zlen nw <= cs).
  { unfold nw. rewrite zlen_splice by done. pose proof (zlen_chunk_at cs P i ltac:(lia) Hi).
    destruct tr; lia. }
  pose proof (enc_size_mono _ _ Hnw). pose proof (enc_size_bounds cs ltac:(lia)).
  pose proof (enc_size_bounds (zlen nw) ltac:(lia)).
  split; [|split; [done|split; [done|cbn; by rewrite Hver', Hver]]].
  unfold mret, st_ret. do 3 f_equal; rewrite ?Hpl, ?Hen, ?Hecs; destruct tr; try done.
  - rewrite !iu64 by lia. rewrite i64_small by (pose proof (zlen_nonneg P); lia). done.
  - rewrite !iu64 by lia. rewrite i64_small by (pose proof (zlen_nonneg f); lia). done.
Qed.

(** The plain and encrypted bounds a write of [D] at [o] stays under. *)
Record write_fits (o : Z) (D : bytes) (P f : bytes) (e : env) : Prop := {
  wf_plain : zlen P < 2 ^ 63;
  wf_enc : zlen f < 2 ^ 63;
  wf_pos : 0 <= o <= zlen P;
  wf_data : 0 < zlen D < 2 ^ 63;
  wf_addr : chunk_addressable e.(e_cdp) (last_chunk (plain_chunk_size e) o D + 1);
}.

Lemma prep_same_sizes P f w w' : prep_same w w' -> handler_sizes P f w -> handler_sizes P f w'.
Proof.
  intros [Efh (Ee & Eh & Es & (E1 & E2 & E3 & E4) & Ev)] [].
  constructor; rewrite ?Efh, ?Ev; unfold plain_chunk_size in *; rewrite ?Ee, ?E3; done.
Qed.

Lemma prepare_chunks_run hist P o D tr a : forall (n : nat) i sent w,
  let e := w.(w_env) in
  let cs := plain_chunk_size e in
  let f := hist e.(e_reader).(ChunkReader._version) in
  let b := last_chunk cs o D in
  a = first_chunk cs o ->
  file_view hist P e -> handler_sizes P f w -> write_fits o D P f e ->
  a <= i -> i + Z.of_nat n = b + 1 -> (n <> 0%nat -> sent = sent_before cs o i) ->
  exists w', prep_same w w' /\ file_view hist P w'.(w_env) /\
  ((exists us, prepare_chunks D o a b tr (seqZ i (Z.of_nat n)) sent w = (Ret us, w')
    /\ length us = n
    /\ (forall k u, us !! k = Some u ->
          let j := i + Z.of_nat k in
          update_ok e.(e_enc) P (splice o D tr P) f (if j =? b then tr else false) j u)
    /\ (n <> 0%nat -> cached w'.(w_env) (server_chunk_of e.(e_cdp) b)))
  \/ prepare_chunks D o a b tr (seqZ i (Z.of_nat n)) sent w = (Throw FileVersionMismatchException, w')
     /\ stale e).
Proof.
  induction n as [|n IH]; intros i sent w e cs f b Ha Hv Hs Hfit Hi Hn Hsent.
  { exists w. split; [constructor; [done|apply env_same_refl]|]. split; [done|]. left. by exists []. }
  rewrite seqZ_cons by lia. replace (Z.pred (Z.of_nat (S n))) with (Z.of_nat n) by lia.
  cbn [prepare_chunks]. rewrite Hsent by done. clear Hsent sent.
  pose proof Hfit as [HP Hf Ho [HD0 HD] Haddr]. fold e cs in Haddr.
  pose proof (fv_cs _ _ _ Hv) as Hcs. fold cs in Hcs. pose proof (fv_wf _ _ _ Hv) as Hwf.
  pose proof (hs_pcs _ _ _ Hs) as Hpcs. fold e cs in Hpcs.
  pose proof (write_bounds cs o D P ltac:(lia) Ho HD0) as (E & Hm & Hl & Hab).
  fold b in Hl, Hab, Haddr. rewrite <- Ha in Hab, E.
  destruct (sent_bounds cs o D P ltac:(lia) Ho HD0 i) as (Hsb & Hcb & Hsc); [rewrite <- Ha; fold b; lia|].
  assert (Hoff : (if i =? a then o mod ChunkEncryptor.getPlainChunkSize (e_enc (w_env w)) else 0)
    = chunk_off cs o i) by (unfold chunk_off; by rewrite Ha).
  assert (Hroom : (if i =? a then _plainChunkSize (w_fh w) - o mod _plainChunkSize (w_fh w)
    else _plainChunkSize (w_fh w)) = cs - chunk_off cs o i).
  { rewrite Hpcs. unfold chunk_off. rewrite <- Ha. destruct (i =? a); lia. }
  rewrite Hoff, Hroom.
  rewrite (run_bind_ret _ _ w (piece cs o D i) w).
  2:{ unfold lift. rewrite substr_ret by lia. done. }
  assert (Hia : first_chunk cs o <= i <= last_chunk cs o D) by (rewrite <- Ha; fold b; lia).
  pose proof (zlen_piece cs o D P ltac:(lia) Ho HD0 i Hia) as Hzp.
  set (t := if i =? b then tr else false).
  destruct (createUpdateChunk_spec hist P w i (chunk_off cs o i) (piece cs o D i) t)
    as (w1 & Hps & Hv1 & Hres); fold e; fold cs; fold f; try done.
  { lia. }
  { eapply chunk_addressable_mono; [|apply Hwf|done]. lia. }
  { split; [lia|]. apply (chunk_off_le cs o D P); try done; lia. }
  { rewrite Hzp. lia. }
  fold e cs f in Hres. destruct Hres as [(c & Hrun & Hok & Hnum)|[Hrun Hst]].
  2:{ exists w1. split; [done|]. split; [done|]. right. by rewrite (run_bind_throw _ _ _ _ _ Hrun). }
  rewrite (run_bind_ret _ _ _ _ _ Hrun).
  pose proof (patched_chunk cs o D tr P ltac:(lia) Ho HD0 i Hia) as Hpc.
  fold b t in Hpc. rewrite Hpc in Hok.
  pose proof Hps as [Efh (Ee & _ & _ & (Ec1 & Ec2 & _) & Ev)]. fold e in Ee, Ec1, Ec2, Ev.
  assert (Ecs : plain_chunk_size (w_env w1) = cs) by (unfold cs, plain_chunk_size; by rewrite Ee).
  destruct (IH (i + 1) (u64 (sent_before cs o i + zlen (piece cs o D i))) w1)
    as (w2 & Hps2 & Hv2 & Hres2); rewrite ?Ecs, ?Ev, ?Ee; try done.
  { by apply (prep_same_sizes P f w). }
  { constructor; try done. rewrite Ecs. fold b. unfold chunk_addressable in *. by rewrite Ec1, Ec2. }
  { lia. }
  { fold b. lia. }
  { intros Hn0. destruct (sent_next cs o D P ltac:(lia) Ho HD0 i) as [<- _]; [rewrite <- Ha; fold b; lia|].
    apply wrap_id. lia. }
  rewrite Ecs, Ee, Ev in *. fold b f in Hres2.
  exists w2. split; [by eapply prep_same_trans|]. split; [done|].
  destruct Hres2 as [(us & Hrun2 & Hlen & Hus & Hnum2)|[Hrun2 Hst]].
  2:{ right. rewrite (run_bind_throw _ _ _ _ _ Hrun2). split; [done|].
      by apply (stale_same e (w_env w1)); [apply Hps|]. }
  left. rewrite (run_bind_ret _ _ _ _ _ Hrun2). eexists (_ :: us). split; [done|].
  split; [simpl; by rewrite Hlen|]. split.
  - intros [|k] u Hk; cbn in Hk.
    + injection Hk as <-. rewrite Z.add_0_r. fold t.
      rewrite Hpc. constructor; fold cs; try done; cbn; by destruct t.
    + specialize (Hus k u Hk). cbv zeta in Hus |- *.
      replace (i + Z.of_nat (S k)) with (i + 1 + Z.of_nat k) by lia. done.
  - intros _. destruct n as [|n].
    + simpl in Hrun2. injection Hrun2 as <- <-. by replace b with i by lia.
    + destruct (Hnum2 ltac:(done)) as [Hn2 Hv2']. split; [|done]. rewrite Hn2.
      unfold server_chunk_of. by rewrite Ec1, Ec2.
Qed.
End Prepare.

(** ** Recording the checksums *)
Section Checksums.
Context {C : CryptoService} {X : StoreServer}.
Implicit Types w : fworld.
Import FileHandler.

Definition with_hash (h : HmacList.t) w : fworld :=
  let e := w.(w_env) in
  with_env (mkEnv _ e.(e_enc) e.(e_cdp) h e.(e_reader) e.(e_srv)) w.

(** The sizes [update_hashes] accumulates. *)
Definition acc_sizes (us : list UpdateChunkData) (sizes : Z * Z) : Z * Z :=
  fold_left (fun s u => (u64 (s.1 + u.(ud_plainfileSizeChange)),
                         u64 (s.2 + u.(ud_encryptedFileSizeChange)))) us sizes.

Definition checksums_of (us : list UpdateChunkData) : list bytes := (fun u => u.(ud_chunk).(hmac)) <$> us.

Lemma update_hashes_run tr us : forall w pre suf sizes,
  let h := w.(w_env).(e_hash) in
  us <> [] -> hmac_list_ok h -> entries h = pre ++ suf ->
  (forall k u, us !! k = Some u -> u.(ud_chunkIndex) = zlen pre + Z.of_nat k
     /\ zlen u.(ud_chunk).(hmac) = HMAC_SIZE) ->
  HMAC_SIZE * (zlen pre + Z.max (zlen us) (zlen suf) + 2) < 2 ^ 64 ->
  exists h', update_hashes tr us sizes w = (Ret (acc_sizes us sizes), with_hash h' w)
    /\ hmac_list_ok h' /\ h'.(HmacList._topHashKey) = h.(HmacList._topHashKey)
    /\ entries h' = pre ++ checksums_of us ++ (if tr then [] else drop (length us) suf).
Proof.
  induction us as [|u us IH]; intros w pre suf sizes h Hne Hok He Hus Hb; [done|].
  destruct (Hus 0%nat u eq_refl) as [Hi Hh]. rewrite Z.add_0_r in Hi.
  assert (Hz : zlen (HmacList._hashes h) = HMAC_SIZE * (zlen pre + zlen suf)).
  { pose proof (zlen_entries _ Hok) as Hze. rewrite He, zlen_app in Hze. rewrite (hlo_len _ Hok). lia. }
  rewrite zlen_cons in Hb. pose proof (zlen_nonneg us). pose proof (zlen_nonneg suf). unfold HMAC_SIZE in *.
  destruct (set_entries h pre suf (hmac (ud_chunk u)) (match us with [] => tr | _ => false end) Hok He Hh)
    as (h1 & Hset & Hok1 & He1 & Hk1); [unfold HMAC_SIZE; lia|].
  cbn [update_hashes].
  assert (Hrun : in_env (on_hashes (HmacList.set (ud_chunkIndex u) (hmac (ud_chunk u))
    (match us with [] => tr | _ => false end))) w = (Ret tt, with_hash h1 w)).
  { unfold in_env, on_hashes, zoom. rewrite Hi. fold h. by rewrite Hset. }
  rewrite (run_bind_ret _ _ _ _ _ Hrun).
  destruct us as [|u2 us].
  - exists h1. split; [done|]. split; [done|]. split; [done|]. rewrite He1. cbn.
    by destruct tr, suf; rewrite ?drop_0.
  - destruct (IH (with_hash h1 w) (pre ++ [hmac (ud_chunk u)]) (tail suf)
      (u64 (sizes.1 + ud_plainfileSizeChange u), u64 (sizes.2 + ud_encryptedFileSizeChange u)))
      as (h' & Hr & Hok' & Hk' & He'); try done.
    + cbn. rewrite He1. by rewrite <- app_assoc.
    + intros k v Hv. destruct (Hus (S k) v Hv) as [Hv1 Hv2]. split; [|done].
      rewrite zlen_app, zlen_cons, zlen_nil. lia.
    + rewrite zlen_app, !zlen_cons, zlen_nil in *.
      assert (zlen (tail suf) = Z.max 0 (zlen suf - 1)).
      { destruct suf as [|x suf]; [done|]. cbn [tail]. rewrite zlen_cons in *. pose proof (zlen_nonneg suf). lia. }
      lia.
    + exists h'. rewrite Hr. split; [done|]. split; [done|]. split; [by rewrite Hk', <- Hk1|].
      rewrite He', <- app_assoc. cbn. do 3 f_equal. by destruct tr, suf; rewrite ?drop_nil.
Qed.

(** One step of the accumulated sizes: [s] is the size reached before chunk
    [i] when the sizes before and after the whole write are [n] and [n']. *)
Lemma size_step n n' c i : 0 < c -> 0 <= i -> 0 <= n -> (i + 1) * c <= n' ->
  Z.max n (i * c) + (Z.min c (Z.max 0 (n' - i * c)) - Z.min c (Z.max 0 (n - i * c)))
  = Z.max n ((i + 1) * c).
Proof. intros. rewrite Z.mul_add_distr_r, Z.mul_1_l in *. lia. Qed.

Lemma size_last n n' c i : 0 < c -> 0 <= i -> 0 <= n <= n' -> i * c <= n' ->
  n' <= (i + 1) * c \/ n' = n ->
  Z.max n (i * c) + (Z.min c (Z.max 0 (n' - i * c)) - Z.min c (Z.max 0 (n - i * c))) = n'.
Proof. intros. rewrite Z.mul_add_distr_r, Z.mul_1_l in *. lia. Qed.

(** The bytes of chunk [j] of a file of [n] bytes in chunks of [c]. *)
Definition chunk_len (n c j : Z) : Z := Z.min c (Z.max 0 (n - j * c)).

(** How the sizes [n] before and [n'] after a write ending in chunk [b] relate. *)
Record size_facts (c n n' b : Z) (tr : bool) : Prop := {
  sf_pos : 0 < c;
  sf_range : 0 <= n < 2 ^ 63 /\ n' < 2 ^ 63;
  sf_reach : b * c <= n';
  sf_cut : tr = true -> n' <= (b + 1) * c;
  sf_keep : tr = false -> n <= n' /\ (n' <= (b + 1) * c \/ n' = n);
}.

Definition size_change (c n n' b : Z) (tr : bool) (j : Z) : Z :=
  if if j =? b then tr else false
  then j * c + chunk_len n' c j - Z.max n (j * c)
  else chunk_len n' c j - chunk_len n c j.

Lemma size_change_step c n n' b tr j : size_facts c n n' b tr -> 0 <= j <= b ->
  u64 (Z.max n (j * c) + size_change c n n' b tr j) = if j =? b then n' else Z.max n ((j + 1) * c).
Proof.
  intros [Hc Hr Hre Hcut Hkeep] Hj. unfold size_change, chunk_len.
  pose proof (Z.mul_le_mono_nonneg_r j b c ltac:(lia) ltac:(lia)).
  destruct (Z.eqb_spec j b) as [->|Hne]; [destruct tr|].
  - specialize (Hcut eq_refl). rewrite Z.mul_add_distr_r, Z.mul_1_l in Hcut. rewrite wrap_id by lia. lia.
  - destruct (Hkeep eq_refl). rewrite size_last by lia. apply wrap_id. lia.
  - pose proof (Z.mul_le_mono_nonneg_r (j + 1) b c ltac:(lia) ltac:(lia)).
    rewrite size_step by lia. apply wrap_id. nia.
Qed.

Lemma acc_sizes_run cs n n' esz m m' b tr us : forall i,
  size_facts cs n n' b tr -> size_facts esz m m' b tr ->
  0 <= i -> us <> [] -> i + zlen us = b + 1 ->
  (forall k u, us !! k = Some u ->
     u.(ud_plainfileSizeChange) = size_change cs n n' b tr (i + Z.of_nat k)
     /\ u.(ud_encryptedFileSizeChange) = size_change esz m m' b tr (i + Z.of_nat k)) ->
  acc_sizes us (Z.max n (i * cs), Z.max m (i * esz)) = (n', m').
Proof.
  induction us as [|u us IH]; intros i Hn Hm Hi Hne Hlen Hus; [done|].
  destruct (Hus 0%nat u eq_refl) as [E1 E2]. rewrite Z.add_0_r in E1, E2.
  rewrite zlen_cons in Hlen. pose proof (zlen_nonneg us).
  unfold acc_sizes. cbn. rewrite E1, E2, !size_change_step by (done || lia).
  destruct us as [|u2 us].
  - rewrite zlen_nil in Hlen. by rewrite (proj2 (Z.eqb_eq i b)) by lia.
  - rewrite zlen_cons in *. pose proof (zlen_nonneg us). rewrite (proj2 (Z.eqb_neq i b)) by lia.
    apply (IH (i + 1)); try (done || lia).
    intros k v Hv. replace (i + 1 + Z.of_nat k) with (i + Z.of_nat (S k)) by lia. by apply Hus.
Qed.

(** ** One change *)

(** Adjacent chunks within the size limit are sent as one change. *)
Lemma squash_one self us : forall cur,
  let esz := self.(_encryptedChunkSize) in
  0 < esz ->
  (forall k u, us !! k = Some u ->
     u64 (cur.(uc_dataPos) + zlen (cur.(uc_data) ++ concat ((data ∘ ud_chunk) <$> take k us)))
     = u64 (u.(ud_chunkIndex) * esz)) ->
  zlen (cur.(uc_data) ++ concat ((data ∘ ud_chunk) <$> us)) < SERVER_OPERATION_SIZE_LIMIT ->
  squash_into self cur us =
    [mkChanges (cur.(uc_data) ++ concat ((data ∘ ud_chunk) <$> us)) cur.(uc_dataPos)
               (cur.(uc_checksum) ++ concat (checksums_of us)) cur.(uc_checksumPos)].
Proof.
  induction us as [|u us IH]; intros cur esz Hesz Hus Hlim; cbn [squash_into].
  { cbn. rewrite !app_nil_r. by destruct cur. }
  cbn in Hlim. rewrite !zlen_app in Hlim. pose proof (zlen_nonneg (concat ((data ∘ ud_chunk) <$> us))).
  pose proof (Hus 0%nat u eq_refl) as H0. cbn in H0. rewrite app_nil_r in H0. rewrite H0, Z.eqb_refl.
  rewrite (proj2 (Z.ltb_lt _ _)) by lia. cbn [andb].
  rewrite IH; cbn; rewrite <- ?app_assoc; try done.
  - intros k v Hv. rewrite <- app_assoc. by apply (Hus (S k)).
  - rewrite !zlen_app. lia.
Qed.
End Checksums.

(** ** Bringing the caches up to date *)
Section Caches.
Context {C : CryptoService} {X : StoreServer}.
Implicit Types w : fworld.
Import FileHandler.

(** [ChunkDataProvider::update] splices the cached server chunk when the
    written chunk lies in it, and only moves the version otherwise. *)
Lemma provider_update_spec (c : ChunkDataProvider.t) v i d size tr :
  let esz := c.(ChunkDataProvider._encryptedChunkSize) in
  let scs := c.(ChunkDataProvider._serverChunkSize) in
  let pos := i * esz - server_chunk_of c i * scs in
  cdp_wf c -> chunk_addressable c i -> zlen d <= esz -> 0 <= size < 2 ^ 64 ->
  (c.(ChunkDataProvider._lastServerChunkNumber) = Some (server_chunk_of c i) ->
     pos <= zlen c.(ChunkDataProvider._lastServerChunk)) ->
  ChunkDataProvider.update v i d size tr c =
    (Ret tt, ChunkDataProvider.mk esz scs c.(ChunkDataProvider._fileId) size v
      (if decide (c.(ChunkDataProvider._lastServerChunkNumber) = Some (server_chunk_of c i))
       then splice pos d tr c.(ChunkDataProvider._lastServerChunk)
       else c.(ChunkDataProvider._lastServerChunk))
      c.(ChunkDataProvider._lastServerChunkNumber))
  /\ 0 <= pos /\ pos + esz <= scs.
Proof.
  intros esz scs pos [Hesz Hscs Hdiv] [Hi Ha] Hd Hsize Hpos. fold esz scs in Hesz, Hscs, Hdiv, Ha.
  destruct (chunk_in_server_chunk esz scs i Hesz ltac:(lia) Hdiv ltac:(lia)) as [Hin Hsplit].
  pose proof (Z.mod_pos_bound (esz * i) scs ltac:(lia)) as Hm.
  pose proof (zlen_nonneg d). unfold server_chunk_of in *. fold esz scs in pos, Hpos |- *.
  assert (Epos : (esz * i) mod scs = pos) by (unfold pos; lia).
  split; [|lia]. unfold ChunkDataProvider.update. fold esz scs.
  rewrite (wrap_id 32 i) by lia. rewrite (wrap_id 64 (esz * i)) by nia.
  rewrite (wrap_id 64 size) by done. rewrite Epos.
  destruct (decide _) as [Hn|Hn].
  - rewrite bool_decide_eq_true_2 by done. specialize (Hpos Hn).
    rewrite substr_ret by lia. unfold slice. rewrite zdrop_0. rewrite wrap_id by lia.
    unfold splice. do 5 f_equal. destruct tr; [done|]. cbn.
    destruct (Z.ltb_spec (pos + zlen d) (zlen (ChunkDataProvider._lastServerChunk c))); [done|].
    by rewrite zdrop_ge.
  - by rewrite bool_decide_eq_false_2.
Qed.

Definition reader_forgets (js : list Z) (last : option (bytes * Z)) : option (bytes * Z) :=
  match last with
  | Some (d, j) => if decide (j ∈ js) then None else Some (d, j)
  | None => None
  end.

Lemma reader_update_forgets v i r : ChunkReader.update v i r
  = (Ret tt, ChunkReader.mk r.(ChunkReader._chunkSize) v (reader_forgets [i] r.(ChunkReader._lastChunk))).
Proof.
  unfold ChunkReader.update, modify, reader_forgets.
  destruct (ChunkReader._lastChunk r) as [[x j]|]; [|done].
  destruct (Z.eqb_spec j i); case_decide; (done || set_solver).
Qed.

Lemma reader_forgets_cons i js last :
  reader_forgets js (reader_forgets [i] last) = reader_forgets (i :: js) last.
Proof. destruct last as [[x j]|]; [|done]. unfold reader_forgets. repeat case_decide; (done || set_solver). Qed.

Lemma refresh_caches_run tr f a b us : forall i done t w,
  let e := w.(w_env) in
  let c := e.(e_cdp) in
  let esz := c.(ChunkDataProvider._encryptedChunkSize) in
  let scs := c.(ChunkDataProvider._serverChunkSize) in
  let n := server_chunk_of c b in
  us <> [] -> 0 <= a <= i -> i + zlen us = b + 1 -> a * esz <= zlen f ->
  cdp_wf c -> chunk_addressable c b ->
  0 <= w.(w_fh).(_encryptedFileSize) < 2 ^ 64 ->
  (forall k u, us !! k = Some u -> u.(ud_chunkIndex) = i + Z.of_nat k
     /\ zlen u.(ud_chunk).(data) <= esz
     /\ (i + Z.of_nat k < b -> zlen u.(ud_chunk).(data) = esz)) ->
  c.(ChunkDataProvider._lastServerChunkNumber) = Some n ->
  a * esz + zlen done = i * esz ->
  (t = true -> tr = true /\ server_chunk_of c i = n) ->
  c.(ChunkDataProvider._lastServerChunk) = slice (n * scs) scs (splice (a * esz) done t f) ->
  refresh_caches us tr w =
    (Ret tt, with_env (mkEnv _ e.(e_enc)
      (ChunkDataProvider.mk esz scs c.(ChunkDataProvider._fileId) w.(w_fh).(_encryptedFileSize)
         w.(w_fh).(_version)
         (slice (n * scs) scs (splice (a * esz) (done ++ concat ((data ∘ ud_chunk) <$> us)) tr f)) (Some n))
      e.(e_hash)
      (ChunkReader.mk e.(e_reader).(ChunkReader._chunkSize) w.(w_fh).(_version)
         (reader_forgets (ud_chunkIndex <$> us) e.(e_reader).(ChunkReader._lastChunk)))
      e.(e_srv)) w).
Proof.
  induction us as [|u us IH]; intros i dn t w e c esz scs n Hne Hi Hlen Haf Hwf Hab Hsize Hus Hnum Hdn Ht Hlast;
    [done|].
  destruct (Hus 0%nat u eq_refl) as (Hidx & Hd & Hfull). rewrite Z.add_0_r in Hidx, Hfull.
  rewrite zlen_cons in Hlen. pose proof (zlen_nonneg us). pose proof (zlen_nonneg dn).
  pose proof (cw_esz _ Hwf) as Hesz. pose proof (cw_scs _ Hwf) as Hscs. fold esz in Hesz. fold scs in Hscs.
  assert (Hai : chunk_addressable c i) by (eapply chunk_addressable_mono; [|done|done]; lia).
  assert (Hle : server_chunk_of c i <= n).
  { unfold n, server_chunk_of. apply Z.div_le_mono; fold esz scs; nia. }
  assert (Hnn : 0 <= server_chunk_of c i).
  { unfold server_chunk_of. apply Z.div_pos; fold esz scs; nia. }
  set (d := data (ud_chunk u)) in *. pose proof (zlen_nonneg d).
  set (G := splice (a * esz) dn t f) in *.
  assert (HG : i * esz <= zlen G).
  { unfold G. rewrite zlen_splice by nia. destruct t; lia. }
  destruct (provider_update_spec c (_version (w_fh w)) i d (_encryptedFileSize (w_fh w)) tr Hwf Hai)
    as (Hupd & Hp0 & Hp1); try done.
  { fold esz scs. rewrite Hnum, Hlast. intros [= Hn]. rewrite Hn.
    destruct (chunk_in_server_chunk esz scs i Hesz ltac:(lia) (cw_div _ Hwf) ltac:(lia)) as [Hin Hsplit].
    pose proof (Z.mod_pos_bound (esz * i) scs ltac:(lia)).
    unfold server_chunk_of in *. fold esz scs in Hnn |- *. rewrite zlen_slice by nia. lia. }
  fold esz scs in Hupd, Hp0, Hp1. rewrite Hnum, Hlast in Hupd.
  set (t' := if decide (server_chunk_of c i = n) then tr else false).
  assert (Hcache : (if decide (Some n = Some (server_chunk_of c i))
      then splice (i * esz - server_chunk_of c i * scs) d tr (slice (n * scs) scs G)
      else slice (n * scs) scs G) = slice (n * scs) scs (splice (a * esz) (dn ++ d) t' f)).
  { assert (Hss : splice (i * esz) d t' G = splice (a * esz) (dn ++ d) t' f).
    { rewrite <- Hdn. apply splice_splice; [nia|]. intros E. destruct (Ht E) as [-> Hn].
      unfold t'. by rewrite decide_True. }
    rewrite <- Hss. unfold t'. destruct (decide (server_chunk_of c i = n)) as [E|E].
    - rewrite decide_True by congruence. rewrite <- E. rewrite slice_splice_inside; [done| | |]; nia.
    - rewrite decide_False by congruence.
      pose proof (Z.mul_le_mono_nonneg_r (server_chunk_of c i + 1) n scs ltac:(lia) ltac:(lia)).
      rewrite slice_splice_after; [done|split; nia|lia|lia]. }
  set (c1 := ChunkDataProvider.mk esz scs (ChunkDataProvider._fileId c)
    (_encryptedFileSize (w_fh w)) (_version (w_fh w))
    (slice (n * scs) scs (splice (a * esz) (dn ++ d) t' f)) (Some n)).
  assert (Hupd' : ChunkDataProvider.update (_version (w_fh w)) i d (_encryptedFileSize (w_fh w)) tr c
    = (Ret tt, c1)) by (rewrite Hupd; unfold c1; by rewrite <- Hcache).
  cbn [refresh_caches].
  set (w1 := with_env (mkEnv _ (e_enc e) c1 (e_hash e)
    (ChunkReader.mk (ChunkReader._chunkSize (e_reader e)) (_version (w_fh w))
       (reader_forgets [i] (ChunkReader._lastChunk (e_reader e)))) (e_srv e)) w).
  assert (Hstep : (_ ← in_env (provider_update (_version (w_fh w)) (ud_chunkIndex u) (data (ud_chunk u))
             (_encryptedFileSize (w_fh w)) tr);
       _ ← in_env (on_reader (ChunkReader.update (_version (w_fh w)) (ud_chunkIndex u)));
       refresh_caches us tr) w = refresh_caches us tr w1).
  { fold d. rewrite Hidx.
    rewrite (run_bind_ret _ _ w tt (with_env (mkEnv _ (e_enc e) c1 (e_hash e) (e_reader e) (e_srv e)) w)).
    2:{ unfold in_env, provider_update, on_provider, zoom. fold e. cbn [fst snd]. fold c. by rewrite Hupd'. }
    rewrite (run_bind_ret _ _ _ tt w1); [done|].
    unfold in_env, on_reader, zoom. by rewrite reader_update_forgets. }
  rewrite Hstep. destruct us as [|u2 us].
  - rewrite zlen_nil in Hlen. assert (i = b) as -> by lia. cbn [refresh_caches].
    assert (t' = tr) as -> by (unfold t', n; by rewrite decide_True).
    cbn. rewrite app_nil_r, Hidx. fold d. done.
  - rewrite zlen_cons in Hlen. pose proof (zlen_nonneg us).
    specialize (Hfull ltac:(lia)).
    assert (Ht' : t' = true -> tr = true /\ server_chunk_of c (i + 1) = n).
    { unfold t'. destruct (decide (server_chunk_of c i = n)) as [E|]; [|done]. intros ->. split; [done|].
      assert (server_chunk_of c (i + 1) <= n) by (unfold n, server_chunk_of; apply Z.div_le_mono; fold esz scs; nia).
      assert (server_chunk_of c i <= server_chunk_of c (i + 1))
        by (unfold server_chunk_of; apply Z.div_le_mono; fold esz scs; nia). lia. }
    rewrite (IH (i + 1) (dn ++ d) t' w1); try done.
    + cbn. by rewrite reader_forgets_cons, Hidx, <- app_assoc.
    + lia.
    + cbn. rewrite zlen_cons. lia.
    + by destruct Hwf.
    + intros k v Hv. replace (i + 1 + Z.of_nat k) with (i + Z.of_nat (S k)) by lia. by apply Hus.
    + cbn. fold esz. rewrite zlen_app. lia.
Qed.
End Caches.

(** ** Buffers of equal pieces *)
Lemma concat_take_const {A} (l : list (list A)) n (k : nat) : 0 <= n ->
  (forall x, x ∈ l -> zlen x = n) -> (k <= length l)%nat ->
  ztake (Z.of_nat k * n) (concat l) = concat (take k l)
  /\ zdrop (Z.of_nat k * n) (concat l) = concat (drop k l).
Proof.
  intros Hn Hall Hk.
  assert (Hz : zlen (concat (take k l)) = Z.of_nat k * n).
  { rewrite (zlen_concat_const _ n).
    - unfold zlen. rewrite length_take. f_equal. lia.
    - intros x Hx. apply Hall. by eapply subseteq_take. }
  rewrite <- (take_drop k l) at 1 3. rewrite concat_app.
  by rewrite ztake_app_eq, zdrop_app_eq.
Qed.

Lemma zlen_concat_le {A} (l : list (list A)) n :
  (forall x, x ∈ l -> zlen x <= n) -> zlen (concat l) <= zlen l * n.
Proof.
  induction l as [|x l IH]; intros Hall; [done|]. cbn. rewrite zlen_app, zlen_cons.
  pose proof (Hall x ltac:(constructor)). pose proof (IH (fun y Hy => Hall y ltac:(by constructor))). lia.
Qed.

Lemma zlen_concat_take {A} (l : list (list A)) (k : nat) :
  zlen (concat (take k l)) <= zlen (concat l).
Proof.
  rewrite <- (take_drop k l) at 2. rewrite concat_app, zlen_app.
  pose proof (zlen_nonneg (concat (drop k l))). lia.
Qed.

(** Splicing whole pieces is splicing the list of pieces. *)
Lemma splice_concat_const {A} (pre suf new : list (list A)) n tr : 0 <= n ->
  (forall x, x ∈ pre ++ suf -> zlen x = n) -> (forall x, x ∈ new -> zlen x = n) ->
  splice (zlen pre * n) (concat new) tr (concat (pre ++ suf))
  = concat (pre ++ new ++ (if tr then [] else drop (length new) suf)).
Proof.
  intros Hn Hold Hnew. unfold splice.
  rewrite (zlen_concat_const new n Hnew), <- Z.mul_add_distr_r.
  destruct (concat_take_const (pre ++ suf) n (length pre) Hn Hold) as [Ht _];
    [rewrite length_app; lia|].
  rewrite take_app_length in Ht. unfold zlen in *. rewrite Ht, (concat_app pre (new ++ _)), (concat_app new). do 2 f_equal.
  destruct tr; [done|].
  destruct (decide (length pre + length new <= length (pre ++ suf))%nat) as [Hle|Hgt].
  - destruct (concat_take_const (pre ++ suf) n (length pre + length new) Hn Hold Hle) as [_ Hd].
    rewrite <- Nat2Z.inj_add, Hd. f_equal. by rewrite drop_app_add'.
  - rewrite length_app in Hgt. rewrite (drop_ge suf) by lia. apply zdrop_ge.
    rewrite (zlen_concat_const (pre ++ suf) n Hold). unfold zlen. rewrite length_app. nia.
Qed.

(** ** The refinement *)
Section Write.
Context {C : CryptoService} {X : StoreServer} {CL : CryptoLaws C} {XL : StoreServerLaws X}.
Implicit Types w : fworld.
Import FileHandler.

(** The abstract write: grow the text with zeros up to the offset, then splice. *)
Definition file_write (offset : Z) (d : bytes) (truncate : bool) (P : bytes) : bytes :=
  splice offset d truncate (P ++ zeros (offset - zlen P)).

(** The layout constants of an open file. *)
Definition geometry w : Z * Z * Z :=
  (plain_chunk_size w.(w_env), w.(w_env).(e_cdp).(ChunkDataProvider._encryptedChunkSize),
   w.(w_env).(e_cdp).(ChunkDataProvider._serverChunkSize)).

Definition fileId w : bytes := w.(w_env).(e_cdp).(ChunkDataProvider._fileId).

Record handler_ok (hist : Z -> bytes) (P : bytes) w : Prop := {
  ho_view : file_view hist P w.(w_env);
  ho_sizes : handler_sizes P (hist w.(w_env).(e_reader).(ChunkReader._version)) w;
  ho_fresh : ~ stale w.(w_env);
  ho_sums : (file_of w.(w_env).(e_srv) (fileId w)).2 = w.(w_env).(e_hash).(HmacList._hashes);
}.

(** The write, as the loop sees it: from the end of the file when growing. *)
Definition write_pos (offset : Z) (P : bytes) : Z := Z.min offset (zlen P).
Definition write_data (offset : Z) (d P : bytes) : bytes := zeros (offset - zlen P) ++ d.

Lemma zeros_neg n : n <= 0 -> zeros n = [].
Proof. intros. unfold zeros. by replace (Z.to_nat n) with 0%nat by lia. Qed.

Lemma file_write_splice offset d tr P : 0 <= offset ->
  file_write offset d tr P = splice (write_pos offset P) (write_data offset d P) tr P.
Proof.
  intros Hoff. unfold file_write, write_pos, write_data. pose proof (zlen_nonneg P).
  destruct (Z.le_gt_cases offset (zlen P)).
  - rewrite zeros_neg, app_nil_r by lia. by rewrite Z.min_l by lia.
  - rewrite Z.min_r by lia. unfold splice.
    rewrite ztake_ge by (rewrite zlen_app, zlen_zeros by lia; lia).
    rewrite (ztake_ge (zlen P)) by lia. rewrite <- !app_assoc. do 3 f_equal.
    pose proof (zlen_nonneg d).
    rewrite !zdrop_ge; [done|rewrite zlen_app, zlen_zeros by lia; lia..].
Qed.

Definition hist_set (hist : Z -> bytes) (v : Z) (f : bytes) : Z -> bytes :=
  fun u => if u =? v then f else hist u.

(** What a write must fit: the new text stays addressable, and the touched
    chunks go to the server as one change. *)
Record write_bounded (offset : Z) (d P : bytes) (tr : bool) w : Prop := {
  wb_offset : 0 <= offset;
  wb_data : 0 < zlen d;
  wb_addr : chunk_addressable w.(w_env).(e_cdp)
    (chunk_count (plain_chunk_size w.(w_env)) (zlen (file_write offset d tr P)) + 1);
  wb_one : let cs := plain_chunk_size w.(w_env) in
    (last_chunk cs (write_pos offset P) (write_data offset d P)
     - first_chunk cs (write_pos offset P) + 1) * enc_size cs < SERVER_OPERATION_SIZE_LIMIT;
}.

(** The sizes before and after, in plain and encrypted bytes. *)
Lemma write_size_facts enc o D tr P old new :
  let cs := enc.(ChunkEncryptor._chunkSize) in
  let P' := splice o D tr P in
  let b := last_chunk cs o D in
  let f' := concat (data <$> patched_list enc o D tr old new) in
  0 < cs -> 0 <= o <= zlen P -> 0 < zlen D ->
  encodes_as enc P old -> encodes_as enc P' (patched_list enc o D tr old new) ->
  zlen P < 2 ^ 63 -> zlen (concat (data <$> old)) < 2 ^ 63 -> zlen P' < 2 ^ 63 -> zlen f' < 2 ^ 63 ->
  size_facts cs (zlen P) (zlen P') b tr
  /\ size_facts (enc_size cs) (zlen (concat (data <$> old))) (zlen f') b tr.
Proof.
  intros cs P' b f' Hcs Ho HD Hold Hnew HP Hf HP' Hf'.
  pose proof (write_bounds cs o D P Hcs Ho HD) as (E & Hm & Hl & Hab). fold b in Hl, Hab.
  pose proof (zlen_splice o D tr P Ho) as HzP. fold P' in HzP.
  pose proof (enc_size_bounds cs ltac:(lia)). pose proof (zlen_nonneg P).
  pose proof (zlen_nonneg (concat (data <$> old))).
  assert (Hreach : b * cs <= zlen P') by (destruct tr; lia).
  assert (Hcnt : zlen P' <= o + zlen D -> zlen f' <= (b + 1) * enc_size cs).
  { intros Hle. etrans; [by apply (encodes_zlen_le enc P')|]. fold cs.
    apply Z.mul_le_mono_nonneg_r; [lia|]. unfold chunk_count.
    etrans; [apply (Z.div_le_mono _ (o + zlen D + cs - 1)); lia|].
    replace (o + zlen D + cs - 1) with (o + zlen D - 1 + 1 * cs) by lia.
    rewrite Z.div_add by lia. unfold b, last_chunk. lia. }
  split; constructor; try lia.
  - intros ->. rewrite Z.mul_add_distr_r, Z.mul_1_l. lia.
  - intros ->. rewrite Z.mul_add_distr_r, Z.mul_1_l. lia.
  - pose proof (encodes_prefix enc P' _ (Z.to_nat b) Hcs Hnew) as Hp. fold cs in Hp.
    rewrite Z2Nat.id in Hp by lia. rewrite <- Hp by done. unfold f'.
    apply zlen_concat_take.
  - intros ->. apply Hcnt. lia.
  - intros ->. unfold f'. rewrite (encodes_zlen enc P old Hold), (encodes_zlen enc P' _ Hnew). fold cs.
    split; [apply layout_size_mono; lia|].
    destruct (Z.le_gt_cases (zlen P) (o + zlen D)).
    + left. etrans; [|apply Hcnt; lia]. unfold f'. by rewrite (encodes_zlen enc P' _ Hnew).
    + right. apply Z.le_antisymm; apply layout_size_mono; lia.
Qed.

Definition with_srv (s : srv) w : fworld :=
  let e := w.(w_env) in
  with_env (mkEnv _ e.(e_enc) e.(e_cdp) e.(e_hash) e.(e_reader) s) w.

(** A single change goes out as one request that splices both buffers. *)
Lemma updateOnServer_one u meta key tr w :
  w.(w_fh).(_fileInfo).(fi_fileId) = fileId w ->
  w.(w_fh).(_version) = version_of w.(w_env).(e_srv) (fileId w) ->
  exists s', updateOnServer [u] meta key tr w = (Ret tt, with_srv s' w)
    /\ file_of s' (fileId w)
       = (splice u.(uc_dataPos) u.(uc_data) tr (file_of w.(w_env).(e_srv) (fileId w)).1,
          splice u.(uc_checksumPos) u.(uc_checksum) tr (file_of w.(w_env).(e_srv) (fileId w)).2)
    /\ version_of s' (fileId w) = version_of w.(w_env).(e_srv) (fileId w) + 1.
Proof.
  intros Hid Hver.
  destruct (write_law (e_srv (w_env w)) (fileId w) (operations_of u true tr) meta key)
    as (s' & Hs & Hfile & Hv).
  exists s'. split; [|by rewrite Hfile].
  unfold updateOnServer, requests. cbn. rewrite Hid, Hver.
  rewrite (run_bind_ret _ _ w tt (with_srv s' w)); [done|].
  unfold in_env, on_provider, zoom. cbn [snd fst].
  change (concat (take _ [operations_of u true tr])) with (operations_of u true tr). by rewrite Hs.
Qed.

(** The squashed form of the prepared chunks. *)
Lemma prepared_squash self enc P P' f tr a b us :
  let esz := enc_size enc.(ChunkEncryptor._chunkSize) in
  self.(_encryptedChunkSize) = esz -> 0 < enc.(ChunkEncryptor._chunkSize) ->
  0 <= a -> us <> [] -> a + zlen us = b + 1 ->
  (forall k u, us !! k = Some u ->
     update_ok enc P P' f (if a + Z.of_nat k =? b then tr else false) (a + Z.of_nat k) u
     /\ zlen u.(ud_chunk).(data) <= esz
     /\ (a + Z.of_nat k < b -> zlen u.(ud_chunk).(data) = esz)) ->
  b * esz < 2 ^ 63 -> (b - a + 1) * esz < SERVER_OPERATION_SIZE_LIMIT ->
  createListOfUpdateChanges self us =
    [mkChanges (concat ((data ∘ ud_chunk) <$> us)) (a * esz) (concat (checksums_of us)) (a * HMAC_SIZE)].
Proof.
  intros esz Hself Hcs Ha Hne Hlen Hus Hb Hlim. pose proof (enc_size_bounds (ChunkEncryptor._chunkSize enc) ltac:(lia)).
  fold esz in H. destruct us as [|u us]; [done|]. rewrite zlen_cons in Hlen. pose proof (zlen_nonneg us).
  destruct (Hus 0%nat u eq_refl) as ([Hidx _ _ _] & Hd & Hfull). rewrite Z.add_0_r in Hidx, Hfull.
  unfold createListOfUpdateChanges, change_of, HmacList.getHashSize. rewrite Hidx, Hself.
  rewrite (wrap_id 64 (a * esz)) by nia. rewrite (wrap_id 64 (a * HMAC_SIZE)) by (unfold HMAC_SIZE; nia).
  assert (Hpre : forall k, Z.of_nat k <= zlen us ->
    zlen (concat ((data ∘ ud_chunk) <$> take k (u :: us))) = Z.of_nat k * esz).
  { intros k Hk. rewrite (zlen_concat_const _ esz).
    - unfold zlen in *. rewrite length_fmap, length_take. cbn. f_equal. lia.
    - intros x Hx. apply list_elem_of_fmap in Hx as (v & -> & Hv).
      apply list_elem_of_lookup in Hv as [m Hv]. apply lookup_take_Some in Hv as [Hv Hm].
      destruct (Hus m v Hv) as (_ & _ & Hf'). apply Hf'. lia. }
  rewrite squash_one; cbn; rewrite ?Hself; try done; try lia.
  - intros k v Hv. pose proof (lookup_lt_Some _ _ _ Hv). destruct (Hus (S k) v Hv) as ([Hi _ _ _] & _).
    rewrite Hi. pose proof (Hpre (S k) ltac:(unfold zlen; lia)) as Hp. cbn in Hp. rewrite Hp. f_equal. lia.
  - assert (Hz : zlen (concat ((data ∘ ud_chunk) <$> u :: us)) <= zlen (u :: us) * esz).
    { etrans; [apply (zlen_concat_le _ esz)|unfold zlen; by rewrite length_fmap].
      intros x Hx. apply list_elem_of_fmap in Hx as (v & -> & Hv).
      apply list_elem_of_lookup in Hv as [m Hv]. by destruct (Hus m v Hv) as (_ & Hle & _). }
    eapply Z.le_lt_trans; [exact Hz|]. rewrite zlen_cons. nia.
Qed.
End Write.

Lemma zlen_entry_app `{CryptoService} h pre suf : hmac_list_ok h -> entries h = pre ++ suf ->
  forall x, x ∈ pre ++ suf -> zlen x = HMAC_SIZE.
Proof.
  intros Hok <- x Hx. unfold entries in Hx.
  apply list_elem_of_fmap in Hx as (i & -> & Hi). apply elem_of_seqZ in Hi.
  unfold hash_at. pose proof (hlo_len _ Hok). unfold HMAC_SIZE in *. rewrite zlen_slice by lia. lia.
Qed.

(** ** Refused requests *)
Section Refused.
Context {C : CryptoService} {X : StoreServer} {XL : StoreServerLaws X}.
Import FileHandler.

Lemma squash_nonempty self us : us <> [] -> createListOfUpdateChanges self us <> [].
Proof.
  destruct us as [|u us]; [done|]. intros _. cbn. generalize (change_of self u).
  induction us as [|u2 us IH]; intros cur; cbn; [done|]. by case_match.
Qed.

(** A request at a stale version is refused before anything is applied. *)
Lemma updateOnServer_refused l meta key tr (w : fworld) :
  l <> [] -> w.(w_fh).(_fileInfo).(fi_fileId) = fileId w ->
  w.(w_fh).(_version) <> version_of w.(w_env).(e_srv) (fileId w) ->
  updateOnServer l meta key tr w = (Throw (ServerError STORE_FILE_VERSION_MISMATCH), w).
Proof.
  intros Hl Hid Hver. destruct l as [|u l]; [done|]. unfold updateOnServer, requests.
  cbn [length all_operations batches fmap list_fmap for_each].
  apply run_bind_throw. unfold in_env, on_provider, zoom. cbn [fst snd].
  rewrite Hid, write_stale_law by exact Hver. by destruct w as [fh [] g].
Qed.

(** What survives a refused write: all but the caches' contents. *)
Definition env_keeps (e e' : env) : Prop :=
  e'.(e_enc) = e.(e_enc) /\ entries e'.(e_hash) = entries e.(e_hash) /\ e'.(e_srv) = e.(e_srv)
  /\ cdp_same e.(e_cdp) e'.(e_cdp)
  /\ e'.(e_reader).(ChunkReader._version) = e.(e_reader).(ChunkReader._version).
End Refused.

(** ** Renewing the metadata *)
Section Renew.
Context {C : CryptoService} {X : StoreServer} {CL : CryptoLaws C}.
Context {Ec : Ecc} `{!EccLaws Ec} {E0 : Encodings} `{!EncodingsLaws E0} {Dy : Dynamic}.
Context `{!KeyFormats PublicKey} `{!KeyFormatsLaws PublicKey} `{!FileJson}.
Context `{!JsonCodec DIOEncryptorV1.DioJson} `{!JsonCodecLaws DIOEncryptorV1.DioJson} `{!JsonCodec InternalStoreFileMeta}.
Context {M : MetaConnection}.
Import FileHandler.
Implicit Types f : FileHandler.t.

(** A handler can encrypt new metadata: the file's key is of a known structure
    and of the cipher's length, for a key of structure 2 the connection knows
    its user, its clock and its bridge, and the texts are of a size the
    encryption takes, whatever hash and size a write puts into them. *)
Record renewable f : Prop := {
  rn_version : f.(_fileEncKey).(dek_dataStructureVersion) = 1
    \/ f.(_fileEncKey).(dek_dataStructureVersion) = KeyProvider.VERSION_2
       /\ FileMetaEncryptor.identified conn_getMyUserId conn_getNowTimestamp conn_bridgeIdentity f.(_fileInfo).(fi_contextId);
  rn_key : zlen f.(_fileEncKey).(dek_key).(ek_key) = 32;
  rn_private : DataEncryptorV4.small f.(_fileMeta).(fm_privateMeta);
  rn_internal h size : zlen h = HMAC_SIZE ->
    DataEncryptorV4.small (serialize (updated_meta f.(_fileMeta) h size).(fm_internalFileMeta));
}.

Lemma encryptMeta_ret f h size g : renewable f -> zlen h = HMAC_SIZE ->
  exists x g', encryptMeta f.(_fileInfo) (updated_meta f.(_fileMeta) h size) f.(_fileEncKey).(dek_key)
    f.(_fileEncKey).(dek_dataStructureVersion) g = (Ret x, g').
Proof.
  intros [Hv Hk Hp Hi] Hh. unfold encryptMeta.
  destruct (FileMetaEncryptor.encrypt_ret conn_getMyUserId conn_getNowTimestamp conn_userPrivKey conn_bridgeIdentity
    f.(_fileInfo) (updated_meta f.(_fileMeta) h size) f.(_fileEncKey).(dek_key)
    f.(_fileEncKey).(dek_dataStructureVersion) g) as (v & g' & Hv').
  - split; try done; [|by apply Hi]. cbn. by apply (swrap_range 64).
  - run_step. by do 2 eexists.
Qed.

(** A write keeps the handler renewable. *)
Lemma renewable_updated f f' h size : renewable f -> f'.(_fileInfo) = f.(_fileInfo) ->
  f'.(_fileEncKey) = f.(_fileEncKey) -> f'.(_fileMeta) = updated_meta f.(_fileMeta) h size -> renewable f'.
Proof. intros [Hv Hk Hp Hi] E1 E2 E3. split; rewrite ?E1, ?E2, ?E3; done. Qed.
End Renew.

(** ** Committing the prepared chunks *)
Section Commit.
Context {C : CryptoService} {X : StoreServer} {CL : CryptoLaws C} {XL : StoreServerLaws X}.
Context {Ec : Ecc} `{!EccLaws Ec} {E0 : Encodings} `{!EncodingsLaws E0} {Dy : Dynamic}.
Context `{!KeyFormats PublicKey} `{!KeyFormatsLaws PublicKey} `{!FileJson}.
Context `{!JsonCodec DIOEncryptorV1.DioJson} `{!JsonCodecLaws DIOEncryptorV1.DioJson} `{!JsonCodec InternalStoreFileMeta}.
Context {M : MetaConnection}.
Import FileHandler.

Context (hist : Z -> bytes) (P : bytes) (o : Z) (D : bytes) (tr : bool)
  (us : list UpdateChunkData) (w : fworld) (old : list Chunk).

Let e := w.(w_env).
Let enc := e.(e_enc).
Let cs := plain_chunk_size e.
Let esz := enc_size cs.
Let v := e.(e_reader).(ChunkReader._version).
Let f := hist v.
Let a := first_chunk cs o.
Let b := last_chunk cs o D.
Let P' := splice o D tr P.
Let new := ud_chunk <$> us.
Let chunks' := patched_list enc o D tr old new.
Let f' := concat (data <$> chunks').

Context (Hview : file_view hist P e) (Hsizes : handler_sizes P f w) (Hfit : write_fits o D P f e).
Context (Hlen : zlen us = b - a + 1).
Context (Hus : forall k u, us !! k = Some u ->
  update_ok enc P P' f (if a + Z.of_nat k =? b then tr else false) (a + Z.of_nat k) u).
Context (Hcached : cached e (server_chunk_of e.(e_cdp) b)).
Context (Haddr : chunk_addressable e.(e_cdp) (chunk_count cs (zlen P') + 1)).
Context (Hold : encodes_as enc P old) (Hf : f = concat (data <$> old))
  (Hhash : entries e.(e_hash) = hmac <$> old).
Context (Hrenew : renewable w.(w_fh)).

Lemma commit_geometry :
  0 < cs < 2 ^ 31 /\ 0 <= o <= zlen P /\ 0 < zlen D
  /\ o = a * cs + o mod cs /\ 0 <= o mod cs < cs
  /\ b * cs <= o + zlen D - 1 < b * cs + cs /\ 0 <= a <= b
  /\ cs + 49 <= esz <= cs + 64.
Proof.
  pose proof (fv_cs _ _ _ Hview) as Hcs. destruct Hfit as [_ _ Ho [HD _] _].
  pose proof (write_bounds cs o D P (proj1 Hcs) Ho HD).
  pose proof (enc_size_bounds cs ltac:(fold e cs in Hcs; lia)). fold e cs in Hcs. tauto.
Qed.

Lemma commit_len : zlen new = b - a + 1.
Proof. unfold new, zlen. rewrite length_fmap. exact Hlen. Qed.

Lemma commit_new k c : new !! k = Some c ->
  chunk_ok enc (a + Z.of_nat k) (chunk_at cs P' (a + Z.of_nat k)) c.
Proof.
  unfold new. rewrite list_lookup_fmap. intros Hk.
  destruct (us !! k) as [u|] eqn:Eu; [|done]. injection Hk as <-. apply (Hus k u Eu).
Qed.

Lemma commit_encodes : encodes_as enc P' chunks'.
Proof.
  pose proof commit_geometry as (Hcs & Ho & HD & _).
  apply (patched_encodes enc o D tr P old new (proj1 Hcs) Ho HD Hold).
  - exact commit_len.
  - exact commit_new.
Qed.

Lemma commit_file : f' = splice (a * esz) (concat ((data ∘ ud_chunk) <$> us)) tr f.
Proof.
  pose proof commit_geometry as (Hcs & Ho & HD & _).
  assert (concat ((data ∘ ud_chunk) <$> us) = concat (data <$> new)) as ->
    by (unfold new; by rewrite <- list_fmap_compose).
  rewrite Hf. unfold f'. apply (patched_file enc o D tr P old new (proj1 Hcs) Ho HD Hold).
  - exact commit_len.
  - exact commit_new.
Qed.

(** Every new chunk's encrypted size, as the new file sees it. *)
Lemma commit_data k u : us !! k = Some u ->
  zlen u.(ud_chunk).(data) = chunk_len (zlen f') esz (a + Z.of_nat k).
Proof.
  intros Hk. pose proof commit_geometry as (Hcs & Ho & HD & E & Hm & Hl & Hab & He).
  assert (Hlook : chunks' !! (Z.to_nat a + k)%nat = Some (ud_chunk u)).
  { unfold chunks', patched_list.
    pose proof (zlen_patched_prefix enc o D P old new (proj1 Hcs) Ho HD Hold) as Hz.
    change (ChunkEncryptor._chunkSize enc) with cs in Hz |- *. fold a in Hz |- *.
    rewrite lookup_app_r by (unfold zlen in Hz; lia). rewrite lookup_app_l.
    - unfold new. rewrite list_lookup_fmap. unfold zlen in Hz.
      replace (Z.to_nat a + k - length (take (Z.to_nat a) old))%nat with k by lia. by rewrite Hk.
    - unfold new. rewrite length_fmap. apply lookup_lt_Some in Hk. unfold zlen in *. lia. }
  pose proof (encodes_slice enc P' chunks' _ _ (proj1 Hcs) commit_encodes Hlook) as Hs.
  change (ChunkEncryptor._chunkSize enc) with cs in Hs. fold esz f' in Hs.
  rewrite <- Hs. replace (Z.of_nat (Z.to_nat a + k)) with (a + Z.of_nat k) by lia.
  rewrite zlen_slice; [done|nia|lia].
Qed.

Lemma commit_bounds : zlen P' < 2 ^ 63 /\ zlen f' < 2 ^ 63 /\ zlen f < 2 ^ 63 /\ zlen P < 2 ^ 63
  /\ (b + 1) * esz < 2 ^ 63 /\ HMAC_SIZE * (zlen old + (b + 1) + 2) < 2 ^ 64
  /\ chunk_count cs (zlen P') = (if tr then b + 1 else Z.max (zlen old) (b + 1)).
Proof.
  pose proof commit_geometry as (Hcs & Ho & HD & E & Hm & Hl & Hab & He).
  pose proof Hview as Hv. pose proof (zlen_nonneg P). pose proof (zlen_nonneg P').
  pose proof (fv_wf _ _ _ Hv) as Hwf. pose proof (fv_esz _ _ _ Hv) as Hee.
  destruct Hfit as [HP Hff _ _ Hab1]. fold cs b in Hab1.
  pose proof (addressable_bound e _ Hwf Hee Hcs Haddr) as [B1 B2]. fold cs esz in B1, B2.
  pose proof (addressable_bound e _ Hwf Hee Hcs Hab1) as [B3 B4]. fold cs esz in B3, B4.
  pose proof (fv_addr _ _ _ Hv (chunk_count cs (zlen P)) ltac:(fold cs; pose proof (chunk_count_nonneg cs (zlen P)); lia)) as Hab2.
  pose proof (addressable_bound e _ Hwf Hee Hcs Hab2) as [B5 B6]. fold cs esz in B5, B6.
  pose proof (chunk_count_le cs (zlen P') (proj1 Hcs) ltac:(done)).
  pose proof (encodes_zlen_le enc P' chunks' (proj1 Hcs) commit_encodes) as Hz. fold f' in Hz.
  change (ChunkEncryptor._chunkSize enc) with cs in Hz. fold esz in Hz.
  pose proof (ea_count _ _ _ Hold) as Hc. change (ChunkEncryptor._chunkSize enc) with cs in Hc.
  pose proof (Z.mul_le_mono_nonneg_l 49 esz (zlen old) (zlen_nonneg old) ltac:(lia)).
  pose proof (Z.mul_le_mono_nonneg_l 49 esz (b + 1) ltac:(lia) ltac:(lia)).
  rewrite <- Hc in *. unfold HMAC_SIZE.
  split; [lia|]. split; [lia|]. split; [lia|]. split; [lia|]. split; [lia|]. split; [lia|].
  exact (new_count enc o D tr P old new (proj1 Hcs) Ho Hold commit_new).
Qed.

Lemma commit_facts :
  size_facts cs (zlen P) (zlen P') b tr /\ size_facts esz (zlen f) (zlen f') b tr.
Proof.
  pose proof commit_geometry as (Hcs & Ho & HD & _).
  pose proof commit_bounds as (B1 & B2 & B3 & B4 & _).
  rewrite Hf in B3.
  destruct (write_size_facts enc o D tr P old new (proj1 Hcs) Ho HD Hold commit_encodes B4 B3 B1 B2) as [F1 F2].
  rewrite <- Hf in F2.
  change (ChunkEncryptor._chunkSize enc) with cs in F1, F2. fold b esz P' chunks' f' in F1, F2.
  done.
Qed.

Lemma commit_updates k u : us !! k = Some u ->
  update_ok enc P P' f (if a + Z.of_nat k =? b then tr else false) (a + Z.of_nat k) u
  /\ zlen u.(ud_chunk).(data) <= esz
  /\ (a + Z.of_nat k < b -> zlen u.(ud_chunk).(data) = esz).
Proof.
  intros Hk. split; [by apply Hus|]. rewrite (commit_data k u Hk). unfold chunk_len.
  split; [lia|]. intros Hlt. pose proof commit_geometry as (Hcs & _ & _ & _ & _ & _ & _ & He).
  pose proof (sf_reach _ _ _ _ _ (proj2 commit_facts)).
  pose proof (Z.mul_le_mono_nonneg_r (a + Z.of_nat k + 1) b esz ltac:(lia) ltac:(lia)).
  rewrite Z.mul_add_distr_r, Z.mul_1_l in *. lia.
Qed.

Lemma commit_prefix : a * esz <= zlen f.
Proof.
  pose proof commit_geometry as (Hcs & Ho & HD & E & Hm & Hl & Hab & He).
  pose proof (encodes_prefix enc P old (Z.to_nat a) (proj1 Hcs) Hold) as Hpre.
  rewrite Z2Nat.id in Hpre by lia. change (ChunkEncryptor._chunkSize enc) with cs in Hpre.
  rewrite Hf. unfold esz. rewrite <- Hpre by lia. apply zlen_concat_take.
Qed.

Lemma commit_sizes : acc_sizes us (zlen P, zlen f) = (zlen P', zlen f').
Proof.
  pose proof commit_geometry as (Hcs & Ho & HD & E & Hm & Hl & Hab & He).
  pose proof commit_bounds as (B1 & B2 & B3 & B4 & _).
  destruct commit_facts as [F1 F2].
  pose proof commit_prefix as Hfa.
  replace (zlen P) with (Z.max (zlen P) (a * cs)) by lia.
  replace (zlen f) with (Z.max (zlen f) (a * esz)) by lia.
  apply (acc_sizes_run cs (zlen P) (zlen P') esz (zlen f) (zlen f') b tr us a F1 F2); try lia.
  - intros ->. rewrite zlen_nil in Hlen. lia.
  - intros k u Hk. destruct (Hus k u Hk) as [_ _ Hp Hen]. unfold size_change. cbv zeta in Hp, Hen.
    change (ChunkEncryptor._chunkSize enc) with cs in Hp, Hen. fold esz in Hen.
    assert (Hj : a + Z.of_nat k <= b).
    { apply lookup_lt_Some in Hk. unfold zlen in Hlen. lia. }
    rewrite Hp, Hen, (commit_data k u Hk). rewrite !zlen_chunk_at by lia.
    rewrite zlen_slice by (nia || lia). done.
Qed.

(** The checksum list after the loop: the new chunks' checksums in place. *)
Lemma commit_hashes :
  exists h', update_hashes tr us (zlen P, zlen f) w = (Ret (zlen P', zlen f'), with_hash h' w)
    /\ hmac_list_ok h' /\ h'.(HmacList._topHashKey) = e.(e_hash).(HmacList._topHashKey)
    /\ entries h' = hmac <$> chunks'
    /\ h'.(HmacList._hashes)
       = splice (a * HMAC_SIZE) (concat (checksums_of us)) tr e.(e_hash).(HmacList._hashes).
Proof.
  pose proof commit_geometry as (Hcs & Ho & HD & E & Hm & Hl & Hab & He).
  pose proof commit_bounds as (_ & _ & _ & _ & _ & Hb & _).
  pose proof (fv_hash _ _ _ Hview) as Hhok. fold e in Hhok.
  pose proof (zlen_patched_prefix enc o D P old new (proj1 Hcs) Ho HD Hold) as Hz.
  change (ChunkEncryptor._chunkSize enc) with cs in Hz. fold a in Hz.
  set (pre := hmac <$> take (Z.to_nat a) old). set (suf := hmac <$> drop (Z.to_nat a) old).
  assert (Hpre : zlen pre = a) by (unfold pre, zlen in *; by rewrite length_fmap).
  assert (Hsuf : zlen suf <= zlen old) by (unfold suf, zlen; rewrite length_fmap, length_drop; lia).
  assert (Hent : entries (e_hash e) = pre ++ suf)
    by (unfold pre, suf; by rewrite Hhash, <- fmap_app, take_drop).
  destruct (update_hashes_run tr us w pre suf (zlen P, zlen f)) as (h' & Hrun & Hok' & Hkey & Hent'); try done.
  { intros ->. rewrite zlen_nil in Hlen. lia. }
  { intros k u Hk. destruct (Hus k u Hk) as [Hi (_ & _ & Hh) _ _]. rewrite Hpre. done. }
  { pose proof (zlen_nonneg old). rewrite Hpre, Hlen. unfold HMAC_SIZE in *. lia. }
  exists h'. rewrite commit_sizes in Hrun. split; [done|]. split; [done|]. split; [done|].
  assert (Hdrop : drop (length us) suf = hmac <$> drop (Z.to_nat (b + 1)) old).
  { unfold suf. rewrite <- fmap_drop, drop_drop. do 2 f_equal. unfold zlen in Hlen. lia. }
  split.
  - rewrite Hent'. unfold chunks', patched_list, new, pre.
    change (ChunkEncryptor._chunkSize enc) with cs. fold a b. rewrite !fmap_app, <- list_fmap_compose.
    do 2 f_equal. rewrite Hdrop. by destruct tr.
  - rewrite (hashes_concat h' Hok'), (hashes_concat (e_hash e) Hhok), Hent', Hent, <- Hpre.
    symmetry. etrans; [apply splice_concat_const; [done| |]|].
    + exact (zlen_entry_app _ _ _ Hhok Hent).
    + intros x Hx. apply list_elem_of_fmap in Hx as (u & -> & Hu).
      apply list_elem_of_lookup in Hu as [k Hk]. apply (Hus k u Hk).
    + unfold checksums_of. by rewrite length_fmap.
Qed.

Lemma commit_indices j : j ∈ ud_chunkIndex <$> us <-> a <= j <= b.
Proof.
  rewrite list_elem_of_fmap. split.
  - intros (u & -> & Hu). apply list_elem_of_lookup in Hu as [k Hk].
    rewrite (uo_index _ _ _ _ _ _ _ (Hus k u Hk)). apply lookup_lt_Some in Hk. unfold zlen in Hlen. lia.
  - intros Hj. destruct (lookup_lt_is_Some_2 us (Z.to_nat (j - a))) as [u Hu]; [unfold zlen in Hlen; lia|].
    exists u. rewrite (uo_index _ _ _ _ _ _ _ (Hus _ u Hu)). split; [lia|].
    apply list_elem_of_lookup. eauto.
Qed.

(** What the reader still remembers is a chunk of the new text. *)
Lemma commit_reader d j :
  reader_forgets (ud_chunkIndex <$> us) e.(e_reader).(ChunkReader._lastChunk) = Some (d, j) ->
  0 <= j < chunk_count cs (zlen P') -> d = chunk_at cs P' j.
Proof.
  intros Hr Hj. pose proof commit_geometry as (Hcs & Ho & HD & E & Hm & Hl & Hab & He).
  pose proof commit_bounds as (_ & _ & _ & _ & _ & _ & Hcnt).
  pose proof (ea_count _ _ _ Hold) as Hc. change (ChunkEncryptor._chunkSize enc) with cs in Hc.
  unfold reader_forgets in Hr. destruct (ChunkReader._lastChunk (e_reader e)) as [[d0 j0]|] eqn:El; [|done].
  destruct (decide _) as [|Hnot] in Hr; [done|]. injection Hr as -> ->.
  rewrite commit_indices in Hnot.
  pose proof (old_count_ge enc o D P old (proj1 Hcs) Ho HD Hold) as Hge.
  change (ChunkEncryptor._chunkSize enc) with cs in Hge. fold a in Hge.
  assert (Hj' : 0 <= j < chunk_count cs (zlen P) /\ (j < a \/ b < j /\ tr = false)).
  { rewrite <- Hc. destruct tr; destruct (Z.lt_ge_cases j a); lia. }
  rewrite (fv_cache _ _ _ Hview d j El (proj1 Hj')). fold e cs. symmetry.
  destruct Hj' as [_ [Hlt|[Hgt Htr]]].
  - exact (chunk_at_before enc o D tr P (proj1 Hcs) Ho HD j ltac:(split; [lia|exact Hlt])).
  - exact (chunk_at_after enc o D tr P new (proj1 Hcs) Ho HD commit_new j Htr Hgt).
Qed.

(** The world a successful commit leaves. *)
Definition committed (fm : FileMeta) (h : HmacList.t) (s : srv) (g : rng) : fworld :=
  let self := w.(w_fh) in
  let c := e.(e_cdp) in
  let n := server_chunk_of c b in
  let scs := c.(ChunkDataProvider._serverChunkSize) in
  mkWorld _ _
    (FileHandler.mk (zlen P') (zlen f') (v + 1) self.(_fileInfo) fm self.(_fileEncKey)
       self.(_plainChunkSize) self.(_encryptedChunkSize))
    (mkEnv _ enc
       (ChunkDataProvider.mk c.(ChunkDataProvider._encryptedChunkSize) scs c.(ChunkDataProvider._fileId)
          (zlen f') (v + 1) (slice (n * scs) scs f') (Some n))
       h
       (ChunkReader.mk e.(e_reader).(ChunkReader._chunkSize) (v + 1)
          (reader_forgets (ud_chunkIndex <$> us) e.(e_reader).(ChunkReader._lastChunk)))
       s)
    g.

Lemma committed_ok fm h s g :
  hmac_list_ok h -> entries h = hmac <$> chunks' ->
  file_of s (fileId w) = (f', h.(HmacList._hashes)) -> version_of s (fileId w) = v + 1 ->
  handler_ok (hist_set hist (v + 1) f') P' (committed fm h s g).
Proof.
  intros Hh Hent Hfile Hver. pose proof Hsizes as Hs.
  pose proof Hview as [Hcs Hwf Hesz Hcoh Hcur Hhok Henc Hcache Hadd]. destruct Hs as [S1 S2 S3 S4 S5 S6].
  assert (Hset : hist_set hist (v + 1) f' (v + 1) = f') by (unfold hist_set; by rewrite Z.eqb_refl).
  constructor; [constructor|constructor| |]; unfold committed, fileId, plain_chunk_size in *; cbn; rewrite ?Hset; try done.
  - by destruct Hwf.
  - intros n [= <-] _. cbn. by rewrite Hset.
  - unfold srv_current. cbn. fold e in Hfile, Hver. by rewrite Hfile, Hver, Hset.
  - exists chunks'. split; [exact commit_encodes|done].
  - exact commit_reader.
  - intros i Hi. apply (chunk_addressable_mono _ i (chunk_count cs (zlen P') + 1)); [|apply Hwf|exact Haddr].
    change (chunk_count (ChunkEncryptor._chunkSize enc) (zlen P')) with (chunk_count cs (zlen P')) in Hi. lia.
  - unfold stale. cbn. fold e in Hver. rewrite Hver. by intros [].
  - fold e in Hfile. by rewrite Hfile.
Qed.

Lemma with_hash_id : with_hash e.(e_hash) w = w.
Proof. unfold with_hash, e. destruct w as [fh [] g]. done. Qed.

(** After the request: the handler takes over the new state. *)
Lemma commit_refresh fm h s g :
  (_ ← modify (fun w0 => with_fh (FileHandler.mk (zlen P') (zlen f') (w.(w_fh).(_version) + 1)
         w.(w_fh).(_fileInfo) fm w.(w_fh).(_fileEncKey) w.(w_fh).(_plainChunkSize)
         w.(w_fh).(_encryptedChunkSize)) w0);
   refresh_caches us tr) (with_srv s (with_rng g (with_hash h w))) = (Ret tt, committed fm h s g).
Proof.
  pose proof commit_geometry as (Hcs & Ho & HD & E & Hm & Hl & Hab & He).
  pose proof commit_bounds as (_ & Hf63 & _ & _ & Hb63 & _ & _). pose proof Hview as Hv.
  pose proof (fv_esz _ _ _ Hv) as Hesz. fold cs esz in Hesz.
  rewrite (run_bind_ret _ _ _ tt (with_fh (FileHandler.mk (zlen P') (zlen f') (_version (w_fh w) + 1)
    (_fileInfo (w_fh w)) fm (_fileEncKey (w_fh w)) (_plainChunkSize (w_fh w))
    (_encryptedChunkSize (w_fh w))) (with_srv s (with_rng g (with_hash h w))))) by done.
  rewrite (refresh_caches_run tr f a b us a [] false); cbn; fold e; rewrite ?Hesz; fold esz; try done; try lia.
  - rewrite <- commit_file, (hs_version _ _ _ Hsizes). fold e v. unfold committed. fold e. by rewrite Hesz.
  - intros ->. rewrite zlen_nil in Hlen. lia.
  - exact commit_prefix.
  - apply (fv_wf _ _ _ Hv).
  - apply (chunk_addressable_mono _ b (b + 1)); [lia|rewrite Hesz; lia|apply Hfit].
  - pose proof (zlen_nonneg f'). lia.
  - intros k u Hk. destruct (commit_updates k u Hk) as ([Hi _ _ _] & H1 & H2). done.
  - apply Hcached.
  - rewrite zlen_nil. lia.
  - assert (splice (a * esz) [] false f = f) as ->.
    { unfold splice. rewrite app_nil_l, zlen_nil, Z.add_0_r. apply ztake_zdrop. }
    destruct Hcached as [Hn Hcv]. rewrite (fv_coh _ _ _ Hv _ Hn).
    + fold e in Hcv. by rewrite Hcv.
    + change (u32 (-1)) with (2 ^ 32 - 1). pose proof (server_chunk_lt (e_cdp e) b (fv_wf _ _ _ Hv)) as Hlt.
      enough (server_chunk_of (e_cdp e) b < 2 ^ 32 - 2) by lia. apply Hlt.
      apply (chunk_addressable_mono _ b (b + 1)); [lia|rewrite Hesz; lia|apply Hfit].
Qed.

(** Up to the request: the checksum list is updated, nothing else moves. *)
Lemma commit_to_send :
  exists h meta g fm,
    commit us tr w = publish us fm meta (zlen P', zlen f') e.(e_hash).(HmacList._hashes) tr
                       (with_rng g (with_hash h w))
    /\ hmac_list_ok h /\ entries h = hmac <$> chunks'
    /\ h.(HmacList._topHashKey) = e.(e_hash).(HmacList._topHashKey)
    /\ h.(HmacList._hashes)
       = splice (a * HMAC_SIZE) (concat (checksums_of us)) tr e.(e_hash).(HmacList._hashes)
    /\ fm = updated_meta w.(w_fh).(_fileMeta)
              (hmacSha256 e.(e_hash).(HmacList._topHashKey) h.(HmacList._hashes)) (zlen P').
Proof.
  pose proof Hsizes as [S1 S2 S3 S4 S5 S6].
  destruct commit_hashes as (h1 & Hrun1 & Hok1 & Hkey1 & Hent1 & Hbuf1).
  destruct (getTopHash_spec h1 Hok1) as (h2 & Htop & Hok2 & Hh2 & Hsz2 & Hk2).
  set (fm := updated_meta (_fileMeta (w_fh w))
    (hmacSha256 (HmacList._topHashKey (e_hash e)) (HmacList._hashes h1)) (zlen P')).
  destruct (encryptMeta_ret (w_fh w) (hmacSha256 (HmacList._topHashKey (e_hash e)) (HmacList._hashes h1)) (zlen P')
    (w_rng w) Hrenew (hmacSha256_len _ _)) as (meta & g & Hmeta).
  exists h2, meta, g, fm. rewrite Hh2, Hk2. split; [|split_and!; try done].
  2:{ rewrite <- Hent1. unfold entries, hash_at. by rewrite Hh2, Hsz2. }
  unfold commit. rewrite (run_bind_ret _ _ w (HmacList._hashes (e_hash e)) w).
  2:{ unfold in_env, on_hashes, zoom, HmacList.getAll, gets. f_equal. exact with_hash_id. }
  rewrite S1, S2. rewrite (run_bind_ret _ _ _ _ _ Hrun1).
  rewrite (run_bind_ret _ _ (with_hash h1 w)
    (hmacSha256 (HmacList._topHashKey (e_hash e)) (HmacList._hashes h1)) (with_hash h2 w)).
  2:{ unfold in_env, on_hashes, zoom. cbn [w_env with_hash with_env e_hash]. by rewrite Htop, Hkey1. }
  cbn [fst snd]. fold fm.
  rewrite (run_bind_ret _ _ (with_hash h2 w) meta (with_rng g (with_hash h2 w))); [done|].
  fold fm in Hmeta. unfold in_rng, zoom. cbn. by rewrite Hmeta.
Qed.

(** When the server refuses the request, the checksum list is put back and
    nothing else has changed. *)
Lemma commit_refused : v <> version_of e.(e_srv) (fileId w) ->
  exists w', commit us tr w = (Throw (ServerError STORE_FILE_VERSION_MISMATCH), w')
    /\ w'.(w_fh) = w.(w_fh) /\ file_view hist P w'.(w_env) /\ env_keeps e w'.(w_env).
Proof.
  intros Hst. pose proof Hsizes as [S1 S2 S3 S4 S5 S6]. pose proof Hview as Hv.
  destruct commit_to_send as (h & meta & g & fm & Hrun & _ & _ & Hkey & _).
  set (w2 := with_rng g (with_hash h w)) in *.
  pose proof (fv_hash _ _ _ Hv) as Hhok. pose proof (hlo_len _ Hhok) as Hl0.
  set (h3 := HmacList.mk (HmacList._topHashKey (e_hash e)) None (HmacList._size (e_hash e)) (HmacList._hashes (e_hash e))).
  exists (with_rng g (with_hash h3 w)). split; [|split; [done|]].
  - rewrite Hrun. unfold publish. change (w_fh w2) with (w_fh w).
    rewrite (run_bind_throw _ _ w2 (ServerError STORE_FILE_VERSION_MISMATCH) (with_rng g (with_hash h3 w))); [done|].
    unfold try_catch. rewrite updateOnServer_refused; [| |exact S6|].
    + cbn [std_exn]. rewrite (run_bind_ret _ _ w2 tt (with_rng g (with_hash h3 w))); [done|].
      unfold in_env, on_hashes, zoom, HmacList.setAll. rewrite Hl0, Z.mul_comm, Z.mod_mul by done. cbn.
      unfold h3. rewrite Z.div_mul by done. by rewrite Hkey.
    + apply squash_nonempty. intros ->. pose proof commit_geometry. rewrite zlen_nil in Hlen. lia.
    + cbn. rewrite S3. exact Hst.
  - assert (Hent : entries h3 = entries (e_hash e)) by done.
    split; [|by repeat split]. destruct Hv as [? ? ? ? ? [? ? ?] ? ? ?].
    constructor; cbn; try done.
Qed.

Context (Hone : (b - a + 1) * esz < SERVER_OPERATION_SIZE_LIMIT).
Context (Hfresh : v = version_of e.(e_srv) (fileId w))
  (Hsums : (file_of e.(e_srv) (fileId w)).2 = e.(e_hash).(HmacList._hashes)).

Lemma commit_run :
  exists h s g fm, commit us tr w = (Ret tt, committed fm h s g)
    /\ hmac_list_ok h /\ entries h = hmac <$> chunks'
    /\ file_of s (fileId w) = (f', h.(HmacList._hashes)) /\ version_of s (fileId w) = v + 1
    /\ fm = updated_meta w.(w_fh).(_fileMeta)
              (hmacSha256 e.(e_hash).(HmacList._topHashKey) h.(HmacList._hashes)) (zlen P').
Proof.
  pose proof commit_geometry as (Hcs & Ho & HD & E & Hm & Hl & Hab & He).
  pose proof commit_bounds as (_ & Hf63 & _ & _ & Hb63 & _ & _).
  pose proof Hsizes as [S1 S2 S3 S4 S5 S6]. pose proof Hview as Hv.
  destruct commit_to_send as (h & meta & g & fm & Hrun & Hhok & Hent & Hkey & Hbuf & Hfm).
  set (w2 := with_rng g (with_hash h w)) in *.
  set (change := mkChanges (concat ((data ∘ ud_chunk) <$> us)) (a * esz) (concat (checksums_of us)) (a * HMAC_SIZE)).
  destruct (updateOnServer_one change meta (ek_id (dek_key (_fileEncKey (w_fh w)))) tr w2) as (s & Hsend & Hfile & Hver).
  { exact S6. }
  { cbn. rewrite S3. fold e v. exact Hfresh. }
  change (fileId w2) with (fileId w) in Hfile, Hver. change (e_srv (w_env w2)) with (e_srv e) in Hfile, Hver.
  exists h, s, g, fm. split; [|split; [done|split; [done|split; [|split; [|done]]]]].
  2:{ etrans; [exact Hfile|].
      pose proof (fv_cur _ _ _ Hv) as Hcur. unfold srv_current in Hcur.
      change (ChunkDataProvider._fileId (e_cdp e)) with (fileId w) in Hcur.
      rewrite commit_file, Hbuf. f_equal.
      - rewrite Hcur, <- Hfresh. done.
      - cbn. by rewrite Hsums. }
  2:{ etrans; [exact Hver|]. by rewrite <- Hfresh. }
  rewrite Hrun. unfold publish. change (w_fh w2) with (w_fh w).
  rewrite (prepared_squash (w_fh w) enc P P' f tr a b us); try done.
  all: change (enc_size (ChunkEncryptor._chunkSize enc)) with esz; try lia.
  2:{ apply Hcs. }
  2:{ intros ->. rewrite zlen_nil in Hlen. lia. }
  2:{ exact commit_updates. }
  fold change. rewrite (run_bind_ret _ _ w2 tt (with_srv s w2)).
  2:{ unfold try_catch. by rewrite Hsend. }
  apply commit_refresh.
Qed.

Lemma commit_refines :
  exists w', commit us tr w = (Ret tt, w') /\ handler_ok (hist_set hist (v + 1) f') P' w'
    /\ w'.(w_fh).(_version) = v + 1 /\ geometry w' = geometry w /\ renewable w'.(w_fh)
    /\ w'.(w_fh).(_fileMeta) = updated_meta w.(w_fh).(_fileMeta)
         (hmacSha256 e.(e_hash).(HmacList._topHashKey) (file_of w'.(w_env).(e_srv) (fileId w')).2) (zlen P').
Proof.
  destruct commit_run as (h & s & g & fm & Hrun & Hhok & Hent & Hfile & Hver & Hfm).
  exists (committed fm h s g). split; [done|]. split; [by apply committed_ok|]. split; [done|]. split; [done|].
  split; [by eapply renewable_updated|]. cbn. rewrite Hfm. do 2 f_equal. unfold fileId in *. cbn. fold e in Hfile. by rewrite Hfile.
Qed.
End Commit.

(** ** The theorem *)
Section WriteTheorem.
Context {C : CryptoService} {X : StoreServer} {CL : CryptoLaws C} {XL : StoreServerLaws X}.
Context {Ec : Ecc} `{!EccLaws Ec} {E0 : Encodings} `{!EncodingsLaws E0} {Dy : Dynamic}.
Context `{!KeyFormats PublicKey} `{!KeyFormatsLaws PublicKey} `{!FileJson}.
Context `{!JsonCodec DIOEncryptorV1.DioJson} `{!JsonCodecLaws DIOEncryptorV1.DioJson} `{!JsonCodec InternalStoreFileMeta}.
Context {M : MetaConnection}.
Implicit Types w : fworld.
Import FileHandler.

Lemma prep_same_ok hist P w w' :
  handler_ok hist P w -> prep_same w w' -> file_view hist P w'.(w_env) -> handler_ok hist P w'.
Proof.
  intros [Hv Hs Hst Hsums] Hps Hv'. pose proof Hps as [Efh (Ee & Eh & Es & (E1 & E2 & E3 & E4) & Ev)].
  constructor; [done| | |].
  - rewrite Ev. by apply (prep_same_sizes _ _ w).
  - intros Hst'. apply Hst. by apply (stale_same _ (w_env w')); [apply Hps|].
  - unfold fileId in *. by rewrite Es, E3, Eh.
Qed.

(** An addressable result bounds everything the write computes with. *)
Lemma write_fits_intro hist P e o D tr :
  file_view hist P e -> 0 <= o <= zlen P -> 0 < zlen D ->
  chunk_addressable e.(e_cdp) (chunk_count (plain_chunk_size e) (zlen (splice o D tr P)) + 1) ->
  write_fits o D P (hist e.(e_reader).(ChunkReader._version)) e.
Proof.
  intros Hv Ho HD Haddr. pose proof (fv_cs _ _ _ Hv) as Hcs. set (cs := plain_chunk_size e) in *.
  pose proof (fv_wf _ _ _ Hv) as Hwf. pose proof (fv_esz _ _ _ Hv) as Hesz. fold cs in Hesz.
  set (P' := splice o D tr P) in *. pose proof (zlen_splice o D tr P Ho) as HzP. fold P' in HzP.
  pose proof (addressable_bound e _ Hwf Hesz Hcs Haddr) as [B1 B2]. fold cs in B1, B2.
  pose proof (chunk_count_nonneg cs (zlen P) (proj1 Hcs) ltac:(lia)).
  pose proof (addressable_bound e _ Hwf Hesz Hcs (fv_addr _ _ _ Hv (chunk_count cs (zlen P)) ltac:(fold cs; lia)))
    as [B3 B4]. fold cs in B3, B4.
  pose proof (chunk_count_le cs (zlen P) (proj1 Hcs) ltac:(lia)).
  assert (o + zlen D <= zlen P') by (destruct tr; lia).
  pose proof (chunk_count_le cs (zlen P') (proj1 Hcs) ltac:(lia)).
  destruct (fv_enc _ _ _ Hv) as (old & Hold & Hf & _).
  pose proof (encodes_zlen_le _ _ _ (proj1 Hcs) Hold) as Hz. rewrite <- Hf in Hz.
  change (ChunkEncryptor._chunkSize (e_enc e)) with cs in Hz.
  pose proof (write_bounds cs o D P (proj1 Hcs) Ho HD) as (_ & _ & _ & Hab).
  constructor; try lia. fold cs.
  apply (chunk_addressable_mono _ _ (chunk_count cs (zlen P') + 1)); [|apply Hwf|done].
  split; [lia|]. apply Z.add_le_mono_r. unfold last_chunk, chunk_count. apply Z.div_le_mono; lia.
Qed.

(** A write prepares its chunks and commits them, or finds out while reading
    that its version is stale. *)
Lemma write_start hist P w offset d tr :
  let f := hist w.(w_env).(e_reader).(ChunkReader._version) in
  let o := write_pos offset P in
  let D := write_data offset d P in
  file_view hist P w.(w_env) -> handler_sizes P f w -> 0 <= offset -> 0 < zlen d ->
  chunk_addressable w.(w_env).(e_cdp)
    (chunk_count (plain_chunk_size w.(w_env)) (zlen (splice o D tr P)) + 1) ->
  exists w1, prep_same w w1 /\ file_view hist P w1.(w_env) /\
  ((exists us, write offset d tr w = commit us tr w1
      /\ let e := w1.(w_env) in let cs := plain_chunk_size e in
         let a := first_chunk cs o in let b := last_chunk cs o D in
         handler_sizes P (hist e.(e_reader).(ChunkReader._version)) w1
         /\ write_fits o D P (hist e.(e_reader).(ChunkReader._version)) e
         /\ zlen us = b - a + 1
         /\ (forall k u, us !! k = Some u ->
              update_ok e.(e_enc) P (splice o D tr P) (hist e.(e_reader).(ChunkReader._version))
                (if a + Z.of_nat k =? b then tr else false) (a + Z.of_nat k) u)
         /\ cached e (server_chunk_of e.(e_cdp) b)
         /\ chunk_addressable e.(e_cdp) (chunk_count cs (zlen (splice o D tr P)) + 1))
   \/ write offset d tr w = (Throw FileVersionMismatchException, w1) /\ stale w.(w_env)).
Proof.
  intros f o D Hv Hs Hoff Hd Haddr.
  set (cs := plain_chunk_size (w_env w)) in *. pose proof (zlen_nonneg P).
  set (a := first_chunk cs o) in *. set (b := last_chunk cs o D) in *.
  pose proof (fv_cs _ _ _ Hv) as Hcs. fold cs in Hcs.
  assert (Ho : 0 <= o <= zlen P) by (unfold o, write_pos; lia).
  assert (HD : 0 < zlen D) by (unfold D, write_data; rewrite zlen_app;
    pose proof (zlen_nonneg (zeros (offset - zlen P))); lia).
  pose proof (write_fits_intro hist P (w_env w) o D tr Hv Ho HD Haddr) as Hfit.
  pose proof (write_bounds cs o D P (proj1 Hcs) Ho HD) as (_ & _ & _ & Hab). fold a b in Hab.
  assert (Hw : write offset d tr w = (us ← prepare_chunks D o a b tr (seqZ a (b - a + 1)) 0; commit us tr) w).
  { unfold write. rewrite (hs_plain _ _ _ Hs).
    assert (ED : (if zlen P <? offset then zeros (offset - zlen P) ++ d else d) = D).
    { unfold D, write_data. destruct (Z.ltb_spec (zlen P) offset); [done|]. by rewrite zeros_neg by lia. }
    assert (Eo : (if zlen P <? offset then zlen P else offset) = o).
    { unfold o, write_pos. destruct (Z.ltb_spec (zlen P) offset); lia. }
    rewrite ED, Eo, (proj2 (Z.eqb_neq (zlen d) 0)) by lia. destruct Hfit as [HP _ _ [_ HD63] _].
    rewrite wrap_id by lia. done. }
  destruct (prepare_chunks_run hist P o D tr a (Z.to_nat (b - a + 1)) a 0 w)
    as (w1 & Hps & Hv1 & Hres); try done; fold cs; fold b.
  { lia. }
  { intros _. unfold sent_before. fold a. by rewrite Z.eqb_refl. }
  fold cs b in Hres. rewrite Z2Nat.id in Hres by lia.
  exists w1. split; [done|]. split; [done|].
  destruct Hres as [(us & Hprep & Hlen & Hus & Hcached)|[Hprep Hst']].
  2:{ right. split; [|done]. rewrite Hw. by apply run_bind_throw. }
  left. exists us. split; [by rewrite Hw, (run_bind_ret _ _ _ _ _ Hprep)|].
  pose proof Hps as [Efh (Ee & Eh & Es & (E1 & E2 & E3 & E4) & Ev)]. cbv zeta.
  assert (Ecs : plain_chunk_size (w_env w1) = cs) by (unfold cs, plain_chunk_size; by rewrite Ee).
  rewrite Ecs, Ev, Ee. fold a b. split_and!; try done.
  - by apply (prep_same_sizes P _ w).
  - destruct Hfit as [? ? ? ? Ha]. constructor; try done. rewrite Ecs. fold b. fold cs b in Ha.
    unfold chunk_addressable in *. by rewrite E1, E2.
  - unfold zlen. lia.
  - unfold server_chunk_of in *. rewrite E1, E2. apply Hcached. lia.
  - unfold chunk_addressable in *. by rewrite E1, E2.
Qed.

(** A write splices the text, one version later. *)
Lemma write_run hist P w offset d truncate :
  handler_ok hist P w -> write_bounded offset d P truncate w -> renewable w.(w_fh) ->
  let v := w.(w_fh).(_version) in
  exists w' f', write offset d truncate w = (Ret tt, w')
    /\ handler_ok (hist_set hist (v + 1) f') (file_write offset d truncate P) w'
    /\ w'.(w_fh).(_version) = v + 1 /\ geometry w' = geometry w /\ renewable w'.(w_fh)
    /\ w'.(w_fh).(_fileMeta) = updated_meta w.(w_fh).(_fileMeta)
         (hmacSha256 w.(w_env).(e_hash).(HmacList._topHashKey)
            (file_of w'.(w_env).(e_srv) (fileId w')).2)
         (zlen (file_write offset d truncate P)).
Proof.
  intros Hok [Hoff Hd Haddr Hone] Hre v. pose proof Hok as [Hv Hs Hst Hsums].
  rewrite file_write_splice in Haddr |- * by done.
  destruct (write_start hist P w offset d truncate Hv Hs Hoff Hd Haddr)
    as (w1 & Hps & Hv1 & [(us & Hw & Hs1 & Hfit & Hlen & Hus & Hcached & Haddr1)|[_ Hst']]); [|done].
  pose proof (prep_same_ok _ _ _ _ Hok Hps Hv1) as [_ _ Hst1 Hsums1].
  pose proof Hps as [Efh (Ee & Eh & Es & (E1 & E2 & _) & Ev)].
  destruct (fv_enc _ _ _ Hv1) as (old & Hold & Hf & Hh).
  assert (Hfresh1 : ChunkReader._version (e_reader (w_env w1)) = version_of (e_srv (w_env w1)) (fileId w1)).
  { destruct (decide (ChunkReader._version (e_reader (w_env w1)) = version_of (e_srv (w_env w1)) (fileId w1)));
      [done|]. by destruct Hst1. }
  destruct (commit_refines hist P (write_pos offset P) (write_data offset d P) truncate us w1 old)
    as (w' & Hrun & Hok' & Hver & Hgeo & Hre' & Hmeta); try done.
  { by rewrite Efh. }
  { unfold plain_chunk_size in *. by rewrite Ee. }
  rewrite Ev, <- (hs_version _ _ _ Hs) in Hok', Hver. fold v in Hok', Hver.
  eexists w', _. split; [by rewrite Hw|]. split; [exact Hok'|]. split; [done|].
  split; [|split; [done|by rewrite Hmeta, Efh, Eh]]. rewrite Hgeo. unfold geometry, plain_chunk_size. by rewrite Ee, E1, E2.
Qed.


End WriteTheorem.

(** ** Several changes in one write

    [updateOnServer] asks for truncation on every change but the last one, so
    a write that does not fit one change cuts the file after it even when the
    caller did not ask for that. *)
Section ManyChanges.
Import FileHandler.

Lemma splice_after_cut {A} p (x y : list A) t l : 0 <= p <= zlen l ->
  splice (p + zlen x) y t (splice p x true l) = splice p (x ++ y) true l.
Proof.
  intros Hp. pose proof (zlen_nonneg x). pose proof (zlen_nonneg y).
  destruct t; [by apply splice_splice|]. apply list_eq. intros k.
  rewrite lookup_splice by (rewrite zlen_splice by done; lia).
  rewrite !lookup_splice by done. rewrite zlen_app.
  repeat case_decide; try lia; try done.
  - rewrite lookup_app_l by (unfold zlen in *; lia). done.
  - rewrite lookup_app_r by (unfold zlen in *; lia). f_equal. unfold zlen in *. lia.
Qed.

(** Each change starts where the one before it ends. *)
Fixpoint adjacent (u : UpdateChanges) (l : list UpdateChanges) : Prop :=
  match l with
  | [] => True
  | u' :: l => u'.(uc_dataPos) = u.(uc_dataPos) + zlen u.(uc_data) /\ adjacent u' l
  end.

Definition all_data (l : list UpdateChanges) : bytes := concat (uc_data <$> l).

Lemma apply_change u last tr ops (f sums : bytes) :
  (apply_ops (operations_of u last tr ++ ops) (f, sums)).1
  = (apply_ops ops (splice u.(uc_dataPos) u.(uc_data) (if last then tr else true) f,
       splice u.(uc_checksumPos) u.(uc_checksum) (if last then tr else true) sums)).1.
Proof. done. Qed.

(** what the operations of a write do to the server's file: one change
    splices it with the requested truncation, but two or more adjacent changes
    always cut the file after the last byte written. *)
Theorem many_changes_truncate u l tr (f sums : bytes) :
  0 <= u.(uc_dataPos) <= zlen f -> adjacent u l ->
  (apply_ops (concat (all_operations (u :: l) tr)) (f, sums)).1
  = splice u.(uc_dataPos) (all_data (u :: l)) (match l with [] => tr | _ => true end) f.
Proof.
  intros Hp Hadj. unfold all_data.
  assert (Hgen : forall l u (f sums : bytes) (x : bytes) p, 0 <= p <= zlen f -> l <> [] ->
    u.(uc_dataPos) = p + zlen x -> adjacent u l ->
    forall f0, f0 = splice p x true f ->
    (apply_ops (concat (all_operations (u :: l) tr)) (f0, sums)).1
    = splice p (x ++ concat (uc_data <$> u :: l)) true f).
  { clear. induction l as [|u2 l IH]; intros u f sums x p Hp Hne Hpos Hadj f0 ->; [done|].
    destruct Hadj as [Hpos2 Hadj].
    cbn [all_operations concat]. rewrite apply_change, Hpos, splice_after_cut by done.
    destruct l as [|u3 l].
    - cbn [all_operations concat]. rewrite apply_change. cbn.
      rewrite Hpos2, Hpos, <- Z.add_assoc, <- zlen_app, splice_after_cut by done.
      by rewrite app_nil_r, app_assoc.
    - rewrite (IH u2 f _ (x ++ uc_data u) p); try done.
      + cbn. by rewrite !app_assoc.
      + rewrite Hpos2, Hpos, zlen_app. lia. }
  destruct l as [|u2 l].
  { cbn [all_operations concat]. rewrite apply_change. cbn. by rewrite app_nil_r. }
  destruct Hadj as [Hpos2 Hadj]. cbn [all_operations concat]. rewrite apply_change.
  destruct l as [|u3 l].
  - cbn [all_operations concat]. rewrite apply_change. cbn.
    rewrite Hpos2, splice_after_cut by done. by rewrite app_nil_r.
  - rewrite (Hgen (u3 :: l) u2 f _ (uc_data u) (uc_dataPos u)); done.
Qed.

Lemma many_changes_truncate_witness :
  (apply_ops (concat (all_operations
     [mkChanges (zeros 2) 1 (zeros 32) 0; mkChanges (zeros 1) 3 (zeros 32) 32] false))
     (be_encode 8 0x0102030405060708, [])).1
  = splice 1 (zeros 3) true (be_encode 8 0x0102030405060708).
Proof.
  apply (many_changes_truncate (mkChanges (zeros 2) 1 (zeros 32) 0)
    [mkChanges (zeros 1) 3 (zeros 32) 32] false (be_encode 8 0x0102030405060708) []);
    [by vm_compute|by repeat split].
Defined.
End ManyChanges.
