(* ===== verification/FileIO.v ===== *)
(** * Positioned file access
    (FileHandlerImpl in endpoint/store/src/FileHandler.cpp)

    The object behind a read-write handle: a [FileHandler] with a read and a
    write position.  The abstract file is a text with two positions; the two are
    shown to agree on every sequence of seeks, reads and writes. *)

From Stdlib Require Import ZArith Lia.
From stdpp Require Import base sets list.
From S2P Require Import Prelude Bytes CoreTypes Crypto CryptoSuite Dynamic Encryptors Dio FileMetaData.
From S2P Require Import ChunkCrypto HmacList StoreServer ChunkProvider ChunkReader FileHandler FileWrite FileRefine.

Record fimpl `{CryptoService} `{StoreServer} := mkImpl {
  fi_world : fworld;
  _readPos : Z;
  _writePos : Z;
}.

Module FileHandlerImpl.
Section Ops.
Context {C : CryptoService} {X : StoreServer}.
Context {E : Ecc} {E0 : Encodings} {D : Dynamic} `{!KeyFormats PublicKey} `{!FileJson}.
Context `{!JsonCodec DIOEncryptorV1.DioJson} `{!JsonCodec InternalStoreFileMeta} {M : MetaConnection}.

Definition on_file {A} (m : ST fworld A) : ST fimpl A :=
  zoom fi_world (fun w s => mkImpl _ _ w s.(_readPos) s.(_writePos)) m.

Definition construct (file : fworld) : fimpl := mkImpl _ _ file 0 0.

Definition size : ST fimpl Z := on_file FileHandler.getFileSize.

Definition seekg (pos : Z) : ST fimpl unit :=
  n ← on_file FileHandler.getFileSize;
  _ ← throw_if (n <? pos) PosOutOfBoundsException;
  modify (fun s => mkImpl _ _ s.(fi_world) pos s.(_writePos)).

Definition seekp (pos : Z) : ST fimpl unit :=
  n ← on_file FileHandler.getFileSize;
  _ ← throw_if (n <? pos) PosOutOfBoundsException;
  modify (fun s => mkImpl _ _ s.(fi_world) s.(_readPos) pos).

Definition read (length : Z) : ST fimpl bytes := fun s =>
  (buf ← on_file (FileHandler.read s.(_readPos) length);
   _ ← modify (fun s => mkImpl _ _ s.(fi_world) (u64 (s.(_readPos) + zlen buf)) s.(_writePos));
   mret buf) s.

Definition write (chunk : bytes) (truncate : bool) : ST fimpl unit := fun s =>
  (_ ← on_file (FileHandler.write s.(_writePos) chunk truncate);
   modify (fun s => mkImpl _ _ s.(fi_world) s.(_readPos) (u64 (s.(_writePos) + zlen chunk)))) s.

Definition flush : ST fimpl unit := throw NotImplementedException.
End Ops.
End FileHandlerImpl.

(** ** The abstract file *)
Record afile := mkAFile { af_text : bytes; af_read : Z; af_write : Z }.

Inductive file_op :=
| OpSeekg (pos : Z)
| OpSeekp (pos : Z)
| OpRead (length : Z)
| OpWrite (d : bytes) (truncate : bool).

(** What an operation returns: the bytes read, or nothing. *)
Definition spec_op (op : file_op) : ST afile bytes := fun a =>
  match op with
  | OpSeekg pos =>
      if zlen a.(af_text) <? pos then (Throw PosOutOfBoundsException, a)
      else (Ret [], mkAFile a.(af_text) pos a.(af_write))
  | OpSeekp pos =>
      if zlen a.(af_text) <? pos then (Throw PosOutOfBoundsException, a)
      else (Ret [], mkAFile a.(af_text) a.(af_read) pos)
  | OpRead n =>
      let buf := slice a.(af_read) n a.(af_text) in
      (Ret buf, mkAFile a.(af_text) (a.(af_read) + zlen buf) a.(af_write))
  | OpWrite d tr =>
      (Ret [], mkAFile (file_write a.(af_write) d tr a.(af_text)) a.(af_read) (a.(af_write) + zlen d))
  end.

(** The results of a sequence of operations, exceptions included. *)
Fixpoint run_ops {S} (step : file_op -> ST S bytes) (ops : list file_op) (s : S)
    : list (outcome bytes) * S :=
  match ops with
  | [] => ([], s)
  | op :: ops =>
      let '(r, s1) := step op s in
      let '(rs, s2) := run_ops step ops s1 in
      (r :: rs, s2)
  end.

Section Simulation.
Context {C : CryptoService} {X : StoreServer} {CL : CryptoLaws C} {XL : StoreServerLaws X}.
Context {E : Ecc} `{!EccLaws E} {E0 : Encodings} `{!EncodingsLaws E0} {D : Dynamic}.
Context `{!KeyFormats PublicKey} `{!KeyFormatsLaws PublicKey} `{!FileJson}.
Context `{!JsonCodec DIOEncryptorV1.DioJson} `{!JsonCodecLaws DIOEncryptorV1.DioJson} `{!JsonCodec InternalStoreFileMeta}.
Context {M : MetaConnection}.

Definition impl_op (op : file_op) : ST fimpl bytes :=
  match op with
  | OpSeekg pos => _ ← FileHandlerImpl.seekg pos; mret []
  | OpSeekp pos => _ ← FileHandlerImpl.seekp pos; mret []
  | OpRead n => FileHandlerImpl.read n
  | OpWrite d tr => _ ← FileHandlerImpl.write d tr; mret []
  end.

(** The bounds an operation must respect on a file of the given geometry:
    positions stay in 64 bits, a write is not empty, its result is addressable
    and its chunks go out as one change. *)
Definition op_ok (g : Z * Z * Z) (a : afile) (op : file_op) : Prop :=
  let '(cs, esz, scs) := g in
  match op with
  | OpSeekg pos | OpSeekp pos => 0 <= pos
  | OpRead n => 0 <= n /\ a.(af_read) + n < 2 ^ 64
  | OpWrite d tr =>
      0 < zlen d /\ a.(af_write) + zlen d < 2 ^ 64
      /\ (let i := chunk_count cs (zlen (file_write a.(af_write) d tr a.(af_text))) + 1 in
          0 <= i < 2 ^ 32 /\ esz * i < (2 ^ 32 - 2) * scs)
      /\ (last_chunk cs (write_pos a.(af_write) a.(af_text)) (write_data a.(af_write) d a.(af_text))
          - first_chunk cs (write_pos a.(af_write) a.(af_text)) + 1) * enc_size cs
         < FileHandler.SERVER_OPERATION_SIZE_LIMIT
  end.

Fixpoint ops_ok (g : Z * Z * Z) (a : afile) (ops : list file_op) : Prop :=
  match ops with
  | [] => True
  | op :: ops => op_ok g a op /\ ops_ok g (spec_op op a).2 ops
  end.

(** The concrete file implements the abstract one. *)
Record implements (g : Z * Z * Z) (a : afile) (s : fimpl) : Prop := {
  im_handler : exists hist, handler_ok hist a.(af_text) s.(fi_world);
  im_renewable : renewable s.(fi_world).(w_fh);
  im_geometry : geometry s.(fi_world) = g;
  im_read : s.(_readPos) = a.(af_read) /\ 0 <= a.(af_read);
  im_write : s.(_writePos) = a.(af_write) /\ 0 <= a.(af_write);
}.

Lemma read_run hist P w pos n : handler_ok hist P w -> 0 <= pos -> 0 <= n -> pos + n < 2 ^ 64 ->
  exists w', FileHandler.read pos n w = (Ret (slice pos n P), w')
    /\ handler_ok hist P w' /\ geometry w' = geometry w /\ w'.(w_fh) = w.(w_fh).
Proof.
  intros Hok Hp Hn Hb. pose proof Hok as [Hv Hs Hst Hsums]. unfold FileHandler.read.
  rewrite (hs_plain _ _ _ Hs).
  destruct (read_range_run hist P (w_env w) pos n Hv Hp Hn Hb) as (r & e' & Hrun & Hr & Hv' & Hsame).
  assert (Hps : prep_same w (with_env e' w)) by (by constructor).
  destruct Hr as [->|[_ ?]]; [|done]. exists (with_env e' w).
  split; [unfold in_env, zoom; by rewrite Hrun|]. split; [by apply (prep_same_ok hist P w)|].
  destruct Hsame as (Ee & _ & _ & (E1 & E2 & _) & _).
  split; [|done]. unfold geometry, plain_chunk_size. cbn. by rewrite Ee, E1, E2.
Qed.

(** One operation. *)
Lemma op_simulates g a s op : implements g a s -> op_ok g a op ->
  exists s', impl_op op s = ((spec_op op a).1, s') /\ implements g (spec_op op a).2 s'.
Proof.
  intros [[hist Hok] Hre Hgeo [Er Hr] [Ew Hw]] Hop.
  pose proof Hok as [Hv Hs Hst Hsums]. pose proof (hs_plain _ _ _ Hs) as Hsize.
  assert (Hfs : forall st, FileHandlerImpl.on_file FileHandler.getFileSize st
    = (Ret (st.(fi_world).(w_fh).(FileHandler._plainfileSize)), st)) by (by intros []).
  destruct g as [[cs esz] scs]. destruct op as [pos|pos|n|d tr]; cbn [impl_op spec_op op_ok] in *.
  - unfold FileHandlerImpl.seekg. unfold_st. rewrite Hfs, Hsize.
    destruct (zlen (af_text a) <? pos); cbn; (eexists; split; [done|]); constructor; cbn; eauto.
  - unfold FileHandlerImpl.seekp. unfold_st. rewrite Hfs, Hsize.
    destruct (zlen (af_text a) <? pos); cbn; (eexists; split; [done|]); constructor; cbn; eauto.
  - destruct Hop as [Hn Hb]. unfold FileHandlerImpl.read.
    destruct (read_run hist (af_text a) (fi_world s) (af_read a) n Hok Hr Hn Hb) as (w' & Hrun & Hok' & Hgeo' & Hfh).
    rewrite Er. rewrite (run_bind_ret _ _ s _ (mkImpl _ _ w' (_readPos s) (_writePos s)))
      by (unfold FileHandlerImpl.on_file, zoom; by rewrite Hrun).
    eexists. split; [done|]. pose proof (zlen_slice (af_read a) n (af_text a) Hr Hn).
    pose proof (zlen_nonneg (slice (af_read a) n (af_text a))).
    constructor; cbn; [eauto|by rewrite Hfh|congruence| |done]. rewrite Er, wrap_id by lia. lia.
  - destruct Hop as (Hd & Hb & Haddr & Hone). unfold FileHandlerImpl.write.
    unfold geometry in Hgeo. injection Hgeo as Ecs Eesz Escs.
    destruct (write_run hist (af_text a) (fi_world s) (af_write a) d tr Hok) as (w' & f' & Hrun & Hok' & _ & Hgeo' & Hre' & _).
    { constructor; [done|done| |].
      - unfold chunk_addressable. rewrite Ecs, Eesz, Escs. exact Haddr.
      - by rewrite Ecs. }
    { done. }
    rewrite (run_bind_ret _ _ s tt (mkImpl _ _ w' (_readPos s) (u64 (_writePos s + zlen d)))).
    2:{ rewrite Ew. rewrite (run_bind_ret _ _ s tt (mkImpl _ _ w' (_readPos s) (_writePos s))) by (unfold FileHandlerImpl.on_file, zoom; by rewrite Hrun).
        cbn. by rewrite Ew. }
    eexists. split; [done|]. pose proof (zlen_nonneg d).
    constructor; cbn; [eauto|done|unfold geometry in *; congruence|done|]. rewrite Ew, wrap_id by lia. lia.
Qed.

(** C12: every sequence of seeks, reads and writes within bounds behaves on an
    open file exactly as on a text with two positions: the same results in the
    same order, errors included, and the file still implements the text.  The
    file's metadata must be renewable: a key of structure 1 or 2, and for the
    latter a connection that knows its user, clock and bridge. *)
Theorem file_trace_refinement g a s ops :
  implements g a s -> ops_ok g a ops ->
  exists s', run_ops impl_op ops s = ((run_ops spec_op ops a).1, s')
    /\ implements g (run_ops spec_op ops a).2 s'.
Proof.
  revert a s. induction ops as [|op ops IH]; intros a s Him Hok; cbn.
  { by exists s. }
  destruct Hok as [Hop Hops]. destruct (op_simulates g a s op Him Hop) as (s1 & -> & Him1).
  destruct (spec_op op a) as [r a1]. cbn in *.
  destruct (IH a1 s1 Him1 Hops) as (s2 & -> & Him2).
  destruct (run_ops spec_op ops a1) as [rs a2]. eauto.
Qed.
End Simulation.
