(* ===== verification/FileHandle.v ===== *)
(** * Opening a stored file (FileReadHandle and FileReadWriteHandle in
    endpoint/store/src/FileHandle.cpp)

    A handle is built from the file's decryption parameters: it fetches the
    checksum list, authenticates it against the top hash and checks the sizes.
    Opening a file whose server buffers encode a text is proved to give a handle
    that holds that text. *)

From Stdlib Require Import ZArith Lia.
From stdpp Require Import base sets list.
From S2P Require Import Prelude Bytes CoreTypes Crypto CryptoSuite Dynamic Encryptors Dio FileMetaData.
From S2P Require Import ChunkCrypto HmacList StoreServer ChunkProvider ChunkReader FileHandler FileWrite FileRefine FileIO.

(** The objects shared by a handle's parts, built in the constructor's order. *)
Definition open_env `{CryptoService} `{StoreServer} (params : FileDecryptionParams) (serverChunkSize : Z)
    : ST srv env := fun s =>
  let enc := ChunkEncryptor.mk params.(fdp_key) params.(fdp_chunkSize) in
  let cdp := ChunkDataProvider.construct (ChunkEncryptor.getEncryptedChunkSize enc) serverChunkSize
    params.(fdp_fileId) params.(fdp_sizeOnServer) params.(fdp_version) in
  match ChunkDataProvider.getCurrentChecksumsFromBridge (cdp, s) with
  | (Throw e, (_, s')) => (Throw e, s')
  | (Ret sums, (cdp', s')) =>
      match HmacList.construct params.(fdp_key) params.(fdp_hmac) sums with
      | Throw e => (Throw e, s')
      | Ret hashList =>
          match ChunkReader.construct enc params with
          | Throw e => (Throw e, s')
          | Ret reader => (Ret (mkEnv _ enc cdp' hashList reader s'), s')
          end
      end
  end.

Record read_handle `{StoreServer} := mkReadHandle {
  rh_env : env;
  rh_fileReader : FileReader.t;
  rh_size : Z;
  rh_pos : Z;
}.

Module FileReadHandle.
Section Ops.
Context `{CryptoService} `{StoreServer}.

Definition construct (params : FileDecryptionParams) (serverChunkSize : Z) : ST srv read_handle :=
  e ← open_env params serverChunkSize;
  mret (mkReadHandle _ e (FileReader.construct params) params.(fdp_originalSize) 0).

Definition on_env {A} (m : ST env A) : ST read_handle A :=
  zoom rh_env (fun e h => mkReadHandle _ e h.(rh_fileReader) h.(rh_size) h.(rh_pos)) m.

(** The size check uses the chunk size the handle was opened with: the
    cipher is only brought up to date afterwards. *)
Definition sync (params : FileDecryptionParams) : ST read_handle unit := fun h =>
  (_ ← throw_if (negb (params.(fdp_sizeOnServer)
         =? ChunkEncryptor.getEncryptedFileSize h.(rh_env).(e_enc) params.(fdp_originalSize)))
         FileCorruptedException;
   _ ← on_env (zoom e_enc (fun c e => mkEnv _ c e.(e_cdp) e.(e_hash) e.(e_reader) e.(e_srv))
         (ChunkEncryptor.sync params.(fdp_key) params.(fdp_chunkSize)));
   sums ← on_env (on_provider ChunkDataProvider.getCurrentChecksumsFromBridge);
   _ ← on_env (on_hashes (HmacList.sync params.(fdp_key) params.(fdp_hmac) sums));
   _ ← on_env (on_provider (zoom fst (fun c cs => (c, cs.2))
         (ChunkDataProvider.sync params.(fdp_version) params.(fdp_sizeOnServer) None None)));
   _ ← on_env (on_reader (ChunkReader.sync params));
   modify (fun h => mkReadHandle _ h.(rh_env) (FileReader.construct params)
             params.(fdp_originalSize) h.(rh_pos))) h.

(** [size_t] is 64 bits wide, so the architecture check never fires. *)
Definition read (length : Z) : ST read_handle bytes := fun h =>
  (_ ← throw_if (u64_max <? length) NumberToBigForCPUArchitectureException;
   result ← on_env (FileReader.read h.(rh_fileReader) h.(rh_pos) length);
   _ ← modify (fun h => mkReadHandle _ h.(rh_env) h.(rh_fileReader) h.(rh_size)
         (u64 (h.(rh_pos) + length)));
   mret result) h.

Definition seek (pos : Z) : ST read_handle unit := fun h =>
  (_ ← throw_if (h.(rh_size) <=? pos) PosOutOfBoundsException;
   modify (fun h => mkReadHandle _ h.(rh_env) h.(rh_fileReader) h.(rh_size) pos)) h.
End Ops.
End FileReadHandle.

(** [FileReadWriteHandle]: the same objects under a [FileHandler]. *)
Definition open_read_write `{CryptoService} `{StoreServer} (info : FileInfo) (params : FileDecryptionParams) (fm : FileMeta)
    (encKey : DecryptedEncKey) (serverChunkSize : Z) (g : rng) : ST srv fimpl :=
  e ← open_env params serverChunkSize;
  mret (FileHandlerImpl.construct (mkWorld _ _
    (FileHandler.construct e.(e_enc) params.(fdp_originalSize) params.(fdp_sizeOnServer)
       params.(fdp_version) info fm encKey) e g)).

Section Opening.
Context {C : CryptoService} {X : StoreServer} {CL : CryptoLaws C} {XL : StoreServerLaws X}.

(** The parameters describe the file the server holds: its current buffers
    encode [P] under the parameters' key, and its sizes, version and top hash
    are the ones they carry. *)
Record params_match (params : FileDecryptionParams) (serverChunkSize : Z) (P : bytes) (s : srv) : Prop := {
  pm_cs : 0 < params.(fdp_chunkSize) < 2 ^ 31;
  pm_scs : 0 < serverChunkSize /\ serverChunkSize + params.(fdp_chunkSize) + 128 < 2 ^ 31;
  pm_version : params.(fdp_version) = version_of s params.(fdp_fileId);
  pm_size : params.(fdp_originalSize) = zlen P;
  pm_server_size : params.(fdp_sizeOnServer) = zlen (file_of s params.(fdp_fileId)).1;
  pm_encodes : exists hs, encodes (ChunkEncryptor.mk params.(fdp_key) params.(fdp_chunkSize)) P
      (file_of s params.(fdp_fileId)).1 hs /\ (file_of s params.(fdp_fileId)).2 = concat hs;
  pm_top : params.(fdp_hmac) = hmacSha256 params.(fdp_key) (file_of s params.(fdp_fileId)).2;
  pm_addr : chunk_count params.(fdp_chunkSize) (zlen P) < 2 ^ 32
    /\ enc_size params.(fdp_chunkSize) * chunk_count params.(fdp_chunkSize) (zlen P)
       < (2 ^ 32 - 2) * serverChunkSize
    /\ zlen (file_of s params.(fdp_fileId)).2 + HMAC_SIZE < 2 ^ 64;
}.

(** The provider rounds the server chunk up to whole encrypted chunks. *)
Lemma server_read_size esz scs : 0 < esz -> 0 < scs ->
  let r := ChunkDataProvider.getServerReadDataSize esz scs in
  r mod esz = 0 /\ scs <= r < scs + esz.
Proof.
  intros He Hs r. unfold r, ChunkDataProvider.getServerReadDataSize.
  rewrite Z.quot_div_nonneg by lia. split; [apply Z.mod_mul; lia|].
  pose proof (Z.div_mod (scs + esz - 1) esz ltac:(lia)).
  pose proof (Z.mod_pos_bound (scs + esz - 1) esz ltac:(lia)). lia.
Qed.

Lemma entries_of_concat h (hs : list bytes) : hmac_list_ok h ->
  h.(HmacList._hashes) = concat hs -> (forall x, x ∈ hs -> zlen x = HMAC_SIZE) -> entries h = hs.
Proof.
  intros Hok Hc Hall. pose proof (hlo_len _ Hok) as Hl. rewrite Hc in Hl.
  rewrite (zlen_concat_const hs HMAC_SIZE Hall) in Hl.
  apply entries_eq; [done|unfold HMAC_SIZE in *; lia|]. intros k Hk.
  destruct (lookup_lt_is_Some_2 hs k) as [x Hx]; [unfold zlen, HMAC_SIZE in *; lia|].
  rewrite Hx. f_equal. unfold hash_at, slice. rewrite Hc.
  pose proof (lookup_lt_Some _ _ _ Hx) as Hlt.
  destruct (concat_take_const hs HMAC_SIZE k ltac:(done) Hall ltac:(lia)) as [_ ->].
  rewrite (drop_S _ _ _ Hx). cbn. symmetry. apply ztake_app_eq.
  symmetry. apply Hall. apply list_elem_of_lookup. eauto.
Qed.

Lemma open_env_run params scs P s : params_match params scs P s ->
  exists e, open_env params scs s = (Ret e, s) /\ e.(e_srv) = s
    /\ e.(e_enc) = ChunkEncryptor.mk params.(fdp_key) params.(fdp_chunkSize)
    /\ e.(e_reader).(ChunkReader._version) = params.(fdp_version)
    /\ e.(e_cdp).(ChunkDataProvider._fileId) = params.(fdp_fileId)
    /\ e.(e_hash).(HmacList._hashes) = (file_of s params.(fdp_fileId)).2
    /\ e.(e_cdp).(ChunkDataProvider._serverChunkSize)
       = ChunkDataProvider.getServerReadDataSize (enc_size params.(fdp_chunkSize)) scs
    /\ file_view (fun _ => (file_of s params.(fdp_fileId)).1) P e.
Proof.
  intros [Hcs Hscs Hver Hsz Hssz (hs & Henc & Hsums) Htop (Hcnt & Haddr & Hb)].
  set (cs := fdp_chunkSize params) in *. set (enc := ChunkEncryptor.mk (fdp_key params) cs) in *.
  assert (Hesz : ChunkEncryptor.getEncryptedChunkSize enc = enc_size cs) by (by apply enc_chunk_size).
  pose proof (enc_size_bounds cs ltac:(lia)) as Heb. pose proof (zlen_nonneg P).
  destruct (server_read_size (enc_size cs) scs ltac:(lia) ltac:(lia)) as [Hmod Hr].
  set (r := ChunkDataProvider.getServerReadDataSize (enc_size cs) scs) in *.
  destruct Henc as (chs & Hea & Hf & Hh). pose proof Hea as [Hcount Hk].
  assert (H32 : forall x, x ∈ hs -> zlen x = HMAC_SIZE).
  { intros x Hx. rewrite Hh in Hx. apply list_elem_of_fmap in Hx as (c & -> & Hc).
    apply list_elem_of_lookup in Hc as [k Hc]. by destruct (Hk k c Hc) as (_ & _ & ?). }
  unfold open_env. fold cs enc. rewrite Hesz.
  unfold ChunkDataProvider.getCurrentChecksumsFromBridge. cbn [ChunkDataProvider._fileId ChunkDataProvider.construct].
  rewrite read_checksum_law.
  assert (Hmod32 : zlen (file_of s (fdp_fileId params)).2 mod HMAC_SIZE = 0).
  { rewrite Hsums, (zlen_concat_const hs HMAC_SIZE H32). apply Z.mod_mul. done. }
  unfold HmacList.construct. rewrite bool_decide_eq_false_2 by (rewrite Htop; by intros []).
  rewrite Hmod32. cbn [negb Z.eqb].
  unfold ChunkReader.construct.
  assert (Hgs : ChunkEncryptor.getEncryptedFileSize enc (fdp_originalSize params) = fdp_sizeOnServer params).
  { rewrite Hsz, Hssz, Hf, (encodes_zlen enc P chs Hea).
    pose proof (encodes_zlen_le enc P chs (proj1 Hcs) Hea) as Hle. rewrite (encodes_zlen enc P chs Hea) in Hle.
    change (ChunkEncryptor._chunkSize enc) with cs in *.
    pose proof (chunk_count_le cs (zlen P) (proj1 Hcs) ltac:(done)).
    pose proof (mul_bound (chunk_count cs (zlen P)) (enc_size cs) (2 ^ 32) (2 ^ 31 + 64)
      ltac:(pose proof (chunk_count_nonneg cs (zlen P)); lia) ltac:(lia)).
    pose proof (mul_bound (chunk_count cs (zlen P)) cs (2 ^ 32) (2 ^ 31)
      ltac:(pose proof (chunk_count_nonneg cs (zlen P)); lia) ltac:(lia)).
    apply (getEncryptedFileSize_eq enc P); change (ChunkEncryptor._chunkSize enc) with cs; lia. }
  rewrite Hgs, Z.eqb_refl. cbn [negb andb]. eexists. split; [done|]. cbn.
  split; [done|]. split; [done|]. split; [done|]. split; [done|]. split; [done|].
  assert (Hr64 : u64 (ChunkDataProvider.getServerReadDataSize (i64 (enc_size cs)) (i64 scs)) = r).
  { rewrite !i64_small by lia. fold r. apply wrap_id. lia. }
  split; [exact Hr64|].
  assert (Hhok : hmac_list_ok (HmacList.mk (fdp_key params) (Some (hmacSha256 (fdp_key params) (file_of s (fdp_fileId params)).2))
    (zlen (file_of s (fdp_fileId params)).2 / HMAC_SIZE) (file_of s (fdp_fileId params)).2)).
  { constructor; cbn; [by apply mult_of_mod|done|by intros ? [= <-]]. }
  constructor; unfold plain_chunk_size; cbn; rewrite ?Hr64; try done.
  - constructor; cbn; rewrite ?Hr64; lia.
  - intros n [= <-]. done.
  - rewrite (entries_of_concat _ hs Hhok Hsums H32). by exists chs.
  - intros i Hi. split; [lia|]. cbn. rewrite Hr64. nia.
Qed.

(** a file whose server buffers encode a text opens, and the handle reads
    the text: every read returns the next slice from the handle's position.
    (The position moves by the requested length, even past the end.) *)
Theorem open_and_read params scs P s n :
  params_match params scs P s -> 0 <= n < 2 ^ 64 ->
  exists h h', FileReadHandle.construct params scs s = (Ret h, s)
    /\ FileReadHandle.read n h = (Ret (ztake n P), h') /\ h'.(rh_pos) = n
    /\ h'.(rh_env).(e_srv) = s.
Proof.
  intros Hm Hn. destruct (open_env_run params scs P s Hm) as (e & Hopen & Hs & Henc & Hver & Hid & _ & _ & Hv).
  set (h := mkReadHandle _ e (FileReader.construct params) (fdp_originalSize params) 0).
  destruct (read_range_run _ P e 0 n Hv) as (r & e' & Hrun & Hr & Hv' & Hsame); [lia..|].
  assert (r = Ret (ztake n P)) as ->.
  { destruct Hr as [->|[_ Hst]]; [unfold slice; by rewrite zdrop_0|].
    destruct Hst. by rewrite Hver, Hs, Hid, (pm_version _ _ _ _ Hm). }
  eexists h, _. split; [unfold FileReadHandle.construct; by rewrite (run_bind_ret _ _ _ _ _ Hopen)|].
  split.
  - unfold FileReadHandle.read. rewrite (run_bind_ret _ _ h tt h).
    2:{ rewrite (proj2 (Z.ltb_ge _ _)) by (unfold u64_max; lia). done. }
    rewrite (run_bind_ret _ _ h (ztake n P) (mkReadHandle _ e' (FileReader.construct params) (fdp_originalSize params) 0)).
    2:{ unfold FileReadHandle.on_env, zoom, FileReader.read. cbn. rewrite (pm_size _ _ _ _ Hm), Hrun. done. }
    done.
  - cbn. rewrite wrap_id by lia. split; [lia|]. destruct Hsame as (_ & _ & -> & _). done.
Qed.

(** a handle is never built on a checksum list the top hash does not
    authenticate, nor on a file of the wrong size. *)
Theorem open_rejects_tampered params scs s :
  (params.(fdp_hmac) <> hmacSha256 params.(fdp_key) (file_of s params.(fdp_fileId)).2 ->
     FileReadHandle.construct params scs s = (Throw InvalidFileTopHashException, s))
  /\ (forall h, FileReadHandle.construct params scs s = (Ret h, s) -> params.(fdp_originalSize) <> 0 ->
       params.(fdp_sizeOnServer) = ChunkEncryptor.getEncryptedFileSize
         (ChunkEncryptor.mk params.(fdp_key) params.(fdp_chunkSize)) params.(fdp_originalSize)).
Proof.
  unfold FileReadHandle.construct, open_env. unfold_st.
  unfold ChunkDataProvider.getCurrentChecksumsFromBridge. cbn [ChunkDataProvider._fileId ChunkDataProvider.construct].
  rewrite read_checksum_law. split.
  - intros Hne. unfold HmacList.construct. by rewrite bool_decide_eq_true_2 by congruence.
  - intros h. destruct (HmacList.construct _ _ _); [|done]. unfold ChunkReader.construct.
    destruct (Z.eqb_spec (fdp_sizeOnServer params) (ChunkEncryptor.getEncryptedFileSize
      (ChunkEncryptor.mk (fdp_key params) (fdp_chunkSize params)) (fdp_originalSize params))); [done|].
    cbn. destruct (Z.eqb_spec (fdp_originalSize params) 0); [|done]. by intros _ ?.
Qed.
End Opening.

Section OpenReadWrite.
Context {C : CryptoService} {X : StoreServer} {CL : CryptoLaws C} {XL : StoreServerLaws X}.
Context {E : Ecc} {E0 : Encodings} {Dy : Dynamic} `{!KeyFormats PublicKey} `{!FileJson}.
Context `{!JsonCodec DIOEncryptorV1.DioJson} `{!JsonCodec InternalStoreFileMeta} {M : MetaConnection}.

Definition open_geometry (params : FileDecryptionParams) (scs : Z) : Z * Z * Z :=
  let esz := enc_size params.(fdp_chunkSize) in
  (params.(fdp_chunkSize), esz, ChunkDataProvider.getServerReadDataSize esz scs).

(** A file opened for random access implements its text, both positions at 0. *)
Lemma open_read_write_run info params fm key scs g P s :
  params_match params scs P s -> info.(fi_fileId) = params.(fdp_fileId) ->
  (forall enc a b v, renewable (FileHandler.construct enc a b v info fm key)) ->
  exists f, open_read_write info params fm key scs g s = (Ret f, s)
    /\ handler_ok (fun _ => (file_of s params.(fdp_fileId)).1) P f.(fi_world)
    /\ implements (open_geometry params scs) (mkAFile P 0 0) f.
Proof.
  intros Hm Hinfo Hre. destruct (open_env_run params scs P s Hm)
    as (e & Hopen & Hs & Henc & Hver & Hid & Hhash & Hserver & Hv).
  set (f := FileHandlerImpl.construct (mkWorld _ _
    (FileHandler.construct (e_enc e) (fdp_originalSize params) (fdp_sizeOnServer params)
       (fdp_version params) info fm key) e g)).
  assert (Hok : handler_ok (fun _ => (file_of s (fdp_fileId params)).1) P (fi_world f)).
  { destruct Hm as [Hcs Hscs Hpv Hsz Hssz _ _ _].
    constructor; cbn; [done| | |].
    - constructor; cbn; rewrite ?Hver, ?Hid; unfold plain_chunk_size; try done.
      rewrite Henc. by apply enc_chunk_size.
    - intros Hst. apply Hst. by rewrite Hver, Hs, Hid.
    - unfold fileId. cbn. by rewrite Hs, Hid. }
  exists f. split; [unfold open_read_write; by rewrite (run_bind_ret _ _ _ _ _ Hopen)|].
  split; [done|]. constructor; cbn; [eauto|apply Hre| |done|done].
  pose proof (fv_esz _ _ _ Hv) as Hesz. unfold geometry, open_geometry, plain_chunk_size in *. cbn.
  by rewrite Hserver, Hesz, Henc.
Qed.

(** opening a file for random access gives an object that implements its
    text, so that the trace refinement applies from the first operation on. *)
Theorem open_implements info params fm key scs g P s :
  params_match params scs P s -> info.(fi_fileId) = params.(fdp_fileId) ->
  (forall enc a b v, renewable (FileHandler.construct enc a b v info fm key)) ->
  exists f, open_read_write info params fm key scs g s = (Ret f, s)
    /\ implements (open_geometry params scs) (mkAFile P 0 0) f.
Proof.
  intros Hm Hi Hre. destruct (open_read_write_run info params fm key scs g P s Hm Hi Hre) as (f & Ho & _ & Him).
  eauto.
Qed.
End OpenReadWrite.
