(* ===== verification/Upload.v ===== *)
(** * Uploading a file
    (endpoint/store/src/ChunkBufferedStream.cpp, ChunkStreamer.cpp and
    FileWriteHandle in FileHandle.cpp)

    A new file is written in pieces of any size: the handle cuts them into plain
    chunks, the streamer encrypts each chunk and cuts the encrypted stream into
    requests of a fixed size.  The theorem is that what the server has received
    when the upload is finalized encodes the text that was written, whatever the
    pieces were. *)

From Stdlib Require Import ZArith Lia Strings.String.
From stdpp Require Import base sets list.
From S2P Require Import Prelude Bytes Crypto ChunkCrypto HmacList StoreServer ChunkProvider.
From S2P Require Import ChunkReader CoreTypes FileWrite FileRefine.

(** [ChunkModel], [CommitFileModel] (ServerTypes.hpp) *)
Record ChunkModel := mkChunkModel {
  cm_requestId : bytes;
  cm_fileIndex : Z;
  cm_seq : Z;
  cm_data : bytes;
}.

Record CommitFileModel := mkCommitModel {
  cf_requestId : bytes;
  cf_fileIndex : Z;
  cf_seq : Z;
  cf_checksum : bytes;
}.

(** [FileDefinition], the one entry of [CreateRequestModel::files]. *)
Record FileDefinition := mkFileDefinition {
  fd_size : Z;
  fd_checksumSize : Z;
  fd_randomWrite : bool;
}.

(** [RequestApi] (RequestApi.cpp) forwards to the bridge, which is not in the
    repository. *)
Class RequestApi := {
  upload_srv : Type;
  createRequestCall : list FileDefinition -> ST upload_srv bytes;
  sendChunkRequest : ChunkModel -> ST upload_srv unit;
  commitFileRequest : CommitFileModel -> ST upload_srv unit;
}.

(** The bridge's side of an upload: it appends chunks that come in sequence,
    and a commit that quotes the number of chunks fixes the file. *)
Class RequestApiLaws (R : RequestApi) := {
  received : upload_srv -> bytes -> Z -> bytes * Z;      (* bytes so far, next sequence number *)
  committed_file : upload_srv -> bytes -> Z -> option (bytes * bytes);
  send_law s c : c.(cm_seq) = (received s c.(cm_requestId) c.(cm_fileIndex)).2 ->
    exists s', sendChunkRequest c s = (Ret tt, s')
      /\ received s' c.(cm_requestId) c.(cm_fileIndex)
         = ((received s c.(cm_requestId) c.(cm_fileIndex)).1 ++ c.(cm_data), c.(cm_seq) + 1);
  commit_law s c : c.(cf_seq) = (received s c.(cf_requestId) c.(cf_fileIndex)).2 ->
    exists s', commitFileRequest c s = (Ret tt, s')
      /\ committed_file s' c.(cf_requestId) c.(cf_fileIndex)
         = Some ((received s c.(cf_requestId) c.(cf_fileIndex)).1, c.(cf_checksum));
}.

Module ChunkBufferedStream.
Record t := mk {
  _chunkSize : Z;
  _buf : bytes;
  _sizeControl : bool;
  _maxTotalDataSize : Z;
  _totalDataSize : Z;
  _bufSize : Z;
}.

Definition construct (chunkSize : Z) (maxStreamLength : option Z) : t :=
  mk chunkSize [] (bool_decide (is_Some maxStreamLength)) (default 0 maxStreamLength) 0 0.

Definition isEmpty (self : t) : bool := self.(_bufSize) =? 0.

Definition hasFullChunk (self : t) : bool := self.(_chunkSize) <? self.(_bufSize).

Definition getNumberOfFullChunks (self : t) : Z := self.(_bufSize) / self.(_chunkSize).

Definition isFullyFilled (self : t) : bool :=
  if self.(_sizeControl) then self.(_totalDataSize) =? self.(_maxTotalDataSize) else false.

Definition with_buf (buf : bytes) (bufSize : Z) (self : t) : t :=
  mk self.(_chunkSize) buf self.(_sizeControl) self.(_maxTotalDataSize) self.(_totalDataSize) bufSize.

Definition readChunk : ST t bytes := fun self =>
  let chunkSize := Z.min self.(_bufSize) self.(_chunkSize) in
  (res ← lift (substr self.(_buf) 0 self.(_chunkSize));
   rest ← lift (substr_from self.(_buf) chunkSize);
   _ ← modify (with_buf rest (u64 (self.(_bufSize) - chunkSize)));
   mret res) self.

Definition write (data : bytes) : ST t unit := fun self =>
  if self.(_sizeControl) && (self.(_maxTotalDataSize) <? u64 (self.(_totalDataSize) + zlen data))
  then (Throw DataBiggerThanDeclaredException, self)
  else (Ret tt, mk self.(_chunkSize) (self.(_buf) ++ data) self.(_sizeControl) self.(_maxTotalDataSize)
         (u64 (self.(_totalDataSize) + zlen data)) (u64 (self.(_bufSize) + zlen data))).

Definition getFullChunk (pos : Z) (self : t) : outcome bytes :=
  substr self.(_buf) (u64 (self.(_chunkSize) * pos)) self.(_chunkSize).

Definition freeFullChunks : ST t unit := fun self =>
  let n := u64 (self.(_chunkSize) * getNumberOfFullChunks self) in
  (rest ← lift (substr_from self.(_buf) n);
   modify (with_buf rest (u64 (self.(_bufSize) - n)))) self.
End ChunkBufferedStream.

(** [ChunksSentInfo] *)
Record ChunksSentInfo := mkSent {
  cs_cipherType : Z;
  cs_key : bytes;
  cs_hmac : bytes;
  cs_chunkSize : Z;
  cs_requestId : bytes;
}.

Module ChunkStreamer.
Record t := mk {
  _chunkSize : Z;
  _fileSize : Z;
  _chunkBufferedStream : ChunkBufferedStream.t;
  _key : bytes;
  _requestId : bytes;
  _uploadedFileSize : Z;
  _seq : Z;
  _dataProcessed : Z;
  _checksums : bytes;
  _fileIndex : Z;
  _serverSeq : Z;
}.

Definition construct (chunkSize fileSize serverRequestChunkSize : Z) : t :=
  mk chunkSize fileSize (ChunkBufferedStream.construct serverRequestChunkSize None) [] [] 0 0 0 [] 0 0.

Definition set_request (requestId key : bytes) (fileIndex : Z) (self : t) : t :=
  mk self.(_chunkSize) self.(_fileSize) self.(_chunkBufferedStream) key requestId
     self.(_uploadedFileSize) self.(_seq) self.(_dataProcessed) self.(_checksums) fileIndex self.(_serverSeq).

Definition set_buffered (b : ChunkBufferedStream.t) (self : t) : t :=
  mk self.(_chunkSize) self.(_fileSize) b self.(_key) self.(_requestId)
     self.(_uploadedFileSize) self.(_seq) self.(_dataProcessed) self.(_checksums) self.(_fileIndex) self.(_serverSeq).

Definition set_uploaded (n : Z) (self : t) : t :=
  mk self.(_chunkSize) self.(_fileSize) self.(_chunkBufferedStream) self.(_key) self.(_requestId)
     n self.(_seq) self.(_dataProcessed) self.(_checksums) self.(_fileIndex) self.(_serverSeq).

Definition set_progress (seq dataProcessed : Z) (self : t) : t :=
  mk self.(_chunkSize) self.(_fileSize) self.(_chunkBufferedStream) self.(_key) self.(_requestId)
     self.(_uploadedFileSize) seq dataProcessed self.(_checksums) self.(_fileIndex) self.(_serverSeq).

Definition set_checksums (c : bytes) (self : t) : t :=
  mk self.(_chunkSize) self.(_fileSize) self.(_chunkBufferedStream) self.(_key) self.(_requestId)
     self.(_uploadedFileSize) self.(_seq) self.(_dataProcessed) c self.(_fileIndex) self.(_serverSeq).

Definition set_serverSeq (n : Z) (self : t) : t :=
  mk self.(_chunkSize) self.(_fileSize) self.(_chunkBufferedStream) self.(_key) self.(_requestId)
     self.(_uploadedFileSize) self.(_seq) self.(_dataProcessed) self.(_checksums) self.(_fileIndex) n.

(** [FileSizeResult]: (size, checksumSize) *)
Definition getFileSize (self : t) : Z * Z :=
  if self.(_fileSize) =? 0 then (0, 0) else
  let cs := self.(_chunkSize) in
  let parts := u64 (self.(_fileSize) + cs - 1) / cs in
  let lastChunkSize := if self.(_fileSize) mod cs =? 0 then cs else self.(_fileSize) mod cs in
  let fullPad := CHUNK_PADDING - cs mod CHUNK_PADDING in
  let lastPad := CHUNK_PADDING - lastChunkSize mod CHUNK_PADDING in
  (u64 ((parts - 1) * (cs + HMAC_SIZE + IV_SIZE + fullPad)
        + lastChunkSize + HMAC_SIZE + IV_SIZE + lastPad),
   u64 (parts * HMAC_SIZE)).

Section WithCrypto.
Context `{CryptoService} `{RequestApi}.

(** The streamer, the generator, and the server it uploads to. *)
Record world := mkWorld { u_self : t; u_rng : rng; u_srv : upload_srv }.

Definition on_self {A} (m : ST t A) : ST world A :=
  zoom u_self (fun x w => mkWorld x w.(u_rng) w.(u_srv)) m.
Definition on_rng {A} (m : ST rng A) : ST world A :=
  zoom u_rng (fun g w => mkWorld w.(u_self) g w.(u_srv)) m.
Definition on_server {A} (m : ST upload_srv A) : ST world A :=
  zoom u_srv (fun s w => mkWorld w.(u_self) w.(u_rng) s) m.
Definition on_buffer {A} (m : ST ChunkBufferedStream.t A) : ST world A :=
  on_self (zoom _chunkBufferedStream set_buffered m).

Definition draw (n : Z) : ST rng bytes := fun g => let '(b, g') := randomBytes n g in (Ret b, g').

Definition createRequest (randomWriteSupport : bool) : ST world unit :=
  key ← on_rng (draw 32);
  _ ← on_self (modify (fun s => set_request s.(_requestId) key s.(_fileIndex) s));
  size ← gets (fun w => getFileSize w.(u_self));
  _ ← on_self (modify (fun s => set_request s.(_requestId) s.(_key) 0 s));
  id ← on_server (createRequestCall [mkFileDefinition size.1 size.2 randomWriteSupport]);
  on_self (modify (fun s => set_request id s.(_key) s.(_fileIndex) s)).

Definition setRequestData (requestId key : bytes) (fileIndex : Z) : ST world unit :=
  on_self (modify (set_request requestId key fileIndex)).

Definition getSeqBE (self : t) : bytes := be32 self.(_seq).

Definition prepareChunk (data : bytes) : ST world Chunk := fun w =>
  let chunkKey := sha256 (w.(u_self).(_key) ++ getSeqBE w.(u_self)) in
  (iv ← on_rng (draw IV_SIZE);
   let cipher := aes256CbcPkcs7Encrypt data chunkKey iv in
   let ivWithCipher := iv ++ cipher in
   let mac := hmacSha256 chunkKey ivWithCipher in
   mret (mkChunk (mac ++ ivWithCipher) mac)) w.

Definition sendChunkToServer (data : bytes) : ST world unit := fun w =>
  let self := w.(u_self) in
  (_ ← on_server (sendChunkRequest
         (mkChunkModel self.(_requestId) self.(_fileIndex) self.(_serverSeq) data));
   on_self (modify (fun s => set_serverSeq (u64 (s.(_serverSeq) + 1)) s))) w.

Definition sendFullChunksWhileCollected : ST world unit := fun w =>
  let n := ChunkBufferedStream.getNumberOfFullChunks w.(u_self).(_chunkBufferedStream) in
  (_ ← for_each (indices 0 (n - 1)) (fun i => fun w =>
         (data ← lift (ChunkBufferedStream.getFullChunk i w.(u_self).(_chunkBufferedStream));
          sendChunkToServer data) w);
   if 0 <? n then on_buffer ChunkBufferedStream.freeFullChunks else mret tt) w.

Definition sendLastChunkIfNonEmpty : ST world unit := fun w =>
  (if negb (ChunkBufferedStream.isEmpty w.(u_self).(_chunkBufferedStream)) then
     data ← on_buffer ChunkBufferedStream.readChunk; sendChunkToServer data
   else mret tt) w.

Definition commitFile : ST world unit :=
  _ ← sendFullChunksWhileCollected;
  _ ← sendLastChunkIfNonEmpty;
  self ← gets u_self;
  on_server (commitFileRequest
    (mkCommitModel self.(_requestId) self.(_fileIndex) self.(_serverSeq) self.(_checksums))).

Definition prepareAndSendChunk (data : bytes) : ST world unit := fun w =>
  (_ ← throw_if (w.(u_self).(_fileSize) <? u64 (w.(u_self).(_dataProcessed) + zlen data))
         InvalidFileChunkSizeException;
   encrypted ← prepareChunk data;
   _ ← on_self (modify (fun s => set_checksums (s.(_checksums) ++ encrypted.(hmac)) s));
   _ ← on_buffer (ChunkBufferedStream.write encrypted.(ChunkCrypto.data));
   _ ← sendFullChunksWhileCollected;
   on_self (modify (fun s => set_progress (u32 (s.(_seq) + 1)) (u64 (s.(_dataProcessed) + zlen data)) s))) w.

Definition sendChunk (data : bytes) : ST world unit := fun w =>
  (_ ← throw_if (negb (zlen data =? w.(u_self).(_chunkSize))) InvalidFileChunkSizeException;
   _ ← on_self (modify (fun s => set_uploaded (u64 (s.(_uploadedFileSize) + zlen data)) s));
   prepareAndSendChunk data) w.

(** The length of the last piece is counted twice in the final check. *)
Definition finalize (data : bytes) : ST world ChunksSentInfo :=
  _ ← on_self (modify (fun s => set_uploaded (u64 (s.(_uploadedFileSize) + zlen data)) s));
  _ ← (if zlen data =? 0 then mret tt else prepareAndSendChunk data);
  self ← gets u_self;
  _ ← throw_if (u64 (self.(_uploadedFileSize) + zlen data) <? self.(_fileSize))
        DataSmallerThanDeclaredException;
  _ ← commitFile;
  self ← gets u_self;
  mret (mkSent 1 self.(_key) (hmacSha256 self.(_key) self.(_checksums)) self.(_chunkSize) self.(_requestId)).

Definition getUploadedFileSize (self : t) : Z := self.(_uploadedFileSize).
End WithCrypto.
End ChunkStreamer.

(** ** The write handle *)
Record write_handle `{CryptoService} `{RequestApi} := mkWriteHandle {
  wh_stream : ChunkBufferedStream.t;
  wh_streamer : ChunkStreamer.world;
  wh_size : Z;
  wh_randomWrite : bool;
}.

Module FileWriteHandle.
Section Ops.
Context `{CryptoService} `{RequestApi}.

Definition construct (size chunkSize serverRequestChunkSize : Z) (randomWriteSupport : bool)
    (g : rng) (s : upload_srv) : write_handle :=
  mkWriteHandle _ _ (ChunkBufferedStream.construct chunkSize (Some size))
    (ChunkStreamer.mkWorld (ChunkStreamer.construct chunkSize size serverRequestChunkSize) g s)
    size randomWriteSupport.

Definition on_stream {A} (m : ST ChunkBufferedStream.t A) : ST write_handle A :=
  zoom wh_stream (fun x h => mkWriteHandle _ _ x h.(wh_streamer) h.(wh_size) h.(wh_randomWrite)) m.
Definition on_streamer {A} (m : ST ChunkStreamer.world A) : ST write_handle A :=
  zoom wh_streamer (fun x h => mkWriteHandle _ _ h.(wh_stream) x h.(wh_size) h.(wh_randomWrite)) m.

Definition write (data : bytes) : ST write_handle unit :=
  _ ← on_stream (ChunkBufferedStream.write data);
  n ← gets (fun h => ChunkBufferedStream.getNumberOfFullChunks h.(wh_stream));
  _ ← for_each (indices 0 (n - 1)) (fun i => fun h =>
        (chunk ← lift (ChunkBufferedStream.getFullChunk i h.(wh_stream));
         on_streamer (ChunkStreamer.sendChunk chunk)) h);
  on_stream ChunkBufferedStream.freeFullChunks.

Definition isReadyToFinalize (h : write_handle) : bool := ChunkBufferedStream.isFullyFilled h.(wh_stream).

Definition finalize : ST write_handle ChunksSentInfo := fun h =>
  (_ ← throw_if (negb (ChunkBufferedStream.isFullyFilled h.(wh_stream))) DataDifferentThanDeclaredException;
   last ← on_stream ChunkBufferedStream.readChunk;
   result ← on_streamer (ChunkStreamer.finalize last);
   _ ← modify (fun h => mkWriteHandle _ _ h.(wh_stream) h.(wh_streamer)
         (ChunkStreamer.getUploadedFileSize h.(wh_streamer).(ChunkStreamer.u_self)) h.(wh_randomWrite));
   mret result) h.

Definition getEncryptedFileSize (h : write_handle) : Z * Z :=
  ChunkStreamer.getFileSize h.(wh_streamer).(ChunkStreamer.u_self).

Definition createRequestData : ST write_handle unit := fun h =>
  on_streamer (ChunkStreamer.createRequest h.(wh_randomWrite)) h.

Definition setRequestData (requestId key : bytes) (fileIndex : Z) : ST write_handle unit :=
  on_streamer (ChunkStreamer.setRequestData requestId key fileIndex).
End Ops.
End FileWriteHandle.

(** ** Splitting a stream into chunks *)
Section Splitting.
Context {A : Type}.
Implicit Types l : list A.

Lemma ztake_slice_next n i l : 0 < n -> 0 <= i -> ztake (i * n) l ++ slice (i * n) n l = ztake ((i + 1) * n) l.
Proof.
  intros Hn Hi. pose proof (slice_app 0 (i * n) n l ltac:(lia) ltac:(nia) ltac:(lia)) as H.
  rewrite Z.add_0_l in H. unfold slice in *. rewrite zdrop_0 in H.
  replace ((i + 1) * n) with (i * n + n) by lia. exact H.
Qed.

(** The chunks cut from what is left of a stream are chunks of the stream. *)
Lemma chunk_at_zdrop n m i l : 0 < n -> 0 <= m -> 0 <= i ->
  chunk_at n (zdrop (m * n) l) i = chunk_at n l (m + i).
Proof. intros. unfold chunk_at, slice. rewrite zdrop_zdrop by nia. do 2 f_equal. lia. Qed.

Lemma full_count n m (len : Z) : 0 < n -> (len - m * n) / n = len / n - m.
Proof. intros. replace (len - m * n) with (len + (- m) * n) by lia. rewrite Z.div_add by lia. lia. Qed.

Lemma full_chunk_prefix n k l d : 0 < n -> 0 <= k -> (k + 1) * n <= zlen l ->
  chunk_at n (l ++ d) k = chunk_at n l k.
Proof.
  intros Hn Hk Hle. unfold chunk_at, slice. rewrite zdrop_app_le by nia.
  apply ztake_app_le. rewrite zlen_zdrop by nia. nia.
Qed.
End Splitting.

(** ** The streamer *)
Section Streaming.
Context {C : CryptoService} {CL : CryptoLaws C} {R : RequestApi} {RL : RequestApiLaws R}.
Context (key rid : bytes) (fidx cs fsz S : Z).
Context (Hcs : 0 < cs < 2 ^ 31) (HS : 0 < S < 2 ^ 62).
Import ChunkStreamer.

Let enc := ChunkEncryptor.mk key cs.

(** [m] requests carrying the first [m * S] bytes of [E] are out, the rest of
    [E] is in the buffer. *)
Record sent (E : bytes) (m : Z) (w : world) : Prop := {
  sn_rid : w.(u_self).(_requestId) = rid;
  sn_fidx : w.(u_self).(_fileIndex) = fidx;
  sn_cs : w.(u_self).(_chunkBufferedStream).(ChunkBufferedStream._chunkSize) = S;
  sn_ctl : w.(u_self).(_chunkBufferedStream).(ChunkBufferedStream._sizeControl) = false;
  sn_buf : w.(u_self).(_chunkBufferedStream).(ChunkBufferedStream._buf) = zdrop (m * S) E;
  sn_size : w.(u_self).(_chunkBufferedStream).(ChunkBufferedStream._bufSize) = zlen E - m * S;
  sn_m : 0 <= m /\ m * S <= zlen E < 2 ^ 62;
  sn_seq : w.(u_self).(_serverSeq) = m;
  sn_received : received w.(u_srv) rid fidx = (ztake (m * S) E, m);
}.

(** Everything of the streamer but the buffer and the request counter. *)
Definition same_progress (a b : t) : Prop :=
  b.(_chunkSize) = a.(_chunkSize) /\ b.(_fileSize) = a.(_fileSize) /\ b.(_key) = a.(_key)
  /\ b.(_uploadedFileSize) = a.(_uploadedFileSize) /\ b.(_seq) = a.(_seq)
  /\ b.(_dataProcessed) = a.(_dataProcessed) /\ b.(_checksums) = a.(_checksums).

Lemma same_progress_trans a b c : same_progress a b -> same_progress b c -> same_progress a c.
Proof. intros (?&?&?&?&?&?&?) (?&?&?&?&?&?&?). repeat split; congruence. Qed.

Lemma sendChunkToServer_run d m w r :
  w.(u_self).(_requestId) = rid -> w.(u_self).(_fileIndex) = fidx -> w.(u_self).(_serverSeq) = m ->
  0 <= m < 2 ^ 62 -> received w.(u_srv) rid fidx = (r, m) ->
  exists s', sendChunkToServer d w = (Ret tt, mkWorld (set_serverSeq (m + 1) w.(u_self)) w.(u_rng) s')
    /\ received s' rid fidx = (r ++ d, m + 1).
Proof.
  intros Er Ef Em Hm Hrec.
  destruct (send_law (u_srv w) (mkChunkModel rid fidx m d)) as (s' & Hs & Hr); [cbn; by rewrite Hrec|].
  cbn in Hr. rewrite Hrec in Hr. exists s'. split; [|done].
  unfold sendChunkToServer. rewrite Er, Ef, Em.
  rewrite (run_bind_ret _ _ w tt (mkWorld (u_self w) (u_rng w) s')).
  2:{ unfold on_server, zoom. by rewrite Hs. }
  unfold on_self, zoom, modify. cbn. by rewrite Em, wrap_id by lia.
Qed.

Lemma sendFull_run E m w : sent E m w ->
  exists w', sendFullChunksWhileCollected w = (Ret tt, w') /\ sent E (zlen E / S) w'
    /\ same_progress w.(u_self) w'.(u_self) /\ w'.(u_rng) = w.(u_rng).
Proof.
  intros [Hr Hf Hc Hctl Hb Hz [Hm Hle] Hs Hrec]. unfold sendFullChunksWhileCollected.
  unfold ChunkBufferedStream.getNumberOfFullChunks. rewrite Hz, Hc, full_count by lia.
  set (n := zlen E / S - m).
  pose proof (Z.mul_div_le (zlen E) S ltac:(lia)) as Hdiv.
  assert (Hn : 0 <= n).
  { unfold n. enough (m <= zlen E / S) by lia. apply Z.div_le_lower_bound; lia. }
  assert (Hbound : zlen E / S < 2 ^ 62) by (apply Z.div_lt_upper_bound; nia).
  set (I := fun (l : list Z) (w1 : world) => exists i, 0 <= i <= n /\ l = seqZ i (n - i)
    /\ w1 = mkWorld (set_serverSeq (m + i) (u_self w)) (u_rng w) (u_srv w1)
    /\ received (u_srv w1) rid fidx = (ztake ((m + i) * S) E, m + i)).
  match goal with |- context [for_each ?l ?b] => destruct (run_for_each l b I w) as (w1 & Hloop & HI) end.
  { exists 0. unfold indices. split; [lia|]. split; [f_equal; lia|]. rewrite Z.add_0_r. split; [|done].
    rewrite <- Hs. by destruct w as [[] ? ?]. }
  { intros x l w0 (i & Hi & El & Ew & Er0). destruct (decide (i = n)) as [->|Hne].
    { rewrite Z.sub_diag in El. done. }
    rewrite seqZ_cons in El by lia. injection El as -> ->.
    assert (Hget : ChunkBufferedStream.getFullChunk i (_chunkBufferedStream (u_self w0)) = Ret (slice ((m + i) * S) S E)).
    { rewrite Ew. unfold ChunkBufferedStream.getFullChunk. cbn. rewrite Hc, Hb.
      assert (0 <= S * i) by nia. assert (S * (i + 1) + m * S <= zlen E) by (unfold n in *; nia).
      rewrite wrap_id by lia. rewrite substr_ret by (rewrite zlen_zdrop by nia; lia). f_equal.
      unfold slice. rewrite zdrop_zdrop by nia. do 2 f_equal. lia. }
    destruct (sendChunkToServer_run (slice ((m + i) * S) S E) (m + i) w0 (ztake ((m + i) * S) E))
      as (s' & Hsend & Hr'); [by rewrite Ew..|unfold n in *; lia|done|].
    eexists. split; [rewrite (run_bind_ret _ _ w0 (slice ((m + i) * S) S E) w0) by (unfold lift; by rewrite Hget); exact Hsend|].
    exists (i + 1). split; [lia|]. split; [f_equal; lia|]. cbn.
    rewrite ztake_slice_next in Hr' by lia. rewrite Z.add_assoc. split; [|done]. by rewrite Ew. }
  rewrite (run_bind_ret _ _ _ _ _ Hloop). destruct HI as (i & Hi & El & Ew & Hrec1).
  assert (i = n) as -> by (destruct (decide (i = n)); [done|]; rewrite seqZ_cons in El by lia; done).
  assert (Emn : m + n = zlen E / S) by (unfold n; lia). rewrite Emn in *.
  destruct (Z.ltb_spec 0 n) as [Hpos|Hz0].
  - unfold on_buffer, on_self. unfold_st. unfold ChunkBufferedStream.freeFullChunks,
      ChunkBufferedStream.getNumberOfFullChunks. unfold_st. rewrite Ew. cbn. rewrite Hz, Hc, full_count by lia. fold n.
    assert (S * n + m * S <= zlen E) by (rewrite Z.mul_comm; nia).
    rewrite (wrap_id 64 (S * n)) by nia. rewrite Hb.
    rewrite substr_from_ret by (rewrite zlen_zdrop by nia; lia). rewrite zdrop_zdrop by nia.
    eexists. split; [done|]. split; [|done]. constructor; cbn; try done.
    + f_equal. rewrite <- Emn. lia.
    + rewrite wrap_id by lia. rewrite <- Emn. lia.
    + rewrite Z.mul_comm in Hdiv. lia.
  - assert (n = 0) as -> by lia. rewrite Z.add_0_r in Emn. rewrite Ew. eexists. split; [done|].
    split; [|done]. rewrite <- Emn in *. constructor; cbn; done.
Qed.

(** The uploader's cipher is the one random access uses, at the same index. *)
Lemma prepareChunk_encrypt d w :
  w.(u_self).(_key) = key -> 0 <= w.(u_self).(_seq) < 2 ^ 32 ->
  prepareChunk d w =
    let '(r, g) := ChunkEncryptor.encrypt enc w.(u_self).(_seq) d w.(u_rng) in
    (r, mkWorld w.(u_self) g w.(u_srv)).
Proof.
  intros Hk Hs. unfold prepareChunk, ChunkEncryptor.encrypt, ChunkEncryptor.chunkKey,
    ChunkEncryptor.chunkIndexToBE, getSeqBE, on_rng, draw. unfold_st.
  rewrite (wrap_id 32) by done. cbn. rewrite Hk.
  by destruct (randomBytes IV_SIZE (u_rng w)).
Qed.

(** The chunks [chs] are encrypted and on their way, [n] plain bytes of them. *)
Record streaming (chs : list Chunk) (n : Z) (w : world) : Prop := {
  sg_cs : w.(u_self).(_chunkSize) = cs;
  sg_fsz : w.(u_self).(_fileSize) = fsz;
  sg_key : w.(u_self).(_key) = key;
  sg_seq : w.(u_self).(_seq) = zlen chs /\ zlen chs < 2 ^ 32;
  sg_done : w.(u_self).(_dataProcessed) = n /\ 0 <= n <= fsz;
  sg_sums : w.(u_self).(_checksums) = concat (hmac <$> chs);
  sg_sent : sent (concat (data <$> chs)) (zlen (concat (data <$> chs)) / S) w;
}.

Lemma zlen_snoc_data chs c :
  concat (data <$> chs ++ [c]) = concat (data <$> chs) ++ c.(data).
Proof. by rewrite fmap_app, concat_app; cbn; rewrite app_nil_r. Qed.

Lemma prepareAndSendChunk_run chs n d w :
  streaming chs n w -> n + zlen d <= fsz < 2 ^ 62 ->
  zlen chs + 1 < 2 ^ 32 -> zlen (concat (data <$> chs)) + enc_size (zlen d) < 2 ^ 62 ->
  exists c w', prepareAndSendChunk d w = (Ret tt, w') /\ chunk_ok enc (zlen chs) d c
    /\ streaming (chs ++ [c]) (n + zlen d) w'
    /\ w'.(u_self).(_uploadedFileSize) = w.(u_self).(_uploadedFileSize).
Proof.
  intros [Hc Hf Hk [Hs Hs32] [Hd Hn] Hsum Hsent] Hfit Hcnt Hsz. pose proof (zlen_nonneg d).
  unfold prepareAndSendChunk. rewrite Hf, Hd.
  rewrite (run_bind_ret _ _ w tt w).
  2:{ rewrite wrap_id by lia. by rewrite (proj2 (Z.ltb_ge _ _)) by lia. }
  destruct (encrypt_decrypt enc (zlen chs) d (u_rng w)) as (c & g & Henc & Hhm & Hdat & Hdec).
  rewrite (run_bind_ret _ _ w c (mkWorld (u_self w) g (u_srv w))).
  2:{ rewrite prepareChunk_encrypt by (done || (pose proof (zlen_nonneg chs); lia)). by rewrite Hs, Henc. }
  set (E := concat (data <$> chs)) in *. set (m := zlen E / S) in *.
  destruct Hsent as [Sr Sf Sc Sctl Sb Sz [Sm Sle] Ss Srec].
  pose proof (zlen_nonneg (data c)).
  set (b0 := _chunkBufferedStream (u_self w)) in *.
  set (b1 := ChunkBufferedStream.mk S (zdrop (m * S) E ++ data c) false
    (ChunkBufferedStream._maxTotalDataSize b0)
    (u64 (ChunkBufferedStream._totalDataSize b0 + zlen (data c))) (zlen E - m * S + zlen (data c))).
  set (w1 := mkWorld (set_buffered b1 (set_checksums (_checksums (u_self w) ++ hmac c) (u_self w))) g (u_srv w)).
  rewrite (run_bind_ret _ _ _ tt (mkWorld (set_checksums (_checksums (u_self w) ++ hmac c) (u_self w)) g (u_srv w)))
    by done.
  rewrite (run_bind_ret _ _ _ tt w1).
  2:{ unfold on_buffer, on_self, zoom. cbn. unfold ChunkBufferedStream.write. fold b0.
      rewrite Sctl. cbn. rewrite Sc, Sb, Sz. rewrite (wrap_id 64 (zlen E - m * S + _)) by lia. done. }
  assert (Hsent1 : sent (E ++ data c) m w1).
  { constructor; cbn; try done.
    - by rewrite zdrop_app_le by nia.
    - rewrite zlen_app. lia.
    - rewrite zlen_app. rewrite Hdat in *. lia.
    - rewrite ztake_app_le by lia. exact Srec. }
  destruct (sendFull_run _ _ _ Hsent1) as (w2 & Hsend & Hsent2 & Hsame & Hrng).
  rewrite (run_bind_ret _ _ _ _ _ Hsend).
  destruct Hsame as (T1 & T2 & T3 & T4 & T5 & T6 & T7).
  exists c, (mkWorld (set_progress (zlen chs + 1) (n + zlen d) (u_self w2)) (u_rng w2) (u_srv w2)).
  split; [|split; [done|split]].
  - unfold on_self, zoom, modify. do 4 f_equal.
    + rewrite T5. cbn. rewrite Hs. apply wrap_id. pose proof (zlen_nonneg chs). lia.
    + rewrite T6. cbn. rewrite Hd. apply wrap_id. lia.
  - constructor; cbn; rewrite ?T1, ?T2, ?T3, ?T7; cbn; try done.
    + rewrite zlen_app, zlen_cons, zlen_nil. lia.
    + lia.
    + rewrite Hsum, fmap_app, concat_app. cbn. by rewrite app_nil_r.
    + rewrite zlen_snoc_data. destruct Hsent2. by constructor.
  - cbn. by rewrite T4.
Qed.

(** The rest of the buffer goes out as one last, shorter request. *)
Lemma sendLast_run E w : sent E (zlen E / S) w ->
  exists m' w', sendLastChunkIfNonEmpty w = (Ret tt, w')
    /\ w'.(u_self).(_requestId) = rid /\ w'.(u_self).(_fileIndex) = fidx /\ w'.(u_self).(_serverSeq) = m'
    /\ received w'.(u_srv) rid fidx = (E, m') /\ same_progress w.(u_self) w'.(u_self).
Proof.
  intros [Sr Sf Sc Sctl Sb Sz [Sm Sle] Ss Srec]. set (m := zlen E / S) in *.
  pose proof (Z.mod_pos_bound (zlen E) S ltac:(lia)). pose proof (Z.div_mod (zlen E) S ltac:(lia)) as Hdm.
  fold m in Hdm. assert (Hrest : zlen E - m * S = zlen E mod S) by lia.
  unfold sendLastChunkIfNonEmpty, ChunkBufferedStream.isEmpty. rewrite Sz, Hrest.
  destruct (Z.eqb_spec (zlen E mod S) 0) as [E0|E0]; cbn [negb].
  - exists m, w. split; [done|]. rewrite ztake_ge in Srec by lia. done.
  - assert (Hzb : zlen (zdrop (m * S) E) = zlen E mod S) by (rewrite zlen_zdrop by nia; lia).
    set (b := _chunkBufferedStream (u_self w)) in *.
    set (w1 := mkWorld (set_buffered (ChunkBufferedStream.with_buf [] 0 b) (u_self w)) (u_rng w) (u_srv w)).
    rewrite (run_bind_ret _ _ w (zdrop (m * S) E) w1).
    2:{ unfold on_buffer, on_self, ChunkBufferedStream.readChunk. unfold_st. fold b.
        rewrite Sb, Sc, Sz, Hrest. rewrite (substr_ret _ 0) by (pose proof (zlen_nonneg (zdrop (m * S) E)); lia).
        unfold slice. rewrite zdrop_0, (ztake_ge S) by lia. cbn.
        rewrite Z.min_l by lia. rewrite substr_from_ret by lia. rewrite (zdrop_ge (zlen E mod S)) by lia.
        rewrite Z.sub_diag. done. }
    assert (m < 2 ^ 62) by (unfold m; apply Z.div_lt_upper_bound; nia).
    destruct (sendChunkToServer_run (zdrop (m * S) E) m w1 (ztake (m * S) E)) as (s' & Hsend & Hrec'); try done.
    exists (m + 1), (mkWorld (set_serverSeq (m + 1) (u_self w1)) (u_rng w1) s').
    rewrite ztake_zdrop in Hrec'. split; [exact Hsend|]. done.
Qed.

Lemma commitFile_run chs n w : streaming chs n w ->
  exists w', commitFile w = (Ret tt, w')
    /\ committed_file w'.(u_srv) rid fidx = Some (concat (data <$> chs), concat (hmac <$> chs))
    /\ same_progress w.(u_self) w'.(u_self) /\ w'.(u_self).(_requestId) = rid.
Proof.
  intros [Hc Hf Hk Hs Hd Hsum Hsent]. unfold commitFile.
  destruct (sendFull_run _ _ _ Hsent) as (w1 & Hsend & Hsent1 & Hsame1 & Hrng).
  rewrite (run_bind_ret _ _ _ _ _ Hsend).
  destruct (sendLast_run _ _ Hsent1) as (m' & w2 & Hlast & L1 & L2 & L3 & L4 & Hsame2).
  rewrite (run_bind_ret _ _ _ _ _ Hlast). rewrite (run_bind_ret _ _ w2 (u_self w2) w2) by done.
  destruct (commit_law (u_srv w2) (mkCommitModel rid fidx m' (_checksums (u_self w2)))) as (s' & Hcm & Hfile);
    [cbn; by rewrite L4|].
  exists (mkWorld (u_self w2) (u_rng w2) s'). split; [|split; [|split]].
  - unfold on_server, zoom. by rewrite L1, L2, L3, Hcm.
  - cbn in *. rewrite Hfile, L4. cbn. do 2 f_equal.
    destruct Hsame1 as (_ & _ & _ & _ & _ & _ & E1). destruct Hsame2 as (_ & _ & _ & _ & _ & _ & E2).
    by rewrite E2, E1, Hsum.
  - by apply (same_progress_trans _ (u_self w1)).
  - done.
Qed.
End Streaming.

(** ** The handle *)
Section Uploading.
Context {C : CryptoService} {CL : CryptoLaws C} {R : RequestApi} {RL : RequestApiLaws R}.
Context (key rid : bytes) (fidx cs fsz S : Z).
Context (Hcs : 0 < cs < 2 ^ 31) (HS : 0 < S < 2 ^ 62).
Context (Hfsz : 0 <= fsz < 2 ^ 62) (Hcnt : chunk_count cs fsz + 1 < 2 ^ 32)
  (Htotal : (chunk_count cs fsz + 1) * enc_size cs < 2 ^ 62).

Let enc := ChunkEncryptor.mk key cs.
Abbreviation chs_data chs := (concat (data <$> chs)).

(** The handle has taken the text [T]: its full chunks are with the
    streamer, the rest is buffered. *)
Record uploading (T : bytes) (h : write_handle) : Prop := {
  up_stream : h.(wh_stream) = ChunkBufferedStream.mk cs (zdrop (zlen T / cs * cs) T) true fsz (zlen T)
                (zlen T - zlen T / cs * cs);
  up_le : zlen T <= fsz;
  up_chunks : exists chs, streaming key rid fidx cs fsz S chs (zlen T / cs * cs) h.(wh_streamer)
    /\ zlen chs = zlen T / cs
    /\ (forall k c, chs !! k = Some c -> chunk_ok enc (Z.of_nat k) (chunk_at cs T (Z.of_nat k)) c)
    /\ h.(wh_streamer).(ChunkStreamer.u_self).(ChunkStreamer._uploadedFileSize) = zlen T / cs * cs;
}.

Lemma full_count_le (T : bytes) : zlen T <= fsz -> 0 <= zlen T / cs <= chunk_count cs fsz.
Proof.
  intros. pose proof (zlen_nonneg T). split; [apply Z.div_pos; lia|].
  unfold chunk_count. apply Z.div_le_mono; lia.
Qed.

(** Encrypted chunks of at most [cs] plain bytes each stay under the bound. *)
Lemma chs_size T (chs : list Chunk) :
  (forall k c, chs !! k = Some c -> chunk_ok enc (Z.of_nat k) (chunk_at cs T (Z.of_nat k)) c) ->
  zlen (chs_data chs) <= zlen chs * enc_size cs.
Proof.
  intros Hk. etrans; [apply (zlen_concat_le _ (enc_size cs))|unfold zlen; by rewrite length_fmap].
  intros x Hx. apply list_elem_of_fmap in Hx as (c & -> & Hc).
  apply list_elem_of_lookup in Hc as [k Hc]. destruct (Hk k c Hc) as (_ & -> & _).
  apply enc_size_mono. rewrite zlen_chunk_at by lia. pose proof (zlen_nonneg (chunk_at cs T (Z.of_nat k))). lia.
Qed.

(** Sending one more chunk of the text. *)
Lemma upload_chunk T chs n d w :
  streaming key rid fidx cs fsz S chs n w ->
  (forall k c, chs !! k = Some c -> chunk_ok enc (Z.of_nat k) (chunk_at cs T (Z.of_nat k)) c) ->
  d = chunk_at cs T (zlen chs) -> n + zlen d <= fsz -> zlen chs < chunk_count cs fsz ->
  exists c w', ChunkStreamer.prepareAndSendChunk d w = (Ret tt, w')
    /\ streaming key rid fidx cs fsz S (chs ++ [c]) (n + zlen d) w'
    /\ (forall k c', (chs ++ [c]) !! k = Some c' -> chunk_ok enc (Z.of_nat k) (chunk_at cs T (Z.of_nat k)) c')
    /\ w'.(ChunkStreamer.u_self).(ChunkStreamer._uploadedFileSize)
       = w.(ChunkStreamer.u_self).(ChunkStreamer._uploadedFileSize).
Proof.
  intros Hst Hk -> Hle Hlt. pose proof (zlen_nonneg chs).
  pose proof (chs_size T chs Hk). pose proof (enc_size_bounds cs ltac:(lia)).
  assert (Hes : enc_size (zlen (chunk_at cs T (zlen chs))) <= enc_size cs).
  { apply enc_size_mono. rewrite zlen_chunk_at by lia. lia. }
  assert (zlen chs * enc_size cs <= chunk_count cs fsz * enc_size cs) by (apply Z.mul_le_mono_nonneg_r; lia).
  destruct (prepareAndSendChunk_run key rid fidx cs fsz S HS chs n (chunk_at cs T (zlen chs)) w Hst) as (c & w' & Hrun & Hok & Hst' & Hup);
    [lia|lia|lia|].
  exists c, w'. split; [done|]. split; [done|]. split; [|done].
  intros k c' Hk'. apply lookup_app_Some in Hk' as [Hk'|[Hge Hk']]; [by apply Hk|].
  apply list_lookup_singleton_Some in Hk' as [Hz <-].
  assert (Z.of_nat k = zlen chs) as -> by (unfold zlen; lia). done.
Qed.

Lemma sendChunk_run T chs w :
  streaming key rid fidx cs fsz S chs (zlen chs * cs) w ->
  (forall k c, chs !! k = Some c -> chunk_ok enc (Z.of_nat k) (chunk_at cs T (Z.of_nat k)) c) ->
  w.(ChunkStreamer.u_self).(ChunkStreamer._uploadedFileSize) = zlen chs * cs ->
  (zlen chs + 1) * cs <= zlen T -> zlen T <= fsz ->
  exists c w', ChunkStreamer.sendChunk (chunk_at cs T (zlen chs)) w = (Ret tt, w')
    /\ streaming key rid fidx cs fsz S (chs ++ [c]) (zlen (chs ++ [c]) * cs) w'
    /\ (forall k c', (chs ++ [c]) !! k = Some c' -> chunk_ok enc (Z.of_nat k) (chunk_at cs T (Z.of_nat k)) c')
    /\ w'.(ChunkStreamer.u_self).(ChunkStreamer._uploadedFileSize) = zlen (chs ++ [c]) * cs.
Proof.
  intros Hst Hk Hup Hle HT. pose proof (zlen_nonneg chs).
  assert (Hfull : zlen (chunk_at cs T (zlen chs)) = cs) by (apply chunk_at_full; lia).
  pose proof Hst as [Hc _ _ _ _ _ _]. unfold ChunkStreamer.sendChunk.
  rewrite Hfull, Hc, Z.eqb_refl. cbn [negb].
  rewrite (run_bind_ret _ _ w tt w) by done.
  set (w1 := ChunkStreamer.mkWorld (ChunkStreamer.set_uploaded (zlen chs * cs + cs) (ChunkStreamer.u_self w))
    (ChunkStreamer.u_rng w) (ChunkStreamer.u_srv w)).
  rewrite (run_bind_ret _ _ w tt w1).
  2:{ unfold ChunkStreamer.on_self, zoom, modify, w1. rewrite Hup, wrap_id by lia. done. }
  assert (Hst1 : streaming key rid fidx cs fsz S chs (zlen chs * cs) w1).
  { destruct Hst as [? ? ? ? ? ? []]. by constructor. }
  assert (Hlt : zlen chs < chunk_count cs fsz).
  { pose proof (full_count_le T HT). enough (zlen chs + 1 <= zlen T / cs) by lia.
    apply Z.div_le_lower_bound; lia. }
  destruct (upload_chunk T chs (zlen chs * cs) _ w1 Hst1 Hk eq_refl ltac:(lia) Hlt)
    as (c & w' & Hrun & Hst' & Hk' & Hup').
  exists c, w'. split; [done|]. rewrite Hfull in Hst'.
  assert (Hz : zlen (chs ++ [c]) = zlen chs + 1) by (by rewrite zlen_app).
  rewrite Hz. replace ((zlen chs + 1) * cs) with (zlen chs * cs + cs) by lia. split; [done|]. split; [done|].
  by rewrite Hup'.
Qed.

(** One [write]: the text grows by the piece, or the declared size is
    exceeded and nothing happens. *)
Lemma write_run_upload T h d : uploading T h -> zlen T + zlen d < 2 ^ 63 ->
  (zlen T + zlen d <= fsz -> exists h', FileWriteHandle.write d h = (Ret tt, h') /\ uploading (T ++ d) h')
  /\ (fsz < zlen T + zlen d -> FileWriteHandle.write d h = (Throw DataBiggerThanDeclaredException, h)).
Proof.
  intros [Hs Hle (chs & Hst & Hlen & Hk & Hup)] Hb. pose proof (zlen_nonneg d). pose proof (zlen_nonneg T).
  unfold FileWriteHandle.write. split.
  2:{ intros Hgt. apply run_bind_throw. unfold FileWriteHandle.on_stream, zoom.
      rewrite Hs. unfold ChunkBufferedStream.write. cbn. rewrite wrap_id by lia.
      rewrite (proj2 (Z.ltb_lt _ _)) by lia. rewrite <- Hs. by destruct h. }
  intros Hfit. set (n0 := zlen T / cs) in *. set (T' := T ++ d).
  assert (HT' : zlen T' = zlen T + zlen d) by apply zlen_app. set (n1 := zlen T' / cs).
  pose proof (Z.mul_div_le (zlen T) cs ltac:(lia)) as Hd0. fold n0 in Hd0.
  pose proof (Z.mul_div_le (zlen T') cs ltac:(lia)) as Hd1. fold n1 in Hd1.
  assert (Hn0 : 0 <= n0) by (apply Z.div_pos; lia).
  assert (Hn01 : n0 <= n1) by (apply Z.div_le_mono; lia).
  set (st1 := ChunkBufferedStream.mk cs (zdrop (n0 * cs) T') true fsz (zlen T') (zlen T' - n0 * cs)).
  set (h1 := mkWriteHandle _ _ st1 (wh_streamer h) (wh_size h) (wh_randomWrite h)).
  rewrite (run_bind_ret _ _ h tt h1).
  2:{ unfold FileWriteHandle.on_stream, zoom. rewrite Hs. unfold ChunkBufferedStream.write. cbn.
      rewrite (wrap_id 64 (zlen T + zlen d)) by lia. rewrite (proj2 (Z.ltb_ge _ _)) by lia.
      rewrite wrap_id by lia. rewrite <- (zdrop_app_le (n0 * cs) T d) by lia. fold T'. rewrite <- HT'.
      unfold h1, st1. do 3 f_equal. lia. }
  rewrite (run_bind_ret _ _ h1 (n1 - n0) h1).
  2:{ unfold gets, ChunkBufferedStream.getNumberOfFullChunks. cbn. by rewrite full_count by lia. }
  set (I := fun (l : list Z) (hh : write_handle) => exists i chs', 0 <= i <= n1 - n0 /\ l = seqZ i (n1 - n0 - i)
    /\ hh = mkWriteHandle _ _ st1 (wh_streamer hh) (wh_size h) (wh_randomWrite h) /\ zlen chs' = n0 + i
    /\ streaming key rid fidx cs fsz S chs' (zlen chs' * cs) (wh_streamer hh)
    /\ (forall k c, chs' !! k = Some c -> chunk_ok enc (Z.of_nat k) (chunk_at cs T' (Z.of_nat k)) c)
    /\ (ChunkStreamer.u_self (wh_streamer hh)).(ChunkStreamer._uploadedFileSize) = zlen chs' * cs).
  match goal with |- context [for_each ?l ?b] => destruct (run_for_each l b I h1) as (h2 & Hloop & HI) end.
  { exists 0, chs. split; [lia|]. split; [unfold indices; f_equal; lia|]. split; [done|].
    rewrite Hlen. split; [lia|]. split; [done|]. split; [|done].
    intros k c Hc. unfold T'. rewrite full_chunk_prefix; [by apply Hk|lia|lia|].
    apply lookup_lt_Some in Hc. unfold zlen in Hlen. nia. }
  { intros x l hh (i & chs' & Hi & El & Eh & Hz & Hst' & Hk' & Hup').
    destruct (decide (i = n1 - n0)) as [->|Hne]; [by rewrite Z.sub_diag in El|].
    rewrite seqZ_cons in El by lia. injection El as -> ->.
    assert (Hget : ChunkBufferedStream.getFullChunk i (wh_stream hh) = Ret (chunk_at cs T' (zlen chs'))).
    { rewrite Eh, Hz. unfold ChunkBufferedStream.getFullChunk. cbn.
      assert (n0 * cs + cs * i + cs <= zlen T') by nia. assert (0 <= cs * i) by nia.
      rewrite wrap_id by lia. rewrite substr_ret by (rewrite zlen_zdrop by nia; lia).
      rewrite (Z.mul_comm cs i). fold (chunk_at cs (zdrop (n0 * cs) T') i). by rewrite chunk_at_zdrop by lia. }
    destruct (sendChunk_run T' chs' (wh_streamer hh) Hst' Hk' Hup') as (c & w' & Hrun & Hst2 & Hk2 & Hup2);
      [rewrite Hz; nia|lia|].
    eexists. split.
    { rewrite (run_bind_ret _ _ hh (chunk_at cs T' (zlen chs')) hh) by (unfold lift; by rewrite Hget).
      unfold FileWriteHandle.on_streamer, zoom. by rewrite Hrun. }
    exists (i + 1), (chs' ++ [c]). split; [lia|]. split; [f_equal; lia|]. split; [by rewrite Eh|].
    split; [rewrite zlen_app, zlen_cons, zlen_nil; lia|]. done. }
  rewrite (run_bind_ret _ _ _ _ _ Hloop). destruct HI as (i & chs' & Hi & El & Eh & Hz & Hst' & Hk' & Hup').
  assert (i = n1 - n0) as -> by (destruct (decide (i = n1 - n0)); [done|]; rewrite seqZ_cons in El by lia; done).
  replace (n0 + (n1 - n0)) with n1 in Hz by lia. rewrite Hz in Hst', Hup'.
  exists (mkWriteHandle _ _ (ChunkBufferedStream.mk cs (zdrop (n1 * cs) T') true fsz (zlen T') (zlen T' - n1 * cs))
    (wh_streamer h2) (wh_size h) (wh_randomWrite h)). split.
  { rewrite Eh. unfold FileWriteHandle.on_stream, ChunkBufferedStream.freeFullChunks,
      ChunkBufferedStream.getNumberOfFullChunks. unfold_st. cbn. rewrite full_count by lia. fold n1.
    rewrite (wrap_id 64 (cs * (n1 - n0))) by nia.
    rewrite substr_from_ret by (rewrite zlen_zdrop by nia; nia). cbn. unfold ChunkBufferedStream.with_buf. cbn.
    rewrite zdrop_zdrop by nia. rewrite wrap_id by nia.
    replace (n0 * cs + cs * (n1 - n0)) with (n1 * cs) by lia.
    replace (zlen T' - n0 * cs - cs * (n1 - n0)) with (zlen T' - n1 * cs) by lia. done. }
  constructor; cbn; [done|lia|exists chs'; done].
Qed.

Lemma chunk_count_split (n : Z) : 0 <= n ->
  chunk_count cs n = n / cs + (if n mod cs =? 0 then 0 else 1).
Proof.
  intros Hn. unfold chunk_count. pose proof (Z.div_mod n cs ltac:(lia)) as Hdm.
  pose proof (Z.mod_pos_bound n cs ltac:(lia)).
  destruct (Z.eqb_spec (n mod cs) 0) as [E|E].
  - replace (n + cs - 1) with (n / cs * cs + (cs - 1)) by lia.
    rewrite Z.div_add_l, (Z.div_small (cs - 1)) by lia. lia.
  - replace (n + cs - 1) with ((n / cs + 1) * cs + (n mod cs - 1)) by lia.
    rewrite Z.div_add_l, (Z.div_small (n mod cs - 1)) by lia. lia.
Qed.

(** The streamer's [finalize], on the rest of a text that is all there. *)
Lemma streamer_finalize_run T chs w :
  zlen T = fsz -> zlen chs = zlen T / cs ->
  streaming key rid fidx cs fsz S chs (zlen T / cs * cs) w ->
  (forall k c, chs !! k = Some c -> chunk_ok enc (Z.of_nat k) (chunk_at cs T (Z.of_nat k)) c) ->
  w.(ChunkStreamer.u_self).(ChunkStreamer._uploadedFileSize) = zlen T / cs * cs ->
  exists chs' w', ChunkStreamer.finalize (zdrop (zlen T / cs * cs) T) w
      = (Ret (mkSent 1 key (hmacSha256 key (concat (hmac <$> chs'))) cs rid), w')
    /\ encodes_as enc T chs'
    /\ committed_file w'.(ChunkStreamer.u_srv) rid fidx = Some (concat (data <$> chs'), concat (hmac <$> chs'))
    /\ w'.(ChunkStreamer.u_self).(ChunkStreamer._uploadedFileSize) = fsz.
Proof.
  intros HT Hlen Hst Hk Hup. set (n := zlen T / cs) in *. set (rest := zdrop (n * cs) T).
  pose proof (zlen_nonneg T). pose proof (Z.div_mod (zlen T) cs ltac:(lia)) as Hdm. fold n in Hdm.
  pose proof (Z.mod_pos_bound (zlen T) cs ltac:(lia)) as Hmod.
  pose proof (chunk_count_split (zlen T) ltac:(lia)) as Hcc. fold n in Hcc.
  assert (Hn : 0 <= n) by (apply Z.div_pos; lia).
  assert (Hrest : zlen rest = zlen T mod cs) by (unfold rest; rewrite zlen_zdrop by nia; lia).
  unfold ChunkStreamer.finalize.
  set (w1 := ChunkStreamer.mkWorld (ChunkStreamer.set_uploaded fsz (ChunkStreamer.u_self w))
    (ChunkStreamer.u_rng w) (ChunkStreamer.u_srv w)).
  rewrite (run_bind_ret _ _ w tt w1).
  2:{ unfold ChunkStreamer.on_self, zoom, modify, w1. rewrite Hup, wrap_id by lia. do 4 f_equal. lia. }
  assert (Hst1 : streaming key rid fidx cs fsz S chs (n * cs) w1).
  { destruct Hst as [? ? ? ? ? ? []]. by constructor. }
  (* the last, shorter chunk *)
  assert (Hlast : exists chs' w2, (if zlen rest =? 0 then mret tt else ChunkStreamer.prepareAndSendChunk rest) w1
      = (Ret tt, w2) /\ encodes_as enc T chs' /\ streaming key rid fidx cs fsz S chs' fsz w2
      /\ (ChunkStreamer.u_self w2).(ChunkStreamer._uploadedFileSize) = fsz).
  { rewrite Hrest. destruct (Z.eqb_spec (zlen T mod cs) 0) as [E0|E0].
    - exists chs, w1. split; [done|]. split; [constructor; [|exact Hk]|].
      { change (ChunkEncryptor._chunkSize enc) with cs. lia. }
      split; [|done]. assert (E1 : n * cs = fsz) by lia. by rewrite E1 in Hst1.
    - assert (Hchunk : rest = chunk_at cs T (zlen chs)).
      { rewrite Hlen. unfold chunk_at, slice, rest. by rewrite (ztake_ge cs) by (fold rest; lia). }
      destruct (upload_chunk T chs (n * cs) rest w1 Hst1 Hk Hchunk ltac:(lia)) as (c & w2 & Hrun & Hst2 & Hk2 & Hup2).
      { rewrite <- HT. lia. }
      exists (chs ++ [c]), w2. split; [done|]. split; [constructor; [|exact Hk2]|].
      + rewrite zlen_app, zlen_cons, zlen_nil. change (ChunkEncryptor._chunkSize enc) with cs. lia.
      + assert (E1 : n * cs + zlen rest = fsz) by lia. by rewrite E1 in Hst2. }
  destruct Hlast as (chs' & w2 & Hrun & Hea & Hst2 & Hup2).
  rewrite (run_bind_ret _ _ _ _ _ Hrun). rewrite (run_bind_ret _ _ w2 (ChunkStreamer.u_self w2) w2) by done.
  pose proof Hst2 as [G1 G2 G3 _ _ G6 _].
  rewrite (run_bind_ret _ _ w2 tt w2).
  2:{ rewrite Hup2, G2, wrap_id by (pose proof (zlen_nonneg rest); lia).
      rewrite (proj2 (Z.ltb_ge _ _)) by (pose proof (zlen_nonneg rest); lia). done. }
  destruct (commitFile_run key rid fidx cs fsz S HS chs' fsz w2 Hst2) as (w3 & Hcommit & Hfile & Hsame & Hrid).
  rewrite (run_bind_ret _ _ _ _ _ Hcommit). rewrite (run_bind_ret _ _ w3 (ChunkStreamer.u_self w3) w3) by done.
  destruct Hsame as (T1 & T2 & T3 & T4 & T5 & T6 & T7).
  exists chs', w3. split; [unfold mret, st_ret; by rewrite T1, T3, T7, G1, G3, G6, Hrid|]. split; [done|].
  split; [done|]. by rewrite T4.
Qed.

Lemma finalize_run T h : uploading T h -> zlen T = fsz ->
  exists chs h', FileWriteHandle.finalize h
      = (Ret (mkSent 1 key (hmacSha256 key (concat (hmac <$> chs))) cs rid), h')
    /\ encodes_as enc T chs
    /\ committed_file h'.(wh_streamer).(ChunkStreamer.u_srv) rid fidx
       = Some (concat (data <$> chs), concat (hmac <$> chs))
    /\ h'.(wh_size) = fsz.
Proof.
  intros [Hs Hle (chs & Hst & Hlen & Hk & Hup)] HT. pose proof (zlen_nonneg T).
  pose proof (Z.div_mod (zlen T) cs ltac:(lia)) as Hdm. pose proof (Z.mod_pos_bound (zlen T) cs ltac:(lia)) as Hmod.
  set (n := zlen T / cs) in *. set (rest := zdrop (n * cs) T) in *.
  assert (Hn : 0 <= n) by (apply Z.div_pos; lia).
  assert (Hrest : zlen rest = zlen T - n * cs) by (unfold rest; rewrite zlen_zdrop by nia; lia).
  unfold FileWriteHandle.finalize. rewrite (run_bind_ret _ _ h tt h).
  2:{ rewrite Hs. unfold ChunkBufferedStream.isFullyFilled. cbn. by rewrite (proj2 (Z.eqb_eq _ _)) by lia. }
  set (h1 := mkWriteHandle _ _ (ChunkBufferedStream.mk cs [] true fsz (zlen T) 0) (wh_streamer h) (wh_size h) (wh_randomWrite h)).
  rewrite (run_bind_ret _ _ h rest h1).
  2:{ unfold FileWriteHandle.on_stream, ChunkBufferedStream.readChunk. unfold_st. rewrite Hs. cbn. fold rest.
      rewrite (substr_ret _ 0) by (pose proof (zlen_nonneg rest); lia). unfold slice.
      rewrite zdrop_0, (ztake_ge cs) by lia. rewrite Z.min_l by lia.
      rewrite substr_from_ret by lia. rewrite (zdrop_ge (zlen T - n * cs)) by lia. rewrite Z.sub_diag. done. }
  destruct (streamer_finalize_run T chs (wh_streamer h) HT Hlen Hst Hk Hup) as (chs' & w' & Hrun & Hea & Hfile & Hsz).
  rewrite (run_bind_ret _ _ h1 (mkSent 1 key (hmacSha256 key (concat (hmac <$> chs'))) cs rid)
    (mkWriteHandle _ _ (wh_stream h1) w' (wh_size h) (wh_randomWrite h))).
  2:{ unfold FileWriteHandle.on_streamer, zoom. cbn. fold n rest in Hrun. by rewrite Hrun. }
  eexists chs', _. split; [done|]. split; [done|]. split; [done|]. exact Hsz.
Qed.
End Uploading.

(** ** The theorems *)
Section UploadTheorems.
Context {C : CryptoService} {CL : CryptoLaws C} {R : RequestApi} {RL : RequestApiLaws R}.

(** The sizes of an upload stay within the machine's integers. *)
Record upload_bounds (cs size S : Z) : Prop := {
  ub_cs : 0 < cs < 2 ^ 31;
  ub_S : 0 < S < 2 ^ 62;
  ub_size : 0 <= size < 2 ^ 62;
  ub_count : chunk_count cs size + 1 < 2 ^ 32;
  ub_total : (chunk_count cs size + 1) * enc_size cs < 2 ^ 62;
}.

(** A handle for a new file of [size] bytes, its request and key set. *)
Definition new_upload (key rid : bytes) (fidx size cs S : Z) (g : rng) (s : upload_srv) : write_handle :=
  (FileWriteHandle.setRequestData rid key fidx (FileWriteHandle.construct size cs S false g s)).2.

Lemma new_upload_ok key rid fidx size cs S g s :
  upload_bounds cs size S -> received s rid fidx = ([], 0) ->
  uploading key rid fidx cs size S [] (new_upload key rid fidx size cs S g s).
Proof.
  intros [Hcs HS Hsz Hcnt Htot] Hrec.
  assert (E0 : zlen (@nil byte) / cs = 0) by (apply Z.div_0_l; lia).
  assert (E1 : zlen (@nil byte) / S = 0) by (apply Z.div_0_l; lia).
  constructor; rewrite ?E0; [done|apply Hsz|].
  exists []. split; [|done]. constructor; try done. split; [done|lia].
Qed.

Lemma upload_pieces key rid fidx size cs S ds : forall T h,
  upload_bounds cs size S -> uploading key rid fidx cs size S T h ->
  zlen (T ++ concat ds) <= size ->
  exists h', for_each ds FileWriteHandle.write h = (Ret tt, h')
    /\ uploading key rid fidx cs size S (T ++ concat ds) h'.
Proof.
  induction ds as [|d ds IH]; intros T h Hb Hup Hle; cbn.
  { exists h. by rewrite app_nil_r. }
  pose proof Hb as [Hcs HS Hsz Hcnt Htot]. cbn in Hle. rewrite !zlen_app in Hle.
  pose proof (zlen_nonneg (concat ds)). pose proof (zlen_nonneg d). pose proof (zlen_nonneg T).
  destruct (proj1 (write_run_upload key rid fidx cs size S Hcs HS Hsz Hcnt Htot T h d Hup ltac:(lia)) ltac:(lia))
    as (h1 & Hrun & Hup1).
  rewrite (run_bind_ret _ _ _ _ _ Hrun). rewrite app_assoc.
  apply (IH (T ++ d) h1 Hb Hup1). rewrite !zlen_app. lia.
Qed.

Lemma upload_runs key rid fidx cs S g s (ds : list bytes) :
  let T := concat ds in
  upload_bounds cs (zlen T) S -> received s rid fidx = ([], 0) ->
  exists h1 h2 f hs,
    for_each ds FileWriteHandle.write (new_upload key rid fidx (zlen T) cs S g s) = (Ret tt, h1)
    /\ FileWriteHandle.finalize h1 = (Ret (mkSent 1 key (hmacSha256 key (concat hs)) cs rid), h2)
    /\ committed_file h2.(wh_streamer).(ChunkStreamer.u_srv) rid fidx = Some (f, concat hs)
    /\ encodes (ChunkEncryptor.mk key cs) T f hs /\ h2.(wh_size) = zlen T.
Proof.
  intros T Hb Hrec. pose proof Hb as [Hcs HS Hsz Hcnt Htot].
  destruct (upload_pieces key rid fidx (zlen T) cs S ds [] _ Hb (new_upload_ok key rid fidx (zlen T) cs S g s Hb Hrec))
    as (h1 & Hrun & Hup); [done|].
  destruct (finalize_run key rid fidx cs (zlen T) S Hcs HS Hsz Hcnt Htot T h1 Hup eq_refl)
    as (chs & h2 & Hfin & Hea & Hfile & Hsize).
  exists h1, h2, (concat (data <$> chs)), (hmac <$> chs). split; [done|]. split; [done|]. split; [done|].
  split; [by exists chs|done].
Qed.

(** an upload delivers the text: whatever the pieces it is written in,
    when they make up the declared size the upload succeeds, and the file the
    server has then committed encodes the concatenation of the pieces under
    the upload's key, with the checksum buffer and the top hash that opening
    it will check. *)
Theorem upload_delivers key rid fidx cs S g s (ds : list bytes) :
  let T := concat ds in
  upload_bounds cs (zlen T) S -> received s rid fidx = ([], 0) ->
  exists h1 h2 f hs,
    for_each ds FileWriteHandle.write (new_upload key rid fidx (zlen T) cs S g s) = (Ret tt, h1)
    /\ FileWriteHandle.finalize h1 = (Ret (mkSent 1 key (hmacSha256 key (concat hs)) cs rid), h2)
    /\ committed_file h2.(wh_streamer).(ChunkStreamer.u_srv) rid fidx = Some (f, concat hs)
    /\ encodes (ChunkEncryptor.mk key cs) T f hs /\ h2.(wh_size) = zlen T.
Proof. apply upload_runs. Qed.

(** a handle never takes more than the declared size, and never
    finalizes on less: the piece that would exceed it is refused with nothing
    sent, and [finalize] refuses until exactly that many bytes are in. *)
Theorem upload_size_checked key rid fidx cs size S g s (ds : list bytes) d :
  let T := concat ds in
  upload_bounds cs size S -> received s rid fidx = ([], 0) -> zlen T <= size -> zlen T + zlen d < 2 ^ 63 ->
  exists h, for_each ds FileWriteHandle.write (new_upload key rid fidx size cs S g s) = (Ret tt, h)
    /\ (size < zlen T + zlen d -> FileWriteHandle.write d h = (Throw DataBiggerThanDeclaredException, h))
    /\ (zlen T <> size -> FileWriteHandle.finalize h = (Throw DataDifferentThanDeclaredException, h))
    /\ FileWriteHandle.isReadyToFinalize h = (zlen T =? size).
Proof.
  intros T Hb Hrec Hle Hd. pose proof Hb as [Hcs HS Hsz Hcnt Htot].
  destruct (upload_pieces key rid fidx size cs S ds [] _ Hb (new_upload_ok key rid fidx size cs S g s Hb Hrec) Hle)
    as (h & Hrun & Hup). exists h. split; [done|].
  assert (Hready : FileWriteHandle.isReadyToFinalize h = (zlen T =? size)).
  { unfold FileWriteHandle.isReadyToFinalize. by rewrite (up_stream _ _ _ _ _ _ _ _ Hup). }
  split; [|split; [|done]].
  - apply (write_run_upload key rid fidx cs size S Hcs HS Hsz Hcnt Htot T h d Hup Hd).
  - intros Hne. unfold FileWriteHandle.finalize. apply run_bind_throw.
    unfold FileWriteHandle.isReadyToFinalize in Hready. by rewrite Hready, (proj2 (Z.eqb_neq _ _)).
Qed.

(** the size a new upload declares to the server is the size of what it
    will send: the encrypted layout of the text, and one checksum per chunk. *)
Theorem declared_size_is_layout {A} self (l : list A) :
  self.(ChunkStreamer._fileSize) = zlen l ->
  0 < self.(ChunkStreamer._chunkSize) ->
  zlen l + self.(ChunkStreamer._chunkSize) <= 2 ^ 64 ->
  layout_size self.(ChunkStreamer._chunkSize) l < 2 ^ 64 ->
  HMAC_SIZE * chunk_count self.(ChunkStreamer._chunkSize) (zlen l) < 2 ^ 64 ->
  ChunkStreamer.getFileSize self
  = (layout_size self.(ChunkStreamer._chunkSize) l,
     HMAC_SIZE * chunk_count self.(ChunkStreamer._chunkSize) (zlen l)).
Proof.
  intros Hf Hcs Hs Hl Hh. set (cs := ChunkStreamer._chunkSize self) in *. pose proof (zlen_nonneg l).
  pose proof (getEncryptedFileSize_eq (ChunkEncryptor.mk [] cs) l Hcs Hs Hl) as Hg.
  cbn [ChunkEncryptor._chunkSize] in Hg. rewrite <- Hg.
  unfold ChunkStreamer.getFileSize, ChunkEncryptor.getEncryptedFileSize. rewrite Hf. fold cs. cbn [ChunkEncryptor._chunkSize].
  destruct (Z.eqb_spec (zlen l) 0) as [E|E].
  - unfold chunk_count. rewrite E, Z.div_small by lia. done.
  - f_equal. rewrite (wrap_id 64 (zlen l + cs - 1)) by lia. fold (chunk_count cs (zlen l)).
    rewrite wrap_id; [lia|]. pose proof (chunk_count_nonneg cs (zlen l)). unfold HMAC_SIZE in *. lia.
Qed.
End UploadTheorems.

(** ** A bridge that satisfies the laws, for one upload *)
Module ToyUpload.
Record state := mkState { got : bytes; next : Z; file : option (bytes * bytes) }.

#[export] Instance api : RequestApi := {|
  upload_srv := state;
  createRequestCall _ := mret (lit "request");
  sendChunkRequest c s :=
    if c.(cm_seq) =? s.(next)
    then (Ret tt, mkState (s.(got) ++ c.(cm_data)) (s.(next) + 1) s.(file))
    else (Throw StdInvalidArgument, s);
  commitFileRequest c s :=
    if c.(cf_seq) =? s.(next)
    then (Ret tt, mkState s.(got) s.(next) (Some (s.(got), c.(cf_checksum))))
    else (Throw StdInvalidArgument, s);
|}.

#[export] Program Instance api_laws : RequestApiLaws api := {|
  received s _ _ := (s.(got), s.(next));
  committed_file s _ _ := s.(file);
|}.
Next Obligation. intros s c Hc. cbn in *. rewrite Hc, Z.eqb_refl. eexists. split; [done|]. done. Qed.
Next Obligation. intros s c Hc. cbn in *. rewrite Hc, Z.eqb_refl. eexists. split; [done|]. done. Qed.

Definition empty : @upload_srv api := mkState [] 0 None.
End ToyUpload.

Import Toy ToyUpload.

Definition toy_pieces : list bytes := [lit "hello "; lit "wor"; lit "ld, and the rest"].
Definition toy_seed : @rng Toy.service := 0.

Lemma toy_upload_bounds : upload_bounds 8 (zlen (concat toy_pieces)) 100.
Proof. by constructor. Qed.

Lemma upload_delivers_witness :
  exists h1 h2 f hs,
    for_each toy_pieces FileWriteHandle.write (new_upload [] [] 0 25 8 100 toy_seed ToyUpload.empty) = (Ret tt, h1)
    /\ FileWriteHandle.finalize h1 = (Ret (mkSent 1 [] (hmacSha256 [] (concat hs)) 8 []), h2)
    /\ committed_file h2.(wh_streamer).(ChunkStreamer.u_srv) [] 0 = Some (f, concat hs)
    /\ encodes (ChunkEncryptor.mk [] 8) (concat toy_pieces) f hs /\ h2.(wh_size) = 25.
Proof.
  exact (upload_delivers [] [] 0 8 100 toy_seed ToyUpload.empty toy_pieces toy_upload_bounds eq_refl).
Defined.

Lemma upload_size_checked_witness :
  exists h, for_each toy_pieces FileWriteHandle.write (new_upload [] [] 0 25 8 100 toy_seed ToyUpload.empty) = (Ret tt, h)
    /\ (25 < 25 + 3 -> FileWriteHandle.write (lit "abc") h = (Throw DataBiggerThanDeclaredException, h))
    /\ (25 <> 25 -> FileWriteHandle.finalize h = (Throw DataDifferentThanDeclaredException, h))
    /\ FileWriteHandle.isReadyToFinalize h = true.
Proof.
  exact (upload_size_checked [] [] 0 8 25 100 toy_seed ToyUpload.empty toy_pieces (lit "abc")
    toy_upload_bounds eq_refl ltac:(by vm_compute) ltac:(by vm_compute)).
Defined.

Lemma declared_size_is_layout_witness :
  ChunkStreamer.getFileSize (ChunkStreamer.construct 8 25 100) = (layout_size 8 (zeros 25), HMAC_SIZE * chunk_count 8 25).
Proof.
  exact (declared_size_is_layout (ChunkStreamer.construct 8 25 100) (zeros 25) eq_refl
    ltac:(by vm_compute) ltac:(by vm_compute) ltac:(by vm_compute) ltac:(by vm_compute)).
Defined.
