(* ===== verification/StoreExamples.v ===== *)
(** * A concrete file

    A three-chunk file on the one-file server, under the toy cipher: the inputs
    on which the theorems about stored files are instantiated. *)

From Stdlib Require Import ZArith Lia Strings.String Strings.Byte.
From stdpp Require Import base sets list.
From S2P Require Import Prelude Bytes CoreTypes Crypto CryptoSuite Dynamic Encryptors Dio FieldData KeyProvider FileMetaData.
From S2P Require Import ChunkCrypto HmacList StoreServer ChunkProvider ChunkReader FileHandler FileWrite FileRefine FileIO.
From S2P Require Import FileHandle.

Import Toy ToyServer.

#[local] Existing Instances ToyEcc.ecc ToyEcc.laws ToyJson.encodings ToyJson.encodings_laws ToyCodec.keys ToyCodec.keys_laws
  dio_codec dio_codec_laws.
#[local] Instance toy_dynamic : Dynamic := ToyJson.dynamic [].

(** The texts of metadata that are only written here. *)
#[local] Instance toy_internal_codec : JsonCodec InternalStoreFileMeta := {|
  serialize m := im_key m ++ im_hmac m ++ to_string (im_size m); deserialize _ := Throw PocoException |}.
#[local] Instance toy_file_json : FileJson := {|
  file4_toJSON e := ToyJson.JObject [(lit "publicMeta", ToyJson.JString (FileMetaEncryptorV4.publicMeta e));
    (lit "privateMeta", ToyJson.JString (FileMetaEncryptorV4.privateMeta e))];
  file4_fromJSON _ := Throw PocoException;
  file5_toJSON e := ToyJson.JObject [(lit "publicMeta", ToyJson.JString (FileMetaEncryptorV5.publicMeta e));
    (lit "privateMeta", ToyJson.JString (FileMetaEncryptorV5.privateMeta e)); (lit "dio", ToyJson.JString (FileMetaEncryptorV5.dio e))];
  file5_fromJSON _ := Throw PocoException |}.

(** The connection of a user who knows the bridge. *)
#[local] Instance toy_connection : MetaConnection := {|
  conn_userPrivKey := (x07 : @PrivateKey _ ToyEcc.ecc);
  conn_bridgeIdentity := dio_bridgeIdentity (dio toy_dio);
  conn_getMyUserId _ := mret (lit "me");
  conn_getNowTimestamp := mret 1700000000000;
  conn_value v := pson_encode (Dynamic := toy_dynamic) v
|}.

Definition toy_text : bytes := lit "The quick brown fox".
Definition toy_key : bytes := lit "file key".
Definition toy_enc : ChunkEncryptor.t := ChunkEncryptor.mk toy_key 8.

Definition toy_chunk (i : Z) : Chunk :=
  match ChunkEncryptor.encrypt toy_enc i (chunk_at 8 toy_text i) i with
  | (Ret c, _) => c
  | (Throw _, _) => mkChunk [] []
  end.

Definition toy_chunks : list Chunk := Eval vm_compute in toy_chunk <$> [0; 1; 2].

Definition toy_srv : @srv ToyServer.server := Eval vm_compute in
  ToyServer.mkState (concat (data <$> toy_chunks)) (concat (hmac <$> toy_chunks)) 1.

Definition toy_params : FileDecryptionParams := Eval vm_compute in
  mkParams (lit "file") (lit "resource") (zlen toy_srv.(ToyServer.buf)) (zlen toy_text) 1 8 toy_key
    (hmacSha256 toy_key toy_srv.(ToyServer.sums)) 1.

Definition toy_server_chunk : Z := 100.

Lemma toy_encodes : encodes_as toy_enc toy_text toy_chunks.
Proof.
  constructor; [reflexivity|].
  intros [|[|[|k]]] c; cbn [lookup list_lookup toy_chunks]; try done;
    intros [= <-]; repeat split; vm_compute; reflexivity.
Qed.

Lemma toy_params_match : params_match toy_params toy_server_chunk toy_text toy_srv.
Proof.
  constructor.
  - by vm_compute.
  - by vm_compute.
  - reflexivity.
  - vm_compute. reflexivity.
  - vm_compute. reflexivity.
  - exists (hmac <$> toy_chunks). split; [|vm_compute; reflexivity].
    exists toy_chunks. split; [exact toy_encodes|]. split; vm_compute; reflexivity.
  - vm_compute. reflexivity.
  - split; [|split]; vm_compute; reflexivity.
Qed.

Definition toy_info : FileInfo := mkFileInfo (lit "ctx") (lit "store") (lit "storeRes") (lit "file") (lit "resource").
Definition toy_file_meta : FileMeta :=
  mkFileMeta [] [] (mkInternalMeta 1 19 1 8 toy_key toy_params.(fdp_hmac) (Some true)).
Definition toy_enc_key : DecryptedEncKey := mkDecryptedEncKey (mkEncKey (lit "kid") (lit "0123456789abcdef0123456789abcdef")) 2 0.

Lemma toy_renewable enc a b v : renewable (FileHandler.construct enc a b v toy_info toy_file_meta toy_enc_key).
Proof.
  split; [|reflexivity|by vm_compute|].
  - right. split; [done|]. split; [done|..]; [intros g; by exists (lit "me"), g|intros g; by exists 1700000000000, g|done].
  - intros h size Hh. unfold DataEncryptorV4.small.
    change (serialize _) with (toy_key ++ h ++ to_string (i64 size)). rewrite !zlen_app, Hh.
    pose proof (to_string_len (i64 size) (swrap_range 64 size ltac:(done))). change (zlen toy_key) with 8. unfold HMAC_SIZE. lia.
Qed.

Definition toy_rng : @rng Toy.service := 0.

(** The file opened for random access. *)
Definition toy_opened : outcome fimpl * @srv ToyServer.server :=
  open_read_write toy_info toy_params toy_file_meta toy_enc_key toy_server_chunk toy_rng toy_srv.

Definition toy_closed : fimpl :=
  FileHandlerImpl.construct (mkWorld _ _
    (FileHandler.construct toy_enc 0 0 0 toy_info toy_file_meta toy_enc_key)
    (mkEnv _ toy_enc (ChunkDataProvider.construct 64 64 [] 0 0) toy_list (ChunkReader.mk 8 0 None) toy_srv) toy_rng).

Definition toy_file : fimpl := match toy_opened.1 with Ret f => f | Throw _ => toy_closed end.

Definition toy_hist : Z -> bytes := fun _ => toy_srv.(ToyServer.buf).
Definition toy_geometry : Z * Z * Z := (8, 64, 128).

Lemma toy_file_opened :
  handler_ok toy_hist toy_text toy_file.(fi_world) /\ implements toy_geometry (mkAFile toy_text 0 0) toy_file.
Proof.
  destruct (open_read_write_run toy_info toy_params toy_file_meta toy_enc_key toy_server_chunk toy_rng toy_text toy_srv
    toy_params_match eq_refl toy_renewable) as (f & Hopen & Hok & Him).
  assert (toy_file = f) as -> by (unfold toy_file, toy_opened; rewrite Hopen; reflexivity).
  assert (open_geometry toy_params toy_server_chunk = toy_geometry) as Hg by (vm_compute; reflexivity).
  rewrite Hg in Him. split; [exact Hok|exact Him].
Qed.

Lemma toy_file_renewable : renewable toy_file.(fi_world).(w_fh).
Proof. exact (im_renewable _ _ _ (proj2 toy_file_opened)). Qed.

(** A world whose version the server has moved past. *)
Definition moved_on (s : srv) (w : fworld) : fworld := with_srv s w.

Lemma moved_on_view hist P f s w :
  file_view hist P w.(w_env) -> handler_sizes P f w -> srv_current hist w.(w_env).(e_cdp) s ->
  file_view hist P (moved_on s w).(w_env) /\ handler_sizes P f (moved_on s w).
Proof. intros [] [] Hc. split; by constructor. Qed.

Definition toy_srv2 : @srv ToyServer.server :=
  ToyServer.mkState toy_srv.(ToyServer.buf) toy_srv.(ToyServer.sums) 2.

Definition toy_stale : fworld := moved_on toy_srv2 toy_file.(fi_world).

Lemma toy_stale_view : file_view toy_hist toy_text toy_stale.(w_env)
  /\ handler_sizes toy_text (toy_hist 1) toy_stale /\ stale toy_stale.(w_env).
Proof.
  destruct toy_file_opened as [[Hv Hs _ _] _].
  destruct (moved_on_view toy_hist toy_text (toy_hist 1) toy_srv2 toy_file.(fi_world) Hv Hs eq_refl) as [Hv' Hs'].
  split; [exact Hv'|split; [exact Hs'|]]. vm_compute. discriminate.
Qed.

(** ** Witnesses *)

Lemma read_returns_slice_witness :
  exists r e', FileReader.read (FileReader.construct toy_params) 6 9 toy_file.(fi_world).(w_env) = (r, e')
    /\ value_or_stale toy_file.(fi_world).(w_env) r (lit "ick brown") /\ file_view toy_hist toy_text e'
    /\ env_same toy_file.(fi_world).(w_env) e'.
Proof.
  apply (read_returns_slice toy_hist toy_text toy_file.(fi_world).(w_env) (FileReader.construct toy_params) 6 9);
    [apply toy_file_opened|vm_compute; reflexivity|done|done|done].
Defined.

Lemma toy_write_bounded : write_bounded 4 (lit "slow ") toy_text false toy_file.(fi_world).
Proof. constructor; vm_compute; (done || (split; [split; [discriminate|reflexivity]|reflexivity])). Qed.



Definition toy_ops : list file_op :=
  [OpSeekg 4; OpRead 5; OpSeekp 10; OpWrite (lit "red") false; OpSeekg 30; OpRead 100].

Lemma file_trace_refinement_witness :
  exists s', run_ops impl_op toy_ops toy_file
      = ([Ret []; Ret (lit "quick"); Ret []; Ret []; Throw PosOutOfBoundsException; Ret (lit " redwn fox")], s')
    /\ implements toy_geometry (run_ops spec_op toy_ops (mkAFile toy_text 0 0)).2 s'.
Proof.
  apply (file_trace_refinement toy_geometry (mkAFile toy_text 0 0) toy_file toy_ops (proj2 toy_file_opened)).
  vm_compute. repeat split; (reflexivity || discriminate).
Defined.

Lemma open_and_read_witness :
  exists h h', FileReadHandle.construct toy_params toy_server_chunk toy_srv = (Ret h, toy_srv)
    /\ FileReadHandle.read 9 h = (Ret (lit "The quick"), h') /\ h'.(rh_pos) = 9 /\ h'.(rh_env).(e_srv) = toy_srv.
Proof. apply (open_and_read toy_params toy_server_chunk toy_text toy_srv 9 toy_params_match). done. Defined.

Lemma open_implements_witness :
  exists f, open_read_write toy_info toy_params toy_file_meta toy_enc_key toy_server_chunk toy_rng toy_srv = (Ret f, toy_srv)
    /\ implements (open_geometry toy_params toy_server_chunk) (mkAFile toy_text 0 0) f.
Proof.
  exact (open_implements toy_info toy_params toy_file_meta toy_enc_key toy_server_chunk toy_rng toy_text toy_srv
    toy_params_match eq_refl toy_renewable).
Defined.

Definition toy_cdp : ChunkDataProvider.t := ChunkDataProvider.mk 64 128 (lit "file") 192 1 [] None.

Lemma getChunk_snapshot_witness :
  exists r self', ChunkDataProvider.getChunkAt 1 1 (toy_cdp, toy_srv) = (r, (self', toy_srv))
    /\ (r = Ret (slice (1 * 64) 64 (toy_hist 1)) \/ r = Throw FileVersionMismatchException /\ 1 <> 1)
    /\ cdp_same toy_cdp self' /\ cdp_coherent toy_hist self'
    /\ self'.(ChunkDataProvider._fileVersion) = 1.
Proof.
  exact (getChunk_snapshot toy_hist toy_cdp toy_srv 1 1 ltac:(by constructor) ltac:(by intros n Hn)
    ltac:(reflexivity) ltac:(by repeat split)).
Defined.

(** ** A key of an unknown structure

    [write] records the new checksums, then encrypts the new metadata, and only
    the request that follows is guarded by the list's restoration. *)
Definition toy_unknown : fworld :=
  let w := toy_file.(fi_world) in
  with_fh (FileHandler.construct toy_enc 19 toy_params.(fdp_sizeOnServer) 1 toy_info toy_file_meta
    (mkDecryptedEncKey toy_enc_key.(dek_key) 0 0)) w.

Definition toy_failed : outcome unit * fworld := write 4 (lit "slow ") false toy_unknown.

(** With such a key the write throws, the server keeps its file and version,
    but the handler's checksum list is that of the text that was not written,
    and reading the chunk fails from then on. *)
Theorem unencrypted_write_corrupts :
  toy_failed.1 = Throw UnknownEncryptionKeyVersionException
  /\ toy_failed.2.(w_env).(e_srv) = toy_unknown.(w_env).(e_srv) /\ toy_failed.2.(w_fh) = toy_unknown.(w_fh)
  /\ entries toy_failed.2.(w_env).(e_hash) <> entries toy_unknown.(w_env).(e_hash)
  /\ (FileHandler.read 0 19 toy_unknown).1 = Ret toy_text
  /\ (FileHandler.read 0 19 toy_failed.2).1 = Throw FileChunkInvalidChecksumException.
Proof. vm_compute. repeat split; (reflexivity || discriminate). Qed.

(** ** Truncating at a chunk boundary

    With no data to write, [write] still re-encrypts the chunk the offset falls
    in.  At a chunk boundary that chunk is empty, and the file keeps it. *)
Definition toy_truncated : fworld := (write 16 [] true toy_file.(fi_world)).2.

Definition toy_reopen : FileDecryptionParams :=
  let fh := toy_truncated.(w_fh) in
  mkParams (lit "file") (lit "resource") fh.(FileHandler._encryptedFileSize) fh.(FileHandler._plainfileSize) 1 8
    toy_key (default [] (match base64_to fh.(FileHandler._fileMeta).(fm_internalFileMeta).(im_hmac) with
      | Ret h => Some h | Throw _ => None end)) fh.(FileHandler._version).

(** Truncating the example file to 16 bytes (two full chunks) succeeds and
    records a plain size of 16, but the server keeps 192 encrypted bytes where
    the layout of 16 bytes takes 128; the file cannot be opened again. *)
Theorem truncate_to_boundary_corrupts :
  (write 16 [] true toy_file.(fi_world)).1 = Ret tt
  /\ toy_reopen.(fdp_originalSize) = 16 /\ toy_reopen.(fdp_sizeOnServer) = 192
  /\ ChunkEncryptor.getEncryptedFileSize toy_enc 16 = 128
  /\ (FileReadHandle.construct toy_reopen toy_server_chunk toy_truncated.(w_env).(e_srv)).1
     = Throw FileCorruptedException.
Proof. vm_compute. repeat split; reflexivity. Qed.
