(* ===== verification/StdMap.v ===== *)
(** * Ordered containers of strings

    [std::sort] on strings and the iteration order of [std::map] and
    [std::set] with string keys: bytes compare as unsigned characters, a
    proper prefix is smaller. *)

From Stdlib Require Import ZArith Lia Strings.Byte.
From stdpp Require Import base list gmap sorting.
From S2P Require Import Prelude Bytes.

Fixpoint bytes_leb (a b : bytes) : bool :=
  match a, b with
  | [], _ => true
  | _ :: _, [] => false
  | x :: a, y :: b => bool_decide (byte_val x < byte_val y) || bool_decide (x = y) && bytes_leb a b
  end.

Definition bytes_le (a b : bytes) : Prop := bytes_leb a b = true.

#[export] Instance bytes_le_dec : RelDecision bytes_le.
Proof. intros a b. unfold bytes_le. apply _. Defined.

Lemma bytes_le_cons x a y b :
  bytes_le (x :: a) (y :: b) <-> byte_val x < byte_val y \/ x = y /\ bytes_le a b.
Proof. unfold bytes_le. cbn. by rewrite orb_true_iff, andb_true_iff, !bool_decide_eq_true. Qed.

#[export] Instance bytes_le_total : Total bytes_le.
Proof.
  intros a. induction a as [|x a IH]; intros [|y b]; [by left|by left|by right|].
  rewrite !bytes_le_cons.
  destruct (Z.lt_trichotomy (byte_val x) (byte_val y)) as [?|[He|?]]; [by left; left| |by right; left].
  apply byte_val_inj in He as ->. destruct (IH b); [left|right]; by right.
Qed.

#[export] Instance bytes_le_trans : Transitive bytes_le.
Proof.
  intros a. induction a as [|x a IH]; intros [|y b] [|z c]; try done.
  rewrite !bytes_le_cons. intros [?|[-> ?]] [?|[-> ?]]; [left; lia|by left|by left|].
  right. split; [done|]. by eapply IH.
Qed.

#[export] Instance bytes_le_antisymm : AntiSymm (=) bytes_le.
Proof.
  intros a. induction a as [|x a IH]; intros [|y b]; try done.
  rewrite !bytes_le_cons. intros [?|[-> ?]] [?|[He ?]]; [lia|subst; lia|lia|]. f_equal. by apply IH.
Qed.

#[export] Instance bytes_le_refl : Reflexive bytes_le.
Proof. intros a. by destruct (bytes_le_total a a). Qed.

(** [std::sort] *)
Definition sort (l : list bytes) : list bytes := merge_sort bytes_le l.

Lemma sort_perm l : sort l ≡ₚ l.
Proof. apply merge_sort_Permutation. Qed.

Lemma sort_sorted l : StronglySorted bytes_le (sort l).
Proof. apply (StronglySorted_merge_sort bytes_le). Qed.

Lemma elem_of_sort l x : x ∈ sort l <-> x ∈ l.
Proof. by rewrite sort_perm. Qed.

(** A list sorted already is left alone. *)
Lemma sort_unique l l' : StronglySorted bytes_le l -> l ≡ₚ l' -> sort l' = l.
Proof.
  intros Hs Hp. apply (StronglySorted_unique bytes_le); [apply sort_sorted|done|].
  by rewrite sort_perm.
Qed.

(** The keys of a map and the elements of a set, in iteration order. *)
Definition keys {A} (m : gmap bytes A) : list bytes := sort (map_to_list m).*1.

Definition values {A} (m : gmap bytes A) : list A := omap (fun k => m !! k) (keys m).

Definition set_elements (s : gset bytes) : list bytes := sort (elements s).

Lemma elem_of_keys {A} (m : gmap bytes A) k : k ∈ keys m <-> is_Some (m !! k).
Proof.
  unfold keys. rewrite elem_of_sort, list_elem_of_fmap. split.
  - intros ([i x] & -> & H%elem_of_map_to_list). by exists x.
  - intros [x Hx]. exists (k, x). by rewrite elem_of_map_to_list.
Qed.

Lemma NoDup_keys {A} (m : gmap bytes A) : NoDup (keys m).
Proof. unfold keys. rewrite sort_perm. apply NoDup_fst_map_to_list. Qed.

Lemma elem_of_values {A} (m : gmap bytes A) x : x ∈ values m <-> exists k, m !! k = Some x.
Proof.
  unfold values. rewrite list_elem_of_omap. split.
  - intros (k & _ & Hk). by exists k.
  - intros [k Hk]. exists k. split; [by apply elem_of_keys|done].
Qed.

Lemma elem_of_set_elements s x : x ∈ set_elements s <-> x ∈ s.
Proof. unfold set_elements. by rewrite elem_of_sort, elem_of_elements. Qed.

Lemma NoDup_set_elements s : NoDup (set_elements s).
Proof. unfold set_elements. rewrite sort_perm. apply NoDup_elements. Qed.
