(* ===== verification/Handles.v ===== *)
(** * Handles (endpoint/core/src/HandleManager.cpp)

    The numbers an application holds for open files and inbox entries, shared by
    the modules of a connection, with the labels of what they stand for. *)

From Stdlib Require Import ZArith Lia Strings.String.
From stdpp Require Import base list gmap fin_maps fin_sets.
From S2P Require Import Prelude Bytes.

Module HandleManager.
Record t := mk { _id : Z; _map : gmap Z bytes }.

Definition empty : t := mk 0 ∅.

(** [int64_t id = ++_id; if (_map.has(id)) return createHandle(label);]: the
    atomic counter wraps around; [fuel] bounds the recursion. *)
Fixpoint create (fuel : nat) (label : bytes) : ST t Z := fun m =>
  match fuel with
  | O => (Throw UndefinedBehaviour, m)
  | S fuel =>
      let id := i64 (_id m + 1) in
      if bool_decide (is_Some (_map m !! id)) then create fuel label (mk id (_map m))
      else (Ret id, mk id (<[id := label]> (_map m)))
  end.

(** One round more than there are handles is enough ([createHandle_fresh]). *)
Definition createHandle (label : bytes) : ST t Z := fun m => create (S (size (_map m))) label m.

Definition getHandleLabel (id : Z) : ST t bytes := fun m =>
  (match _map m !! id with Some label => Ret label | None => Throw NoHandleFoundException end, m).

Definition removeHandle (id : Z) : ST t unit := modify (fun m => mk (_id m) (delete id (_map m))).

(** ** Freshness *)

(** The [k]-th number the counter takes from [id] on. *)
Definition nth_id (id : Z) (k : nat) : Z := i64 (id + Z.of_nat k).

Lemma nth_id_S id k : nth_id (i64 (id + 1)) k = nth_id id (S k).
Proof.
  unfold nth_id, swrap.
  replace ((id + 1 + 2 ^ (64 - 1)) mod 2 ^ 64 - 2 ^ (64 - 1) + Z.of_nat k + 2 ^ (64 - 1))
    with ((id + 1 + 2 ^ (64 - 1)) mod 2 ^ 64 + Z.of_nat k) by lia.
  rewrite Z.add_mod_idemp_l by lia. f_equal. f_equal. lia.
Qed.

Lemma nth_id_inj id j k : (j < k)%nat -> Z.of_nat k < 2 ^ 64 -> nth_id id j <> nth_id id k.
Proof.
  unfold nth_id, swrap. intros Hjk Hk He.
  apply Z.sub_cancel_r in He.
  pose proof (Z.div_mod (id + Z.of_nat j + 2 ^ (64 - 1)) (2 ^ 64) ltac:(done)) as H1.
  pose proof (Z.div_mod (id + Z.of_nat k + 2 ^ (64 - 1)) (2 ^ 64) ltac:(done)) as H2.
  rewrite He in H1. set (a := (id + Z.of_nat j + 2 ^ (64 - 1)) / 2 ^ 64) in *.
  set (b := (id + Z.of_nat k + 2 ^ (64 - 1)) / 2 ^ 64) in *.
  set (r := (id + Z.of_nat k + 2 ^ (64 - 1)) mod 2 ^ 64) in *. clearbody a b r. clear He.
  assert (2 ^ 64 * (b - a) = Z.of_nat k - Z.of_nat j) as Hd by lia.
  destruct (Z.le_gt_cases (b - a) 0); nia.
Qed.

(** As many numbers as there are handles, and one more, are not all taken. *)
Lemma some_free (m : gmap Z bytes) id : Z.of_nat (size m) + 1 < 2 ^ 64 ->
  exists k, (1 <= k <= S (size m))%nat /\ m !! nth_id id k = None.
Proof.
  intros Hsz.
  destruct (decide (Exists (fun k => m !! nth_id id k = None) (seq 1 (S (size m))))) as [Hex|Hno].
  { apply Exists_exists in Hex as (k & Hk & Hm). apply elem_of_seq in Hk. exists k. split; [lia|done]. }
  exfalso. set (l := nth_id id <$> seq 1 (S (size m))).
  assert (NoDup l) as Hnd.
  { apply NoDup_fmap_2_strong; [|apply NoDup_seq]. intros j k Hj%elem_of_seq Hk%elem_of_seq He.
    destruct (Nat.lt_trichotomy j k) as [|[|]]; [exfalso|done|exfalso].
    - by apply (nth_id_inj id j k); [|lia|].
    - by apply (nth_id_inj id k j); [|lia|]. }
  assert (list_to_set l ⊆ dom m) as Hsub.
  { intros x Hx%elem_of_list_to_set. apply list_elem_of_fmap in Hx as (k & -> & Hk). apply elem_of_dom.
    destruct (m !! nth_id id k) eqn:Em; [done|]. destruct Hno. apply Exists_exists. by exists k. }
  apply subseteq_size in Hsub. rewrite size_list_to_set, size_dom in Hsub by done.
  unfold l in Hsub. rewrite length_fmap, length_seq in Hsub. lia.
Qed.

Lemma create_free fuel label (m : t) k : (1 <= k <= fuel)%nat -> _map m !! nth_id (_id m) k = None ->
  exists id, create fuel label m = (Ret id, mk id (<[id := label]> (_map m))) /\ _map m !! id = None.
Proof.
  revert m k. induction fuel as [|fuel IH]; intros m k Hk Hfree; [lia|]. cbn [create].
  case_bool_decide as Hh; cycle 1.
  { exists (i64 (_id m + 1)). split; [done|]. by rewrite eq_None_not_Some. }
  destruct k as [|[|k]]; [lia| |].
  - exfalso. unfold nth_id in Hfree. change (Z.of_nat 1) with 1 in Hfree. rewrite Hfree in Hh. by destruct Hh.
  - apply (IH (mk (i64 (_id m + 1)) (_map m)) (S k)); [lia|]. cbn. by rewrite nth_id_S.
Qed.

(** a handle is always found, is not one in use even when the counter has
    gone round, and nothing else of the table changes. *)
Theorem createHandle_fresh label (m : t) : Z.of_nat (size (_map m)) + 1 < 2 ^ 64 ->
  exists id, createHandle label m = (Ret id, mk id (<[id := label]> (_map m))) /\ _map m !! id = None.
Proof.
  intros Hsz. destruct (some_free (_map m) (_id m) Hsz) as (k & Hk & Hfree). by eapply create_free.
Qed.

(** Around the end of the counter, with the next two numbers in use. *)
Example createHandle_fresh_witness :
  let m := mk (2 ^ 63 - 1) (<[ - 2 ^ 63 := lit "a" ]> (<[ 1 - 2 ^ 63 := lit "b" ]> ∅)) in
  (createHandle (lit "c") m).1 = Ret (2 - 2 ^ 63)
  /\ exists id, createHandle (lit "c") m = (Ret id, mk id (<[id := lit "c"]> (_map m))) /\ _map m !! id = None.
Proof. split; [by vm_compute|]. apply createHandle_fresh. by vm_compute. Defined.
End HandleManager.
