(* ===== verification/Subscriptions.v ===== *)
(** * Subscription queries

    [core::SubscriptionQueryObj] and [core::Subscriber]
    (endpoint/core/src/Subscriber.cpp): the text form of a subscription and
    the table of the subscriptions the server has granted.  What a module's
    subscriber adds is in the file SubscriberImpls. *)

From Stdlib Require Import ZArith Lia Strings.String Strings.Byte.
From stdpp Require Import base list gmap.
From S2P Require Import Prelude Bytes Utils StdMap.

Module SubscriptionQueryObj.
Record QuerySelector := mkSelector { selectorKey : bytes; selectorValue : bytes }.

Record t := mk { _channelPath : list bytes; _selectors : list QuerySelector }.

Definition QUERY_MAIN_SEPARATOR : byte := x7c.
Definition QUERY_PATH_SEPARATOR : byte := x2f.
Definition SELECTORS_SEPARATOR : byte := x2c.
Definition SELECTOR_SEPARATOR : byte := x3d.
Definition QUERY_MAIN_MAX_SIZE : nat := 2.

(** One turn of the loop over the selectors. *)
Definition parse_selector (selector : bytes) : outcome QuerySelector :=
  match Utils.split selector SELECTOR_SEPARATOR with
  | [k; v] => Ret {| selectorKey := k; selectorValue := v |}
  | _ => Throw InvalidSubscriptionQueryException
  end.

Fixpoint parse_selectors (l : list bytes) : outcome (list QuerySelector) :=
  match l with
  | [] => Ret []
  | s :: l => x ← parse_selector s; xs ← parse_selectors l; Ret (x :: xs)
  end.

(** The constructor from a string. *)
Definition parse (subscriptionQueryString : bytes) : outcome t :=
  let splittedQuery := Utils.split subscriptionQueryString QUERY_MAIN_SEPARATOR in
  if bool_decide (QUERY_MAIN_MAX_SIZE < length splittedQuery)%nat then Throw InvalidSubscriptionQueryException
  else
    let channelPath := match splittedQuery with
      | path :: _ => Utils.split path QUERY_PATH_SEPARATOR
      | [] => []
      end in
    selectors ← match splittedQuery with
      | _ :: selectors :: _ => parse_selectors (Utils.split selectors SELECTORS_SEPARATOR)
      | _ => Ret []
      end;
    Ret {| _channelPath := channelPath; _selectors := selectors |}.

(** [std::string::pop_back], undefined on an empty string. *)
Definition pop_back (s : bytes) : outcome bytes :=
  match s with [] => Throw UndefinedBehaviour | _ => Ret (removelast s) end.

Definition toSubscriptionQueryString (q : t) : outcome bytes :=
  result ← pop_back (concat ((fun p => p ++ [QUERY_PATH_SEPARATOR]) <$> _channelPath q));
  pop_back (result ++ [QUERY_MAIN_SEPARATOR]
    ++ concat ((fun s => selectorKey s ++ [SELECTOR_SEPARATOR] ++ selectorValue s ++ [SELECTORS_SEPARATOR])
               <$> _selectors q)).

Definition selectorsPushBack (selector : QuerySelector) (q : t) : t :=
  {| _channelPath := _channelPath q; _selectors := _selectors q ++ [selector] |}.

#[export] Instance selector_eq_dec : EqDecision QuerySelector.
Proof. solve_decision. Defined.
#[export] Instance query_eq_dec : EqDecision t.
Proof. solve_decision. Defined.

(** ** Printing and parsing *)

(** A list of tokens that survives joining and splitting. *)
Record tokens (d : byte) (l : list bytes) : Prop := {
  tokens_free : Forall (fun t => d ∉ t) l;
  tokens_last : forall t, last l = Some t -> t <> [];
}.

(** The character separates nothing inside the tokens. *)
Definition free (ds : list byte) (t : bytes) : Prop := forall c, c ∈ t -> c ∉ ds.

Definition selector_separators : list byte :=
  [SELECTOR_SEPARATOR; SELECTORS_SEPARATOR; QUERY_MAIN_SEPARATOR].
Definition path_separators : list byte := [QUERY_PATH_SEPARATOR; QUERY_MAIN_SEPARATOR].

Definition selector_text (s : QuerySelector) : bytes :=
  selectorKey s ++ SELECTOR_SEPARATOR :: selectorValue s.

Record well_formed (q : t) : Prop := {
  wf_path : _channelPath q <> [];
  wf_path_free : Forall (free path_separators) (_channelPath q);
  wf_path_last : last (_channelPath q) <> Some [];
  wf_selectors : Forall (fun s => free selector_separators (selectorKey s)
    /\ free selector_separators (selectorValue s) /\ selectorValue s <> []) (_selectors q);
}.

Lemma removelast_join d l : l <> [] -> removelast (concat ((fun p => p ++ [d]) <$> l)) = Utils.join d l.
Proof.
  induction l as [|t l IH]; [done|]. intros _. destruct l as [|t' l].
  - cbn. rewrite app_nil_r. apply removelast_last.
  - rewrite fmap_cons. cbn [concat Utils.join]. rewrite removelast_app; [|by destruct t'].
    rewrite IH by done. by rewrite <- app_assoc.
Qed.

Lemma pop_back_ret s : s <> [] -> pop_back s = Ret (removelast s).
Proof. by destruct s. Qed.

(** What printing yields, token by token. *)
Lemma print_joined q : _channelPath q <> [] ->
  toSubscriptionQueryString q = Ret (Utils.join QUERY_PATH_SEPARATOR (_channelPath q)
    ++ match _selectors q with
       | [] => []
       | _ => QUERY_MAIN_SEPARATOR :: Utils.join SELECTORS_SEPARATOR (selector_text <$> _selectors q)
       end).
Proof.
  intros Hp. unfold toSubscriptionQueryString. rewrite pop_back_ret; cycle 1.
  { destruct (_channelPath q) as [|[|]]; done. }
  unfold_st. rewrite removelast_join by done. rewrite pop_back_ret; cycle 1.
  { by destruct (Utils.join _ _). }
  f_equal. rewrite removelast_app by done. f_equal. destruct (_selectors q) as [|s l]; [done|].
  rewrite removelast_app; [|by destruct s as [[] ?]]. cbn [app]. f_equal.
  rewrite <- removelast_join by done. f_equal. rewrite <- list_fmap_compose. f_equal.
  apply list_fmap_ext. intros i x _. cbn. unfold selector_text. by rewrite <- app_assoc.
Qed.

Lemma free_sep ds t d : free ds t -> d ∈ ds -> d ∉ t.
Proof. intros H Hd Ht. by apply (H d). Qed.

Lemma forall_free ds l d : Forall (free ds) l -> d ∈ ds -> Forall (fun t => d ∉ t) l.
Proof. intros H Hd. eapply Forall_impl; [exact H|]. intros t Ht. by apply (free_sep ds). Qed.

Lemma join_free d ds l c : Forall (free ds) l -> c ∈ ds -> c <> d -> c ∉ Utils.join d l.
Proof.
  intros Hf Hc Hne Hin. apply Utils.join_elem in Hin as [->|(t & Ht & Hct)]; [done|].
  rewrite Forall_forall in Hf. by apply (Hf t Ht c).
Qed.

(** A selector whose parts hold no separator. *)
Definition selector_free (s : QuerySelector) : Prop :=
  free selector_separators (selectorKey s) /\ free selector_separators (selectorValue s).

Lemma selector_text_free s d : selector_free s -> d ∈ [SELECTORS_SEPARATOR; QUERY_MAIN_SEPARATOR] ->
  d ∉ selector_text s.
Proof.
  intros [Hk Hv] Hd [H|[->|H]%elem_of_cons]%elem_of_app.
  - apply (Hk d H). by apply elem_of_cons; right.
  - by rewrite !elem_of_cons in Hd; destruct Hd as [|[|?%not_elem_of_nil]].
  - apply (Hv d H). by apply elem_of_cons; right.
Qed.

Lemma selectors_free_text l d : Forall selector_free l -> d ∈ [SELECTORS_SEPARATOR; QUERY_MAIN_SEPARATOR] ->
  Forall (fun t => d ∉ t) (selector_text <$> l).
Proof.
  intros Hf Hd. apply Forall_fmap. eapply Forall_impl; [exact Hf|]. intros s Hs. by apply selector_text_free.
Qed.

Lemma parse_selector_text s : selector_free s ->
  parse_selector (selector_text s) =
  if decide (selectorValue s = []) then Throw InvalidSubscriptionQueryException else Ret s.
Proof.
  intros [Hk Hv]. unfold parse_selector, selector_text.
  assert (SELECTOR_SEPARATOR ∉ selectorKey s) as Hk' by (apply (free_sep _ _ _ Hk); left).
  assert (SELECTOR_SEPARATOR ∉ selectorValue s) as Hv' by (apply (free_sep _ _ _ Hv); left).
  case_decide as Hd.
  - rewrite Hd. unfold Utils.split. by rewrite Utils.split_go_sep by done.
  - rewrite Utils.split_pair by done. by destruct s.
Qed.

Lemma parse_selectors_texts l : Forall selector_free l ->
  parse_selectors (selector_text <$> l) =
  if decide (Forall (fun s => selectorValue s <> []) l) then Ret l
  else Throw InvalidSubscriptionQueryException.
Proof.
  intros Hf. induction Hf as [|s l Hs Hf IH]; [by rewrite decide_True|].
  rewrite fmap_cons. cbn [parse_selectors]. rewrite parse_selector_text, IH by done. unfold_st.
  destruct (decide (Forall _ (s :: l))) as [[H1 H2]%Forall_cons|H].
  - by rewrite decide_False, decide_True.
  - destruct (decide (selectorValue s = [])); [done|]. destruct (decide (Forall _ l)); [|done].
    destruct H. by constructor.
Qed.

Lemma selector_text_ne s : selector_text s <> [].
Proof. unfold selector_text. by destruct (selectorKey s). Qed.

Lemma joined_texts_ne s l : Utils.join SELECTORS_SEPARATOR (selector_text <$> s :: l) <> [].
Proof.
  rewrite fmap_cons. intros [H|H]%Utils.join_empty; [done|]. injection H as H _.
  by apply selector_text_ne in H.
Qed.

(** Parsing a printed query gives the query back exactly when it is well
    formed. *)
Lemma parse_printed q s : _channelPath q <> [] -> Forall (free path_separators) (_channelPath q) ->
  Forall selector_free (_selectors q) -> toSubscriptionQueryString q = Ret s ->
  last (_channelPath q) <> Some [] ->
  parse s = if decide (Forall (fun x => selectorValue x <> []) (_selectors q)) then Ret q
            else Throw InvalidSubscriptionQueryException.
Proof.
  intros Hne Hp Hs Hprint Hlast. rewrite print_joined in Hprint by done. injection Hprint as <-.
  assert (Utils.split (Utils.join QUERY_PATH_SEPARATOR (_channelPath q)) QUERY_PATH_SEPARATOR
    = _channelPath q) as Hsplit.
  { apply Utils.split_join; [apply (forall_free _ _ _ Hp); left|]. by intros t Ht ->. }
  assert (QUERY_MAIN_SEPARATOR ∉ Utils.join QUERY_PATH_SEPARATOR (_channelPath q)) as Hmain.
  { apply (join_free _ path_separators); [done|by right; left|done]. }
  remember (Utils.join SELECTORS_SEPARATOR (selector_text <$> _selectors q)) as text eqn:Et.
  unfold parse. destruct (_selectors q) as [|x l] eqn:El.
  - rewrite app_nil_r, Utils.split_token; [|done|].
    + rewrite bool_decide_eq_false_2 by (cbn; unfold QUERY_MAIN_MAX_SIZE; lia). cbn.
      rewrite Hsplit. destruct q; cbn in *. by subst.
    + intros [|H]%Utils.join_empty; [done|]. by rewrite H in Hlast.
  - assert (QUERY_MAIN_SEPARATOR ∉ text) as Hsel.
    { subst text. intros [Hx|(t & Ht & Hc)]%Utils.join_elem; [done|].
      assert (Forall (fun t => QUERY_MAIN_SEPARATOR ∉ t) (selector_text <$> x :: l)) as Hf
        by (apply selectors_free_text; [done|right; left]).
      rewrite Forall_forall in Hf. by apply (Hf t). }
    rewrite Utils.split_pair by (done || (subst text; apply joined_texts_ne)).
    rewrite bool_decide_eq_false_2 by (cbn; unfold QUERY_MAIN_MAX_SIZE; lia).
    rewrite Hsplit. subst text. rewrite Utils.split_join.
    + rewrite parse_selectors_texts by done. case_decide; unfold_st; [|done]. destruct q; cbn in *. by subst.
    + apply selectors_free_text; [done|]. left.
    + intros t Ht. apply last_Some_elem_of in Ht. apply list_elem_of_fmap in Ht as (y & -> & _).
      apply selector_text_ne.
Qed.

(** What parsing yields, token by token. *)
Lemma parse_inv s q : parse s = Ret q -> exists p l,
  Utils.split p QUERY_PATH_SEPARATOR = _channelPath q
  /\ (forall c, c ∈ p -> c ∈ s /\ c <> QUERY_MAIN_SEPARATOR)
  /\ parse_selectors l = Ret (_selectors q)
  /\ Forall (fun t => forall c, c ∈ t -> c <> SELECTORS_SEPARATOR /\ c <> QUERY_MAIN_SEPARATOR) l.
Proof.
  unfold parse. case_bool_decide as Hlen; [done|].
  pose proof (Utils.split_no_sep QUERY_MAIN_SEPARATOR s) as Hno.
  assert (forall t c, t ∈ Utils.split s QUERY_MAIN_SEPARATOR -> c ∈ t -> c ∈ s /\ c <> QUERY_MAIN_SEPARATOR) as Hsub.
  { intros t c Ht Hc. split; [by eapply Utils.split_sub|]. intros ->. rewrite Forall_forall in Hno. by apply (Hno t). }
  destruct (Utils.split s QUERY_MAIN_SEPARATOR) as [|p [|sel l]]; unfold_st.
  - intros [= <-]. exists [], []. split; [done|]. split; [by intros c ?%not_elem_of_nil|]. by split.
  - intros [= <-]. exists p, []. split; [done|]. split; [|by split]. intros c. by apply (Hsub p); left.
  - destruct (parse_selectors _) as [xs|] eqn:E; [|done]. intros [= <-].
    exists p, (Utils.split sel SELECTORS_SEPARATOR).
    split; [done|]. split; [intros c; by apply (Hsub p); left|]. split; [done|].
    apply Forall_forall. intros t Ht c Hc. split.
    + intros ->. pose proof (Utils.split_no_sep SELECTORS_SEPARATOR sel) as Hn. rewrite Forall_forall in Hn.
      by apply (Hn t).
    + eapply (Hsub sel); [right; left|]. by eapply Utils.split_sub.
Qed.

Lemma parse_selectors_free l xs : parse_selectors l = Ret xs ->
  Forall (fun t => forall c, c ∈ t -> c <> SELECTORS_SEPARATOR /\ c <> QUERY_MAIN_SEPARATOR) l ->
  Forall selector_free xs.
Proof.
  revert xs. induction l as [|t l IH]; intros xs; cbn [parse_selectors].
  { intros [= <-] _. constructor. }
  unfold_st. destruct (parse_selector t) as [x|] eqn:Ex; [|done].
  destruct (parse_selectors l) as [ys|]; [|done]. intros [= <-] [Ht Hl]%Forall_cons.
  constructor; [|by apply IH].
  revert Ex. unfold parse_selector.
  destruct (Utils.split t SELECTOR_SEPARATOR) as [|k [|v [|]]] eqn:Et; try done. intros [= <-].
  assert (forall u, u ∈ [k; v] -> free selector_separators u) as Hu.
  { intros u Hu c Hc. rewrite <- Et in Hu.
    destruct (Ht c) as [H1 H2]; [by eapply Utils.split_sub|].
    pose proof (Utils.split_no_sep SELECTOR_SEPARATOR t) as Hn. rewrite Forall_forall in Hn.
    unfold selector_separators. rewrite !elem_of_cons. intros [->|[->|[->|?%not_elem_of_nil]]]; try done.
    by apply (Hn u). }
  split; apply Hu; [left|right; left].
Qed.

Lemma parse_free s q : parse s = Ret q ->
  Forall (free path_separators) (_channelPath q) /\ Forall selector_free (_selectors q).
Proof.
  intros (p & l & Hp & Hc & Hl & Hf)%parse_inv. split; [|by eapply parse_selectors_free].
  rewrite <- Hp. apply Forall_forall. intros t Ht c Hct.
  pose proof (Utils.split_no_sep QUERY_PATH_SEPARATOR p) as Hn. rewrite Forall_forall in Hn.
  destruct (Hc c) as [_ Hmain]; [by eapply Utils.split_sub|].
  unfold path_separators. rewrite !elem_of_cons. intros [->|[->|?%not_elem_of_nil]]; [by apply (Hn t)|done|done].
Qed.

(** The path that parsing reads off a printed query. *)
Lemma parse_printed_path q s q' : _channelPath q <> [] -> Forall (free path_separators) (_channelPath q) ->
  toSubscriptionQueryString q = Ret s -> parse s = Ret q' ->
  _channelPath q' = Utils.split (Utils.join QUERY_PATH_SEPARATOR (_channelPath q)) QUERY_PATH_SEPARATOR.
Proof.
  intros Hne Hp Hprint. rewrite print_joined in Hprint by done. injection Hprint as <-.
  set (P := Utils.join QUERY_PATH_SEPARATOR (_channelPath q)).
  assert (QUERY_MAIN_SEPARATOR ∉ P) as Hmain.
  { apply (join_free _ path_separators); [done|by right; left|done]. }
  unfold parse. case_bool_decide; [done|]. destruct (_selectors q) as [|x l].
  - rewrite app_nil_r. destruct (decide (P = [])) as [->|HP]; [by intros [= <-]|].
    rewrite Utils.split_token by done. by intros [= <-].
  - unfold Utils.split at 1 2. rewrite Utils.split_go_sep by done. cbn [app].
    unfold_st. destruct (match _ with [] => _ | _ => _ end); [|done]. by intros [= <-].
Qed.

(** printing a query and parsing the text gives the query back exactly
    for the well-formed ones: a channel path whose names hold no separator
    and whose last name is not empty, and selectors with non-empty values
    and no separators. *)
Theorem query_roundtrip q :
  (exists s, toSubscriptionQueryString q = Ret s /\ parse s = Ret q) <-> well_formed q.
Proof.
  split.
  - intros (s & Hs & Hq). destruct (parse_free s q Hq) as [Hp Hf].
    assert (_channelPath q <> []) as Hne by (intros Hne; unfold toSubscriptionQueryString in Hs; by rewrite Hne in Hs).
    assert (last (_channelPath q) <> Some []) as Hlast.
    { intros [l Hl]%last_Some. pose proof (parse_printed_path q s q Hne Hp Hs Hq) as Hsplit.
      rewrite Hl in Hsplit at 2. rewrite Utils.split_join_empty in Hsplit.
      - rewrite Hl in Hsplit. apply (f_equal length) in Hsplit. rewrite length_app in Hsplit. cbn in Hsplit. lia.
      - rewrite Hl in Hp. apply Forall_app in Hp as [Hp _]. apply (forall_free _ _ _ Hp). left. }
    rewrite (parse_printed q s) in Hq by done. case_decide as Hv; [|done].
    split; [done..|]. rewrite Forall_forall in Hf, Hv |- *. intros x Hx.
    by destruct (Hf x Hx); auto.
  - intros [Hne Hp Hlast Hsel]. eexists. split; [by apply print_joined|].
    erewrite parse_printed; [|done|done| |by apply print_joined|done].
    + rewrite decide_True; [done|]. eapply Forall_impl; [exact Hsel|]. by intros x (_ & _ & ?).
    + eapply Forall_impl; [exact Hsel|]. intros x (? & ? & _). by split.
Qed.
End SubscriptionQueryObj.

(** [server::Subscription] *)
Record Subscription := mkSubscription { subscriptionId : bytes; channel : bytes }.

#[export] Instance Subscription_eq_dec : EqDecision Subscription.
Proof. solve_decision. Defined.

(** What [Subscriber] calls: the gateway's two requests, and the virtual
    functions of a module's subscriber. *)
Class SubscriberModule (W : Type) := {
  transform : list SubscriptionQueryObj.t -> ST W (list bytes);
  assertQuery : list SubscriptionQueryObj.t -> outcome unit;
  subscribeToChannels : list bytes -> ST W (list Subscription);
  unsubscribeFromChannels : list bytes -> ST W unit;
}.

Module Subscriber.
Record t (W : Type) := mk {
  _world : W;
  _subscriptionIdToSubscriptionQuery : gmap bytes bytes;
}.
Arguments mk {W} _world _subscriptionIdToSubscriptionQuery.
Arguments _world {W} t.
Arguments _subscriptionIdToSubscriptionQuery {W} t.

(** The first entry of the response for the channel, taken out of it. *)
Fixpoint take_subscription (ch : bytes) (subscriptions : list Subscription) :
    option (bytes * list Subscription) :=
  match subscriptions with
  | [] => None
  | s :: l =>
      if bool_decide (ch = channel s) then Some (subscriptionId s, l)
      else match take_subscription ch l with Some (id, l) => Some (id, s :: l) | None => None end
  end.

(** The loop of [subscribeFor] over the channels asked for. *)
Fixpoint register (channels : list bytes) (subscriptions : list Subscription) (table : gmap bytes bytes) :
    list bytes * gmap bytes bytes :=
  match channels with
  | [] => ([], table)
  | ch :: channels =>
      match take_subscription ch subscriptions with
      | Some (id, subscriptions) =>
          let '(result, table) := register channels subscriptions (<[ id := ch ]> table) in
          (id :: result, table)
      | None => let '(result, table) := register channels subscriptions table in ([] :: result, table)
      end
  end.

Fixpoint parse_all (l : list bytes) : outcome (list SubscriptionQueryObj.t) :=
  match l with
  | [] => Ret []
  | s :: l => q ← SubscriptionQueryObj.parse s; qs ← parse_all l; Ret (q :: qs)
  end.

Section Operations.
Context {W : Type} `{!SubscriberModule W}.

Definition on_world {A} (m : ST W A) : ST (t W) A :=
  zoom _world (fun w s => mk w (_subscriptionIdToSubscriptionQuery s)) m.

Definition set_table (table : gmap bytes bytes) (s : t W) : t W := mk (_world s) table.

(** The channels to ask for. *)
Definition requested (subscriptionQueries : list bytes) (force : bool) : ST W (list bytes) :=
  parsed ← lift (parse_all subscriptionQueries);
  if force then mret subscriptionQueries
  else _ ← lift (assertQuery parsed); transform parsed.

Definition subscribeFor (subscriptionQueries : list bytes) (force : bool) : ST (t W) (list bytes) :=
  channels ← on_world (requested subscriptionQueries force);
  subscriptions ← on_world (subscribeToChannels channels);
  table ← gets _subscriptionIdToSubscriptionQuery;
  let '(result, table) := register channels subscriptions table in
  _ ← modify (set_table table);
  mret result.

Definition erase_all (subscriptionIds : list bytes) (table : gmap bytes bytes) : gmap bytes bytes :=
  fold_left (fun table id => delete id table) subscriptionIds table.

Definition unsubscribeFrom (subscriptionIds : list bytes) : ST (t W) unit :=
  _ ← on_world (unsubscribeFromChannels subscriptionIds);
  modify (fun s => set_table (erase_all subscriptionIds (_subscriptionIdToSubscriptionQuery s)) s).

Definition unsubscribeFromCurrentlySubscribed : ST (t W) unit :=
  table ← gets _subscriptionIdToSubscriptionQuery;
  let subscriptionIds := keys table in
  if bool_decide (0 < length subscriptionIds)%nat then unsubscribeFrom subscriptionIds else mret tt.

Definition getSubscriptionQuery (subscriptionId : bytes) (s : t W) : option bytes :=
  _subscriptionIdToSubscriptionQuery s !! subscriptionId.

(** The overload for the ids of a notification. *)
Fixpoint getSubscriptionQueryOfAny (subscriptionIds : list bytes) (s : t W) : option bytes :=
  match subscriptionIds with
  | [] => None
  | id :: l => match getSubscriptionQuery id s with Some q => Some q | None => getSubscriptionQueryOfAny l s end
  end.

(** ** Laws *)

Lemma take_subscription_perm ch l id l' : take_subscription ch l = Some (id, l') ->
  l ≡ₚ (mkSubscription id ch :: l').
Proof.
  revert id l'. induction l as [|s l IH]; intros id l'; cbn; [done|]. case_bool_decide as Hc.
  - intros [= <- <-]. subst ch. by destruct s.
  - destruct (take_subscription ch l) as [[j m]|]; [|done]. intros [= -> <-].
    rewrite (IH id m eq_refl) at 1. constructor.
Qed.

Lemma take_subscription_none ch l : take_subscription ch l = None -> ch ∉ channel <$> l.
Proof.
  induction l as [|s l IH]; cbn; [by intros _ ?%not_elem_of_nil|]. case_bool_decide as Hc; [done|].
  destruct (take_subscription ch l) as [[]|]; [done|]. intros _ [?|?]%elem_of_cons; [done|by apply IH].
Qed.

Lemma take_subscription_ids ch l id l' : take_subscription ch l = Some (id, l') ->
  NoDup (subscriptionId <$> l) -> id ∉ subscriptionId <$> l' /\ NoDup (subscriptionId <$> l').
Proof. intros ->%take_subscription_perm. rewrite fmap_cons. by intros ?%NoDup_cons. Qed.

(** Ids the response does not hold keep their entry. *)
Lemma register_other channels subscriptions table result table' id :
  register channels subscriptions table = (result, table') ->
  id ∉ subscriptionId <$> subscriptions -> table' !! id = table !! id.
Proof.
  revert subscriptions table result. induction channels as [|ch channels IH]; intros subs table result; cbn.
  { by intros [= _ <-]. }
  destruct (take_subscription ch subs) as [[j l]|] eqn:Et.
  - destruct (register channels l _) as [r t'] eqn:Er. intros [= _ <-] Hid.
    rewrite (take_subscription_perm _ _ _ _ Et), fmap_cons in Hid.
    apply not_elem_of_cons in Hid as [Hne Hid]. rewrite (IH _ _ _ Er Hid).
    by rewrite lookup_insert_ne.
  - destruct (register channels subs _) as [r t'] eqn:Er. intros [= _ <-] Hid. by apply (IH _ _ _ Er).
Qed.

(** An id handed out is the response's, for the channel at its place, and the
    table holds it. *)
Lemma register_granted channels subscriptions table result table' i id ch :
  register channels subscriptions table = (result, table') -> NoDup (subscriptionId <$> subscriptions) ->
  result !! i = Some id -> channels !! i = Some ch ->
  id = [] \/ mkSubscription id ch ∈ subscriptions /\ table' !! id = Some ch.
Proof.
  revert subscriptions table result i. induction channels as [|c channels IH]; intros subs table result i; cbn.
  { by rewrite lookup_nil. }
  destruct (take_subscription c subs) as [[j l]|] eqn:Et.
  - destruct (register channels l _) as [r t'] eqn:Er. intros [= <- <-] Hnd.
    destruct (take_subscription_ids _ _ _ _ Et Hnd) as [Hj Hl].
    pose proof (take_subscription_perm _ _ _ _ Et) as Hp.
    destruct i as [|i]; cbn; intros Hi Hc.
    + injection Hi as ->. injection Hc as ->. right. split; [rewrite Hp; left|].
      rewrite (register_other _ _ _ _ _ _ Er Hj). apply lookup_insert_eq.
    + destruct (IH _ _ _ _ Er Hl Hi Hc) as [|[Hin Ht]]; [by left|right].
      split; [rewrite Hp; by right|done].
  - destruct (register channels subs _) as [r t'] eqn:Er. intros [= <- <-] Hnd.
    destruct i as [|i]; cbn; [by intros [= <-]; left|]. by apply (IH _ _ _ i Er).
Qed.

Lemma register_length channels subscriptions table :
  length (register channels subscriptions table).1 = length channels.
Proof.
  revert subscriptions table. induction channels as [|c channels IH]; intros subs table; [done|]. cbn.
  destruct (take_subscription c subs) as [[j l]|].
  - specialize (IH l (<[ j := c ]> table)). destruct (register channels l _). cbn in *. lia.
  - specialize (IH subs table). destruct (register channels subs _). cbn in *. lia.
Qed.

(** A response that grants every channel asked for is handed out whole. *)
Lemma register_all channels subscriptions table :
  channel <$> subscriptions ≡ₚ channels ->
  zip_with mkSubscription (register channels subscriptions table).1 channels ≡ₚ subscriptions.
Proof.
  revert subscriptions table. induction channels as [|c channels IH]; intros subs table Hp.
  { by apply Permutation_nil_r, fmap_nil_inv in Hp as ->. }
  cbn. destruct (take_subscription c subs) as [[j l]|] eqn:Et.
  - pose proof (take_subscription_perm _ _ _ _ Et) as Hl. rewrite Hl in Hp. rewrite fmap_cons in Hp.
    apply Permutation_cons_inv in Hp. specialize (IH l (<[ j := c ]> table) Hp).
    destruct (register channels l _) as [r t']. cbn in *. by rewrite IH, Hl.
  - apply take_subscription_none in Et. destruct Et. rewrite Hp. left.
Qed.

Lemma erase_all_lookup ids table id : erase_all ids table !! id =
  if decide (id ∈ ids) then None else table !! id.
Proof.
  unfold erase_all. revert table. induction ids as [|j ids IH]; intros table; [done|]. cbn [fold_left].
  rewrite IH. destruct (decide (id ∈ ids)) as [Hin|Hin]; [by rewrite decide_True by (by right)|].
  destruct (decide (id = j)) as [->|Hne]; [by rewrite lookup_delete_eq, decide_True by left|].
  rewrite lookup_delete_ne by done. rewrite decide_False; [done|]. by intros [?|?]%elem_of_cons.
Qed.

(** a subscription hands out one id per channel, each the server's for
    that channel (or empty when the server granted none); the table then maps
    the ids to their channels and is otherwise unchanged. *)
Theorem subscribeFor_registers queries force s ids s' :
  subscribeFor queries force s = (Ret ids, s') -> exists channels subs w,
    requested queries force (_world s) = (Ret channels, w)
    /\ subscribeToChannels channels w = (Ret subs, _world s')
    /\ length ids = length channels
    /\ (NoDup (subscriptionId <$> subs) ->
         (forall i id ch, ids !! i = Some id -> channels !! i = Some ch ->
            id = [] \/ mkSubscription id ch ∈ subs /\ getSubscriptionQuery id s' = Some ch)
         /\ (channel <$> subs ≡ₚ channels -> zip_with mkSubscription ids channels ≡ₚ subs)
         /\ (forall id, id ∉ subscriptionId <$> subs -> getSubscriptionQuery id s' = getSubscriptionQuery id s)).
Proof.
  unfold subscribeFor, on_world. unfold_st. destruct (requested queries force (_world s)) as [[channels|] w] eqn:Er; [|done].
  cbn. destruct (subscribeToChannels channels w) as [[subs|] w'] eqn:Es; [|done]. cbn.
  destruct (register channels subs _) as [r t'] eqn:Eg. intros [= <- <-].
  exists channels, subs, w. split; [done|]. split; [done|].
  split; [by rewrite <- (register_length channels subs (_subscriptionIdToSubscriptionQuery s)), Eg|].
  intros Hnd. split; [|split].
  - intros i id ch. by apply (register_granted _ _ _ _ _ i id ch Eg).
  - intros Hp. apply (register_all _ _ (_subscriptionIdToSubscriptionQuery s)) in Hp. by rewrite Eg in Hp.
  - intros id. by apply (register_other _ _ _ _ _ id Eg).
Qed.

(** unsubscribing forgets exactly the given ids once the server has
    agreed, and none when the request fails. *)
Theorem unsubscribeFrom_forgets ids s r s' : unsubscribeFrom ids s = (r, s') ->
  unsubscribeFromChannels ids (_world s) = (r, _world s')
  /\ forall id, getSubscriptionQuery id s' =
       match r with
       | Ret _ => if decide (id ∈ ids) then None else getSubscriptionQuery id s
       | Throw _ => getSubscriptionQuery id s
       end.
Proof.
  unfold unsubscribeFrom, on_world. unfold_st.
  destruct (unsubscribeFromChannels ids (_world s)) as [[[]|e] w] eqn:Eu; intros [= <- <-]; cbn; [|done].
  split; [done|]. intros id. apply erase_all_lookup.
Qed.

(** Unsubscribing from everything leaves an empty table. *)
Lemma unsubscribe_all s s' : unsubscribeFromCurrentlySubscribed s = (Ret tt, s') ->
  forall id, getSubscriptionQuery id s' = None.
Proof.
  unfold unsubscribeFromCurrentlySubscribed. unfold_st. case_bool_decide as Hn.
  - unfold unsubscribeFrom, on_world. unfold_st.
    destruct (unsubscribeFromChannels _ _) as [[[]|] w]; [|done]. intros [= <-] id. cbn.
    unfold getSubscriptionQuery. cbn. rewrite erase_all_lookup. case_decide as Hd; [done|].
    rewrite elem_of_keys in Hd. by apply eq_None_not_Some.
  - intros [= <-] id. unfold getSubscriptionQuery. apply eq_None_not_Some. rewrite <- elem_of_keys.
    destruct (keys _); [apply not_elem_of_nil|cbn in Hn; lia].
Qed.
End Operations.
End Subscriber.
