(* ===== verification/SubscriberImpls.v ===== *)
(** * The modules' subscribers

    [SubscriberImpl] of the core, thread, store, kvdb, inbox, stream and event
    libraries (endpoint/*/src/SubscriberImpl.cpp): the queries each module
    builds, accepts and sends.  The tables of a module are an instance of
    [QueryTables]; what is the same code in every module is written once. *)

From Stdlib Require Import ZArith Lia Strings.String Strings.Byte.
From stdpp Require Import base list gmap.
From S2P Require Import Prelude Bytes Utils StdMap Subscriptions.

Import SubscriptionQueryObj.

(** The static tables of a module's subscriber. *)
Class QueryTables (E S : Type) := {
  module_name : bytes;
  channel_path : E -> list bytes;
  selector_name : S -> bytes;
  allowed_selectors : E -> list S;
  invalid_query : exn;
}.
#[global] Hint Mode QueryTables ! ! : typeclass_instances.

(** [assertQuery] of the modules with two- and three-part channels. *)
Definition assert_query (moduleName : bytes) (invalid : exn) (subscriptionQueries : list t) : outcome unit :=
  fold_left (fun r q => _ ← r;
    if bool_decide (length (_selectors q) <> 1%nat) then Throw invalid
    else if bool_decide (length (_channelPath q) < 2)%nat || bool_decide (3 < length (_channelPath q))%nat
         || bool_decide (_channelPath q !! 0%nat <> Some moduleName) then Throw invalid
    else Ret tt) subscriptionQueries (Ret tt).

(** The loop that prints the queries. *)
Fixpoint print_all (l : list t) : outcome (list bytes) :=
  match l with
  | [] => Ret []
  | q :: l => s ← toSubscriptionQueryString q; ss ← print_all l; Ret (s :: ss)
  end.

(** [transform] of the modules that filter by container type. *)
Definition transform_typed (typeFilterFlag : bytes) (subscriptionQueries : list t) : outcome (list bytes) :=
  print_all (selectorsPushBack {| selectorKey := lit "containerType"; selectorValue := typeFilterFlag |}
             <$> subscriptionQueries).

(** [getSelectors], once the selector's name is looked up. *)
Definition get_selectors (selectorKey selectorId : bytes) : list QuerySelector :=
  [{| SubscriptionQueryObj.selectorKey := selectorKey; selectorValue := selectorId |}].

Section Tables.
Context {E S : Type} `{!QueryTables E S} `{!EqDecision S}.

Definition build_query (eventType : E) (selectorType : S) (selectors : outcome (list QuerySelector)) :
    outcome bytes :=
  if bool_decide (selectorType ∈ allowed_selectors eventType) then
    selectors ← selectors;
    toSubscriptionQueryString {| _channelPath := channel_path (S := S) eventType; _selectors := selectors |}
  else Throw InvalidParamsException.
End Tables.

Module ContextSubscriber.

Inductive EventType : Set :=
| USER_ADD
| USER_REMOVE
| USER_STATUS.

Inductive EventSelectorType : Set :=
| CONTEXT_ID.

#[global] Instance selector_type_eq_dec : EqDecision EventSelectorType.
Proof. solve_decision. Defined.

Definition _moduleName : bytes := lit "context".

Definition _selectorTypeNames (selectorType : EventSelectorType) : bytes :=
  match selectorType with
  | CONTEXT_ID => lit "contextId"
  end.

Definition _eventTypeNames (eventType : EventType) : bytes :=
  match eventType with
  | USER_ADD => lit "userAdded"
  | USER_REMOVE => lit "userRemoved"
  | USER_STATUS => lit "userStatus"
  end.

Definition _eventTypeAllowedSelectorTypes (eventType : EventType) : list EventSelectorType :=
  match eventType with
  | USER_ADD => [CONTEXT_ID]
  | USER_REMOVE => [CONTEXT_ID]
  | USER_STATUS => [CONTEXT_ID]
  end.

Definition getChannelPath (eventType : EventType) : list bytes :=
  match eventType with
  | USER_ADD | USER_REMOVE | USER_STATUS =>
      [_moduleName; _eventTypeNames eventType]
  end.

#[global] Instance tables : QueryTables EventType EventSelectorType := {|
  module_name := _moduleName; channel_path := getChannelPath; selector_name := _selectorTypeNames;
  allowed_selectors := _eventTypeAllowedSelectorTypes; invalid_query := InvalidSubscriptionQueryException |}.

Definition getSelectors (selectorType : EventSelectorType) (selectorId : bytes) : list QuerySelector :=
  get_selectors (_selectorTypeNames selectorType) selectorId.

Definition buildQuery (eventType : EventType) (selectorType : EventSelectorType) (selectorId : bytes) :
    outcome bytes := build_query eventType selectorType (Ret (getSelectors selectorType selectorId)).

Definition transform (subscriptionQueries : list t) : outcome (list bytes) := print_all subscriptionQueries.

Definition assertQuery (subscriptionQueries : list t) : outcome unit :=
  assert_query _moduleName InvalidSubscriptionQueryException subscriptionQueries.
End ContextSubscriber.

Module ThreadSubscriber.

Inductive EventType : Set :=
| THREAD_CREATE
| THREAD_UPDATE
| THREAD_DELETE
| THREAD_STATS
| MESSAGE_CREATE
| MESSAGE_UPDATE
| MESSAGE_DELETE
| COLLECTION_CHANGE.

Inductive EventSelectorType : Set :=
| CONTEXT_ID
| THREAD_ID
| MESSAGE_ID.

#[global] Instance selector_type_eq_dec : EqDecision EventSelectorType.
Proof. solve_decision. Defined.

Definition _moduleName : bytes := lit "thread".

Definition _itemName : bytes := lit "messages".

Definition _selectorTypeNames (selectorType : EventSelectorType) : bytes :=
  match selectorType with
  | CONTEXT_ID => lit "contextId"
  | THREAD_ID => lit "containerId"
  | MESSAGE_ID => lit "itemId"
  end.

Definition _eventTypeNames (eventType : EventType) : bytes :=
  match eventType with
  | THREAD_CREATE => lit "create"
  | THREAD_UPDATE => lit "update"
  | THREAD_DELETE => lit "delete"
  | THREAD_STATS => lit "stats"
  | MESSAGE_CREATE => lit "create"
  | MESSAGE_UPDATE => lit "update"
  | MESSAGE_DELETE => lit "delete"
  | COLLECTION_CHANGE => lit "collectionChanged"
  end.

Definition _eventTypeAllowedSelectorTypes (eventType : EventType) : list EventSelectorType :=
  match eventType with
  | THREAD_CREATE => [CONTEXT_ID]
  | THREAD_UPDATE => [CONTEXT_ID; THREAD_ID]
  | THREAD_DELETE => [CONTEXT_ID; THREAD_ID]
  | THREAD_STATS => [CONTEXT_ID; THREAD_ID]
  | MESSAGE_CREATE => [CONTEXT_ID; THREAD_ID]
  | MESSAGE_UPDATE => [CONTEXT_ID; THREAD_ID; MESSAGE_ID]
  | MESSAGE_DELETE => [CONTEXT_ID; THREAD_ID; MESSAGE_ID]
  | COLLECTION_CHANGE => [CONTEXT_ID; THREAD_ID]
  end.

Definition getChannelPath (eventType : EventType) : list bytes :=
  match eventType with
  | THREAD_CREATE | THREAD_UPDATE | THREAD_DELETE | THREAD_STATS | COLLECTION_CHANGE =>
      [_moduleName; _eventTypeNames eventType]
  | MESSAGE_CREATE | MESSAGE_UPDATE | MESSAGE_DELETE =>
      [_moduleName; _itemName; _eventTypeNames eventType]
  end.

#[global] Instance tables : QueryTables EventType EventSelectorType := {|
  module_name := _moduleName; channel_path := getChannelPath; selector_name := _selectorTypeNames;
  allowed_selectors := _eventTypeAllowedSelectorTypes; invalid_query := ThreadInvalidSubscriptionQueryException |}.

Definition getSelectors (selectorType : EventSelectorType) (selectorId : bytes) : list QuerySelector :=
  get_selectors (_selectorTypeNames selectorType) selectorId.

Definition buildQuery (eventType : EventType) (selectorType : EventSelectorType) (selectorId : bytes) :
    outcome bytes := build_query eventType selectorType (Ret (getSelectors selectorType selectorId)).

Definition transform (_typeFilterFlag : bytes) (subscriptionQueries : list t) : outcome (list bytes) :=
  transform_typed _typeFilterFlag subscriptionQueries.

Definition assertQuery (subscriptionQueries : list t) : outcome unit :=
  assert_query _moduleName ThreadInvalidSubscriptionQueryException subscriptionQueries.
End ThreadSubscriber.

Module StoreSubscriber.

Inductive EventType : Set :=
| STORE_CREATE
| STORE_UPDATE
| STORE_DELETE
| STORE_STATS
| FILE_CREATE
| FILE_UPDATE
| FILE_DELETE
| COLLECTION_CHANGE.

Inductive EventSelectorType : Set :=
| CONTEXT_ID
| STORE_ID
| FILE_ID.

#[global] Instance selector_type_eq_dec : EqDecision EventSelectorType.
Proof. solve_decision. Defined.

Definition _moduleName : bytes := lit "store".

Definition _itemName : bytes := lit "files".

Definition _selectorTypeNames (selectorType : EventSelectorType) : bytes :=
  match selectorType with
  | CONTEXT_ID => lit "contextId"
  | STORE_ID => lit "containerId"
  | FILE_ID => lit "itemId"
  end.

Definition _eventTypeNames (eventType : EventType) : bytes :=
  match eventType with
  | STORE_CREATE => lit "create"
  | STORE_UPDATE => lit "update"
  | STORE_DELETE => lit "delete"
  | STORE_STATS => lit "stats"
  | FILE_CREATE => lit "create"
  | FILE_UPDATE => lit "update"
  | FILE_DELETE => lit "delete"
  | COLLECTION_CHANGE => lit "collectionChanged"
  end.

Definition _eventTypeAllowedSelectorTypes (eventType : EventType) : list EventSelectorType :=
  match eventType with
  | STORE_CREATE => [CONTEXT_ID]
  | STORE_UPDATE => [CONTEXT_ID; STORE_ID]
  | STORE_DELETE => [CONTEXT_ID; STORE_ID]
  | STORE_STATS => [CONTEXT_ID; STORE_ID]
  | FILE_CREATE => [CONTEXT_ID; STORE_ID]
  | FILE_UPDATE => [CONTEXT_ID; STORE_ID; FILE_ID]
  | FILE_DELETE => [CONTEXT_ID; STORE_ID; FILE_ID]
  | COLLECTION_CHANGE => [CONTEXT_ID; STORE_ID]
  end.

Definition getChannelPath (eventType : EventType) : list bytes :=
  match eventType with
  | STORE_CREATE | STORE_UPDATE | STORE_DELETE | STORE_STATS | COLLECTION_CHANGE =>
      [_moduleName; _eventTypeNames eventType]
  | FILE_CREATE | FILE_UPDATE | FILE_DELETE =>
      [_moduleName; _itemName; _eventTypeNames eventType]
  end.

#[global] Instance tables : QueryTables EventType EventSelectorType := {|
  module_name := _moduleName; channel_path := getChannelPath; selector_name := _selectorTypeNames;
  allowed_selectors := _eventTypeAllowedSelectorTypes; invalid_query := StoreInvalidSubscriptionQueryException |}.

Definition getSelectors (selectorType : EventSelectorType) (selectorId : bytes) : list QuerySelector :=
  get_selectors (_selectorTypeNames selectorType) selectorId.

Definition buildQuery (eventType : EventType) (selectorType : EventSelectorType) (selectorId : bytes) :
    outcome bytes := build_query eventType selectorType (Ret (getSelectors selectorType selectorId)).

Definition transform (_typeFilterFlag : bytes) (subscriptionQueries : list t) : outcome (list bytes) :=
  transform_typed _typeFilterFlag subscriptionQueries.

Definition assertQuery (subscriptionQueries : list t) : outcome unit :=
  assert_query _moduleName StoreInvalidSubscriptionQueryException subscriptionQueries.
End StoreSubscriber.

Module KvdbSubscriber.

Inductive EventType : Set :=
| KVDB_CREATE
| KVDB_UPDATE
| KVDB_DELETE
| KVDB_STATS
| ENTRY_CREATE
| ENTRY_UPDATE
| ENTRY_DELETE
| COLLECTION_CHANGE.

Inductive EventInternalSelectorType : Set :=
| CONTEXT_ID
| KVDB_ID
| ENTRY_ID.

#[global] Instance selector_type_eq_dec : EqDecision EventInternalSelectorType.
Proof. solve_decision. Defined.

Definition _moduleName : bytes := lit "kvdb".

Definition _itemName : bytes := lit "entries".

Definition _selectorTypeNames (selectorType : EventInternalSelectorType) : bytes :=
  match selectorType with
  | CONTEXT_ID => lit "contextId"
  | KVDB_ID => lit "containerId"
  | ENTRY_ID => lit "itemId"
  end.

Definition _eventTypeNames (eventType : EventType) : bytes :=
  match eventType with
  | KVDB_CREATE => lit "create"
  | KVDB_UPDATE => lit "update"
  | KVDB_DELETE => lit "delete"
  | KVDB_STATS => lit "stats"
  | ENTRY_CREATE => lit "create"
  | ENTRY_UPDATE => lit "update"
  | ENTRY_DELETE => lit "delete"
  | COLLECTION_CHANGE => lit "collectionChanged"
  end.

Definition _eventTypeAllowedSelectorTypes (eventType : EventType) : list EventInternalSelectorType :=
  match eventType with
  | KVDB_CREATE => [CONTEXT_ID]
  | KVDB_UPDATE => [CONTEXT_ID; KVDB_ID]
  | KVDB_DELETE => [CONTEXT_ID; KVDB_ID]
  | KVDB_STATS => [CONTEXT_ID; KVDB_ID]
  | ENTRY_CREATE => [CONTEXT_ID; KVDB_ID]
  | ENTRY_UPDATE => [CONTEXT_ID; KVDB_ID; ENTRY_ID]
  | ENTRY_DELETE => [CONTEXT_ID; KVDB_ID; ENTRY_ID]
  | COLLECTION_CHANGE => [CONTEXT_ID; KVDB_ID]
  end.

Definition getChannelPath (eventType : EventType) : list bytes :=
  match eventType with
  | KVDB_CREATE | KVDB_UPDATE | KVDB_DELETE | KVDB_STATS | COLLECTION_CHANGE =>
      [_moduleName; _eventTypeNames eventType]
  | ENTRY_CREATE | ENTRY_UPDATE | ENTRY_DELETE =>
      [_moduleName; _itemName; _eventTypeNames eventType]
  end.

#[global] Instance tables : QueryTables EventType EventInternalSelectorType := {|
  module_name := _moduleName; channel_path := getChannelPath; selector_name := _selectorTypeNames;
  allowed_selectors := _eventTypeAllowedSelectorTypes; invalid_query := KvdbInvalidSubscriptionQueryException |}.

(** The public selector types; entries are selected by another function. *)
Inductive EventSelectorType : Set :=
| PUBLIC_CONTEXT_ID
| PUBLIC_KVDB_ID.

Definition getSelectors (selectorType : EventInternalSelectorType) (selectorId : bytes)
    (extraSelectorData : option bytes) : outcome (list QuerySelector) :=
  match selectorType, extraSelectorData with
  | ENTRY_ID, Some extra => Ret (get_selectors (_selectorTypeNames selectorType) (extra ++ lit ":" ++ selectorId))
  | ENTRY_ID, None => Throw InvalidParamsException
  | _, _ => Ret (get_selectors (_selectorTypeNames selectorType) selectorId)
  end.

Definition buildQuery (eventType : EventType) (selectorType : EventSelectorType) (selectorId : bytes) :
    outcome bytes :=
  let selectorTypeInternal :=
    match selectorType with PUBLIC_CONTEXT_ID => CONTEXT_ID | PUBLIC_KVDB_ID => KVDB_ID end in
  build_query eventType selectorTypeInternal (getSelectors selectorTypeInternal selectorId None).

Definition buildQueryForSelectedEntry (eventType : EventType) (kvdbId kvdbEntryId : bytes) : outcome bytes :=
  build_query eventType ENTRY_ID (getSelectors ENTRY_ID kvdbEntryId (Some kvdbId)).

Definition transform (_typeFilterFlag : bytes) (subscriptionQueries : list t) : outcome (list bytes) :=
  transform_typed _typeFilterFlag subscriptionQueries.

Definition assertQuery (subscriptionQueries : list t) : outcome unit :=
  assert_query _moduleName KvdbInvalidSubscriptionQueryException subscriptionQueries.
End KvdbSubscriber.

Module InboxSubscriber.

Inductive EventType : Set :=
| INBOX_CREATE
| INBOX_UPDATE
| INBOX_DELETE
| ENTRY_CREATE
| ENTRY_DELETE
| COLLECTION_CHANGE.

Inductive EventSelectorType : Set :=
| CONTEXT_ID
| INBOX_ID
| ENTRY_ID.

#[global] Instance selector_type_eq_dec : EqDecision EventSelectorType.
Proof. solve_decision. Defined.

Definition _moduleName : bytes := lit "inbox".

Definition _itemName : bytes := lit "entries".

Definition _selectorTypeNames (selectorType : EventSelectorType) : bytes :=
  match selectorType with
  | CONTEXT_ID => lit "contextId"
  | INBOX_ID => lit "containerId"
  | ENTRY_ID => lit "itemId"
  end.

Definition _eventTypeNames (eventType : EventType) : bytes :=
  match eventType with
  | INBOX_CREATE => lit "create"
  | INBOX_UPDATE => lit "update"
  | INBOX_DELETE => lit "delete"
  | ENTRY_CREATE => lit "create"
  | ENTRY_DELETE => lit "delete"
  | COLLECTION_CHANGE => lit "collectionChanged"
  end.

Definition _eventTypeAllowedSelectorTypes (eventType : EventType) : list EventSelectorType :=
  match eventType with
  | INBOX_CREATE => [CONTEXT_ID]
  | INBOX_UPDATE => [CONTEXT_ID; INBOX_ID]
  | INBOX_DELETE => [CONTEXT_ID; INBOX_ID]
  | ENTRY_CREATE => [CONTEXT_ID; INBOX_ID]
  | ENTRY_DELETE => [CONTEXT_ID; INBOX_ID; ENTRY_ID]
  | COLLECTION_CHANGE => [CONTEXT_ID; INBOX_ID]
  end.

Definition getChannelPath (eventType : EventType) : list bytes :=
  match eventType with
  | INBOX_CREATE | INBOX_UPDATE | INBOX_DELETE | COLLECTION_CHANGE =>
      [_moduleName; _eventTypeNames eventType]
  | ENTRY_CREATE | ENTRY_DELETE =>
      [_moduleName; _itemName; _eventTypeNames eventType]
  end.

#[global] Instance tables : QueryTables EventType EventSelectorType := {|
  module_name := _moduleName; channel_path := getChannelPath; selector_name := _selectorTypeNames;
  allowed_selectors := _eventTypeAllowedSelectorTypes; invalid_query := InboxInvalidSubscriptionQueryException |}.

Definition getSelectors (selectorType : EventSelectorType) (selectorId : bytes) : list QuerySelector :=
  get_selectors (_selectorTypeNames selectorType) selectorId.

Definition buildQuery (eventType : EventType) (selectorType : EventSelectorType) (selectorId : bytes) :
    outcome bytes := build_query eventType selectorType (Ret (getSelectors selectorType selectorId)).

(** An inbox's entries are messages of the thread behind it, so its queries
    are sent as queries of that thread. *)
Record state (W : Type) := mkState { _server : W; _threadIdToInboxId : gmap bytes bytes }.
Arguments mkState {W} _server _threadIdToInboxId.
Arguments _server {W} s.
Arguments _threadIdToInboxId {W} s.

Section Transform.
Context {W : Type}.
(** The thread ids in the data entries of the inbox that the server returns. *)
Context (inboxGet : bytes -> ST W (list bytes)).

Definition getThreadId (inboxId : bytes) : ST W bytes :=
  data ← inboxGet inboxId;
  match last data with Some threadId => mret threadId | None => throw UndefinedBehaviour end.

Definition updateSubscriptionQuerySelectors (query : t) : ST (state W) t :=
  match list_find (fun x => selectorKey x = _selectorTypeNames INBOX_ID) (_selectors query) with
  | None => mret query
  | Some (inboxSelectorPos, x) =>
      let inboxId := selectorValue x in
      threadId ← zoom _server (fun w st => mkState w (_threadIdToInboxId st)) (getThreadId inboxId);
      _ ← modify (fun st => mkState (_server st) (<[ threadId := inboxId ]> (_threadIdToInboxId st)));
      mret {| _channelPath := _channelPath query;
              _selectors := <[ inboxSelectorPos := {| selectorKey := selectorKey x; selectorValue := threadId |} ]>
                              (_selectors query) |}
  end.

Definition with_path (path : list bytes) (q : t) : t := {| _channelPath := path; _selectors := _selectors q |}.

Definition transform_one (_typeFilterFlag : bytes) (q : t) : ST (state W) bytes :=
  let typed := {| selectorKey := lit "containerType"; selectorValue := _typeFilterFlag |} in
  q ← match _channelPath q with
      | [m; i; e] =>
          if bool_decide (m = _moduleName) && bool_decide (i = _itemName) then
            q ← updateSubscriptionQuerySelectors (with_path [lit "thread"; lit "messages"; e] q);
            mret (selectorsPushBack typed q)
          else mret q
      | [m; e] =>
          if bool_decide (m = _moduleName) && bool_decide (e = _eventTypeNames COLLECTION_CHANGE) then
            q ← updateSubscriptionQuerySelectors
                  (with_path [lit "thread"; _eventTypeNames COLLECTION_CHANGE] q);
            mret (selectorsPushBack typed q)
          else mret q
      | _ => mret q
      end;
  lift (toSubscriptionQueryString q).

Definition transform (_typeFilterFlag : bytes) (subscriptionQueries : list t) : ST (state W) (list bytes) :=
  for_collect subscriptionQueries (transform_one _typeFilterFlag).

Definition convertKnownThreadIdToInboxId (threadId : bytes) (st : state W) : option bytes :=
  _threadIdToInboxId st !! threadId.
End Transform.

Definition assertQuery (subscriptionQueries : list t) : outcome unit :=
  assert_query _moduleName InboxInvalidSubscriptionQueryException subscriptionQueries.
End InboxSubscriber.

Module StreamSubscriber.

Inductive EventType : Set :=
| STREAMROOM_CREATE
| STREAMROOM_UPDATE
| STREAMROOM_DELETE
| STREAM_JOIN
| STREAM_LEAVE
| STREAM_PUBLISH
| STREAM_UNPUBLISH.

Inductive EventSelectorType : Set :=
| CONTEXT_ID
| STREAMROOM_ID
| STREAM_ID.

#[global] Instance selector_type_eq_dec : EqDecision EventSelectorType.
Proof. solve_decision. Defined.

Definition _moduleName : bytes := lit "streamroom".

Definition _itemName : bytes := lit "streams".

Definition _selectorTypeNames (selectorType : EventSelectorType) : bytes :=
  match selectorType with
  | CONTEXT_ID => lit "contextId"
  | STREAMROOM_ID => lit "containerId"
  | STREAM_ID => lit "itemId"
  end.

Definition _eventTypeNames (eventType : EventType) : bytes :=
  match eventType with
  | STREAMROOM_CREATE => lit "create"
  | STREAMROOM_UPDATE => lit "update"
  | STREAMROOM_DELETE => lit "delete"
  | STREAM_JOIN => lit "join"
  | STREAM_LEAVE => lit "leave"
  | STREAM_PUBLISH => lit "publish"
  | STREAM_UNPUBLISH => lit "unpublish"
  end.

Definition _eventTypeAllowedSelectorTypes (eventType : EventType) : list EventSelectorType :=
  match eventType with
  | STREAMROOM_CREATE => [CONTEXT_ID]
  | STREAMROOM_UPDATE => [CONTEXT_ID; STREAMROOM_ID]
  | STREAMROOM_DELETE => [CONTEXT_ID; STREAMROOM_ID]
  | STREAM_JOIN => [CONTEXT_ID; STREAMROOM_ID]
  | STREAM_LEAVE => [CONTEXT_ID; STREAMROOM_ID]
  | STREAM_PUBLISH => [CONTEXT_ID; STREAMROOM_ID]
  | STREAM_UNPUBLISH => [CONTEXT_ID; STREAMROOM_ID]
  end.

Definition getChannel (eventType : EventType) : bytes :=
  match eventType with
  | STREAMROOM_CREATE | STREAMROOM_UPDATE | STREAMROOM_DELETE =>
      _moduleName ++ lit "/" ++ _eventTypeNames eventType
  | STREAM_JOIN | STREAM_LEAVE | STREAM_PUBLISH | STREAM_UNPUBLISH =>
      _moduleName ++ lit "/" ++ _itemName ++ lit "/" ++ _eventTypeNames eventType
  end.

Definition getSelector (selectorType : EventSelectorType) (selectorId : bytes) : bytes :=
  lit "|" ++ _selectorTypeNames selectorType ++ lit "=" ++ selectorId.

Definition getInternalEventsSubscriptionQuery (streamRoomId : option bytes) : bytes :=
  _moduleName ++ lit "/internal" ++ match streamRoomId with Some id => getSelector STREAMROOM_ID id | None => [] end.

Definition buildQuery (eventType : EventType) (selectorType : EventSelectorType) (selectorId : bytes) :
    outcome bytes :=
  if bool_decide (selectorType ∈ _eventTypeAllowedSelectorTypes eventType)
  then Ret (getChannel eventType ++ getSelector selectorType selectorId)
  else Throw InvalidParamsException.

Definition transform (_typeFilterFlag : bytes) (subscriptionQueries : list t) : outcome (list bytes) :=
  transform_typed _typeFilterFlag subscriptionQueries.

Definition assertQuery (subscriptionQueries : list t) : outcome unit :=
  assert_query _moduleName StreamInvalidSubscriptionQueryException subscriptionQueries.
End StreamSubscriber.

Module EventSubscriber.
Inductive EventSelectorType : Set :=
| CONTEXT_ID.

Definition _moduleName : bytes := lit "event".

Definition _itemName : bytes := lit "custom".

Definition INTERNAL_EVENT_CHANNEL_NAME : bytes := lit "internal".

Definition _selectorTypeNames (selectorType : EventSelectorType) : bytes :=
  match selectorType with CONTEXT_ID => lit "contextId" end.

Definition _forbiddenChannelsNames : list bytes := [INTERNAL_EVENT_CHANNEL_NAME].

Definition getChannelPath (channelName : bytes) : list bytes := [_moduleName; _itemName; channelName].

Definition getSelectors (selectorType : EventSelectorType) (selectorId : bytes) : list QuerySelector :=
  get_selectors (_selectorTypeNames selectorType) selectorId.

Definition buildQuery (channelName : bytes) (selectorType : EventSelectorType) (selectorId : bytes)
    (enableAllChannelNames : bool) : outcome bytes :=
  if negb (bool_decide (channelName ∈ _forbiddenChannelsNames)) || enableAllChannelNames then
    toSubscriptionQueryString
      {| _channelPath := getChannelPath channelName; _selectors := getSelectors selectorType selectorId |}
  else Throw ForbiddenChannelNameException.

(** The module is the context on the server; a path too short to have a first
    element is indexed out of range. *)
Fixpoint transform (subscriptionQueries : list t) : outcome (list bytes) :=
  match subscriptionQueries with
  | [] => Ret []
  | q :: l =>
      path ← match _channelPath q with
             | [] => Throw UndefinedBehaviour
             | _ :: path => Ret (lit "context" :: path)
             end;
      s ← toSubscriptionQueryString {| _channelPath := path; _selectors := _selectors q |};
      ss ← transform l;
      Ret (s :: ss)
  end.

Definition assertQuery (subscriptionQueries : list t) : outcome unit :=
  fold_left (fun r q => _ ← r;
    if bool_decide (length (_selectors q) <> 1%nat) then Throw EventInvalidSubscriptionQueryException
    else if bool_decide (length (_channelPath q) <> 3%nat)
         || bool_decide (_channelPath q !! 0%nat <> Some _moduleName)
         || bool_decide (_channelPath q !! 1%nat <> Some _itemName) then Throw EventInvalidSubscriptionQueryException
    else Ret tt) subscriptionQueries (Ret tt).
End EventSubscriber.

(** ** What the queries of a module mean *)

(** A channel path that the module's own [assertQuery] accepts. *)
Record path_ok (moduleName : bytes) (path : list bytes) : Prop := {
  path_length : (2 <= length path <= 3)%nat;
  path_module : path !! 0%nat = Some moduleName;
  path_free : Forall (Forall (fun c => c ∉ path_separators)) path;
  path_last : last path <> Some [];
}.

(** The tables of a module name channels and selectors without separators. *)
Class QueryTablesLaws (E S : Type) `{QueryTables E S} : Prop := {
  channel_path_ok e : path_ok (module_name (E := E) (S := S)) (channel_path (E := E) (S := S) e);
  selector_name_ok s : Forall (fun c => c ∉ selector_separators) (selector_name (E := E) (S := S) s);
}.

Ltac tables_laws :=
  split; intros []; [..|]; first [split; cbn; [lia|done|by apply (bool_decide_unpack _); vm_compute|done]
                     | by apply (bool_decide_unpack _); vm_compute].

#[export] Instance context_tables_laws : QueryTablesLaws ContextSubscriber.EventType ContextSubscriber.EventSelectorType.
Proof. tables_laws. Qed.
#[export] Instance thread_tables_laws : QueryTablesLaws ThreadSubscriber.EventType ThreadSubscriber.EventSelectorType.
Proof. tables_laws. Qed.
#[export] Instance store_tables_laws : QueryTablesLaws StoreSubscriber.EventType StoreSubscriber.EventSelectorType.
Proof. tables_laws. Qed.
#[export] Instance kvdb_tables_laws : QueryTablesLaws KvdbSubscriber.EventType KvdbSubscriber.EventInternalSelectorType.
Proof. tables_laws. Qed.
#[export] Instance inbox_tables_laws : QueryTablesLaws InboxSubscriber.EventType InboxSubscriber.EventSelectorType.
Proof. tables_laws. Qed.

Lemma free_forall ds t : Forall (fun c => c ∉ ds) t -> free ds t.
Proof. rewrite Forall_forall. intros H c Hc. by apply H. Qed.

Lemma path_ok_free m path : path_ok m path -> Forall (free path_separators) path.
Proof. intros H. eapply Forall_impl; [exact (path_free _ _ H)|]. intros t Ht. by apply free_forall. Qed.

Lemma path_ok_ne m path : path_ok m path -> path <> [].
Proof. intros [H _ _ _] ->. cbn in H. lia. Qed.

(** A value that can stand in a selector. *)
Definition plain (value : bytes) : Prop := value <> [] /\ free selector_separators value.

(** One selector on a good path: accepted by the module, and well formed. *)
Section OneSelector.
Context (m : bytes) (invalid : exn) (path : list bytes) (key value : bytes).
Context (Hpath : path_ok m path) (Hkey : free selector_separators key) (Hvalue : plain value).

Let q : t := {| _channelPath := path; _selectors := get_selectors key value |}.

Lemma one_selector_accepted : assert_query m invalid [q] = Ret tt.
Proof.
  destruct Hpath as [Hl Hm _ _]. cbn. unfold_st. rewrite bool_decide_eq_false_2 by lia.
  rewrite !bool_decide_eq_false_2; [done|tauto|lia|lia].
Qed.

Lemma one_selector_wf : well_formed q.
Proof.
  split; cbn; [by eapply path_ok_ne|by eapply path_ok_free|apply Hpath|].
  destruct Hvalue. by repeat constructor.
Qed.

Lemma one_selector_typed flag text : toSubscriptionQueryString q = Ret text ->
  transform_typed flag [q] = Ret [text ++ lit ",containerType=" ++ flag].
Proof.
  unfold transform_typed. rewrite fmap_cons. cbn [print_all]. rewrite !print_joined by (by eapply path_ok_ne).
  unfold_st. intros [= <-]. cbn. rewrite <- !app_assoc. cbn. unfold selector_text. cbn.
  by rewrite <- app_assoc.
Qed.
End OneSelector.

(** A module whose subscriber filters by container type, over a gateway. *)
Section Typed.
Context {E S W : Type} `{!QueryTables E S} `{!QueryTablesLaws E S} `{!EqDecision S}.
Context (_typeFilterFlag : bytes) (subscribe : list bytes -> ST W (list Subscription))
  (unsubscribe : list bytes -> ST W unit).

#[local] Instance typed_module : SubscriberModule W := {|
  transform qs := lift (transform_typed _typeFilterFlag qs);
  assertQuery qs := assert_query (module_name (E := E) (S := S)) (invalid_query (E := E) (S := S)) qs;
  subscribeToChannels := subscribe;
  unsubscribeFromChannels := unsubscribe |}.

(** a query built for an allowed selector with a plain value parses, is
    accepted by its module and is requested from the server as built, with
    the module's type filter behind it; other selectors are refused. *)
Theorem built_query_requested (e : E) (s : S) value w : plain value ->
  if decide (s ∈ allowed_selectors e) then
    exists text,
      build_query e s (Ret (get_selectors (selector_name (E := E) s) value)) = Ret text
      /\ Subscriber.requested [text] false w = (Ret [text ++ lit ",containerType=" ++ _typeFilterFlag], w)
  else build_query e s (Ret (get_selectors (selector_name (E := E) s) value)) = Throw InvalidParamsException.
Proof.
  intros Hv. unfold build_query. case_decide as Ha; [|by rewrite bool_decide_eq_false_2].
  rewrite bool_decide_eq_true_2 by done.
  pose proof (channel_path_ok (E := E) (S := S) e) as Hp.
  pose proof (free_forall _ _ (selector_name_ok (E := E) (S := S) s)) as Hk.
  pose proof (one_selector_wf _ _ _ _ Hp Hk Hv) as Hwf.
  apply query_roundtrip in Hwf as (text & Hprint & Hparse). exists text. unfold_st. split; [done|].
  unfold Subscriber.requested. cbn [Subscriber.parse_all]. rewrite Hparse. unfold_st.
  cbn [assertQuery typed_module]. rewrite (one_selector_accepted _ _ _ _ _ Hp).
  cbn [transform typed_module]. cbv beta iota. by rewrite (one_selector_typed _ _ _ _ Hp _ _ Hprint).
Qed.
End Typed.

(** ** Values that are not plain *)

Lemma app_last_inv {A} (a : list A) x b t d : a ++ x :: b = t ++ [d] -> x <> d ->
  exists b', b = b' ++ [d] /\ t = a ++ x :: b'.
Proof.
  intros H Hne. destruct b as [|y b _] using rev_ind.
  - apply app_inj_tail in H as [_ H]. done.
  - exists b. assert ((a ++ x :: b) ++ [y] = t ++ [d]) as H' by (by rewrite <- H, <- app_assoc).
    by apply app_inj_tail in H' as [<- ->].
Qed.

(** Cutting one trailing separator off [key=value] cuts it off the value. *)
Lemma split_single_value key value d t :
  Utils.split (key ++ SELECTOR_SEPARATOR :: value) d = [t] -> SELECTOR_SEPARATOR <> d ->
  exists value' suffix, t = key ++ SELECTOR_SEPARATOR :: value' /\ value = value' ++ suffix
    /\ Forall (fun c => c = d) suffix.
Proof.
  intros H Hne. apply Utils.split_single in H as [<-|H].
  - exists value, []. rewrite app_nil_r. repeat split. constructor.
  - apply app_last_inv in H as (b' & -> & ->); [|done]. exists b', [d]. repeat split. by repeat constructor.
Qed.

Lemma parse_selectors_length l xs : parse_selectors l = Ret xs -> length l = length xs.
Proof.
  revert xs. induction l as [|s l IH]; intros xs; cbn [parse_selectors]; [by intros [= <-]|].
  unfold_st. destruct (parse_selector s); [|done]. destruct (parse_selectors l) as [ys|]; [|done].
  intros [= <-]. cbn. by rewrite (IH ys).
Qed.

Lemma split_value_ne key value d : Utils.split (key ++ SELECTOR_SEPARATOR :: value) d <> [].
Proof. intros [_ H]%Utils.split_go_nil. by destruct key. Qed.

(** whatever text is used as a selector's value, a built query that its
    module accepts asks for the same channel with the same selector key, and
    for a value that differs from the text at most by separators at its end:
    a value cannot smuggle in another selector or channel. *)
Theorem query_not_injectable {E S} `{!QueryTables E S} `{!QueryTablesLaws E S} `{!EqDecision S}
    (e : E) (s : S) value text q m invalid :
  build_query e s (Ret (get_selectors (selector_name (E := E) s) value)) = Ret text ->
  parse text = Ret q -> assert_query m invalid [q] = Ret tt ->
  _channelPath q = channel_path (S := S) e
  /\ exists value' suffix, _selectors q = get_selectors (selector_name (E := E) s) value'
       /\ value = value' ++ suffix /\ Forall (fun c => c ∈ selector_separators) suffix.
Proof.
  unfold build_query. case_bool_decide; [|done]. unfold_st. set (key := selector_name s).
  pose proof (channel_path_ok (E := E) (S := S) e) as Hp.
  rewrite print_joined by (by eapply path_ok_ne). cbn [_selectors _channelPath get_selectors fmap list_fmap Utils.join].
  intros [= <-] Hq Hassert. unfold selector_text in Hq. cbn [selectorKey selectorValue] in Hq.
  assert (length (_selectors q) = 1%nat) as Hone.
  { revert Hassert. cbn. unfold_st. case_bool_decide as Hl; [done|]. lia. }
  assert (QUERY_MAIN_SEPARATOR ∉ Utils.join QUERY_PATH_SEPARATOR (channel_path (S := S) e)) as Hmain
    by (apply (join_free _ path_separators); [by eapply path_ok_free|right; left|done]).
  assert (SELECTOR_SEPARATOR ∉ key) as Hkey
    by (apply (free_sep selector_separators); [apply free_forall, (selector_name_ok (E := E) (S := S))|left]).
  revert Hq. unfold parse. rewrite Utils.split_cons by done. case_bool_decide as Hlen; [done|].
  destruct (Utils.split (key ++ _) QUERY_MAIN_SEPARATOR) as [|s1 [|]] eqn:E1;
    [by apply split_value_ne in E1| |cbn in Hlen; unfold QUERY_MAIN_MAX_SIZE in Hlen; lia].
  apply split_single_value in E1 as (v1 & f1 & -> & -> & Hf1); [|done].
  unfold_st. destruct (parse_selectors _) as [xs|] eqn:Ex; [|done]. intros [= <-].
  cbn [_selectors _channelPath] in *. split.
  { apply Utils.split_join; [apply (forall_free path_separators); [by eapply path_ok_free|left]|].
    intros t Ht ->. by apply (path_last _ _ Hp). }
  pose proof (parse_selectors_length _ _ Ex) as Hl. rewrite Hone in Hl.
  destruct (Utils.split (key ++ _) SELECTORS_SEPARATOR) as [|s2 [|]] eqn:E2; [done| |done].
  apply split_single_value in E2 as (v2 & f2 & -> & -> & Hf2); [|done].
  revert Ex. cbn [parse_selectors]. unfold parse_selector. rewrite Utils.split_cons by done.
  destruct (Utils.split v2 SELECTOR_SEPARATOR) as [|v3 [|]] eqn:E3; [done| |done].
  unfold_st. intros [= <-]. apply Utils.split_single in E3.
  destruct E3 as [->| ->]; [exists v3, (f2 ++ f1)|exists v3, ([SELECTOR_SEPARATOR] ++ f2 ++ f1)];
    (split; [done|]); (split; [by rewrite <- !app_assoc|]); rewrite !Forall_app; repeat split;
    try (eapply Forall_impl; [eassumption|]; intros ? ->; by apply (bool_decide_unpack _)).
  repeat constructor.
Qed.

(** *** The forbidden channel of custom events *)

Lemma parse_same_path p p' rest : QUERY_MAIN_SEPARATOR ∉ p -> QUERY_MAIN_SEPARATOR ∉ p' ->
  Utils.split p QUERY_PATH_SEPARATOR = Utils.split p' QUERY_PATH_SEPARATOR ->
  parse (p ++ QUERY_MAIN_SEPARATOR :: rest) = parse (p' ++ QUERY_MAIN_SEPARATOR :: rest).
Proof. intros H1 H2 Hs. unfold parse. by rewrite !Utils.split_cons, Hs by done. Qed.

(** [buildQuery] refuses the internal channel by its exact name only: with
    a path separator behind the name it builds a query that parses to the
    internal channel's, which the subscriber accepts and sends. *)
Theorem forbidden_channel_reached contextId : plain contextId ->
  EventSubscriber.buildQuery (lit "internal") EventSubscriber.CONTEXT_ID contextId false
    = Throw ForbiddenChannelNameException
  /\ exists text internal q,
       EventSubscriber.buildQuery (lit "internal/") EventSubscriber.CONTEXT_ID contextId false = Ret text
       /\ EventSubscriber.buildQuery (lit "internal") EventSubscriber.CONTEXT_ID contextId true = Ret internal
       /\ parse text = Ret q /\ parse internal = Ret q
       /\ EventSubscriber.assertQuery [q] = Ret tt
       /\ EventSubscriber.transform [q] = Ret [lit "context/custom/internal|contextId=" ++ contextId].
Proof.
  intros [Hne Hfree]. split; [done|].
  set (q := {| _channelPath := [lit "event"; lit "custom"; lit "internal"];
               _selectors := get_selectors (lit "contextId") contextId |}).
  assert (well_formed q) as Hwf.
  { split; cbn; [done| |done|]; repeat constructor; try done;
      (apply free_forall; by apply (bool_decide_unpack _); vm_compute). }
  apply query_roundtrip in Hwf as (internal & Hprint & Hparse).
  rewrite print_joined in Hprint by done. injection Hprint as <-.
  do 2 eexists. exists q. split; [by apply print_joined|]. split; [by apply print_joined|].
  split; [|split; [exact Hparse|split; [done|]]].
  2:{ cbn [EventSubscriber.transform _channelPath q]. unfold_st. by rewrite print_joined. }
  rewrite <- Hparse. apply (parse_same_path (lit "event/custom/internal/") (lit "event/custom/internal")); [..|by vm_compute];
    by apply (bool_decide_unpack _); vm_compute.
Qed.

Section Witness.
Lemma joe_plain : plain (lit "joe").
Proof. split; [done|]. apply free_forall. by apply (bool_decide_unpack _); vm_compute. Qed.

Let subscribe (l : list bytes) : ST nat (list Subscription) :=
  fun n => (Ret (imap (fun i ch => mkSubscription [byte_of (Z.of_nat (n + i))] ch) l), (n + length l)%nat).
Let unsubscribe (l : list bytes) : ST nat unit := mret tt.

Lemma built_query_requested_witness : exists text,
  ThreadSubscriber.buildQuery ThreadSubscriber.MESSAGE_UPDATE ThreadSubscriber.THREAD_ID (lit "joe") = Ret text
  /\ Subscriber.requested (SubscriberModule0 := typed_module (E := ThreadSubscriber.EventType)
       (S := ThreadSubscriber.EventSelectorType) (lit "thread") subscribe unsubscribe) [text] false 7%nat
     = (Ret [text ++ lit ",containerType=thread"], 7%nat).
Proof.
  pose proof (built_query_requested (lit "thread") subscribe unsubscribe ThreadSubscriber.MESSAGE_UPDATE
    ThreadSubscriber.THREAD_ID (lit "joe") 7%nat joe_plain) as H.
  rewrite decide_True in H by (right; left). exact H.
Defined.

Lemma query_not_injectable_witness : exists q,
  parse (lit "thread/messages/create|containerId=joe=,|") = Ret q
  /\ _channelPath q = [lit "thread"; lit "messages"; lit "create"]
  /\ assert_query (lit "thread") StdInvalidArgument [q] = Ret tt.
Proof.
  eexists. split; [by vm_compute|]. split; [|by vm_compute].
  refine (proj1 (query_not_injectable ThreadSubscriber.MESSAGE_CREATE ThreadSubscriber.THREAD_ID (lit "joe=,|")
    (lit "thread/messages/create|containerId=joe=,|") _ (lit "thread") StdInvalidArgument _ _ _)); by vm_compute.
Defined.

Lemma forbidden_channel_reached_witness : exists text internal q,
  EventSubscriber.buildQuery (lit "internal/") EventSubscriber.CONTEXT_ID (lit "joe") false = Ret text
  /\ EventSubscriber.buildQuery (lit "internal") EventSubscriber.CONTEXT_ID (lit "joe") true = Ret internal
  /\ parse text = Ret q /\ parse internal = Ret q.
Proof.
  destruct (forbidden_channel_reached (lit "joe") joe_plain) as (_ & text & internal & q & H1 & H2 & H3 & H4 & _).
  exists text, internal, q. exact (conj H1 (conj H2 (conj H3 H4))).
Defined.

#[local] Instance thread_module : SubscriberModule nat := typed_module (E := ThreadSubscriber.EventType)
  (S := ThreadSubscriber.EventSelectorType) (lit "thread") subscribe unsubscribe.

Let after : Subscriber.t nat :=
  Subscriber.mk 8%nat {[ [x07] := lit "thread/create|contextId=joe,containerType=thread" ]}.

Lemma subscribed : Subscriber.subscribeFor [lit "thread/create|contextId=joe"] false (Subscriber.mk 7%nat ∅)
  = (Ret [[x07]], after).
Proof. by vm_compute. Qed.

Lemma subscribeFor_registers_witness :
  Subscriber.subscribeFor [lit "thread/create|contextId=joe"] false (Subscriber.mk 7%nat ∅) = (Ret [[x07]], after)
  /\ exists channels, length [[x07]] = length (channels : list bytes).
Proof.
  split; [exact subscribed|].
  destruct (Subscriber.subscribeFor_registers _ _ _ _ _ subscribed) as (channels & subs & w & _ & _ & Hl & _).
  exists channels. exact Hl.
Defined.

Lemma unsubscribeFrom_forgets_witness : exists s', Subscriber.unsubscribeFrom [[x07]] after = (Ret tt, s')
  /\ Subscriber.getSubscriptionQuery [x07] s' = None.
Proof.
  eexists. split; [reflexivity|].
  exact (proj2 (Subscriber.unsubscribeFrom_forgets [[x07]] after (Ret tt) _ eq_refl) [x07]).
Defined.
End Witness.
