(* ===== verification/Users.v ===== *)
(** * Who needs which key

    [core::EndpointUtils] (endpoint/core/src/EndpointUtils.cpp) and
    [core::UsersKeysResolver] (endpoint/core/src/UsersKeysResolver.cpp): when
    the members of a container change, whether it needs a new key and who must
    receive the old ones. *)

From Stdlib Require Import ZArith Lia Strings.String Strings.Byte.
From stdpp Require Import base list gmap sorting.
From S2P Require Import Prelude Bytes StdMap CoreTypes EncKeys KeyProvider.

#[export] Instance UserWithPubKey_eq_dec : EqDecision UserWithPubKey.
Proof. solve_decision. Defined.

Module EndpointUtils.
Definition user_key (a : UserWithPubKey) : bytes := u_userId a ++ u_pubKey a.

(** [map[a.userId+a.pubKey] = a] over a list. *)
Definition add_users (map : gmap bytes UserWithPubKey) (l : list UserWithPubKey) : gmap bytes UserWithPubKey :=
  fold_left (fun map a => <[ user_key a := a ]> map) l map.

Definition uniqueListUserWithPubKey (list1 list2 : list UserWithPubKey) : list UserWithPubKey :=
  values (add_users (add_users ∅ list1) list2).

(** The common prefix of the sorted lists is skipped; the rest is searched. *)
Fixpoint after_prefix (vec1 vec2 : list bytes) : list bytes * list bytes :=
  match vec1, vec2 with
  | x :: l1, y :: l2 => if bool_decide (x = y) then after_prefix l1 l2 else (vec1, vec2)
  | _, _ => (vec1, vec2)
  end.

Definition getDifference (baseList subList : list bytes) : list bytes :=
  let '(vec1, vec2) := after_prefix (sort baseList) (sort subList) in
  filter (fun x => x ∉ vec2) vec1.

Definition uniqueList (list1 list2 : list bytes) : list bytes :=
  set_elements (list_to_set list1 ∪ list_to_set list2).

Definition usersWithPubKeyToIds (users : list UserWithPubKey) : list bytes := u_userId <$> users.

(** ** Laws *)

Lemma after_prefix_spec l1 l2 : exists p r1 r2,
  after_prefix l1 l2 = (r1, r2) /\ l1 = p ++ r1 /\ l2 = p ++ r2.
Proof.
  revert l2. induction l1 as [|x l1 IH]; intros [|y l2]; cbn; try by (exists []; eauto).
  case_bool_decide as Hxy; [|by exists []; eauto]. subst y.
  destruct (IH l2) as (p & r1 & r2 & -> & -> & ->). by exists (x :: p), r1, r2.
Qed.

(** Nothing that is missing from the second list is left out. *)
Lemma getDifference_complete base sub x : x ∈ base -> x ∉ sub -> x ∈ getDifference base sub.
Proof.
  rewrite <- (elem_of_sort base), <- (elem_of_sort sub). unfold getDifference.
  destruct (after_prefix_spec (sort base) (sort sub)) as (p & r1 & r2 & -> & -> & ->).
  rewrite !elem_of_app, list_elem_of_filter. tauto.
Qed.

Lemma getDifference_sub base sub x : x ∈ getDifference base sub -> x ∈ base.
Proof.
  rewrite <- (elem_of_sort base). unfold getDifference.
  destruct (after_prefix_spec (sort base) (sort sub)) as (p & r1 & r2 & -> & -> & _).
  rewrite elem_of_app, list_elem_of_filter. tauto.
Qed.

(** On a list without repetitions it is the difference. *)
Lemma getDifference_exact base sub x : NoDup base -> x ∈ getDifference base sub <-> x ∈ base /\ x ∉ sub.
Proof.
  intros Hn. split; [|intros [? ?]; by apply getDifference_complete]. intros H.
  split; [by apply getDifference_sub in H|]. revert H. rewrite <- (elem_of_sort sub). unfold getDifference.
  rewrite <- (sort_perm base) in Hn.
  destruct (after_prefix_spec (sort base) (sort sub)) as (p & r1 & r2 & -> & Hb & ->).
  rewrite Hb in Hn. apply NoDup_app in Hn as (_ & Hn & _).
  rewrite list_elem_of_filter, elem_of_app. intros [Hx Hr] [Hp|?]; [by apply (Hn x)|done].
Qed.

Lemma elem_of_uniqueList l1 l2 x : x ∈ uniqueList l1 l2 <-> x ∈ l1 \/ x ∈ l2.
Proof. unfold uniqueList. rewrite elem_of_set_elements. set_solver. Qed.

Lemma NoDup_uniqueList l1 l2 : NoDup (uniqueList l1 l2).
Proof. apply NoDup_set_elements. Qed.

Lemma add_users_lookup map l k : add_users map l !! k =
  match last (filter (fun a => user_key a = k) l) with Some a => Some a | None => map !! k end.
Proof.
  unfold add_users. revert map. induction l as [|a l IH]; intros map; [done|]. cbn [fold_left].
  rewrite IH, filter_cons. case_decide as Hk.
  - rewrite last_cons. destruct (last _); [done|]. subst k. by rewrite lookup_insert_eq.
  - destruct (last _); [done|]. by rewrite lookup_insert_ne.
Qed.

(** Each user listed is there, when no two of them share a key. *)
Lemma elem_of_uniqueListUserWithPubKey l1 l2 u :
  (forall a b, a ∈ l1 ++ l2 -> b ∈ l1 ++ l2 -> user_key a = user_key b -> a = b) ->
  u ∈ uniqueListUserWithPubKey l1 l2 <-> u ∈ l1 \/ u ∈ l2.
Proof.
  intros Hinj. unfold uniqueListUserWithPubKey. rewrite elem_of_values.
  assert (forall k, add_users (add_users ∅ l1) l2 !! k = last (filter (fun a => user_key a = k) (l1 ++ l2))) as Hk.
  { intros k. rewrite !add_users_lookup, lookup_empty, filter_app, last_app.
    destruct (last (filter _ l2)); [done|]. by destruct (last (filter _ l1)). }
  setoid_rewrite Hk. rewrite <- elem_of_app. split.
  - intros [k Hl%last_Some_elem_of]. by apply list_elem_of_filter in Hl as [_ ?].
  - intros Hu. exists (user_key u).
    destruct (last (filter (fun a => user_key a = user_key u) (l1 ++ l2))) as [a|] eqn:El.
    + f_equal. apply last_Some_elem_of, list_elem_of_filter in El as [He Ha]. by apply Hinj.
    + apply last_None in El. exfalso. apply (not_elem_of_nil u). rewrite <- El.
      by apply list_elem_of_filter.
Qed.
End EndpointUtils.

Module UsersKeysResolver.
Record t := mk {
  _usersToAddMissingKey : list UserWithPubKey;
  _new_users : list UserWithPubKey;
  _needNewKey : bool;
}.

(** [create]: a fresh object after [init]. *)
Definition create (currentUserIds currentManagerIds : list bytes) (users managers : list UserWithPubKey)
    (forceGenerateNewKey : bool) (moduleCurrentKey : DecryptedEncKeyV2) : t :=
  let oldUsersIds := EndpointUtils.uniqueList currentUserIds currentManagerIds in
  let new_users := EndpointUtils.uniqueListUserWithPubKey users managers in
  let newUsersIds := EndpointUtils.usersWithPubKeyToIds new_users in
  let deletedUsersIds := EndpointUtils.getDifference oldUsersIds newUsersIds in
  let addedUsersIds := EndpointUtils.getDifference newUsersIds oldUsersIds in
  {| _usersToAddMissingKey :=
       if bool_decide (k_dataStructureVersion moduleCurrentKey < 2) then new_users
       else filter (fun new_user => u_userId new_user ∈ addedUsersIds) new_users;
     _new_users := new_users;
     _needNewKey := bool_decide (0 < length deletedUsersIds)%nat || forceGenerateNewKey |}.

Definition getUsersToAddKey (r : t) : list UserWithPubKey := _usersToAddMissingKey r.
Definition getNewUsers (r : t) : list UserWithPubKey := _new_users r.
Definition doNeedNewKey (r : t) : bool := _needNewKey r.

Section Spec.
Context (currentUserIds currentManagerIds : list bytes) (users managers : list UserWithPubKey).
Context (forceGenerateNewKey : bool) (key : DecryptedEncKeyV2).

Let r : t := create currentUserIds currentManagerIds users managers forceGenerateNewKey key.

(** A current user or manager, by id. *)
Definition member (id : bytes) : Prop := id ∈ currentUserIds \/ id ∈ currentManagerIds.

Lemma need_new_key : doNeedNewKey r = true <->
  forceGenerateNewKey = true \/ exists id, member id /\ id ∉ u_userId <$> getNewUsers r.
Proof.
  subst r. unfold create, doNeedNewKey, getNewUsers. cbn [_needNewKey _new_users].
  set (new := EndpointUtils.uniqueListUserWithPubKey users managers).
  set (old := EndpointUtils.uniqueList currentUserIds currentManagerIds).
  set (deleted := EndpointUtils.getDifference old _).
  assert (forall id, id ∈ deleted <-> member id /\ id ∉ u_userId <$> new) as Hd.
  { intros id. unfold deleted. rewrite EndpointUtils.getDifference_exact by apply EndpointUtils.NoDup_uniqueList.
    unfold old, member. by rewrite EndpointUtils.elem_of_uniqueList. }
  rewrite orb_true_iff, bool_decide_eq_true. split.
  - intros [Hl|?]; [right|by left]. destruct deleted as [|id l]; [cbn in Hl; lia|].
    exists id. apply Hd. left.
  - intros [?|(id & Hid)]; [by right|left]. apply Hd in Hid. destruct deleted; [by apply not_elem_of_nil in Hid|].
    cbn. lia.
Qed.

(** the members a container had before and no longer has are never left
    with its current key: a new key is made exactly when one of them is gone
    or the caller insists.  Every user of the new list who was no member gets
    the old keys; with distinct user ids and keys that carry their own proof
    nobody else does. *)
Theorem resolver_spec :
  (doNeedNewKey r = true <->
     forceGenerateNewKey = true \/ exists id, member id /\ id ∉ u_userId <$> getNewUsers r)
  /\ (forall u, u ∈ getNewUsers r -> ~ member (u_userId u) -> u ∈ getUsersToAddKey r)
  /\ (NoDup (u_userId <$> getNewUsers r) -> 2 <= k_dataStructureVersion key ->
      forall u, u ∈ getUsersToAddKey r -> u ∈ getNewUsers r /\ ~ member (u_userId u)).
Proof.
  split; [apply need_new_key|].
  subst r. unfold create, getUsersToAddKey, getNewUsers, EndpointUtils.usersWithPubKeyToIds.
  cbn [_new_users _usersToAddMissingKey]. split.
  - intros u Hu Hm. case_bool_decide; [done|]. apply list_elem_of_filter. split; [|done].
    apply EndpointUtils.getDifference_complete; [by apply list_elem_of_fmap_2|].
    by rewrite EndpointUtils.elem_of_uniqueList.
  - intros Hn Hv u. rewrite bool_decide_eq_false_2 by lia. intros [Ha Hu]%list_elem_of_filter.
    split; [done|]. apply EndpointUtils.getDifference_exact in Ha as [_ Ha]; [|done].
    unfold member. by rewrite EndpointUtils.elem_of_uniqueList in Ha.
Qed.
End Spec.
End UsersKeysResolver.

(** [getDifference] is the set difference on lists without repetitions,
    and never misses an element of it; a repeated element of the base list is
    reported although the other list has it. *)
Theorem getDifference_repeated :
  (forall base sub x, NoDup base ->
     x ∈ EndpointUtils.getDifference base sub <-> x ∈ base /\ x ∉ sub)
  /\ (forall base sub x, x ∈ base -> x ∉ sub -> x ∈ EndpointUtils.getDifference base sub)
  /\ EndpointUtils.getDifference [lit "joe"; lit "joe"] [lit "joe"] = [lit "joe"].
Proof.
  split; [apply EndpointUtils.getDifference_exact|].
  split; [apply EndpointUtils.getDifference_complete|by vm_compute].
Qed.
