(* ===== verification/EventQueue.v ===== *)
(** * Events and notifications

    The queue an application takes its events from
    (endpoint/core/src/EventQueueImpl.cpp), the listeners between the gateway
    and the modules (EventMiddleware.cpp), the events of a connection itself
    (ConnectionImpl.cpp) and the executor their tasks run on
    (utils/src/GuardedExecutor.cpp), whose tasks run here at once. *)

From Stdlib Require Import ZArith Lia Strings.String Strings.Byte.
From stdpp Require Import base list gmap fin_maps sorting.
From S2P Require Import Prelude Bytes Dynamic StdMap Subscriptions Users.

(** [GuardedExecutor::exec]: a task's errors end with it. *)
Definition exec {W} (task : ST W unit) : ST W unit :=
  try_catch task (fun e => if bool_decide (e = UndefinedBehaviour) then throw e else mret tt).

(** ** Events *)

(** [core::Event] and its subclasses' [data]. *)
Record Event (A : Type) := mkEvent {
  ev_type : bytes;
  ev_channel : bytes;
  ev_connectionId : Z;
  ev_subscriptions : list bytes;
  ev_timestamp : Z;
  ev_data : A;
}.
Arguments mkEvent {A} _ _ _ _ _ _.
Arguments ev_type {A}.
Arguments ev_channel {A}.
Arguments ev_connectionId {A}.
Arguments ev_subscriptions {A}.
Arguments ev_timestamp {A}.
Arguments ev_data {A}.

Definition ev_set_connectionId {A} (id : Z) (e : Event A) : Event A :=
  mkEvent (ev_type e) (ev_channel e) id (ev_subscriptions e) (ev_timestamp e) (ev_data e).

(** [core::EventSource], [core::NotificationEvent]; [Var()] is [None]. *)
Inductive EventSource : Set := INTERNAL | SERVER.

Section Notification.
Context `{!Dynamic}.

Record NotificationEvent := mkNotification {
  ne_source : EventSource;
  ne_type : bytes;
  ne_data : option Var;
  ne_version : Z;
  ne_timestamp : Z;
  ne_subscriptions : list bytes;
}.

(** What the codecs of the payloads start with. *)
Definition payload (n : NotificationEvent) : outcome Var :=
  match ne_data n with Some v => Ret v | None => Throw PocoException end.

(** [EventBuilder::buildEvent]; -1 is the member's default value. *)
Definition buildEvent {A} (type channel : bytes) (data : A) (n : NotificationEvent) : Event A :=
  mkEvent type channel (-1) (ne_subscriptions n) (ne_timestamp n) data.
End Notification.

(** ** The queue *)
Module EventQueueImpl.
Section Queue.
Context {A : Type} (libBreak : A).

Definition t := list (Event A).

Definition emit (event : Event A) : ST t unit := modify (fun q => q ++ [event]).

(** The timestamp of the break event has no value. *)
Definition emitBreakEvent : ST t unit := emit (mkEvent (lit "libBreak") [] (-1) [] 0 libBreak).

(** [getEvent]; [waitEvent] answers the same, once there is an event. *)
Definition getEvent : ST t (option (Event A)) := fun q =>
  match q with [] => (Ret None, []) | e :: q => (Ret (Some e), q) end.

Definition clear : ST t unit := modify (fun _ => []).
End Queue.
Arguments t : clear implicits.

(** What a thread of the application, and the library, do with the queue. *)
Inductive op (A : Type) := Emit (e : Event A) | Get.
Arguments Emit {A} e.
Arguments Get {A}.

Fixpoint run {A} (ops : list (op A)) (q : t A) : list (Event A) * t A :=
  match ops with
  | [] => ([], q)
  | Emit e :: ops => run ops (emit e q).2
  | Get :: ops =>
      let '(r, q) := getEvent q in
      let '(l, q) := run ops q in
      (match r with Ret (Some e) => e :: l | _ => l end, q)
  end.

Definition emitted {A} (ops : list (op A)) : list (Event A) :=
  omap (fun o => match o with Emit e => Some e | Get => None end) ops.

(** Whatever the interleaving, what was taken, followed by what is left, is what
    was there and what was emitted, in that order. *)
Lemma queue_in_order {A} (ops : list (op A)) : forall q, let '(l, q') := run ops q in l ++ q' = q ++ emitted ops.
Proof.
  induction ops as [|o ops IH]; intros q; cbn; [by rewrite app_nil_r|].
  destruct o as [e|]; cbn [emitted omap list_omap].
  - specialize (IH (q ++ [e])). cbn. destruct (run ops (q ++ [e])) as [l q']. by rewrite IH, <- app_assoc.
  - destruct q as [|e q]; cbn; [specialize (IH []); by destruct (run ops [])|].
    specialize (IH q). destruct (run ops q) as [l q']. cbn. by rewrite IH.
Qed.
End EventQueueImpl.

(** Where the events go. *)
Class EventWorld (A W : Type) := {
  eventQueue : W -> EventQueueImpl.t A;
  set_eventQueue : EventQueueImpl.t A -> W -> W;
  connectionId : W -> Z;
}.

(** ** Listeners *)
Module EventMiddleware.
Section Emit.
Context {A W : Type} `{!EventWorld A W}.

Definition emitApiEvent (event : Event A) : ST W unit :=
  id ← gets connectionId;
  zoom eventQueue set_eventQueue (EventQueueImpl.emit (ev_set_connectionId id event)).
End Emit.

(** The maps from listener ids; a notification's listener has a list of
    subscription ids with it. *)
Record t (L : Type) := mk {
  _notificationsListeners : gmap Z (L * list bytes);
  _connectedListeners : gmap Z L;
  _disconnectedListeners : gmap Z L;
  _id : Z;
}.
Arguments mk {L} _ _ _ _.
Arguments _notificationsListeners {L}.
Arguments _connectedListeners {L}.
Arguments _disconnectedListeners {L}.
Arguments _id {L}.

(** [std::map]'s order. *)
Definition by_id {X} (a b : Z * X) : Prop := a.1 <= b.1.
#[export] Instance by_id_dec {X} : RelDecision (by_id (X := X)).
Proof. intros a b. unfold by_id. apply _. Defined.
#[export] Instance by_id_total {X} : Total (by_id (X := X)).
Proof. intros a b. unfold by_id. lia. Qed.
#[export] Instance by_id_trans {X} : Transitive (by_id (X := X)).
Proof. intros a b c. unfold by_id. lia. Qed.

Definition ascending {X} (m : gmap Z X) : list (Z * X) := merge_sort by_id (map_to_list m).

Section Listeners.
Context {L : Type}.
Implicit Types m : t L.

Definition set_notifications (x : gmap Z (L * list bytes)) m : t L :=
  mk x (_connectedListeners m) (_disconnectedListeners m) (_id m).
Definition set_connected (x : gmap Z L) m : t L := mk (_notificationsListeners m) x (_disconnectedListeners m) (_id m).
Definition set_disconnected (x : gmap Z L) m : t L := mk (_notificationsListeners m) (_connectedListeners m) x (_id m).

(** [_id.fetch_add(1)] *)
Definition nextId : ST (t L) Z := fun m =>
  (Ret (_id m), mk (_notificationsListeners m) (_connectedListeners m) (_disconnectedListeners m) (swrap 32 (_id m + 1))).

Definition addNotificationEventListener (callback : L) : ST (t L) Z :=
  id ← nextId;
  _ ← modify (fun m => set_notifications (<[id := (callback, [])]> (_notificationsListeners m)) m);
  mret id.
Definition addConnectedEventListener (callback : L) : ST (t L) Z :=
  id ← nextId; _ ← modify (fun m => set_connected (<[id := callback]> (_connectedListeners m)) m); mret id.
Definition addDisconnectedEventListener (callback : L) : ST (t L) Z :=
  id ← nextId; _ ← modify (fun m => set_disconnected (<[id := callback]> (_disconnectedListeners m)) m); mret id.

(** [updateValueIfExist] *)
Definition update (id : Z) (f : list bytes -> list bytes) : ST (t L) unit :=
  modify (fun m => set_notifications (alter (fun p => (p.1, f p.2)) id (_notificationsListeners m)) m).

Definition notificationEventListenerAddSubscriptionIds (id : Z) (subscriptionIds : list bytes) : ST (t L) unit :=
  update id (fun ids => ids ++ subscriptionIds).

(** [toRemove.erase(std::remove(toRemove.begin(), toRemove.end(), x))]: one
    position is erased, so all but one of the places past the elements that
    stay are left, and what they hold is not specified ([rest]). *)
Context (rest : bytes -> list bytes -> list bytes).

Definition erase_removed (x : bytes) (l : list bytes) : list bytes :=
  filter (fun y => y <> x) l ++ take (length (filter (fun y => y = x) l) - 1) (rest x l).

(** The loop over a listener's ids. *)
Fixpoint remove_ids (toRemove l : list bytes) : list bytes :=
  match l with
  | [] => []
  | s :: l => if bool_decide (s ∈ toRemove) then remove_ids (erase_removed s toRemove) l else s :: remove_ids toRemove l
  end.

Definition notificationEventListenerRemoveSubscriptionIds (id : Z) (subscriptionIds : list bytes) : ST (t L) unit :=
  update id (remove_ids subscriptionIds).

Definition removeNotificationEventListener (id : Z) : ST (t L) unit :=
  modify (fun m => set_notifications (delete id (_notificationsListeners m)) m).
Definition removeConnectedEventListener (id : Z) : ST (t L) unit :=
  modify (fun m => set_connected (delete id (_connectedListeners m)) m).
Definition removeDisconnectedEventListener (id : Z) : ST (t L) unit :=
  modify (fun m => set_disconnected (delete id (_disconnectedListeners m)) m).

(** ** Calling them *)
Context `{!Dynamic} {W : Type} (middleware : W -> t L) (call : L -> bytes -> NotificationEvent -> ST W unit).

(** The ids of a listener meet the notification's. *)
Definition concerned (n : NotificationEvent) (ids : list bytes) : bool :=
  existsb (fun s => bool_decide (s ∈ ids)) (ne_subscriptions n).

(** Under the map's lock; each callback's errors end with it. *)
Definition emitNotificationEvent (type : bytes) (n : NotificationEvent) : ST W unit :=
  m ← gets middleware;
  for_each (ascending (_notificationsListeners m)) (fun p =>
    if concerned n p.2.2 then exec (call p.2.1 type n) else mret tt).

Definition emitConnectedEvent (call_plain : L -> ST W unit) : ST W unit :=
  m ← gets middleware; for_each (ascending (_connectedListeners m)) (fun p => exec (call_plain p.2)).
Definition emitDisconnectedEvent (call_plain : L -> ST W unit) : ST W unit :=
  m ← gets middleware; for_each (ascending (_disconnectedListeners m)) (fun p => exec (call_plain p.2)).

(** ** Who is called *)

(** The listeners a notification reaches, in the order they are called. *)
Definition notified (n : NotificationEvent) m : list (Z * L) :=
  (fun p => (p.1, p.2.1)) <$> List.filter (fun p => concerned n p.2.2) (ascending (_notificationsListeners m)).

Lemma concerned_spec n ids : concerned n ids = true <-> exists s, s ∈ ne_subscriptions n /\ s ∈ ids.
Proof.
  unfold concerned. rewrite existsb_exists. setoid_rewrite bool_decide_eq_true. by setoid_rewrite <- list_elem_of_In.
Qed.

Lemma elem_of_ascending {X} (m : gmap Z X) id x : (id, x) ∈ ascending m <-> m !! id = Some x.
Proof. unfold ascending. by rewrite merge_sort_Permutation, elem_of_map_to_list. Qed.

Lemma elem_of_notified n m id cb : (id, cb) ∈ notified n m <->
  exists ids, _notificationsListeners m !! id = Some (cb, ids) /\ exists s, s ∈ ne_subscriptions n /\ s ∈ ids.
Proof.
  unfold notified. rewrite list_elem_of_fmap. split.
  - intros ([i [c ids]] & [= -> ->] & Hin). rewrite list_elem_of_In, filter_In, <- list_elem_of_In, elem_of_ascending in Hin.
    destruct Hin as [Hl Hc%concerned_spec]. by exists ids.
  - intros (ids & Hl & Hc%concerned_spec). exists (id, (cb, ids)). split; [done|].
    by rewrite list_elem_of_In, filter_In, <- list_elem_of_In, elem_of_ascending.
Qed.

Lemma ascending_sorted {X} (m : gmap Z X) : StronglySorted Z.lt (ascending m).*1.
Proof.
  assert (StronglySorted by_id (ascending m)) as Hs by apply (StronglySorted_merge_sort by_id).
  assert (NoDup (ascending m).*1) as Hn.
  { unfold ascending. rewrite merge_sort_Permutation. apply NoDup_fst_map_to_list. }
  induction Hs as [|p l Hs IH HF]; cbn; [constructor|]. cbn in Hn. apply NoDup_cons in Hn as [Hn1 Hn2].
  constructor; [by apply IH|]. apply Forall_forall. intros i Hi.
  assert (p.1 <> i) by congruence. apply list_elem_of_fmap in Hi as (q & -> & Hq).
  pose proof (proj1 (Forall_forall _ _) HF q Hq) as Hle. unfold by_id in Hle. lia.
Qed.

Lemma sorted_sublist {X Y} (f : X -> bool) (g : X -> Z) (h : X -> Y) (l : list X) : StronglySorted Z.lt (g <$> l) ->
  StronglySorted Z.lt ((fun p => (g p, h p)) <$> List.filter f l).*1.
Proof.
  induction l as [|x l IH]; cbn; [constructor|]. intros [Hs HF]%StronglySorted_inv. destruct (f x); cbn; [|by apply IH].
  constructor; [by apply IH|]. apply Forall_forall. intros i Hi.
  apply list_elem_of_fmap in Hi as ([j y] & -> & Hi). apply list_elem_of_fmap in Hi as (z & [= -> ->] & Hz).
  apply (proj1 (Forall_forall _ _) HF). rewrite list_elem_of_In, filter_In, <- list_elem_of_In in Hz.
  destruct Hz as [Hz _]. apply list_elem_of_fmap. by exists z.
Qed.

Lemma notified_sorted n m : StronglySorted Z.lt (notified n m).*1.
Proof. apply (sorted_sublist _ fst (fun p => p.2.1)), ascending_sorted. Qed.

Lemma notification_run type n (w : W) :
  emitNotificationEvent type n w = for_each (notified n (middleware w)) (fun p => exec (call p.2 type n)) w.
Proof.
  unfold emitNotificationEvent, notified. unfold_st. cbn. generalize (ascending (_notificationsListeners (middleware w))).
  intros l. revert w. induction l as [|p l IH]; intros w; [done|]. cbn [for_each List.filter]. unfold_st.
  destruct (concerned n p.2.2); cbn [fmap list_fmap for_each]; unfold_st; [|apply IH].
  destruct (exec _ w) as [[[]|] w']; [apply IH|done].
Qed.

(** Of an id given once nothing is left over. *)
Lemma erase_removed_once s ids : NoDup ids -> s ∈ ids -> erase_removed s ids = filter (fun y => y <> s) ids.
Proof.
  intros Hn Hin. assert (length (filter (fun y => y = s) ids) = 1%nat) as H1.
  { induction Hn as [|x ids Hx Hn IH]; [by apply elem_of_nil in Hin|]. apply elem_of_cons in Hin as [<-|Hin].
    - rewrite filter_cons_True by done. cbn. f_equal. rewrite filter_drops; [done|]. by intros y Hy ->.
    - rewrite filter_cons_False by (intros ->; done). by apply IH. }
  unfold erase_removed. rewrite H1. apply app_nil_r.
Qed.

(** Removing different ids takes those the list holds once out of it, and no
    others. *)
Lemma remove_ids_once ids l : NoDup ids -> NoDup (filter (fun s => s ∈ ids) l) ->
  remove_ids ids l = filter (fun s => s ∉ ids) l.
Proof.
  revert ids. induction l as [|s l IH]; intros ids Hn Hl; [done|]. cbn [remove_ids].
  case_bool_decide as Hin.
  2:{ rewrite filter_cons_True by done. rewrite filter_cons_False in Hl by done. by rewrite IH. }
  rewrite filter_cons_False by tauto. rewrite filter_cons_True in Hl by done. apply NoDup_cons in Hl as [Hs Hl].
  assert (s ∉ l) as Hsl by (intros Hx; apply Hs; by apply list_elem_of_filter).
  rewrite erase_removed_once, IH; [apply filter_agree|by apply NoDup_filter| |done..].
  - intros x Hx. rewrite list_elem_of_filter. split; [|tauto]. intros Hne Hx'. apply Hne. split; [|done]. by intros ->.
  - erewrite filter_agree; [exact Hl|]. intros x Hx. rewrite list_elem_of_filter. split; [tauto|].
    intros ?. split; [by intros ->|done].
Qed.

(** C35: a listener is told of exactly the notifications for its subscriptions:
    with ids added to a listener's, a notification reaches it, once, if it
    carries one of them or one it had, the other listeners as before, and all
    in the order of their ids; removing them leaves the table as it was. *)
Theorem subscriptions_notified m id cb old ids :
  _notificationsListeners m !! id = Some (cb, old) -> NoDup (old ++ ids) ->
  let m' := (notificationEventListenerAddSubscriptionIds id ids m).2 in
  (forall n, (exists f, (id, f) ∈ notified n m') <-> exists s, s ∈ ne_subscriptions n /\ (s ∈ old \/ s ∈ ids))
  /\ (forall n i f, i <> id -> (i, f) ∈ notified n m' <-> (i, f) ∈ notified n m)
  /\ (forall type n w, middleware w = m' -> StronglySorted Z.lt (notified n m').*1
       /\ emitNotificationEvent type n w = for_each (notified n m') (fun p => exec (call p.2 type n)) w)
  /\ (notificationEventListenerRemoveSubscriptionIds id ids m').2 = m.
Proof.
  intros Hl Hn m'. apply NoDup_app in Hn as (Ho & Hd & Hi).
  assert (_notificationsListeners m' !! id = Some (cb, old ++ ids)) as Hl'.
  { cbn. by rewrite lookup_alter_eq, Hl. }
  split; [|split; [|split]].
  - intros n. setoid_rewrite elem_of_notified. rewrite Hl'. split.
    + intros (f & x & [= <- <-] & s & Hs & Hx). exists s. by rewrite <- elem_of_app.
    + intros (s & Hs & Hx). exists cb, (old ++ ids). split; [done|]. exists s. by rewrite elem_of_app.
  - intros n i f Hne. rewrite !elem_of_notified. cbn. by rewrite lookup_alter_ne.
  - intros type n w Hw. split; [apply notified_sorted|]. by rewrite notification_run, Hw.
  - unfold notificationEventListenerRemoveSubscriptionIds, update. cbn. destruct m as [ns cs ds k]. cbn in *.
    unfold set_notifications. cbn. f_equal. apply map_eq. intros i. destruct (decide (i = id)) as [->|Hne].
    + rewrite !lookup_alter_eq, Hl. cbn. rewrite remove_ids_once by (done || by apply NoDup_filter, NoDup_app).
      do 2 f_equal. rewrite filter_app, filter_keeps, filter_drops, app_nil_r; [done|..].
      * intros s Hs. tauto.
      * intros s Hs Hs'. by apply (Hd s).
    + by rewrite !lookup_alter_ne.
Qed.
End Listeners.
End EventMiddleware.

(** A listener that has one subscription and is given a second one. *)
Section Witness.
Import EventMiddleware.
#[local] Existing Instance ToyJson.dynamic.

Let listeners : t nat := mk {[ 1 := (7%nat, [[x0a]]) ]} ∅ ∅ 2.
Let after : t nat := (notificationEventListenerAddSubscriptionIds 1 [[x0b]] listeners).2.

Lemma subscriptions_notified_witness :
  (exists f, (1, f) ∈ notified (H := ToyJson.dynamic []) (mkNotification SERVER [] None 1 0 [[x0b]; [x0c]]) after)
  /\ (notificationEventListenerRemoveSubscriptionIds (fun _ _ => []) 1 [[x0b]] after).2 = listeners.
Proof.
  destruct (subscriptions_notified (H := ToyJson.dynamic []) (fun _ _ => []) (W := t nat) id (fun _ _ _ => mret tt) listeners 1 7%nat
    [[x0a]] [[x0b]]) as (Hn & _ & _ & Hr); [reflexivity|by apply (bool_decide_unpack _); vm_compute|].
  split; [|exact Hr]. apply Hn. exists [x0b]. split; [left|right; left].
Defined.
End Witness.
