(* ===== verification/Executor.v ===== *)
(** * Tasks on other threads

    The pool of threads (utils/src/Executor.cpp), the executors of the modules
    that put their tasks on it (utils/src/GuardedExecutor.cpp), the references
    that keep a module alive (ManualManagedClass.hpp, ExtendedPointer.hpp), the
    listeners it has in the middleware (EventMiddleware.cpp, ThreadSaveMap.hpp)
    and its destructor, which waits for its tasks (the destructors of
    ThreadApiImpl.cpp and its like).  One step of the system is what a thread
    does between two accesses to what threads share.  A step that calls a
    listener of a module that is gone is undefined in the code and no step here.
    The pool's end, when the library is freed, is not modelled. *)

From Stdlib Require Import ZArith Lia ZifyBool.
From stdpp Require Import base list relations.
From S2P Require Import Prelude.

#[local] Open Scope nat_scope.

(** ** Threads

    [At p m] is a thread at a place of the code, for the module [m];
    [Telling l] one that reports a lost connection and has the listeners of the
    modules [l] still to call, from the copy of the map it took. *)
Inductive place : Set :=
(* GuardedExecutor::exec, called from a listener: before _stopping is read,
   before the counter is raised, before the task is queued *)
| Calling | Counting | Pushing
(* the task on the pool: before _stopping is read, in the module's task, before
   the counter is lowered *)
| Started | Running | Ending
(* the pool's thread has taken what cleanup() queued, with its reference: before
   the module's reference to itself is dropped, before the task's is *)
| Cleaning | Cleaned
(* a call through a value of the interface, which holds a reference *)
| Using
(* the destructor: before the listener of notifications is removed, before that
   of lost connections is, before _stopping is set, before the condition of the
   wait is looked at, and asleep in the wait *)
| Erasing | Parting | Stopping | Waiting | Asleep.

(** A thread of the pool that is idle waits for a task; the others, when idle,
    are not in this code. *)
Inductive thread : Set := Idle | At (p : place) (m : nat) | Telling (l : list nat).
Inductive task : Set := Work (m : nat) | Cleanup (m : nat).
Inductive stage : Set := Alive | Dying | Gone.

#[export] Instance place_eq_dec : EqDecision place.
Proof. solve_decision. Defined.
#[export] Instance thread_eq_dec : EqDecision thread.
Proof. solve_decision. Defined.
#[export] Instance stage_eq_dec : EqDecision stage.
Proof. solve_decision. Defined.
#[export] Instance task_eq_dec : EqDecision task.
Proof. solve_decision. Defined.

(** A module: are its listeners of notifications and of lost connections in the
    middleware's maps, the two fields of its executor, its life and its
    reference to itself.  The counter has 64 bits; [counted] below says that it
    is the number of tasks under way and so is not lowered at 0. *)
Record guard := mkGuard { listening : bool; hearing : bool; _stopping : bool; _dataToProcess : nat; life : stage; _selfRef : bool }.

Definition set_listening (b : bool) (g : guard) := mkGuard b (hearing g) (_stopping g) (_dataToProcess g) (life g) (_selfRef g).
Definition set_hearing (b : bool) (g : guard) := mkGuard (listening g) b (_stopping g) (_dataToProcess g) (life g) (_selfRef g).
Definition set_stopping (b : bool) (g : guard) := mkGuard (listening g) (hearing g) b (_dataToProcess g) (life g) (_selfRef g).
Definition set_dataToProcess (n : nat) (g : guard) := mkGuard (listening g) (hearing g) (_stopping g) n (life g) (_selfRef g).
Definition set_life (x : stage) (g : guard) := mkGuard (listening g) (hearing g) (_stopping g) (_dataToProcess g) x (_selfRef g).
Definition set_selfRef (b : bool) (g : guard) := mkGuard (listening g) (hearing g) (_stopping g) (_dataToProcess g) (life g) b.

Record system := mkSystem { threads : list thread; _tasksToDo : list task; guards : list guard }.

(** What the threads of the world do of their own accord: deliver a notification
    to a listener, report a lost connection, call through a value, let the last
    value go ([detach()] lets the module's reference to itself go); or go on. *)
Inductive action : Set := Notify (t m : nat) | Emit (t : nat) | Use (t m : nat) | Detach (t m : nat) | Go (t : nat).

(** ** Counting threads *)
Definition hit (p : place) (m : nat) (x : thread) : nat := if decide (x = At p m) then 1 else 0.
Definition count (p : place) (m : nat) (s : system) : nat := sum_list_with (hit p m) (threads s).
Definition queued (x : task) (l : list task) : nat := sum_list_with (fun y => if decide (y = x) then 1 else 0) l.

(** The references to a module ([std::shared_ptr]): its own, those of the queued
    cleanups and those that threads hold. *)
Definition own_ref (b : bool) : nat := if b then 1 else 0.
Definition references (m : nat) (g : guard) (s : system) : nat :=
  own_ref (_selfRef g) + queued (Cleanup m) (_tasksToDo s) + count Cleaning m s + count Cleaned m s + count Using m s.

Section Steps.
(** The first threads are the pool's (PRIVMX_EXECUTOR_THREAD_POOL_SIZE). *)
Context (pool : nat).

Definition move (t : nat) (x : thread) (s : system) : system := mkSystem (<[t := x]> (threads s)) (_tasksToDo s) (guards s).
Definition push (x : task) (s : system) : system := mkSystem (threads s) (_tasksToDo s ++ [x]) (guards s).
Definition set_guard (m : nat) (g : guard) (s : system) : system := mkSystem (threads s) (_tasksToDo s) (<[m := g]> (guards s)).

(** [notify_all] *)
Definition wake (m : nat) (s : system) : system :=
  mkSystem ((fun x => if decide (x = At Asleep m) then At Waiting m else x) <$> threads s) (_tasksToDo s) (guards s).

(** The map of the notification listeners is locked, for readers, while one of
    them is called ([forAll]); the others' are called from a copy
    ([forAllLockSave]) when their map is locked no more. *)
Definition in_listener (x : thread) : bool :=
  match x with At Calling _ | At Counting _ | At Pushing _ => true | _ => false end.
Definition map_locked (s : system) : bool := existsb in_listener (threads s).

(** The modules whose listeners of lost connections are in the map. *)
Definition hearers (s : system) : list nat :=
  List.filter (fun m => match guards s !! m with Some g => hearing g | None => false end) (seq 0 (length (guards s))).

(** A thread drops its reference, the last one of which runs the destructor. *)
Definition drop_ref (t m : nat) (g : guard) (s : system) : system :=
  if references m g s =? 1 then move t (At Erasing m) (set_guard m (set_life Dying g) s) else move t Idle s.

(** The next step of a thread at a place. *)
Definition go_on (t : nat) (p : place) (m : nat) (g : guard) (s : system) : option system :=
  match p with
  | Calling => Some (move t (if _stopping g then Idle else At Counting m) s)
  | Counting => Some (move t (At Pushing m) (set_guard m (set_dataToProcess (S (_dataToProcess g)) g) s))
  | Pushing => Some (move t Idle (push (Work m) s))
  | Started => Some (move t (At (if _stopping g then Ending else Running) m) s)
  | Running => Some (move t (At Ending m) s)
  | Ending =>
      let s := move t Idle (set_guard m (set_dataToProcess (_dataToProcess g - 1) g) s) in
      Some (if _stopping g && (_dataToProcess g - 1 =? 0) then wake m s else s)
  | Cleaning => Some (move t (At Cleaned m) (set_guard m (set_selfRef false g) s))
  | Cleaned | Using => Some (drop_ref t m g s)
  | Erasing => if map_locked s then None else Some (move t (At Parting m) (set_guard m (set_listening false g) s))
  | Parting => Some (move t (At Stopping m) (set_guard m (set_hearing false g) s))
  | Stopping => Some (move t (At Waiting m) (set_guard m (set_stopping true g) s))
  | Waiting =>
      Some (if _dataToProcess g =? 0 then move t Idle (set_guard m (set_life Gone g) s) else move t (At Asleep m) s)
  | Asleep => None
  end.

(** The listener of a lost connection, called through a bare pointer: [cleanup()]
    queues a reference, if the module still has the one to itself. *)
Definition tell (t m : nat) (l : list nat) (g : guard) (s : system) : option system :=
  match life g with
  | Gone => None
  | _ => Some (move t (Telling l) (if _selfRef g then push (Cleanup m) s else s))
  end.

(** A thread that is not the pool's and is idle, and a module. *)
Definition outside (t m : nat) (s : system) : option guard :=
  match threads s !! t with Some Idle => if pool <=? t then guards s !! m else None | _ => None end.

Definition act (a : action) (s : system) : option system :=
  match a with
  | Notify t m => g ← outside t m s; if listening g then Some (move t (At Calling m) s) else None
  | Emit t =>
      match threads s !! t with
      | Some Idle => if pool <=? t then Some (move t (Telling (hearers s)) s) else None
      | _ => None
      end
  | Use t m => g ← outside t m s; if bool_decide (life g = Alive) then Some (move t (At Using m) s) else None
  | Detach t m =>
      g ← outside t m s;
      if bool_decide (life g = Alive) then Some (move t (At Using m) (set_guard m (set_selfRef false g) s)) else None
  | Go t =>
      match threads s !! t with
      | Some Idle =>
          if pool <=? t then None
          else match _tasksToDo s with
               | Work m :: l => Some (move t (At Started m) (mkSystem (threads s) l (guards s)))
               | Cleanup m :: l => Some (move t (At Cleaning m) (mkSystem (threads s) l (guards s)))
               | [] => None
               end
      | Some (At p m) => g ← guards s !! m; go_on t p m g s
      | Some (Telling []) => Some (move t Idle s)
      | Some (Telling (m :: l)) => g ← guards s !! m; tell t m l g s
      | None => None
      end
  end.

Definition step (s s' : system) : Prop := exists a, act a s = Some s'.

Fixpoint run (l : list action) (s : system) : option system :=
  match l with [] => Some s | a :: l => s ← act a s; run l s end.

(** No task is on its way, and every module is alive. *)
Definition initial (s : system) : Prop :=
  (forall x, x ∈ threads s -> x = Idle) /\ _tasksToDo s = []
  /\ forall g, g ∈ guards s -> g = mkGuard true true false 0 Alive true.
Definition reachable (s : system) : Prop := exists s0, initial s0 /\ rtc step s0 s.
End Steps.

(** The tasks of a module that its executor has counted. *)
Definition under_way (m : nat) (s : system) : nat :=
  count Pushing m s + queued (Work m) (_tasksToDo s) + count Started m s + count Running m s + count Ending m s.

Lemma sum_insert {A} (f : A -> nat) t x y l : l !! t = Some x ->
  sum_list_with f (<[t := y]> l) + f x = sum_list_with f l + f y.
Proof.
  revert t. induction l as [|z l IH]; intros [|t] Hl; try done.
  - injection Hl as ->. cbn. lia.
  - specialize (IH t Hl). change (<[S t := y]> (z :: l)) with (z :: <[t := y]> l). simpl. lia.
Qed.

Lemma sum_fmap {A B} (f : B -> nat) (g : A -> B) l : sum_list_with f (g <$> l) = sum_list_with (fun x => f (g x)) l.
Proof. induction l as [|x l IH]; [done|]. cbn. by rewrite IH. Qed.

Lemma sum_at_least {A} (f : A -> nat) t x l : l !! t = Some x -> f x <= sum_list_with f l.
Proof. revert t. induction l as [|z l IH]; intros [|t]; cbn; try done; [intros [= ->]; lia|intros Hl]. specialize (IH t Hl). lia. Qed.

Lemma sum_zero {A} (f : A -> nat) l : sum_list_with f l = 0 <-> forall x, x ∈ l -> f x = 0.
Proof.
  induction l as [|z l IH]; cbn; [split; [by intros _ x ?%not_elem_of_nil|done]|]. setoid_rewrite elem_of_cons.
  split; [intros H0 x [->|Hx]; [lia|apply IH; [lia|done]]|]. intros Hx. rewrite (Hx z) by auto. cbn. apply IH. auto.
Qed.

Lemma count_move p m t x y s : threads s !! t = Some x ->
  count p m (move t y s) + hit p m x = count p m s + hit p m y.
Proof. apply sum_insert. Qed.

Lemma count_wake p m n s : count p m (wake n s) =
  if decide (m = n) then match p with Asleep => 0 | Waiting => count Waiting m s + count Asleep m s | _ => count p m s end
  else count p m s.
Proof.
  unfold count, wake. cbn [threads]. rewrite sum_fmap. destruct (decide (m = n)) as [->|Hne].
  - destruct p; induction (threads s) as [|x l IH]; cbn; try done; rewrite IH; unfold hit; repeat case_decide; simplify_eq; try lia.
  - induction (threads s) as [|x l IH]; cbn; [done|]. rewrite IH. unfold hit. repeat case_decide; simplify_eq; done.
Qed.

Lemma count_at p m t s : threads s !! t = Some (At p m) -> 0 < count p m s.
Proof. intros Ht. pose proof (sum_at_least (hit p m) t _ _ Ht) as Hl. unfold hit in Hl at 1. rewrite decide_True in Hl by done. unfold count. lia. Qed.

Lemma count_none p m s : count p m s = 0 <-> forall t, threads s !! t <> Some (At p m).
Proof.
  unfold count. rewrite sum_zero. split.
  - intros Hz t Ht. apply list_elem_of_lookup_2, Hz in Ht. unfold hit in Ht. by rewrite decide_True in Ht.
  - intros Hn x [t Ht]%list_elem_of_lookup. unfold hit. case_decide; [|done]. subst. by destruct (Hn t).
Qed.

Lemma queued_app x l y : queued x (l ++ [y]) = queued x l + if decide (y = x) then 1 else 0.
Proof. unfold queued. rewrite sum_list_with_app. cbn. lia. Qed.

(** ** What every run keeps *)

(** The module of a task. *)
Definition task_of (x : task) : nat := match x with Work m | Cleanup m => m end.

Definition is_gone (g : guard) : bool := match life g with Gone => true | _ => false end.

(** For a module [m] with executor [g]. *)
Record counted (m : nat) (g : guard) (s : system) : Prop := {
  (* the counter is the number of tasks under way *)
  ct_tasks : _dataToProcess g = under_way m s;
  (* a module without a listener has no caller *)
  ct_callers : listening g = false -> count Calling m s + count Counting m s + count Pushing m s = 0;
  (* one thread destroys a module, once *)
  ct_destroyer : count Erasing m s + count Parting m s + count Stopping m s + count Waiting m s + count Asleep m s
    = match life g with Dying => 1 | _ => 0 end;
  (* it has removed the listeners and set _stopping in that order *)
  ct_erased : 0 < count Parting m s + count Stopping m s + count Waiting m s + count Asleep m s \/ is_gone g = true -> listening g = false;
  ct_parted : 0 < count Stopping m s + count Waiting m s + count Asleep m s \/ is_gone g = true -> hearing g = false;
  ct_stopped : 0 < count Waiting m s + count Asleep m s \/ is_gone g = true -> _stopping g = true;
  (* it sleeps only while a task is under way *)
  ct_asleep : 0 < count Asleep m s -> 0 < _dataToProcess g;
  ct_gone : is_gone g = true -> _dataToProcess g = 0;
  (* it is alive while there are references to it *)
  ct_alive : match life g with Alive => 0 < references m g s | _ => references m g s = 0 end;
}.

Definition all_counted (s : system) : Prop := forall m g, guards s !! m = Some g -> counted m g s.

Lemma unlocked_none s m : map_locked s = false -> count Calling m s = 0 /\ count Counting m s = 0 /\ count Pushing m s = 0.
Proof.
  intros Hl. rewrite !count_none. repeat split; intros t Ht; apply not_true_iff_false in Hl; apply Hl;
    apply existsb_exists; eexists; (split; [eapply list_elem_of_In, list_elem_of_lookup_2, Ht|done]).
Qed.

#[local] Arguments count : simpl never.
#[local] Arguments queued : simpl never.

Lemma hit_at p m q n : hit p m (At q n) = if bool_decide (p = q) then if bool_decide (m = n) then 1 else 0 else 0.
Proof. unfold hit. repeat case_decide; repeat case_bool_decide; simplify_eq; done. Qed.
Lemma hit_idle p m : hit p m Idle = 0.
Proof. done. Qed.
Lemma hit_telling p m l : hit p m (Telling l) = 0.
Proof. done. Qed.

Lemma count_moved p m t x y s s' : threads s !! t = Some x -> threads s' = <[t := y]> (threads s) ->
  count p m s' + hit p m x = count p m s + hit p m y.
Proof. intros Ht Hs. unfold count. rewrite Hs. by apply sum_insert. Qed.

(** The numbers of threads of a module after thread [t] went from [x] to [y]. *)
Ltac places :=
  repeat match goal with
  | H : context [bool_decide (?p = ?q :> place)] |- _ =>
      let b := eval cbv in (bool_decide (p = q)) in change (bool_decide (p = q)) with b in H
  end; cbn beta iota in *.
Ltac moved Ht m s s' :=
  let go p := (let H := fresh "Hc" in pose proof (count_moved p m _ _ _ s s' Ht eq_refl) as H; rewrite ?hit_at, ?hit_idle, ?hit_telling in H) in
  go Calling; go Counting; go Pushing; go Started; go Running; go Ending; go Cleaning; go Cleaned; go Using;
  go Erasing; go Parting; go Stopping; go Waiting; go Asleep; places.

Section Kept.
Context (pool : nat).

Ltac settle :=
  match goal with H : counted _ ?g ?s |- counted _ _ _ => destruct H; split; unfold under_way, references, is_gone in *; cbn in *;
    destruct (life g); cbn in *; try discriminate; lia end.

(** The other modules are left as they were. *)
Definition about (n : nat) (x : thread) : Prop := match x with At _ m => m = n | _ => True end.

Lemma about_others p m n x : m <> n -> about n x -> hit p m x = 0.
Proof. destruct x as [|q k|l]; [done| |done]. intros Hm ->. rewrite hit_at. by repeat case_bool_decide. Qed.

Lemma others_counted m n t x y g s s' : m <> n -> threads s !! t = Some x -> threads s' = <[t := y]> (threads s) ->
  about n x -> about n y -> (forall x, task_of x = m -> queued x (_tasksToDo s') = queued x (_tasksToDo s)) ->
  counted m g s -> counted m g s'.
Proof.
  intros Hm Ht Hs Hx Hy Hq [H1 H2 H3 H4 H5 H6 H7 H8 H9].
  assert (forall p, count p m s' = count p m s) as Hc.
  { intros p. pose proof (count_moved p m t x y s s' Ht Hs) as He.
    rewrite !about_others with (n := n) in He by done. lia. }
  split; unfold under_way, references; rewrite ?Hc, ?Hq by done; done.
Qed.

(** A step of [n]'s: what is left to show is about [n]. *)
Lemma step_of n g' t x y s s' : all_counted s -> threads s !! t = Some x -> threads s' = <[t := y]> (threads s) ->
  about n x -> about n y -> (forall x, task_of x <> n -> queued x (_tasksToDo s') = queued x (_tasksToDo s)) ->
  guards s' = <[n := g']> (guards s) -> (n < length (guards s) -> counted n g' s') -> all_counted s'.
Proof.
  intros Hall Ht Hs Hx Hy Hq Hg Hn m g Hm. rewrite Hg in Hm. destruct (decide (m = n)) as [->|Hne].
  - pose proof (lookup_lt_Some _ _ _ Hm) as Hl. rewrite length_insert in Hl. rewrite list_lookup_insert_eq in Hm by done.
    injection Hm as <-. by apply Hn.
  - rewrite list_lookup_insert_ne in Hm by done. apply (others_counted m n t x y g s s'); try done; [intros k <-; by apply Hq|by apply Hall].
Qed.

Lemma woken_others m n g s : m <> n -> counted m g s -> counted m g (wake n s).
Proof.
  intros Hne [H1 H2 H3 H4 H5 H6 H7 H8 H9].
  assert (forall p, count p m (wake n s) = count p m s) as Hc by (intros p; by rewrite count_wake, decide_False).
  split; unfold under_way, references; rewrite ?Hc; done.
Qed.

Lemma wakes_counted t x y n g' s s' : all_counted s -> threads s !! t = Some x -> threads s' = <[t := y]> (threads s) ->
  about n x -> about n y -> _tasksToDo s' = _tasksToDo s ->
  guards s' = <[n := g']> (guards s) -> (n < length (guards s) -> counted n g' (wake n s')) -> all_counted (wake n s').
Proof.
  intros Hall Ht Hs Hx Hy Hq Hg Hn m g Hm. cbn in Hm. rewrite Hg in Hm. destruct (decide (m = n)) as [->|Hne].
  - pose proof (lookup_lt_Some _ _ _ Hm) as Hl. rewrite length_insert in Hl. rewrite list_lookup_insert_eq in Hm by done.
    injection Hm as <-. by apply Hn.
  - rewrite list_lookup_insert_ne in Hm by done. apply woken_others; [done|].
    apply (others_counted m n t x y g s s'); try done; [intros k _; by rewrite Hq|by apply Hall].
Qed.

(** A step that leaves the executors alone. *)
Lemma moves_only n t x y s s' : all_counted s -> threads s !! t = Some x -> threads s' = <[t := y]> (threads s) ->
  about n x -> about n y -> (forall x, task_of x <> n -> queued x (_tasksToDo s') = queued x (_tasksToDo s)) ->
  guards s' = guards s -> (forall g, guards s !! n = Some g -> counted n g s') -> all_counted s'.
Proof.
  intros Hall Ht Hs Hx Hy Hq Hg Hn m g Hm. rewrite Hg in Hm. destruct (decide (m = n)) as [->|Hne]; [by apply Hn|].
  apply (others_counted m n t x y g s s'); try done; [intros k <-; by apply Hq|by apply Hall].
Qed.

(** The arithmetic of one step of [n]'s, [g] its executor before. *)
Ltac tally Ht Hg n s s' :=
  moved Ht n s s'; rewrite ?bool_decide_eq_true_2 in * by reflexivity; settle.
Ltac thread_moves Ht Hg n t s s' :=
  eapply (moves_only n t); try done;
    let g0 := fresh "g" in let H0 := fresh "Hg" in
    intros g0 H0; rewrite Hg in H0; injection H0 as <-; tally Ht Hg n s s'.
Ltac woken n s :=
  let go p := (let H := fresh "Hw" in pose proof (count_wake p n n s) as H; rewrite decide_True in H by reflexivity; cbn in H) in
  go Calling; go Counting; go Pushing; go Started; go Running; go Ending; go Cleaning; go Cleaned; go Using;
  go Erasing; go Parting; go Stopping; go Waiting; go Asleep.
Ltac guard_moves Ht Hg n t s s' := eapply (step_of n _ t); try done; intros _; tally Ht Hg n s s'.

Lemma drop_counted t p n g s : all_counted s -> threads s !! t = Some (At p n) -> guards s !! n = Some g ->
  p = Cleaned \/ p = Using -> all_counted (drop_ref t n g s).
Proof.
  intros Hall Ht Hg Hp. pose proof (count_at p n t s Ht) as Hat. pose proof (Hall n g Hg) as Hold. unfold drop_ref.
  destruct (Nat.eqb_spec (references n g s) 1) as [Hr|Hr]; destruct Hp as [-> | ->].
  1-2: match goal with |- all_counted ?x => guard_moves Ht Hg n t s x end.
  all: thread_moves Ht Hg n t s (move t Idle s).
Qed.

Lemma go_counted t p n g s s' : all_counted s -> threads s !! t = Some (At p n) -> guards s !! n = Some g ->
  go_on t p n g s = Some s' -> all_counted s'.
Proof.
  intros Hall Ht Hg Hs. pose proof (count_at p n t s Ht) as Hat. pose proof (Hall n g Hg) as Hold.
  destruct p; cbn [go_on] in Hs.
  - injection Hs as <-. destruct (_stopping g) eqn:Hst.
    + thread_moves Ht Hg n t s (move t Idle s).
    + thread_moves Ht Hg n t s (move t (At Counting n) s).
  - injection Hs as <-. match goal with |- all_counted ?x => guard_moves Ht Hg n t s x end.
  - injection Hs as <-. eapply (moves_only n t); try done.
    { intros k Hk. cbn. rewrite queued_app, decide_False by (intros <-; by apply Hk). lia. }
    intros g0 Hg0. rewrite Hg in Hg0. injection Hg0 as <-.
    pose proof (queued_app (Work n) (_tasksToDo s) (Work n)) as Hq. rewrite decide_True in Hq by done.
    pose proof (queued_app (Cleanup n) (_tasksToDo s) (Work n)) as Hq2. rewrite decide_False in Hq2 by done.
    tally Ht Hg n s (move t Idle (push (Work n) s)).
  - injection Hs as <-. destruct (_stopping g) eqn:Hst.
    + thread_moves Ht Hg n t s (move t (At Ending n) s).
    + thread_moves Ht Hg n t s (move t (At Running n) s).
  - injection Hs as <-. thread_moves Ht Hg n t s (move t (At Ending n) s).
  - injection Hs as <-. set (g' := set_dataToProcess _ _). destruct (_stopping g) eqn:Hst; cbn [andb].
    2:{ match goal with |- all_counted ?x => guard_moves Ht Hg n t s x end. }
    destruct (Nat.eqb_spec (_dataToProcess g - 1) 0) as [Hz|Hz].
    2:{ match goal with |- all_counted ?x => guard_moves Ht Hg n t s x end. }
    apply (wakes_counted t (At Ending n) Idle n g' s); try done. intros _. set (s1 := move t Idle _).
    moved Ht n s s1. rewrite ?bool_decide_eq_true_2 in * by reflexivity. woken n s1. settle.
  - injection Hs as <-. match goal with |- all_counted ?x => guard_moves Ht Hg n t s x end.
  - injection Hs as <-. apply (drop_counted t Cleaned n g s); auto.
  - injection Hs as <-. apply (drop_counted t Using n g s); auto.
  - destruct (map_locked s) eqn:Hl; [done|]. injection Hs as <-. destruct (unlocked_none s n Hl) as (Hu1 & Hu2 & Hu3).
    match goal with |- all_counted ?x => guard_moves Ht Hg n t s x end.
  - injection Hs as <-. match goal with |- all_counted ?x => guard_moves Ht Hg n t s x end.
  - injection Hs as <-. match goal with |- all_counted ?x => guard_moves Ht Hg n t s x end.
  - injection Hs as <-. destruct (Nat.eqb_spec (_dataToProcess g) 0).
    + match goal with |- all_counted ?x => guard_moves Ht Hg n t s x end.
    + thread_moves Ht Hg n t s (move t (At Asleep n) s).
  - done.
Qed.

Lemma taken_counted t x l s : all_counted s -> threads s !! t = Some Idle -> _tasksToDo s = x :: l ->
  all_counted (move t (match x with Work m => At Started m | Cleanup m => At Cleaning m end) (mkSystem (threads s) l (guards s))).
Proof.
  intros Hall Ht Hq. set (s' := move _ _ _). set (n := task_of x).
  eapply (moves_only n t); try done.
  - by destruct x.
  - intros k Hk. cbn. rewrite Hq. unfold queued. cbn. rewrite decide_False; [done|]. by intros <-.
  - intros g Hg. pose proof (Hall n g Hg) as Hold.
    assert (forall k, queued k (_tasksToDo s) = queued k (_tasksToDo s') + if decide (x = k) then 1 else 0) as Hn.
    { intros k. unfold s'. rewrite Hq. unfold queued. cbn. lia. }
    pose proof (Hn (Work n)) as Hw. pose proof (Hn (Cleanup n)) as Hc. clear Hn.
    destruct x as [m|m]; subst n; cbn [task_of] in *.
    + rewrite decide_True in Hw by done. rewrite decide_False in Hc by done. tally Ht Hg m s s'.
    + rewrite decide_False in Hw by done. rewrite decide_True in Hc by done. tally Ht Hg m s s'.
Qed.

(** A thread outside all modules stays outside. *)
Lemma told_counted t x y s s' : all_counted s -> threads s !! t = Some x -> threads s' = <[t := y]> (threads s) ->
  (forall p m, hit p m x = 0 /\ hit p m y = 0) -> _tasksToDo s' = _tasksToDo s -> guards s' = guards s -> all_counted s'.
Proof.
  intros Hall Ht Hs Hxy Hq Hg m g Hm. rewrite Hg in Hm. destruct (Hall m g Hm) as [H1 H2 H3 H4 H5 H6 H7 H8 H9].
  assert (forall p, count p m s' = count p m s) as Hc.
  { intros p. pose proof (count_moved p m t x y s s' Ht Hs) as He. destruct (Hxy p m). lia. }
  split; unfold under_way, references; rewrite ?Hc, ?Hq; done.
Qed.

Lemma tell_counted t n l g s s' : all_counted s -> threads s !! t = Some (Telling (n :: l)) -> guards s !! n = Some g ->
  tell t n l g s = Some s' -> all_counted s'.
Proof.
  intros Hall Ht Hg Hs. pose proof (Hall n g Hg) as Hold. unfold tell in Hs.
  assert (all_counted (move t (Telling l) (if _selfRef g then push (Cleanup n) s else s))) as Hok.
  { destruct (_selfRef g) eqn:Hself; [|by eapply (told_counted t _ (Telling l) s)].
    eapply (moves_only n t); try done.
    { intros k Hk. cbn. rewrite queued_app, decide_False by (intros <-; by apply Hk). lia. }
    intros g0 Hg0. rewrite Hg in Hg0. injection Hg0 as <-.
    pose proof (queued_app (Work n) (_tasksToDo s) (Cleanup n)) as Hq. rewrite decide_False in Hq by done.
    pose proof (queued_app (Cleanup n) (_tasksToDo s) (Cleanup n)) as Hq2. rewrite decide_True in Hq2 by done.
    destruct g as [li he st n0 [] sr]; cbn in Hself; subst sr;
      tally Ht Hg n s (move t (Telling l) (push (Cleanup n) s)). }
  destruct (life g); [| |done]; by injection Hs as <-.
Qed.

Lemma outside_inv t m s g : outside pool t m s = Some g -> threads s !! t = Some Idle /\ guards s !! m = Some g /\ pool <= t.
Proof.
  unfold outside. destruct (threads s !! t) as [[]|]; [|done..]. destruct (Nat.leb_spec pool t); [|done]. done.
Qed.

Lemma act_counted a s s' : act pool a s = Some s' -> all_counted s -> all_counted s'.
Proof.
  intros Ha Hall. destruct a as [t n|t|t n|t n|t]; cbn [act] in Ha.
  1,3,4: destruct (outside pool t n s) as [g|] eqn:Ho; [|done]; cbn in Ha; apply outside_inv in Ho as (Ht & Hg & _);
    pose proof (Hall n g Hg) as Hold.
  - destruct (listening g) eqn:Hc; [|done]. injection Ha as <-. thread_moves Ht Hg n t s (move t (At Calling n) s).
  - case_bool_decide as Hc; [|done]. injection Ha as <-. thread_moves Ht Hg n t s (move t (At Using n) s).
  - case_bool_decide as Hc; [|done]. injection Ha as <-. match goal with |- all_counted ?x => guard_moves Ht Hg n t s x end.
  - destruct (threads s !! t) as [[]|] eqn:Ht; try done. destruct (_ <=? _); [|done]. injection Ha as <-.
    by eapply (told_counted t Idle (Telling (hearers s)) s).
  - destruct (threads s !! t) as [[|p n|[|n l]]|] eqn:Ht; try done.
    + destruct (_ <=? _); [done|]. destruct (_tasksToDo s) as [|x l] eqn:Hq; [done|].
      assert (s' = move t (match x with Work m => At Started m | Cleanup m => At Cleaning m end) (mkSystem (threads s) l (guards s)))
        as -> by (destruct x; congruence).
      by apply taken_counted.
    + destruct (guards s !! n) as [g|] eqn:Hg; [|done]. by apply (go_counted t p n g s s').
    + injection Ha as <-. by eapply (told_counted t (Telling []) Idle s).
    + destruct (guards s !! n) as [g|] eqn:Hg; [|done]. by apply (tell_counted t n l g s s').
Qed.

Lemma initial_counted s : initial s -> all_counted s.
Proof.
  intros (Ht & Hq & Hg) m g Hm. rewrite (Hg g) by (by eapply list_elem_of_lookup_2).
  assert (forall p, count p m s = 0) as Hz by (intros p; apply sum_zero; by intros x ->%Ht).
  split; unfold under_way, references; rewrite ?Hz, ?Hq; cbn; lia || done.
Qed.

Lemma reachable_counted s : reachable pool s -> all_counted s.
Proof.
  intros (s0 & Hi & Hr). apply initial_counted in Hi. revert Hi. induction Hr as [|s1 s2 s3 [a Ha] _ IH]; [done|].
  intros Hc. by apply IH, (act_counted a s1).
Qed.
End Kept.
