(* ===== verification/ExecutorRuns.v ===== *)
(** * What becomes of the tasks

    The theorems about the system of the file Executor: none of a module's tasks
    is left when its destructor has returned, but a thread may still be about to
    call one of its listeners; a destructor that leaves the pool a thread
    returns, and four that do not may never. *)

From Stdlib Require Import ZArith Lia ZifyBool.
From stdpp Require Import base list relations.
From S2P Require Import Prelude Executor.

#[local] Open Scope nat_scope.
#[local] Arguments count : simpl never.
#[local] Arguments queued : simpl never.

(** ** No task outlives its module *)

Lemma queued_in x l : x ∈ l -> 0 < queued x l.
Proof.
  intros [i Hi]%list_elem_of_lookup. pose proof (sum_at_least (fun y => if decide (y = x) then 1 else 0) i _ _ Hi) as Hle.
  cbn in Hle. rewrite decide_True in Hle by done. unfold queued. lia.
Qed.

(** C38: when a module's destructor has returned, no thread is in its listener
    of notifications, in one of its tasks, in a call through one of its values
    or in its destructor, and neither a task nor a cleanup of it is queued;
    until then its executor's counter is the number of its tasks under way, one
    thread at most destroys it, and a destructor sleeps only while there is such
    a task, the end of the last of which wakes it.  (That end may never come:
    [destructors_starve_pool].  And a thread that reports a lost connection may
    still hold the dead module: [listener_after_destructor].) *)
Theorem tasks_end_first pool s m g : reachable pool s -> guards s !! m = Some g ->
  (life g = Gone -> (forall t p, threads s !! t <> Some (At p m)) /\ (Work m ∉ _tasksToDo s) /\ (Cleanup m ∉ _tasksToDo s))
  /\ _dataToProcess g = under_way m s
  /\ count Erasing m s + count Parting m s + count Stopping m s + count Waiting m s + count Asleep m s <= 1
  /\ (forall t, threads s !! t = Some (At Asleep m) -> 0 < under_way m s
       /\ (forall u s', under_way m s = 1 -> threads s !! u = Some (At Ending m) -> act pool (Go u) s = Some s' ->
            threads s' !! t = Some (At Waiting m))).
Proof.
  intros Hr Hg. destruct (reachable_counted pool s Hr m g Hg) as [H1 H2 H3 H4 _ H5 H6 H7 H8]. unfold is_gone in *.
  split; [|split; [done|split; [destruct (life g); lia|]]].
  - intros Hl. rewrite Hl in *. assert (under_way m s = 0) as Hz by (rewrite <- H1; by apply H7).
    unfold under_way in Hz. unfold references in H8. split; [|split].
    + intros t p Ht%count_at. destruct p; specialize (H2 (H4 (or_intror eq_refl))); lia.
    + intros Hin%queued_in. lia.
    + intros Hin%queued_in. lia.
  - intros t Ht. pose proof (count_at _ _ _ _ Ht) as Hc. split; [rewrite <- H1; by apply H6|].
    intros u s' Hone Hu Ha. assert (u <> t) as Hne by congruence.
    cbn [act] in Ha. rewrite Hu, Hg in Ha. cbn in Ha. rewrite H1, Hone, H5 in Ha by (left; lia). cbn in Ha. injection Ha as <-.
    unfold wake. cbn. rewrite list_lookup_fmap, list_lookup_insert_ne, Ht by done. cbn. by rewrite decide_True.
Qed.

(** ** A listener called too late *)

Lemma run_steps pool l : forall s s', run pool l s = Some s' -> rtc (step pool) s s'.
Proof.
  induction l as [|a l IH]; intros s s'; cbn; [by intros [= <-]|]. destruct (act pool a s) as [s1|] eqn:Ha; [|done].
  intros Hr. eapply rtc_l; [by exists a|]. by apply IH.
Qed.

(** A pool of one thread, two threads beside it and one module. *)
Definition late : system := mkSystem [Idle; Idle; Idle] [] [mkGuard true true false 0 Alive true].

(** The copy of the listeners is taken; the application lets the module go, and
    its destructor runs to its end, before the copy is used. *)
Definition too_late : list action := [Emit 1; Detach 2 0; Go 2; Go 2; Go 2; Go 2; Go 2].

(** A thread that reports a lost connection comes to the listener of a module
    whose destructor has returned: the listeners are called from a copy of
    their map, which their removal does not reach. *)
Theorem listener_after_destructor : exists s g, reachable 1 s
  /\ threads s !! 1 = Some (Telling [0]) /\ guards s !! 0 = Some g /\ life g = Gone.
Proof.
  destruct (run 1 too_late late) as [s|] eqn:Hr; [|by vm_compute in Hr].
  assert (reachable 1 s) as Hreach.
  { exists late. split; [|by apply (run_steps 1 too_late)]. split; [|split; [done|]].
    - intros x [->|[->|[->|[]%not_elem_of_nil]%elem_of_cons]%elem_of_cons]%elem_of_cons; done.
    - by intros g ->%list_elem_of_singleton. }
  vm_compute in Hr. injection Hr as <-. do 2 eexists. split; [exact Hreach|]. done.
Qed.

(** ** When the pool waits for itself *)

(** Every thread of the pool sleeps in the destructor of a module that has a
    task in the queue. *)
Definition starved (pool : nat) (s : system) : Prop :=
  forall t, t < pool -> exists m, threads s !! t = Some (At Asleep m) /\ Work m ∈ _tasksToDo s /\ is_Some (guards s !! m).

Lemma starved_keeps pool s s' : all_counted s -> starved pool s -> step pool s s' -> starved pool s'.
Proof.
  intros Hall Hst [a Ha] u Hu. destruct (Hst u Hu) as (m & Hu1 & Hu2 & [gm Hu3]). exists m.
  assert (forall t n, t <> u -> threads (move t n s) !! u = Some (At Asleep m)) as Hmv.
  { intros t n Hne. cbn. by rewrite list_lookup_insert_ne. }
  assert (forall n g, is_Some (<[n := g]> (guards s) !! m)) as Hgs.
  { intros n g. apply lookup_lt_is_Some. rewrite length_insert. apply lookup_lt_is_Some. by eexists. }
  destruct a as [t n|t|t n|t n|t]; cbn [act] in Ha.
  1,3,4: destruct (outside pool t n s) as [g|] eqn:Ho; [|done]; cbn in Ha; apply outside_inv in Ho as (Ht & Hg & _);
    repeat case_match; simplify_eq; (split; [apply Hmv; congruence|split; [done|apply Hgs || by eexists]]).
  - destruct (threads s !! t) as [[]|] eqn:Ht; try done. case_match; [|done]. injection Ha as <-.
    split; [apply Hmv; congruence|split; [done|by eexists]].
  - destruct (threads s !! t) as [[|p n|[|n l]]|] eqn:Ht; try done.
    + destruct (pool <=? t) eqn:Hp; [done|]. apply Nat.leb_gt in Hp. destruct (Hst t Hp) as (? & ? & _). congruence.
    + destruct (guards s !! n) as [g|] eqn:Hg; [|done]. cbn in Ha.
      destruct (decide (t = u)) as [->|Hne]; [by rewrite Hu1 in Ht; injection Ht as <- <-|].
      pose proof (count_at p n t s Ht) as Hat. pose proof (ct_tasks _ _ _ (Hall n g Hg)) as Htasks.
      destruct p; cbn [go_on] in Ha; unfold drop_ref in Ha; repeat case_match; simplify_eq;
        try (split; [apply Hmv; congruence|split; [cbn; rewrite ?elem_of_app; by auto|by (apply Hgs || eexists)]]).
      (* the last task of the module ends: but one more is queued *)
      cbn. rewrite list_lookup_fmap, list_lookup_insert_ne, Hu1 by done. cbn. rewrite decide_False; [by auto|].
      intros [= <-]. pose proof (queued_in (Work m) _ Hu2). unfold under_way in Htasks.
      match goal with H : _ && _ = true |- _ => apply andb_prop in H as [_ ?%Nat.eqb_eq] end. lia.
    + injection Ha as <-. split; [apply Hmv; congruence|split; [done|by eexists]].
    + destruct (guards s !! n) as [g|] eqn:Hg; [|done]. cbn in Ha. unfold tell in Ha.
      repeat case_match; simplify_eq; (split; [apply Hmv; congruence|split; [cbn; rewrite ?elem_of_app; by auto|by eexists]]).
Qed.

(** The pool of four threads, one thread of the network and four modules. *)
Definition four : system := mkSystem (replicate 5 Idle) [] (replicate 4 (mkGuard true true false 0 Alive true)).

(** The connection is lost; each module is told of one more thing; the pool's
    threads take up what cleanup() queued. *)
Definition lost : list action :=
  [Emit 4; Go 4; Go 4; Go 4; Go 4; Go 4]
  ++ (m ← [0; 1; 2; 3]; [Notify 4 m; Go 4; Go 4; Go 4])
  ++ (t ← [0; 1; 2; 3]; [Go t; Go t; Go t; Go t; Go t; Go t; Go t]).

(** C39: with the default pool of four threads the library can come to rest for
    good: the destructors of four modules, which cleanup() lets the pool run,
    occupy its threads, each asleep until a task of its module that waits in
    the queue has run; whatever happens from then on, they sleep. *)
Theorem destructors_starve_pool : exists s, reachable 4 s
  /\ forall s', rtc (step 4) s s' -> forall t, t < 4 -> exists m, threads s' !! t = Some (At Asleep m) /\ Work m ∈ _tasksToDo s'.
Proof.
  destruct (run 4 lost four) as [s|] eqn:Hr; [|by vm_compute in Hr].
  assert (reachable 4 s) as Hreach.
  { exists four. split; [|by apply (run_steps 4 lost)]. split; [|split; [done|]].
    - intros x Hx. by apply elem_of_replicate in Hx as [].
    - intros g Hg. by apply elem_of_replicate in Hg as []. }
  exists s. split; [done|]. intros s' Hs'.
  assert (starved 4 s) as Hst.
  { intros t Ht. exists t. vm_compute in Hr. injection Hr as <-.
    do 4 (destruct t as [|t]; [split; [done|split; [|by eexists]]; cbn; set_solver|]). lia. }
  assert (starved 4 s') as Hst'.
  { apply reachable_counted in Hreach. clear Hr. induction Hs' as [|s1 s2 s3 Hs _ IH]; [done|].
    apply IH; [destruct Hs as [a Ha]; by apply (act_counted 4 a s1)|by apply (starved_keeps 4 s1)]. }
  intros t Ht. destruct (Hst' t Ht) as (m & H1 & H2 & _). by eauto.
Qed.

(** ** A destructor that leaves the pool a thread *)

(** Threads and tasks are of modules there are. *)
Definition of_module (s : system) (x : thread) : Prop :=
  match x with Idle => True | At _ m => m < length (guards s) | Telling l => Forall (fun m => m < length (guards s)) l end.
Definition known (s : system) : Prop :=
  Forall (of_module s) (threads s) /\ Forall (fun x => task_of x < length (guards s)) (_tasksToDo s).

Lemma known_move s s' t x : known s -> threads s' = <[t := x]> (threads s) -> length (guards s') = length (guards s) ->
  of_module s x -> Forall (fun x => task_of x < length (guards s)) (_tasksToDo s') -> known s'.
Proof.
  intros [Hk _] Hs Hg Hx Hq. unfold known, of_module in *. rewrite Hs, Hg. split; [|done]. by apply Forall_insert.
Qed.

Lemma known_wake m s : known s -> known (wake m s).
Proof.
  intros [Hk Hq]. split; [|done]. cbn. apply Forall_fmap. eapply Forall_impl; [exact Hk|]. intros x Hx.
  unfold compose. case_decide; [subst|]; exact Hx.
Qed.

Lemma act_known pool a s s' : act pool a s = Some s' -> known s -> known s'.
Proof.
  intros Ha Hk. pose proof Hk as [Hks Hkq].
  destruct a as [t n|t|t n|t n|t]; cbn [act] in Ha.
  1,3,4: destruct (outside pool t n s) as [g|] eqn:Ho; [|done]; cbn in Ha; apply outside_inv in Ho as (Ht & Hg & _);
    pose proof (lookup_lt_Some _ _ _ Hg); case_match; [|done]; injection Ha as <-;
    (eapply (known_move s); [done|reflexivity|by (cbn; rewrite ?length_insert)|done|done]).
  - destruct (threads s !! t) as [[]|] eqn:Ht; try done. case_match; [|done]. injection Ha as <-.
    eapply (known_move s); [done|reflexivity|done| |done]. apply Forall_forall. intros m Hm.
    apply list_elem_of_In, filter_In in Hm as [Hm%in_seq _]. lia.
  - destruct (threads s !! t) as [[|p n|[|n l]]|] eqn:Ht; try done.
    + case_match; [done|]. destruct (_tasksToDo s) as [|[m|m] l] eqn:Hq; [done|..]; injection Ha as <-;
        apply Forall_cons in Hkq as [? ?]; by eapply (known_move s).
    + destruct (guards s !! n) as [g|] eqn:Hg; [|done]. pose proof (lookup_lt_Some _ _ _ Hg).
      assert (Forall (fun x => task_of x < length (guards s)) (_tasksToDo s ++ [Work n])) by (apply Forall_app_2; [done|by constructor]).
      destruct p; cbn in Ha; unfold drop_ref in Ha; repeat case_match; simplify_eq; try apply known_wake;
        (eapply (known_move s); [done|reflexivity|by (cbn; rewrite ?length_insert)|done|done]).
    + injection Ha as <-. by eapply (known_move s).
    + destruct (guards s !! n) as [g|] eqn:Hg; [|done]. cbn in Ha. pose proof (lookup_lt_Some _ _ _ Hg).
      pose proof (proj1 (Forall_lookup _ _) Hks t _ Ht) as Hl. apply Forall_cons in Hl as [_ Hl].
      assert (Forall (fun x => task_of x < length (guards s)) (_tasksToDo s ++ [Cleanup n])) by (apply Forall_app_2; [done|by constructor]).
      unfold tell in Ha. repeat case_match; simplify_eq; by eapply (known_move s).
Qed.

Lemma reachable_known pool s : reachable pool s -> known s.
Proof.
  intros (s0 & (Ht & Hq & _) & Hr).
  assert (known s0) as Hk by (split; [apply Forall_forall; intros x Hx; by rewrite (Ht x Hx)|rewrite Hq; constructor]).
  clear Ht Hq. revert Hk. induction Hr as [|s1 s2 s3 [a Ha] _ IH]; [done|]. intros Hk. by apply IH, (act_known pool a s1).
Qed.

(** The work that is left, but for the destructors. *)
Definition weight (x : thread) : nat :=
  match x with
  | At Calling _ => 7 | At Counting _ => 6 | At Pushing _ => 5
  | At Started _ => 3 | At Running _ => 2 | At Ending _ => 1
  | _ => 0
  end.
Definition work (s : system) : nat := sum_list_with weight (threads s) + 4 * length (_tasksToDo s).

Lemma work_moved t x y s s' : threads s !! t = Some x -> threads s' = <[t := y]> (threads s) ->
  work s' + weight x + 4 * length (_tasksToDo s) = work s + weight y + 4 * length (_tasksToDo s').
Proof. intros Ht Hs. unfold work. rewrite Hs. pose proof (sum_insert weight t x y _ Ht). lia. Qed.

Lemma work_wake m s : work (wake m s) = work s.
Proof.
  unfold work, wake. cbn [threads _tasksToDo]. f_equal. rewrite sum_fmap. induction (threads s) as [|x l IH]; [done|]. cbn.
  rewrite IH. case_decide; by subst.
Qed.

(** Nobody is about to destroy a module on the pool, one thread of the pool is
    free, and [t] waits for the tasks of [m]. *)
Definition free_thread (x : thread) : Prop := match x with Idle | At Started _ | At Running _ | At Ending _ => True | _ => False end.
Record waits (pool t m p : nat) (s : system) : Prop := {
  wt_known : known s;
  wt_counted : all_counted s;
  wt_free : p < pool /\ exists x, threads s !! p = Some x /\ free_thread x;
  wt_calm : forall n, Cleanup n ∉ _tasksToDo s;
  wt_waiting : threads s !! t = Some (At Waiting m) \/ threads s !! t = Some (At Asleep m);
}.

Lemma no_cleanup_app n l : (forall k, Cleanup k ∉ l) -> forall k, Cleanup k ∉ l ++ [Work n].
Proof. intros Hl k [H1|H1%list_elem_of_singleton]%elem_of_app; [by apply (Hl k)|done]. Qed.

Lemma weight_known s u x : known s -> threads s !! u = Some x -> 0 < weight x ->
  exists q n g, x = At q n /\ guards s !! n = Some g.
Proof.
  intros [Hk _] Hu Hw. destruct x as [|q n|l]; [cbn in Hw; lia| |cbn in Hw; lia]. pose proof (proj1 (Forall_lookup _ _) Hk u _ Hu) as Hn. cbn in Hn.
  apply lookup_lt_is_Some in Hn as [g Hg]. by exists q, n, g.
Qed.

(** A thread with work of its own goes on, and less is left. *)
Lemma worker_goes pool t m p s u x : waits pool t m p s -> threads s !! u = Some x -> 0 < weight x ->
  exists s', act pool (Go u) s = Some s' /\ work s' < work s /\ waits pool t m p s'.
Proof.
  intros [Hk Hc [Hp (z & Hz & Hfree)] Hcalm Hw] Hu Hx.
  destruct (weight_known s u x Hk Hu Hx) as (q & n & g & -> & Hg).
  assert (u <> t) as Hut by (intros ->; destruct Hw as [Hw|Hw]; rewrite Hw in Hu; injection Hu as <- <-; cbn in Hx; lia).
  assert (exists s', act pool (Go u) s = Some s' /\ work s' < work s
    /\ (forall k, Cleanup k ∉ _tasksToDo s')
    /\ (exists z, threads s' !! p = Some z /\ free_thread z)
    /\ (threads s' !! t = Some (At Waiting m) \/ threads s' !! t = Some (At Asleep m))) as (s' & Ha & Hl & H1 & H2 & H3).
  { cbn [act]. rewrite Hu, Hg. cbn [mbind option_bind].
    assert (forall y s', threads s' = <[u := y]> (threads s) -> (free_thread (At q n) -> free_thread y) ->
      (exists z, threads s' !! p = Some z /\ free_thread z)
      /\ (threads s' !! t = Some (At Waiting m) \/ threads s' !! t = Some (At Asleep m))) as Hmv.
    { intros y s' -> Hy. split.
      - destruct (decide (u = p)) as [->|Hne].
        + rewrite list_lookup_insert_eq by (by eapply lookup_lt_Some). rewrite Hu in Hz. injection Hz as <-. by eauto.
        + rewrite list_lookup_insert_ne by done. by eauto.
      - by rewrite list_lookup_insert_ne. }
    assert (forall y s', threads s' = <[u := y]> (threads s) -> (free_thread (At q n) -> free_thread y) ->
      weight y + 4 * length (_tasksToDo s') < weight (At q n) + 4 * length (_tasksToDo s) -> (forall k, Cleanup k ∉ _tasksToDo s') ->
      exists s0, Some s' = Some s0 /\ work s0 < work s /\ (forall k, Cleanup k ∉ _tasksToDo s0)
        /\ (exists z, threads s0 !! p = Some z /\ free_thread z)
        /\ (threads s0 !! t = Some (At Waiting m) \/ threads s0 !! t = Some (At Asleep m))) as Hgo.
    { intros y s' Hth Hy Hle Hcl. exists s'. pose proof (work_moved u _ y s s' Hu Hth). destruct (Hmv y s' Hth Hy).
      split; [done|split; [lia|done]]. }
    destruct q; cbn in Hx; try lia; cbn [go_on].
    - destruct (_stopping g); (eapply Hgo; [reflexivity|done|cbn; lia|done]).
    - eapply Hgo; [reflexivity|done|cbn; lia|done].
    - eapply Hgo; [reflexivity|done|cbn; rewrite length_app; cbn; lia|by apply no_cleanup_app].
    - destruct (_stopping g); (eapply Hgo; [reflexivity|done|cbn; lia|done]).
    - eapply Hgo; [reflexivity|done|cbn; lia|done].
    - set (s1 := move u Idle _). destruct (Hgo Idle s1) as (s0 & [= <-] & Hl & H1 & (z' & H2 & Hf) & H3); [done..|cbn; lia|done|].
      destruct (_ && _); [|by eauto 10]. exists (wake n s1). rewrite work_wake. split; [done|split; [done|split; [done|split]]].
      + exists z'. unfold wake. cbn [threads]. rewrite list_lookup_fmap, H2. cbn. rewrite decide_False; [done|]. by intros ->.
      + unfold wake. cbn [threads]. rewrite list_lookup_fmap. destruct H3 as [H3|H3]; rewrite H3; cbn; case_decide; simplify_eq; auto. }
  exists s'. split; [done|split; [done|]].
  split; [by apply (act_known pool (Go u) s)|by apply (act_counted pool (Go u) s)|done|done|done].
Qed.

(** A free thread of the pool takes the next task. *)
Lemma worker_takes pool t m p s l n : waits pool t m p s -> threads s !! p = Some Idle -> _tasksToDo s = Work n :: l ->
  exists s', act pool (Go p) s = Some s' /\ work s' < work s /\ waits pool t m p s'.
Proof.
  intros [Hk Hc [Hp _] Hcalm Hw] Hz Hq.
  assert (p <> t) as Hpt by (intros ->; destruct Hw as [Hw|Hw]; rewrite Hw in Hz; done).
  set (s' := move p (At Started n) (mkSystem (threads s) l (guards s))).
  assert (act pool (Go p) s = Some s') as Ha.
  { cbn [act]. rewrite Hz, Hq. by rewrite (proj2 (Nat.leb_gt _ _) Hp). }
  exists s'. split; [done|]. split.
  - pose proof (work_moved p _ (At Started n) s s' Hz eq_refl) as Hwm. rewrite Hq in Hwm.
    change (_tasksToDo s') with l in Hwm. cbn [weight length] in Hwm. lia.
  - split; [by apply (act_known pool (Go p) s)|by apply (act_counted pool (Go p) s)|..].
    + split; [done|]. exists (At Started n). split; [|done]. cbn. apply list_lookup_insert_eq. by eapply lookup_lt_Some.
    + intros k Hin. apply (Hcalm k). rewrite Hq. by right.
    + cbn. by rewrite list_lookup_insert_ne.
Qed.

(** When no work is left the wait ends. *)
Lemma wait_ends pool t m p s : waits pool t m p s -> work s = 0 ->
  exists s' g, act pool (Go t) s = Some s' /\ guards s' !! m = Some g /\ life g = Gone.
Proof.
  intros [Hk Hc _ _ Hw] H0. unfold work in H0. pose proof (proj1 (sum_zero weight (threads s)) ltac:(lia)) as Hz.
  assert (_tasksToDo s = []) as Hq by (apply length_zero_iff_nil; lia).
  assert (exists g, guards s !! m = Some g) as [g Hg].
  { destruct Hk as [Hk _]. destruct Hw as [Hw|Hw]; apply (proj1 (Forall_lookup _ _) Hk) in Hw; by apply lookup_lt_is_Some. }
  assert (forall q, 0 < weight (At q m) -> count q m s = 0) as Hn.
  { intros q Hwq. apply count_none. intros u Hu%list_elem_of_lookup_2%Hz. lia. }
  assert (_dataToProcess g = 0) as Hd.
  { rewrite (ct_tasks _ _ _ (Hc m g Hg)). unfold under_way. rewrite !Hn, Hq by (cbn; lia). done. }
  destruct Hw as [Hw|Hw].
  2:{ apply count_at in Hw. pose proof (ct_asleep _ _ _ (Hc m g Hg) Hw). lia. }
  cbn [act]. rewrite Hw, Hg. cbn. rewrite Hd. cbn. do 2 eexists. split; [done|]. cbn.
  rewrite list_lookup_insert_eq; [done|]. by eapply lookup_lt_Some.
Qed.

Lemma waits_end pool t m p k : forall s, work s <= k -> waits pool t m p s ->
  exists l s' g, run pool (Go <$> l) s = Some s' /\ guards s' !! m = Some g /\ life g = Gone.
Proof.
  induction k as [|k IH]; intros s Hk Hw.
  { destruct (wait_ends pool t m p s Hw ltac:(lia)) as (s' & g & Ha & Hg & Hl). exists [t], s', g. cbn [fmap list_fmap run].
    by rewrite Ha. }
  assert (forall u s1, act pool (Go u) s = Some s1 -> work s1 < work s -> waits pool t m p s1 ->
    exists l s' g, run pool (Go <$> l) s = Some s' /\ guards s' !! m = Some g /\ life g = Gone) as Hgo.
  { intros u s1 Ha Hl Hw1. destruct (IH s1 ltac:(lia) Hw1) as (l & s' & g & Hr & Hg). exists (u :: l), s', g.
    cbn [fmap list_fmap run]. rewrite Ha. by split. }
  destruct (decide (work s = 0)) as [H0|H0].
  { destruct (wait_ends pool t m p s Hw H0) as (s' & g & Ha & Hg & Hl). exists [t], s', g. cbn [fmap list_fmap run]. by rewrite Ha. }
  destruct (decide (Exists (fun x => 0 < weight x) (threads s))) as [Hex|Hno].
  - apply Exists_exists in Hex as (x & [u Hu]%list_elem_of_lookup & Hx).
    destruct (worker_goes pool t m p s u x Hw Hu Hx) as (s1 & Ha & Hl & Hw1). by apply (Hgo u s1).
  - destruct (wt_free _ _ _ _ _ Hw) as [Hp (z & Hz & Hf)].
    assert (forall x, x ∈ threads s -> weight x = 0) as Hall.
    { intros x Hx. destruct (decide (weight x = 0)); [done|]. destruct Hno. apply Exists_exists. exists x. split; [done|lia]. }
    assert (z = Idle) as ->.
    { apply list_elem_of_lookup_2, Hall in Hz as Hz0. destruct z as [|[] ?|]; cbn in *; done || lia. }
    destruct (_tasksToDo s) as [|[n|n] l] eqn:Hq.
    + unfold work in H0. rewrite Hq, (proj2 (sum_zero weight _) Hall) in H0. done.
    + destruct (worker_takes pool t m p s l n Hw Hz Hq) as (s1 & Ha & Hl & Hw1). by apply (Hgo p s1).
    + destruct (wt_calm _ _ _ _ _ Hw n). rewrite Hq. left.
Qed.

(** a destructor that waits can always return, without anything new being
    asked of the library, if one thread of the pool is not in a destructor
    itself and none is queued: some number of steps of the threads under way
    ends the module. *)
Theorem destructor_returns pool s t m p x : reachable pool s ->
  threads s !! t = Some (At Waiting m) \/ threads s !! t = Some (At Asleep m) ->
  p < pool -> threads s !! p = Some x -> free_thread x -> (forall n, Cleanup n ∉ _tasksToDo s) ->
  exists l s' g, run pool (Go <$> l) s = Some s' /\ guards s' !! m = Some g /\ life g = Gone.
Proof.
  intros Hr Hw Hp Hx Hf Hc. apply (waits_end pool t m p (work s)); [done|].
  split; [by apply (reachable_known pool)|by apply (reachable_counted pool)|split; eauto|done|done].
Qed.

(** One thread of the pool, one of the application, and a module that is told of
    one thing and destroyed by the application. *)
Section Witness.
Let one : system := mkSystem [Idle; Idle] [] [mkGuard true true false 0 Alive true].
Let told : list action := [Notify 1 0; Go 1; Go 1; Go 1; Detach 1 0; Go 1; Go 1; Go 1; Go 1; Go 1].
Let asleep : system := mkSystem [Idle; At Asleep 0] [Work 0] [mkGuard false false true 1 Dying false].
Let over : system := mkSystem [Idle; Idle] [] [mkGuard false false true 0 Gone false].

Lemma one_initial : initial one.
Proof.
  split; [|split; [done|]].
  - intros x [->|[->|[]%not_elem_of_nil]%elem_of_cons]%elem_of_cons; done.
  - by intros g ->%list_elem_of_singleton.
Qed.

Lemma asleep_reached : reachable 1 asleep.
Proof. exists one. split; [exact one_initial|]. by apply (run_steps 1 told). Qed.

Lemma over_reached : reachable 1 over.
Proof.
  exists one. split; [exact one_initial|]. by apply (run_steps 1 (told ++ [Go 0; Go 0; Go 0; Go 1])).
Qed.

Let ending : system := mkSystem [At Ending 0; At Asleep 0] [] [mkGuard false false true 1 Dying false].

Lemma ending_reached : reachable 1 ending.
Proof. exists one. split; [exact one_initial|]. by apply (run_steps 1 (told ++ [Go 0; Go 0])). Qed.

Lemma tasks_end_first_witness : (forall t p, threads over !! t <> Some (At p 0))
  /\ under_way 0 asleep = 1
  /\ (forall s', act 1 (Go 0) ending = Some s' -> threads s' !! 1 = Some (At Waiting 0)).
Proof.
  destruct (tasks_end_first 1 over 0 _ over_reached eq_refl) as ((Hn & _) & _); [reflexivity|].
  destruct (tasks_end_first 1 asleep 0 _ asleep_reached eq_refl) as (_ & Hd & _).
  destruct (tasks_end_first 1 ending 0 _ ending_reached eq_refl) as (_ & _ & _ & Hw).
  split; [exact Hn|split; [by rewrite <- Hd|]]. intros s' Ha. destruct (Hw 1 eq_refl) as [_ Hwake].
  by apply (Hwake 0 s').
Defined.

Lemma destructor_returns_witness : exists l s' g,
  run 1 (Go <$> l) asleep = Some s' /\ guards s' !! 0 = Some g /\ life g = Gone.
Proof.
  apply (destructor_returns 1 asleep 1 0 0 Idle asleep_reached); [by right|lia|done|done|].
  intros n Hn. by apply list_elem_of_singleton in Hn.
Defined.
End Witness.
