(* ===== verification/Managed.v ===== *)
(** * Objects behind the values of the interface

    The values an application holds ([ThreadApi], [StoreApi], [Connection], ...)
    refer weakly to an object that keeps itself alive while it counts them:
    ExtendedPointer (core/ExtendedPointer.hpp) and ManualManagedClass
    (utils/ManualManagedClass.hpp).  A lost connection has the pool take that
    reference away ([cleanup]), whatever refers to the object. *)

From Stdlib Require Import ZArith Lia.
From stdpp Require Import base sets list.
From S2P Require Import Prelude Executor.

Module ManualManagedClass.
(** The counter, the object's reference to itself, and the references that
    cleanup() has put into queued tasks. *)
Record t := mk { _attachObjectCounter : Z; _selfRef : bool; queued_refs : nat }.

Definition expired (o : t) : bool := negb (_selfRef o) && (queued_refs o =? 0)%nat.

Definition attach (o : t) : t := mk (_attachObjectCounter o + 1) (_selfRef o) (queued_refs o).
Definition attach_self (o : t) : t := mk (_attachObjectCounter o + 1) true (queued_refs o).
Definition detach (o : t) : t :=
  let n := _attachObjectCounter o - 1 in mk n (if bool_decide (n = 0) then false else _selfRef o) (queued_refs o).
Definition cleanup (o : t) : t :=
  if _selfRef o then mk (_attachObjectCounter o) true (S (queued_refs o)) else o.
(** The queued task, which ends with its own reference. *)
Definition run_cleanup (o : t) : t := mk 0 false (queued_refs o - 1).
End ManualManagedClass.

(** The objects, and the application's values: one refers to an object or to
    nothing, until it is destroyed. *)
Module ExtendedPointer.
Import ManualManagedClass.

Inductive value : Set := Destroyed | Refers (x : option nat).
Record world := mkWorld { objects : list ManualManagedClass.t; values : list value }.

Definition on_object (i : nat) (f : ManualManagedClass.t -> ManualManagedClass.t) (w : world) : world :=
  mkWorld (alter f i (objects w)) (values w).

(** [_ptr] of the value: nothing is attached to or detached from by one that
    refers to nothing, or to an object that is gone. *)
Definition if_possible (f : ManualManagedClass.t -> ManualManagedClass.t) (x : option nat) (w : world) : world :=
  match x with Some i => on_object i (fun o => if expired o then o else f o) w | None => w end.
Definition attachToPtrIfPossible : option nat -> world -> world := if_possible attach.
Definition detachFromPtrIfPossible : option nat -> world -> world := if_possible detach.

(** What a call through a value does first. *)
Definition getImpl (x : option nat) (w : world) : outcome nat :=
  match x with
  | Some i => match objects w !! i with
              | Some o => if expired o then Throw NotConnectedException else Ret i
              | None => Throw NotConnectedException
              end
  | None => Throw NotConnectedException
  end.

(** What an application does with its values: the constructor of one that refers
    to nothing, [ThreadApi::create] and the like, the copy constructor (as which
    the move constructor acts), the assignment, the destructor.  And what a lost
    connection does: the object's listener calls [cleanup()], and the pool takes
    up the task it queued. *)
Inductive op : Set := Empty | Create | Copy (v : nat) | Assign (v w : nat) | Drop (v : nat) | Cleanup (i : nat) | RunCleanup (i : nat).

#[export] Instance op_eq_dec : EqDecision op.
Proof. solve_decision. Defined.

(** A value that has not been destroyed. *)
Definition value_at (v : nat) (w : world) : option (option nat) :=
  match values w !! v with Some (Refers x) => Some x | _ => None end.

Definition apply_op (a : op) (w : world) : option world :=
  match a with
  | Empty => Some (mkWorld (objects w) (values w ++ [Refers None]))
  | Create => Some (mkWorld (objects w ++ [attach_self (mk 0 false 0)]) (values w ++ [Refers (Some (length (objects w)))]))
  | Copy v => x ← value_at v w; Some (attachToPtrIfPossible x (mkWorld (objects w) (values w ++ [Refers x])))
  | Assign v u =>
      _ ← value_at v w; x ← value_at u w;
      Some (attachToPtrIfPossible x (mkWorld (objects w) (<[v := Refers x]> (values w))))
  | Drop v => x ← value_at v w; Some (detachFromPtrIfPossible x (mkWorld (objects w) (<[v := Destroyed]> (values w))))
  | Cleanup i => o ← objects w !! i; if expired o then None else Some (on_object i cleanup w)
  | RunCleanup i => o ← objects w !! i; if (queued_refs o =? 0)%nat then None else Some (on_object i run_cleanup w)
  end.

Fixpoint run (l : list op) (w : world) : option world :=
  match l with [] => Some w | a :: l => w ← apply_op a w; run l w end.

(** ** Counting *)
Definition refers (i : nat) (x : value) : nat := match x with Refers (Some j) => if decide (j = i) then 1 else 0 | _ => 0 end.
Definition references (i : nat) (l : list value) : nat := sum_list_with (refers i) l.

(** The values of [i] that an assignment overwrote. *)
Definition overwrites (i : nat) (a : op) (w : world) : nat :=
  match a with Assign v _ => match values w !! v with Some x => refers i x | None => 0 end | _ => 0 end.
Fixpoint overwritten (i : nat) (l : list op) (w : world) : nat :=
  match l with
  | [] => 0
  | a :: l => match apply_op a w with Some w' => overwrites i a w + overwritten i l w' | None => 0 end
  end.

(** Until a cleanup has run, an object counts [extra] more than the values that
    refer to it, and refers to itself while that is not 0; and never again after. *)
Definition kept (extra : nat) (cleaned : bool) (i : nat) (w : world) : Prop :=
  match objects w !! i with
  | Some o =>
      if cleaned then _selfRef o = false
      else _attachObjectCounter o = Z.of_nat (references i (values w) + extra)
           /\ _selfRef o = bool_decide (0 < references i (values w) + extra)%nat
  | None => extra = 0%nat /\ cleaned = false
  end.

(** Values refer to objects there are. *)
Definition known (w : world) : Prop :=
  Forall (fun x => match x with Refers (Some i) => (i < length (objects w))%nat | _ => True end) (values w).

Lemma refers_same i : refers i (Refers (Some i)) = 1%nat.
Proof. unfold refers. by rewrite decide_True. Qed.

Lemma references_app i x l : references i (l ++ [x]) = (references i l + refers i x)%nat.
Proof. unfold references. rewrite sum_list_with_app. cbn. lia. Qed.

Lemma references_insert i v x y l : l !! v = Some x ->
  (references i (<[v := y]> l) + refers i x = references i l + refers i y)%nat.
Proof. apply sum_insert. Qed.

Lemma refers_at i v x l : l !! v = Some x -> (refers i x <= references i l)%nat.
Proof. apply sum_at_least. Qed.

Lemma value_at_inv v w x : value_at v w = Some x -> values w !! v = Some (Refers x).
Proof. unfold value_at. destruct (values w !! v) as [[]|]; congruence. Qed.

Lemma known_refers v w x : known w -> values w !! v = Some (Refers x) ->
  match x with Some i => (i < length (objects w))%nat | None => True end.
Proof. intros Hk Hv. by apply (proj1 (Forall_lookup _ _) Hk) in Hv. Qed.

Lemma length_if_possible f x w : length (objects (if_possible f x w)) = length (objects w).
Proof. destruct x; [apply length_alter|done]. Qed.
Lemma values_if_possible f x w : values (if_possible f x w) = values w.
Proof. by destruct x. Qed.

(** An object after an attachment or a detachment of a value of [x], by which
    the values became [l]. *)
Lemma kept_possible f x e e' c i w l : kept e c i w ->
  let n := (references i l + e')%nat in
  (refers i (Refers x) = 1%nat -> (0 < references i (values w) + e)%nat) ->
  (forall o, _selfRef (f o) = true -> _selfRef o = true) ->
  (forall o, refers i (Refers x) = 1%nat -> _attachObjectCounter o = Z.of_nat (references i (values w) + e) -> _selfRef o = true ->
    _attachObjectCounter (f o) = Z.of_nat n /\ _selfRef (f o) = bool_decide (0 < n)%nat) ->
  (refers i (Refers x) = 0%nat -> n = (references i (values w) + e)%nat) ->
  (objects w !! i = None -> e' = 0%nat) -> kept e' c i (if_possible f x (mkWorld (objects w) l)).
Proof.
  intros Hk n Hpos Hself Hf Hn He. unfold kept. rewrite values_if_possible. cbn [values]. fold n.
  unfold kept in Hk. destruct x as [j|]; cbn [if_possible on_object objects refers] in *.
  - destruct (decide (j = i)) as [->|Hne].
    + rewrite list_lookup_alter_eq. destruct (objects w !! i) as [o|]; cbn; [|split; [by apply He|apply Hk]]. destruct c.
      * case_match; [done|]. destruct (_selfRef (f o)) eqn:E; [|done]. apply Hself in E. congruence.
      * destruct Hk as [Hc Hs]. rewrite bool_decide_eq_true_2 in Hs by auto. unfold expired. rewrite Hs. cbn. by apply Hf.
    + rewrite list_lookup_alter_ne by done. rewrite Hn by done.
      destruct (objects w !! i); [done|]. split; [by apply He|apply Hk].
  - rewrite Hn by done. destruct (objects w !! i); [done|]. split; [by apply He|apply Hk].
Qed.

(** Attaching one more value, detaching one. *)
Lemma attach_kept x e e' c i w l : kept e c i w -> known w ->
  (references i l + e' = references i (values w) + e + refers i (Refers x))%nat ->
  (exists v, values w !! v = Some (Refers x)) -> (objects w !! i = None -> e' = 0%nat) ->
  kept e' c i (attachToPtrIfPossible x (mkWorld (objects w) l)).
Proof.
  intros Hk Hkn Hr [v Hv] He. pose proof (refers_at i v _ _ Hv) as Hle.
  apply (kept_possible attach x e e' c i w l); try done; [lia| |lia].
  intros o H1 Hc Hs. cbn. rewrite Hs, bool_decide_eq_true_2 by lia. split; [lia|done].
Qed.

Lemma detach_kept x e c i w l : kept e c i w -> known w ->
  (references i l + refers i (Refers x) = references i (values w))%nat ->
  kept e c i (detachFromPtrIfPossible x (mkWorld (objects w) l)).
Proof.
  intros Hk Hkn Hr. apply (kept_possible detach x e e c i w l); try done; [lia| | |lia|].
  - intros o. cbn. by case_bool_decide.
  - intros o H1 Hc Hs. cbn. split; [lia|]. rewrite Hs. repeat case_bool_decide; lia || done.
  - intros Hn. unfold kept in Hk. rewrite Hn in Hk. apply Hk.
Qed.

Lemma kept_none e c i w : kept e c i w -> objects w !! i = None -> e = 0%nat.
Proof. unfold kept. intros Hk Hn. rewrite Hn in Hk. apply Hk. Qed.

(** An object that is not there is referred to by nothing. *)
Lemma unknown_refers i v x w : known w -> objects w !! i = None -> values w !! v = Some x -> refers i x = 0%nat.
Proof.
  intros Hk Hn Hv. destruct x as [|[j|]]; [done| |done]. apply known_refers in Hv; [|done]. apply lookup_ge_None in Hn.
  cbn. rewrite decide_False by lia. done.
Qed.

Lemma known_possible f x w l : known (mkWorld (objects w) l) -> known (if_possible f x (mkWorld (objects w) l)).
Proof. unfold known. rewrite length_if_possible, values_if_possible. done. Qed.

(** Each operation keeps the count. *)
Definition keeps (a : op) (w w' : world) : Prop :=
  known w' /\ forall e c i, kept e c i w -> kept (overwrites i a w + e) (c || bool_decide (a = RunCleanup i)) i w'.

Lemma keeps_intro a w w' : known w' -> (forall i, a <> RunCleanup i) ->
  (forall e c i, kept e c i w -> kept (overwrites i a w + e) c i w') -> keeps a w w'.
Proof. intros Hk Hn Hw. split; [done|]. intros e c i He. rewrite bool_decide_eq_false_2, orb_false_r by done. by apply Hw. Qed.

Lemma create_keeps w w' : apply_op Create w = Some w' -> known w -> keeps Create w w'.
Proof.
  intros [= <-] Hk. apply keeps_intro; [|done|].
  { unfold known. cbn. rewrite length_app. cbn. apply Forall_app_2; [|constructor; [lia|done]].
    eapply Forall_impl; [exact Hk|]. intros [|[j|]]; lia || done. }
  intros e c i Hi. cbn [overwrites]. unfold kept in *. cbn [objects values]. rewrite references_app. cbn [refers].
  destruct (decide (length (objects w) = i)) as [<-|Hne].
  - rewrite lookup_ge_None_2 in Hi by lia. destruct Hi as [-> ->]. rewrite list_lookup_middle by done.
    assert (references (length (objects w)) (values w) = 0%nat) as ->; [|done].
    apply sum_zero. intros x [v Hv]%list_elem_of_lookup. apply (unknown_refers _ v x w); [done|by apply lookup_ge_None_2|done].
  - rewrite Nat.add_0_r. destruct (decide (i < length (objects w))%nat) as [Hl|Hl].
    + by rewrite lookup_app_l.
    + rewrite lookup_ge_None_2 by (rewrite length_app; cbn; lia). by rewrite lookup_ge_None_2 in Hi by lia.
Qed.

Lemma values_keeps a w w' : apply_op a w = Some w' -> known w ->
  match a with Empty | Copy _ | Assign _ _ | Drop _ => True | _ => False end -> keeps a w w'.
Proof.
  intros Ha Hk Hop. destruct a as [| |v|v u|v|i|i]; try done; cbn [apply_op] in Ha.
  - injection Ha as <-. apply keeps_intro; [by apply Forall_app_2; [|constructor]|done|].
    intros e c i Hi. unfold kept in *. cbn [objects values overwrites]. by rewrite references_app, Nat.add_0_r.
  - destruct (value_at v w) as [x|] eqn:Hv; [|done]. apply value_at_inv in Hv. injection Ha as <-.
    apply keeps_intro; [|done|].
    { apply known_possible. apply Forall_app_2; [done|]. constructor; [|done]. by apply (known_refers v w x). }
    intros e c i Hi. apply (attach_kept x e); [done|done| |by eauto|by apply (kept_none e c)].
    rewrite references_app. cbn [overwrites]. lia.
  - destruct (value_at v w) as [y|] eqn:Hv; [|done]. apply value_at_inv in Hv. cbn in Ha.
    destruct (value_at u w) as [x|] eqn:Hu; [|done]. apply value_at_inv in Hu. injection Ha as <-.
    apply keeps_intro; [|done|].
    { apply known_possible. apply Forall_insert; [done|]. by apply (known_refers u w x). }
    intros e c i Hi. cbn [overwrites]. rewrite Hv. pose proof (references_insert i v _ (Refers x) _ Hv).
    apply (attach_kept x e); [done|done|lia|by eauto|]. intros Hn. rewrite (unknown_refers i v _ w Hk Hn Hv).
    by apply (kept_none e c i w).
  - destruct (value_at v w) as [x|] eqn:Hv; [|done]. apply value_at_inv in Hv. injection Ha as <-.
    apply keeps_intro; [|done|].
    { apply known_possible. by apply Forall_insert. }
    intros e c i Hi. pose proof (references_insert i v _ Destroyed _ Hv). apply detach_kept; [done|done|]. cbn [refers] in *. lia.
Qed.

Lemma cleanup_keeps a w w' : apply_op a w = Some w' -> known w ->
  match a with Cleanup _ | RunCleanup _ => True | _ => False end -> keeps a w w'.
Proof.
  intros Ha Hk Hop. destruct a as [| |v|v u|v|j|j]; try done; cbn [apply_op] in Ha;
    destruct (objects w !! j) as [o|] eqn:Ho; try done; cbn in Ha; case_match; try done; injection Ha as <-.
  - apply keeps_intro; [unfold known, on_object; cbn; by rewrite length_alter|done|].
    intros e c i Hi. unfold kept, on_object in *. cbn [objects values overwrites]. destruct (decide (j = i)) as [->|Hne].
    + rewrite list_lookup_alter_eq, Ho in *. cbn. unfold cleanup. by destruct (_selfRef o) eqn:E; cbn; rewrite ?E in *.
    + by rewrite list_lookup_alter_ne.
  - split; [unfold known, on_object; cbn; by rewrite length_alter|].
    intros e c i Hi. unfold kept, on_object in *. cbn [objects values overwrites]. destruct (decide (j = i)) as [->|Hne].
    + rewrite list_lookup_alter_eq, Ho, bool_decide_eq_true_2, orb_true_r by done. done.
    + rewrite list_lookup_alter_ne, bool_decide_eq_false_2, orb_false_r by congruence. done.
Qed.

Lemma op_keeps a w w' : apply_op a w = Some w' -> known w -> keeps a w w'.
Proof. intros Ha Hk. destruct a; first [by apply create_keeps|by apply values_keeps|by apply cleanup_keeps]. Qed.

Lemma run_kept l : forall w w' extra cleaned, run l w = Some w' -> known w -> (forall i, kept (extra i) (cleaned i) i w) ->
  forall i, kept (overwritten i l w + extra i) (cleaned i || bool_decide (RunCleanup i ∈ l)) i w'.
Proof.
  induction l as [|a l IH]; intros w w' extra cleaned; cbn [run overwritten].
  { intros [= <-] _ Hi i. rewrite bool_decide_eq_false_2, orb_false_r by apply not_elem_of_nil. apply Hi. }
  destruct (apply_op a w) as [w1|] eqn:Ha; [|done]. cbn. intros Hr Hk Hall i.
  destruct (op_keeps a w w1 Ha Hk) as [Hk1 Hop].
  pose proof (IH w1 w' _ _ Hr Hk1 (fun i => Hop _ _ i (Hall i)) i) as Hi. cbn beta in Hi.
  rewrite (Nat.add_comm (overwrites i a w)), <- Nat.add_assoc.
  replace (bool_decide (RunCleanup i ∈ a :: l)) with (bool_decide (a = RunCleanup i) || bool_decide (RunCleanup i ∈ l)).
  - by rewrite orb_assoc.
  - apply eq_true_iff_eq. rewrite orb_true_iff, !bool_decide_eq_true, elem_of_cons. naive_solver.
Qed.

(** What a call through a value finds. *)
Lemma getImpl_ret i o w : objects w !! i = Some o ->
  getImpl (Some i) w = if expired o then Throw NotConnectedException else Ret i.
Proof. intros Ho. unfold getImpl. by rewrite Ho. Qed.

(** C40: as long as no cleanup of an object has run, its counter is the number of
    the values that refer to it and of those of them that an assignment
    overwrote (which attaches the value to its new object and does not detach it
    from the old one), the object lives exactly while that number or that of its
    queued cleanups is not 0, and so a call through any value that refers to it
    finds it.  Once a cleanup has run, the object lives only while another one is
    queued, whatever refers to it, and then a call through its values throws
    [NotConnectedException]. *)
Theorem object_lives_with_values l w i o : run l (mkWorld [] []) = Some w -> objects w !! i = Some o ->
  (RunCleanup i ∉ l ->
    let n := (references i (values w) + overwritten i l (mkWorld [] []))%nat in
    _attachObjectCounter o = Z.of_nat n
    /\ (expired o = false <-> (0 < n)%nat \/ (0 < queued_refs o)%nat)
    /\ (Refers (Some i) ∈ values w -> getImpl (Some i) w = Ret i))
  /\ (RunCleanup i ∈ l ->
    (expired o = false <-> (0 < queued_refs o)%nat)
    /\ (queued_refs o = 0%nat -> getImpl (Some i) w = Throw NotConnectedException)).
Proof.
  intros Hr Ho. rewrite (getImpl_ret _ _ _ Ho).
  pose proof (run_kept l _ w (fun _ => 0%nat) (fun _ => false) Hr ltac:(constructor) ltac:(done) i) as Hk.
  unfold kept in Hk. rewrite Ho in Hk. cbn [orb] in Hk. rewrite Nat.add_0_r in Hk. unfold expired. split; intros Hin.
  - rewrite bool_decide_eq_false_2 in Hk by done. destruct Hk as [Hc Hs]. rewrite Hs. cbv zeta. split; [done|]. split.
    + rewrite andb_false_iff, negb_false_iff, bool_decide_eq_true, Nat.eqb_neq. lia.
    + intros [v Hv]%list_elem_of_lookup. apply (refers_at i) in Hv. rewrite refers_same in Hv.
      by rewrite bool_decide_eq_true_2 by lia.
  - rewrite bool_decide_eq_true_2 in Hk by done. rewrite Hk. cbn. split; [rewrite Nat.eqb_neq; lia|]. by intros ->.
Qed.
End ExtendedPointer.

(** Two objects, the second assigned to the first one's value, which refers to it
    still when a cleanup of it has run; both values go, and a value that refers
    to nothing is copied. *)
Section Witness.
Import ManualManagedClass ExtendedPointer.
Let ops : list op := [Create; Create; Assign 0 1; Cleanup 1; RunCleanup 1; Drop 0; Empty; Copy 2].

Lemma object_lives_with_values_witness : exists w a b, run ops (mkWorld [] []) = Some w
  /\ objects w = [a; b] /\ _attachObjectCounter a = 1 /\ expired a = false
  /\ Refers (Some 1%nat) ∈ values w /\ getImpl (Some 1%nat) w = Throw NotConnectedException.
Proof.
  assert (run ops (mkWorld [] []) = Some (mkWorld [mk 1 true 0; mk 0 false 0]
    [Destroyed; Refers (Some 1%nat); Refers None; Refers None])) as Hr by reflexivity.
  destruct (object_lives_with_values ops _ 0 _ Hr eq_refl) as [H0 _].
  destruct (object_lives_with_values ops _ 1 _ Hr eq_refl) as [_ H1].
  destruct H0 as (Hc & He & _); [vm_compute; set_solver|].
  do 3 eexists. split; [exact Hr|split; [reflexivity|split; [exact Hc|split; [|split]]]].
  - apply He. left. vm_compute. lia.
  - set_solver.
  - apply H1; [unfold ops; set_solver|done].
Defined.
End Witness.
