(* ===== verification/Legacy.v ===== *)
(** * Messages of the old structures

    [core::DataEncryptor] (endpoint/core/include/privmx/endpoint/core/encryptors/DataEncryptor.hpp),
    the thread module's [MessageDataV2Encryptor] and [MessageDataV3Encryptor]
    (endpoint/thread/src/encryptors/message/MessageDataEncryptor.cpp) and its
    [MessageDataEncryptorV4].  The objects of [endpoint::thread::dynamic] travel
    as JSON texts through their generated codecs; their member [statusCode],
    which every reader overwrites, is kept beside them. *)

From Stdlib Require Import ZArith Lia Strings.String Strings.Byte.
From stdpp Require Import base list gmap.
From S2P Require Import Prelude Bytes CoreTypes Crypto CryptoSuite Dynamic Encryptors Dio FieldData ContentData.

(** ** Signed and sealed buffers *)
Module DataEncryptorUtil.
Section Util.
Context `{Ecc}.

(** [plain[1]] of a one-byte string is its terminating zero. *)
Definition extractSignAndDataBuff (plain : bytes) : outcome (bytes * bytes) :=
  if bool_decide (CipherSuite.byte_at_0 plain = x01) then
    let signature_length := byte_val (CipherSuite.byte_at_0 (zdrop 1 plain)) in
    signature ← substr plain 2 signature_length;
    data_buf ← substr_from plain (2 + signature_length);
    mret (signature, data_buf)
  else Throw UnsupportedTypeException.

Definition hasSign (data : bytes) : bool := bool_decide (CipherSuite.byte_at_0 data = x01).

Definition checkSign (data signature : bytes) (pubKey : PublicKey) : bool :=
  verifyCompactSignatureWithHash pubKey data signature.

Definition checkSignedData (dataSigned : bytes) (pubKey : PublicKey) : outcome bool :=
  '(signature, data_buf) ← extractSignAndDataBuff dataSigned;
  mret (verifyCompactSignatureWithHash pubKey data_buf signature).
End Util.

(** The two readers of this layout agree. *)
Lemma extract_inner plain : extractSignAndDataBuff plain =
  (s ← DataInnerEncryptorV4.extractDataWithSignature plain;
   mret (DataInnerEncryptorV4.signature s, DataInnerEncryptorV4.data s)).
Proof.
  unfold extractSignAndDataBuff, DataInnerEncryptorV4.extractDataWithSignature. case_bool_decide; [|done].
  unfold_st. destruct (substr plain 2 _); [|done]. by destruct (substr_from plain _).
Qed.
End DataEncryptorUtil.

(** [core::DataEncryptor<T>] *)
Module DataEncryptor.
Import DataEncryptorUtil.
Section Typed.
Context `{Ecc} `{!Encodings} {T : Type} `{!JsonCodec T}.

Definition encrypt (data : T) (key : bytes) : ST rng bytes :=
  c ← CryptoPrivmx.privmxEncrypt CryptoPrivmx.privmxOptAesWithSignature (serialize data) key [];
  mret (base64_from c).

Definition sign (data : T) (privKey : PrivateKey) : bytes :=
  let buffer := serialize data in
  let signature := signToCompactSignatureWithHash privKey buffer in
  [x01] ++ [byte_of (zlen signature)] ++ signature ++ buffer.

Definition getSign (data : T) (privKey : PrivateKey) : bytes :=
  signToCompactSignatureWithHash privKey (serialize data).

Definition signAndEncrypt (data : T) (privKey : PrivateKey) (key : bytes) : ST rng bytes :=
  c ← CryptoPrivmx.privmxEncrypt CryptoPrivmx.privmxOptAesWithSignature (sign data privKey) key [];
  mret (base64_from c).

Definition decrypt (data key : bytes) : outcome T :=
  d ← base64_to data;
  decrypted ← CryptoPrivmx.privmxDecrypt true d key [] 16;
  deserialize decrypted.

Definition decryptAndGetSign (data key : bytes) : outcome (bytes * T * bytes) :=
  d ← base64_to data;
  plain ← CryptoPrivmx.privmxDecrypt true d key [] 16;
  '(signature, data_buf) ← extractSignAndDataBuff plain;
  x ← deserialize data_buf;
  mret (signature, x, data_buf).
End Typed.

Section Laws.
Context {C : CryptoService} `{!CryptoLaws C} {E : Ecc} `{!EccLaws E} {E0 : Encodings} `{!EncodingsLaws E0}.
Context {T : Type} `{!JsonCodec T} `{!JsonCodecLaws T}.
Implicit Types x : T.

Lemma extract_sign x k : extractSignAndDataBuff (sign x k) = Ret (getSign x k, serialize x).
Proof.
  rewrite extract_inner.
  change (sign x k) with (DataInnerEncryptorV4.packDataWithSignature (DataInnerEncryptorV4.sign (serialize x) k)).
  by rewrite DataInnerEncryptorV4.extract_pack
    by (cbn; unfold signToCompactSignatureWithHash; rewrite sign_len; lia).
Qed.

Lemma zlen_sign x k : zlen (sign x k) = 67 + zlen (serialize x).
Proof. apply (DataInnerEncryptorV4.zlen_pack (serialize x) k). Qed.

Lemma check_sign x k : checkSign (serialize x) (getSign x k) (getPublicKey k) = true.
Proof. apply verify_sign. Qed.

(** What a sealing gave opens to the value; its text is not a signed one. *)
Lemma encrypt_opens x key g : zlen key = 32 -> zlen (serialize x) < 2 ^ 63 ->
  exists c g', encrypt x key g = (Ret c, g') /\ decrypt c key = Ret x.
Proof.
  intros Hk Hx. destruct (DataEncryptorV4.inner_total (serialize x) key g) as (c & g' & Hc & Ho & _); [done|lia|].
  unfold encrypt. rewrite (run_bind_ret _ _ _ _ _ Hc). do 2 eexists. split; [done|].
  unfold decrypt. rewrite base64_inv. unfold_st. unfold DataInnerEncryptorV4.decrypt in Ho. rewrite Ho. apply json_inv.
Qed.

Lemma signed_opens x k key g : zlen key = 32 -> zlen (serialize x) < 2 ^ 63 ->
  exists c g', signAndEncrypt x k key g = (Ret (base64_from c), g')
    /\ decryptAndGetSign (base64_from c) key = Ret (getSign x k, x, serialize x) /\ hasSign c = false.
Proof.
  intros Hk Hx. destruct (DataEncryptorV4.inner_total (sign x k) key g) as (c & g' & Hc & Ho & rest & Hr);
    [done|rewrite zlen_sign; lia|].
  exists c, g'. unfold signAndEncrypt. split; [by rewrite (run_bind_ret _ _ _ _ _ Hc)|].
  split; [|unfold hasSign; by rewrite Hr].
  unfold decryptAndGetSign. rewrite base64_inv. unfold_st. unfold DataInnerEncryptorV4.decrypt in Ho.
  by rewrite Ho, extract_sign, json_inv.
Qed.
End Laws.
End DataEncryptor.

(** [DataEncryptor<Pson::BinaryString>] is the encryptor of plain buffers. *)
Definition binary_codec : JsonCodec bytes := {| serialize d := d; deserialize d := Ret d |}.
Lemma binary_codec_laws : @JsonCodecLaws bytes binary_codec.
Proof. by constructor. Qed.

(** A status code known by its number alone. *)
Definition code_status (statusCode : Z) : option exn :=
  if bool_decide (statusCode = 0) then None else Some (ServerError statusCode).

(** ** Structures 2 and 3 of messages *)
Record MessageDataAuthor := mkAuthor { author_userId : bytes; author_pubKey : bytes }.
Record MessageDataDestination := mkDestination { dest_server : bytes; dest_contextId : bytes; dest_threadId : bytes }.

Record MessageDataV2 := {
  m2_v : Z;
  m2_msgId : bytes;
  m2_type : bytes;
  m2_text : bytes;
  m2_date : Z;
  m2_deleted : bool;
  m2_author : MessageDataAuthor;
  m2_destination : MessageDataDestination;
}.

Record MessageDataV3 := {
  m3_v : Z;
  m3_publicMeta : bytes;
  m3_privateMeta : bytes;
  m3_data : bytes;
}.

(** [MessageDataV2Signed], [MessageDataV3Signed], with the status of the data. *)
Record Signed (T : Type) := mkSigned {
  sg_data : T;
  sg_statusCode : option exn;
  sg_dataBuf : bytes;
  sg_dataSignature : bytes;
}.
Arguments mkSigned {T}.
Arguments sg_data {T}.
Arguments sg_statusCode {T}.
Arguments sg_dataBuf {T}.
Arguments sg_dataSignature {T}.

Module MessageDataV2Encryptor.
Section V2.
Context `{Ecc} `{!Encodings} `{!JsonCodec MessageDataV2}.

Definition signAndEncrypt (data : MessageDataV2) (priv : PrivateKey) (encKey : bytes) : ST rng bytes :=
  DataEncryptor.signAndEncrypt data priv encKey.

Definition decryptAndGetSign (data key : bytes) : outcome (Signed MessageDataV2) :=
  '(dataSignature, x, dataBuf) ← DataEncryptor.decryptAndGetSign data key;
  mret (mkSigned x None dataBuf dataSignature).
End V2.
End MessageDataV2Encryptor.

Module MessageDataV3Encryptor.
#[local] Existing Instances binary_codec binary_codec_laws.

Definition m3_set_privateMeta (x : bytes) (r : MessageDataV3 * option exn) : MessageDataV3 * option exn :=
  ({| m3_v := m3_v r.1; m3_publicMeta := m3_publicMeta r.1; m3_privateMeta := x; m3_data := m3_data r.1 |}, r.2).
Definition m3_set_data (x : bytes) (r : MessageDataV3 * option exn) : MessageDataV3 * option exn :=
  ({| m3_v := m3_v r.1; m3_publicMeta := m3_publicMeta r.1; m3_privateMeta := m3_privateMeta r.1; m3_data := x |}, r.2).
Definition m3_set_status (s : option exn) (r : MessageDataV3 * option exn) : MessageDataV3 * option exn := (r.1, s).

#[export] Instance v3_status : HasStatus (MessageDataV3 * option exn) :=
  {| status := snd; set_status := m3_set_status; status_set _ _ := eq_refl |}.

Section V3.
Context `{Ecc} `{!Encodings} `{!JsonCodec MessageDataV3}.

Definition signAndEncrypt (data : MessageDataV3) (priv : PrivateKey) (encKey : bytes) : ST rng bytes :=
  privateMeta ← DataEncryptor.encrypt (m3_privateMeta data) encKey;
  d ← DataEncryptor.encrypt (m3_data data) encKey;
  let messageDataV3Encrypted := {| m3_v := 0; m3_publicMeta := base64_from (m3_publicMeta data);
                                   m3_privateMeta := privateMeta; m3_data := d |} in
  mret (base64_from (DataEncryptor.sign messageDataV3Encrypted priv)).

(** The signature is handed out beside the data; nothing here looks at it. *)
Definition decryptAndGetSign (data key : bytes) : outcome (Signed MessageDataV3) :=
  b ← base64_to data;
  '(dataSignature, dataBuf) ← DataEncryptorUtil.extractSignAndDataBuff b;
  messageDataV3Encrypted ← deserialize dataBuf;
  publicMeta ← base64_to (m3_publicMeta messageDataV3Encrypted);
  r ← guarded (
    privateMeta ← lift (DataEncryptor.decrypt (m3_privateMeta messageDataV3Encrypted) key);
    _ ← modify (m3_set_privateMeta privateMeta);
    d ← lift (DataEncryptor.decrypt (m3_data messageDataV3Encrypted) key);
    modify (m3_set_data d)) m3_set_status
    ({| m3_v := 0; m3_publicMeta := publicMeta; m3_privateMeta := []; m3_data := [] |}, None);
  mret (mkSigned r.1 r.2 dataBuf dataSignature).
End V3.

Section Laws.
Context {C : CryptoService} `{!CryptoLaws C} {E : Ecc} `{!EccLaws E} {E0 : Encodings} `{!EncodingsLaws E0}.
Context `{!JsonCodec MessageDataV3} `{!JsonCodecLaws MessageDataV3}.

(** The fields of a sealed message, before they are signed. *)
Record seals (d : MessageDataV3) (key : bytes) (x : MessageDataV3) : Prop := {
  sl_public : base64_to (m3_publicMeta x) = Ret (m3_publicMeta d);
  sl_private : DataEncryptor.decrypt (m3_privateMeta x) key = Ret (m3_privateMeta d);
  sl_data : DataEncryptor.decrypt (m3_data x) key = Ret (m3_data d);
}.

Lemma encrypt_seals d k key g : zlen key = 32 -> zlen (m3_privateMeta d) < 2 ^ 63 -> zlen (m3_data d) < 2 ^ 63 ->
  exists x g', signAndEncrypt d k key g = (Ret (base64_from (DataEncryptor.sign x k)), g') /\ seals d key x.
Proof.
  intros Hk Hp Hd. unfold signAndEncrypt.
  destruct (DataEncryptor.encrypt_opens (JsonCodec0 := binary_codec) (m3_privateMeta d) key g Hk Hp) as (cp & g1 & Ep & Op). run_step.
  destruct (DataEncryptor.encrypt_opens (JsonCodec0 := binary_codec) (m3_data d) key g1 Hk Hd) as (cd & g2 & Ed & Od). run_step.
  eexists _, g2. split; [reflexivity|]. split; cbn; [apply base64_inv|done..].
Qed.

(** A sealed record opens whoever signed it. *)
Lemma seals_open d key x k : m3_v d = 0 -> seals d key x ->
  decryptAndGetSign (base64_from (DataEncryptor.sign x k)) key
    = Ret (mkSigned d None (serialize x) (DataEncryptor.getSign x k)).
Proof.
  intros Hv [Hp Hpr Hd]. unfold decryptAndGetSign. rewrite base64_inv. unfold_st.
  rewrite DataEncryptor.extract_sign, json_inv, Hp, Hpr. cbn. rewrite Hd. cbn.
  destruct d; cbn in *. by subst.
Qed.
(** What anyone who holds the text, but not the key, can make of it: the
    sealed fields with other public metadata, signed with his own key. *)
Definition forge (text publicMeta : bytes) (forger : PrivateKey) : outcome bytes :=
  b ← base64_to text;
  '(_, dataBuf) ← DataEncryptorUtil.extractSignAndDataBuff b;
  x ← deserialize dataBuf;
  mret (base64_from (DataEncryptor.sign {| m3_v := m3_v x; m3_publicMeta := base64_from publicMeta;
                                           m3_privateMeta := m3_privateMeta x; m3_data := m3_data x |} forger)).

(** C32: a message of structure 3 opens to what was sealed; and so does what a
    holder of its text makes of it, with the public metadata he likes and his
    own signature, without an error status. *)
Theorem v3_opens_and_forges d k key g publicMeta forger : m3_v d = 0 -> zlen key = 32 ->
  zlen (m3_privateMeta d) < 2 ^ 63 -> zlen (m3_data d) < 2 ^ 63 ->
  exists text g' forged buf buf', signAndEncrypt d k key g = (Ret text, g')
    /\ decryptAndGetSign text key
       = Ret (mkSigned d None buf (signToCompactSignatureWithHash k buf))
    /\ forge text publicMeta forger = Ret forged
    /\ decryptAndGetSign forged key
       = Ret (mkSigned {| m3_v := 0; m3_publicMeta := publicMeta; m3_privateMeta := m3_privateMeta d;
                          m3_data := m3_data d |} None buf' (signToCompactSignatureWithHash forger buf')).
Proof.
  intros Hv Hk Hp Hd. destruct (encrypt_seals d k key g Hk Hp Hd) as (x & g' & He & Hs).
  do 2 eexists. eexists (base64_from (DataEncryptor.sign _ forger)), _, _.
  split; [exact He|]. split; [by apply (seals_open d key x k)|]. split.
  - unfold forge. rewrite base64_inv. unfold_st. by rewrite DataEncryptor.extract_sign, json_inv.
  - destruct Hs as [_ Hpr Hda]. refine (seals_open {| m3_publicMeta := publicMeta |} key _ forger _ _); [done|].
    split; cbn; [apply base64_inv|done..].
Qed.

(** the first byte of a decoded text tells the structures apart: a text of
    structure 3 is signed, one of structure 2 is a cipher text. *)
Theorem structure_told d k key g `{!JsonCodec MessageDataV2} (d2 : MessageDataV2) :
  zlen key = 32 -> zlen (m3_privateMeta d) < 2 ^ 63 -> zlen (m3_data d) < 2 ^ 63 -> zlen (serialize d2) < 2 ^ 63 ->
  exists b3 g3 b2 g2, signAndEncrypt d k key g = (Ret (base64_from b3), g3)
    /\ MessageDataV2Encryptor.signAndEncrypt d2 k key g = (Ret (base64_from b2), g2)
    /\ DataEncryptorUtil.hasSign b3 = true /\ DataEncryptorUtil.hasSign b2 = false.
Proof.
  intros Hk Hp Hd Hd2. destruct (encrypt_seals d k key g Hk Hp Hd) as (x & g' & He & _).
  destruct (DataEncryptorV4.inner_total (DataEncryptor.sign d2 k) key g) as (c & g2 & Hc & _ & rest & Hr);
    [done|rewrite DataEncryptor.zlen_sign; lia|].
  eexists _, _, c, g2. split; [exact He|]. split; [|split; [done|by rewrite Hr]].
  unfold MessageDataV2Encryptor.signAndEncrypt, DataEncryptor.signAndEncrypt.
  by rewrite (run_bind_ret _ _ _ _ _ Hc).
Qed.
End Laws.
End MessageDataV3Encryptor.


(** ** Structure 4: signed and sealed fields without an integrity object *)
Module MessageDataEncryptorV4.
Import DataEncryptorV4.
Definition VERSION_4 : Z := 4.

Record MessageDataToEncryptV4 := {
  in4_publicMeta : bytes;
  in4_privateMeta : bytes;
  in4_data : bytes;
  in4_internalMeta : option bytes;
}.

Record DecryptedMessageDataV4 := {
  d4_dataStructureVersion : Z;
  d4_statusCode : option exn;
  d4_publicMeta : bytes;
  d4_privateMeta : bytes;
  d4_data : bytes;
  d4_internalMeta : option bytes;
  d4_authorPubKey : bytes;
}.

Section Setters.
Implicit Types r : DecryptedMessageDataV4.
Definition set_statusCode (x : option exn) r := {| d4_dataStructureVersion := d4_dataStructureVersion r;
  d4_statusCode := x; d4_publicMeta := d4_publicMeta r; d4_privateMeta := d4_privateMeta r; d4_data := d4_data
  r; d4_internalMeta := d4_internalMeta r; d4_authorPubKey := d4_authorPubKey r |}.
Definition set_publicMeta (x : bytes) r := {| d4_dataStructureVersion := d4_dataStructureVersion r;
  d4_statusCode := d4_statusCode r; d4_publicMeta := x; d4_privateMeta := d4_privateMeta r; d4_data := d4_data
  r; d4_internalMeta := d4_internalMeta r; d4_authorPubKey := d4_authorPubKey r |}.
Definition set_privateMeta (x : bytes) r := {| d4_dataStructureVersion := d4_dataStructureVersion r;
  d4_statusCode := d4_statusCode r; d4_publicMeta := d4_publicMeta r; d4_privateMeta := x; d4_data := d4_data
  r; d4_internalMeta := d4_internalMeta r; d4_authorPubKey := d4_authorPubKey r |}.
Definition set_data (x : bytes) r := {| d4_dataStructureVersion := d4_dataStructureVersion r; d4_statusCode :=
  d4_statusCode r; d4_publicMeta := d4_publicMeta r; d4_privateMeta := d4_privateMeta r; d4_data := x;
  d4_internalMeta := d4_internalMeta r; d4_authorPubKey := d4_authorPubKey r |}.
Definition set_internalMeta (x : option bytes) r := {| d4_dataStructureVersion := d4_dataStructureVersion r;
  d4_statusCode := d4_statusCode r; d4_publicMeta := d4_publicMeta r; d4_privateMeta := d4_privateMeta r;
  d4_data := d4_data r; d4_internalMeta := x; d4_authorPubKey := d4_authorPubKey r |}.
Definition set_authorPubKey (x : bytes) r := {| d4_dataStructureVersion := d4_dataStructureVersion r;
  d4_statusCode := d4_statusCode r; d4_publicMeta := d4_publicMeta r; d4_privateMeta := d4_privateMeta r;
  d4_data := d4_data r; d4_internalMeta := d4_internalMeta r; d4_authorPubKey := x |}.
End Setters.

#[export] Instance v4_status : HasStatus DecryptedMessageDataV4 :=
  {| status := d4_statusCode; set_status := set_statusCode; status_set _ _ := eq_refl |}.

Definition fresh : DecryptedMessageDataV4 := {|
  d4_dataStructureVersion := VERSION_4; d4_statusCode := None; d4_publicMeta := []; d4_privateMeta := [];
  d4_data := []; d4_internalMeta := None; d4_authorPubKey := [] |}.

Section V4.
Context `{Ecc} `{!Encodings} `{!Dynamic} `{!KeyFormats PublicKey}.

(** [server::EncryptedMessageDataV4] *)
Record EncryptedMessageDataV4 := {
  version : Z;
  publicMeta : bytes;
  publicMetaObject : option Var;
  privateMeta : bytes;
  data : bytes;
  internalMeta : option bytes;
  authorPubKey : bytes;
}.

Definition encrypt (d : MessageDataToEncryptV4) (authorPrivateKey : PrivateKey) (encryptionKey : bytes) :
    ST rng EncryptedMessageDataV4 :=
  let publicMeta := signAndEncode (in4_publicMeta d) authorPrivateKey in
  let publicMetaObject := parsed_object (in4_publicMeta d) in
  privateMeta ← signAndEncryptAndEncode (in4_privateMeta d) authorPrivateKey encryptionKey;
  data ← signAndEncryptAndEncode (in4_data d) authorPrivateKey encryptionKey;
  internalMeta ← match in4_internalMeta d with
    | Some m => c ← signAndEncryptAndEncode m authorPrivateKey encryptionKey; mret (Some c)
    | None => mret None
    end;
  mret {| version := VERSION_4; publicMeta := publicMeta; publicMetaObject := publicMetaObject;
          privateMeta := privateMeta; data := data; internalMeta := internalMeta;
          authorPubKey := toBase58DER (getPublicKey authorPrivateKey) |}.

Definition validateVersion (e : EncryptedMessageDataV4) : outcome unit :=
  if bool_decide (version e <> VERSION_4) then Throw InvalidEncryptedMessageDataVersionException else Ret tt.

Definition decrypt (e : EncryptedMessageDataV4) (encryptionKey : bytes) : outcome DecryptedMessageDataV4 :=
  guarded (
    _ ← lift (validateVersion e);
    authorPublicKey ← lift (fromBase58DER (authorPubKey e));
    m ← lift (decodeAndVerify (publicMeta e) authorPublicKey);
    _ ← modify (set_publicMeta m);
    differs ← lift (object_differs (publicMetaObject e) m);
    _ ← modify (if (differs : bool) then set_statusCode (Some MessagePublicDataMismatchException) else id);
    m ← lift (decodeAndDecryptAndVerify (privateMeta e) authorPublicKey encryptionKey);
    _ ← modify (set_privateMeta m);
    m ← lift (decodeAndDecryptAndVerify (data e) authorPublicKey encryptionKey);
    _ ← modify (set_data m);
    m ← match internalMeta e with
        | Some c => m ← lift (decodeAndDecryptAndVerify c authorPublicKey encryptionKey); mret (Some m)
        | None => mret None
        end;
    _ ← modify (set_internalMeta m);
    modify (set_authorPubKey (authorPubKey e))) set_status fresh.
End V4.

Section Laws.
Context {C : CryptoService} `{!CryptoLaws C} {E : Ecc} `{!EccLaws E} {E0 : Encodings} `{!EncodingsLaws E0} `{!Dynamic}.
Context `{!KeyFormats PublicKey} `{!KeyFormatsLaws PublicKey}.

Record encryptable (d : MessageDataToEncryptV4) (ek : bytes) : Prop := {
  en_key : zlen ek = 32;
  en_private : small (in4_privateMeta d);
  en_data : small (in4_data d);
  en_internal m : in4_internalMeta d = Some m -> small m;
}.

(** The result the recipient should see. *)
Definition opened (d : MessageDataToEncryptV4) (k : PrivateKey) : DecryptedMessageDataV4 := {|
  d4_dataStructureVersion := VERSION_4; d4_statusCode := None; d4_publicMeta := in4_publicMeta d;
  d4_privateMeta := in4_privateMeta d; d4_data := in4_data d; d4_internalMeta := in4_internalMeta d;
  d4_authorPubKey := toBase58DER (getPublicKey k) |}.

Lemma message_v4_roundtrip d k ek g : encryptable d ek ->
  exists e g', encrypt d k ek g = (Ret e, g') /\ version e = VERSION_4 /\ decrypt e ek = Ret (opened d k).
Proof.
  intros [Hk Hp Hd Hi]. unfold encrypt.
  destruct (seal_total (in4_privateMeta d) k ek g Hk Hp) as (cp & g1 & Ep & Op & _). run_step.
  destruct (seal_total (in4_data d) k ek g1 Hk Hd) as (cd & g2 & Ed & Od & _). run_step.
  destruct (seal_optional_total (in4_internalMeta d) k ek g2 Hk Hi) as (ci & g3 & Ei & Oi). run_step.
  do 2 eexists. split; [reflexivity|]. split; [done|].
  apply guarded_ret. unfold_st. cbn -[decodeAndVerify]. rewrite base58der_inv, open_signed, object_differs_parsed.
  cbn -[decodeAndDecryptAndVerify]. rewrite Op, Od. unfold opened.
  destruct ci as [c|]; [|by rewrite Oi]. destruct Oi as (m & -> & ->). done.
Qed.
End Laws.
End MessageDataEncryptorV4.

(** ** A concrete message *)
Section Witness.
#[local] Existing Instances Toy.service Toy.laws ToyEcc.ecc ToyEcc.laws ToyJson.encodings ToyJson.encodings_laws.
#[local] Instance toy_v3 : JsonCodec MessageDataV3 := {|
  serialize d := ToyCodec.of_strings [ToyDio.of_Z (m3_v d); m3_publicMeta d; m3_privateMeta d; m3_data d];
  deserialize t := match ToyCodec.to_strings t [] with
    | [v; p; q; d] => Ret {| m3_v := ToyDio.to_Z v; m3_publicMeta := p; m3_privateMeta := q; m3_data := d |}
    | _ => Throw PocoException
    end |}.
#[local] Instance toy_v3_laws : JsonCodecLaws MessageDataV3.
Proof.
  split. intros []. cbn [serialize deserialize toy_v3 m3_v m3_publicMeta m3_privateMeta m3_data].
  by rewrite ToyCodec.strings_inv, ToyDio.of_Z_inv.
Qed.

Let author : @PrivateKey _ ToyEcc.ecc := x07.
Let forger : @PrivateKey _ ToyEcc.ecc := x09.
Let secret_key : bytes := lit "0123456789abcdef0123456789abcdef".
Let message : MessageDataV3 :=
  {| m3_v := 0; m3_publicMeta := lit "public"; m3_privateMeta := lit "private"; m3_data := lit "hello" |}.

Lemma v3_opens_and_forges_witness : exists text forged r,
  (MessageDataV3Encryptor.signAndEncrypt message author secret_key 5).1 = Ret text
  /\ MessageDataV3Encryptor.forge text (lit "other") forger = Ret forged
  /\ MessageDataV3Encryptor.decryptAndGetSign forged secret_key = Ret r
  /\ sg_statusCode r = None /\ m3_publicMeta (sg_data r) = lit "other" /\ m3_data (sg_data r) = lit "hello".
Proof.
  destruct (MessageDataV3Encryptor.v3_opens_and_forges message author secret_key 5 (lit "other") forger)
    as (text & g' & forged & buf & buf' & He & _ & Hf & Hd); [done..|].
  exists text, forged. eexists. rewrite He. split; [reflexivity|]. split; [exact Hf|]. split; [exact Hd|].
  split; [|split]; reflexivity.
Defined.
End Witness.
