(* ===== verification/Policies.v ===== *)
(** * Policies of containers

    [core::Factory] (endpoint/core/src/Factory.cpp): a policy's optional texts
    become the fields of a JSON object, absent ones left out, and back. *)

From Stdlib Require Import ZArith Lia Strings.String Strings.Byte.
From stdpp Require Import base list.
From S2P Require Import Prelude Bytes CoreTypes Crypto CryptoSuite Dynamic Encryptors Dio EncKeys KeyProvider.

Record ItemPolicy := mkItemPolicy {
  ip_get : option bytes;
  ip_listMy : option bytes;
  ip_listAll : option bytes;
  ip_create : option bytes;
  ip_update : option bytes;
  ip_delete : option bytes;
}.

Record ContainerPolicyWithoutItem := mkPolicyWithoutItem {
  cp_get : option bytes;
  cp_update : option bytes;
  cp_delete : option bytes;
  cp_updatePolicy : option bytes;
  cp_updaterCanBeRemovedFromManagers : option bytes;
  cp_ownerCanBeRemovedFromManagers : option bytes;
}.

Record ContainerPolicy := mkPolicy { cp_base : ContainerPolicyWithoutItem; cp_item : option ItemPolicy }.

(** What a JSON object of the library does with the fields it is given. *)
Class ObjectLaws `{KeyEntryJson} : Prop := {
  new_is_object l : is_object (new_object l) = true;
  set_is_object v k x : is_object v = true -> is_object (set_field v k x) = true;
  empty_new k : is_empty (new_object []) k = true;
  empty_set v k s : is_object v = true -> is_empty (set_field v k (of_string s)) k = false;
  empty_set_ne v k k' x : k' <> k -> is_empty (set_field v k x) k' = is_empty v k';
  string_set v k s : is_object v = true -> get_string (set_field v k (of_string s)) k = Ret s;
  string_set_ne v k k' x : k' <> k -> get_string (set_field v k x) k' = get_string v k';
  object_new k : exists e, get_object (new_object []) k = Throw e;
  object_set v k o : is_object v = true -> is_object o = true -> get_object (set_field v k o) k = Ret o;
  object_set_ne v k k' x : k' <> k -> get_object (set_field v k x) k' = get_object v k';
}.

Module Factory.
Section Policy.
Context `{KeyEntryJson}.

(** [if (o.has_value()) { model->set(k, o.value()); }] *)
Definition set_optional (k : bytes) (o : option bytes) (model : Var) : Var :=
  match o with Some s => set_field model k (of_string s) | None => model end.

Definition getValueOrNullopt (policyJsonObj : Var) (key : bytes) : outcome (option bytes) :=
  if is_empty policyJsonObj key then mret None
  else s ← get_string policyJsonObj key; mret (Some s).

Definition createPolicyServerObjectWithoutItem (policy : ContainerPolicyWithoutItem) : Var :=
  let model := new_object [] in
  let model := set_optional (lit "get") (cp_get policy) model in
  let model := set_optional (lit "update") (cp_update policy) model in
  let model := set_optional (lit "delete") (cp_delete policy) model in
  let model := set_optional (lit "updatePolicy") (cp_updatePolicy policy) model in
  let model := set_optional (lit "updaterCanBeRemovedFromManagers") (cp_updaterCanBeRemovedFromManagers policy) model in
  set_optional (lit "ownerCanBeRemovedFromManagers") (cp_ownerCanBeRemovedFromManagers policy) model.

Definition item_object (itemPolicy : ItemPolicy) : Var :=
  let itemModel := new_object [] in
  let itemModel := set_optional (lit "get") (ip_get itemPolicy) itemModel in
  let itemModel := set_optional (lit "listMy") (ip_listMy itemPolicy) itemModel in
  let itemModel := set_optional (lit "listAll") (ip_listAll itemPolicy) itemModel in
  let itemModel := set_optional (lit "create") (ip_create itemPolicy) itemModel in
  let itemModel := set_optional (lit "update") (ip_update itemPolicy) itemModel in
  set_optional (lit "delete") (ip_delete itemPolicy) itemModel.

Definition createPolicyServerObject (policy : ContainerPolicy) : Var :=
  let model := createPolicyServerObjectWithoutItem (cp_base policy) in
  match cp_item policy with
  | Some itemPolicy => set_field model (lit "item") (item_object itemPolicy)
  | None => model
  end.

(** The fields of both kinds of policy. *)
Definition parse_fields (obj : Var) : outcome ContainerPolicyWithoutItem :=
  get ← getValueOrNullopt obj (lit "get");
  update ← getValueOrNullopt obj (lit "update");
  delete ← getValueOrNullopt obj (lit "delete");
  updatePolicy ← getValueOrNullopt obj (lit "updatePolicy");
  updater ← getValueOrNullopt obj (lit "updaterCanBeRemovedFromManagers");
  owner ← getValueOrNullopt obj (lit "ownerCanBeRemovedFromManagers");
  mret (mkPolicyWithoutItem get update delete updatePolicy updater owner).

Definition parse_item (itemObj : Var) : outcome ItemPolicy :=
  get ← getValueOrNullopt itemObj (lit "get");
  listMy ← getValueOrNullopt itemObj (lit "listMy");
  listAll ← getValueOrNullopt itemObj (lit "listAll");
  create ← getValueOrNullopt itemObj (lit "create");
  update ← getValueOrNullopt itemObj (lit "update");
  delete ← getValueOrNullopt itemObj (lit "delete");
  mret (mkItemPolicy get listMy listAll create update delete).

Definition no_policy : ContainerPolicyWithoutItem := mkPolicyWithoutItem None None None None None None.

(** [extract<Object::Ptr>()] *)
Definition extract_object (v : Var) : outcome Var := if is_object v then mret v else Throw PocoException.

Definition parsePolicyServerObject (serverPolicyObject : option Var) : outcome ContainerPolicy :=
  match serverPolicyObject with
  | None => mret (mkPolicy no_policy None)
  | Some v =>
      obj ← extract_object v;
      base ← parse_fields obj;
      item ← match get_object obj (lit "item") with
             | Ret itemObj => i ← parse_item itemObj; mret (Some i)
             | Throw _ => mret None
             end;
      mret (mkPolicy base item)
  end.

Definition parsePolicyServerObjectWithoutItem (serverPolicyObject : option Var) :
    outcome ContainerPolicyWithoutItem :=
  match serverPolicyObject with
  | None => mret no_policy
  | Some v => obj ← extract_object v; parse_fields obj
  end.
End Policy.

Section Laws.
Context `{ObjectLaws}.
Implicit Types v : Var.

Lemma set_optional_object k o v : is_object v = true -> is_object (set_optional k o v) = true.
Proof. destruct o; [apply set_is_object|done]. Qed.

Lemma get_set_optional k o v : is_object v = true -> is_empty v k = true ->
  getValueOrNullopt (set_optional k o v) k = Ret o.
Proof.
  intros Hv He. unfold getValueOrNullopt. destruct o as [s|]; cbn; [|by rewrite He].
  by rewrite empty_set, string_set.
Qed.

Lemma get_set_optional_ne k k' o v : k' <> k ->
  getValueOrNullopt (set_optional k o v) k' = getValueOrNullopt v k'.
Proof.
  intros Hk. unfold getValueOrNullopt. destruct o; cbn; [|done]. by rewrite empty_set_ne, string_set_ne.
Qed.

Lemma get_set_ne k k' x v : k' <> k -> getValueOrNullopt (set_field v k x) k' = getValueOrNullopt v k'.
Proof. intros Hk. unfold getValueOrNullopt. by rewrite empty_set_ne, string_set_ne. Qed.

Lemma empty_set_optional_ne k k' o v : k' <> k -> is_empty (set_optional k o v) k' = is_empty v k'.
Proof. intros. destruct o; [by apply empty_set_ne|done]. Qed.

Lemma object_set_optional_ne k k' o v : k' <> k -> get_object (set_optional k o v) k' = get_object v k'.
Proof. intros. destruct o; [by apply object_set_ne|done]. Qed.
End Laws.

(** Read a field of an object built field by field. *)
Ltac other_key := vm_compute; congruence.
Ltac read_field := repeat first
  [ rewrite get_set_optional_ne by other_key
  | rewrite get_set_ne by other_key
  | rewrite get_set_optional; [|by repeat apply set_optional_object; apply new_is_object
      |repeat (rewrite empty_set_optional_ne by other_key); apply empty_new] ]; cbn beta iota.

Section RoundTrip.
Context `{ObjectLaws}.

Lemma parse_created_fields p : parse_fields (createPolicyServerObjectWithoutItem p) = Ret p.
Proof. unfold parse_fields, createPolicyServerObjectWithoutItem. unfold_st. read_field. by destruct p. Qed.

Lemma parse_created_item p : parse_item (item_object p) = Ret p.
Proof. unfold parse_item, item_object. unfold_st. read_field. by destruct p. Qed.

Lemma created_is_object p : is_object (createPolicyServerObjectWithoutItem p) = true.
Proof. unfold createPolicyServerObjectWithoutItem. repeat apply set_optional_object. apply new_is_object. Qed.

Lemma item_is_object p : is_object (item_object p) = true.
Proof. unfold item_object. repeat apply set_optional_object. apply new_is_object. Qed.

Lemma created_no_item p : exists e, get_object (createPolicyServerObjectWithoutItem p) (lit "item") = Throw e.
Proof.
  unfold createPolicyServerObjectWithoutItem. repeat (rewrite object_set_optional_ne by other_key). apply object_new.
Qed.

Lemma policy_parsed p : parsePolicyServerObject (Some (createPolicyServerObject p)) = Ret p.
Proof.
  destruct p as [b [i|]]; unfold parsePolicyServerObject, createPolicyServerObject, extract_object;
    cbn [cp_item cp_base]; unfold_st.
  - rewrite set_is_object by apply created_is_object.
    rewrite object_set by (apply created_is_object || apply item_is_object).
    rewrite parse_created_item.
    assert (parse_fields (set_field (createPolicyServerObjectWithoutItem b) (lit "item") (item_object i))
      = parse_fields (createPolicyServerObjectWithoutItem b)) as ->.
    { unfold parse_fields. unfold_st. by repeat rewrite get_set_ne by other_key. }
    by rewrite parse_created_fields.
  - rewrite created_is_object, parse_created_fields. by destruct (created_no_item b) as [e ->].
Qed.
(** a policy sent to the server reads back as the same policy, absent
    fields and an absent or empty policy of items included. *)
Theorem policy_roundtrip p : parsePolicyServerObject (Some (createPolicyServerObject p)) = Ret p.
Proof. apply policy_parsed. Qed.
End RoundTrip.
End Factory.

(** ** A concrete policy *)
Section Witness.
Import ToyKeys.
#[local] Existing Instances Toy.service ToyEcc.ecc ToyJson.encodings ToyCodec.keys dio_codec
  key_dynamic map_order key_json key_codec.

#[local] Instance toy_objects : ObjectLaws.
Proof.
  split.
  - done.
  - by intros [].
  - done.
  - intros [] k txt Hv; try done. cbn. by rewrite bool_decide_eq_true_2.
  - intros [] k k' x Hk; try done. cbn. by rewrite bool_decide_eq_false_2.
  - intros [] k txt Hv; try done. cbn. by rewrite bool_decide_eq_true_2.
  - intros [] k k' x Hk; try done. cbn. by rewrite bool_decide_eq_false_2.
  - by intros; eexists.
  - intros [] k [] Hv Ho; try done. cbn. by rewrite bool_decide_eq_true_2.
  - intros [] k k' x Hk; try done. cbn. by rewrite bool_decide_eq_false_2.
Qed.

Let policy : ContainerPolicy := mkPolicy
  (mkPolicyWithoutItem (Some (lit "all")) None (Some (lit "owner")) None None None)
  (Some (mkItemPolicy None None (Some (lit "yes")) None None None)).

Lemma policy_roundtrip_witness :
  Factory.parsePolicyServerObject (Some (Factory.createPolicyServerObject policy)) = Ret policy.
Proof. apply Factory.policy_roundtrip. Defined.
End Witness.
