(* ===== verification/Items.v ===== *)
(** * Opening the items of a container

    The messages of a thread, the entries of a KVDB and the files of a store
    are opened by the same code up to names (ThreadApiImpl.cpp, KvdbApiImpl.cpp,
    StoreApiImpl.cpp): the item's key is asked of the key provider, the item is
    decrypted and converted, and the application's verifier is asked about its
    author.  [ItemKind] is what the copies differ in. *)

From Stdlib Require Import ZArith Lia Strings.String Strings.Byte.
From stdpp Require Import base list gmap fin_maps.
From S2P Require Import Prelude Bytes CoreTypes Crypto CryptoSuite Utils Dynamic Encryptors Dio FieldData EncKeys KeyProvider Containers.
Import ModuleBaseApi.

(** [core::KeyIdFormatValidator] *)
Module KeyIdFormatValidator.
Definition hex_digits : bytes := lit "0123456789abcdefABCDEF".

Definition hasDefaultKeyIdFormat (keyId : bytes) : bool :=
  bool_decide (zlen keyId = 32) && forallb (fun c => bool_decide (c ∈ hex_digits)) keyId.

(** [<prefix-a-b-...>], with as many elements behind the prefix. *)
Definition trimmed (keyId : bytes) : bytes := slice 1 (zlen keyId - 2) keyId.

Definition hasExtendedKeyIdFormat (keyId prefix : bytes) (dataElements : Z) : bool :=
  if bool_decide (2 <= zlen keyId) && bool_decide (head keyId = Some x3c) && bool_decide (last keyId = Some x3e) then
    let keyData := Utils.split_str (trimmed keyId) x2d in
    if bool_decide (prefix <> []) then
      if bool_decide (head keyData <> Some prefix) then false else bool_decide (zlen keyData = dataElements + 1)
    else bool_decide (zlen keyData = dataElements)
  else false.
End KeyIdFormatValidator.

(** ** Handlers

    [catch (core::Exception)], [catch (utils::PrivmxException)], [catch (...)]
    in a row, and the first alone: the status code recorded for an exception,
    if it is caught. *)
Definition every_exn (e : exn) : option exn := Some (status_of e).
Definition only_core (e : exn) : option exn := if core_exn e then Some e else None.

(** [try { return m; } catch (e) { return h(e.getCode()); }], for a handler
    that may throw itself and for one that does not. *)
Definition try_or {A} (catches : exn -> option exn) (m : outcome A) (h : exn -> outcome A) : outcome A :=
  match m with
  | Throw UndefinedBehaviour => Throw UndefinedBehaviour
  | Throw e => match catches e with Some code => h code | None => Throw e end
  | Ret a => Ret a
  end.

Definition try_with {A} (catches : exn -> option exn) (m : outcome A) (h : exn -> A) : outcome A :=
  try_or catches m (fun e => Ret (h e)).

Lemma try_with_ret {A} catches (m : outcome A) h a : m = Ret a -> try_with catches m h = Ret a.
Proof. by intros ->. Qed.

Lemma try_with_inv {A} catches (m : outcome A) h a : try_with catches m h = Ret a ->
  m = Ret a \/ exists e code, m = Throw e /\ catches e = Some code /\ a = h code.
Proof.
  destruct m as [x|e]; [by left|]. intros Ht. right. exists e.
  destruct e; try discriminate; cbn in Ht;
    destruct (catches _) as [c|] eqn:Ec; try discriminate; injection Ht as <-; by exists c.
Qed.

(** ** Verdicts *)
Section Verdicts.
Context `{HasStatus Result}.

Definition verdict_status (accepted : bool) : option exn :=
  if accepted then None else Some UserVerificationFailureException.

(** The answers, given to the results that were asked about. *)
Fixpoint apply_verdicts (results : list Result) (verified : list bool) : outcome (list Result) :=
  match results with
  | [] => mret []
  | result :: results =>
      match status result, verified with
      | Some _, _ => l ← apply_verdicts results verified; mret (result :: l)
      | None, accepted :: verified =>
          l ← apply_verdicts results verified; mret (set_status (verdict_status accepted) result :: l)
      | None, [] => Throw UndefinedBehaviour
      end
  end.
End Verdicts.

Class ItemKind (Item Result : Type) `{HasStatus Result} := {
  it_keyId : Item -> bytes;
  it_contextId : Item -> bytes;
  res_author : Result -> bytes;
  res_authorPubKey : Result -> bytes;
  res_createDate : Result -> Z;
  (** the result made of the item alone, with a status code *)
  failed : Item -> exn -> Result;
  (** [validate...DataIntegrity(item, resourceId)] *)
  validateDataIntegrity : Item -> bytes -> outcome (option exn);
  (** [decryptAndConvert...(item, encKey)] *)
  decryptAndConvert : Item -> DecryptedEncKeyV2 -> outcome (Result * DataIntegrityObject);
}.

Section Items.
Context {C : CryptoService} {E : Ecc} {E0 : Encodings} {D : Dynamic}.
Context `{!KeyFormats PublicKey} `{!KeyEntryJson} `{!HashOrder}.
Context `{!JsonCodec DIOEncryptorV1.DioJson} `{!JsonCodec EncryptionKey}.
Context (_userPrivKey : PrivateKey) (_userVerifier : list VerificationRequest -> outcome (list bool)).
Context {Item Result : Type} `{!HasStatus Result} `{!ItemKind Item Result}.

(** What the verifier is asked about a result. *)
Definition verification_of (contextId : bytes) (result : Result) (dio : DataIntegrityObject) : VerificationRequest :=
  {| vr_contextId := contextId; vr_senderId := res_author result; vr_senderPubKey := res_authorPubKey result;
     vr_date := res_createDate result; vr_bridgeIdentity := dio_bridgeIdentity dio |}.

(** ** One item *)
Definition decryptAndVerifyItem (item : Item) (moduleKeys : ModuleKeys) : outcome Result :=
  let location := {| loc_contextId := it_contextId item; loc_resourceId := mk_moduleResourceId moduleKeys |} in
  let keyProviderRequest := (KeyDecryptionAndVerificationRequest.addOne (mk_keys moduleKeys) (it_keyId item)
                               location KeyDecryptionAndVerificationRequest.empty).2 in
  all ← KeyProvider.getKeysAndVerify _userPrivKey _userVerifier keyProviderRequest;
  keys ← at_ all location;
  encKey ← at_ keys (it_keyId item);
  '(result, dio) ← decryptAndConvert item encKey;
  match status result with
  | Some _ => mret result
  | None =>
      verified ← UserVerifier.verify _userVerifier [verification_of (it_contextId item) result dio];
      match verified with
      | accepted :: _ => mret (set_status (verdict_status accepted) result)
      | [] => Throw UndefinedBehaviour
      end
  end.

(** ** A list of items: [result], [itemsDIO], [duplication_check] *)
Record progress := mkProgress {
  pr_result : list Result;
  pr_dio : list DataIntegrityObject;
  pr_seen : gset bytes;
}.

Definition push_failed (p : progress) (item : Item) (code : exn) : progress :=
  mkProgress (pr_result p ++ [failed item code]) (pr_dio p) (pr_seen p).

Definition fullRandomId (dio : DataIntegrityObject) : bytes :=
  dio_randomId dio ++ lit "-" ++ to_string (dio_timestamp dio).

Definition push_decrypted (p : progress) (result : Result) (dio : DataIntegrityObject) : progress :=
  let full := fullRandomId dio in
  mkProgress
    (pr_result p ++ [if bool_decide (full ∈ pr_seen p)
                     then set_status (Some DataIntegrityObjectDuplicatedException) result else result])
    (pr_dio p ++ [dio]) ({[ full ]} ∪ pr_seen p).

(** The loop over the items, and one turn of it. *)
Definition decrypt_step (catches : exn -> option exn) (resourceId : bytes) (keyMap : KeyProvider.key_map)
    (p : progress) (item : Item) : outcome progress :=
  try_with catches (
    statusCode ← validateDataIntegrity item resourceId;
    match statusCode with
    | None =>
        encKey ← at_ keyMap (it_keyId item);
        '(result, dio) ← decryptAndConvert item encKey;
        mret (push_decrypted p result dio)
    | Some code => mret (push_failed p item code)
    end) (push_failed p item).

Fixpoint decrypt_items (catches : exn -> option exn) (resourceId : bytes) (keyMap : KeyProvider.key_map)
    (items : list Item) (p : progress) : outcome progress :=
  match items with
  | [] => mret p
  | item :: items => p ← decrypt_step catches resourceId keyMap p item;
                     decrypt_items catches resourceId keyMap items p
  end.

(** [verifierInput]: the integrity object is read at the result's index. *)
Fixpoint verifier_input (contextId : bytes) (results : list Result) (dios : list DataIntegrityObject) :
    outcome (list VerificationRequest) :=
  match results with
  | [] => mret []
  | result :: results =>
      match status result with
      | Some _ => verifier_input contextId results (tail dios)
      | None =>
          match dios with
          | [] => Throw UndefinedBehaviour
          | dio :: dios => l ← verifier_input contextId results dios; mret (verification_of contextId result dio :: l)
          end
      end
  end.

(** The questions to the verifier, and its answers. *)
Definition verify_items (contextId : bytes) (p : progress) : outcome (list Result) :=
  verifierInput ← verifier_input contextId (pr_result p) (pr_dio p);
  verified ← UserVerifier.verify _userVerifier verifierInput;
  apply_verdicts (pr_result p) verified.

Definition decryptAndVerifyItems (catches : exn -> option exn) (items : list Item) (moduleKeys : ModuleKeys) :
    outcome (list Result) :=
  let keyIds : gset bytes := list_to_set (it_keyId <$> items) in
  let location := {| loc_contextId := mk_contextId moduleKeys; loc_resourceId := mk_moduleResourceId moduleKeys |} in
  let keyProviderRequest := (KeyDecryptionAndVerificationRequest.addMany (mk_keys moduleKeys) keyIds
                               location KeyDecryptionAndVerificationRequest.empty).2 in
  all ← KeyProvider.getKeysAndVerify _userPrivKey _userVerifier keyProviderRequest;
  keyMap ← at_ all location;
  p ← decrypt_items catches (mk_moduleResourceId moduleKeys) keyMap items (mkProgress [] [] ∅);
  verify_items (mk_contextId moduleKeys) p.
End Items.

Section Laws.
Context {C : CryptoService} `{!CryptoLaws C} {E : Ecc} `{!EccLaws E} {E0 : Encodings} `{!EncodingsLaws E0}.
Context {D : Dynamic} `{!KeyFormats PublicKey} `{!KeyFormatsLaws PublicKey}.
Context `{!KeyEntryJson} `{!KeyEntryJsonLaws} `{!HashOrder}.
Context `{!JsonCodec DIOEncryptorV1.DioJson} `{!JsonCodecLaws DIOEncryptorV1.DioJson}.
Context `{!JsonCodec EncryptionKey} `{!JsonCodecLaws EncryptionKey}.
Context {Item Result : Type} `{!HasStatus Result} `{!ItemKind Item Result}.
Context (priv : PrivateKey) (uv : list VerificationRequest -> outcome (list bool)).
Implicit Types (item : Item) (r : Result).

Lemma verify_inv l verified : UserVerifier.verify uv l = Ret verified ->
  uv l = Ret verified /\ length verified = length l.
Proof.
  unfold UserVerifier.verify. destruct (uv l) as [v|]; [|done]. case_bool_decide as Hl; [done|].
  intros [= <-]. split; [done|]. destruct (decide (length v = length l)) as [|Hn]; [done|by destruct Hl].
Qed.

Lemma verify_ret l verified : uv l = Ret verified -> length verified = length l ->
  UserVerifier.verify uv l = Ret verified.
Proof. intros Hu Hl. unfold UserVerifier.verify. by rewrite Hu, bool_decide_eq_false_2 by tauto. Qed.

(** The location of an item's key. *)
Definition item_location (item : Item) (keys : ModuleKeys) : EncKeyLocation :=
  {| loc_contextId := it_contextId item; loc_resourceId := mk_moduleResourceId keys |}.

(** An item that comes back without an error status was decrypted with a key
    of the item's own, which one of the container's entries opens to if it
    carries no error itself, and the verifier accepted its author. *)
Lemma item_accepted item keys r : decryptAndVerifyItem priv uv item keys = Ret r -> status r = None ->
  exists k r0 dio, decryptAndConvert item k = Ret (r0, dio) /\ status r0 = None
    /\ r = set_status None r0
    /\ uv [verification_of (it_contextId item) r0 dio] = Ret [true]
    /\ (k_statusCode k = None ->
        key_opened priv uv (mk_keys keys) (it_keyId item) (item_location item keys) k).
Proof.
  unfold decryptAndVerifyItem. fold (item_location item keys). unfold_st.
  destruct (KeyProvider.getKeysAndVerify _ _ _) as [all|] eqn:Ea; [|done].
  destruct (at_ all _) as [ks|] eqn:El; [|done]. destruct (at_ ks _) as [k|] eqn:Ek; [|done].
  destruct (decryptAndConvert item k) as [[r0 dio]|] eqn:Ed; [|done].
  destruct (status r0) eqn:Es; [intros [= <-]; by rewrite Es|].
  destruct (UserVerifier.verify _ _) as [verified|] eqn:Ev; [|done].
  apply verify_inv in Ev as [Hu Hl]. destruct verified as [|b [|]]; [done| |done].
  intros [= <-]. rewrite status_set. destruct b; [|done]. intros _.
  exists k, r0, dio. do 4 (split; [done|]). intros Hs. by eapply one_key_opened.
Qed.

(** An item whose key is found, and that converts without an error, comes back
    with the verifier's verdict. *)
Lemma item_opens item keys e k r dio accepted :
  List.find (fun x => bool_decide (kn_keyId x = it_keyId item)) (mk_keys keys) = Some e ->
  KeyProvider.decrypt_entry priv e = Ret k ->
  dio_contextId (Dio.dio (k_dio k)) = it_contextId item ->
  dio_resourceId (Dio.dio (k_dio k)) = mk_moduleResourceId keys ->
  KeyProvider.checked k = true -> uv [KeyProvider.request_of k] = Ret [true] ->
  decryptAndConvert item k = Ret (r, dio) -> status r = None ->
  uv [verification_of (it_contextId item) r dio] = Ret [accepted] ->
  decryptAndVerifyItem priv uv item keys = Ret (set_status (verdict_status accepted) r).
Proof.
  intros Hf Hd Hx Hr Hc Hu Hconv Hs Hv. unfold decryptAndVerifyItem.
  erewrite one_key_found by done. unfold_st. rewrite !at_singleton, Hconv, Hs.
  by rewrite (verify_ret _ [accepted]).
Qed.

(** *** Lists *)
Section List.
Context (catches : exn -> option exn) (resourceId : bytes) (keyMap : KeyProvider.key_map).

(** A result stands for its item: one that failed has an error status, any
    other is what the item converted to under the key of its id. *)
Definition stands_for (item : Item) (r : Result) : Prop :=
  status r = None -> exists k dio, keyMap !! it_keyId item = Some k
    /\ validateDataIntegrity item resourceId = Ret None /\ decryptAndConvert item k = Ret (r, dio).

Lemma decrypt_step_stands p item p' : (forall i code, is_Some (status (failed i code))) ->
  decrypt_step catches resourceId keyMap p item = Ret p' ->
  exists r, pr_result p' = pr_result p ++ [r] /\ stands_for item r.
Proof.
  intros Hfailed. unfold decrypt_step. intros [Hm|(e & code & _ & _ & ->)]%try_with_inv.
  - revert Hm. unfold_st. destruct (validateDataIntegrity item resourceId) as [[e|]|] eqn:Ev; [| |done].
    + intros [= <-]. eexists. split; [reflexivity|]. destruct (Hfailed item e) as [c Hc]. intros Hs. congruence.
    + destruct (at_ keyMap _) as [k|] eqn:Ek; [|done]. apply at_inv in Ek.
      destruct (decryptAndConvert item k) as [[r d]|] eqn:Ec; [|done]. intros [= <-]. eexists. split; [reflexivity|].
      case_bool_decide; [intros Hs; by rewrite status_set in Hs|]. intros _. by exists k, d.
  - eexists. split; [reflexivity|]. destruct (Hfailed item code) as [c Hc]. intros Hs. congruence.
Qed.

Lemma decrypt_items_stand items p p' : (forall i code, is_Some (status (failed i code))) ->
  decrypt_items catches resourceId keyMap items p = Ret p' ->
  exists rs, pr_result p' = pr_result p ++ rs /\ Forall2 stands_for items rs.
Proof.
  intros Hfailed. revert p. induction items as [|i items IH]; intros p; cbn [decrypt_items].
  { intros [= <-]. exists []. by rewrite app_nil_r. }
  unfold_st. destruct (decrypt_step _ _ _ p i) as [p1|] eqn:Ei; [|done]. intros Hp.
  destruct (decrypt_step_stands p i p1 Hfailed Ei) as (r & Hr & Hs). destruct (IH p1 Hp) as (rs & Hrs & HF).
  exists (r :: rs). split; [|by constructor]. by rewrite Hrs, Hr, <- app_assoc.
Qed.

(** Verdicts touch the status alone, of results that had none. *)
Lemma apply_verdicts_same (results : list Result) verified rs : apply_verdicts results verified = Ret rs ->
  Forall2 (fun r0 r => status r = None -> status r0 = None /\ r = set_status None r0) results rs.
Proof.
  revert verified rs. induction results as [|r0 results IH]; intros verified rs; cbn [apply_verdicts].
  { intros [= <-]. constructor. }
  unfold_st. destruct (status r0) eqn:Es.
  - destruct (apply_verdicts results verified) as [l|] eqn:El; [|done]. intros [= <-]. constructor; [congruence|by eapply IH].
  - destruct verified as [|b verified]; [done|]. destruct (apply_verdicts results verified) as [l|] eqn:El; [|done].
    intros [= <-]. constructor; [|by eapply IH]. rewrite status_set. by destruct b.
Qed.
End List.

(** The list that comes back has a result for each item, in order. *)
Lemma items_stand catches items keys rs : (forall i code, is_Some (status (failed i code))) ->
  decryptAndVerifyItems priv uv catches items keys = Ret rs ->
  exists keyMap, Forall2 (fun item r => status r = None -> exists r0, status r0 = None /\ r = set_status None r0
    /\ stands_for (mk_moduleResourceId keys) keyMap item r0) items rs.
Proof.
  intros Hfailed. unfold decryptAndVerifyItems. unfold_st. destruct (KeyProvider.getKeysAndVerify _ _ _) as [all|]; [|done].
  destruct (at_ all _) as [keyMap|]; [|done]. destruct (decrypt_items _ _ keyMap items _) as [p|] eqn:Ep; [|done].
  apply decrypt_items_stand in Ep as (rs0 & Hrs & HF); [|done]. cbn in Hrs. unfold verify_items. unfold_st.
  destruct (verifier_input _ _ _) as [v|]; [|done]. destruct (UserVerifier.verify uv v) as [verified|]; [|done].
  intros Hv%apply_verdicts_same. rewrite Hrs in Hv. exists keyMap.
  clear -HF Hv. revert rs Hv. induction HF as [|i r0 items rs0 Hi HF IH]; intros rs Hv.
  { apply Forall2_nil_inv_l in Hv as ->. constructor. }
  apply Forall2_cons_inv_l in Hv as (r & rs' & Hr & Hv & ->). constructor; [|by apply IH].
  intros Hs. destruct (Hr Hs) as [Hs0 ->]. by exists r0.
Qed.

(** A single result that failed is handed out as it is. *)
Lemma verify_failed contextId r0 dios seen r : is_Some (status r0) ->
  verify_items uv contextId (mkProgress [r0] dios seen) = Ret [r] -> is_Some (status r).
Proof.
  intros [c Hc]. unfold verify_items. cbn [pr_result pr_dio verifier_input]. rewrite Hc. unfold_st.
  destruct (UserVerifier.verify uv []) as [v|]; [|done]. cbn [apply_verdicts]. rewrite Hc. intros [= <-]. by exists c.
Qed.

(** An item that opens when it is listed alone, listed behind one under the same
    key that fails its integrity check: the integrity objects are one short, and
    the last result reads past them. *)
Lemma listing_misaligned catches bad good keys e r :
  (forall item code, is_Some (status (failed item code))) ->
  it_keyId bad = it_keyId good -> validateDataIntegrity bad (mk_moduleResourceId keys) = Ret (Some e) ->
  decryptAndVerifyItems priv uv catches [good] keys = Ret [r] -> status r = None ->
  decryptAndVerifyItems priv uv catches [bad; good] keys = Throw UndefinedBehaviour.
Proof.
  intros Hfailed Hid Hbad Hgood Hs. unfold decryptAndVerifyItems in *.
  assert (list_to_set (it_keyId <$> [bad; good]) = (list_to_set (it_keyId <$> [good]) : gset bytes)) as ->.
  { apply leibniz_equiv. cbn. rewrite Hid. intros i. rewrite !elem_of_union, !elem_of_singleton. tauto. }
  revert Hgood. unfold_st. destruct (KeyProvider.getKeysAndVerify _ _ _) as [all|]; [|done].
  destruct (at_ all _) as [keyMap|]; [|done]. cbn [decrypt_items]. unfold_st.
  assert (decrypt_step catches (mk_moduleResourceId keys) keyMap (mkProgress [] [] ∅) bad
    = Ret (push_failed (mkProgress [] [] ∅) bad e)) as -> by (unfold decrypt_step; unfold_st; by rewrite Hbad).
  assert (forall d s r0, is_Some (status r0) -> verify_items uv (mk_contextId keys) (mkProgress [r0] d s) <> Ret [r]) as Hno.
  { intros d s r0 Hr0 Hr. destruct (verify_failed _ _ _ _ _ Hr0 Hr) as [c Hc]. by rewrite Hc in Hs. }
  destruct (decrypt_step catches _ keyMap (mkProgress [] [] ∅) good) as [p|] eqn:Eg; [|done].
  apply try_with_inv in Eg as [Eg|(x & code & _ & _ & ->)]; [|intros Hr; by apply Hno in Hr].
  revert Eg. unfold_st. destruct (validateDataIntegrity good _) as [[code|]|] eqn:Ev;
    [by intros [= <-] Hr; apply Hno in Hr| |done].
  destruct (at_ keyMap _) as [k|] eqn:Ek; [|done]. destruct (decryptAndConvert good k) as [[r0 dio]|] eqn:Ec; [|done].
  unfold push_decrypted at 1. rewrite bool_decide_eq_false_2 by apply not_elem_of_empty. intros [= <-] Hr.
  assert (status r0 = None) as Hr0 by (destruct (status r0) eqn:Er0; [exfalso; by eapply Hno, Hr|done]).
  unfold decrypt_step. unfold_st. rewrite Ev, Ek, Ec. cbn [try_with try_or].
  unfold push_decrypted, verify_items. cbn [pr_seen push_failed pr_result pr_dio app].
  rewrite bool_decide_eq_false_2 by apply not_elem_of_empty. cbn [verifier_input].
  destruct (Hfailed bad e) as [c Hc]. rewrite Hc. cbn [tail verifier_input]. by rewrite Hr0.
Qed.
End Laws.
