(* ===== verification/Modules.v ===== *)
(** * Containers: threads, KVDBs and stores

    What [core::ModuleBaseApi] (endpoint/core/include/privmx/endpoint/core/ModuleBaseApi.hpp)
    and the API classes of the modules (ThreadApiImpl.cpp, KvdbApiImpl.cpp,
    StoreApiImpl.cpp) do with a container: create it, update it with its
    members' keys, fetch it, check its integrity object and decrypt its
    metadata.  The modules' copies of this code differ in names, in the
    structures they know and in their exceptions: [ModuleKind]. *)

From Stdlib Require Import ZArith Lia Strings.String Strings.Byte.
From stdpp Require Import base list gmap fin_maps.
From S2P Require Import Prelude Bytes CoreTypes Crypto CryptoSuite Dynamic Encryptors Dio FieldData EncKeys ContainerData KeyProvider Utils Users Policies Containers Items.
Import ModuleBaseApi.

(** [core::TimestampValidator] *)
Module TimestampValidator.
Definition TIMESTAMP_ALLOWED_DELTA : Z := 5 * 60 * 1000.
Definition validate (clinetTimestamp serverTimestamp : Z) : bool :=
  Utils.validateTimestamps serverTimestamp clinetTimestamp TIMESTAMP_ALLOWED_DELTA.
End TimestampValidator.

(** [PagingQuery], and the part of [server::ListModel] made of it. *)
Record PagingQuery := mkPagingQuery {
  pq_skip : Z;
  pq_limit : Z;
  pq_sortOrder : bytes;
  pq_lastId : option bytes;
  pq_sortBy : option bytes;
  pq_queryAsJson : option bytes;
}.

Section Json.
Context `{!Dynamic}.

Record ListModel := mkListModel {
  lm_skip : Z;
  lm_limit : Z;
  lm_sortOrder : bytes;
  lm_lastId : option bytes;
  lm_sortBy : option bytes;
  lm_query : option Var;
}.

(** [ListQueryMapper::map] *)
Definition map_query (listQuery : PagingQuery) : outcome ListModel :=
  query ← match pq_queryAsJson listQuery with
          | Some q => v ← parse_json q; mret (Some v)
          | None => mret None
          end;
  mret (mkListModel (pq_skip listQuery) (pq_limit listQuery) (pq_sortOrder listQuery)
          (pq_lastId listQuery) (pq_sortBy listQuery) query).

(** [server::Thread2DataEntry], [KvdbDataEntry], [StoreDataEntry] *)
Record ContainerEntry := mkEntry { en_keyId : bytes; en_data : Var }.

(** [server::ThreadInfo], [KvdbInfo], [Store]: the fields they share; [X] is
    the rest of them. *)
Record ContainerInfo {X : Type} := mkContainerInfo {
  ct_id : bytes;
  ct_resourceId : option bytes;
  ct_contextId : bytes;
  ct_createDate : Z;
  ct_creator : bytes;
  ct_lastModificationDate : Z;
  ct_lastModifier : bytes;
  ct_data : list ContainerEntry;
  ct_keyId : bytes;
  ct_users : list bytes;
  ct_managers : list bytes;
  ct_keys : list KeyEntry;
  ct_version : Z;
  ct_type : option bytes;
  ct_policy : option Var;
  ct_extra : X;
}.

(** [ThreadCreateModel] and its like; an absent type is an empty text. *)
Record CreateModel := mkCreateModel {
  cm_resourceId : bytes;
  cm_contextId : bytes;
  cm_users : list bytes;
  cm_managers : list bytes;
  cm_data : Var;
  cm_keyId : bytes;
  cm_keys : list KeyEntrySet;
  cm_type : bytes;
  cm_policy : option Var;
}.

(** [ThreadUpdateModel] and its like *)
Record UpdateModel := mkUpdateModel {
  um_id : bytes;
  um_resourceId : bytes;
  um_users : list bytes;
  um_managers : list bytes;
  um_data : Var;
  um_keyId : bytes;
  um_keys : list KeyEntrySet;
  um_version : Z;
  um_force : bool;
  um_policy : option Var;
}.
End Json.
Arguments ContainerInfo {_} X.

(** [Thread], [Kvdb], [Store] of the library *)
Record Container {X : Type} := mkContainer {
  cl_contextId : bytes;
  cl_id : bytes;
  cl_createDate : Z;
  cl_creator : bytes;
  cl_lastModificationDate : Z;
  cl_lastModifier : bytes;
  cl_users : list bytes;
  cl_managers : list bytes;
  cl_version : Z;
  cl_publicMeta : bytes;
  cl_privateMeta : bytes;
  cl_policy : ContainerPolicy;
  cl_statusCode : option exn;
  cl_schemaVersion : Z;
  cl_extra : X;
}.
Arguments Container X : clear implicits.

Definition cl_set_statusCode {X} (s : option exn) (c : Container X) : Container X := {|
  cl_contextId := cl_contextId c; cl_id := cl_id c; cl_createDate := cl_createDate c; cl_creator := cl_creator c;
  cl_lastModificationDate := cl_lastModificationDate c; cl_lastModifier := cl_lastModifier c;
  cl_users := cl_users c; cl_managers := cl_managers c; cl_version := cl_version c;
  cl_publicMeta := cl_publicMeta c; cl_privateMeta := cl_privateMeta c; cl_policy := cl_policy c;
  cl_statusCode := s; cl_schemaVersion := cl_schemaVersion c; cl_extra := cl_extra c |}.

#[export] Instance container_status {X} : HasStatus (Container X) :=
  {| status := cl_statusCode; set_status := cl_set_statusCode; status_set _ _ := eq_refl |}.

(** The JSON objects of the encrypted metadata. *)
Class ModuleJson `{Dynamic} := {
  mj5_toJSON : ModuleDataEncryptorV5.EncryptedModuleDataV5 -> Var;
  mj5_fromJSON : Var -> outcome ModuleDataEncryptorV5.EncryptedModuleDataV5;
  mj4_fromJSON : Var -> outcome ModuleDataEncryptorV4.EncryptedModuleDataV4;
}.
Class ModuleJsonLaws `{KeyEntryJson} `{!ModuleJson} : Prop := {
  mj5_is_object e : is_object (mj5_toJSON e) = true;
  mj5_versioned e : versioned (mj5_toJSON e) = Ret (ModuleDataEncryptorV5.version e);
  mj5_inv e : mj5_fromJSON (mj5_toJSON e) = Ret e;
}.

(** What a module has of the connection and of the world outside: its user's
    id in a context, the clock, the generator of random bytes, the generator of
    UUIDs, and its own cache of keys. *)
Class ConnectionWorld {C : CryptoService} {D : Dynamic} (W : Type) := {
  getMyUserId : bytes -> ST W bytes;
  getNowTimestamp : ST W Z;
  on_rng : forall A, ST rng A -> ST W A;
  generateId : ST W bytes;
  keyCache : W -> ContainerKeyCache.t;
  set_keyCache : ContainerKeyCache.t -> W -> W;
}.
Arguments on_rng {C D W _ A} m.

(** The server's operations on containers. *)
Class ContainerServer {D : Dynamic} (X W : Type) := {
  server_create : CreateModel -> ST W bytes;
  server_update : UpdateModel -> ST W unit;
  server_delete : bytes -> ST W unit;
  server_get : bytes -> option bytes -> ST W (ContainerInfo X);
  server_list : bytes -> option bytes -> ListModel -> ST W (list (ContainerInfo X) * Z);
}.

(** What a module knows of its containers. *)
Class ModuleKind {D : Dynamic} (X : Type) := {
  (** the structure of an entry's data, 0 for an unknown one *)
  entry_version : Var -> outcome Z;
  unknown_format : exn;
  data_integrity : exn;
  key_validation : exn;
  (** [decryptAndConvert...Data(info, entry, encKey)] *)
  decryptAndConvertData : ContainerInfo X -> ContainerEntry -> DecryptedEncKeyV2 ->
                          outcome (Container X * DataIntegrityObject);
}.

Module ModuleApi.
Section Pure.
Context {C : CryptoService} {E : Ecc} {E0 : Encodings} {D : Dynamic}.
Context `{!KeyFormats PublicKey} `{!KeyEntryJson} `{!HashOrder} `{!ModuleJson}.
Context `{!JsonCodec DIOEncryptorV1.DioJson} `{!JsonCodec EncryptionKey}.
Context `{!JsonCodec ModuleDataEncryptorV5.ModuleInternalMetaV5}.

(** ** The templates of [ModuleBaseApi] *)
Definition decryptModuleDataV4 (data : Var) (encKey : DecryptedEncKeyV2) :
    outcome ModuleDataEncryptorV4.DecryptedModuleDataV4 :=
  try_with every_exn (
    encryptedData ← mj4_fromJSON data;
    ModuleDataEncryptorV4.decrypt encryptedData (k_key encKey))
  (fun code => ModuleDataEncryptorV4.set_statusCode (Some code) ModuleDataEncryptorV4.fresh).

Definition decryptModuleDataV5 (data : Var) (encKey : DecryptedEncKeyV2) :
    outcome ModuleDataEncryptorV5.DecryptedModuleDataV5 :=
  try_with every_exn (
    encryptedData ← mj5_fromJSON data;
    match k_statusCode encKey with
    | Some code => tmp ← ModuleDataEncryptorV5.extractPublic encryptedData; mret (ModuleDataEncryptorV5.set_statusCode (Some code) tmp)
    | None => ModuleDataEncryptorV5.decrypt encryptedData (k_key encKey)
    end)
  (fun code => ModuleDataEncryptorV5.set_statusCode (Some code) ModuleDataEncryptorV5.fresh).

(** Containers of older structures have no internal metadata. *)
Definition no_internalMeta : ModuleDataEncryptorV5.ModuleInternalMetaV5 :=
  {| ModuleDataEncryptorV5.secret := []; ModuleDataEncryptorV5.resourceId := []; ModuleDataEncryptorV5.randomId := [] |}.

Definition extractAndDecryptModuleInternalMeta (data : Var) (encKey : DecryptedEncKeyV2) :
    outcome ModuleDataEncryptorV5.ModuleInternalMetaV5 :=
  version ← versioned data;
  if bool_decide (version = 5) then
    d ← decryptModuleDataV5 data encKey; mret (ModuleDataEncryptorV5.m5_internalMeta d)
  else mret no_internalMeta.

Section Kind.
Context (_userPrivKey : PrivateKey) (_userVerifier : list VerificationRequest -> outcome (list bool)).
Context {X : Type} `{!ModuleKind X}.
Implicit Types info : ContainerInfo X.

(** [data.back()] *)
Definition last_entry info : outcome ContainerEntry :=
  match last (ct_data info) with Some e => Ret e | None => Throw UndefinedBehaviour end.

Definition module_location info : EncKeyLocation :=
  {| loc_contextId := ct_contextId info; loc_resourceId := default [] (ct_resourceId info) |}.

(** [convertServer...ToLib...] *)
Definition convertServerToLib info (publicMeta privateMeta : bytes) (statusCode : option exn) (schemaVersion : Z) :
    outcome (Container X) :=
  policy ← Factory.parsePolicyServerObject (ct_policy info);
  mret {| cl_contextId := ct_contextId info; cl_id := ct_id info; cl_createDate := ct_createDate info;
          cl_creator := ct_creator info; cl_lastModificationDate := ct_lastModificationDate info;
          cl_lastModifier := ct_lastModifier info; cl_users := ct_users info; cl_managers := ct_managers info;
          cl_version := ct_version info; cl_publicMeta := publicMeta; cl_privateMeta := privateMeta;
          cl_policy := policy; cl_statusCode := statusCode; cl_schemaVersion := schemaVersion;
          cl_extra := ct_extra info |}.

Definition failed_container info (code : exn) : outcome (Container X) :=
  convertServerToLib info [] [] (Some code) 0.

Definition convertDecryptedDataV4 info (d : ModuleDataEncryptorV4.DecryptedModuleDataV4) : outcome (Container X) :=
  convertServerToLib info (ModuleDataEncryptorV4.m4_publicMeta d) (ModuleDataEncryptorV4.m4_privateMeta d)
    (ModuleDataEncryptorV4.m4_statusCode d) 4.

Definition convertDecryptedDataV5 info (d : ModuleDataEncryptorV5.DecryptedModuleDataV5) : outcome (Container X) :=
  convertServerToLib info (ModuleDataEncryptorV5.m5_publicMeta d) (ModuleDataEncryptorV5.m5_privateMeta d)
    (ModuleDataEncryptorV5.m5_statusCode d) 5.

(** The integrity object made up for structures that carry none. *)
Definition made_up_dio info (creatorPubKey : bytes) : DataIntegrityObject :=
  mkDIO (ct_lastModifier info) creatorPubKey (ct_contextId info) (default [] (ct_resourceId info))
    (ct_lastModificationDate info) [] None None None.

(** ** Integrity *)
Definition assertDataIntegrity info : outcome unit :=
  entry ← last_entry info;
  version ← entry_version (en_data entry);
  if bool_decide (version = 1) || bool_decide (version = 4) then mret tt
  else if bool_decide (version = 5) then
    d ← mj5_fromJSON (en_data entry);
    dio ← ModuleDataEncryptorV5.getDIOAndAssertIntegrity d;
    if bool_decide (dio_contextId dio <> ct_contextId info)
       || bool_decide (Some (dio_resourceId dio) <> ct_resourceId info)
       || bool_decide (dio_creatorUserId dio <> ct_lastModifier info)
       || negb (TimestampValidator.validate (dio_timestamp dio) (ct_lastModificationDate info))
    then Throw data_integrity else mret tt
  else Throw unknown_format.

Definition validateDataIntegrity info : outcome (option exn) :=
  try_with every_exn (_ ← assertDataIntegrity info; mret None) Some.

Definition moduleToModuleKeys info : outcome ModuleKeys :=
  entry ← last_entry info;
  version ← entry_version (en_data entry);
  mret (mkModuleKeys (ct_keys info) (ct_keyId info) version (default [] (ct_resourceId info)) (ct_contextId info)).

(** ** Decryption of one container *)
Definition module_verification (result : Container X) (dio : DataIntegrityObject) : VerificationRequest :=
  {| vr_contextId := cl_contextId result; vr_senderId := cl_lastModifier result;
     vr_senderPubKey := dio_creatorPubKey dio; vr_date := cl_lastModificationDate result;
     vr_bridgeIdentity := dio_bridgeIdentity dio |}.

Definition validateDecryptAndConvert info : outcome (Container X) :=
  statusCode ← validateDataIntegrity info;
  match statusCode with
  | Some code => failed_container info code
  | None =>
      entry ← last_entry info;
      let location := module_location info in
      let keyProviderRequest := (KeyDecryptionAndVerificationRequest.addOne (ct_keys info) (en_keyId entry)
                                   location KeyDecryptionAndVerificationRequest.empty).2 in
      all ← KeyProvider.getKeysAndVerify _userPrivKey _userVerifier keyProviderRequest;
      keys ← at_ all location;
      key ← at_ keys (en_keyId entry);
      '(result, dio) ← decryptAndConvertData info entry key;
      match cl_statusCode result with
      | Some _ => mret result
      | None =>
          verified ← UserVerifier.verify _userVerifier [module_verification result dio];
          match verified with
          | accepted :: _ => mret (cl_set_statusCode (verdict_status accepted) result)
          | [] => Throw UndefinedBehaviour
          end
      end
  end.

(** ** Decryption of a list of containers

    The result of the first loop: a container to decrypt, or the result of one
    whose integrity object does not fit. *)
Fixpoint check_all (infos : list (ContainerInfo X)) : outcome (list (ContainerInfo X * option (Container X))) :=
  match infos with
  | [] => mret []
  | info :: infos =>
      statusCode ← validateDataIntegrity info;
      r ← match statusCode with
          | Some code => c ← failed_container info code; mret (Some c)
          | None => mret None
          end;
      l ← check_all infos;
      mret ((info, r) :: l)
  end.

(** The second loop: one request for the current keys of all. *)
Fixpoint request_keys (infos : list (ContainerInfo X)) :
    ST KeyDecryptionAndVerificationRequest.t unit :=
  match infos with
  | [] => mret tt
  | info :: infos =>
      entry ← lift (last_entry info);
      _ ← KeyDecryptionAndVerificationRequest.addOne (ct_keys info) (en_keyId entry) (module_location info);
      request_keys infos
  end.

(** The third loop: decryption, and detection of repeated integrity objects.
    Handlers catch [core::Exception] alone. *)
Fixpoint decrypt_all_containers (all : KeyProvider.located) (checked : list (ContainerInfo X * option (Container X)))
    (seen : gset bytes) : outcome (list (Container X * DataIntegrityObject)) :=
  match checked with
  | [] => mret []
  | (info, Some result) :: checked =>
      l ← decrypt_all_containers all checked seen; mret ((result, empty_dio) :: l)
  | (info, None) :: checked =>
      '(result, dio, seen) ← try_or only_core (
        keys ← at_ all (module_location info);
        entry ← last_entry info;
        key ← at_ keys (en_keyId entry);
        '(result, dio) ← decryptAndConvertData info entry key;
        let full := fullRandomId dio in
        mret (if bool_decide (full ∈ seen)
              then (cl_set_statusCode (Some DataIntegrityObjectDuplicatedException) result, dio, seen)
              else (result, dio, {[ full ]} ∪ seen)))
        (fun code => c ← failed_container info code; mret (c, empty_dio, seen));
      l ← decrypt_all_containers all checked seen;
      mret ((result, dio) :: l)
  end.

Definition validateDecryptAndConvertAll (infos : list (ContainerInfo X)) : outcome (list (Container X)) :=
  checked ← check_all infos;
  match request_keys infos KeyDecryptionAndVerificationRequest.empty with
  | (Throw e, _) => Throw e
  | (Ret _, keyProviderRequest) =>
      all ← KeyProvider.getKeysAndVerify _userPrivKey _userVerifier keyProviderRequest;
      decrypted ← decrypt_all_containers all checked ∅;
      let verifierInput := omap (fun '(r, dio) =>
        match cl_statusCode r with None => Some (module_verification r dio) | Some _ => None end) decrypted in
      verified ← UserVerifier.verify _userVerifier verifierInput;
      apply_verdicts decrypted.*1 verified
  end.
End Kind.
End Pure.

Section World.
Context {C : CryptoService} {E : Ecc} {E0 : Encodings} {D : Dynamic}.
Context `{!KeyFormats PublicKey} `{!KeyEntryJson} `{!HashOrder} `{!ModuleJson}.
Context `{!JsonCodec DIOEncryptorV1.DioJson} `{!JsonCodec EncryptionKey}.
Context `{!JsonCodec ModuleDataEncryptorV5.ModuleInternalMetaV5}.
Context (_userPrivKey : PrivateKey) (_userVerifier : list VerificationRequest -> outcome (list bool)).
Context (_bridgeIdentity : option BridgeIdentity).
Context {X W : Type} `{!ModuleKind X} `{!ConnectionWorld W} `{!ContainerServer X W}.

Definition createDIO (contextId resourceId : bytes) (containerId containerResourceId : option bytes) :
    ST W DataIntegrityObject :=
  ConnectionImpl.createDIO getMyUserId getNowTimestamp (fun _ => on_rng) _userPrivKey _bridgeIdentity
    contextId resourceId containerId containerResourceId.

(** An absent type asks for containers of any type. *)
Definition some_type (type : bytes) : option bytes := if bool_decide (type = []) then None else Some type.

Definition mapUsers (users : list UserWithPubKey) : list bytes := u_userId <$> users.

(** The metadata to encrypt, and its encryption. *)
Definition metadata (publicMeta privateMeta secret resourceId : bytes) (dio : DataIntegrityObject) :
    ModuleDataEncryptorV5.ModuleDataToEncryptV5 :=
  {| ModuleDataEncryptorV5.in_publicMeta := publicMeta; ModuleDataEncryptorV5.in_privateMeta := privateMeta;
     ModuleDataEncryptorV5.in_internalMeta := {| ModuleDataEncryptorV5.secret := secret;
       ModuleDataEncryptorV5.resourceId := resourceId; ModuleDataEncryptorV5.randomId := dio_randomId dio |};
     ModuleDataEncryptorV5.in_dio := dio |}.

Definition createContainer (contextId : bytes) (users managers : list UserWithPubKey)
    (publicMeta privateMeta type : bytes) (policies : option ContainerPolicy) : ST W bytes :=
  key ← on_rng KeyProvider.generateKey;
  resourceId ← generateId;
  dio ← createDIO contextId resourceId None None;
  secret ← on_rng KeyProvider.generateSecret;
  let allUsers := EndpointUtils.uniqueListUserWithPubKey users managers in
  data ← on_rng (ModuleDataEncryptorV5.encrypt (metadata publicMeta privateMeta secret resourceId dio)
                   _userPrivKey (ek_key key));
  keys ← on_rng (KeyProvider.prepareKeysList _userPrivKey allUsers key dio
                   {| loc_contextId := contextId; loc_resourceId := resourceId |} secret);
  server_create (X := X)
    {| cm_resourceId := resourceId; cm_contextId := contextId; cm_users := mapUsers users;
       cm_managers := mapUsers managers; cm_data := mj5_toJSON data; cm_keyId := ek_id key; cm_keys := keys;
       cm_type := type; cm_policy := Factory.createPolicyServerObject <$> policies |}.

(** The key the container's data is encrypted with from now on, and the key
    entries sent with it. *)
Definition keys_for_update (resolver : UsersKeysResolver.t) (threadKeys : KeyProvider.key_map)
    (currentKey : DecryptedEncKeyV2) (dio : DataIntegrityObject) (location : EncKeyLocation) (secret : bytes) :
    ST rng (EncKey * list KeyEntrySet) :=
  '(key, keys) ← (if UsersKeysResolver.doNeedNewKey resolver then
      key ← KeyProvider.generateKey;
      keys ← KeyProvider.prepareKeysList _userPrivKey (UsersKeysResolver.getNewUsers resolver) key dio location secret;
      mret (key, keys)
    else mret (mkEncKey (k_id currentKey) (k_key currentKey), []));
  let usersToAddMissingKey := UsersKeysResolver.getUsersToAddKey resolver in
  tmp ← (if bool_decide (usersToAddMissingKey <> []) then
      KeyProvider.prepareMissingKeysForNewUsers _userPrivKey threadKeys usersToAddMissingKey dio location secret
    else mret []);
  mret (key, keys ++ tmp).

Definition updateContainer (id : bytes) (users managers : list UserWithPubKey) (publicMeta privateMeta : bytes)
    (version : Z) (force forceGenerateNewKey : bool) (policies : option ContainerPolicy) : ST W unit :=
  current ← server_get (X := X) id None;
  currentEntry ← lift (last_entry current);
  resourceId ← match ct_resourceId current with Some r => mret r | None => generateId end;
  let location := {| loc_contextId := ct_contextId current; loc_resourceId := resourceId |} in
  let keysRequest := (KeyDecryptionAndVerificationRequest.addAll (ct_keys current) location
                        KeyDecryptionAndVerificationRequest.empty).2 in
  all ← lift (KeyProvider.getKeysAndVerify _userPrivKey _userVerifier keysRequest);
  keys ← lift (at_ all location);
  currentKey ← lift (findEncKeyByKeyId keys (en_keyId currentEntry));
  internalMeta ← lift (extractAndDecryptModuleInternalMeta (en_data currentEntry) currentKey);
  let secret := ModuleDataEncryptorV5.secret internalMeta in
  let usersKeysResolver := UsersKeysResolver.create (ct_users current) (ct_managers current) users managers
                             forceGenerateNewKey currentKey in
  _ ← throw_if (negb (KeyProvider.verifyKeysSecret keys location secret)) (key_validation (X := X));
  dio ← createDIO (ct_contextId current) resourceId None None;
  '(key, keySets) ← on_rng (keys_for_update usersKeysResolver keys currentKey dio location secret);
  data ← on_rng (ModuleDataEncryptorV5.encrypt (metadata publicMeta privateMeta secret resourceId dio)
                   _userPrivKey (ek_key key));
  _ ← server_update (X := X)
    {| um_id := id; um_resourceId := resourceId; um_users := mapUsers users; um_managers := mapUsers managers;
       um_data := mj5_toJSON data; um_keyId := ek_id key; um_keys := keySets; um_version := version;
       um_force := force; um_policy := Factory.createPolicyServerObject <$> policies |};
  invalidateModuleKeysInCache keyCache set_keyCache (Some id).

Definition deleteContainer (id : bytes) : ST W unit :=
  _ ← server_delete (X := X) id;
  invalidateModuleKeysInCache keyCache set_keyCache (Some id).

(** [setNewModuleKeysInCache(info.id, toModuleKeys(info), info.version)] *)
Definition remember (info : ContainerInfo X) : ST W unit :=
  moduleKeys ← lift (moduleToModuleKeys info);
  setNewModuleKeysInCache keyCache set_keyCache (ct_id info) moduleKeys (ct_version info).

Definition getContainer (id type : bytes) : ST W (Container X) :=
  info ← server_get id (some_type type);
  _ ← remember info;
  lift (validateDecryptAndConvert _userPrivKey _userVerifier info).

Definition listContainers (contextId : bytes) (pagingQuery : PagingQuery) (type : bytes) :
    ST W (list (Container X) * Z) :=
  model ← lift (map_query pagingQuery);
  '(infos, count) ← server_list contextId (some_type type) model;
  _ ← for_each infos remember;
  containers ← lift (validateDecryptAndConvertAll _userPrivKey _userVerifier infos);
  mret (containers, count).

Definition getModuleKeysAndVersionFromServer (moduleId : bytes) : ST W (ModuleKeys * Z) :=
  info ← server_get (X := X) moduleId None;
  _ ← lift (assertDataIntegrity info);
  moduleKeys ← lift (moduleToModuleKeys info);
  mret (moduleKeys, ct_version info).

(** [ModuleBaseApi]'s key functions, for this module. *)
Definition moduleKeysOf (moduleId : bytes) (keyIds : option (gset bytes)) (minimumSchemaVersion : option Z) :
    ST W ModuleKeys :=
  getModuleKeys getModuleKeysAndVersionFromServer keyCache set_keyCache moduleId keyIds minimumSchemaVersion.

Definition newModuleKeysOf (moduleId : bytes) : ST W ModuleKeys :=
  getNewModuleKeysAndUpdateCache getModuleKeysAndVersionFromServer keyCache set_keyCache moduleId.
End World.

(** ** Laws *)
Class ModuleKindLaws {C : CryptoService} {E : Ecc} {E0 : Encodings} {D : Dynamic} `{!KeyFormats PublicKey}
    `{!KeyEntryJson} `{!ModuleJson} `{!JsonCodec DIOEncryptorV1.DioJson}
    `{!JsonCodec ModuleDataEncryptorV5.ModuleInternalMetaV5} (X : Type) `{!ModuleKind X} : Prop := {
  version_5 d : ModuleDataEncryptorV5.version d = 5 -> entry_version (mj5_toJSON d) = Ret 5;
  convert_5 (info : ContainerInfo X) entry key : entry_version (en_data entry) = Ret 5 ->
    decryptAndConvertData info entry key =
      (d ← decryptModuleDataV5 (en_data entry) key;
       c ← convertDecryptedDataV5 info d;
       mret (c, ModuleDataEncryptorV5.m5_dio d));
}.

Class ConnectionLaws {C : CryptoService} {D : Dynamic} (W : Type) `{!ConnectionWorld W} : Prop := {
  keyCache_set c w : keyCache (set_keyCache c w) = c;
  rng_run {A} (m : ST rng A) w : exists g, (on_rng m w).1 = (m g).1;
}.

Section Laws.
Context {C : CryptoService} `{!CryptoLaws C} {E : Ecc} `{!EccLaws E} {E0 : Encodings} `{!EncodingsLaws E0}.
Context {D : Dynamic} `{!KeyFormats PublicKey} `{!KeyFormatsLaws PublicKey}.
Context `{!KeyEntryJson} `{!KeyEntryJsonLaws} `{!HashOrder} `{!ModuleJson} `{!ModuleJsonLaws}.
Context `{!JsonCodec DIOEncryptorV1.DioJson} `{!JsonCodecLaws DIOEncryptorV1.DioJson}.
Context `{!JsonCodec EncryptionKey} `{!JsonCodecLaws EncryptionKey}.
Context `{!JsonCodec ModuleDataEncryptorV5.ModuleInternalMetaV5}
  `{!JsonCodecLaws ModuleDataEncryptorV5.ModuleInternalMetaV5}.
Context {X : Type} `{!ModuleKind X} `{!ModuleKindLaws X}.
Implicit Types info : ContainerInfo X.

Lemma status_of_alive e : e <> UndefinedBehaviour -> status_of e <> UndefinedBehaviour.
Proof. unfold status_of. by destruct (std_exn e). Qed.

(** A container whose check found nothing has an integrity object that fits. *)
Lemma integrity_ok info : validateDataIntegrity info = Ret None -> assertDataIntegrity info = Ret tt.
Proof.
  unfold validateDataIntegrity. intros [Hm|(e & code & _ & _ & [=])]%try_with_inv. revert Hm. unfold_st.
  by destruct (assertDataIntegrity info) as [[]|].
Qed.

(** The integrity object of a container of structure 5. *)
Definition fits info (dio : DataIntegrityObject) : Prop :=
  dio_contextId dio = ct_contextId info /\ Some (dio_resourceId dio) = ct_resourceId info
  /\ dio_creatorUserId dio = ct_lastModifier info
  /\ TimestampValidator.validate (dio_timestamp dio) (ct_lastModificationDate info) = true.

Lemma assert_integrity_5 info entry d : last_entry info = Ret entry -> entry_version (en_data entry) = Ret 5 ->
  mj5_fromJSON (en_data entry) = Ret d ->
  assertDataIntegrity info = Ret tt <->
    exists dio, ModuleDataEncryptorV5.getDIOAndAssertIntegrity d = Ret dio /\ fits info dio.
Proof.
  intros He Hv Hd. unfold assertDataIntegrity. rewrite He. unfold_st. rewrite Hv.
  rewrite (bool_decide_eq_false_2 (5 = 1)), (bool_decide_eq_false_2 (5 = 4)), (bool_decide_eq_true_2 (5 = 5)) by lia.
  cbn [orb]. rewrite Hd. destruct (ModuleDataEncryptorV5.getDIOAndAssertIntegrity d) as [dio|];
    [|by split; [|intros (? & [=] & _)]].
  unfold fits. split.
  - destruct (_ || _) eqn:Eb; [done|]. intros _. exists dio. split; [done|].
    apply orb_false_iff in Eb as [Eb ->%negb_false_iff]. apply orb_false_iff in Eb as [Eb ->%bool_decide_ne].
    by apply orb_false_iff in Eb as [->%bool_decide_ne ->%bool_decide_ne].
  - intros (? & [= <-] & -> & -> & -> & ->). by rewrite !bool_decide_eq_false_2 by tauto.
Qed.

(** A container of structure 5 that passed the check and opens. *)
Lemma container_opens u uv info entry d dio key e pm prm im author :
  last_entry info = Ret entry -> entry_version (en_data entry) = Ret 5 -> mj5_fromJSON (en_data entry) = Ret d ->
  ModuleDataEncryptorV5.getDIOAndAssertIntegrity d = Ret dio -> fits info dio ->
  List.find (fun k => bool_decide (kn_keyId k = en_keyId entry)) (ct_keys info) = Some e ->
  KeyProvider.decrypt_entry u e = Ret key ->
  dio_contextId (Dio.dio (k_dio key)) = ct_contextId info ->
  Some (dio_resourceId (Dio.dio (k_dio key))) = ct_resourceId info ->
  KeyProvider.checked key = true -> k_statusCode key = None ->
  ModuleDataEncryptorV5.decrypt d (k_key key) = Ret {| ModuleDataEncryptorV5.m5_dataStructureVersion := 5;
    ModuleDataEncryptorV5.m5_statusCode := None; ModuleDataEncryptorV5.m5_publicMeta := pm;
    ModuleDataEncryptorV5.m5_privateMeta := prm; ModuleDataEncryptorV5.m5_internalMeta := im;
    ModuleDataEncryptorV5.m5_authorPubKey := author; ModuleDataEncryptorV5.m5_dio := dio |} ->
  (forall l, uv l = Ret ((fun _ => true) <$> l)) -> is_Some (ct_resourceId info) ->
  (exists p, Factory.parsePolicyServerObject (ct_policy info) = Ret p) ->
  exists c, validateDecryptAndConvert u uv info = Ret c /\ cl_statusCode c = None /\ cl_schemaVersion c = 5
    /\ cl_publicMeta c = pm /\ cl_privateMeta c = prm /\ cl_id c = ct_id info.
Proof.
  intros He Hv Hd Hdio Hfits Hf Hk Hkx Hkr Hc Hs Hdec Huv [rid Hrid] [p Hp].
  assert (assertDataIntegrity info = Ret tt) as Ha by (eapply assert_integrity_5; eauto).
  unfold validateDecryptAndConvert, validateDataIntegrity. unfold_st. rewrite Ha. cbn [try_with try_or].
  rewrite He. rewrite (one_key_found u uv _ _ (module_location info) e key); try done; cycle 1.
  { unfold module_location. cbn. rewrite Hrid in Hkr |- *. by injection Hkr. }
  rewrite !at_singleton, convert_5 by done. unfold_st.
  unfold decryptModuleDataV5. unfold_st. rewrite Hd, Hs, Hdec. cbn [try_with try_or].
  unfold convertDecryptedDataV5, convertServerToLib. unfold_st. rewrite Hp. cbn.
  rewrite (verify_ret uv _ [true]) by (done || apply Huv). eexists. split; [reflexivity|]. by repeat split.
Qed.
End Laws.
End ModuleApi.
