(* ===== verification/Validators.v ===== *)
(** * What the public calls check of their arguments

    [core::Validator] and the [StructValidator]s of the core module
    (endpoint/core/src/Validator.cpp).  Every failed check throws
    [InvalidParamsException]; the text it carries is not modelled. *)

From Stdlib Require Import ZArith Lia Strings.String Strings.Byte.
From stdpp Require Import base list.
From S2P Require Import Prelude Bytes Crypto Base58 CryptoSuite Utils Dynamic Keys KeyProvider Modules.

(** [Base64::is]: the regular expression [^(?=(.{4})*$)[A-Za-z0-9+/]*={0,2}$]
    (utils/src/Utils.cpp). *)
Definition base64_char (c : byte) : bool :=
  let v := byte_val c in
  bool_decide (65 <= v <= 90 \/ 97 <= v <= 122 \/ 48 <= v <= 57 \/ v = 43 \/ v = 47).

Fixpoint skip_base64 (s : bytes) : bytes :=
  match s with c :: s' => if base64_char c then skip_base64 s' else s | [] => [] end.

Definition base64_is (s : bytes) : bool :=
  bool_decide (zlen s mod 4 = 0) && match skip_base64 s with [] | [x3d] | [x3d; x3d] => true | _ => false end.

Module Validator.
(** What a check ends with. *)
Definition require (ok : bool) : outcome unit := if ok then Ret tt else Throw InvalidParamsException.

(** [try { ... } catch (...) { throw InvalidParamsException(...); }]; what is
    undefined is not caught. *)
Definition attempt {A} (m : outcome A) : outcome unit :=
  match m with
  | Ret _ => Ret tt
  | Throw UndefinedBehaviour => Throw UndefinedBehaviour
  | Throw _ => Throw InvalidParamsException
  end.

Definition validateMaxLength (value : bytes) (max_len : Z) : outcome unit := require (bool_decide (zlen value <= max_len)).
Definition validateLength (value : bytes) (len : Z) : outcome unit := require (bool_decide (zlen value = len)).
Definition validateLengthSize (value : bytes) (min_len max_len : Z) : outcome unit :=
  require (negb (bool_decide (zlen value < min_len) || bool_decide (max_len < zlen value))).
Definition validateId (value : bytes) : outcome unit := validateLengthSize value 1 128.

(** The overloads for signed and for unsigned numbers. *)
Definition validateNumberPositive (value : Z) : outcome unit := require (negb (bool_decide (value <= 0))).
Definition validateNumberNegative (value : Z) : outcome unit := require (negb (bool_decide (0 <= value))).
Definition validateNumberNegative_unsigned (value : Z) : outcome unit := Throw InvalidParamsException.
Definition validateNumberNonNegative (value : Z) : outcome unit := require (negb (bool_decide (value < 0))).
Definition validateNumberNonNegative_unsigned (value : Z) : outcome unit := Ret tt.
Definition validateNumberNonPositive (value : Z) : outcome unit := require (negb (bool_decide (0 < value))).

Definition validateBase64 (value : bytes) : outcome unit := require (base64_is value).
Definition validateBase58 (value : bytes) : outcome unit := require (Base58.is_ value).

Definition validateEnumParamString (value : bytes) (allowed_values : list bytes) : outcome unit :=
  require (bool_decide (value ∈ allowed_values)).
Definition validateSortOrder (value : bytes) : outcome unit := validateEnumParamString value [lit "asc"; lit "desc"].
Definition validateLastId (value : bytes) : outcome unit :=
  if bool_decide (value = []) then Throw InvalidParamsException else validateId value.

(** [front() < 27] of a [char]: from 128 on it is negative. *)
Definition validateSignature (value : bytes) : outcome unit :=
  require (bool_decide (zlen value = 65)
           && match value with
              | front :: _ => bool_decide (27 <= byte_val front <= 42)
              | [] => false
              end).

Definition validateEventType (event_type type : bytes) : outcome unit := require (bool_decide (event_type = type)).
Definition validateBufferSize (value : bytes) (min_len max_len : Z) : outcome unit :=
  require (negb (bool_decide (zlen value < min_len) || bool_decide (max_len < zlen value))).

Section Keys.
Context {C : CryptoService} {E : Ecc} `{!EccNumbers E}.

Definition validatePrivKeyWIF (value : bytes) : outcome unit :=
  _ ← validateBase58 value; attempt (PrivateKey.fromWIF value).
Definition validatePubKeyBase58DER (value : bytes) : outcome unit :=
  _ ← validateBase58 value; attempt (PublicKey.fromBase58DER value).

Definition validate_UserWithPubKey (value : UserWithPubKey) : outcome unit :=
  _ ← validateId (u_userId value); validatePubKeyBase58DER (u_pubKey value).
Definition validate_users (l : list UserWithPubKey) : outcome unit := _ ← mapM validate_UserWithPubKey l; mret tt.
End Keys.

Section Queries.
Context `{!Dynamic}.

Definition validateJSON (value : bytes) : outcome unit := attempt (parse_json value).

Definition optional {A} (check : A -> outcome unit) (value : option A) : outcome unit :=
  match value with Some v => check v | None => Ret tt end.

Definition validatePagingQuery (value : PagingQuery) (sort_by_field : list bytes) : outcome unit :=
  _ ← validateSortOrder (pq_sortOrder value);
  _ ← optional validateLastId (pq_lastId value);
  _ ← optional (fun s => validateEnumParamString s sort_by_field) (pq_sortBy value);
  optional validateJSON (pq_queryAsJson value).
End Queries.

(** [StructValidator<Context>], of its two fields, and
    [StructValidator<PKIVerificationOptions>], of whether the options are there. *)
Definition validate_Context (userId contextId : bytes) : outcome unit := _ ← validateId userId; validateId contextId.
Definition validate_PKIVerificationOptions (bridgePubKey bridgeInstanceId : bool) : outcome unit :=
  require (negb (bridgeInstanceId && negb bridgePubKey)).

(** [StructValidator<PagingList<Context>>], of the total and of each pair of
    [userId] and [contextId]: a list of no contexts does not pass. *)
Definition validate_PagingList_Context (totalAvailable : Z) (readItems : list (bytes * bytes)) : outcome unit :=
  _ ← validateNumberPositive totalAvailable;
  _ ← mapM (fun c => validate_Context (fst c) (snd c)) readItems; mret tt.

(** [StructValidator<LibPlatformDisconnectedEvent>], of its type. *)
Definition validate_LibPlatformDisconnectedEvent (type : bytes) : outcome unit :=
  validateEventType type (lit "libPlatformDisconnected").

(** ** What passes *)
Lemma require_ret ok : require ok = Ret tt <-> ok = true.
Proof. by destruct ok. Qed.

Lemma attempt_ret {A} (m : outcome A) : attempt m = Ret tt <-> exists a, m = Ret a.
Proof. destruct m as [a|e]; cbn; [split; [by exists a|done]|]. split; [by destruct e|by intros (? & ?)]. Qed.

Section Keys.
Context {C : CryptoService} {E : Ecc} `{!EccNumbers E}.

Lemma wif_passes w : validatePrivKeyWIF w = Ret tt <-> Base58.is_ w = true /\ exists k, PrivateKey.fromWIF w = Ret k.
Proof.
  unfold validatePrivKeyWIF, validateBase58. unfold_st. rewrite <- attempt_ret.
  destruct (Base58.is_ w); cbn [require]; [tauto|]. split; [done|by intros []].
Qed.

Lemma base58der_passes p : validatePubKeyBase58DER p = Ret tt <-> Base58.is_ p = true /\ exists k, PublicKey.fromBase58DER p = Ret k.
Proof.
  unfold validatePubKeyBase58DER, validateBase58. unfold_st. rewrite <- attempt_ret.
  destruct (Base58.is_ p); cbn [require]; [tauto|]. split; [done|by intros []].
Qed.
End Keys.
End Validator.
