(* ===== verification/ContainerFlow.v ===== *)
(** * Containers from creation to their members

    What [ModuleApi.createContainer] sends, its members open; what
    [ModuleApi.updateContainer] sends, members who left cannot. *)

From Stdlib Require Import ZArith Lia Strings.String Strings.Byte.
From stdpp Require Import base list gmap fin_maps.
From S2P Require Import Prelude Bytes CoreTypes Crypto CryptoSuite Dynamic Encryptors Dio FieldData EncKeys ContainerData KeyProvider Utils StdMap Users Policies Containers Items Modules.
Import ModuleBaseApi ModuleApi.

(** A loop whose every turn returns. *)
Lemma for_collect_total {S X Y} (l : list X) (body : X -> ST S Y) (P : X -> Y -> Prop) s :
  (forall x s, x ∈ l -> exists y s', body x s = (Ret y, s') /\ P x y) ->
  exists ys s', for_collect l body s = (Ret ys, s') /\ Forall2 P l ys.
Proof.
  revert s. induction l as [|x l IH]; intros s Hb; [by exists [], s; split; [|constructor]|].
  destruct (Hb x s) as (y & s1 & Hy & HP); [by left|].
  destruct (IH s1) as (ys & s2 & Hys & HPs); [intros; apply Hb; by right|].
  exists (y :: ys), s2. cbn. run_step. run_step. split; [done|by constructor].
Qed.

Lemma for_collect_ret {S X Y} (l : list X) (body : X -> ST S Y) s ys s' : for_collect l body s = (Ret ys, s') ->
  Forall2 (fun x y => exists s s', body x s = (Ret y, s')) l ys.
Proof.
  revert s ys. induction l as [|x l IH]; intros s ys Hr; cbn [for_collect] in Hr.
  - injection Hr as <- <-. constructor.
  - inv_bind Hr as (y & s1 & Hy & Hr). inv_bind Hr as (ys' & s2 & Hys & Hr). injection Hr as <- <-.
    constructor; [by exists s, s1|by eapply IH].
Qed.

(** One step of a run whose result is known. *)
Lemma run_fst {S A B} (m : ST S A) (f : A -> ST S B) s a : (m s).1 = Ret a ->
  exists s', m s = (Ret a, s') /\ (m ≫= f) s = f a s'.
Proof. destruct (m s) as [r s'] eqn:Em. cbn. intros ->. exists s'. split; [done|]. by apply run_bind_ret. Qed.

Tactic Notation "step_fst" hyp(Hm) "as" ident(s') :=
  match type of Hm with (?m ?s).1 = Ret ?a =>
    match goal with |- context [(?m' ≫= ?f) s] => change m' with m; destruct (run_fst m f s a Hm) as (s' & _ & ->) end
  end.

Section Flow.
Context {C : CryptoService} `{!CryptoLaws C} {E : Ecc} `{!EccLaws E} {E0 : Encodings} `{!EncodingsLaws E0}.
Context {D : Dynamic} `{!KeyFormats PublicKey} `{!KeyFormatsLaws PublicKey}.
Context `{!KeyEntryJson} `{!KeyEntryJsonLaws} `{!ObjectLaws} `{!HashOrder} `{!ModuleJson} `{!ModuleJsonLaws}.
Context `{!JsonCodec DIOEncryptorV1.DioJson} `{!JsonCodecLaws DIOEncryptorV1.DioJson}.
Context `{!JsonCodec EncryptionKey} `{!JsonCodecLaws EncryptionKey}.
Context `{!JsonCodec ModuleDataEncryptorV5.ModuleInternalMetaV5}
  `{!JsonCodecLaws ModuleDataEncryptorV5.ModuleInternalMetaV5}.

(** ** The key entries of one member *)
Definition entry_of (s : KeyEntrySet) : KeyEntry := {| kn_keyId := ks_keyId s; kn_data := Some (ks_data s) |}.
Definition entries_for (id : bytes) (l : list KeyEntrySet) : list KeyEntry :=
  entry_of <$> filter (fun s => ks_user s = id) l.

Lemma entries_for_none id users l : Forall2 (fun x s => ks_user s = u_userId x) users l ->
  id ∉ u_userId <$> users -> entries_for id l = [].
Proof.
  unfold entries_for. induction 1 as [|x s users l Hs _ IH]; intros Hn; [done|].
  rewrite filter_cons. cbn [fmap list_fmap] in Hn. apply not_elem_of_cons in Hn as [Hne Hn].
  rewrite decide_False by congruence. by apply IH.
Qed.

(** With distinct ids each member has one entry, made for him. *)
Lemma entries_for_member (P : UserWithPubKey -> KeyEntrySet -> Prop) x users l :
  Forall2 (fun x s => ks_user s = u_userId x /\ P x s) users l -> NoDup (u_userId <$> users) -> x ∈ users ->
  exists s, entries_for (u_userId x) l = [entry_of s] /\ P x s.
Proof.
  induction 1 as [|y s users l [Hs HP] HF IH]; intros Hn Hin; [by apply not_elem_of_nil in Hin|].
  cbn [fmap list_fmap] in Hn. apply NoDup_cons in Hn as [Hy Hn]. unfold entries_for. rewrite filter_cons.
  apply elem_of_cons in Hin as [->|Hin].
  - rewrite decide_True by done. exists s. split; [|done]. cbn [fmap list_fmap]. f_equal.
    eapply entries_for_none; [|exact Hy]. by eapply Forall2_impl; [exact HF|intros ? ? []].
  - rewrite decide_False; [by apply IH|]. rewrite Hs. intros He. apply Hy. rewrite He. by apply list_elem_of_fmap_2.
Qed.

(** A user with a key, and the entries the sender makes for many of them. *)
Definition has_key (x : UserWithPubKey) : Prop := exists u, u_pubKey x = toBase58DER (getPublicKey u).

(** What a member gets out of his entry: the key, with the sender's object. *)
Definition opens_to (key : EncKey) (d : DataIntegrityObject) (x : UserWithPubKey) (s : KeyEntrySet) : Prop :=
  ks_keyId s = ek_id key /\ forall u, u_pubKey x = toBase58DER (getPublicKey u) ->
    exists k, KeyProvider.decrypt_entry u (entry_of s) = Ret k /\ dio (k_dio k) = d
      /\ KeyProvider.checked k = true /\ k_statusCode k = None /\ k_id k = ek_id key /\ k_key k = ek_key key.

Lemma keys_prepared sender users key d loc secret g :
  KeyProvider.distributable sender key d loc secret -> Forall has_key users ->
  exists l g', KeyProvider.prepareKeysList sender users key d loc secret g = (Ret l, g')
    /\ Forall2 (fun x s => ks_user s = u_userId x /\ opens_to key d x s) users l.
Proof.
  intros Hd Hu. unfold KeyProvider.prepareKeysList. apply for_collect_total. intros x s Hx.
  rewrite Forall_forall in Hu. destruct (Hu x Hx) as [u Hk]. destruct x as [id pub]. cbn in Hk. subst pub.
  destruct (KeyProvider.entry_opens sender u key d loc secret id s Hd) as (e & g' & k & He & Hid & Hki & _).
  exists e, g'. split; [exact He|]. split; [exact Hid|]. split; [exact Hki|]. intros v Hv. cbn in Hv.
  destruct (KeyProvider.entry_opens sender v key d loc secret id s Hd)
    as (e' & g'' & k' & He' & _ & _ & Hdec & Hdio & Hc & Hs & Hkid & Hkey & _).
  rewrite <- Hv, He in He'. injection He' as <- <-. exists k'. split; [apply Hdec|done].
Qed.

(** ** Creation *)
Section Create.
Context {X W : Type} `{!ModuleKind X} `{!ModuleKindLaws X} `{!ConnectionWorld W} `{!ConnectionLaws W}
  `{!ContainerServer X W}.
Context (me : bytes) (priv : PrivateKey) (bridge : option BridgeIdentity) (contextId : bytes).

(** What the connection must provide for an integrity object, for a container,
    and what the codecs must not exceed. *)
Record identified : Prop := {
  cd_user w : (getMyUserId contextId w).1 = Ret me;
  cd_clock w : exists t, (getNowTimestamp w).1 = Ret t;
  cd_me : me <> [];
  cd_context : contextId <> [];
  cd_bridge : is_Some bridge;
}.

Record connected : Prop := {
  cd_identified :> identified;
  cd_id w : exists i, (generateId w).1 = Ret i;
  cd_envelope i k s : zlen i = 16 -> zlen k = 32 -> zlen s = 32 ->
    zlen (serialize {| ek_json_id := hex_from i; ek_json_key := base64_from k;
                       ek_json_keySecret := base64_from (hex_from s) |}) < 2 ^ 63;
  cd_internal s r i w : (generateId w).1 = Ret r -> zlen s = 32 -> zlen i = 8 ->
    DataEncryptorV4.small (serialize {| ModuleDataEncryptorV5.secret := hex_from s;
      ModuleDataEncryptorV5.resourceId := r; ModuleDataEncryptorV5.randomId := hex_from i |});
}.

(** What the server hands a member of the container it was sent. *)
Record served (model : CreateModel) (id : bytes) (info : ContainerInfo X) : Prop := {
  sv_context : ct_contextId info = cm_contextId model;
  sv_resource : ct_resourceId info = Some (cm_resourceId model);
  sv_data : last (ct_data info) = Some (mkEntry (cm_keyId model) (cm_data model));
  sv_keys : ct_keys info = entries_for id (cm_keys model);
  sv_policy : ct_policy info = cm_policy model;
  sv_modifier : ct_lastModifier info = me;
  sv_date w t : (getNowTimestamp w).1 = Ret t ->
    TimestampValidator.validate t (ct_lastModificationDate info) = true;
}.

Lemma rng_fst {A} (m : ST rng A) (P : A -> Prop) w : (forall g, exists a g', m g = (Ret a, g') /\ P a) ->
  exists a, (on_rng m w).1 = Ret a /\ P a.
Proof.
  intros Hm. destruct (rng_run m w) as [g Hg]. destruct (Hm g) as (a & g' & Ha & HP). exists a.
  by rewrite Hg, Ha.
Qed.

Lemma random_bytes n g : 0 <= n -> exists d g', random n g = (Ret d, g') /\ zlen d = n.
Proof.
  intros Hn. unfold random. pose proof (randomBytes_len n g Hn). destruct (randomBytes n g) as [d g']. by exists d, g'.
Qed.

Lemma key_generated g : exists k g', KeyProvider.generateKey g = (Ret k, g')
  /\ exists i, ek_id k = hex_from i /\ zlen i = 16 /\ zlen (ek_key k) = 32.
Proof.
  unfold KeyProvider.generateKey. destruct (random_bytes 16 g) as (i & g1 & Hi & Hli); [lia|]. run_step.
  destruct (random_bytes 32 g1) as (k & g2 & Hk & Hlk); [lia|]. run_step.
  do 2 eexists. split; [reflexivity|]. by exists i.
Qed.

Lemma hex_generated n g : 0 <= n -> exists t g', (s ← random n; mret (hex_from s)) g = (Ret t, g')
  /\ exists s, t = hex_from s /\ zlen s = n.
Proof.
  intros Hn. destruct (random_bytes n g) as (s & g1 & Hs & Hl); [done|]. run_step.
  do 2 eexists. split; [reflexivity|]. by exists s.
Qed.

(** An integrity object of the user's own, for the container [rid] or for an
    item [rid] of one. *)
Definition my_dio (cid crid : option bytes) (rid : bytes) (t : Z) (i : bytes) : DataIntegrityObject :=
  mkDIO me (toBase58DER (getPublicKey priv)) contextId rid t i cid crid bridge.

Lemma dio_created cid crid rid w : identified -> exists d, (createDIO priv bridge contextId rid cid crid w).1 = Ret d
  /\ exists t i w0, d = my_dio cid crid rid t (hex_from i) /\ (getNowTimestamp w0).1 = Ret t /\ zlen i = 8.
Proof.
  intros Hc. unfold createDIO, ConnectionImpl.createDIO, ConnectionImpl.createDIOExt.
  pose proof (cd_user Hc w) as Hu. step_fst Hu as w1.
  destruct (cd_clock Hc w1) as [t Ht].
  step_fst Ht as w2.
  destruct (rng_fst KeyProvider.generateDIORandomId (fun t => exists s, t = hex_from s /\ zlen s = 8) w2)
    as (r & Hr & i & -> & Hi); [intros g; by apply hex_generated|].
  step_fst Hr as w3.
  eexists. split; [reflexivity|]. exists t, i, w1. done.
Qed.

Lemma nonempty_len (d : bytes) n : zlen d = n -> 0 < n -> d <> [].
Proof. intros Hl Hn ->. change (zlen []) with 0 in Hl. lia. Qed.

Lemma my_dio_formed cid crid rid t i : identified -> zlen i = 8 -> DIOEncryptorV1.well_formed (my_dio cid crid rid t (hex_from i)).
Proof.
  intros Hc Hi. split; [apply (cd_me Hc)|]. split; [apply (cd_context Hc)|]. split; [|apply (cd_bridge Hc)].
  apply hex_nonempty. by eapply nonempty_len.
Qed.

Lemma my_key_distributable rid t i key k0 secret : connected -> zlen i = 8 ->
  ek_id key = hex_from k0 -> zlen k0 = 16 -> zlen (ek_key key) = 32 ->
  KeyProvider.distributable priv key (my_dio None None rid t (hex_from i)) (mkLocation contextId rid) secret.
Proof.
  intros Hc Hi Hk Hk0 Hl. split; [done..|]. intros r Hr. split; cbn; rewrite ?Hk.
  - by apply my_dio_formed; [apply cd_identified|].
  - done.
  - apply hex_nonempty. by eapply nonempty_len.
  - by eapply nonempty_len.
  - unfold EncKeyEncryptorV2.enveloped. cbn. by apply (cd_envelope Hc).
Qed.

(** What [createContainer] sends. *)
Record created (users managers : list UserWithPubKey) (publicMeta privateMeta : bytes) (policies : option ContainerPolicy)
    (model : CreateModel) : Prop := {
  cr_context : cm_contextId model = contextId;
  cr_policy : cm_policy model = Factory.createPolicyServerObject <$> policies;
  cr_sealed : exists t i w0 secret key data,
    (getNowTimestamp w0).1 = Ret t /\ zlen i = 8
    /\ ModuleDataEncryptorV5.sealed (metadata publicMeta privateMeta secret (cm_resourceId model)
         (my_dio None None (cm_resourceId model) t (hex_from i))) priv (ek_key key) data
    /\ cm_data model = mj5_toJSON data /\ cm_keyId model = ek_id key /\ zlen (ek_key key) = 32
    /\ Forall2 (fun x s => ks_user s = u_userId x
         /\ opens_to key (my_dio None None (cm_resourceId model) t (hex_from i)) x s)
         (EndpointUtils.uniqueListUserWithPubKey users managers) (cm_keys model);
}.

Lemma create_run users managers publicMeta privateMeta type policies w : connected ->
  DataEncryptorV4.small privateMeta -> Forall has_key (EndpointUtils.uniqueListUserWithPubKey users managers) ->
  exists model w', createContainer (X := X) priv bridge contextId users managers publicMeta privateMeta type policies w
      = server_create (X := X) model w'
    /\ created users managers publicMeta privateMeta policies model.
Proof.
  intros Hc Hsm Hu. unfold createContainer.
  destruct (rng_fst _ _ w key_generated) as (key & Hk & k0 & Hk0 & Hl0 & Hl).
  step_fst Hk as w1. destruct (cd_id Hc w1) as [rid Hrid].
  step_fst Hrid as w2.
  destruct (dio_created None None rid w2 Hc) as (d & Hd & t & i & w0 & -> & Ht & Hi).
  step_fst Hd as w3.
  destruct (rng_fst KeyProvider.generateSecret (fun t => exists s, t = hex_from s /\ zlen s = 32) w3)
    as (secret & Hs & s & -> & Hls); [intros g; by apply hex_generated|].
  step_fst Hs as w4. cbv zeta.
  set (md := metadata publicMeta privateMeta (hex_from s) rid (my_dio None None rid t (hex_from i))).
  destruct (rng_fst (ModuleDataEncryptorV5.encrypt md priv (ek_key key))
    (ModuleDataEncryptorV5.sealed md priv (ek_key key)) w4) as (data & Hdata & Hsealed).
  { intros g. destruct (ModuleDataEncryptorV5.module_encrypt_sealed md priv (ek_key key) g) as (e & g' & He & Hse);
      [|by exists e, g'].
    split; [by apply my_dio_formed; [apply cd_identified|]|done|done|done|by eapply (cd_internal Hc)]. }
  step_fst Hdata as w5.
  destruct (rng_fst (KeyProvider.prepareKeysList priv (EndpointUtils.uniqueListUserWithPubKey users managers) key
    (my_dio None None rid t (hex_from i)) (mkLocation contextId rid) (hex_from s)) (Forall2 (fun x s => ks_user s = u_userId x /\ opens_to key (my_dio None None rid t (hex_from i)) x s)
    (EndpointUtils.uniqueListUserWithPubKey users managers)) w5) as (keys & Hkeys & HF).
  { intros g. apply keys_prepared; [by eapply my_key_distributable|exact Hu]. }
  step_fst Hkeys as w6. do 2 eexists. split; [reflexivity|].
  split; [done|done|]. exists t, i, w0, (hex_from s), key, data. done.
Qed.

(** C1: every member a container is created for opens it: whoever sends the
    creation, what the server was sent comes back through
    [validateDecryptAndConvert] with no error status and with the metadata the
    creator gave, for each user and manager, if the server serves it unchanged
    and the verifier accepts the creator. *)
Theorem container_delivered users managers publicMeta privateMeta type policies w :
  connected -> DataEncryptorV4.small privateMeta ->
  let allUsers := EndpointUtils.uniqueListUserWithPubKey users managers in
  Forall has_key allUsers -> NoDup (u_userId <$> allUsers) ->
  exists model w', createContainer (X := X) priv bridge contextId users managers publicMeta privateMeta type policies w
      = server_create (X := X) model w'
    /\ forall id u uv info, {| u_userId := id; u_pubKey := toBase58DER (getPublicKey u) |} ∈ allUsers ->
      served model id info -> (forall l, uv l = Ret ((fun _ => true) <$> l)) ->
      exists c, validateDecryptAndConvert u uv info = Ret c /\ cl_statusCode c = None
        /\ cl_publicMeta c = publicMeta /\ cl_privateMeta c = privateMeta /\ cl_id c = ct_id info.
Proof.
  intros Hc Hsm allUsers Hu Hn.
  destruct (create_run users managers publicMeta privateMeta type policies w Hc Hsm Hu) as (model & w' & Hr & Hm).
  exists model, w'. split; [exact Hr|]. intros id u uv info Hin Hsv Huv.
  destruct Hm as [Hx Hp (t & i & w0 & secret & key & data & Ht & Hi & Hse & Hd & Hk & _ & HF)].
  destruct (entries_for_member _ _ _ _ HF Hn Hin) as (s & Hes & Hks & Hopen).
  destruct (Hopen u eq_refl) as (k & Hdec & Hdio & Hck & Hst & _ & Hkey).
  pose proof (ModuleDataEncryptorV5.se_dio _ _ _ _ Hse) as Hi5.
  pose proof (ModuleDataEncryptorV5.module_integrity_version _ _ Hi5) as H5.
  edestruct (container_opens u uv info (mkEntry (cm_keyId model) (cm_data model)) data) as (c & Hcv & Hcs & _ & Hpm & Hprm & Hid);
    [..|exists c; split; [exact Hcv|]; split; [exact Hcs|]; split; [exact Hpm|]; split; [exact Hprm|exact Hid]].
  - unfold last_entry. by rewrite (sv_data _ _ _ Hsv).
  - cbn. rewrite Hd. by apply version_5.
  - cbn. rewrite Hd. apply mj5_inv.
  - exact Hi5.
  - split; cbn; [by rewrite (sv_context _ _ _ Hsv), Hx|]. split; [by rewrite (sv_resource _ _ _ Hsv)|].
    split; [by rewrite (sv_modifier _ _ _ Hsv)|]. by eapply (sv_date _ _ _ Hsv).
  - rewrite (sv_keys _ _ _ Hsv). cbn [u_userId] in Hes. rewrite Hes. cbn. by rewrite bool_decide_eq_true_2 by congruence.
  - exact Hdec.
  - rewrite Hdio. cbn. by rewrite (sv_context _ _ _ Hsv), Hx.
  - rewrite Hdio. cbn. by rewrite (sv_resource _ _ _ Hsv).
  - exact Hck.
  - exact Hst.
  - rewrite Hkey. exact (ModuleDataEncryptorV5.module_decrypt_sealed _ _ _ _ Hse).
  - exact Huv.
  - by rewrite (sv_resource _ _ _ Hsv).
  - rewrite (sv_policy _ _ _ Hsv), Hp. destruct policies; cbn; [|by eexists].
    eexists. apply Factory.policy_parsed.
Qed.
(** Module keys whose current key the user opens to [ek]. *)
Definition shares (keys : ModuleKeys) (u : PrivateKey) (ek : bytes) : Prop :=
  exists e k, List.find (fun x => bool_decide (kn_keyId x = mk_currentKeyId keys)) (mk_keys keys) = Some e
    /\ KeyProvider.decrypt_entry u e = Ret k
    /\ dio_contextId (dio (k_dio k)) = mk_contextId keys /\ dio_resourceId (dio (k_dio k)) = mk_moduleResourceId keys
    /\ KeyProvider.checked k = true /\ k_statusCode k = None
    /\ k_id k = mk_currentKeyId keys /\ k_key k = ek.

(** The members of a created container share its key. *)
Lemma members_share users managers publicMeta privateMeta policies model :
  let allUsers := EndpointUtils.uniqueListUserWithPubKey users managers in
  created users managers publicMeta privateMeta policies model -> NoDup (u_userId <$> allUsers) ->
  exists ek, zlen ek = 32 /\ forall id u info keys,
    {| u_userId := id; u_pubKey := toBase58DER (getPublicKey u) |} ∈ allUsers -> served model id info ->
    ct_keyId info = cm_keyId model -> moduleToModuleKeys info = Ret keys ->
    shares keys u ek /\ mk_currentKeyId keys = cm_keyId model /\ mk_contextId keys = contextId
    /\ mk_moduleResourceId keys = cm_resourceId model.
Proof.
  intros allUsers [Hx _ (t & i & w0 & secret & key & data & _ & _ & _ & _ & Hk & Hl & HF)] Hn.
  exists (ek_key key). split; [exact Hl|]. intros id u info keys Hin Hsv Hki Hkeys.
  destruct (entries_for_member _ _ _ _ HF Hn Hin) as (s & Hes & Hks & Hopen).
  destruct (Hopen u eq_refl) as (k & Hdec & Hdio & Hck & Hst & Hid & Hkey).
  unfold moduleToModuleKeys in Hkeys. revert Hkeys. unfold_st. destruct (last_entry info) as [entry|]; [|done].
  destruct (entry_version _) as [v|]; [|done]. intros [= <-]. cbn [mk_currentKeyId mk_contextId mk_moduleResourceId].
  rewrite (sv_context _ _ _ Hsv), (sv_resource _ _ _ Hsv), Hx. split; [|done].
  exists (entry_of s), k. cbn [mk_keys mk_currentKeyId mk_contextId mk_moduleResourceId].
  rewrite (sv_keys _ _ _ Hsv). cbn [u_userId] in Hes. rewrite Hes.
  rewrite Hki, Hk, Hdio. cbn. rewrite bool_decide_eq_true_2 by done. by repeat split.
Qed.

(** A member's current key, from the key provider. *)
Lemma shares_current keys u ek uv : shares keys u ek -> (forall l, uv l = Ret ((fun _ => true) <$> l)) ->
  exists k, getAndValidateModuleCurrentEncKey u uv keys = Ret k /\ k_statusCode k = None
    /\ k_dataStructureVersion k = KeyProvider.VERSION_2 /\ k_id k = mk_currentKeyId keys /\ k_key k = ek.
Proof.
  intros (e & k & Hf & Hd & Hx & Hr & Hc & Hs & Hi & Hk) Hu. exists k.
  split; [by apply (current_key u uv keys e k)|]. split; [done|]. split; [|done].
  unfold KeyProvider.checked in Hc. by apply andb_true_iff in Hc as [_ ?%bool_decide_eq_true].
Qed.
End Create.

(** ** Update *)
Section Update.
Context (priv : PrivateKey).

(** An entry that gives a user a key: it names the user and the key, and carries
    the key encrypted to the user's public key and signed with [priv]. *)
Definition seals_to (key : EncKey) (loc : EncKeyLocation) (x : UserWithPubKey) (s : KeyEntrySet) : Prop :=
  ks_user s = u_userId x /\ ks_keyId s = ek_id key
  /\ exists p d keySecret secretHash e, fromBase58DER (u_pubKey x) = Ret p
     /\ EncKeyEncryptorV2.encrypt {| te_id := ek_id key; te_key := ek_key key; te_dio := d; te_location := loc;
                                     te_keySecret := keySecret; te_secretHash := secretHash |} p priv = Ret e
     /\ ks_data s = v2_toJSON e.

(** An entry that gives one of [users] a key of [keys] that verified. *)
Definition passes_on (keys : KeyProvider.key_map) (users : list UserWithPubKey) (loc : EncKeyLocation) (s : KeyEntrySet) : Prop :=
  exists x i k, x ∈ users /\ keys !! i = Some k /\ k_statusCode k = None /\ seals_to (mkEncKey (k_id k) (k_key k)) loc x s.

Lemma entry_seals x key d loc secret g s g' :
  KeyProvider.createKeyEntrySet priv x key d loc secret g = (Ret s, g') -> seals_to key loc x s.
Proof.
  unfold KeyProvider.createKeyEntrySet. intros Hr. inv_bind Hr as (ksec & g1 & _ & Hr).
  inv_bind Hr as (pub & g2 & Hp & Hr). inv_bind Hr as (data & g3 & He & Hr). injection Hr as <- <-.
  injection Hp as Hp _. injection He as He _. split; [done|]. split; [done|]. by do 5 eexists.
Qed.

Lemma prepared_seal users key d loc secret g l g' :
  for_collect users (fun x => KeyProvider.createKeyEntrySet priv x key d loc secret) g = (Ret l, g') ->
  Forall2 (seals_to key loc) users l.
Proof. intros HF%for_collect_ret. eapply Forall2_impl; [exact HF|]. intros x s (g1 & g2 & Hs). by eapply entry_seals. Qed.

Lemma missing_passed missing users d loc secret g l g' :
  KeyProvider.prepareMissingKeysForNewUsers priv missing users d loc secret g = (Ret l, g') ->
  Forall (passes_on missing users loc) l.
Proof.
  unfold KeyProvider.prepareMissingKeysForNewUsers. intros Hr. inv_bind Hr as (ls & g1 & HF%for_collect_ret & Hr).
  injection Hr as <- <-. apply Forall_forall. intros s Hs. apply list_elem_of_In, in_concat in Hs as (l & Hl & Hs).
  apply list_elem_of_In in Hs, Hl. apply list_elem_of_lookup in Hl as [i Hi].
  destruct (Forall2_lookup_r _ _ _ _ _ HF Hi) as ([id k] & Hk & g2 & g3 & Hb).
  apply list_elem_of_lookup_2, KeyProvider.order_elem in Hk.
  inv_bind Hb as (r & g4 & _ & Hb). destruct (k_statusCode k) eqn:Est.
  { injection Hb as <- <-. by apply not_elem_of_nil in Hs. }
  apply prepared_seal in Hb. apply list_elem_of_lookup in Hs as [j Hj].
  destruct (Forall2_lookup_r _ _ _ _ _ Hb Hj) as (x & Hx & Hsx).
  exists x, id, k. split; [by eapply list_elem_of_lookup_2|done].
Qed.

Lemma added_are_new currentUsers currentManagers users managers force k x :
  let r := UsersKeysResolver.create currentUsers currentManagers users managers force k in
  x ∈ UsersKeysResolver.getUsersToAddKey r -> x ∈ UsersKeysResolver.getNewUsers r.
Proof.
  cbn. case_bool_decide; [done|]. by intros [_ ?]%list_elem_of_filter.
Qed.

(** The keys of an update: an entry of a key drawn for this update for every
    member of the new lists, when one is needed, and entries of older keys for
    members of the new lists. *)
Lemma update_keys currentUsers currentManagers users managers force keys k d loc secret g key l g' :
  let r := UsersKeysResolver.create currentUsers currentManagers users managers force k in
  keys_for_update priv r keys k d loc secret g = (Ret (key, l), g') ->
  exists fresh older, l = fresh ++ older
  /\ (if UsersKeysResolver.doNeedNewKey r
      then (exists g1 g2, KeyProvider.generateKey g1 = (Ret key, g2))
           /\ Forall2 (seals_to key loc) (UsersKeysResolver.getNewUsers r) fresh
      else fresh = [] /\ key = mkEncKey (k_id k) (k_key k))
  /\ Forall (passes_on keys (UsersKeysResolver.getNewUsers r) loc) older.
Proof.
  intros r Hr. unfold keys_for_update in Hr. inv_bind Hr as ([key0 fresh] & g1 & Hk & Hr).
  inv_bind Hr as (older & g2 & Ht & Hr). injection Hr as -> <- <-. exists fresh, older. split; [done|]. split.
  - destruct (UsersKeysResolver.doNeedNewKey r).
    + inv_bind Hk as (key1 & g3 & Hg & Hk). inv_bind Hk as (l1 & g4 & Hp & Hk). injection Hk as -> -> <-.
      split; [by exists g, g3|]. by eapply prepared_seal.
    + by injection Hk as <- <- <-.
  - case_bool_decide as Hne; [|by injection Ht as <- <-]. apply missing_passed in Ht.
    eapply Forall_impl; [exact Ht|]. intros s (x & i & k' & Hx & Hs). exists x, i, k'. split; [by apply added_are_new|done].
Qed.

Context {X W : Type} `{!ModuleKind X} `{!ConnectionWorld W} `{!ConnectionLaws W} `{!ContainerServer X W}.
Context (uv : list VerificationRequest -> outcome (list bool)) (bridge : option BridgeIdentity).

Lemma rng_ret {A} (m : ST rng A) w a w' : on_rng m w = (Ret a, w') -> exists g g', m g = (Ret a, g').
Proof.
  intros Hm. destruct (rng_run m w) as [g Hg]. rewrite Hm in Hg. cbn in Hg.
  exists g. destruct (m g) as [r g']. cbn in Hg. subst r. by exists g'.
Qed.

(** Nobody but the members gets an entry. *)
Lemma entries_for_members keys allUsers loc key fresh older :
  fresh = [] \/ Forall2 (seals_to key loc) allUsers fresh -> Forall (passes_on keys allUsers loc) older ->
  forall s, s ∈ fresh ++ older -> ks_user s ∈ u_userId <$> allUsers.
Proof.
  intros Hf Ho s [Hs|Hs]%elem_of_app.
  - destruct Hf as [->|HF]; [by apply not_elem_of_nil in Hs|]. apply list_elem_of_lookup in Hs as [j Hj].
    destruct (Forall2_lookup_r _ _ _ _ _ HF Hj) as (x & Hx & [-> _]). apply list_elem_of_fmap_2.
    by eapply list_elem_of_lookup_2.
  - apply (proj1 (Forall_forall _ _) Ho) in Hs as (x & i & k & Hx & _ & _ & [-> _]). by apply list_elem_of_fmap_2.
Qed.

(** C5: an update that returns sent the server the entries [fresh] and [older].
    If it left out a current user or manager, or the caller insisted, [fresh]
    gives a key generated for this update to each member of the new lists, in
    order, encrypted to that member's public key, and the new metadata is
    encrypted under that key; otherwise [fresh] is empty.  [older] gives members
    of the new lists keys the container had and that verified.  So no entry is
    for anybody else, the members left out among them; and the module forgets its
    cached keys. *)
Theorem removed_members_excluded id users managers publicMeta privateMeta version force forceGenerateNewKey policies w w' :
  updateContainer (X := X) priv uv bridge id users managers publicMeta privateMeta version force forceGenerateNewKey
    policies w = (Ret tt, w') ->
  let allUsers := EndpointUtils.uniqueListUserWithPubKey users managers in
  exists current model resourceId all keys key fresh older w1 w2 w3,
    server_get (X := X) id None w = (Ret current, w1)
    /\ server_update (X := X) model w2 = (Ret tt, w3)
    /\ (let loc := mkLocation (ct_contextId current) resourceId in
        KeyProvider.getKeysAndVerify priv uv (KeyDecryptionAndVerificationRequest.addAll (ct_keys current) loc
          KeyDecryptionAndVerificationRequest.empty).2 = Ret all
        /\ all !! loc = Some keys
        /\ um_keys model = fresh ++ older
        /\ (forceGenerateNewKey = true
             \/ (exists x, (x ∈ ct_users current \/ x ∈ ct_managers current) /\ x ∉ u_userId <$> allUsers) ->
             (exists g1 g2, KeyProvider.generateKey g1 = (Ret key, g2)) /\ Forall2 (seals_to key loc) allUsers fresh)
        /\ (fresh = [] \/ Forall2 (seals_to key loc) allUsers fresh)
        /\ Forall (passes_on keys allUsers loc) older)
    /\ (forall s, s ∈ um_keys model -> ks_user s ∈ u_userId <$> allUsers)
    /\ (exists md data g g', um_keyId model = ek_id key /\ um_data model = mj5_toJSON data
        /\ ModuleDataEncryptorV5.encrypt md priv (ek_key key) g = (Ret data, g')
        /\ ModuleDataEncryptorV5.in_publicMeta md = publicMeta /\ ModuleDataEncryptorV5.in_privateMeta md = privateMeta)
    /\ keyCache w' !! id = None.
Proof.
  intros Hr allUsers. unfold updateContainer in Hr.
  inv_bind Hr as (current & w1 & Hget & Hr). inv_bind Hr as (entry & w2 & _ & Hr).
  inv_bind Hr as (rid & w3 & _ & Hr). inv_bind Hr as (all & w4 & Hall & Hr). inv_bind Hr as (keys & w5 & Hkeys & Hr).
  injection Hall as Hall _. injection Hkeys as Hkeys%at_inv _.
  inv_bind Hr as (k & w6 & _ & Hr). inv_bind Hr as (im & w7 & _ & Hr). cbv zeta in Hr.
  inv_bind Hr as ([] & w8 & _ & Hr). inv_bind Hr as (d & w9 & _ & Hr).
  inv_bind Hr as ([key l] & w10 & Hk & Hr). inv_bind Hr as (data & w11 & Hd & Hr).
  inv_bind Hr as ([] & w12 & Hu & Hr).
  apply rng_ret in Hk as (g & g' & Hk). apply update_keys in Hk as (fresh & older & -> & Hf & Ho).
  apply rng_ret in Hd as (gd & gd' & Hd). 
  exists current. eexists. exists rid, all, keys, key, fresh, older, w1, w11, w12.
  split; [exact Hget|]. split; [exact Hu|]. split; [|split; [|split]].
  - do 2 (split; [assumption|]). split; [reflexivity|]. split; [|split; [|exact Ho]].
    + intros Hneed. destruct (UsersKeysResolver.doNeedNewKey _) eqn:Hnew; [exact Hf|].
      apply not_true_iff_false in Hnew. destruct Hnew. apply UsersKeysResolver.need_new_key. exact Hneed.
    + destruct (UsersKeysResolver.doNeedNewKey _); [right; apply Hf|left; apply Hf].
  - apply (entries_for_members keys allUsers (mkLocation (ct_contextId current) rid) key fresh older); [|exact Ho].
    destruct (UsersKeysResolver.doNeedNewKey _); [right; apply Hf|left; apply Hf].
  - eexists. exists data, gd, gd'. do 2 (split; [reflexivity|]). split; [exact Hd|]. by split.
  - injection Hr as <-. rewrite keyCache_set.
    exact (lookup_delete_eq (keyCache w12 : gmap bytes ContainerKeyCache.CachedModuleKeys) id).
Qed.
End Update.
End Flow.
