(* ===== verification/CustomEvents.v ===== *)
(** * Custom events of a context

    The Event API (endpoint/event/src): an event is sealed with a fresh key
    that travels to each of the users it is meant for (EventKeyProvider.cpp),
    signed with an integrity object (EventDataEncryptorV5.cpp), and shown to
    those who subscribed for its channel (EventApiImpl.cpp). *)

From Stdlib Require Import ZArith Lia Strings.String Strings.Byte.
From stdpp Require Import base list gmap fin_maps.
From S2P Require Import Prelude Bytes CoreTypes Crypto CryptoSuite Dynamic Encryptors Dio FieldData EncKeys ContainerData KeyProvider Utils StdMap Subscriptions SubscriberImpls Users EventQueue Policies Containers Items Modules.

Module EventDataSchema.
Definition UNKNOWN : Z := 0.
Definition VERSION_1 : Z := 1.
Definition VERSION_5 : Z := 5.
End EventDataSchema.

(** [ContextEventDataToEncryptV5] *)
Record ContextEventDataV5 := mkEventData {
  e_data : bytes;
  e_type : option bytes;
  e_dio : DataIntegrityObject;
}.

Record DecryptedEventDataV5 := mkDecryptedEvent {
  de_data : bytes;
  de_type : option bytes;
  de_dio : DataIntegrityObject;
  de_statusCode : option exn;
}.

Definition de_set_data (x : bytes) r := mkDecryptedEvent x (de_type r) (de_dio r) (de_statusCode r).
Definition de_set_type (x : option bytes) r := mkDecryptedEvent (de_data r) x (de_dio r) (de_statusCode r).
Definition de_set_dio (x : DataIntegrityObject) r := mkDecryptedEvent (de_data r) (de_type r) x (de_statusCode r).
Definition de_set_statusCode (x : option exn) r := mkDecryptedEvent (de_data r) (de_type r) (de_dio r) x.

#[export] Instance event_status : HasStatus DecryptedEventDataV5 :=
  {| status := de_statusCode; set_status := de_set_statusCode; status_set _ _ := eq_refl |}.

Definition fresh_event : DecryptedEventDataV5 := mkDecryptedEvent [] None empty_dio None.

(** [DecryptedInternalContextEventDataV1] *)
Record DecryptedInternalContextEventDataV1 := mkInternalEvent {
  ie_type : bytes;
  ie_data : bytes;
  ie_dataStructureVersion : Z;
  ie_statusCode : option exn;
}.

(** [DecryptedEventEncKeyV1] *)
Record DecryptedEventEncKeyV1 := mkEventKey { evk_key : bytes; evk_statusCode : option exn }.

(** [server::EncryptedContextEventDataV5] *)
Record EncryptedContextEventDataV5 := mkEncryptedEvent {
  ee_version : Z;
  ee_encryptedData : bytes;
  ee_type : option bytes;
  ee_dio : bytes;
}.

(** [server::UserKey], [core::server::UserIdentity] *)
Record UserKey := mkUserKey { uk_id : bytes; uk_key : bytes }.
Record UserIdentity := mkUserIdentity { ui_id : bytes; ui_pub : bytes }.

Section Json.
Context `{!Dynamic}.

(** [server::ContextEmitCustomEventModel], [server::ContextCustomEventData] *)
Record ContextEmitCustomEventModel := mkEmitModel {
  em_contextId : bytes;
  em_channel : bytes;
  em_data : Var;
  em_users : list UserKey;
}.

Record RawCustomEvent := mkRawEvent {
  rw_id : bytes;
  rw_eventData : Var;
  rw_key : bytes;
  rw_author : UserIdentity;
}.
End Json.

(** The codecs: [fromJSON] of the payload of a notification, which must be an
    object, and both directions of the encrypted event. *)
Class EventJson `{Dynamic} := {
  raw_event : Var -> outcome RawCustomEvent;
  event5_toJSON : EncryptedContextEventDataV5 -> Var;
  event5_fromJSON : Var -> outcome EncryptedContextEventDataV5;
}.
Class EventJsonLaws `{KeyEntryJson} `{!EventJson} : Prop := {
  event5_is_object e : is_object (event5_toJSON e) = true;
  event5_inv e : event5_fromJSON (event5_toJSON e) = Ret e;
}.

(** [ServerApi::contextSendCustomEvent] *)
Class EventServer {D : Dynamic} (W : Type) := {
  contextSendCustomEvent : ContextEmitCustomEventModel -> ST W unit;
}.

(** [ContextCustomEventData] of the library (Events.hpp) *)
Record ContextCustomEventData := mkCustomEvent {
  cc_contextId : bytes;
  cc_userId : bytes;
  cc_payload : bytes;
  cc_statusCode : option exn;
  cc_schemaVersion : Z;
}.

(** ** The encryptor *)
Module EventDataEncryptorV5.
Section Encryptor.
Context {C : CryptoService} {E : Ecc} {E0 : Encodings} {D : Dynamic}.
Context `{!KeyFormats PublicKey} `{!JsonCodec DIOEncryptorV1.DioJson}.

(** The checksum of the type is the type itself. *)
Definition sums (encryptedData : bytes) (type : option bytes) : checksums :=
  match type with
  | Some t => {[ lit "encryptedData" := sha256 encryptedData; lit "type" := t ]}
  | None => {[ lit "encryptedData" := sha256 encryptedData ]}
  end.

Definition encrypt (eventData : ContextEventDataV5) (authorPrivateKey : PrivateKey) (encryptionKey : bytes) :
    ST rng EncryptedContextEventDataV5 :=
  encryptedData ← DataEncryptorV4.signAndEncryptAndEncode (e_data eventData) authorPrivateKey encryptionKey;
  let expandedDio := {| dio := e_dio eventData; structureVersion := EventDataSchema.VERSION_5;
                        fieldChecksums := sums encryptedData (e_type eventData) |} in
  d ← lift (DIOEncryptorV1.signAndEncode expandedDio authorPrivateKey);
  mret (mkEncryptedEvent EventDataSchema.VERSION_5 encryptedData (e_type eventData) d).

Definition assertDataFormat (e : EncryptedContextEventDataV5) : outcome unit :=
  if bool_decide (ee_version e <> EventDataSchema.VERSION_5)
     || bool_decide (ee_encryptedData e = []) || bool_decide (ee_dio e = [])
  then Throw InvalidEncryptedEventDataVersionException else Ret tt.

Definition type_differs (sums : checksums) (type : option bytes) : outcome bool :=
  match type with
  | Some t => v ← at_key sums (lit "type"); Ret (bool_decide (v <> t))
  | None => Ret false
  end.

Definition getDIOAndAssertIntegrity (e : EncryptedContextEventDataV5) (authorPublicKey : PublicKey) :
    outcome DataIntegrityObject :=
  _ ← assertDataFormat e;
  x ← DIOEncryptorV1.decodeAndVerify (ee_dio e);
  bad ← any_of [
    Ret (bool_decide (structureVersion x <> EventDataSchema.VERSION_5));
    Ret (bool_decide (dio_creatorPubKey (dio x) <> toBase58DER authorPublicKey));
    sum_differs (fieldChecksums x) (lit "encryptedData") (ee_encryptedData e);
    type_differs (fieldChecksums x) (ee_type e)];
  if (bad : bool) then Throw InvalidDataIntegrityObjectChecksumException else Ret (dio x).

Definition decrypt (e : EncryptedContextEventDataV5) (authorPublicKey : PublicKey) (encryptionKey : bytes) :
    outcome DecryptedEventDataV5 :=
  guarded (
    d ← lift (getDIOAndAssertIntegrity e authorPublicKey);
    _ ← modify (de_set_dio d);
    x ← lift (DataEncryptorV4.decodeAndDecryptAndVerify (ee_encryptedData e) authorPublicKey encryptionKey);
    _ ← modify (de_set_data x);
    modify (de_set_type (ee_type e))) set_status fresh_event.
End Encryptor.
End EventDataEncryptorV5.

(** [OldEventDataDecryptor::decryptV1]: the data and the status.  A value that
    is no string is answered with a status. *)
Module OldEventDataDecryptor.
Section Decryptor.
Context {C : CryptoService} {E : Ecc} {E0 : Encodings} {D : Dynamic} `{!KeyEntryJson}.

Definition decryptV1 (data : Var) (authorPublicKey : PublicKey) (encryptionKey : bytes)
    (userPrivateKey : PrivateKey) : outcome (bytes * option exn) :=
  try_with every_exn (
    if is_string data then
      encKey ← EciesBase64.decryptFromBase64 userPrivateKey encryptionKey None;
      s ← string_of data;
      d ← DataEncryptorV4.decodeAndDecryptAndVerify s authorPublicKey encKey;
      mret (d, None)
    else mret ([], Some InvalidEncryptedEventDataVersionException))
  (fun code => ([], Some code)).
End Decryptor.
End OldEventDataDecryptor.

(** ** The event's key *)
Module EventKeyProvider.
Section Keys.
Context {C : CryptoService} {E : Ecc} {E0 : Encodings} `{!KeyFormats PublicKey}.
Context (_key : PrivateKey).

Definition generateKey : ST rng bytes := random 32.

Definition decryptKey (encryptedKey : bytes) (authorPubKey : PublicKey) : outcome DecryptedEventEncKeyV1 :=
  try_with every_exn (
    encKey ← EciesBase64.decryptFromBase64 _key encryptedKey (Some authorPubKey);
    mret (mkEventKey encKey None))
  (fun code => mkEventKey [] (Some code)).

Fixpoint prepareKeysList (users : list UserWithPubKey) (key : bytes) : outcome (list UserKey) :=
  match users with
  | [] => mret []
  | user :: users =>
      pub ← fromBase58DER (u_pubKey user);
      k ← EciesBase64.encryptToBase64 pub key _key;
      ks ← prepareKeysList users key;
      mret (mkUserKey (u_userId user) k :: ks)
  end.
End Keys.
End EventKeyProvider.

(** ** The API *)
Module EventApiImpl.
Import EventDataEncryptorV5.

Section Api.
Context {C : CryptoService} {E : Ecc} {E0 : Encodings} {D : Dynamic}.
Context `{!KeyFormats PublicKey} `{!KeyEntryJson} `{!EventJson} `{!JsonCodec DIOEncryptorV1.DioJson}.
Context (_userPrivKey : PrivateKey) (_userVerifier : list VerificationRequest -> outcome (list bool)).

(** [_forbiddenChannelsNames] *)
Definition validateChannelName (channelName : bytes) : outcome unit :=
  if bool_decide (channelName ∈ [EventSubscriber.INTERNAL_EVENT_CHANNEL_NAME])
  then Throw ForbiddenChannelNameException else Ret tt.

Definition verification_request (d : DataIntegrityObject) : VerificationRequest := {|
  vr_contextId := dio_contextId d; vr_senderId := dio_creatorUserId d; vr_senderPubKey := dio_creatorPubKey d;
  vr_date := dio_timestamp d; vr_bridgeIdentity := dio_bridgeIdentity d |}.

Definition verifyDecryptedEventDataV5 (data : DecryptedEventDataV5) : outcome bool :=
  verified ← UserVerifier.verify _userVerifier [verification_request (de_dio data)];
  match verified with v :: _ => Ret v | [] => Throw UndefinedBehaviour end.

(** The end shared by the two readers of an event. *)
Definition verified_status (d : DecryptedEventDataV5) : outcome (option exn) :=
  match de_statusCode d with
  | None => b ← verifyDecryptedEventDataV5 d; mret (if (b : bool) then None else Some UserVerificationFailureException)
  | code => mret code
  end.

Definition internal_channel (contextId : bytes) : bytes :=
  lit "context/custom/" ++ EventSubscriber.INTERNAL_EVENT_CHANNEL_NAME ++ lit "|contextId=" ++ contextId.

(** What [processNotificationEvent]'s task makes of an event. *)
Definition read_event (rawEvent : RawCustomEvent) : outcome ContextCustomEventData :=
  let result := mkCustomEvent (rw_id rawEvent) (ui_id (rw_author rawEvent)) in
  if is_object (rw_eventData rawEvent) then
    author ← fromBase58DER (ui_pub (rw_author rawEvent));
    decryptedKey ← EventKeyProvider.decryptKey _userPrivKey (rw_key rawEvent) author;
    match evk_statusCode decryptedKey with
    | Some code => mret (result [] (Some code) EventDataSchema.VERSION_5)
    | None =>
        e ← event5_fromJSON (rw_eventData rawEvent);
        tmp ← decrypt e author (evk_key decryptedKey);
        statusCode ← verified_status tmp;
        mret (result (de_data tmp) statusCode EventDataSchema.VERSION_5)
    end
  else if is_string (rw_eventData rawEvent) then
    author ← fromBase58DER (ui_pub (rw_author rawEvent));
    '(data, statusCode) ← OldEventDataDecryptor.decryptV1 (rw_eventData rawEvent) author (rw_key rawEvent) _userPrivKey;
    mret (result data statusCode EventDataSchema.VERSION_1)
  else mret (result [] None EventDataSchema.UNKNOWN).

Definition extractInternalEventData (eventData : Var) : outcome DecryptedInternalContextEventDataV1 :=
  rawEvent ← raw_event eventData;
  author ← fromBase58DER (ui_pub (rw_author rawEvent));
  decryptedKey ← EventKeyProvider.decryptKey _userPrivKey (rw_key rawEvent) author;
  match evk_statusCode decryptedKey with
  | Some code => mret (mkInternalEvent [] [] EventDataSchema.VERSION_5 (Some code))
  | None =>
      e ← event5_fromJSON (rw_eventData rawEvent);
      tmp ← decrypt e author (evk_key decryptedKey);
      statusCode ← verified_status tmp;
      mret (mkInternalEvent (default [] (de_type tmp)) (de_data tmp) EventDataSchema.VERSION_5 statusCode)
  end.

(** [split(split(channel, "/")[2], "|")[0]] *)
Definition custom_channel_name (channel : bytes) : outcome bytes :=
  match Utils.split_str channel x2f with
  | _ :: _ :: rest :: _ => match Utils.split_str rest x7c with name :: _ => Ret name | [] => Throw UndefinedBehaviour end
  | _ => Throw UndefinedBehaviour
  end.

(** *** In the connection's world *)
Section World.
Context (_bridgeIdentity : option BridgeIdentity).
Context {A W : Type} `{!ConnectionWorld W} `{!EventServer W} `{!EventWorld A W} (custom : ContextCustomEventData -> A).

Definition emitEventEx (contextId : bytes) (users : list UserWithPubKey) (channelName : bytes)
    (encryptedEventData : Var) (encryptionKey : bytes) : ST W unit :=
  keys ← lift (EventKeyProvider.prepareKeysList _userPrivKey users encryptionKey);
  contextSendCustomEvent (mkEmitModel contextId channelName encryptedEventData keys).

(** What [emitEvent] and [emitEventInternal] share. *)
Definition emit (contextId : bytes) (users : list UserWithPubKey) (channelName eventData : bytes)
    (type : option bytes) : ST W unit :=
  key ← on_rng EventKeyProvider.generateKey;
  dio ← ModuleApi.createDIO _userPrivKey _bridgeIdentity contextId [] None None;
  data ← on_rng (encrypt (mkEventData eventData type dio) _userPrivKey key);
  emitEventEx contextId users channelName (event5_toJSON data) key.

Definition emitEvent (contextId : bytes) (users : list UserWithPubKey) (channelName eventData : bytes) : ST W unit :=
  _ ← lift (validateChannelName channelName);
  emit contextId users channelName eventData None.

Definition emitEventInternal (contextId type data : bytes) (users : list UserWithPubKey) : ST W unit :=
  emit contextId users EventSubscriber.INTERNAL_EVENT_CHANNEL_NAME data (Some type).

(** *** With the subscriber's table *)
Definition isInternalContextEvent (type : bytes) (subscriptions : list bytes) (eventData : Var)
    (internalContextEventType : option bytes) (s : Subscriber.t W) : outcome bool :=
  if bool_decide (type = lit "custom") then
    match Subscriber.getSubscriptionQueryOfAny subscriptions s with
    | None => mret false
    | Some channel =>
        raw ← raw_event eventData;
        if bool_decide (rw_id raw <> []) && bool_decide (channel = internal_channel (rw_id raw))
           && is_object (rw_eventData raw) && has (rw_eventData raw) (lit "type") then
          match internalContextEventType with
          | None => mret true
          | Some t => x ← get_string (rw_eventData raw) (lit "type"); mret (bool_decide (x = t))
          end
        else mret false
    end
  else mret false.

Definition processNotificationEvent (type : bytes) (notification : NotificationEvent) : ST (Subscriber.t W) unit :=
  if bool_decide (type <> lit "custom") then mret tt
  else
    subscriptionQuery ← gets (Subscriber.getSubscriptionQueryOfAny (ne_subscriptions notification));
    match subscriptionQuery with
    | None => mret tt
    | Some channel => Subscriber.on_world (exec (
        data ← lift (payload notification);
        rawEvent ← lift (raw_event data);
        if bool_decide (channel = internal_channel (rw_id rawEvent)) then mret tt
        else
          resultEventData ← lift (read_event rawEvent);
          customChannelName ← lift (custom_channel_name channel);
          EventMiddleware.emitApiEvent (buildEvent (lit "contextCustom")
            (lit "context/" ++ rw_id rawEvent ++ lit "/" ++ customChannelName) (custom resultEventData) notification)))
    end.
End World.
End Api.
End EventApiImpl.
