(* ===== verification/EventFlow.v ===== *)
(** * Custom events from the sender to the users they are for

    What [EventApiImpl.emitEvent] sends, each of the users reads; what the
    events of the old format, and the names a server puts on an event, prove. *)

From Stdlib Require Import ZArith Lia Strings.String Strings.Byte.
From stdpp Require Import base list gmap fin_maps.
From S2P Require Import Prelude Bytes CoreTypes Crypto CryptoSuite Dynamic Encryptors Dio FieldData EncKeys ContainerData KeyProvider Utils StdMap Subscriptions SubscriberImpls Users EventQueue Policies Containers Items Modules ContainerFlow CustomEvents.
Import ModuleApi EventApiImpl EventDataEncryptorV5.

(** The channel a subscription for [name] in the context is for. *)
Definition custom_channel (name contextId : bytes) : bytes :=
  lit "context/custom/" ++ name ++ lit "|contextId=" ++ contextId.

Section Flow.
Context {C : CryptoService} `{!CryptoLaws C} {E : Ecc} `{!EccLaws E} {E0 : Encodings} `{!EncodingsLaws E0}.
Context {D : Dynamic} `{!KeyFormats PublicKey} `{!KeyFormatsLaws PublicKey}.
Context `{!KeyEntryJson} `{!EventJson} `{!EventJsonLaws}.
Context `{!JsonCodec DIOEncryptorV1.DioJson} `{!JsonCodecLaws DIOEncryptorV1.DioJson}.

(** ** The encryptor *)
Lemma event_sealed ev k ek g : zlen ek = 32 -> DataEncryptorV4.small (e_data ev) ->
  DIOEncryptorV1.well_formed (e_dio ev) -> dio_creatorPubKey (e_dio ev) = toBase58DER (getPublicKey k) ->
  exists e g', encrypt ev k ek g = (Ret e, g')
    /\ decrypt e (getPublicKey k) ek = Ret (mkDecryptedEvent (e_data ev) (e_type ev) (e_dio ev) None).
Proof.
  intros Hk Hs Hw Hc. unfold encrypt.
  destruct (DataEncryptorV4.seal_total (e_data ev) k ek g Hk Hs) as (c & g' & Ec & Oc & Nc). run_step.
  match goal with |- context [DIOEncryptorV1.signAndEncode ?x k] => set (xd := x) end.
  destruct (DIOEncryptorV1.signAndEncode_ret xd k) as [cd Ed]; [done|].
  pose proof (DIOEncryptorV1.dio_open xd k cd Ed Hw) as Eo. rewrite Ed.
  do 2 eexists. split; [reflexivity|]. apply guarded_ret. unfold getDIOAndAssertIntegrity, assertDataFormat.
  cbn [ee_version ee_encryptedData ee_dio ee_type].
  rewrite !bool_decide_eq_false_2; [|by eapply DIOEncryptorV1.signAndEncode_nonempty|done|tauto]. cbn [orb].
  unfold_st. rewrite Eo. cbn [dio structureVersion fieldChecksums xd].
  assert (sum_differs (sums c (e_type ev)) (lit "encryptedData") c = Ret false) as Hsum.
  { apply sum_differs_false. unfold sums. destruct (e_type ev); sum_lookup. }
  assert (type_differs (sums c (e_type ev)) (e_type ev) = Ret false) as Ht.
  { unfold type_differs, sums, at_key. destruct (e_type ev) as [t|]; [|done].
    assert (({[lit "encryptedData" := sha256 c; lit "type" := t]} : checksums) !! lit "type" = Some t) as -> by sum_lookup.
    unfold_st. by rewrite bool_decide_eq_false_2 by tauto. }
  rewrite Hc, !bool_decide_eq_false_2, Hsum, Ht by tauto. cbn. by rewrite Oc.
Qed.

(** ** The key *)
Definition key_for (priv : PrivateKey) (key : bytes) (x : UserWithPubKey) (k : UserKey) : Prop :=
  uk_id k = u_userId x /\ forall u, u_pubKey x = toBase58DER (getPublicKey u) ->
    EventKeyProvider.decryptKey u (uk_key k) (getPublicKey priv) = Ret (mkEventKey key None).

Lemma keys_listed priv users key : zlen key = 32 -> Forall has_key users ->
  exists l, EventKeyProvider.prepareKeysList priv users key = Ret l /\ Forall2 (key_for priv key) users l.
Proof.
  intros Hk. induction 1 as [|x users [u Hx] _ (l & Hl & HF)]; [by exists []|]. cbn [EventKeyProvider.prepareKeysList].
  destruct (Ecies.envelope_total priv u key) as (c & Hc & Hf & Hn); [lia|].
  rewrite Hx, base58der_inv. unfold EciesBase64.encryptToBase64. unfold_st. rewrite Hc, Hl.
  eexists. split; [reflexivity|]. constructor; [|done]. split; [done|]. intros v Hv.
  rewrite Hx in Hv. apply (f_equal fromBase58DER) in Hv. rewrite !base58der_inv in Hv. injection Hv as Hv.
  unfold EventKeyProvider.decryptKey. apply try_with_ret. unfold EciesBase64.decryptFromBase64. unfold_st.
  cbn [uk_key]. rewrite base64_inv. rewrite Hv in Hc. by rewrite (Ecies.envelope_opens _ _ _ _ _ Hc Hf (or_intror eq_refl)).
Qed.

(** ** Reading *)
Lemma event_reads u uv contextId id priv e key data type d k :
  (forall l, uv l = Ret ((fun _ => true) <$> l)) ->
  EventKeyProvider.decryptKey u k (getPublicKey priv) = Ret (mkEventKey key None) ->
  decrypt e (getPublicKey priv) key = Ret (mkDecryptedEvent data type d None) ->
  read_event u uv (mkRawEvent contextId (event5_toJSON e) k (mkUserIdentity id (toBase58DER (getPublicKey priv))))
    = Ret (mkCustomEvent contextId id data None EventDataSchema.VERSION_5).
Proof.
  intros Huv Hk Hd. unfold read_event. cbn [rw_eventData rw_author rw_key rw_id ui_id ui_pub].
  rewrite event5_is_object, base58der_inv. unfold_st. rewrite Hk. cbn [evk_statusCode evk_key]. rewrite event5_inv, Hd.
  unfold verified_status, verifyDecryptedEventDataV5, UserVerifier.verify. cbn [de_statusCode]. by rewrite Huv.
Qed.

Lemma channel_named name contextId : x2f ∉ name -> x7c ∉ name ->
  custom_channel_name (custom_channel name contextId) = Ret name.
Proof.
  intros Hs Hb. unfold custom_channel_name, custom_channel.
  change (lit "context/custom/" ++ name ++ lit "|contextId=" ++ contextId)
    with (lit "context" ++ x2f :: (lit "custom" ++ x2f :: name ++ x7c :: lit "contextId=" ++ contextId)).
  rewrite Utils.split_str_cons by (by apply (bool_decide_unpack _); vm_compute).
  rewrite Utils.split_str_cons by (by apply (bool_decide_unpack _); vm_compute).
  unfold Utils.split_str at 1. rewrite Utils.split_str_go_app by done. cbn [Utils.split_str_go app].
  rewrite bool_decide_eq_false_2 by done. destruct (Utils.split_str_go_head x2f (lit "contextId=" ++ contextId) (name ++ [x7c]))
    as (r & l & ->). rewrite <- app_assoc. cbn [app]. by rewrite Utils.split_str_cons.
Qed.

(** ** An event and its readers *)
Section Events.
Context {A W : Type} `{!ConnectionWorld W} `{!ConnectionLaws W} `{!EventServer W} `{!EventWorld A W}.
Context (custom : ContextCustomEventData -> A) (me : bytes) (priv : PrivateKey) (bridge : option BridgeIdentity)
  (contextId : bytes).

(** What the server tells a user of an event: the author's name and key, the
    context, the data and the key entry made for him. *)
Definition told (model : ContextEmitCustomEventModel) (k : UserKey) (n : NotificationEvent) : Prop :=
  exists v, payload n = Ret v /\ raw_event v = Ret (mkRawEvent (em_contextId model) (em_data model) (uk_key k)
    (mkUserIdentity me (toBase58DER (getPublicKey priv)))).

Lemma emit_run users channelName data type w : identified me bridge contextId ->
  DataEncryptorV4.small data -> Forall has_key users ->
  exists key keys e t i w', emit priv bridge contextId users channelName data type w
      = contextSendCustomEvent (mkEmitModel contextId channelName (event5_toJSON e) keys) w'
    /\ Forall2 (key_for priv key) users keys
    /\ decrypt e (getPublicKey priv) key
       = Ret (mkDecryptedEvent data type (my_dio me priv bridge contextId None None [] t (hex_from i)) None).
Proof.
  intros Hc Hs Hu. unfold emit.
  destruct (rng_fst EventKeyProvider.generateKey (fun k => zlen k = 32) w) as (key & Hk & Hl);
    [intros g; by apply random_bytes|].
  step_fst Hk as w1.
  destruct (dio_created me priv bridge contextId None None [] w1 Hc) as (d & Hd & t & i & w0 & -> & _ & Hi).
  step_fst Hd as w2.
  destruct (rng_fst (encrypt (mkEventData data type (my_dio me priv bridge contextId None None [] t (hex_from i))) priv key)
    (fun e => decrypt e (getPublicKey priv) key
       = Ret (mkDecryptedEvent data type (my_dio me priv bridge contextId None None [] t (hex_from i)) None)) w2)
    as (e & He & Hdec).
  { intros g. edestruct (event_sealed (mkEventData data type (my_dio me priv bridge contextId None None [] t (hex_from i)))
      priv key g Hl Hs) as (e & g' & He1 & He2); [by eapply my_dio_formed|done|by exists e, g']. }
  step_fst He as w3. destruct (keys_listed priv users key Hl Hu) as (keys & Hkeys & HF).
  unfold emitEventEx. rewrite Hkeys. unfold_st. by exists key, keys, e, t, i, w3.
Qed.

(** C33: an event reaches each user it is for: what [emitEvent] sends, told to
    one of the users who subscribed for the channel and whose verifier accepts
    the sender, is put into his queue with the data the sender gave, the
    sender's id, no error status and the channel's name. *)
Theorem event_delivered users channelName eventData w :
  identified me bridge contextId -> DataEncryptorV4.small eventData -> Forall has_key users ->
  channelName <> EventSubscriber.INTERNAL_EVENT_CHANNEL_NAME -> x2f ∉ channelName -> x7c ∉ channelName ->
  exists model w', emitEvent priv bridge contextId users channelName eventData w = contextSendCustomEvent model w'
    /\ Forall2 (fun x k => uk_id k = u_userId x
         /\ forall u uv n (s : Subscriber.t W), u_pubKey x = toBase58DER (getPublicKey u) ->
              (forall l, uv l = Ret ((fun _ => true) <$> l)) -> told model k n ->
              Subscriber.getSubscriptionQueryOfAny (ne_subscriptions n) s = Some (custom_channel channelName contextId) ->
              processNotificationEvent u uv custom (lit "custom") n s
              = Subscriber.on_world (exec (EventMiddleware.emitApiEvent (buildEvent (lit "contextCustom")
                  (lit "context/" ++ contextId ++ lit "/" ++ channelName)
                  (custom (mkCustomEvent contextId me eventData None EventDataSchema.VERSION_5)) n))) s)
       users (em_users model).
Proof.
  intros Hc Hs Hu Hch Hsl Hb. unfold emitEvent, validateChannelName.
  rewrite bool_decide_eq_false_2 by (by intros ->%list_elem_of_singleton).
  destruct (emit_run users channelName eventData None w Hc Hs Hu) as (key & keys & e & t & i & w' & Hr & HF & Hdec).
  eexists _, w'. split; [exact Hr|]. cbn [em_users]. eapply Forall2_impl; [exact HF|].
  intros x k [Hid Hopen]. split; [exact Hid|]. intros u uv n s Hx Huv (v & Hv & Hraw) Hq.
  unfold processNotificationEvent. rewrite bool_decide_eq_false_2 by tauto.
  unfold Subscriber.on_world, exec. unfold_st. rewrite Hq, Hv, Hraw. cbn [em_contextId em_data rw_id].
  rewrite bool_decide_eq_false_2.
  - by rewrite (event_reads u uv contextId me priv e key eventData None _ _ Huv (Hopen u Hx) Hdec), channel_named.
  - intros Heq. apply Hch. pose proof (channel_named channelName contextId Hsl Hb) as Hn. rewrite Heq in Hn.
    change (internal_channel contextId) with (custom_channel EventSubscriber.INTERNAL_EVENT_CHANNEL_NAME contextId) in Hn.
    rewrite channel_named in Hn by (by apply (bool_decide_unpack _); vm_compute). by injection Hn as ->.
Qed.

End Events.

(** ** What an accepted event proves *)
Lemma event_integrity_accepts e p d : getDIOAndAssertIntegrity e p = Ret d ->
  exists x, DIOEncryptorV1.decodeAndVerify (ee_dio e) = Ret x /\ dio x = d
    /\ dio_creatorPubKey d = toBase58DER p /\ fieldChecksums x !! lit "encryptedData" = Some (sha256 (ee_encryptedData e)).
Proof.
  unfold getDIOAndAssertIntegrity. unfold_st. destruct (assertDataFormat e); [|done].
  destruct (DIOEncryptorV1.decodeAndVerify (ee_dio e)) as [x|]; [|done].
  match goal with |- context [any_of ?l] => destruct (any_of l) as [[]|] eqn:Eb; [done| |done] end.
  intros [= <-]. apply any_of_false in Eb. rewrite !Forall_cons in Eb. destruct Eb as (_ & [= Hp] & Hs & _).
  exists x. split; [done|]. split; [done|]. split; [|by apply sum_differs_false].
  by apply bool_decide_eq_false, dec_stable in Hp.
Qed.

Lemma decrypt_accepts e p ek r : decrypt e p ek = Ret r -> de_statusCode r = None ->
  getDIOAndAssertIntegrity e p = Ret (de_dio r)
  /\ DataEncryptorV4.decodeAndDecryptAndVerify (ee_encryptedData e) p ek = Ret (de_data r).
Proof.
  intros Hr Hs. apply guarded_success in Hr; [|exact Hs].
  inv_bind Hr as (d & ? & [= Hd <-] & Hr). inv_bind Hr as ([] & ? & [= <-] & Hr).
  inv_bind Hr as (x & ? & [= Hx <-] & Hr). inv_bind Hr as ([] & ? & [= <-] & Hr). by injection Hr as <-.
Qed.

Lemma verdict_accepts uv r : verified_status uv r = Ret None ->
  de_statusCode r = None /\ uv [verification_request (de_dio r)] = Ret [true].
Proof.
  unfold verified_status, verifyDecryptedEventDataV5, UserVerifier.verify. destruct (de_statusCode r); [done|].
  unfold_st. destruct (uv _) as [l|]; [|done]. case_bool_decide as Hl; [done|].
  by destruct l as [|[] [|]].
Qed.

(** C34: an event of the current structure that is shown without an error was
    signed by the key the server names, its envelope opened from that key, and
    its integrity object, by the same key, was accepted by the verifier.  The
    context and the user it is shown under are not: under any others it is
    shown as well. *)
Theorem event_accepted u uv raw r : read_event u uv raw = Ret r -> is_object (rw_eventData raw) = true ->
  cc_statusCode r = None ->
  (exists p e x key sig, fromBase58DER (ui_pub (rw_author raw)) = Ret p /\ event5_fromJSON (rw_eventData raw) = Ret e
     /\ EventKeyProvider.decryptKey u (rw_key raw) p = Ret (mkEventKey key None)
     /\ DIOEncryptorV1.decodeAndVerify (ee_dio e) = Ret x /\ dio_creatorPubKey (dio x) = toBase58DER p
     /\ fieldChecksums x !! lit "encryptedData" = Some (sha256 (ee_encryptedData e))
     /\ verifyCompactSignatureWithHash p (cc_payload r) sig = true
     /\ uv [verification_request (dio x)] = Ret [true])
  /\ forall contextId userId,
       read_event u uv (mkRawEvent contextId (rw_eventData raw) (rw_key raw) (mkUserIdentity userId (ui_pub (rw_author raw))))
       = Ret (mkCustomEvent contextId userId (cc_payload r) None EventDataSchema.VERSION_5).
Proof.
  unfold read_event. cbn [rw_eventData rw_author rw_key rw_id ui_id ui_pub]. intros Hr Ho Hs. rewrite Ho in Hr |- *.
  revert Hr. unfold_st. destruct (fromBase58DER (ui_pub (rw_author raw))) as [p|] eqn:Ep; [|done].
  destruct (EventKeyProvider.decryptKey u (rw_key raw) p) as [[key [code|]]|] eqn:Ek; [by intros [= <-]| |done].
  cbn [evk_statusCode evk_key]. destruct (event5_fromJSON (rw_eventData raw)) as [e|] eqn:Ee; [|done].
  destruct (decrypt e p key) as [d|] eqn:Ed; [|done]. destruct (verified_status uv d) as [code|] eqn:Ev; [|done].
  intros [= <-]. cbn in Hs |- *. subst code. split; [|done].
  apply verdict_accepts in Ev as [Hn Huv]. destruct (decrypt_accepts e p key d Ed Hn) as [Hi Hd].
  apply event_integrity_accepts in Hi as (x & Hx & Hdx & Hc & Hsum).
  apply DataEncryptorV4.open_sealed_accepts in Hd as (sig & Hsig).
  exists p, e, x, key, sig. rewrite Hdx. do 7 (split; [done|]). done.
Qed.

(** an event of the old structure proves nothing about its sender: with any
    key pair of one's own and the recipient's public key, a text and a key entry
    are made that are shown as the chosen data from any user in any context,
    without an error and whatever the verifier would say. *)
Theorem old_event_forged forger u data (g : rng) : DataEncryptorV4.small data ->
  exists text entry, forall v uv contextId userId, is_object v = false -> is_string v = true -> string_of v = Ret text ->
    read_event u uv (mkRawEvent contextId v entry (mkUserIdentity userId (toBase58DER (getPublicKey forger))))
    = Ret (mkCustomEvent contextId userId data None EventDataSchema.VERSION_1).
Proof.
  intros Hs. set (key := zeros 32).
  destruct (DataEncryptorV4.seal_total data forger key g eq_refl Hs) as (text & g' & _ & Ho & _).
  destruct (Ecies.envelope_total forger u key eq_refl) as (c & Hc & Hf & _).
  exists text, (base64_from c). intros v uv contextId userId Hv1 Hv2 Hv3. unfold read_event.
  cbn [rw_eventData rw_author rw_key rw_id ui_id ui_pub]. rewrite Hv1, Hv2, base58der_inv. unfold_st.
  unfold OldEventDataDecryptor.decryptV1. rewrite (try_with_ret _ _ _ (data, None)); [done|].
  unfold EciesBase64.decryptFromBase64. rewrite Hv2. unfold_st. rewrite base64_inv.
  by rewrite (Ecies.envelope_opens _ _ _ _ _ Hc Hf (or_introl eq_refl)), Hv3, Ho.
Qed.
End Flow.
