(* ===== verification/ContentItems.v ===== *)
(** * Messages and entries of structure 5

    What the thread and KVDB modules share of their items' code: the decryption
    of a content record under a key (ThreadApiImpl.cpp, KvdbApiImpl.cpp), its
    encryption with an integrity object that names the container, and the
    request that is repeated with the server's newest keys. *)

From Stdlib Require Import ZArith Lia Strings.String Strings.Byte.
From stdpp Require Import base list gmap fin_maps.
From S2P Require Import Prelude Bytes CoreTypes Crypto CryptoSuite Dynamic Encryptors Dio FieldData EncKeys ContentData ContainerData KeyProvider Utils StdMap Users Policies Containers Items Modules.
Import ModuleBaseApi ModuleApi.

(** The JSON objects of structure 5. *)
Class ContentJson `{Dynamic} := {
  cj5_toJSON : ContentEncryptorV5.Encrypted -> Var;
  cj5_fromJSON : Var -> outcome ContentEncryptorV5.Encrypted;
}.
Class ContentJsonLaws `{KeyEntryJson} `{!ContentJson} : Prop := {
  cj5_is_object e : is_object (cj5_toJSON e) = true;
  cj5_versioned e : versioned (cj5_toJSON e) = Ret (ContentEncryptorV5.version e);
  cj5_inv e : cj5_fromJSON (cj5_toJSON e) = Ret e;
}.

Section Data.
Context {C : CryptoService} {E : Ecc} {E0 : Encodings} {D : Dynamic} `{!KeyFormats PublicKey}.
Context `{!JsonCodec DIOEncryptorV1.DioJson} `{!ContentJson} {X : ContentExceptions}.

(** [decryptMessageDataV5], [decryptKvdbEntryDataV5] *)
Definition decryptContentV5 (data : Var) (encKey : DecryptedEncKeyV2) : outcome DecryptedContent :=
  try_with every_exn (
    encrypted ← cj5_fromJSON data;
    match k_statusCode encKey with
    | Some code => tmp ← ContentEncryptorV5.extractPublic encrypted;
                   mret (ContentEncryptorV5.set_statusCode (Some code) tmp)
    | None => ContentEncryptorV5.decrypt encrypted (k_key encKey)
    end)
  (fun code => ContentEncryptorV5.set_statusCode (Some code) ContentEncryptorV5.fresh).

(** The test of an item's integrity object, field by field. *)
Definition content_fits (dio : DataIntegrityObject) (contextId resourceId containerId containerResourceId author : bytes)
    (date : Z) : bool :=
  negb (bool_decide (dio_contextId dio <> contextId) || bool_decide (dio_resourceId dio <> resourceId)
        || bool_decide (dio_containerId dio <> Some containerId)
        || bool_decide (dio_containerResourceId dio <> Some containerResourceId)
        || bool_decide (dio_creatorUserId dio <> author)
        || negb (TimestampValidator.validate (dio_timestamp dio) date)).

Lemma content_fits_true dio x r c cr a t : content_fits dio x r c cr a t = true <->
  dio_contextId dio = x /\ dio_resourceId dio = r /\ dio_containerId dio = Some c
  /\ dio_containerResourceId dio = Some cr /\ dio_creatorUserId dio = a
  /\ TimestampValidator.validate (dio_timestamp dio) t = true.
Proof.
  unfold content_fits. rewrite negb_true_iff, !orb_false_iff, !bool_decide_ne, negb_false_iff. tauto.
Qed.
End Data.

(** ** Sending *)
Section Send.
Context {C : CryptoService} {E : Ecc} {E0 : Encodings} {D : Dynamic}.
Context `{!KeyFormats PublicKey} `{!KeyEntryJson} `{!HashOrder} `{!ContentJson}.
Context `{!JsonCodec DIOEncryptorV1.DioJson} `{!JsonCodec EncryptionKey}.
Context (_userPrivKey : PrivateKey) (_userVerifier : list VerificationRequest -> outcome (list bool)).
Context (_bridgeIdentity : option BridgeIdentity) {W : Type} `{!ConnectionWorld W}.

Definition encryptContentV5 (containerId resourceId publicMeta privateMeta data : bytes) (keys : ModuleKeys)
    (key : DecryptedEncKeyV2) : ST W Var :=
  dio ← createDIO _userPrivKey _bridgeIdentity (mk_contextId keys) resourceId (Some containerId)
          (Some (mk_moduleResourceId keys));
  e ← on_rng (ContentEncryptorV5.encrypt
         {| in_publicMeta := publicMeta; in_privateMeta := privateMeta; in_data := data; in_internalMeta := None;
            in_dio := dio |} _userPrivKey (k_key key));
  mret (cj5_toJSON e).

(** The key a request is made with; one that failed its checks is refused. *)
Definition usable_current_key (refusal : exn) (keys : ModuleKeys) : outcome DecryptedEncKeyV2 :=
  key ← getAndValidateModuleCurrentEncKey _userPrivKey _userVerifier keys;
  match k_statusCode key with Some _ => Throw refusal | None => mret key end.

(** [try { request(getModuleKeys(id)); } catch (utils::PrivmxException) { ... }]:
    repeated, with the keys the server has now, if the server did not know the
    key. *)
Context (getModuleKeysAndVersionFromServer : bytes -> ST W (ModuleKeys * Z)).

Definition with_newest_keys {A} (unknown_key : Z) (id : bytes) (request : ModuleKeys -> ST W A) : ST W A :=
  try_catch (currentKeys ← getModuleKeys getModuleKeysAndVersionFromServer keyCache set_keyCache id None None;
             request currentKeys)
    (fun e => if bool_decide (e = ServerError unknown_key) then
                newestKeys ← getNewModuleKeysAndUpdateCache getModuleKeysAndVersionFromServer keyCache set_keyCache id;
                request newestKeys
              else throw e).
End Send.

(** ** The interface of an item of structure 5 *)
Class ContentKind {D : Dynamic} (Item Result : Type) := {
  it_data : Item -> Var;
  content_version : Var -> outcome Z;
  content_integrity : exn;
  (** the integrity object is the item's, for a container of the resource id *)
  it_fits : Item -> bytes -> DataIntegrityObject -> bool;
  convertDecrypted : Item -> DecryptedContent -> Result;
}.
Class ContentKindLaws {C : CryptoService} {E : Ecc} {E0 : Encodings} {D : Dynamic} `{!KeyFormats PublicKey}
    `{!JsonCodec DIOEncryptorV1.DioJson} `{!ContentJson} {X : ContentExceptions} (Item Result : Type)
    `{!HasStatus Result} `{!ItemKind Item Result} `{!ContentKind Item Result} : Prop := {
  content_version_5 e : ContentEncryptorV5.version e = 5 -> content_version (Item := Item) (cj5_toJSON e) = Ret 5;
  validate_5 (item : Item) rid : content_version (Item := Item) (it_data item) = Ret 5 ->
    Items.validateDataIntegrity item rid = try_with every_exn (
      e ← cj5_fromJSON (it_data item);
      dio ← ContentEncryptorV5.getDIOAndAssertIntegrity e;
      mret (if it_fits item rid dio then None else Some (content_integrity (Item := Item)))) Some;
  decrypt_5 (item : Item) key : content_version (Item := Item) (it_data item) = Ret 5 ->
    decryptAndConvert item key =
      (d ← decryptContentV5 (it_data item) key; mret (convertDecrypted item d, out_dio d));
  convert_status (item : Item) d : status (convertDecrypted item d) = statusCode d;
  convert_author (item : Item) d : res_authorPubKey (convertDecrypted item d) = out_authorPubKey d;
}.

Section Laws.
Context {C : CryptoService} `{!CryptoLaws C} {E : Ecc} `{!EccLaws E} {E0 : Encodings} `{!EncodingsLaws E0}.
Context {D : Dynamic} `{!KeyFormats PublicKey} `{!KeyFormatsLaws PublicKey}.
Context `{!KeyEntryJson} `{!KeyEntryJsonLaws} `{!HashOrder} `{!ContentJson} `{!ContentJsonLaws}.
Context `{!JsonCodec DIOEncryptorV1.DioJson} `{!JsonCodecLaws DIOEncryptorV1.DioJson}.
Context `{!JsonCodec EncryptionKey} `{!JsonCodecLaws EncryptionKey} {X : ContentExceptions}.
Context {Item Result : Type} `{!HasStatus Result} `{!ItemKind Item Result} `{!ContentKind Item Result}
  `{!ContentKindLaws Item Result}.
Implicit Types (item : Item) (r : Result).

(** The check of a structure-5 item, both ways. *)
Lemma validate_fits item rid e dio : content_version (Item := Item) (it_data item) = Ret 5 ->
  cj5_fromJSON (it_data item) = Ret e -> ContentEncryptorV5.getDIOAndAssertIntegrity e = Ret dio ->
  it_fits item rid dio = true -> Items.validateDataIntegrity item rid = Ret None.
Proof. intros Hv He Hd Hf. rewrite validate_5 by done. unfold_st. by rewrite He, Hd, Hf. Qed.

Lemma validate_inv item rid : content_version (Item := Item) (it_data item) = Ret 5 ->
  Items.validateDataIntegrity item rid = Ret None -> exists e dio, cj5_fromJSON (it_data item) = Ret e
    /\ ContentEncryptorV5.getDIOAndAssertIntegrity e = Ret dio /\ it_fits item rid dio = true.
Proof.
  intros Hv. rewrite validate_5 by done. unfold_st. intros [Hm|(? & ? & _ & _ & [=])]%try_with_inv.
  destruct (cj5_fromJSON (it_data item)) as [e|]; [|done].
  destruct (ContentEncryptorV5.getDIOAndAssertIntegrity e) as [dio|] eqn:Ed; [|done].
  exists e, dio. by destruct (it_fits item rid dio).
Qed.

(** What a structure-5 item converts to without an error status. *)
Lemma decrypt_content_inv item k r dio : content_version (Item := Item) (it_data item) = Ret 5 ->
  decryptAndConvert item k = Ret (r, dio) -> status r = None ->
  exists e d, cj5_fromJSON (it_data item) = Ret e /\ ContentEncryptorV5.decrypt e (k_key k) = Ret d
    /\ k_statusCode k = None /\ statusCode d = None /\ r = convertDecrypted item d /\ dio = out_dio d.
Proof.
  intros Hv. rewrite decrypt_5 by done. unfold_st.
  destruct (decryptContentV5 (it_data item) k) as [d|] eqn:Ed; [|done]. intros [= <- <-]. rewrite convert_status.
  intros Hs. unfold decryptContentV5 in Ed. apply try_with_inv in Ed as [Ed|(? & ? & _ & _ & ->)]; [|done].
  revert Ed. unfold_st. destruct (cj5_fromJSON (it_data item)) as [e|]; [|done].
  destruct (k_statusCode k) eqn:Ek.
  - destruct (ContentEncryptorV5.extractPublic e); [|done]. intros [= <-]. done.
  - intros Ed. by exists e, d.
Qed.

(** What an author sealed for an item, opened with the key. *)
Lemma decrypt_content_sealed item k (c : ContentToEncrypt) author e :
  ContentEncryptorV5.sealed c author (k_key k) e -> it_data item = cj5_toJSON e -> k_statusCode k = None ->
  decryptAndConvert item k = Ret (convertDecrypted item (ContentEncryptorV5.opened c author), in_dio c).
Proof.
  intros Hs Hd Hk. rewrite decrypt_5; cycle 1.
  { rewrite Hd. apply content_version_5.
    exact (ContentEncryptorV5.content_integrity_version _ _ (ContentEncryptorV5.se_dio _ _ _ _ Hs)). }
  unfold_st. unfold decryptContentV5. unfold_st.
  by rewrite Hd, cj5_inv, Hk, (ContentEncryptorV5.content_decrypt_sealed _ _ _ _ Hs).
Qed.

(** Public and private metadata and data, all signed with [p]. *)
Definition signed_content (p : PublicKey) (d : DecryptedContent) : Prop :=
  (exists s, verifyCompactSignatureWithHash p (out_publicMeta d) s = true)
  /\ (exists s, verifyCompactSignatureWithHash p (out_privateMeta d) s = true)
  /\ (exists s, verifyCompactSignatureWithHash p (out_data d) s = true).

(** An item of structure 5 that passed its check and comes back without an
    error status is what the creator of its integrity object signed. *)
Lemma content_item_accepted priv uv item keys r : content_version (Item := Item) (it_data item) = Ret 5 ->
  Items.validateDataIntegrity item (mk_moduleResourceId keys) = Ret None ->
  decryptAndVerifyItem priv uv item keys = Ret r -> status r = None ->
  exists e d k p, cj5_fromJSON (it_data item) = Ret e
    /\ ContentEncryptorV5.getDIOAndAssertIntegrity e = Ret (out_dio d)
    /\ it_fits item (mk_moduleResourceId keys) (out_dio d) = true
    /\ r = set_status None (convertDecrypted item d)
    /\ dio_creatorPubKey (out_dio d) = out_authorPubKey d
    /\ fromBase58DER (out_authorPubKey d) = Ret p /\ signed_content p d
    /\ ContentEncryptorV5.decrypt e (k_key k) = Ret d
    /\ key_opened priv uv (mk_keys keys) (it_keyId item) (item_location item keys) k
    /\ uv [verification_of (it_contextId item) (convertDecrypted item d) (out_dio d)] = Ret [true].
Proof.
  intros Hver Hv Hd Hs. destruct (item_accepted _ _ _ _ _ Hd Hs) as (k & r0 & dio & Hc & Hr & -> & Hu & Hk).
  destruct (decrypt_content_inv item k r0 dio Hver Hc Hr) as (e & d & He & Hdec & Hks & Hds & -> & ->).
  destruct (validate_inv item _ Hver Hv) as (e' & dio & He' & Hdio & Hfit). rewrite He in He'. injection He' as <-.
  destruct (ContentEncryptorV5.content_accepted e (k_key k) d Hdec Hds)
    as (p & x & Hp & Hx & Ho & Hcr & [Hpub _] & [Hpriv _] & [Hdata _] & _).
  destruct (ContentEncryptorV5.integrity_accepts e dio Hdio) as (x' & Hx' & Hxd & _).
  rewrite Hx in Hx'. injection Hx' as <-. assert (dio = out_dio d) as -> by congruence.
  exists e, d, k, p. repeat (split; [assumption || reflexivity|]). split; [by split|].
  split; [exact Hdec|]. split; [exact (Hk Hks)|exact Hu].
Qed.
End Laws.
