(* ===== verification/Kvdbs.v ===== *)
(** * Key-value databases

    The module [endpoint::kvdb] (endpoint/kvdb/src/KvdbApiImpl.cpp): KVDBs are
    containers of structure 5 alone ([Modules]), and their entries are items of
    structure 5 ([Items], [ContentItems]) found by the key they are stored
    under, which is also their resource id. *)

From Stdlib Require Import ZArith Lia Strings.String Strings.Byte.
From stdpp Require Import base list gmap fin_maps.
From S2P Require Import Prelude Bytes CoreTypes Crypto CryptoSuite Dynamic Encryptors Dio FieldData EncKeys ContentData ContainerData KeyProvider Utils StdMap Users Policies Containers Items Modules ContentItems.
Import ModuleBaseApi ModuleApi.

(** [KvdbDataSchema], [KvdbEntryDataSchema] *)
Module KvdbDataSchema.
Definition UNKNOWN : Z := 0.
Definition VERSION_5 : Z := 5.
End KvdbDataSchema.

(** What a KVDB has that other containers have not. *)
Record KvdbExtra := mkKvdbExtra { kv_entries : Z; kv_lastEntryDate : Z }.
Definition Kvdb : Type := Container KvdbExtra.

Section Server.
Context `{!Dynamic}.

Record KvdbInfo := mkKvdbInfo {
  ki_id : bytes;
  ki_resourceId : bytes;
  ki_contextId : bytes;
  ki_createDate : Z;
  ki_creator : bytes;
  ki_lastModificationDate : Z;
  ki_lastModifier : bytes;
  ki_data : list ContainerEntry;
  ki_keyId : bytes;
  ki_users : list bytes;
  ki_managers : list bytes;
  ki_keys : list KeyEntry;
  ki_version : Z;
  ki_type : option bytes;
  ki_policy : option Var;
  ki_entries : Z;
  ki_lastEntryDate : Z;
}.

(** A KVDB always has a resource id. *)
Definition info_of (kvdb : KvdbInfo) : ContainerInfo KvdbExtra := {|
  ct_id := ki_id kvdb; ct_resourceId := Some (ki_resourceId kvdb); ct_contextId := ki_contextId kvdb;
  ct_createDate := ki_createDate kvdb; ct_creator := ki_creator kvdb;
  ct_lastModificationDate := ki_lastModificationDate kvdb; ct_lastModifier := ki_lastModifier kvdb;
  ct_data := ki_data kvdb; ct_keyId := ki_keyId kvdb; ct_users := ki_users kvdb; ct_managers := ki_managers kvdb;
  ct_keys := ki_keys kvdb; ct_version := ki_version kvdb; ct_type := ki_type kvdb; ct_policy := ki_policy kvdb;
  ct_extra := mkKvdbExtra (ki_entries kvdb) (ki_lastEntryDate kvdb) |}.

Record KvdbEntryInfo := mkKvdbEntryInfo {
  ke_kvdbEntryKey : bytes;
  ke_kvdbEntryValue : Var;
  ke_kvdbId : bytes;
  ke_version : Z;
  ke_contextId : bytes;
  ke_createDate : Z;
  ke_author : bytes;
  ke_keyId : bytes;
  ke_lastModificationDate : Z;
  ke_lastModifier : bytes;
}.

Record KvdbEntrySetModel := mkEntrySetModel {
  es_kvdbId : bytes;
  es_kvdbEntryKey : bytes;
  es_kvdbEntryValue : Var;
  es_keyId : bytes;
  es_version : Z;
}.
Record KvdbEntryDeleteStatus := mkDeleteStatus { ds_kvdbEntryKey : bytes; ds_status : bytes }.
End Server.

Record KvdbEntry := mkKvdbEntry {
  e_kvdbId : bytes;
  e_key : bytes;
  e_createDate : Z;
  e_author : bytes;
  e_publicMeta : bytes;
  e_privateMeta : bytes;
  e_data : bytes;
  e_authorPubKey : bytes;
  e_version : Z;
  e_statusCode : option exn;
  e_schemaVersion : Z;
}.

Definition e_set_statusCode (s : option exn) (e : KvdbEntry) : KvdbEntry := {|
  e_kvdbId := e_kvdbId e; e_key := e_key e; e_createDate := e_createDate e; e_author := e_author e;
  e_publicMeta := e_publicMeta e; e_privateMeta := e_privateMeta e; e_data := e_data e;
  e_authorPubKey := e_authorPubKey e; e_version := e_version e; e_statusCode := s;
  e_schemaVersion := e_schemaVersion e |}.

#[export] Instance entry_status : HasStatus KvdbEntry :=
  {| status := e_statusCode; set_status := e_set_statusCode; status_set _ _ := eq_refl |}.

(** The server's operations on KVDBs and entries ([kvdb::ServerApi]). *)
Class KvdbServer {D : Dynamic} (W : Type) := {
  kvdbCreate : CreateModel -> ST W bytes;
  kvdbUpdate : UpdateModel -> ST W unit;
  kvdbDelete : bytes -> ST W unit;
  kvdbGet : bytes -> option bytes -> ST W KvdbInfo;
  kvdbList : bytes -> option bytes -> ListModel -> ST W (list KvdbInfo * Z);
  kvdbEntryGet : bytes -> bytes -> ST W KvdbEntryInfo;
  kvdbEntrySet : KvdbEntrySetModel -> ST W unit;
  kvdbEntryDelete : bytes -> bytes -> ST W unit;
  kvdbEntryDeleteMany : bytes -> list bytes -> ST W (list KvdbEntryDeleteStatus);
  kvdbListKeys : bytes -> ListModel -> ST W (list bytes * Z);
  kvdbListEntries : bytes -> ListModel -> ST W (KvdbInfo * list KvdbEntryInfo * Z);
}.

(** Its KVDBs as containers. *)
#[export] Instance kvdb_containers {D : Dynamic} {W : Type} `{!KvdbServer W} : ContainerServer KvdbExtra W := {|
  server_create := kvdbCreate;
  server_update := kvdbUpdate;
  server_delete := kvdbDelete;
  server_get id type := kvdb ← kvdbGet id type; mret (info_of kvdb);
  server_list contextId type model := '(kvdbs, count) ← kvdbList contextId type model; mret (info_of <$> kvdbs, count) |}.

(** Codes of [core::server]'s exceptions. *)
Definition INVALID_KEY_ID : Z := 0x6015.
Definition KVDB_ENTRY_DOES_NOT_EXIST : Z := 0x613D.

Module KvdbApi.
#[local] Existing Instance EntryDataEncryptorV5.exceptions.
Definition KVDB_TYPE_FILTER_FLAG : bytes := lit "kvdb".

Section Data.
Context {C : CryptoService} {E : Ecc} {E0 : Encodings} {D : Dynamic}.
Context `{!KeyFormats PublicKey} `{!KeyEntryJson} `{!HashOrder} `{!ModuleJson} `{!ContentJson}.
Context `{!JsonCodec DIOEncryptorV1.DioJson} `{!JsonCodec EncryptionKey}.
Context `{!JsonCodec ModuleDataEncryptorV5.ModuleInternalMetaV5}.
Implicit Types (kvdb : KvdbInfo) (entry : KvdbEntryInfo).

(** ** KVDBs *)
Definition getKvdbDataEntryStructureVersion (data : Var) : outcome Z :=
  if is_object data then
    version ← versioned data;
    mret (if bool_decide (version = 5) then KvdbDataSchema.VERSION_5 else KvdbDataSchema.UNKNOWN)
  else mret KvdbDataSchema.UNKNOWN.

Definition convertDecryptedKvdbDataV5ToKvdb (info : ContainerInfo KvdbExtra)
    (d : ModuleDataEncryptorV5.DecryptedModuleDataV5) : outcome Kvdb := convertDecryptedDataV5 info d.

Definition decryptAndConvertKvdbDataToKvdb (info : ContainerInfo KvdbExtra) (kvdbEntry : ContainerEntry)
    (encKey : DecryptedEncKeyV2) : outcome (Kvdb * DataIntegrityObject) :=
  version ← getKvdbDataEntryStructureVersion (en_data kvdbEntry);
  if bool_decide (version = KvdbDataSchema.VERSION_5) then
    d ← decryptModuleDataV5 (en_data kvdbEntry) encKey;
    c ← convertDecryptedKvdbDataV5ToKvdb info d;
    mret (c, ModuleDataEncryptorV5.m5_dio d)
  else
    c ← failed_container info UnknownKvdbFormatException;
    mret (c, empty_dio).

#[export] Instance KvdbKind : ModuleKind KvdbExtra := {|
  entry_version := getKvdbDataEntryStructureVersion;
  unknown_format := UnknownKvdbFormatException;
  data_integrity := KvdbDataIntegrityException;
  key_validation := KvdbEncryptionKeyValidationException;
  decryptAndConvertData := decryptAndConvertKvdbDataToKvdb |}.

Definition assertKvdbDataIntegrity kvdb : outcome unit := assertDataIntegrity (info_of kvdb).
Definition validateKvdbDataIntegrity kvdb : outcome (option exn) := ModuleApi.validateDataIntegrity (info_of kvdb).
Definition kvdbToModuleKeys kvdb : outcome ModuleKeys := moduleToModuleKeys (info_of kvdb).

(** ** Entries *)
Definition getEntryDataStructureVersion (data : Var) : outcome Z :=
  if is_object data then
    version ← versioned data;
    mret (if bool_decide (version = 5) then KvdbDataSchema.VERSION_5 else KvdbDataSchema.UNKNOWN)
  else mret KvdbDataSchema.UNKNOWN.

Definition decryptKvdbEntryDataV5 entry (encKey : DecryptedEncKeyV2) : outcome DecryptedContent :=
  decryptContentV5 (ke_kvdbEntryValue entry) encKey.

Definition convertServerKvdbEntryToLibKvdbEntry entry (publicMeta privateMeta data authorPubKey : bytes)
    (statusCode : option exn) (schemaVersion : Z) : KvdbEntry := {|
  e_kvdbId := ke_kvdbId entry; e_key := ke_kvdbEntryKey entry; e_createDate := ke_createDate entry;
  e_author := ke_author entry; e_publicMeta := publicMeta; e_privateMeta := privateMeta; e_data := data;
  e_authorPubKey := authorPubKey; e_version := ke_version entry; e_statusCode := statusCode;
  e_schemaVersion := schemaVersion |}.

Definition failed_entry entry (code : exn) : KvdbEntry :=
  convertServerKvdbEntryToLibKvdbEntry entry [] [] [] [] (Some code) KvdbDataSchema.UNKNOWN.

Definition convertDecryptedKvdbEntryDataV5ToKvdbEntry entry (d : DecryptedContent) : KvdbEntry :=
  convertServerKvdbEntryToLibKvdbEntry entry (out_publicMeta d) (out_privateMeta d) (out_data d)
    (out_authorPubKey d) (statusCode d) KvdbDataSchema.VERSION_5.

Definition decryptAndConvertEntryDataToEntry entry (encKey : DecryptedEncKeyV2) :
    outcome (KvdbEntry * DataIntegrityObject) :=
  version ← getEntryDataStructureVersion (ke_kvdbEntryValue entry);
  if bool_decide (version = KvdbDataSchema.VERSION_5) then
    d ← decryptKvdbEntryDataV5 entry encKey;
    mret (convertDecryptedKvdbEntryDataV5ToKvdbEntry entry d, out_dio d)
  else mret (failed_entry entry UnknownKvdbEntryFormatException, empty_dio).

(** The integrity object is the last modifier's. *)
Definition entry_fits entry (kvdbResourceId : bytes) (dio : DataIntegrityObject) : bool :=
  content_fits dio (ke_contextId entry) (ke_kvdbEntryKey entry) (ke_kvdbId entry) kvdbResourceId
    (ke_lastModifier entry) (ke_lastModificationDate entry).

Definition validateEntryDataIntegrity entry (kvdbResourceId : bytes) : outcome (option exn) :=
  try_with every_exn (
    version ← getEntryDataStructureVersion (ke_kvdbEntryValue entry);
    if bool_decide (version = KvdbDataSchema.VERSION_5) then
      encData ← cj5_fromJSON (ke_kvdbEntryValue entry);
      dio ← EntryDataEncryptorV5.getDIOAndAssertIntegrity encData;
      mret (if entry_fits entry kvdbResourceId dio then None else Some KvdbEntryDataIntegrityException)
    else mret (Some UnknownKvdbEntryFormatException)) Some.

#[export] Instance EntryKind : ItemKind KvdbEntryInfo KvdbEntry := {|
  it_keyId := ke_keyId;
  it_contextId := ke_contextId;
  res_author := e_author;
  res_authorPubKey := e_authorPubKey;
  res_createDate := e_createDate;
  failed := failed_entry;
  Items.validateDataIntegrity := validateEntryDataIntegrity;
  decryptAndConvert := decryptAndConvertEntryDataToEntry |}.

#[export] Instance EntryContent : ContentKind KvdbEntryInfo KvdbEntry := {|
  it_data := ke_kvdbEntryValue;
  content_version := getEntryDataStructureVersion;
  content_integrity := KvdbEntryDataIntegrityException;
  it_fits := entry_fits;
  convertDecrypted := convertDecryptedKvdbEntryDataV5ToKvdbEntry |}.

Context (_userPrivKey : PrivateKey) (_userVerifier : list VerificationRequest -> outcome (list bool)).

Definition validateDecryptAndConvertKvdbDataToKvdb kvdb : outcome Kvdb :=
  validateDecryptAndConvert _userPrivKey _userVerifier (info_of kvdb).
Definition validateDecryptAndConvertKvdbsDataToKvdbs (kvdbs : list KvdbInfo) : outcome (list Kvdb) :=
  validateDecryptAndConvertAll _userPrivKey _userVerifier (info_of <$> kvdbs).

Definition validateDecryptAndConvertEntryDataToEntry entry (kvdbKeys : ModuleKeys) : outcome KvdbEntry :=
  try_with every_exn (
    statusCode ← validateEntryDataIntegrity entry (mk_moduleResourceId kvdbKeys);
    match statusCode with
    | Some code => mret (failed_entry entry code)
    | None => decryptAndVerifyItem _userPrivKey _userVerifier entry kvdbKeys
    end) (failed_entry entry).

Definition validateDecryptAndConvertKvdbEntriesDataToKvdbEntries (entries : list KvdbEntryInfo) (kvdbKeys : ModuleKeys) :
    outcome (list KvdbEntry) :=
  decryptAndVerifyItems _userPrivKey _userVerifier every_exn entries kvdbKeys.

(** ** Operations *)
Context (_bridgeIdentity : option BridgeIdentity).
Context {W : Type} `{!ConnectionWorld W} `{!KvdbServer W}.

Definition createKvdbEx (contextId : bytes) (users managers : list UserWithPubKey)
    (publicMeta privateMeta type : bytes) (policies : option ContainerPolicy) : ST W bytes :=
  createContainer (X := KvdbExtra) _userPrivKey _bridgeIdentity contextId users managers publicMeta privateMeta type policies.
Definition createKvdb (contextId : bytes) (users managers : list UserWithPubKey) (publicMeta privateMeta : bytes)
    (policies : option ContainerPolicy) : ST W bytes :=
  createKvdbEx contextId users managers publicMeta privateMeta KVDB_TYPE_FILTER_FLAG policies.

Definition updateKvdb (kvdbId : bytes) (users managers : list UserWithPubKey) (publicMeta privateMeta : bytes)
    (version : Z) (force forceGenerateNewKey : bool) (policies : option ContainerPolicy) : ST W unit :=
  updateContainer (X := KvdbExtra) _userPrivKey _userVerifier _bridgeIdentity kvdbId users managers publicMeta
    privateMeta version force forceGenerateNewKey policies.
Definition deleteKvdb (kvdbId : bytes) : ST W unit := deleteContainer (X := KvdbExtra) kvdbId.

Definition getKvdbEx (kvdbId type : bytes) : ST W Kvdb := getContainer _userPrivKey _userVerifier kvdbId type.
Definition getKvdb (kvdbId : bytes) : ST W Kvdb := getKvdbEx kvdbId KVDB_TYPE_FILTER_FLAG.
Definition listKvdbsEx (contextId : bytes) (pagingQuery : PagingQuery) (type : bytes) : ST W (list Kvdb * Z) :=
  listContainers _userPrivKey _userVerifier contextId pagingQuery type.
Definition listKvdbs (contextId : bytes) (pagingQuery : PagingQuery) : ST W (list Kvdb * Z) :=
  listKvdbsEx contextId pagingQuery KVDB_TYPE_FILTER_FLAG.

Definition getModuleKeysAndVersionFromServer (moduleId : bytes) : ST W (ModuleKeys * Z) :=
  ModuleApi.getModuleKeysAndVersionFromServer (X := KvdbExtra) moduleId.
Definition assertKvdbExist (kvdbId : bytes) : ST W unit :=
  _ ← kvdbGet kvdbId None; mret tt.

Definition getModuleKeys (moduleId : bytes) (keyIds : option (gset bytes)) (minimumSchemaVersion : option Z) : ST W ModuleKeys :=
  moduleKeysOf (X := KvdbExtra) moduleId keyIds minimumSchemaVersion.

Definition getEntryDecryptionKeys entry : ST W ModuleKeys :=
  version ← lift (getEntryDataStructureVersion (ke_kvdbEntryValue entry));
  let minimumKvdbSchemaVersion :=
    if bool_decide (version = KvdbDataSchema.VERSION_5) then KvdbDataSchema.VERSION_5 else KvdbDataSchema.UNKNOWN in
  getModuleKeys (ke_kvdbId entry) (Some {[ ke_keyId entry ]}) (Some minimumKvdbSchemaVersion).

Definition getEntry (kvdbId key : bytes) : ST W KvdbEntry :=
  entry ← kvdbEntryGet kvdbId key;
  keys ← getEntryDecryptionKeys entry;
  lift (validateDecryptAndConvertEntryDataToEntry entry keys).

Definition hasEntry (kvdbId key : bytes) : ST W bool :=
  try_catch (_ ← kvdbEntryGet kvdbId key; mret true)
    (fun e => if bool_decide (e = ServerError KVDB_ENTRY_DOES_NOT_EXIST) then mret false else throw e).

Definition listEntriesKeys (kvdbId : bytes) (pagingQuery : PagingQuery) : ST W (list bytes * Z) :=
  model ← lift (map_query pagingQuery);
  kvdbListKeys kvdbId model.

Definition listEntries (kvdbId : bytes) (pagingQuery : PagingQuery) : ST W (list KvdbEntry * Z) :=
  model ← lift (map_query pagingQuery);
  '(kvdb, entries, count) ← kvdbListEntries kvdbId model;
  _ ← lift (assertKvdbDataIntegrity kvdb);
  _ ← remember (info_of kvdb);
  keys ← lift (kvdbToModuleKeys kvdb);
  result ← lift (validateDecryptAndConvertKvdbEntriesDataToKvdbEntries entries keys);
  mret (result, count).

(** Entries are sealed under keys of the current structure alone. *)
Definition encryptEntryData (kvdbId resourceId publicMeta privateMeta data : bytes) (kvdbKeys : ModuleKeys) :
    ST W Var :=
  msgKey ← lift (getAndValidateModuleCurrentEncKey _userPrivKey _userVerifier kvdbKeys);
  if bool_decide (k_dataStructureVersion msgKey = KeyProvider.VERSION_2) then
    encryptContentV5 _userPrivKey _bridgeIdentity kvdbId resourceId publicMeta privateMeta data kvdbKeys msgKey
  else throw UnknownKvdbFormatException.

Definition setEntryRequest (kvdbId key publicMeta privateMeta data : bytes) (version : Z) (keys : ModuleKeys) : ST W unit :=
  msgKey ← lift (usable_current_key _userPrivKey _userVerifier KvdbEncryptionKeyValidationException keys);
  value ← encryptEntryData kvdbId key publicMeta privateMeta data keys;
  kvdbEntrySet (mkEntrySetModel kvdbId key value (k_id msgKey) version).

Definition setEntry (kvdbId key publicMeta privateMeta data : bytes) (version : Z) : ST W unit :=
  with_newest_keys getModuleKeysAndVersionFromServer INVALID_KEY_ID kvdbId
    (setEntryRequest kvdbId key publicMeta privateMeta data version).

Definition deleteEntry (kvdbId key : bytes) : ST W unit := kvdbEntryDelete kvdbId key.

(** [std::map::insert] keeps the first answer about a key. *)
Definition note_deleted (result : gmap bytes bool) (deleteStatus : KvdbEntryDeleteStatus) : gmap bytes bool :=
  match result !! ds_kvdbEntryKey deleteStatus with
  | Some _ => result
  | None => <[ ds_kvdbEntryKey deleteStatus := bool_decide (ds_status deleteStatus = lit "OK") ]> result
  end.
Definition deleteEntries (kvdbId : bytes) (keys : list bytes) : ST W (gmap bytes bool) :=
  deleteStatuses ← kvdbEntryDeleteMany kvdbId keys;
  mret (foldl note_deleted ∅ deleteStatuses).

(** The module's own part of the connection's events. *)
Definition processConnectedEvent : ST W unit := invalidateModuleKeysInCache keyCache set_keyCache None.
Definition processDisconnectedEvent : ST W unit := invalidateModuleKeysInCache keyCache set_keyCache None.
End Data.

Section Laws.
Context {C : CryptoService} `{!CryptoLaws C} {E : Ecc} `{!EccLaws E} {E0 : Encodings} `{!EncodingsLaws E0}.
Context {D : Dynamic} `{!KeyFormats PublicKey} `{!KeyFormatsLaws PublicKey}.
Context `{!KeyEntryJson} `{!KeyEntryJsonLaws} `{!HashOrder} `{!ModuleJson} `{!ModuleJsonLaws}.
Context `{!ContentJson} `{!ContentJsonLaws}.
Context `{!JsonCodec DIOEncryptorV1.DioJson} `{!JsonCodecLaws DIOEncryptorV1.DioJson}.
Context `{!JsonCodec EncryptionKey} `{!JsonCodecLaws EncryptionKey}.
Context `{!JsonCodec ModuleDataEncryptorV5.ModuleInternalMetaV5}.
Implicit Types entry : KvdbEntryInfo.

#[export] Instance KvdbKindLaws : ModuleKindLaws KvdbExtra.
Proof.
  split.
  - intros d Hd. cbn. unfold getKvdbDataEntryStructureVersion. by rewrite mj5_is_object, mj5_versioned, Hd.
  - intros info entry key Hv. cbn in Hv. cbn. unfold decryptAndConvertKvdbDataToKvdb. by rewrite Hv.
Qed.

#[export] Instance EntryContentLaws : ContentKindLaws KvdbEntryInfo KvdbEntry.
Proof.
  split; cbn.
  - intros e He. unfold getEntryDataStructureVersion. by rewrite cj5_is_object, cj5_versioned, He.
  - intros entry rid Hv. unfold validateEntryDataIntegrity. by rewrite Hv.
  - intros entry key Hv. unfold decryptAndConvertEntryDataToEntry. by rewrite Hv.
  - done.
  - done.
Qed.

(** An entry that comes back without an error status has structure 5. *)
Lemma entry_opened priv uv entry keys r :
  validateDecryptAndConvertEntryDataToEntry priv uv entry keys = Ret r -> e_statusCode r = None ->
  getEntryDataStructureVersion (ke_kvdbEntryValue entry) = Ret 5
  /\ validateEntryDataIntegrity entry (mk_moduleResourceId keys) = Ret None
  /\ decryptAndVerifyItem priv uv entry keys = Ret r.
Proof.
  intros [Hm|(? & ? & _ & _ & ->)]%try_with_inv; [|done]. revert Hm. unfold_st.
  destruct (validateEntryDataIntegrity _ _) as [[]|] eqn:Hv; [by intros [= <-]| |done]. intros Hd Hs.
  split; [|done]. apply try_with_inv in Hv as [Hv|(? & ? & _ & _ & [=])]. revert Hv. unfold_st.
  destruct (getEntryDataStructureVersion _) as [v|]; [|done]. case_bool_decide as Hv5; [|done]. by rewrite Hv5.
Qed.

End Laws.
End KvdbApi.
