(* ===== verification/Threads.v ===== *)
(** * Threads

    The containers of [endpoint::thread] (endpoint/thread/src/ThreadApiImpl.cpp):
    the structures a thread's metadata may have, and the thread operations, which
    are [ModuleApi]'s at [ThreadKind]. *)

From Stdlib Require Import ZArith Lia Strings.String Strings.Byte.
From stdpp Require Import base list gmap fin_maps.
From S2P Require Import Prelude Bytes CoreTypes Crypto CryptoSuite Dynamic Encryptors Dio FieldData EncKeys ContainerData KeyProvider Utils StdMap Users Legacy Policies Containers Items Modules.
Import ModuleBaseApi ModuleApi.

Module ThreadDataSchema.
Definition UNKNOWN : Z := 0.
Definition VERSION_1 : Z := 1.
Definition VERSION_4 : Z := 4.
Definition VERSION_5 : Z := 5.
End ThreadDataSchema.

(** What a thread has beside the common fields. *)
Record ThreadExtra := mkThreadExtra { th_lastMsgDate : Z; th_messages : Z }.

Definition ThreadInfo `{!Dynamic} : Type := ContainerInfo ThreadExtra.
Definition Thread : Type := Container ThreadExtra.

(** [dynamic::ThreadDataV1], whose JSON names a status code of its own. *)
Record ThreadDataV1 := mkThreadDataV1 { tv1_title : bytes; tv1_statusCode : Z }.

Module ThreadApi.
Definition THREAD_TYPE_FILTER_FLAG : bytes := lit "thread".

Section Data.
Context {C : CryptoService} {E : Ecc} {E0 : Encodings} {D : Dynamic}.
Context `{!KeyFormats PublicKey} `{!KeyEntryJson} `{!HashOrder} `{!ModuleJson}.
Context `{!JsonCodec DIOEncryptorV1.DioJson} `{!JsonCodec EncryptionKey}.
Context `{!JsonCodec ModuleDataEncryptorV5.ModuleInternalMetaV5} `{!JsonCodec ThreadDataV1}.

Definition getThreadEntryDataStructureVersion (data : Var) : outcome Z :=
  if is_object data then
    version ← versioned data;
    mret (if bool_decide (version = 4) then ThreadDataSchema.VERSION_4
          else if bool_decide (version = 5) then ThreadDataSchema.VERSION_5
          else ThreadDataSchema.UNKNOWN)
  else if is_string data then mret ThreadDataSchema.VERSION_1
  else mret ThreadDataSchema.UNKNOWN.

(** The title and the status: the one the text itself carries, if it opens. *)
Definition decryptThreadV1 (data : Var) (encKey : DecryptedEncKeyV2) : outcome (bytes * option exn) :=
  try_with every_exn (
    text ← string_of data;
    d ← DataEncryptor.decrypt (T := ThreadDataV1) text (k_key encKey);
    mret (tv1_title d, code_status (tv1_statusCode d)))
  (fun code => ([], Some code)).

Definition convertThreadDataV1ToThread (info : ThreadInfo) (d : bytes * option exn) : outcome Thread :=
  let privateMeta := set_field (new_object []) (lit "title") (of_string d.1) in
  convertServerToLib info [] (stringify privateMeta) d.2 ThreadDataSchema.VERSION_1.

Definition decryptAndConvertThreadDataToThread (thread : ThreadInfo) (threadEntry : ContainerEntry)
    (encKey : DecryptedEncKeyV2) : outcome (Thread * DataIntegrityObject) :=
  version ← getThreadEntryDataStructureVersion (en_data threadEntry);
  if bool_decide (version = ThreadDataSchema.VERSION_1) then
    d ← decryptThreadV1 (en_data threadEntry) encKey;
    t ← convertThreadDataV1ToThread thread d;
    mret (t, made_up_dio thread [])
  else if bool_decide (version = ThreadDataSchema.VERSION_4) then
    d ← decryptModuleDataV4 (en_data threadEntry) encKey;
    t ← convertDecryptedDataV4 thread d;
    mret (t, made_up_dio thread (ModuleDataEncryptorV4.m4_authorPubKey d))
  else if bool_decide (version = ThreadDataSchema.VERSION_5) then
    d ← decryptModuleDataV5 (en_data threadEntry) encKey;
    t ← convertDecryptedDataV5 thread d;
    mret (t, ModuleDataEncryptorV5.m5_dio d)
  else
    t ← failed_container thread UnknowThreadFormatException;
    mret (t, empty_dio).

#[export] Instance ThreadKind : ModuleKind ThreadExtra := {|
  entry_version := getThreadEntryDataStructureVersion;
  unknown_format := UnknowThreadFormatException;
  data_integrity := ThreadDataIntegrityException;
  key_validation := ThreadEncryptionKeyValidationException;
  decryptAndConvertData := decryptAndConvertThreadDataToThread |}.

(** The common operations, at threads. *)
Context (_userPrivKey : PrivateKey) (_userVerifier : list VerificationRequest -> outcome (list bool)).
Context (_bridgeIdentity : option BridgeIdentity).

Definition assertThreadDataIntegrity (thread : ThreadInfo) : outcome unit := assertDataIntegrity thread.
Definition validateThreadDataIntegrity (thread : ThreadInfo) : outcome (option exn) :=
  ModuleApi.validateDataIntegrity thread.
Definition threadToModuleKeys (thread : ThreadInfo) : outcome ModuleKeys := moduleToModuleKeys thread.
Definition validateDecryptAndConvertThreadDataToThread (thread : ThreadInfo) : outcome Thread :=
  validateDecryptAndConvert _userPrivKey _userVerifier thread.
Definition validateDecryptAndConvertThreadsDataToThreads (threads : list ThreadInfo) : outcome (list Thread) :=
  validateDecryptAndConvertAll _userPrivKey _userVerifier threads.

Context {W : Type} `{!ConnectionWorld W} `{!ContainerServer ThreadExtra W}.

Definition _createThreadEx (contextId : bytes) (users managers : list UserWithPubKey)
    (publicMeta privateMeta type : bytes) (policies : option ContainerPolicy) : ST W bytes :=
  createContainer (X := ThreadExtra) _userPrivKey _bridgeIdentity contextId users managers publicMeta privateMeta type policies.
Definition createThread (contextId : bytes) (users managers : list UserWithPubKey) (publicMeta privateMeta : bytes)
    (policies : option ContainerPolicy) : ST W bytes :=
  _createThreadEx contextId users managers publicMeta privateMeta THREAD_TYPE_FILTER_FLAG policies.
Definition createThreadEx (contextId : bytes) (users managers : list UserWithPubKey)
    (publicMeta privateMeta type : bytes) (policies : option ContainerPolicy) : ST W bytes :=
  _createThreadEx contextId users managers publicMeta privateMeta type policies.

Definition updateThread (threadId : bytes) (users managers : list UserWithPubKey) (publicMeta privateMeta : bytes)
    (version : Z) (force forceGenerateNewKey : bool) (policies : option ContainerPolicy) : ST W unit :=
  updateContainer (X := ThreadExtra) _userPrivKey _userVerifier _bridgeIdentity threadId users managers publicMeta
    privateMeta version force forceGenerateNewKey policies.
Definition deleteThread (threadId : bytes) : ST W unit := deleteContainer (X := ThreadExtra) threadId.

Definition _getThreadEx (threadId type : bytes) : ST W Thread := getContainer _userPrivKey _userVerifier threadId type.
Definition getThread (threadId : bytes) : ST W Thread := _getThreadEx threadId THREAD_TYPE_FILTER_FLAG.
Definition getThreadEx (threadId type : bytes) : ST W Thread := _getThreadEx threadId type.

Definition _listThreadsEx (contextId : bytes) (pagingQuery : PagingQuery) (type : bytes) : ST W (list Thread * Z) :=
  listContainers _userPrivKey _userVerifier contextId pagingQuery type.
Definition listThreads (contextId : bytes) (pagingQuery : PagingQuery) : ST W (list Thread * Z) :=
  _listThreadsEx contextId pagingQuery THREAD_TYPE_FILTER_FLAG.
Definition listThreadsEx (contextId : bytes) (pagingQuery : PagingQuery) (type : bytes) : ST W (list Thread * Z) :=
  _listThreadsEx contextId pagingQuery type.

Definition getModuleKeysAndVersionFromServer (moduleId : bytes) : ST W (ModuleKeys * Z) :=
  ModuleApi.getModuleKeysAndVersionFromServer (X := ThreadExtra) moduleId.
Definition assertThreadExist (threadId : bytes) : ST W unit :=
  _ ← server_get (X := ThreadExtra) threadId None; mret tt.

(** [processConnectedEvent], and the part of [processDisconnectedEvent] that is
    the module's own. *)
Definition processConnectedEvent : ST W unit := invalidateModuleKeysInCache keyCache set_keyCache None.
Definition processDisconnectedEvent : ST W unit := invalidateModuleKeysInCache keyCache set_keyCache None.
End Data.

Section Laws.
Context {C : CryptoService} {E : Ecc} {E0 : Encodings} {D : Dynamic}.
Context `{!KeyFormats PublicKey} `{!KeyEntryJson} `{!KeyEntryJsonLaws} `{!HashOrder} `{!ModuleJson} `{!ModuleJsonLaws}.
Context `{!JsonCodec DIOEncryptorV1.DioJson} `{!JsonCodec EncryptionKey}.
Context `{!JsonCodec ModuleDataEncryptorV5.ModuleInternalMetaV5} `{!JsonCodec ThreadDataV1}.

#[export] Instance ThreadKindLaws : ModuleKindLaws ThreadExtra.
Proof.
  split.
  - intros d Hd. cbn. unfold getThreadEntryDataStructureVersion. rewrite mj5_is_object, mj5_versioned, Hd. by vm_compute.
  - intros info entry key Hv. cbn in Hv. cbn. unfold decryptAndConvertThreadDataToThread. by rewrite Hv.
Qed.
End Laws.
End ThreadApi.
