(* ===== verification/Stores.v ===== *)
(** * Stores

    The containers of [endpoint::store] (endpoint/store/src/StoreApiImpl.cpp):
    [ModuleApi]'s operations at [StoreKind], but that one store's conversion
    catches every exception and gives a store with its code instead. *)

From Stdlib Require Import ZArith Lia Strings.String Strings.Byte.
From stdpp Require Import base list gmap fin_maps.
From S2P Require Import Prelude Bytes CoreTypes Crypto CryptoSuite Dynamic Encryptors Dio FieldData EncKeys ContainerData KeyProvider Utils StdMap Users Legacy Policies Containers Items Modules.
Import ModuleBaseApi ModuleApi.

Module StoreDataSchema.
Definition UNKNOWN : Z := 0.
Definition VERSION_1 : Z := 1.
Definition VERSION_4 : Z := 4.
Definition VERSION_5 : Z := 5.
End StoreDataSchema.

(** What a store has beside the common fields. *)
Record StoreExtra := mkStoreExtra { st_lastFileDate : Z; st_files : Z }.

Definition StoreInfo `{!Dynamic} : Type := ContainerInfo StoreExtra.
Definition Store : Type := Container StoreExtra.

(** [dynamic::compat_v1::StoreData] *)
Record StoreData := mkStoreData { sd_name : bytes; sd_statusCode : Z }.

Module StoreApi.
Definition STORE_TYPE_FILTER_FLAG : bytes := lit "store".

Section Data.
Context {C : CryptoService} {E : Ecc} {E0 : Encodings} {D : Dynamic}.
Context `{!KeyFormats PublicKey} `{!KeyEntryJson} `{!HashOrder} `{!ModuleJson}.
Context `{!JsonCodec DIOEncryptorV1.DioJson} `{!JsonCodec EncryptionKey}.
Context `{!JsonCodec ModuleDataEncryptorV5.ModuleInternalMetaV5} `{!JsonCodec StoreData}.

Definition getStoreEntryDataStructureVersion (data : Var) : outcome Z :=
  if is_object data then
    version ← versioned data;
    mret (if bool_decide (version = 4) then StoreDataSchema.VERSION_4
          else if bool_decide (version = 5) then StoreDataSchema.VERSION_5
          else StoreDataSchema.UNKNOWN)
  else if is_string data then mret StoreDataSchema.VERSION_1
  else mret StoreDataSchema.UNKNOWN.

(** The title and the status: the one the text itself carries, if it opens. *)
Definition decryptStoreV1 (data : Var) (encKey : DecryptedEncKeyV2) : outcome (bytes * option exn) :=
  try_with every_exn (
    text ← string_of data;
    d ← DataEncryptor.decrypt (T := StoreData) text (k_key encKey);
    mret (sd_name d, code_status (sd_statusCode d)))
  (fun code => ([], Some code)).

Definition convertStoreDataV1ToStore (info : StoreInfo) (d : bytes * option exn) : outcome Store :=
  let privateMeta := set_field (new_object []) (lit "title") (of_string d.1) in
  convertServerToLib info [] (stringify privateMeta) d.2 StoreDataSchema.VERSION_1.

Definition decryptAndConvertStoreDataToStore (store : StoreInfo) (storeEntry : ContainerEntry)
    (encKey : DecryptedEncKeyV2) : outcome (Store * DataIntegrityObject) :=
  version ← getStoreEntryDataStructureVersion (en_data storeEntry);
  if bool_decide (version = StoreDataSchema.VERSION_1) then
    d ← decryptStoreV1 (en_data storeEntry) encKey;
    t ← convertStoreDataV1ToStore store d;
    mret (t, made_up_dio store [])
  else if bool_decide (version = StoreDataSchema.VERSION_4) then
    d ← decryptModuleDataV4 (en_data storeEntry) encKey;
    t ← convertDecryptedDataV4 store d;
    mret (t, made_up_dio store (ModuleDataEncryptorV4.m4_authorPubKey d))
  else if bool_decide (version = StoreDataSchema.VERSION_5) then
    d ← decryptModuleDataV5 (en_data storeEntry) encKey;
    t ← convertDecryptedDataV5 store d;
    mret (t, ModuleDataEncryptorV5.m5_dio d)
  else
    t ← failed_container store UnknowStoreFormatException;
    mret (t, empty_dio).

#[export] Instance StoreKind : ModuleKind StoreExtra := {|
  entry_version := getStoreEntryDataStructureVersion;
  unknown_format := UnknowStoreFormatException;
  data_integrity := StoreDataIntegrityException;
  key_validation := StoreEncryptionKeyValidationException;
  decryptAndConvertData := decryptAndConvertStoreDataToStore |}.

(** The common operations, at stores. *)
Context (_userPrivKey : PrivateKey) (_userVerifier : list VerificationRequest -> outcome (list bool)).
Context (_bridgeIdentity : option BridgeIdentity).

Definition assertStoreDataIntegrity (store : StoreInfo) : outcome unit := assertDataIntegrity store.
Definition validateStoreDataIntegrity (store : StoreInfo) : outcome (option exn) :=
  ModuleApi.validateDataIntegrity store.
Definition storeToModuleKeys (store : StoreInfo) : outcome ModuleKeys := moduleToModuleKeys store.
Definition validateDecryptAndConvertStoreDataToStore (store : StoreInfo) : outcome Store :=
  try_or every_exn (validateDecryptAndConvert _userPrivKey _userVerifier store) (failed_container store).
Definition validateDecryptAndConvertStoresDataToStores (stores : list StoreInfo) : outcome (list Store) :=
  validateDecryptAndConvertAll _userPrivKey _userVerifier stores.

Context {W : Type} `{!ConnectionWorld W} `{!ContainerServer StoreExtra W}.

Definition _storeCreateEx (contextId : bytes) (users managers : list UserWithPubKey)
    (publicMeta privateMeta type : bytes) (policies : option ContainerPolicy) : ST W bytes :=
  createContainer (X := StoreExtra) _userPrivKey _bridgeIdentity contextId users managers publicMeta privateMeta type policies.
Definition createStore (contextId : bytes) (users managers : list UserWithPubKey) (publicMeta privateMeta : bytes)
    (policies : option ContainerPolicy) : ST W bytes :=
  _storeCreateEx contextId users managers publicMeta privateMeta STORE_TYPE_FILTER_FLAG policies.
Definition createStoreEx (contextId : bytes) (users managers : list UserWithPubKey)
    (publicMeta privateMeta type : bytes) (policies : option ContainerPolicy) : ST W bytes :=
  _storeCreateEx contextId users managers publicMeta privateMeta type policies.

Definition updateStore (storeId : bytes) (users managers : list UserWithPubKey) (publicMeta privateMeta : bytes)
    (version : Z) (force forceGenerateNewKey : bool) (policies : option ContainerPolicy) : ST W unit :=
  updateContainer (X := StoreExtra) _userPrivKey _userVerifier _bridgeIdentity storeId users managers publicMeta
    privateMeta version force forceGenerateNewKey policies.
Definition deleteStore (storeId : bytes) : ST W unit := deleteContainer (X := StoreExtra) storeId.

Definition _storeGetEx (storeId type : bytes) : ST W Store :=
  store ← server_get storeId (some_type type);
  _ ← remember store;
  lift (validateDecryptAndConvertStoreDataToStore store).
Definition getStore (storeId : bytes) : ST W Store := _storeGetEx storeId STORE_TYPE_FILTER_FLAG.
Definition getStoreEx (storeId type : bytes) : ST W Store := _storeGetEx storeId type.

Definition _storeListEx (contextId : bytes) (pagingQuery : PagingQuery) (type : bytes) : ST W (list Store * Z) :=
  listContainers _userPrivKey _userVerifier contextId pagingQuery type.
Definition listStores (contextId : bytes) (pagingQuery : PagingQuery) : ST W (list Store * Z) :=
  _storeListEx contextId pagingQuery STORE_TYPE_FILTER_FLAG.
Definition listStoresEx (contextId : bytes) (pagingQuery : PagingQuery) (type : bytes) : ST W (list Store * Z) :=
  _storeListEx contextId pagingQuery type.

Definition getModuleKeysAndVersionFromServer (moduleId : bytes) : ST W (ModuleKeys * Z) :=
  ModuleApi.getModuleKeysAndVersionFromServer (X := StoreExtra) moduleId.
Definition assertStoreExist (storeId : bytes) : ST W unit :=
  _ ← server_get (X := StoreExtra) storeId None; mret tt.

(** [processConnectedEvent], and the part of [processDisconnectedEvent] that is
    the module's own. *)
Definition processConnectedEvent : ST W unit := invalidateModuleKeysInCache keyCache set_keyCache None.
Definition processDisconnectedEvent : ST W unit := invalidateModuleKeysInCache keyCache set_keyCache None.
End Data.

(** [usersWithPubKeyToIds] *)
Definition usersWithPubKeyToIds (users : list UserWithPubKey) : list bytes := u_userId <$> users.

Section Laws.
Context {C : CryptoService} {E : Ecc} {E0 : Encodings} {D : Dynamic}.
Context `{!KeyFormats PublicKey} `{!KeyEntryJson} `{!KeyEntryJsonLaws} `{!HashOrder} `{!ModuleJson} `{!ModuleJsonLaws}.
Context `{!JsonCodec DIOEncryptorV1.DioJson} `{!JsonCodec EncryptionKey}.
Context `{!JsonCodec ModuleDataEncryptorV5.ModuleInternalMetaV5} `{!JsonCodec StoreData}.

#[export] Instance StoreKindLaws : ModuleKindLaws StoreExtra.
Proof.
  split.
  - intros d Hd. cbn. unfold getStoreEntryDataStructureVersion. rewrite mj5_is_object, mj5_versioned, Hd. by vm_compute.
  - intros info entry key Hv. cbn in Hv. cbn. unfold decryptAndConvertStoreDataToStore. by rewrite Hv.
Qed.

(** A store whose conversion returns is what every module makes of it; if it
    throws, the store comes back with the code, unless its policy is the
    reason. *)
Lemma convert_store_ret u uv info c : validateDecryptAndConvert u uv info = Ret c ->
  validateDecryptAndConvertStoreDataToStore u uv info = Ret c.
Proof. unfold validateDecryptAndConvertStoreDataToStore. by intros ->. Qed.

Lemma convert_store_total u uv info p : Factory.parsePolicyServerObject (ct_policy info) = Ret p ->
  validateDecryptAndConvert u uv info <> Throw UndefinedBehaviour ->
  exists c, validateDecryptAndConvertStoreDataToStore u uv info = Ret c.
Proof.
  intros Hp Hub. unfold validateDecryptAndConvertStoreDataToStore.
  destruct (validateDecryptAndConvert u uv info) as [c|e] eqn:Ev; [by exists c|].
  exists (cl_set_statusCode (Some (status_of e)) {| cl_contextId := ct_contextId info; cl_id := ct_id info;
    cl_createDate := ct_createDate info; cl_creator := ct_creator info;
    cl_lastModificationDate := ct_lastModificationDate info; cl_lastModifier := ct_lastModifier info;
    cl_users := ct_users info; cl_managers := ct_managers info; cl_version := ct_version info; cl_publicMeta := [];
    cl_privateMeta := []; cl_policy := p; cl_statusCode := None; cl_schemaVersion := 0; cl_extra := ct_extra info |}).
  unfold try_or, failed_container, convertServerToLib. unfold_st. rewrite Hp. cbn [every_exn].
  by destruct e.
Qed.
End Laws.
End StoreApi.
