(* ===== verification/Files.v ===== *)
(** * Files of a store

    The files of [endpoint::store] as the server lists them
    (endpoint/store/src/StoreApiImpl.cpp): the three structures a file's metadata
    may have, its integrity check, its decryption and conversion, and the
    parameters a file is opened with.  [FileMetaEncryptor] is the reading half of
    endpoint/store/src/encryptors/file/FileMetaEncryptor.cpp (FileMetaData has the
    other), and [FileMetaEncryptorV1] the encryptor of the first structure. *)

From Stdlib Require Import ZArith Lia Strings.String Strings.Byte.
From stdpp Require Import base list gmap fin_maps.
From S2P Require Import Prelude Bytes ExceptionCodes CoreTypes Crypto CryptoSuite Dynamic Encryptors Dio FieldData FileMetaData EncKeys ContainerData KeyProvider ChunkReader FileHandler Utils StdMap Users Legacy Policies Containers Items Modules ContentItems Stores.
Import ModuleBaseApi ModuleApi StoreApi.

Module FileKeyIdFormatValidator.
Definition isKeyIdFormatValid (keyId : bytes) : bool := KeyIdFormatValidator.hasDefaultKeyIdFormat keyId.
Definition assertKeyIdFormat (keyId : bytes) : outcome unit :=
  if isKeyIdFormatValid keyId then mret tt else Throw StoreIncorrectKeyIdFormatException.
End FileKeyIdFormatValidator.

Module FileDataSchema.
Definition UNKNOWN : Z := 0.
Definition VERSION_1 : Z := 1.
Definition VERSION_4 : Z := 4.
Definition VERSION_5 : Z := 5.
End FileDataSchema.

(** ** Server and library files *)
Section Server.
Context `{!Dynamic}.

(** [server::File]; nothing reads its thumb. *)
Record ServerFile := mkServerFile {
  sf_id : bytes;
  sf_resourceId : bytes;
  sf_version : Z;
  sf_contextId : bytes;
  sf_storeId : bytes;
  sf_created : Z;
  sf_creator : bytes;
  sf_lastModificationDate : Z;
  sf_lastModifier : bytes;
  sf_meta : Var;
  sf_size : Z;
  sf_keyId : bytes;
}.
End Server.

Record File := mkFile {
  f_storeId : bytes;
  f_fileId : bytes;
  f_createDate : Z;
  f_author : bytes;
  f_publicMeta : bytes;
  f_privateMeta : bytes;
  f_size : Z;
  f_authorPubKey : bytes;
  f_statusCode : option exn;
  f_schemaVersion : Z;
  f_randomWrite : bool;
}.

Definition f_set_statusCode (s : option exn) (f : File) : File := {|
  f_storeId := f_storeId f; f_fileId := f_fileId f; f_createDate := f_createDate f; f_author := f_author f;
  f_publicMeta := f_publicMeta f; f_privateMeta := f_privateMeta f; f_size := f_size f;
  f_authorPubKey := f_authorPubKey f; f_statusCode := s; f_schemaVersion := f_schemaVersion f;
  f_randomWrite := f_randomWrite f |}.

#[export] Instance file_status : HasStatus File :=
  {| status := f_statusCode; set_status := f_set_statusCode; status_set _ _ := eq_refl |}.

(** ** The first structure

    [compat_v1::StoreMeta] and what [StoreFileMeta] adds. *)
Record StoreMeta := mkStoreMeta {
  v1_mimetype : bytes;
  v1_size : Z;
  v1_cipherType : Z;
  v1_chunkSize : Z;
  v1_key : bytes;
  v1_hmac : bytes;
  v1_statusCode : Z;
}.

Record StoreFileMetaDestination := mkFileDestination {
  fdest_server : bytes;
  fdest_contextId : bytes;
  fdest_storeId : bytes;
  fdest_store : bytes;
}.

Record StoreFileMeta := mkStoreFileMeta {
  v1_meta : StoreMeta;
  v1_ver : Z;
  v1_name : bytes;
  v1_author_pubKey : bytes;
  v1_destination : StoreFileMetaDestination;
  v1_thumb : option StoreMeta;
}.

(** [StoreFileMeta{}], and one with a status code. *)
Definition empty_store_meta (code : Z) : StoreMeta := mkStoreMeta [] 0 0 0 [] [] code.
Definition empty_v1 (code : Z) : StoreFileMeta :=
  mkStoreFileMeta (empty_store_meta code) 0 [] [] (mkFileDestination [] [] [] []) None.

Record FileMetaSigned := mkFileMetaSigned {
  fs_meta : StoreFileMeta;
  fs_metaBuf : bytes;
  fs_signature : bytes;
}.

Module FileMetaEncryptorV1.
Section V1.
Context `{Ecc} `{!Encodings} `{!JsonCodec StoreFileMeta}.

Definition signAndEncrypt (data : StoreFileMeta) (priv : PrivateKey) (key : bytes) : ST rng bytes :=
  let buffer := serialize data in
  let signature := signToCompactSignatureWithHash priv buffer in
  let plain := [x01] ++ [byte_of (zlen signature)] ++ signature ++ buffer in
  cipher ← CryptoPrivmx.privmxEncrypt CryptoPrivmx.privmxOptAesWithSignature plain key [];
  mret (base64_from cipher).

(** A text that starts with neither byte gives the object as it was declared:
    its numbers have no value (0 here). *)
Definition decrypt (data key : bytes) : outcome FileMetaSigned :=
  d ← base64_to data;
  plain ← CryptoPrivmx.privmxDecrypt true d key [] 16;
  if bool_decide (CipherSuite.byte_at_0 plain = x01) then
    let sigLen := byte_val (CipherSuite.byte_at_0 (zdrop 1 plain)) in
    signature ← substr plain 2 sigLen;
    metaBuf ← substr_from plain (2 + sigLen);
    meta ← deserialize metaBuf;
    mret (mkFileMetaSigned meta metaBuf signature)
  else if bool_decide (CipherSuite.byte_at_0 plain = byte_of 123) then
    meta ← deserialize plain;
    mret (mkFileMetaSigned meta [] [])
  else mret (mkFileMetaSigned (empty_v1 0) [] []).
End V1.

Section Laws.
Context {C : CryptoService} `{!CryptoLaws C} {E : Ecc} `{!EccLaws E} {E0 : Encodings} `{!EncodingsLaws E0}.
Context `{!JsonCodec StoreFileMeta} `{!JsonCodecLaws StoreFileMeta}.

(** It is the layout of [core::DataEncryptor], and opens as that does. *)
Lemma v1_opens m k key g : zlen key = 32 -> zlen (serialize m) < 2 ^ 63 ->
  exists c g', signAndEncrypt m k key g = (Ret c, g')
    /\ decrypt c key = Ret (mkFileMetaSigned m (serialize m) (signToCompactSignatureWithHash k (serialize m))).
Proof.
  intros Hk Hm. destruct (DataEncryptor.signed_opens m k key g Hk Hm) as (c & g' & Hs & Ho & _).
  exists (base64_from c), g'. split; [exact Hs|]. revert Ho. unfold decrypt, DataEncryptor.decryptAndGetSign, DataEncryptorUtil.extractSignAndDataBuff.
  unfold_st. rewrite base64_inv. destruct (CryptoPrivmx.privmxDecrypt _ _ _ _ _) as [plain|]; [|done].
  case_bool_decide; [|done]. destruct (substr plain _ _) as [s|]; [|done]. destruct (substr_from plain _) as [b|]; [|done].
  destruct (deserialize b) as [x|]; [|done]. by intros [= -> -> ->].
Qed.
End Laws.
End FileMetaEncryptorV1.

(** The key as [FileHandler] keeps it. *)
Definition handler_key (k : DecryptedEncKeyV2) : DecryptedEncKey :=
  mkDecryptedEncKey (mkEncKey (k_id k) (k_key k)) (k_dataStructureVersion k)
    (match k_statusCode k with Some e => getCode e | None => 0 end).

(** [FileEncryptionParams] *)
Record FileEncryptionParams := mkEncryptionParams {
  fep_fileMeta : FileMeta;
  fep_fileDecryptionParams : FileDecryptionParams;
  fep_encKey : DecryptedEncKeyV2;
}.

(** What [verifyFileV1Signature] answers. *)
Inductive Verified := no_signature | invalid | verified.

Module FileApi.
Section Data.
Context {C : CryptoService} {E : Ecc} {E0 : Encodings} {D : Dynamic}.
Context `{!KeyFormats PublicKey} `{!KeyEntryJson} `{!HashOrder} `{!FileJson}.
Context `{!JsonCodec DIOEncryptorV1.DioJson} `{!JsonCodec EncryptionKey}.
Context `{!JsonCodec StoreFileMeta} `{!JsonCodec InternalStoreFileMeta}.
Implicit Types file : ServerFile.

(** ** The structure of a file's metadata *)
Definition meta_version (meta : Var) : outcome Z :=
  if is_object meta then
    version ← versioned meta;
    mret (if bool_decide (version = FileDataSchema.VERSION_4) then FileDataSchema.VERSION_4
          else if bool_decide (version = FileDataSchema.VERSION_5) then FileDataSchema.VERSION_5
          else FileDataSchema.UNKNOWN)
  else if is_string meta then mret FileDataSchema.VERSION_1
  else mret FileDataSchema.UNKNOWN.

Definition getFileDataStructureVersion file : outcome Z := meta_version (sf_meta file).

(** ** Decryption *)
Context (_host : bytes).

(** It compares the store of the signed destination with the file's own id. *)
Definition verifyFileV1Signature (meta : FileMetaSigned) file : outcome Verified :=
  let m := fs_meta meta in
  let dest := v1_destination m in
  try_with every_exn (
    if bool_decide (fs_signature meta = []) || bool_decide (v1_author_pubKey m = [])
       || bool_decide (fdest_server dest = []) then mret no_signature
    else if bool_decide (fdest_server dest <> _host) then mret invalid
    else
      let storeIdOrStore := if bool_decide (fdest_storeId dest = []) then fdest_store dest else fdest_storeId dest in
      if bool_decide (storeIdOrStore <> sf_id file) then mret invalid
      else
        pubKey ← fromBase58DER (v1_author_pubKey m);
        mret (if verifyCompactSignatureWithHash pubKey (fs_metaBuf meta) (fs_signature meta) then verified else invalid))
  (fun _ => invalid).

Definition decryptAndVerifyFileV1 (filesKey : bytes) file : outcome (StoreFileMeta * Verified) :=
  text ← string_of (sf_meta file);
  fileMetaSigned ← FileMetaEncryptorV1.decrypt text filesKey;
  v ← verifyFileV1Signature fileMetaSigned file;
  mret (fs_meta fileMetaSigned, v).

(** The metadata with its status, which the metadata's own field repeats. *)
Definition decryptStoreFileV1 file (encKey : DecryptedEncKeyV2) : outcome (StoreFileMeta * option exn * Verified) :=
  try_with every_exn (
    '(meta, v) ← decryptAndVerifyFileV1 (k_key encKey) file;
    mret (meta, code_status (v1_statusCode (v1_meta meta)), v))
  (fun code => (empty_v1 (getCode code), Some code, invalid)).

Definition decryptFileMetaV4 file (encKey : DecryptedEncKeyV2) : outcome FileMetaEncryptorV4.DecryptedFileMetaV4 :=
  try_with every_exn (
    encryptedFileMeta ← file4_fromJSON (sf_meta file);
    FileMetaEncryptorV4.decrypt encryptedFileMeta (k_key encKey))
  (fun code => FileMetaEncryptorV4.set_statusCode (Some code) FileMetaEncryptorV4.fresh).

Definition decryptFileMetaV5 file (encKey : DecryptedEncKeyV2) : outcome FileMetaEncryptorV5.DecryptedFileMetaV5 :=
  try_with every_exn (
    encryptedFileMeta ← file5_fromJSON (sf_meta file);
    match k_statusCode encKey with
    | Some code => tmp ← FileMetaEncryptorV5.extractPublic encryptedFileMeta;
                   mret (FileMetaEncryptorV5.set_statusCode (Some code) tmp)
    | None => FileMetaEncryptorV5.decrypt encryptedFileMeta (k_key encKey)
    end)
  (fun code => FileMetaEncryptorV5.set_statusCode (Some code) FileMetaEncryptorV5.fresh).

(** ** Conversion *)
Definition convertServerFileToLibFile file (publicMeta privateMeta : bytes) (size : Z) (authorPubKey : bytes)
    (statusCode : option exn) (schemaVersion : Z) (randomWrite : bool) : File := {|
  f_storeId := sf_storeId file; f_fileId := sf_id file; f_createDate := sf_created file; f_author := sf_creator file;
  f_publicMeta := publicMeta; f_privateMeta := privateMeta; f_size := size; f_authorPubKey := authorPubKey;
  f_statusCode := statusCode; f_schemaVersion := schemaVersion; f_randomWrite := randomWrite |}.

Definition failed_file file (code : exn) : File :=
  convertServerFileToLibFile file [] [] 0 [] (Some code) FileDataSchema.UNKNOWN false.

Definition convertStoreFileMetaV1ToFile file (d : StoreFileMeta * option exn) : File :=
  convertServerFileToLibFile file [] (serialize d.1) (v1_size (v1_meta d.1)) (v1_author_pubKey d.1) d.2
    FileDataSchema.VERSION_1 false.

(** What the internal metadata gives the file, and the status that its
    deserialisation leaves. *)
Definition internal_of (internalMeta : bytes) : outcome (option InternalStoreFileMeta * option exn) :=
  try_with every_exn (m ← deserialize internalMeta; mret (Some m, None)) (fun code => (None, Some code)).

Definition random_write (m : option InternalStoreFileMeta) : bool :=
  match m with Some m => default false (im_randomWrite m) | None => false end.

(** Of structure 4 the status of the deserialisation is computed and not used. *)
Definition convertDecryptedFileMetaV4ToFile file (d : FileMetaEncryptorV4.DecryptedFileMetaV4) : outcome File :=
  '(m, _) ← match FileMetaEncryptorV4.f4_statusCode d with
            | None => internal_of (FileMetaEncryptorV4.f4_internalMeta d)
            | Some code => mret (None, Some code)
            end;
  mret (convertServerFileToLibFile file (FileMetaEncryptorV4.f4_publicMeta d) (FileMetaEncryptorV4.f4_privateMeta d)
    (FileMetaEncryptorV4.f4_fileSize d) (FileMetaEncryptorV4.f4_authorPubKey d) (FileMetaEncryptorV4.f4_statusCode d)
    FileDataSchema.VERSION_4 (random_write m)).

Definition convertDecryptedFileMetaV5ToFile file (d : FileMetaEncryptorV5.DecryptedFileMetaV5) : outcome File :=
  '(m, statusCode) ← match FileMetaEncryptorV5.f5_statusCode d with
            | None => internal_of (FileMetaEncryptorV5.f5_internalMeta d)
            | Some code => mret (None, Some code)
            end;
  mret (convertServerFileToLibFile file (FileMetaEncryptorV5.f5_publicMeta d) (FileMetaEncryptorV5.f5_privateMeta d)
    (match m with Some m => im_size m | None => 0 end) (FileMetaEncryptorV5.f5_authorPubKey d) statusCode
    FileDataSchema.VERSION_5 (random_write m)).

(** The integrity object made up for structures that carry none. *)
Definition made_up_file_dio file (creatorPubKey : bytes) : DataIntegrityObject :=
  mkDIO (sf_lastModifier file) creatorPubKey (sf_contextId file) (sf_resourceId file)
    (sf_lastModificationDate file) [] (Some (sf_storeId file)) (Some []) None.

(** Structure 5 is decrypted twice, with the same outcome. *)
Definition decryptAndConvertFileDataToFileInfo file (encKey : DecryptedEncKeyV2) :
    outcome (File * DataIntegrityObject) :=
  version ← getFileDataStructureVersion file;
  if bool_decide (version = FileDataSchema.VERSION_1) then
    '(decryptedFile, statusCode, _) ← decryptStoreFileV1 file encKey;
    mret (convertStoreFileMetaV1ToFile file (decryptedFile, statusCode),
          made_up_file_dio file (v1_author_pubKey decryptedFile))
  else if bool_decide (version = FileDataSchema.VERSION_4) then
    decryptedFile ← decryptFileMetaV4 file encKey;
    f ← convertDecryptedFileMetaV4ToFile file decryptedFile;
    mret (f, made_up_file_dio file (FileMetaEncryptorV4.f4_authorPubKey decryptedFile))
  else if bool_decide (version = FileDataSchema.VERSION_5) then
    decryptedFile ← decryptFileMetaV5 file encKey;
    again ← decryptFileMetaV5 file encKey;
    f ← convertDecryptedFileMetaV5ToFile file again;
    mret (f, FileMetaEncryptorV5.f5_dio decryptedFile)
  else mret (failed_file file UnknowFileFormatException, empty_dio).

(** ** Integrity *)
Definition file_fits file (storeResourceId : bytes) (dio : DataIntegrityObject) : bool :=
  content_fits dio (sf_contextId file) (sf_resourceId file) (sf_storeId file) storeResourceId
    (sf_lastModifier file) (sf_lastModificationDate file).

Definition validateFileDataIntegrity file (storeResourceId : bytes) : outcome (option exn) :=
  try_with every_exn (
    version ← getFileDataStructureVersion file;
    if bool_decide (version = FileDataSchema.VERSION_1) || bool_decide (version = FileDataSchema.VERSION_4) then mret None
    else if bool_decide (version = FileDataSchema.VERSION_5) then
      fileMeta ← file5_fromJSON (sf_meta file);
      dio ← FileMetaEncryptorV5.getDIOAndAssertIntegrity fileMeta;
      mret (if file_fits file storeResourceId dio then None else Some FileDataIntegrityException)
    else mret (Some UnknowFileFormatException)) Some.

#[export] Instance FileKind : ItemKind ServerFile File := {|
  it_keyId := sf_keyId;
  it_contextId := sf_contextId;
  res_author := f_author;
  res_authorPubKey := f_authorPubKey;
  res_createDate := f_createDate;
  failed := failed_file;
  Items.validateDataIntegrity := validateFileDataIntegrity;
  decryptAndConvert := decryptAndConvertFileDataToFileInfo |}.

(** ** One file, and a list of them *)
Context (_userPrivKey : PrivateKey) (_userVerifier : list VerificationRequest -> outcome (list bool)).

(** Nothing here checks the integrity object: [getFile] has, an event has not. *)
Definition validateDecryptAndConvertFileDataToFileInfo file (storeKeys : ModuleKeys) : outcome File :=
  try_with every_exn (
    _ ← FileKeyIdFormatValidator.assertKeyIdFormat (sf_keyId file);
    decryptAndVerifyItem _userPrivKey _userVerifier file storeKeys) (failed_file file).

Definition validateDecryptAndConvertFilesDataToFilesInfo (files : list ServerFile) (storeKeys : ModuleKeys) :
    outcome (list File) :=
  decryptAndVerifyItems _userPrivKey _userVerifier only_core files storeKeys.

(** ** What a file is opened with *)
Definition decryptFileInternalMeta file (encKey : DecryptedEncKeyV2) : outcome InternalStoreFileMeta :=
  match k_statusCode encKey with
  | Some _ => Throw UnknowFileFormatException
  | None =>
      version ← getFileDataStructureVersion file;
      if bool_decide (version = FileDataSchema.VERSION_1) then
        '(decryptedFile, _, _) ← decryptStoreFileV1 file encKey;
        let m := v1_meta decryptedFile in
        mret (mkInternalMeta 1 (v1_size m) (v1_cipherType m) (v1_chunkSize m) (base64_from (v1_key m))
                (base64_from (v1_hmac m)) None)
      else if bool_decide (version = FileDataSchema.VERSION_4) then
        d ← decryptFileMetaV4 file encKey; deserialize (FileMetaEncryptorV4.f4_internalMeta d)
      else if bool_decide (version = FileDataSchema.VERSION_5) then
        d ← decryptFileMetaV5 file encKey; deserialize (FileMetaEncryptorV5.f5_internalMeta d)
      else Throw UnknowFileFormatException
  end.

(** [SIZE_MAX] is the largest 64-bit number, so the first test never fires. *)
Definition params_of file (internalMeta : InternalStoreFileMeta) : outcome FileDecryptionParams :=
  if u64_max <? u64 (im_chunkSize internalMeta) then Throw NumberToBigForCPUArchitectureException
  else
    key ← base64_to (im_key internalMeta);
    hmac ← base64_to (im_hmac internalMeta);
    mret {| fdp_fileId := sf_id file; fdp_resourceId := sf_resourceId file; fdp_sizeOnServer := u64 (sf_size file);
            fdp_originalSize := u64 (im_size internalMeta); fdp_cipherType := im_cipherType internalMeta;
            fdp_chunkSize := u64 (im_chunkSize internalMeta); fdp_key := key; fdp_hmac := hmac;
            fdp_version := sf_version file |}.

(** [getFileDecryptionParams(file, encKey)] *)
Definition getFileDecryptionParams file (encKey : DecryptedEncKeyV2) : outcome FileDecryptionParams :=
  internalMeta ← decryptFileInternalMeta file encKey;
  params_of file internalMeta.

Definition encryption_params file (encKey : DecryptedEncKeyV2) : outcome FileEncryptionParams :=
  '(decryptedFile, _) ← decryptAndConvertFileDataToFileInfo file encKey;
  internalMeta ← decryptFileInternalMeta file encKey;
  params ← params_of file internalMeta;
  mret (mkEncryptionParams (mkFileMeta (f_publicMeta decryptedFile) (f_privateMeta decryptedFile) internalMeta)
          params encKey).

(** The key of an item of the store, with the location its entry must name. *)
Definition file_key (location : EncKeyLocation) (keys : list KeyEntry) (keyId : bytes) : outcome DecryptedEncKeyV2 :=
  let keyProviderRequest := (KeyDecryptionAndVerificationRequest.addOne keys keyId location
                               KeyDecryptionAndVerificationRequest.empty).2 in
  all ← KeyProvider.getKeysAndVerify _userPrivKey _userVerifier keyProviderRequest;
  keys ← at_ all location;
  at_ keys keyId.

(** [getFileEncryptionParams(file, store)] *)
Definition getFileEncryptionParams file (store : StoreInfo) : outcome FileEncryptionParams :=
  key ← file_key (module_location store) (ct_keys store) (sf_keyId file);
  encryption_params file key.

Definition validateDecryptFileInternalMeta file (storeKeys : ModuleKeys) : outcome InternalStoreFileMeta :=
  encKey ← file_key {| loc_contextId := sf_contextId file; loc_resourceId := mk_moduleResourceId storeKeys |}
             (mk_keys storeKeys) (sf_keyId file);
  _ ← FileKeyIdFormatValidator.assertKeyIdFormat (sf_keyId file);
  decryptFileInternalMeta file encKey.
End Data.

(** ** Structure 5 *)
Section Laws.
Context {C : CryptoService} `{!CryptoLaws C} {E : Ecc} `{!EccLaws E} {E0 : Encodings} `{!EncodingsLaws E0}.
Context {D : Dynamic} `{!KeyFormats PublicKey} `{!KeyFormatsLaws PublicKey}.
Context `{!KeyEntryJson} `{!KeyEntryJsonLaws} `{!HashOrder} `{!FileJson} `{!FileJsonLaws}.
Context `{!JsonCodec DIOEncryptorV1.DioJson} `{!JsonCodecLaws DIOEncryptorV1.DioJson} `{!JsonCodec EncryptionKey}.
Context `{!JsonCodec StoreFileMeta} `{!JsonCodec InternalStoreFileMeta} `{!JsonCodecLaws InternalStoreFileMeta}.
Context (_host : bytes).
Implicit Types file : ServerFile.

(** What an author seals for a file. *)
Definition file_text (publicMeta privateMeta : bytes) (m : InternalStoreFileMeta) (dio : DataIntegrityObject) :
    FileMetaEncryptorV5.FileMetaToEncryptV5 := {|
  FileMetaEncryptorV5.in_publicMeta := publicMeta; FileMetaEncryptorV5.in_privateMeta := privateMeta;
  FileMetaEncryptorV5.in_internalMeta := serialize m; FileMetaEncryptorV5.in_dio := dio |}.

(** The file a reader gets for it. *)
Definition opened_file file (publicMeta privateMeta : bytes) (m : InternalStoreFileMeta) (author : PrivateKey) : File :=
  convertServerFileToLibFile file publicMeta privateMeta (im_size m) (toBase58DER (getPublicKey author)) None
    FileDataSchema.VERSION_5 (random_write (Some m)).

Lemma file5_version file e d : sf_meta file = file5_toJSON e -> FileMetaEncryptorV5.getDIOAndAssertIntegrity e = Ret d ->
  getFileDataStructureVersion file = Ret FileDataSchema.VERSION_5.
Proof.
  intros Hm Hd%FileMetaEncryptorV5.meta_integrity_version. unfold getFileDataStructureVersion, meta_version.
  rewrite Hm, file5_is_object, file5_versioned, Hd. by vm_compute.
Qed.

Section Sealed.
Context (file : ServerFile) (publicMeta privateMeta : bytes) (m : InternalStoreFileMeta) (dio : DataIntegrityObject).
Context (author : PrivateKey) (k : DecryptedEncKeyV2) (e : FileMetaEncryptorV5.EncryptedFileMetaV5).
Context (Hse : FileMetaEncryptorV5.sealed (file_text publicMeta privateMeta m dio) author (k_key k) e).
Context (Hm : sf_meta file = file5_toJSON e) (Hk : k_statusCode k = None).

Lemma sealed_version : getFileDataStructureVersion file = Ret FileDataSchema.VERSION_5.
Proof. eapply file5_version; [exact Hm|exact (FileMetaEncryptorV5.se_dio _ _ _ _ Hse)]. Qed.

Lemma sealed_meta : decryptFileMetaV5 file k = Ret (FileMetaEncryptorV5.opened (file_text publicMeta privateMeta m dio) author).
Proof.
  unfold decryptFileMetaV5. unfold_st. by rewrite Hm, file5_inv, Hk, (FileMetaEncryptorV5.meta_decrypt_sealed _ _ _ _ Hse).
Qed.

Lemma sealed_file : decryptAndConvertFileDataToFileInfo _host file k
  = Ret (opened_file file publicMeta privateMeta m author, dio).
Proof.
  unfold decryptAndConvertFileDataToFileInfo. rewrite sealed_version. unfold_st.
  rewrite (bool_decide_eq_false_2 (_ = FileDataSchema.VERSION_1)), (bool_decide_eq_false_2 (_ = FileDataSchema.VERSION_4)),
    bool_decide_eq_true_2 by done.
  rewrite sealed_meta. unfold convertDecryptedFileMetaV5ToFile, internal_of. unfold_st. cbn. by rewrite json_inv.
Qed.

Lemma sealed_internal : decryptFileInternalMeta _host file k = Ret m.
Proof.
  unfold decryptFileInternalMeta. rewrite Hk, sealed_version. unfold_st.
  rewrite (bool_decide_eq_false_2 (_ = FileDataSchema.VERSION_1)), (bool_decide_eq_false_2 (_ = FileDataSchema.VERSION_4)),
    bool_decide_eq_true_2 by done.
  rewrite sealed_meta. cbn. by rewrite json_inv.
Qed.

(** The parameters the file is opened with. *)
Lemma sealed_params key hmac : im_key m = base64_from key -> im_hmac m = base64_from hmac ->
  encryption_params _host file k = Ret (mkEncryptionParams (mkFileMeta publicMeta privateMeta m)
    {| fdp_fileId := sf_id file; fdp_resourceId := sf_resourceId file; fdp_sizeOnServer := u64 (sf_size file);
       fdp_originalSize := u64 (im_size m); fdp_cipherType := im_cipherType m; fdp_chunkSize := u64 (im_chunkSize m);
       fdp_key := key; fdp_hmac := hmac; fdp_version := sf_version file |} k).
Proof.
  intros Hkey Hhmac. unfold encryption_params. unfold_st. rewrite sealed_file, sealed_internal. unfold params_of.
  assert ((u64_max <? u64 (im_chunkSize m)) = false) as ->.
  { apply Z.ltb_ge. pose proof (Z.mod_pos_bound (im_chunkSize m) (2 ^ 64) ltac:(done)). unfold u64_max, wrap. lia. }
  unfold_st. by rewrite Hkey, Hhmac, !base64_inv.
Qed.

Lemma sealed_fits resourceId : file_fits file resourceId dio = true -> validateFileDataIntegrity file resourceId = Ret None.
Proof.
  intros Hf. unfold validateFileDataIntegrity. rewrite sealed_version. unfold_st.
  rewrite (bool_decide_eq_false_2 (_ = FileDataSchema.VERSION_1)), (bool_decide_eq_false_2 (_ = FileDataSchema.VERSION_4)),
    bool_decide_eq_true_2 by done.
  cbn [orb]. rewrite Hm, file5_inv. cbn. pose proof (FileMetaEncryptorV5.se_dio _ _ _ _ Hse) as Hd. cbn in Hd.
  by rewrite Hd, Hf.
Qed.
End Sealed.

(** The check of a structure-5 file. *)
Lemma file_checked file resourceId : getFileDataStructureVersion file = Ret FileDataSchema.VERSION_5 ->
  validateFileDataIntegrity file resourceId = Ret None ->
  exists e dio, file5_fromJSON (sf_meta file) = Ret e /\ FileMetaEncryptorV5.getDIOAndAssertIntegrity e = Ret dio
    /\ file_fits file resourceId dio = true.
Proof.
  intros Hv. unfold validateFileDataIntegrity. rewrite Hv. unfold_st. intros [Hc|(? & ? & _ & _ & [=])]%try_with_inv.
  revert Hc. rewrite (bool_decide_eq_false_2 (_ = FileDataSchema.VERSION_1)),
    (bool_decide_eq_false_2 (_ = FileDataSchema.VERSION_4)), bool_decide_eq_true_2 by done. cbn [orb].
  destruct (file5_fromJSON _) as [e|]; [|done].
  destruct (FileMetaEncryptorV5.getDIOAndAssertIntegrity e) as [dio|] eqn:Ed; [|done].
  destruct (file_fits file resourceId dio) eqn:Ef; [|done]. intros _. by exists e, dio.
Qed.

(** What a structure-5 file converts to without an error status. *)
Lemma file_converted file k r dio : getFileDataStructureVersion file = Ret FileDataSchema.VERSION_5 ->
  decryptAndConvertFileDataToFileInfo _host file k = Ret (r, dio) -> f_statusCode r = None ->
  exists e d m, file5_fromJSON (sf_meta file) = Ret e /\ FileMetaEncryptorV5.decrypt e (k_key k) = Ret d
    /\ k_statusCode k = None /\ FileMetaEncryptorV5.f5_statusCode d = None
    /\ deserialize (FileMetaEncryptorV5.f5_internalMeta d) = Ret m
    /\ r = convertServerFileToLibFile file (FileMetaEncryptorV5.f5_publicMeta d) (FileMetaEncryptorV5.f5_privateMeta d)
              (im_size m) (FileMetaEncryptorV5.f5_authorPubKey d) None FileDataSchema.VERSION_5 (random_write (Some m))
    /\ dio = FileMetaEncryptorV5.f5_dio d.
Proof.
  intros Hv. unfold decryptAndConvertFileDataToFileInfo. rewrite Hv. unfold_st.
  rewrite (bool_decide_eq_false_2 (_ = FileDataSchema.VERSION_1)), (bool_decide_eq_false_2 (_ = FileDataSchema.VERSION_4)),
    bool_decide_eq_true_2 by done.
  destruct (decryptFileMetaV5 file k) as [d|] eqn:Ed; [|done]. unfold convertDecryptedFileMetaV5ToFile. unfold_st.
  destruct (FileMetaEncryptorV5.f5_statusCode d) as [code|] eqn:Es; [by intros [= <- <-]|].
  destruct (internal_of _) as [[m s]|] eqn:Ei; [|done]. intros [= <- <-] Hs. cbn in Hs. subst s.
  unfold internal_of in Ei. apply try_with_inv in Ei as [Ei|(? & ? & _ & _ & [=])]. revert Ei. unfold_st.
  destruct (deserialize _) as [m'|] eqn:Em; [|done]. intros [= <-].
  unfold decryptFileMetaV5 in Ed. apply try_with_inv in Ed as [Ed|(? & ? & _ & _ & ->)]; [|done].
  revert Ed. unfold_st. destruct (file5_fromJSON _) as [e|]; [|done].
  destruct (k_statusCode k) eqn:Ek.
  - destruct (FileMetaEncryptorV5.extractPublic e); [|done]. intros [= <-]. done.
  - intros Ed. by exists e, d, m'.
Qed.
(** Whatever the conversion gives stands for the file. *)
Lemma file_converted_id file k r dio : decryptAndConvertFileDataToFileInfo _host file k = Ret (r, dio) -> f_fileId r = sf_id file.
Proof.
  unfold decryptAndConvertFileDataToFileInfo. unfold_st. destruct (getFileDataStructureVersion file) as [v|]; [|done].
  case_bool_decide; [|case_bool_decide; [|case_bool_decide]].
  - destruct (decryptStoreFileV1 _ _ _) as [[[x st] y]|]; [|done]. by intros [= <- <-].
  - destruct (decryptFileMetaV4 _ _) as [d|]; [|done]. unfold convertDecryptedFileMetaV4ToFile. unfold_st.
    destruct (FileMetaEncryptorV4.f4_statusCode d); [by intros [= <- <-]|]. destruct (internal_of _) as [[m s]|]; [|done].
    by intros [= <- <-].
  - destruct (decryptFileMetaV5 _ _) as [d|]; [|done]. unfold convertDecryptedFileMetaV5ToFile. unfold_st.
    destruct (FileMetaEncryptorV5.f5_statusCode d); [by intros [= <- <-]|]. destruct (internal_of _) as [[m s]|]; [|done].
    by intros [= <- <-].
  - by intros [= <- <-].
Qed.
End Laws.
End FileApi.

(** ** Reading whatever structure *)
Module FileMetaEncryptor.

(** [DecryptedFileMeta]: one of the structures, or none. *)
Inductive DecryptedFileMeta :=
| UnknownMeta
| MetaV1 (v1 : FileMetaSigned)
| MetaV4 (v4 : FileMetaEncryptorV4.DecryptedFileMetaV4)
| MetaV5 (v5 : FileMetaEncryptorV5.DecryptedFileMetaV5).

Section Encryptor.
Context {C : CryptoService} {E : Ecc} {E0 : Encodings} {D : Dynamic}.
Context `{!KeyFormats PublicKey} `{!KeyEntryJson} `{!FileJson}.
Context `{!JsonCodec DIOEncryptorV1.DioJson} `{!JsonCodec StoreFileMeta} `{!JsonCodec InternalStoreFileMeta}.

Definition getFileDataStructureVersion (encryptedFileMeta : Var) : outcome Z := FileApi.meta_version encryptedFileMeta.

(** [decrypt], and [extractPublic], which gives the older structures an empty
    key instead. *)
Definition decrypt_with (key : option bytes) (encryptedFileMeta : Var) : outcome DecryptedFileMeta :=
  version ← getFileDataStructureVersion encryptedFileMeta;
  if bool_decide (version = FileDataSchema.VERSION_1) then
    text ← string_of encryptedFileMeta; m ← FileMetaEncryptorV1.decrypt text (default [] key); mret (MetaV1 m)
  else if bool_decide (version = FileDataSchema.VERSION_4) then
    e ← file4_fromJSON encryptedFileMeta; m ← FileMetaEncryptorV4.decrypt e (default [] key); mret (MetaV4 m)
  else if bool_decide (version = FileDataSchema.VERSION_5) then
    e ← file5_fromJSON encryptedFileMeta;
    m ← match key with Some key => FileMetaEncryptorV5.decrypt e key | None => FileMetaEncryptorV5.extractPublic e end;
    mret (MetaV5 m)
  else mret UnknownMeta.

Definition decrypt (encryptedFileMeta : Var) (encKey : EncKey) : outcome DecryptedFileMeta :=
  decrypt_with (Some (ek_key encKey)) encryptedFileMeta.
Definition extractPublic (encryptedFileMeta : Var) : outcome DecryptedFileMeta := decrypt_with None encryptedFileMeta.
End Encryptor.
End FileMetaEncryptor.
