(* ===== verification/StoreFiles.v ===== *)
(** * Operations on the files of a store

    [StoreApiImpl] (endpoint/store/src/StoreApiImpl.cpp) and [FileHandleManager]
    (endpoint/store/src/FileHandle.cpp): fetching, listing and deleting files,
    new metadata for a file, and the handles files are written and read through.
    A handle's objects hold the server and the generator they were built on; an
    operation gives them the ones of the world it runs in, and takes them back. *)

From Stdlib Require Import ZArith Lia Strings.String Strings.Byte.
From stdpp Require Import base list gmap fin_maps.
From S2P Require Import Prelude Bytes ExceptionCodes CoreTypes Crypto CryptoSuite Dynamic Encryptors Dio FieldData FileMetaData EncKeys ContainerData KeyProvider StoreServer ChunkReader FileHandler FileIO FileHandle Upload Utils StdMap Handles Users Legacy Policies Containers Items Modules ContentItems Stores Files.
Import Dynamic ModuleBaseApi ModuleApi StoreApi FileApi.

(** ** Requests *)
Section Models.
Context `{!Dynamic}.

Record StoreFileCreateModel := mkFileCreateModel {
  fc_fileIndex : Z;
  fc_resourceId : bytes;
  fc_storeId : bytes;
  fc_meta : Var;
  fc_keyId : bytes;
  fc_requestId : bytes;
}.
Record StoreFileWriteModel := mkFileWriteModel {
  fw_fileIndex : Z;
  fw_fileId : bytes;
  fw_meta : Var;
  fw_keyId : bytes;
  fw_requestId : bytes;
}.
Record StoreFileUpdateModel := mkFileUpdateModel {
  fu_fileId : bytes;
  fu_meta : Var;
  fu_keyId : bytes;
}.
End Models.

(** The server's operations on files ([store::ServerApi]). *)
Class FileServer {D : Dynamic} (W : Type) := {
  storeFileGet : bytes -> ST W (StoreInfo * ServerFile);
  storeFileList : bytes -> ListModel -> ST W (StoreInfo * list ServerFile * Z);
  storeFileDelete : bytes -> ST W unit;
  storeFileCreate : StoreFileCreateModel -> ST W bytes;
  storeFileReplace : StoreFileWriteModel -> ST W unit;
  storeFileUpdate : StoreFileUpdateModel -> ST W unit;
}.

(** ** Handles *)

(** [FileHandle]: the members every handle has. *)
Record FileHandleBase := mkHandleBase {
  hb_id : Z;
  hb_storeId : bytes;
  hb_fileId : bytes;
  hb_resourceId : bytes;
}.

Section Handle.
Context `{CryptoService} `{StoreServer.StoreServer} `{RequestApi}.

Inductive FileHandle :=
| ReadHandle (base : FileHandleBase) (h : read_handle)
| WriteHandle (base : FileHandleBase) (publicMeta privateMeta : bytes) (h : write_handle)
| ReadWriteHandle (base : FileHandleBase) (h : fimpl).

Definition handle_base (h : FileHandle) : FileHandleBase :=
  match h with ReadHandle b _ | WriteHandle b _ _ _ | ReadWriteHandle b _ => b end.

Definition getFileId (h : FileHandle) : bytes := hb_fileId (handle_base h).

(** The same objects over another state of the server and of the generator. *)
Definition rh_on (s : StoreServer.srv) (h : read_handle) : read_handle :=
  let e := rh_env h in
  mkReadHandle _ (mkEnv _ (e_enc e) (e_cdp e) (e_hash e) (e_reader e) s) (rh_fileReader h) (rh_size h) (rh_pos h).
Definition wh_on (g : rng) (s : upload_srv) (h : write_handle) : write_handle :=
  mkWriteHandle _ _ (wh_stream h) (ChunkStreamer.mkWorld (ChunkStreamer.u_self (wh_streamer h)) g s) (wh_size h)
    (wh_randomWrite h).
Definition fi_on (g : rng) (s : StoreServer.srv) (h : fimpl) : fimpl :=
  let w := fi_world h in let e := w_env w in
  mkImpl _ _ (mkWorld _ _ (w_fh w) (mkEnv _ (e_enc e) (e_cdp e) (e_hash e) (e_reader e) s) g) (_readPos h) (_writePos h).
End Handle.

(** Where the handles live, and the servers behind them. *)
Class StoreWorld {C : CryptoService} {X : StoreServer.StoreServer} {R : RequestApi} (W : Type) := {
  on_files : forall A, ST StoreServer.srv A -> ST W A;
  on_uploads : forall A, ST upload_srv A -> ST W A;
  (** what the labels of the manager's handles start with *)
  _labelPrefix : bytes;
  handleManager : W -> HandleManager.t;
  set_handleManager : HandleManager.t -> W -> W;
  fileHandles : W -> gmap Z FileHandle;
  set_fileHandles : gmap Z FileHandle -> W -> W;
}.
Arguments on_files {C X R W _ A} m.
Arguments on_uploads {C X R W _ A} m.

Section Swap.
Context {S : Type}.
Definition get_state : ST S S := fun s => (Ret s, s).
Definition put_state (s : S) : ST S unit := fun _ => (Ret tt, s).
End Swap.

Module FileHandleManager.
Section Manager.
Context {C : CryptoService} {D : Dynamic} {X : StoreServer.StoreServer} {R : RequestApi}.
Context {W : Type} `{!ConnectionWorld W} `{!StoreWorld W}.

Definition on_manager {A} (m : ST HandleManager.t A) : ST W A := zoom handleManager set_handleManager m.
Definition keep (h : FileHandle) : ST W unit :=
  modify (fun w => set_fileHandles (<[hb_id (handle_base h) := h]> (fileHandles w)) w).

Definition label (name : bytes) : bytes :=
  (if bool_decide (_labelPrefix = []) then [] else _labelPrefix ++ lit ":") ++ name.

Definition createFileReadHandle (params : FileDecryptionParams) (serverChunkSize : Z) : ST W Z :=
  id ← on_manager (HandleManager.createHandle (label (lit "FileRead")));
  h ← on_files (FileReadHandle.construct params serverChunkSize);
  _ ← keep (ReadHandle (mkHandleBase id [] (fdp_fileId params) (fdp_resourceId params)) h);
  mret id.

Definition createFileWriteHandle (storeId fileId resourceId : bytes) (size : Z) (publicMeta privateMeta : bytes)
    (chunkSize serverRequestChunkSize : Z) (randomWriteSupport : bool) : ST W Z :=
  id ← on_manager (HandleManager.createHandle (label (lit "FileWrite")));
  g ← on_rng get_state;
  s ← on_uploads get_state;
  let h := FileWriteHandle.construct size chunkSize serverRequestChunkSize randomWriteSupport g s in
  _ ← keep (WriteHandle (mkHandleBase id storeId fileId resourceId) publicMeta privateMeta h);
  mret id.

(** Its label lacks the prefix. *)
Definition createFileReadWriteHandle (info : FileInfo) (params : FileEncryptionParams) (serverChunkSize : Z) : ST W Z :=
  id ← on_manager (HandleManager.createHandle (lit "FileReadWrite"));
  g ← on_rng get_state;
  let p := fep_fileDecryptionParams params in
  h ← on_files (open_read_write info p (fep_fileMeta params) (handler_key (fep_encKey params)) serverChunkSize g);
  _ ← keep (ReadWriteHandle (mkHandleBase id (fi_storeId info) (fdp_fileId p) (fdp_resourceId p)) h);
  mret id.

Definition getFileHandle (id : Z) : ST W FileHandle :=
  o ← gets (fun w => fileHandles w !! id);
  match o with Some h => mret h | None => throw InvalidFileHandleException end.

Definition getFileReadHandle (id : Z) : ST W (FileHandleBase * read_handle) :=
  h ← getFileHandle id;
  match h with ReadHandle b h => mret (b, h) | _ => throw InvalidFileReadHandleException end.

Definition getFileWriteHandle (id : Z) : ST W (FileHandleBase * bytes * bytes * write_handle) :=
  h ← getFileHandle id;
  match h with WriteHandle b pub priv h => mret (b, pub, priv, h) | _ => throw InvalidFileWriteHandleException end.

Definition tryGetFileReadWriteHandle (id : Z) : ST W (option (FileHandleBase * fimpl)) :=
  h ← getFileHandle id;
  mret match h with ReadWriteHandle b h => Some (b, h) | _ => None end.

Definition removeHandle (id : Z) : ST W unit :=
  _ ← getFileHandle id;
  _ ← modify (fun w => set_fileHandles (delete id (fileHandles w)) w);
  on_manager (HandleManager.removeHandle id).

(** ** Calls on a handle's object *)
Definition run_read {A} (h : read_handle) (m : ST read_handle A) : ST W (outcome A * read_handle) :=
  s ← on_files get_state;
  let '(r, h) := m (rh_on s h) in
  _ ← on_files (put_state (e_srv (rh_env h)));
  mret (r, h).

Definition run_write {A} (h : write_handle) (m : ST write_handle A) : ST W (outcome A * write_handle) :=
  g ← on_rng get_state;
  s ← on_uploads get_state;
  let '(r, h) := m (wh_on g s h) in
  _ ← on_rng (put_state (ChunkStreamer.u_rng (wh_streamer h)));
  _ ← on_uploads (put_state (ChunkStreamer.u_srv (wh_streamer h)));
  mret (r, h).

Definition run_read_write {A} (h : fimpl) (m : ST fimpl A) : ST W (outcome A * fimpl) :=
  g ← on_rng get_state;
  s ← on_files get_state;
  let '(r, h) := m (fi_on g s h) in
  _ ← on_rng (put_state (w_rng (fi_world h)));
  _ ← on_files (put_state (e_srv (w_env (fi_world h))));
  mret (r, h).

(** The same, on a handle of the table. *)
Definition with_read {A} (b : FileHandleBase) (h : read_handle) (m : ST read_handle A) : ST W A :=
  '(r, h) ← run_read h m; _ ← keep (ReadHandle b h); lift r.
Definition with_write {A} (b : FileHandleBase) (pub priv : bytes) (h : write_handle) (m : ST write_handle A) : ST W A :=
  '(r, h) ← run_write h m; _ ← keep (WriteHandle b pub priv h); lift r.
Definition with_read_write {A} (b : FileHandleBase) (h : fimpl) (m : ST fimpl A) : ST W A :=
  '(r, h) ← run_read_write h m; _ ← keep (ReadWriteHandle b h); lift r.
End Manager.
End FileHandleManager.

(** Codes and bounds the operations compare with. *)
Definition INVALID_KEY : Z := 0x70.
Definition _CHUNK_SIZE : Z := 128 * 1024.

(** [Validator::validateBufferSize] *)
Definition validateBufferSize {S} (value : bytes) (min_len max_len : Z) : ST S unit :=
  throw_if ((zlen value <? min_len) || (max_len <? zlen value)) InvalidParamsException.

(** [File result;] with a status code: the members the constructor leaves
    without a value are 0 here. *)
Definition blank_file (code : exn) : File := mkFile [] [] 0 [] [] [] 0 [] (Some code) 0 false.

Module FilesApi.
Import FileHandleManager.
Section Api.
Context {C : CryptoService} {E : Ecc} {E0 : Encodings} {D : Dynamic}.
Context {X : StoreServer.StoreServer} {R : RequestApi} {M : MetaConnection}.
Context `{!KeyFormats PublicKey} `{!KeyEntryJson} `{!HashOrder} `{!ModuleJson} `{!FileJson}.
Context `{!JsonCodec DIOEncryptorV1.DioJson} `{!JsonCodec EncryptionKey}.
Context `{!JsonCodec ModuleDataEncryptorV5.ModuleInternalMetaV5} `{!JsonCodec StoreData}.
Context `{!JsonCodec StoreFileMeta} `{!JsonCodec InternalStoreFileMeta}.
Context (_userPrivKey : PrivateKey) (_userVerifier : list VerificationRequest -> outcome (list bool)).
Context (_bridgeIdentity : option BridgeIdentity) (_host : bytes) (_serverRequestChunkSize : Z).
Context {W : Type} `{!ConnectionWorld W} `{!StoreWorld W} `{!ContainerServer StoreExtra W} `{!FileServer W}.

(** ** Files and their metadata *)
Definition getFile (fileId : bytes) : ST W File :=
  '(store, file) ← storeFileGet fileId;
  _ ← lift (assertStoreDataIntegrity store);
  _ ← remember store;
  statusCode ← lift (validateFileDataIntegrity file (default [] (ct_resourceId store)));
  match statusCode with
  | Some code => mret (blank_file code)
  | None =>
      storeKeys ← lift (storeToModuleKeys store);
      lift (validateDecryptAndConvertFileDataToFileInfo _host _userPrivKey _userVerifier file storeKeys)
  end.

Definition listFiles (storeId : bytes) (pagingQuery : PagingQuery) : ST W (list File * Z) :=
  model ← lift (map_query pagingQuery);
  '(store, files, count) ← storeFileList storeId model;
  _ ← lift (assertStoreDataIntegrity store);
  _ ← remember store;
  storeKeys ← lift (storeToModuleKeys store);
  result ← lift (validateDecryptAndConvertFilesDataToFilesInfo _host _userPrivKey _userVerifier files storeKeys);
  mret (result, count).

Definition deleteFile (fileId : bytes) : ST W unit := storeFileDelete fileId.

Definition assertFileExist (fileId : bytes) : ST W unit := _ ← storeFileGet fileId; mret tt.

(** The keys to open a file with: the store's, of a structure that can have
    files of this one. *)
Definition minimum_store_version (fileVersion : Z) : Z :=
  if bool_decide (fileVersion = FileDataSchema.VERSION_5) then StoreDataSchema.VERSION_5
  else if bool_decide (fileVersion = FileDataSchema.VERSION_1) || bool_decide (fileVersion = FileDataSchema.VERSION_4)
       then StoreDataSchema.VERSION_1
  else StoreDataSchema.UNKNOWN.

Definition getFileDecryptionKeys (file : ServerFile) : ST W ModuleKeys :=
  version ← lift (getFileDataStructureVersion file);
  moduleKeysOf (X := StoreExtra) (sf_storeId file) (Some {[ sf_keyId file ]}) (Some (minimum_store_version version)).

(** [getAndValidateModuleCurrentEncKey(store)]: the key of the newest entry. *)
Definition getAndValidateStoreCurrentEncKey (store : StoreInfo) : outcome DecryptedEncKeyV2 :=
  entry ← last_entry store;
  file_key _userPrivKey _userVerifier (module_location store) (ct_keys store) (en_keyId entry).

(** Metadata encrypted as a store of the structure has it. *)
Definition encrypt_file_meta (storeVersion : Z) (publicMeta privateMeta internalMeta : bytes) (fileSize : Z)
    (key : bytes) (dio : ST W DataIntegrityObject) : ST W Var :=
  if bool_decide (storeVersion = StoreDataSchema.VERSION_1) || bool_decide (storeVersion = StoreDataSchema.VERSION_4) then
    e ← on_rng (FileMetaEncryptorV4.encrypt
      {| FileMetaEncryptorV4.in_publicMeta := publicMeta; FileMetaEncryptorV4.in_privateMeta := privateMeta;
         FileMetaEncryptorV4.in_fileSize := fileSize; FileMetaEncryptorV4.in_internalMeta := internalMeta |}
      _userPrivKey key);
    mret (file4_toJSON e)
  else if bool_decide (storeVersion = StoreDataSchema.VERSION_5) then
    dio ← dio;
    e ← on_rng (FileMetaEncryptorV5.encrypt
      {| FileMetaEncryptorV5.in_publicMeta := publicMeta; FileMetaEncryptorV5.in_privateMeta := privateMeta;
         FileMetaEncryptorV5.in_internalMeta := internalMeta; FileMetaEncryptorV5.in_dio := dio |} _userPrivKey key);
    mret (file5_toJSON e)
  else throw UnknowStoreFormatException.

Definition updateFileMeta (fileId publicMeta privateMeta : bytes) : ST W unit :=
  '(store, file) ← storeFileGet fileId;
  _ ← remember store;
  statusCode ← lift (validateFileDataIntegrity file (default [] (ct_resourceId store)));
  _ ← throw_if (bool_decide (statusCode <> None)) FileDataIntegrityException;
  key ← lift (getAndValidateStoreCurrentEncKey store);
  _ ← throw_if (bool_decide (k_statusCode key <> None)) StoreEncryptionKeyValidationException;
  storeKeys ← lift (storeToModuleKeys store);
  fileInternalMeta ← lift (validateDecryptFileInternalMeta _host _userPrivKey _userVerifier file storeKeys);
  entry ← lift (last_entry store);
  version ← lift (getStoreEntryDataStructureVersion (en_data entry));
  meta ← encrypt_file_meta version publicMeta privateMeta (serialize fileInternalMeta) (im_size fileInternalMeta)
    (k_key key) (
      resourceId ← (if bool_decide (sf_resourceId file = []) then generateId else mret (sf_resourceId file));
      createDIO _userPrivKey _bridgeIdentity (sf_contextId file) resourceId (Some (sf_storeId file)) (ct_resourceId store));
  storeFileUpdate (mkFileUpdateModel fileId meta (k_id key)).

(** ** Writing *)
Definition createFile (storeId publicMeta privateMeta : bytes) (size : Z) (randomWriteSupport : bool) : ST W Z :=
  _ ← assertStoreExist storeId;
  resourceId ← generateId;
  id ← createFileWriteHandle storeId [] resourceId (u64 size) publicMeta privateMeta _CHUNK_SIZE
         _serverRequestChunkSize randomWriteSupport;
  '(b, pub, priv, h) ← getFileWriteHandle id;
  _ ← with_write b pub priv h FileWriteHandle.createRequestData;
  mret id.

Definition updateFile (fileId publicMeta privateMeta : bytes) (size : Z) : ST W Z :=
  '(store, file) ← storeFileGet fileId;
  storeKeys ← lift (storeToModuleKeys store);
  internalMeta ← lift (validateDecryptFileInternalMeta _host _userPrivKey _userVerifier file storeKeys);
  id ← createFileWriteHandle (ct_id store) fileId (sf_resourceId file) (u64 size) publicMeta privateMeta _CHUNK_SIZE
         _serverRequestChunkSize (random_write (Some internalMeta));
  '(b, pub, priv, h) ← getFileWriteHandle id;
  _ ← with_write b pub priv h FileWriteHandle.createRequestData;
  mret id.

Definition writeToFile (handleId : Z) (dataChunk : bytes) (truncate : bool) : ST W unit :=
  rw_handle ← tryGetFileReadWriteHandle handleId;
  match rw_handle with
  | Some (b, h) =>
      _ ← validateBufferSize dataChunk 0 (512 * 1024);
      with_read_write b h (FileHandlerImpl.write dataChunk truncate)
  | None =>
      '(b, pub, priv, h) ← getFileWriteHandle handleId;
      with_write b pub priv h (FileWriteHandle.write dataChunk)
  end.

(** What a finished upload is described by. *)
Definition internal_meta (h : write_handle) (data : ChunksSentInfo) : InternalStoreFileMeta :=
  mkInternalMeta 4 (i64 (wh_size h)) (cs_cipherType data) (i64 (cs_chunkSize data)) (base64_from (cs_key data))
    (base64_from (cs_hmac data)) (Some (wh_randomWrite h)).

(** The id generated here names nothing. *)
Definition storeFileFinalizeWriteRequest (b : FileHandleBase) (publicMeta privateMeta : bytes) (h : write_handle)
    (data : ChunksSentInfo) (storeKey : ModuleKeys) : ST W bytes :=
  key ← lift (usable_current_key _userPrivKey _userVerifier StoreEncryptionKeyValidationException storeKey);
  _ ← generateId;
  meta ← encrypt_file_meta (mk_moduleSchemaVersion storeKey) publicMeta privateMeta (serialize (internal_meta h data))
    (i64 (wh_size h)) (k_key key)
    (createDIO _userPrivKey _bridgeIdentity (mk_contextId storeKey) (hb_resourceId b) (Some (hb_storeId b))
       (Some (mk_moduleResourceId storeKey)));
  if bool_decide (hb_fileId b = []) then
    storeFileCreate (mkFileCreateModel 0 (hb_resourceId b) (hb_storeId b) meta (k_id key) (cs_requestId data))
  else
    _ ← storeFileReplace (mkFileWriteModel 0 (hb_fileId b) meta (k_id key) (cs_requestId data));
    mret (hb_fileId b).

(** A new file's request is repeated with the newest keys; for a file that is
    overwritten the store comes with it. *)
Definition storeFileFinalizeWrite (b : FileHandleBase) (publicMeta privateMeta : bytes) (h : write_handle) : ST W bytes :=
  '(r, h) ← run_write h FileWriteHandle.finalize;
  data ← lift r;
  if bool_decide (hb_fileId b = []) then
    with_newest_keys (ModuleApi.getModuleKeysAndVersionFromServer (X := StoreExtra)) INVALID_KEY (hb_storeId b)
      (storeFileFinalizeWriteRequest b publicMeta privateMeta h data)
  else
    '(store, _) ← storeFileGet (hb_fileId b);
    storeKey ← lift (storeToModuleKeys store);
    _ ← setNewModuleKeysInCache keyCache set_keyCache (ct_id store) storeKey (ct_version store);
    storeFileFinalizeWriteRequest b publicMeta privateMeta h data storeKey.

(** ** Reading *)
Definition openFile (fileId : bytes) : ST W Z :=
  '(store, file) ← storeFileGet fileId;
  params ← lift (getFileEncryptionParams _host _userPrivKey _userVerifier file store);
  if random_write (Some (fm_internalFileMeta (fep_fileMeta params))) then
    createFileReadWriteHandle
      (mkFileInfo (sf_contextId file) (sf_storeId file) (default [] (ct_resourceId store)) (sf_id file) (sf_resourceId file))
      params _serverRequestChunkSize
  else
    let p := fep_fileDecryptionParams params in
    _ ← throw_if (bool_decide (fdp_cipherType p <> 1)) UnsupportedCipherTypeException;
    createFileReadHandle p _serverRequestChunkSize.

Definition readFromFile (handle length : Z) : ST W bytes :=
  rw_handle ← tryGetFileReadWriteHandle handle;
  match rw_handle with
  | Some (b, h) => with_read_write b h (FileHandlerImpl.read (u64 length))
  | None => '(b, h) ← getFileReadHandle handle; with_read b h (FileReadHandle.read (u64 length))
  end.

Definition seekInFile (handle pos : Z) : ST W unit :=
  rw_handle ← tryGetFileReadWriteHandle handle;
  match rw_handle with
  | Some (b, h) => with_read_write b h (_ ← FileHandlerImpl.seekg (u64 pos); FileHandlerImpl.seekp (u64 pos))
  | None => '(b, h) ← getFileReadHandle handle; with_read b h (FileReadHandle.seek (u64 pos))
  end.

Definition syncFile (handle : Z) : ST W unit :=
  fileHandle ← getFileHandle handle;
  '(store, file) ← storeFileGet (getFileId fileHandle);
  params ← lift (getFileEncryptionParams _host _userPrivKey _userVerifier file store);
  let p := fep_fileDecryptionParams params in
  rw_handle ← tryGetFileReadWriteHandle handle;
  match rw_handle with
  | Some (b, h) =>
      with_read_write b h (FileHandlerImpl.on_file
        (FileHandler.sync (fep_fileMeta params) p (handler_key (fep_encKey params))))
  | None =>
      '(b, h) ← getFileReadHandle handle;
      try_catch (with_read b h (FileReadHandle.sync p))
        (fun e => if bool_decide (e = FileCorruptedException) then
                    _ ← removeHandle handle; throw FileSyncFailedHandleCloseException
                  else throw e)
  end.

(** The handle is gone before the upload is finished, whatever comes of that. *)
Definition closeFile (handle : Z) : ST W bytes :=
  rw_handle ← tryGetFileReadWriteHandle handle;
  match rw_handle with
  | Some (b, _) => _ ← removeHandle handle; mret (hb_fileId b)
  | None =>
      h ← getFileHandle handle;
      _ ← removeHandle handle;
      match h with
      | WriteHandle b pub priv h =>
          try_catch (storeFileFinalizeWrite b pub priv h)
            (fun e => if bool_decide (e = DataDifferentThanDeclaredException)
                      then throw WritingToFileInteruptedWrittenDataSmallerThenDeclaredException else throw e)
      | _ => mret (getFileId h)
      end
  end.
End Api.

(** ** What [getFile] shows *)
Section Accepted.
Context {C : CryptoService} `{!CryptoLaws C} {E : Ecc} `{!EccLaws E} {E0 : Encodings} `{!EncodingsLaws E0}.
Context {D : Dynamic} `{!KeyFormats PublicKey} `{!KeyFormatsLaws PublicKey}.
Context `{!KeyEntryJson} `{!KeyEntryJsonLaws} `{!HashOrder} `{!ModuleJson} `{!FileJson} `{!FileJsonLaws}.
Context `{!JsonCodec DIOEncryptorV1.DioJson} `{!JsonCodecLaws DIOEncryptorV1.DioJson}.
Context `{!JsonCodec EncryptionKey} `{!JsonCodecLaws EncryptionKey}.
Context `{!JsonCodec ModuleDataEncryptorV5.ModuleInternalMetaV5} `{!JsonCodec StoreData}.
Context `{!JsonCodec StoreFileMeta} `{!JsonCodec InternalStoreFileMeta} `{!JsonCodecLaws InternalStoreFileMeta}.
Context (priv : PrivateKey) (uv : list VerificationRequest -> outcome (list bool)) (host : bytes).
Context {W : Type} `{!ConnectionWorld W} `{!FileServer W}.

(** A file that comes back without an error status passed the integrity check
    of the store it came with, and its own. *)
Lemma file_returned fileId w f w' : getFile priv uv host fileId w = (Ret f, w') -> f_statusCode f = None ->
  exists store file keys w1, storeFileGet fileId w = (Ret (store, file), w1)
    /\ assertStoreDataIntegrity store = Ret tt /\ storeToModuleKeys store = Ret keys
    /\ validateFileDataIntegrity file (default [] (ct_resourceId store)) = Ret None
    /\ decryptAndVerifyItem (ItemKind0 := FileKind host) priv uv file keys = Ret f.
Proof.
  unfold getFile. intros Hr Hs. inv_bind Hr as ([store file] & w1 & Hg & Hr).
  inv_bind Hr as ([] & ? & [= Ha <-] & Hr). inv_bind Hr as (? & w2 & _ & Hr).
  inv_bind Hr as (st & ? & [= Hv <-] & Hr). destruct st as [c|]; [injection Hr as <- <-; done|].
  inv_bind Hr as (keys & ? & [= Hk <-] & Hr). injection Hr as Hr <-.
  exists store, file, keys, w1. repeat (split; [assumption|]).
  unfold validateDecryptAndConvertFileDataToFileInfo in Hr.
  apply try_with_inv in Hr as [Hr|(? & ? & _ & _ & ->)]; [|done]. revert Hr. unfold_st.
  by destruct (FileKeyIdFormatValidator.assertKeyIdFormat _) as [[]|].
Qed.

End Accepted.
End FilesApi.
