(* ===== verification/StoreFlow.v ===== *)
(** * Files from their author to the readers

    What a member of a store uploads, every member opens and reads: the upload
    of [Upload], the request of [StoreFiles], the parameters of [Files] and the
    handles of [FileHandle] put together. *)

From Stdlib Require Import ZArith Lia Strings.String Strings.Byte.
From stdpp Require Import base list gmap fin_maps.
From S2P Require Import Prelude Bytes ExceptionCodes CoreTypes Crypto CryptoSuite ChunkCrypto HmacList Dynamic Encryptors Dio FieldData FileMetaData EncKeys ContainerData KeyProvider StoreServer ChunkProvider ChunkReader FileHandler FileIO FileHandle Upload Utils StdMap Handles Users Legacy Policies Containers Items Modules ContainerFlow ContentItems Stores Files StoreFiles.
Import Dynamic ModuleBaseApi ModuleApi StoreApi FileApi FilesApi.

Section Flow.
Context {C : CryptoService} `{!CryptoLaws C} {E : Ecc} `{!EccLaws E} {E0 : Encodings} `{!EncodingsLaws E0}.
Context {D : Dynamic} `{!KeyFormats PublicKey} `{!KeyFormatsLaws PublicKey}.
Context `{!KeyEntryJson} `{!KeyEntryJsonLaws} `{!HashOrder} `{!ModuleJson} `{!FileJson} `{!FileJsonLaws}.
Context `{!JsonCodec DIOEncryptorV1.DioJson} `{!JsonCodecLaws DIOEncryptorV1.DioJson}.
Context `{!JsonCodec EncryptionKey} `{!JsonCodecLaws EncryptionKey}.
Context `{!JsonCodec ModuleDataEncryptorV5.ModuleInternalMetaV5} `{!JsonCodec StoreData}.
Context `{!JsonCodec StoreFileMeta} `{!JsonCodec InternalStoreFileMeta} `{!JsonCodecLaws InternalStoreFileMeta}.
Context {W : Type} `{!ConnectionWorld W} `{!ConnectionLaws W} `{!FileServer W}.
Context {X : StoreServer.StoreServer} `{!StoreServer.StoreServerLaws X} {R : RequestApi} `{!RequestApiLaws R}.
Context (me : bytes) (priv : PrivateKey) (bridge : option BridgeIdentity) (contextId host : bytes).

(** ** The metadata of a file *)
Lemma file_meta_encrypted storeId rid publicMeta privateMeta m size keys ek w :
  connected (W := W) me bridge contextId -> mk_contextId keys = contextId -> zlen ek = 32 ->
  DataEncryptorV4.small privateMeta -> DataEncryptorV4.small (serialize m) ->
  exists e t i w0, (encrypt_file_meta priv StoreDataSchema.VERSION_5 publicMeta privateMeta (serialize m) size ek
      (createDIO priv bridge (mk_contextId keys) rid (Some storeId) (Some (mk_moduleResourceId keys))) w).1
      = Ret (file5_toJSON e)
    /\ (getNowTimestamp w0).1 = Ret t
    /\ FileMetaEncryptorV5.sealed (file_text publicMeta privateMeta m
         (my_dio me priv bridge contextId (Some storeId) (Some (mk_moduleResourceId keys)) rid t (hex_from i))) priv ek e.
Proof.
  intros Hc Hx Hk Hp Hm. unfold encrypt_file_meta.
  rewrite (bool_decide_eq_false_2 (_ = StoreDataSchema.VERSION_1)), (bool_decide_eq_false_2 (_ = StoreDataSchema.VERSION_4)),
    bool_decide_eq_true_2 by done. cbn [orb]. rewrite Hx.
  destruct (dio_created me priv bridge contextId (Some storeId) (Some (mk_moduleResourceId keys)) rid w Hc)
    as (d & Hdio & t & i & w0 & -> & Ht & Hi).
  step_fst Hdio as w1.
  set (x := file_text publicMeta privateMeta m (my_dio me priv bridge contextId (Some storeId)
    (Some (mk_moduleResourceId keys)) rid t (hex_from i))).
  destruct (rng_fst (FileMetaEncryptorV5.encrypt x priv ek) (FileMetaEncryptorV5.sealed x priv ek) w1) as (e & He & Hs).
  { intros g. destruct (FileMetaEncryptorV5.meta_encrypt_sealed x priv ek g) as (e & g' & He & Hse); [|by exists e, g'].
    split; [by eapply my_dio_formed; [apply Hc|]|done..]. }
  step_fst He as w2. by exists e, t, i, w0.
Qed.

(** A file that the server serves as it was created. *)
Record created_file (model : StoreFileCreateModel) (file : ServerFile) : Prop := {
  cf_resource : sf_resourceId file = fc_resourceId model;
  cf_store : sf_storeId file = fc_storeId model;
  cf_context : sf_contextId file = contextId;
  cf_meta : sf_meta file = fc_meta model;
  cf_key : sf_keyId file = fc_keyId model;
  cf_modifier : sf_lastModifier file = me;
  cf_date (w : W) t : (getNowTimestamp w).1 = Ret t ->
    TimestampValidator.validate t (sf_lastModificationDate file) = true;
}.

(** What a holder of the key [ek] makes of it. *)
Definition file_opens keyId resourceId ek publicMeta privateMeta (m : InternalStoreFileMeta) (hmacKey hmac : bytes)
    (file : ServerFile) : Prop :=
  forall u uv store keys, storeToModuleKeys store = Ret keys -> shares keys u ek ->
    mk_currentKeyId keys = keyId -> mk_contextId keys = contextId -> mk_moduleResourceId keys = resourceId ->
    (forall l, uv l = Ret ((fun _ => true) <$> l)) ->
    getFileDataStructureVersion file = Ret FileDataSchema.VERSION_5
    /\ validateFileDataIntegrity file (default [] (ct_resourceId store)) = Ret None
    /\ validateDecryptAndConvertFileDataToFileInfo host u uv file keys
       = Ret (opened_file file publicMeta privateMeta m priv)
    /\ exists k, getFileEncryptionParams host u uv file store
       = Ret (mkEncryptionParams (mkFileMeta publicMeta privateMeta m)
           {| fdp_fileId := sf_id file; fdp_resourceId := sf_resourceId file; fdp_sizeOnServer := u64 (sf_size file);
              fdp_originalSize := u64 (im_size m); fdp_cipherType := im_cipherType m;
              fdp_chunkSize := u64 (im_chunkSize m); fdp_key := hmacKey; fdp_hmac := hmac;
              fdp_version := sf_version file |} k).

Lemma sealed_file_opens file keyId resourceId ek publicMeta privateMeta m hmacKey hmac dio e :
  FileMetaEncryptorV5.sealed (file_text publicMeta privateMeta m dio) priv ek e -> sf_meta file = file5_toJSON e ->
  sf_keyId file = keyId -> sf_contextId file = contextId -> FileKeyIdFormatValidator.isKeyIdFormatValid keyId = true ->
  file_fits file resourceId dio = true -> im_key m = base64_from hmacKey -> im_hmac m = base64_from hmac ->
  file_opens keyId resourceId ek publicMeta privateMeta m hmacKey hmac file.
Proof.
  intros Hse Hm Hid Hctx Hfmt Hfit Hkey Hhmac u uv store keys Hst Hsh Hcur Hcx Hres Hu.
  destruct Hsh as (en & k & Hf & Hdec & Hdx & Hdr & Hck & Hs & Hki & <-).
  unfold storeToModuleKeys, moduleToModuleKeys in Hst. revert Hst. unfold_st. destruct (last_entry store); [|done].
  destruct (entry_version _); [|done]. intros [= <-].
  cbn [mk_keys mk_currentKeyId mk_contextId mk_moduleResourceId] in *.
  split; [by apply (sealed_version file publicMeta privateMeta m dio priv k e)|]. split; [|split].
  - rewrite Hres. by apply (sealed_fits file publicMeta privateMeta m dio priv k e).
  - unfold validateDecryptAndConvertFileDataToFileInfo, FileKeyIdFormatValidator.assertKeyIdFormat. unfold_st.
    rewrite Hid, Hfmt. apply try_with_ret. cbn.
    pose proof (sealed_file host file publicMeta privateMeta m dio priv k e Hse Hm Hs) as Hc.
    apply (item_opens (ItemKind0 := FileKind host) u uv file _ en k (opened_file file publicMeta privateMeta m priv) dio true);
      cbn; try done; try congruence; [by rewrite Hid, <- Hcur|apply Hu..].
  - exists k. unfold getFileEncryptionParams, file_key, module_location.
    erewrite one_key_found; [|by rewrite Hid, <- Hcur|exact Hdec|cbn; congruence|cbn; congruence|exact Hck|apply Hu].
    unfold_st. rewrite !at_singleton. by eapply sealed_params.
Qed.

(** ** The request that ends an upload *)

(** The metadata that describes an upload fit their encryption. *)
Definition describable (h : write_handle) (sent : ChunksSentInfo) : Prop := DataEncryptorV4.small (serialize (internal_meta h sent)).

Lemma finalize_request uv b publicMeta privateMeta h sent keys ek w :
  connected (W := W) me bridge contextId -> mk_contextId keys = contextId -> zlen ek = 32 ->
  mk_moduleSchemaVersion keys = StoreDataSchema.VERSION_5 -> hb_fileId b = [] ->
  DataEncryptorV4.small privateMeta -> describable h sent -> shares keys priv ek ->
  (forall l, uv l = Ret ((fun _ => true) <$> l)) ->
  exists model w', storeFileFinalizeWriteRequest priv uv bridge b publicMeta privateMeta h sent keys w
      = storeFileCreate model w'
    /\ fc_storeId model = hb_storeId b /\ fc_requestId model = cs_requestId sent /\ fc_keyId model = mk_currentKeyId keys
    /\ forall file, created_file model file ->
      FileKeyIdFormatValidator.isKeyIdFormatValid (mk_currentKeyId keys) = true ->
      file_opens (mk_currentKeyId keys) (mk_moduleResourceId keys) ek publicMeta privateMeta (internal_meta h sent)
        (cs_key sent) (cs_hmac sent) file.
Proof.
  intros Hc Hx Hl Hver Hnew Hp Hd Hsh Hu.
  destruct (shares_current keys priv ek uv Hsh Hu) as (k & Hk & Hks & _ & Hki & Hkk).
  unfold storeFileFinalizeWriteRequest, usable_current_key.
  assert (forall A (f : DecryptedEncKeyV2 -> ST W A) w0,
    (lift (key ← getAndValidateModuleCurrentEncKey priv uv keys;
           match k_statusCode key with Some _ => Throw StoreEncryptionKeyValidationException | None => mret key end)
     ≫= f) w0 = f k w0) as ->.
  { intros A f w0. unfold_st. by rewrite Hk, Hks. }
  destruct (cd_id _ _ _ Hc w) as [i0 Hi0]. step_fst Hi0 as w1.
  destruct (file_meta_encrypted (hb_storeId b) (hb_resourceId b) publicMeta privateMeta (internal_meta h sent)
    (i64 (wh_size h)) keys ek w1 Hc Hx Hl Hp Hd) as (e & t & i & w0 & He & Ht & Hse).
  rewrite Hver, Hkk. step_fst He as w2. rewrite (bool_decide_eq_true_2 _ Hnew).
  do 2 eexists. split; [reflexivity|]. do 2 (split; [reflexivity|]). split; [exact Hki|].
  intros file [Hr Hsto Hctx Hm Hkey Hmo Hdate] Hfmt. cbn in Hr, Hsto, Hm, Hkey.
  eapply sealed_file_opens; [exact Hse|exact Hm|congruence|exact Hctx|exact Hfmt| |reflexivity|reflexivity].
  apply content_fits_true. cbn. rewrite Hr, Hsto, Hctx, Hmo. do 5 (split; [done|]). by eapply Hdate.
Qed.

(** ** From the pieces to the readers *)

(** What the server has of an upload, it serves as the file's. *)
Record served_as (file : ServerFile) (f sums : bytes) (s : StoreServer.srv) : Prop := {
  sa_file : StoreServer.file_of s (sf_id file) = (f, sums);
  sa_version : StoreServer.version_of s (sf_id file) = sf_version file;
  sa_size : sf_size file = zlen f;
}.

(** Bounds of the reader's arithmetic, beside those of the upload. *)
Record read_bounds (cs scs size : Z) : Prop := {
  rb_scs : 0 < scs /\ scs + cs + 128 < 2 ^ 31;
  rb_count : enc_size cs * chunk_count cs size < (2 ^ 32 - 2) * scs;
}.

Lemma u64_id n : 0 <= n < 2 ^ 64 -> u64 n = n.
Proof. intros. by apply wrap_id. Qed.

Lemma upload_opens key rid cs S scs file T f hs s ek publicMeta privateMeta h params keyId resourceId u uv store keys :
  upload_bounds cs (zlen T) S -> read_bounds cs scs (zlen T) -> wh_size h = zlen T ->
  encodes (ChunkEncryptor.mk key cs) T f hs -> served_as file f (concat hs) s ->
  file_opens keyId resourceId ek publicMeta privateMeta
    (internal_meta h (mkSent 1 key (hmacSha256 key (concat hs)) cs rid)) key (hmacSha256 key (concat hs)) file ->
  storeToModuleKeys store = Ret keys -> shares keys u ek -> mk_currentKeyId keys = keyId ->
  mk_contextId keys = contextId -> mk_moduleResourceId keys = resourceId ->
  (forall l, uv l = Ret ((fun _ => true) <$> l)) ->
  getFileEncryptionParams host u uv file store = Ret params ->
  params_match (fep_fileDecryptionParams params) scs T s.
Proof.
  intros [Hcs HS Hsz Hcnt Htot] [Hscs Hrc] Hwh Henc [Hfile Hver Hsize] Ho Hst Hsh Hcur Hcx Hres Hu Hp.
  destruct (Ho u uv store keys Hst Hsh Hcur Hcx Hres Hu) as (_ & _ & _ & k & Hk). rewrite Hk in Hp. injection Hp as <-.
  pose proof (zlen_nonneg T). destruct Henc as (chs & Hea & Hf & Hh). pose proof Hea as [Hcount Hck].
  change (ChunkEncryptor._chunkSize (ChunkEncryptor.mk key cs)) with cs in Hcount.
  assert (H32 : forall x, x ∈ hs -> zlen x = HMAC_SIZE).
  { intros x Hx. rewrite Hh in Hx. apply list_elem_of_fmap in Hx as (c & -> & Hc).
    apply list_elem_of_lookup in Hc as [j Hj]. by destruct (Hck j c Hj) as (_ & _ & ?). }
  assert (Hlf : 0 <= zlen f < 2 ^ 62).
  { pose proof (encodes_zlen_le (ChunkEncryptor.mk key cs) T chs (proj1 Hcs) Hea) as Hle. rewrite <- Hf in Hle.
    change (ChunkEncryptor._chunkSize (ChunkEncryptor.mk key cs)) with cs in Hle.
    pose proof (enc_size_bounds cs ltac:(lia)). pose proof (zlen_nonneg f). nia. }
  assert (Hls : zlen (concat hs) = zlen chs * HMAC_SIZE).
  { rewrite (zlen_concat_const hs HMAC_SIZE H32), Hh. unfold zlen. by rewrite length_fmap. }
  assert (Hu64 : forall n, 0 <= n < 2 ^ 63 -> u64 (i64 n) = n) by (intros n Hn; rewrite i64_small, u64_id; lia).
  constructor; cbn [fep_fileDecryptionParams fdp_fileId fdp_version fdp_originalSize fdp_sizeOnServer fdp_chunkSize fdp_key
    fdp_hmac internal_meta im_size im_chunkSize cs_chunkSize]; rewrite ?Hfile, ?Hwh, ?(Hu64 cs) by lia; cbn [fst snd]; try done.
  - by rewrite Hu64 by lia.
  - by rewrite Hsize, u64_id by lia.
  - exists hs. split; [by exists chs|done].
  - rewrite Hls, Hcount. unfold HMAC_SIZE. lia.
Qed.
(** C3: a file reaches every member of its store: written in any pieces that
    make up its size, its upload is finished by a request under the store's
    current key; every holder of that key is shown the author's metadata, size
    and public key without an error status, and opens the file with parameters
    under which a handle on the server's committed file reads the pieces'
    bytes, if the server serves what it was sent and the verifiers accept. *)
Theorem file_delivered uv b publicMeta privateMeta keys ek key rid fidx cs S g s (ds : list bytes) w :
  let T := concat ds in
  connected (W := W) me bridge contextId -> mk_contextId keys = contextId -> zlen ek = 32 ->
  mk_moduleSchemaVersion keys = StoreDataSchema.VERSION_5 -> hb_fileId b = [] ->
  FileKeyIdFormatValidator.isKeyIdFormatValid (mk_currentKeyId keys) = true -> shares keys priv ek ->
  DataEncryptorV4.small privateMeta ->
  (forall hmac rw, zlen hmac = 32 -> DataEncryptorV4.small (serialize
     (mkInternalMeta 4 (zlen T) 1 cs (base64_from key) (base64_from hmac) (Some rw)))) ->
  (forall l, uv l = Ret ((fun _ => true) <$> l)) ->
  upload_bounds cs (zlen T) S -> received s rid fidx = ([], 0) ->
  exists h1 h2 sent f sums,
    for_each ds FileWriteHandle.write (new_upload key rid fidx (zlen T) cs S g s) = (Ret tt, h1)
    /\ FileWriteHandle.finalize h1 = (Ret sent, h2)
    /\ committed_file (ChunkStreamer.u_srv (wh_streamer h2)) rid fidx = Some (f, sums)
    /\ exists model w', storeFileFinalizeWriteRequest priv uv bridge b publicMeta privateMeta h2 sent keys w
        = storeFileCreate model w'
      /\ fc_storeId model = hb_storeId b /\ fc_requestId model = rid /\ fc_keyId model = mk_currentKeyId keys
      /\ forall file u uv' store keys', created_file model file -> storeToModuleKeys store = Ret keys' ->
        shares keys' u ek -> mk_currentKeyId keys' = mk_currentKeyId keys -> mk_contextId keys' = contextId ->
        mk_moduleResourceId keys' = mk_moduleResourceId keys -> (forall l, uv' l = Ret ((fun _ => true) <$> l)) ->
        exists F params, validateFileDataIntegrity file (default [] (ct_resourceId store)) = Ret None
          /\ validateDecryptAndConvertFileDataToFileInfo host u uv' file keys' = Ret F
          /\ f_statusCode F = None /\ f_publicMeta F = publicMeta /\ f_privateMeta F = privateMeta
          /\ f_size F = zlen T /\ f_authorPubKey F = toBase58DER (getPublicKey priv)
          /\ getFileEncryptionParams host u uv' file store = Ret params
          /\ forall scs server n, read_bounds cs scs (zlen T) -> served_as file f sums server -> 0 <= n < 2 ^ 64 ->
            exists h h', FileReadHandle.construct (fep_fileDecryptionParams params) scs server = (Ret h, server)
              /\ FileReadHandle.read n h = (Ret (ztake n T), h').
Proof.
  intros T Hc Hx Hl Hver Hnew Hfmt Hsh Hp Hsmall Hu Hb Hrec.
  destruct (upload_runs key rid fidx cs S g s ds Hb Hrec) as (h1 & h2 & f & hs & Hwr & Hfin & Hcom & Henc & Hsz).
  change (concat ds) with T in Hwr, Henc, Hsz.
  exists h1, h2, (mkSent 1 key (hmacSha256 key (concat hs)) cs rid), f, (concat hs). do 3 (split; [done|]).
  assert (i64 (zlen T) = zlen T /\ i64 cs = cs) as [HT Hcs]
    by (destruct Hb; split; apply i64_small; pose proof (zlen_nonneg T); lia).
  destruct (finalize_request uv b publicMeta privateMeta h2 (mkSent 1 key (hmacSha256 key (concat hs)) cs rid) keys ek w
    Hc Hx Hl Hver Hnew Hp) as (model & w' & Hr & Hs1 & Hs2 & Hs3 & Ho); [|done..|].
  { unfold describable, internal_meta. rewrite Hsz. cbn. rewrite HT, Hcs. apply Hsmall, hmacSha256_len. }
  exists model, w'. do 4 (split; [done|]). intros file u uv' store keys' Hcf Hst Hsh' Hcur Hcx Hres Hu'.
  specialize (Ho file Hcf Hfmt). destruct (Ho u uv' store keys' Hst Hsh' Hcur Hcx Hres Hu') as (_ & Hva & Hop & k & Hpar).
  do 2 eexists. split; [exact Hva|]. split; [exact Hop|]. do 3 (split; [reflexivity|]).
  split. { cbn. by rewrite Hsz. } split; [reflexivity|]. split; [exact Hpar|].
  intros scs server n Hrb Hsv Hn. pose proof (upload_opens key rid cs S scs file T f hs server ek publicMeta privateMeta h2 _ _ _
    u uv' store keys' Hb Hrb Hsz Henc Hsv Ho Hst Hsh' Hcur Hcx Hres Hu' Hpar) as Hm.
  destruct (open_and_read _ _ _ _ n Hm Hn) as (h & h' & Hco & Hre & _). by exists h, h'.
Qed.
End Flow.
