(* ===== verification/ThreadMessages.v ===== *)
(** * Messages

    The messages of [endpoint::thread] (endpoint/thread/src/ThreadApiImpl.cpp):
    the four structures a message may have, its integrity check, decryption and
    conversion, and the operations that send, update, fetch and list messages. *)

From Stdlib Require Import ZArith Lia Strings.String Strings.Byte.
From stdpp Require Import base list gmap fin_maps.
From S2P Require Import Prelude Bytes CoreTypes Crypto CryptoSuite Dynamic Encryptors Dio FieldData EncKeys ContentData ContainerData KeyProvider Utils StdMap Users Legacy Policies Containers Items Modules ContentItems Threads.
Import ModuleBaseApi ModuleApi.

Module MessageKeyIdFormatValidator.
Definition isKeyIdFormatValid (keyId : bytes) : bool := KeyIdFormatValidator.hasDefaultKeyIdFormat keyId.
Definition assertKeyIdFormat (keyId : bytes) : outcome unit :=
  if isKeyIdFormatValid keyId then mret tt else Throw IncorrectKeyIdFormatException.
End MessageKeyIdFormatValidator.

Module MessageDataSchema.
Definition UNKNOWN : Z := 0.
Definition VERSION_2 : Z := 2.
Definition VERSION_3 : Z := 3.
Definition VERSION_4 : Z := 4.
Definition VERSION_5 : Z := 5.
End MessageDataSchema.

(** ** Server and library messages *)
Record MessageUpdate := mkMessageUpdate { up_createDate : Z; up_author : bytes }.

Section Server.
Context `{!Dynamic}.

Record ServerMessage := mkServerMessage {
  sm_id : bytes;
  sm_resourceId : bytes;
  sm_version : Z;
  sm_contextId : bytes;
  sm_threadId : bytes;
  sm_createDate : Z;
  sm_author : bytes;
  sm_data : Var;
  sm_keyId : bytes;
  sm_updates : list MessageUpdate;
}.

(** [ThreadMessageSendModel], [ThreadMessageUpdateModel] *)
Record MessageSendModel := mkSendModel {
  ms_resourceId : bytes;
  ms_threadId : bytes;
  ms_data : Var;
  ms_keyId : bytes;
}.
Record MessageUpdateModel := mkMessageUpdateModel {
  mu_messageId : bytes;
  mu_data : Var;
  mu_keyId : bytes;
}.
End Server.

Record Message := mkMessage {
  m_threadId : bytes;
  m_messageId : bytes;
  m_createDate : Z;
  m_author : bytes;
  m_publicMeta : bytes;
  m_privateMeta : bytes;
  m_data : bytes;
  m_authorPubKey : bytes;
  m_statusCode : option exn;
  m_schemaVersion : Z;
}.

Definition m_set_statusCode (s : option exn) (m : Message) : Message := {|
  m_threadId := m_threadId m; m_messageId := m_messageId m; m_createDate := m_createDate m; m_author := m_author m;
  m_publicMeta := m_publicMeta m; m_privateMeta := m_privateMeta m; m_data := m_data m;
  m_authorPubKey := m_authorPubKey m; m_statusCode := s; m_schemaVersion := m_schemaVersion m |}.

#[export] Instance message_status : HasStatus Message :=
  {| status := m_statusCode; set_status := m_set_statusCode; status_set _ _ := eq_refl |}.

(** The JSON object of structure 4. *)
Class MessageJson {D : Dynamic} := {
  message4_toJSON : MessageDataEncryptorV4.EncryptedMessageDataV4 -> Var;
  message4_fromJSON : Var -> outcome MessageDataEncryptorV4.EncryptedMessageDataV4;
}.

(** The server's operations on messages. *)
Class MessageServer {D : Dynamic} (W : Type) := {
  threadMessageSend : MessageSendModel -> ST W bytes;
  threadMessageUpdate : MessageUpdateModel -> ST W unit;
  threadMessageDelete : bytes -> ST W unit;
  threadMessageGet : bytes -> ST W ServerMessage;
  threadMessagesGet : bytes -> ListModel -> ST W (ThreadInfo * list ServerMessage * Z);
}.

(** [server::InvalidThreadKeyException]'s code *)
Definition INVALID_THREAD_KEY : Z := 0x6002.

Module MessageApi.
#[local] Existing Instance MessageDataEncryptorV5.exceptions.

Section Data.
Context {C : CryptoService} {E : Ecc} {E0 : Encodings} {D : Dynamic}.
Context `{!KeyFormats PublicKey} `{!KeyEntryJson} `{!HashOrder} `{!ContentJson} `{!MessageJson}.
Context `{!JsonCodec DIOEncryptorV1.DioJson} `{!JsonCodec EncryptionKey}.
Context `{!JsonCodec MessageDataV2} `{!JsonCodec MessageDataV3}.
Implicit Types message : ServerMessage.

(** ** Decryption *)
Definition empty_author : MessageDataAuthor := mkAuthor [] [].
Definition empty_v2 : MessageDataV2 := {| m2_v := 0; m2_msgId := []; m2_type := []; m2_text := []; m2_date := 0;
  m2_deleted := false; m2_author := empty_author; m2_destination := mkDestination [] [] [] |}.
Definition empty_v3 : MessageDataV3 := {| m3_v := 0; m3_publicMeta := []; m3_privateMeta := []; m3_data := [] |}.

(** The data with its status. *)
Definition decryptMessageDataV2 message (encKey : DecryptedEncKeyV2) : outcome (MessageDataV2 * option exn) :=
  try_with every_exn (
    text ← string_of (sm_data message);
    msg ← MessageDataV2Encryptor.decryptAndGetSign text (k_key encKey);
    mret (sg_data msg, sg_statusCode msg)) (fun code => (empty_v2, Some code)).

Definition decryptMessageDataV3 message (encKey : DecryptedEncKeyV2) : outcome (MessageDataV3 * option exn) :=
  try_with every_exn (
    text ← string_of (sm_data message);
    msg ← MessageDataV3Encryptor.decryptAndGetSign text (k_key encKey);
    mret (sg_data msg, sg_statusCode msg)) (fun code => (empty_v3, Some code)).

Definition decryptMessageDataV4 message (encKey : DecryptedEncKeyV2) :
    outcome MessageDataEncryptorV4.DecryptedMessageDataV4 :=
  try_with every_exn (
    encryptedMessageData ← message4_fromJSON (sm_data message);
    MessageDataEncryptorV4.decrypt encryptedMessageData (k_key encKey))
  (fun code => MessageDataEncryptorV4.set_statusCode (Some code) MessageDataEncryptorV4.fresh).

Definition decryptMessageDataV5 message (encKey : DecryptedEncKeyV2) : outcome DecryptedContent :=
  decryptContentV5 (sm_data message) encKey.

(** ** Conversion *)
Definition convertServerMessageToLibMessage message (publicMeta privateMeta data authorPubKey : bytes)
    (statusCode : option exn) (schemaVersion : Z) : Message := {|
  m_threadId := sm_threadId message; m_messageId := sm_id message; m_createDate := sm_createDate message;
  m_author := sm_author message; m_publicMeta := publicMeta; m_privateMeta := privateMeta; m_data := data;
  m_authorPubKey := authorPubKey; m_statusCode := statusCode; m_schemaVersion := schemaVersion |}.

Definition failed_message message (code : exn) : Message :=
  convertServerMessageToLibMessage message [] [] [] [] (Some code) MessageDataSchema.UNKNOWN.

(** Of structure 2 the author's key alone is kept. *)
Definition convertMessageDataV2ToMessage message (d : MessageDataV2 * option exn) : Message :=
  convertServerMessageToLibMessage message [] [] [] (author_pubKey (m2_author d.1)) d.2 MessageDataSchema.VERSION_2.
Definition convertMessageDataV3ToMessage message (d : MessageDataV3 * option exn) : Message :=
  convertServerMessageToLibMessage message (m3_publicMeta d.1) (m3_privateMeta d.1) (m3_data d.1) [] d.2
    MessageDataSchema.VERSION_3.
Definition convertDecryptedMessageDataV4ToMessage message (d : MessageDataEncryptorV4.DecryptedMessageDataV4) : Message :=
  convertServerMessageToLibMessage message (MessageDataEncryptorV4.d4_publicMeta d)
    (MessageDataEncryptorV4.d4_privateMeta d) (MessageDataEncryptorV4.d4_data d)
    (MessageDataEncryptorV4.d4_authorPubKey d) (MessageDataEncryptorV4.d4_statusCode d) MessageDataSchema.VERSION_4.
Definition convertDecryptedMessageDataV5ToMessage message (d : DecryptedContent) : Message :=
  convertServerMessageToLibMessage message (out_publicMeta d) (out_privateMeta d) (out_data d)
    (out_authorPubKey d) (statusCode d) MessageDataSchema.VERSION_5.

Definition getMessagesDataStructureVersion (data : Var) : outcome Z :=
  if is_object data then
    version ← versioned data;
    mret (if bool_decide (version = MessageDataSchema.VERSION_4) then MessageDataSchema.VERSION_4
          else if bool_decide (version = MessageDataSchema.VERSION_5) then MessageDataSchema.VERSION_5
          else MessageDataSchema.UNKNOWN)
  else if is_string data then
    text ← string_of data;
    b ← base64_to text;
    mret (if DataEncryptorUtil.hasSign b then MessageDataSchema.VERSION_3 else MessageDataSchema.VERSION_2)
  else mret MessageDataSchema.UNKNOWN.

(** Who wrote the message last, and when. *)
Definition last_author message : bytes :=
  match last (sm_updates message) with Some u => up_author u | None => sm_author message end.
Definition last_date message : Z :=
  match last (sm_updates message) with Some u => up_createDate u | None => sm_createDate message end.

Definition made_up_message_dio message (creatorPubKey : bytes) : DataIntegrityObject :=
  mkDIO (last_author message) creatorPubKey (sm_contextId message) (sm_resourceId message) (last_date message) []
    (Some (sm_threadId message)) (Some []) None.

Definition decryptAndConvertMessageDataToMessage message (encKey : DecryptedEncKeyV2) :
    outcome (Message * DataIntegrityObject) :=
  version ← getMessagesDataStructureVersion (sm_data message);
  if bool_decide (version = MessageDataSchema.VERSION_2) then
    d ← decryptMessageDataV2 message encKey;
    mret (convertMessageDataV2ToMessage message d, made_up_message_dio message [])
  else if bool_decide (version = MessageDataSchema.VERSION_3) then
    d ← decryptMessageDataV3 message encKey;
    mret (convertMessageDataV3ToMessage message d, made_up_message_dio message [])
  else if bool_decide (version = MessageDataSchema.VERSION_4) then
    d ← decryptMessageDataV4 message encKey;
    mret (convertDecryptedMessageDataV4ToMessage message d,
          made_up_message_dio message (MessageDataEncryptorV4.d4_authorPubKey d))
  else if bool_decide (version = MessageDataSchema.VERSION_5) then
    d ← decryptMessageDataV5 message encKey;
    mret (convertDecryptedMessageDataV5ToMessage message d, out_dio d)
  else mret (failed_message message UnknowMessageFormatException, empty_dio).

(** ** Integrity *)
Definition message_fits message (threadResourceId : bytes) (dio : DataIntegrityObject) : bool :=
  content_fits dio (sm_contextId message) (sm_resourceId message) (sm_threadId message) threadResourceId
    (last_author message) (last_date message).

Definition validateMessageDataIntegrity message (threadResourceId : bytes) : outcome (option exn) :=
  try_with every_exn (
    version ← getMessagesDataStructureVersion (sm_data message);
    if bool_decide (version = MessageDataSchema.VERSION_2) || bool_decide (version = MessageDataSchema.VERSION_3)
       || bool_decide (version = MessageDataSchema.VERSION_4) then mret None
    else if bool_decide (version = MessageDataSchema.VERSION_5) then
      encData ← cj5_fromJSON (sm_data message);
      dio ← MessageDataEncryptorV5.getDIOAndAssertIntegrity encData;
      mret (if message_fits message threadResourceId dio then None else Some MessageDataIntegrityException)
    else mret (Some UnknowMessageFormatException)) Some.

#[export] Instance MessageKind : ItemKind ServerMessage Message := {|
  it_keyId := sm_keyId;
  it_contextId := sm_contextId;
  res_author := m_author;
  res_authorPubKey := m_authorPubKey;
  res_createDate := m_createDate;
  failed := failed_message;
  Items.validateDataIntegrity := validateMessageDataIntegrity;
  decryptAndConvert := decryptAndConvertMessageDataToMessage |}.

#[export] Instance MessageContent : ContentKind ServerMessage Message := {|
  it_data := sm_data;
  content_version := getMessagesDataStructureVersion;
  content_integrity := MessageDataIntegrityException;
  it_fits := message_fits;
  convertDecrypted := convertDecryptedMessageDataV5ToMessage |}.

(** ** One message, and a list of them *)
Context (_userPrivKey : PrivateKey) (_userVerifier : list VerificationRequest -> outcome (list bool)).

Definition validateDecryptAndConvertMessageDataToMessage message (threadKeys : ModuleKeys) : outcome Message :=
  try_with every_exn (
    statusCode ← validateMessageDataIntegrity message (mk_moduleResourceId threadKeys);
    match statusCode with
    | Some code => mret (failed_message message code)
    | None =>
        _ ← MessageKeyIdFormatValidator.assertKeyIdFormat (sm_keyId message);
        decryptAndVerifyItem _userPrivKey _userVerifier message threadKeys
    end) (failed_message message).

Definition validateDecryptAndConvertMessagesDataToMessages (messages : list ServerMessage) (threadKeys : ModuleKeys) :
    outcome (list Message) :=
  decryptAndVerifyItems _userPrivKey _userVerifier every_exn messages threadKeys.

(** ** Operations *)
Context `{!ModuleJson} `{!JsonCodec ModuleDataEncryptorV5.ModuleInternalMetaV5} `{!JsonCodec ThreadDataV1}.
Context (_bridgeIdentity : option BridgeIdentity).
Context {W : Type} `{!ConnectionWorld W} `{!ContainerServer ThreadExtra W} `{!MessageServer W}.
#[local] Existing Instance ThreadApi.ThreadKind.

Definition getModuleKeys (moduleId : bytes) (keyIds : option (gset bytes)) (minimumSchemaVersion : option Z) : ST W ModuleKeys :=
  moduleKeysOf (X := ThreadExtra) moduleId keyIds minimumSchemaVersion.

Definition getMessageDecryptionKeys message : ST W ModuleKeys :=
  version ← lift (getMessagesDataStructureVersion (sm_data message));
  let minimumThreadSchemaVersion :=
    if bool_decide (version = MessageDataSchema.VERSION_5) then ThreadDataSchema.VERSION_5
    else if bool_decide (version = MessageDataSchema.UNKNOWN) then ThreadDataSchema.UNKNOWN
    else ThreadDataSchema.VERSION_1 in
  getModuleKeys (sm_threadId message) (Some {[ sm_keyId message ]}) (Some minimumThreadSchemaVersion).

Definition encryptMessageData (threadId resourceId publicMeta privateMeta data : bytes) (threadKeys : ModuleKeys) :
    ST W Var :=
  msgKey ← lift (getAndValidateModuleCurrentEncKey _userPrivKey _userVerifier threadKeys);
  if bool_decide (k_dataStructureVersion msgKey = KeyProvider.VERSION_1) then
    encryptedMessageData ← on_rng (MessageDataEncryptorV4.encrypt
      {| MessageDataEncryptorV4.in4_publicMeta := publicMeta; MessageDataEncryptorV4.in4_privateMeta := privateMeta;
         MessageDataEncryptorV4.in4_data := data; MessageDataEncryptorV4.in4_internalMeta := None |}
      _userPrivKey (k_key msgKey));
    mret (message4_toJSON encryptedMessageData)
  else if bool_decide (k_dataStructureVersion msgKey = KeyProvider.VERSION_2) then
    encryptContentV5 _userPrivKey _bridgeIdentity threadId resourceId publicMeta privateMeta data threadKeys msgKey
  else throw UnknowThreadFormatException.

Definition sendMessageRequest (threadId publicMeta privateMeta data : bytes) (keys : ModuleKeys) : ST W bytes :=
  msgKey ← lift (usable_current_key _userPrivKey _userVerifier ThreadEncryptionKeyValidationException keys);
  resourceId ← generateId;
  d ← encryptMessageData threadId resourceId publicMeta privateMeta data keys;
  threadMessageSend (mkSendModel resourceId threadId d (k_id msgKey)).

Definition sendMessage (threadId publicMeta privateMeta data : bytes) : ST W bytes :=
  with_newest_keys ThreadApi.getModuleKeysAndVersionFromServer INVALID_THREAD_KEY threadId
    (sendMessageRequest threadId publicMeta privateMeta data).

Definition updateMessageRequest (messageId resourceId threadId publicMeta privateMeta data : bytes) (keys : ModuleKeys) :
    ST W unit :=
  msgKey ← lift (usable_current_key _userPrivKey _userVerifier ThreadEncryptionKeyValidationException keys);
  d ← encryptMessageData threadId resourceId publicMeta privateMeta data keys;
  threadMessageUpdate (mkMessageUpdateModel messageId d (k_id msgKey)).

Definition updateMessage (messageId publicMeta privateMeta data : bytes) : ST W unit :=
  message ← threadMessageGet messageId;
  with_newest_keys ThreadApi.getModuleKeysAndVersionFromServer INVALID_THREAD_KEY (sm_threadId message)
    (fun keys =>
       resourceId ← (if bool_decide (sm_resourceId message = []) then generateId else mret (sm_resourceId message));
       updateMessageRequest messageId resourceId (sm_threadId message) publicMeta privateMeta data keys).

Definition deleteMessage (messageId : bytes) : ST W unit := threadMessageDelete messageId.

Definition getMessage (messageId : bytes) : ST W Message :=
  message ← threadMessageGet messageId;
  keys ← getMessageDecryptionKeys message;
  lift (validateDecryptAndConvertMessageDataToMessage message keys).

Definition listMessages (threadId : bytes) (pagingQuery : PagingQuery) : ST W (list Message * Z) :=
  model ← lift (map_query pagingQuery);
  '(thread, messages, count) ← threadMessagesGet threadId model;
  _ ← lift (ThreadApi.assertThreadDataIntegrity thread);
  _ ← remember thread;
  keys ← lift (ThreadApi.threadToModuleKeys thread);
  result ← lift (validateDecryptAndConvertMessagesDataToMessages messages keys);
  mret (result, count).
End Data.

Section Laws.
Context {C : CryptoService} `{!CryptoLaws C} {E : Ecc} `{!EccLaws E} {E0 : Encodings} `{!EncodingsLaws E0}.
Context {D : Dynamic} `{!KeyFormats PublicKey} `{!KeyFormatsLaws PublicKey}.
Context `{!KeyEntryJson} `{!KeyEntryJsonLaws} `{!HashOrder} `{!ContentJson} `{!ContentJsonLaws} `{!MessageJson}.
Context `{!JsonCodec DIOEncryptorV1.DioJson} `{!JsonCodecLaws DIOEncryptorV1.DioJson}.
Context `{!JsonCodec EncryptionKey} `{!JsonCodecLaws EncryptionKey}.
Context `{!JsonCodec MessageDataV2} `{!JsonCodec MessageDataV3}.
Implicit Types message : ServerMessage.

#[export] Instance MessageContentLaws : ContentKindLaws ServerMessage Message.
Proof.
  split; cbn.
  - intros e He. unfold getMessagesDataStructureVersion. rewrite cj5_is_object, cj5_versioned, He. by vm_compute.
  - intros message rid Hv. unfold validateMessageDataIntegrity. by rewrite Hv.
  - intros message key Hv. unfold decryptAndConvertMessageDataToMessage. by rewrite Hv.
  - done.
  - done.
Qed.

(** The structure a result says it had is the structure the message has. *)
Lemma schema_version_5 message k r dio : decryptAndConvertMessageDataToMessage message k = Ret (r, dio) ->
  m_schemaVersion r = MessageDataSchema.VERSION_5 -> getMessagesDataStructureVersion (sm_data message) = Ret 5.
Proof.
  unfold decryptAndConvertMessageDataToMessage. unfold_st.
  destruct (getMessagesDataStructureVersion (sm_data message)) as [v|]; [|done].
  case_bool_decide; [destruct (decryptMessageDataV2 _ _); [|done]; by intros [= <- _]|].
  case_bool_decide; [destruct (decryptMessageDataV3 _ _); [|done]; by intros [= <- _]|].
  case_bool_decide; [destruct (decryptMessageDataV4 _ _); [|done]; by intros [= <- _]|].
  case_bool_decide; [by subst|]. by intros [= <- _].
Qed.

(** A message that comes back without an error status passed each step. *)
Lemma message_opened priv uv message keys m :
  validateDecryptAndConvertMessageDataToMessage priv uv message keys = Ret m -> m_statusCode m = None ->
  validateMessageDataIntegrity message (mk_moduleResourceId keys) = Ret None
  /\ MessageKeyIdFormatValidator.isKeyIdFormatValid (sm_keyId message) = true
  /\ decryptAndVerifyItem priv uv message keys = Ret m.
Proof.
  intros [Hm|(? & ? & _ & _ & ->)]%try_with_inv; [|done]. revert Hm. unfold_st.
  destruct (validateMessageDataIntegrity _ _) as [[]|]; [by intros [= <-]| |done].
  unfold MessageKeyIdFormatValidator.assertKeyIdFormat.
  destruct (MessageKeyIdFormatValidator.isKeyIdFormatValid _); [|done]. done.
Qed.


Lemma failed_message_status message code : is_Some (status (failed message code)).
Proof. by exists code. Qed.

(** A converted message is the server's message by name. *)
Lemma converted_id message k r dio : decryptAndConvertMessageDataToMessage message k = Ret (r, dio) ->
  m_messageId r = sm_id message /\ m_author r = sm_author message.
Proof.
  unfold decryptAndConvertMessageDataToMessage. unfold_st.
  destruct (getMessagesDataStructureVersion (sm_data message)) as [v|]; [|done].
  case_bool_decide; [destruct (decryptMessageDataV2 _ _); [|done]; by intros [= <- _]|].
  case_bool_decide; [destruct (decryptMessageDataV3 _ _); [|done]; by intros [= <- _]|].
  case_bool_decide; [destruct (decryptMessageDataV4 _ _); [|done]; by intros [= <- _]|].
  case_bool_decide; [destruct (decryptMessageDataV5 _ _); [|done]; by intros [= <- _]|]. by intros [= <- _].
Qed.

(** a list of messages comes back with one result for each, in order, and a
    result without an error status is the message at its place: it passed its
    own integrity check and was converted under the key of its own id. *)
Theorem messages_listed priv uv messages keys ms :
  validateDecryptAndConvertMessagesDataToMessages priv uv messages keys = Ret ms ->
  exists keyMap : KeyProvider.key_map, Forall2 (fun message m => m_statusCode m = None ->
    m_messageId m = sm_id message /\ m_author m = sm_author message
    /\ validateMessageDataIntegrity message (mk_moduleResourceId keys) = Ret None
    /\ exists k m0 dio, keyMap !! sm_keyId message = Some k
         /\ decryptAndConvertMessageDataToMessage message k = Ret (m0, dio)
         /\ m_statusCode m0 = None /\ m = m_set_statusCode None m0) messages ms.
Proof.
  intros Hl. destruct (items_stand priv uv every_exn messages keys ms failed_message_status Hl) as [keyMap HF].
  exists keyMap. eapply Forall2_impl; [exact HF|]. intros message m Hm Hs.
  destruct (Hm Hs) as (m0 & Hs0 & -> & Hst). destruct (Hst Hs0) as (k & dio & Hk & Hv & Hc).
  destruct (converted_id _ _ _ _ Hc) as [Hi Ha]. split; [exact Hi|]. split; [exact Ha|]. split; [exact Hv|].
  by exists k, m0, dio.
Qed.

(** a message that lists fine alone, listed after one under the same key
    that fails its integrity check, makes the listing read beyond the
    collected integrity objects: the failed message has a result but no
    object, and the objects are read at the results' positions. *)
Theorem messages_misaligned priv uv bad good keys e m : sm_keyId bad = sm_keyId good ->
  validateMessageDataIntegrity bad (mk_moduleResourceId keys) = Ret (Some e) ->
  validateDecryptAndConvertMessagesDataToMessages priv uv [good] keys = Ret [m] -> m_statusCode m = None ->
  validateDecryptAndConvertMessagesDataToMessages priv uv [bad; good] keys = Throw UndefinedBehaviour.
Proof. intros. eapply listing_misaligned; [exact failed_message_status|done..]. Qed.
End Laws.
End MessageApi.
