(* ===== verification/InboxData.v ===== *)
(** * The data of an inbox

    [InboxDataProcessorV5] and [InboxDataProcessorV4] (endpoint/inbox/src/
    encryptors/inbox) and [InboxDataHelper] (endpoint/inbox/src/
    InboxDataHelper.cpp): the public data, which everyone may read, and the
    private data of the inbox's members. *)

From Stdlib Require Import ZArith Lia Strings.String Strings.Byte.
From stdpp Require Import base list gmap.
From S2P Require Import Prelude Bytes CoreTypes Crypto CryptoSuite Dynamic Encryptors Dio FieldData EncKeys KeyProvider.
Import DataEncryptorV4.

Module InboxDataSchema.
Definition UNKNOWN : Z := 0.
Definition VERSION_4 : Z := 4.
Definition VERSION_5 : Z := 5.
End InboxDataSchema.

(** [FilesConfig], of the library and of the server. *)
Record FilesConfig := mkFilesConfig { fc_minCount : Z; fc_maxCount : Z; fc_maxFileSize : Z; fc_maxWholeUploadSize : Z }.

Module InboxDataHelper.
Section Helper.
Context `{CryptoService} `{!Encodings}.

Definition getRandomName : ST rng bytes := name ← random 8; mret (base64_from name).

Definition fileConfigToTypedObject (fileConfig : FilesConfig) : FilesConfig := {|
  fc_minCount := fc_minCount fileConfig; fc_maxCount := fc_maxCount fileConfig;
  fc_maxFileSize := fc_maxFileSize fileConfig; fc_maxWholeUploadSize := fc_maxWholeUploadSize fileConfig |}.
Definition fileConfigFromTypedObject (fileConfig : FilesConfig) : FilesConfig := {|
  fc_minCount := fc_minCount fileConfig; fc_maxCount := fc_maxCount fileConfig;
  fc_maxFileSize := fc_maxFileSize fileConfig; fc_maxWholeUploadSize := fc_maxWholeUploadSize fileConfig |}.

Definition mapUsers (users : list UserWithPubKey) : list bytes := u_userId <$> users.
End Helper.
End InboxDataHelper.

(** ** The structures *)
Record InboxInternalMetaV5 := { secret : bytes; resourceId : bytes; randomId : bytes }.
Definition no_internal : InboxInternalMetaV5 := {| secret := []; resourceId := []; randomId := [] |}.

(** [InboxPublicDataV4] and [V5] have the same fields, and so do the server's. *)
Record InboxPublicData := mkPublicData {
  pd_publicMeta : bytes;
  pd_inboxEntriesPubKeyBase58DER : bytes;
  pd_inboxEntriesKeyId : bytes;
}.

Record InboxPrivateDataV5 := mkPrivateData5 {
  vd_privateMeta : bytes;
  vd_internalMeta : InboxInternalMetaV5;
  vd_dio : DataIntegrityObject;
}.

Record InboxPrivateDataV4 := mkPrivateData4 { vd4_privateMeta : bytes; vd4_internalMeta : option bytes }.

Record InboxDataProcessorModel {P : Type} := mkModel {
  im_storeId : bytes;
  im_threadId : bytes;
  im_filesConfig : FilesConfig;
  im_privateData : P;
  im_publicData : InboxPublicData;
}.
Arguments InboxDataProcessorModel P : clear implicits.

Section Server.
Context `{!Dynamic}.

(** [server::PublicDataV4], [server::PublicDataV5] *)
Record PublicData := {
  public_version : Z;
  publicMeta : bytes;
  publicMetaObject : option Var;
  public_authorPubKey : bytes;
  inboxPubKey : bytes;
  inboxKeyId : bytes;
}.

Record PrivateDataV5 := {
  private_version : Z;
  privateMeta : bytes;
  internalMeta : bytes;
  authorPubKey : bytes;
  dio : bytes;
}.

Record PrivateDataV4 := {
  private4_version : Z;
  privateMeta4 : bytes;
  internalMeta4 : option bytes;
  authorPubKey4 : bytes;
}.

(** [server::InboxData] *)
Record InboxData := mkInboxData {
  id_threadId : bytes;
  id_storeId : bytes;
  id_fileConfig : FilesConfig;
  id_meta : Var;
  id_publicData : Var;
}.
End Server.

(** Their JSON objects, the same for the public data of both versions. *)
Class InboxJson `{Dynamic} := {
  public_toJSON : PublicData -> Var;
  public_fromJSON : Var -> outcome PublicData;
  private5_toJSON : PrivateDataV5 -> Var;
  private5_fromJSON : Var -> outcome PrivateDataV5;
  private4_toJSON : PrivateDataV4 -> Var;
  private4_fromJSON : Var -> outcome PrivateDataV4;
}.
Class InboxJsonLaws `{KeyEntryJson} `{!InboxJson} : Prop := {
  public_inv d : public_fromJSON (public_toJSON d) = Ret d;
  public_is_object d : is_object (public_toJSON d) = true;
  public_versioned d : versioned (public_toJSON d) = Ret (public_version d);
  private5_inv d : private5_fromJSON (private5_toJSON d) = Ret d;
  private5_is_object d : is_object (private5_toJSON d) = true;
  private5_versioned d : versioned (private5_toJSON d) = Ret (private_version d);
}.

(** ** Results *)
Record PublicResult := mkPublicResult {
  pr_dataStructureVersion : Z;
  pr_statusCode : option exn;
  pr_publicMeta : bytes;
  pr_inboxEntriesPubKeyBase58DER : bytes;
  pr_inboxEntriesKeyId : bytes;
  pr_authorPubKey : bytes;
}.

(** The private part, [I] of its internal metadata. *)
Record PrivateResult {I : Type} := mkPrivateResult {
  vr_dataStructureVersion : Z;
  vr_statusCode : option exn;
  vr_privateMeta : bytes;
  vr_internalMeta : I;
  vr_dio : DataIntegrityObject;
  vr_authorPubKey : bytes;
}.
Arguments PrivateResult I : clear implicits.

Record InboxDataResult {I : Type} := mkDataResult {
  dr_storeId : bytes;
  dr_threadId : bytes;
  dr_filesConfig : FilesConfig;
  dr_publicData : PublicResult;
  dr_privateData : PrivateResult I;
  dr_statusCode : option exn;
}.
Arguments InboxDataResult I : clear implicits.

Section Setters.
Implicit Types r : PublicResult.
Definition pr_set_statusCode (x : option exn) r : PublicResult := {|
  pr_dataStructureVersion := pr_dataStructureVersion r; pr_statusCode := x; pr_publicMeta := pr_publicMeta r;
  pr_inboxEntriesPubKeyBase58DER := pr_inboxEntriesPubKeyBase58DER r; pr_inboxEntriesKeyId := pr_inboxEntriesKeyId r;
  pr_authorPubKey := pr_authorPubKey r |}.
Definition pr_set_publicMeta (x : bytes) r : PublicResult := {|
  pr_dataStructureVersion := pr_dataStructureVersion r; pr_statusCode := pr_statusCode r; pr_publicMeta := x;
  pr_inboxEntriesPubKeyBase58DER := pr_inboxEntriesPubKeyBase58DER r; pr_inboxEntriesKeyId := pr_inboxEntriesKeyId r;
  pr_authorPubKey := pr_authorPubKey r |}.
(** The three assignments at the end. *)
Definition pr_set_entries (pub keyId author : bytes) r : PublicResult := {|
  pr_dataStructureVersion := pr_dataStructureVersion r; pr_statusCode := pr_statusCode r;
  pr_publicMeta := pr_publicMeta r; pr_inboxEntriesPubKeyBase58DER := pub; pr_inboxEntriesKeyId := keyId;
  pr_authorPubKey := author |}.

Context {I : Type}.
Implicit Types v : PrivateResult I.
Definition vr_set_statusCode (x : option exn) v : PrivateResult I := {|
  vr_dataStructureVersion := vr_dataStructureVersion v; vr_statusCode := x; vr_privateMeta := vr_privateMeta v;
  vr_internalMeta := vr_internalMeta v; vr_dio := vr_dio v; vr_authorPubKey := vr_authorPubKey v |}.
Definition vr_set_privateMeta (x : bytes) v : PrivateResult I := {|
  vr_dataStructureVersion := vr_dataStructureVersion v; vr_statusCode := vr_statusCode v; vr_privateMeta := x;
  vr_internalMeta := vr_internalMeta v; vr_dio := vr_dio v; vr_authorPubKey := vr_authorPubKey v |}.
Definition vr_set_internalMeta (x : I) v : PrivateResult I := {|
  vr_dataStructureVersion := vr_dataStructureVersion v; vr_statusCode := vr_statusCode v;
  vr_privateMeta := vr_privateMeta v; vr_internalMeta := x; vr_dio := vr_dio v; vr_authorPubKey := vr_authorPubKey v |}.
Definition vr_set_dio (x : DataIntegrityObject) v : PrivateResult I := {|
  vr_dataStructureVersion := vr_dataStructureVersion v; vr_statusCode := vr_statusCode v;
  vr_privateMeta := vr_privateMeta v; vr_internalMeta := vr_internalMeta v; vr_dio := x;
  vr_authorPubKey := vr_authorPubKey v |}.
Definition vr_set_authorPubKey (x : bytes) v : PrivateResult I := {|
  vr_dataStructureVersion := vr_dataStructureVersion v; vr_statusCode := vr_statusCode v;
  vr_privateMeta := vr_privateMeta v; vr_internalMeta := vr_internalMeta v; vr_dio := vr_dio v; vr_authorPubKey := x |}.
End Setters.

#[export] Instance public_status : HasStatus PublicResult :=
  {| status := pr_statusCode; set_status := pr_set_statusCode; status_set _ _ := eq_refl |}.
#[export] Instance private_status {I} : HasStatus (PrivateResult I) :=
  {| status := vr_statusCode; set_status := vr_set_statusCode; status_set _ _ := eq_refl |}.

Definition fresh_public (version : Z) : PublicResult := mkPublicResult version None [] [] [] [].
Definition fresh_private {I} (version : Z) (i : I) : PrivateResult I := mkPrivateResult I version None [] i empty_dio [].
(** [InboxPrivateData...AsResult()] of a result whose public part failed: its
    numbers have no value (0 here). *)
Definition no_private {I} (i : I) : PrivateResult I := fresh_private 0 i.

(** [result.statusCode = ...; if (result.statusCode != 0) return result;] *)
Definition unpack_all {D : Dynamic} {I} (none : I) (unpackPublic : Var -> outcome PublicResult)
    (unpackPrivate : Var -> outcome (PrivateResult I)) (encryptedData : InboxData) : outcome (InboxDataResult I) :=
  public ← unpackPublic (id_publicData encryptedData);
  let result := mkDataResult I (id_storeId encryptedData) (id_threadId encryptedData)
    (InboxDataHelper.fileConfigFromTypedObject (id_fileConfig encryptedData)) public in
  match pr_statusCode public with
  | Some code => mret (result (no_private none) (Some code))
  | None => private ← unpackPrivate (id_meta encryptedData); mret (result private (vr_statusCode private))
  end.

Section Public.
Context `{Ecc} `{!Encodings} `{!Dynamic} `{!KeyFormats PublicKey} `{!InboxJson}.

(** What [packForServer] makes of the public data. *)
Definition pack_public (version : Z) (d : InboxPublicData) (authorPrivateKey : PrivateKey) : PublicData := {|
  public_version := version;
  publicMeta := signAndEncode (pd_publicMeta d) authorPrivateKey;
  publicMetaObject := parsed_object (pd_publicMeta d);
  public_authorPubKey := toBase58DER (getPublicKey authorPrivateKey);
  inboxPubKey := pd_inboxEntriesPubKeyBase58DER d;
  inboxKeyId := pd_inboxEntriesKeyId d |}.

(** What [unpackPublic] does with it once its version is known. *)
Definition read_public (d : PublicData) : ST PublicResult unit :=
  authorPublicKey ← lift (fromBase58DER (public_authorPubKey d));
  m ← lift (decodeAndVerify (publicMeta d) authorPublicKey);
  _ ← modify (pr_set_publicMeta m);
  differs ← lift (object_differs (publicMetaObject d) m);
  _ ← modify (if (differs : bool) then pr_set_statusCode (Some InboxPublicDataMismatchException) else id);
  modify (pr_set_entries (inboxPubKey d) (inboxKeyId d) (public_authorPubKey d)).
End Public.

(** ** Version 5 *)
Module InboxDataProcessorV5.
Section Processor.
Context `{Ecc} `{!Encodings} `{!Dynamic} `{!KeyFormats PublicKey} `{!InboxJson}.
Context `{!JsonCodec DIOEncryptorV1.DioJson} `{!JsonCodec InboxInternalMetaV5}.

Definition packForServer (plainData : InboxDataProcessorModel InboxPrivateDataV5) (authorPrivateKey : PrivateKey)
    (inboxKey : bytes) : ST rng InboxData :=
  let serverPublicData := pack_public 5 (im_publicData plainData) authorPrivateKey in
  let private := im_privateData plainData in
  privateMeta ← signAndEncryptAndEncode (vd_privateMeta private) authorPrivateKey inboxKey;
  internalMeta ← signAndEncryptAndEncode (serialize (vd_internalMeta private)) authorPrivateKey inboxKey;
  let fieldChecksums : checksums :=
    {[ lit "privateMeta" := sha256 privateMeta; lit "internalMeta" := sha256 internalMeta ]} in
  let expandedDio := {| Dio.dio := vd_dio private; structureVersion := 5; fieldChecksums := fieldChecksums |} in
  dio ← lift (DIOEncryptorV1.signAndEncode expandedDio authorPrivateKey);
  let serverPrivateData := {| private_version := 5; privateMeta := privateMeta; internalMeta := internalMeta;
    authorPubKey := toBase58DER (getPublicKey authorPrivateKey); dio := dio |} in
  mret (mkInboxData (im_threadId plainData) (im_storeId plainData)
    (InboxDataHelper.fileConfigToTypedObject (im_filesConfig plainData))
    (private5_toJSON serverPrivateData) (public_toJSON serverPublicData)).

(** [assertDataFormat]: of the private data the internal metadata is not asked for. *)
Definition assertPublicDataFormat (d : PublicData) : outcome unit :=
  if bool_decide (public_version d <> 5) || bool_decide (publicMeta d = []) || bool_decide (public_authorPubKey d = [])
     || bool_decide (inboxPubKey d = []) || bool_decide (inboxKeyId d = [])
  then Throw InvalidEncryptedInboxDataVersionException else Ret tt.
Definition assertDataFormat (d : PrivateDataV5) : outcome unit :=
  if bool_decide (private_version d <> 5) || bool_decide (privateMeta d = []) || bool_decide (authorPubKey d = [])
     || bool_decide (dio d = [])
  then Throw InvalidEncryptedInboxDataVersionException else Ret tt.

Definition getDIOAndAssertIntegrity (e : PrivateDataV5) : outcome DataIntegrityObject :=
  _ ← assertDataFormat e;
  d ← DIOEncryptorV1.decodeAndVerify (dio e);
  let sums := fieldChecksums d in
  bad ← any_of [
    Ret (bool_decide (structureVersion d <> 5));
    Ret (bool_decide (dio_creatorPubKey (Dio.dio d) <> authorPubKey e));
    sum_differs sums (lit "privateMeta") (privateMeta e);
    sum_differs sums (lit "internalMeta") (internalMeta e) ];
  if (bad : bool) then Throw InvalidDataIntegrityObjectChecksumException else Ret (Dio.dio d).

Definition getDIOAndAssertIntegrityOf (data : InboxData) : outcome DataIntegrityObject :=
  privateDataV5 ← private5_fromJSON (id_meta data); getDIOAndAssertIntegrity privateDataV5.

Definition unpackPublic (publicData : Var) : outcome PublicResult :=
  guarded (
    publicDataV5 ← lift (public_fromJSON publicData);
    _ ← lift (assertPublicDataFormat publicDataV5);
    read_public publicDataV5) set_status (fresh_public 5).
Definition unpackPublicOnly (publicData : Var) : outcome PublicResult := unpackPublic publicData.

Definition unpackPrivate (inboxKey : bytes) (meta : Var) : outcome (PrivateResult InboxInternalMetaV5) :=
  guarded (
    privateDataV5 ← lift (private5_fromJSON meta);
    d ← lift (getDIOAndAssertIntegrity privateDataV5);
    _ ← modify (vr_set_dio d);
    authorPublicKeyECC ← lift (fromBase58DER (authorPubKey privateDataV5));
    m ← lift (decodeAndDecryptAndVerify (privateMeta privateDataV5) authorPublicKeyECC inboxKey);
    _ ← modify (vr_set_privateMeta m);
    internalMetaStr ← lift (decodeAndDecryptAndVerify (internalMeta privateDataV5) authorPublicKeyECC inboxKey);
    internalMetaJSON ← lift (deserialize internalMetaStr);
    _ ← modify (vr_set_internalMeta internalMetaJSON);
    modify (vr_set_authorPubKey (authorPubKey privateDataV5))) set_status (fresh_private 5 no_internal).

Definition unpackAll (encryptedData : InboxData) (inboxKey : bytes) : outcome (InboxDataResult InboxInternalMetaV5) :=
  unpack_all no_internal unpackPublic (unpackPrivate inboxKey) encryptedData.
End Processor.
End InboxDataProcessorV5.

(** ** Version 4 *)
Module InboxDataProcessorV4.
Section Processor.
Context `{Ecc} `{!Encodings} `{!Dynamic} `{!KeyFormats PublicKey} `{!InboxJson}.

Definition packForServer (plainData : InboxDataProcessorModel InboxPrivateDataV4) (authorPrivateKey : PrivateKey)
    (inboxKey : bytes) : ST rng InboxData :=
  let serverPublicData := pack_public 4 (im_publicData plainData) authorPrivateKey in
  let private := im_privateData plainData in
  privateMeta ← signAndEncryptAndEncode (vd4_privateMeta private) authorPrivateKey inboxKey;
  internalMeta ← match vd4_internalMeta private with
    | Some m => c ← signAndEncryptAndEncode m authorPrivateKey inboxKey; mret (Some c)
    | None => mret None
    end;
  let serverPrivateData := {| private4_version := 4; privateMeta4 := privateMeta; internalMeta4 := internalMeta;
    authorPubKey4 := toBase58DER (getPublicKey authorPrivateKey) |} in
  mret (mkInboxData (im_threadId plainData) (im_storeId plainData)
    (InboxDataHelper.fileConfigToTypedObject (im_filesConfig plainData))
    (private4_toJSON serverPrivateData) (public_toJSON serverPublicData)).

Definition validateVersion (data : Var) : outcome unit :=
  version ← get_int data (lit "version");
  if bool_decide (version <> 4) then Throw InvalidEncryptedInboxDataVersionException else Ret tt.

Definition unpackPublic (publicData : Var) : outcome PublicResult :=
  guarded (
    _ ← lift (validateVersion publicData);
    publicDataV4 ← lift (public_fromJSON publicData);
    read_public publicDataV4) set_status (fresh_public 4).
Definition unpackPublicOnly (publicData : Var) : outcome PublicResult := unpackPublic publicData.

Definition unpackPrivate (inboxKey : bytes) (meta : Var) : outcome (PrivateResult (option bytes)) :=
  guarded (
    _ ← lift (validateVersion meta);
    privateDataV4 ← lift (private4_fromJSON meta);
    authorPublicKeyECC ← lift (fromBase58DER (authorPubKey4 privateDataV4));
    m ← lift (decodeAndDecryptAndVerify (privateMeta4 privateDataV4) authorPublicKeyECC inboxKey);
    _ ← modify (vr_set_privateMeta m);
    m ← match internalMeta4 privateDataV4 with
        | Some c => m ← lift (decodeAndDecryptAndVerify c authorPublicKeyECC inboxKey); mret (Some m)
        | None => mret None
        end;
    _ ← modify (vr_set_internalMeta m);
    modify (vr_set_authorPubKey (authorPubKey4 privateDataV4))) set_status (fresh_private 4 None).

Definition unpackAll (encryptedData : InboxData) (inboxKey : bytes) : outcome (InboxDataResult (option bytes)) :=
  unpack_all None unpackPublic (unpackPrivate inboxKey) encryptedData.
End Processor.
End InboxDataProcessorV4.

(** ** What is packed is read back *)
Section Laws.
Context {C : CryptoService} `{!CryptoLaws C} {E : Ecc} `{!EccLaws E} {E0 : Encodings} `{!EncodingsLaws E0}.
Context {D : Dynamic} `{!KeyFormats PublicKey} `{!KeyFormatsLaws PublicKey}.
Context `{!KeyEntryJson} `{!InboxJson} `{!InboxJsonLaws}.
Context `{!JsonCodec DIOEncryptorV1.DioJson} `{!JsonCodecLaws DIOEncryptorV1.DioJson}.
Context `{!JsonCodec InboxInternalMetaV5} `{!JsonCodecLaws InboxInternalMetaV5}.
Import InboxDataProcessorV5.

(** What an inbox's author packs. *)
Record packable (d : InboxDataProcessorModel InboxPrivateDataV5) (k : PrivateKey) (ek : bytes) : Prop := {
  pk_dio : DIOEncryptorV1.well_formed (vd_dio (im_privateData d));
  pk_creator : dio_creatorPubKey (vd_dio (im_privateData d)) = toBase58DER (getPublicKey k);
  pk_key : zlen ek = 32;
  pk_private : small (vd_privateMeta (im_privateData d));
  pk_internal : small (serialize (vd_internalMeta (im_privateData d)));
  pk_entries : pd_inboxEntriesPubKeyBase58DER (im_publicData d) <> [] /\ pd_inboxEntriesKeyId (im_publicData d) <> [];
}.

(** What its readers get. *)
Definition public_read (version : Z) (d : InboxPublicData) (k : PrivateKey) : PublicResult :=
  mkPublicResult version None (pd_publicMeta d) (pd_inboxEntriesPubKeyBase58DER d) (pd_inboxEntriesKeyId d)
    (toBase58DER (getPublicKey k)).
Definition private_read (d : InboxPrivateDataV5) (k : PrivateKey) : PrivateResult InboxInternalMetaV5 :=
  mkPrivateResult _ 5 None (vd_privateMeta d) (vd_internalMeta d) (vd_dio d) (toBase58DER (getPublicKey k)).
Definition data_read (d : InboxDataProcessorModel InboxPrivateDataV5) (k : PrivateKey) : InboxDataResult InboxInternalMetaV5 :=
  mkDataResult _ (im_storeId d) (im_threadId d) (im_filesConfig d) (public_read 5 (im_publicData d) k)
    (private_read (im_privateData d) k) None.

Lemma read_public_packed version d k r : pr_statusCode r = None ->
  read_public (pack_public version d k) r
  = (Ret tt, pr_set_entries (pd_inboxEntriesPubKeyBase58DER d) (pd_inboxEntriesKeyId d) (toBase58DER (getPublicKey k))
       (pr_set_publicMeta (pd_publicMeta d) r)).
Proof.
  intros Hr. unfold read_public, pack_public. unfold_st. cbn [publicMeta public_authorPubKey publicMetaObject inboxPubKey inboxKeyId].
  rewrite base58der_inv, open_signed, object_differs_parsed. done.
Qed.

Lemma format_packed d k : pd_inboxEntriesPubKeyBase58DER d <> [] -> pd_inboxEntriesKeyId d <> [] ->
  assertPublicDataFormat (pack_public 5 d k) = Ret tt.
Proof.
  intros Hp Hi. unfold assertPublicDataFormat. cbn [pack_public public_version publicMeta public_authorPubKey inboxPubKey inboxKeyId].
  rewrite !bool_decide_eq_false_2; [done|exact Hi|exact Hp|apply base58der_nonempty|apply sign_nonempty|tauto].
Qed.

Lemma public_unpacked d k : pd_inboxEntriesPubKeyBase58DER d <> [] -> pd_inboxEntriesKeyId d <> [] ->
  unpackPublic (public_toJSON (pack_public 5 d k)) = Ret (public_read 5 d k).
Proof.
  intros Hp Hi. apply guarded_ret. unfold_st. rewrite public_inv, format_packed by done.
  by rewrite read_public_packed.
Qed.

(** A private part that was sealed for the inbox. *)
Lemma private_sealed d k ek g : packable d k ek ->
  exists data g', packForServer d k ek g = (Ret data, g') /\ id_publicData data = public_toJSON (pack_public 5 (im_publicData d) k)
    /\ id_storeId data = im_storeId d /\ id_threadId data = im_threadId d /\ id_fileConfig data = im_filesConfig d
    /\ (exists e, id_meta data = private5_toJSON e /\ private_version e = 5)
    /\ getDIOAndAssertIntegrityOf data = Ret (vd_dio (im_privateData d))
    /\ unpackPrivate ek (id_meta data) = Ret (private_read (im_privateData d) k).
Proof.
  intros [Hw Hc Hk Hp Hi _]. unfold packForServer. set (private := im_privateData d) in *.
  destruct (seal_total (vd_privateMeta private) k ek g Hk Hp) as (cp & g1 & Ep & Op & Np). run_step.
  destruct (seal_total (serialize (vd_internalMeta private)) k ek g1 Hk Hi) as (ci & g2 & Ei & Oi & Ni). run_step.
  match goal with |- context [DIOEncryptorV1.signAndEncode ?x k] => set (xd := x) end.
  destruct (DIOEncryptorV1.signAndEncode_ret xd k) as [c Ec]; [done|].
  pose proof (DIOEncryptorV1.dio_open xd k c Ec Hw) as Eo.
  unfold_st. rewrite Ec. do 2 eexists. split; [reflexivity|].
  cbn [id_publicData id_storeId id_threadId id_fileConfig id_meta]. set (e := Build_PrivateDataV5 _ _ _ _ _).
  assert (getDIOAndAssertIntegrity e = Ret (vd_dio private)) as Hd.
  { unfold getDIOAndAssertIntegrity, assertDataFormat. cbn [e private_version privateMeta authorPubKey internalMeta dio].
    rewrite !bool_decide_eq_false_2; [|eauto using base58der_nonempty, DIOEncryptorV1.signAndEncode_nonempty..|tauto].
    unfold_st. cbn [orb]. rewrite Eo. rewrite (proj2 (any_of_false _)); [done|].
    repeat apply Forall_cons_2; [..|constructor].
    1-2: by rewrite bool_decide_eq_false_2 by (cbn; tauto).
    all: apply sum_differs_false; cbn; sum_lookup. }
  split; [done|]. split; [done|]. split; [done|]. split; [by destruct (im_filesConfig d)|]. split; [by exists e|].
  split. { unfold getDIOAndAssertIntegrityOf. cbn [id_meta]. unfold_st. by rewrite private5_inv. }
  apply guarded_ret. unfold_st. rewrite private5_inv, Hd. cbn [e authorPubKey privateMeta internalMeta].
  by rewrite base58der_inv, Op, Oi, json_inv.
Qed.

(** C28: what the author of an inbox packs for the server, a member with the key
    reads back, all of it and without an error status, the integrity object
    included, and everyone reads the public part, with the key entries are to
    be encrypted for. *)
Theorem inbox_data_roundtrip d k ek g : packable d k ek ->
  exists data g', packForServer d k ek g = (Ret data, g')
    /\ unpackAll data ek = Ret (data_read d k)
    /\ unpackPublicOnly (id_publicData data) = Ret (public_read 5 (im_publicData d) k)
    /\ getDIOAndAssertIntegrityOf data = Ret (vd_dio (im_privateData d)).
Proof.
  intros Hd. destruct (private_sealed d k ek g Hd) as (data & g' & Hp & Hpub & Hs & Ht & Hf & _ & Hdio & Hpr).
  destruct Hd as [_ _ _ _ _ [Hn Hi]]. pose proof (public_unpacked (im_publicData d) k Hn Hi) as Hu.
  exists data, g'. split; [exact Hp|]. split; [|split; [|exact Hdio]].
  - unfold unpackAll, unpack_all. rewrite Hpub. unfold_st. rewrite Hu. cbn [public_read pr_statusCode].
    rewrite Hpr, Hs, Ht, Hf. unfold data_read. cbn [private_read vr_statusCode]. by destruct (im_filesConfig d).
  - unfold unpackPublicOnly. by rewrite Hpub.
Qed.

(** *** The key for entries is not bound to the rest *)

(** The same public data with another key for the inbox's entries. *)
Definition with_entries_key (pub keyId : bytes) (d : PublicData) : PublicData := {|
  public_version := public_version d; publicMeta := publicMeta d; publicMetaObject := publicMetaObject d;
  public_authorPubKey := public_authorPubKey d; inboxPubKey := pub; inboxKeyId := keyId |}.

Lemma entries_key_unbound pub keyId d r : pub <> [] -> keyId <> [] ->
  unpackPublicOnly (public_toJSON d) = Ret r -> pr_statusCode r = None ->
  unpackPublicOnly (public_toJSON (with_entries_key pub keyId d)) = Ret (pr_set_entries pub keyId (pr_authorPubKey r) r).
Proof.
  intros Hp Hi Hr Hs. unfold unpackPublicOnly, unpackPublic in *. apply guarded_success in Hr; [|done]. apply guarded_ret.
  revert Hr. unfold_st. rewrite !public_inv.
  assert (assertPublicDataFormat d = Ret tt -> assertPublicDataFormat (with_entries_key pub keyId d) = Ret tt) as Hf.
  { unfold assertPublicDataFormat. cbn [with_entries_key public_version publicMeta public_authorPubKey inboxPubKey inboxKeyId].
    rewrite (bool_decide_eq_false_2 (pub = [])), (bool_decide_eq_false_2 (keyId = [])) by done. rewrite !orb_false_r.
    by destruct (_ || bool_decide (public_authorPubKey d = [])). }
  destruct (assertPublicDataFormat d) as [[]|]; [rewrite Hf by done|done].
  unfold read_public. unfold_st. cbn [with_entries_key publicMeta public_authorPubKey publicMetaObject inboxPubKey inboxKeyId].
  destruct (fromBase58DER (public_authorPubKey d)) as [author|]; [|done].
  destruct (decodeAndVerify (publicMeta d) author) as [m|]; [|done].
  destruct (object_differs (publicMetaObject d) m) as [b|]; [|done]. by intros [= <-].
Qed.
End Laws.
