(* ===== verification/InboxEntries.v ===== *)
(** * Entries of an inbox and their handles

    [BinaryBufferBE] (utils/include/privmx/utils/BinaryBufferBE.hpp) and
    [InboxEntriesDataEncryptorSerializer] (endpoint/inbox/src/
    InboxEntriesDataEncryptorSerializer.cpp): what anyone may send to an inbox,
    and what its members read.  [InboxHandleManager] (endpoint/inbox/src/
    InboxHandleManager.cpp): the entries that are being prepared, with the
    handles of their files.  The files have a [FileHandleManager] of their own;
    an entry keeps its files' objects itself, so an object may outlive its place
    in the manager's table, and two entries may share one. *)

From Stdlib Require Import ZArith Lia Strings.String Strings.Byte.
From stdpp Require Import base list gmap fin_maps.
From S2P Require Import Prelude Bytes ExceptionCodes CoreTypes Crypto CryptoSuite Dynamic Encryptors StoreServer ChunkReader FileHandler FileIO FileHandle Upload Handles Items Modules Files StoreFiles.
Import Dynamic.

(** ** Buffers

    What is left to read; [Poco::BinaryReader] gives as much as there is, and a
    missing byte leaves the variable without a value. *)
Module BinaryBufferBE.
Definition read_byte : ST bytes Z := fun s =>
  match s with [] => (Throw UndefinedBehaviour, []) | c :: s => (Ret (byte_val c), s) end.
Definition readRaw (n : Z) : ST bytes bytes := fun s => (Ret (ztake n s), zdrop n s).

Definition readOneOctetLengthBuffer : ST bytes bytes := len ← read_byte; readRaw len.
Definition readBool : ST bytes bool := asInt ← read_byte; mret (bool_decide (asInt = 1)).
Definition readRawUntilEnd : ST bytes bytes := fun s => (Ret s, []).

(** The length is cut to eight bits; what follows is not. *)
Definition writeOneOctetLengthBuffer (value : bytes) : bytes := byte_of (zlen value) :: value.
Definition writeBool (value : bool) : bytes := [if value then x01 else x00].

Lemma read_written value rest : zlen value < 256 ->
  readOneOctetLengthBuffer (writeOneOctetLengthBuffer value ++ rest) = (Ret value, rest).
Proof.
  intros Hl. pose proof (zlen_nonneg value). unfold readOneOctetLengthBuffer, read_byte, readRaw, writeOneOctetLengthBuffer.
  unfold_st. cbn [app]. rewrite byte_val_of, Z.mod_small, ztake_app, zdrop_app by lia. done.
Qed.

Lemma read_bool_written value rest : readBool (writeBool value ++ rest) = (Ret value, rest).
Proof. by destruct value. Qed.
End BinaryBufferBE.

Record InboxEntryPublicData := mkEntryPublic { ep_userPubKey : bytes; ep_keyPreset : bool; ep_usedInboxKeyId : bytes }.
Record InboxEntryPrivateData := mkEntryPrivate { ep_filesMetaKey : bytes; ep_text : bytes }.
Record InboxEntrySendModel := mkEntrySend { es_publicData : InboxEntryPublicData; es_privateData : InboxEntryPrivateData }.

(** [InboxEntryPublicDataResult], [InboxEntryDataResult]; without a value the
    boolean is false here. *)
Record InboxEntryPublicDataResult := mkEntryPublicResult {
  epr_publicData : InboxEntryPublicData;
  epr_statusCode : option exn;
}.
Record InboxEntryDataResult := mkEntryResult {
  er_publicData : InboxEntryPublicData;
  er_privateData : InboxEntryPrivateData;
  er_statusCode : option exn;
}.
Definition no_public : InboxEntryPublicData := mkEntryPublic [] false [].
Definition no_private : InboxEntryPrivateData := mkEntryPrivate [] [].

Module InboxEntriesDataEncryptorSerializer.
Import BinaryBufferBE.
Section Serializer.
Context `{Ecc} `{!Encodings}.

Definition write_public (d : InboxEntryPublicData) : bytes :=
  writeOneOctetLengthBuffer (ep_userPubKey d) ++ writeBool (ep_keyPreset d) ++ writeOneOctetLengthBuffer (ep_usedInboxKeyId d).
Definition write_private (d : InboxEntryPrivateData) : bytes :=
  writeOneOctetLengthBuffer (base64_from (ep_filesMetaKey d)) ++ ep_text d.

Definition read_public : ST bytes InboxEntryPublicData :=
  userPubKey ← readOneOctetLengthBuffer;
  keyPreset ← readBool;
  usedInboxKeyId ← readOneOctetLengthBuffer;
  mret (mkEntryPublic userPubKey keyPreset usedInboxKeyId).

Definition packMessage (data : InboxEntrySendModel) (userPriv : PrivateKey) (inboxPub : PublicKey) : outcome bytes :=
  cipherWithKey ← Ecies.encrypt inboxPub (write_private (es_privateData data)) userPriv;
  mret (base64_from (writeOneOctetLengthBuffer (write_public (es_publicData data)) ++ cipherWithKey)).

(** The key of [userPubKey] is not compared with the one the cipher names. *)
Definition unpackMessage (serializedBase64 : bytes) (inboxPriv : PrivateKey) : outcome InboxEntryDataResult :=
  try_with every_exn (
    whole ← base64_to serializedBase64;
    let '(r, wholeBuffer) := readOneOctetLengthBuffer whole in
    publicDataStr ← r;
    publicData ← (read_public publicDataStr).1;
    let privateDataStr := wholeBuffer in
    decrypted ← Ecies.decrypt inboxPriv privateDataStr None;
    let '(r, text) := readOneOctetLengthBuffer decrypted in
    filesMetaKeyBase64 ← r;
    filesMetaKey ← base64_to filesMetaKeyBase64;
    mret (mkEntryResult publicData (mkEntryPrivate filesMetaKey text) None))
  (fun code => mkEntryResult no_public no_private (Some code)).

Definition unpackMessagePublicOnly (serializedBase64 : bytes) : outcome InboxEntryPublicDataResult :=
  try_with every_exn (
    whole ← base64_to serializedBase64;
    publicDataStr ← (readOneOctetLengthBuffer whole).1;
    publicData ← (read_public publicDataStr).1;
    mret (mkEntryPublicResult publicData None))
  (fun code => mkEntryPublicResult no_public (Some code)).
End Serializer.

Section Laws.
Context {C : CryptoService} `{!CryptoLaws C} {E : Ecc} `{!EccLaws E} {E0 : Encodings} `{!EncodingsLaws E0}.

(** What the one-byte lengths can carry, and the cipher. *)
Record writable (d : InboxEntrySendModel) : Prop := {
  wr_pub : zlen (ep_userPubKey (es_publicData d)) + zlen (ep_usedInboxKeyId (es_publicData d)) < 253;
  wr_key : zlen (base64_from (ep_filesMetaKey (es_privateData d))) < 256;
  wr_text : zlen (ep_text (es_privateData d)) < 2 ^ 62;
}.

Lemma public_written d rest : zlen (ep_userPubKey d) + zlen (ep_usedInboxKeyId d) < 253 ->
  read_public (write_public d ++ rest) = (Ret d, rest) /\ zlen (write_public d) < 256.
Proof.
  intros Hl. pose proof (zlen_nonneg (ep_userPubKey d)). pose proof (zlen_nonneg (ep_usedInboxKeyId d)).
  assert (forall b, zlen (writeBool b) = 1) as Hb by (by intros []).
  split.
  - unfold read_public, write_public. rewrite <- !app_assoc. unfold_st.
    rewrite read_written by lia. rewrite read_bool_written. rewrite read_written by lia. by destruct d.
  - unfold write_public, writeOneOctetLengthBuffer. rewrite zlen_app, zlen_cons, zlen_app, Hb, zlen_cons. lia.
Qed.

Lemma packed_opens d user inbox : writable d -> exists s, packMessage d user (getPublicKey inbox) = Ret s
  /\ unpackMessage s inbox = Ret (mkEntryResult (es_publicData d) (es_privateData d) None)
  /\ unpackMessagePublicOnly s = Ret (mkEntryPublicResult (es_publicData d) None).
Proof.
  intros [Hp Hk Ht]. unfold packMessage.
  assert (zlen (write_private (es_privateData d)) < 2 ^ 63) as Hw.
  { unfold write_private, writeOneOctetLengthBuffer. rewrite zlen_app, zlen_cons. pow_simpl. lia. }
  destruct (Ecies.envelope_total user inbox (write_private (es_privateData d)) Hw) as (c & Hc & Hf & _).
  unfold_st. rewrite Hc. eexists. split; [reflexivity|].
  destruct (public_written (es_publicData d) [] Hp) as [Hr Hz]. rewrite app_nil_r in Hr. split.
  - unfold unpackMessage. unfold_st. rewrite base64_inv, read_written by done. rewrite Hr. cbn [fst].
    rewrite (Ecies.envelope_opens _ _ _ _ None Hc Hf) by (by left).
    unfold write_private. rewrite read_written by lia. rewrite base64_inv. cbn [try_with try_or]. by destruct (es_privateData d).
  - unfold unpackMessagePublicOnly. unfold_st. rewrite base64_inv, read_written by done. cbn [fst]. by rewrite Hr.
Qed.
End Laws.
End InboxEntriesDataEncryptorSerializer.

(** ** The entries that are being prepared *)

(** [InboxHandle]; the objects of its files are named by their own numbers. *)
Record InboxHandle := mkInboxHandle {
  ih_id : Z;
  ih_inboxId : bytes;
  ih_inboxResourceId : bytes;
  ih_data : bytes;
  ih_inboxFileHandles : list Z;
  ih_userPrivKey : option bytes;
}.

Record CommitFileInfo := mkCommitInfo {
  cmi_fileSize : Z * Z;
  cmi_fileSendResult : ChunksSentInfo;
  cmi_size : Z;
  cmi_publicMeta : bytes;
  cmi_privateMeta : bytes;
}.

(** The members of the manager, and the file objects that only entries hold. *)
Class InboxHandleWorld {C : CryptoService} {X : StoreServer.StoreServer} {R : RequestApi} (W : Type) := {
  inboxHandles : W -> gmap Z InboxHandle;
  set_inboxHandles : gmap Z InboxHandle -> W -> W;
  _fileHandlesUsedByInboxHandles : W -> list Z;
  set_fileHandlesUsed : list Z -> W -> W;
  removed : W -> gmap Z FileHandle;
  set_removed : gmap Z FileHandle -> W -> W;
}.

(** [v.erase(std::find(v.begin(), v.end(), x))]: to erase the end is undefined. *)
Fixpoint erase_first (x : Z) (l : list Z) : option (list Z) :=
  match l with
  | [] => None
  | y :: l => if bool_decide (y = x) then Some l else (fun l => y :: l) <$> erase_first x l
  end.

Module InboxHandleManager.
Section Manager.
Context {C : CryptoService} {D : Dynamic} {X : StoreServer.StoreServer} {R : RequestApi}.
Context {W : Type} `{!ConnectionWorld W} `{!StoreWorld W} `{!InboxHandleWorld W}.

(** ** The objects of the files *)
Definition write_object (id : Z) : ST W (FileHandleBase * bytes * bytes * write_handle) :=
  o ← gets (fun w => match fileHandles w !! id with Some h => Some h | None => removed w !! id end);
  match o with Some (WriteHandle b pub priv h) => mret (b, pub, priv, h) | _ => throw UndefinedBehaviour end.

(** The object changed, wherever it is. *)
Definition keep_object (h : FileHandle) : ST W unit :=
  modify (fun w =>
    let id := hb_id (handle_base h) in
    match fileHandles w !! id with
    | Some _ => set_fileHandles (<[id := h]> (fileHandles w)) w
    | None => set_removed (<[id := h]> (removed w)) w
    end).

Definition on_object {A} (id : Z) (m : ST write_handle A) : ST W A :=
  '(b, pub, priv, h) ← write_object id;
  '(r, h) ← FileHandleManager.run_write h m;
  _ ← keep_object (WriteHandle b pub priv h);
  lift r.

(** ** Files *)
Definition isFileReadHandle (fileHandleId : Z) : ST W bool :=
  h ← FileHandleManager.getFileHandle fileHandleId; mret match h with ReadHandle _ _ => true | _ => false end.
Definition isFileWriteHandle (fileHandleId : Z) : ST W bool :=
  h ← FileHandleManager.getFileHandle fileHandleId; mret match h with WriteHandle _ _ _ _ => true | _ => false end.

Definition createFileWriteHandle (storeId fileId : bytes) (size : Z) (publicMeta privateMeta : bytes)
    (chunkSize serverRequestChunkSize : Z) : ST W Z :=
  FileHandleManager.createFileWriteHandle storeId fileId [] size publicMeta privateMeta chunkSize serverRequestChunkSize false.

Definition getFileWriteHandle (fileHandleId : Z) : ST W (FileHandleBase * bytes * bytes * write_handle) :=
  ok ← isFileWriteHandle fileHandleId;
  _ ← throw_if (negb ok) InboxInvalidFileWriteHandleException;
  FileHandleManager.getFileWriteHandle fileHandleId.

Definition createFileReadHandle (decryptionParams : FileDecryptionParams) (serverChunkSize : Z) : ST W Z :=
  FileHandleManager.createFileReadHandle decryptionParams serverChunkSize.

Definition getFileReadHandle (fileHandleId : Z) : ST W (FileHandleBase * read_handle) :=
  ok ← isFileReadHandle fileHandleId;
  _ ← throw_if (negb ok) InboxInvalidFileReadHandleException;
  FileHandleManager.getFileReadHandle fileHandleId.

(** Out of the table an object stays with the entries that have it. *)
Definition removeHandle (fileHandleId : Z) : ST W unit :=
  h ← FileHandleManager.getFileHandle fileHandleId;
  _ ← modify (fun w => set_removed (<[fileHandleId := h]> (removed w)) w);
  FileHandleManager.removeHandle fileHandleId.

Definition removeFileHandle (fileHandleId : Z) (force : bool) : ST W unit :=
  used ← gets _fileHandlesUsedByInboxHandles;
  _ ← (if force then
         match erase_first fileHandleId used with
         | Some used => modify (set_fileHandlesUsed used)
         | None => throw UndefinedBehaviour
         end
       else throw_if (bool_decide (fileHandleId ∈ used)) HandleIsUsedInInboxHandleException);
  removeHandle fileHandleId.

(** ** Entries *)

(** The files are counted as used one by one, before the entry has a handle. *)
Definition createInboxHandle (inboxId inboxResourceId data : bytes) (inboxFileHandles : list Z)
    (userPrivKey : option bytes) : ST W InboxHandle :=
  _ ← for_each inboxFileHandles (fun inboxFileHandle =>
    _ ← FileHandleManager.getFileWriteHandle inboxFileHandle;
    modify (fun w => set_fileHandlesUsed (_fileHandlesUsedByInboxHandles w ++ [inboxFileHandle]) w));
  id ← FileHandleManager.on_manager (HandleManager.createHandle (lit "Inbox:FilesWrite"));
  let result := mkInboxHandle id inboxId inboxResourceId data inboxFileHandles userPrivKey in
  _ ← modify (fun w => set_inboxHandles (<[id := result]> (inboxHandles w)) w);
  mret result.

Definition getInboxHandle (id : Z) : ST W InboxHandle :=
  inboxHandle ← gets (fun w => inboxHandles w !! id);
  match inboxHandle with Some h => mret h | None => throw UnknownInboxHandleException end.

Definition hasInboxHandle (id : Z) : ST W bool := gets (fun w => bool_decide (is_Some (inboxHandles w !! id))).

(** What [commitInboxHandle] and [abortInboxHandle] end with. *)
Definition releaseInboxHandle (inboxHandle : InboxHandle) : ST W unit :=
  _ ← modify (fun w => set_inboxHandles (delete (ih_id inboxHandle) (inboxHandles w)) w);
  _ ← FileHandleManager.on_manager (HandleManager.removeHandle (ih_id inboxHandle));
  for_each (ih_inboxFileHandles inboxHandle) (fun file_handle => removeFileHandle file_handle true).

Fixpoint finalize_files (l : list Z) : ST W (list CommitFileInfo) :=
  match l with
  | [] => mret []
  | file_handle :: l =>
      result ← on_object file_handle FileWriteHandle.finalize;
      '(_, pub, priv, h) ← write_object file_handle;
      infos ← finalize_files l;
      mret (mkCommitInfo (FileWriteHandle.getEncryptedFileSize h) result (i64 (wh_size h)) pub priv :: infos)
  end.

Definition commitInboxHandle (id : Z) : ST W (list CommitFileInfo) :=
  inboxHandle ← getInboxHandle id;
  _ ← for_each (ih_inboxFileHandles inboxHandle) (fun file_handle =>
    '(_, _, _, h) ← write_object file_handle;
    throw_if (negb (FileWriteHandle.isReadyToFinalize h)) DataDifferentThanDeclaredException);
  result ← finalize_files (ih_inboxFileHandles inboxHandle);
  _ ← releaseInboxHandle inboxHandle;
  mret result.

Definition abortInboxHandle (id : Z) : ST W unit :=
  inboxHandle ← getInboxHandle id; releaseInboxHandle inboxHandle.
End Manager.
End InboxHandleManager.
