(* ===== verification/Inboxes.v ===== *)
(** * Inboxes

    The containers of [endpoint::inbox] (endpoint/inbox/src/InboxApiImpl.cpp).
    An inbox has a thread for its entries and a store for their files, created,
    updated and deleted with it; its own data are not [ModuleApi]'s.  The three
    modules share the connection and keep a cache of keys each. *)

From Stdlib Require Import ZArith Lia Strings.String Strings.Byte.
From stdpp Require Import base list gmap fin_maps.
From S2P Require Import Prelude Bytes CoreTypes Crypto Base58 CryptoSuite Dynamic Keys Encryptors Dio FieldData EncKeys ContainerData KeyProvider Utils StdMap Users Legacy Policies Containers Items Modules Threads Stores InboxData.
Import ModuleBaseApi ModuleApi.

(** ** Server and library inboxes *)
Section Server.
Context `{!Dynamic}.

Record InboxDataEntry := mkInboxEntry { ie_keyId : bytes; ie_data : InboxData }.

Record InboxInfo := mkInboxInfo {
  ii_id : bytes;
  ii_resourceId : option bytes;
  ii_contextId : bytes;
  ii_createDate : Z;
  ii_creator : bytes;
  ii_lastModificationDate : Z;
  ii_lastModifier : bytes;
  ii_data : list InboxDataEntry;
  ii_keyId : bytes;
  ii_users : list bytes;
  ii_managers : list bytes;
  ii_keys : list KeyEntry;
  ii_version : Z;
  ii_type : option bytes;
  ii_policy : option Var;
}.

Record InboxCreateModel := mkInboxCreate {
  icm_resourceId : bytes;
  icm_contextId : bytes;
  icm_users : list bytes;
  icm_managers : list bytes;
  icm_data : InboxData;
  icm_keyId : bytes;
  icm_keys : list KeyEntrySet;
  icm_policy : option Var;
}.

Record InboxUpdateModel := mkInboxUpdate {
  ium_id : bytes;
  ium_resourceId : bytes;
  ium_users : list bytes;
  ium_managers : list bytes;
  ium_data : InboxData;
  ium_keyId : bytes;
  ium_keys : list KeyEntrySet;
  ium_version : Z;
  ium_force : bool;
  ium_policy : option Var;
}.

(** [InboxGetPublicViewResult] *)
Record InboxPublicViewRaw := mkPublicViewRaw { pv_inboxId : bytes; pv_version : Z; pv_publicData : Var }.
End Server.

Record Inbox := mkInbox {
  ib_inboxId : bytes;
  ib_contextId : bytes;
  ib_createDate : Z;
  ib_creator : bytes;
  ib_lastModificationDate : Z;
  ib_lastModifier : bytes;
  ib_users : list bytes;
  ib_managers : list bytes;
  ib_version : Z;
  ib_publicMeta : bytes;
  ib_privateMeta : bytes;
  ib_filesConfig : option FilesConfig;
  ib_policy : ContainerPolicy;
  ib_statusCode : option exn;
  ib_schemaVersion : Z;
}.

Definition ib_set_statusCode (s : option exn) (b : Inbox) : Inbox := {|
  ib_inboxId := ib_inboxId b; ib_contextId := ib_contextId b; ib_createDate := ib_createDate b;
  ib_creator := ib_creator b; ib_lastModificationDate := ib_lastModificationDate b;
  ib_lastModifier := ib_lastModifier b; ib_users := ib_users b; ib_managers := ib_managers b;
  ib_version := ib_version b; ib_publicMeta := ib_publicMeta b; ib_privateMeta := ib_privateMeta b;
  ib_filesConfig := ib_filesConfig b; ib_policy := ib_policy b; ib_statusCode := s;
  ib_schemaVersion := ib_schemaVersion b |}.

#[export] Instance inbox_status : HasStatus Inbox :=
  {| status := ib_statusCode; set_status := ib_set_statusCode; status_set _ _ := eq_refl |}.

(** [InboxPublicViewData]; without a value its numbers are 0 here. *)
Record InboxPublicViewData := mkPublicView {
  pw_dataStructureVersion : Z;
  pw_statusCode : option exn;
  pw_authorPubKey : bytes;
  pw_publicMeta : bytes;
  pw_inboxEntriesPubKeyBase58DER : bytes;
  pw_inboxEntriesKeyId : bytes;
  pw_inboxId : bytes;
  pw_resourceId : bytes;
  pw_version : Z;
}.

Record InboxPublicView := mkView { vw_inboxId : bytes; vw_version : Z; vw_publicMeta : bytes }.

(** The server's operations on inboxes. *)
Class InboxServer {D : Dynamic} (W : Type) := {
  inboxCreate : InboxCreateModel -> ST W bytes;
  inboxUpdate : InboxUpdateModel -> ST W unit;
  inboxGet : bytes -> option bytes -> ST W InboxInfo;
  inboxGetPublicView : bytes -> ST W InboxPublicViewRaw;
  inboxList : bytes -> ListModel -> ST W (list InboxInfo * Z);
  inboxDelete : bytes -> ST W unit;
}.

(** The connection as each of the three modules sees it: with its own cache. *)
Class InboxConnections {C : CryptoService} {D : Dynamic} (W : Type) := {
  inbox_connection : ConnectionWorld W;
  thread_connection : ConnectionWorld W;
  store_connection : ConnectionWorld W;
}.

Module InboxApi.
Definition INBOX_TYPE_FILTER_FLAG : bytes := lit "inbox".

Section Pure.
Context {C : CryptoService} {E : Ecc} {E0 : Encodings} {D : Dynamic}.
Context `{!KeyFormats PublicKey} `{!KeyEntryJson} `{!HashOrder} `{!ModuleJson} `{!InboxJson}.
Context `{!JsonCodec DIOEncryptorV1.DioJson} `{!JsonCodec EncryptionKey} `{!JsonCodec InboxInternalMetaV5}.
Context (_userPrivKey : PrivateKey) (_userVerifier : list VerificationRequest -> outcome (list bool)).

(** [inboxRaw.data.back()] *)
Definition getInboxCurrentDataEntry (inboxRaw : InboxInfo) : outcome InboxDataEntry :=
  match last (ii_data inboxRaw) with Some e => Ret e | None => Throw UndefinedBehaviour end.

Definition inbox_location (inbox : InboxInfo) : EncKeyLocation :=
  {| loc_contextId := ii_contextId inbox; loc_resourceId := default [] (ii_resourceId inbox) |}.

Definition getFilesConfigOptOrDefault (fileConfig : option FilesConfig) : FilesConfig :=
  let maxFiles := 10 in
  let maxFileSize := 100 * 1024 * 1024 in
  match fileConfig with
  | Some c => c
  | None => mkFilesConfig 0 maxFiles maxFileSize (maxFiles * maxFileSize)
  end.

Definition getInboxDataEntryStructureVersion (inboxEntry : InboxDataEntry) : outcome Z :=
  let meta := id_meta (ie_data inboxEntry) in
  if is_object meta then
    version ← versioned meta;
    mret (if bool_decide (version = 4) then InboxDataSchema.VERSION_4
          else if bool_decide (version = 5) then InboxDataSchema.VERSION_5
          else InboxDataSchema.UNKNOWN)
  else mret InboxDataSchema.UNKNOWN.

Definition inboxToModuleKeys (inbox : InboxInfo) : outcome ModuleKeys :=
  entry ← getInboxCurrentDataEntry inbox;
  version ← getInboxDataEntryStructureVersion entry;
  mret (mkModuleKeys (ii_keys inbox) (ii_keyId inbox) version (default [] (ii_resourceId inbox)) (ii_contextId inbox)).

(** ** Integrity *)
Definition assertInboxDataIntegrity (inbox : InboxInfo) : outcome unit :=
  inbox_data_entry ← getInboxCurrentDataEntry inbox;
  version ← getInboxDataEntryStructureVersion inbox_data_entry;
  if bool_decide (version = InboxDataSchema.VERSION_4) then mret tt
  else if bool_decide (version = InboxDataSchema.VERSION_5) then
    dio ← InboxDataProcessorV5.getDIOAndAssertIntegrityOf (ie_data inbox_data_entry);
    if bool_decide (dio_contextId dio <> ii_contextId inbox)
       || bool_decide (Some (dio_resourceId dio) <> ii_resourceId inbox)
       || bool_decide (dio_creatorUserId dio <> ii_lastModifier inbox)
       || negb (TimestampValidator.validate (dio_timestamp dio) (ii_lastModificationDate inbox))
    then Throw InboxDataIntegrityException else mret tt
  else Throw UnknownInboxFormatException.

Definition validateInboxDataIntegrity (inbox : InboxInfo) : outcome (option exn) :=
  try_with every_exn (_ ← assertInboxDataIntegrity inbox; mret None) Some.

(** ** Conversion *)
Definition convertServerInboxToLibInbox (inbox : InboxInfo) (publicMeta privateMeta : bytes)
    (filesConfig : option FilesConfig) (statusCode : option exn) (schemaVersion : Z) : outcome Inbox :=
  policy ← Factory.parsePolicyServerObject (ii_policy inbox);
  mret {| ib_inboxId := ii_id inbox; ib_contextId := ii_contextId inbox; ib_createDate := ii_createDate inbox;
          ib_creator := ii_creator inbox; ib_lastModificationDate := ii_lastModificationDate inbox;
          ib_lastModifier := ii_lastModifier inbox; ib_users := ii_users inbox; ib_managers := ii_managers inbox;
          ib_version := ii_version inbox; ib_publicMeta := publicMeta; ib_privateMeta := privateMeta;
          ib_filesConfig := filesConfig; ib_policy := policy; ib_statusCode := statusCode;
          ib_schemaVersion := schemaVersion |}.

Definition failed_inbox (inbox : InboxInfo) (code : exn) : outcome Inbox :=
  convertServerInboxToLibInbox inbox [] [] None (Some code) InboxDataSchema.UNKNOWN.

(** The status of the key is not asked for. *)
Definition decryptInboxV4 (inboxEntry : InboxDataEntry) (encKey : DecryptedEncKeyV2) : outcome (InboxDataResult (option bytes)) :=
  InboxDataProcessorV4.unpackAll (ie_data inboxEntry) (k_key encKey).
Definition decryptInboxV5 (inboxEntry : InboxDataEntry) (encKey : DecryptedEncKeyV2) : outcome (InboxDataResult InboxInternalMetaV5) :=
  InboxDataProcessorV5.unpackAll (ie_data inboxEntry) (k_key encKey).

Definition convertInbox {I} (schemaVersion : Z) (inboxRaw : InboxInfo) (inboxData : InboxDataResult I) : outcome Inbox :=
  convertServerInboxToLibInbox inboxRaw (pr_publicMeta (dr_publicData inboxData)) (vr_privateMeta (dr_privateData inboxData))
    (Some (dr_filesConfig inboxData)) (dr_statusCode inboxData) schemaVersion.
Definition convertInboxV4 (inboxRaw : InboxInfo) (inboxData : InboxDataResult (option bytes)) : outcome Inbox :=
  convertInbox InboxDataSchema.VERSION_4 inboxRaw inboxData.
Definition convertInboxV5 (inboxRaw : InboxInfo) (inboxData : InboxDataResult InboxInternalMetaV5) : outcome Inbox :=
  convertInbox InboxDataSchema.VERSION_5 inboxRaw inboxData.

Definition decryptAndConvertInboxDataToInbox (inbox : InboxInfo) (inboxEntry : InboxDataEntry) (encKey : DecryptedEncKeyV2) :
    outcome (Inbox * DataIntegrityObject) :=
  version ← getInboxDataEntryStructureVersion inboxEntry;
  if bool_decide (version = InboxDataSchema.VERSION_4) then
    d ← decryptInboxV4 inboxEntry encKey;
    b ← convertInboxV4 inbox d;
    mret (b, mkDIO (ii_lastModifier inbox) (vr_authorPubKey (dr_privateData d)) (ii_contextId inbox)
               (default [] (ii_resourceId inbox)) (ii_lastModificationDate inbox) [] None None None)
  else if bool_decide (version = InboxDataSchema.VERSION_5) then
    d ← decryptInboxV5 inboxEntry encKey;
    b ← convertInboxV5 inbox d;
    mret (b, vr_dio (dr_privateData d))
  else b ← failed_inbox inbox UnknownInboxFormatException; mret (b, empty_dio).

Definition decryptInboxInternalMeta (inboxEntry : InboxDataEntry) (encKey : DecryptedEncKeyV2) : outcome InboxInternalMetaV5 :=
  version ← getInboxDataEntryStructureVersion inboxEntry;
  if bool_decide (version = InboxDataSchema.VERSION_4) then mret no_internal
  else if bool_decide (version = InboxDataSchema.VERSION_5) then
    d ← decryptInboxV5 inboxEntry encKey; mret (vr_internalMeta (dr_privateData d))
  else Throw UnknownInboxFormatException.

(** ** One inbox *)
Definition inbox_verification (result : Inbox) (dio : DataIntegrityObject) : VerificationRequest :=
  {| KeyProvider.vr_contextId := ib_contextId result; vr_senderId := ib_lastModifier result;
     vr_senderPubKey := dio_creatorPubKey dio; vr_date := ib_lastModificationDate result;
     vr_bridgeIdentity := dio_bridgeIdentity dio |}.

Definition validateDecryptAndConvertInboxDataToInbox (inbox : InboxInfo) : outcome Inbox :=
  statusCode ← validateInboxDataIntegrity inbox;
  match statusCode with
  | Some code => failed_inbox inbox code
  | None =>
      inbox_data_entry ← getInboxCurrentDataEntry inbox;
      let location := inbox_location inbox in
      let keyProviderRequest := (KeyDecryptionAndVerificationRequest.addOne (ii_keys inbox) (ie_keyId inbox_data_entry)
                                   location KeyDecryptionAndVerificationRequest.empty).2 in
      all ← KeyProvider.getKeysAndVerify _userPrivKey _userVerifier keyProviderRequest;
      keys ← at_ all location;
      key ← at_ keys (ie_keyId inbox_data_entry);
      '(result, inboxDIO) ← decryptAndConvertInboxDataToInbox inbox inbox_data_entry key;
      match ib_statusCode result with
      | Some _ => mret result
      | None =>
          verified ← UserVerifier.verify _userVerifier [inbox_verification result inboxDIO];
          match verified with
          | accepted :: _ => mret (ib_set_statusCode (verdict_status accepted) result)
          | [] => Throw UndefinedBehaviour
          end
      end
  end.

(** ** A list of inboxes, loop by loop *)
Fixpoint check_inboxes (inboxes : list InboxInfo) : outcome (list (InboxInfo * option Inbox)) :=
  match inboxes with
  | [] => mret []
  | inbox :: inboxes =>
      statusCode ← validateInboxDataIntegrity inbox;
      r ← match statusCode with
          | Some code => b ← failed_inbox inbox code; mret (Some b)
          | None => mret None
          end;
      l ← check_inboxes inboxes;
      mret ((inbox, r) :: l)
  end.

Fixpoint request_inbox_keys (inboxes : list InboxInfo) : ST KeyDecryptionAndVerificationRequest.t unit :=
  match inboxes with
  | [] => mret tt
  | inbox :: inboxes =>
      entry ← lift (getInboxCurrentDataEntry inbox);
      _ ← KeyDecryptionAndVerificationRequest.addOne (ii_keys inbox) (ie_keyId entry) (inbox_location inbox);
      request_inbox_keys inboxes
  end.

(** The integrity object of an inbox that failed the check is put behind the
    others; nothing reads it. *)
Fixpoint decrypt_inboxes (all : KeyProvider.located) (checked : list (InboxInfo * option Inbox)) (seen : gset bytes) :
    outcome (list (Inbox * DataIntegrityObject)) :=
  match checked with
  | [] => mret []
  | (inbox, Some result) :: checked => l ← decrypt_inboxes all checked seen; mret ((result, empty_dio) :: l)
  | (inbox, None) :: checked =>
      '(result, dio, seen) ← try_or only_core (
        keys ← at_ all (inbox_location inbox);
        entry ← getInboxCurrentDataEntry inbox;
        key ← at_ keys (ie_keyId entry);
        '(result, dio) ← decryptAndConvertInboxDataToInbox inbox entry key;
        let full := fullRandomId dio in
        mret (if bool_decide (full ∈ seen)
              then (ib_set_statusCode (Some DataIntegrityObjectDuplicatedException) result, dio, seen)
              else (result, dio, {[ full ]} ∪ seen)))
        (fun code => b ← failed_inbox inbox code; mret (b, empty_dio, seen));
      l ← decrypt_inboxes all checked seen;
      mret ((result, dio) :: l)
  end.

Definition validateDecryptAndConvertInboxesDataToInboxes (inboxes : list InboxInfo) : outcome (list Inbox) :=
  checked ← check_inboxes inboxes;
  match request_inbox_keys inboxes KeyDecryptionAndVerificationRequest.empty with
  | (Throw e, _) => Throw e
  | (Ret _, keyProviderRequest) =>
      inboxesKeys ← KeyProvider.getKeysAndVerify _userPrivKey _userVerifier keyProviderRequest;
      decrypted ← decrypt_inboxes inboxesKeys checked ∅;
      let verifierInput := omap (fun '(r, dio) =>
        match ib_statusCode r with None => Some (inbox_verification r dio) | Some _ => None end) decrypted in
      verified ← UserVerifier.verify _userVerifier verifierInput;
      apply_verdicts decrypted.*1 verified
  end.

(** ** The public view *)
Definition view_of (publicView : InboxPublicViewRaw) (d : PublicResult) : InboxPublicViewData :=
  mkPublicView (pr_dataStructureVersion d) (pr_statusCode d) (pr_authorPubKey d) (pr_publicMeta d)
    (pr_inboxEntriesPubKeyBase58DER d) (pr_inboxEntriesKeyId d) (pv_inboxId publicView) [] (pv_version publicView).

Definition no_view (code : exn) : InboxPublicViewData := mkPublicView 0 (Some code) [] [] [] [] [] [] 0.

Definition read_view (publicView : InboxPublicViewRaw) : outcome InboxPublicViewData :=
  let data := pv_publicData publicView in
  if is_object data then
    version ← versioned data;
    if bool_decide (version = 4) then
      publicData ← InboxDataProcessorV4.unpackPublicOnly data; mret (view_of publicView publicData)
    else if bool_decide (version = 5) then
      publicData ← InboxDataProcessorV5.unpackPublicOnly data; mret (view_of publicView publicData)
    else mret (no_view UnknownInboxFormatException)
  else mret (no_view UnknownInboxFormatException).
End Pure.

Section World.
Context {C : CryptoService} {E : Ecc} `{!EccNumbers E} {E0 : Encodings} {D : Dynamic}.
Context `{!KeyFormats PublicKey} `{!KeyEntryJson} `{!HashOrder} `{!ModuleJson} `{!InboxJson}.
Context `{!JsonCodec DIOEncryptorV1.DioJson} `{!JsonCodec EncryptionKey} `{!JsonCodec InboxInternalMetaV5}.
Context `{!JsonCodec ModuleDataEncryptorV5.ModuleInternalMetaV5} `{!JsonCodec ThreadDataV1} `{!JsonCodec StoreData}.
Context (_userPrivKey : PrivateKey) (_userVerifier : list VerificationRequest -> outcome (list bool)).
Context (_bridgeIdentity : option BridgeIdentity).
Context {W : Type} `{!InboxConnections W} `{!InboxServer W}.
Context `{!ContainerServer ThreadExtra W} `{!ContainerServer StoreExtra W}.
#[local] Existing Instance inbox_connection.

(** The calls on the module's store and thread. *)
Definition createStoreEx (contextId : bytes) (users managers : list UserWithPubKey) (publicMeta privateMeta type : bytes)
    (policies : option ContainerPolicy) : ST W bytes :=
  StoreApi.createStoreEx (ConnectionWorld0 := store_connection) _userPrivKey _bridgeIdentity contextId users managers
    publicMeta privateMeta type policies.
Definition createThreadEx (contextId : bytes) (users managers : list UserWithPubKey) (publicMeta privateMeta type : bytes)
    (policies : option ContainerPolicy) : ST W bytes :=
  ThreadApi.createThreadEx (ConnectionWorld0 := thread_connection) _userPrivKey _bridgeIdentity contextId users managers
    publicMeta privateMeta type policies.

Definition with_no_item (policies : option ContainerPolicyWithoutItem) : option ContainerPolicy :=
  (fun p => mkPolicy p None) <$> policies.

Definition inbox_model (storeId threadId : bytes) (filesConfig : option FilesConfig) (publicMeta privateMeta secret : bytes)
    (dio : DataIntegrityObject) (pubKey : PublicKey) (keyId : bytes) : InboxDataProcessorModel InboxPrivateDataV5 :=
  mkModel _ storeId threadId (getFilesConfigOptOrDefault filesConfig)
    (mkPrivateData5 privateMeta {| InboxData.secret := secret; InboxData.resourceId := dio_resourceId dio;
                                   InboxData.randomId := dio_randomId dio |} dio)
    (mkPublicData publicMeta (toBase58DER pubKey) keyId).

Definition createInbox (contextId : bytes) (users managers : list UserWithPubKey) (publicMeta privateMeta : bytes)
    (fileConfig : option FilesConfig) (policies : option ContainerPolicyWithoutItem) : ST W bytes :=
  inboxKey ← on_rng KeyProvider.generateKey;
  privateKey ← lift (ecc_fromPrivateKey (ek_key inboxKey));
  let pubKey := getPublicKey privateKey in
  randName ← on_rng InboxDataHelper.getRandomName;
  let policiesWithItems := with_no_item policies in
  storeId ← createStoreEx contextId users managers [] randName INBOX_TYPE_FILTER_FLAG policiesWithItems;
  threadId ← createThreadEx contextId users managers [] randName INBOX_TYPE_FILTER_FLAG policiesWithItems;
  resourceId ← generateId;
  inboxDIO ← createDIO _userPrivKey _bridgeIdentity contextId resourceId None None;
  inboxSecret ← on_rng KeyProvider.generateSecret;
  let inboxDataIn := inbox_model storeId threadId fileConfig publicMeta privateMeta inboxSecret inboxDIO pubKey (ek_id inboxKey) in
  data ← on_rng (InboxDataProcessorV5.packForServer inboxDataIn _userPrivKey (ek_key inboxKey));
  let all_users := EndpointUtils.uniqueListUserWithPubKey users managers in
  keysList ← on_rng (KeyProvider.prepareKeysList _userPrivKey all_users inboxKey inboxDIO
                       {| loc_contextId := contextId; loc_resourceId := resourceId |} inboxSecret);
  inboxCreate {| icm_resourceId := resourceId; icm_contextId := contextId;
    icm_users := InboxDataHelper.mapUsers users; icm_managers := InboxDataHelper.mapUsers managers; icm_data := data;
    icm_keyId := ek_id inboxKey; icm_keys := keysList;
    icm_policy := Factory.createPolicyServerObject <$> policiesWithItems |}.

Definition getServerInbox (inboxId : bytes) (type : option bytes) : ST W InboxInfo :=
  inboxGet inboxId (match type with Some t => some_type t | None => None end).

(** The container renewed with the users, under the metadata it has. *)
Definition renewStore (storeId : bytes) (users managers : list UserWithPubKey) (force forceGenerateNewKey : bool)
    (policies : option ContainerPolicy) : ST W unit :=
  store ← StoreApi.getStoreEx (ConnectionWorld0 := store_connection) _userPrivKey _userVerifier storeId INBOX_TYPE_FILTER_FLAG;
  StoreApi.updateStore (ConnectionWorld0 := store_connection) _userPrivKey _userVerifier _bridgeIdentity storeId users managers
    (cl_publicMeta store) (cl_privateMeta store) (cl_version store) force forceGenerateNewKey policies.
Definition renewThread (threadId : bytes) (users managers : list UserWithPubKey) (force forceGenerateNewKey : bool)
    (policies : option ContainerPolicy) : ST W unit :=
  thread ← ThreadApi.getThreadEx (ConnectionWorld0 := thread_connection) _userPrivKey _userVerifier threadId INBOX_TYPE_FILTER_FLAG;
  ThreadApi.updateThread (ConnectionWorld0 := thread_connection) _userPrivKey _userVerifier _bridgeIdentity threadId users managers
    (cl_publicMeta thread) (cl_privateMeta thread) (cl_version thread) force forceGenerateNewKey policies.

Definition updateInbox (inboxId : bytes) (users managers : list UserWithPubKey) (publicMeta privateMeta : bytes)
    (fileConfig : option FilesConfig) (version : Z) (force forceGenerateNewKey : bool)
    (policies : option ContainerPolicyWithoutItem) : ST W unit :=
  currentInbox ← getServerInbox inboxId None;
  currentInboxEntry ← lift (getInboxCurrentDataEntry currentInbox);
  let currentInboxData := ie_data currentInboxEntry in
  currentInboxResourceId ← match ii_resourceId currentInbox with Some r => mret r | None => generateId end;
  let location := {| loc_contextId := ii_contextId currentInbox; loc_resourceId := currentInboxResourceId |} in
  let keysRequest := (KeyDecryptionAndVerificationRequest.addAll (ii_keys currentInbox) location
                        KeyDecryptionAndVerificationRequest.empty).2 in
  all ← lift (KeyProvider.getKeysAndVerify _userPrivKey _userVerifier keysRequest);
  inboxKeys ← lift (at_ all location);
  currentInboxKey ← lift (findEncKeyByKeyId inboxKeys (ie_keyId currentInboxEntry));
  inboxInternalMeta ← lift (decryptInboxInternalMeta currentInboxEntry currentInboxKey);
  let secret := InboxData.secret inboxInternalMeta in
  let usersKeysResolver := UsersKeysResolver.create (ii_users currentInbox) (ii_managers currentInbox) users managers
                             forceGenerateNewKey currentInboxKey in
  _ ← throw_if (negb (KeyProvider.verifyKeysSecret inboxKeys location secret)) InboxEncryptionKeyValidationException;
  updateInboxDio ← createDIO _userPrivKey _bridgeIdentity (ii_contextId currentInbox) currentInboxResourceId None None;
  '(inboxKey, keysList) ← on_rng (keys_for_update _userPrivKey usersKeysResolver inboxKeys currentInboxKey updateInboxDio location secret);
  privateKey ← lift (ecc_fromPrivateKey (ek_key inboxKey));
  let pubKey := getPublicKey privateKey in
  let inboxDataIn := inbox_model (id_storeId currentInboxData) (id_threadId currentInboxData) fileConfig publicMeta privateMeta
                       secret updateInboxDio pubKey (ek_id inboxKey) in
  data ← on_rng (InboxDataProcessorV5.packForServer inboxDataIn _userPrivKey (ek_key inboxKey));
  _ ← inboxUpdate {| ium_id := inboxId; ium_resourceId := currentInboxResourceId;
    ium_users := InboxDataHelper.mapUsers users; ium_managers := InboxDataHelper.mapUsers managers; ium_data := data;
    ium_keyId := ek_id inboxKey; ium_keys := keysList; ium_version := version; ium_force := force;
    ium_policy := Factory.createPolicyServerObjectWithoutItem <$> policies |};
  _ ← invalidateModuleKeysInCache keyCache set_keyCache (Some inboxId);
  _ ← renewStore (id_storeId currentInboxData) users managers force forceGenerateNewKey (with_no_item policies);
  renewThread (id_threadId currentInboxData) users managers force forceGenerateNewKey (with_no_item policies).

(** [setNewModuleKeysInCache(inbox.id, inboxToModuleKeys(inbox), inbox.version)] *)
Definition rememberInbox (inbox : InboxInfo) : ST W unit :=
  moduleKeys ← lift (inboxToModuleKeys inbox);
  setNewModuleKeysInCache keyCache set_keyCache (ii_id inbox) moduleKeys (ii_version inbox).

Definition _getInboxEx (inboxId type : bytes) : ST W Inbox :=
  inbox ← getServerInbox inboxId (Some type);
  _ ← rememberInbox inbox;
  lift (validateDecryptAndConvertInboxDataToInbox _userPrivKey _userVerifier inbox).
Definition getInbox (inboxId : bytes) : ST W Inbox := _getInboxEx inboxId [].
Definition getInboxEx (inboxId type : bytes) : ST W Inbox := _getInboxEx inboxId type.

Definition listInboxes (contextId : bytes) (query : PagingQuery) : ST W (list Inbox * Z) :=
  match pq_queryAsJson query with
  | Some _ => throw InboxModuleDoesNotSupportQueriesYetException
  | None =>
      model ← lift (map_query query);
      '(inboxes, count) ← inboxList contextId model;
      _ ← for_each inboxes rememberInbox;
      result ← lift (validateDecryptAndConvertInboxesDataToInboxes _userPrivKey _userVerifier inboxes);
      mret (result, count)
  end.

Definition getInboxPublicViewData (inboxId : bytes) : ST W InboxPublicViewData :=
  publicView ← inboxGetPublicView inboxId; lift (read_view publicView).

Definition getInboxPublicView (inboxId : bytes) : ST W InboxPublicView :=
  publicData ← getInboxPublicViewData inboxId;
  mret (mkView (pw_inboxId publicData) (pw_version publicData) (pw_publicMeta publicData)).

Definition deleteInbox (inboxId : bytes) : ST W unit :=
  inbox ← getServerInbox inboxId None;
  entry ← lift (getInboxCurrentDataEntry inbox);
  let inboxDataRaw := ie_data entry in
  _ ← inboxDelete inboxId;
  _ ← invalidateModuleKeysInCache keyCache set_keyCache (Some inboxId);
  _ ← StoreApi.deleteStore (ConnectionWorld0 := store_connection) (id_storeId inboxDataRaw);
  ThreadApi.deleteThread (ConnectionWorld0 := thread_connection) (id_threadId inboxDataRaw).

Definition getModuleKeysAndVersionFromServer (moduleId : bytes) : ST W (ModuleKeys * Z) :=
  inbox ← getServerInbox moduleId None;
  _ ← lift (assertInboxDataIntegrity inbox);
  moduleKeys ← lift (inboxToModuleKeys inbox);
  mret (moduleKeys, ii_version inbox).

(** [ModuleBaseApi]'s [getModuleKeys], of this module. *)
Definition inboxKeysOf (moduleId : bytes) (keyIds : option (gset bytes)) (minimumSchemaVersion : option Z) : ST W ModuleKeys :=
  getModuleKeys getModuleKeysAndVersionFromServer keyCache set_keyCache moduleId keyIds minimumSchemaVersion.

(** [processConnectedEvent], and the part of [processDisconnectedEvent] that is
    the module's own. *)
Definition processConnectedEvent : ST W unit := invalidateModuleKeysInCache keyCache set_keyCache None.
Definition processDisconnectedEvent : ST W unit := invalidateModuleKeysInCache keyCache set_keyCache None.
End World.
End InboxApi.
