(* ===== verification/InboxSend.v ===== *)
(** * Sending to an inbox and reading it

    The operations of [InboxApiImpl] (endpoint/inbox/src/InboxApiImpl.cpp) on
    entries and their files.  An entry is a message of the inbox's thread and
    its files are files of the inbox's store; anyone may send one, under a key of
    his own or under the key of the connection. *)

From Stdlib Require Import ZArith Lia Strings.String Strings.Byte.
From stdpp Require Import base list gmap fin_maps.
From S2P Require Import Prelude Bytes CoreTypes Crypto Base58 CryptoSuite Dynamic Keys Encryptors Dio FieldData FileMetaData EncKeys ContainerData KeyProvider StoreServer ChunkReader FileHandler FileIO FileHandle Upload Utils StdMap Handles Users Legacy Policies Containers Items Modules Validators ContentItems Threads Stores Files StoreFiles ThreadMessages InboxData InboxEntries Inboxes.
Import Dynamic ModuleBaseApi ModuleApi InboxApi.

Module InboxMessageKeyIdFormatValidator.
Definition isKeyIdFormatValid (keyId : bytes) : bool := KeyIdFormatValidator.hasExtendedKeyIdFormat keyId (lit "inbox") 1.
Definition assertKeyIdFormat (keyId : bytes) : outcome unit :=
  if isKeyIdFormatValid keyId then mret tt else Throw InboxIncorrectKeyIdFormatException.
End InboxMessageKeyIdFormatValidator.

Module InboxFileKeyIdFormatValidator.
Definition isKeyIdFormatValid (keyId : bytes) : bool := KeyIdFormatValidator.hasExtendedKeyIdFormat keyId (lit "inboxmsg") 3.
Definition assertKeyIdFormat (keyId : bytes) : outcome unit :=
  if isKeyIdFormatValid keyId then mret tt else Throw InboxIncorrectKeyIdFormatException.
End InboxFileKeyIdFormatValidator.

(** ** Requests and results *)
Section Models.
Context `{!Dynamic}.

Record InboxFile := mkInboxFile { if_fileIndex : Z; if_meta : Var; if_resourceId : bytes }.

Record InboxSendModel := mkInboxSend {
  ism_inboxId : bytes;
  ism_resourceId : bytes;
  ism_message : bytes;
  ism_requestId : option bytes;
  ism_files : list InboxFile;
  ism_version : Z;
}.
End Models.

(** What the server makes of it: the data of the message, in JSON. *)
Record InboxMessageServer := mkMessageServer {
  imsg_message : bytes;
  imsg_store : bytes;
  imsg_files : list bytes;
  imsg_version : Z;
}.

Record InboxEntryResult := mkInboxEntryResult {
  ier_data : InboxEntryDataResult;
  ier_storeId : bytes;
  ier_filesIds : list bytes;
}.
Definition getEmptyResultWithStatusCode (statusCode : exn) : InboxEntryResult :=
  mkInboxEntryResult (mkEntryResult no_public no_private (Some statusCode)) [] [].

Record InboxEntry := mkInboxEntryLib {
  ent_entryId : bytes;
  ent_inboxId : bytes;
  ent_files : list File;
  ent_data : bytes;
  ent_authorPubKey : bytes;
  ent_createDate : Z;
  ent_statusCode : option exn;
  ent_schemaVersion : Z;
}.

(** The server's operations beside those of threads and stores; a file that was
    not found comes back as an error. *)
Class EntryServer {D : Dynamic} (W : Type) := {
  inboxSend : InboxSendModel -> ST W unit;
  storeFileGetMany : bytes -> list bytes -> bool -> ST W (list (option ServerFile));
}.

(** The key the metadata of an entry's files are encrypted with. *)
Definition files_meta_key (key : bytes) : DecryptedEncKeyV2 := {|
  k_id := []; k_key := key; k_dataStructureVersion := 0; k_statusCode := None;
  k_dio := {| Dio.dio := empty_dio; structureVersion := 0; fieldChecksums := ∅ |}; k_keySecret := []; k_secretHash := [] |}.

Definition _CHUNK_SIZE : Z := 128 * 1024.

Module InboxSender.
Section Pure.
Context {C : CryptoService} {E : Ecc} `{!EccNumbers E} {E0 : Encodings} {D : Dynamic}.
Context `{!KeyFormats PublicKey} `{!KeyEntryJson} `{!HashOrder} `{!FileJson}.
Context `{!JsonCodec DIOEncryptorV1.DioJson} `{!JsonCodec EncryptionKey} `{!JsonCodec InboxMessageServer}.
Context `{!JsonCodec StoreFileMeta} `{!JsonCodec InternalStoreFileMeta}.
Context (_userPrivKey : PrivateKey) (_userVerifier : list VerificationRequest -> outcome (list bool)) (_host : bytes).

(** ** Key identifiers *)
Definition part (n : nat) (keyId : bytes) : outcome bytes :=
  match Utils.split_str (KeyIdFormatValidator.trimmed keyId) x2d !! n with Some s => Ret s | None => Throw UndefinedBehaviour end.

Definition readInboxIdFromMessageKeyId (keyId : bytes) : outcome bytes :=
  _ ← InboxMessageKeyIdFormatValidator.assertKeyIdFormat keyId; part 1 keyId.
Definition readMessageIdFromFileKeyId (keyId : bytes) : outcome bytes :=
  _ ← InboxFileKeyIdFormatValidator.assertKeyIdFormat keyId; part 3 keyId.

(** ** What the server stored *)
Definition unpackInboxOrigMessage (data : Var) : outcome InboxMessageServer :=
  serialized ← string_of data;
  try_or every_exn (json ← base64_to serialized; deserialize json) (fun _ => Throw FailedToExtractMessagePublicMetaException).

(** The status of the entry is the key's: the status [unpackMessage] gives is
    not read. *)
Definition decryptInboxEntry (message : ServerMessage) (inboxKeys : ModuleKeys) : outcome InboxEntryResult :=
  try_with every_exn (
    inboxMessageServer ← unpackInboxOrigMessage (sm_data message);
    let msgData := imsg_message inboxMessageServer in
    msgPublicData ← InboxEntriesDataEncryptorSerializer.unpackMessagePublicOnly msgData;
    let keyId := ep_usedInboxKeyId (epr_publicData msgPublicData) in
    let location := {| loc_contextId := mk_contextId inboxKeys; loc_resourceId := mk_moduleResourceId inboxKeys |} in
    let keyProviderRequest := (KeyDecryptionAndVerificationRequest.addOne (mk_keys inboxKeys) keyId location
                                 KeyDecryptionAndVerificationRequest.empty).2 in
    all ← KeyProvider.getKeysAndVerify _userPrivKey _userVerifier keyProviderRequest;
    keys ← at_ all location;
    encKey ← at_ keys keyId;
    privKeyECC ← ecc_fromPrivateKey (k_key encKey);
    decrypted ← InboxEntriesDataEncryptorSerializer.unpackMessage msgData privKeyECC;
    mret (mkInboxEntryResult
      (mkEntryResult (er_publicData decrypted) (er_privateData decrypted) (k_statusCode encKey))
      (imsg_store inboxMessageServer) (imsg_files inboxMessageServer)))
  getEmptyResultWithStatusCode.

(** The files up to one whose conversion throws, and the status it leaves. *)
Fixpoint convert_files (key : DecryptedEncKeyV2) (l : list (option ServerFile)) : outcome (list File * option exn) :=
  match l with
  | [] => mret ([], None)
  | None :: l =>
      '(fs, s) ← convert_files key l; mret (blank_file FileFetchFailedException :: fs, s)
  | Some file :: l =>
      match FileApi.decryptAndConvertFileDataToFileInfo _host file key with
      | Ret (f, _) => '(fs, s) ← convert_files key l; mret (f :: fs, s)
      | Throw UndefinedBehaviour => Throw UndefinedBehaviour
      | Throw e => mret ([], Some (status_of e))
      end
  end.

(** [prepareMeta] *)
Definition prepareMeta (info : CommitFileInfo) : FileMetaEncryptorV4.FileMetaToEncryptV4 :=
  let sent := cmi_fileSendResult info in
  let internalFileMeta := mkInternalMeta 5 (cmi_size info) (cs_cipherType sent) (i64 (cs_chunkSize sent))
    (base64_from (cs_key sent)) (base64_from (cs_hmac sent)) None in
  {| FileMetaEncryptorV4.in_publicMeta := cmi_publicMeta info; FileMetaEncryptorV4.in_privateMeta := cmi_privateMeta info;
     FileMetaEncryptorV4.in_fileSize := cmi_size info; FileMetaEncryptorV4.in_internalMeta := serialize internalFileMeta |}.
End Pure.

Section World.
Context {C : CryptoService} {E : Ecc} `{!EccNumbers E} {E0 : Encodings} {D : Dynamic}.
Context {X : StoreServer.StoreServer} {R : RequestApi}.
Context `{!KeyFormats PublicKey} `{!KeyEntryJson} `{!HashOrder} `{!ModuleJson} `{!InboxJson} `{!FileJson}.
Context `{!JsonCodec DIOEncryptorV1.DioJson} `{!JsonCodec EncryptionKey} `{!JsonCodec InboxInternalMetaV5}.
Context `{!JsonCodec InboxMessageServer} `{!JsonCodec StoreFileMeta} `{!JsonCodec InternalStoreFileMeta}.
Context (_userPrivKey : PrivateKey) (_userVerifier : list VerificationRequest -> outcome (list bool)).
Context (_bridgeIdentity : option BridgeIdentity) (_host : bytes) (_serverRequestChunkSize : Z).
(** What the member [randomWrite] of a [FileDefinition] holds that nothing set. *)
Context (unset_randomWrite : bool).
Context {W : Type} `{!InboxConnections W} `{!InboxServer W} `{!EntryServer W} `{!MessageServer W} `{!FileServer W}.
#[local] Existing Instance inbox_connection.
Context `{!StoreWorld W} `{!InboxHandleWorld W}.

(** ** Sending *)
Definition createFileHandle (publicMeta privateMeta : bytes) (fileSize : Z) : ST W Z :=
  InboxHandleManager.createFileWriteHandle [] [] (u64 fileSize) publicMeta privateMeta _CHUNK_SIZE _serverRequestChunkSize.

(** [setRequestData] of each handle, with a key of its own and its place in the list. *)
Fixpoint set_requests (requestId : bytes) (i : Z) (l : list Z) : ST W unit :=
  match l with
  | [] => mret tt
  | h :: l =>
      key ← on_rng (random 32);
      _ ← InboxHandleManager.on_object h (FileWriteHandle.setRequestData requestId key i);
      set_requests requestId (i + 1) l
  end.

Fixpoint file_definitions (l : list Z) : ST W (list FileDefinition) :=
  match l with
  | [] => mret []
  | inboxFileHandle :: l =>
      '(_, _, _, h) ← InboxHandleManager.getFileWriteHandle inboxFileHandle;
      let size := FileWriteHandle.getEncryptedFileSize h in
      ds ← file_definitions l;
      mret (mkFileDefinition size.1 size.2 unset_randomWrite :: ds)
  end.

Definition prepareEntry (inboxId data : bytes) (inboxFileHandles : list Z) (userPrivKey : option bytes) : ST W Z :=
  inboxPublicData ← getInboxPublicViewData inboxId;
  _ ← (if bool_decide (inboxFileHandles <> []) then
         filesList ← file_definitions inboxFileHandles;
         requestId ← on_uploads (createRequestCall filesList);
         set_requests requestId 0 inboxFileHandles
       else mret tt);
  handle ← InboxHandleManager.createInboxHandle inboxId (pw_resourceId inboxPublicData) data inboxFileHandles userPrivKey;
  mret (ih_id handle).

(** [createPublicDIO("", generateId(), ...)], of which the resource id is used. *)
Definition public_dio (pubKey : PublicKey) (handle : InboxHandle) : ST W DataIntegrityObject :=
  id ← generateId;
  ConnectionImpl.createPublicDIO getMyUserId getNowTimestamp (fun _ => on_rng) _userPrivKey _bridgeIdentity
    [] id pubKey (Some (ih_inboxId handle)) (Some (ih_inboxResourceId handle)).

Fixpoint inbox_files (userPriv : PrivateKey) (filesMetaKey : bytes) (handle : InboxHandle) (i : Z) (l : list CommitFileInfo) :
    ST W (list InboxFile) :=
  match l with
  | [] => mret []
  | fileInfo :: l =>
      fileDIO ← public_dio (getPublicKey userPriv) handle;
      encryptedFileMeta ← on_rng (FileMetaEncryptorV4.encrypt (prepareMeta fileInfo) userPriv filesMetaKey);
      fs ← inbox_files userPriv filesMetaKey handle (i + 1) l;
      mret (mkInboxFile i (file4_toJSON encryptedFileMeta) (dio_resourceId fileDIO) :: fs)
  end.

(** The files of the entry, and the request they were uploaded in; an entry
    whose files are incomplete is given up. *)
Definition commit_files (inboxHandle : Z) (handle : InboxHandle) (userPriv : PrivateKey) (filesMetaKey : bytes) :
    ST W (list InboxFile * option bytes) :=
  commitSentInfo ← try_catch (InboxHandleManager.commitInboxHandle inboxHandle)
    (fun e => if bool_decide (e = DataDifferentThanDeclaredException) then
                _ ← InboxHandleManager.abortInboxHandle inboxHandle;
                throw WritingToEntryInteruptedWrittenDataSmallerThenDeclaredException
              else throw e);
  inboxFiles ← inbox_files userPriv filesMetaKey handle 0 commitSentInfo;
  match commitSentInfo with
  | info :: _ => mret (inboxFiles, Some (cs_requestId (cmi_fileSendResult info)))
  | [] => throw UndefinedBehaviour
  end.

Definition sendEntry (inboxHandle : Z) : ST W unit :=
  handle ← InboxHandleManager.getInboxHandle inboxHandle;
  publicData ← getInboxPublicViewData (ih_inboxId handle);
  inboxPubKeyECC ← lift (fromBase58DER (pw_inboxEntriesPubKeyBase58DER publicData));
  _userPrivKeyECC ← lift (match ih_userPrivKey handle with Some k => PrivateKey.fromWIF k | None => Ret _userPrivKey end);
  let hasFiles := bool_decide (ih_inboxFileHandles handle <> []) in
  filesMetaKey ← (if hasFiles then on_rng (random 32) else mret []);
  let modelForSerializer := mkEntrySend
    (mkEntryPublic (toBase58DER (getPublicKey _userPrivKeyECC)) (bool_decide (is_Some (ih_userPrivKey handle)))
       (pw_inboxEntriesKeyId publicData))
    (mkEntryPrivate filesMetaKey (ih_data handle)) in
  '(inboxFiles, requestId) ← (if hasFiles then commit_files inboxHandle handle _userPrivKeyECC filesMetaKey
                              else mret ([], None));
  messageDIO ← public_dio (getPublicKey _userPrivKeyECC) handle;
  serializedMessage ← lift (InboxEntriesDataEncryptorSerializer.packMessage modelForSerializer _userPrivKeyECC inboxPubKeyECC);
  inboxSend (mkInboxSend (ih_inboxId handle) (dio_resourceId messageDIO) serializedMessage requestId inboxFiles 1).

(** ** Reading *)
Definition getServerMessage (messageId : bytes) : ST W ServerMessage := threadMessageGet messageId.

Definition getEntryDecryptionKeys (message : ServerMessage) : ST W ModuleKeys :=
  inboxId ← lift (readInboxIdFromMessageKeyId (sm_keyId message));
  inboxMessageServer ← lift (unpackInboxOrigMessage (sm_data message));
  msgPublicData ← lift (InboxEntriesDataEncryptorSerializer.unpackMessagePublicOnly (imsg_message inboxMessageServer));
  inboxKeysOf inboxId (Some {[ ep_usedInboxKeyId (epr_publicData msgPublicData) ]}) (Some InboxDataSchema.VERSION_4).

(** What [catch] clauses for all exceptions do with one that was thrown. *)
Definition convertInboxEntry (message : ServerMessage) (inboxEntry : InboxEntryResult) : ST W InboxEntry :=
  let d := ier_data inboxEntry in
  inboxId ← lift (readInboxIdFromMessageKeyId (sm_keyId message));
  let fileMetaEncKey := files_meta_key (ep_filesMetaKey (er_privateData d)) in
  '(files, statusCode) ← (match er_statusCode d with
    | Some code => mret ([], Some code)
    | None =>
        try_catch (
          serverFiles ← storeFileGetMany (ier_storeId inboxEntry) (ier_filesIds inboxEntry) false;
          lift (convert_files _host fileMetaEncKey serverFiles))
        (fun e => if bool_decide (e = UndefinedBehaviour) then throw e else mret ([], Some (status_of e)))
    end);
  mret {| ent_entryId := sm_id message; ent_inboxId := inboxId; ent_files := files;
          ent_data := ep_text (er_privateData d); ent_authorPubKey := ep_userPubKey (er_publicData d);
          ent_createDate := sm_createDate message; ent_statusCode := statusCode; ent_schemaVersion := 1 |}.

Definition decryptAndConvertInboxEntryDataToInboxEntry (message : ServerMessage) (inboxKeys : ModuleKeys) : ST W InboxEntry :=
  inboxEntry ← lift (decryptInboxEntry _userPrivKey _userVerifier message inboxKeys);
  convertInboxEntry message inboxEntry.

Definition read_message (message : ServerMessage) : ST W InboxEntry :=
  keys ← getEntryDecryptionKeys message; decryptAndConvertInboxEntryDataToInboxEntry message keys.

Definition readEntry (inboxEntryId : bytes) : ST W InboxEntry :=
  messageRaw ← getServerMessage inboxEntryId; read_message messageRaw.

Fixpoint read_messages (l : list ServerMessage) : ST W (list InboxEntry) :=
  match l with
  | [] => mret []
  | message :: l => e ← read_message message; es ← read_messages l; mret (e :: es)
  end.

Definition listEntries (inboxId : bytes) (query : PagingQuery) : ST W (list InboxEntry * Z) :=
  match pq_queryAsJson query with
  | Some _ => throw InboxModuleDoesNotSupportQueriesYetException
  | None =>
      inboxRaw ← getServerInbox inboxId None;
      _ ← rememberInbox inboxRaw;
      entry ← lift (getInboxCurrentDataEntry inboxRaw);
      let threadId := id_threadId (ie_data entry) in
      model ← lift (map_query query);
      '(_, messages, count) ← threadMessagesGet threadId model;
      entries ← read_messages messages;
      mret (entries, count)
  end.

(** [_storeApi.deleteFile] and [_threadApi.deleteMessage] check the ids. *)
Definition deleteMessageAndFiles (message : ServerMessage) : ST W unit :=
  publicMeta ← lift (unpackInboxOrigMessage (sm_data message));
  _ ← for_each (imsg_files publicMeta) (fun fileId =>
    _ ← lift (Validator.validateId fileId); storeFileDelete fileId);
  _ ← lift (Validator.validateId (sm_id message));
  threadMessageDelete (sm_id message).

Definition deleteEntry (inboxEntryId : bytes) : ST W unit :=
  messageRaw ← getServerMessage inboxEntryId;
  _ ← lift (InboxMessageKeyIdFormatValidator.assertKeyIdFormat (sm_keyId messageRaw));
  deleteMessageAndFiles messageRaw.

(** ** Files *)
Definition createInboxFileHandleForRead (file : ServerFile) : ST W Z :=
  messageId ← lift (readMessageIdFromFileKeyId (sf_keyId file));
  messageRaw ← getServerMessage messageId;
  inboxKeys ← getEntryDecryptionKeys messageRaw;
  messageData ← lift (decryptInboxEntry _userPrivKey _userVerifier messageRaw inboxKeys);
  let fileMetaEncKey := files_meta_key (ep_filesMetaKey (er_privateData (ier_data messageData))) in
  decryptionParams ← lift (FileApi.getFileDecryptionParams _host file fileMetaEncKey);
  InboxHandleManager.createFileReadHandle decryptionParams _serverRequestChunkSize.

Definition openFile (fileId : bytes) : ST W Z :=
  '(_, file) ← storeFileGet fileId; createInboxFileHandleForRead file.

(** Any entry that has files lets any file's handle be written to. *)
Definition writeToFile (inboxHandle inboxFileHandle : Z) (dataChunk : bytes) : ST W unit :=
  handle ← InboxHandleManager.getInboxHandle inboxHandle;
  _ ← throw_if (bool_decide (ih_inboxFileHandles handle = [])) InboxHandleIsNotTiedToInboxFileHandleException;
  '(b, pub, priv, h) ← InboxHandleManager.getFileWriteHandle inboxFileHandle;
  FileHandleManager.with_write b pub priv h (FileWriteHandle.write dataChunk).

Definition closeFile (handle : Z) : ST W bytes :=
  ok ← InboxHandleManager.isFileReadHandle handle;
  _ ← throw_if (negb ok) InboxInvalidFileReadHandleException;
  '(b, _) ← InboxHandleManager.getFileReadHandle handle;
  _ ← InboxHandleManager.removeFileHandle handle false;
  mret (hb_fileId b).

Definition readFromFile (handle length : Z) : ST W bytes :=
  '(b, h) ← InboxHandleManager.getFileReadHandle handle;
  try_catch (FileHandleManager.with_read b h (FileReadHandle.read (u64 length)))
    (fun e => if bool_decide (e = FileVersionMismatchException) then
                _ ← closeFile handle; throw FileVersionMismatchHandleClosedException
              else throw e).

Definition seekInFile (handle pos : Z) : ST W unit :=
  '(b, h) ← InboxHandleManager.getFileReadHandle handle;
  FileHandleManager.with_read b h (FileReadHandle.seek (u64 pos)).
End World.
End InboxSender.
