(* ===== verification/InboxFlow.v ===== *)
(** * Entries from anyone to the members of an inbox

    What [sendEntry] sends, the inbox's members read, and what they and the
    sender cannot tell: whose an entry is, whether it was opened, and whom it is
    encrypted for. *)

From Stdlib Require Import ZArith Lia Strings.String Strings.Byte.
From stdpp Require Import base list gmap fin_maps.
From S2P Require Import Prelude Bytes CoreTypes Crypto Base58 CryptoSuite Dynamic Keys Encryptors Dio FieldData FileMetaData EncKeys ContainerData KeyProvider StoreServer ChunkReader FileHandler FileIO FileHandle Upload Utils StdMap Handles Users Legacy Policies Containers Items Modules Validators ContainerFlow ContentItems Threads Stores Files StoreFiles ThreadMessages InboxData InboxEntries Inboxes InboxSend.
Import Dynamic ModuleBaseApi ModuleApi InboxApi InboxSender InboxEntriesDataEncryptorSerializer.

Section Reading.
Context {C : CryptoService} `{!CryptoLaws C} {E : Ecc} `{!EccLaws E} `{!EccNumbers E} {E0 : Encodings} `{!EncodingsLaws E0}.
Context {D : Dynamic} `{!KeyFormats PublicKey} `{!KeyEntryJson} `{!HashOrder}.
Context `{!JsonCodec DIOEncryptorV1.DioJson} `{!JsonCodec EncryptionKey}.
Context `{!JsonCodec InboxMessageServer} `{!JsonCodecLaws InboxMessageServer}.
Implicit Types (message : ServerMessage) (keys : ModuleKeys).

(** Module keys of which the user opens the one with the id [keyId] to [ek]. *)
Definition holds keys (u : PrivateKey) (keyId ek : bytes) : Prop :=
  shares (mkModuleKeys (mk_keys keys) keyId (mk_moduleSchemaVersion keys) (mk_moduleResourceId keys) (mk_contextId keys)) u ek.

(** What the server makes of a sent entry: a message with the entry in it, and
    the store and ids of its files. *)
Definition carries message (m : InboxMessageServer) : Prop := string_of (sm_data message) = Ret (base64_from (serialize m)).

Lemma carried message m : carries message m -> unpackInboxOrigMessage (sm_data message) = Ret m.
Proof. unfold carries, unpackInboxOrigMessage. intros Hm. unfold_st. rewrite Hm, base64_inv. cbn. by rewrite json_inv. Qed.

(** An entry under a key the member holds; its status is the key's. *)
Lemma entry_shown u uv message keys m public ek inbox r :
  carries message m -> unpackMessagePublicOnly (imsg_message m) = Ret public ->
  holds keys u (ep_usedInboxKeyId (epr_publicData public)) ek -> ecc_fromPrivateKey ek = Ret inbox ->
  (forall l, uv l = Ret ((fun _ => true) <$> l)) -> unpackMessage (imsg_message m) inbox = Ret r ->
  decryptInboxEntry u uv message keys
  = Ret (mkInboxEntryResult (mkEntryResult (er_publicData r) (er_privateData r) None) (imsg_store m) (imsg_files m)).
Proof.
  intros Hm Hp (e & k & Hf & Hd & Hx & Hr & Hc & Hs & _ & Hk) Hecc Hu Ho. apply try_with_ret.
  pose proof (carried _ _ Hm) as Hun. unfold_st. rewrite Hun. cbv zeta. rewrite Hp.
  erewrite one_key_found; [|exact Hf|exact Hd|exact Hx|exact Hr|exact Hc|apply Hu].
  rewrite !at_singleton, Hk, Hecc, Ho, Hs. done.
Qed.

(** The private part of an entry, opened or not, as [unpackMessage] leaves it. *)
Lemma unpack_garbled public s inbox e : zlen (ep_userPubKey public) + zlen (ep_usedInboxKeyId public) < 253 ->
  Ecies.decrypt inbox s None = Throw e -> e <> UndefinedBehaviour ->
  let whole := base64_from (BinaryBufferBE.writeOneOctetLengthBuffer (write_public public) ++ s) in
  unpackMessagePublicOnly whole = Ret (mkEntryPublicResult public None)
  /\ unpackMessage whole inbox = Ret (mkEntryResult no_public no_private (Some (status_of e))).
Proof.
  intros Hl He Hne whole. destruct (public_written public [] Hl) as [Hr Hz]. rewrite app_nil_r in Hr. split.
  - unfold unpackMessagePublicOnly, whole. unfold_st. rewrite base64_inv, BinaryBufferBE.read_written by done. cbn [fst]. by rewrite Hr.
  - unfold unpackMessage, whole. unfold_st. rewrite base64_inv, BinaryBufferBE.read_written by done. rewrite Hr. cbn [fst].
    rewrite He. by destruct e.
Qed.

(** an entry that did not open looks like an empty one: whoever sends to an
    inbox, under its current key id, a private part that does not decrypt, makes
    every member read an entry with no text and no author, and without an error
    status, because the status of the decryption is not looked at. *)
Theorem unreadable_entry_shown public s e u uv message keys store files version ek inbox :
  zlen (ep_userPubKey public) + zlen (ep_usedInboxKeyId public) < 253 ->
  Ecies.decrypt inbox s None = Throw e -> e <> UndefinedBehaviour ->
  carries message (mkMessageServer (base64_from (BinaryBufferBE.writeOneOctetLengthBuffer (write_public public) ++ s))
    store files version) ->
  holds keys u (ep_usedInboxKeyId public) ek -> ecc_fromPrivateKey ek = Ret inbox ->
  (forall l, uv l = Ret ((fun _ => true) <$> l)) ->
  decryptInboxEntry u uv message keys = Ret (mkInboxEntryResult (mkEntryResult no_public no_private None) store files).
Proof.
  intros Hl He Hne Hm Hh Hecc Hu. destruct (unpack_garbled public s inbox e Hl He Hne) as [Hp Ho].
  by rewrite (entry_shown u uv message keys _ _ ek inbox _ Hm Hp Hh Hecc Hu Ho).
Qed.

(** C10: the author an entry shows is what its sender wrote there: under any key
    of his own, a sender makes an entry that every member opens, without an
    error status, to the text, with any public key he likes as its author's. *)
Theorem entry_author_forged claimed preset keyId filesKey text mallory inbox :
  zlen claimed + zlen keyId < 253 -> zlen (base64_from filesKey) < 256 -> zlen text < 2 ^ 62 ->
  exists s, packMessage (mkEntrySend (mkEntryPublic claimed preset keyId) (mkEntryPrivate filesKey text)) mallory
      (getPublicKey inbox) = Ret s
    /\ forall u uv message keys store files version ek, carries message (mkMessageServer s store files version) ->
      holds keys u keyId ek -> ecc_fromPrivateKey ek = Ret inbox -> (forall l, uv l = Ret ((fun _ => true) <$> l)) ->
      exists r, decryptInboxEntry u uv message keys = Ret r
        /\ ep_userPubKey (er_publicData (ier_data r)) = claimed /\ ep_text (er_privateData (ier_data r)) = text
        /\ er_statusCode (ier_data r) = None.
Proof.
  intros Hp Hk Ht.
  destruct (packed_opens (mkEntrySend (mkEntryPublic claimed preset keyId) (mkEntryPrivate filesKey text)) mallory inbox)
    as (s & Hs & Ho & Hpub); [done|].
  exists s. split; [done|]. intros u uv message keys store files version ek Hm Hh Hecc Hu. eexists. split.
  - by eapply entry_shown.
  - done.
Qed.
End Reading.

(** ** Sending *)
Section Sending.
Context {C : CryptoService} `{!CryptoLaws C} {E : Ecc} `{!EccLaws E} `{!EccNumbers E} {E0 : Encodings} `{!EncodingsLaws E0}.
Context {D : Dynamic} {X : StoreServer.StoreServer} {R : RequestApi}.
Context `{!KeyFormats PublicKey} `{!KeyFormatsLaws PublicKey} `{!KeyEntryJson} `{!HashOrder}.
Context `{!InboxJson} `{!InboxJsonLaws} `{!FileJson}.
Context `{!JsonCodec DIOEncryptorV1.DioJson} `{!JsonCodec EncryptionKey}.
Context `{!JsonCodec InboxMessageServer} `{!JsonCodecLaws InboxMessageServer}.
Context `{!JsonCodec StoreFileMeta} `{!JsonCodec InternalStoreFileMeta}.
Context {W : Type} `{!InboxConnections W} `{!InboxServer W} `{!EntryServer W} `{!MessageServer W} `{!FileServer W}.
#[local] Existing Instance inbox_connection.
Context `{!StoreWorld W} `{!InboxHandleWorld W} `{!ConnectionLaws W}.
Context (_userPrivKey : PrivateKey) (_bridgeIdentity : option BridgeIdentity).

(** What the clock and the ids of the connection must give. *)
Record running : Prop := {
  rn_clock (w : W) : exists t, (getNowTimestamp w).1 = Ret t;
  rn_id (w : W) : exists i, (generateId w).1 = Ret i;
}.

Lemma public_dio_created p handle w : running -> exists d, (public_dio _userPrivKey _bridgeIdentity p handle w).1 = Ret d.
Proof.
  intros Hr. unfold public_dio. destruct (rn_id Hr w) as [i Hi]. step_fst Hi as w1.
  unfold ConnectionImpl.createPublicDIO, ConnectionImpl.createDIOExt. rewrite (run_bind_ret (mret _) _ w1 (lit "<anonymous>") w1) by done.
  destruct (rn_clock Hr w1) as [t Ht]. step_fst Ht as w2.
  destruct (rng_fst KeyProvider.generateDIORandomId (fun _ => True) w2) as (r & Hrnd & _).
  { intros g. destruct (hex_generated 8 g) as (x & g' & Hx & _); [lia|]. by exists x, g'. }
  step_fst Hrnd as w3. by eexists.
Qed.

(** The key an entry is sent under. *)
Definition sender_key (handle : InboxHandle) : outcome PrivateKey :=
  match ih_userPrivKey handle with Some k => PrivateKey.fromWIF k | None => Ret _userPrivKey end.

(** The entry of a handle, for the key [keyId] of the inbox. *)
Definition handle_entry (handle : InboxHandle) (k : PrivateKey) (keyId filesKey : bytes) : InboxEntrySendModel :=
  mkEntrySend (mkEntryPublic (toBase58DER (getPublicKey k)) (bool_decide (is_Some (ih_userPrivKey handle))) keyId)
    (mkEntryPrivate filesKey (ih_data handle)).

(** What goes to the server for it. *)
Record sends (handle : InboxHandle) (k : PrivateKey) (inbox : PublicKey) (keyId filesKey : bytes) (model : InboxSendModel) : Prop := {
  sd_inbox : ism_inboxId model = ih_inboxId handle;
  sd_message : packMessage (handle_entry handle k keyId filesKey) k inbox = Ret (ism_message model);
  sd_plain : ih_inboxFileHandles handle = [] -> ism_files model = [] /\ ism_requestId model = None /\ filesKey = [];
}.

Implicit Types handle : InboxHandle.

Section Sent.
Context (h : Z) handle (view : InboxPublicViewData) (k : PrivateKey) (inbox : PublicKey) (w w1 : W).
Hypothesis Hhandle : inboxHandles w !! h = Some handle.
Hypothesis Hview : getInboxPublicViewData (ih_inboxId handle) w = (Ret view, w1).
Hypothesis Hinbox : fromBase58DER (pw_inboxEntriesPubKeyBase58DER view) = Ret inbox.
Hypothesis Hk : sender_key handle = Ret k.

Abbreviation send := (sendEntry _userPrivKey _bridgeIdentity h).
Abbreviation keyId := (pw_inboxEntriesKeyId view).

Lemma send_begins {A} (f : InboxHandle -> ST W A) : (InboxHandleManager.getInboxHandle h ≫= f) w = f handle w.
Proof. unfold InboxHandleManager.getInboxHandle. unfold_st. by rewrite Hhandle. Qed.

(** Without files nothing stands between the entry and the server. *)
Lemma plain_entry_sent s : running -> ih_inboxFileHandles handle = [] ->
  packMessage (handle_entry handle k keyId []) k inbox = Ret s ->
  exists model w', send w = inboxSend model w' /\ sends handle k inbox keyId [] model /\ ism_message model = s.
Proof.
  intros Hr Hf Hs. unfold sendEntry. rewrite send_begins. run_step.
  rewrite (run_bind_ret (lift (fromBase58DER _)) _ w1 inbox w1) by (unfold lift; by rewrite Hinbox).
  fold (sender_key handle). rewrite (run_bind_ret (lift (sender_key handle)) _ w1 k w1) by (unfold lift; by rewrite Hk).
  rewrite Hf. cbn [bool_decide]. rewrite (bool_decide_eq_false_2 ([] <> [])) by tauto.
  rewrite (run_bind_ret (mret _) _ w1 [] w1) by done. rewrite (run_bind_ret (mret _) _ w1 ([], None) w1) by done.
  destruct (public_dio_created (getPublicKey k) handle w1 Hr) as [d Hd].
  step_fst Hd as w2.
  rewrite (run_bind_ret (lift (packMessage _ _ _)) _ w2 s w2) by (unfold lift; unfold handle_entry in Hs; by rewrite Hs).
  do 2 eexists. split; [reflexivity|]. split; [|done]. by split.
Qed.

(** Whatever was sent is the handle's entry under the view's key. *)
Lemma entry_sent w' : send w = (Ret tt, w') ->
  exists model filesKey w2, inboxSend model w2 = (Ret tt, w') /\ sends handle k inbox keyId filesKey model
    /\ (filesKey = [] \/ zlen filesKey = 32).
Proof.
  unfold sendEntry. rewrite send_begins. intros Hr. rewrite (run_bind_ret _ _ _ _ _ Hview) in Hr.
  rewrite (run_bind_ret (lift (fromBase58DER _)) _ w1 inbox w1) in Hr by (unfold lift; by rewrite Hinbox).
  fold (sender_key handle) in Hr. rewrite (run_bind_ret (lift (sender_key handle)) _ w1 k w1) in Hr by (unfold lift; by rewrite Hk).
  inv_bind Hr as (filesKey & w2 & Hkey & Hr). inv_bind Hr as ([files requestId] & w3 & Hfiles & Hr).
  inv_bind Hr as (d & w4 & _ & Hr). inv_bind Hr as (s & w5 & Hs & Hr).
  do 3 eexists. split; [exact Hr|]. unfold lift in Hs. injection Hs as Hs <-. split; [split|].
  - done.
  - exact Hs.
  - intros Hf. rewrite Hf in *. rewrite (bool_decide_eq_false_2 ([] <> [])) in Hkey, Hfiles by tauto.
    injection Hkey as <- _. by injection Hfiles as <- <- _.
  - clear Hfiles Hs Hr. case_bool_decide; [|left; unfold mret, st_ret in Hkey; congruence]. right.
    pose proof (rng_fst (random 32) (fun x => zlen x = 32) w1) as (x & Hx & Hl); [intros g; by apply random_bytes|].
    unfold on_rng in *. rewrite Hkey in Hx. by injection Hx as ->.
Qed.
End Sent.

(** ** Whom an entry is for *)
Section Delivery.
Context (h : Z) (handle : InboxHandle) (raw : InboxPublicViewRaw) (k inbox : PrivateKey) (w w1 : W).
Hypothesis Hhandle : inboxHandles w !! h = Some handle.
Hypothesis Hraw : inboxGetPublicView (ih_inboxId handle) w = (Ret raw, w1).
Hypothesis Hk : sender_key handle = Ret k.

(** The view of public data that was packed for the key of [inbox]. *)
Lemma view_packed d author : pv_publicData raw = public_toJSON (pack_public 5 d author) ->
  pd_inboxEntriesPubKeyBase58DER d = toBase58DER (getPublicKey inbox) -> pd_inboxEntriesKeyId d <> [] ->
  getInboxPublicViewData (ih_inboxId handle) w = (Ret (view_of raw (public_read 5 d author)), w1).
Proof.
  intros Hd Hp Hi. unfold getInboxPublicViewData. rewrite (run_bind_ret _ _ _ _ _ Hraw). unfold lift, read_view.
  rewrite Hd, public_is_object. unfold_st. rewrite public_versioned. cbn [pack_public public_version].
  rewrite bool_decide_eq_false_2, bool_decide_eq_true_2 by done. unfold InboxDataProcessorV5.unpackPublicOnly.
  rewrite public_unpacked; [done| |done]. rewrite Hp. apply base58der_nonempty.
Qed.

(** The entry fits the lengths of the serialization. *)
Definition entry_fits (keyId : bytes) : Prop :=
  zlen (toBase58DER (getPublicKey k)) + zlen keyId < 253 /\ zlen (ih_data handle) < 2 ^ 62
  /\ forall r, zlen r = 32 -> zlen (base64_from r) < 256.

Lemma fits_writable keyId filesKey : entry_fits keyId -> filesKey = [] \/ zlen filesKey = 32 ->
  zlen (base64_from []) < 256 -> writable (handle_entry handle k keyId filesKey).
Proof. intros (Hp & Ht & Hb) [->|Hl] Hz; split; cbn; auto. Qed.

(** What opens a sent entry. *)
Definition opened_by (reader : PrivateKey) (keyId : bytes) (model : InboxSendModel) : Prop :=
  exists filesKey, unpackMessage (ism_message model) reader
      = Ret (mkEntryResult (es_publicData (handle_entry handle k keyId filesKey)) (mkEntryPrivate filesKey (ih_data handle)) None)
    /\ unpackMessagePublicOnly (ism_message model)
       = Ret (mkEntryPublicResult (es_publicData (handle_entry handle k keyId filesKey)) None).

Lemma sent_opened filesKey keyId model : sends handle k (getPublicKey inbox) keyId filesKey model ->
  writable (handle_entry handle k keyId filesKey) -> opened_by inbox keyId model.
Proof.
  intros Hs Hw. destruct (packed_opens _ k inbox Hw) as (s & Hp & Ho & Hpub). exists filesKey.
  pose proof (sd_message _ _ _ _ _ _ Hs) as Hm. rewrite Hp in Hm. injection Hm as <-. done.
Qed.

(** Sent for sure without files, and for the key in any case. *)
Lemma entry_for_key d author : running -> pv_publicData raw = public_toJSON (pack_public 5 d author) ->
  pd_inboxEntriesPubKeyBase58DER d = toBase58DER (getPublicKey inbox) -> pd_inboxEntriesKeyId d <> [] ->
  entry_fits (pd_inboxEntriesKeyId d) -> zlen (base64_from []) < 256 ->
  (ih_inboxFileHandles handle = [] -> exists model w', sendEntry _userPrivKey _bridgeIdentity h w = inboxSend model w'
     /\ ism_inboxId model = ih_inboxId handle /\ ism_files model = [] /\ opened_by inbox (pd_inboxEntriesKeyId d) model)
  /\ (forall w', sendEntry _userPrivKey _bridgeIdentity h w = (Ret tt, w') ->
     exists model w2, inboxSend model w2 = (Ret tt, w') /\ ism_inboxId model = ih_inboxId handle
       /\ opened_by inbox (pd_inboxEntriesKeyId d) model).
Proof.
  intros Hr Hd Hp Hi Hfit Hz. pose proof (view_packed d author Hd Hp Hi) as Hv.
  assert (fromBase58DER (pw_inboxEntriesPubKeyBase58DER (view_of raw (public_read 5 d author))) = Ret (getPublicKey inbox)) as Hin.
  { cbn [view_of pw_inboxEntriesPubKeyBase58DER public_read pr_inboxEntriesPubKeyBase58DER]. rewrite Hp. apply base58der_inv. }
  split.
  - intros Hf. pose proof (fits_writable _ [] Hfit (or_introl eq_refl) Hz) as Hw.
    destruct (packed_opens _ k inbox Hw) as (s & Hs & _).
    destruct (plain_entry_sent h handle _ k _ w w1 Hhandle Hv Hin Hk s Hr Hf Hs) as (model & w' & Hsend & Hse & _).
    exists model, w'. split; [exact Hsend|]. split; [exact (sd_inbox _ _ _ _ _ _ Hse)|].
    split; [by apply (sd_plain _ _ _ _ _ _ Hse)|]. by eapply sent_opened.
  - intros w' Hs. destruct (entry_sent h handle _ k _ w w1 Hhandle Hv Hin Hk w' Hs) as (model & filesKey & w2 & Hi2 & Hse & Hl).
    exists model, w2. split; [exact Hi2|]. split; [exact (sd_inbox _ _ _ _ _ _ Hse)|].
    eapply sent_opened; [exact Hse|]. by apply fits_writable.
Qed.

(** C4: an entry reaches every member of the inbox: what is sent through a
    handle, for the public data the inbox's author packed, each member who holds
    the key named there opens, without an error status, to the text of the
    handle and the public key of its sender, whatever store and files the server
    put beside it; without files nothing before the server's answer can fail. *)
Theorem entry_delivered d author ek :
  running -> pv_publicData raw = public_toJSON (pack_public 5 d author) ->
  pd_inboxEntriesPubKeyBase58DER d = toBase58DER (getPublicKey inbox) -> pd_inboxEntriesKeyId d <> [] ->
  ecc_fromPrivateKey ek = Ret inbox ->
  entry_fits (pd_inboxEntriesKeyId d) -> zlen (base64_from []) < 256 ->
  let readable model := forall u uv message keys store files version,
    carries message (mkMessageServer (ism_message model) store files version) ->
    holds keys u (pd_inboxEntriesKeyId d) ek -> (forall l, uv l = Ret ((fun _ => true) <$> l)) ->
    exists r, decryptInboxEntry u uv message keys = Ret r
      /\ ep_text (er_privateData (ier_data r)) = ih_data handle
      /\ ep_userPubKey (er_publicData (ier_data r)) = toBase58DER (getPublicKey k)
      /\ er_statusCode (ier_data r) = None /\ ier_storeId r = store /\ ier_filesIds r = files in
  (ih_inboxFileHandles handle = [] -> exists model w', sendEntry _userPrivKey _bridgeIdentity h w = inboxSend model w'
     /\ ism_inboxId model = ih_inboxId handle /\ ism_files model = [] /\ readable model)
  /\ (forall w', sendEntry _userPrivKey _bridgeIdentity h w = (Ret tt, w') ->
     exists model w2, inboxSend model w2 = (Ret tt, w') /\ ism_inboxId model = ih_inboxId handle /\ readable model).
Proof.
  intros Hr Hd Hp Hi Hecc Hfit Hz readable.
  assert (forall model, opened_by inbox (pd_inboxEntriesKeyId d) model -> readable model) as Hread.
  { intros model (filesKey & Ho & Hpub) u uv message keys store files version Hm Hh Hu.
    eexists. split; [by eapply entry_shown|]. done. }
  destruct (entry_for_key d author Hr Hd Hp Hi Hfit Hz) as [Hplain Hany]. split.
  - intros Hf. destruct (Hplain Hf) as (model & w' & ? & ? & ? & ?). exists model, w'. auto.
  - intros w' Hs. destruct (Hany w' Hs) as (model & w2 & ? & ? & ?). exists model, w2. auto.
Qed.

(** C9: entries go to whom the server says: the signature of the inbox's
    author covers the public metadata alone, so a server that puts a key of its
    own in the public view is believed; the sender sees the author's metadata
    without an error status, and whatever he sends opens under the server's key. *)
Theorem entries_key_substituted d author keyId :
  running -> pv_publicData raw = public_toJSON (with_entries_key (toBase58DER (getPublicKey inbox)) keyId (pack_public 5 d author)) ->
  keyId <> [] -> entry_fits keyId -> zlen (base64_from []) < 256 ->
  (exists view, getInboxPublicViewData (ih_inboxId handle) w = (Ret view, w1)
     /\ pw_statusCode view = None /\ pw_publicMeta view = pd_publicMeta d
     /\ pw_authorPubKey view = toBase58DER (getPublicKey author))
  /\ (ih_inboxFileHandles handle = [] -> exists model w', sendEntry _userPrivKey _bridgeIdentity h w = inboxSend model w'
       /\ opened_by inbox keyId model)
  /\ (forall w', sendEntry _userPrivKey _bridgeIdentity h w = (Ret tt, w') ->
       exists model w2, inboxSend model w2 = (Ret tt, w') /\ opened_by inbox keyId model).
Proof.
  intros Hr Hd Hi Hfit Hz. set (d' := mkPublicData (pd_publicMeta d) (toBase58DER (getPublicKey inbox)) keyId).
  change (with_entries_key _ _ _) with (pack_public 5 d' author) in Hd.
  destruct (entry_for_key d' author Hr Hd eq_refl Hi Hfit Hz) as [Hplain Hany]. split; [|split].
  - eexists. split; [by apply (view_packed d' author)|]. done.
  - intros Hf. destruct (Hplain Hf) as (model & w' & ? & ? & ? & ?). eauto.
  - intros w' Hs. destruct (Hany w' Hs) as (model & w2 & ? & ? & ?). eauto.
Qed.
End Delivery.
End Sending.
