(* ===== verification/ModuleEvents.v ===== *)
(** * Notifications of the modules

    What the server's notifications become: the conversion and the dispatch of
    the connection (endpoint/core/src/ConnectionImpl.cpp, Mapper.cpp) and
    [processNotificationEvent] of the Thread and KVDB modules
    (ThreadApiImpl.cpp, KvdbApiImpl.cpp).  The events of stores are in the file
    StoreEvents. *)

From Stdlib Require Import ZArith Lia Strings.String Strings.Byte.
From stdpp Require Import base list gmap fin_maps.
From S2P Require Import Prelude Bytes CoreTypes Crypto CryptoSuite Dynamic Encryptors Dio FieldData EncKeys ContentData ContainerData KeyProvider Utils StdMap Subscriptions SubscriberImpls Users EventQueue Legacy Policies Containers Items Modules ContentItems Kvdbs Threads ThreadMessages.
Import ModuleBaseApi ModuleApi.

(** ** Listening for what was subscribed for *)
Class ListenerWorld (L W : Type) := {
  middleware : W -> EventMiddleware.t L;
  set_middleware : EventMiddleware.t L -> W -> W;
}.
Class ListenerLaws (L W : Type) `{!SubscriberModule W} `{!ListenerWorld L W} : Prop := {
  middleware_set m w : middleware (set_middleware m w) = m;
  subscribe_keeps l w : middleware (subscribeToChannels l w).2 = middleware w;
  unsubscribe_keeps l w : middleware (unsubscribeFromChannels l w).2 = middleware w;
  transform_keeps qs w : middleware (transform qs w).2 = middleware w;
}.

Section Listening.
Context {L W : Type} `{!SubscriberModule W} `{!ListenerWorld L W}.
Context (rest : bytes -> list bytes -> list bytes) (_notificationListenerId : Z).

Definition on_middleware {A} (m : ST (EventMiddleware.t L) A) : ST (Subscriber.t W) A :=
  Subscriber.on_world (zoom middleware set_middleware m).

Definition subscribeFor (subscriptionQueries : list bytes) : ST (Subscriber.t W) (list bytes) :=
  result ← Subscriber.subscribeFor subscriptionQueries false;
  _ ← on_middleware (EventMiddleware.notificationEventListenerAddSubscriptionIds _notificationListenerId result);
  mret result.

Definition unsubscribeFrom (subscriptionIds : list bytes) : ST (Subscriber.t W) unit :=
  _ ← Subscriber.unsubscribeFrom subscriptionIds;
  on_middleware (EventMiddleware.notificationEventListenerRemoveSubscriptionIds rest _notificationListenerId subscriptionIds).

(** The subscriber's table and the listener's ids name the same subscriptions;
    an empty id stands for a channel that was not granted. *)
Definition granted (ids : list bytes) : list bytes := filter (fun id => id <> []) ids.

Definition agree (s : Subscriber.t W) : Prop :=
  exists cb ids, EventMiddleware._notificationsListeners (middleware (Subscriber._world s)) !! _notificationListenerId = Some (cb, ids)
    /\ NoDup (granted ids)
    /\ forall id, id <> [] -> id ∈ ids <-> is_Some (Subscriber.getSubscriptionQuery id s).

Lemma register_domain channels subscriptions table result table' id :
  Subscriber.register channels subscriptions table = (result, table') -> id <> [] ->
  is_Some (table' !! id) <-> id ∈ result \/ is_Some (table !! id).
Proof.
  intros Hr Hid. revert subscriptions table result Hr. induction channels as [|ch channels IH]; intros subs table result; cbn.
  { intros [= <- <-]. split; [by right|]. by intros [?%not_elem_of_nil|]. }
  destruct (Subscriber.take_subscription ch subs) as [[j l]|].
  - destruct (Subscriber.register channels l _) as [r t'] eqn:Er. intros [= <- <-]. rewrite (IH _ _ _ Er), elem_of_cons.
    destruct (decide (id = j)) as [->|Hne]; [rewrite lookup_insert_eq; split; by eauto|].
    rewrite lookup_insert_ne by done. tauto.
  - destruct (Subscriber.register channels subs _) as [r t'] eqn:Er. intros [= <- <-]. rewrite (IH _ _ _ Er), elem_of_cons.
    tauto.
Qed.

Section Agreement.
Context `{!ListenerLaws L W}.

Lemma requested_keeps queries force w : middleware (Subscriber.requested queries force w).2 = middleware w.
Proof.
  unfold Subscriber.requested. unfold_st. destruct (Subscriber.parse_all queries); [|done]. destruct force; [done|].
  destruct (assertQuery a); [|done]. apply transform_keeps.
Qed.

Lemma subscribe_agrees queries s ids s' : agree s -> subscribeFor queries s = (Ret ids, s') ->
  NoDup (granted ids) -> (forall id, id ∈ granted ids -> Subscriber.getSubscriptionQuery id s = None) -> agree s'.
Proof.
  intros (cb & old & Hl & Hn & Hag) Hr Hnd Hfresh. unfold subscribeFor in Hr. inv_bind Hr as (r & s1 & Hsub & Hr).
  revert Hr. unfold on_middleware, Subscriber.on_world. unfold_st. intros [= -> <-].
  assert (middleware (Subscriber._world s1) = middleware (Subscriber._world s)
    /\ forall id, id <> [] -> is_Some (Subscriber.getSubscriptionQuery id s1) <->
         id ∈ ids \/ is_Some (Subscriber.getSubscriptionQuery id s)) as [Hm Hdom].
  { revert Hsub. unfold Subscriber.subscribeFor, Subscriber.on_world. unfold_st.
    pose proof (requested_keeps queries false (Subscriber._world s)) as Hk.
    destruct (Subscriber.requested queries false (Subscriber._world s)) as [[channels|] w]; [|done]. cbn in Hk |- *.
    pose proof (subscribe_keeps channels w) as Hk'.
    destruct (subscribeToChannels channels w) as [[subs|] w']; [|done]. cbn in Hk' |- *.
    destruct (Subscriber.register channels subs _) as [r t'] eqn:Er. intros [= -> <-]. cbn.
    split; [congruence|]. intros id Hid. unfold Subscriber.getSubscriptionQuery. cbn. by eapply register_domain. }
  exists cb, (old ++ ids). cbn. rewrite middleware_set. cbn. rewrite Hm, lookup_alter_eq, Hl. split; [done|]. split.
  - unfold granted. rewrite filter_app. apply NoDup_app. split; [done|]. split; [|done]. intros id Hid Hin.
    pose proof (Hfresh id Hin) as Hnone. apply list_elem_of_filter in Hid as [Hne Hid].
    apply Hag in Hid; [|done]. rewrite Hnone in Hid. by apply is_Some_None in Hid.
  - intros id Hid. unfold Subscriber.getSubscriptionQuery. cbn. fold (Subscriber.getSubscriptionQuery id s1).
    rewrite Hdom, elem_of_app, <- Hag by done. tauto.
Qed.

Lemma unsubscribe_agrees ids s r s' : agree s -> NoDup ids -> [] ∉ ids ->
  unsubscribeFrom ids s = (r, s') -> agree s'.
Proof.
  intros (cb & old & Hl & Hn & Hag) Hnd Hne. unfold unsubscribeFrom, Subscriber.unsubscribeFrom, on_middleware, Subscriber.on_world.
  unfold_st. pose proof (unsubscribe_keeps ids (Subscriber._world s)) as Hk.
  destruct (unsubscribeFromChannels ids (Subscriber._world s)) as [[[]|e] w] eqn:Eu; cbn in Hk |- *; intros [= <- <-].
  2:{ exists cb, old. cbn. rewrite Hk. done. }
  exists cb, (filter (fun id => id ∉ ids) old). cbn. rewrite middleware_set. cbn. rewrite Hk, lookup_alter_eq, Hl. cbn.
  rewrite EventMiddleware.remove_ids_once; [|done|].
  2:{ assert (filter (fun id => id ∈ ids) old = filter (fun id => id ∈ ids) (granted old)) as ->; [|by apply NoDup_filter].
      unfold granted. rewrite list_filter_filter. apply filter_agree. intros id _. split; [|tauto].
      intros Hi. split; [done|]. by intros ->. }
  split; [done|]. split.
  - assert (granted (filter (fun id => id ∉ ids) old) = filter (fun id => id ∉ ids) (granted old)) as ->.
    { unfold granted. rewrite !list_filter_filter. apply filter_agree. tauto. }
    by apply NoDup_filter.
  - intros id Hid. unfold Subscriber.getSubscriptionQuery. cbn. rewrite Subscriber.erase_all_lookup, list_elem_of_filter.
    rewrite (Hag id Hid). case_decide; [split; [tauto|by intros ?%is_Some_None]|]. unfold Subscriber.getSubscriptionQuery. tauto.
Qed.
Lemma query_of_any l (s : Subscriber.t W) :
  is_Some (Subscriber.getSubscriptionQueryOfAny l s) <-> exists id, id ∈ l /\ is_Some (Subscriber.getSubscriptionQuery id s).
Proof.
  induction l as [|i l IH]; cbn.
  - split; [by intros ?%is_Some_None|]. by intros (id & ?%not_elem_of_nil & _).
  - destruct (Subscriber.getSubscriptionQuery i s) as [q|] eqn:Eq.
    + split; [|done]. intros _. exists i. rewrite Eq. split; [left|done].
    + rewrite IH. setoid_rewrite elem_of_cons. split; [intros (id & ? & ?); exists id; auto|]. intros (id & [->|Hid] & Hs); [|by exists id].
      rewrite Eq in Hs. by apply is_Some_None in Hs.
Qed.

(** a module's two tables of what it listens for never part: if the ids the
    middleware has for its listener are those its subscriber knows, they are so
    after subscribing, when the server's ids are new, and after unsubscribing,
    whether the server agreed or failed; and while they are, the listener is
    called for a notification exactly if the subscriber knows one of its ids. *)
Theorem tables_agree `{!Dynamic} s : agree s ->
  (forall queries ids s', subscribeFor queries s = (Ret ids, s') -> NoDup (granted ids) ->
     (forall id, id ∈ granted ids -> Subscriber.getSubscriptionQuery id s = None) -> agree s')
  /\ (forall ids r s', NoDup ids -> [] ∉ ids -> unsubscribeFrom ids s = (r, s') -> agree s')
  /\ (forall n, [] ∉ ne_subscriptions n ->
       (exists f, (_notificationListenerId, f) ∈ EventMiddleware.notified n (middleware (Subscriber._world s)))
       <-> is_Some (Subscriber.getSubscriptionQueryOfAny (ne_subscriptions n) s)).
Proof.
  intros Hag. split; [|split].
  - intros queries ids s'. by apply subscribe_agrees.
  - intros ids r s' Hn He Hr. by apply (unsubscribe_agrees ids s r).
  - intros n Hne. destruct Hag as (cb & old & Hl & _ & Hd). rewrite query_of_any.
    setoid_rewrite EventMiddleware.elem_of_notified. split.
    + intros (f & ids & Hl' & id & Hid & Hin). rewrite Hl in Hl'. injection Hl' as <- <-. exists id.
      split; [done|]. apply Hd; [|done]. by intros ->.
    + intros (id & Hid & Hs). exists cb, old. split; [done|]. exists id. split; [done|]. apply Hd; [|done]. by intros ->.
Qed.
End Agreement.
End Listening.

(** ** What the modules tell of each other *)

(** [server::CollectionItemChange], [CollectionChangedEventData]; the library's
    types of the same names (Events.hpp) are pairs and [CollectionChanged]. *)
Record RawCollection := mkRawCollection {
  rc_containerId : bytes;
  rc_affectedItemsCount : Z;
  rc_containerType : option bytes;
  rc_items : list (bytes * bytes);
}.
Record CollectionChanged := mkCollectionChanged {
  cg_moduleType : bytes;
  cg_moduleId : bytes;
  cg_affectedItemsCount : Z;
  cg_items : list (bytes * bytes);
}.

Definition mapToCollectionChangedEventData (moduleType : bytes) (data : RawCollection) : CollectionChanged :=
  mkCollectionChanged moduleType (rc_containerId data) (rc_affectedItemsCount data) (rc_items data).

Class CollectionJson {D : Dynamic} := { collection_changed : Var -> outcome RawCollection }.

(** The queue is no part of a module's cache. *)
Class EventWorldLaws (A W : Type) {C : CryptoService} {D : Dynamic} `{!ConnectionWorld W} `{!EventWorld A W} : Prop := {
  queue_keeps_cache q w : keyCache (set_eventQueue q w) = keyCache w;
}.

Section Handling.
Context {D : Dynamic} {A W : Type} `{!EventWorld A W}.

(** [if (raw.type.value_or(flag) == flag)] *)
Definition for_flag (flag : bytes) (type : option bytes) (m : ST W unit) : ST W unit :=
  if bool_decide (default flag type = flag) then m else mret tt.

Definition emit_built {B} (inject : B -> A) (type channel : bytes) (data : B) (n : NotificationEvent) : ST W unit :=
  EventMiddleware.emitApiEvent (buildEvent type channel (inject data) n).

(** [T::fromJSON(notification.data)] *)
Definition from_payload {B} (fromJSON : Var -> outcome B) (n : NotificationEvent) : ST W B :=
  v ← lift (payload n); lift (fromJSON v).

(** The handler proper runs when the subscriber knows the notification. *)
Definition when_subscribed (n : NotificationEvent) (task : ST W unit) : ST (Subscriber.t W) unit :=
  subscriptionQuery ← gets (Subscriber.getSubscriptionQueryOfAny (ne_subscriptions n));
  match subscriptionQuery with
  | None => mret tt
  | Some _ => Subscriber.on_world (exec task)
  end.

(** What becomes of a fetched value: an event, or nothing for one that throws. *)
Definition shown {B X} (inject : X -> A) (type channel : bytes) (wrap : B -> X) (n : NotificationEvent)
    (r : outcome B * W) : outcome unit * W :=
  match r with
  | (Ret d, w) => emit_built inject type channel (wrap d) n w
  | (Throw UndefinedBehaviour, w) => (Throw UndefinedBehaviour, w)
  | (Throw _, w) => (Ret tt, w)
  end.

(** The same in the state that has the subscriber's table beside the world. *)
Definition outside {B} (s : Subscriber.t W) (r : outcome B * W) : outcome B * Subscriber.t W :=
  (r.1, Subscriber.mk r.2 (Subscriber._subscriptionIdToSubscriptionQuery s)).

Lemma exec_shown {B X} (inject : X -> A) (m : ST W B) type channel wrap n w :
  exec (d ← m; emit_built inject type channel (wrap d) n) w = shown inject type channel wrap n (m w).
Proof.
  unfold exec, shown. unfold_st. destruct (m w) as [[d|e] w']; [|by destruct e].
  unfold emit_built, EventMiddleware.emitApiEvent. by unfold_st.
Qed.

Lemma exec_agrees (m m' : ST W unit) w : m w = m' w -> exec m w = exec m' w.
Proof. unfold exec. unfold_st. by intros ->. Qed.

Lemma subscribed_runs n m (s : Subscriber.t W) : is_Some (Subscriber.getSubscriptionQueryOfAny (ne_subscriptions n) s) ->
  when_subscribed n m s = Subscriber.on_world (exec m) s.
Proof. intros [q Hq]. unfold when_subscribed. unfold_st. by rewrite Hq. Qed.

Lemma on_world_run {B} (m : ST W B) r (s : Subscriber.t W) : m (Subscriber._world s) = r ->
  Subscriber.on_world m s = outside s r.
Proof. intros Hm. unfold Subscriber.on_world, zoom, outside. rewrite Hm. by destruct r. Qed.
End Handling.

(** ** The connection *)
Module ConnectionEvents.
(** [rpc::NotificationEvent], [server::RpcEvent] *)
Record RpcNotification {D : Dynamic} := mkRpcNotification { rn_type : bytes; rn_data : Var }.
Record RpcEvent {D : Dynamic} := mkRpcEvent {
  re_type : bytes;
  re_data : option Var;
  re_version : Z;
  re_timestamp : Z;
  re_subscriptions : list bytes;
}.

(** The library's [ContextUserEventData] and [ContextUsersStatusChangedEventData]
    have the fields of the server's. *)
Record ContextUserEventData := mkContextUser { cu_contextId : bytes; cu_user : UserWithPubKey }.
Record ContextUsersStatusChange := mkStatusChange { su_userId : bytes; su_pubKey : bytes; su_action : bytes }.
Record ContextUsersStatusChanged := mkStatusChanged { cs_contextId : bytes; cs_users : list (UserWithPubKey * bytes) }.

Class ContextJson {D : Dynamic} := {
  rpc_event : Var -> outcome RpcEvent;
  context_user : Var -> outcome (bytes * bytes * bytes);
  context_status : Var -> outcome (bytes * list ContextUsersStatusChange);
}.

Definition mapToContextUserEventData (data : bytes * bytes * bytes) : ContextUserEventData :=
  mkContextUser data.1.1 {| u_userId := data.1.2; u_pubKey := data.2 |}.
Definition mapToUserWithAction (data : ContextUsersStatusChange) : UserWithPubKey * bytes :=
  ({| u_userId := su_userId data; u_pubKey := su_pubKey data |}, su_action data).
Definition mapToContextUsersStatusChangedEventData (data : bytes * list ContextUsersStatusChange) : ContextUsersStatusChanged :=
  mkStatusChanged data.1 (mapToUserWithAction <$> data.2).

Inductive ContextEvent :=
| ContextUserAdded (data : ContextUserEventData)
| ContextUserRemoved (data : ContextUserEventData)
| ContextUsersStatus (data : ContextUsersStatusChanged).

Section Events.
Context {D : Dynamic} `{!ContextJson}.

(** [catch (std::exception)] *)
Definition convertRpcNotificationEventToCoreNotificationEvent (event : RpcNotification) : outcome NotificationEvent :=
  match rpc_event (rn_data event) with
  | Ret tmp => Ret (mkNotification SERVER (rn_type event) (re_data tmp) (re_version tmp) (re_timestamp tmp) (re_subscriptions tmp))
  | Throw UndefinedBehaviour => Throw UndefinedBehaviour
  | Throw _ => Ret (mkNotification INTERNAL (lit "Error") None 0 0 [])
  end.

Definition convertJanusEventToCoreNotificationEvent (event : RpcNotification) : NotificationEvent :=
  mkNotification SERVER (rn_type event) (Some (rn_data event)) 0 0 [].

Context {L A W : Type} `{!ListenerWorld L W} `{!EventWorld A W} (inject : ContextEvent -> A).
Context (call : L -> bytes -> NotificationEvent -> ST W unit).

(** The listener [connect] gives to the gateway. *)
Definition on_gateway_notification (event : RpcNotification) : ST W unit :=
  n ← lift (if bool_decide (rn_type event = lit "janus") then Ret (convertJanusEventToCoreNotificationEvent event)
            else convertRpcNotificationEventToCoreNotificationEvent event);
  EventMiddleware.emitNotificationEvent middleware call (rn_type event) n.

Definition context_event (type : bytes) (n : NotificationEvent) : ST W unit :=
  if bool_decide (type = lit "contextUserAdded") then
    raw ← from_payload context_user n;
    emit_built inject (lit "contextUserAdded") (lit "context/userAdded") (ContextUserAdded (mapToContextUserEventData raw)) n
  else if bool_decide (type = lit "contextUserRemoved") then
    raw ← from_payload context_user n;
    emit_built inject (lit "contextUserRemoved") (lit "context/userRemoved") (ContextUserRemoved (mapToContextUserEventData raw)) n
  else if bool_decide (type = lit "contextUserStatusChanged") then
    raw ← from_payload context_status n;
    emit_built inject (lit "contextUserStatusChanged") (lit "context/userStatus")
      (ContextUsersStatus (mapToContextUsersStatusChangedEventData raw)) n
  else mret tt.

Definition processNotificationEvent (type : bytes) (n : NotificationEvent) : ST (Subscriber.t W) unit :=
  when_subscribed n (context_event type n).

(** the middleware calls nobody for a Janus notification, nor for one the
    connection cannot read: both carry no subscription. *)
Theorem unsubscribed_unheard event w :
  rn_type event = lit "janus" \/ (exists e, rpc_event (rn_data event) = Throw e /\ e <> UndefinedBehaviour) ->
  on_gateway_notification event w = (Ret tt, w).
Proof.
  intros Hev. unfold on_gateway_notification. set (m := middleware w).
  assert (exists n, (if bool_decide (rn_type event = lit "janus") then Ret (convertJanusEventToCoreNotificationEvent event)
    else convertRpcNotificationEventToCoreNotificationEvent event) = Ret n /\ ne_subscriptions n = []) as (n & -> & Hn).
  { case_bool_decide as Hj; [eexists; split; reflexivity|]. destruct Hev as [|(e & He & Hne)]; [done|].
    unfold convertRpcNotificationEventToCoreNotificationEvent. rewrite He. destruct e; first [done|eexists; split; reflexivity]. }
  unfold_st. rewrite EventMiddleware.notification_run. unfold EventMiddleware.notified.
  assert (forall l, List.filter (fun p => EventMiddleware.concerned n p.2.2) l = []) as ->; [|done].
  intros l. induction l as [|p l IH]; [done|]. cbn. unfold EventMiddleware.concerned at 1. by rewrite Hn.
Qed.
End Events.
End ConnectionEvents.

(** A listener of threads, subscribed for one channel, that asks for another. *)
Section Witness.
#[local] Existing Instance ToyJson.dynamic.

Record listening := mkListening { li_middleware : EventMiddleware.t nat; li_next : nat }.

#[local] Instance toy_listener : ListenerWorld nat listening := {|
  middleware := li_middleware; set_middleware m w := mkListening m (li_next w) |}.

Definition toy_subscribe (l : list bytes) : ST listening (list Subscription) := fun w =>
  (Ret (imap (fun i ch => mkSubscription [byte_of (Z.of_nat (li_next w + i))] ch) l),
   mkListening (li_middleware w) (li_next w + length l)%nat).

#[local] Instance toy_module : SubscriberModule listening := typed_module (E := ThreadSubscriber.EventType)
  (S := ThreadSubscriber.EventSelectorType) (lit "thread") toy_subscribe (fun _ => mret tt).

#[local] Instance toy_listener_laws : ListenerLaws nat listening.
Proof. by split. Qed.

Let at_first : Subscriber.t listening :=
  Subscriber.mk (mkListening (EventMiddleware.mk {[ 1 := (5%nat, [[x07]]) ]} ∅ ∅ 2) 8)
    {[ [x07] := lit "thread/create|contextId=joe,containerType=thread" ]}.
Let later : Subscriber.t listening := (subscribeFor 1 [lit "thread/delete|contextId=joe"] at_first).2.

Lemma tables_agree_witness : agree 1 at_first /\ agree 1 later
  /\ exists f, (1, f) ∈ EventMiddleware.notified (H := ToyJson.dynamic []) (mkNotification SERVER [] None 1 0 [[x08]])
       (middleware (Subscriber._world later)).
Proof.
  assert (agree 1 at_first) as Ha.
  { exists 5%nat, [[x07]]. split; [reflexivity|]. split; [by apply (bool_decide_unpack _); vm_compute|]. intros id _.
    unfold Subscriber.getSubscriptionQuery, at_first. cbn [Subscriber._subscriptionIdToSubscriptionQuery].
    rewrite lookup_singleton_is_Some, list_elem_of_singleton. naive_solver. }
  split; [exact Ha|].
  assert (subscribeFor 1 [lit "thread/delete|contextId=joe"] at_first = (Ret [[x08]], later)) as Hr by (by vm_compute).
  destruct (tables_agree (H := ToyJson.dynamic []) (L := nat) (fun _ _ => []) 1 at_first Ha) as (Hs & _ & _).
  assert (agree 1 later) as Hl.
  { apply (Hs _ _ _ Hr); [by apply (bool_decide_unpack _); vm_compute|]. intros id Hid%list_elem_of_filter.
    destruct Hid as [_ ->%list_elem_of_singleton]. by vm_compute. }
  split; [exact Hl|].
  apply (tables_agree (H := ToyJson.dynamic []) (L := nat) (fun _ _ => []) 1 later Hl); [by apply (bool_decide_unpack _); vm_compute|].
  by vm_compute; eexists.
Defined.
End Witness.
