(* ===== verification/ThreadEvents.v ===== *)
(** * Events of threads and KVDBs

    [processNotificationEvent] of ThreadApiImpl.cpp and KvdbApiImpl.cpp, and
    what an event shows compared with fetching the same container or item. *)

From Stdlib Require Import ZArith Lia Strings.String Strings.Byte.
From stdpp Require Import base list gmap fin_maps.
From S2P Require Import Prelude Bytes CoreTypes Crypto CryptoSuite Dynamic Encryptors Dio FieldData EncKeys ContentData ContainerData KeyProvider Utils StdMap Subscriptions SubscriberImpls Users EventQueue Legacy Policies Containers Items Modules ContentItems Kvdbs Threads ThreadMessages ModuleEvents.
Import ModuleBaseApi ModuleApi.

(** ** Threads *)

(** The data of the events (thread/Events.hpp). *)
Inductive ThreadEvent :=
| ThreadData (t : Thread)
| ThreadDeletedEventData (threadId : bytes)
| ThreadStatsEventData (threadId : bytes) (lastMsgDate messagesCount : Z)
| MessageData (m : Message)
| ThreadDeletedMessageEventData (threadId messageId : bytes)
| ThreadCollection (c : CollectionChanged).

(** [server::ThreadDeletedEventData] and the like: the fields that are read,
    with the container's type. *)
Class ThreadEventJson {D : Dynamic} := {
  thread_info : Var -> outcome ThreadInfo;
  thread_deleted : Var -> outcome (option bytes * bytes);
  thread_stats : Var -> outcome (option bytes * (bytes * Z * Z));
  thread_message : Var -> outcome (ServerMessage * option bytes);
  thread_deleted_message : Var -> outcome (option bytes * (bytes * bytes));
}.

Module ThreadEvents.
Definition mapToThreadDeletedEventData (threadId : bytes) : ThreadEvent := ThreadDeletedEventData threadId.
Definition mapToThreadStatsEventData (data : bytes * Z * Z) : ThreadEvent := ThreadStatsEventData data.1.1 data.1.2 data.2.
Definition mapToThreadDeletedMessageEventData (data : bytes * bytes) : ThreadEvent :=
  ThreadDeletedMessageEventData data.1 data.2.

Section Events.
Context {C : CryptoService} {E : Ecc} {E0 : Encodings} {D : Dynamic}.
Context `{!KeyFormats PublicKey} `{!KeyEntryJson} `{!HashOrder} `{!ContentJson} `{!MessageJson} `{!ModuleJson}.
Context `{!JsonCodec DIOEncryptorV1.DioJson} `{!JsonCodec EncryptionKey}.
Context `{!JsonCodec MessageDataV2} `{!JsonCodec MessageDataV3} `{!JsonCodec ThreadDataV1}.
Context `{!JsonCodec ModuleDataEncryptorV5.ModuleInternalMetaV5}.
Context `{!ThreadEventJson} `{!CollectionJson}.
Context (_userPrivKey : PrivateKey) (_userVerifier : list VerificationRequest -> outcome (list bool)).
Context {A W : Type} `{!ConnectionWorld W} `{!ContainerServer ThreadExtra W} `{!MessageServer W} `{!EventWorld A W}.
Context (inject : ThreadEvent -> A).
#[local] Existing Instance ThreadApi.ThreadKind.

Let flag : bytes := ThreadApi.THREAD_TYPE_FILTER_FLAG.

(** [threadCreated] and [threadUpdated] *)
Definition thread_changed (type : bytes) (n : NotificationEvent) : ST W unit :=
  raw ← from_payload thread_info n;
  for_flag flag (ct_type raw) (
    moduleKeys ← lift (ThreadApi.threadToModuleKeys raw);
    _ ← setNewModuleKeysInCache keyCache set_keyCache (ct_id raw) moduleKeys (ct_version raw);
    data ← lift (ThreadApi.validateDecryptAndConvertThreadDataToThread _userPrivKey _userVerifier raw);
    emit_built inject type (lit "thread") (ThreadData data) n).

(** [threadNewMessage] and [threadUpdatedMessage] *)
Definition message_changed (type : bytes) (n : NotificationEvent) : ST W unit :=
  '(raw, containerType) ← from_payload thread_message n;
  for_flag flag containerType (
    keys ← MessageApi.getMessageDecryptionKeys raw;
    data ← lift (MessageApi.validateDecryptAndConvertMessageDataToMessage _userPrivKey _userVerifier raw keys);
    emit_built inject type (lit "thread/" ++ sm_threadId raw ++ lit "/messages") (MessageData data) n).

Definition thread_event (type : bytes) (n : NotificationEvent) : ST W unit :=
  if bool_decide (type = lit "threadCreated") then thread_changed (lit "threadCreated") n
  else if bool_decide (type = lit "threadUpdated") then thread_changed (lit "threadUpdated") n
  else if bool_decide (type = lit "threadDeleted") then
    raw ← from_payload thread_deleted n;
    for_flag flag raw.1 (
      _ ← invalidateModuleKeysInCache keyCache set_keyCache (Some raw.2);
      emit_built inject (lit "threadDeleted") (lit "thread") (mapToThreadDeletedEventData raw.2) n)
  else if bool_decide (type = lit "threadStats") then
    raw ← from_payload thread_stats n;
    for_flag flag raw.1 (emit_built inject (lit "threadStatsChanged") (lit "thread") (mapToThreadStatsEventData raw.2) n)
  else if bool_decide (type = lit "threadNewMessage") then message_changed (lit "threadNewMessage") n
  else if bool_decide (type = lit "threadUpdatedMessage") then message_changed (lit "threadUpdatedMessage") n
  else if bool_decide (type = lit "threadDeletedMessage") then
    raw ← from_payload thread_deleted_message n;
    for_flag flag raw.1 (emit_built inject (lit "threadMessageDeleted") (lit "thread/" ++ raw.2.1 ++ lit "/messages")
      (mapToThreadDeletedMessageEventData raw.2) n)
  else if bool_decide (type = lit "threadCollectionChanged") then
    raw ← from_payload collection_changed n;
    for_flag flag (rc_containerType raw) (emit_built inject (lit "collectionChanged") (lit "thread/collectionChanged")
      (ThreadCollection (mapToCollectionChangedEventData flag raw)) n)
  else mret tt.

Definition processNotificationEvent (type : bytes) (n : NotificationEvent) : ST (Subscriber.t W) unit :=
  when_subscribed n (thread_event type n).

(** ** An event shows what a fetch shows *)
Section Shown.
Context (n : NotificationEvent) (s : Subscriber.t W) (v : Var).
Context (Hs : is_Some (Subscriber.getSubscriptionQueryOfAny (ne_subscriptions n) s)) (Hv : payload n = Ret v).
Let w : W := Subscriber._world s.

(** C36: what an event shows is what fetching shows: for a notification the
    module subscribed for, about a thread or a message, the module puts into the
    queue what [getThread] or [getMessage] returns where the server answers them
    with the same data, leaves the same keys in the cache, and puts nothing
    there exactly if they throw. *)
Theorem events_as_fetched type : 
  (forall raw threadId, type = lit "threadCreated" \/ type = lit "threadUpdated" ->
     thread_info v = Ret raw -> default flag (ct_type raw) = flag -> server_get threadId (Some flag) w = (Ret raw, w) ->
     processNotificationEvent type n s = outside s (shown inject type (lit "thread") ThreadData n
       (ThreadApi.getThread _userPrivKey _userVerifier threadId w)))
  /\ (forall raw messageId, type = lit "threadNewMessage" \/ type = lit "threadUpdatedMessage" ->
     thread_message v = Ret raw -> default flag raw.2 = flag -> threadMessageGet messageId w = (Ret raw.1, w) ->
     processNotificationEvent type n s = outside s (shown inject type (lit "thread/" ++ sm_threadId raw.1 ++ lit "/messages")
       MessageData n (MessageApi.getMessage _userPrivKey _userVerifier messageId w))).
Proof.
  split; intros raw itemId Ht Hraw Hf Hget.
  - unfold processNotificationEvent. rewrite subscribed_runs by done. apply on_world_run.
    assert (thread_event type n = thread_changed type n) as -> by (by destruct Ht as [-> | ->]).
    fold w. rewrite <- exec_shown. apply exec_agrees. unfold thread_changed, from_payload, for_flag, ThreadApi.getThread,
      ThreadApi._getThreadEx, getContainer, remember, ThreadApi.threadToModuleKeys.
    change (some_type ThreadApi.THREAD_TYPE_FILTER_FLAG) with (Some flag).
    unfold_st. rewrite Hv, Hraw, bool_decide_eq_true_2, Hget by done.
    destruct (moduleToModuleKeys raw) as [k|]; [|done].
    destruct (setNewModuleKeysInCache _ _ _ _ _ _) as [[[]|] w']; [|done].
    unfold ThreadApi.validateDecryptAndConvertThreadDataToThread. by destruct (validateDecryptAndConvert _ _ _).
  - unfold processNotificationEvent. rewrite subscribed_runs by done. apply on_world_run.
    assert (thread_event type n = message_changed type n) as -> by (by destruct Ht as [-> | ->]).
    fold w. rewrite <- exec_shown. apply exec_agrees. unfold message_changed, from_payload, for_flag, MessageApi.getMessage.
    destruct raw as [raw containerType]. cbn [fst snd] in *. unfold_st. rewrite Hv, Hraw, bool_decide_eq_true_2, Hget by done.
    destruct (MessageApi.getMessageDecryptionKeys raw w) as [[k|] w']; [|done].
    by destruct (MessageApi.validateDecryptAndConvertMessageDataToMessage _ _ _ _).
Qed.
End Shown.

(** ** Updates in any order *)
Section Updates.
Context `{!ConnectionLaws W} `{!EventWorldLaws A W}.

(** A readable notification of a thread's state: what the cache is told. *)
Definition tells (id : bytes) (n : NotificationEvent) (k : ContainerKeyCache.CachedModuleKeys) : Prop :=
  exists v raw keys, payload n = Ret v /\ thread_info v = Ret raw /\ ct_id raw = id /\ default flag (ct_type raw) = flag
    /\ ThreadApi.threadToModuleKeys raw = Ret keys /\ k = convertModuleKeysToContainerKeyCacheFormat keys (ct_version raw)
    /\ ThreadApi.validateDecryptAndConvertThreadDataToThread _userPrivKey _userVerifier raw <> Throw UndefinedBehaviour.

Lemma update_told id n k (s : Subscriber.t W) : tells id n k ->
  is_Some (Subscriber.getSubscriptionQueryOfAny (ne_subscriptions n) s) ->
  exists s', processNotificationEvent (lit "threadUpdated") n s = (Ret tt, s')
    /\ Subscriber._subscriptionIdToSubscriptionQuery s' = Subscriber._subscriptionIdToSubscriptionQuery s
    /\ keyCache (Subscriber._world s') = ContainerKeyCache.set id k false (keyCache (Subscriber._world s)).
Proof.
  intros (v & raw & keys & Hv & Hraw & Hid & Hf & Hk & -> & Hub) Hs.
  unfold processNotificationEvent. rewrite subscribed_runs by done. rewrite (on_world_run _ _ _ eq_refl).
  change (thread_event (lit "threadUpdated") n) with (thread_changed (lit "threadUpdated") n).
  unfold thread_changed, from_payload, for_flag, exec, outside. unfold_st. rewrite Hv, Hraw, bool_decide_eq_true_2, Hk by done.
  unfold setNewModuleKeysInCache, on_cache. unfold_st. rewrite Hid.
  destruct (ThreadApi.validateDecryptAndConvertThreadDataToThread _ _ raw) as [d|e].
  - unfold emit_built, EventMiddleware.emitApiEvent. unfold_st.
    eexists. split; [reflexivity|]. split; [done|]. cbn. by rewrite queue_keeps_cache, keyCache_set.
  - rewrite bool_decide_eq_false_2 by congruence.
    eexists. split; [reflexivity|]. split; [done|]. cbn. by rewrite keyCache_set.
Qed.

(** C37: whatever order the notifications of a thread's updates arrive in, the
    module's cache ends with the keys of the newest one, and an old one delivered
    late, or again, takes no key away. *)
Theorem notifications_converge id ns l l' k (s : Subscriber.t W) : Forall2 (tells id) ns l' ->
  (forall n, n ∈ ns -> is_Some (Subscriber.getSubscriptionQueryOfAny (ne_subscriptions n) s)) ->
  NoDup (ContainerKeyCache.moduleVersion <$> l) -> (forall x, x ∈ l' -> x ∈ l) -> k ∈ l' ->
  (forall x, x ∈ l -> ContainerKeyCache.moduleVersion x <= ContainerKeyCache.moduleVersion k) ->
  (forall old, keyCache (Subscriber._world s) !! id = Some old ->
     ContainerKeyCache.moduleVersion old <= ContainerKeyCache.moduleVersion k) ->
  exists s', for_each ns (processNotificationEvent (lit "threadUpdated")) s = (Ret tt, s')
    /\ keyCache (Subscriber._world s') !! id = Some k.
Proof.
  intros HF Hs Hn Hsub Hk Hmax Hold.
  assert (exists s', for_each ns (processNotificationEvent (lit "threadUpdated")) s = (Ret tt, s')
    /\ keyCache (Subscriber._world s') = ContainerKeyCache.updates id l' (keyCache (Subscriber._world s))) as (s' & Hr & Hc).
  { clear Hsub Hk Hold. revert s Hs. induction HF as [|n x ns l' Hx HF IH]; intros s Hs; [by exists s|].
    destruct (update_told id n x s Hx (Hs n ltac:(left))) as (s1 & Hr1 & Ht & Hc1).
    destruct (IH s1) as (s2 & Hr2 & Hc2).
    { intros m Hm. destruct (Hs m ltac:(by right)) as [q Hq]. exists q. rewrite <- Hq.
      generalize (ne_subscriptions m). intros l0. induction l0 as [|i l0 IHl]; [done|]. cbn.
      unfold Subscriber.getSubscriptionQuery. by rewrite Ht, IHl. }
    exists s2. cbn [for_each]. run_step. split; [done|]. by rewrite Hc2, Hc1. }
  exists s'. split; [done|]. rewrite Hc. apply ContainerKeyCache.updates_newest; [done|..|done].
  - intros x Hx. apply Hmax, Hsub, Hx.
  - intros x Hx He. by apply (ContainerKeyCache.same_version l); [|apply Hsub|apply Hsub|].
Qed.
End Updates.
End Events.
End ThreadEvents.

(** ** KVDBs *)

(** The data of the events (kvdb/Events.hpp). *)
Inductive KvdbEvent :=
| KvdbData (k : Kvdb)
| KvdbDeletedEventData (kvdbId : bytes)
| KvdbStatsEventData (kvdbId : bytes) (lastEntryDate entries : Z)
| EntryData (e : KvdbEntry)
| KvdbDeletedEntryEventData (kvdbId kvdbEntryKey : bytes)
| KvdbCollection (c : CollectionChanged).

Class KvdbEventJson {D : Dynamic} := {
  kvdb_info : Var -> outcome KvdbInfo;
  kvdb_deleted : Var -> outcome (option bytes * bytes);
  kvdb_stats : Var -> outcome (option bytes * (bytes * Z * Z));
  kvdb_entry : Var -> outcome (KvdbEntryInfo * option bytes);
  kvdb_deleted_entry : Var -> outcome (option bytes * (bytes * bytes));
}.

Module KvdbEvents.
Definition mapToKvdbDeletedEventData (kvdbId : bytes) : KvdbEvent := KvdbDeletedEventData kvdbId.
Definition mapToKvdbStatsEventData (data : bytes * Z * Z) : KvdbEvent := KvdbStatsEventData data.1.1 data.1.2 data.2.
Definition mapToKvdbDeletedEntryEventData (data : bytes * bytes) : KvdbEvent := KvdbDeletedEntryEventData data.1 data.2.

Section Events.
Context {C : CryptoService} {E : Ecc} {E0 : Encodings} {D : Dynamic}.
Context `{!KeyFormats PublicKey} `{!KeyEntryJson} `{!HashOrder} `{!ModuleJson} `{!ContentJson}.
Context `{!JsonCodec DIOEncryptorV1.DioJson} `{!JsonCodec EncryptionKey}.
Context `{!JsonCodec ModuleDataEncryptorV5.ModuleInternalMetaV5}.
Context `{!KvdbEventJson} `{!CollectionJson}.
Context (_userPrivKey : PrivateKey) (_userVerifier : list VerificationRequest -> outcome (list bool)).
Context {A W : Type} `{!ConnectionWorld W} `{!KvdbServer W} `{!EventWorld A W} (inject : KvdbEvent -> A).

Let flag : bytes := KvdbApi.KVDB_TYPE_FILTER_FLAG.

(** [kvdbCreated] and [kvdbUpdated] *)
Definition kvdb_changed (type : bytes) (n : NotificationEvent) : ST W unit :=
  raw ← from_payload kvdb_info n;
  for_flag flag (ki_type raw) (
    moduleKeys ← lift (KvdbApi.kvdbToModuleKeys raw);
    _ ← setNewModuleKeysInCache keyCache set_keyCache (ki_id raw) moduleKeys (ki_version raw);
    data ← lift (KvdbApi.validateDecryptAndConvertKvdbDataToKvdb _userPrivKey _userVerifier raw);
    emit_built inject type (lit "kvdb") (KvdbData data) n).

(** [kvdbNewEntry] and [kvdbUpdatedEntry]; the event's own type is [shown_type]. *)
Definition entry_changed (shown_type : bytes) (n : NotificationEvent) : ST W unit :=
  '(raw, containerType) ← from_payload kvdb_entry n;
  for_flag flag containerType (
    keys ← KvdbApi.getEntryDecryptionKeys raw;
    data ← lift (KvdbApi.validateDecryptAndConvertEntryDataToEntry _userPrivKey _userVerifier raw keys);
    emit_built inject shown_type (lit "kvdb/" ++ ke_kvdbId raw ++ lit "/entries") (EntryData data) n).

Definition kvdb_event (type : bytes) (n : NotificationEvent) : ST W unit :=
  if bool_decide (type = lit "kvdbCreated") then kvdb_changed (lit "kvdbCreated") n
  else if bool_decide (type = lit "kvdbUpdated") then kvdb_changed (lit "kvdbUpdated") n
  else if bool_decide (type = lit "kvdbDeleted") then
    raw ← from_payload kvdb_deleted n;
    for_flag flag raw.1 (
      _ ← invalidateModuleKeysInCache keyCache set_keyCache (Some raw.2);
      emit_built inject (lit "kvdbDeleted") (lit "kvdb") (mapToKvdbDeletedEventData raw.2) n)
  else if bool_decide (type = lit "kvdbStats") then
    raw ← from_payload kvdb_stats n;
    for_flag flag raw.1 (emit_built inject (lit "kvdbStatsChanged") (lit "kvdb") (mapToKvdbStatsEventData raw.2) n)
  else if bool_decide (type = lit "kvdbNewEntry") then entry_changed (lit "kvdbNewEntry") n
  else if bool_decide (type = lit "kvdbUpdatedEntry") then entry_changed (lit "kvdbEntryUpdated") n
  else if bool_decide (type = lit "kvdbDeletedEntry") then
    raw ← from_payload kvdb_deleted_entry n;
    for_flag flag raw.1 (emit_built inject (lit "kvdbEntryDeleted") (lit "kvdb/" ++ raw.2.1 ++ lit "/entries")
      (mapToKvdbDeletedEntryEventData raw.2) n)
  else if bool_decide (type = lit "kvdbCollectionChanged") then
    raw ← from_payload collection_changed n;
    for_flag flag (rc_containerType raw) (emit_built inject (lit "collectionChanged") (lit "kvdb/collectionChanged")
      (KvdbCollection (mapToCollectionChangedEventData flag raw)) n)
  else mret tt.

Definition processNotificationEvent (type : bytes) (n : NotificationEvent) : ST (Subscriber.t W) unit :=
  when_subscribed n (kvdb_event type n).

(** An entry's event, too, shows what [getEntry] shows. *)
Lemma entry_event_as_fetched type shown_type n (s : Subscriber.t W) v raw kvdbId key :
  is_Some (Subscriber.getSubscriptionQueryOfAny (ne_subscriptions n) s) -> payload n = Ret v ->
  type = lit "kvdbNewEntry" /\ shown_type = lit "kvdbNewEntry" \/ type = lit "kvdbUpdatedEntry" /\ shown_type = lit "kvdbEntryUpdated" ->
  kvdb_entry v = Ret raw -> default flag raw.2 = flag ->
  kvdbEntryGet kvdbId key (Subscriber._world s) = (Ret raw.1, Subscriber._world s) ->
  processNotificationEvent type n s
  = outside s (shown inject shown_type (lit "kvdb/" ++ ke_kvdbId raw.1 ++ lit "/entries") EntryData n
      (KvdbApi.getEntry _userPrivKey _userVerifier kvdbId key (Subscriber._world s))).
Proof.
  intros Hs Hv Ht Hraw Hf Hget. unfold processNotificationEvent. rewrite subscribed_runs by done. apply on_world_run.
  assert (kvdb_event type n = entry_changed shown_type n) as -> by (by destruct Ht as [[-> ->]|[-> ->]]).
  rewrite <- exec_shown. apply exec_agrees. unfold entry_changed, from_payload, for_flag, KvdbApi.getEntry.
  destruct raw as [raw containerType]. cbn [fst snd] in *. unfold_st. rewrite Hv, Hraw, bool_decide_eq_true_2, Hget by done.
  destruct (KvdbApi.getEntryDecryptionKeys raw (Subscriber._world s)) as [[k|] w']; [|done].
  by destruct (KvdbApi.validateDecryptAndConvertEntryDataToEntry _ _ _ _).
Qed.
End Events.
End KvdbEvents.
