(* ===== verification/StoreEvents.v ===== *)
(** * Events of stores

    [processNotificationEvent] of StoreApiImpl.cpp with the reports of changed
    ranges (store/src/Mapper.cpp), and what the event of a file does not check. *)

From Stdlib Require Import ZArith Lia Strings.String Strings.Byte.
From stdpp Require Import base list gmap fin_maps.
From S2P Require Import Prelude Bytes CoreTypes Crypto CryptoSuite ChunkCrypto Dynamic Encryptors Dio FieldData FileMetaData EncKeys ContainerData KeyProvider StoreServer ChunkProvider ChunkReader FileHandler FileIO FileHandle Upload Utils StdMap Handles Subscriptions SubscriberImpls Users EventQueue Legacy Policies Containers Items Modules ContentItems Stores Files StoreFiles ModuleEvents.
Import Dynamic ModuleBaseApi ModuleApi StoreApi FileApi.

(** [server::StoreFileChange], [FileChange] *)
Record StoreFileChange := mkStoreFileChange { ch_type : bytes; ch_pos : Z; ch_length : Z; ch_truncate : bool }.
Record FileChange := mkFileChange { fg_pos : Z; fg_length : Z; fg_truncate : bool }.

(** The data of the events (store/Events.hpp). *)
Inductive StoreEvent :=
| StoreEventData (s : Store)
| StoreDeletedEventData (storeId : bytes)
| StoreStatsChangedEventData (contextId storeId : bytes) (lastFileDate filesCount : Z)
| FileData (f : File)
| StoreFileUpdatedEventData (f : File) (changes : list FileChange)
| StoreFileDeletedEventData (contextId storeId fileId : bytes)
| StoreCollection (c : CollectionChanged).

(** [server::StoreStatsChangedEventData] and [StoreFileDeletedEventData] *)
Record StoreStats := mkStoreStats { ss_id : bytes; ss_contextId : bytes; ss_lastFileDate : Z; ss_files : Z; ss_type : option bytes }.
Record FileDeleted := mkFileDeleted { fd_id : bytes; fd_contextId : bytes; fd_storeId : bytes; fd_containerType : option bytes }.

Class StoreEventJson {D : Dynamic} := {
  store_info : Var -> outcome StoreInfo;
  store_deleted : Var -> outcome (bytes * option bytes);
  store_stats : Var -> outcome StoreStats;
  store_file : Var -> outcome (ServerFile * option bytes);
  store_file_updated : Var -> outcome (ServerFile * option bytes * option (list StoreFileChange));
  store_file_deleted : Var -> outcome FileDeleted;
}.

Module StoreEvents.
Definition mapToStoreDeletedEventData (storeId : bytes) : StoreEvent := StoreDeletedEventData storeId.
Definition mapToStoreFileDeletedEventData (data : FileDeleted) : StoreEvent :=
  StoreFileDeletedEventData (fd_contextId data) (fd_storeId data) (fd_id data).
Definition mapToStoreStatsChangedEventData (data : StoreStats) : StoreEvent :=
  StoreStatsChangedEventData (ss_contextId data) (ss_id data) (ss_lastFileDate data) (ss_files data).

(** One turn of the loop over the changes: the divisions are unsigned, the
    comparison signed. *)
Definition map_change (c : ChunkEncryptor.t) (size : Z) (change : StoreFileChange) : FileChange :=
  let encryptedChunkSize := ChunkEncryptor.getEncryptedChunkSize c in
  let plainChunkSize := ChunkEncryptor.getPlainChunkSize c in
  let pos := i64 (u64 (u64 (ch_pos change) / encryptedChunkSize * plainChunkSize)) in
  let length := i64 (u64 (u64 (ch_length change + encryptedChunkSize - 1) / encryptedChunkSize * plainChunkSize)) in
  mkFileChange pos (if size <? pos + length then i64 (size - pos) else length) (ch_truncate change).

Definition mapToStoreFileUpdatedEventData (changes : option (list StoreFileChange)) (file : File)
    (params : FileDecryptionParams) : StoreEvent :=
  StoreFileUpdatedEventData file
    (match changes with
     | Some l => map_change (ChunkEncryptor.mk (fdp_key params) (fdp_chunkSize params)) (f_size file)
                   <$> List.filter (fun c => bool_decide (ch_type c = lit "file")) l
     | None => []
     end).

Section Events.
Context {C : CryptoService} {E : Ecc} {E0 : Encodings} {D : Dynamic}.
Context `{!KeyFormats PublicKey} `{!KeyEntryJson} `{!HashOrder} `{!ModuleJson} `{!FileJson}.
Context `{!JsonCodec DIOEncryptorV1.DioJson} `{!JsonCodec EncryptionKey}.
Context `{!JsonCodec ModuleDataEncryptorV5.ModuleInternalMetaV5} `{!JsonCodec StoreData}.
Context `{!JsonCodec StoreFileMeta} `{!JsonCodec InternalStoreFileMeta}.
Context `{!StoreEventJson} `{!CollectionJson}.
Context (_userPrivKey : PrivateKey) (_userVerifier : list VerificationRequest -> outcome (list bool)) (_host : bytes).
Context {A W : Type} `{!ConnectionWorld W} `{!ContainerServer StoreExtra W} `{!EventWorld A W} (inject : StoreEvent -> A).

Let flag : bytes := STORE_TYPE_FILTER_FLAG.

(** [storeCreated] and [storeUpdated] *)
Definition store_changed (type : bytes) (n : NotificationEvent) : ST W unit :=
  raw ← from_payload store_info n;
  for_flag flag (ct_type raw) (
    moduleKeys ← lift (storeToModuleKeys raw);
    _ ← setNewModuleKeysInCache keyCache set_keyCache (ct_id raw) moduleKeys (ct_version raw);
    data ← lift (validateDecryptAndConvertStoreDataToStore _userPrivKey _userVerifier raw);
    emit_built inject type (lit "store") (StoreEventData data) n).

Definition file_channel (storeId : bytes) : bytes := lit "store/" ++ storeId ++ lit "/files".

Definition store_event (type : bytes) (n : NotificationEvent) : ST W unit :=
  if bool_decide (type = lit "storeCreated") then store_changed (lit "storeCreated") n
  else if bool_decide (type = lit "storeUpdated") then store_changed (lit "storeUpdated") n
  else if bool_decide (type = lit "storeDeleted") then
    raw ← from_payload store_deleted n;
    for_flag flag raw.2 (
      _ ← invalidateModuleKeysInCache keyCache set_keyCache (Some raw.1);
      emit_built inject (lit "storeDeleted") (lit "store") (mapToStoreDeletedEventData raw.1) n)
  else if bool_decide (type = lit "storeStatsChanged") then
    raw ← from_payload store_stats n;
    for_flag flag (ss_type raw)
      (emit_built inject (lit "storeStatsChanged") (lit "store") (mapToStoreStatsChangedEventData raw) n)
  else if bool_decide (type = lit "storeFileCreated") then
    '(raw, containerType) ← from_payload store_file n;
    for_flag flag containerType (
      keys ← FilesApi.getFileDecryptionKeys raw;
      file ← lift (validateDecryptAndConvertFileDataToFileInfo _host _userPrivKey _userVerifier raw keys);
      emit_built inject (lit "storeFileCreated") (file_channel (sf_storeId raw)) (FileData file) n)
  else if bool_decide (type = lit "storeFileUpdated") then
    '(raw, containerType, changes) ← from_payload store_file_updated n;
    for_flag flag containerType (
      storeKeys ← FilesApi.getFileDecryptionKeys raw;
      file ← lift (validateDecryptAndConvertFileDataToFileInfo _host _userPrivKey _userVerifier raw storeKeys);
      internalMeta ← lift (validateDecryptFileInternalMeta _host _userPrivKey _userVerifier raw storeKeys);
      params ← lift (params_of raw internalMeta);
      emit_built inject (lit "storeFileUpdated") (file_channel (sf_storeId raw))
        (mapToStoreFileUpdatedEventData changes file params) n)
  else if bool_decide (type = lit "storeFileDeleted") then
    raw ← from_payload store_file_deleted n;
    for_flag flag (fd_containerType raw)
      (emit_built inject (lit "storeFileDeleted") (file_channel (fd_storeId raw)) (mapToStoreFileDeletedEventData raw) n)
  else if bool_decide (type = lit "storeCollectionChanged") then
    raw ← from_payload collection_changed n;
    for_flag flag (rc_containerType raw) (emit_built inject (lit "collectionChanged") (lit "store/collectionChanged")
      (StoreCollection (mapToCollectionChangedEventData flag raw)) n)
  else mret tt.

Definition processNotificationEvent (type : bytes) (n : NotificationEvent) : ST (Subscriber.t W) unit :=
  when_subscribed n (store_event type n).

(** ** What the event of a file does not check *)

(** The same data under another file's ids. *)
Definition elsewhere (id resourceId : bytes) (file : ServerFile) : ServerFile := {|
  sf_id := id; sf_resourceId := resourceId; sf_version := sf_version file; sf_contextId := sf_contextId file;
  sf_storeId := sf_storeId file; sf_created := sf_created file; sf_creator := sf_creator file;
  sf_lastModificationDate := sf_lastModificationDate file; sf_lastModifier := sf_lastModifier file;
  sf_meta := sf_meta file; sf_size := sf_size file; sf_keyId := sf_keyId file |}.

Definition renamed (id : bytes) (f : File) : File := {|
  f_storeId := f_storeId f; f_fileId := id; f_createDate := f_createDate f; f_author := f_author f;
  f_publicMeta := f_publicMeta f; f_privateMeta := f_privateMeta f; f_size := f_size f;
  f_authorPubKey := f_authorPubKey f; f_statusCode := f_statusCode f; f_schemaVersion := f_schemaVersion f;
  f_randomWrite := f_randomWrite f |}.

Lemma elsewhere_converts id rid file k f dio : getFileDataStructureVersion file = Ret FileDataSchema.VERSION_5 ->
  decryptAndConvertFileDataToFileInfo _host file k = Ret (f, dio) ->
  decryptAndConvertFileDataToFileInfo _host (elsewhere id rid file) k = Ret (renamed id f, dio).
Proof.
  unfold decryptAndConvertFileDataToFileInfo. intros Hv.
  change (getFileDataStructureVersion (elsewhere id rid file)) with (getFileDataStructureVersion file). rewrite Hv.
  change (decryptFileMetaV5 (elsewhere id rid file) k) with (decryptFileMetaV5 file k). unfold_st.
  rewrite !bool_decide_eq_false_2, bool_decide_eq_true_2 by done.
  destruct (decryptFileMetaV5 file k) as [d|]; [|done]. unfold convertDecryptedFileMetaV5ToFile. unfold_st.
  destruct (FileMetaEncryptorV5.f5_statusCode d); [by intros [= <- <-]|].
  destruct (internal_of _) as [[m c]|]; [by intros [= <- <-]|done].
Qed.

Lemma elsewhere_item id rid file keys f : getFileDataStructureVersion file = Ret FileDataSchema.VERSION_5 ->
  decryptAndVerifyItem (ItemKind0 := FileKind _host) _userPrivKey _userVerifier file keys = Ret f ->
  decryptAndVerifyItem (ItemKind0 := FileKind _host) _userPrivKey _userVerifier (elsewhere id rid file) keys = Ret (renamed id f).
Proof.
  intros Hv. unfold decryptAndVerifyItem.
  change (it_keyId (ItemKind := FileKind _host) (elsewhere id rid file)) with (sf_keyId file).
  change (it_contextId (ItemKind := FileKind _host) (elsewhere id rid file)) with (sf_contextId file).
  cbn [it_keyId it_contextId FileKind decryptAndConvert]. unfold_st. destruct (KeyProvider.getKeysAndVerify _ _ _) as [all|]; [|done].
  destruct (at_ all _) as [ks|]; [|done]. destruct (at_ ks _) as [k|]; [|done].
  destruct (decryptAndConvertFileDataToFileInfo _host file k) as [[r dio]|] eqn:Ed; [|done].
  pose proof (elsewhere_converts id rid file k r dio Hv Ed) as Ed'.
  rewrite Ed'. cbn [status file_status renamed f_statusCode].
  destruct (f_statusCode r); [by intros [= <-]|]. unfold verification_of.
  cbn [it_contextId FileKind res_author res_authorPubKey res_createDate renamed f_author f_authorPubKey f_createDate].
  destruct (UserVerifier.verify _ _) as [[|a l]|]; [done| |done]. by intros [= <-].
Qed.

(** a file's event does not say which file it is of: for a file of
    structure 5 that the server may pass off as any other of its store, under
    ids its integrity object does not name, the event shows the metadata without
    an error; [getFile] would answer with a failed integrity check. *)
Theorem file_event_unbound n (s : Subscriber.t W) v file id resourceId keys storeResourceId w1 f :
  is_Some (Subscriber.getSubscriptionQueryOfAny (ne_subscriptions n) s) -> payload n = Ret v ->
  store_file v = Ret (elsewhere id resourceId file, None) ->
  getFileDataStructureVersion file = Ret FileDataSchema.VERSION_5 -> resourceId <> sf_resourceId file ->
  validateFileDataIntegrity file storeResourceId = Ret None ->
  FilesApi.getFileDecryptionKeys file (Subscriber._world s) = (Ret keys, w1) ->
  validateDecryptAndConvertFileDataToFileInfo _host _userPrivKey _userVerifier file keys = Ret f -> f_statusCode f = None ->
  processNotificationEvent (lit "storeFileCreated") n s
    = outside s (emit_built inject (lit "storeFileCreated") (file_channel (sf_storeId file)) (FileData (renamed id f)) n w1)
  /\ validateFileDataIntegrity (elsewhere id resourceId file) storeResourceId = Ret (Some FileDataIntegrityException).
Proof.
  intros Hs Hv Hraw Hv5 Hne Hint Hk Hf Hst. split.
  - unfold processNotificationEvent. rewrite subscribed_runs by done. apply on_world_run.
    assert (validateDecryptAndConvertFileDataToFileInfo _host _userPrivKey _userVerifier (elsewhere id resourceId file) keys
      = Ret (renamed id f)) as Hf'.
    { unfold validateDecryptAndConvertFileDataToFileInfo in Hf |- *. apply try_with_inv in Hf as [Hf|(? & ? & _ & _ & ->)]; [|done].
      apply try_with_ret. cbn [elsewhere sf_keyId]. revert Hf. unfold_st.
      destruct (FileKeyIdFormatValidator.assertKeyIdFormat _) as [[]|]; [|done]. by apply elsewhere_item. }
    change (store_event (lit "storeFileCreated") n) with ('(raw, containerType) ← from_payload store_file n;
      for_flag flag containerType (
        keys ← FilesApi.getFileDecryptionKeys raw;
        file ← lift (validateDecryptAndConvertFileDataToFileInfo _host _userPrivKey _userVerifier raw keys);
        emit_built inject (lit "storeFileCreated") (file_channel (sf_storeId raw)) (FileData file) n)).
    unfold exec, from_payload, for_flag. unfold_st. rewrite Hv, Hraw, bool_decide_eq_true_2 by done.
    change (FilesApi.getFileDecryptionKeys (elsewhere id resourceId file)) with (FilesApi.getFileDecryptionKeys (W := W) file).
    by rewrite Hk, Hf'.
  - destruct (file_checked file _ Hv5 Hint) as (e & dio & He & Hd & Hfit). apply content_fits_true in Hfit as (_ & F2 & _).
    unfold validateFileDataIntegrity. change (getFileDataStructureVersion (elsewhere id resourceId file)) with (getFileDataStructureVersion file).
    rewrite Hv5. cbn [elsewhere sf_meta]. unfold_st. rewrite !(bool_decide_eq_false_2 (FileDataSchema.VERSION_5 = _)) by done.
    cbn [orb]. rewrite bool_decide_eq_true_2, He, Hd by done. cbn.
    destruct (file_fits _ _ dio) eqn:Efit; [|done]. apply content_fits_true in Efit as (_ & F2' & _).
    cbn in F2'. congruence.
Qed.
End Events.

(** ** Changed ranges *)

Lemma div_between p cs i j : 0 < cs -> i <= p / cs < j <-> i * cs <= p < j * cs.
Proof.
  intros Hc. pose proof (Z.div_mod p cs ltac:(lia)). pose proof (Z.mod_pos_bound p cs Hc). split; intros ?; nia.
Qed.

(** the event of an updated file reports, for the chunks the server says
    were replaced, exactly the positions of the file that lie in them; a
    replaced range that starts past the end of the file has a negative length. *)
Theorem change_reported (c : ChunkEncryptor.t) (size i j r : Z) (truncate : bool) :
  let cs := ChunkEncryptor.getPlainChunkSize c in
  let e := ChunkEncryptor.getEncryptedChunkSize c in
  0 < cs < 2 ^ 62 -> 0 <= i <= j -> 0 <= r < e -> r <= (j - i) * e -> (j + 1) * e < 2 ^ 63 -> 0 <= size < 2 ^ 63 ->
  let g := map_change c size (mkStoreFileChange (lit "file") (i * e) ((j - i) * e - r) truncate) in
  (i * cs <= size -> forall p, fg_pos g <= p < fg_pos g + fg_length g <-> 0 <= p < size /\ i <= p / cs < j)
  /\ (size < i * cs -> fg_length g = size - fg_pos g /\ fg_length g < 0).
Proof.
  intros cs e Hcs Hij Hr Hrl Hb Hs. assert (cs < e) as He.
  { unfold cs, e, ChunkEncryptor.getEncryptedChunkSize, ChunkEncryptor.getPlainChunkSize, CHUNK_PADDING, HMAC_SIZE, IV_SIZE in *.
    pow_simpl. pose proof (Z.mod_pos_bound (ChunkEncryptor._chunkSize c) 16). rewrite wrap_id by (pow_simpl; lia). lia. }
  assert (0 <= i * cs <= i * e /\ j * cs <= j * e /\ i * e <= j * e /\ i * cs <= j * cs) as (H1 & H2 & H3 & H4) by nia.
  rewrite Z.mul_sub_distr_r in *. rewrite Z.mul_add_distr_r in Hb.
  unfold map_change. fold cs e. cbn [ch_pos ch_length ch_truncate].
  assert (u64 (i * e) / e = i) as -> by (rewrite wrap_id by (pow_simpl; lia); apply Z.div_mul; lia).
  assert (u64 (j * e - i * e - r + e - 1) / e = j - i) as ->.
  { rewrite wrap_id by (pow_simpl; lia). symmetry. apply (Z.div_unique _ _ _ (e - 1 - r)); [lia|ring]. }
  rewrite !Z.mul_sub_distr_r. rewrite !wrap_id by (pow_simpl; lia). rewrite !ChunkProvider.i64_small by lia.
  cbn [fg_pos fg_length]. split.
  - intros Hi p. rewrite div_between by lia. destruct (Z.ltb_spec size (i * cs + (j * cs - i * cs))); [|lia].
    rewrite ChunkProvider.i64_small by lia. lia.
  - intros Hi. destruct (Z.ltb_spec size (i * cs + (j * cs - i * cs))); [|lia].
    rewrite swrap_id by (pow_simpl; lia). lia.
Qed.
End StoreEvents.

Section Witness.
Import StoreEvents.
Let cipher : ChunkEncryptor.t := ChunkEncryptor.mk [] 100.

(** Chunks 1 and 2 of a file of 250 bytes, the last one shorter. *)
Lemma change_reported_witness : ChunkEncryptor.getEncryptedChunkSize cipher = 160
  /\ let g := map_change cipher 250 (mkStoreFileChange (lit "file") 160 (320 - 48) false) in
     forall p, fg_pos g <= p < fg_pos g + fg_length g <-> 0 <= p < 250 /\ 1 <= p / 100 < 3.
Proof.
  split; [reflexivity|].
  apply (change_reported cipher 250 1 3 48 false); try lia; vm_compute; repeat split; discriminate.
Defined.
End Witness.
