(* ===== verification/InboxEvents.v ===== *)
(** * Events of inboxes

    [processNotificationEvent] of InboxApiImpl.cpp: an inbox's own events come
    from the server's inboxes, those of its entries from the messages of its
    thread, whose inbox the message's key id names, or, when the message is gone,
    the subscriber's table of the threads it was asked for. *)

From Stdlib Require Import ZArith Lia Strings.String Strings.Byte.
From stdpp Require Import base list gmap fin_maps.
From S2P Require Import Prelude Bytes CoreTypes Crypto CryptoSuite Dynamic Keys Encryptors Dio FieldData FileMetaData EncKeys ContainerData KeyProvider StoreServer FileHandler FileHandle Upload Utils StdMap Subscriptions SubscriberImpls Users EventQueue Legacy Policies Containers Items Modules ContentItems Threads Stores Files StoreFiles ThreadMessages InboxData InboxEntries Inboxes InboxSend ModuleEvents ThreadEvents.
Import Dynamic ModuleBaseApi ModuleApi.

(** The data of the events (inbox/Events.hpp). *)
Inductive InboxEvent :=
| InboxChanged (b : Inbox)
| InboxDeletedEventData (inboxId : bytes)
| InboxEntryCreated (e : InboxEntry)
| InboxEntryDeletedEventData (inboxId entryId : bytes)
| InboxCollection (c : CollectionChanged).

(** The server's inboxes in notifications. *)
Class InboxEventJson {D : Dynamic} := {
  inbox_info : Var -> outcome InboxInfo;
  inbox_deleted : Var -> outcome (option bytes * bytes);
}.

(** The subscriber's [_threadIdToInboxId]. *)
Class KnownThreads (W : Type) := { known_threads : W -> gmap bytes bytes }.

Definition set_moduleId (moduleId : bytes) (c : CollectionChanged) : CollectionChanged :=
  mkCollectionChanged (cg_moduleType c) moduleId (cg_affectedItemsCount c) (cg_items c).

Module InboxEvents.
Section Events.
Context {C : CryptoService} {E : Ecc} `{!EccNumbers E} {E0 : Encodings} {D : Dynamic}.
Context {X : StoreServer.StoreServer} {R : RequestApi}.
Context `{!KeyFormats PublicKey} `{!KeyEntryJson} `{!HashOrder} `{!InboxJson} `{!FileJson}.
Context `{!JsonCodec DIOEncryptorV1.DioJson} `{!JsonCodec EncryptionKey} `{!JsonCodec InboxInternalMetaV5}.
Context `{!JsonCodec InboxMessageServer} `{!JsonCodec StoreFileMeta} `{!JsonCodec InternalStoreFileMeta}.
Context `{!ThreadEventJson} `{!InboxEventJson} `{!CollectionJson}.
Context (_userPrivKey : PrivateKey) (_userVerifier : list VerificationRequest -> outcome (list bool)) (_host : bytes).
Context {A W : Type} `{!InboxConnections W} `{!InboxServer W} `{!EntryServer W} `{!MessageServer W} `{!EventWorld A W} `{!KnownThreads W}.
#[local] Existing Instance inbox_connection.
Context (inject : InboxEvent -> A).

Let flag : bytes := InboxApi.INBOX_TYPE_FILTER_FLAG.

(** [if (raw.containerType.value_or("") == INBOX_TYPE_FILTER_FLAG)] *)
Definition for_inboxes (containerType : option bytes) (m : ST W unit) : ST W unit :=
  if bool_decide (default [] containerType = flag) then m else mret tt.

Definition convertKnownThreadIdToInboxId (threadId : bytes) : ST W (option bytes) :=
  gets (fun w => known_threads w !! threadId).

(** [inboxCreated] and [inboxUpdated] *)
Definition inbox_changed (type : bytes) (n : NotificationEvent) : ST W unit :=
  raw ← from_payload inbox_info n;
  for_flag flag (ii_type raw) (
    _ ← InboxApi.rememberInbox raw;
    data ← lift (InboxApi.validateDecryptAndConvertInboxDataToInbox _userPrivKey _userVerifier raw);
    emit_built inject type (lit "inbox") (InboxChanged data) n).

Definition entries_channel (inboxId : bytes) : bytes := lit "inbox/" ++ inboxId ++ lit "/entries".

Definition entry_created (n : NotificationEvent) : ST W unit :=
  '(raw, containerType) ← from_payload thread_message n;
  for_inboxes containerType (
    inboxId ← lift (InboxSender.readInboxIdFromMessageKeyId (sm_keyId raw));
    keys ← InboxSender.getEntryDecryptionKeys raw;
    message ← InboxSender.decryptAndConvertInboxEntryDataToInboxEntry _userPrivKey _userVerifier _host raw keys;
    emit_built inject (lit "inboxEntryCreated") (entries_channel inboxId) (InboxEntryCreated message) n).

Definition convertInboxDeletedEventData (inboxId : bytes) : InboxEvent := InboxDeletedEventData inboxId.

Definition entry_deleted (n : NotificationEvent) : ST W unit :=
  raw ← from_payload thread_deleted_message n;
  for_inboxes raw.1 (
    known ← convertKnownThreadIdToInboxId raw.2.1;
    let inboxId := default [] known in
    emit_built inject (lit "inboxEntryDeleted") (entries_channel inboxId) (InboxEntryDeletedEventData inboxId raw.2.2) n).

Definition collection_of_inbox (n : NotificationEvent) : ST W unit :=
  raw ← from_payload collection_changed n;
  for_inboxes (rc_containerType raw) (
    let data := mapToCollectionChangedEventData flag raw in
    known ← convertKnownThreadIdToInboxId (cg_moduleId data);
    emit_built inject (lit "collectionChanged") (lit "inbox/collectionChanged")
      (InboxCollection (set_moduleId (default [] known) data)) n).

Definition inbox_event (type : bytes) (n : NotificationEvent) : ST W unit :=
  if bool_decide (type = lit "inboxCreated") then inbox_changed (lit "inboxCreated") n
  else if bool_decide (type = lit "inboxUpdated") then inbox_changed (lit "inboxUpdated") n
  else if bool_decide (type = lit "inboxDeleted") then
    raw ← from_payload inbox_deleted n;
    for_flag flag raw.1 (
      _ ← invalidateModuleKeysInCache keyCache set_keyCache (Some raw.2);
      emit_built inject (lit "inboxDeleted") (lit "inbox") (convertInboxDeletedEventData raw.2) n)
  else if bool_decide (type = lit "threadNewMessage") then entry_created n
  else if bool_decide (type = lit "threadDeletedMessage") then entry_deleted n
  else if bool_decide (type = lit "threadCollectionChanged") then collection_of_inbox n
  else mret tt.

Definition processNotificationEvent (type : bytes) (n : NotificationEvent) : ST (Subscriber.t W) unit :=
  when_subscribed n (inbox_event type n).

(** ** An event shows what a fetch shows *)
Section Shown.
Context (n : NotificationEvent) (s : Subscriber.t W) (v : Var).
Context (Hs : is_Some (Subscriber.getSubscriptionQueryOfAny (ne_subscriptions n) s)) (Hv : payload n = Ret v).
Let w : W := Subscriber._world s.

(** what an inbox's event shows is what fetching shows: of a notification
    the module subscribed for, about an inbox or a new entry, the queue gets what
    [getInbox] or [readEntry] returns where the server answers them with the same
    data, and nothing if they throw; a message of a thread that is no inbox's
    changes nothing at all. *)
Theorem inbox_events_as_fetched :
  (forall type raw inboxId, type = lit "inboxCreated" \/ type = lit "inboxUpdated" ->
     inbox_info v = Ret raw -> default flag (ii_type raw) = flag -> inboxGet inboxId None w = (Ret raw, w) ->
     processNotificationEvent type n s = outside s (shown inject type (lit "inbox") InboxChanged n
       (InboxApi.getInbox _userPrivKey _userVerifier inboxId w)))
  /\ (forall raw entryId inboxId, thread_message v = Ret (raw, Some flag) ->
     InboxSender.readInboxIdFromMessageKeyId (sm_keyId raw) = Ret inboxId -> threadMessageGet entryId w = (Ret raw, w) ->
     processNotificationEvent (lit "threadNewMessage") n s
     = outside s (shown inject (lit "inboxEntryCreated") (entries_channel inboxId) InboxEntryCreated n
       (InboxSender.readEntry _userPrivKey _userVerifier _host entryId w)))
  /\ (forall raw t, thread_message v = Ret (raw, t) -> t <> Some flag ->
     processNotificationEvent (lit "threadNewMessage") n s = (Ret tt, s)).
Proof.
  split; [|split].
  - intros type raw inboxId Ht Hraw Hf Hget. unfold processNotificationEvent. rewrite subscribed_runs by done. apply on_world_run.
    assert (inbox_event type n = inbox_changed type n) as -> by (by destruct Ht as [-> | ->]).
    fold w. rewrite <- exec_shown. apply exec_agrees.
    unfold inbox_changed, from_payload, for_flag, InboxApi.getInbox, InboxApi._getInboxEx, InboxApi.getServerInbox.
    unfold_st. rewrite Hv, Hraw, bool_decide_eq_true_2 by done. change (some_type []) with (@None bytes). rewrite Hget.
    destruct (InboxApi.rememberInbox raw w) as [[[]|] w']; [|done].
    by destruct (InboxApi.validateDecryptAndConvertInboxDataToInbox _ _ raw).
  - intros raw entryId inboxId Hraw Hid Hget. unfold processNotificationEvent. rewrite subscribed_runs by done. apply on_world_run.
    change (inbox_event (lit "threadNewMessage") n) with (entry_created n).
    fold w. rewrite <- exec_shown. apply exec_agrees.
    unfold entry_created, from_payload, for_inboxes, InboxSender.readEntry, InboxSender.getServerMessage, InboxSender.read_message.
    unfold_st. rewrite Hv, Hraw. cbn [default]. rewrite bool_decide_eq_true_2, Hid, Hget by done.
    destruct (InboxSender.getEntryDecryptionKeys raw w) as [[k|] w']; [|done].
    by destruct (InboxSender.decryptAndConvertInboxEntryDataToInboxEntry _ _ _ raw k w') as [[]].
  - intros raw t Hraw Hne. unfold processNotificationEvent. rewrite subscribed_runs by done.
    change (inbox_event (lit "threadNewMessage") n) with (entry_created n).
    rewrite (on_world_run _ (Ret tt, w)); [by destruct s|].
    unfold exec, entry_created, from_payload, for_inboxes. unfold_st. fold w. rewrite Hv, Hraw.
    rewrite bool_decide_eq_false_2; [done|]. intros He. destruct t as [t|]; [apply Hne; f_equal; exact He|discriminate He].
Qed.
End Shown.
End Events.
End InboxEvents.
