(* ===== verification/ContentFlow.v ===== *)
(** * Messages from their author to the members

    What a member of a thread sends, every member opens: the parts of
    [ContentItems] and [ContainerFlow] put together. *)

From Stdlib Require Import ZArith Lia Strings.String Strings.Byte.
From stdpp Require Import base list gmap fin_maps.
From S2P Require Import Prelude Bytes CoreTypes Crypto CryptoSuite Dynamic Encryptors Dio FieldData EncKeys ContentData ContainerData KeyProvider Utils StdMap Users Legacy Policies Containers Items Modules ContainerFlow ContentItems Threads ThreadMessages.
Import ModuleBaseApi ModuleApi.

Section Flow.
Context {C : CryptoService} `{!CryptoLaws C} {E : Ecc} `{!EccLaws E} {E0 : Encodings} `{!EncodingsLaws E0}.
Context {D : Dynamic} `{!KeyFormats PublicKey} `{!KeyFormatsLaws PublicKey}.
Context `{!KeyEntryJson} `{!KeyEntryJsonLaws} `{!HashOrder} `{!ContentJson} `{!ContentJsonLaws}.
Context `{!JsonCodec DIOEncryptorV1.DioJson} `{!JsonCodecLaws DIOEncryptorV1.DioJson}.
Context `{!JsonCodec EncryptionKey} `{!JsonCodecLaws EncryptionKey}.
Context `{!JsonCodec ModuleDataEncryptorV5.ModuleInternalMetaV5}
  `{!JsonCodecLaws ModuleDataEncryptorV5.ModuleInternalMetaV5}.
Context {W : Type} `{!ConnectionWorld W} `{!ConnectionLaws W}.
Context (me : bytes) (priv : PrivateKey) (bridge : option BridgeIdentity) (contextId : bytes).

(** The content an author seals for the item [rid] of a container. *)
Definition content_of (publicMeta privateMeta data : bytes) (dio : DataIntegrityObject) : ContentToEncrypt :=
  {| in_publicMeta := publicMeta; in_privateMeta := privateMeta; in_data := data; in_internalMeta := None; in_dio := dio |}.

Section Content.
Context {X : ContentExceptions}.

Lemma content_encrypted containerId rid publicMeta privateMeta data keys key w :
  connected (W := W) me bridge contextId -> mk_contextId keys = contextId -> zlen (k_key key) = 32 ->
  DataEncryptorV4.small privateMeta -> DataEncryptorV4.small data ->
  exists e t i w0, (encryptContentV5 priv bridge containerId rid publicMeta privateMeta data keys key w).1
      = Ret (cj5_toJSON e)
    /\ (getNowTimestamp w0).1 = Ret t
    /\ ContentEncryptorV5.sealed (content_of publicMeta privateMeta data
         (my_dio me priv bridge contextId (Some containerId) (Some (mk_moduleResourceId keys)) rid t (hex_from i)))
         priv (k_key key) e.
Proof.
  intros Hc Hx Hk Hp Hd. unfold encryptContentV5. rewrite Hx.
  destruct (dio_created me priv bridge contextId (Some containerId) (Some (mk_moduleResourceId keys)) rid w Hc)
    as (d & Hdio & t & i & w0 & -> & Ht & Hi).
  step_fst Hdio as w1.
  set (c := content_of publicMeta privateMeta data (my_dio me priv bridge contextId (Some containerId)
    (Some (mk_moduleResourceId keys)) rid t (hex_from i))).
  destruct (rng_fst (ContentEncryptorV5.encrypt c priv (k_key key))
    (ContentEncryptorV5.sealed c priv (k_key key)) w1) as (e & He & Hs).
  { intros g. destruct (ContentEncryptorV5.content_encrypt_sealed c priv (k_key key) g) as (e & g' & He & Hse);
      [|by exists e, g'].
    split; [by eapply my_dio_formed; [apply Hc|]|done..]. }
  step_fst He as w2. by exists e, t, i, w0.
Qed.

Context {Item Result : Type} `{!HasStatus Result} `{!ItemKind Item Result} `{!ContentKind Item Result}
  `{!ContentKindLaws Item Result}.

(** A sealed item, served unchanged to a member who holds the key. *)
Lemma item_delivered (item : Item) keys u ek uv c e :
  shares keys u ek -> ContentEncryptorV5.sealed c priv ek e -> it_data item = cj5_toJSON e ->
  it_keyId item = mk_currentKeyId keys -> it_contextId item = mk_contextId keys ->
  it_fits item (mk_moduleResourceId keys) (in_dio c) = true ->
  (forall l, uv l = Ret ((fun _ => true) <$> l)) ->
  Items.validateDataIntegrity item (mk_moduleResourceId keys) = Ret None
  /\ decryptAndVerifyItem u uv item keys
     = Ret (set_status None (convertDecrypted item (ContentEncryptorV5.opened c priv))).
Proof.
  intros (en & k & Hf & Hdec & Hx & Hr & Hck & Hs & _ & Hk) Hse Hd Hid Hctx Hfit Hu.
  pose proof (ContentEncryptorV5.se_dio _ _ _ _ Hse) as Hdio. split.
  - apply (validate_fits item _ e (in_dio c)); [|by rewrite Hd, cj5_inv|done|done].
    rewrite Hd. apply content_version_5. exact (ContentEncryptorV5.content_integrity_version _ _ Hdio).
  - rewrite (item_opens u uv item keys en k (convertDecrypted item (ContentEncryptorV5.opened c priv)) (in_dio c) true);
      [done|by rewrite Hid|done|by rewrite Hctx|done|done|apply Hu| | |apply Hu].
    + apply (decrypt_content_sealed item k c priv e); [by rewrite Hk|done|done].
    + by rewrite convert_status.
Qed.
End Content.

(** ** Messages *)
Section Messages.
#[local] Existing Instances MessageApi.MessageKind MessageApi.MessageContent MessageApi.MessageContentLaws.
Context `{!MessageJson} `{!JsonCodec MessageDataV2} `{!JsonCodec MessageDataV3} `{!MessageServer W}.
Implicit Types message : ServerMessage.

(** A message that the server serves as it was sent, before any update. *)
Record posted (model : MessageSendModel) message : Prop := {
  po_resource : sm_resourceId message = ms_resourceId model;
  po_thread : sm_threadId message = ms_threadId model;
  po_context : sm_contextId message = contextId;
  po_author : sm_author message = me;
  po_data : sm_data message = ms_data model;
  po_key : sm_keyId message = ms_keyId model;
  po_updates : sm_updates message = [];
  po_date (w : W) t : (getNowTimestamp w).1 = Ret t -> TimestampValidator.validate t (sm_createDate message) = true;
}.

(** What a member sends, and what the others make of it. *)
Lemma message_reaches uv threadId publicMeta privateMeta data keys ek w :
  connected (W := W) me bridge contextId -> mk_contextId keys = contextId -> zlen ek = 32 ->
  DataEncryptorV4.small privateMeta -> DataEncryptorV4.small data -> shares keys priv ek ->
  (forall l, uv l = Ret ((fun _ => true) <$> l)) ->
  exists model w', MessageApi.sendMessageRequest priv uv bridge threadId publicMeta privateMeta data keys w
      = threadMessageSend model w'
    /\ ms_threadId model = threadId /\ ms_keyId model = mk_currentKeyId keys
    /\ forall message u keys' uv', posted model message ->
      MessageKeyIdFormatValidator.isKeyIdFormatValid (sm_keyId message) = true ->
      shares keys' u ek -> mk_currentKeyId keys' = mk_currentKeyId keys -> mk_contextId keys' = contextId ->
      mk_moduleResourceId keys' = mk_moduleResourceId keys ->
      (forall l, uv' l = Ret ((fun _ => true) <$> l)) ->
      exists m, MessageApi.validateDecryptAndConvertMessageDataToMessage u uv' message keys' = Ret m
        /\ m_statusCode m = None /\ m_publicMeta m = publicMeta /\ m_privateMeta m = privateMeta /\ m_data m = data
        /\ m_schemaVersion m = MessageDataSchema.VERSION_5
        /\ m_author m = me /\ m_authorPubKey m = toBase58DER (getPublicKey priv).
Proof.
  intros Hc Hx Hl Hp Hd Hsh Hu.
  destruct (shares_current keys priv ek uv Hsh Hu) as (k & Hk & Hks & Hkv & Hki & Hkk).
  unfold MessageApi.sendMessageRequest, usable_current_key.
  assert (forall A (f : DecryptedEncKeyV2 -> ST W A) w0,
    (lift (key ← getAndValidateModuleCurrentEncKey priv uv keys;
           match k_statusCode key with Some _ => Throw ThreadEncryptionKeyValidationException | None => mret key end)
     ≫= f) w0 = f k w0) as ->.
  { intros A f w0. unfold_st. by rewrite Hk, Hks. }
  destruct (cd_id _ _ _ Hc w) as [rid Hrid]. step_fst Hrid as w1.
  destruct (content_encrypted (X := MessageDataEncryptorV5.exceptions) threadId rid publicMeta privateMeta data keys k w1 Hc Hx)
    as (e & t & i & w0 & He & Ht & Hse); [by rewrite Hkk|done|done|].
  assert ((MessageApi.encryptMessageData priv uv bridge threadId rid publicMeta privateMeta data keys w1).1
    = Ret (cj5_toJSON e)) as Henc.
  { unfold MessageApi.encryptMessageData. unfold_st. rewrite Hk, Hkv.
    rewrite (bool_decide_eq_false_2 (_ = KeyProvider.VERSION_1)), bool_decide_eq_true_2 by done. exact He. }
  step_fst Henc as w2. do 2 eexists. split; [reflexivity|]. split; [done|]. split; [exact Hki|].
  intros message u keys' uv' [Hr Hth Hctx Ha Hda Hke Hup Hdate] Hfmt Hsh' Hcur Hcx Hmr Hu'. cbn in Hr, Hth, Hda, Hke.
  destruct (item_delivered (X := MessageDataEncryptorV5.exceptions) (Result := Message) message keys' u ek uv' (content_of publicMeta privateMeta data
      (my_dio me priv bridge contextId (Some threadId) (Some (mk_moduleResourceId keys)) rid t (hex_from i))) e)
    as [Hv Hop]; [done|by rewrite <- Hkk|done|cbn; congruence|cbn; congruence| |done|].
  { cbn. apply content_fits_true. unfold MessageApi.last_author, MessageApi.last_date. rewrite Hup. cbn.
    rewrite Hr, Hth, Hmr. do 5 (split; [done|]). by eapply Hdate. }
  eexists. split.
  - unfold MessageApi.validateDecryptAndConvertMessageDataToMessage. unfold_st. cbn in Hv. rewrite Hv.
    unfold MessageKeyIdFormatValidator.assertKeyIdFormat. rewrite Hfmt. by rewrite Hop.
  - cbn. by rewrite Ha.
Qed.

(** C2: a message reaches every member: what a member sends, who holds the
    thread's current key, each member who holds it opens without an error
    status to the author's metadata and data, under the author's name and
    public key, if the server serves it unchanged and both verifiers accept. *)
Theorem message_delivered uv threadId publicMeta privateMeta data keys ek w :
  connected (W := W) me bridge contextId -> mk_contextId keys = contextId -> zlen ek = 32 ->
  DataEncryptorV4.small privateMeta -> DataEncryptorV4.small data -> shares keys priv ek ->
  (forall l, uv l = Ret ((fun _ => true) <$> l)) ->
  exists model w', MessageApi.sendMessageRequest priv uv bridge threadId publicMeta privateMeta data keys w
      = threadMessageSend model w'
    /\ ms_threadId model = threadId /\ ms_keyId model = mk_currentKeyId keys
    /\ forall message u keys' uv', posted model message ->
      MessageKeyIdFormatValidator.isKeyIdFormatValid (sm_keyId message) = true ->
      shares keys' u ek -> mk_currentKeyId keys' = mk_currentKeyId keys -> mk_contextId keys' = contextId ->
      mk_moduleResourceId keys' = mk_moduleResourceId keys ->
      (forall l, uv' l = Ret ((fun _ => true) <$> l)) ->
      exists m, MessageApi.validateDecryptAndConvertMessageDataToMessage u uv' message keys' = Ret m
        /\ m_statusCode m = None /\ m_publicMeta m = publicMeta /\ m_privateMeta m = privateMeta /\ m_data m = data
        /\ m_schemaVersion m = MessageDataSchema.VERSION_5
        /\ m_author m = me /\ m_authorPubKey m = toBase58DER (getPublicKey priv).
Proof. apply message_reaches. Qed.
End Messages.
End Flow.
