(* ===== verification/KvdbFlow.v ===== *)
(** * Entries from their author to the members

    What a member stores in a KVDB every member reads, also when the key the
    author remembers is no longer the KVDB's: the request is repeated with the
    keys the server has now. *)

From Stdlib Require Import ZArith Lia Strings.String Strings.Byte.
From stdpp Require Import base list gmap fin_maps.
From S2P Require Import Prelude Bytes CoreTypes Crypto CryptoSuite Dynamic Encryptors Dio FieldData EncKeys ContentData ContainerData KeyProvider Utils StdMap Users Legacy Policies Containers Items Modules ContainerFlow ContentItems Kvdbs Threads ThreadMessages ContentFlow.
Import ModuleBaseApi ModuleApi.

Section Flow.
Context {C : CryptoService} `{!CryptoLaws C} {E : Ecc} `{!EccLaws E} {E0 : Encodings} `{!EncodingsLaws E0}.
Context {D : Dynamic} `{!KeyFormats PublicKey} `{!KeyFormatsLaws PublicKey}.
Context `{!KeyEntryJson} `{!KeyEntryJsonLaws} `{!HashOrder} `{!ModuleJson} `{!ContentJson} `{!ContentJsonLaws}.
Context `{!JsonCodec DIOEncryptorV1.DioJson} `{!JsonCodecLaws DIOEncryptorV1.DioJson}.
Context `{!JsonCodec EncryptionKey} `{!JsonCodecLaws EncryptionKey}.
Context `{!JsonCodec ModuleDataEncryptorV5.ModuleInternalMetaV5}
  `{!JsonCodecLaws ModuleDataEncryptorV5.ModuleInternalMetaV5}.
Context {W : Type} `{!ConnectionWorld W} `{!ConnectionLaws W} `{!KvdbServer W}.
Context (me : bytes) (priv : PrivateKey) (bridge : option BridgeIdentity) (contextId : bytes).
Implicit Types entry : KvdbEntryInfo.
#[local] Existing Instances KvdbApi.EntryKind KvdbApi.EntryContent KvdbApi.EntryContentLaws EntryDataEncryptorV5.exceptions.

(** An entry the server serves as it was stored, whoever created it first. *)
Record stored (model : KvdbEntrySetModel) entry : Prop := {
  sd_kvdb : ke_kvdbId entry = es_kvdbId model;
  sd_key : ke_kvdbEntryKey entry = es_kvdbEntryKey model;
  sd_context : ke_contextId entry = contextId;
  sd_value : ke_kvdbEntryValue entry = es_kvdbEntryValue model;
  sd_keyId : ke_keyId entry = es_keyId model;
  sd_modifier : ke_lastModifier entry = me;
  sd_date (w : W) t : (getNowTimestamp w).1 = Ret t ->
    TimestampValidator.validate t (ke_lastModificationDate entry) = true;
}.

(** The request made with the keys [keys], under the key [ek]: the server's
    operation is called with it, and who holds the key reads the entry. *)
Definition entry_sent (keys : ModuleKeys) (ek kvdbId key publicMeta privateMeta data : bytes) (version : Z)
    (r : outcome unit * W) : Prop :=
  exists model w', r = kvdbEntrySet model w'
    /\ es_kvdbId model = kvdbId /\ es_kvdbEntryKey model = key /\ es_version model = version
    /\ es_keyId model = mk_currentKeyId keys
    /\ forall entry u keys' uv', stored model entry ->
      shares keys' u ek -> mk_currentKeyId keys' = mk_currentKeyId keys -> mk_contextId keys' = contextId ->
      mk_moduleResourceId keys' = mk_moduleResourceId keys ->
      (forall l, uv' l = Ret ((fun _ => true) <$> l)) ->
      exists e, KvdbApi.validateDecryptAndConvertEntryDataToEntry u uv' entry keys' = Ret e
        /\ e_statusCode e = None /\ e_key e = key /\ e_publicMeta e = publicMeta /\ e_privateMeta e = privateMeta
        /\ e_data e = data /\ e_authorPubKey e = toBase58DER (getPublicKey priv).

Lemma entry_request uv kvdbId key publicMeta privateMeta data version keys ek w :
  connected (W := W) me bridge contextId -> mk_contextId keys = contextId -> zlen ek = 32 ->
  DataEncryptorV4.small privateMeta -> DataEncryptorV4.small data -> shares keys priv ek ->
  (forall l, uv l = Ret ((fun _ => true) <$> l)) ->
  entry_sent keys ek kvdbId key publicMeta privateMeta data version
    (KvdbApi.setEntryRequest priv uv bridge kvdbId key publicMeta privateMeta data version keys w).
Proof.
  intros Hc Hx Hl Hp Hd Hsh Hu.
  destruct (shares_current keys priv ek uv Hsh Hu) as (k & Hk & Hks & Hkv & Hki & Hkk).
  unfold KvdbApi.setEntryRequest, usable_current_key.
  assert (forall A (f : DecryptedEncKeyV2 -> ST W A) w0,
    (lift (k ← getAndValidateModuleCurrentEncKey priv uv keys;
           match k_statusCode k with Some _ => Throw KvdbEncryptionKeyValidationException | None => mret k end)
     ≫= f) w0 = f k w0) as ->.
  { intros A f w0. unfold_st. by rewrite Hk, Hks. }
  destruct (content_encrypted me priv bridge contextId kvdbId key publicMeta privateMeta data keys k w Hc Hx)
    as (e & t & i & w0 & He & Ht & Hse); [by rewrite Hkk|done|done|].
  assert ((KvdbApi.encryptEntryData priv uv bridge kvdbId key publicMeta privateMeta data keys w).1
    = Ret (cj5_toJSON e)) as Henc.
  { unfold KvdbApi.encryptEntryData. unfold_st. rewrite Hk, Hkv. rewrite bool_decide_eq_true_2 by done. exact He. }
  step_fst Henc as w1. do 2 eexists. split; [reflexivity|]. do 3 (split; [done|]). split; [exact Hki|].
  intros entry u keys' uv' [Hkv' Hke Hctx Hv Hid Hm Hdate] Hsh' Hcur Hcx Hmr Hu'. cbn in Hkv', Hke, Hv, Hid.
  destruct (item_delivered (X := EntryDataEncryptorV5.exceptions) (Result := KvdbEntry) priv entry keys' u ek uv' (content_of publicMeta privateMeta data
      (my_dio me priv bridge contextId (Some kvdbId) (Some (mk_moduleResourceId keys)) key t (hex_from i))) e)
    as [Hva Hop]; [done|by rewrite <- Hkk|done|cbn; congruence|cbn; congruence| |done|].
  { cbn. apply content_fits_true. cbn. rewrite Hke, Hkv', Hmr, Hm. do 5 (split; [done|]). by eapply Hdate. }
  eexists. split.
  - unfold KvdbApi.validateDecryptAndConvertEntryDataToEntry. unfold_st. cbn in Hva. rewrite Hva. by rewrite Hop.
  - cbn. by rewrite Hke.
Qed.

Lemma retried {A} from_server code id (request : ModuleKeys -> ST W A) w keys w0 w1 newest w2 :
  getModuleKeys from_server keyCache set_keyCache id None None w = (Ret keys, w0) ->
  request keys w0 = (Throw (ServerError code), w1) ->
  getNewModuleKeysAndUpdateCache from_server keyCache set_keyCache id w1 = (Ret newest, w2) ->
  with_newest_keys from_server code id request w = request newest w2.
Proof.
  intros Hk Hr Hn. unfold with_newest_keys, try_catch. run_step. rewrite Hr, bool_decide_eq_true_2 by done. by run_step.
Qed.

(** The KVDB as the server has it now, and its keys. *)
Record current (kvdbId : bytes) (kvdb : KvdbInfo) (newest : ModuleKeys) : Prop := {
  cu_get w : exists w', kvdbGet kvdbId None w = (Ret kvdb, w');
  cu_integrity : KvdbApi.assertKvdbDataIntegrity kvdb = Ret tt;
  cu_keys : KvdbApi.kvdbToModuleKeys kvdb = Ret newest;
}.

(** C11: a writer is not stopped by a key that was rotated away: if the module
    remembers keys whose current key is not the KVDB's any more, and the server
    refuses requests under any but the current key, setting an entry makes a
    second request under the key the KVDB has now, which every holder of that key
    reads if it is stored, and ends with the server's answer to it; so it returns
    if the server takes what comes under its current key.  The keys of the
    server's answer were remembered before it. *)
Theorem stale_key_recovers uv kvdbId key publicMeta privateMeta data version stale kvdb newest ek0 ek w :
  connected (W := W) me bridge contextId ->
  ContainerKeyCache.getKeys kvdbId None None (keyCache w) = Some stale ->
  ContainerKeyCache.contextId stale = contextId ->
  shares (convertContainerKeyCacheModuleKeysToModuleApiFormat stale) priv ek0 -> zlen ek0 = 32 ->
  current kvdbId kvdb newest -> mk_contextId newest = contextId -> shares newest priv ek -> zlen ek = 32 ->
  ContainerKeyCache.currentKeyId stale <> mk_currentKeyId newest ->
  (forall model w', es_keyId model <> mk_currentKeyId newest ->
     kvdbEntrySet model w' = (Throw (ServerError INVALID_KEY_ID), w')) ->
  DataEncryptorV4.small privateMeta -> DataEncryptorV4.small data ->
  (forall l, uv l = Ret ((fun _ => true) <$> l)) ->
  exists w1 w2, keyCache w2 = ContainerKeyCache.set kvdbId
      (convertModuleKeysToContainerKeyCacheFormat newest (ki_version kvdb)) false (keyCache w1)
    /\ KvdbApi.setEntry priv uv bridge kvdbId key publicMeta privateMeta data version w
       = KvdbApi.setEntryRequest priv uv bridge kvdbId key publicMeta privateMeta data version newest w2
    /\ entry_sent newest ek kvdbId key publicMeta privateMeta data version
         (KvdbApi.setEntry priv uv bridge kvdbId key publicMeta privateMeta data version w)
    /\ ((forall model w', es_kvdbId model = kvdbId -> es_keyId model = mk_currentKeyId newest ->
           (kvdbEntrySet model w').1 = Ret tt) ->
        (KvdbApi.setEntry priv uv bridge kvdbId key publicMeta privateMeta data version w).1 = Ret tt).
Proof.
  intros Hc Hca Hsx Hsh0 Hl0 [Hget Hint Hkeys] Hnx Hsh Hl Hne Hrefuse Hp Hd Hu.
  destruct (entry_request uv kvdbId key publicMeta privateMeta data version
    (convertContainerKeyCacheModuleKeysToModuleApiFormat stale) ek0 w Hc Hsx Hl0 Hp Hd Hsh0 Hu)
    as (model0 & w1 & Hr0 & _ & _ & _ & Hid & _).
  rewrite (Hrefuse model0 w1) in Hr0 by (rewrite Hid; exact Hne).
  destruct (Hget w1) as [w2 Hg2].
  set (w3 := set_keyCache (ContainerKeyCache.set kvdbId
    (convertModuleKeysToContainerKeyCacheFormat newest (ki_version kvdb)) false (keyCache w2)) w2).
  assert (KvdbApi.setEntry priv uv bridge kvdbId key publicMeta privateMeta data version w
    = KvdbApi.setEntryRequest priv uv bridge kvdbId key publicMeta privateMeta data version newest w3) as Heq.
  { eapply retried.
    - unfold getModuleKeys. unfold_st. rewrite Hca. reflexivity.
    - exact Hr0.
    - unfold getNewModuleKeysAndUpdateCache, KvdbApi.getModuleKeysAndVersionFromServer,
        ModuleApi.getModuleKeysAndVersionFromServer. cbn [server_get kvdb_containers].
      unfold KvdbApi.assertKvdbDataIntegrity, KvdbApi.kvdbToModuleKeys in Hint, Hkeys.
      unfold_st. rewrite Hg2. cbn. rewrite Hint. cbn. rewrite Hkeys. reflexivity. }
  exists w2, w3. split; [apply keyCache_set|]. split; [exact Heq|]. rewrite Heq.
  pose proof (entry_request uv kvdbId key publicMeta privateMeta data version newest ek w3 Hc Hnx Hl Hp Hd Hsh Hu) as Hsent.
  split; [exact Hsent|]. intros Htakes. destruct Hsent as (model & w' & Hr & Hmv & _ & _ & Hmk & _). rewrite Hr. by apply Htakes.
Qed.
End Flow.
