(* ===== verification/ThreadExamples.v ===== *)
(** * A thread from its creation to its members

    A world with one server and one thread, in which the theorems about
    containers are used. *)

From Stdlib Require Import ZArith Lia Strings.String Strings.Byte.
From stdpp Require Import base list gmap fin_maps.
From S2P Require Import Prelude Bytes CoreTypes Crypto CryptoSuite Dynamic Encryptors Dio FieldData EncKeys ContainerData KeyProvider Utils StdMap Users Legacy Policies Containers Items Modules ContainerFlow Threads.
Import ModuleBaseApi ModuleApi ToyKeys.

Module ToyThreads.
#[local] Existing Instances Toy.service Toy.laws ToyEcc.ecc ToyEcc.laws ToyJson.encodings
  ToyJson.encodings_laws ToyCodec.keys ToyCodec.keys_laws dio_codec dio_codec_laws
  key_dynamic map_order key_json key_json_laws key_codec key_codec_laws.

#[local] Existing Instances internal_codec internal_codec_laws.

#[local] Instance v1_codec : JsonCodec ThreadDataV1 := {|
  serialize t := tv1_title t; deserialize d := Ret (mkThreadDataV1 d 0) |}.

Import ModuleDataEncryptorV5.

#[local] Instance module_json : ModuleJson := {|
  mj5_toJSON e := ToyJson.JObject ([(lit "version", ToyJson.JInt (version e));
    (lit "publicMeta", ToyJson.JString (publicMeta e)); (lit "privateMeta", ToyJson.JString (privateMeta e));
    (lit "internalMeta", ToyJson.JString (internalMeta e)); (lit "authorPubKey", ToyJson.JString (authorPubKey e));
    (lit "dio", ToyJson.JString (dio e))]
    ++ match publicMetaObject e with Some v => [(lit "publicMetaObject", v)] | None => [] end);
  mj5_fromJSON v :=
    n ← get_int v (lit "version"); p ← get_string v (lit "publicMeta"); pr ← get_string v (lit "privateMeta");
    i ← get_string v (lit "internalMeta"); a ← get_string v (lit "authorPubKey"); d ← get_string v (lit "dio");
    mret {| version := n; publicMeta := p; publicMetaObject := ToyJson.field v (lit "publicMetaObject");
            privateMeta := pr; internalMeta := i; authorPubKey := a; dio := d |};
  mj4_fromJSON _ := Throw PocoException |}.
#[local] Instance module_json_laws : ModuleJsonLaws.
Proof. split; [done|done|]. by intros [? ? [] ? ? ? ?]. Qed.

#[local] Instance toy_objects : ObjectLaws := Policies.toy_objects.

#[local] Instance threads : ModuleKind ThreadExtra := ThreadApi.ThreadKind (E := ToyEcc.ecc).
#[local] Instance threads_laws : ModuleKindLaws ThreadExtra := ThreadApi.ThreadKindLaws (E := ToyEcc.ecc).

(** The world: a generator, the module's cache, and the server's thread. *)
Record world := mkWorld {
  tw_rng : Z;
  tw_cache : ContainerKeyCache.t;
  tw_thread : option CreateModel;
}.

Definition now : Z := 1700000000000.

#[local] Instance connection : ConnectionWorld world := {|
  getMyUserId _ := mret (lit "me");
  getNowTimestamp := mret now;
  on_rng A m w := let '(r, g) := m (tw_rng w) in (r, mkWorld g (tw_cache w) (tw_thread w));
  generateId := mret (lit "resource");
  keyCache := tw_cache;
  set_keyCache c w := mkWorld (tw_rng w) c (tw_thread w) |}.
#[local] Instance connection_laws : ConnectionLaws world.
Proof. split; [done|]. intros A m w. exists (tw_rng w). cbn. by destruct (m (tw_rng w)). Qed.

(** What the server hands the user [id]. *)
Definition serve (id : bytes) (m : CreateModel) : ThreadInfo := {|
  ct_id := lit "thread"; ct_resourceId := Some (cm_resourceId m); ct_contextId := cm_contextId m;
  ct_createDate := now; ct_creator := lit "me"; ct_lastModificationDate := now; ct_lastModifier := lit "me";
  ct_data := [mkEntry (cm_keyId m) (cm_data m)]; ct_keyId := cm_keyId m; ct_users := cm_users m;
  ct_managers := cm_managers m; ct_keys := entries_for id (cm_keys m); ct_version := 1; ct_type := None;
  ct_policy := cm_policy m; ct_extra := mkThreadExtra 0 0 |}.

#[local] Instance toy_server : ContainerServer ThreadExtra world := {|
  server_create m w := (Ret (lit "thread"), mkWorld (tw_rng w) (tw_cache w) (Some m));
  server_update _ := mret tt;
  server_delete _ := mret tt;
  server_get _ _ := o ← gets tw_thread; m ← lift (opt_value o); mret (serve (lit "me") m);
  server_list _ _ _ := mret ([], 0) |}.

Definition bridge : option BridgeIdentity := Some (mkBridgeIdentity (lit "https://bridge") None None).
Definition joe : UserWithPubKey := {| u_userId := lit "joe"; u_pubKey := toBase58DER (getPublicKey user) |}.
Definition me : UserWithPubKey := {| u_userId := lit "me"; u_pubKey := toBase58DER (getPublicKey sender) |}.
Definition start : world := mkWorld 5 ∅ None.

Lemma toy_connected : connected (W := world) (lit "me") bridge (lit "ctx").
Proof.
  split; [split; try done; by eexists|by eexists|..].
  - intros i k s Hi Hk Hs. cbn -[ToyCodec.of_strings Z.lt Z.pow]. rewrite !ToyCodec.zlen_of_strings, Hi, Hk, Hs. done.
  - intros s r i w [= <-] Hs Hi. unfold DataEncryptorV4.small.
    cbn -[ToyCodec.of_strings Z.lt Z.pow]. rewrite !ToyCodec.zlen_of_strings, Hs, Hi. done.
Qed.

Lemma toy_users : Forall has_key [joe; me].
Proof. repeat constructor; [by exists user|by exists sender]. Qed.

Lemma toy_all_users : EndpointUtils.uniqueListUserWithPubKey [joe] [me] = [joe; me].
Proof. by vm_compute. Qed.

Lemma toy_served model id : served (X := ThreadExtra) (lit "me") model id (serve id model).
Proof. split; [reflexivity..|]. by intros w t [= <-]. Qed.

Lemma container_delivered_witness : exists model w' c,
  ThreadApi.createThread sender bridge (lit "ctx") [joe] [me] (lit "public") (lit "private") None start
    = server_create (X := ThreadExtra) model w'
  /\ ThreadApi.validateDecryptAndConvertThreadDataToThread user verifier (serve (lit "joe") model) = Ret c
  /\ cl_statusCode c = None /\ cl_privateMeta c = lit "private".
Proof.
  destruct (container_delivered (X := ThreadExtra) (lit "me") sender bridge (lit "ctx") [joe] [me]
    (lit "public") (lit "private") ThreadApi.THREAD_TYPE_FILTER_FLAG None start toy_connected) as (model & w' & Hr & Hd).
  - done.
  - rewrite toy_all_users. exact toy_users.
  - rewrite toy_all_users. vm_compute. repeat (constructor; [by rewrite ?elem_of_cons, elem_of_nil; intros ?; intuition congruence|]). constructor.
  - destruct (Hd (lit "joe") user verifier (serve (lit "joe") model)) as (c & Hc & Hs & _ & Hp & _).
    + rewrite toy_all_users. left.
    + by apply toy_served.
    + intros l. reflexivity.
    + exists model, w', c. exact (conj Hr (conj Hc (conj Hs Hp))).
Defined.

(** The world after the creation, and the update that drops joe. *)
Definition created_world : world :=
  (ThreadApi.createThread sender bridge (lit "ctx") [joe] [me] (lit "public") (lit "private") None start).2.
Definition drop_joe : ST world unit :=
  ThreadApi.updateThread sender verifier bridge (lit "thread") [] [me] (lit "public") (lit "new") 1 false false None.

Lemma drop_joe_returns : (drop_joe created_world).1 = Ret tt.
Proof. vm_compute. reflexivity. Qed.

Lemma removed_members_excluded_witness : exists w' key loc fresh, drop_joe created_world = (Ret tt, w')
  /\ (exists g1 g2, KeyProvider.generateKey g1 = (Ret key, g2)) /\ Forall2 (seals_to sender key loc) [me] fresh
  /\ keyCache w' !! lit "thread" = None.
Proof.
  assert (drop_joe created_world = (Ret tt, (drop_joe created_world).2)) as Hr
    by (rewrite <- drop_joe_returns; apply surjective_pairing).
  destruct (removed_members_excluded (X := ThreadExtra) sender verifier bridge _ _ _ _ _ _ _ _ _ _ _ Hr)
    as (current & model & rid & all & keys & key & fresh & older & w1 & w2 & w3 & Hg & _ & (_ & _ & _ & Hn & _) & _ & _ & Hc).
  destruct Hn as [Hk Hf].
  { right. exists (lit "joe"). assert (current = match (server_get (X := ThreadExtra) (lit "thread") None created_world).1 with
      Ret c => c | Throw _ => current end) as -> by (by rewrite Hg). vm_compute. split; [left; left|].
    by intros [?|?%not_elem_of_nil]%elem_of_cons. }
  exists (drop_joe created_world).2, key, (mkLocation (ct_contextId current) rid), fresh.
  exact (conj Hr (conj Hk (conj Hf Hc))).
Defined.
End ToyThreads.
