(* ===== verification/MessageExamples.v ===== *)
(** * A message between two members

    The world of [ThreadExamples] with a key both members hold, and messages
    sent under it. *)

From Stdlib Require Import ZArith Lia Strings.String Strings.Byte.
From stdpp Require Import base list gmap fin_maps.
From S2P Require Import Prelude Bytes CoreTypes Crypto CryptoSuite Dynamic Encryptors Dio FieldData EncKeys ContentData ContainerData KeyProvider Utils StdMap Users Legacy Policies Containers Items Modules ContainerFlow ContentItems Threads ThreadMessages ContentFlow ThreadExamples.
Import ModuleBaseApi ModuleApi ToyKeys ToyThreads.

Module ToyMessages.
#[local] Existing Instances Toy.service Toy.laws ToyEcc.ecc ToyEcc.laws ToyJson.encodings
  ToyJson.encodings_laws ToyCodec.keys ToyCodec.keys_laws dio_codec dio_codec_laws
  key_dynamic map_order key_json key_json_laws key_codec key_codec_laws
  internal_codec internal_codec_laws v1_codec module_json module_json_laws toy_objects threads connection connection_laws
  toy_server MessageApi.MessageKind MessageApi.MessageContent MessageApi.MessageContentLaws.

#[local] Instance content_json : ContentJson := {|
  cj5_toJSON e := ToyJson.JObject ([(lit "version", ToyJson.JInt (ContentEncryptorV5.version e));
    (lit "publicMeta", ToyJson.JString (ContentEncryptorV5.publicMeta e));
    (lit "privateMeta", ToyJson.JString (ContentEncryptorV5.privateMeta e));
    (lit "data", ToyJson.JString (ContentEncryptorV5.data e));
    (lit "authorPubKey", ToyJson.JString (ContentEncryptorV5.authorPubKey e));
    (lit "dio", ToyJson.JString (ContentEncryptorV5.dio e))]
    ++ match ContentEncryptorV5.publicMetaObject e with Some v => [(lit "publicMetaObject", v)] | None => [] end
    ++ match ContentEncryptorV5.internalMeta e with Some v => [(lit "internalMeta", ToyJson.JString v)] | None => [] end);
  cj5_fromJSON v :=
    n ← get_int v (lit "version"); p ← get_string v (lit "publicMeta"); pr ← get_string v (lit "privateMeta");
    x ← get_string v (lit "data"); a ← get_string v (lit "authorPubKey"); d ← get_string v (lit "dio");
    mret {| ContentEncryptorV5.version := n; ContentEncryptorV5.publicMeta := p;
            ContentEncryptorV5.publicMetaObject := ToyJson.field v (lit "publicMetaObject");
            ContentEncryptorV5.privateMeta := pr; ContentEncryptorV5.data := x;
            ContentEncryptorV5.internalMeta := match get_string v (lit "internalMeta") with Ret m => Some m | Throw _ => None end;
            ContentEncryptorV5.authorPubKey := a; ContentEncryptorV5.dio := d |} |}.
#[local] Instance content_json_laws : ContentJsonLaws.
Proof. split; [done|done|]. by intros [? ? [] ? ? [] ? ?]. Qed.

(** Structures 2 to 4 do not occur here. *)
#[local] Instance message_json : MessageJson := {|
  message4_toJSON _ := ToyJson.JObject []; message4_fromJSON _ := Throw PocoException |}.
#[local] Instance v2_codec : JsonCodec MessageDataV2 := {| serialize _ := []; deserialize _ := Throw PocoException |}.
#[local] Instance v3_codec : JsonCodec MessageDataV3 := {| serialize _ := []; deserialize _ := Throw PocoException |}.

#[local] Instance message_server : MessageServer world := {|
  threadMessageSend _ := mret (lit "message");
  threadMessageUpdate _ := mret tt;
  threadMessageDelete _ := mret tt;
  threadMessageGet _ := throw (ServerError 0x600D);
  threadMessagesGet _ _ := throw (ServerError 0x6001) |}.

(** A key both members hold, and each one's module keys. *)
Definition shared_key : EncKey := mkEncKey (lit "0123456789abcdef0123456789abcdef") (ek_key key).

Definition keys_under (shared : EncKey) (u : @PrivateKey _ ToyEcc.ecc) : ModuleKeys := {|
  mk_keys := match KeyProvider.createKeyEntrySet sender {| u_userId := lit "x"; u_pubKey := toBase58DER (getPublicKey u) |}
                     shared (Dio.dio toy_dio) location secret 5 with
             | (Ret s, _) => [entry_of s] | _ => [] end;
  mk_currentKeyId := ek_id shared; mk_moduleSchemaVersion := 5;
  mk_moduleResourceId := loc_resourceId location; mk_contextId := loc_contextId location |}.
Definition keys_of (u : @PrivateKey _ ToyEcc.ecc) : ModuleKeys := keys_under shared_key u.

Lemma toy_sharable shared : ek_id shared <> [] -> zlen (ek_id shared) = 32 -> zlen (ek_key shared) = 32 ->
  KeyProvider.distributable sender shared (Dio.dio toy_dio) location secret.
Proof.
  intros Hi Hli Hk. split; [done..|]. intros r Hr. split; try done.
  - cbn. intros Hn. by rewrite Hn in Hk.
  - cbn -[ToyCodec.of_strings Z.lt Z.pow]. rewrite !ToyCodec.zlen_of_strings, Hr, Hli, Hk. vm_compute. done.
Qed.

Lemma keys_shared shared u : KeyProvider.distributable sender shared (Dio.dio toy_dio) location secret ->
  shares (keys_under shared u) u (ek_key shared).
Proof.
  intros Hdist.
  destruct (KeyProvider.entry_opens sender u shared (Dio.dio toy_dio) location secret (lit "x") 5 Hdist)
    as (e & g' & k & He & _ & Hi & Hd & Hdio & Hc & Hs & Hid & Hk & _).
  unfold keys_under. rewrite He. exists (entry_of e), k. cbn [mk_keys mk_currentKeyId mk_contextId mk_moduleResourceId].
  rewrite Hdio. split; [|split; [apply Hd|by repeat split]].
  cbn [List.find entry_of kn_keyId]. by rewrite bool_decide_eq_true_2.
Qed.

Lemma shared_distributable : KeyProvider.distributable sender shared_key (Dio.dio toy_dio) location secret.
Proof. by apply toy_sharable. Qed.

(** The message the server serves for what was sent. *)
Definition serve_message (m : MessageSendModel) : ServerMessage := {|
  sm_id := lit "message"; sm_resourceId := ms_resourceId m; sm_version := 1; sm_contextId := lit "ctx";
  sm_threadId := ms_threadId m; sm_createDate := now; sm_author := lit "me"; sm_data := ms_data m;
  sm_keyId := ms_keyId m; sm_updates := [] |}.

Lemma toy_posted m : posted (W := world) (lit "me") (lit "ctx") m (serve_message m).
Proof. split; [reflexivity..|]. by intros w t [= <-]. Qed.

Lemma message_delivered_witness : exists model w' m,
  MessageApi.sendMessageRequest sender verifier bridge (lit "thread") (lit "public") (lit "private") (lit "hello")
    (keys_of sender) start = threadMessageSend model w'
  /\ MessageApi.validateDecryptAndConvertMessageDataToMessage user verifier (serve_message model) (keys_of user) = Ret m
  /\ m_statusCode m = None /\ m_data m = lit "hello".
Proof.
  destruct (message_delivered (W := world) (lit "me") sender bridge (lit "ctx") verifier (lit "thread") (lit "public")
    (lit "private") (lit "hello") (keys_of sender) (ek_key shared_key) start toy_connected) as (model & w' & Hr & _ & Hk & Hd).
  1-4: done.
  - apply (keys_shared shared_key), shared_distributable.
  - intros l. reflexivity.
  - destruct (Hd (serve_message model) user (keys_of user) verifier (toy_posted model)) as (m & Hm & Hs & _ & _ & Hda & _).
    + cbn [serve_message sm_keyId]. rewrite Hk. vm_compute. reflexivity.
    + apply (keys_shared shared_key), shared_distributable.
    + cbn [mk_currentKeyId keys_of keys_under]. reflexivity.
    + cbn [mk_contextId keys_of keys_under]. reflexivity.
    + cbn [mk_moduleResourceId keys_of keys_under]. reflexivity.
    + intros l. reflexivity.
    + exists model, w', m. exact (conj Hr (conj Hm (conj Hs Hda))).
Defined.

(** What the toy sender sends, and the message the server serves for it. *)
Definition sent : MessageSendModel := mkSendModel (lit "resource") (lit "thread")
  (match (MessageApi.encryptMessageData sender verifier bridge (lit "thread") (lit "resource") (lit "public")
            (lit "private") (lit "hello") (keys_of sender) start).1 with Ret v => v | Throw _ => ToyJson.JInt 0 end)
  (ek_id shared_key).

(** A message of no known structure, under the same key. *)
Definition unreadable : ServerMessage := {|
  sm_id := lit "bad"; sm_resourceId := lit "resource"; sm_version := 1; sm_contextId := lit "ctx";
  sm_threadId := lit "thread"; sm_createDate := now; sm_author := lit "me"; sm_data := ToyJson.JInt 0;
  sm_keyId := ek_id shared_key; sm_updates := [] |}.

Definition list_messages (l : list ServerMessage) : outcome (list Message) :=
  MessageApi.validateDecryptAndConvertMessagesDataToMessages user verifier l (keys_of user).

Definition listed : Message :=
  mkMessage (lit "thread") (lit "message") now (lit "me") (lit "public") (lit "private") (lit "hello")
    (toBase58DER (getPublicKey sender)) None 5.

Lemma lists_alone : list_messages [serve_message sent] = Ret [listed].
Proof. vm_compute. reflexivity. Qed.

Lemma messages_listed_witness : exists keyMap : KeyProvider.key_map, is_Some (keyMap !! ek_id shared_key)
  /\ list_messages [serve_message sent] = Ret [listed].
Proof.
  destruct (MessageApi.messages_listed user verifier _ (keys_of user) _ lists_alone) as [keyMap HF].
  destruct (Forall2_cons_1 _ _ _ _ _ HF) as [Hm _]. destruct (Hm eq_refl) as (_ & _ & _ & k & _ & _ & Hk & _).
  exists keyMap. exact (conj (ex_intro _ k Hk) lists_alone).
Defined.

Lemma unreadable_fails :
  MessageApi.validateMessageDataIntegrity unreadable (mk_moduleResourceId (keys_of user)) = Ret (Some UnknowMessageFormatException).
Proof. vm_compute. reflexivity. Qed.

Lemma unreadable_key : sm_keyId unreadable = sm_keyId (serve_message sent).
Proof. cbn [sm_keyId serve_message ms_keyId sent unreadable]. reflexivity. Qed.

Lemma messages_misaligned_witness : list_messages [unreadable; serve_message sent] = Throw UndefinedBehaviour.
Proof.
  exact (MessageApi.messages_misaligned user verifier unreadable (serve_message sent) (keys_of user)
    UnknowMessageFormatException listed unreadable_key unreadable_fails lists_alone eq_refl).
Defined.

(** A message the toy user opens. *)
Lemma toy_message : exists message m,
  MessageApi.validateDecryptAndConvertMessageDataToMessage user verifier message (keys_of user) = Ret m
  /\ m_statusCode m = None /\ m_schemaVersion m = MessageDataSchema.VERSION_5.
Proof.
  destruct (message_reaches (W := world) (lit "me") sender bridge (lit "ctx") verifier (lit "thread") (lit "public")
    (lit "private") (lit "hello") (keys_of sender) (ek_key shared_key) start toy_connected) as (model & w' & _ & _ & Hk & Hd).
  1-4: done.
  - apply (keys_shared shared_key), shared_distributable.
  - intros l. reflexivity.
  - destruct (Hd (serve_message model) user (keys_of user) verifier (toy_posted model)) as (m & Hm & Hs & _ & _ & _ & H5 & _).
    + cbn [serve_message sm_keyId]. rewrite Hk. vm_compute. reflexivity.
    + apply (keys_shared shared_key), shared_distributable.
    + cbn [mk_currentKeyId keys_of keys_under]. reflexivity.
    + cbn [mk_contextId keys_of keys_under]. reflexivity.
    + cbn [mk_moduleResourceId keys_of keys_under]. reflexivity.
    + intros l. reflexivity.
    + exists (serve_message model), m. exact (conj Hm (conj Hs H5)).
Qed.

End ToyMessages.
