(* ===== verification/KvdbExamples.v ===== *)
(** * A KVDB whose key was rotated

    The world of [ThreadExamples] with one KVDB, whose server knows one key and
    whose client remembers an older one. *)

From Stdlib Require Import ZArith Lia Strings.String Strings.Byte.
From stdpp Require Import base list gmap fin_maps.
From S2P Require Import Prelude Bytes CoreTypes Crypto CryptoSuite Dynamic Encryptors Dio FieldData EncKeys ContentData ContainerData KeyProvider Utils StdMap Users Legacy Policies Containers Items Modules ContainerFlow ContentItems Kvdbs Threads ThreadMessages ContentFlow KvdbFlow ThreadExamples MessageExamples.
Import ModuleBaseApi ModuleApi ToyKeys ToyThreads ToyMessages.

Module ToyKvdbs.
#[local] Existing Instances Toy.service Toy.laws ToyEcc.ecc ToyEcc.laws ToyJson.encodings
  ToyJson.encodings_laws ToyCodec.keys ToyCodec.keys_laws dio_codec dio_codec_laws
  key_dynamic map_order key_json key_json_laws key_codec key_codec_laws
  internal_codec internal_codec_laws module_json module_json_laws toy_objects connection connection_laws
  content_json content_json_laws KvdbApi.KvdbKind KvdbApi.EntryKind KvdbApi.EntryContent KvdbApi.EntryContentLaws.

Definition old_key : EncKey := mkEncKey (lit "fedcba9876543210fedcba9876543210") (ek_key key).

Definition kvdb_value : Var :=
  match ModuleDataEncryptorV5.encrypt (metadata (lit "public") (lit "private") secret (loc_resourceId location)
          (my_dio (lit "me") sender bridge (lit "ctx") None None (loc_resourceId location) now (lit "aa")))
        sender (ek_key shared_key) 5 with
  | (Ret d, _) => mj5_toJSON d | _ => ToyJson.JInt 0 end.

Definition kvdb : KvdbInfo := {|
  ki_id := lit "kvdb"; ki_resourceId := loc_resourceId location; ki_contextId := lit "ctx"; ki_createDate := now;
  ki_creator := lit "me"; ki_lastModificationDate := now; ki_lastModifier := lit "me";
  ki_data := [mkEntry (ek_id shared_key) kvdb_value]; ki_keyId := ek_id shared_key; ki_users := [lit "joe"];
  ki_managers := [lit "me"]; ki_keys := mk_keys (keys_of sender); ki_version := 2; ki_type := None; ki_policy := None;
  ki_entries := 0; ki_lastEntryDate := 0 |}.

#[local] Instance kvdb_server : KvdbServer world := {|
  kvdbCreate _ := mret (lit "kvdb");
  kvdbUpdate _ := mret tt;
  kvdbDelete _ := mret tt;
  kvdbGet _ _ := mret kvdb;
  kvdbList _ _ _ := mret ([kvdb], 1);
  kvdbEntryGet _ _ := throw (ServerError KVDB_ENTRY_DOES_NOT_EXIST);
  kvdbEntrySet m := throw_if (bool_decide (es_keyId m <> ki_keyId kvdb)) (ServerError INVALID_KEY_ID);
  kvdbEntryDelete _ _ := mret tt;
  kvdbEntryDeleteMany _ _ := mret [];
  kvdbListKeys _ _ := mret ([], 0);
  kvdbListEntries _ _ := mret (kvdb, [], 0) |}.

(** What the client remembers: the first version, under the old key. *)
Definition stale : ContainerKeyCache.CachedModuleKeys :=
  convertModuleKeysToContainerKeyCacheFormat (keys_under old_key sender) 1.
Definition behind : world := mkWorld 5 {[ lit "kvdb" := stale ]} None.

Definition store (w : world) : outcome unit * world :=
  KvdbApi.setEntry sender verifier bridge (lit "kvdb") (lit "name") (lit "public") (lit "private") (lit "hello") 0 w.

Lemma kvdb_version : KvdbApi.getKvdbDataEntryStructureVersion kvdb_value = Ret 5.
Proof. vm_compute. reflexivity. Qed.

Lemma kvdb_integrity : KvdbApi.assertKvdbDataIntegrity kvdb = Ret tt.
Proof. vm_compute. reflexivity. Qed.

Lemma kvdb_keys : KvdbApi.kvdbToModuleKeys kvdb = Ret (keys_of sender).
Proof.
  unfold KvdbApi.kvdbToModuleKeys, moduleToModuleKeys, last_entry. cbn [ct_data info_of ki_data kvdb last]. unfold_st.
  cbn [en_data entry_version KvdbApi.KvdbKind]. rewrite kvdb_version. reflexivity.
Qed.

Lemma kvdb_current : current (W := world) (lit "kvdb") kvdb (keys_of sender).
Proof. split; [intros w; exists w; reflexivity|exact kvdb_integrity|exact kvdb_keys]. Qed.

Lemma behind_remembers : ContainerKeyCache.getKeys (lit "kvdb") None None (keyCache behind) = Some stale.
Proof.
  unfold ContainerKeyCache.getKeys. cbn [keyCache connection].
  assert (tw_cache behind !! lit "kvdb" = Some stale) as -> by apply (lookup_singleton_eq (M := gmap bytes)). reflexivity.
Qed.

(** The parts of the keys, without their entries. *)
Lemma keys_parts shared u : mk_currentKeyId (keys_under shared u) = ek_id shared
  /\ mk_contextId (keys_under shared u) = lit "ctx" /\ mk_moduleResourceId (keys_under shared u) = loc_resourceId location.
Proof. by repeat split. Qed.

Lemma keys_agree : mk_currentKeyId (keys_of user) = mk_currentKeyId (keys_of sender)
  /\ mk_moduleResourceId (keys_of user) = mk_moduleResourceId (keys_of sender).
Proof.
  destruct (keys_parts shared_key user) as (K1 & _ & K3). destruct (keys_parts shared_key sender) as (K1' & _ & K3').
  exact (conj (eq_trans K1 (eq_sym K1')) (eq_trans K3 (eq_sym K3'))).
Qed.

Lemma keys_differ : ContainerKeyCache.currentKeyId stale <> mk_currentKeyId (keys_of sender).
Proof.
  intros Hn. apply (eq_trans (eq_sym (proj1 (keys_parts old_key sender)))) in Hn.
  apply (fun Hm => eq_trans Hm (proj1 (keys_parts shared_key sender))) in Hn. discriminate.
Qed.

Definition serve_entry (m : KvdbEntrySetModel) : KvdbEntryInfo := {|
  ke_kvdbEntryKey := es_kvdbEntryKey m; ke_kvdbEntryValue := es_kvdbEntryValue m; ke_kvdbId := es_kvdbId m;
  ke_version := 1; ke_contextId := lit "ctx"; ke_createDate := 5; ke_author := lit "joe"; ke_keyId := es_keyId m;
  ke_lastModificationDate := now; ke_lastModifier := lit "me" |}.

Lemma toy_stored m : stored (W := world) (lit "me") (lit "ctx") m (serve_entry m).
Proof. split; [reflexivity..|]. by intros w t [= <-]. Qed.

(** The entry as stored by the repeated request, and as the user reads it. *)
Lemma stale_key_recovers_witness : exists model w' e, store behind = kvdbEntrySet model w' /\ (store behind).1 = Ret tt
  /\ es_keyId model = ek_id shared_key
  /\ KvdbApi.validateDecryptAndConvertEntryDataToEntry user verifier (serve_entry model) (keys_of user) = Ret e
  /\ e_statusCode e = None /\ e_data e = lit "hello".
Proof.
  destruct (stale_key_recovers (W := world) (lit "me") sender bridge (lit "ctx") verifier (lit "kvdb") (lit "name")
    (lit "public") (lit "private") (lit "hello") 0 stale kvdb (keys_of sender) (ek_key old_key) (ek_key shared_key) behind)
    as (w1 & w2 & _ & _ & (model & w' & Hr & _ & _ & _ & Hk & Hd) & Hok).
  - exact toy_connected.
  - exact behind_remembers.
  - exact (proj1 (proj2 (keys_parts old_key sender))).
  - apply (keys_shared old_key), toy_sharable; [discriminate|reflexivity|reflexivity].
  - reflexivity.
  - exact kvdb_current.
  - exact (proj1 (proj2 (keys_parts shared_key sender))).
  - apply (keys_shared shared_key), shared_distributable.
  - reflexivity.
  - exact keys_differ.
  - intros m w Hm. cbn [kvdbEntrySet kvdb_server]. unfold throw_if. rewrite bool_decide_eq_true_2 by exact Hm. reflexivity.
  - reflexivity.
  - reflexivity.
  - intros l. reflexivity.
  - destruct (Hd (serve_entry model) user (keys_of user) verifier (toy_stored model)) as (e & He & Hs & _ & _ & _ & Hda & _).
    + apply (keys_shared shared_key), shared_distributable.
    + exact (proj1 keys_agree).
    + exact (proj1 (proj2 (keys_parts shared_key user))).
    + exact (proj2 keys_agree).
    + intros l. reflexivity.
    + exists model, w', e. refine (conj Hr (conj (Hok _) (conj Hk (conj He (conj Hs Hda))))).
      intros m w _ Hm. cbn [kvdbEntrySet kvdb_server]. unfold throw_if.
      rewrite bool_decide_eq_false_2; [reflexivity|]. intros Hn. exact (Hn (eq_trans Hm (proj1 (keys_parts shared_key sender)))).
Defined.

(** A stored entry, and its reader's result. *)
Lemma toy_entry : exists entry e,
  KvdbApi.validateDecryptAndConvertEntryDataToEntry user verifier entry (keys_of user) = Ret e
  /\ e_statusCode e = None.
Proof.
  destruct (entry_request (W := world) (lit "me") sender bridge (lit "ctx") verifier (lit "kvdb") (lit "name") (lit "public")
    (lit "private") (lit "hello") 0 (keys_of sender) (ek_key shared_key) behind toy_connected)
    as (model & w' & _ & _ & _ & _ & Hk & Hd).
  - exact (proj1 (proj2 (keys_parts shared_key sender))).
  - reflexivity.
  - reflexivity.
  - reflexivity.
  - apply (keys_shared shared_key), shared_distributable.
  - intros l. reflexivity.
  - destruct (Hd (serve_entry model) user (keys_of user) verifier (toy_stored model)) as (e & He & Hs & _).
    + apply (keys_shared shared_key), shared_distributable.
    + exact (proj1 keys_agree).
    + exact (proj1 (proj2 (keys_parts shared_key user))).
    + exact (proj2 keys_agree).
    + intros l. reflexivity.
    + exists (serve_entry model), e. exact (conj He Hs).
Qed.

End ToyKvdbs.
