(* ===== verification/StoreFileExamples.v ===== *)
(** * A file between two members

    The world of [ThreadExamples] with one store, whose key two members hold, and
    a file that one of them uploads to the toy server of [Upload] and the other
    reads from that of [StoreServer]. *)

From Stdlib Require Import ZArith Lia Strings.String Strings.Byte.
From stdpp Require Import base list gmap fin_maps.
From S2P Require Import Prelude Bytes ExceptionCodes CoreTypes Crypto CryptoSuite ChunkCrypto HmacList Dynamic Encryptors Dio FieldData FileMetaData EncKeys ContainerData KeyProvider StoreServer ChunkProvider ChunkReader FileHandler FileIO FileHandle Upload Utils StdMap Handles Users Legacy Policies Containers Items Modules ContainerFlow ContentItems Stores Files StoreFiles StoreFlow Threads ThreadMessages ContentFlow ThreadExamples MessageExamples.
Import Dynamic ModuleBaseApi ModuleApi StoreApi FileApi FilesApi ToyKeys ToyThreads ToyMessages.

Module ToyStores.
#[local] Existing Instances Toy.service Toy.laws ToyEcc.ecc ToyEcc.laws ToyJson.encodings
  ToyJson.encodings_laws ToyCodec.keys ToyCodec.keys_laws dio_codec dio_codec_laws
  key_dynamic map_order key_json key_json_laws key_codec key_codec_laws
  internal_codec internal_codec_laws module_json module_json_laws toy_objects connection connection_laws
  StoreKind StoreKindLaws ToyServer.server ToyServer.laws ToyUpload.api ToyUpload.api_laws.

(** Structure 1 does not occur here. *)
#[local] Instance store_codec : JsonCodec StoreData := {| serialize _ := []; deserialize _ := Throw PocoException |}.
#[local] Instance v1_file_codec : JsonCodec StoreFileMeta := {| serialize _ := []; deserialize _ := Throw PocoException |}.

(** Numbers as the toy codec's texts. *)
Definition of_z (n : Z) : bytes := ToyCodec.of_positive (encode n).
Definition to_z (d : bytes) : outcome Z := match decode (ToyCodec.to_positive d) with Some n => Ret n | None => Throw PocoException end.

Lemma z_inv n : to_z (of_z n) = Ret n.
Proof. unfold to_z, of_z. by rewrite ToyCodec.positive_inv, decode_encode. Qed.

Definition of_flag (b : option bool) : bytes := match b with None => [] | Some false => [x00] | Some true => [x01] end.
Definition to_flag (d : bytes) : option bool := match d with [] => None | x00 :: _ => Some false | _ => Some true end.

#[local] Instance internal_file_codec : JsonCodec InternalStoreFileMeta := {|
  serialize m := ToyCodec.of_strings [of_z (im_version m); of_z (im_size m); of_z (im_cipherType m); of_z (im_chunkSize m);
    im_key m; im_hmac m; of_flag (im_randomWrite m)];
  deserialize d := match ToyCodec.to_strings d [] with
    | [v; s; c; k; key; hmac; r] =>
        v ← to_z v; s ← to_z s; c ← to_z c; k ← to_z k; mret (mkInternalMeta v s c k key hmac (to_flag r))
    | _ => Throw PocoException end |}.
#[local] Instance internal_file_codec_laws : JsonCodecLaws InternalStoreFileMeta.
Proof.
  split. intros [v s c k key hmac r]. cbn [serialize deserialize internal_file_codec]. rewrite ToyCodec.strings_inv. unfold_st.
  cbn [im_version im_size im_cipherType im_chunkSize im_key im_hmac im_randomWrite]. rewrite !z_inv.
  by destruct r as [[]|].
Qed.

Import FileMetaEncryptorV5.
#[local] Instance file_json : FileJson := {|
  file4_toJSON _ := ToyJson.JObject []; file4_fromJSON _ := Throw PocoException;
  file5_toJSON e := ToyJson.JObject ([(lit "version", ToyJson.JInt (version e));
    (lit "publicMeta", ToyJson.JString (publicMeta e)); (lit "privateMeta", ToyJson.JString (privateMeta e));
    (lit "authorPubKey", ToyJson.JString (authorPubKey e)); (lit "dio", ToyJson.JString (dio e))]
    ++ match publicMetaObject e with Some v => [(lit "publicMetaObject", v)] | None => [] end
    ++ match internalMeta e with Some v => [(lit "internalMeta", ToyJson.JString v)] | None => [] end);
  file5_fromJSON v :=
    n ← get_int v (lit "version"); p ← get_string v (lit "publicMeta"); pr ← get_string v (lit "privateMeta");
    a ← get_string v (lit "authorPubKey"); d ← get_string v (lit "dio");
    mret {| version := n; publicMeta := p; publicMetaObject := ToyJson.field v (lit "publicMetaObject");
            privateMeta := pr; internalMeta := match get_string v (lit "internalMeta") with Ret m => Some m | Throw _ => None end;
            authorPubKey := a; dio := d |} |}.
#[local] Instance file_json_laws : FileJsonLaws.
Proof. split; [done|done|]. by intros [? ? [] ? [] ? ?]. Qed.

(** The store as the server hands it to the holder of a private key. *)
Definition store_value : Var :=
  match ModuleDataEncryptorV5.encrypt (metadata (lit "public") (lit "private") secret (loc_resourceId location)
          (my_dio (lit "me") sender bridge (lit "ctx") None None (loc_resourceId location) now (lit "aa")))
        sender (ek_key shared_key) 5 with
  | (Ret d, _) => mj5_toJSON d | _ => ToyJson.JInt 0 end.

Definition store_for (u : @PrivateKey _ ToyEcc.ecc) : StoreInfo := {|
  ct_id := lit "store"; ct_resourceId := Some (loc_resourceId location); ct_contextId := lit "ctx"; ct_createDate := now;
  ct_creator := lit "me"; ct_lastModificationDate := now; ct_lastModifier := lit "me";
  ct_data := [mkEntry (ek_id shared_key) store_value]; ct_keyId := ek_id shared_key; ct_users := [lit "joe"];
  ct_managers := [lit "me"]; ct_keys := mk_keys (keys_of u); ct_version := 1; ct_type := None; ct_policy := None;
  ct_extra := mkStoreExtra 0 1 |}.

Lemma store_version : getStoreEntryDataStructureVersion store_value = Ret 5.
Proof. vm_compute. reflexivity. Qed.

Lemma store_keys u : storeToModuleKeys (store_for u) = Ret (keys_of u).
Proof.
  unfold storeToModuleKeys, moduleToModuleKeys, last_entry. cbn [ct_data store_for last]. unfold_st.
  cbn [en_data entry_version StoreKind]. rewrite store_version. reflexivity.
Qed.

(** A server that answers for one file. *)
Definition file_server (answer : StoreInfo * ServerFile) : FileServer world := {|
  storeFileGet _ := mret answer;
  storeFileList _ _ := mret (answer.1, [answer.2], 1);
  storeFileDelete _ := mret tt;
  storeFileCreate _ := mret (lit "file");
  storeFileReplace _ := mret tt;
  storeFileUpdate _ := mret tt |}.

(** The file as it is served after its creation. *)
Definition serve_file (m : StoreFileCreateModel) (size : Z) : ServerFile := {|
  sf_id := lit "file"; sf_resourceId := fc_resourceId m; sf_version := 1; sf_contextId := lit "ctx";
  sf_storeId := fc_storeId m; sf_created := now; sf_creator := lit "me"; sf_lastModificationDate := now;
  sf_lastModifier := lit "me"; sf_meta := fc_meta m; sf_size := size; sf_keyId := fc_keyId m |}.

Lemma toy_created m size : created_file (W := world) (lit "me") (lit "ctx") m (serve_file m size).
Proof. split; [reflexivity..|]. by intros w t [= <-]. Qed.

Definition file_key : bytes := lit "file key".
Definition new_base : FileHandleBase := mkHandleBase 1 (lit "store") [] (lit "resource").
Definition idle : FileServer world :=
  file_server (store_for sender, serve_file (mkFileCreateModel 0 [] [] (ToyJson.JInt 0) [] []) 0).

Lemma toy_describable hmac rw : zlen hmac = 32 -> DataEncryptorV4.small (serialize
  (mkInternalMeta 4 25 1 8 (base64_from file_key) (base64_from hmac) (Some rw))).
Proof.
  intros Hh. unfold DataEncryptorV4.small. cbn -[ToyCodec.of_strings Z.lt Z.pow of_z].
  rewrite !ToyCodec.zlen_of_strings, Hh. by destruct rw.
Qed.

Lemma toy_bounds : upload_bounds 8 25 100.
Proof. by constructor. Qed.

Lemma toy_read_bounds : read_bounds 8 100 25.
Proof. by constructor. Qed.

(** The keys of the two members, in the parts the theorems ask for. *)
Lemma toy_keys u : mk_currentKeyId (keys_of u) = ek_id shared_key /\ mk_contextId (keys_of u) = lit "ctx"
  /\ mk_moduleResourceId (keys_of u) = loc_resourceId location /\ mk_moduleSchemaVersion (keys_of u) = 5.
Proof. by repeat split. Qed.

Lemma toy_shares u : shares (keys_of u) u (ek_key shared_key).
Proof. apply (keys_shared shared_key), shared_distributable. Qed.

Lemma toy_format : FileKeyIdFormatValidator.isKeyIdFormatValid (mk_currentKeyId (keys_of sender)) = true.
Proof. rewrite (proj1 (toy_keys sender)). by vm_compute. Qed.

Lemma toy_accepts l : verifier l = Ret ((fun _ => true) <$> l).
Proof. reflexivity. Qed.

Lemma toy_committed model f sums : served_as (serve_file model (zlen f)) f sums (ToyServer.mkState f sums 1).
Proof. split; reflexivity. Qed.

Lemma toy_eleven : 0 <= 11 < 2 ^ 64.
Proof. split; [discriminate|reflexivity]. Qed.

Lemma file_delivered_witness : exists h2 sent model w' F params h h',
  storeFileFinalizeWriteRequest (FileServer0 := idle) sender verifier bridge new_base (lit "public") (lit "private") h2 sent
    (keys_of sender) start = storeFileCreate (FileServer := idle) model w'
  /\ fc_keyId model = ek_id shared_key
  /\ exists file, validateDecryptAndConvertFileDataToFileInfo [] user verifier file (keys_of user) = Ret F
  /\ f_statusCode F = None /\ f_privateMeta F = lit "private"
  /\ getFileEncryptionParams [] user verifier file (store_for user) = Ret params
  /\ FileReadHandle.read 11 h = (Ret (lit "hello world"), h').
Proof.
  destruct (toy_keys sender) as (K1 & K2 & K3 & K4). destruct (toy_keys user) as (U1 & U2 & U3 & _).
  destruct (file_delivered (W := world) (FileServer0 := idle) (RequestApiLaws0 := ToyUpload.api_laws) (X := ToyServer.server) (lit "me") sender bridge (lit "ctx") [] verifier new_base
    (lit "public") (lit "private") (keys_of sender) (ek_key shared_key) file_key (lit "request") 0 8 100 toy_seed ToyUpload.empty
    toy_pieces start toy_connected K2 eq_refl K4 eq_refl toy_format (toy_shares sender) eq_refl toy_describable toy_accepts
    toy_bounds eq_refl) as (h1 & h2 & sent & f & sums & _ & _ & _ & model & w' & Hr & _ & _ & Hk & Hd).
  destruct (Hd (serve_file model (zlen f)) user verifier (store_for user) (keys_of user) (toy_created model (zlen f))
    (store_keys user) (toy_shares user) (eq_trans U1 (eq_sym K1)) U2 (eq_trans U3 (eq_sym K3)) toy_accepts)
    as (F & params & _ & HF & Hs & _ & Hp & _ & _ & Hpar & Hread).
  destruct (Hread 100 (ToyServer.mkState f sums 1) 11 toy_read_bounds (toy_committed model f sums) toy_eleven) as (h & h' & _ & Hh).
  exists h2, sent, model, w', F, params, h, h'. split; [exact Hr|]. split; [exact (eq_trans Hk K1)|].
  exists (serve_file model (zlen f)). exact (conj HF (conj Hs (conj Hp (conj Hpar Hh)))).
Defined.

(** A file as its reader's [getFile] finds it. *)
Lemma store_integrity u : assertStoreDataIntegrity (store_for u) = Ret tt.
Proof.
  assert (assertStoreDataIntegrity (store_for u) = assertStoreDataIntegrity (store_for sender)) as -> by reflexivity.
  vm_compute. reflexivity.
Qed.

Lemma toy_file : exists file m, file_opens sender (lit "ctx") [] (mk_currentKeyId (keys_of sender))
  (mk_moduleResourceId (keys_of sender)) (ek_key shared_key) (lit "public") (lit "private") m file_key
  (hmacSha256 file_key []) file.
Proof.
  destruct (toy_keys sender) as (K1 & K2 & K3 & K4).
  set (h := new_upload file_key (lit "request") 0 25 8 100 toy_seed ToyUpload.empty).
  set (sent := mkSent 1 file_key (hmacSha256 file_key []) 8 (lit "request")).
  destruct (finalize_request (W := world) (FileServer0 := idle) (lit "me") sender bridge (lit "ctx") [] verifier new_base
    (lit "public") (lit "private") h sent (keys_of sender) (ek_key shared_key) start toy_connected K2 eq_refl K4 eq_refl
    eq_refl (toy_describable _ _ (hmacSha256_len _ _)) (toy_shares sender) toy_accepts)
    as (model & w' & _ & _ & _ & _ & Ho).
  exists (serve_file model 25), (internal_meta h sent). exact (Ho _ (toy_created model 25) toy_format).
Qed.

Lemma toy_get : exists store file F w', (getFile (FileServer0 := file_server (store, file)) user verifier [] (lit "file") start
    = (Ret F, w')) /\ f_statusCode F = None /\ getFileDataStructureVersion file = Ret FileDataSchema.VERSION_5.
Proof.
  destruct toy_file as (file & m & Ho). exists (store_for user), file.
  destruct (toy_keys sender) as (K1 & _ & K3 & _). destruct (toy_keys user) as (U1 & U2 & U3 & _).
  destruct (Ho user verifier (store_for user) (keys_of user) (store_keys user) (toy_shares user) (eq_trans U1 (eq_sym K1)) U2
    (eq_trans U3 (eq_sym K3)) toy_accepts) as (Hver & Hv & Hd & _).
  assert (moduleToModuleKeys (store_for user) = Ret (keys_of user)) as Hk by exact (store_keys user).
  eexists _, _. split; [|split; [|exact Hver]].
  - unfold getFile, remember. unfold_st. cbn [storeFileGet file_server]. unfold_st. rewrite store_integrity.
    unfold_st. rewrite Hk. cbn [setNewModuleKeysInCache modify]. unfold_st. rewrite Hv. unfold_st. rewrite store_keys, Hd. reflexivity.
  - reflexivity.
Qed.

End ToyStores.
