(* ===== verification/InboxExamples.v ===== *)
(** * An inbox and what is sent to it

    A world with one inbox, whose key two members hold, and entries that a
    stranger sends. *)

From Stdlib Require Import ZArith Lia Strings.String Strings.Byte.
From stdpp Require Import base list gmap fin_maps.
From S2P Require Import Prelude Bytes CoreTypes Crypto Base58 CryptoSuite Dynamic Keys Encryptors Dio FieldData FileMetaData EncKeys ContainerData KeyProvider StoreServer ChunkReader FileHandler FileIO FileHandle Upload Utils StdMap Handles Users Legacy Policies Containers Items Modules Validators ContainerFlow ContentItems Threads Stores Files StoreFiles ThreadMessages InboxData InboxEntries Inboxes InboxSend InboxFlow ThreadExamples MessageExamples StoreFileExamples.
Import Dynamic ModuleBaseApi ModuleApi InboxApi InboxSender ToyKeys ToyThreads ToyMessages ToyStores.

Module ToyInboxes.
#[local] Existing Instances Toy.service Toy.laws ToyEcc.ecc ToyEcc.laws ToyNumbers.numbers ToyNumbers.laws ToyJson.encodings
  ToyJson.encodings_laws ToyCodec.keys ToyCodec.keys_laws dio_codec dio_codec_laws
  key_dynamic map_order key_json key_json_laws key_codec key_codec_laws ToyServer.server ToyUpload.api
  file_json v1_file_codec internal_file_codec.

Definition json_object (o : option Var) : list (bytes * Var) :=
  match o with Some v => [(lit "publicMetaObject", v)] | None => [] end.

#[local] Instance inbox_json : InboxJson := {|
  public_toJSON d := ToyJson.JObject ([(lit "version", ToyJson.JInt (public_version d));
    (lit "publicMeta", ToyJson.JString (publicMeta d)); (lit "authorPubKey", ToyJson.JString (public_authorPubKey d));
    (lit "inboxPubKey", ToyJson.JString (inboxPubKey d)); (lit "inboxKeyId", ToyJson.JString (inboxKeyId d))]
    ++ json_object (publicMetaObject d));
  public_fromJSON v :=
    n ← get_int v (lit "version"); p ← get_string v (lit "publicMeta"); a ← get_string v (lit "authorPubKey");
    k ← get_string v (lit "inboxPubKey"); i ← get_string v (lit "inboxKeyId");
    mret {| public_version := n; publicMeta := p; publicMetaObject := ToyJson.field v (lit "publicMetaObject");
            public_authorPubKey := a; inboxPubKey := k; inboxKeyId := i |};
  private5_toJSON d := ToyJson.JObject [(lit "version", ToyJson.JInt (private_version d));
    (lit "privateMeta", ToyJson.JString (privateMeta d)); (lit "internalMeta", ToyJson.JString (internalMeta d));
    (lit "authorPubKey", ToyJson.JString (authorPubKey d)); (lit "dio", ToyJson.JString (dio d))];
  private5_fromJSON v :=
    n ← get_int v (lit "version"); p ← get_string v (lit "privateMeta"); i ← get_string v (lit "internalMeta");
    a ← get_string v (lit "authorPubKey"); d ← get_string v (lit "dio");
    mret {| private_version := n; privateMeta := p; internalMeta := i; authorPubKey := a; dio := d |};
  private4_toJSON _ := ToyJson.JObject []; private4_fromJSON _ := Throw PocoException |}.
#[local] Instance inbox_json_laws : InboxJsonLaws.
Proof. split; try done. - by intros [? ? [] ? ? ?]. - by intros []. Qed.

#[local] Instance internal_inbox_codec : JsonCodec InboxInternalMetaV5 := {|
  serialize m := ToyCodec.of_strings [InboxData.secret m; InboxData.resourceId m; InboxData.randomId m];
  deserialize d := match ToyCodec.to_strings d [] with
    | [s; r; i] => Ret {| InboxData.secret := s; InboxData.resourceId := r; InboxData.randomId := i |}
    | _ => Throw PocoException end |}.
#[local] Instance internal_inbox_codec_laws : JsonCodecLaws InboxInternalMetaV5.
Proof. split. intros []. cbn [serialize deserialize internal_inbox_codec]. by rewrite ToyCodec.strings_inv. Qed.

#[local] Instance message_codec : JsonCodec InboxMessageServer := {|
  serialize m := ToyCodec.of_strings (imsg_message m :: imsg_store m :: of_z (imsg_version m) :: imsg_files m);
  deserialize d := match ToyCodec.to_strings d [] with
    | m :: s :: v :: files => v ← to_z v; mret (mkMessageServer m s files v)
    | _ => Throw PocoException end |}.
#[local] Instance message_codec_laws : JsonCodecLaws InboxMessageServer.
Proof.
  split. intros [m s files v]. cbn [serialize deserialize message_codec]. rewrite ToyCodec.strings_inv. unfold_st.
  cbn [imsg_message imsg_store imsg_files imsg_version]. by rewrite z_inv.
Qed.

(** ** The inbox *)

(** The key made of the inbox's. *)
Definition inbox_key : @PrivateKey _ ToyEcc.ecc := x66.
Definition public_data : InboxPublicData := mkPublicData (lit "write to us") (toBase58DER (getPublicKey inbox_key)) (ek_id shared_key).
Definition inbox_dio : DataIntegrityObject :=
  my_dio (lit "me") sender bridge (lit "ctx") None None (loc_resourceId location) now (lit "aa").
Definition toy_inbox : InboxDataProcessorModel InboxPrivateDataV5 :=
  mkModel _ (lit "store") (lit "thread") (mkFilesConfig 0 10 100 1000)
    (mkPrivateData5 (lit "ours") {| InboxData.secret := secret; InboxData.resourceId := loc_resourceId location;
                                    InboxData.randomId := lit "aa" |} inbox_dio) public_data.

Lemma toy_packable : packable toy_inbox sender (ek_key shared_key).
Proof. by split. Qed.

Lemma inbox_data_roundtrip_witness : exists data g', InboxDataProcessorV5.packForServer toy_inbox sender (ek_key shared_key) 5 = (Ret data, g')
  /\ InboxDataProcessorV5.unpackAll data (ek_key shared_key) = Ret (data_read toy_inbox sender).
Proof.
  destruct (inbox_data_roundtrip toy_inbox sender (ek_key shared_key) 5 toy_packable) as (data & g' & Hp & Hu & _).
  exists data, g'. exact (conj Hp Hu).
Defined.

(** ** A message in the inbox's thread *)
Definition message_of (s : bytes) : ServerMessage := {|
  sm_id := lit "entry"; sm_resourceId := lit "resource"; sm_version := 1; sm_contextId := lit "ctx";
  sm_threadId := lit "thread"; sm_createDate := now; sm_author := lit "<anonymous>";
  sm_data := ToyJson.JString (base64_from (serialize (mkMessageServer s (lit "store") [] 1)));
  sm_keyId := lit "<inbox-inbox>"; sm_updates := [] |}.

Lemma toy_holds : holds (keys_of user) user (ek_id shared_key) (ek_key shared_key).
Proof. apply (toy_shares user). Qed.

Lemma toy_accepted l : verifier l = Ret ((fun _ => true) <$> l).
Proof. done. Qed.

Lemma unreadable_entry_shown_witness : exists s,
  decryptInboxEntry user verifier (message_of s) (keys_of user)
  = Ret (mkInboxEntryResult (mkEntryResult no_public InboxEntries.no_private None) (lit "store") []).
Proof.
  eexists. exact (unreadable_entry_shown (mkEntryPublic (lit "alice") false (ek_id shared_key)) (lit "junk") _ user verifier
    (message_of _) (keys_of user) (lit "store") [] 1 (ek_key shared_key) inbox_key eq_refl eq_refl
    ltac:(discriminate) eq_refl toy_holds eq_refl toy_accepted).
Defined.

Lemma entry_author_forged_witness : exists s r,
  decryptInboxEntry user verifier (message_of s) (keys_of user) = Ret r
  /\ ep_userPubKey (er_publicData (ier_data r)) = lit "alice" /\ er_statusCode (ier_data r) = None.
Proof.
  destruct (entry_author_forged (lit "alice") false (ek_id shared_key) [] (lit "hello") (x2a : @PrivateKey _ ToyEcc.ecc) inbox_key
    ltac:(done) ltac:(done) ltac:(done))
    as (s & _ & Ho).
  destruct (Ho user verifier (message_of s) (keys_of user) (lit "store") [] 1 (ek_key shared_key) eq_refl toy_holds eq_refl
    toy_accepted) as (r & Hr & Ha & _ & Hs).
  exists s, r. exact (conj Hr (conj Ha Hs)).
Defined.

(** ** A stranger's world

    He has no files, and the server keeps what it is sent. *)
Record world := mkWorld {
  iw_rng : Z;
  iw_cache : ContainerKeyCache.t;
  iw_entries : gmap Z InboxHandle;
  iw_sent : list InboxSendModel;
}.

#[local] Instance stranger_connection : ConnectionWorld world := {|
  getMyUserId _ := throw (ServerError 0x6001);
  getNowTimestamp := mret now;
  on_rng A m w := let '(r, g) := m (iw_rng w) in (r, mkWorld g (iw_cache w) (iw_entries w) (iw_sent w));
  generateId := mret (lit "generated");
  keyCache := iw_cache;
  set_keyCache c w := mkWorld (iw_rng w) c (iw_entries w) (iw_sent w) |}.
#[local] Instance stranger_laws : ConnectionLaws world.
Proof. split; [done|]. intros A m w. exists (iw_rng w). cbn. by destruct (m (iw_rng w)). Qed.
#[local] Instance stranger_connections : InboxConnections world :=
  {| inbox_connection := stranger_connection; thread_connection := stranger_connection; store_connection := stranger_connection |}.

(** The public view the server gives. *)
Definition server_of (data : Var) : InboxServer world := {|
  inboxCreate _ := throw (ServerError 0x6001);
  inboxUpdate _ := throw (ServerError 0x6001);
  inboxGet _ _ := throw (ServerError 0x6001);
  inboxGetPublicView i := mret (mkPublicViewRaw i 1 data);
  inboxList _ _ := throw (ServerError 0x6001);
  inboxDelete _ := throw (ServerError 0x6001) |}.

#[local] Instance entry_server : EntryServer world := {|
  inboxSend m w := (Ret tt, mkWorld (iw_rng w) (iw_cache w) (iw_entries w) (m :: iw_sent w));
  storeFileGetMany _ _ _ := mret [] |}.
#[local] Instance no_files : StoreWorld world := {|
  on_files A m := throw (ServerError 0x6001);
  on_uploads A m := throw (ServerError 0x6001);
  _labelPrefix := lit "Inbox";
  handleManager _ := HandleManager.empty;
  set_handleManager _ w := w;
  fileHandles _ := ∅;
  set_fileHandles _ w := w |}.
#[local] Instance entries : InboxHandleWorld world := {|
  inboxHandles := iw_entries;
  set_inboxHandles m w := mkWorld (iw_rng w) (iw_cache w) m (iw_sent w);
  _fileHandlesUsedByInboxHandles _ := [];
  set_fileHandlesUsed _ w := w;
  removed _ := ∅;
  set_removed _ w := w |}.

Definition toy_entry : InboxHandle := mkInboxHandle 1 (lit "inbox") [] (lit "hello") [] None.
Definition stranger : @PrivateKey _ ToyEcc.ecc := x2a.
Definition prepared : world := mkWorld 5 ∅ {[ 1 := toy_entry ]} [].

Lemma toy_running : running (W := world).
Proof. split; intros w; by eexists. Qed.

Lemma toy_fits : entry_fits toy_entry stranger (ek_id shared_key).
Proof. split; [done|]. split; [done|]. intros r Hr. cbn. lia. Qed.

Lemma toy_prepared : inboxHandles prepared !! 1 = Some toy_entry.
Proof. apply lookup_singleton_eq. Qed.

(** The public view as the author packed it, and with a key of the server's. *)
Definition genuine : Var := public_toJSON (pack_public 5 public_data sender).
Definition spy : @PrivateKey _ ToyEcc.ecc := x13.
Definition substituted : Var :=
  public_toJSON (with_entries_key (toBase58DER (getPublicKey spy)) (ek_id shared_key) (pack_public 5 public_data sender)).

Lemma entry_delivered_witness : exists model w' r,
  sendEntry (InboxServer0 := server_of genuine) stranger None 1 prepared = inboxSend model w'
  /\ decryptInboxEntry user verifier (message_of (ism_message model)) (keys_of user) = Ret r
  /\ ep_text (er_privateData (ier_data r)) = lit "hello".
Proof.
  destruct (entry_delivered (InboxServer0 := server_of genuine) stranger None 1 toy_entry (mkPublicViewRaw (lit "inbox") 1 genuine)
    stranger inbox_key prepared prepared toy_prepared eq_refl eq_refl public_data sender (ek_key shared_key) toy_running
    eq_refl eq_refl ltac:(done) eq_refl toy_fits ltac:(done)) as [Hp _].
  destruct (Hp eq_refl) as (model & w' & Hs & _ & _ & Hd).
  destruct (Hd user verifier (message_of (ism_message model)) (keys_of user) (lit "store") [] 1 eq_refl toy_holds toy_accepted)
    as (r & Hr & Ht & _).
  exists model, w', r. exact (conj Hs (conj Hr Ht)).
Defined.

Lemma entries_key_substituted_witness : exists model w',
  sendEntry (InboxServer0 := server_of substituted) stranger None 1 prepared = inboxSend model w'
  /\ opened_by toy_entry stranger spy (ek_id shared_key) model.
Proof.
  destruct (entries_key_substituted (InboxServer0 := server_of substituted) stranger None 1 toy_entry
    (mkPublicViewRaw (lit "inbox") 1 substituted) stranger spy prepared prepared toy_prepared eq_refl eq_refl public_data sender
    (ek_id shared_key) toy_running eq_refl ltac:(done) toy_fits ltac:(done)) as (_ & Hp & _).
  destruct (Hp eq_refl) as (model & w' & Hs & Ho). exists model, w'. exact (conj Hs Ho).
Defined.
End ToyInboxes.
