(* ===== verification/EventExamples.v ===== *)
(** * Examples of events

    A custom event between two users, in a world with a queue and a server that
    keeps what it is sent; and notifications of a thread and of a file, in the
    worlds of the other examples with a queue, of what their servers hold. *)

From Stdlib Require Import ZArith Lia Strings.String Strings.Byte.
From stdpp Require Import base list gmap fin_maps.
From S2P Require Import Prelude Bytes ExceptionCodes CoreTypes Crypto CryptoSuite Utils Dynamic Encryptors Dio FieldData ContentData ContainerData FileMetaData EncKeys KeyProvider ChunkCrypto StoreServer StdMap Subscriptions SubscriberImpls Users EventQueue Legacy Policies Containers Items Modules ContainerFlow CustomEvents EventFlow ContentItems Threads Stores Files StoreFiles StoreFlow ThreadMessages ModuleEvents ThreadEvents StoreEvents ContentFlow ThreadExamples MessageExamples StoreFileExamples.
Import Dynamic ModuleBaseApi ModuleApi ToyKeys ToyThreads ToyMessages.

Module ToyEvents.
Import EventApiImpl.
#[local] Existing Instances Toy.service Toy.laws ToyEcc.ecc ToyEcc.laws ToyJson.encodings
  ToyJson.encodings_laws ToyCodec.keys ToyCodec.keys_laws dio_codec dio_codec_laws
  key_dynamic map_order key_json key_json_laws.

#[local] Instance event_json : EventJson := {|
  raw_event v :=
    i ← get_string v (lit "id"); d ← opt_value (ToyJson.field v (lit "eventData")); k ← get_string v (lit "key");
    a ← get_object v (lit "author"); n ← get_string a (lit "id"); p ← get_string a (lit "pub");
    mret (mkRawEvent i d k (mkUserIdentity n p));
  event5_toJSON e := ToyJson.JObject ([(lit "version", ToyJson.JInt (ee_version e));
    (lit "encryptedData", ToyJson.JString (ee_encryptedData e)); (lit "dio", ToyJson.JString (ee_dio e))]
    ++ match ee_type e with Some t => [(lit "type", ToyJson.JString t)] | None => [] end);
  event5_fromJSON v :=
    n ← get_int v (lit "version"); d ← get_string v (lit "encryptedData"); o ← get_string v (lit "dio");
    t ← (if has v (lit "type") then t ← get_string v (lit "type"); mret (Some t) else mret None);
    mret (mkEncryptedEvent n d t o) |}.
#[local] Instance event_json_laws : EventJsonLaws.
Proof. split; [done|]. by intros [? ? [] ?]. Qed.

Record event_world := mkEventWorld {
  ew_base : world;
  ew_queue : EventQueueImpl.t ContextCustomEventData;
  ew_sent : list ContextEmitCustomEventModel;
}.
Definition ew_set_base (b : world) (w : event_world) : event_world := mkEventWorld b (ew_queue w) (ew_sent w).

#[local] Instance event_connection : ConnectionWorld event_world := {|
  getMyUserId c := zoom ew_base ew_set_base (getMyUserId (ConnectionWorld := connection) c);
  getNowTimestamp := zoom ew_base ew_set_base (getNowTimestamp (ConnectionWorld := connection));
  on_rng A m := zoom ew_base ew_set_base (on_rng (ConnectionWorld := connection) m);
  generateId := zoom ew_base ew_set_base (generateId (ConnectionWorld := connection));
  keyCache w := keyCache (ConnectionWorld := connection) (ew_base w);
  set_keyCache c w := ew_set_base (set_keyCache (ConnectionWorld := connection) c (ew_base w)) w |}.
#[local] Instance event_connection_laws : ConnectionLaws event_world.
Proof. split; [done|]. intros A m w. exists (tw_rng (ew_base w)). cbn. unfold zoom. cbn. by destruct (m (tw_rng (ew_base w))). Qed.

#[local] Instance event_server : EventServer event_world := {|
  contextSendCustomEvent m := modify (fun w => mkEventWorld (ew_base w) (ew_queue w) (ew_sent w ++ [m])) |}.

#[local] Instance event_queue : EventWorld ContextCustomEventData event_world := {|
  eventQueue := ew_queue;
  set_eventQueue q w := mkEventWorld (ew_base w) q (ew_sent w);
  connectionId _ := 3 |}.

Definition quiet : event_world := mkEventWorld start [] [].

Lemma toy_identified : identified (W := event_world) (lit "me") bridge (lit "ctx").
Proof. split; try done; by eexists. Qed.

(** What the server makes of a request for one of its users. *)
Definition notification (m : ContextEmitCustomEventModel) (k : UserKey) : NotificationEvent :=
  mkNotification SERVER (lit "custom") (Some (ToyJson.JObject [(lit "id", ToyJson.JString (em_contextId m));
    (lit "eventData", em_data m); (lit "key", ToyJson.JString (uk_key k));
    (lit "author", ToyJson.JObject [(lit "id", ToyJson.JString (lit "me"));
       (lit "pub", ToyJson.JString (toBase58DER (getPublicKey sender)))])])) 1 now [[x07]].

(** The reader has subscribed for the channel. *)
Definition subscribed : Subscriber.t event_world :=
  Subscriber.mk quiet {[ [x07] := custom_channel (lit "chat") (lit "ctx") ]}.

Lemma event_delivered_witness : exists m w' k s',
  emitEvent (E := ToyEcc.ecc) sender bridge (lit "ctx") [joe; me] (lit "chat") (lit "hi") quiet = contextSendCustomEvent m w'
  /\ processNotificationEvent (E := ToyEcc.ecc) user verifier id (lit "custom") (notification m k) subscribed = (Ret tt, s')
  /\ ew_queue (Subscriber._world s')
     = [mkEvent (lit "contextCustom") (lit "context/ctx/chat") 3 [[x07]] now
          (mkCustomEvent (lit "ctx") (lit "me") (lit "hi") None 5)].
Proof.
  destruct (event_delivered (A := ContextCustomEventData) (W := event_world) (E := ToyEcc.ecc) id (lit "me") sender bridge (lit "ctx")
    [joe; me] (lit "chat") (lit "hi") quiet toy_identified) as (m & w' & Hr & HF); try done;
    [exact toy_users|by apply (bool_decide_unpack _); vm_compute..|].
  apply Forall2_cons_inv_l in HF as (k & ks & [_ Hread] & _ & _).
  eexists m, w', k, _. split; [exact Hr|].
  rewrite (Hread user verifier (notification m k) subscribed); [split; reflexivity|done|done| |reflexivity].
  eexists. split; reflexivity.
Defined.

(** An event in the old format, from a key of nobody's. *)
Definition forger : @PrivateKey _ ToyEcc.ecc := x0d.

Lemma old_event_forged_witness : exists text entry, read_event (E := ToyEcc.ecc) user (fun _ => Ret [false])
    (mkRawEvent (lit "ctx") (ToyJson.JString text) entry (mkUserIdentity (lit "me") (toBase58DER (getPublicKey forger))))
  = Ret (mkCustomEvent (lit "ctx") (lit "me") (lit "pay") None 1).
Proof.
  destruct (old_event_forged (E := ToyEcc.ecc) forger user (lit "pay") 5 eq_refl) as (text & entry & Hr).
  exists text, entry. by apply Hr.
Defined.

(** The event joe reads, and the same under another name. *)
Definition raw : RawCustomEvent :=
  match ew_sent (emitEvent (E := ToyEcc.ecc) sender bridge (lit "ctx") [joe; me] (lit "chat") (lit "hi") quiet).2 with
  | m :: _ => mkRawEvent (em_contextId m) (em_data m) (default [] (uk_key <$> head (em_users m)))
                (mkUserIdentity (lit "me") (toBase58DER (getPublicKey sender)))
  | [] => mkRawEvent [] (ToyJson.JInt 0) [] (mkUserIdentity [] [])
  end.

Lemma event_accepted_witness :
  read_event (E := ToyEcc.ecc) user verifier (mkRawEvent (lit "else") (rw_eventData raw) (rw_key raw)
    (mkUserIdentity (lit "ann") (ui_pub (rw_author raw))))
  = Ret (mkCustomEvent (lit "else") (lit "ann") (lit "hi") None 5).
Proof.
  assert (read_event (E := ToyEcc.ecc) user verifier raw = Ret (mkCustomEvent (lit "ctx") (lit "me") (lit "hi") None 5)) as Hr
    by (vm_compute; reflexivity).
  refine (proj2 (event_accepted (E := ToyEcc.ecc) user verifier raw _ Hr _ eq_refl) (lit "else") (lit "ann")).
  vm_compute. reflexivity.
Defined.
End ToyEvents.

Module ToyNotifications.
#[local] Existing Instances Toy.service Toy.laws ToyEcc.ecc ToyEcc.laws ToyJson.encodings
  ToyJson.encodings_laws ToyCodec.keys ToyCodec.keys_laws dio_codec dio_codec_laws
  key_dynamic map_order key_json key_json_laws key_codec key_codec_laws
  internal_codec internal_codec_laws v1_codec module_json module_json_laws toy_objects
  content_json content_json_laws message_json v2_codec v3_codec.

(** A queue beside the world of the threads. *)
Record watched (A : Type) := mkWatched { wa_base : world; wa_queue : EventQueueImpl.t A }.
Arguments mkWatched {A} _ _.
Arguments wa_base {A}.
Arguments wa_queue {A}.

Section Worlds.
Context {A : Type}.
Definition wa_set_base (b : world) (w : watched A) : watched A := mkWatched b (wa_queue w).
Definition at_base {B} (m : ST world B) : ST (watched A) B := zoom wa_base wa_set_base m.

#[export] Instance watched_connection : ConnectionWorld (watched A) := {|
  getMyUserId c := at_base (getMyUserId (ConnectionWorld := connection) c);
  getNowTimestamp := at_base (getNowTimestamp (ConnectionWorld := connection));
  on_rng B m := at_base (on_rng (ConnectionWorld := connection) m);
  generateId := at_base (generateId (ConnectionWorld := connection));
  keyCache w := keyCache (ConnectionWorld := connection) (wa_base w);
  set_keyCache c w := wa_set_base (set_keyCache (ConnectionWorld := connection) c (wa_base w)) w |}.
#[export] Instance watched_connection_laws : ConnectionLaws (watched A).
Proof. split; [done|]. intros B m w. exists (tw_rng (wa_base w)). cbn. unfold at_base, zoom. cbn. by destruct (m (tw_rng (wa_base w))). Qed.

#[export] Instance watched_queue : EventWorld A (watched A) := {|
  eventQueue := wa_queue; set_eventQueue q w := mkWatched (wa_base w) q; connectionId _ := 3 |}.
#[export] Instance watched_queue_laws : EventWorldLaws A (watched A).
Proof. by split. Qed.
End Worlds.
#[local] Existing Instances watched_connection watched_connection_laws watched_queue watched_queue_laws.

(** ** Threads *)

(** The thread that [sender] created, as a version of it is served to joe. *)
Definition created_model : CreateModel :=
  default (mkCreateModel [] [] [] [] (ToyJson.JInt 0) [] [] [] None) (tw_thread created_world).
Definition served_thread (version : Z) : ThreadInfo :=
  let i := serve (lit "joe") created_model in
  {| ct_id := ct_id i; ct_resourceId := ct_resourceId i; ct_contextId := ct_contextId i; ct_createDate := ct_createDate i;
     ct_creator := ct_creator i; ct_lastModificationDate := ct_lastModificationDate i; ct_lastModifier := ct_lastModifier i;
     ct_data := ct_data i; ct_keyId := ct_keyId i; ct_users := ct_users i; ct_managers := ct_managers i; ct_keys := ct_keys i;
     ct_version := version; ct_type := ct_type i; ct_policy := ct_policy i; ct_extra := ct_extra i |}.

(** A payload names the thread's version, or the message. *)
#[local] Instance thread_events : ThreadEventJson := {|
  thread_info v := n ← get_int v (lit "version"); mret (served_thread n);
  thread_deleted _ := Throw PocoException;
  thread_stats _ := Throw PocoException;
  thread_message v := _ ← get_string v (lit "id"); mret (serve_message sent, None);
  thread_deleted_message _ := Throw PocoException |}.
#[local] Instance thread_collections : CollectionJson := {| collection_changed _ := Throw PocoException |}.

Definition noticing (A : Type) (base : world) : watched A := mkWatched base [].
#[local] Instance thread_server : ContainerServer ThreadExtra (watched ThreadEvent) := {|
  server_create _ := mret (lit "thread");
  server_update _ := mret tt;
  server_delete _ := mret tt;
  server_get _ _ := mret (served_thread 1);
  server_list _ _ _ := mret ([], 0) |}.
#[local] Instance thread_messages : MessageServer (watched ThreadEvent) := {|
  threadMessageSend _ := mret (lit "message");
  threadMessageUpdate _ := mret tt;
  threadMessageDelete _ := mret tt;
  threadMessageGet _ := mret (serve_message sent);
  threadMessagesGet _ _ := throw (ServerError 0x6001) |}.

Definition about (v : Var) : NotificationEvent := mkNotification SERVER [] (Some v) 1 now [[x07]].
Definition subscribed {A} (base : world) : Subscriber.t (watched A) :=
  Subscriber.mk (noticing A base) {[ [x07] := lit "thread/update|contextId=ctx,containerType=thread" ]}.
Definition version_of (n : Z) : Var := ToyJson.JObject [(lit "version", ToyJson.JInt n)].

Definition process : bytes -> NotificationEvent -> ST (Subscriber.t (watched ThreadEvent)) unit :=
  ThreadEvents.ThreadEvents.processNotificationEvent (E := ToyEcc.ecc) user verifier id.

Lemma events_as_fetched_witness :
  process (lit "threadUpdated") (about (version_of 1)) (subscribed start)
  = outside (subscribed start) (shown id (lit "threadUpdated") (lit "thread") ThreadData (about (version_of 1))
      (ThreadApi.getThread (E := ToyEcc.ecc) user verifier (lit "thread") (noticing ThreadEvent start))).
Proof.
  refine (proj1 (ThreadEvents.ThreadEvents.events_as_fetched (E := ToyEcc.ecc) user verifier id (about (version_of 1))
    (subscribed start) (version_of 1) _ eq_refl (lit "threadUpdated")) (served_thread 1) (lit "thread") (or_intror eq_refl) _ _ _).
  - by eexists.
  - reflexivity.
  - reflexivity.
  - reflexivity.
Defined.

(** The second version is announced before the first. *)
Definition keys_at (version : Z) : ContainerKeyCache.CachedModuleKeys :=
  match ThreadApi.threadToModuleKeys (E := ToyEcc.ecc) (served_thread version) with
  | Ret k => convertModuleKeysToContainerKeyCacheFormat k version
  | Throw _ => convertModuleKeysToContainerKeyCacheFormat (keys_of user) 0
  end.

Lemma keys_readable n : n = 1 \/ n = 2 -> exists k,
  ThreadApi.threadToModuleKeys (E := ToyEcc.ecc) (served_thread n) = Ret k.
Proof.
  intros Hn. assert (match ThreadApi.threadToModuleKeys (E := ToyEcc.ecc) (served_thread n) with Ret _ => true | _ => false end
    = true) as Ht by (destruct Hn as [-> | ->]; vm_compute; reflexivity).
  destruct (ThreadApi.threadToModuleKeys (served_thread n)) as [k|]; [by exists k|discriminate].
Qed.

Lemma toy_decides n : n = 1 \/ n = 2 ->
  ThreadApi.validateDecryptAndConvertThreadDataToThread (E := ToyEcc.ecc) user verifier (served_thread n)
  <> Throw UndefinedBehaviour.
Proof. intros [-> | ->]; vm_compute; discriminate. Qed.

Lemma keys_version n : n = 1 \/ n = 2 -> ContainerKeyCache.moduleVersion (keys_at n) = n.
Proof. intros Hn. unfold keys_at. by destruct (keys_readable n Hn) as [k ->]. Qed.

Lemma toy_tells n : n = 1 \/ n = 2 -> ThreadEvents.ThreadEvents.tells (E := ToyEcc.ecc) user verifier (lit "thread")
  (about (version_of n)) (keys_at n).
Proof.
  intros Hn. exists (version_of n), (served_thread n). destruct (keys_readable n Hn) as [k Hk].
  exists k. unfold keys_at. rewrite Hk. repeat (split; [reflexivity|]).
  by apply toy_decides.
Qed.

Lemma notifications_converge_witness : exists s',
  for_each [about (version_of 2); about (version_of 1)] (process (lit "threadUpdated")) (subscribed start) = (Ret tt, s')
  /\ keyCache (Subscriber._world s') !! lit "thread" = Some (keys_at 2).
Proof.
  apply (ThreadEvents.ThreadEvents.notifications_converge (E := ToyEcc.ecc) user verifier id (lit "thread") _
    [keys_at 2; keys_at 1] [keys_at 2; keys_at 1] (keys_at 2)).
  - repeat constructor; apply toy_tells; auto.
  - intros n Hn. assert (ne_subscriptions n = [[x07]]) as ->; [|by eexists].
    apply elem_of_cons in Hn as [->|Hn]; [done|]. by apply list_elem_of_singleton in Hn as ->.
  - cbn. rewrite !keys_version by auto. by apply (bool_decide_unpack _); vm_compute.
  - done.
  - left.
  - intros x Hx. apply elem_of_cons in Hx as [->|Hx]; [done|]. apply list_elem_of_singleton in Hx as ->. by rewrite !keys_version by auto.
  - intros old Ho. exfalso. change (@None ContainerKeyCache.CachedModuleKeys = Some old) in Ho. discriminate.
Defined.

(** ** A file under another name *)
Import StoreApi FileApi ToyStores.
#[local] Existing Instances StoreKind store_codec v1_file_codec internal_file_codec file_json.

Definition other_file (file : ServerFile) : ServerFile :=
  StoreEvents.StoreEvents.elsewhere (lit "other") (lit "x" ++ sf_resourceId file) file.
Definition store_events (file : ServerFile) : StoreEventJson := {|
  store_info _ := Throw PocoException;
  store_deleted _ := Throw PocoException;
  store_stats _ := Throw PocoException;
  store_file _ := Ret (other_file file, None);
  store_file_updated _ := Throw PocoException;
  store_file_deleted _ := Throw PocoException |}.

#[local] Instance store_server : ContainerServer StoreExtra (watched StoreEvent) := {|
  server_create _ := mret (lit "store");
  server_update _ := mret tt;
  server_delete _ := mret tt;
  server_get _ _ := mret (store_for user);
  server_list _ _ _ := mret ([], 0) |}.

Lemma toy_file_keys file version : getFileDataStructureVersion file = Ret version -> exists w1,
  FilesApi.getFileDecryptionKeys (E := ToyEcc.ecc) file (noticing StoreEvent start) = (Ret (keys_of user), w1).
Proof.
  intros Hv. eexists. unfold FilesApi.getFileDecryptionKeys, moduleKeysOf, getModuleKeys, getNewModuleKeysAndUpdateCache,
    ModuleApi.getModuleKeysAndVersionFromServer. unfold_st. rewrite Hv.
  assert (forall i k v, ContainerKeyCache.getKeys i k v (keyCache (noticing StoreEvent start)) = None) as -> by reflexivity.
  cbn [server_get store_server]. unfold_st.
  change (assertDataIntegrity (store_for user)) with (assertStoreDataIntegrity (store_for user)). rewrite store_integrity.
  change (moduleToModuleKeys (store_for user)) with (storeToModuleKeys (store_for user)). rewrite store_keys. reflexivity.
Qed.

Lemma file_event_unbound_witness : exists file F w1,
  StoreEvents.StoreEvents.processNotificationEvent (E := ToyEcc.ecc) (H3 := store_events file) user verifier []
    id (lit "storeFileCreated") (about (ToyJson.JInt 0)) (subscribed start)
  = outside (subscribed start) (emit_built id (lit "storeFileCreated") (StoreEvents.StoreEvents.file_channel (sf_storeId file))
      (FileData (StoreEvents.StoreEvents.renamed (lit "other") F)) (about (ToyJson.JInt 0)) w1)
  /\ validateFileDataIntegrity (other_file file) (loc_resourceId location) = Ret (Some FileDataIntegrityException).
Proof.
  destruct toy_file as (file & m & Ho).
  destruct (toy_keys sender) as (K1 & _ & K3 & _). destruct (toy_keys user) as (U1 & U2 & U3 & _).
  destruct (Ho user verifier (store_for user) (keys_of user) (store_keys user) (toy_shares user) (eq_trans U1 (eq_sym K1)) U2
    (eq_trans U3 (eq_sym K3)) toy_accepts) as (Hver & Hv & Hd & _).
  destruct (toy_file_keys file _ Hver) as [w1 Hk].
  eexists file, _, w1.
  refine (StoreEvents.StoreEvents.file_event_unbound (E := ToyEcc.ecc) (H3 := store_events file) user verifier []
    id (about (ToyJson.JInt 0)) (subscribed start) (ToyJson.JInt 0) file (lit "other") (lit "x" ++ sf_resourceId file)
    (keys_of user) (loc_resourceId location) w1 _ _ eq_refl eq_refl Hver _ Hv Hk Hd eq_refl).
  - by eexists.
  - intros He. apply (f_equal length) in He. rewrite length_app in He. cbn in He. lia.
Defined.
End ToyNotifications.
